(* ===== verification/_CoqProject ===== *)
-Q . S2P
Prelude.v
Intf.v
Seq.v
Headers.v
Fifo.v
AckQueue.v
Pacing.v
EtranTcp.v
MtpTcp.v
RxSafety.v
TxSafety.v
Compare.v
Cc.v
Lrpc.v
Parse.v
Xdp.v
Ports.v
Csum.v
TcpOpts.v
TcpCtl.v
CtlInv.v
CtlSafe.v
CtlEvents.v
CtlExit.v
CtlRuns.v
CtlReach.v
Handshake.v
BufPool.v
MemPool.v
LibTcp.v
LibOwn.v
LibRx.v
LibStream.v
LibSafe.v
LibRuns.v
LibTx.v
LibCtl.v
LibSock.v
LibPoll.v
LibEpoll.v
LibCalls.v
LibWait.v
LibInterp.v
HomaDefs.v
HomaRpc.v
HomaRecv.v
HomaXdp.v
HomaLib.v
HomaEnd.v
HomaPacer.v
HomaCredit.v
HomaTimer.v
HomaCtl.v
HomaGrant.v
