(* ===== verification/Prelude.v ===== *)
(** * eTran with MTP: a verification development

    The program is a kernel transport.  XDP programs ([micro_kernel/eBPF]) do
    the work per packet; the microkernel ([micro_kernel/*.cc]) opens and
    closes connections and runs congestion control; applications link a
    socket library ([lib]) and talk to the microkernel over channels in shared
    memory ([common/base/lrpc.*]).  The data path exists twice: the handlers of
    eTran, and the event processors written for MTP, selected by [MTP_ON].
    Paths below are relative to [src/eTran].

    ** Files

    Base
    - [Prelude]: record update, 16-, 32- and 64-bit arithmetic on [Z] with the
      wrap written out, byte reads, tactics and hints, list lemmas.
    - [Intf]: the structures of [common/intf/intf_ebpf.h] and
      [eBPF/tcp/mtp_defs.h]; the state of one connection is [bpf_tcp_conn], its
      congestion-control entry [bpf_cc].

    Data path
    - [Seq]: the checks of sequence and acknowledgement numbers
      ([eBPF/tcp/common_funcs.h], [tcp.h]), specified as interval clipping.
    - [Headers]: checksum and header writers, parser of MTP events.
    - [Fifo], [AckQueue]: a queue as a type class with laws, and the ring of
      pending acknowledgements that implements it.
    - [Pacing]: the timing wheel of [eBPF/tcp/pacing.h].
    - [EtranTcp]: [tcp_rx_process] and [tcp_tx_process] without [MTP_ON].
    - [MtpTcp]: the event processors of [eBPF/tcp/mtp_tcp.h] and the branches
      under [MTP_ON] of the same two functions.
    - [RxSafety], [TxSafety]: the receiver and the senders over whole runs,
      against streams with unbounded positions.
    - [Compare]: the MTP handlers against those of eTran.
    - [Parse]: the header parsers on the bytes of a frame.
    - [Xdp]: the three programs of [eBPF/tcp/main.c], the neighbour cache and
      the entrance programs.

    Control path
    - [Cc]: DCTCP by window and by rate, TIMELY ([micro_kernel/cc.cc]), the
      retransmission timeout, the event processors of [ctrl_plane_mtp.h], and
      the work of [poll_tcp_cc_to] on one connection.
    - [Lrpc]: the channels, as functions and access by access.
    - [Ports]: the port pool and flow rules of [control_plane.cc].
    - [Csum]: the checksum routines of [common/tran_def/tcp.h].
    - [TcpOpts]: packets of the control plane, [parse_tcp_opts],
      [send_tcp_control], [send_tcp_reset].
    - [TcpCtl]: [micro_kernel/tcp.cc], all of it, in a state monad over the
      state [ctl]: the tables of connections and listeners, the handshake list,
      a heap for each kind of object, ports, applications and their threads,
      the eBPF maps the microkernel shares with the data path, and the log
      [k_out] of messages and packets handed over.  Reading an object that was
      deleted, a failing assertion and an index outside an array are
      [undefined].
    - [CtlInv], [CtlSafe], [CtlEvents], [CtlExit]: weakest preconditions for
      that monad, the invariant [wf], and its preservation by the building
      blocks, by packets, timers and commands, and by the exit of an
      application.
    - [CtlReach]: the microkernel as a transition system ([reach]) and what
      holds in its reachable states.
    - [CtlRuns]: runs that break what [admissible] asks for.
    - [Handshake]: client, server and the initial states of the data path put
      together.

    Memory
    - [BufPool]: the pool of packet buffers and the caches of the threads
      ([common/xskbp]), in a shared memory of words.
    - [MemPool]: the buddy allocator [common/base/mem_pool.*].

    Socket library
    - [LibTcp]: the data path of [lib/eTran_posix.*] and [lib/funcs_mtp.h] over
      the store of packet buffers ([t_umem]): reception, reads, segmentation,
      retransmission, release, window updates, the poll of the NIC; a monad
      over the context [tctx] of a thread in which reading outside a structure
      has no result.
    - [LibOwn], [LibSafe]: where every buffer is, and that it is in one place.
    - [LibRx], [LibStream]: the receive queue of a connection as a part of a
      stream, and the library together with the eBPF receiver.
    - [LibTx]: what is transmitted, acknowledged and sent again.
    - [LibRuns]: runs in which bytes or buffers are lost.
    - [LibCtl]: requests to the microkernel and its answers, and the polls; the
      state of the process is [proc].
    - [LibSock]: sockets and epoll ([lib/socket.cc]).
    - [LibPoll], [LibEpoll], [LibCalls], [LibWait]: what polls do to
      connections, the invariant of sockets, connections, epolls and their
      items, its preservation by every call, and [eTran_epoll_wait].
    - [LibInterp]: the interposed system calls ([lib/interpose.cc]).

    Homa
    - [HomaDefs]: headers, the state of an RPC, the bitmap of received packets.
    - [HomaRpc]: the handlers of [eBPF/homa/rpc.h] over the state [homa]: the
      table of RPCs, the acknowledgement queues of the peers, the grant list and
      the throttle list, with the objects of the kernel's allocator in a heap.
    - [HomaRecv]: the handlers of received packets on one message.
    - [HomaXdp]: [xdp_sock_prog] and [xdp_egress_prog] of [eBPF/homa/main.c].
    - [HomaLib]: the RPC library [lib/eTran_rpc.*].
    - [HomaEnd]: a request from the application of one host to that of the other.
    - [HomaPacer]: the timers that send throttled packets ([eBPF/homa/pacing.h]).
    - [HomaCredit]: the sender over any sequence of its programs and timers.
    - [HomaTimer]: the timeouts of the microkernel ([poll_homa_to] of [homa.cc]).
    - [HomaCtl]: its sockets ([homa_bind], [homa_close] and the exit of an
      application).
    - [HomaGrant]: the programs that choose and send grants ([xdp_gen_prog],
      [choose_rpc_to_grant_prog] and [complete_grant_*] of [main.c]).

    ** What is shown

    Data path.  The eTran receiver acknowledges only bytes it handed over, in
    place ([etran_acks_only_handed_over], [etran_rx_no_overwrite]).  The senders of
    both builds put the right bytes under every sequence number, through
    losses, timeouts and wrap ([etran_segments_carry_their_position],
    [mtp_segments_carry_their_position]).  The MTP processors do what eTran
    does for in-order data, new acknowledgements, timeouts and congestion
    control ([Compare], [mtp_cc_matches_etran]).  The acknowledgement ring is
    a FIFO of capacity 63 in both builds, whichever of the functions fills it;
    what a full ring does is part of the statement ([ack_queue_refines_fifo]).
    The wheel releases packets in order and not early, the channel is
    linearizable.  The XDP programs of both builds stay inside the frame, touch
    only the connection a packet belongs to, and send no packet of a connection
    that is not registered, those marked for the slow path apart.

    Congestion control.  Windows and rates stay in range without overflow, the
    rate controller depends on sums only, and a stalled eTran connection is
    retransmitted.

    Control path.  From every reachable state every admissible event runs to
    its end ([control_plane_never_faults]).  Objects have one owner and none
    is lost ([connections_owned]), congestion-control indexes are neither
    shared nor lost ([cc_indexes_conserved]), an exit takes exactly what
    belongs to the application ([exit_leaves_nothing]), ports are exclusive
    ([ports_exclusive]): all of it in runs of [admissible] events, see below.  The three packets of a handshake create, at both ends,
    entries that mirror each other and are initial states of the runs of
    [RxSafety] and [TxSafety] ([handshake_establishes]).  The option parser
    terminates and inverts the encoding; [do_csum] is the one's complement sum
    at every length and alignment.

    Memory.  A buffer is in one place at a time, and none is lost but those a
    thread leaves in the cache it frees, which are counted exactly
    ([buffers_exclusive], [buffers_conserved]); live allocations are disjoint
    ([mempool_disjoint]).

    Socket library.  In runs of the eBPF receiver of the eTran build and the
    library in which segments arrive in order, the application reads the stream of the sender,
    byte by byte, and can read all of it that has arrived ([stream_delivered]).
    What [conn_send] accepts is transmitted under the right positions, and
    again after an order to go back ([transmit_exact]).  The library never
    gives a buffer away twice ([library_buffers_exclusive]).  After any calls
    of a thread that keep the order [call_step] asks for (see below)
    [eTran_epoll_wait] reports every connected socket that has data
    ([epoll_no_lost_wakeup]).  Calls on descriptors of the system reach
    libc unchanged ([system_descriptors]).

    Homa.  Of a request each packet is passed to the application's socket once,
    whatever arrives, as long as the server keeps the RPC: an UNKNOWN or an
    acknowledgement ends it, and a late packet then starts it anew
    ([homa_request_once]).  Segmentation writes every byte of a message to one
    packet at its offset and chains the frames ([homa_segmentation]).  A
    request that goes through library and egress program of the sender, then
    program and library of the receiver, over a network that repeats and
    reorders, reaches the handler whole and once ([homa_request_intact]).  In
    any interleaving of library, network, pacer and transmit interrupt the
    sender sends nothing beyond the unscheduled bytes and the grants it has
    received, retransmissions apart ([homa_sender_keeps_credit]).  The receiver
    grants within the window and the message of an RPC, and accounts for every
    byte ([homa_grant_choice]); each grant it has chosen is sent once unless
    the frame cannot be cut or routed, and the one for the oldest RPC is for
    the RPC the search by birth finds ([homa_grant_round]); it raises the
    credit of the sender ([grant_frame_received]).  An RPC that hears nothing
    is asked for again ten times, each time for the first packets that are
    missing, and is then given up ([homa_silent_rpc]).  As long as applications
    close handles of their own, the sockets, the table of the programs and the
    pool of ports agree, and a bind and a close succeed exactly when they
    should ([homa_sockets_agree]).

    The theorems about runs of the definitions, without a number in their
    comment, show where the code does something else than it means to, or why
    a theorem needs a hypothesis.

    ** Bounds and fuel

    Integers are [Z] reduced to the width of the C type after every operation
    that can leave it ([u16], [u32], [u64], the operators of [u32_scope]).
    Loops with a constant bound in the source ([tw_extract], [tw_cb],
    [parse_ethhdr]) have that bound.  [parse_tcp_opts] has fuel for one more
    step than the options have bytes; that it suffices is
    [parse_tcp_opts_terminates].  [poll_handshake] has the length of the list
    it empties; no body appends to that list.  All other recursions are
    structural.

    ** What the model leaves out, and what it assumes

    - A handler is one step: the spin locks and mutexes around it are taken as
      effective, although the checked-in configuration empties [TCP_LOCK].
      [Lrpc], which uses no lock, is modelled access by access.
    - Clock reads, random numbers, answers of kernel helpers and of the NIC,
      the order in which hash tables are traversed and the contents of memory
      behind a packet are arguments, constrained by the class [env_good] or by
      hypotheses with an instance ([host_good]).
    - The timing wheel finds its per-CPU entries ([kick_tw], [tw_cb]): the keys
      are constants or indexes below the size of the map.
    - Memory allocation succeeds.  The element that [tcp_listener_accept] reads
      after [pop_front] is taken to hold its old contents.
    - [admissible] excludes the events that [CtlRuns] shows to be harmful:
      closing a socket in the handshake list, connecting a bound socket, equal
      handles.  It also asks that the listeners of a port belong to one
      application and that a SYN in a backlog is not of an open connection.
    - [next_tcp_cc_to_tsc], which only sets how long the loop sleeps, prints
      and statistics are not part of the state.
    - In the library, waiting for room in a ring and the locks of shared rings
      are left out, [SOCKET_MIGRATION] is off, and one thread is modelled with
      what the rest of the system does between its steps as an argument
      ([poll_env]).  A call that blocks takes the environments of its polls,
      and has no result when they do not suffice.
    - The red-black trees of the Homa programs are lists in the order of the
      comparison function; [bpf_rbtree_lower_bound] and the search by birth
      are functions of a patched kernel and parameters ([tree_search]).
      [homa_request_intact] is about packets as first transmitted: a
      retransmitted one lacks the end of its payload
      ([retransmission_loses_tail]).
    - [call_step] asks what the runs at the end of [LibWait] show to be needed:
      a descriptor is taken off all epolls before it is closed, and no data
      has arrived for an accepted connection when the accept returns.

    ** Not modelled

    - Of Homa: the load balancer ([ebpf_lb.h], [xdp_cpumap_prog]), which is not
      used: [LB] is not defined.
    - Process set-up, program loading, NIC queues, AF_XDP sockets
      ([micro_kernel.cc], [ebpf.cc], [nic.cc], [xsk_if.cc], [eTran_common.cc]):
      system calls whose effect is outside the program.
    - The example applications, the benchmarks and the bundled libraries
      ([libbpf], [libxdp]).
*)
From Stdlib Require Export ZArith Lia Bool Zify.
From stdpp Require Export base list numbers option.

Declare Scope u32_scope.
Delimit Scope u32_scope with u32.
Local Open Scope Z_scope.

(** ** Functional record update

    The C code updates structures in place, field by field.  [r <| f := v |>]
    is the structure [r] with field [f] replaced; the setter is derived from
    the eta expansion of the record, registered once per record as an [Eta]
    instance, so no setter is written by hand. *)
Class Eta (R : Type) := eta_of : R -> R.

Class Setter {R E : Type} (proj : R -> E) := setter_of : (E -> E) -> R -> R.

Definition upd_field {R E} (proj : R -> E) {S : Setter proj} (f : E -> E) (r : R) : R :=
  setter_of f r.

Ltac derive_setter :=
  lazymatch goal with
  | |- @Setter ?R ?E ?proj =>
    let inst := constr:(_ : Eta R) in
    let h := eval hnf in inst in
    exact (fun (f : E -> E) (r : R) => ltac:(
      let b := eval cbv beta in (h r) in
      let p := eval pattern (proj r) in b in
      lazymatch p with
      | ?g _ => let t := eval cbv beta in (g (f (proj r))) in exact t
      end))
  end.

#[export] Hint Extern 1 (Setter _) => derive_setter : typeclass_instances.

Notation "r <| proj := v |>" := (upd_field proj (fun _ => v) r)
  (at level 1, proj at level 1, v at level 99, left associativity,
   format "r  <| proj  :=  v |>").
Notation "r <| proj ::= f |>" := (upd_field proj f r)
  (at level 1, proj at level 1, f at level 99, left associativity,
   format "r  <| proj  ::=  f |>").

(** ** Machine integers

    An unsigned C integer of width w is a [Z] in [0, 2^w); an assignment or an
    arithmetic result is reduced by [u8], [u16], [u32] or [u64]. *)
Definition u8 (x : Z) : Z := x mod 256.
Definition u16 (x : Z) : Z := x mod 65536.
Definition u32 (x : Z) : Z := x mod 4294967296.
Definition u64 (x : Z) : Z := x mod 18446744073709551616.

(** Signed 32-bit conversion, as gcc and clang define it. *)
Definition s32 (x : Z) : Z := u32 (x + 2147483648) - 2147483648.

Definition in8 (x : Z) : Prop := 0 <= x < 256.
Definition in16 (x : Z) : Prop := 0 <= x < 65536.
Definition in32 (x : Z) : Prop := 0 <= x < 4294967296.
Definition in64 (x : Z) : Prop := 0 <= x < 18446744073709551616.

Notation "x ⊕ y" := (u32 (x + y)) (at level 50, left associativity) : u32_scope.
Notation "x ⊖ y" := (u32 (x - y)) (at level 50, left associativity) : u32_scope.
Notation "x ⊗ y" := (u32 (x * y)) (at level 40, left associativity) : u32_scope.

(** C truth value of an integer and integer of a boolean. *)
Definition nz (x : Z) : bool := negb (x =? 0).
Definition b2z (b : bool) : Z := if b then 1 else 0.

Definition UINT32_MAX : Z := 4294967295.
Definition UINT64_MAX : Z := 18446744073709551615.

Create HintDb etran.
Create Rewrite HintDb u32.

(** ** Arithmetic automation

    [lia] reduces a division or a modulo by a constant to its Euclidean
    equation, which decides the wrap-around of the machine integers. *)
Ltac Zify.zify_post_hook ::= Z.to_euclidean_division_equations.

Lemma u32_range x : in32 (u32 x).
Proof. unfold in32, u32. lia. Qed.

Lemma u16_range x : in16 (u16 x).
Proof. unfold in16, u16. lia. Qed.

Lemma u8_range x : in8 (u8 x).
Proof. unfold in8, u8. lia. Qed.

Lemma u64_range x : in64 (u64 x).
Proof. unfold in64, u64. lia. Qed.

Lemma u32_small x : in32 x -> u32 x = x.
Proof. apply Z.mod_small. Qed.

Lemma u16_small x : in16 x -> u16 x = x.
Proof. apply Z.mod_small. Qed.

Lemma u64_small x : in64 x -> u64 x = x.
Proof. apply Z.mod_small. Qed.

Lemma u32_u32 x : u32 (u32 x) = u32 x.
Proof. apply Z.mod_mod; lia. Qed.

Lemma u32_add_l x y : u32 (u32 x + y) = u32 (x + y).
Proof. apply Zplus_mod_idemp_l. Qed.

Lemma u32_add_r x y : u32 (x + u32 y) = u32 (x + y).
Proof. apply Zplus_mod_idemp_r. Qed.

Lemma u32_sub_l x y : u32 (u32 x - y) = u32 (x - y).
Proof. apply Zminus_mod_idemp_l. Qed.

Lemma u32_sub_r x y : u32 (x - u32 y) = u32 (x - y).
Proof. apply Zminus_mod_idemp_r. Qed.

Lemma u32_shift x k : u32 (x + k * 4294967296) = u32 x.
Proof. unfold u32. apply Z_mod_plus_full. Qed.

(** Two congruent integers that are close together are equal. *)
Lemma u32_inj_close x y :
  u32 x = u32 y -> -4294967296 < x - y < 4294967296 -> x = y.
Proof. unfold u32. lia. Qed.

#[export] Hint Resolve u32_range u16_range u8_range u64_range : etran.
#[export] Hint Rewrite u32_u32 u32_add_l u32_add_r u32_sub_l u32_sub_r : u32.

(** [u32_norm] pushes the reductions to the outside, as for a C expression
    whose intermediate results all have type [__u32]. *)
Ltac u32_norm := autorewrite with u32.

(** [mach] exposes every width definition to [lia]. *)
Ltac mach :=
  unfold u8, u16, u32, u64, s32, in8, in16, in32, in64, UINT32_MAX, UINT64_MAX in *.
Ltac mach_lia := mach; lia.

(** Case analysis on the boolean guards of the code. *)
Ltac split_if :=
  match goal with
  | |- context [if ?b then _ else _] => destruct b eqn:?
  | H : context [if ?b then _ else _] |- _ => destruct b eqn:?
  end.

(** Turn boolean comparisons in the context into propositions. *)
Ltac bool_props :=
  unfold nz in *;
  repeat match goal with
  | H : andb _ _ = true |- _ => apply andb_true_iff in H; destruct H
  | H : andb _ _ = false |- _ => apply andb_false_iff in H
  | H : orb _ _ = true |- _ => apply orb_true_iff in H
  | H : orb _ _ = false |- _ => apply orb_false_iff in H; destruct H
  | H : negb _ = true |- _ => apply negb_true_iff in H
  | H : negb _ = false |- _ => apply negb_false_iff in H
  | H : (_ =? _) = true |- _ => apply Z.eqb_eq in H
  | H : (_ =? _) = false |- _ => apply Z.eqb_neq in H
  | H : (_ <? _) = true |- _ => apply Z.ltb_lt in H
  | H : (_ <? _) = false |- _ => apply Z.ltb_ge in H
  | H : (_ <=? _) = true |- _ => apply Z.leb_le in H
  | H : (_ <=? _) = false |- _ => apply Z.leb_gt in H
  | H : (_ >? _) = true |- _ => rewrite Z.gtb_ltb in H
  | H : (_ >? _) = false |- _ => rewrite Z.gtb_ltb in H
  | H : (_ >=? _) = true |- _ => rewrite Z.geb_leb in H
  | H : (_ >=? _) = false |- _ => rewrite Z.geb_leb in H
  end.

(** [guards] is the usual opening of a proof about a handler: split every
    guard, turn it into a proposition, close what arithmetic closes. *)
Ltac guards := repeat split_if; bool_props.

Lemma nz_true x : nz x = true <-> x <> 0.
Proof. unfold nz. rewrite negb_true_iff, Z.eqb_neq. tauto. Qed.

Lemma nz_false x : nz x = false <-> x = 0.
Proof. unfold nz. rewrite negb_false_iff, Z.eqb_eq. tauto. Qed.

(** ** Position in a ring buffer

    The send buffer is a ring of [size] bytes; a position is advanced or moved
    back with one conditional subtraction or addition, never with a modulo. *)
Definition ring_adv (size pos n : Z) : Z :=
  let p := u32 (pos + n) in if p >=? size then u32 (p - size) else p.

Definition ring_back (size pos n : Z) : Z :=
  if pos >=? n then u32 (pos - n) else u32 (size - u32 (n - pos)).

Lemma ring_adv_mod size pos n a :
  0 < size <= 1073741824 -> 0 <= n <= size -> pos = a mod size ->
  ring_adv size pos n = (a + n) mod size.
Proof.
  intros Hs Hn ->. unfold ring_adv.
  pose proof (Z.mod_pos_bound a size ltac:(lia)) as Hb.
  pose proof (Z.div_mod a size ltac:(lia)) as Ha.
  rewrite u32_small by mach_lia.
  destruct (Z.geb_spec (a mod size + n) size).
  - rewrite u32_small by mach_lia.
    apply (Z.mod_unique_pos _ _ (a / size + 1)); lia.
  - apply (Z.mod_unique_pos _ _ (a / size)); lia.
Qed.

Lemma ring_back_mod size pos n a :
  0 < size <= 1073741824 -> 0 <= n <= size -> pos = a mod size ->
  ring_back size pos n = (a - n) mod size.
Proof.
  intros Hs Hn ->. unfold ring_back.
  pose proof (Z.mod_pos_bound a size ltac:(lia)) as Hb.
  pose proof (Z.div_mod a size ltac:(lia)) as Ha.
  destruct (Z.geb_spec (a mod size) n).
  - rewrite u32_small by mach_lia. apply (Z.mod_unique_pos _ _ (a / size)); lia.
  - rewrite (u32_small (n - _)) by mach_lia. rewrite u32_small by mach_lia.
    apply (Z.mod_unique_pos _ _ (a / size - 1)); lia.
Qed.
