(* ===== verification/Intf.v ===== *)
(** Data shared by the eBPF programs, the microkernel and the library:
    the structures of [common/intf/intf_ebpf.h], the MTP events of
    [eBPF/tcp/mtp_defs.h] and the acknowledgement slot of
    [eBPF/tcp/common_funcs.h], as records with the fields of the C
    structures, and the constants the data path uses. *)
From stdpp Require Import gmap.
From S2P Require Import Prelude.
Local Open Scope Z_scope.

(** ** Constants *)
Definition MAX_CPU : Z := 20.
Definition MAX_NIC_QUEUES : Z := 20.
Definition MAX_TCP_FLOWS : Z := 65536.
Definition POISON_32 : Z := 4294967295.
Definition POISON_16 : Z := 65535.
Definition FLAG_SYNC : Z := 1.
Definition FLAG_TO : Z := 2.
Definition FORCE_RX_BUMP_MASK : Z := 0x80000000.
Definition RECOVERY_MASK : Z := 0x80000000.
Definition OOO_SEGMENT_MASK : Z := 0x80000000.
Definition OOO_FIN_MASK : Z := 0x40000000.
Definition OOO_CLEAR_MASK : Z := 0x20000000.
Definition TCP_MAX_RTT : Z := 100000.
Definition TCP_WND_SCALE : Z := 3.
Definition TS_OPT_SIZE : Z := 12.
Definition SLOT_WIDTH_NS : Z := 500.
Definition LINK_BANDWIDTH : Z := 3125000000.
Definition MAX_BUCKETS : Z := 50000.
Definition NR_SLOT_PER_BKT : Z := 1024.
Definition NAPI_BATCH_SIZE : Z := 64.
Definition NULL_CONN : Z := 4294967295.
(** sizeof(struct ethhdr) + sizeof(struct iphdr) + sizeof(struct tcphdr) + TS_OPT_SIZE *)
Definition HEADERS_LEN : Z := 66.

(** Verdicts of an XDP program ([enum xdp_action]). *)
Inductive xdp_action : Type :=
| XDP_ABORTED | XDP_DROP | XDP_PASS | XDP_TX | XDP_REDIRECT.

#[export] Instance xdp_action_eq_dec : EqDecision xdp_action.
Proof. solve_decision. Defined.

(** [struct bpf_cc]: congestion-control state shared with the microkernel. *)
Record bpf_cc := mk_bpf_cc {
  cc_prev_desired_tx_ts : Z;
  cc_rate : Z;
  cc_cnt_tx_drops : Z;
  cc_cnt_rx_acks : Z;
  cc_cnt_rx_ack_bytes : Z;
  cc_cnt_rx_ecn_bytes : Z;
  cc_rtt_est : Z;
  cc_txp : Z;
  cc_ev_curr_tsc : Z
}.

#[export] Instance eta_bpf_cc : Eta bpf_cc := fun r => mk_bpf_cc
  (cc_prev_desired_tx_ts r) (cc_rate r) (cc_cnt_tx_drops r) (cc_cnt_rx_acks r)
  (cc_cnt_rx_ack_bytes r) (cc_cnt_rx_ecn_bytes r) (cc_rtt_est r) (cc_txp r)
  (cc_ev_curr_tsc r).

(** [struct bpf_tcp_conn]: TCP fast-path state of one connection. *)
Record bpf_tcp_conn := mk_bpf_tcp_conn {
  opaque_connection : Z;
  qid : Z;
  local_mac : list Z;
  remote_mac : list Z;
  local_ip : Z;
  remote_ip : Z;
  local_port : Z;
  remote_port : Z;
  rx_buf_size : Z;
  tx_buf_size : Z;
  rx_remote_avail : Z;
  rx_next_pos : Z;
  tx_pending : Z;
  tx_sent : Z;
  tx_next_pos : Z;
  tx_next_ts : Z;
  cc_idx : Z;
  ecn_enable : Z;
  rx_next_seq : Z;
  rx_ooo_start : Z;
  rx_ooo_len : Z;
  rx_dupack_cnt : Z;
  tx_next_seq : Z;
  rx_avail : Z;
  first_rto : Z;
  RTO : Z;
  SRTT : Z;
  RTTVAR : Z;
  last_ack : Z;
  conn_rate : Z;
  send_una : Z;
  data_end : Z;
  recv_next : Z;
  buf_curr_seq : Z;
  recv_init_seq : Z;
  qid2xsk : list Z
}.

#[export] Instance eta_bpf_tcp_conn : Eta bpf_tcp_conn := fun r => mk_bpf_tcp_conn
  (opaque_connection r) (qid r) (local_mac r) (remote_mac r) (local_ip r) (remote_ip r)
  (local_port r) (remote_port r) (rx_buf_size r) (tx_buf_size r) (rx_remote_avail r)
  (rx_next_pos r) (tx_pending r) (tx_sent r) (tx_next_pos r) (tx_next_ts r) (cc_idx r)
  (ecn_enable r) (rx_next_seq r) (rx_ooo_start r) (rx_ooo_len r) (rx_dupack_cnt r)
  (tx_next_seq r) (rx_avail r) (first_rto r) (RTO r) (SRTT r) (RTTVAR r) (last_ack r)
  (conn_rate r) (send_una r) (data_end r) (recv_next r) (buf_curr_seq r)
  (recv_init_seq r) (qid2xsk r).

(** [struct ebpf_flow_tuple]: key of [bpf_tcp_conn_map]. *)
Record ebpf_flow_tuple := mk_ebpf_flow_tuple {
  key_local_ip : Z;
  key_remote_ip : Z;
  key_local_port : Z;
  key_remote_port : Z
}.

#[export] Instance ebpf_flow_tuple_eq_dec : EqDecision ebpf_flow_tuple.
Proof. solve_decision. Defined.

#[export] Instance ebpf_flow_tuple_countable : Countable ebpf_flow_tuple.
Proof.
  refine (inj_countable'
    (fun k => (key_local_ip k, key_remote_ip k, key_local_port k, key_remote_port k))
    (fun t => match t with (a, b, c, d) => mk_ebpf_flow_tuple a b c d end) _).
  by intros [].
Defined.

(** The receive half [rx_t] of [struct meta_info]; [ack_bytes] and
    [go_back_pos] share storage in the C union and are the one field
    [mrx_ack_bytes] here. *)
Record rx_meta := mk_rx_meta {
  mrx_qid : Z;
  mrx_conn : Z;
  mrx_rx_pos : Z;
  mrx_poff : Z;
  mrx_plen : Z;
  mrx_xsk_budget_avail : Z;
  mrx_ack_bytes : Z;
  mrx_ooo_bump : Z
}.

#[export] Instance eta_rx_meta : Eta rx_meta := fun r => mk_rx_meta
  (mrx_qid r) (mrx_conn r) (mrx_rx_pos r) (mrx_poff r) (mrx_plen r)
  (mrx_xsk_budget_avail r) (mrx_ack_bytes r) (mrx_ooo_bump r).

(** The transmit half [tx_t] of [struct meta_info], written by the library
    and the microkernel and only read by the eBPF programs. *)
Record tx_meta := mk_tx_meta {
  mtx_slowpath : Z;
  mtx_flag : Z;
  mtx_rx_bump : Z;
  mtx_tx_pending : Z;
  mtx_tx_pos : Z;
  mtx_plen : Z
}.

(** [struct slow_path_info] *)
Record slow_path_info := mk_slow_path_info {
  sp_active : bool;
  sp_xsk_map_key : Z
}.

(** [struct TCPBP]: the packet blueprint of an MTP event processor. *)
Record TCPBP := mk_TCPBP {
  bp_src_port : Z;
  bp_dest_port : Z;
  bp_seq_num : Z;
  bp_ack_seq : Z;
  bp_is_ack : bool;
  bp_rwnd_size : Z;
  bp_desired_tx_ts : Z
}.

(** [struct interm_out]: scratch values handed from one event processor to
    the next.  The C variable is not initialised. *)
Record interm_out := mk_interm_out {
  io_change_cwnd : bool;
  io_skip_ack_eps : bool;
  io_trigger_ack : bool;
  io_drop : bool;
  io_skip_data_eps : bool;
  io_num_acked_bytes : Z;
  io_go_back_bytes : Z
}.

#[export] Instance eta_interm_out : Eta interm_out := fun r => mk_interm_out
  (io_change_cwnd r) (io_skip_ack_eps r) (io_trigger_ack r) (io_drop r)
  (io_skip_data_eps r) (io_num_acked_bytes r) (io_go_back_bytes r).

(** Event kinds ([NET_EVENT], [APP_EVENT], [TIMER_EVENT]). *)
Inductive event_type : Type := TIMER_EVENT | APP_EVENT | NET_EVENT.

(** [struct app_timer_event] *)
Record app_timer_event := mk_app_timer_event {
  ae_type : event_type;
  ae_data_size : Z;
  ae_timestamp : Z;
  ae_seq_num : Z
}.

#[export] Instance eta_app_timer_event : Eta app_timer_event := fun r =>
  mk_app_timer_event (ae_type r) (ae_data_size r) (ae_timestamp r) (ae_seq_num r).

(** Minor type of a network event ([NET_EVENT_ACK] = 1, [NET_EVENT_DATA] = 0). *)
Inductive net_minor : Type := NET_EVENT_DATA | NET_EVENT_ACK.

(** [struct net_event] *)
Record net_event := mk_net_event {
  ne_minor_type : net_minor;
  ne_ack_seq : Z;
  ne_rwnd_size : Z;
  ne_ts_ecr : Z;
  ne_data_len : Z;
  ne_ts_val : Z;
  ne_seq_num : Z;
  ne_ecn_mark : bool;
  ne_timestamp : Z
}.

#[export] Instance eta_net_event : Eta net_event := fun r => mk_net_event
  (ne_minor_type r) (ne_ack_seq r) (ne_rwnd_size r) (ne_ts_ecr r) (ne_data_len r)
  (ne_ts_val r) (ne_seq_num r) (ne_ecn_mark r) (ne_timestamp r).

(** [struct bpf_tcp_ack]: a pending acknowledgement. *)
Record bpf_tcp_ack := mk_bpf_tcp_ack {
  ack_local_ip : Z;
  ack_remote_ip : Z;
  ack_local_port : Z;
  ack_remote_port : Z;
  ack_seq : Z;
  ack_ack : Z;
  ack_rxwnd : Z;
  ack_ts_val : Z;
  ack_ts_ecr : Z;
  ack_ecn_flags : Z;
  ack_is_ack : Z
}.

#[export] Instance eta_bpf_tcp_ack : Eta bpf_tcp_ack := fun r => mk_bpf_tcp_ack
  (ack_local_ip r) (ack_remote_ip r) (ack_local_port r) (ack_remote_port r)
  (ack_seq r) (ack_ack r) (ack_rxwnd r) (ack_ts_val r) (ack_ts_ecr r)
  (ack_ecn_flags r) (ack_is_ack r).

(** [xsk_budget_avail] *)
Definition xsk_budget_avail (c : bpf_tcp_conn) : Z := rx_remote_avail c.

(** ** Width invariant of a connection *)
Record conn_wf (c : bpf_tcp_conn) : Prop := {
  wf_rx_remote_avail : in32 (rx_remote_avail c);
  wf_rx_next_pos : in32 (rx_next_pos c);
  wf_tx_pending : in32 (tx_pending c);
  wf_tx_sent : in32 (tx_sent c);
  wf_tx_next_pos : in32 (tx_next_pos c);
  wf_tx_next_ts : in32 (tx_next_ts c);
  wf_rx_next_seq : in32 (rx_next_seq c);
  wf_rx_ooo_start : in32 (rx_ooo_start c);
  wf_rx_ooo_len : in32 (rx_ooo_len c);
  wf_rx_dupack_cnt : in16 (rx_dupack_cnt c);
  wf_tx_next_seq : in32 (tx_next_seq c);
  wf_rx_avail : in32 (rx_avail c);
  wf_send_una : in32 (send_una c);
  wf_data_end : in32 (data_end c);
  wf_buf_curr_seq : in32 (buf_curr_seq c)
}.
