(* ===== verification/Seq.v ===== *)
(** Sequence-number arithmetic of the TCP fast path ([eBPF/tcp/common_funcs.h],
    [eBPF/tcp/tcp.h]): the circular range test, the validation and trimming of
    a received segment and the validation of an acknowledgement, and their
    refinement to intervals of unbounded stream positions. *)
From S2P Require Import Prelude Intf.
Local Open Scope Z_scope.
Local Open Scope u32_scope.

(** [seq_in_range]: membership of [seq] in the circular interval
    [start, end) or, when [excluding], (start, end]. *)
Definition seq_in_range (seq start end_ : Z) (excluding : bool) : bool :=
  if start <=? end_ then
    (if excluding then (seq >? start) && (seq <=? end_)
     else (seq >=? start) && (seq <? end_))
  else
    (if excluding then (seq >? start) || (seq <=? end_)
     else (seq >=? start) || (seq <? end_)).

(** The body shared by [tcp_valid_rxseq_ooo] and its copies in the MTP event
    processors: [None] is the result -1, [Some (trim_start, trim_end)] is 0. *)
Definition rxseq_ooo (exp_seq_first exp_seq_last pkt_seq_first pkt_seq_last : Z)
  : option (Z * Z) :=
  let valid := seq_in_range pkt_seq_first exp_seq_first exp_seq_last false
            || seq_in_range pkt_seq_last exp_seq_first exp_seq_last true
            || seq_in_range exp_seq_first pkt_seq_first pkt_seq_last false
            || seq_in_range exp_seq_last pkt_seq_first pkt_seq_last true in
  if negb valid then None else
  let trim_start :=
    if seq_in_range pkt_seq_first exp_seq_first exp_seq_last false then 0
    else exp_seq_first ⊖ pkt_seq_first in
  let trim_end :=
    if seq_in_range pkt_seq_last exp_seq_first exp_seq_last true then 0
    else pkt_seq_last ⊖ exp_seq_last in
  Some (trim_start, trim_end).

(** [tcp_valid_rxseq_ooo] *)
Definition tcp_valid_rxseq_ooo (c : bpf_tcp_conn) (seq payload_len : Z) : option (Z * Z) :=
  rxseq_ooo (rx_next_seq c) (rx_next_seq c ⊕ rx_avail c) seq (seq ⊕ payload_len).

(** [tcp_valid_rxseq]: the receive check of the build without [OOO_RECV]. *)
Definition tcp_valid_rxseq (c : bpf_tcp_conn) (seq payload_len : Z) : option (Z * Z) :=
  let exp_seq_first := rx_next_seq c in
  let exp_seq_last := rx_next_seq c ⊕ rx_avail c in
  let pkt_seq_first := seq in
  let pkt_seq_last := seq ⊕ payload_len in
  if (exp_seq_first <=? exp_seq_last) && (pkt_seq_first <=? pkt_seq_last) then
    if pkt_seq_last <? exp_seq_first then None else
    if pkt_seq_first >? exp_seq_first then None else
    Some (exp_seq_first ⊖ pkt_seq_first,
          if pkt_seq_last >? exp_seq_last then pkt_seq_last ⊖ exp_seq_last else 0)
  else if (pkt_seq_first <=? pkt_seq_last) && (exp_seq_first >? exp_seq_last) then
    if (pkt_seq_first >=? exp_seq_last) && (pkt_seq_last <? exp_seq_first) then None else
    if (pkt_seq_first >? exp_seq_first) || (pkt_seq_first <? exp_seq_last) then None else
    Some (exp_seq_first ⊖ pkt_seq_first, 0)
  else if (pkt_seq_first >? pkt_seq_last) && (exp_seq_first <=? exp_seq_last) then
    if pkt_seq_first >? exp_seq_first then None else
    Some (exp_seq_first ⊖ pkt_seq_first,
          if pkt_seq_last >? exp_seq_last then pkt_seq_last ⊖ exp_seq_last else 0)
  else
    if pkt_seq_first >? exp_seq_first then None else
    Some (exp_seq_first ⊖ pkt_seq_first,
          if pkt_seq_last >? exp_seq_last then pkt_seq_last ⊖ exp_seq_last else 0).

(** The acknowledgement check shared by [tcp_valid_rxack] and
    [fast_retr_rec_ep]: [Some bump] when [ack_seq] lies in the circular
    interval from the first to the last expected acknowledgement. *)
Definition rxack (exp_ack_first exp_ack_last ack_seq : Z) : option Z :=
  if exp_ack_first <=? exp_ack_last then
    if (ack_seq <? exp_ack_first) || (ack_seq >? exp_ack_last) then None
    else Some (ack_seq ⊖ exp_ack_first)
  else
    if (exp_ack_first >? ack_seq) && (ack_seq >? exp_ack_last) then None
    else Some (ack_seq ⊖ exp_ack_first).

(** [tcp_valid_rxack] *)
Definition tcp_valid_rxack (c : bpf_tcp_conn) (ack_seq : Z) : option Z :=
  rxack (tx_next_seq c ⊖ tx_sent c) (tx_next_seq c ⊕ tx_pending c) ack_seq.

(** ** Specification over stream positions

    A sequence number is the low 32 bits of a position in the byte stream of
    its direction; positions are unbounded integers. *)

(** The part of the segment [P, P+L) that lies in the window [R, R+W): how
    much to cut at each end, or nothing when they are disjoint. *)
Definition clip (R W P L : Z) : option (Z * Z) :=
  if Z.max P R <? Z.min (P + L) (R + W)
  then Some (Z.max 0 (R - P), Z.max 0 (P + L - (R + W)))
  else None.

(** Two positions are comparable through their sequence numbers when they are
    less than half the sequence space apart. *)
Definition near (R P : Z) : Prop := -2147483648 < P - R < 2147483648.

(** ** Circular ranges are offsets from their start *)

Lemma seq_in_range_offset seq start end_ (excluding : bool) :
  in32 seq -> in32 start -> in32 end_ ->
  seq_in_range seq start end_ excluding =
  if excluding then (0 <? seq ⊖ start) && (seq ⊖ start <=? end_ ⊖ start)
  else seq ⊖ start <? end_ ⊖ start.
Proof.
  intros H1 H2 H3. apply eq_true_iff_eq.
  unfold seq_in_range. destruct excluding; destruct (Z.leb_spec start end_);
    rewrite ?orb_true_iff, ?andb_true_iff, ?Z.gtb_ltb, ?Z.geb_leb,
      ?Z.ltb_lt, ?Z.leb_le; mach_lia.
Qed.

Lemma seq_in_range_pos A S E (excluding : bool) :
  seq_in_range (u32 A) (u32 S) (u32 E) excluding =
  if excluding then (0 <? u32 (A - S)) && (u32 (A - S) <=? u32 (E - S))
  else u32 (A - S) <? u32 (E - S).
Proof.
  rewrite seq_in_range_offset by apply u32_range. by u32_norm.
Qed.

(** [rxseq_ooo] on positions, every test written as an offset. *)
Lemma rxseq_ooo_offsets R W P L :
  rxseq_ooo (u32 R) (u32 (R + W)) (u32 P) (u32 (P + L)) =
  (let c1 := u32 (P - R) <? u32 W in
   let c2 := (0 <? u32 (P + L - R)) && (u32 (P + L - R) <=? u32 W) in
   let c3 := u32 (R - P) <? u32 L in
   let c4 := (0 <? u32 (R + W - P)) && (u32 (R + W - P) <=? u32 L) in
   if negb (c1 || c2 || c3 || c4) then None
   else Some (if c1 then 0 else u32 (R - P),
              if c2 then 0 else u32 (P + L - (R + W)))).
Proof.
  unfold rxseq_ooo. rewrite !seq_in_range_pos. u32_norm.
  by replace (R + W - R) with W by lia; replace (P + L - P) with L by lia.
Qed.

(** Evaluate [u32] on an argument known to be less than one period away from
    the range: the two candidate values, with the side that selects each. *)
Lemma u32_cases x : -4294967296 <= x < 4294967296 ->
  (0 <= x /\ u32 x = x) \/ (x < 0 /\ u32 x = x + 4294967296).
Proof. mach_lia. Qed.

(** For a non-empty segment and an open window, [rxseq_ooo] computes the
    clipping of the segment by the window. *)
Lemma rxseq_ooo_clip R W P L :
  near R P -> 0 < W <= 1073741824 -> 0 < L <= 1073741824 ->
  rxseq_ooo (u32 R) (u32 (R + W)) (u32 P) (u32 (P + L)) = clip R W P L.
Proof.
  intros Hn HW HL. rewrite rxseq_ooo_offsets. unfold near, clip in *.
  rewrite (u32_small W), (u32_small L) by mach_lia.
  destruct (u32_cases (P - R)) as [[? ->]|[? ->]]; [lia| |];
  destruct (u32_cases (P + L - R)) as [[? ->]|[? ->]]; try lia;
  destruct (u32_cases (R - P)) as [[? ->]|[? ->]]; try lia;
  destruct (u32_cases (R + W - P)) as [[? ->]|[? ->]]; try lia;
  destruct (u32_cases (P + L - (R + W))) as [[? ->]|[? ->]]; try lia;
  cbv zeta; repeat split_if; bool_props; try lia;
  try (f_equal; f_equal; lia); exfalso; lia.
Qed.

(** With a closed window only a segment that touches [R] is valid, and all of
    it is trimmed. *)
Lemma rxseq_ooo_closed R P L :
  near R P -> 0 < L <= 1073741824 ->
  rxseq_ooo (u32 R) (u32 (R + 0)) (u32 P) (u32 (P + L)) =
  if (P <=? R) && (R <=? P + L) then Some (R - P, P + L - R) else None.
Proof.
  intros Hn HL. rewrite rxseq_ooo_offsets. unfold near in *.
  change (u32 0) with 0. rewrite (u32_small L) by mach_lia.
  replace (R + 0 - P) with (R - P) by lia.
  replace (P + L - (R + 0)) with (P + L - R) by lia.
  destruct (u32_cases (P - R)) as [[? ->]|[? ->]]; [lia| |];
  destruct (u32_cases (P + L - R)) as [[? ->]|[? ->]]; try lia;
  destruct (u32_cases (R - P)) as [[? ->]|[? ->]]; try lia;
  cbv zeta; repeat split_if; bool_props; try lia;
  try (f_equal; f_equal; lia); exfalso; lia.
Qed.

(** An empty segment is valid exactly when it lies in the closed window
    [R, R+W] of a window that is open. *)
Lemma rxseq_ooo_empty R W P :
  near R P -> 0 <= W <= 1073741824 ->
  rxseq_ooo (u32 R) (u32 (R + W)) (u32 P) (u32 (P + 0)) =
  if (0 <? W) && (R <=? P) && (P <=? R + W)
  then Some (if P =? R + W then u32 (- W) else 0, if P =? R then u32 (- W) else 0)
  else None.
Proof.
  intros Hn HW. rewrite rxseq_ooo_offsets. unfold near in *.
  change (u32 0) with 0. rewrite (u32_small W) by mach_lia.
  replace (P + 0 - R) with (P - R) by lia.
  replace (P + 0 - (R + W)) with (P - (R + W)) by lia.
  destruct (u32_cases (P - R)) as [[? ->]|[? ->]]; [lia| |];
  destruct (u32_cases (R - P)) as [[? ->]|[? ->]]; try lia;
  destruct (u32_cases (R + W - P)) as [[? ->]|[? ->]]; try lia;
  destruct (u32_cases (P - (R + W))) as [[? ->]|[? ->]]; try lia;
  destruct (u32_cases (- W)) as [[? ->]|[? ->]]; try lia;
  cbv zeta; repeat split_if; bool_props; try lia;
  try (f_equal; f_equal; lia); exfalso; lia.
Qed.

(** What the caller does with the two trims: the payload that is left. *)
Definition trimmed_len (len trim_start trim_end : Z) : Z :=
  if len >=? trim_start ⊕ trim_end then u32 (len - (trim_start ⊕ trim_end)) else len.

(** Whatever the window and the segment, the payload left after trimming is a
    sub-interval of both; its first byte carries the trimmed sequence number. *)
Lemma rxseq_ooo_sound R W P L ts te :
  near R P -> 0 <= W <= 1073741824 -> 0 <= L <= 1073741824 ->
  rxseq_ooo (u32 R) (u32 (R + W)) (u32 P) (u32 (P + L)) = Some (ts, te) ->
  exists P', u32 (P + ts) = u32 P' /\
    0 <= trimmed_len L ts te <= L /\
    R <= P' <= R + W /\
    (0 < trimmed_len L ts te ->
       P <= P' /\ P' + trimmed_len L ts te <= P + L /\
       P' + trimmed_len L ts te <= R + W /\ P' <= Z.max P R).
Proof.
  intros Hn HW HL E. unfold trimmed_len.
  destruct (Z.eq_dec L 0) as [->|HL0].
  { rewrite rxseq_ooo_empty in E by (unfold near in *; lia).
    repeat split_if; simplify_eq; bool_props;
      try (exists P; rewrite ?Z.add_0_r; repeat split; mach_lia);
      exists R; repeat split; mach_lia. }
  destruct (Z.eq_dec W 0) as [->|HW0].
  { rewrite rxseq_ooo_closed in E by (unfold near in *; lia).
    destruct ((P <=? R) && (R <=? P + L)) eqn:Hv; simplify_eq; bool_props.
    exists R. rewrite (u32_small (R - P + (P + L - R))) by mach_lia.
    repeat split_if; bool_props; repeat split; try mach_lia; f_equal; lia. }
  rewrite rxseq_ooo_clip in E by (unfold near in *; lia).
  unfold clip in E. destruct (_ <? _) eqn:Hv in E; simplify_eq; bool_props.
  exists (Z.max P R).
  rewrite (u32_small (Z.max 0 (R - P) + _)) by (unfold near in *; mach_lia).
  repeat split_if; bool_props; repeat split; try mach_lia; f_equal; lia.
Qed.

(** ** Acknowledgements *)

Lemma rxack_offset exp_first exp_last ack :
  in32 exp_first -> in32 exp_last -> in32 ack ->
  rxack exp_first exp_last ack =
  if ack ⊖ exp_first <=? exp_last ⊖ exp_first then Some (ack ⊖ exp_first) else None.
Proof.
  intros H1 H2 H3. unfold rxack. repeat split_if; bool_props; try reflexivity; mach_lia.
Qed.

Lemma rxack_range exp_first exp_last ack b : rxack exp_first exp_last ack = Some b -> in32 b.
Proof.
  unfold rxack. intros E. repeat split_if; simplify_eq; apply u32_range.
Qed.

(** An acknowledgement is accepted exactly when it names a position between
    the oldest unacknowledged one and the last one expected, and then the
    bump is the distance to the former. *)
Lemma rxack_positions A0 A1 A :
  near A0 A -> 0 <= A1 - A0 <= 2147483648 ->
  rxack (u32 A0) (u32 A1) (u32 A) =
  if (A0 <=? A) && (A <=? A1) then Some (A - A0) else None.
Proof.
  unfold near. intros Hn Hl. rewrite rxack_offset by apply u32_range. u32_norm.
  rewrite (u32_small (A1 - A0)) by mach_lia.
  destruct (u32_cases (A - A0)) as [[? ->]|[? ->]]; [lia| |];
  repeat split_if; bool_props; try reflexivity; exfalso; lia.
Qed.

(** ** The checks of the code on stream positions *)

(** [tcp_valid_rxseq_ooo] is interval clipping: for a non-empty segment
    [P, P+L) less than half the sequence space away from the window
    [R, R+rx_avail), it accepts exactly the segments that overlap the window
    and returns how many bytes stick out on either side, also when sequence
    numbers wrap around 2^32 inside the segment or the window. *)
Theorem tcp_valid_rxseq_ooo_clips (c : bpf_tcp_conn) (R P L : Z)
  (Hnext : rx_next_seq c = u32 R) (Hnear : near R P)
  (Hwnd : 0 < rx_avail c <= 1073741824) (Hlen : 0 < L <= 1073741824) :
  tcp_valid_rxseq_ooo c (u32 P) L = clip R (rx_avail c) P L.
Proof.
  unfold tcp_valid_rxseq_ooo. rewrite Hnext, !u32_add_l. by apply rxseq_ooo_clip.
Qed.

(** A connection whose window straddles the wrap: positions 2^32 - 100 to
    2^32 + 411. *)
Definition conn_seq_wrap : bpf_tcp_conn :=
  mk_bpf_tcp_conn 7 0 [] [] 1 2 80 1024 524288 524288 524280 0 0 0 0 0 0 0
    4294967196 0 0 0 1 512 1 0 0 0 1 0 1 0 1 1 1 [].

Lemma tcp_valid_rxseq_ooo_clips_witness :
  tcp_valid_rxseq_ooo conn_seq_wrap (u32 4294967146) 700 = Some (50, 138).
Proof.
  rewrite (tcp_valid_rxseq_ooo_clips conn_seq_wrap 4294967196 4294967146 700 eq_refl
    ltac:(unfold near; lia) ltac:(cbn; lia) ltac:(lia)). reflexivity.
Defined.

(** [tcp_valid_rxack] accepts an acknowledgement exactly when it names a
    position between the oldest byte in flight and the last one submitted,
    and then bumps by the distance to the former, also across the wrap. *)
Theorem tcp_valid_rxack_positions (c : bpf_tcp_conn) (N A : Z)
  (Hnext : tx_next_seq c = u32 N) (Hsent : 0 <= tx_sent c) (Hpend : 0 <= tx_pending c)
  (Hspan : tx_sent c + tx_pending c <= 2147483648)
  (Hnear : near (N - tx_sent c) A) :
  tcp_valid_rxack c (u32 A) =
  if (N - tx_sent c <=? A) && (A <=? N + tx_pending c) then Some (A - (N - tx_sent c)) else None.
Proof.
  unfold tcp_valid_rxack. rewrite Hnext, u32_sub_l, u32_add_l.
  apply rxack_positions; [done|lia].
Qed.

Lemma tcp_valid_rxack_positions_witness :
  tcp_valid_rxack (mk_bpf_tcp_conn 7 0 [] [] 1 2 80 1024 524288 524288 524280 0 50 200 0 0 0 0
    1 0 0 0 100 512 1 0 0 0 1 0 1 0 1 1 1 []) (u32 4294967296) = Some 100.
Proof.
  rewrite (tcp_valid_rxack_positions (mk_bpf_tcp_conn 7 0 [] [] 1 2 80 1024 524288 524288 524280 0 50 200 0 0 0 0
    1 0 0 0 100 512 1 0 0 0 1 0 1 0 1 1 1 []) 4294967396 4294967296);
    try (cbn; unfold near; lia); reflexivity.
Defined.
