(* ===== verification/Headers.v ===== *)
(** Packet headers of the TCP fast path: byte order, the IPv4, TCP and
    timestamp-option headers as the programs see them in memory on a
    little-endian host, the header checksum of [eBPF/ebpf_utils.h], the header
    writers of [eBPF/tcp/common_funcs.h], [tcp.h] and [mtp_tcp.h] and the
    packet parser [parse_pkt_to_event]. *)
From S2P Require Import Prelude Intf.
Local Open Scope Z_scope.
Local Open Scope u32_scope.

(** ** Byte order *)
Definition bpf_htons (x : Z) : Z := (x mod 256) * 256 + (x / 256) mod 256.
Definition bpf_ntohs (x : Z) : Z := bpf_htons x.

Definition bpf_htonl (x : Z) : Z :=
  (x mod 256) * 16777216 + ((x / 256) mod 256) * 65536
  + ((x / 65536) mod 256) * 256 + (x / 16777216) mod 256.
Definition bpf_ntohl (x : Z) : Z := bpf_htonl x.

(** ** Headers *)

(** [struct iphdr]; multi-byte fields hold the raw (network order) value. *)
Record iphdr := mk_iphdr {
  ip_ihl : Z;
  ip_version : Z;
  ip_tos : Z;
  ip_tot_len : Z;
  ip_id : Z;
  ip_frag_off : Z;
  ip_ttl : Z;
  ip_protocol : Z;
  ip_check : Z;
  ip_saddr : Z;
  ip_daddr : Z
}.

#[export] Instance eta_iphdr : Eta iphdr := fun r => mk_iphdr
  (ip_ihl r) (ip_version r) (ip_tos r) (ip_tot_len r) (ip_id r) (ip_frag_off r)
  (ip_ttl r) (ip_protocol r) (ip_check r) (ip_saddr r) (ip_daddr r).

(** [struct tcphdr] *)
Record tcphdr := mk_tcphdr {
  th_source : Z;
  th_dest : Z;
  th_seq : Z;
  th_ack_seq : Z;
  th_res1 : Z;
  th_doff : Z;
  th_fin : bool;
  th_syn : bool;
  th_rst : bool;
  th_psh : bool;
  th_ack : bool;
  th_urg : bool;
  th_ece : bool;
  th_cwr : bool;
  th_window : Z;
  th_check : Z;
  th_urg_ptr : Z
}.

#[export] Instance eta_tcphdr : Eta tcphdr := fun r => mk_tcphdr
  (th_source r) (th_dest r) (th_seq r) (th_ack_seq r) (th_res1 r) (th_doff r)
  (th_fin r) (th_syn r) (th_rst r) (th_psh r) (th_ack r) (th_urg r) (th_ece r)
  (th_cwr r) (th_window r) (th_check r) (th_urg_ptr r).

(** [struct tcp_timestamp_opt] *)
Record tcp_timestamp_opt := mk_tcp_timestamp_opt {
  ts_kind : Z;
  ts_length : Z;
  ts_ts_val : Z;
  ts_ts_ecr : Z
}.

#[export] Instance eta_tcp_timestamp_opt : Eta tcp_timestamp_opt := fun r =>
  mk_tcp_timestamp_opt (ts_kind r) (ts_length r) (ts_ts_val r) (ts_ts_ecr r).

(** A frame: its Ethernet addresses, its three headers and the number of
    bytes between [data] and [data_end]. *)
Record frame := mk_frame {
  eth_dest : list Z;
  eth_source : list Z;
  eth_proto : Z;
  f_ip : iphdr;
  f_tcp : tcphdr;
  f_ts : tcp_timestamp_opt;
  f_len : Z
}.

#[export] Instance eta_frame : Eta frame := fun r => mk_frame
  (eth_dest r) (eth_source r) (eth_proto r) (f_ip r) (f_tcp r) (f_ts r) (f_len r).

Definition ETH_P_IP : Z := 0x0800.
Definition IPPROTO_TCP : Z := 6.
Definition IPTOS_ECN_ECT0 : Z := 2.
Definition IPTOS_ECN_CE : Z := 3.
(** Flag bits of [linux/tcp.h] as a little-endian host reads them. *)
Definition TCP_FLAG_CWR : Z := 32768.
Definition TCP_FLAG_ECE : Z := 16384.
Definition TCP_FLAG_URG : Z := 8192.
Definition TCP_FLAG_ACK : Z := 4096.
Definition TCP_FLAG_PSH : Z := 2048.
Definition TCP_FLAG_RST : Z := 1024.
Definition TCP_FLAG_SYN : Z := 512.
Definition TCP_FLAG_FIN : Z := 256.
(** The [tcp_info] option bit of [linux/tcp.h]. *)
Definition TCPI_OPT_TIMESTAMPS : Z := 1.

(** ** IPv4 header checksum *)

(** [csum_fold_helper]: at most four folds, then the 16-bit complement. *)
Definition csum_fold_step (csum : Z) : Z :=
  if nz (Z.shiftr csum 16)
  then u64 (Z.land csum 0xffff + Z.shiftr csum 16) else csum.

Definition csum_fold_helper (csum : Z) : Z :=
  let csum := csum_fold_step csum in
  let csum := csum_fold_step csum in
  let csum := csum_fold_step csum in
  let csum := csum_fold_step csum in
  u16 (Z.lnot csum).

(** The ten 16-bit words of an IPv4 header without options. *)
Definition ip_words (iph : iphdr) : list Z :=
  [ ip_version iph * 16 + ip_ihl iph + 256 * ip_tos iph;
    ip_tot_len iph;
    ip_id iph;
    ip_frag_off iph;
    ip_ttl iph + 256 * ip_protocol iph;
    ip_check iph;
    ip_saddr iph mod 65536; ip_saddr iph / 65536;
    ip_daddr iph mod 65536; ip_daddr iph / 65536 ].

(** [ipv4_csum_inline] *)
Definition ipv4_csum_inline (iph : iphdr) (csum : Z) : Z :=
  csum_fold_helper (fold_left (fun s w => u64 (s + w)) (ip_words iph) csum).

(** ** Header writers *)

(** [fill_ip_hdr] *)
Definition fill_ip_hdr (iph : iphdr) (payload_len : Z) (ece : bool) : iphdr :=
  let iph := iph <| ip_ihl := 5 |> in
  let iph := iph <| ip_version := 4 |> in
  let iph := iph <| ip_tos := if ece then IPTOS_ECN_ECT0 else 0 |> in
  let iph := iph <| ip_tot_len := bpf_htons (u16 (20 + 20 + TS_OPT_SIZE + payload_len)) |> in
  let iph := iph <| ip_id := bpf_htons 0 |> in
  let iph := iph <| ip_frag_off := 0 |> in
  let iph := iph <| ip_ttl := 0xff |> in
  let iph := iph <| ip_protocol := IPPROTO_TCP |> in
  let csum := ipv4_csum_inline iph 0 in
  iph <| ip_check := u16 csum |>.

(** [set_tcp_flag] *)
Definition set_tcp_flag (tcph : tcphdr) (len flags : Z) : tcphdr :=
  let tcph := tcph <| th_res1 := 0 |> in
  let tcph := tcph <| th_doff := len |> in
  let tcph := tcph <| th_fin := nz (Z.land flags TCP_FLAG_FIN) |> in
  let tcph := tcph <| th_syn := nz (Z.land flags TCP_FLAG_SYN) |> in
  let tcph := tcph <| th_rst := nz (Z.land flags TCP_FLAG_RST) |> in
  let tcph := tcph <| th_psh := nz (Z.land flags TCP_FLAG_PSH) |> in
  let tcph := tcph <| th_ack := nz (Z.land flags TCP_FLAG_ACK) |> in
  let tcph := tcph <| th_urg := nz (Z.land flags TCP_FLAG_URG) |> in
  let tcph := tcph <| th_ece := nz (Z.land flags TCP_FLAG_ECE) |> in
  tcph <| th_cwr := nz (Z.land flags TCP_FLAG_CWR) |>.

(** [ts_opt + 1 > data_end]: Ethernet, IPv4 and TCP headers (54 bytes) and
    the 10-byte packed option do not fit. *)
Definition ts_opt_overrun (f : frame) : bool := 64 >? f_len f.

(** [fill_tcp_hdr] *)
Definition fill_tcp_hdr (f : frame) (c : bpf_tcp_conn) (tgt_ts flags : Z) : frame :=
  let tx_seq := tx_next_seq c in
  let rx_wnd := rx_avail c in
  let ack_seq := rx_next_seq c in
  let ts_ecr := tx_next_ts c in
  if ts_opt_overrun f then f else
  let len := 5 + TS_OPT_SIZE / 4 in
  let tcph := f_tcp f in
  let tcph := tcph <| th_seq := bpf_htonl tx_seq |> in
  let tcph := tcph <| th_ack_seq := bpf_htonl ack_seq |> in
  let tcph := set_tcp_flag tcph len flags in
  let ts_opt := f_ts f in
  let ts_opt := ts_opt <| ts_kind := TCPI_OPT_TIMESTAMPS |> in
  let ts_opt := ts_opt <| ts_length := 10 / 4 |> in
  let ts_opt := ts_opt <| ts_ts_val := bpf_htonl (u32 tgt_ts) |> in
  let ts_opt := ts_opt <| ts_ts_ecr := bpf_htonl ts_ecr |> in
  let tcph := tcph <| th_window := Z.shiftr (bpf_htons (u16 rx_wnd)) TCP_WND_SCALE |> in
  let tcph := tcph <| th_urg_ptr := 0 |> in
  let tcph := tcph <| th_check := 0 |> in
  f <| f_tcp := tcph |> <| f_ts := ts_opt |>.

(** [mtp_fill_tcp_hdr] *)
Definition mtp_fill_tcp_hdr (f : frame) (c : bpf_tcp_conn) (flags : Z) (bp : TCPBP) : frame :=
  let tx_seq := bp_seq_num bp in
  let rx_wnd := bp_rwnd_size bp in
  let ack_seq := bp_ack_seq bp in
  let ts_ecr := tx_next_ts c in
  if ts_opt_overrun f then f else
  let len := 5 + TS_OPT_SIZE / 4 in
  let tcph := f_tcp f in
  let tcph := tcph <| th_seq := bpf_htonl tx_seq |> in
  let tcph := tcph <| th_ack_seq := bpf_htonl ack_seq |> in
  let tcph := set_tcp_flag tcph len flags in
  let tcph := tcph <| th_ack := bp_is_ack bp |> in
  let ts_opt := f_ts f in
  let ts_opt := ts_opt <| ts_kind := TCPI_OPT_TIMESTAMPS |> in
  let ts_opt := ts_opt <| ts_length := 10 / 4 |> in
  let ts_opt := ts_opt <| ts_ts_val := bpf_htonl (bp_desired_tx_ts bp) |> in
  let ts_opt := ts_opt <| ts_ts_ecr := bpf_htonl ts_ecr |> in
  let tcph := tcph <| th_window := Z.shiftr (bpf_htons (u16 rx_wnd)) TCP_WND_SCALE |> in
  let tcph := tcph <| th_urg_ptr := 0 |> in
  let tcph := tcph <| th_check := 0 |> in
  f <| f_tcp := tcph |> <| f_ts := ts_opt |>.

(** ** Header readers *)

(** [parse_pkt_to_event]; the timestamp field of the event is set later. *)
Definition parse_pkt_to_event (f : frame) : net_event := {|
  ne_minor_type := if th_ack (f_tcp f) then NET_EVENT_ACK else NET_EVENT_DATA;
  ne_ack_seq := bpf_ntohl (th_ack_seq (f_tcp f));
  ne_rwnd_size := bpf_ntohs (th_window (f_tcp f));
  ne_seq_num := bpf_ntohl (th_seq (f_tcp f));
  ne_data_len := u32 (bpf_ntohs (ip_tot_len (f_ip f)) - (20 + 20 + TS_OPT_SIZE));
  ne_ecn_mark := th_ece (f_tcp f);
  ne_ts_ecr := bpf_ntohl (ts_ts_ecr (f_ts f));
  ne_ts_val := bpf_ntohl (ts_ts_val (f_ts f));
  ne_timestamp := 0 |}.

(** [is_tcp_syn], [is_tcp_syn_ack], [is_tcp_rst] *)
Definition is_tcp_syn (t : tcphdr) : bool := th_syn t && negb (th_ack t).
Definition is_tcp_syn_ack (t : tcphdr) : bool := th_syn t && th_ack t.
Definition is_tcp_rst (t : tcphdr) : bool := th_rst t.

(** ** Byte order round trips *)

Lemma bpf_htons_range x : in16 (bpf_htons x).
Proof. unfold bpf_htons. mach_lia. Qed.

Lemma bpf_ntohs_htons x : in16 x -> bpf_ntohs (bpf_htons x) = x.
Proof. unfold bpf_ntohs, bpf_htons. mach_lia. Qed.

Lemma bpf_htonl_range x : in32 (bpf_htonl x).
Proof. unfold bpf_htonl. mach_lia. Qed.

Lemma bpf_ntohl_htonl x : in32 x -> bpf_ntohl (bpf_htonl x) = x.
Proof.
  unfold bpf_ntohl, bpf_htonl. intros Hx.
  set (a := x mod 256). set (b := (x / 256) mod 256).
  set (c := (x / 65536) mod 256). set (d := (x / 16777216) mod 256).
  assert (0 <= a < 256 /\ 0 <= b < 256 /\ 0 <= c < 256 /\ 0 <= d < 256
    /\ x = d * 16777216 + c * 65536 + b * 256 + a) as (?&?&?&?&?)
    by (subst a b c d; mach_lia).
  clearbody a b c d. lia.
Qed.

Create Rewrite HintDb hdr.
#[export] Hint Rewrite bpf_ntohs_htons bpf_ntohl_htonl using (auto with etran; mach_lia) : hdr.

(** ** The IPv4 checksum *)

Definition fold4 (s : Z) : Z :=
  csum_fold_step (csum_fold_step (csum_fold_step (csum_fold_step s))).

Lemma csum_fold_step_div s : 0 <= s < 4294967296 ->
  csum_fold_step s = if 65536 <=? s then s mod 65536 + s / 65536 else s.
Proof.
  intros H. unfold csum_fold_step.
  rewrite Z.shiftr_div_pow2 by lia. change (2 ^ 16) with 65536.
  change 0xffff with (Z.ones 16). rewrite Z.land_ones by lia. change (2 ^ 16) with 65536.
  unfold nz. destruct (Z.eqb_spec (s / 65536) 0), (Z.leb_spec 65536 s); cbn; try lia.
  by rewrite u64_small by mach_lia.
Qed.

(** Folding preserves the value modulo 65535, reaches 16 bits and keeps a
    positive value positive: two folds suffice for a ten-word sum. *)
Lemma fold4_spec s : 0 < s < 1048576 ->
  0 < fold4 s <= 65535 /\ exists k, s = fold4 s + k * 65535.
Proof.
  intros H. unfold fold4.
  assert (Hstep : forall t, 0 < t < 1048576 ->
    0 < csum_fold_step t <= t /\ (65536 <= t -> csum_fold_step t <= 65535 + 15) /\
    (t <= 65535 + 15 -> csum_fold_step t <= 65535) /\
    exists k, t = csum_fold_step t + k * 65535).
  { intros t Ht. rewrite csum_fold_step_div by lia.
    destruct (Z.leb_spec 65536 t).
    - repeat split; try lia. exists (t / 65536). lia.
    - repeat split; try lia. exists 0. lia. }
  destruct (Hstep s H) as (H1 & H1' & H1'' & k1 & E1).
  destruct (Hstep (csum_fold_step s) ltac:(lia)) as (H2 & H2' & H2'' & k2 & E2).
  set (s2 := csum_fold_step (csum_fold_step s)) in *.
  destruct (Hstep s2 ltac:(lia)) as (H3 & H3' & H3'' & k3 & E3).
  destruct (Hstep (csum_fold_step s2) ltac:(lia)) as (H4 & H4' & H4'' & k4 & E4).
  split; [lia|]. exists (k1 + k2 + k3 + k4). lia.
Qed.

Lemma csum_fold_helper_fold4 s : 0 < s < 1048576 ->
  csum_fold_helper s = 65535 - fold4 s.
Proof.
  intros H. destruct (fold4_spec s H) as [Hf _].
  change (csum_fold_helper s) with (u16 (Z.lnot (fold4 s))).
  unfold Z.lnot. mach_lia.
Qed.

(** Adding the complement of the folded sum makes the sum fold to all ones. *)
Lemma csum_complement s : 0 < s < 983040 ->
  csum_fold_helper (s + csum_fold_helper s) = 0.
Proof.
  intros H. destruct (fold4_spec s ltac:(lia)) as [Hf [k Hk]].
  rewrite (csum_fold_helper_fold4 s) by lia.
  rewrite csum_fold_helper_fold4 by lia.
  destruct (fold4_spec (s + (65535 - fold4 s)) ltac:(lia)) as [Hf' [k' Hk']].
  lia.
Qed.

Record iphdr_wf (h : iphdr) : Prop := {
  wf_ip_check : in16 (ip_check h);
  wf_ip_saddr : in32 (ip_saddr h);
  wf_ip_daddr : in32 (ip_daddr h)
}.

Definition ip_sum (h : iphdr) : Z := fold_left Z.add (ip_words h) 0.

Lemma fold_u64_exact l : Forall in16 l -> forall s, 0 <= s ->
  s + 65536 * Z.of_nat (length l) < 18446744073709551616 ->
  fold_left (fun s w => u64 (s + w)) l s = fold_left Z.add l s.
Proof.
  induction 1 as [|w l Hw Hl IH]; intros s H1 H2; [done|]. cbn [fold_left length] in *.
  rewrite u64_small by mach_lia. apply IH; mach_lia.
Qed.

Lemma ipv4_csum_inline_sum h : Forall in16 (ip_words h) ->
  ipv4_csum_inline h 0 = csum_fold_helper (ip_sum h).
Proof.
  intros Hw. unfold ipv4_csum_inline, ip_sum. f_equal.
  apply fold_u64_exact; [done|lia|cbn; lia].
Qed.

(** The header as [fill_ip_hdr] sums it: everything set but the checksum. *)
Definition ip_filled (iph : iphdr) (n : Z) (e : bool) : iphdr :=
  mk_iphdr 5 4 (if e then IPTOS_ECN_ECT0 else 0)
    (bpf_htons (u16 (20 + 20 + TS_OPT_SIZE + n))) (bpf_htons 0) 0 0xff IPPROTO_TCP
    (ip_check iph) (ip_saddr iph) (ip_daddr iph).

Lemma fill_ip_hdr_filled iph n e :
  fill_ip_hdr iph n e =
  (ip_filled iph n e) <| ip_check := u16 (ipv4_csum_inline (ip_filled iph n e) 0) |>.
Proof. reflexivity. Qed.

Lemma ip_filled_words iph n e : iphdr_wf iph -> Forall in16 (ip_words (ip_filled iph n e)).
Proof.
  intros [H1 H2 H3]. pose proof (bpf_htons_range (u16 (20 + 20 + TS_OPT_SIZE + n))).
  unfold ip_words, ip_filled. cbn [ip_version ip_ihl ip_tos ip_tot_len ip_id ip_frag_off
    ip_ttl ip_protocol ip_check ip_saddr ip_daddr].
  repeat constructor; try (destruct e; unfold IPTOS_ECN_ECT0, IPPROTO_TCP, bpf_htons);
    mach; lia.
Qed.

Lemma ip_sum_set_check g k : ip_sum (g <| ip_check := k |>) = ip_sum g - ip_check g + k.
Proof. destruct g. unfold ip_sum, ip_words. cbn [fold_left ip_check]. cbn. lia. Qed.

Lemma fill_ip_hdr_verifies iph n e : iphdr_wf iph -> ip_check iph = 0 ->
  ipv4_csum_inline (fill_ip_hdr iph n e) 0 = 0.
Proof.
  intros Hwf H0. pose proof (ip_filled_words iph n e Hwf) as HF.
  rewrite fill_ip_hdr_filled. set (g := ip_filled iph n e) in *.
  assert (Hs : 0 < ip_sum g < 983040).
  { unfold ip_sum, ip_words in *. rewrite !Forall_cons_iff in HF.
    destruct HF as (?&?&?&?&?&?&?&?&?&?&_).
    assert (ip_version g = 4 /\ 0 <= ip_tos g) as [? ?] by (destruct e; done).
    assert (ip_ihl g = 5) by done.
    cbn [fold_left]. mach. lia. }
  assert (Hc : in16 (csum_fold_helper (ip_sum g))) by apply u16_range.
  rewrite (ipv4_csum_inline_sum g HF), (u16_small _ Hc).
  rewrite ipv4_csum_inline_sum.
  - rewrite ip_sum_set_check. replace (ip_check g) with 0 by (symmetry; exact H0).
    rewrite Z.sub_0_r. by apply csum_complement.
  - unfold ip_words in *. rewrite !Forall_cons_iff in *. cbn in *.
    destruct HF as (?&?&?&?&?&?&?&?&?&?&?). repeat split; try done; mach_lia.
Qed.

(** The IPv4 header that [fill_ip_hdr] writes passes the receiver's
    checksum test (the one's complement sum of its ten words, checksum
    included, folds to all ones, so its complement is 0), whatever the
    addresses, payload length and ECN mark, provided the checksum field was
    zero in the frame before the call. *)
Theorem fill_ip_hdr_checksum (iph : iphdr) (payload_len : Z) (ece : bool)
  (Hwf : iphdr_wf iph) (Hzero : ip_check iph = 0) :
  ipv4_csum_inline (fill_ip_hdr iph payload_len ece) 0 = 0.
Proof. by apply fill_ip_hdr_verifies. Qed.

Definition ip_blank : iphdr := mk_iphdr 0 0 0 0 0 0 0 0 0 0x0106a8c0 0x0206a8c0.

Lemma fill_ip_hdr_checksum_witness :
  ipv4_csum_inline (fill_ip_hdr ip_blank 1448 true) 0 = 0.
Proof. apply (fill_ip_hdr_checksum ip_blank 1448 true); [split; cbn; mach_lia|reflexivity]. Defined.

(** [fill_ip_hdr] does not clear the checksum field before it sums the
    header: when the frame still carries the (valid) checksum of an earlier
    packet, the header it writes fails the receiver's test. *)
Theorem fill_ip_hdr_stale_checksum :
  let old := fill_ip_hdr ip_blank 1448 false in
  ipv4_csum_inline old 0 = 0 /\ ipv4_csum_inline (fill_ip_hdr old 1448 false) 0 <> 0.
Proof. vm_compute. split; [reflexivity|discriminate]. Qed.

(** ** Round trip of the MTP header *)

Record TCPBP_wf (bp : TCPBP) : Prop := {
  wf_bp_seq : in32 (bp_seq_num bp);
  wf_bp_ack : in32 (bp_ack_seq bp);
  wf_bp_rwnd : in16 (bp_rwnd_size bp);
  wf_bp_ts : in32 (bp_desired_tx_ts bp)
}.

Lemma mtp_hdr_round_trip f c bp n e :
  TCPBP_wf bp -> in32 (tx_next_ts c) -> 64 <= f_len f -> 0 <= n <= 65483 ->
  parse_pkt_to_event
    ((mtp_fill_tcp_hdr f c 0 bp) <| f_ip := fill_ip_hdr (f_ip f) n e |>) =
  {| ne_minor_type := if bp_is_ack bp then NET_EVENT_ACK else NET_EVENT_DATA;
     ne_ack_seq := bp_ack_seq bp;
     ne_rwnd_size := bpf_ntohs (Z.shiftr (bpf_htons (bp_rwnd_size bp)) TCP_WND_SCALE);
     ne_ts_ecr := tx_next_ts c;
     ne_data_len := n;
     ne_ts_val := bp_desired_tx_ts bp;
     ne_seq_num := bp_seq_num bp;
     ne_ecn_mark := false;
     ne_timestamp := 0 |}.
Proof.
  intros [H1 H2 H3 H4] H5 H6 H7. unfold mtp_fill_tcp_hdr, ts_opt_overrun.
  destruct (Z.gtb_spec 64 (f_len f)) as [?|_]; [lia|].
  unfold parse_pkt_to_event, fill_ip_hdr. cbn -[bpf_ntohl bpf_ntohs bpf_htons bpf_htonl Z.shiftr].
  rewrite !bpf_ntohl_htonl, bpf_ntohs_htons, (u16_small (bp_rwnd_size bp)) by auto with etran.
  f_equal. unfold TS_OPT_SIZE. mach_lia.
Qed.

(** C36. Round trip of a data segment through the wire headers: what the MTP
    sender writes with [mtp_fill_tcp_hdr] and [fill_ip_hdr] (blueprint [bp],
    payload length [n]) is what [parse_pkt_to_event] of the receiver reads:
    same sequence and acknowledgement numbers, payload length, timestamps and
    event kind, for every blueprint and every frame long enough for the
    headers. *)
Theorem mtp_segment_round_trip (f : frame) (c : bpf_tcp_conn) (bp : TCPBP) (n : Z) (e : bool)
  (Hbp : TCPBP_wf bp) (Hts : in32 (tx_next_ts c)) (Hroom : 64 <= f_len f)
  (Hn : 0 <= n <= 65483) :
  let ev := parse_pkt_to_event
    ((mtp_fill_tcp_hdr f c 0 bp) <| f_ip := fill_ip_hdr (f_ip f) n e |>) in
  ne_seq_num ev = bp_seq_num bp /\ ne_ack_seq ev = bp_ack_seq bp /\
  ne_data_len ev = n /\ ne_ts_val ev = bp_desired_tx_ts bp /\
  ne_ts_ecr ev = tx_next_ts c /\
  (ne_minor_type ev = NET_EVENT_ACK <-> bp_is_ack bp = true).
Proof.
  cbv zeta. rewrite mtp_hdr_round_trip by done. cbn.
  by destruct (bp_is_ack bp).
Qed.

Definition tcp_blank : tcphdr :=
  mk_tcphdr 0 0 0 0 0 0 false false false false false false false false 0 0 0.
Definition frame_blank : frame :=
  mk_frame [] [] 0 ip_blank tcp_blank (mk_tcp_timestamp_opt 0 0 0 0) 1514.
Definition conn_blank : bpf_tcp_conn :=
  mk_bpf_tcp_conn 7 0 [] [] 1 2 80 1024 524288 524288 524280 0 0 0 0 0 0 0
    1 0 0 0 1 524280 1 0 0 0 1 0 1 0 1 1 1 [].

Lemma mtp_segment_round_trip_witness :
  ne_data_len (parse_pkt_to_event
    ((mtp_fill_tcp_hdr frame_blank conn_blank 0 (mk_TCPBP 80 1024 77 5 false 256 9))
       <| f_ip := fill_ip_hdr ip_blank 100 false |>)) = 100.
Proof.
  apply (mtp_segment_round_trip frame_blank conn_blank (mk_TCPBP 80 1024 77 5 false 256 9) 100 false);
    try split; cbn; mach_lia.
Defined.

(** The window field does not survive the round trip: the header writers
    shift the window after the byte swap, so a receive window of 256 bytes is
    advertised as 0 and the peer, which scales the field by
    [TCP_WND_SCALE], believes the window closed, while a window of 161 bytes
    is advertised as 65696 bytes. *)
Theorem window_field_shifted_after_swap :
  let advertised w :=
    Z.shiftl (bpf_ntohs (Z.shiftr (bpf_htons w) TCP_WND_SCALE)) TCP_WND_SCALE in
  (forall f c bp n e, TCPBP_wf bp -> in32 (tx_next_ts c) -> 64 <= f_len f ->
     0 <= n <= 65483 ->
     Z.shiftl (ne_rwnd_size (parse_pkt_to_event
       ((mtp_fill_tcp_hdr f c 0 bp) <| f_ip := fill_ip_hdr (f_ip f) n e |>))) TCP_WND_SCALE
     = advertised (bp_rwnd_size bp)) /\
  advertised 256 = 0 /\ advertised 161 = 65696.
Proof.
  cbv zeta. split.
  - intros. by rewrite mtp_hdr_round_trip by done.
  - vm_compute. by split.
Qed.
