(* ===== verification/Fifo.v ===== *)
(** The interface between the acknowledgement ring and the programs that use
    it: a bounded first-in-first-out queue.  An enqueue is a request; what it
    appends depends on state beside the queue, here the connections, and
    changes it.  What the clients need is proved here once against the
    interface; [AckQueue] implements it for both builds. *)
From S2P Require Import Prelude.
Local Open Scope nat_scope.

(** How an enqueue ends: the entry is in the queue, it is refused and nothing
    has changed, or the program has written through NULL. *)
Inductive push_result (Q : Type) : Type := Pushed (q : Q) | Refused | Faulted.
Arguments Pushed {Q}. Arguments Refused {Q}. Arguments Faulted {Q}.

(** Requests [E] on a queue of [A] that is held, with a state [S] beside it,
    in a concrete state [Q]. *)
Class Fifo (Q S E A : Type) := {
  fifo_wf : Q -> Prop;
  fifo_view : Q -> list A;
  fifo_side : Q -> S;
  fifo_push : E -> Q -> push_result Q;
  fifo_pop : Q -> option (A * Q);
  (* the state beside the queue is replaced *)
  fifo_work : S -> Q -> Q;
  (* what a request appends, and what it does to the state beside the queue *)
  fifo_item : E -> S -> option A;
  fifo_after : E -> S -> S;
  (* whether a request faults when the queue is full *)
  fifo_traps : bool
}.

(** What an implementation promises. *)
Class FifoLaws (Q S E A : Type) `{Fifo Q S E A} (cap : nat) := {
  fifo_bounded : forall q, fifo_wf q -> length (fifo_view q) <= cap;
  fifo_push_void : forall e q, fifo_wf q -> fifo_item e (fifo_side q) = None -> fifo_push e q = Refused;
  fifo_push_room : forall e a q, fifo_wf q -> length (fifo_view q) < cap ->
    fifo_item e (fifo_side q) = Some a ->
    exists q', fifo_push e q = Pushed q' /\ fifo_wf q' /\
      fifo_side q' = fifo_after e (fifo_side q) /\ fifo_view q' = fifo_view q ++ [a];
  fifo_push_full : forall e a q, fifo_wf q -> length (fifo_view q) = cap ->
    fifo_item e (fifo_side q) = Some a -> fifo_push e q = if fifo_traps then Faulted else Refused;
  fifo_pop_empty : forall q, fifo_wf q -> fifo_view q = [] -> fifo_pop q = None;
  fifo_pop_head : forall q a l, fifo_wf q -> fifo_view q = a :: l ->
    exists q', fifo_pop q = Some (a, q') /\ fifo_wf q' /\
      fifo_side q' = fifo_side q /\ fifo_view q' = l;
  fifo_work_only : forall s q, fifo_wf q ->
    fifo_wf (fifo_work s q) /\ fifo_side (fifo_work s q) = s /\ fifo_view (fifo_work s q) = fifo_view q
}.

(** A client's operations and what it observes of them; between them other
    code works on the state beside the queue. *)
Inductive fifo_op (S E : Type) : Type := Enq (e : E) | Deq | Work (s : S).
Inductive fifo_obs (A : Type) : Type := Accepted | Rejected | Fault | Got (a : A) | Empty.
Arguments Enq {S E}. Arguments Deq {S E}. Arguments Work {S E}.
Arguments Accepted {A}. Arguments Rejected {A}. Arguments Fault {A}. Arguments Got {A}. Arguments Empty {A}.

Section Client.
Context {Q S E A : Type} {F : Fifo Q S E A}.

(** The abstract machine: a list, a capacity and the state beside them.  A
    fault ends the run. *)
Fixpoint spec_run (cap : nat) (ops : list (fifo_op S E)) (s : S) (l : list A) : list (fifo_obs A) :=
  match ops with
  | [] => []
  | Enq e :: ops =>
      match fifo_item e s with
      | Some a =>
        if decide (length l < cap) then Accepted :: spec_run cap ops (fifo_after e s) (l ++ [a])
        else if fifo_traps then [Fault]
        else Rejected :: spec_run cap ops s l
      | None => Rejected :: spec_run cap ops s l
      end
  | Deq :: ops =>
      match l with
      | [] => Empty :: spec_run cap ops s []
      | a :: l => Got a :: spec_run cap ops s l
      end
  | Work s :: ops => spec_run cap ops s l
  end.

(** The same client against the implementation. *)
Fixpoint fifo_run (ops : list (fifo_op S E)) (q : Q) : list (fifo_obs A) :=
  match ops with
  | [] => []
  | Enq e :: ops =>
      match fifo_push e q with
      | Pushed q => Accepted :: fifo_run ops q
      | Refused => Rejected :: fifo_run ops q
      | Faulted => [Fault]
      end
  | Deq :: ops =>
      match fifo_pop q with
      | Some (a, q) => Got a :: fifo_run ops q
      | None => Empty :: fifo_run ops q
      end
  | Work s :: ops => fifo_run ops (fifo_work s q)
  end.

(** Refinement: no sequence of operations distinguishes the implementation
    from the abstract machine. *)
Lemma fifo_refines cap `{!FifoLaws Q S E A cap} ops : forall q, fifo_wf q ->
  fifo_run ops q = spec_run cap ops (fifo_side q) (fifo_view q).
Proof.
  induction ops as [|[e| |s] ops IH]; intros q Hq; cbn; [done| | |].
  - destruct (fifo_item e (fifo_side q)) as [a|] eqn:He; [|by rewrite fifo_push_void, IH].
    case_decide as Hl.
    + destruct (fifo_push_room e a q Hq Hl He) as (q' & -> & Hq' & Hs & Hv). by rewrite IH, Hs, Hv.
    + rewrite (fifo_push_full e a); [|done|pose proof (fifo_bounded q Hq); lia|done].
      destruct fifo_traps; [done|by rewrite IH].
  - destruct (fifo_view q) as [|a l] eqn:Hv.
    + by rewrite fifo_pop_empty, IH, Hv.
    + destruct (fifo_pop_head q a l Hq Hv) as (q' & -> & Hq' & Hs & Hv'). by rewrite IH, Hs, Hv'.
  - destruct (fifo_work_only s q Hq) as (Hq' & Hs & Hv). by rewrite IH, Hs, Hv.
Qed.
End Client.
