(* ===== verification/AckQueue.v ===== *)
(** The per-CPU queue of pending acknowledgements ([eBPF/tcp/common_funcs.h],
    [tcp.h], [mtp_tcp.h]): a ring of [NAPI_BATCH_SIZE] slots emulated with a
    per-CPU array and two indices, filled while packets are received and
    drained by the XDP_GEN program; its operations in the eTran and the MTP
    build, and its refinement to a bounded FIFO queue. *)
From stdpp Require Import gmap.
From S2P Require Import Prelude Intf Fifo.
Local Open Scope Z_scope.
Local Open Scope u32_scope.

(** [bpf_tcp_ack_map], [ack_prod] and [ack_cons] of the current CPU. *)
Record ack_queue := mk_ack_queue {
  aq_slots : list bpf_tcp_ack;
  aq_prod : Z;
  aq_cons : Z
}.

#[export] Instance eta_ack_queue : Eta ack_queue := fun r =>
  mk_ack_queue (aq_slots r) (aq_prod r) (aq_cons r).

(** [prev_conn] and its companions on the current CPU: the connection whose
    acknowledgement is being coalesced. *)
Record prev_conn_t := mk_prev_conn {
  prev_conn : Z;
  prev_conn_li : Z;
  prev_conn_lp : Z;
  prev_conn_ri : Z;
  prev_conn_rp : Z;
  prev_conn_ece : Z
}.

#[export] Instance eta_prev_conn_t : Eta prev_conn_t := fun r => mk_prev_conn
  (prev_conn r) (prev_conn_li r) (prev_conn_lp r) (prev_conn_ri r) (prev_conn_rp r)
  (prev_conn_ece r).

(** [(i + 1) & (NAPI_BATCH_SIZE - 1)] *)
Definition aq_next (i : Z) : Z := Z.land (i ⊕ 1) (NAPI_BATCH_SIZE - 1).

(** [bpf_map_lookup_elem(&bpf_tcp_ack_map, &i)]: a pointer into the array, or
    NULL past its end. *)
Definition aq_lookup (q : ack_queue) (i : Z) : option bpf_tcp_ack :=
  aq_slots q !! Z.to_nat i.

Definition aq_store (q : ack_queue) (i : Z) (a : bpf_tcp_ack) : ack_queue :=
  q <| aq_slots := <[Z.to_nat i := a]> (aq_slots q) |>.

Definition aq_full (q : ack_queue) : bool := aq_cons q =? aq_next (aq_prod q).

(** [ackqueue_empty] *)
Definition ackqueue_empty (cpu : Z) (q : ack_queue) : bool :=
  if cpu >=? MAX_CPU then true else aq_prod q =? aq_cons q.

(** [dequeue_ack] *)
Definition dequeue_ack (cpu : Z) (q : ack_queue) : option bpf_tcp_ack * ack_queue :=
  if cpu >=? MAX_CPU then (None, q) else
  if aq_prod q =? aq_cons q then (None, q) else
  let cons := aq_cons q in
  let ack := aq_lookup q cons in
  (ack, q <| aq_cons := aq_next (aq_cons q) |>).

(** The slot contents written by [enqueue_ack] and [enqueue_prev_ack]. *)
Definition fill_ack (c : bpf_tcp_conn) (ack : bpf_tcp_ack) (now : Z) (ece : bool) : bpf_tcp_ack :=
  let ack := ack <| ack_local_ip := local_ip c |> in
  let ack := ack <| ack_remote_ip := remote_ip c |> in
  let ack := ack <| ack_local_port := local_port c |> in
  let ack := ack <| ack_remote_port := remote_port c |> in
  let ack := ack <| ack_seq := tx_next_seq c |> in
  let ack := ack <| ack_ack := rx_next_seq c |> in
  let ack := ack <| ack_rxwnd := Z.min (Z.shiftr (rx_avail c) TCP_WND_SCALE) 0xFFFF |> in
  let ack := ack <| ack_ts_val := now |> in
  let ack := ack <| ack_ts_ecr := tx_next_ts c |> in
  ack <| ack_ecn_flags := b2z ece |>.

(** [enqueue_prev_ack]: [None] is the result -1, which changes nothing. *)
Definition enqueue_prev_ack (ktime : Z) (pc : prev_conn_t)
    (conns : gmap ebpf_flow_tuple bpf_tcp_conn) (q : ack_queue)
  : option (gmap ebpf_flow_tuple bpf_tcp_conn * ack_queue) :=
  let prod := aq_prod q in
  let cons := aq_cons q in
  if cons =? aq_next prod then None else
  let now := u32 ktime in
  match aq_lookup q prod with
  | None => None
  | Some ack =>
    let ece := prev_conn_ece pc in
    let key := mk_ebpf_flow_tuple (prev_conn_li pc) (prev_conn_ri pc)
                                  (prev_conn_lp pc) (prev_conn_rp pc) in
    match conns !! key with
    | None => None
    | Some c =>
      let ack := fill_ack c ack now (nz ece) in
      let c := c <| tx_next_ts := 0 |> in
      let q := aq_store q prod ack in
      Some (<[key := c]> conns, q <| aq_prod := aq_next prod |>)
    end
  end.

(** [enqueue_ack]: [ack] is the slot at [ack_prod], looked up by the caller. *)
Definition enqueue_ack (c : bpf_tcp_conn) (ack : bpf_tcp_ack) (q : ack_queue)
    (now : Z) (ece : bool) : bpf_tcp_conn * ack_queue :=
  let q := aq_store q (aq_prod q) (fill_ack c ack now ece) in
  let c := c <| tx_next_ts := 0 |> in
  (c, q <| aq_prod := aq_next (aq_prod q) |>).

(** What [tcp_rx_process] does for the acknowledgement of a segment of the
    connection [key] when [ACK_COALESCING] is not defined: the slot is looked
    up at the start, unless the ring is full, and filled at the end.  [None]
    when there is nothing to fill. *)
Definition rx_enqueue_ack (cpu : Z) (key : ebpf_flow_tuple) (now : Z) (ece : bool)
    (conns : gmap ebpf_flow_tuple bpf_tcp_conn) (q : ack_queue)
  : option (gmap ebpf_flow_tuple bpf_tcp_conn * ack_queue) :=
  match conns !! key with
  | None => None
  | Some c =>
    let prod := aq_prod q in
    let cons := aq_cons q in
    let ack := if cons =? aq_next prod then None else aq_lookup q prod in
    match ack with
    | Some ack =>
      if cpu <? MAX_CPU then
        let '(c, q) := enqueue_ack c ack q now ece in Some (<[key := c]> conns, q)
      else None
    | None => None
    end
  end.

(** [mtp_pkt_gen_for_xdp_gen].  When the queue is full the C code leaves [ack]
    NULL, logs, and goes on to write through it: the result [None]. *)
Definition mtp_pkt_gen_for_xdp_gen (bp : TCPBP) (c : bpf_tcp_conn) (q : ack_queue)
  : option (bpf_tcp_conn * ack_queue) :=
  let prod := aq_prod q in
  let cons := aq_cons q in
  if cons =? aq_next prod then None else
  match aq_lookup q prod with
  | None => Some (c, q)
  | Some ack =>
    let ack := ack <| ack_local_ip := local_ip c |> in
    let ack := ack <| ack_remote_ip := remote_ip c |> in
    let ack := ack <| ack_local_port := bp_src_port bp |> in
    let ack := ack <| ack_remote_port := bp_dest_port bp |> in
    let ack := ack <| ack_seq := bp_seq_num bp |> in
    let ack := ack <| ack_ack := bp_ack_seq bp |> in
    let ack := ack <| ack_rxwnd := bp_rwnd_size bp |> in
    let ack := ack <| ack_is_ack := b2z (bp_is_ack bp) |> in
    let ack := ack <| ack_ts_val := bp_desired_tx_ts bp |> in
    let ack := ack <| ack_ts_ecr := tx_next_ts c |> in
    let q := aq_store q prod ack in
    let c := c <| tx_next_ts := 0 |> in
    Some (c, q <| aq_prod := aq_next (aq_prod q) |>)
  end.

(** ** Abstraction to a FIFO queue *)

Definition ack_blank : bpf_tcp_ack := mk_bpf_tcp_ack 0 0 0 0 0 0 0 0 0 0 0.

Record aq_wf (q : ack_queue) : Prop := {
  aq_wf_slots : length (aq_slots q) = 64%nat;
  aq_wf_prod : 0 <= aq_prod q < 64;
  aq_wf_cons : 0 <= aq_cons q < 64
}.

(** Number of pending acknowledgements, and the pending acknowledgements in
    the order in which they leave. *)
Definition aq_size (q : ack_queue) : Z := (aq_prod q - aq_cons q) mod 64.

Definition aq_at (q : ack_queue) (i : Z) : bpf_tcp_ack :=
  default ack_blank (aq_slots q !! Z.to_nat ((aq_cons q + i) mod 64)).

Definition ack_list (q : ack_queue) : list bpf_tcp_ack :=
  aq_at q <$> seqZ 0 (aq_size q).

Definition aq_init (slots : list bpf_tcp_ack) : ack_queue := mk_ack_queue slots 0 0.

(** ** Ring lemmas *)

Lemma aq_next_mod i : 0 <= i < 64 -> aq_next i = (i + 1) mod 64.
Proof.
  intros H. unfold aq_next. rewrite u32_small by mach_lia.
  change (NAPI_BATCH_SIZE - 1) with (Z.ones 6). by rewrite Z.land_ones by lia.
Qed.

Lemma aq_full_size q : aq_wf q -> (aq_full q = true <-> aq_size q = 63).
Proof.
  intros [_ Hp Hc]. unfold aq_full, aq_size. rewrite Z.eqb_eq, aq_next_mod by done. lia.
Qed.

Lemma aq_wf_lookup q i : aq_wf q -> 0 <= i < 64 -> exists a, aq_lookup q i = Some a.
Proof.
  intros [Hs _ _] Hi. apply lookup_lt_is_Some_2. unfold aq_lookup. lia.
Qed.

Lemma length_ack_list q : length (ack_list q) = Z.to_nat (aq_size q).
Proof. unfold ack_list. by rewrite length_fmap, length_seqZ. Qed.

(** Appending at [aq_prod] when the ring is not full appends to the queue. *)
Lemma ack_list_push q a : aq_wf q -> aq_full q = false ->
  let q' := (aq_store q (aq_prod q) a) <| aq_prod := aq_next (aq_prod q) |> in
  aq_wf q' /\ ack_list q' = ack_list q ++ [a].
Proof.
  intros Hwf Hf. pose proof Hwf as [Hs Hp Hc]. cbv zeta.
  assert (Hsz : aq_size q <> 63) by (rewrite <- aq_full_size by done; by rewrite Hf).
  set (q' := _ <|aq_prod := _|>).
  assert (Hn : aq_size q' = aq_size q + 1).
  { unfold aq_size. subst q'. cbn. rewrite aq_next_mod by done. unfold aq_size in *. lia. }
  split.
  { split; subst q'; cbn; [by rewrite length_insert|rewrite aq_next_mod by done; lia|done]. }
  unfold ack_list. rewrite Hn, seqZ_app by (unfold aq_size; lia).
  rewrite fmap_app. f_equal.
  - apply list_fmap_ext. intros i x Hi. apply lookup_seqZ in Hi as [-> Hi].
    unfold aq_at. subst q'. cbn. rewrite list_lookup_insert_ne; [done|].
    unfold aq_size in *. lia.
  - change (seqZ (0 + aq_size q) 1) with [Z.of_nat 0 + (0 + aq_size q)].
    cbn [fmap list_fmap]. unfold aq_at. subst q'. cbn.
    match goal with |- context [?e `mod` 64] =>
      replace (e mod 64) with (aq_prod q) by (unfold aq_size; lia) end.
    by rewrite list_lookup_insert_eq by lia.
Qed.

(** Advancing [aq_cons] on a non-empty ring removes the head of the queue. *)
Lemma ack_list_pop q : aq_wf q -> aq_prod q <> aq_cons q ->
  let q' := q <| aq_cons := aq_next (aq_cons q) |> in
  aq_wf q' /\ exists a, aq_lookup q (aq_cons q) = Some a /\ ack_list q = a :: ack_list q'.
Proof.
  intros Hwf Hne. pose proof Hwf as [Hs Hp Hc]. cbv zeta.
  set (q' := _ <|aq_cons := _|>).
  assert (Hn : aq_size q = 1 + aq_size q').
  { unfold aq_size. subst q'. cbn. rewrite aq_next_mod by done. lia. }
  split.
  { split; subst q'; cbn; [done|done|rewrite aq_next_mod by done; lia]. }
  destruct (aq_wf_lookup q (aq_cons q) Hwf Hc) as [a Ha]. exists a. split; [done|].
  unfold ack_list at 1. rewrite Hn, seqZ_app by (unfold aq_size; lia).
  rewrite fmap_app. cbn [app]. change (seqZ 0 1) with [0]. cbn [fmap list_fmap app]. f_equal.
  - unfold aq_at. rewrite Z.add_0_r, Z.mod_small by done. unfold aq_lookup in Ha. by rewrite Ha.
  - unfold ack_list. apply list_eq. intros i. rewrite !list_lookup_fmap.
    destruct (decide (Z.of_nat i < aq_size q')) as [Hi|Hi].
    + rewrite !lookup_seqZ_lt by lia. cbn. f_equal. unfold aq_at. subst q'. cbn.
      do 3 f_equal. rewrite aq_next_mod by done. lia.
    + by rewrite !lookup_seqZ_ge by lia.
Qed.

Lemma aq_size_range q : 0 <= aq_size q < 64.
Proof. unfold aq_size. lia. Qed.

Lemma ack_list_nil q : aq_wf q -> (ack_list q = [] <-> aq_prod q = aq_cons q).
Proof.
  intros [_ Hp Hc]. rewrite <- length_zero_iff_nil, length_ack_list. unfold aq_size. lia.
Qed.

Lemma aq_full_length q : aq_wf q -> (aq_full q = true <-> length (ack_list q) = 63%nat).
Proof.
  intros Hwf. rewrite aq_full_size, length_ack_list by done.
  pose proof (aq_size_range q). lia.
Qed.

Lemma ack_list_bounded q : (length (ack_list q) <= 63)%nat.
Proof. rewrite length_ack_list. pose proof (aq_size_range q). lia. Qed.

Lemma aq_init_wf : aq_wf (aq_init (replicate 64 ack_blank)).
Proof. split; cbn; lia. Qed.

(** [enqueue_prev_ack] on every branch: it fails, changing nothing, exactly
    when the ring is full or the coalesced connection is no longer in the
    connection map; otherwise the queue grows by one acknowledgement at its
    tail, which carries the connection's current sequence numbers, echoes and
    clears its timestamp, and advertises its free receive buffer in units of
    8 bytes without ever exceeding it. *)
Theorem enqueue_prev_ack_spec (ktime : Z) (pc : prev_conn_t)
  (conns : gmap ebpf_flow_tuple bpf_tcp_conn) (q : ack_queue) (Hq : aq_wf q) :
  let key := mk_ebpf_flow_tuple (prev_conn_li pc) (prev_conn_ri pc)
                                (prev_conn_lp pc) (prev_conn_rp pc) in
  match enqueue_prev_ack ktime pc conns q with
  | None => length (ack_list q) = 63%nat \/ conns !! key = None
  | Some (conns', q') =>
      exists c a, conns !! key = Some c /\ ack_list q' = ack_list q ++ [a] /\ aq_wf q' /\
        conns' = <[key := c <| tx_next_ts := 0 |>]> conns /\
        ack_seq a = tx_next_seq c /\ ack_ack a = rx_next_seq c /\
        ack_ts_ecr a = tx_next_ts c /\ ack_ts_val a = u32 ktime /\
        (0 <= rx_avail c -> 0 <= ack_rxwnd a * 8 <= rx_avail c /\ ack_rxwnd a <= 65535)
  end.
Proof.
  cbv zeta. unfold enqueue_prev_ack. fold (aq_full q).
  destruct (aq_full q) eqn:Hf; [left; by apply aq_full_length|].
  destruct (aq_wf_lookup q (aq_prod q) Hq (aq_wf_prod q Hq)) as [old ->].
  destruct (conns !! _) as [c|] eqn:Hc; [|by right].
  exists c, (fill_ack c old (u32 ktime) (nz (prev_conn_ece pc))).
  destruct (ack_list_push q (fill_ack c old (u32 ktime) (nz (prev_conn_ece pc))) Hq Hf)
    as [Hwf' Hl].
  split_and!; try done; cbn; unfold TCP_WND_SCALE;
    rewrite Z.shiftr_div_pow2 by lia; change (2 ^ 3) with 8; lia.
Qed.

Definition pc_blank : prev_conn_t := mk_prev_conn 0 1 80 2 1024 0.
Definition conn_ack_ex : bpf_tcp_conn :=
  mk_bpf_tcp_conn 7 0 [] [] 1 2 80 1024 524288 524288 524280 0 0 0 0 33 0 0
    1 0 0 0 1 524280 1 0 0 0 1 0 1 0 1 1 1 [].

Lemma enqueue_prev_ack_spec_witness :
  match enqueue_prev_ack 99 pc_blank
          {[mk_ebpf_flow_tuple 1 2 80 1024 := conn_ack_ex]}
          (aq_init (replicate 64 ack_blank)) with
  | Some (_, q') => length (ack_list q') = 1%nat
  | None => False
  end.
Proof.
  pose proof (enqueue_prev_ack_spec 99 pc_blank
    {[mk_ebpf_flow_tuple 1 2 80 1024 := conn_ack_ex]} (aq_init (replicate 64 ack_blank))
    aq_init_wf) as H. cbv zeta in H.
  destruct (enqueue_prev_ack _ _ _ _) as [[conns' q']|] eqn:E.
  - destruct H as (c & a & _ & -> & _). reflexivity.
  - apply (f_equal (fun o => match o with None => 0 | Some _ => 1 end)) in E.
    vm_compute in E. discriminate.
Defined.

(** The acknowledgement the MTP build appends. *)
Lemma mtp_pkt_gen_append (bp : TCPBP) (c : bpf_tcp_conn) (q : ack_queue)
  (Hq : aq_wf q) :
  match mtp_pkt_gen_for_xdp_gen bp c q with
  | None => length (ack_list q) = 63%nat
  | Some (c', q') =>
      (length (ack_list q) < 63)%nat /\ c' = c <| tx_next_ts := 0 |> /\ aq_wf q' /\
      exists a, ack_list q' = ack_list q ++ [a] /\
        ack_seq a = bp_seq_num bp /\ ack_ack a = bp_ack_seq bp /\
        ack_rxwnd a = bp_rwnd_size bp /\ ack_ts_ecr a = tx_next_ts c
  end.
Proof.
  unfold mtp_pkt_gen_for_xdp_gen. fold (aq_full q).
  destruct (aq_full q) eqn:Hf; [by apply aq_full_length|].
  destruct (aq_wf_lookup q (aq_prod q) Hq (aq_wf_prod q Hq)) as [old ->].
  match goal with |- context [aq_store q (aq_prod q) ?a] =>
    destruct (ack_list_push q a Hq Hf) as [Hwf' Hl]; set (a' := a) in * end.
  split; [|split; [done|split; [done|exists a'; by split_and!]]].
  pose proof (ack_list_bounded q) as Hb.
  assert (length (ack_list q) <> 63%nat); [|lia].
  intros H. apply aq_full_length in H; [congruence|done].
Qed.

(** In the MTP build an acknowledgement is lost to a NULL write when the
    ring is full: [mtp_pkt_gen_for_xdp_gen] faults exactly when 63
    acknowledgements are pending, and otherwise appends one that carries the
    blueprint's numbers and clears the connection's timestamp. *)
Theorem mtp_pkt_gen_for_xdp_gen_spec (bp : TCPBP) (c : bpf_tcp_conn) (q : ack_queue)
  (Hq : aq_wf q) :
  match mtp_pkt_gen_for_xdp_gen bp c q with
  | None => length (ack_list q) = 63%nat
  | Some (c', q') =>
      (length (ack_list q) < 63)%nat /\ c' = c <| tx_next_ts := 0 |> /\ aq_wf q' /\
      exists a, ack_list q' = ack_list q ++ [a] /\
        ack_seq a = bp_seq_num bp /\ ack_ack a = bp_ack_seq bp /\
        ack_rxwnd a = bp_rwnd_size bp /\ ack_ts_ecr a = tx_next_ts c
  end.
Proof. by apply mtp_pkt_gen_append. Qed.

Lemma mtp_pkt_gen_for_xdp_gen_spec_witness :
  match mtp_pkt_gen_for_xdp_gen (mk_TCPBP 80 1024 77 5 true 256 9) conn_ack_ex
          (aq_init (replicate 64 ack_blank)) with
  | Some (c', _) => c' = conn_ack_ex <| tx_next_ts := 0 |>
  | None => False
  end.
Proof.
  pose proof (mtp_pkt_gen_for_xdp_gen_spec (mk_TCPBP 80 1024 77 5 true 256 9) conn_ack_ex
    (aq_init (replicate 64 ack_blank)) aq_init_wf) as H.
  exact (proj1 (proj2 H)).
Defined.

(** ** The queue interface *)

(** The connections and the ring of a CPU. *)
Definition ack_state : Type := gmap ebpf_flow_tuple bpf_tcp_conn * ack_queue.

(** The requests of the eTran build: the connection whose acknowledgements
    are coalesced ([enqueue_prev_ack], from [xdp_sock_prog] and
    [xdp_gen_prog]), or, without [ACK_COALESCING], the one of a segment. *)
Inductive etran_ack :=
| Coalesced (ktime : Z) (pc : prev_conn_t)
| Own (key : ebpf_flow_tuple) (now : Z) (ece : bool).

(** The request of the MTP build: a blueprint for the connection [ma_key]. *)
Record mtp_ack := mk_mtp_ack { ma_key : ebpf_flow_tuple; ma_bp : TCPBP }.

Definition pc_key (pc : prev_conn_t) : ebpf_flow_tuple :=
  mk_ebpf_flow_tuple (prev_conn_li pc) (prev_conn_ri pc) (prev_conn_lp pc) (prev_conn_rp pc).

Definition etran_key (e : etran_ack) : ebpf_flow_tuple :=
  match e with Coalesced _ pc => pc_key pc | Own key _ _ => key end.

(** The acknowledgement a connection owes: its current numbers, its free
    receive buffer in units of 8 bytes, the clock, the timestamp to echo. *)
Definition ack_due (c : bpf_tcp_conn) (now : Z) (ece : bool) : bpf_tcp_ack := {|
  ack_local_ip := local_ip c; ack_remote_ip := remote_ip c;
  ack_local_port := local_port c; ack_remote_port := remote_port c;
  ack_seq := tx_next_seq c; ack_ack := rx_next_seq c; ack_rxwnd := Z.min (rx_avail c `div` 8) 65535;
  ack_ts_val := now; ack_ts_ecr := tx_next_ts c; ack_ecn_flags := b2z ece; ack_is_ack := 0 |}.

Definition etran_due (e : etran_ack) (c : bpf_tcp_conn) : bpf_tcp_ack :=
  match e with
  | Coalesced ktime pc => ack_due c (u32 ktime) (nz (prev_conn_ece pc))
  | Own _ now ece => ack_due c now ece
  end.

Definition mtp_due (e : mtp_ack) (c : bpf_tcp_conn) : bpf_tcp_ack := {|
  ack_local_ip := local_ip c; ack_remote_ip := remote_ip c;
  ack_local_port := bp_src_port (ma_bp e); ack_remote_port := bp_dest_port (ma_bp e);
  ack_seq := bp_seq_num (ma_bp e); ack_ack := bp_ack_seq (ma_bp e); ack_rxwnd := bp_rwnd_size (ma_bp e);
  ack_ts_val := bp_desired_tx_ts (ma_bp e); ack_ts_ecr := tx_next_ts c; ack_ecn_flags := 0;
  ack_is_ack := b2z (bp_is_ack (ma_bp e)) |}.

(** A slot is reused: the eTran build leaves [is_ack] as it was, the MTP build
    [ecn_flags].  The fields a build writes: *)
Definition etran_fields (a : bpf_tcp_ack) : bpf_tcp_ack := a <| ack_is_ack := 0 |>.
Definition mtp_fields (a : bpf_tcp_ack) : bpf_tcp_ack := a <| ack_ecn_flags := 0 |>.

(** The timestamp that has been echoed. *)
Definition echoed : ebpf_flow_tuple -> gmap ebpf_flow_tuple bpf_tcp_conn -> gmap ebpf_flow_tuple bpf_tcp_conn :=
  alter (fun c => c <| tx_next_ts := 0 |>).

Lemma echoed_insert key c (conns : gmap ebpf_flow_tuple bpf_tcp_conn) :
  conns !! key = Some c -> <[key := c <| tx_next_ts := 0 |>]> conns = echoed key conns.
Proof.
  intros Hc. apply map_eq. intros k. unfold echoed. destruct (decide (key = k)) as [<-|Hne].
  - by rewrite lookup_insert_eq, lookup_alter_eq, Hc.
  - by rewrite lookup_insert_ne, lookup_alter_ne.
Qed.

Section ring.
Variable cpu : Z.

Definition etran_push (e : etran_ack) (s : ack_state) : push_result ack_state :=
  match match e with
        | Coalesced ktime pc => enqueue_prev_ack ktime pc s.1 s.2
        | Own key now ece => rx_enqueue_ack cpu key now ece s.1 s.2
        end with
  | Some s => Pushed s
  | None => Refused
  end.

Definition mtp_push (e : mtp_ack) (s : ack_state) : push_result ack_state :=
  match s.1 !! ma_key e with
  | None => Refused
  | Some c =>
    match mtp_pkt_gen_for_xdp_gen (ma_bp e) c s.2 with
    | Some (c, q) => Pushed (<[ma_key e := c]> s.1, q)
    | None => Faulted
    end
  end.

Definition ack_pop (view : bpf_tcp_ack -> bpf_tcp_ack) (s : ack_state) : option (bpf_tcp_ack * ack_state) :=
  match dequeue_ack cpu s.2 with
  | (Some a, q) => Some (view a, (s.1, q))
  | (None, _) => None
  end.

Lemma ack_pop_spec view s :
  cpu < MAX_CPU -> aq_wf s.2 ->
  match view <$> ack_list s.2 with
  | [] => ack_pop view s = None
  | a :: l => exists q, ack_pop view s = Some (a, (s.1, q)) /\ aq_wf q /\ view <$> ack_list q = l
  end.
Proof.
  intros Hcpu Hq. destruct s as [conns q]. cbn [fst snd] in *. unfold ack_pop, dequeue_ack. cbn [fst snd].
  destruct (Z.geb_spec cpu MAX_CPU) as [|_]; [lia|]. destruct (Z.eqb_spec (aq_prod q) (aq_cons q)) as [He|He].
  - by rewrite (proj2 (ack_list_nil q Hq) He).
  - destruct (ack_list_pop q Hq He) as [Hq' (a & -> & ->)]. cbn. by eexists.
Qed.

#[export] Instance etran_ring : Fifo ack_state (gmap ebpf_flow_tuple bpf_tcp_conn) etran_ack bpf_tcp_ack := {
  fifo_wf := fun s => aq_wf s.2;
  fifo_view := fun s => etran_fields <$> ack_list s.2;
  fifo_side := fst;
  fifo_push := etran_push;
  fifo_pop := ack_pop etran_fields;
  fifo_work := fun conns s => (conns, s.2);
  fifo_item := fun e conns => etran_due e <$> conns !! etran_key e;
  fifo_after := fun e => echoed (etran_key e);
  fifo_traps := false
}.

#[export] Instance mtp_ring : Fifo ack_state (gmap ebpf_flow_tuple bpf_tcp_conn) mtp_ack bpf_tcp_ack := {
  fifo_wf := fun s => aq_wf s.2;
  fifo_view := fun s => mtp_fields <$> ack_list s.2;
  fifo_side := fst;
  fifo_push := mtp_push;
  fifo_pop := ack_pop mtp_fields;
  fifo_work := fun conns s => (conns, s.2);
  fifo_item := fun e conns => mtp_due e <$> conns !! ma_key e;
  fifo_after := fun e => echoed (ma_key e);
  fifo_traps := true
}.

(** What the two enqueues of the eTran build share. *)
Lemma etran_push_spec e s :
  cpu < MAX_CPU -> aq_wf s.2 ->
  match s.1 !! etran_key e with
  | None => etran_push e s = Refused
  | Some c =>
    if aq_full s.2 then etran_push e s = Refused
    else exists q, etran_push e s = Pushed (echoed (etran_key e) s.1, q) /\ aq_wf q /\
      etran_fields <$> ack_list q = (etran_fields <$> ack_list s.2) ++ [etran_due e c]
  end.
Proof.
  intros Hcpu Hq. destruct s as [conns q]. cbn [fst snd] in *.
  destruct (aq_wf_lookup q (aq_prod q) Hq (aq_wf_prod q Hq)) as [old Hold].
  assert (Hfill : forall c now ece, etran_fields (fill_ack c old now ece) = ack_due c now ece).
  { intros c now ece. unfold ack_due. rewrite <- (Z.shiftr_div_pow2 _ 3) by lia. done. }
  unfold etran_push. destruct e as [ktime pc|key now ece]; cbn [etran_key fst snd].
  - unfold enqueue_prev_ack. fold (aq_full q) (pc_key pc). rewrite Hold.
    destruct (conns !! pc_key pc) as [c|] eqn:Hc; destruct (aq_full q) eqn:Hf; try done.
    destruct (ack_list_push q (fill_ack c old (u32 ktime) (nz (prev_conn_ece pc))) Hq Hf) as [Hq' Hl].
    eexists. split; [by rewrite (echoed_insert _ c) by done|]. split; [done|].
    by rewrite Hl, fmap_app; cbn; rewrite Hfill.
  - unfold rx_enqueue_ack. fold (aq_full q). rewrite Hold.
    destruct (conns !! key) as [c|] eqn:Hc; [|done]. destruct (aq_full q) eqn:Hf; [done|].
    destruct (Z.ltb_spec cpu MAX_CPU) as [_|]; [|lia].
    destruct (ack_list_push q (fill_ack c old now ece) Hq Hf) as [Hq' Hl]. set (q' := _ <|aq_prod := _|>) in *.
    exists q'. split; [unfold enqueue_ack; by rewrite (echoed_insert _ c) by done|]. split; [done|].
    by rewrite Hl, fmap_app; cbn; rewrite Hfill.
Qed.

Lemma mtp_push_spec e s :
  aq_wf s.2 ->
  match s.1 !! ma_key e with
  | None => mtp_push e s = Refused
  | Some c =>
    if aq_full s.2 then mtp_push e s = Faulted
    else exists q, mtp_push e s = Pushed (echoed (ma_key e) s.1, q) /\ aq_wf q /\
      mtp_fields <$> ack_list q = (mtp_fields <$> ack_list s.2) ++ [mtp_due e c]
  end.
Proof.
  intros Hq. destruct s as [conns q]. cbn [fst snd] in *. unfold mtp_push, mtp_pkt_gen_for_xdp_gen. cbn [fst snd].
  fold (aq_full q). destruct (aq_wf_lookup q (aq_prod q) Hq (aq_wf_prod q Hq)) as [old ->].
  destruct (conns !! ma_key e) as [c|] eqn:Hc; [|done]. destruct (aq_full q) eqn:Hf; [done|].
  match goal with |- context [aq_store q (aq_prod q) ?a] =>
    destruct (ack_list_push q a Hq Hf) as [Hq' Hl]; set (a' := a) in * end.
  set (q' := _ <|aq_prod := _|>) in Hq', Hl. exists q'.
  split; [by rewrite (echoed_insert _ c) by done|]. split; [done|]. by rewrite Hl, fmap_app.
Qed.

(** The laws of the interface, from what a request and a dequeue do. *)
Lemma room_full q : aq_wf q -> (length (ack_list q) < 63)%nat <-> aq_full q = false.
Proof.
  intros Hq. pose proof (ack_list_bounded q). rewrite <- not_true_iff_false, aq_full_length by done. lia.
Qed.

#[export] Instance etran_ring_laws (Hcpu : cpu < MAX_CPU) :
  FifoLaws ack_state (gmap ebpf_flow_tuple bpf_tcp_conn) etran_ack bpf_tcp_ack 63.
Proof.
  split; cbn.
  - intros s _. rewrite length_fmap. apply ack_list_bounded.
  - intros e s Hq Hi%fmap_None. pose proof (etran_push_spec e s Hcpu Hq) as H. by rewrite Hi in H.
  - intros e a s Hq Hl (c & Hc & ->)%fmap_Some. rewrite length_fmap, room_full in Hl by done.
    pose proof (etran_push_spec e s Hcpu Hq) as H. rewrite Hc, Hl in H. destruct H as (q & -> & ? & ?). by eexists.
  - intros e a s Hq Hl (c & Hc & _)%fmap_Some. rewrite length_fmap in Hl. apply aq_full_length in Hl; [|done].
    pose proof (etran_push_spec e s Hcpu Hq) as H. by rewrite Hc, Hl in H.
  - intros s Hq Hv. pose proof (ack_pop_spec etran_fields s Hcpu Hq) as H. by rewrite Hv in H.
  - intros s a l Hq Hv. pose proof (ack_pop_spec etran_fields s Hcpu Hq) as H. rewrite Hv in H.
    destruct H as (q & -> & ? & ?). by eexists.
  - done.
Qed.

#[export] Instance mtp_ring_laws (Hcpu : cpu < MAX_CPU) :
  FifoLaws ack_state (gmap ebpf_flow_tuple bpf_tcp_conn) mtp_ack bpf_tcp_ack 63.
Proof.
  split; cbn.
  - intros s _. rewrite length_fmap. apply ack_list_bounded.
  - intros e s Hq Hi%fmap_None. pose proof (mtp_push_spec e s Hq) as H. by rewrite Hi in H.
  - intros e a s Hq Hl (c & Hc & ->)%fmap_Some. rewrite length_fmap, room_full in Hl by done.
    pose proof (mtp_push_spec e s Hq) as H. rewrite Hc, Hl in H. destruct H as (q & -> & ? & ?). by eexists.
  - intros e a s Hq Hl (c & Hc & _)%fmap_Some. rewrite length_fmap in Hl. apply aq_full_length in Hl; [|done].
    pose proof (mtp_push_spec e s Hq) as H. by rewrite Hc, Hl in H.
  - intros s Hq Hv. pose proof (ack_pop_spec mtp_fields s Hcpu Hq) as H. by rewrite Hv in H.
  - intros s a l Hq Hv. pose proof (ack_pop_spec mtp_fields s Hcpu Hq) as H. rewrite Hv in H.
    destruct H as (q & -> & ? & ?). by eexists.
  - done.
Qed.

(** C25. The acknowledgement ring of a CPU is a FIFO queue of capacity 63 in
    both builds.  Take any sequence of dequeues ([dequeue_ack]) and enqueues
    of one build, with any change of the connections in between: in the eTran
    build [enqueue_prev_ack], or the enqueue of [tcp_rx_process] through
    [enqueue_ack] where [ACK_COALESCING] is not defined; in the MTP build
    [mtp_pkt_gen_for_xdp_gen].  An enqueue for a connection that is not
    registered does nothing.  For one that is registered it succeeds exactly
    when fewer than 63 acknowledgements are pending: it appends the
    acknowledgement due to the connection at that time and clears the
    timestamp echoed.  On a full ring the eTran build drops the
    acknowledgement, and the MTP build writes through NULL.  Dequeues return
    the entries in the order of the enqueues. *)
Theorem ack_queue_refines_fifo (conns : gmap ebpf_flow_tuple bpf_tcp_conn) (q : ack_queue)
  (etran : list (fifo_op (gmap ebpf_flow_tuple bpf_tcp_conn) etran_ack))
  (mtp : list (fifo_op (gmap ebpf_flow_tuple bpf_tcp_conn) mtp_ack)) :
  cpu < MAX_CPU -> aq_wf q ->
  fifo_run etran (conns, q) = spec_run 63 etran conns (etran_fields <$> ack_list q) /\
  fifo_run mtp (conns, q) = spec_run 63 mtp conns (mtp_fields <$> ack_list q).
Proof.
  intros Hcpu Hq. split.
  - exact (fifo_refines 63 (FifoLaws0 := etran_ring_laws Hcpu) etran (conns, q) Hq).
  - exact (fifo_refines 63 (FifoLaws0 := mtp_ring_laws Hcpu) mtp (conns, q) Hq).
Qed.

End ring.

(** 64 requests of a connection: the ring takes 63, each with the numbers it
    has at the time. *)
Lemma ack_queue_refines_fifo_witness :
  let conns := {[mk_ebpf_flow_tuple 1 2 80 1024 := conn_ack_ex]} in
  let own := Enq (Own (mk_ebpf_flow_tuple 1 2 80 1024) 5 true) in
  let q := aq_init (replicate 64 ack_blank) in
  fifo_run (F := etran_ring 0) (own :: Enq (Coalesced 9 pc_blank) :: replicate 62 own ++ [Deq; Deq]) (conns, q) =
    replicate 63 Accepted ++ [Rejected; Got (ack_due conn_ack_ex 5 true);
                              Got (ack_due (conn_ack_ex <| tx_next_ts := 0 |>) 9 false)] /\
  fifo_run (F := mtp_ring 0)
    (replicate 64 (Enq (mk_mtp_ack (mk_ebpf_flow_tuple 1 2 80 1024) (mk_TCPBP 80 1024 77 5 true 256 9)))) (conns, q) =
    replicate 63 Accepted ++ [Fault].
Proof.
  cbv zeta.
  split; [rewrite (proj1 (ack_queue_refines_fifo 0 _ _ _ [] eq_refl aq_init_wf))
         |rewrite (proj2 (ack_queue_refines_fifo 0 _ _ [] _ eq_refl aq_init_wf))]; vm_compute; reflexivity.
Defined.
