(* ===== verification/Pacing.v ===== *)
(** The rate limiter of the TCP fast path ([eBPF/tcp/pacing.h]): a per-CPU
    timing wheel of [MAX_BUCKETS] packet queues.  [tw_insert] picks the bucket
    of a departure time, [tw_extract] advances the wheel to the present and
    takes a due packet, [tw_cb] sends a batch and re-arms itself.

    The packet queues are a kernel map type ([BPF_MAP_TYPE_PKT_QUEUE]); they
    are a parameter of the model, the class [PktQueue]. *)
From Stdlib Require Import Sorting.Sorted.
From stdpp Require Import gmap.
From S2P Require Import Prelude Intf Headers.
Local Open Scope Z_scope.

(** [pkt_queue_empty], [pkt_queue_dequeue] and the enqueue that
    [bpf_redirect_map] performs, on a map [M] of queues of frames [X]. *)
Class PktQueue (M X : Type) := {
  pkt_queue_empty : M -> Z -> bool;
  pkt_queue_dequeue : M -> Z -> option (X * M);
  pkt_queue_enqueue : M -> X -> Z -> M;
  pq_view : M -> Z -> list X
}.

(** What the wheel relies on: every index is a first-in-first-out queue. *)
Class PktQueueLaws (M X : Type) `{PktQueue M X} := {
  pq_empty_view : forall m i, pkt_queue_empty m i = true <-> pq_view m i = [];
  pq_dequeue_view : forall m i x l, pq_view m i = x :: l ->
    exists m', pkt_queue_dequeue m i = Some (x, m') /\ pq_view m' i = l /\
      forall j, j <> i -> pq_view m' j = pq_view m j;
  pq_enqueue_view : forall m i x j,
    pq_view (pkt_queue_enqueue m x i) j =
    if decide (j = i) then pq_view m i ++ [x] else pq_view m j
}.

(** [front_timestamp], [nr_pkts_in_tw] and [has_kick] of the current CPU, and
    whether its [tw_trigger_t] timer is initialised and has been started. *)
Record tw_state := mk_tw_state {
  front_timestamp : Z;
  nr_pkts_in_tw : Z;
  has_kick : bool;
  twt_ready : bool;
  timer_starts : Z
}.

#[export] Instance eta_tw_state : Eta tw_state := fun r => mk_tw_state
  (front_timestamp r) (nr_pkts_in_tw r) (has_kick r) (twt_ready r) (timer_starts r).

Definition TW_BATCH_SIZE : nat := 32.

(** The absolute slot [tw_insert] computes from a departure time. *)
Definition tw_slot (front ts : Z) : Z :=
  let ts := ts / SLOT_WIDTH_NS in
  if ts <=? front then front
  else if ts >? u64 (front + MAX_BUCKETS - 1) then u64 (front + MAX_BUCKETS - 1)
  else ts.

(** [tw_insert]; [ktime] is the clock read when the wheel is initialised, and
    the value 1 ([XDP_DROP]) is what the code returns for a bad CPU. *)
Definition tw_insert (cpu ts ktime : Z) (s : tw_state) : Z * tw_state :=
  if cpu >=? MAX_CPU then (1, s) else
  let s := if front_timestamp s =? 0
           then s <| front_timestamp := ktime / SLOT_WIDTH_NS |> else s in
  let target_idx := u32 (tw_slot (front_timestamp s) ts mod MAX_BUCKETS) in
  (target_idx, s <| nr_pkts_in_tw := u32 (nr_pkts_in_tw s + 1) |>).

(** [kick_tw].  The array [tw_trigger_map] has an entry for each of its
    [MAX_CPU] keys, so that the lookup finds one. *)
Definition kick_tw (cpu : Z) (s : tw_state) : tw_state :=
  if cpu >=? MAX_CPU then s else
  if has_kick s then s else
  let s := s <| has_kick := true |> in
  let s := if negb (twt_ready s) then s <| twt_ready := true |> else s in
  s <| timer_starts ::= Z.add 1 |>.

Section Wheel.
Context {M X : Type} `{PktQueue M X}.

(** The loop of [tw_can_extract]; the code leaves it after 16 empty buckets. *)
Fixpoint tw_can_extract_loop (fuel : nat) (tw_map : M) (now front : Z) : bool * Z :=
  match fuel with
  | O => (now >=? front, front)
  | S fuel =>
    if now >=? front then
      if pkt_queue_empty tw_map (u32 (front mod MAX_BUCKETS))
      then tw_can_extract_loop fuel tw_map now (u64 (front + 1))
      else (true, front)
    else (now >=? front, front)
  end.

(** [tw_can_extract] *)
Definition tw_can_extract (tw_map : M) (now : Z) (s : tw_state) : bool * tw_state :=
  let now := now / SLOT_WIDTH_NS in
  let '(r, front) := tw_can_extract_loop 16 tw_map now (front_timestamp s) in
  (r, s <| front_timestamp := front |>).

(** The loop of [tw_extract]: a frame and the map without it, or [None]; the
    value of [*cont], which a dequeue leaves as it was; and the new front. *)
Fixpoint tw_extract_loop (fuel : nat) (tw_map : M) (now front : Z) (cont : bool)
  : option (X * M) * bool * Z :=
  match fuel with
  | O => (None, now >=? front, front)
  | S fuel =>
    if now >=? front then
      let idx := u32 (front mod MAX_BUCKETS) in
      if pkt_queue_empty tw_map idx
      then tw_extract_loop fuel tw_map now (u64 (front + 1)) cont
      else (pkt_queue_dequeue tw_map idx, cont, front)
    else (None, now >=? front, front)
  end.

(** [tw_extract]; [cont] is only written when the loop ends without a dequeue. *)
Definition tw_extract (tw_map : M) (now : Z) (s : tw_state) (cont : bool)
  : option X * M * bool * tw_state :=
  let now := now / SLOT_WIDTH_NS in
  let '(r, cont, front) := tw_extract_loop 16 tw_map now (front_timestamp s) cont in
  let s := s <| front_timestamp := front |> in
  match r with
  | Some (x, tw_map) => (Some x, tw_map, cont, s)
  | None => (None, tw_map, cont, s)
  end.

(** Outcome of the three kernel calls [tw_cb] makes on a frame. *)
Context (dynptr_ok slice_ok send_ok : X -> bool) (stamp : Z -> X -> X).

(** The loop of [tw_cb], leaving after [TW_BATCH_SIZE] rounds; returns the
    frames sent, in order. *)
Fixpoint tw_cb_loop (fuel : nat) (tw_map : M) (now : Z) (s : tw_state) (cont : bool)
  : list X * M * tw_state :=
  match fuel with
  | O => ([], tw_map, s)
  | S fuel =>
    let '(xdpf, tw_map, cont, s) := tw_extract tw_map now s cont in
    match xdpf with
    | None => if negb cont then ([], tw_map, s) else tw_cb_loop fuel tw_map now s cont
    | Some x =>
      if negb (dynptr_ok x) then ([], tw_map, s) else
      if negb (slice_ok x) then ([], tw_map, s) else
      let x := stamp (u32 now) x in
      if negb (send_ok x) then ([], tw_map, s) else
      let s := s <| nr_pkts_in_tw := u32 (nr_pkts_in_tw s - 1) |> in
      let '(sent, tw_map, s) := tw_cb_loop fuel tw_map now s cont in
      (x :: sent, tw_map, s)
    end
  end.

(** [tw_cb]: the frames sent, whether they were flushed, and the new state.
    [tw_map] is the wheel that [tw_outer_map] holds for the CPU; where the
    control plane has put none the callback does nothing. *)
Definition tw_cb (cpu : Z) (tw_map : M) (now : Z) (s : tw_state)
  : list X * bool * M * tw_state :=
  if cpu >=? MAX_CPU then ([], false, tw_map, s) else
  let old_v := nr_pkts_in_tw s in
  let s := s <| has_kick := false |> in
  let '(sent, tw_map, s) := tw_cb_loop TW_BATCH_SIZE tw_map now s false in
  let flush := negb (nr_pkts_in_tw s =? old_v) in
  let s := if nz (nr_pkts_in_tw s) then kick_tw cpu s else s in
  (sent, flush, tw_map, s).
End Wheel.

(** ** The wheel invariant

    [slot_of] is the absolute slot a frame was inserted for (the value
    [tw_slot] computed).  Every queued frame sits in the bucket of its slot,
    and all slots lie within one turn of the wheel from the front. *)
Section Invariant.
Context {M X : Type} `{PktQueueLaws M X}.
Context (slot_of : X -> Z).

Record wheel_inv (m : M) (front : Z) : Prop := {
  wi_front : 0 < front < 9223372036854775808;
  wi_place : forall b x, x ∈ pq_view m b -> b = slot_of x mod MAX_BUCKETS;
  wi_turn : forall b x, x ∈ pq_view m b ->
    front <= slot_of x < front + MAX_BUCKETS
}.

Lemma tw_slot_range front ts :
  0 < front < 9223372036854775808 -> 0 <= ts ->
  front <= tw_slot front ts < front + MAX_BUCKETS /\
  tw_slot front ts = Z.max front (Z.min (ts / SLOT_WIDTH_NS) (front + MAX_BUCKETS - 1)).
Proof.
  unfold tw_slot, MAX_BUCKETS. intros Hf Ht.
  rewrite u64_small by mach_lia.
  destruct (Z.leb_spec (ts / SLOT_WIDTH_NS) front); [lia|].
  destruct (Z.gtb_spec (ts / SLOT_WIDTH_NS) (front + 50000 - 1)); lia.
Qed.

(** A frame at the bucket of the front has the front as its slot. *)
Lemma wheel_front_slot m front x : wheel_inv m front ->
  x ∈ pq_view m (front mod MAX_BUCKETS) -> slot_of x = front.
Proof.
  intros [Hf Hp Ht] Hx. specialize (Hp _ _ Hx). specialize (Ht _ _ Hx).
  unfold MAX_BUCKETS in *. lia.
Qed.

Lemma wheel_inv_enqueue m front x : wheel_inv m front ->
  front <= slot_of x < front + MAX_BUCKETS ->
  wheel_inv (pkt_queue_enqueue m x (slot_of x mod MAX_BUCKETS)) front.
Proof.
  intros [Hf Hp Ht] Hx. split; [done| |].
  - intros b y. rewrite pq_enqueue_view. case_decide as Hb; [|by apply Hp].
    rewrite elem_of_app, list_elem_of_singleton. intros [Hy|Hy]; subst; [|done].
    by apply Hp.
  - intros b y. rewrite pq_enqueue_view. case_decide as Hb; [|by apply Ht].
    rewrite elem_of_app, list_elem_of_singleton. intros [Hy|Hy]; subst; [|done].
    by apply (Ht _ _ Hy).
Qed.

(** Skipping an empty bucket keeps the invariant. *)
Lemma wheel_inv_skip m front : wheel_inv m front -> front + 1 < 9223372036854775808 ->
  pq_view m (front mod MAX_BUCKETS) = [] -> wheel_inv m (front + 1).
Proof.
  intros [Hf Hp Ht] Hb He. split; [lia|done|].
  intros b x Hx. specialize (Ht _ _ Hx). specialize (Hp _ _ Hx).
  destruct (Z.eq_dec (slot_of x) front) as [E|E]; [|lia].
  rewrite E in Hp. subst b. rewrite He in Hx. by apply not_elem_of_nil in Hx.
Qed.

Lemma front_idx front : u32 (front mod MAX_BUCKETS) = front mod MAX_BUCKETS.
Proof. unfold MAX_BUCKETS. mach_lia. Qed.

(** Taking the head of the front bucket. *)
Lemma wheel_dequeue m front : wheel_inv m front ->
  pkt_queue_empty m (front mod MAX_BUCKETS) = false ->
  exists x m', pkt_queue_dequeue m (front mod MAX_BUCKETS) = Some (x, m') /\
    slot_of x = front /\ wheel_inv m' front /\
    forall b y, y ∈ pq_view m b <-> (y = x /\ b = front mod MAX_BUCKETS) \/ y ∈ pq_view m' b.
Proof.
  intros Hinv He. set (i := front mod MAX_BUCKETS) in *.
  destruct (pq_view m i) as [|x l] eqn:Hv.
  { apply pq_empty_view in Hv. congruence. }
  destruct (pq_dequeue_view m i x l Hv) as (m' & Hd & Hi & Hj).
  exists x, m'. assert (Hsub : forall b y,
    y ∈ pq_view m b <-> (y = x /\ b = i) \/ y ∈ pq_view m' b).
  { intros b y. destruct (Z.eq_dec b i) as [->|Hb].
    - rewrite Hi, Hv, elem_of_cons. tauto.
    - rewrite Hj by done. tauto. }
  assert (Hx : x ∈ pq_view m i) by (rewrite Hv; by constructor).
  split_and!; [done|by apply (wheel_front_slot m)| |done].
  destruct Hinv as [Hf Hp Ht]. split; [done| |]; intros b y Hy;
    [apply Hp|apply (Ht b)]; apply Hsub; by right.
Qed.

(** [tw_extract_loop] keeps the wheel invariant and only takes a frame whose
    slot is the front, which is not later than the present. *)
Lemma tw_extract_loop_inv fuel : forall m now front c0,
  wheel_inv m front -> now + 1 < 9223372036854775808 ->
  let '(r, cont, front') := tw_extract_loop fuel m now front c0 in
  front <= front' /\
  match r with
  | Some (x, m') => wheel_inv m' front' /\ slot_of x = front' /\ front' <= now /\
      (exists i, forall b y, y ∈ pq_view m b <-> (y = x /\ b = i) \/ y ∈ pq_view m' b)
  | None => wheel_inv m front' /\ (cont = false -> now < front') /\
      (cont = true -> front' <= now /\ front' = front + Z.of_nat fuel)
  end.
Proof.
  induction fuel as [|fuel IH]; intros m now front c0 Hinv Hnow; cbn [tw_extract_loop].
  { destruct (Z.geb_spec now front); split_and!; auto; try lia; discriminate. }
  destruct (Z.geb_spec now front) as [Hn|Hn];
    [|split_and!; auto; try lia; discriminate].
  rewrite front_idx. destruct (pkt_queue_empty _ _) eqn:He.
  - apply pq_empty_view in He. pose proof (wi_front _ _ Hinv).
    rewrite u64_small by mach_lia.
    specialize (IH m now (front + 1) c0 (wheel_inv_skip m front Hinv ltac:(lia) He) Hnow).
    destruct (tw_extract_loop fuel m now (front + 1) c0) as [[[[x m']|] c] f'];
      destruct IH as [Hle IH]; (split; [lia|]); [done|].
    destruct IH as (? & ? & Hc). split_and!; auto; intros E; destruct (Hc E); lia.
  - destruct (wheel_dequeue m front Hinv He) as (x & m' & -> & Hs & Hi & Hsub).
    split; [lia|]. split_and!; eauto.
Qed.

(** Everything still queued after an extraction is due no earlier. *)
Lemma wheel_inv_min m front b y : wheel_inv m front -> y ∈ pq_view m b -> front <= slot_of y.
Proof. intros [_ _ Ht] Hy. specialize (Ht _ _ Hy). lia. Qed.
End Invariant.

(** ** An instance of the packet queues *)

#[export] Instance gmap_pkt_queue {X} : PktQueue (gmap Z (list X)) X := {
  pkt_queue_empty := fun m i => match m !! i with Some (_ :: _) => false | _ => true end;
  pkt_queue_dequeue := fun m i =>
    match m !! i with Some (x :: l) => Some (x, <[i := l]> m) | _ => None end;
  pkt_queue_enqueue := fun m x i => <[i := default [] (m !! i) ++ [x]]> m;
  pq_view := fun m i => default [] (m !! i)
}.

#[export] Instance gmap_pkt_queue_laws {X} : PktQueueLaws (gmap Z (list X)) X.
Proof.
  split; cbn.
  - intros m i. destruct (m !! i) as [[|]|]; cbn; split; congruence.
  - intros m i x l. destruct (m !! i) as [[|y k]|] eqn:E; cbn; try discriminate.
    intros [= -> ->]. eexists. split_and!; [done|by rewrite lookup_insert_eq|].
    intros j Hj. by rewrite lookup_insert_ne.
  - intros m i x j. case_decide as Hj; [subst; by rewrite lookup_insert_eq|].
    by rewrite lookup_insert_ne.
Qed.

(** ** Theorems *)

(** [tw_insert] never indexes outside the wheel, and the slot it chooses is
    the slot of the departure time clamped to the turn that starts at the
    front: a late packet goes to the front bucket, a packet beyond the horizon
    to the last one; queueing the frame in the returned bucket keeps every
    frame of the wheel in the bucket of its slot. *)
Theorem tw_insert_places {M X : Type} `{PktQueueLaws M X} (slot_of : X -> Z)
  (cpu ts ktime : Z) (s : tw_state) (m : M) (x : X)
  (Hcpu : 0 <= cpu < MAX_CPU) (Hts : 0 <= ts)
  (Hinv : wheel_inv slot_of m (front_timestamp s))
  (Hx : slot_of x = tw_slot (front_timestamp s) ts) :
  let '(idx, s') := tw_insert cpu ts ktime s in
  0 <= idx < MAX_BUCKETS /\ front_timestamp s' = front_timestamp s /\
  slot_of x = Z.max (front_timestamp s)
                (Z.min (ts / SLOT_WIDTH_NS) (front_timestamp s + MAX_BUCKETS - 1)) /\
  wheel_inv slot_of (pkt_queue_enqueue m x idx) (front_timestamp s').
Proof.
  unfold tw_insert. unfold MAX_CPU in *.
  pose proof (wi_front _ _ _ Hinv) as Hf.
  destruct (Z.geb_spec cpu 20); [lia|].
  destruct (Z.eqb_spec (front_timestamp s) 0); [lia|]. cbn.
  destruct (tw_slot_range (front_timestamp s) ts Hf Hts) as [Hr He].
  rewrite front_idx, <- Hx. split_and!; [| |done|congruence|].
  1,2: unfold MAX_BUCKETS in *; lia.
  apply wheel_inv_enqueue; [done|lia].
Qed.

Definition tw_ex : tw_state := mk_tw_state 100 0 false false 0.

Lemma wheel_inv_empty {X} (slot_of : X -> Z) front : 0 < front < 9223372036854775808 ->
  wheel_inv slot_of (∅ : gmap Z (list X)) front.
Proof.
  intros Hf. split; [done| |]; intros b x Hx; cbn in Hx;
    rewrite lookup_empty in Hx; by apply not_elem_of_nil in Hx.
Qed.

Lemma tw_insert_places_witness :
  0 <= fst (tw_insert 3 25000000000 0 tw_ex) < MAX_BUCKETS /\
  tw_slot 100 25000000000 = 50099.
Proof.
  pose proof (tw_insert_places (fun x : Z => x) 3 25000000000 0 tw_ex
    (∅ : gmap Z (list Z)) (tw_slot 100 25000000000)
    ltac:(unfold MAX_CPU; lia) ltac:(lia)
    (wheel_inv_empty (fun x : Z => x) 100 ltac:(lia)) eq_refl) as H.
  destruct (tw_insert 3 25000000000 0 tw_ex) as [idx s']. destruct H as (H & _ & H' & _).
  exact (conj H H').
Defined.

Lemma tw_extract_spec {M X : Type} `{PktQueueLaws M X} (slot_of : X -> Z)
  (m : M) (now : Z) (s : tw_state) (cont : bool) :
  wheel_inv slot_of m (front_timestamp s) -> now / SLOT_WIDTH_NS + 1 < 9223372036854775808 ->
  let '(r, m', cont', s') := tw_extract m now s cont in
  front_timestamp s <= front_timestamp s' /\
  wheel_inv slot_of m' (front_timestamp s') /\
  nr_pkts_in_tw s' = nr_pkts_in_tw s /\
  match r with
  | Some x => slot_of x = front_timestamp s' /\ front_timestamp s' <= now / SLOT_WIDTH_NS /\
      exists i, forall b y, y ∈ pq_view m b <-> (y = x /\ b = i) \/ y ∈ pq_view m' b
  | None => m' = m /\ (cont' = false -> now / SLOT_WIDTH_NS < front_timestamp s') /\
      (cont' = true -> front_timestamp s' = front_timestamp s + 16)
  end.
Proof.
  intros Hinv Hnow. unfold tw_extract.
  pose proof (tw_extract_loop_inv slot_of 16 m (now / SLOT_WIDTH_NS) (front_timestamp s)
    cont Hinv Hnow) as Hl.
  destruct (tw_extract_loop _ _ _ _ _) as [[[[x m']|] c] f']; cbn in *.
  - destruct Hl as (? & ? & ? & ? & ?). by split_and!.
  - destruct Hl as (? & ? & ? & Hc). split_and!; auto. intros E. by destruct (Hc E).
Qed.

(** C35. [tw_extract] never releases a packet before its slot, releases packets
    in slot order, and makes progress: the frame it returns has the smallest
    slot of all queued frames and that slot has been reached; when it returns
    none, either no queued frame is due, or it has moved the front past 16
    empty buckets and tells its caller to call again. *)
Theorem tw_extract_paces {M X : Type} `{PktQueueLaws M X} (slot_of : X -> Z)
  (m : M) (now : Z) (s : tw_state) (cont : bool)
  (Hinv : wheel_inv slot_of m (front_timestamp s))
  (Hnow : now / SLOT_WIDTH_NS + 1 < 9223372036854775808) :
  let '(r, m', cont', s') := tw_extract m now s cont in
  wheel_inv slot_of m' (front_timestamp s') /\
  match r with
  | Some x => slot_of x <= now / SLOT_WIDTH_NS /\
      (forall b y, y ∈ pq_view m b -> slot_of x <= slot_of y) /\
      exists i, forall b y, y ∈ pq_view m b <-> (y = x /\ b = i) \/ y ∈ pq_view m' b
  | None => if cont' then front_timestamp s' = front_timestamp s + 16
            else forall b y, y ∈ pq_view m b -> now / SLOT_WIDTH_NS < slot_of y
  end.
Proof.
  pose proof (tw_extract_spec slot_of m now s cont Hinv Hnow) as Hl.
  destruct (tw_extract m now s cont) as [[[[x|] m'] c] s'].
  - destruct Hl as (Hle & Hi & _ & Hs & Hn & i & Hb).
    split_and!; [done|lia| |by exists i].
    intros b y Hy. apply Hb in Hy as [[-> _]|Hy]; [lia|].
    rewrite Hs. by apply (wheel_inv_min slot_of m' _ b).
  - destruct Hl as (Hle & Hi & _ & -> & Hf & Ht). split; [done|].
    destruct c; [auto|]. intros b y Hy. specialize (Hf eq_refl).
    pose proof (wheel_inv_min slot_of m (front_timestamp s') b y Hi Hy). lia.
Qed.

Definition wheel_ex : gmap Z (list Z) := {[102 := [102; 102]]}.

Lemma wheel_ex_inv : wheel_inv (fun x : Z => x) wheel_ex 100.
Proof.
  assert (Hv : forall b x, x ∈ pq_view wheel_ex b -> x = 102 /\ b = 102).
  { intros b x. cbn. unfold wheel_ex. rewrite lookup_singleton. case_decide as E; cbn.
    - rewrite !elem_of_cons. intros [?|[?|Hx%not_elem_of_nil]]; by subst.
    - by intros Hx%not_elem_of_nil. }
  split; [lia| |]; intros b x [-> ->]%Hv; [reflexivity|unfold MAX_BUCKETS; lia].
Qed.

Lemma tw_extract_paces_witness :
  match tw_extract wheel_ex 51500 tw_ex false with
  | (Some x, _, _, _) => x <= 103
  | (None, _, _, _) => False
  end.
Proof.
  pose proof (tw_extract_paces (fun x : Z => x) wheel_ex 51500 tw_ex false
    wheel_ex_inv ltac:(unfold SLOT_WIDTH_NS; lia)) as H.
  vm_compute in H. exact (proj1 (proj2 H)).
Defined.

(** ** The timer callback *)
Section Callback.
Context {M X : Type} `{PktQueueLaws M X}.
Context (slot_of : X -> Z) (dynptr_ok slice_ok send_ok : X -> bool) (stamp : Z -> X -> X).

Definition due_in_order (lo now : Z) (xs : list X) : Prop :=
  StronglySorted (fun a b => slot_of a <= slot_of b) xs /\
  Forall (fun x => lo <= slot_of x <= now / SLOT_WIDTH_NS) xs.

Lemma due_in_order_nil lo now : due_in_order lo now [].
Proof. split; constructor. Qed.

Lemma due_in_order_weaken lo lo' now xs :
  lo <= lo' -> due_in_order lo' now xs -> due_in_order lo now xs.
Proof.
  intros Hl [Hs Hf]. split; [done|]. eapply Forall_impl; [|exact Hf]. cbn. lia.
Qed.

Lemma due_in_order_cons lo now x xs : lo <= slot_of x <= now / SLOT_WIDTH_NS ->
  due_in_order (slot_of x) now xs -> due_in_order lo now (x :: xs).
Proof.
  intros Hx [Hs Hf]. split.
  - constructor; [done|]. eapply Forall_impl; [|exact Hf]. cbn. lia.
  - constructor; [done|]. eapply Forall_impl; [|exact Hf]. cbn. lia.
Qed.

Lemma tw_extract_frame (m : M) now s cont :
  let '(_, _, _, s') := tw_extract m now s cont in
  has_kick s' = has_kick s /\ timer_starts s' = timer_starts s.
Proof.
  unfold tw_extract. destruct (tw_extract_loop _ _ _ _ _) as [[[[x m']|] c] f]; done.
Qed.

Lemma tw_cb_loop_frame fuel : forall (m : M) now s cont,
  let '(_, _, s') := tw_cb_loop dynptr_ok slice_ok send_ok stamp fuel m now s cont in
  has_kick s' = has_kick s /\ timer_starts s' = timer_starts s.
Proof.
  induction fuel as [|fuel IH]; intros m now s cont; cbn [tw_cb_loop]; [done|].
  pose proof (tw_extract_frame m now s cont) as He.
  destruct (tw_extract m now s cont) as [[[r m1] c1] s1]. destruct He as [<- <-].
  destruct r as [x|].
  - repeat (destruct (negb _); [done|]).
    specialize (IH m1 now (s1 <| nr_pkts_in_tw := u32 (nr_pkts_in_tw s1 - 1) |>) c1).
    by destruct (tw_cb_loop _ _ _ _ fuel _ _ _ _) as [[sent m'] s'].
  - destruct (negb c1); [done|]. apply IH.
Qed.

Lemma tw_cb_loop_spec fuel : forall (m : M) now s cont,
  wheel_inv slot_of m (front_timestamp s) -> in32 (nr_pkts_in_tw s) ->
  now / SLOT_WIDTH_NS + 1 < 9223372036854775808 ->
  let '(sent, m', s') := tw_cb_loop dynptr_ok slice_ok send_ok stamp fuel m now s cont in
  exists xs, sent = stamp (u32 now) <$> xs /\ (length xs <= fuel)%nat /\
    due_in_order (front_timestamp s) now xs /\
    wheel_inv slot_of m' (front_timestamp s') /\
    nr_pkts_in_tw s' = u32 (nr_pkts_in_tw s - Z.of_nat (length xs)).
Proof.
  induction fuel as [|fuel IH]; intros m now s cont Hinv Hnr Hnow; cbn [tw_cb_loop].
  { exists []. split_and!; [done|done|apply due_in_order_nil|done|]. cbn. mach_lia. }
  pose proof (tw_extract_spec slot_of m now s cont Hinv Hnow) as He.
  destruct (tw_extract m now s cont) as [[[r m1] c1] s1].
  destruct He as (Hle & Hi & Hn & He).
  assert (Hstop : exists xs, [] = stamp (u32 now) <$> xs /\ (length xs <= S fuel)%nat /\
    due_in_order (front_timestamp s) now xs /\
    wheel_inv slot_of m1 (front_timestamp s1) /\
    nr_pkts_in_tw s1 = u32 (nr_pkts_in_tw s - Z.of_nat (length xs))).
  { exists []. split_and!; [done|cbn; lia|apply due_in_order_nil|done|].
    rewrite Hn. cbn. mach_lia. }
  destruct r as [x|].
  - repeat (destruct (negb _); [exact Hstop|]).
    destruct He as (Hs & Hd & _).
    set (s2 := s1 <| nr_pkts_in_tw := u32 (nr_pkts_in_tw s1 - 1) |>).
    specialize (IH m1 now s2 c1 Hi (u32_range _) Hnow).
    destruct (tw_cb_loop _ _ _ _ fuel _ _ _ _) as [[sent m'] s'].
    destruct IH as (xs & -> & Hlen & Hord & Hw & Hn'). cbn in Hord, Hn'.
    exists (x :: xs). split_and!; [done|cbn; lia| |done|].
    + apply due_in_order_cons; [lia|]. by rewrite Hs.
    + rewrite Hn', Hn. cbn [length]. u32_norm. f_equal. lia.
  - destruct (negb c1); [exact Hstop|].
    specialize (IH m1 now s1 c1 Hi ltac:(by rewrite Hn) Hnow).
    destruct (tw_cb_loop _ _ _ _ fuel _ _ _ _) as [[sent m'] s'].
    destruct IH as (xs & -> & Hlen & Hord & Hw & Hn').
    exists xs. split_and!; [done|lia| |done|by rewrite <- Hn].
    by apply (due_in_order_weaken _ (front_timestamp s1)).
Qed.

(** One run of the timer callback: it sends at most 32 packets, each
    stamped with the current time, none before its slot and all in slot order;
    the wheel invariant is kept, the packet counter drops by the number sent,
    the batch is flushed exactly when something was sent, and the timer is
    started again exactly when the counter says packets remain. *)
Theorem tw_cb_batch (cpu : Z) (m : M) (now : Z) (s : tw_state)
  (Hcpu : 0 <= cpu < MAX_CPU) (Hinv : wheel_inv slot_of m (front_timestamp s))
  (Hnr : in32 (nr_pkts_in_tw s))
  (Hnow : now / SLOT_WIDTH_NS + 1 < 9223372036854775808) :
  let '(sent, flush, m', s') := tw_cb dynptr_ok slice_ok send_ok stamp cpu m now s in
  exists xs, sent = stamp (u32 now) <$> xs /\ (length xs <= 32)%nat /\
    due_in_order (front_timestamp s) now xs /\
    wheel_inv slot_of m' (front_timestamp s') /\
    nr_pkts_in_tw s' = u32 (nr_pkts_in_tw s - Z.of_nat (length xs)) /\
    flush = negb (bool_decide (length xs = 0%nat)) /\
    has_kick s' = nz (nr_pkts_in_tw s') /\
    timer_starts s' = timer_starts s + b2z (nz (nr_pkts_in_tw s')).
Proof.
  unfold tw_cb. destruct (Z.geb_spec cpu MAX_CPU); [lia|].
  set (s0 := s <| has_kick := false |>).
  pose proof (tw_cb_loop_spec TW_BATCH_SIZE m now s0 false Hinv Hnr Hnow) as Hl.
  pose proof (tw_cb_loop_frame TW_BATCH_SIZE m now s0 false) as Hf.
  destruct (tw_cb_loop _ _ _ _ TW_BATCH_SIZE m now s0 false) as [[sent m'] s1].
  destruct Hl as (xs & -> & Hlen & Hord & Hw & Hn), Hf as [Hk Ht].
  cbn in Hord, Hn, Hlen, Hk, Ht. unfold TW_BATCH_SIZE in Hlen. exists xs.
  assert (Hfl : negb (nr_pkts_in_tw s1 =? nr_pkts_in_tw s) = negb (bool_decide (length xs = 0%nat))).
  { f_equal. rewrite Hn. apply eq_true_iff_eq. rewrite Z.eqb_eq, bool_decide_eq_true. mach_lia. }
  destruct (nz (nr_pkts_in_tw s1)) eqn:Hnz.
  - unfold kick_tw. rewrite Hk. destruct (Z.geb_spec cpu MAX_CPU); [lia|].
    destruct (negb (twt_ready _)); cbn; rewrite Hnz; split_and!; auto; cbn; lia.
  - rewrite Hnz. split_and!; auto; cbn; lia.
Qed.
End Callback.

Lemma tw_cb_batch_witness :
  match tw_cb (fun _ => true) (fun _ => true) (fun _ => true) (fun _ x => x) 3 wheel_ex 51500
    (tw_ex <| nr_pkts_in_tw := 2 |>) with
  | (sent, _, _, _) => exists xs, sent = xs /\ (length xs <= 32)%nat /\ sent = [102; 102]
  end.
Proof.
  pose proof (tw_cb_batch (fun x : Z => x) (fun _ => true) (fun _ => true) (fun _ => true)
    (fun _ x => x) 3 wheel_ex 51500 (tw_ex <| nr_pkts_in_tw := 2 |>)
    ltac:(unfold MAX_CPU; lia) wheel_ex_inv ltac:(cbn; unfold in32; lia)
    ltac:(unfold SLOT_WIDTH_NS; lia)) as H.
  destruct (tw_cb _ _ _ _ _ _ _ _) as [[[sent fl] m'] s'] eqn:E.
  destruct H as (xs & -> & Hl & _). exists xs. split_and!; [by rewrite list_fmap_id|done|].
  apply (f_equal (fun p => fst (fst (fst p)))) in E. cbn [fst] in E. by rewrite <- E.
Defined.
