(* ===== verification/EtranTcp.v ===== *)
(** The TCP fast path of the eTran build ([eBPF/tcp/tcp.h] without [MTP_ON],
    with [OOO_RECV], [ACK_COALESCING] and [BYPASS_RL] as [intf_ebpf.h] defines
    them): [tcp_tx_process] for a packet an application or the microkernel
    submits, and [tcp_rx_process] for a packet from the network.

    Each handler runs under the connection's spin lock, so it is one function
    from the state before to the state after.  A [goto unlock] is the
    constructor [Unlock] of [flow]; clock reads and map lookups are arguments.
    Division by [cc->rate] follows eBPF: a division by zero yields zero. *)
From S2P Require Import Prelude Intf Seq Headers AckQueue Pacing.
Local Open Scope Z_scope.
Local Open Scope u32_scope.

(** ** Transmission *)

(** What a handler reads of its CPU: its number, the clock at the two places
    where it is read, [tx_cached_ts] and whether [tw_outer_map] has a wheel. *)
Record tx_env := mk_tx_env {
  te_cpu : Z;
  te_ktime : Z;
  te_ktime_tw : Z;
  te_tx_cached_ts : Z;
  te_tw_map : bool
}.

(** Everything [tcp_tx_process] may change, and its result.  [to_bucket] is
    the bucket handed to [bpf_redirect_map]. *)
Record tx_out := mk_tx_out {
  to_action : xdp_action;
  to_bucket : option Z;
  to_frame : frame;
  to_conn : bpf_tcp_conn;
  to_cc : option bpf_cc;
  to_meta : rx_meta;
  to_tw : tw_state
}.

#[export] Instance eta_tx_out : Eta tx_out := fun r => mk_tx_out
  (to_action r) (to_bucket r) (to_frame r) (to_conn r) (to_cc r) (to_meta r) (to_tw r).

(** [ref_ts]: the time a packet is paced against. *)
Definition tx_ref_ts (e : tx_env) (s : tw_state) : Z :=
  if negb (has_kick s) then te_ktime e else te_tx_cached_ts e.

(** [cc_get_desired_tx_ts] *)
Definition cc_get_desired_tx_ts (cc : bpf_cc) (ref_ts payload_len : Z) : Z * bpf_cc :=
  let ns_delta := u64 (1000000000 * payload_len) / cc_rate cc in
  let desired_tx_ts := u64 (cc_prev_desired_tx_ts cc + ns_delta) in
  let desired_tx_ts := Z.max ref_ts desired_tx_ts in
  (desired_tx_ts, cc <| cc_prev_desired_tx_ts := desired_tx_ts |>).

(** [fast_retransmit] *)
Definition fast_retransmit (c : bpf_tcp_conn) (cc : bpf_cc) : Z * bpf_tcp_conn * bpf_cc :=
  let go_back_bytes := tx_sent c in
  let c := c <| rx_dupack_cnt := 0 |> in
  let c := c <| tx_next_seq := tx_next_seq c ⊖ go_back_bytes |> in
  let c := c <| tx_next_pos := ring_back (tx_buf_size c) (tx_next_pos c) go_back_bytes |> in
  let c := c <| tx_pending := 0 |> in
  let c := c <| rx_remote_avail := rx_remote_avail c ⊕ go_back_bytes |> in
  let c := c <| tx_sent := 0 |> in
  let cc := cc <| cc_txp := 0 |> in
  let cc := if cc_cnt_tx_drops cc =? 0
            then cc <| cc_rate := Z.shiftr (cc_rate cc) 1 |> else cc in
  let cc := cc <| cc_cnt_tx_drops := u16 (cc_cnt_tx_drops cc + 1) |> in
  (tx_next_pos c, c, cc).

Section Transmit.
(** The value [bpf_redirect_map] returns for a bucket of the wheel. *)
Context (tw_redirect : Z -> xdp_action).

(** The end of [tcp_tx_process], common to both builds: bypass the rate
    limiter or put the packet into the timing wheel.  [only_packet] is the
    test that nothing but this packet is in flight. *)
Definition tx_depart (e : tx_env) (desired_tx_ts ref_ts : Z) (only_packet : bool)
    (o : tx_out) (cc : bpf_cc) : tx_out :=
  if (cc_rate cc >=? LINK_BANDWIDTH) && negb (nz (nr_pkts_in_tw (to_tw o)))
  then o <| to_action := XDP_TX |> else
  if (negb (nz (nr_pkts_in_tw (to_tw o))) || only_packet) && (desired_tx_ts <=? ref_ts)
  then o <| to_action := XDP_TX |> else
  if negb (te_tw_map e) then o <| to_action := XDP_DROP |> else
  let '(idx, s) := tw_insert (te_cpu e) desired_tx_ts (te_ktime_tw e) (to_tw o) in
  let o := o <| to_tw := s |> in
  if idx =? POISON_32 then o <| to_action := XDP_DROP |> else
  o <| to_action := tw_redirect idx |> <| to_bucket := Some idx |>.

(** Receive-buffer space released by the application ([rx_bump]); the result
    says whether a window update is due. *)
Definition tx_rx_bump (rx_bump : Z) (c : bpf_tcp_conn) : bool * bpf_tcp_conn :=
  if nz rx_bump
  then (tx_pending c =? 0, c <| rx_avail := rx_avail c ⊕ rx_bump |>)
  else (false, c).

(** A pure synchronisation packet: dropped, or turned into a window update. *)
Definition tx_sync (wnd_upd : bool) (ref_ts : Z) (o : tx_out) : tx_out :=
  if wnd_upd then
    let f := fill_tcp_hdr (to_frame o) (to_conn o) ref_ts TCP_FLAG_ACK in
    let f := f <| f_ip := fill_ip_hdr (f_ip f) 0 false |> in
    o <| to_frame := f |> <| to_action := XDP_TX |>
  else o <| to_action := XDP_DROP |>.

(** A timeout packet from the slow path (eTran build). *)
Definition tx_timeout (o : tx_out) (cc : bpf_cc) : tx_out :=
  let c := to_conn o in
  if negb (nz (tx_sent c)) then o <| to_action := XDP_DROP |> else
  let '(pos, c, cc) := fast_retransmit c cc in
  let m := to_meta o in
  let m := m <| mrx_ack_bytes := pos |> in
  let m := m <| mrx_qid := POISON_32 |> in
  let m := m <| mrx_conn := opaque_connection c |> in
  let m := m <| mrx_rx_pos := POISON_32 |> in
  let m := m <| mrx_poff := POISON_16 |> in
  let m := m <| mrx_plen := POISON_16 |> in
  let m := m <| mrx_xsk_budget_avail := xsk_budget_avail c |> in
  let m := m <| mrx_ack_bytes := Z.lor (mrx_ack_bytes m) RECOVERY_MASK |> in
  let m := m <| mrx_ooo_bump := POISON_32 |> in
  o <| to_conn := c |> <| to_cc := Some cc |> <| to_meta := m |> <| to_action := XDP_PASS |>.

(** The connection and control-block updates for one data packet. *)
Definition etran_send (payload_len : Z) (c : bpf_tcp_conn) (cc : bpf_cc)
  : bpf_tcp_conn * bpf_cc :=
  let c := c <| tx_next_seq := tx_next_seq c ⊕ payload_len |> in
  let c := c <| tx_sent := tx_sent c ⊕ payload_len |> in
  let cc := cc <| cc_txp := b2z (tx_sent c >? 0) |> in
  let c := c <| tx_pending := tx_pending c ⊖ payload_len |> in
  let c := c <| tx_next_pos := ring_adv (tx_buf_size c) (tx_next_pos c) payload_len |> in
  (c, cc).

(** [tcp_tx_process] without [MTP_ON]. *)
Definition etran_tx_process (e : tx_env) (t : tx_meta) (f : frame) (c : bpf_tcp_conn)
    (cc : option bpf_cc) (m : rx_meta) (s : tw_state) : tx_out :=
  let o := mk_tx_out XDP_DROP None f c cc m s in
  if te_cpu e >=? MAX_CPU then o else
  let payload_len := mtx_plen t in
  let ref_ts := tx_ref_ts e s in
  match cc with
  | None => o
  | Some cc =>
    if nz (Z.land (mtx_flag t) FLAG_TO) then tx_timeout o cc else
    let '(wnd_upd, c) := tx_rx_bump (mtx_rx_bump t) c in
    let o := o <| to_conn := c |> in
    if nz (Z.land (mtx_flag t) FLAG_SYNC) then tx_sync wnd_upd ref_ts o else
    if negb (mtx_tx_pos t =? tx_next_pos c) then o <| to_action := XDP_DROP |> else
    let '(desired_tx_ts, cc) := cc_get_desired_tx_ts cc ref_ts payload_len in
    let c := if nz (mtx_tx_pending t)
             then c <| tx_pending := tx_pending c ⊕ mtx_tx_pending t |> else c in
    let f := fill_tcp_hdr f c desired_tx_ts 0 in
    let f := f <| f_ip := fill_ip_hdr (f_ip f) payload_len (nz (ecn_enable c)) |> in
    let '(c, cc) := etran_send payload_len c cc in
    let o := o <| to_frame := f |> <| to_conn := c |> <| to_cc := Some cc |> in
    tx_depart e desired_tx_ts ref_ts (tx_sent c =? payload_len) o cc
  end.
End Transmit.

(** ** Reception *)

(** The local variables of [tcp_rx_process] that outlive one stage. *)
Record rx_vars := mk_rx_vars {
  v_payload_off : Z;
  v_payload_len : Z;
  v_seq : Z;
  v_trigger_ack : bool;
  v_go_back_pos : Z;
  v_rx_bump : Z;
  v_tx_bump : Z;
  v_clear_ooo : bool
}.

#[export] Instance eta_rx_vars : Eta rx_vars := fun r => mk_rx_vars
  (v_payload_off r) (v_payload_len r) (v_seq r) (v_trigger_ack r) (v_go_back_pos r)
  (v_rx_bump r) (v_tx_bump r) (v_clear_ooo r).

(** Connection, control block, metadata and locals. *)
Record rx_st := mk_rx_st {
  rs_c : bpf_tcp_conn;
  rs_cc : bpf_cc;
  rs_m : rx_meta;
  rs_v : rx_vars
}.

#[export] Instance eta_rx_st : Eta rx_st := fun r =>
  mk_rx_st (rs_c r) (rs_cc r) (rs_m r) (rs_v r).

(** How a stage ends: it falls through to the next one, or [goto unlock]. *)
Inductive flow : Type := Fall (s : rx_st) | Unlock (s : rx_st).

Definition flow_st (x : flow) : rx_st := match x with Fall s | Unlock s => s end.

(** [a ;; b]: stage [b] after stage [a], unless [a] jumps. *)
Definition flow_bind (x : flow) (k : rx_st -> flow) : flow :=
  match x with Fall s => k s | Unlock s => Unlock s end.

(** [(bpf_ntohs(tcph->window)) << TCP_WND_SCALE] *)
Definition scaled_window (t : tcphdr) : Z := Z.shiftl (bpf_ntohs (th_window t)) TCP_WND_SCALE.

(** Acknowledgement processing, lines 634 to 673. *)
Definition rx_ack_stage (t : tcphdr) (s : rx_st) : flow :=
  if negb (th_ack t) then Fall s else
  let s := s <| rs_cc ::= fun cc => cc <| cc_cnt_rx_acks := u16 (cc_cnt_rx_acks cc + 1) |> |> in
  match tcp_valid_rxack (rs_c s) (bpf_ntohl (th_ack_seq t)) with
  | None => Unlock (s <| rs_v ::= fun v => v <| v_trigger_ack := false |> |>)
  | Some tx_bump =>
    if tx_bump >? tx_sent (rs_c s) then
      Unlock (s <| rs_v ::= fun v => v <| v_tx_bump := 0 |> <| v_trigger_ack := false |> |>)
    else
    let s := s <| rs_v ::= fun v => v <| v_tx_bump := tx_bump |> |> in
    let cc := rs_cc s in
    let cc := cc <| cc_cnt_rx_ack_bytes := cc_cnt_rx_ack_bytes cc ⊕ tx_bump |> in
    let cc := if th_ece t
              then cc <| cc_cnt_rx_ecn_bytes := cc_cnt_rx_ecn_bytes cc ⊕ tx_bump |> else cc in
    let c := rs_c s in
    let c := c <| tx_sent := tx_sent c ⊖ tx_bump |> in
    let cc := cc <| cc_txp := b2z (tx_sent c >? 0) |> in
    if nz tx_bump then
      Fall (s <| rs_c := c <| rx_dupack_cnt := 0 |> |> <| rs_cc := cc |>)
    else if nz (tx_sent c) && (v_payload_len (rs_v s) =? 0)
            && (rx_remote_avail c =? scaled_window t) then
      let c := c <| rx_dupack_cnt := u16 (rx_dupack_cnt c + 1) |> in
      if rx_dupack_cnt c =? 3 then
        let '(pos, c, cc) := fast_retransmit c cc in
        Unlock (s <| rs_c := c |> <| rs_cc := cc |>
                  <| rs_v ::= fun v => v <| v_go_back_pos := pos |> |>)
      else Fall (s <| rs_c := c |> <| rs_cc := cc |>)
    else Fall (s <| rs_c := c |> <| rs_cc := cc |>)
  end.

(** An out-of-order segment: it starts, extends or misses the one interval
    the connection remembers, lines 700 to 722. *)
Definition rx_ooo_stage (s : rx_st) : rx_st :=
  let c := rs_c s in
  let seq := v_seq (rs_v s) in
  let payload_len := v_payload_len (rs_v s) in
  let s :=
    if rx_ooo_len c =? 0 then
      s <| rs_c := c <| rx_ooo_start := seq |> <| rx_ooo_len := payload_len |> |>
    else if seq ⊕ payload_len =? rx_ooo_start c then
      s <| rs_c := c <| rx_ooo_start := seq |> <| rx_ooo_len := rx_ooo_len c ⊕ payload_len |> |>
    else if rx_ooo_start c ⊕ rx_ooo_len c =? seq then
      s <| rs_c := c <| rx_ooo_len := rx_ooo_len c ⊕ payload_len |> |>
    else
      s <| rs_v ::= fun v => v <| v_payload_len := 0 |> |>
        <| rs_m ::= fun m => m <| mrx_plen := POISON_16 |> |> in
  s <| rs_m ::= fun m => m <| mrx_ooo_bump := OOO_SEGMENT_MASK |> |>.

(** Payload validation, lines 676 to 722. *)
Definition rx_payload_stage (s : rx_st) : flow :=
  let c := rs_c s in
  match tcp_valid_rxseq_ooo c (v_seq (rs_v s)) (v_payload_len (rs_v s)) with
  | None => Unlock (s <| rs_v ::= fun v => v <| v_trigger_ack := false |> |>)
  | Some (trim_start, trim_end) =>
    let v := rs_v s in
    let v := v <| v_payload_off := v_payload_off v ⊕ trim_start |> in
    let v := v <| v_payload_len := trimmed_len (v_payload_len v) trim_start trim_end |> in
    let v := v <| v_seq := v_seq v ⊕ trim_start |> in
    let m := rs_m s in
    let m := m <| mrx_poff := u16 (v_payload_off v) |> in
    let m := m <| mrx_plen := u16 (v_payload_len v) |> in
    let m := m <| mrx_rx_pos :=
      ring_adv (rx_buf_size c) (rx_next_pos c) (v_seq v ⊖ rx_next_seq c) |> in
    let s := s <| rs_v := v |> <| rs_m := m |> in
    if negb (v_seq v =? rx_next_seq c) then
      if v_payload_len v =? 0 then Unlock s else Unlock (rx_ooo_stage s)
    else Fall s
  end.

(** The round-trip estimate (exponential average with weight 1/8), shared by
    both builds. *)
Definition rtt_update (now ts_ecr bump : Z) (cc : bpf_cc) : bpf_cc :=
  let rtt := now ⊖ ts_ecr in
  let rtt := rtt / 1000 in
  let rtt := u32 (rtt - (bump ⊗ 1000000) / LINK_BANDWIDTH) in
  if rtt <? TCP_MAX_RTT then
    if nz (cc_rtt_est cc)
    then cc <| cc_rtt_est := u32 (cc_rtt_est cc * 7 + rtt) / 8 |>
    else cc <| cc_rtt_est := rtt |>
  else cc.

(** Window, echoed timestamp and round-trip time, lines 745 to 767. *)
Definition rx_window_stage (t : tcphdr) (o : tcp_timestamp_opt) (now : Z) (s : rx_st) : rx_st :=
  let c := rs_c s in
  let v := rs_v s in
  let c := if nz (v_tx_bump v) || (rx_remote_avail c <? scaled_window t)
           then c <| rx_remote_avail := scaled_window t |> else c in
  let c := if nz (v_payload_len v) && negb (nz (tx_next_ts c))
           then c <| tx_next_ts := bpf_ntohl (ts_ts_val o) |> else c in
  let ts_ecr := bpf_ntohl (ts_ts_ecr o) in
  let cc := if th_ack t && nz ts_ecr && nz (v_tx_bump v)
            then rtt_update now ts_ecr (v_tx_bump v) (rs_cc s) else rs_cc s in
  s <| rs_c := c |> <| rs_cc := cc |>.

(** Advance the receive state over [n] accepted bytes. *)
Definition rx_advance (n : Z) (c : bpf_tcp_conn) : bpf_tcp_conn :=
  let c := c <| rx_avail := rx_avail c ⊖ n |> in
  let c := c <| rx_next_pos := ring_adv (rx_buf_size c) (rx_next_pos c) n |> in
  c <| rx_next_seq := rx_next_seq c ⊕ n |>.

(** The remembered out-of-order interval after the in-order data was
    accepted, lines 780 to 810. *)
Definition rx_merge_stage (s : rx_st) : rx_st :=
  let c := rs_c s in
  if rx_ooo_len c =? 0 then s else
  match tcp_valid_rxseq_ooo c (rx_ooo_start c) (rx_ooo_len c) with
  | None =>
    s <| rs_c := c <| rx_ooo_len := 0 |> |>
      <| rs_m ::= fun m => m <| mrx_ooo_bump := OOO_CLEAR_MASK |> |>
      <| rs_v ::= fun v => v <| v_trigger_ack := false |> <| v_clear_ooo := true |> |>
  | Some (trim_start, trim_end) =>
    let c := c <| rx_ooo_start := rx_ooo_start c ⊕ trim_start |> in
    let c := c <| rx_ooo_len := u32 (rx_ooo_len c - (trim_start ⊕ trim_end)) |> in
    if nz (rx_ooo_len c) && (rx_ooo_start c =? rx_next_seq c) then
      let n := rx_ooo_len c in
      s <| rs_c := (rx_advance n c) <| rx_ooo_len := 0 |> |>
        <| rs_m ::= fun m => m <| mrx_ooo_bump := OOO_FIN_MASK |> |>
        <| rs_v ::= fun v => v <| v_rx_bump := v_rx_bump v ⊕ n |> |>
    else s <| rs_c := c |>
  end.

(** In-order payload, lines 770 to 819. *)
Definition rx_accept_stage (s : rx_st) : rx_st :=
  let payload_len := v_payload_len (rs_v s) in
  if payload_len =? 0 then s else
  let s := s <| rs_v ::= fun v => v <| v_rx_bump := payload_len |> |> in
  let s := s <| rs_c ::= rx_advance payload_len |> in
  let s := rx_merge_stage s in
  if Z.shiftr (rx_avail (rs_c s)) TCP_WND_SCALE =? 0
  then s <| rs_m ::= fun m => m <| mrx_qid := Z.lor (mrx_qid m) FORCE_RX_BUMP_MASK |> |>
  else s.

(** The label [unlock]: whether the packet goes to user space, and with which
    metadata, lines 821 to 849. *)
Definition rx_unlock_stage (s : rx_st) : bool * rx_st :=
  let v := rs_v s in
  let c := rs_c s in
  if nz (v_rx_bump v) || nz (v_tx_bump v) || nz (v_go_back_pos v)
     || nz (xsk_budget_avail c) || v_clear_ooo v then
    let m := rs_m s in
    let m := m <| mrx_xsk_budget_avail := xsk_budget_avail c |> in
    let m :=
      if nz (v_tx_bump v) then m <| mrx_ack_bytes := v_tx_bump v |>
      else if nz (v_go_back_pos v)
      then m <| mrx_ack_bytes := Z.lor (v_go_back_pos v) RECOVERY_MASK |> else m in
    let m :=
      if v_payload_len v =? 0 then
        m <| mrx_rx_pos := POISON_32 |> <| mrx_poff := POISON_16 |> <| mrx_plen := POISON_16 |>
      else if nz (Z.land (mrx_ooo_bump m) OOO_FIN_MASK)
      then m <| mrx_ooo_bump := Z.lor (mrx_ooo_bump m) (v_rx_bump v) |> else m in
    (false, s <| rs_m := m |>)
  else (true, s).

(** The label [out]: remember the connection whose acknowledgement is due,
    lines 851 to 866. *)
Definition rx_out_stage (cpu : Z) (ece : bool) (s : rx_st) (pc : prev_conn_t) : prev_conn_t :=
  let c := rs_c s in
  if v_trigger_ack (rs_v s) && (cpu <? MAX_CPU) && (prev_conn pc =? NULL_CONN) then
    pc <| prev_conn := cc_idx c |> <| prev_conn_li := local_ip c |>
       <| prev_conn_lp := local_port c |> <| prev_conn_ri := remote_ip c |>
       <| prev_conn_rp := remote_port c |>
       <| prev_conn_ece := Z.lor (prev_conn_ece pc) (b2z ece) |>
  else pc.

(** The locals on entry. *)
Definition rx_vars_init (t : tcphdr) (pkt_len : Z) : rx_vars :=
  let payload_off := HEADERS_LEN in
  let payload_len := pkt_len ⊖ payload_off in
  mk_rx_vars payload_off payload_len (bpf_ntohl (th_seq t)) (nz payload_len) 0 0 0 false.

(** Everything between the lock and the label [unlock]. *)
Definition etran_rx_body (t : tcphdr) (o : tcp_timestamp_opt) (now : Z) (s : rx_st) : rx_st :=
  flow_st
    (flow_bind (rx_ack_stage t s) (fun s =>
     flow_bind (rx_payload_stage s) (fun s =>
     Fall (rx_accept_stage (rx_window_stage t o now s))))).

(** [tcp_rx_process] without [MTP_ON]; [None] for [cc] is a failed lookup. *)
Definition etran_rx_process (cpu ktime rx_cached_ts : Z) (t : tcphdr) (o : tcp_timestamp_opt)
    (c : bpf_tcp_conn) (cc : option bpf_cc) (pkt_len : Z) (m : rx_meta) (ece : bool)
    (pc : prev_conn_t)
  : xdp_action * bpf_tcp_conn * option bpf_cc * rx_meta * prev_conn_t :=
  let now := u32 (if negb (nz rx_cached_ts) then ktime else rx_cached_ts) in
  match cc with
  | None => (XDP_DROP, c, None, m, pc)
  | Some cc =>
    let s := etran_rx_body t o now (mk_rx_st c cc m (rx_vars_init t pkt_len)) in
    let '(drop, s) := rx_unlock_stage s in
    let pc := rx_out_stage cpu ece s pc in
    (if drop then XDP_DROP else XDP_REDIRECT, rs_c s, Some (rs_cc s), rs_m s, pc)
  end.
