(* ===== verification/MtpTcp.v ===== *)
(** The TCP fast path of the MTP build ([eBPF/tcp/mtp_tcp.h] and the [MTP_ON]
    branches of [eBPF/tcp/tcp.h]): packets, application requests and timer
    expirations become events, each handled by a chain of event processors
    that share the connection, the control block, the packet metadata and the
    scratch structure [interm_out].

    The C variable of type [interm_out] is not initialised: its initial value
    is an argument of the handlers.  A write through a NULL pointer is the
    result [None]. *)
From S2P Require Import Prelude Intf Seq Headers AckQueue Pacing EtranTcp.
Local Open Scope Z_scope.
Local Open Scope u32_scope.

(** ** Packet generation and flush instructions *)

(** [mtp_pkt_gen_wrapper]: [seg] is [SEG_DATA]; [f] is the packet whose headers
    are filled, [None] when the caller passes NULL headers. *)
Definition mtp_pkt_gen_wrapper (seg : bool) (bp : TCPBP) (c : bpf_tcp_conn) (f : option frame)
    (data_size seq_num : Z) (ev_type : event_type) (m : rx_meta)
  : option (bpf_tcp_conn * option frame * rx_meta) :=
  if seg || (buf_curr_seq c <? seq_num) then
    let c := c <| buf_curr_seq := buf_curr_seq c ⊕ data_size |> in
    let c := c <| tx_next_pos := ring_adv (tx_buf_size c) (tx_next_pos c) data_size |> in
    match f with
    | None => None
    | Some f =>
      let f := mtp_fill_tcp_hdr f c 0 bp in
      let f := f <| f_ip := fill_ip_hdr (f_ip f) data_size (nz (ecn_enable c)) |> in
      Some (c, Some f, m)
    end
  else
    let go_back_bytes := buf_curr_seq c ⊖ seq_num in
    let c := c <| buf_curr_seq := buf_curr_seq c ⊖ go_back_bytes |> in
    let c := c <| tx_next_pos := ring_back (tx_buf_size c) (tx_next_pos c) go_back_bytes |> in
    let m := m <| mrx_ack_bytes := tx_next_pos c |> in
    let m := m <| mrx_xsk_budget_avail := xsk_budget_avail c |> in
    let m := m <| mrx_rx_pos := POISON_32 |> in
    let m := m <| mrx_poff := POISON_16 |> in
    let m := m <| mrx_plen := POISON_16 |> in
    let m :=
      match ev_type with
      | TIMER_EVENT =>
        m <| mrx_qid := POISON_32 |> <| mrx_conn := opaque_connection c |>
          <| mrx_ack_bytes := Z.lor (mrx_ack_bytes m) RECOVERY_MASK |>
          <| mrx_ooo_bump := POISON_32 |>
      | NET_EVENT => m <| mrx_ack_bytes := Z.lor (mrx_ack_bytes m) RECOVERY_MASK |>
      | APP_EVENT => m
      end in
    Some (c, f, m).

(** [mtp_tx_data_flush] *)
Definition mtp_tx_data_flush (c : bpf_tcp_conn) (io : interm_out) (rmlen : Z) (m : rx_meta)
  : interm_out * rx_meta :=
  if (rmlen >? 0) || nz (xsk_budget_avail c) then
    let m := m <| mrx_ack_bytes := rmlen |> in
    let m := m <| mrx_xsk_budget_avail := xsk_budget_avail c |> in
    let m := m <| mrx_rx_pos := POISON_32 |> in
    let m := m <| mrx_poff := POISON_16 |> in
    let m := m <| mrx_plen := POISON_16 |> in
    (io <| io_drop := false |>, m)
  else (io, m).

(** [mtp_add_data_seg_wrapper] *)
Definition mtp_add_data_seg_wrapper (data_len offset : Z) (c : bpf_tcp_conn) (io : interm_out)
    (m : rx_meta) : interm_out * rx_meta :=
  if nz data_len || nz (xsk_budget_avail c) then
    let m := m <| mrx_rx_pos := offset |> in
    let m := m <| mrx_xsk_budget_avail := xsk_budget_avail c |> in
    let m := if data_len =? 0
             then m <| mrx_rx_pos := POISON_32 |> <| mrx_poff := POISON_16 |>
                    <| mrx_plen := POISON_16 |> else m in
    (io <| io_drop := false |>, m)
  else (io, m).

(** [parse_req_to_app_event] and [parse_req_to_timer_event]; [junk] is the
    uninitialised structure whose remaining fields are returned. *)
Definition parse_req_to_app_event (junk : app_timer_event) (t : tx_meta) : app_timer_event :=
  junk <| ae_type := APP_EVENT |> <| ae_data_size := mtx_plen t |>.

Definition parse_req_to_timer_event (junk : app_timer_event) : app_timer_event :=
  junk <| ae_type := TIMER_EVENT |>.

(** ** Sending *)

(** [send_ep] *)
Definition send_ep (ev : app_timer_event) (c : bpf_tcp_conn) (cc : bpf_cc) (f : frame)
    (m : rx_meta) : option (bpf_tcp_conn * bpf_cc * option frame * rx_meta) :=
  let c := c <| data_end := data_end c ⊕ ae_data_size ev |> in
  let ns_delta := u64 (1000000000 * ae_data_size ev) / cc_rate cc in
  let desired_tx_ts := u64 (cc_prev_desired_tx_ts cc + ns_delta) in
  let desired_tx_ts := Z.max (ae_timestamp ev) desired_tx_ts in
  let cc := cc <| cc_prev_desired_tx_ts := desired_tx_ts |> in
  let bp := {|
    bp_src_port := local_port c;
    bp_dest_port := remote_port c;
    bp_seq_num := tx_next_seq c;
    bp_is_ack := false;
    bp_ack_seq := rx_next_seq c;
    bp_rwnd_size := u16 (rx_avail c);
    bp_desired_tx_ts := u32 desired_tx_ts |} in
  match mtp_pkt_gen_wrapper true bp c (Some f) (ae_data_size ev) 0 TIMER_EVENT m with
  | None => None
  | Some (c, f, m) =>
    let c := c <| tx_next_seq := tx_next_seq c ⊕ ae_data_size ev |> in
    let cc := cc <| cc_txp := b2z (negb (tx_next_seq c =? send_una c)) |> in
    Some (c, cc, f, m)
  end.

(** The state reset of a retransmission, shared by [ack_timeout_xdp_ep] and
    [fast_retr_rec_ep]: everything after [send_una] is to be sent again. *)
Definition mtp_go_back (c : bpf_tcp_conn) (cc : bpf_cc) : bpf_tcp_conn * bpf_cc :=
  let go_back_bytes := tx_next_seq c ⊖ send_una c in
  let c := c <| tx_next_seq := tx_next_seq c ⊖ go_back_bytes |> in
  let c := c <| rx_remote_avail := rx_remote_avail c ⊕ go_back_bytes |> in
  let cc := cc <| cc_txp := 0 |> in
  let c := c <| data_end := data_end c ⊖ go_back_bytes |> in
  let cc := if cc_cnt_tx_drops cc =? 0
            then cc <| cc_rate := Z.shiftr (cc_rate cc) 1 |> else cc in
  (c, cc <| cc_cnt_tx_drops := u16 (cc_cnt_tx_drops cc + 1) |>).

(** The blueprint [{0}] of a retransmission. *)
Definition bp_zero : TCPBP := mk_TCPBP 0 0 0 0 false 0 0.

(** [ack_timeout_xdp_ep] *)
Definition ack_timeout_xdp_ep (c : bpf_tcp_conn) (cc : bpf_cc) (m : rx_meta)
  : option (xdp_action * bpf_tcp_conn * bpf_cc * rx_meta) :=
  if tx_next_seq c =? send_una c then Some (XDP_DROP, c, cc, m) else
  let c := c <| rx_dupack_cnt := 0 |> in
  let '(c, cc) := mtp_go_back c cc in
  match mtp_pkt_gen_wrapper false bp_zero c None 0 (send_una c) TIMER_EVENT m with
  | None => None
  | Some (c, _, m) => Some (XDP_PASS, c, cc, m)
  end.

(** ** Acknowledgements *)

(** [fast_retr_rec_ep] *)
Definition fast_retr_rec_ep (ev : net_event) (c : bpf_tcp_conn) (io : interm_out) (cc : bpf_cc)
  : bpf_tcp_conn * interm_out * bpf_cc :=
  let io := io <| io_drop := true |> in
  match rxack (send_una c) (tx_next_seq c) (ne_ack_seq ev) with
  | None => (c, io, cc)
  | Some num_acked_bytes =>
    let io := io <| io_num_acked_bytes := num_acked_bytes |> in
    let io := io <| io_drop := false |> in
    let cc := cc <| cc_cnt_rx_ack_bytes := cc_cnt_rx_ack_bytes cc ⊕ num_acked_bytes |> in
    let cc := if ne_ecn_mark ev
              then cc <| cc_cnt_rx_ecn_bytes := cc_cnt_rx_ecn_bytes cc ⊕ num_acked_bytes |>
              else cc in
    let cc := cc <| cc_txp := b2z (negb (tx_next_seq c =? send_una c)) |> in
    let io := io <| io_change_cwnd := true |> in
    if nz num_acked_bytes then (c <| rx_dupack_cnt := 0 |>, io, cc)
    else if rx_remote_avail c =? u32 (Z.shiftl (ne_rwnd_size ev) TCP_WND_SCALE) then
      let c := c <| rx_dupack_cnt := u16 (rx_dupack_cnt c + 1) |> in
      if rx_dupack_cnt c =? 3 then
        let '(c, cc) := mtp_go_back c cc in
        (c, io <| io_change_cwnd := false |>, cc)
      else (c, io, cc)
    else (c, io, cc)
  end.

(** [ack_net_ep]; [ktime] is its own clock read. *)
Definition ack_net_ep (ktime : Z) (ev : net_event) (c : bpf_tcp_conn) (io : interm_out)
    (m : rx_meta) (cc : bpf_cc) : option (bpf_tcp_conn * interm_out * rx_meta * bpf_cc) :=
  if rx_dupack_cnt c =? 3 then
    let io := io <| io_drop := false |> in
    let c := c <| rx_dupack_cnt := 0 |> in
    match mtp_pkt_gen_wrapper false bp_zero c None 0 (send_una c) NET_EVENT m with
    | None => None
    | Some (c, _, m) => Some (c, io, m, cc)
    end
  else
    let rwnd := u32 (Z.shiftl (ne_rwnd_size ev) TCP_WND_SCALE) in
    let '(c, cc) :=
      if negb (io_drop io) then
        let c := if nz (io_num_acked_bytes io) || (rx_remote_avail c <? rwnd)
                 then c <| rx_remote_avail := rwnd |> else c in
        let cc := if nz (ne_ts_ecr ev) && nz (io_num_acked_bytes io)
                  then rtt_update (u32 ktime) (ne_ts_ecr ev) (io_num_acked_bytes io) cc else cc in
        (c, cc)
      else (c, cc) in
    let rmlen := io_num_acked_bytes io in
    let c := if rmlen >? 0 then c <| send_una := ne_ack_seq ev |> else c in
    let '(io, m) := mtp_tx_data_flush c io rmlen m in
    Some (c, io, m, cc).

(** ** Data *)

(** [verify_trim_data_ep] *)
Definition verify_trim_data_ep (ev : net_event) (c : bpf_tcp_conn) (io : interm_out) (m : rx_meta)
  : net_event * interm_out * rx_meta :=
  let io := io <| io_skip_data_eps := false |> in
  let io := io <| io_drop := true |> in
  let io := io <| io_trigger_ack := true |> in
  match rxseq_ooo (rx_next_seq c) (rx_next_seq c ⊕ rx_avail c)
                  (ne_seq_num ev) (ne_seq_num ev ⊕ ne_data_len ev) with
  | None => (ev, io <| io_skip_data_eps := true |> <| io_trigger_ack := false |>, m)
  | Some (trim_start, trim_end) =>
    let payload_off := HEADERS_LEN ⊕ trim_start in
    let ev := ev <| ne_data_len := trimmed_len (ne_data_len ev) trim_start trim_end |> in
    let m := m <| mrx_poff := u16 payload_off |> in
    let m := m <| mrx_plen := u16 (ne_data_len ev) |> in
    let ev := ev <| ne_seq_num := ne_seq_num ev ⊕ trim_start |> in
    (ev, io, m)
  end.

(** [detect_ooo_data_ep] *)
Definition detect_ooo_data_ep (ev : net_event) (c : bpf_tcp_conn) (io : interm_out) (m : rx_meta)
  : net_event * bpf_tcp_conn * interm_out * rx_meta :=
  if io_skip_data_eps io then (ev, c, io, m) else
  if negb (ne_seq_num ev =? rx_next_seq c) then
    if ne_data_len ev =? 0 then (ev, c, io <| io_skip_data_eps := true |>, m) else
    let '(ev, c, m) :=
      if rx_ooo_len c =? 0 then
        (ev, c <| rx_ooo_start := ne_seq_num ev |> <| rx_ooo_len := ne_data_len ev |>, m)
      else if ne_seq_num ev ⊕ ne_data_len ev =? rx_ooo_start c then
        (ev, c <| rx_ooo_start := ne_seq_num ev |>
               <| rx_ooo_len := rx_ooo_len c ⊕ ne_data_len ev |>, m)
      else if rx_ooo_start c ⊕ rx_ooo_len c =? ne_seq_num ev then
        (ev, c <| rx_ooo_len := rx_ooo_len c ⊕ ne_data_len ev |>, m)
      else (ev <| ne_data_len := 0 |>, c, m <| mrx_plen := POISON_16 |>) in
    (ev, c, io <| io_skip_data_eps := true |>, m)
  else (ev, c, io, m).

(** [flush_ooo_data_ep].  The test of [skip_data_eps] at its head is commented
    out in the source. *)
Definition flush_ooo_data_ep (ev : net_event) (c : bpf_tcp_conn) (io : interm_out)
  : bpf_tcp_conn * interm_out :=
  let rwnd := u32 (Z.shiftl (ne_rwnd_size ev) TCP_WND_SCALE) in
  let c := if rx_remote_avail c <? rwnd then c <| rx_remote_avail := rwnd |> else c in
  let c := if nz (ne_data_len ev) && negb (nz (tx_next_ts c))
           then c <| tx_next_ts := ne_ts_val ev |> else c in
  if ne_data_len ev =? 0 then (c, io) else
  let c := c <| rx_avail := rx_avail c ⊖ ne_data_len ev |> in
  let c := c <| rx_next_seq := rx_next_seq c ⊕ ne_data_len ev |> in
  if rx_ooo_len c =? 0 then (c, io) else
  match rxseq_ooo (rx_next_seq c) (rx_next_seq c ⊕ rx_avail c)
                  (rx_ooo_start c) (rx_ooo_start c ⊕ rx_ooo_len c) with
  | None => (c, io <| io_trigger_ack := false |>)
  | Some (trim_start, trim_end) =>
    let c := c <| rx_ooo_start := rx_ooo_start c ⊕ trim_start |> in
    let c := c <| rx_ooo_len := u32 (rx_ooo_len c - (trim_start ⊕ trim_end)) |> in
    if nz (rx_ooo_len c) && (rx_ooo_start c =? rx_next_seq c) then
      let c := c <| rx_avail := rx_avail c ⊖ rx_ooo_len c |> in
      let c := c <| rx_next_seq := rx_next_seq c ⊕ rx_ooo_len c |> in
      (c <| rx_ooo_len := 0 |>, io)
    else (c, io)
  end.

(** [data_net_ep] *)
Definition data_net_ep (ev : net_event) (c : bpf_tcp_conn) (io : interm_out) (m : rx_meta)
  : interm_out * rx_meta :=
  mtp_add_data_seg_wrapper (ne_data_len ev) (ne_seq_num ev ⊖ recv_init_seq c) c io m.

(** [send_ack] *)
Definition send_ack (ev : net_event) (c : bpf_tcp_conn) (io : interm_out) (q : ack_queue)
  : option (bpf_tcp_conn * ack_queue) :=
  if negb (io_trigger_ack io) then Some (c, q) else
  mtp_pkt_gen_for_xdp_gen {|
    bp_src_port := local_port c;
    bp_dest_port := remote_port c;
    bp_seq_num := tx_next_seq c;
    bp_is_ack := true;
    bp_ack_seq := rx_next_seq c;
    bp_rwnd_size := u16 (rx_avail c);
    bp_desired_tx_ts := ne_timestamp ev |} c q.

(** ** Dispatch *)

(** The event chain of an acknowledgement, lines 616 to 622. *)
Definition mtp_ack_chain (ktime : Z) (ev : net_event) (c : bpf_tcp_conn) (io : interm_out)
    (m : rx_meta) (cc : bpf_cc) : option (bpf_tcp_conn * interm_out * rx_meta * bpf_cc) :=
  let cc := cc <| cc_cnt_rx_acks := u16 (cc_cnt_rx_acks cc + 1) |> in
  let '(c, io, cc) := fast_retr_rec_ep ev c io cc in
  ack_net_ep ktime ev c io m cc.

(** The event chain of a data packet, lines 623 to 631. *)
Definition mtp_data_chain (ev : net_event) (c : bpf_tcp_conn) (io : interm_out) (m : rx_meta)
    (q : ack_queue) : option (bpf_tcp_conn * interm_out * rx_meta * ack_queue) :=
  let '(ev, io, m) := verify_trim_data_ep ev c io m in
  let '(ev, c, io, m) := detect_ooo_data_ep ev c io m in
  let '(c, io) := flush_ooo_data_ep ev c io in
  let '(io, m) := data_net_ep ev c io m in
  match send_ack ev c io q with
  | None => None
  | Some (c, q) => Some (c, io, m, q)
  end.

(** [tcp_rx_process] with [MTP_ON]; [ktime2] is the clock read by
    [ack_net_ep], [io] the uninitialised [int_out]. *)
Definition mtp_rx_process (ktime ktime2 rx_cached_ts : Z) (ev : net_event) (c : bpf_tcp_conn)
    (cc : option bpf_cc) (io : interm_out) (m : rx_meta) (q : ack_queue)
  : option (xdp_action * bpf_tcp_conn * option bpf_cc * rx_meta * ack_queue) :=
  let now := u32 (if negb (nz rx_cached_ts) then ktime else rx_cached_ts) in
  match cc with
  | None => Some (XDP_DROP, c, None, m, q)
  | Some cc =>
    let ev := ev <| ne_timestamp := now |> in
    match ne_minor_type ev with
    | NET_EVENT_ACK =>
      match mtp_ack_chain ktime2 ev c io m cc with
      | None => None
      | Some (c, io, m, cc) =>
        Some (if io_drop io then XDP_DROP else XDP_REDIRECT, c, Some cc, m, q)
      end
    | NET_EVENT_DATA =>
      match mtp_data_chain ev c io m q with
      | None => None
      | Some (c, io, m, q) =>
        Some (if io_drop io then XDP_DROP else XDP_REDIRECT, c, Some cc, m, q)
      end
    end
  end.

(** [tcp_tx_process] with [MTP_ON]. *)
Definition mtp_tx_process (tw_redirect : Z -> xdp_action) (e : tx_env) (t : tx_meta)
    (ev : app_timer_event) (f : frame) (c : bpf_tcp_conn) (cc : option bpf_cc) (m : rx_meta)
    (s : tw_state) : option tx_out :=
  let o := mk_tx_out XDP_DROP None f c cc m s in
  if te_cpu e >=? MAX_CPU then Some o else
  let payload_len := mtx_plen t in
  let ref_ts := tx_ref_ts e s in
  match cc with
  | None => Some o
  | Some cc =>
    let '(wnd_upd, c) := tx_rx_bump (mtx_rx_bump t) c in
    let o := o <| to_conn := c |> in
    if nz (Z.land (mtx_flag t) FLAG_SYNC) then Some (tx_sync wnd_upd ref_ts o) else
    if negb (mtx_tx_pos t =? tx_next_pos c) then Some (o <| to_action := XDP_DROP |>) else
    let '(desired_tx_ts, cc) := cc_get_desired_tx_ts cc ref_ts payload_len in
    let ev := ev <| ae_timestamp := u32 ref_ts |> in
    match ae_type ev with
    | TIMER_EVENT =>
      match ack_timeout_xdp_ep c cc m with
      | None => None
      | Some (a, c, cc, m) =>
        Some (o <| to_action := a |> <| to_conn := c |> <| to_cc := Some cc |> <| to_meta := m |>)
      end
    | APP_EVENT =>
      match send_ep ev c cc f m with
      | None => None
      | Some (c, cc, f', m) =>
        let o := o <| to_conn := c |> <| to_cc := Some cc |> <| to_meta := m |>
                   <| to_frame := default f f' |> in
        Some (tx_depart tw_redirect e desired_tx_ts ref_ts
          (tx_next_seq c ⊖ send_una c =? payload_len) o cc)
      end
    | NET_EVENT =>
      let o := o <| to_cc := Some cc |> in
      Some (tx_depart tw_redirect e desired_tx_ts ref_ts
        (tx_next_seq c ⊖ send_una c =? payload_len) o cc)
    end
  end.
