(* ===== verification/RxSafety.v ===== *)
(** Safety of the receiver of the eTran build: whatever packets arrive, a byte
    is acknowledged only if it was handed to user space, at its own offset of
    the receive ring, and nothing unread is overwritten.

    A sequence number [u32 P] stands for the stream position [P].  [R0] is the
    position at which the connection was opened, [R] the next position
    expected, [U] the position up to which the application released its
    buffer, [D] the set of positions handed over so far. *)
From S2P Require Import Prelude Intf Seq Headers AckQueue Pacing EtranTcp.
Local Open Scope Z_scope.
Local Open Scope u32_scope.

(** The receive half of a connection. *)
Definition rx_view (c : bpf_tcp_conn) : Z * Z * Z * Z * Z * Z :=
  (rx_next_seq c, rx_avail c, rx_next_pos c, rx_ooo_start c, rx_ooo_len c, rx_buf_size c).

(** The remembered out-of-order interval lies above [lo], inside the window
    that ends at [hi], and was handed over. *)
Definition ooo_inv (lo hi : Z) (D : Z -> Prop) (c : bpf_tcp_conn) : Prop :=
  rx_ooo_len c <> 0 ->
  exists O, rx_ooo_start c = u32 O /\ lo < O /\ 0 < rx_ooo_len c /\
    O + rx_ooo_len c <= hi /\ forall p, O <= p < O + rx_ooo_len c -> D p.

Record rx_base (R0 R U : Z) (D : Z -> Prop) (c : bpf_tcp_conn) : Prop := {
  rb_seq : rx_next_seq c = u32 R;
  rb_avail : 0 <= rx_avail c;
  rb_size : 0 < rx_buf_size c <= 1073741824;
  rb_order : R0 <= U <= R;
  rb_window : R + rx_avail c <= U + rx_buf_size c;
  rb_pos : rx_next_pos c = (R - R0) mod rx_buf_size c;
  rb_handed : forall p, R0 <= p < R -> D p
}.

Definition rx_inv (R0 R U : Z) (D : Z -> Prop) (c : bpf_tcp_conn) : Prop :=
  rx_base R0 R U D c /\ ooo_inv R (R + rx_avail c) D c.

(** The bytes a verdict hands to user space: a redirected packet whose
    metadata gives a payload, of which byte [p] counts only if the payload
    lies in the packet and the ring offset is that of [p]. *)
Definition hands_over (R0 size P L : Z) (a : xdp_action) (m : rx_meta) (p : Z) : Prop :=
  a = XDP_REDIRECT /\ mrx_plen m <> POISON_16 /\
  let q := P + (mrx_poff m - HEADERS_LEN) in
  P <= q /\ q + mrx_plen m <= P + L /\ q <= p < q + mrx_plen m /\
  mrx_rx_pos m = (q - R0) mod size.

(** ** Frame lemmas *)

Lemma rx_inv_view R0 R U D c c' : rx_view c = rx_view c' -> rx_inv R0 R U D c -> rx_inv R0 R U D c'.
Proof.
  unfold rx_view. intros [= E1 E2 E3 E4 E5 E6] [[? ? ? ? ? ? ?] Ho]. unfold ooo_inv in Ho.
  split; [split|unfold ooo_inv]; rewrite <- ?E1, <- ?E2, <- ?E3, <- ?E4, <- ?E5, <- ?E6; auto.
Qed.

Lemma rx_base_ext R0 R U D c c' :
  rx_next_seq c' = rx_next_seq c -> rx_avail c' = rx_avail c ->
  rx_next_pos c' = rx_next_pos c -> rx_buf_size c' = rx_buf_size c ->
  rx_base R0 R U D c -> rx_base R0 R U D c'.
Proof. intros E1 E2 E3 E4 [? ? ? ? ? ? ?]. split; rewrite ?E1, ?E2, ?E3, ?E4; auto. Qed.

Lemma ooo_inv_empty lo hi D c : rx_ooo_len c = 0 -> ooo_inv lo hi D c.
Proof. intros E ?; contradiction. Qed.

Lemma rx_base_mono R0 R U D D' c :
  (forall p, D p -> D' p) -> rx_base R0 R U D c -> rx_base R0 R U D' c.
Proof. intros Hd [? ? ? ? ? ? ?]. split; auto. Qed.

Lemma ooo_inv_mono lo hi D D' c :
  (forall p, D p -> D' p) -> ooo_inv lo hi D c -> ooo_inv lo hi D' c.
Proof. intros Hd Ho Hn. destruct (Ho Hn) as (O & ? & ? & ? & ? & ?). exists O. auto 10. Qed.

Lemma rx_inv_mono R0 R U D D' c :
  (forall p, D p -> D' p) -> rx_inv R0 R U D c -> rx_inv R0 R U D' c.
Proof. intros Hd [Hb Ho]. split; [by eapply rx_base_mono|by eapply ooo_inv_mono]. Qed.

Lemma fast_retransmit_rx_view c cc pos c' cc' :
  fast_retransmit c cc = (pos, c', cc') -> rx_view c' = rx_view c.
Proof. unfold fast_retransmit. intros [= _ <- _]. reflexivity. Qed.

(** The acknowledgement stage touches neither the receive half nor what
    describes the payload. *)
Lemma rx_ack_stage_frame t s :
  let s' := flow_st (rx_ack_stage t s) in
  rx_view (rs_c s') = rx_view (rs_c s) /\ rs_m s' = rs_m s /\
  v_payload_len (rs_v s') = v_payload_len (rs_v s) /\
  v_payload_off (rs_v s') = v_payload_off (rs_v s) /\ v_seq (rs_v s') = v_seq (rs_v s) /\
  v_rx_bump (rs_v s') = v_rx_bump (rs_v s) /\
  (forall x, rx_ack_stage t s = Fall x -> rx_remote_avail (rs_c x) = rx_remote_avail (rs_c s)).
Proof.
  unfold rx_ack_stage. cbv zeta.
  destruct (negb _); [by split_and!; try (intros x [= <-])|].
  destruct (tcp_valid_rxack _ _) as [b|]; [|by split_and!].
  destruct (b >? _); [by split_and!|].
  destruct (nz b); [by split_and!; try (intros x [= <-])|].
  destruct (_ && _); [|by split_and!; try (intros x [= <-])].
  destruct (_ =? 3); [|by split_and!; try (intros x [= <-])].
  destruct (fast_retransmit _ _) as [[pos c'] cc'] eqn:Ef.
  apply fast_retransmit_rx_view in Ef. by split_and!.
Qed.

Lemma rx_window_stage_frame t o now s :
  let s' := rx_window_stage t o now s in
  rx_view (rs_c s') = rx_view (rs_c s) /\ rs_m s' = rs_m s /\ rs_v s' = rs_v s.
Proof.
  unfold rx_window_stage. cbv zeta. split_and!; [|reflexivity|reflexivity]. cbn.
  by destruct (_ || _), (_ && _).
Qed.

Lemma rx_unlock_stage_frame s :
  rs_c (snd (rx_unlock_stage s)) = rs_c s /\ rs_v (snd (rx_unlock_stage s)) = rs_v s.
Proof. unfold rx_unlock_stage. by destruct (_ || _). Qed.

(** ** Acceptance of a segment *)

(** Accepting [n] bytes that were handed over advances the stream. *)
Lemma rx_advance_base R0 R U D c n :
  rx_base R0 R U D c -> 0 <= n <= rx_avail c -> (forall p, R <= p < R + n -> D p) ->
  rx_base R0 (R + n) U D (rx_advance n c) /\
  R + n + rx_avail (rx_advance n c) = R + rx_avail c.
Proof.
  intros [Hs Ha Hsz Ho Hw Hp Hd] Hn Hnew. unfold rx_advance. cbn.
  rewrite (u32_small (rx_avail c - n)) by mach_lia. split; [|lia].
  split; cbn; try lia.
  - rewrite Hs. u32_norm. done.
  - rewrite (ring_adv_mod _ _ _ (R - R0)) by (auto; lia). f_equal; lia.
  - intros p Hp'. destruct (Z_lt_dec p R); [apply Hd|apply Hnew]; lia.
Qed.

(** Trimming a remembered interval against a window that ends no earlier. *)
Lemma rxseq_ooo_interval R W O n ts te :
  near R O -> 0 <= W <= 1073741824 -> 0 < n <= 1073741824 -> O + n <= R + W ->
  rxseq_ooo (u32 R) (u32 (R + W)) (u32 O) (u32 (O + n)) = Some (ts, te) ->
  ts = Z.max 0 (R - O) /\ ts + te <= n /\ 0 <= te /\ O + n - te <= R + W.
Proof.
  intros Hn HW Hlen Hin E. destruct (Z.eq_dec W 0) as [->|].
  - rewrite rxseq_ooo_closed in E by done.
    destruct (_ && _) eqn:Hv; simplify_eq; bool_props. lia.
  - rewrite rxseq_ooo_clip in E by (done || lia). unfold clip in E.
    destruct (_ <? _) eqn:Hv; simplify_eq; bool_props. lia.
Qed.

(** What the stages after payload validation leave alone. *)
Definition place (s : rx_st) : Z * Z * Z * Z * Z * Z :=
  (mrx_plen (rs_m s), mrx_poff (rs_m s), mrx_rx_pos (rs_m s),
   v_payload_len (rs_v s), rx_buf_size (rs_c s), rx_remote_avail (rs_c s)).

(** After in-order data up to [R] was accepted, the remembered interval, which
    may now lie partly or wholly below [R], is trimmed, appended or dropped. *)
Lemma rx_merge_stage_inv R0 R U D lo s :
  rx_base R0 R U D (rs_c s) -> ooo_inv lo (R + rx_avail (rs_c s)) D (rs_c s) ->
  lo <= R -> R + rx_avail (rs_c s) - lo <= 1073741824 -> in32 (v_rx_bump (rs_v s)) ->
  let s' := rx_merge_stage s in
  place s' = place s /\
  exists R', R <= R' /\ R' + rx_avail (rs_c s') = R + rx_avail (rs_c s) /\
    rx_inv R0 R' U D (rs_c s') /\
    v_rx_bump (rs_v s') = u32 (v_rx_bump (rs_v s) + (R' - R)).
Proof.
  intros Hb Ho Hlo Hlo' Hbump. cbv zeta. unfold rx_merge_stage.
  set (c := rs_c s) in *. pose proof Hb as [Hs Ha Hsz Hord Hw Hp Hd].
  destruct (Z.eqb_spec (rx_ooo_len c) 0) as [E|E].
  { split; [done|]. exists R. rewrite Z.sub_diag, Z.add_0_r, u32_small by done.
    split_and!; [lia|done|split; [done|by apply ooo_inv_empty]|done]. }
  destruct (Ho E) as (O & HO & HOlo & Hlen & Hhi & HD).
  unfold tcp_valid_rxseq_ooo. rewrite Hs, HO, !u32_add_l.
  destruct (rxseq_ooo _ _ _ _) as [[ts te]|] eqn:Ev.
  - apply rxseq_ooo_interval in Ev as (-> & Hsum & Hte & Hin); [|unfold near; lia..].
    rewrite (u32_small (_ + te)) by mach_lia. cbn.
    rewrite (u32_small (rx_ooo_len c - _)) by mach_lia.
    set (O' := O + Z.max 0 (R - O)) in *. set (n := rx_ooo_len c - _).
    destruct (nz n && _) eqn:Hm; (split; [done|]).
    + apply andb_true_iff in Hm as [Hn%nz_true Hst%Z.eqb_eq].
      rewrite u32_add_l in Hst. fold O' in Hst. rewrite Hs in Hst.
      apply u32_inj_close in Hst; [|lia]. set (c1 := c <|rx_ooo_start := _|> <|rx_ooo_len := n|>).
      assert (Hb1 : rx_base R0 R U D c1) by (by eapply rx_base_ext, Hb).
      apply (rx_advance_base _ _ _ _ _ n) in Hb1 as [Hb1 Ha1];
        [|change (rx_avail c1) with (rx_avail c); lia|intros p ?; apply HD; lia].
      exists (R + n). split_and!; [lia|exact Ha1| |cbn; f_equal; lia].
      split; [by eapply rx_base_ext, Hb1|by apply ooo_inv_empty].
    + exists R. rewrite Z.sub_diag, Z.add_0_r, (u32_small (v_rx_bump _)) by done.
      split_and!; [lia|done| |done]. split; [by eapply rx_base_ext, Hb|].
      intros Hn. cbn in Hn. exists O'. rewrite u32_add_l. cbn. fold O'.
      assert (O' <> R).
      { intros HO'. apply andb_false_iff in Hm as [Hm%nz_false|Hm%Z.eqb_neq]; [done|].
        apply Hm. rewrite u32_add_l. fold O'. by rewrite Hs, HO'. }
      split_and!; [done|lia..|]. intros p ?. apply HD. lia.
  - split; [done|]. exists R. rewrite Z.sub_diag, Z.add_0_r, (u32_small (v_rx_bump _)) by done.
    split_and!; [lia|done| |done]. split; [by eapply rx_base_ext, Hb|by apply ooo_inv_empty].
Qed.

(** The metadata place the payload, which starts at position [q], at its
    offset of the ring. *)
Definition placed (R0 P L q : Z) (s : rx_st) : Prop :=
  0 < v_payload_len (rs_v s) < POISON_16 /\ mrx_plen (rs_m s) = v_payload_len (rs_v s) /\
  mrx_poff (rs_m s) = HEADERS_LEN + (q - P) /\ P <= q /\
  q + v_payload_len (rs_v s) <= P + L /\
  mrx_rx_pos (rs_m s) = (q - R0) mod rx_buf_size (rs_c s).

(** [D] and the payload of [s]. *)
Definition with_payload (D : Z -> Prop) (q : Z) (s : rx_st) (p : Z) : Prop :=
  D p \/ q <= p < q + v_payload_len (rs_v s).

Lemma placed_place R0 P L q s s' : place s = place s' -> placed R0 P L q s -> placed R0 P L q s'.
Proof.
  unfold place, placed. intros [= -> -> -> -> -> _]. done.
Qed.

Lemma place_eq s s' : place s = place s' ->
  v_payload_len (rs_v s) = v_payload_len (rs_v s') /\
  rx_buf_size (rs_c s) = rx_buf_size (rs_c s') /\
  rx_remote_avail (rs_c s) = rx_remote_avail (rs_c s').
Proof. unfold place. intros [= _ _ _ ? ? ?]. done. Qed.

Section Segment.
Context (R0 R U P L : Z) (D : Z -> Prop).
Context (Hnear : near R P) (HL : 0 <= L <= 65469).

(** Out-of-order data that is in the window. *)
Lemma rx_ooo_stage_inv q s :
  rx_inv R0 R U D (rs_c s) -> v_seq (rs_v s) = u32 q -> R < q ->
  q + v_payload_len (rs_v s) <= R + rx_avail (rs_c s) -> placed R0 P L q s ->
  let s' := rx_ooo_stage s in
  rx_avail (rs_c s') = rx_avail (rs_c s) /\ rx_buf_size (rs_c s') = rx_buf_size (rs_c s) /\
  rx_remote_avail (rs_c s') = rx_remote_avail (rs_c s) /\
  (rx_inv R0 R U D (rs_c s') /\ v_payload_len (rs_v s') = 0 \/
   placed R0 P L q s' /\ rx_inv R0 R U (with_payload D q s') (rs_c s')).
Proof.
  intros [Hb Ho] Hseq Hq Hin Hpl. cbv zeta. pose proof Hb as [Hs Ha Hsz Hord Hw Hp Hd].
  pose proof Hpl as (Hn & _). unfold rx_ooo_stage. rewrite Hseq.
  set (c := rs_c s) in *. set (n := v_payload_len (rs_v s)) in *.
  unfold POISON_16 in Hn.
  destruct (Z.eqb_spec (rx_ooo_len c) 0) as [E|E].
  { split_and!; [done..|right]. split; [done|].
    split; [eapply rx_base_mono; [|by eapply rx_base_ext, Hb]; by left|].
    intros _. exists q. cbn. split_and!; try done; try lia. right. cbn. lia. }
  destruct (Ho E) as (O & HO & HOlo & Hlen & Hhi & HD). rewrite HO, !u32_add_l.
  destruct (Z.eqb_spec (u32 (q + n)) (u32 O)) as [Em|_].
  { apply u32_inj_close in Em; [|lia]. rewrite (u32_small (_ + n)) by mach_lia.
    split_and!; [done..|right]. split; [done|].
    split; [eapply rx_base_mono; [|by eapply rx_base_ext, Hb]; by left|].
    intros _. exists q. cbn. split_and!; try done; try lia.
    intros p Hp'. unfold with_payload. cbn. fold n.
    destruct (Z_lt_dec p O); [right; lia|left; apply HD; lia]. }
  destruct (Z.eqb_spec (u32 (O + rx_ooo_len c)) (u32 q)) as [Em|_].
  { apply u32_inj_close in Em; [|lia]. rewrite (u32_small (_ + n)) by mach_lia.
    split_and!; [done..|right]. split; [done|].
    split; [eapply rx_base_mono; [|by eapply rx_base_ext, Hb]; by left|].
    intros _. exists O. cbn. split_and!; try done; try lia.
    intros p Hp'. unfold with_payload. cbn. fold n.
    destruct (Z_lt_dec p q); [left; apply HD; lia|right; lia]. }
  split_and!; [done..|left]. done.
Qed.

(** Payload validation: a jump hands over nothing new or an accepted
    out-of-order payload; falling through leaves an in-order payload. *)
Lemma rx_payload_stage_inv s :
  rx_inv R0 R U D (rs_c s) -> v_seq (rs_v s) = u32 P -> v_payload_len (rs_v s) = L ->
  v_payload_off (rs_v s) = HEADERS_LEN -> mrx_plen (rs_m s) = POISON_16 ->
  match rx_payload_stage s with
  | Unlock s' =>
    rx_avail (rs_c s') = rx_avail (rs_c s) /\ rx_buf_size (rs_c s') = rx_buf_size (rs_c s) /\
    rx_remote_avail (rs_c s') = rx_remote_avail (rs_c s) /\
    (rx_inv R0 R U D (rs_c s') /\
       (v_payload_len (rs_v s') = 0 \/ mrx_plen (rs_m s') = POISON_16) \/
     R < P /\ exists q, placed R0 P L q s' /\ rx_inv R0 R U (with_payload D q s') (rs_c s'))
  | Fall s' =>
    rs_c s' = rs_c s /\ v_rx_bump (rs_v s') = v_rx_bump (rs_v s) /\
    (v_payload_len (rs_v s') = 0 \/
     placed R0 P L R s' /\ v_payload_len (rs_v s') <= rx_avail (rs_c s))
  end.
Proof.
  intros Hinv Hseq Hlen Hoff Hm. pose proof Hinv as [[Hs Ha Hsz Hord Hw Hp Hd] _].
  unfold rx_payload_stage, tcp_valid_rxseq_ooo. rewrite Hseq, Hlen, Hs, !u32_add_l.
  set (c := rs_c s) in *.
  destruct (rxseq_ooo _ _ _ _) as [[ts te]|] eqn:Ev; [|by split_and!; [..|left; auto]].
  apply rxseq_ooo_sound in Ev as (q & Eq & Htl & Hq & Hpos); [|done|lia..].
  cbn. rewrite Hseq, u32_add_l, Eq, Hoff, Hlen. set (n := trimmed_len L ts te) in *.
  set (s1 := s <|rs_v := _|> <|rs_m := _|>).
  assert (Hplace : 0 < n -> placed R0 P L q s1).
  { intros Hn0. specialize (Hpos Hn0). unfold placed, s1, POISON_16, HEADERS_LEN. cbn. fold n.
    rewrite (u16_small n) by mach_lia.
    assert (Eoff : u32 (66 + ts) = 66 + (q - P)).
    { rewrite <- (u32_small (66 + (q - P))) by (unfold near in Hnear; mach_lia).
      replace (66 + ts) with (P + ts + (66 - P)) by lia.
      rewrite <- u32_add_l, Eq, u32_add_l. f_equal; lia. }
    rewrite Eoff, u16_small by mach_lia. rewrite !u32_sub_l, !u32_sub_r, (u32_small (q - R)) by mach_lia.
    split_and!; try lia. rewrite (ring_adv_mod _ _ _ (R - R0)) by (auto; lia). f_equal; lia. }
  destruct (Z.eqb_spec (u32 q) (u32 R)) as [Er|Er]; cbn.
  - apply u32_inj_close in Er; [|lia]. subst q. split_and!; [done..|].
    destruct (Z.eq_dec n 0) as [->|]; [by left|right].
    split; [apply Hplace; lia|]. cbn. fold n. lia.
  - destruct (Z.eqb_spec n 0) as [E0|E0].
    { split_and!; [done..|left]. split; [done|]. by left. }
    assert (R < q) by (assert (q <> R) by congruence; lia).
    destruct (rx_ooo_stage_inv q s1) as (H1 & H2 & H3 & [[H4 H5]|[H4 H5]]); try done.
    + cbn. fold n. change (rx_avail (rs_c s)) with (rx_avail c). lia.
    + apply Hplace. lia.
    + split_and!; [done..|left]. auto.
    + split_and!; [done..|right]. split; [|by exists q]. specialize (Hpos ltac:(lia)). lia.
Qed.

(** In-order payload: accepted, then merged with the remembered interval. *)
Lemma rx_accept_stage_inv s :
  rx_inv R0 R U D (rs_c s) -> v_rx_bump (rs_v s) = 0 ->
  v_payload_len (rs_v s) = 0 \/
    placed R0 P L R s /\ v_payload_len (rs_v s) <= rx_avail (rs_c s) ->
  let s' := rx_accept_stage s in
  rx_buf_size (rs_c s') = rx_buf_size (rs_c s) /\
  exists R', R <= R' /\ R' + rx_avail (rs_c s') = R + rx_avail (rs_c s) /\
    (rx_inv R0 R' U D (rs_c s') /\ v_payload_len (rs_v s') = 0 \/
     placed R0 P L R s' /\ v_rx_bump (rs_v s') <> 0 /\
     rx_inv R0 R' U (with_payload D R s') (rs_c s')).
Proof.
  intros [Hb Ho] Hbump Hpl. cbv zeta. unfold rx_accept_stage.
  destruct (Z.eqb_spec (v_payload_len (rs_v s)) 0) as [E|E].
  { split; [done|]. exists R. split_and!; [lia|done|]. left. by split. }
  destruct Hpl as [?|[Hpl Hle]]; [done|]. pose proof Hpl as (Hn & _).
  unfold POISON_16 in Hn. set (n := v_payload_len (rs_v s)) in *.
  set (s1 := s <|rs_v ::= _|> <|rs_c ::= _|>).
  assert (Hb1 : rx_base R0 R U (with_payload D R s) (rs_c s))
    by (eapply rx_base_mono; [|exact Hb]; by left).
  pose proof Hb1 as [_ Ha Hsz Hord Hw _ _].
  apply (rx_advance_base _ _ _ _ _ n) in Hb1 as [Hb1 Ha1];
    [|lia|intros p ?; right; fold n; lia].
  change (rx_advance n (rs_c s)) with (rs_c s1) in Hb1, Ha1.
  destruct (rx_merge_stage_inv R0 (R + n) U (with_payload D R s) R s1)
    as (Hplace & R' & HR & Hav & Hinv & Hbmp); try done; try lia.
  { rewrite Ha1. intros Hl. eapply ooo_inv_mono; [|exact Ho|exact Hl]. by left. }
  { cbn. mach_lia. }
  assert (Hplace' : place (rx_merge_stage s1) = place s) by (by rewrite Hplace).
  change (v_rx_bump (rs_v s1)) with n in Hbmp.
  set (s2 := rx_merge_stage s1) in *. clearbody s2. clear Hplace Hb1.
  destruct (place_eq _ _ Hplace') as (Hlen & Hsize & _).
  assert (Hnz : v_rx_bump (rs_v s2) <> 0).
  { rewrite Hbmp. destruct Hinv as [[_ ? _ _ _ _ _] _].
    rewrite u32_small by mach_lia. lia. }
  assert (Hgoal : forall s', rs_c s' = rs_c s2 -> place s' = place s2 ->
    v_rx_bump (rs_v s') = v_rx_bump (rs_v s2) ->
    rx_buf_size (rs_c s') = rx_buf_size (rs_c s) /\
    exists R', R <= R' /\ R' + rx_avail (rs_c s') = R + rx_avail (rs_c s) /\
      (rx_inv R0 R' U D (rs_c s') /\ v_payload_len (rs_v s') = 0 \/
       placed R0 P L R s' /\ v_rx_bump (rs_v s') <> 0 /\
       rx_inv R0 R' U (with_payload D R s') (rs_c s'))).
  { intros s' Ec Ep Eb. rewrite Ec, Eb. split; [done|]. exists R'. split_and!; [lia|lia|].
    right. split; [by eapply placed_place; [|exact Hpl]; rewrite Ep|]. split; [done|].
    unfold with_payload. destruct (place_eq _ _ Ep) as (-> & _). rewrite Hlen. exact Hinv. }
  destruct (_ =? 0); apply Hgoal; reflexivity.
Qed.
End Segment.

(** ** One packet *)

(** The metadata as [xdp_sock] prepares it: all ones but the queue and the
    connection. *)
Definition meta_init (qid conn : Z) : rx_meta :=
  mk_rx_meta qid conn POISON_32 POISON_16 POISON_16 POISON_32 POISON_32 POISON_32.

Lemma etran_rx_body_inv R0 R U P L D t o now s :
  near R P -> 0 <= L <= 65469 -> rx_inv R0 R U D (rs_c s) ->
  (R < P -> rx_remote_avail (rs_c s) <> 0) -> v_seq (rs_v s) = u32 P -> v_payload_len (rs_v s) = L ->
  v_payload_off (rs_v s) = HEADERS_LEN -> mrx_plen (rs_m s) = POISON_16 ->
  v_rx_bump (rs_v s) = 0 ->
  let s' := etran_rx_body t o now s in
  rx_buf_size (rs_c s') = rx_buf_size (rs_c s) /\
  exists R', R <= R' /\ R' + rx_avail (rs_c s') = R + rx_avail (rs_c s) /\
    (rx_inv R0 R' U D (rs_c s') \/
     exists q, placed R0 P L q s' /\
       (v_rx_bump (rs_v s') <> 0 \/ rx_remote_avail (rs_c s') <> 0) /\
       rx_inv R0 R' U (with_payload D q s') (rs_c s')).
Proof.
  intros Hn HL Hinv Hrem Hseq Hlen Hoff Hm Hb. cbv zeta. unfold etran_rx_body.
  pose proof (rx_ack_stage_frame t s) as (Hv & Em & Elen & Eoff & Eseq & Ebump & Erem).
  assert (Ha : forall s1, rx_view (rs_c s1) = rx_view (rs_c s) ->
    rx_avail (rs_c s1) = rx_avail (rs_c s) /\ rx_buf_size (rs_c s1) = rx_buf_size (rs_c s) /\
    rx_inv R0 R U D (rs_c s1)).
  { intros s1 E. unfold rx_view in E. split_and!; [congruence..|by eapply rx_inv_view, Hinv]. }
  destruct (rx_ack_stage t s) as [s1|s1]; cbn in *; destruct (Ha s1 Hv) as (Ea & Es & Hi).
  2:{ split; [done|]. exists R. split_and!; [lia|lia|by left]. }
  specialize (Erem s1 eq_refl).
  pose proof (rx_payload_stage_inv R0 R U P L D Hn HL s1 Hi) as Hp.
  rewrite Eseq, Elen, Eoff, Em in Hp. specialize (Hp Hseq Hlen Hoff Hm).
  destruct (rx_payload_stage s1) as [s2|s2]; cbn.
  - destruct Hp as (Ec & Eb & Hpl).
    pose proof (rx_window_stage_frame t o now s2) as (Hv' & Em' & Ev').
    set (s3 := rx_window_stage t o now s2) in *.
    destruct (Ha s3) as (Ea3 & Es3 & Hi3); [by rewrite Hv', Ec|].
    destruct (rx_accept_stage_inv R0 R U P L D s3) as (Hsz & R' & HR & Hav & Hc);
      [done|by rewrite Ev', Eb, Ebump| |].
    { rewrite Ev', Ea3, <- Ea. destruct Hpl as [?|[Hpl ?]]; [by left|right]. split; [|done].
      unfold placed in *. rewrite Em', Ev', Es3, <- Es, <- Ec. done. }
    split; [lia|]. exists R'. split_and!; [lia|lia|].
    destruct Hc as [[? _]|(? & ? & ?)]; [by left|right]. exists R. auto.
  - destruct Hp as (Ea2 & Es2 & Er2 & Hc). split; [lia|]. exists R. split_and!; [lia|lia|].
    destruct Hc as [[? _]|(Hgap & q & ? & ?)]; [by left|right]. exists q.
    specialize (Hrem Hgap). split_and!; [done|right; congruence|done].
Qed.

(** A placed payload that is redirected is handed over. *)
Lemma placed_hands_over R0 P L q s :
  placed R0 P L q s ->
  v_rx_bump (rs_v s) <> 0 \/ rx_remote_avail (rs_c s) <> 0 ->
  exists s', rx_unlock_stage s = (false, s') /\ rs_c s' = rs_c s /\
  forall p, q <= p < q + v_payload_len (rs_v s) ->
    hands_over R0 (rx_buf_size (rs_c s)) P L XDP_REDIRECT (rs_m s') p.
Proof.
  intros (Hn & Hpl & Hoff & Hq1 & Hq2 & Hpos) Hr. unfold rx_unlock_stage.
  set (g := _ || v_clear_ooo (rs_v s)). assert (g = true) as ->.
  { subst g. unfold xsk_budget_avail. destruct Hr as [Hr%nz_true|Hr%nz_true]; rewrite Hr;
      rewrite ?orb_true_r; done. }
  eexists. split; [done|]. split; [done|]. intros p Hp. cbn.
  destruct (Z.eqb_spec (v_payload_len (rs_v s)) 0); [lia|].
  set (m := if nz (v_tx_bump _) then _ else _).
  assert (mrx_plen m = mrx_plen (rs_m s) /\ mrx_poff m = mrx_poff (rs_m s) /\
    mrx_rx_pos m = mrx_rx_pos (rs_m s)) as (E1 & E2 & E3)
    by (subst m; by repeat split_if).
  unfold hands_over. destruct (nz (Z.land _ _)); cbn; rewrite E1, E2, E3, Hpl, Hoff;
    split_and!; try done; try lia; rewrite Hpos; f_equal; lia.
Qed.

(** One packet through [tcp_rx_process]. *)
Lemma etran_rx_process_inv R0 R U P D cpu ktime rxc t o c cc pkt_len qid conn ece pc :
  rx_inv R0 R U D c -> (R < P -> rx_remote_avail c <> 0) -> near R P ->
  bpf_ntohl (th_seq t) = u32 P -> HEADERS_LEN <= pkt_len <= 65535 ->
  let '(a, c', _, m', _) :=
    etran_rx_process cpu ktime rxc t o c cc pkt_len (meta_init qid conn) ece pc in
  exists R', R <= R' /\ R' + rx_avail c' = R + rx_avail c /\
    rx_inv R0 R' U
      (fun p => D p \/ hands_over R0 (rx_buf_size c) P (pkt_len - HEADERS_LEN) a m' p) c'.
Proof.
  intros Hinv Hrem Hn Hseq Hlen. unfold etran_rx_process. set (L := pkt_len - HEADERS_LEN).
  destruct cc as [cc|].
  2:{ exists R. split_and!; [lia|done|]. eapply rx_inv_mono; [|exact Hinv]. by left. }
  set (now := u32 _). set (s := mk_rx_st _ _ _ _). unfold HEADERS_LEN in *.
  assert (v_payload_len (rs_v s) = L) by (cbn; unfold HEADERS_LEN; subst L; mach_lia).
  destruct (etran_rx_body_inv R0 R U P L D t o now s) as (Hsz & R' & HR & Hav & Hc);
    try done; [subst L; lia|].
  set (s' := etran_rx_body _ _ _ _) in *. destruct Hc as [Hi|(q & Hpl & Hr & Hi)].
  - destruct (rx_unlock_stage_frame s') as [Ec _].
    destruct (rx_unlock_stage s') as [d s'']. cbn in Ec. rewrite Ec.
    exists R'. split_and!; [lia|done|]. eapply rx_inv_mono; [|exact Hi]. by left.
  - destruct (placed_hands_over _ _ _ _ _ Hpl Hr) as (s'' & -> & Ec & Hh). rewrite Ec.
    exists R'. split_and!; [lia|done|]. eapply rx_inv_mono; [|exact Hi].
    intros p [?|Hp]; [by left|right]. rewrite Hsz in Hh. by apply Hh.
Qed.

(** ** Submissions *)

Lemma tx_depart_conn tw e d r b o cc : to_conn (tx_depart tw e d r b o cc) = to_conn o.
Proof.
  unfold tx_depart. destruct (_ && _); [done|]. destruct (_ && _); [done|].
  destruct (negb _); [done|]. destruct (tw_insert _ _ _ _). by destruct (_ =? _).
Qed.

(** A submission changes of the receive half only the window, by [rx_bump]. *)
Lemma etran_tx_process_rx tw e t f c cc m s :
  let c' := to_conn (etran_tx_process tw e t f c cc m s) in
  rx_view c' = rx_view c \/
  rx_view c' = rx_view (c <| rx_avail := rx_avail c ⊕ mtx_rx_bump t |>).
Proof.
  unfold etran_tx_process. cbv zeta. destruct (_ >=? _); [by left|].
  destruct cc as [cc|]; [|by left]. destruct (nz (Z.land _ FLAG_TO)).
  { left. unfold tx_timeout. destruct (negb _); [done|].
    destruct (fast_retransmit _ _) as [[p c'] cc'] eqn:E.
    by apply fast_retransmit_rx_view in E. }
  unfold tx_rx_bump. destruct (nz (mtx_rx_bump t)).
  - right. destruct (nz (Z.land _ FLAG_SYNC)); [unfold tx_sync; by destruct (_ =? 0)|].
    destruct (negb _); [done|]. unfold cc_get_desired_tx_ts.
    destruct (etran_send _ _ _) as [c1 cc1] eqn:E. rewrite tx_depart_conn. cbn.
    unfold etran_send in E. injection E as <- _. by destruct (nz (mtx_tx_pending t)).
  - left. destruct (nz (Z.land _ FLAG_SYNC)); [done|].
    destruct (negb _); [done|]. unfold cc_get_desired_tx_ts.
    destruct (etran_send _ _ _) as [c1 cc1] eqn:E. rewrite tx_depart_conn. cbn.
    unfold etran_send in E. injection E as <- _. by destruct (nz (mtx_tx_pending t)).
Qed.

Lemma etran_tx_process_inv R0 R U D tw e t f c cc m s :
  rx_inv R0 R U D c -> 0 <= mtx_rx_bump t -> U + mtx_rx_bump t <= R ->
  rx_inv R0 R (U + mtx_rx_bump t) D (to_conn (etran_tx_process tw e t f c cc m s)).
Proof.
  intros [[Hs Ha Hsz Ho Hw Hp Hd] Hooo] Hn HU.
  assert (u32 (rx_avail c + mtx_rx_bump t) = rx_avail c + mtx_rx_bump t) as E
    by (apply u32_small; mach_lia).
  destruct (etran_tx_process_rx tw e t f c cc m s) as [Ev|Ev]; symmetry in Ev;
    eapply rx_inv_view; try exact Ev; (split; [split|]); cbn; rewrite ?E; auto; try lia.
  intros Hl. destruct (Hooo Hl) as (O & ? & ? & ? & ? & ?). exists O. split_and!; auto. cbn. lia.
Qed.

(** ** Every reachable state of a connection *)

(** [rx_reach R0 c R U D]: some sequence of packets and submissions leads from
    the opening of the connection at position [R0] to [c].  A packet may be
    any packet whose sequence number is less than half the sequence space
    away; a submission may release at most what was acknowledged.  A packet
    that leaves a gap is processed only while the peer's window is open
    ([rx_remote_avail] is not zero). *)
Inductive rx_reach (R0 : Z) : bpf_tcp_conn -> Z -> Z -> (Z -> Prop) -> Prop :=
| reach_open c :
    rx_next_seq c = u32 R0 -> rx_next_pos c = 0 -> rx_ooo_len c = 0 ->
    0 < rx_buf_size c <= 1073741824 -> 0 <= rx_avail c <= rx_buf_size c ->
    rx_reach R0 c R0 R0 (fun _ => False)
| reach_packet c R U D P cpu ktime rxc t o cc pkt_len qid conn ece pc a c' cc' m' pc' :
    rx_reach R0 c R U D -> (R < P -> rx_remote_avail c <> 0) -> near R P ->
    bpf_ntohl (th_seq t) = u32 P -> HEADERS_LEN <= pkt_len <= 65535 ->
    etran_rx_process cpu ktime rxc t o c cc pkt_len (meta_init qid conn) ece pc
      = (a, c', cc', m', pc') ->
    rx_reach R0 c' (R + (rx_next_seq c' ⊖ rx_next_seq c)) U
      (fun p => D p \/ hands_over R0 (rx_buf_size c) P (pkt_len - HEADERS_LEN) a m' p)
| reach_submit c R U D tw e t f cc m s :
    rx_reach R0 c R U D -> 0 <= mtx_rx_bump t -> U + mtx_rx_bump t <= R ->
    rx_reach R0 (to_conn (etran_tx_process tw e t f c cc m s)) R (U + mtx_rx_bump t) D.

Lemma rx_reach_inv R0 c R U D : rx_reach R0 c R U D -> rx_inv R0 R U D c.
Proof.
  induction 1 as [c H1 H2 H3 H4 H5|c R U D P cpu ktime rxc t o cc pl q cn ece pc a c' cc' m' pc'
    _ IH Hr Hn Hs Hl E|c R U D tw e t f cc m s _ IH Hb HU].
  - split; [|by apply ooo_inv_empty]. split; try done; try lia.
    by rewrite H2, Z.sub_diag.
  - pose proof (etran_rx_process_inv R0 R U P D cpu ktime rxc t o c cc pl q cn ece pc
      IH Hr Hn Hs Hl) as Hi.
    rewrite E in Hi. destruct Hi as (R' & HR & Hav & Hi).
    destruct IH as [[Hs1 Ha1 Hsz1 Ho1 Hw1 _ _] _]. pose proof Hi as [[Hs2 Ha2 _ _ _ _ _] _].
    replace (R + _) with R'; [done|]. rewrite Hs1, Hs2. u32_norm. rewrite u32_small by mach_lia. lia.
  - by apply etran_tx_process_inv.
Qed.

(** C7. The receiver of the eTran build acknowledges no byte that it has not
    handed over.  From the opening of the connection let any packets arrive
    whose sequence numbers are less than half the sequence space away, in
    order, repeated, overlapping or leaving gaps, and let the application
    release at most what was acknowledged; a packet that leaves a gap arrives
    only while the last window of the peer ([rx_remote_avail]) is not zero.
    Then the next expected sequence number, which is what an acknowledgement
    carries, stands for a position [R] such that every position from the
    opening up to [R] was given to user space in a redirected packet, at the
    ring offset of that position, and the advertised window never reaches past
    the buffer the application released.  The condition on the peer's window is
    needed: with a window of zero [etran_ooo_dropped_then_acked] acknowledges
    bytes that were dropped. *)
Theorem etran_acks_only_handed_over (R0 R U : Z) (c : bpf_tcp_conn) (D : Z -> Prop)
  (Hreach : rx_reach R0 c R U D) :
  rx_next_seq c = u32 R /\ (forall p, R0 <= p < R -> D p) /\
  rx_next_pos c = (R - R0) mod rx_buf_size c /\
  R + rx_avail c <= U + rx_buf_size c.
Proof. apply rx_reach_inv in Hreach as [[? ? ? ? ? ? ?] _]. done. Qed.

Definition tcp_seg (seq : Z) (ack : bool) (ackno window : Z) : tcphdr :=
  tcp_blank <| th_seq := bpf_htonl seq |> <| th_ack := ack |>
            <| th_ack_seq := bpf_htonl ackno |> <| th_window := bpf_htons window |>.
Definition ts_blank : tcp_timestamp_opt := mk_tcp_timestamp_opt 0 0 0 0.
Definition cc_blank : bpf_cc := mk_bpf_cc 0 LINK_BANDWIDTH 0 0 0 0 0 0 0.
Definition pc_none : prev_conn_t := mk_prev_conn NULL_CONN 0 0 0 0 0.

(** [n] payload bytes at sequence number [seq], for the connection [c]. *)
Notation etran_rx_seg seq n c :=
  (etran_rx_process 0 5000 0 (tcp_seg seq false 0 0) ts_blank c (Some cc_blank)
    (HEADERS_LEN + n) (meta_init 0 7) false pc_none).

(** Such a segment at a reachable connection. *)
Lemma reach_seg R0 c R U D P n a c' cc' m' pc' :
  rx_reach R0 c R U D -> rx_remote_avail c <> 0 -> near R P -> in32 P -> 0 <= n <= 65469 ->
  etran_rx_seg P n c = (a, c', cc', m', pc') ->
  rx_reach R0 c' (R + (rx_next_seq c' ⊖ rx_next_seq c)) U
    (fun p => D p \/ hands_over R0 (rx_buf_size c) P (HEADERS_LEN + n - HEADERS_LEN) a m' p).
Proof.
  intros Hr H1 H2 H3 H4 E. eapply reach_packet; [done|by intros _|done| | |exact E].
  - unfold tcp_seg. cbn. rewrite bpf_ntohl_htonl, u32_small by done. done.
  - unfold HEADERS_LEN. lia.
Qed.

(** A connection that received positions 101 to 200, then 1 to 100. *)
Lemma reach_ex : exists c D,
  rx_reach 1 c 201 1 D /\ rx_avail c = 524080 /\ rx_buf_size c = 524288.
Proof.
  destruct (etran_rx_seg 101 100 conn_blank) as [[[[a1 c1] cc1] m1] pc1] eqn:E1.
  destruct (etran_rx_seg 1 100 c1) as [[[[a2 c2] cc2] m2] pc2] eqn:E2.
  assert (H0 : rx_reach 1 conn_blank 1 1 (fun _ => False)) by (apply reach_open; vm_compute; by split).
  pose proof (reach_seg 1 conn_blank 1 1 _ 101 100 a1 c1 cc1 m1 pc1 H0 ltac:(done)
    ltac:(unfold near; lia) ltac:(mach_lia) ltac:(lia) E1) as H1.
  vm_compute in E1. injection E1 as <- <- <- <- <-.
  pose proof (reach_seg 1 _ _ 1 _ 1 100 a2 c2 cc2 m2 pc2 H1 ltac:(done)
    ltac:(vm_compute; by split) ltac:(mach_lia) ltac:(lia) E2) as H2.
  vm_compute in E2. injection E2 as <- <- <- <- <-.
  eexists _, _. split; [exact H2|by split].
Qed.

Lemma etran_acks_only_handed_over_witness :
  exists c D, rx_reach 1 c 201 1 D /\ rx_next_seq c = 201 /\ forall p, 1 <= p < 201 -> D p.
Proof.
  destruct reach_ex as (c & D & Hr & _). exists c, D. split; [exact Hr|].
  destruct (etran_acks_only_handed_over 1 201 1 c D Hr) as (H1 & H2 & _). by split.
Defined.

(** What a packet writes never lands on unread data: a position that the
    window still admits and a position the application has not released have
    different offsets in the receive ring, in every reachable state. *)
Theorem etran_rx_no_overwrite (R0 R U : Z) (c : bpf_tcp_conn) (D : Z -> Prop) (p q : Z)
  (Hreach : rx_reach R0 c R U D)
  (Hunread : U <= p < R) (Hadmit : R <= q < R + rx_avail c) :
  (p - R0) mod rx_buf_size c <> (q - R0) mod rx_buf_size c.
Proof.
  apply rx_reach_inv in Hreach as [[_ _ Hsz _ Hw _ _] _]. intros E.
  pose proof (Z.div_mod (p - R0) (rx_buf_size c) ltac:(lia)).
  pose proof (Z.div_mod (q - R0) (rx_buf_size c) ltac:(lia)).
  assert (0 < (q - R0) / rx_buf_size c - (p - R0) / rx_buf_size c < 1) by nia. lia.
Qed.

Lemma etran_rx_no_overwrite_witness :
  exists c, (100 - 1) mod rx_buf_size c <> (524280 - 1) mod rx_buf_size c.
Proof.
  destruct reach_ex as (c & D & Hr & Ha & Hs). exists c.
  apply (etran_rx_no_overwrite 1 201 1 c D 100 524280 Hr); lia.
Defined.

(** The peer's window must be open: when it is closed
    ([rx_remote_avail] = 0), an out-of-order segment is dropped by the
    verdict but stays in the remembered interval, so the segment that fills
    the gap makes the connection acknowledge 100 bytes (positions 101 to 200)
    that never reached user space. *)
Theorem etran_ooo_dropped_then_acked :
  let c0 := conn_blank <| rx_remote_avail := 0 |> in
  let '(a1, c1, _, _, _) := etran_rx_seg 101 100 c0 in
  let '(a2, c2, _, m2, _) := etran_rx_seg 1 100 c1 in
  a1 = XDP_DROP /\ a2 = XDP_REDIRECT /\ rx_next_seq c2 = 201 /\
  mrx_ooo_bump m2 = Z.lor OOO_FIN_MASK 200 /\
  mrx_poff m2 = HEADERS_LEN /\ mrx_plen m2 = 100.
Proof. vm_compute. by split_and!. Qed.

(** The echo of congestion marks is sticky in the eTran build: once a CE mark
    was recorded on a CPU ([prev_conn_ece] = 1), every later coalesced
    acknowledgement of that CPU carries ECE, whatever the packets it
    acknowledges said, since nothing clears the flag. *)
Theorem etran_ece_sticky (cpu ktime rxc : Z) (t : tcphdr) (o : tcp_timestamp_opt)
  (c : bpf_tcp_conn) (cc : option bpf_cc) (pkt_len : Z) (m : rx_meta) (ece : bool)
  (pc : prev_conn_t) (Hset : nz (prev_conn_ece pc) = true) :
  let '(_, _, _, _, pc') := etran_rx_process cpu ktime rxc t o c cc pkt_len m ece pc in
  nz (prev_conn_ece pc') = true.
Proof.
  unfold etran_rx_process. destruct cc as [cc|]; [|done].
  destruct (rx_unlock_stage _) as [d s']. unfold rx_out_stage.
  destruct (_ && _); [|done]. cbn. apply nz_true. apply nz_true in Hset.
  intros E. apply Z.lor_eq_0_iff in E as [? _]. done.
Qed.

Lemma etran_ece_sticky_witness :
  let '(_, _, _, _, pc') :=
    etran_rx_process 0 5000 0 (tcp_seg 1 false 0 0) ts_blank conn_blank (Some cc_blank)
      (HEADERS_LEN + 100) (meta_init 0 7) false (pc_none <| prev_conn_ece := 1 |>) in
  nz (prev_conn_ece pc') = true.
Proof.
  exact (etran_ece_sticky 0 5000 0 (tcp_seg 1 false 0 0) ts_blank conn_blank (Some cc_blank)
    (HEADERS_LEN + 100) (meta_init 0 7) false (pc_none <| prev_conn_ece := 1 |>) eq_refl).
Defined.
