(* ===== verification/TxSafety.v ===== *)
(** The sender, in both builds: the class [Build] is what the reachability
    argument needs to know of a build (its handlers, the bytes in flight and
    what it keeps besides), [BuildLaws] what each handler promises about the
    stream position of [tx_next_seq].  The theorems on reachable states are
    proved against the interface; the eTran and the MTP build are its two
    instances.

    [S0] is the stream position at which the connection was opened, [N] the
    position of the next byte to send; the send ring holds position [p] at
    offset [(p - S0) mod tx_buf_size]. *)
From S2P Require Import Prelude Intf Seq Headers AckQueue Pacing EtranTcp MtpTcp.
Local Open Scope Z_scope.
Local Open Scope u32_scope.

(** ** The interface *)

Class Build := {
  (** a packet from the network with everything the handler reads besides the
      connection, and what is assumed of it *)
  bld_pkt : Type;
  bld_pkt_ok : bld_pkt -> bpf_tcp_conn -> Prop;
  bld_rx : bld_pkt -> bpf_tcp_conn -> option bpf_tcp_conn;
  (** a packet submitted by the application or the microkernel *)
  bld_sub : Type;
  bld_meta : bld_sub -> tx_meta;
  bld_room : bld_sub -> Z;
  bld_tx : bld_sub -> bpf_tcp_conn -> option tx_out;
  (** bytes sent and not acknowledged *)
  bld_inflight : bpf_tcp_conn -> Z;
  bld_ok : bpf_tcp_conn -> Prop
}.

Record snd_inv `{Build} (S0 N : Z) (c : bpf_tcp_conn) : Prop := {
  si_seq : tx_next_seq c = u32 N;
  si_size : 0 < tx_buf_size c <= 1073741824;
  si_inflight : 0 <= bld_inflight c <= tx_buf_size c;
  si_start : S0 <= N - bld_inflight c;
  si_pos : tx_next_pos c = (N - S0) mod tx_buf_size c;
  si_ok : bld_ok c
}.

(** The submission left as a data segment: on the wire or in the wheel. *)
Definition departs (t : tx_meta) (o : tx_out) : Prop :=
  Z.land (mtx_flag t) FLAG_SYNC = 0 /\ (to_action o = XDP_TX \/ to_bucket o <> None).

(** The segment in the frame carries the sequence number of the position
    whose bytes the library put at ring offset [tx_pos]. *)
Definition carries_position (S0 N : Z) (c : bpf_tcp_conn) (t : tx_meta) (o : tx_out) : Prop :=
  bpf_ntohl (th_seq (f_tcp (to_frame o))) = u32 N /\
  mtx_tx_pos t = (N - S0) mod tx_buf_size c.

Class BuildLaws `{Build} := {
  law_rx : forall S0 N c p c', snd_inv S0 N c -> bld_pkt_ok p c -> bld_rx p c = Some c' ->
    exists N', snd_inv S0 N' c' /\ N' <= N /\
      N - bld_inflight c <= N' - bld_inflight c' /\ tx_buf_size c' = tx_buf_size c;
  law_tx : forall S0 N c p o, snd_inv S0 N c -> 0 <= mtx_plen (bld_meta p) ->
    bld_inflight c + mtx_plen (bld_meta p) <= tx_buf_size c -> 64 <= bld_room p ->
    bld_tx p c = Some o ->
    exists N', snd_inv S0 N' (to_conn o) /\
      N - bld_inflight c = N' - bld_inflight (to_conn o) /\
      tx_buf_size (to_conn o) = tx_buf_size c /\
      (departs (bld_meta p) o ->
        carries_position S0 N c (bld_meta p) o /\ N' = N + mtx_plen (bld_meta p))
}.

(** ** Reachable states of a sender *)
Section Reachable.
Context `{BuildLaws}.

(** Any sequence of packets and of submissions that respect the send buffer;
    a handler that faults has no successor. *)
Inductive snd_reach (S0 : Z) : bpf_tcp_conn -> Prop :=
| snd_open c :
    tx_next_seq c = u32 S0 -> tx_next_pos c = 0 -> bld_inflight c = 0 -> bld_ok c ->
    0 < tx_buf_size c <= 1073741824 -> snd_reach S0 c
| snd_rx c p c' : snd_reach S0 c -> bld_pkt_ok p c -> bld_rx p c = Some c' -> snd_reach S0 c'
| snd_tx c p o : snd_reach S0 c -> 0 <= mtx_plen (bld_meta p) ->
    bld_inflight c + mtx_plen (bld_meta p) <= tx_buf_size c -> 64 <= bld_room p ->
    bld_tx p c = Some o -> snd_reach S0 (to_conn o).

Lemma snd_reach_inv S0 c : snd_reach S0 c -> exists N, snd_inv S0 N c.
Proof.
  induction 1 as [c H1 H2 H3 H4 H5|c p c' _ [N IH] Hok E|c p o _ [N IH] H1 H2 H3 E].
  - exists S0. split; rewrite ?H2, ?H3, ?Z.sub_diag, ?Z.mod_0_l by lia; auto; lia.
  - destruct (law_rx S0 N c p c' IH Hok E) as (N' & ? & _). by exists N'.
  - destruct (law_tx S0 N c p o IH H1 H2 H3 E) as (N' & ? & _). by exists N'.
Qed.

Lemma snd_reach_segment S0 c p o : snd_reach S0 c -> 0 <= mtx_plen (bld_meta p) ->
  bld_inflight c + mtx_plen (bld_meta p) <= tx_buf_size c -> 64 <= bld_room p ->
  bld_tx p c = Some o -> departs (bld_meta p) o ->
  exists N, S0 <= N - bld_inflight c /\ tx_next_seq c = u32 N /\
    carries_position S0 N c (bld_meta p) o /\
    tx_next_seq (to_conn o) = u32 (N + mtx_plen (bld_meta p)) /\
    bld_inflight (to_conn o) = bld_inflight c + mtx_plen (bld_meta p).
Proof.
  intros Hr H1 H2 H3 E Hd. destruct (snd_reach_inv S0 c Hr) as [N Hi].
  destruct (law_tx S0 N c p o Hi H1 H2 H3 E) as (N' & Hi' & Hu & _ & Hc).
  destruct (Hc Hd) as [Hcp ->]. exists N. destruct Hi, Hi'. split_and!; auto. lia.
Qed.
End Reachable.

(** ** The eTran build *)

(** The send half of a connection. *)
Definition tx_view (c : bpf_tcp_conn) : Z * Z * Z * Z * Z * Z * Z :=
  (tx_next_seq c, tx_next_pos c, tx_buf_size c, tx_sent c, send_una c, buf_curr_seq c,
   rx_dupack_cnt c).

Record etran_pkt := mk_etran_pkt {
  ep_cpu : Z; ep_ktime : Z; ep_rxc : Z; ep_tcp : tcphdr; ep_ts : tcp_timestamp_opt;
  ep_cc : option bpf_cc; ep_len : Z; ep_meta : rx_meta; ep_ece : bool; ep_pc : prev_conn_t
}.

Record tx_sub := mk_tx_sub {
  su_redirect : Z -> xdp_action; su_env : tx_env; su_meta : tx_meta; su_frame : frame;
  su_cc : option bpf_cc; su_m : rx_meta; su_tw : tw_state
}.

Definition etran_rx (p : etran_pkt) (c : bpf_tcp_conn) : bpf_tcp_conn :=
  let '(_, c', _, _, _) := etran_rx_process (ep_cpu p) (ep_ktime p) (ep_rxc p) (ep_tcp p)
    (ep_ts p) c (ep_cc p) (ep_len p) (ep_meta p) (ep_ece p) (ep_pc p) in c'.

Definition etran_tx (p : tx_sub) (c : bpf_tcp_conn) : tx_out :=
  etran_tx_process (su_redirect p) (su_env p) (su_meta p) (su_frame p) c (su_cc p) (su_m p)
    (su_tw p).

Definition etran_build : Build := {|
  bld_pkt := etran_pkt;
  bld_pkt_ok _ _ := True;
  bld_rx p c := Some (etran_rx p c);
  bld_sub := tx_sub;
  bld_meta := su_meta;
  bld_room p := f_len (su_frame p);
  bld_tx p c := Some (etran_tx p c);
  bld_inflight := tx_sent;
  bld_ok _ := True |}.

Lemma etran_inv_view S0 N c c' : tx_view c' = tx_view c ->
  @snd_inv etran_build S0 N c -> @snd_inv etran_build S0 N c'.
Proof.
  unfold tx_view. intros [= E1 E2 E3 E4 _ _ _] [H1 H2 H3 H4 H5 _]. cbn in *.
  split; cbn; rewrite ?E1, ?E2, ?E3, ?E4; auto.
Qed.

Lemma rx_payload_stage_tx s : tx_view (rs_c (flow_st (rx_payload_stage s))) = tx_view (rs_c s).
Proof.
  unfold rx_payload_stage. destruct (tcp_valid_rxseq_ooo _ _ _) as [[ts te]|]; [|done].
  destruct (negb _); [|done]. destruct (_ =? 0); [done|]. unfold rx_ooo_stage.
  destruct (_ =? 0); [done|]. destruct (_ =? _); [done|]. by destruct (_ =? _).
Qed.

Lemma rx_accept_stage_tx s : tx_view (rs_c (rx_accept_stage s)) = tx_view (rs_c s).
Proof.
  assert (Hm : forall s, tx_view (rs_c (rx_merge_stage s)) = tx_view (rs_c s)).
  { intros s1. unfold rx_merge_stage. destruct (_ =? 0); [done|].
    destruct (tcp_valid_rxseq_ooo _ _ _) as [[ts te]|]; [|done]. by destruct (_ && _). }
  unfold rx_accept_stage. destruct (_ =? 0); [done|].
  set (s1 := s <|rs_v ::= _|> <|rs_c ::= _|>). transitivity (tx_view (rs_c (rx_merge_stage s1))).
  - generalize (rx_merge_stage s1). intros s2. by destruct (_ =? 0).
  - rewrite Hm. done.
Qed.

Lemma rx_window_stage_tx t o now s : tx_view (rs_c (rx_window_stage t o now s)) = tx_view (rs_c s).
Proof. unfold rx_window_stage. cbn. by destruct (_ || _), (_ && _). Qed.

(** Only the acknowledgement stage touches the send half. *)
Lemma etran_rx_body_tx t o now s :
  tx_view (rs_c (etran_rx_body t o now s)) = tx_view (rs_c (flow_st (rx_ack_stage t s))).
Proof.
  unfold etran_rx_body. destruct (rx_ack_stage t s) as [s1|s1]; [|done]. cbn [flow_bind flow_st].
  pose proof (rx_payload_stage_tx s1) as Hp.
  destruct (rx_payload_stage s1) as [s2|s2]; cbn [flow_bind flow_st] in *; [|done].
  by rewrite rx_accept_stage_tx, rx_window_stage_tx.
Qed.

Lemma fast_retransmit_tx c cc :
  let '(pos, c', _) := fast_retransmit c cc in
  tx_view c' = (tx_next_seq c ⊖ tx_sent c, ring_back (tx_buf_size c) (tx_next_pos c) (tx_sent c),
    tx_buf_size c, 0, send_una c, buf_curr_seq c, 0) /\ pos = tx_next_pos c'.
Proof. split; reflexivity. Qed.

Lemma etran_inv_intro S0 N c a b sz sent x y z :
  tx_view c = (a, b, sz, sent, x, y, z) -> a = u32 N -> 0 < sz <= 1073741824 ->
  0 <= sent <= sz -> S0 <= N - sent -> b = (N - S0) mod sz -> @snd_inv etran_build S0 N c.
Proof.
  unfold tx_view. intros [= E1 E2 E3 E4 _ _ _] ? ? ? ? ?. split; cbn; congruence || by subst.
Qed.

Lemma fast_retransmit_inv S0 N c cc :
  @snd_inv etran_build S0 N c ->
  let '(pos, c', _) := fast_retransmit c cc in
  @snd_inv etran_build S0 (N - tx_sent c) c' /\ tx_sent c' = 0 /\
  tx_buf_size c' = tx_buf_size c /\ pos = (N - tx_sent c - S0) mod tx_buf_size c.
Proof.
  intros [H1 H2 H3 H4 H5 _]. cbn in H3, H4. pose proof (fast_retransmit_tx c cc) as Hv.
  destruct (fast_retransmit c cc) as [[pos c'] cc']. destruct Hv as [Hv ->].
  assert (Hp : ring_back (tx_buf_size c) (tx_next_pos c) (tx_sent c)
    = (N - tx_sent c - S0) mod tx_buf_size c).
  { rewrite (ring_back_mod _ _ _ (N - S0)) by auto. f_equal. lia. }
  split; [eapply etran_inv_intro; [exact Hv|rewrite H1; by u32_norm|lia..|done]|].
  rewrite Hp in Hv. unfold tx_view in Hv. by injection Hv as ? ? ? ? ? ? ?.
Qed.

(** What the acknowledgement stage does to the send half. *)
Lemma rx_ack_stage_tx t s :
  let c := rs_c s in
  let c' := rs_c (flow_st (rx_ack_stage t s)) in
  c' = c \/
  exists b d, 0 <= b <= tx_sent c /\
    let c1 := c <| tx_sent := tx_sent c ⊖ b |> <| rx_dupack_cnt := d |> in
    c' = c1 \/ c' = c <| tx_sent := tx_sent c ⊖ b |> \/
    exists cc, c' = snd (fst (fast_retransmit c1 cc)).
Proof.
  cbv zeta. unfold rx_ack_stage. destruct (negb _); [by left|].
  destruct (tcp_valid_rxack _ _) as [b|] eqn:Eb; [|by left].
  destruct (b >? _) eqn:Hgt; [by left|]. right. apply rxack_range in Eb. cbn in Hgt.
  exists b. destruct (nz b); [exists 0; split; [bool_props; mach_lia|by left]|].
  destruct (_ && _).
  2:{ exists 0. split; [bool_props; mach_lia|]. right; by left. }
  exists (u16 (rx_dupack_cnt (rs_c s) + 1)). split; [bool_props; mach_lia|].
  destruct (_ =? 3); [|by left]. right; right.
  destruct (fast_retransmit _ _) as [[p c'] cc'] eqn:E.
  lazymatch type of E with fast_retransmit _ ?cc = _ => exists cc end.
  change c' with (snd (fst (p, c', cc'))). rewrite <- E. reflexivity.
Qed.

(** An acknowledgement of [b] bytes in flight. *)
Lemma etran_ack_inv S0 N c b c' :
  @snd_inv etran_build S0 N c -> 0 <= b <= tx_sent c ->
  tx_next_seq c' = tx_next_seq c -> tx_next_pos c' = tx_next_pos c ->
  tx_buf_size c' = tx_buf_size c -> tx_sent c' = tx_sent c ⊖ b ->
  @snd_inv etran_build S0 N c' /\ tx_sent c' = tx_sent c - b.
Proof.
  intros [H1 H2 H3 H4 H5 _] Hb E1 E2 E3 E4. cbn in H3, H4.
  rewrite u32_small in E4 by mach_lia. split; [|done].
  split; cbn; rewrite ?E1, ?E2, ?E3, ?E4; auto; lia.
Qed.

Lemma rx_ack_stage_inv S0 N t s :
  @snd_inv etran_build S0 N (rs_c s) ->
  let c' := rs_c (flow_st (rx_ack_stage t s)) in
  exists N', @snd_inv etran_build S0 N' c' /\ N' <= N /\
    N - tx_sent (rs_c s) <= N' - tx_sent c' /\ tx_buf_size c' = tx_buf_size (rs_c s).
Proof.
  intros Hi. pose proof (rx_ack_stage_tx t s) as Hv. cbv zeta in *.
  set (c' := rs_c (flow_st _)) in *. clearbody c'. set (c := rs_c s) in *. clearbody c.
  destruct Hv as [->|(b & d & Hb & Hv)]; [exists N; split_and!; (done || lia)|].
  set (c1 := c <|tx_sent := _|> <|rx_dupack_cnt := d|>) in *.
  assert (H1 : @snd_inv etran_build S0 N c1 /\ tx_sent c1 = tx_sent c - b)
    by (eapply etran_ack_inv; done).
  assert (E1 : tx_buf_size c1 = tx_buf_size c) by done.
  assert (H2 : @snd_inv etran_build S0 N (c <| tx_sent := tx_sent c ⊖ b |>) /\
    tx_sent (c <| tx_sent := tx_sent c ⊖ b |>) = tx_sent c - b) by (eapply etran_ack_inv; done).
  clearbody c1. destruct H1 as [H1 E], H2 as [H2 E'].
  destruct Hv as [->|[->|[cc ->]]].
  - exists N. split_and!; (done || lia).
  - exists N. split_and!; [done|lia|lia|reflexivity].
  - pose proof (fast_retransmit_inv S0 N c1 cc H1) as Hf.
    destruct (fast_retransmit c1 cc) as [[pos c2] cc2]. destruct Hf as (Hf & E2 & E3 & _).
    exists (N - tx_sent c1). cbn. destruct H1 as [_ _ H1 _ _ _]. cbn in H1.
    split_and!; [done|lia|lia|congruence].
Qed.

(** *** Submissions *)

Lemma tx_depart_frame tw e d r b o cc :
  to_conn (tx_depart tw e d r b o cc) = to_conn o /\
  to_frame (tx_depart tw e d r b o cc) = to_frame o.
Proof.
  unfold tx_depart. destruct (_ && _); [done|]. destruct (_ && _); [done|].
  destruct (negb _); [done|]. destruct (tw_insert _ _ _ _). by destruct (_ =? _).
Qed.

Lemma etran_send_tx n c cc :
  tx_view (fst (etran_send n c cc)) =
  (tx_next_seq c ⊕ n, ring_adv (tx_buf_size c) (tx_next_pos c) n, tx_buf_size c,
   tx_sent c ⊕ n, send_una c, buf_curr_seq c, rx_dupack_cnt c).
Proof. reflexivity. Qed.

Lemma fill_tcp_hdr_seq f c ts fl : 64 <= f_len f ->
  th_seq (f_tcp (fill_tcp_hdr f c ts fl)) = bpf_htonl (tx_next_seq c).
Proof.
  intros H. unfold fill_tcp_hdr, ts_opt_overrun. destruct (Z.gtb_spec 64 (f_len f)); [lia|done].
Qed.

Lemma tx_rx_bump_tx n c : tx_view (snd (tx_rx_bump n c)) = tx_view c.
Proof. unfold tx_rx_bump. by destruct (nz n). Qed.

(** The three outcomes of a submission. *)
Lemma etran_tx_cases p c :
  let o := etran_tx p c in
  (tx_view (to_conn o) = tx_view c /\ ~ departs (su_meta p) o) \/
  (exists cc, to_conn o = snd (fst (fast_retransmit c cc)) /\ ~ departs (su_meta p) o) \/
  (exists c1 cc, tx_view c1 = tx_view c /\
     to_conn o = fst (etran_send (mtx_plen (su_meta p)) c1 cc) /\
     mtx_tx_pos (su_meta p) = tx_next_pos c /\
     (64 <= f_len (su_frame p) ->
        th_seq (f_tcp (to_frame o)) = bpf_htonl (tx_next_seq c))).
Proof.
  cbv zeta. unfold etran_tx, etran_tx_process. destruct p as [tw e t f cc m s]. cbn [su_meta
    su_redirect su_env su_frame su_cc su_m su_tw].
  assert (Hnd : forall o, to_action o <> XDP_TX -> to_bucket o = None -> ~ departs t o)
    by (intros ? ? ? [_ [?|?]]; done).
  destruct (_ >=? _); [left; split; [done|by apply Hnd]|].
  destruct cc as [cc|]; [|left; split; [done|by apply Hnd]].
  destruct (nz (Z.land _ FLAG_TO)).
  { unfold tx_timeout. destruct (negb _); [left; split; [done|by apply Hnd]|].
    right; left. exists cc. cbn [to_conn]. destruct (fast_retransmit c cc) as [[pos c'] cc'].
    split; [done|by apply Hnd]. }
  pose proof (tx_rx_bump_tx (mtx_rx_bump t) c) as Hb.
  destruct (tx_rx_bump (mtx_rx_bump t) c) as [w c0]. cbn in Hb.
  destruct (nz (Z.land _ FLAG_SYNC)) eqn:Hsync.
  { left. apply nz_true in Hsync. split; [|by intros [? _]].
    unfold tx_sync. by destruct w. }
  destruct (Z.eqb_spec (mtx_tx_pos t) (tx_next_pos c0)) as [Epos|]; cbn [negb].
  2:{ left. split; [done|by apply Hnd]. }
  right; right. destruct (cc_get_desired_tx_ts _ _ _) as [d cc1].
  set (c1 := if nz (mtx_tx_pending t) then _ else _).
  assert (Hc1 : tx_view c1 = tx_view c) by (rewrite <- Hb; subst c1; destruct (nz (mtx_tx_pending t)); reflexivity).
  destruct (etran_send (mtx_plen t) c1 cc1) as [c2 cc2] eqn:Es.
  exists c1, cc1. destruct (tx_depart_frame tw e d (tx_ref_ts e s) (tx_sent c2 =? mtx_plen t)
    ((mk_tx_out XDP_DROP None f c (Some cc) m s) <| to_conn := c0 |>
       <| to_frame := (fill_tcp_hdr f c1 d 0) <|
         f_ip := fill_ip_hdr (f_ip (fill_tcp_hdr f c1 d 0)) (mtx_plen t) (nz (ecn_enable c1)) |> |>
       <| to_conn := c2 |> <| to_cc := Some cc2 |>) cc2) as [-> ->].
  unfold tx_view in Hc1, Hb.
  split_and!; [done|by rewrite Es|cbn; congruence|]. intros Hroom. cbn.
  rewrite fill_tcp_hdr_seq by done. congruence.
Qed.

Lemma etran_send_inv S0 N c c1 cc n :
  @snd_inv etran_build S0 N c -> tx_view c1 = tx_view c -> 0 <= n ->
  tx_sent c + n <= tx_buf_size c ->
  let c' := fst (etran_send n c1 cc) in
  @snd_inv etran_build S0 (N + n) c' /\ tx_sent c' = tx_sent c + n /\
  tx_buf_size c' = tx_buf_size c.
Proof.
  intros [H1 H2 H3 H4 H5 _] Hv Hn Hroom. cbn in H3, H4. pose proof (etran_send_tx n c1 cc) as Hs.
  cbv zeta. set (c' := fst _) in *. clearbody c'. unfold tx_view in Hv.
  injection Hv as E1 E2 E3 E4 E5 E6 E7. rewrite E1, E2, E3, E4, E5, E6, E7 in Hs.
  rewrite (u32_small (tx_sent c + n)) in Hs by mach_lia.
  split; [eapply etran_inv_intro; [exact Hs|..]|unfold tx_view in Hs; by injection Hs]; try lia.
  - rewrite H1. by u32_norm.
  - rewrite (ring_adv_mod _ _ _ (N - S0)) by (auto; lia). f_equal. lia.
Qed.

Lemma etran_laws : @BuildLaws etran_build.
Proof.
  split.
  - intros S0 N c p c' Hi _ [= <-]. unfold bld_rx. cbn -[etran_rx]. unfold etran_rx, etran_rx_process.
    destruct (ep_cc p) as [cc|]; [|exists N; split_and!; (done || lia)].
    set (now := u32 _). set (s := mk_rx_st _ _ _ _).
    pose proof (etran_rx_body_tx (ep_tcp p) (ep_ts p) now s) as Hv.
    destruct (rx_ack_stage_inv S0 N (ep_tcp p) s Hi) as (N' & Hi' & HN & Hu & Hsz).
    set (s1 := etran_rx_body _ _ _ _) in *. clearbody s1.
    assert (Ec : rs_c (snd (rx_unlock_stage s1)) = rs_c s1)
      by (unfold rx_unlock_stage; by destruct (_ || _)).
    destruct (rx_unlock_stage s1) as [d s2]. cbn in Ec. rewrite Ec.
    exists N'. pose proof (etran_inv_view _ _ _ _ Hv Hi').
    unfold tx_view in Hv. injection Hv as _ _ E3 E4 _ _ _. rewrite E3, E4. done.
  - intros S0 N c p o Hi Hn Hroom Hf [= <-]. cbn in Hn, Hroom, Hf |- *.
    pose proof (etran_tx_cases p c) as Hc. cbv zeta in Hc. set (o := etran_tx p c) in *.
    clearbody o. destruct Hc as [[Hv Hd]|[(cc & Hv & Hd)|(c1 & cc & Hv & Ec & Epos & Hseq)]].
    + exists N. pose proof (etran_inv_view _ _ _ _ Hv Hi).
      unfold tx_view in Hv. injection Hv as _ _ E3 E4 _ _ _. rewrite E3, E4. split_and!; done.
    + pose proof (fast_retransmit_inv S0 N c cc Hi) as Hr. rewrite Hv.
      destruct (fast_retransmit c cc) as [[pos c'] cc']. destruct Hr as (Hr & E1 & E2 & _).
      exists (N - tx_sent c). cbn. split_and!; (done || lia).
    + destruct (etran_send_inv S0 N c c1 cc (mtx_plen (su_meta p)) Hi Hv Hn Hroom) as (Hi' & Es & Ez).
      rewrite Ec. exists (N + mtx_plen (su_meta p)). split_and!; [done|lia|done|].
      intros _. split; [|done]. destruct Hi as [H1 _ _ _ H5 _]. split; [|congruence].
      rewrite (Hseq Hf), H1. apply bpf_ntohl_htonl, u32_range.
Qed.

(** C8. Sequence numbers and payload agree, eTran build: whatever
    acknowledgements, losses, timeouts and submissions came before, a
    submitted segment that leaves carries the sequence number of the stream
    position whose bytes the library stored at its ring offset; that position
    is not below the oldest unacknowledged one, and the bytes in flight grow
    by the payload. *)
Theorem etran_segments_carry_their_position (S0 : Z) (c : bpf_tcp_conn) (p : tx_sub)
  (Hreach : @snd_reach etran_build S0 c) (Hlen : 0 <= mtx_plen (su_meta p))
  (Hroom : tx_sent c + mtx_plen (su_meta p) <= tx_buf_size c)
  (Hframe : 64 <= f_len (su_frame p)) (Hleaves : departs (su_meta p) (etran_tx p c)) :
  exists N, S0 <= N - tx_sent c /\ tx_next_seq c = u32 N /\
    carries_position S0 N c (su_meta p) (etran_tx p c) /\
    tx_next_seq (to_conn (etran_tx p c)) = u32 (N + mtx_plen (su_meta p)) /\
    tx_sent (to_conn (etran_tx p c)) = tx_sent c + mtx_plen (su_meta p).
Proof.
  exact (@snd_reach_segment etran_build etran_laws S0 c p _ Hreach Hlen Hroom Hframe eq_refl Hleaves).
Qed.

Definition tw_blank : tw_state := mk_tw_state 0 0 false false 0.
Definition env_blank : tx_env := mk_tx_env 0 5000 5000 0 true.
Definition sub_blank (pos plen : Z) : tx_sub :=
  mk_tx_sub (fun _ => XDP_REDIRECT) env_blank (mk_tx_meta 0 0 0 plen pos plen) frame_blank
    (Some (mk_bpf_cc 0 LINK_BANDWIDTH 0 0 0 0 0 0 0)) (mk_rx_meta 0 0 0 0 0 0 0 0) tw_blank.

Lemma etran_segments_carry_their_position_witness :
  exists N, 1 <= N - tx_sent conn_blank /\ tx_next_seq conn_blank = u32 N /\
    tx_next_seq (to_conn (etran_tx (sub_blank 0 100) conn_blank)) = u32 (N + 100).
Proof.
  destruct (etran_segments_carry_their_position 1 conn_blank (sub_blank 0 100)) as (N & H1 & H2 & _ & H3 & _).
  - apply (@snd_open etran_build); vm_compute; by split.
  - vm_compute; done.
  - vm_compute; done.
  - vm_compute; done.
  - split; [done|left; vm_compute; done].
  - exists N. by split_and!.
Defined.

(** ** The MTP build *)

Record mtp_pkt := mk_mtp_pkt {
  mp_ktime : Z; mp_ktime2 : Z; mp_rxc : Z; mp_ev : net_event; mp_cc : option bpf_cc;
  mp_io : interm_out; mp_m : rx_meta; mp_q : ack_queue
}.

Definition mtp_rx (p : mtp_pkt) (c : bpf_tcp_conn) : option bpf_tcp_conn :=
  match mtp_rx_process (mp_ktime p) (mp_ktime2 p) (mp_rxc p) (mp_ev p) c (mp_cc p) (mp_io p)
    (mp_m p) (mp_q p) with
  | None => None
  | Some (_, c', _, _, _) => Some c'
  end.

(** The event of a submission, as [xdp_egress_prog] builds it. *)
Definition sub_event (junk : app_timer_event) (t : tx_meta) : app_timer_event :=
  if nz (Z.land (mtx_flag t) FLAG_TO) then parse_req_to_timer_event junk
  else parse_req_to_app_event junk t.

Definition mtp_tx (p : tx_sub * app_timer_event) (c : bpf_tcp_conn) : option tx_out :=
  mtp_tx_process (su_redirect p.1) (su_env p.1) (su_meta p.1) (sub_event p.2 (su_meta p.1))
    (su_frame p.1) c (su_cc p.1) (su_m p.1) (su_tw p.1).

(** Bytes in flight. *)
Definition mtp_inflight (c : bpf_tcp_conn) : Z := tx_next_seq c ⊖ send_una c.

(** An acknowledgement outside the expected range leaves
    [num_acked_bytes] as it was found on the stack; the invariant needs the
    acknowledgement to be in range or the stack to hold zero there. *)
Definition mtp_pkt_ok (p : mtp_pkt) (c : bpf_tcp_conn) : Prop :=
  ne_minor_type (mp_ev p) = NET_EVENT_ACK -> in32 (ne_ack_seq (mp_ev p)) /\
  (io_num_acked_bytes (mp_io p) = 0 \/
   rxack (send_una c) (tx_next_seq c) (ne_ack_seq (mp_ev p)) <> None).

Record mtp_ok (c : bpf_tcp_conn) : Prop := {
  mo_buf : buf_curr_seq c = tx_next_seq c;
  mo_una : in32 (send_una c);
  mo_dup : 0 <= rx_dupack_cnt c < 3
}.

Definition mtp_build : Build := {|
  bld_pkt := mtp_pkt;
  bld_pkt_ok := mtp_pkt_ok;
  bld_rx := mtp_rx;
  bld_sub := tx_sub * app_timer_event;
  bld_meta p := su_meta p.1;
  bld_room p := f_len (su_frame p.1);
  bld_tx := mtp_tx;
  bld_inflight := mtp_inflight;
  bld_ok := mtp_ok |}.

Lemma mtp_inv_view S0 N c c' : tx_view c' = tx_view c ->
  @snd_inv mtp_build S0 N c -> @snd_inv mtp_build S0 N c' /\ mtp_inflight c' = mtp_inflight c /\
  tx_buf_size c' = tx_buf_size c.
Proof.
  unfold tx_view. intros [= E1 E2 E3 E4 E5 E6 E7] [H1 H2 H3 H4 H5 [H6 H7 H8]]. cbn in *.
  assert (E : mtp_inflight c' = mtp_inflight c) by (unfold mtp_inflight; congruence).
  split; [|done]. split; cbn; rewrite ?E, ?E1, ?E2, ?E3; auto.
  split; rewrite ?E1, ?E5, ?E6, ?E7; auto.
Qed.

(** *** Data packets leave the send half alone *)
Lemma flush_ooo_data_ep_tx ev c io : tx_view (fst (flush_ooo_data_ep ev c io)) = tx_view c.
Proof.
  unfold flush_ooo_data_ep. set (c1 := if rx_remote_avail c <? _ then _ else _).
  set (c2 := if _ && _ then _ else c1).
  assert (Hc : tx_view c2 = tx_view c)
    by (transitivity (tx_view c1); [subst c2; by destruct (_ && _)|subst c1; by destruct (_ <? _)]).
  rewrite <- Hc. clearbody c2. clear. destruct (_ =? 0); [done|]. destruct (_ =? 0); [done|].
  destruct (rxseq_ooo _ _ _ _) as [[ts te]|]; [|done]. by destruct (_ && _).
Qed.

Lemma detect_ooo_data_ep_tx ev c io m :
  let '(_, c', _, _) := detect_ooo_data_ep ev c io m in tx_view c' = tx_view c.
Proof.
  unfold detect_ooo_data_ep. destruct (io_skip_data_eps io); [done|].
  destruct (negb _); [|done]. destruct (_ =? 0); [done|]. destruct (_ =? 0); [done|].
  destruct (_ =? _); [done|]. by destruct (_ =? _).
Qed.

Lemma send_ack_tx ev c io q c' q' : send_ack ev c io q = Some (c', q') -> tx_view c' = tx_view c.
Proof.
  unfold send_ack, mtp_pkt_gen_for_xdp_gen. destruct (negb _); [by intros [= <- _]|].
  destruct (_ =? _); [done|]. destruct (aq_lookup _ _); by intros [= <- _].
Qed.

Lemma mtp_data_chain_tx ev c io m q c' io' m' q' :
  mtp_data_chain ev c io m q = Some (c', io', m', q') -> tx_view c' = tx_view c.
Proof.
  unfold mtp_data_chain. destruct (verify_trim_data_ep ev c io m) as [[ev1 io1] m1].
  pose proof (detect_ooo_data_ep_tx ev1 c io1 m1) as Hd.
  destruct (detect_ooo_data_ep ev1 c io1 m1) as [[[ev2 c2] io2] m2].
  pose proof (flush_ooo_data_ep_tx ev2 c2 io2) as Hf.
  destruct (flush_ooo_data_ep ev2 c2 io2) as [c3 io3]. cbn in Hf.
  destruct (data_net_ep ev2 c3 io3 m2) as [io4 m4].
  destruct (send_ack ev2 c3 io4 q) as [[c4 q4]|] eqn:E; [|done].
  intros [= <- _ _ _]. apply send_ack_tx in E. by rewrite E, Hf.
Qed.

(** *** Going back *)

Lemma mtp_una S0 N c : @snd_inv mtp_build S0 N c -> send_una c = u32 (N - mtp_inflight c).
Proof.
  intros [H1 _ _ _ _ [_ H7 _]]. unfold mtp_inflight. rewrite H1, u32_sub_r, <- u32_sub_l.
  replace (u32 N - (u32 N - send_una c)) with (send_una c) by lia. by rewrite u32_small.
Qed.

Lemma mtp_go_back_tx c cc :
  tx_view (fst (mtp_go_back c cc)) =
  (tx_next_seq c ⊖ mtp_inflight c, tx_next_pos c, tx_buf_size c, tx_sent c, send_una c,
   buf_curr_seq c, rx_dupack_cnt c).
Proof. unfold mtp_go_back. by destruct (_ =? 0). Qed.

Lemma mtp_unseg_tx c seq t m c' f' m' :
  mtp_pkt_gen_wrapper false bp_zero c None 0 seq t m = Some (c', f', m') ->
  tx_view c' =
  (tx_next_seq c, ring_back (tx_buf_size c) (tx_next_pos c) (buf_curr_seq c ⊖ seq), tx_buf_size c,
   tx_sent c, send_una c, buf_curr_seq c ⊖ (buf_curr_seq c ⊖ seq), rx_dupack_cnt c).
Proof.
  unfold mtp_pkt_gen_wrapper. cbn [orb]. destruct (_ <? _); [done|]. by intros [= <- _ _].
Qed.

(** The sender goes back to the oldest unacknowledged byte: [c1] is the state
    after [mtp_go_back], [c'] the one after the packet-generation wrapper. *)
Lemma mtp_retransmit_inv S0 N c c1 t m c' f' m' :
  @snd_inv mtp_build S0 N c ->
  tx_view c1 = (tx_next_seq c ⊖ mtp_inflight c, tx_next_pos c, tx_buf_size c, tx_sent c,
    send_una c, buf_curr_seq c, 0) ->
  mtp_pkt_gen_wrapper false bp_zero c1 None 0 (send_una c1) t m = Some (c', f', m') ->
  @snd_inv mtp_build S0 (N - mtp_inflight c) c' /\ mtp_inflight c' = 0 /\
  tx_buf_size c' = tx_buf_size c.
Proof.
  intros Hi Hv E. pose proof (mtp_una S0 N c Hi) as Hu.
  destruct Hi as [H1 H2 H3 H4 H5 [H6 H7 H8]]. cbn in H3, H4.
  apply mtp_unseg_tx in E. unfold tx_view in E, Hv. injection Hv as E1 E2 E3 E4 E5 E6 E7.
  rewrite E1, E2, E3, E5, E6, E7 in E. injection E as F1 F2 F3 F4 F5 F6 F7.
  fold (mtp_inflight c) in F2. rewrite H6 in F6, F2. fold (mtp_inflight c) in F6, F2.
  assert (E : tx_next_seq c ⊖ mtp_inflight c = u32 (N - mtp_inflight c)) by (rewrite H1; by u32_norm).
  assert (Hz : mtp_inflight c' = 0)
    by (unfold mtp_inflight at 1; rewrite F1, F5, E, Hu, Z.sub_diag; done).
  split; [|done]. split; cbn; rewrite ?Hz, ?F1, ?F2, ?F3; auto; try lia.
  - rewrite (ring_back_mod _ _ _ (N - S0)) by auto. f_equal. lia.
  - split; [congruence|by rewrite F5|rewrite F7; lia].
Qed.

(** *** Acknowledgements *)

Lemma rxack_inflight c ack b : mtp_ok c -> in32 (tx_next_seq c) -> in32 ack ->
  rxack (send_una c) (tx_next_seq c) ack = Some b ->
  b = ack ⊖ send_una c /\ 0 <= b <= mtp_inflight c.
Proof.
  intros [_ Hu _] Hn Ha. rewrite rxack_offset by done. fold (mtp_inflight c).
  destruct (Z.leb_spec (u32 (ack - send_una c)) (mtp_inflight c)); intros [= <-].
  split; [done|]. pose proof (u32_range (ack - send_una c)). mach_lia.
Qed.

(** What [fast_retr_rec_ep] leaves for [ack_net_ep]. *)
Lemma fast_retr_rec_ep_tx ev c io cc :
  let '(c', io', _) := fast_retr_rec_ep ev c io cc in
  match rxack (send_una c) (tx_next_seq c) (ne_ack_seq ev) with
  | None => c' = c /\ io_num_acked_bytes io' = io_num_acked_bytes io
  | Some b => io_num_acked_bytes io' = b /\
    (b <> 0 /\ tx_view c' = tx_view (c <| rx_dupack_cnt := 0 |>) \/
     b = 0 /\ (c' = c \/
       rx_dupack_cnt c' <> 3 /\ tx_view c' = tx_view (c <| rx_dupack_cnt := u16 (rx_dupack_cnt c + 1) |>) \/
       exists cc', c' = fst (mtp_go_back (c <| rx_dupack_cnt := 3 |>) cc')))
  end.
Proof.
  unfold fast_retr_rec_ep. destruct (rxack _ _ _) as [b|]; [|done].
  destruct (nz b) eqn:Hb; [apply nz_true in Hb|apply nz_false in Hb].
  { split; [done|]. left. done. }
  destruct (_ =? u32 _); [|split; [done|right]; split; [done|by left]].
  destruct (Z.eqb_spec (rx_dupack_cnt (c <| rx_dupack_cnt := u16 (rx_dupack_cnt c + 1) |>)) 3) as [E|E].
  - cbn in E. rewrite E.
    match goal with |- context [mtp_go_back ?a ?x] => destruct (mtp_go_back a x) as [c2 cc2] eqn:G;
      pose proof (f_equal fst G) as G'; cbn in G'; split; [done|right]; split; [done|];
      right; right; exists x end.
    symmetry. exact G'.
  - split; [done|right]. split; [done|]. right; left. split; [exact E|done].
Qed.

Lemma ack_net_ep_tx ktime ev c io m cc c' io' m' cc' :
  ack_net_ep ktime ev c io m cc = Some (c', io', m', cc') -> rx_dupack_cnt c <> 3 ->
  tx_view c' = tx_view (if io_num_acked_bytes io >? 0 then c <| send_una := ne_ack_seq ev |> else c).
Proof.
  unfold ack_net_ep. intros E Hd. destruct (Z.eqb_spec (rx_dupack_cnt c) 3); [done|].
  destruct (negb (io_drop io)).
  - destruct (mtp_tx_data_flush _ _ _ _). injection E as <- _ _ _.
    by destruct (_ || _), (_ >? 0).
  - destruct (mtp_tx_data_flush _ _ _ _). injection E as <- _ _ _. by destruct (_ >? 0).
Qed.

Lemma ack_net_ep_dup ktime ev c io m cc c' io' m' cc' :
  ack_net_ep ktime ev c io m cc = Some (c', io', m', cc') -> rx_dupack_cnt c = 3 ->
  exists f', let c1 := c <| rx_dupack_cnt := 0 |> in
    mtp_pkt_gen_wrapper false bp_zero c1 None 0 (send_una c1) NET_EVENT m = Some (c', f', m').
Proof.
  unfold ack_net_ep. intros E Hd. destruct (Z.eqb_spec (rx_dupack_cnt c) 3); [|done].
  destruct (mtp_pkt_gen_wrapper _ _ _ _ _ _ _ _) as [[[c1 f1] m1]|] eqn:G; [|done].
  injection E as <- _ <- _. by exists f1.
Qed.

Lemma mtp_advance_inv S0 N c c' b d ack :
  @snd_inv mtp_build S0 N c -> 0 <= b <= mtp_inflight c -> b = ack ⊖ send_una c -> in32 ack ->
  0 <= d < 3 ->
  tx_view c' = (tx_next_seq c, tx_next_pos c, tx_buf_size c, tx_sent c, ack, buf_curr_seq c, d) ->
  @snd_inv mtp_build S0 N c' /\ mtp_inflight c' = mtp_inflight c - b /\
  tx_buf_size c' = tx_buf_size c.
Proof.
  intros Hi Hb Eb Ha Hd Hv. pose proof (mtp_una S0 N c Hi) as Hu.
  destruct Hi as [H1 H2 H3 H4 H5 [H6 H7 H8]]. cbn in H3, H4.
  unfold tx_view in Hv. injection Hv as E1 E2 E3 E4 E5 E6 E7.
  assert (E : mtp_inflight c' = mtp_inflight c - b)
    by (unfold mtp_inflight in *; rewrite E1, E5; subst b; clear - Hb Ha H7; mach_lia).
  split; [|done]. split; cbn; rewrite ?E, ?E1, ?E2, ?E3; auto; try lia.
  split; [congruence|by rewrite E5|lia].
Qed.

Lemma mtp_ack_chain_inv S0 N ktime ev c io m cc c' io' m' cc' :
  @snd_inv mtp_build S0 N c -> in32 (ne_ack_seq ev) ->
  io_num_acked_bytes io = 0 \/ rxack (send_una c) (tx_next_seq c) (ne_ack_seq ev) <> None ->
  mtp_ack_chain ktime ev c io m cc = Some (c', io', m', cc') ->
  exists N', @snd_inv mtp_build S0 N' c' /\ N' <= N /\
    N - mtp_inflight c <= N' - mtp_inflight c' /\ tx_buf_size c' = tx_buf_size c.
Proof.
  intros Hi Ha Hio E. unfold mtp_ack_chain in E. set (cc0 := cc <|cc_cnt_rx_acks := _|>) in E.
  pose proof (fast_retr_rec_ep_tx ev c io cc0) as Hf.
  destruct (fast_retr_rec_ep ev c io cc0) as [[c1 io1] cc1].
  pose proof Hi as [H1 _ Hin _ _ Hok]. pose proof Hok as [_ Hu Hd]. cbn in Hin.
  assert (Hn : in32 (tx_next_seq c)) by (rewrite H1; apply u32_range).
  assert (Hkeep : forall d, 0 <= d < 3 -> tx_view c' = tx_view (c <| rx_dupack_cnt := d |>) ->
    exists N', @snd_inv mtp_build S0 N' c' /\ N' <= N /\
    N - mtp_inflight c <= N' - mtp_inflight c' /\ tx_buf_size c' = tx_buf_size c).
  { intros d Hd' Hv. exists N.
    destruct (mtp_advance_inv S0 N c c' 0 d (send_una c) Hi) as (? & ? & ?);
      try done; [lia|by rewrite Z.sub_diag|]. split_and!; (done || lia). }
  destruct (rxack _ _ _) as [b|] eqn:Er.
  - destruct (rxack_inflight c _ b Hok Hn Ha Er) as [Eb Hb].
    destruct Hf as [Eio [[Hb0 Hv]|[-> Hf]]].
    + assert (Hd1 : rx_dupack_cnt c1 = 0) by (unfold tx_view in Hv; by injection Hv).
      apply ack_net_ep_tx in E; [|lia]. rewrite Eio in E.
      destruct (Z.gtb_spec b 0); [|lia].
      destruct (mtp_advance_inv S0 N c c' b 0 (ne_ack_seq ev) Hi Hb Eb Ha) as (Hi' & Ei & Es);
        [lia| |exists N; split_and!; (done || lia)].
      rewrite E. unfold tx_view in Hv |- *. injection Hv as V1 V2 V3 V4 V5 V6 V7. cbn in *. congruence.
    + destruct Hf as [->|[[Hd3 Hv]|[ccx ->]]].
      * apply ack_net_ep_tx in E; [|lia]. rewrite Eio in E.
        apply (Hkeep (rx_dupack_cnt c)); [lia|]. exact E.
      * apply ack_net_ep_tx in E; [|done]. rewrite Eio in E. cbn in E. rewrite Hv in E.
        assert (rx_dupack_cnt c1 = u16 (rx_dupack_cnt c + 1)) as Ed
          by (unfold tx_view in Hv; by injection Hv).
        apply (Hkeep (u16 (rx_dupack_cnt c + 1))); [|exact E]. rewrite Ed in Hd3. mach_lia.
      * pose proof (mtp_go_back_tx (c <| rx_dupack_cnt := 3 |>) ccx) as Hv.
        change (mtp_inflight (c <| rx_dupack_cnt := 3 |>)) with (mtp_inflight c) in Hv.
        set (c2 := fst _) in *. clearbody c2. apply ack_net_ep_dup in E as (f' & E).
        2:{ unfold tx_view in Hv. by injection Hv. }
        apply (mtp_retransmit_inv S0 N c) in E as (Hi' & Ei & Es);
          [|done|unfold tx_view in *; injection Hv as V1 V2 V3 V4 V5 V6 V7; cbn in *; congruence].
        exists (N - mtp_inflight c). split_and!; (done || lia).
  - destruct Hf as [-> Eio]. destruct Hio as [Hio|?]; [|done].
    apply ack_net_ep_tx in E; [|lia]. rewrite Eio, Hio in E.
    apply (Hkeep (rx_dupack_cnt c)); [lia|]. exact E.
Qed.

(** *** Submissions *)

Lemma send_ep_tx ev c cc f m c' cc' f' m' :
  send_ep ev c cc f m = Some (c', cc', f', m') ->
  tx_view c' =
  (tx_next_seq c ⊕ ae_data_size ev, ring_adv (tx_buf_size c) (tx_next_pos c) (ae_data_size ev),
   tx_buf_size c, tx_sent c, send_una c, buf_curr_seq c ⊕ ae_data_size ev, rx_dupack_cnt c) /\
  exists g, f' = Some g /\ (64 <= f_len f -> th_seq (f_tcp g) = bpf_htonl (tx_next_seq c)).
Proof.
  unfold send_ep, mtp_pkt_gen_wrapper. cbn [orb]. intros [= <- _ <- _]. split; [done|].
  eexists. split; [done|]. intros Hf. unfold mtp_fill_tcp_hdr, ts_opt_overrun.
  destruct (Z.gtb_spec 64 (f_len f)); [lia|done].
Qed.

Lemma ack_timeout_xdp_ep_tx c cc m a c' cc' m' :
  ack_timeout_xdp_ep c cc m = Some (a, c', cc', m') ->
  a <> XDP_TX /\
  (c' = c \/ exists cc1 f', let c1 := fst (mtp_go_back (c <| rx_dupack_cnt := 0 |>) cc1) in
     mtp_pkt_gen_wrapper false bp_zero c1 None 0 (send_una c1) TIMER_EVENT m = Some (c', f', m')).
Proof.
  unfold ack_timeout_xdp_ep. destruct (_ =? _); [intros [= <- <- _ _]; split; [done|by left]|].
  destruct (mtp_go_back _ cc) as [c1 cc1] eqn:G. apply (f_equal fst) in G. cbn [fst] in G.
  destruct (mtp_pkt_gen_wrapper _ _ _ _ _ _ _ _) as [[[c2 f2] m2]|] eqn:E; [|done].
  intros [= <- <- _ <-]. split; [done|]. right. exists cc, f2. cbv zeta. by rewrite G.
Qed.

(** The outcomes of a submission in the MTP build. *)
Lemma mtp_tx_cases p c o : mtp_tx p c = Some o ->
  let t := su_meta p.1 in
  (tx_view (to_conn o) = tx_view c /\ ~ departs t o) \/
  (exists c0 cc f' m m', tx_view c0 = tx_view c /\
     (let c1 := fst (mtp_go_back (c0 <| rx_dupack_cnt := 0 |>) cc) in
      mtp_pkt_gen_wrapper false bp_zero c1 None 0 (send_una c1) TIMER_EVENT m
        = Some (to_conn o, f', m')) /\ ~ departs t o) \/
  (tx_view (to_conn o) =
     (tx_next_seq c ⊕ mtx_plen t, ring_adv (tx_buf_size c) (tx_next_pos c) (mtx_plen t),
      tx_buf_size c, tx_sent c, send_una c, buf_curr_seq c ⊕ mtx_plen t, rx_dupack_cnt c) /\
   mtx_tx_pos t = tx_next_pos c /\
   (64 <= f_len (su_frame p.1) ->
      th_seq (f_tcp (to_frame o)) = bpf_htonl (tx_next_seq c))).
Proof.
  destruct p as [[tw e t f cc m s] junk]. unfold mtp_tx, mtp_tx_process. cbn [fst snd su_meta
    su_redirect su_env su_frame su_cc su_m su_tw]. intros E. cbv zeta.
  assert (Hnd : forall o, to_action o <> XDP_TX -> to_bucket o = None -> ~ departs t o)
    by (intros ? ? ? [_ [?|?]]; done).
  destruct (_ >=? _); [injection E as <-; left; split; [done|by apply Hnd]|].
  destruct cc as [cc|]; [|injection E as <-; left; split; [done|by apply Hnd]].
  pose proof (tx_rx_bump_tx (mtx_rx_bump t) c) as Hb.
  destruct (tx_rx_bump (mtx_rx_bump t) c) as [w c0]. cbn in Hb.
  destruct (nz (Z.land _ FLAG_SYNC)) eqn:Hsync.
  { left. apply nz_true in Hsync. split; [|by intros [? _]]. injection E as <-.
    unfold tx_sync. by destruct w. }
  destruct (Z.eqb_spec (mtx_tx_pos t) (tx_next_pos c0)) as [Epos|]; cbn [negb] in E.
  2:{ left. injection E as <-. split; [done|by apply Hnd]. }
  destruct (cc_get_desired_tx_ts _ _ _) as [d cc1].
  unfold sub_event in E. destruct (nz (Z.land (mtx_flag t) FLAG_TO)).
  - cbn -[ack_timeout_xdp_ep send_ep tx_depart] in E.
    destruct (ack_timeout_xdp_ep c0 cc1 m) as [[[[a c1] cc2] m1]|] eqn:Ea; [|done].
    injection E as <-. apply ack_timeout_xdp_ep_tx in Ea as [Ha [->|(cc3 & f' & Ea)]].
    + left. split; [exact Hb|by apply Hnd].
    + right; left. exists c0, cc3, f', m, m1. split_and!; [done|exact Ea|by apply Hnd].
  - right; right. cbn -[ack_timeout_xdp_ep send_ep tx_depart] in E.
    destruct (send_ep _ c0 cc1 f m) as [[[[c1 cc2] f1] m1]|] eqn:Es; [|done].
    apply send_ep_tx in Es as (Hv & g & -> & Hg). cbn [ae_data_size] in Hv.
    apply (f_equal (fun x => match x with Some o => o | None => o end)) in E. subst o.
    match goal with |- context [tx_depart ?a ?b ?c ?d ?e ?f ?g] =>
      destruct (tx_depart_frame a b c d e f g) as [-> ->] end.
    change (ae_data_size _) with (mtx_plen t) in Hv. unfold tx_view in Hb.
    injection Hb as E1 E2 E3 E4 E5 E6 E7. rewrite E1, E2, E3, E4, E5, E6, E7 in Hv.
    split_and!; [exact Hv|congruence|]. intros Hroom. cbn. rewrite Hg by done. congruence.
Qed.

Lemma mtp_send_inv S0 N c c' n :
  @snd_inv mtp_build S0 N c -> 0 <= n -> mtp_inflight c + n <= tx_buf_size c ->
  tx_view c' = (tx_next_seq c ⊕ n, ring_adv (tx_buf_size c) (tx_next_pos c) n, tx_buf_size c,
    tx_sent c, send_una c, buf_curr_seq c ⊕ n, rx_dupack_cnt c) ->
  @snd_inv mtp_build S0 (N + n) c' /\ mtp_inflight c' = mtp_inflight c + n /\
  tx_buf_size c' = tx_buf_size c.
Proof.
  intros [H1 H2 H3 H4 H5 [H6 H7 H8]] Hn Hroom Hv. cbn in H3, H4.
  unfold tx_view in Hv. injection Hv as E1 E2 E3 E4 E5 E6 E7.
  assert (E : mtp_inflight c' = mtp_inflight c + n)
    by (unfold mtp_inflight in *; rewrite E1, E5; clear - H2 H3 Hn Hroom; mach_lia).
  split; [|done]. split; cbn; rewrite ?E, ?E1, ?E2, ?E3; auto; try lia.
  - rewrite H1. by u32_norm.
  - rewrite (ring_adv_mod _ _ _ (N - S0)) by (auto; lia). f_equal. lia.
  - split; [congruence|by rewrite E5|lia].
Qed.

Lemma mtp_laws : @BuildLaws mtp_build.
Proof.
  split.
  - intros S0 N c p c' Hi Hok E. cbn in Hok, E. unfold mtp_rx, mtp_rx_process in E.
    destruct (mp_cc p) as [cc|]; [|injection E as <-; exists N; split_and!; (done || lia)].
    unfold mtp_pkt_ok in Hok. cbn -[mtp_ack_chain mtp_data_chain] in E.
    destruct (ne_minor_type (mp_ev p)).
    + destruct (mtp_data_chain _ _ _ _ _) as [[[[c1 io1] m1] q1]|] eqn:Ed; [|done].
      injection E as <-. apply mtp_data_chain_tx in Ed.
      destruct (mtp_inv_view S0 N c c1 Ed Hi) as (? & E1 & E2).
      exists N. cbn. rewrite E1. split_and!; (done || lia).
    + destruct (mtp_ack_chain _ _ _ _ _ _) as [[[[c1 io1] m1] cc1]|] eqn:Ea; [|done].
      injection E as <-. destruct (Hok eq_refl) as [Ha Hio].
      eapply mtp_ack_chain_inv in Ea; [exact Ea|exact Hi|exact Ha|exact Hio].
  - intros S0 N c p o Hi Hn Hroom Hf E. cbn in Hn, Hroom, Hf, E |- *.
    apply mtp_tx_cases in E. cbv zeta in E.
    destruct E as [[Hv Hd]|[(c0 & cc & f' & m & m' & Hv & E & Hd)|(Hv & Epos & Hseq)]].
    + destruct (mtp_inv_view S0 N c _ Hv Hi) as (? & E1 & E2).
      exists N. rewrite E1. split_and!; done.
    + pose proof (mtp_go_back_tx (c0 <| rx_dupack_cnt := 0 |>) cc) as Hg.
      change (mtp_inflight (c0 <| rx_dupack_cnt := 0 |>)) with (mtp_inflight c0) in Hg.
      set (c1 := fst (mtp_go_back _ _)) in *. clearbody c1.
      destruct (mtp_inv_view S0 N c c0 Hv Hi) as (_ & E1 & E2).
      apply (mtp_retransmit_inv S0 N c) in E as (Hi' & Ei & Es); [|done|].
      * exists (N - mtp_inflight c). split_and!; (done || lia).
      * rewrite E1 in Hg. unfold tx_view in *. injection Hv as V1 V2 V3 V4 V5 V6 V7.
        cbn -[mtp_inflight] in Hg. congruence.
    + destruct (mtp_send_inv S0 N c _ _ Hi Hn Hroom Hv) as (Hi' & Es & Ez).
      exists (N + mtx_plen (su_meta p.1)). split_and!; [done|lia|done|].
      intros _. split; [|done]. destruct Hi as [H1 _ _ _ H5 _]. split; [|congruence].
      rewrite (Hseq Hf), H1. apply bpf_ntohl_htonl, u32_range.
Qed.

(** C9. Sequence numbers and payload agree, MTP build: as for the eTran build,
    with [send_una] in place of the byte count, and for every sequence of
    packets whose acknowledgements are in range (or whose uninitialised
    scratch structure happens to hold zero) and of submissions and timer
    events, as long as no handler faults. *)
Theorem mtp_segments_carry_their_position (S0 : Z) (c : bpf_tcp_conn)
  (p : tx_sub * app_timer_event) (o : tx_out)
  (Hreach : @snd_reach mtp_build S0 c) (Hlen : 0 <= mtx_plen (su_meta p.1))
  (Hroom : mtp_inflight c + mtx_plen (su_meta p.1) <= tx_buf_size c)
  (Hframe : 64 <= f_len (su_frame p.1)) (Hrun : mtp_tx p c = Some o)
  (Hleaves : departs (su_meta p.1) o) :
  exists N, S0 <= N - mtp_inflight c /\ tx_next_seq c = u32 N /\
    carries_position S0 N c (su_meta p.1) o /\
    tx_next_seq (to_conn o) = u32 (N + mtx_plen (su_meta p.1)) /\
    mtp_inflight (to_conn o) = mtp_inflight c + mtx_plen (su_meta p.1).
Proof.
  exact (@snd_reach_segment mtp_build mtp_laws S0 c p o Hreach Hlen Hroom Hframe Hrun Hleaves).
Qed.

Lemma mtp_segments_carry_their_position_witness :
  exists o N, mtp_tx (sub_blank 0 100, mk_app_timer_event TIMER_EVENT 0 0 0) conn_blank = Some o /\
    tx_next_seq conn_blank = u32 N /\ tx_next_seq (to_conn o) = u32 (N + 100).
Proof.
  destruct (mtp_tx (sub_blank 0 100, mk_app_timer_event TIMER_EVENT 0 0 0) conn_blank) as [o|] eqn:E;
    [|vm_compute in E; discriminate].
  destruct (mtp_segments_carry_their_position 1 conn_blank
    (sub_blank 0 100, mk_app_timer_event TIMER_EVENT 0 0 0) o
    (@snd_open mtp_build 1 conn_blank ltac:(done) ltac:(done) ltac:(done)
       ltac:(split; vm_compute; by split) ltac:(vm_compute; by split))
    ltac:(vm_compute; done) ltac:(vm_compute; done) ltac:(vm_compute; done) E)
    as (N & _ & H2 & _ & H3 & _).
  - split; [done|]. left. vm_compute in E. by injection E as <-.
  - exists o, N. by split_and!.
Defined.
