(* ===== verification/Compare.v ===== *)
(** The MTP event processors compared with the eTran handlers they replace:
    the relation [sim] between the sender states of the two builds is kept by
    timeouts, submissions and acknowledgements, which also produce the same
    metadata for user space, and the places where the builds part. *)
From S2P Require Import Prelude Intf Seq Headers AckQueue Pacing EtranTcp MtpTcp TxSafety RxSafety.
Local Open Scope Z_scope.
Local Open Scope u32_scope.

(** The eTran build counts the bytes in flight, the MTP build keeps the
    oldest unacknowledged sequence number. *)
Record sim (ce cm : bpf_tcp_conn) : Prop := {
  sim_seq : tx_next_seq ce = tx_next_seq cm;
  sim_pos : tx_next_pos ce = tx_next_pos cm;
  sim_size : tx_buf_size ce = tx_buf_size cm;
  sim_remote : rx_remote_avail ce = rx_remote_avail cm;
  sim_conn : opaque_connection ce = opaque_connection cm;
  sim_flight : tx_sent ce = mtp_inflight cm;
  sim_range : in32 (tx_next_seq cm);
  sim_ok : mtp_ok cm
}.

Lemma sim_flight_zero ce cm : sim ce cm -> tx_sent ce = 0 <-> tx_next_seq cm = send_una cm.
Proof.
  intros [_ _ _ _ _ -> Hn [_ Hu _]]. unfold mtp_inflight. mach_lia.
Qed.

Lemma sim_go_back ce cm : sim ce cm -> tx_next_seq cm ⊖ mtp_inflight cm = send_una cm.
Proof. intros [_ _ _ _ _ _ Hn [_ Hu _]]. unfold mtp_inflight. mach_lia. Qed.

(** C21. A timeout does the same in both builds: from related states, with the
    unacknowledged data not straddling the wrap of the sequence numbers,
    [ack_timeout_xdp_ep] returns the verdict, the control block and the
    metadata of the eTran timeout, and the states stay related. *)
Theorem mtp_timeout_matches_etran (ce cm : bpf_tcp_conn) (cc : bpf_cc) (f : frame) (m : rx_meta)
  (s : tw_state) (Hsim : sim ce cm) (Hwrap : send_una cm <= tx_next_seq cm) :
  let o := tx_timeout (mk_tx_out XDP_DROP None f ce (Some cc) m s) cc in
  exists cm' cc', ack_timeout_xdp_ep cm cc m = Some (to_action o, cm', cc', to_meta o) /\
    to_cc o = Some cc' /\ sim (to_conn o) cm'.
Proof.
  cbv zeta. pose proof (sim_flight_zero _ _ Hsim) as Hz. pose proof (sim_go_back _ _ Hsim) as Hg.
  pose proof Hsim as [H1 H2 H3 H4 H5 H6 H7 [H8 H9 H10]].
  unfold tx_timeout, ack_timeout_xdp_ep. cbn [to_conn].
  destruct (Z.eqb_spec (tx_next_seq cm) (send_una cm)) as [E|E].
  { apply Hz in E. rewrite E. cbn. by eexists _, _. }
  assert (Hnz : nz (tx_sent ce) = true) by (apply nz_true; tauto). rewrite Hnz. cbn [negb].
  unfold mtp_pkt_gen_wrapper, mtp_go_back, fast_retransmit. cbn.
  fold (mtp_inflight cm). rewrite Hg, H8. fold (mtp_inflight cm).
  destruct (Z.ltb_spec (tx_next_seq cm) (send_una cm)); [lia|].
  rewrite H1, H2, H3, H4, H5, H6, Hg.
  eexists _, _. split_and!; [reflexivity|by destruct (_ =? 0)|].
  split; cbn; auto; rewrite ?Hg; auto.
  - unfold mtp_inflight. cbn. by rewrite Z.sub_diag.
  - split; cbn; auto; lia.
Qed.

(** A connection with positions 1000 to 1099 in flight, in both builds. *)
Definition conn_flight : bpf_tcp_conn :=
  conn_blank <| tx_next_seq := 1100 |> <| send_una := 1000 |> <| buf_curr_seq := 1100 |>
    <| tx_sent := 100 |> <| tx_next_pos := 1099 |>.

Lemma conn_flight_sim : sim conn_flight conn_flight.
Proof. repeat split; vm_compute; (done || by intros). Qed.

Lemma mtp_timeout_matches_etran_witness :
  exists cm' cc', ack_timeout_xdp_ep conn_flight cc_blank (meta_init 0 7)
    = Some (XDP_PASS, cm', cc',
        to_meta (tx_timeout (mk_tx_out XDP_DROP None frame_blank conn_flight (Some cc_blank)
          (meta_init 0 7) tw_blank) cc_blank)) /\ tx_next_seq cm' = 1000.
Proof.
  destruct (mtp_timeout_matches_etran conn_flight conn_flight cc_blank frame_blank (meta_init 0 7)
    tw_blank conn_flight_sim ltac:(vm_compute; done)) as (cm' & cc' & H & _ & Hs).
  exists cm', cc'. split; [exact H|]. by rewrite <- (sim_seq _ _ Hs).
Defined.

(** The wrap of the sequence numbers makes the MTP sender fault: a
    connection with data in flight is sent into the header-filling branch of
    [mtp_pkt_gen_wrapper], with NULL headers, by a timeout exactly when the
    next sequence number has wrapped past [send_una]. *)
Theorem mtp_timeout_faults_at_wrap (c : bpf_tcp_conn) (cc : bpf_cc) (m : rx_meta)
  (Hok : mtp_ok c) (Hflight : mtp_inflight c <> 0) :
  ack_timeout_xdp_ep c cc m = None <-> tx_next_seq c < send_una c.
Proof.
  destruct Hok as [Hb Hu _]. unfold ack_timeout_xdp_ep.
  destruct (Z.eqb_spec (tx_next_seq c) (send_una c)) as [E|E].
  { exfalso. apply Hflight. unfold mtp_inflight. by rewrite E, Z.sub_diag. }
  unfold mtp_pkt_gen_wrapper, mtp_go_back. cbn. rewrite Hb.
  destruct (Z.ltb_spec (tx_next_seq c) (send_una c)); split; try done; lia.
Qed.

Definition conn_wrapped : bpf_tcp_conn :=
  conn_blank <| tx_next_seq := 4 |> <| send_una := 4294967200 |> <| buf_curr_seq := 4 |>.

Lemma mtp_timeout_faults_at_wrap_witness :
  ack_timeout_xdp_ep conn_wrapped cc_blank (meta_init 0 7) = None.
Proof.
  apply (mtp_timeout_faults_at_wrap conn_wrapped cc_blank (meta_init 0 7));
    [split; vm_compute; (done || by split)|vm_compute; done|vm_compute; done].
Defined.

(** ** Acknowledgements of new data *)

Lemma scaled_window_u32 t : u32 (Z.shiftl (bpf_ntohs (th_window t)) TCP_WND_SCALE) = scaled_window t.
Proof.
  unfold scaled_window, bpf_ntohs. pose proof (bpf_htons_range (th_window t)) as H.
  rewrite Z.shiftl_mul_pow2 by (unfold TCP_WND_SCALE; lia). apply u32_small.
  unfold TCP_WND_SCALE. mach_lia.
Qed.

(** The metadata without a payload. *)
Definition no_payload (m : rx_meta) : rx_meta :=
  m <| mrx_rx_pos := POISON_32 |> <| mrx_poff := POISON_16 |> <| mrx_plen := POISON_16 |>.

(** An empty segment at the next expected position falls through payload
    validation and leaves connection and control block as they were. *)
Lemma rx_payload_stage_pure_ack s :
  in32 (rx_next_seq (rs_c s)) -> 0 < rx_avail (rs_c s) <= 1073741824 ->
  v_seq (rs_v s) = rx_next_seq (rs_c s) -> v_payload_len (rs_v s) = 0 ->
  exists s', rx_payload_stage s = Fall s' /\ rs_c s' = rs_c s /\ rs_cc s' = rs_cc s /\
    no_payload (rs_m s') = no_payload (rs_m s) /\ v_payload_len (rs_v s') = 0 /\
    v_tx_bump (rs_v s') = v_tx_bump (rs_v s) /\ v_trigger_ack (rs_v s') = v_trigger_ack (rs_v s).
Proof.
  intros Hr Hw Hseq Hlen. unfold rx_payload_stage, tcp_valid_rxseq_ooo. rewrite Hseq, Hlen.
  set (R := rx_next_seq (rs_c s)) in *. set (W := rx_avail (rs_c s)) in *.
  pose proof (rxseq_ooo_empty R W R ltac:(unfold near; lia) ltac:(lia)) as E.
  rewrite (u32_small R Hr) in E. rewrite Z.add_0_r, (u32_small R Hr) in *. rewrite E.
  destruct (Z.ltb_spec 0 W), (Z.leb_spec R R), (Z.leb_spec R (R + W)); try lia. cbn [andb].
  destruct (Z.eqb_spec R (R + W)); [lia|]. rewrite Z.eqb_refl.
  assert (Ht : trimmed_len 0 0 (u32 (- W)) = 0)
    by (unfold trimmed_len; destruct (Z.geb_spec 0 (u32 (0 + u32 (- W)))); mach_lia).
  cbn. rewrite Hseq, Hlen, Ht, Z.add_0_r. fold R. rewrite (u32_small R Hr), Z.eqb_refl. cbn.
  eexists. split_and!; [reflexivity..].
Qed.

(** The eTran receiver on a pure acknowledgement of [b] > 0 new bytes. *)
Lemma etran_rx_new_ack t o now s b :
  th_ack t = true -> tcp_valid_rxack (rs_c s) (bpf_ntohl (th_ack_seq t)) = Some b ->
  b <> 0 -> b <= tx_sent (rs_c s) ->
  in32 (rx_next_seq (rs_c s)) -> 0 < rx_avail (rs_c s) <= 1073741824 ->
  v_seq (rs_v s) = rx_next_seq (rs_c s) -> v_payload_len (rs_v s) = 0 ->
  let s' := etran_rx_body t o now s in
  rs_c s' = (rs_c s) <| tx_sent := tx_sent (rs_c s) ⊖ b |> <| rx_dupack_cnt := 0 |>
              <| rx_remote_avail := scaled_window t |> /\
  no_payload (rs_m s') = no_payload (rs_m s) /\ v_payload_len (rs_v s') = 0 /\
  v_tx_bump (rs_v s') = b /\ v_trigger_ack (rs_v s') = v_trigger_ack (rs_v s) /\
  rs_cc s' =
    let cc := rs_cc s in
    let cc := cc <| cc_cnt_rx_acks := u16 (cc_cnt_rx_acks cc + 1) |> in
    let cc := cc <| cc_cnt_rx_ack_bytes := cc_cnt_rx_ack_bytes cc ⊕ b |> in
    let cc := if th_ece t
              then cc <| cc_cnt_rx_ecn_bytes := cc_cnt_rx_ecn_bytes cc ⊕ b |> else cc in
    let cc := cc <| cc_txp := b2z (tx_sent (rs_c s) ⊖ b >? 0) |> in
    if nz (bpf_ntohl (ts_ts_ecr o)) then rtt_update now (bpf_ntohl (ts_ts_ecr o)) b cc else cc.
Proof.
  intros Hack Hv Hb Hle Hr Hw Hseq Hlen. cbv zeta. unfold etran_rx_body.
  assert (exists s1, rx_ack_stage t s = Fall s1 /\
    rs_c s1 = (rs_c s) <| tx_sent := tx_sent (rs_c s) ⊖ b |> <| rx_dupack_cnt := 0 |> /\
    rs_m s1 = rs_m s /\ rs_v s1 = (rs_v s) <| v_tx_bump := b |> /\
    rs_cc s1 = let cc := (rs_cc s) <| cc_cnt_rx_acks := u16 (cc_cnt_rx_acks (rs_cc s) + 1) |> in
      let cc := cc <| cc_cnt_rx_ack_bytes := cc_cnt_rx_ack_bytes cc ⊕ b |> in
      let cc := if th_ece t
                then cc <| cc_cnt_rx_ecn_bytes := cc_cnt_rx_ecn_bytes cc ⊕ b |> else cc in
      cc <| cc_txp := b2z (tx_sent (rs_c s) ⊖ b >? 0) |>) as (s1 & E1 & Ec & Em & Ev & Ecc).
  { unfold rx_ack_stage. rewrite Hack. cbn [negb]. cbn. rewrite Hv.
    destruct (Z.gtb_spec b (tx_sent (rs_c s))); [lia|].
    apply nz_true in Hb. rewrite Hb. eexists. split; [reflexivity|]. by split_and!. }
  rewrite E1. cbn [flow_bind].
  destruct (rx_payload_stage_pure_ack s1) as (s2 & E2 & Ec2 & Ecc2 & Em2 & El2 & Eb2 & Et2);
    [by rewrite Ec|by rewrite Ec|rewrite Ev, Ec; exact Hseq|by rewrite Ev|].
  rewrite E2. cbn [flow_bind flow_st].
  assert (Hacc : rx_accept_stage (rx_window_stage t o now s2) = rx_window_stage t o now s2)
    by (unfold rx_accept_stage; cbn; by rewrite El2).
  rewrite Hacc. unfold rx_window_stage. rewrite El2, Eb2, Ev, Ec2, Ec, Ecc2, Ecc, Hack.
  apply nz_true in Hb. cbn [v_tx_bump upd_field setter_of]. cbn. rewrite Hb. cbn.
  split_and!; [done|by rewrite Em2, Em|done|by rewrite Eb2, Ev|by rewrite Et2, Ev|].
  rewrite andb_true_r. done.
Qed.

(** The MTP chain on the same acknowledgement. *)
Lemma mtp_new_ack ktime ev c io m cc b :
  rxack (send_una c) (tx_next_seq c) (ne_ack_seq ev) = Some b -> 0 < b ->
  exists io',
  mtp_ack_chain ktime ev c io m cc = Some
    (c <| rx_dupack_cnt := 0 |>
       <| rx_remote_avail := u32 (Z.shiftl (ne_rwnd_size ev) TCP_WND_SCALE) |>
       <| send_una := ne_ack_seq ev |>,
     io',
     (no_payload m) <| mrx_ack_bytes := b |>
       <| mrx_xsk_budget_avail := u32 (Z.shiftl (ne_rwnd_size ev) TCP_WND_SCALE) |>,
     let cc := cc <| cc_cnt_rx_acks := u16 (cc_cnt_rx_acks cc + 1) |> in
     let cc := cc <| cc_cnt_rx_ack_bytes := cc_cnt_rx_ack_bytes cc ⊕ b |> in
     let cc := if ne_ecn_mark ev
               then cc <| cc_cnt_rx_ecn_bytes := cc_cnt_rx_ecn_bytes cc ⊕ b |> else cc in
     let cc := cc <| cc_txp := b2z (negb (tx_next_seq c =? send_una c)) |> in
     if nz (ne_ts_ecr ev) then rtt_update (u32 ktime) (ne_ts_ecr ev) b cc else cc)
  /\ io_drop io' = false.
Proof.
  intros Hr Hb. assert (Hnz : nz b = true) by (apply nz_true; lia).
  unfold mtp_ack_chain, fast_retr_rec_ep. rewrite Hr, Hnz. cbn.
  unfold ack_net_ep. cbn. rewrite Hnz, andb_true_r. unfold mtp_tx_data_flush.
  destruct (Z.gtb_spec b 0); [|lia]. cbn [orb]. eexists. split; reflexivity.
Qed.

Lemma rtt_update_txp now ecr b cc x y :
  rtt_update now ecr b (cc <| cc_txp := x |>) =
  (rtt_update now ecr b (cc <| cc_txp := y |>)) <| cc_txp := x |>.
Proof. unfold rtt_update. cbn. by repeat split_if. Qed.

Lemma rtt_update_keeps_txp now ecr b cc : cc_txp (rtt_update now ecr b cc) = cc_txp cc.
Proof. unfold rtt_update. by repeat split_if. Qed.

(** The label [unlock] for such an acknowledgement. *)
Lemma rx_unlock_new_ack s b : v_tx_bump (rs_v s) = b -> b <> 0 -> v_payload_len (rs_v s) = 0 ->
  rx_unlock_stage s = (false, s <| rs_m := (no_payload (rs_m s)) <| mrx_ack_bytes := b |>
    <| mrx_xsk_budget_avail := rx_remote_avail (rs_c s) |> |>).
Proof.
  intros Eb Hb%nz_true El. unfold rx_unlock_stage. rewrite Eb, Hb, El, orb_true_r. reflexivity.
Qed.

(** The two acknowledged states are related. *)
Lemma mtp_ack_sim ce cm b ack w :
  sim ce cm -> 0 <= b <= mtp_inflight cm -> b = ack ⊖ send_una cm -> in32 ack ->
  let ce' := ce <| tx_sent := tx_sent ce ⊖ b |> <| rx_dupack_cnt := 0 |> <| rx_remote_avail := w |> in
  let cm' := cm <| rx_dupack_cnt := 0 |> <| rx_remote_avail := w |> <| send_una := ack |> in
  sim ce' cm' /\ mtp_inflight cm' = mtp_inflight cm - b.
Proof.
  intros [H1 H2 H3 H4 H5 H6 H7 [H8 H9 H10]] Hb Eb Ha. cbv zeta.
  assert (E : mtp_inflight (cm <| rx_dupack_cnt := 0 |> <| rx_remote_avail := w |> <| send_una := ack |>)
    = mtp_inflight cm - b) by (unfold mtp_inflight in *; cbn; subst b; clear - Hb H7 H9 Ha; mach_lia).
  split; [|exact E]. split; cbn -[mtp_inflight]; auto.
  - rewrite E, H6. apply u32_small. pose proof (u32_range (tx_next_seq cm - send_una cm)).
    unfold mtp_inflight in *. mach_lia.
  - split; cbn; auto; lia.
Qed.


Definition frame_ack (seq ackno window : Z) : frame :=
  frame_blank <| f_tcp := tcp_seg seq true ackno window |>.
Definition io_blank : interm_out := mk_interm_out false false false false false 0 0.
Definition aq_blank : ack_queue := aq_init (replicate 64 ack_blank).


(** ** Where the builds part *)

Lemma tx_depart_cc tw e d r b o cc : to_cc (tx_depart tw e d r b o cc) = to_cc o.
Proof.
  unfold tx_depart. destruct (_ && _); [done|]. destruct (_ && _); [done|].
  destruct (negb _); [done|]. destruct (tw_insert _ _ _ _). by destruct (_ =? _).
Qed.

(** The MTP build paces every packet twice: [tcp_tx_process] advances
    [prev_desired_tx_ts] by the serialisation time [d] of the packet at the
    flow's rate, and [send_ep] advances it by [d] again, so the next packet of
    the flow leaves [2 d] after this one where the eTran build spaces them by
    [d]. *)
Theorem mtp_paces_twice (tw : Z -> xdp_action) (e : tx_env) (t : tx_meta) (junk : app_timer_event)
  (f : frame) (c : bpf_tcp_conn) (cc : bpf_cc) (m : rx_meta) (s : tw_state) (o : tx_out)
  (Hcpu : te_cpu e < MAX_CPU) (Hflag : mtx_flag t = 0)
  (Hpos : mtx_tx_pos t = tx_next_pos c)
  (Href : 0 <= tx_ref_ts e s) (Hprev : 0 <= cc_prev_desired_tx_ts cc)
  (Hrate : 0 < cc_rate cc) (Hplen : 0 <= mtx_plen t < 65536) :
  let d := 1000000000 * mtx_plen t / cc_rate cc in
  let D := Z.max (tx_ref_ts e s) (cc_prev_desired_tx_ts cc + d) in
  D + d < 18446744073709551616 ->
  mtp_tx_process tw e t (parse_req_to_app_event junk t) f c (Some cc) m s = Some o ->
  (cc_prev_desired_tx_ts <$> to_cc (etran_tx_process tw e t f c (Some cc) m s)) = Some D /\
  (cc_prev_desired_tx_ts <$> to_cc o) = Some (D + d).
Proof.
  cbv zeta. intros Hfit E. unfold mtp_tx_process in E. unfold etran_tx_process.
  destruct (Z.geb_spec (te_cpu e) MAX_CPU); [lia|]. rewrite Hflag in *.
  change (nz (Z.land 0 FLAG_TO)) with false. change (nz (Z.land 0 FLAG_SYNC)) with false in E |- *.
  pose proof (tx_rx_bump_tx (mtx_rx_bump t) c) as Hb.
  destruct (tx_rx_bump (mtx_rx_bump t) c) as [w c0]. cbn in Hb.
  assert (Ep : tx_next_pos c0 = mtx_tx_pos t) by (unfold tx_view in Hb; congruence).
  rewrite Ep, Z.eqb_refl in *. cbn -[tx_depart send_ep tx_ref_ts u64] in E |- *.
  set (d := 1000000000 * mtx_plen t / cc_rate cc) in *. set (r := tx_ref_ts e s) in *.
  assert (Hd : 0 <= d) by (apply Z.div_pos; lia).
  assert (Hu : u64 (1000000000 * mtx_plen t) = 1000000000 * mtx_plen t) by (apply u64_small; mach_lia).
  rewrite Hu in *. fold d in E |- *.
  rewrite (u64_small (cc_prev_desired_tx_ts cc + d)) in * by mach_lia.
  set (D := Z.max r (cc_prev_desired_tx_ts cc + d)) in *. split.
  - rewrite tx_depart_cc. reflexivity.
  - unfold send_ep, mtp_pkt_gen_wrapper in E. cbn -[tx_depart tx_ref_ts u64 u32] in E.
    injection E as <-. rewrite tx_depart_cc. cbn -[u64 u32]. rewrite Hu. fold d.
    rewrite (u64_small (D + d)) by mach_lia. f_equal. mach_lia.
Qed.

Definition txm_blank : tx_meta := mk_tx_meta 0 0 0 100 0 100.
Definition ev_blank : app_timer_event := mk_app_timer_event TIMER_EVENT 0 0 0.
Definition cc_slow : bpf_cc := cc_blank <| cc_rate := 100000000 |>.

Lemma mtp_paces_twice_witness :
  exists o, mtp_tx_process (fun _ => XDP_REDIRECT) env_blank txm_blank
      (parse_req_to_app_event ev_blank txm_blank) frame_blank conn_blank (Some cc_slow)
      (meta_init 0 7) tw_blank = Some o /\
    (cc_prev_desired_tx_ts <$> to_cc o) = Some (5000 + 1000).
Proof.
  destruct (mtp_tx_process (fun _ => XDP_REDIRECT) env_blank txm_blank
      (parse_req_to_app_event ev_blank txm_blank) frame_blank conn_blank (Some cc_slow)
      (meta_init 0 7) tw_blank) as [o|] eqn:E; [|vm_compute in E; discriminate].
  exists o. split; [done|].
  pose proof (mtp_paces_twice (fun _ => XDP_REDIRECT) env_blank txm_blank ev_blank frame_blank
    conn_blank cc_slow (meta_init 0 7) tw_blank o ltac:(vm_compute; done) eq_refl eq_refl
    ltac:(vm_compute; done) ltac:(vm_compute; done) ltac:(vm_compute; done)
    ltac:(vm_compute; by split) ltac:(vm_compute; done) E) as [_ H].
  rewrite H. reflexivity.
Defined.

(** The timeout signal is lost in the MTP build: the microkernel clears
    the metadata of the dummy packet it sends ([tx_pos] = 0), and
    [tcp_tx_process] tests [tx_pos] against [tx_next_pos] before it looks at
    the event, so unless the send ring happens to stand at offset 0 the timer
    event is dropped with connection and control block unchanged, while the
    eTran build goes back and notifies the library. *)
Theorem mtp_timeout_dropped (tw : Z -> xdp_action) (e : tx_env) (t : tx_meta)
  (ev : app_timer_event) (f : frame) (c : bpf_tcp_conn) (cc : bpf_cc) (m : rx_meta) (s : tw_state)
  (Hcpu : te_cpu e < MAX_CPU) (Hflag : mtx_flag t = FLAG_TO) (Hbump : mtx_rx_bump t = 0)
  (Hclear : mtx_tx_pos t = 0) (Hpos : tx_next_pos c <> 0) (Hsent : tx_sent c <> 0) :
  mtp_tx_process tw e t ev f c (Some cc) m s = Some (mk_tx_out XDP_DROP None f c (Some cc) m s) /\
  to_action (etran_tx_process tw e t f c (Some cc) m s) = XDP_PASS /\
  tx_next_seq (to_conn (etran_tx_process tw e t f c (Some cc) m s)) = tx_next_seq c ⊖ tx_sent c.
Proof.
  unfold mtp_tx_process, etran_tx_process. destruct (Z.geb_spec (te_cpu e) MAX_CPU); [lia|].
  rewrite Hflag, Hclear, Hbump. change (nz (Z.land FLAG_TO FLAG_SYNC)) with false.
  change (nz (Z.land FLAG_TO FLAG_TO)) with true. cbn [tx_rx_bump nz].
  change (tx_rx_bump 0 c) with (false, c). cbv iota beta.
  destruct (Z.eqb_spec 0 (tx_next_pos c)); [congruence|]. cbn [negb]. split; [done|].
  unfold tx_timeout. cbn [to_conn]. apply nz_true in Hsent. rewrite Hsent. by split.
Qed.

Lemma mtp_timeout_dropped_witness :
  mtp_tx_process (fun _ => XDP_REDIRECT) env_blank (mk_tx_meta 1 FLAG_TO 0 0 0 0) ev_blank frame_blank
    conn_flight (Some cc_blank) (meta_init 0 7) tw_blank
  = Some (mk_tx_out XDP_DROP None frame_blank conn_flight (Some cc_blank) (meta_init 0 7) tw_blank).
Proof.
  exact (proj1 (mtp_timeout_dropped (fun _ => XDP_REDIRECT) env_blank (mk_tx_meta 1 FLAG_TO 0 0 0 0)
    ev_blank frame_blank conn_flight cc_blank (meta_init 0 7) tw_blank ltac:(vm_compute; done)
    eq_refl eq_refl eq_refl ltac:(vm_compute; done) ltac:(vm_compute; done))).
Defined.

(** *** Data *)

(** Outcome of [verify_trim_data_ep] and [detect_ooo_data_ep] for a segment
    that lies in the window, ahead of the next expected position. *)
Lemma mtp_detect_gap ev c io m R P :
  near R P -> rx_next_seq c = u32 R -> ne_seq_num ev = u32 P -> rx_ooo_len c = 0 ->
  R < P -> 0 < ne_data_len ev <= 65469 -> P + ne_data_len ev <= R + rx_avail c ->
  0 <= rx_avail c <= 1073741824 ->
  let '(ev1, io1, m1) := verify_trim_data_ep ev c io m in
  let '(ev2, c2, io2, _) := detect_ooo_data_ep ev1 c io1 m1 in
  ev2 = ev <| ne_data_len := ne_data_len ev |> <| ne_seq_num := u32 P |> /\
  c2 = c <| rx_ooo_start := u32 P |> <| rx_ooo_len := ne_data_len ev |> /\ io_trigger_ack io2 = true.
Proof.
  intros Hn HR HP Ho Hlt HL Hin HW. unfold verify_trim_data_ep. rewrite HR, HP, !u32_add_l.
  rewrite rxseq_ooo_clip by (done || lia). unfold clip.
  destruct (Z.ltb_spec (Z.max P R) (Z.min (P + ne_data_len ev) (R + rx_avail c))); [|lia].
  replace (Z.max 0 (R - P)) with 0 by lia.
  replace (Z.max 0 (P + ne_data_len ev - (R + rx_avail c))) with 0 by lia.
  assert (Ht : trimmed_len (ne_data_len ev) 0 0 = ne_data_len ev).
  { unfold trimmed_len. change (u32 (0 + 0)) with 0. rewrite Z.sub_0_r.
    destruct (_ >=? 0); [|done]. apply u32_small. mach_lia. }
  unfold detect_ooo_data_ep. cbn. rewrite Ht, HP, HR, Ho, u32_add_l, Z.add_0_r.
  destruct (Z.eqb_spec (u32 P) (u32 R)) as [E|_].
  { apply u32_inj_close in E; [lia|]. unfold near in Hn. lia. }
  cbn. destruct (Z.eqb_spec (ne_data_len ev) 0); [lia|]. cbn. split_and!; done.
Qed.

(** What [flush_ooo_data_ep] then acknowledges. *)
Lemma mtp_flush_gap ev c io R P L :
  near R P -> rx_next_seq c = u32 R -> rx_ooo_start c = u32 P -> rx_ooo_len c = L ->
  ne_data_len ev = L -> R < P -> 0 < L <= 65469 -> P + L <= R + rx_avail c ->
  0 <= rx_avail c <= 1073741824 ->
  let '(c', io') := flush_ooo_data_ep ev c io in
  rx_next_seq c' = u32 (if P <=? R + L then P + L else R + L) /\ io' = io.
Proof.
  intros Hn HR HO HoL HL Hlt Hpos Hin HW. unfold near in Hn. unfold flush_ooo_data_ep. rewrite HL.
  set (c1 := if rx_remote_avail c <? _ then _ else c). set (c2 := if _ && _ then _ else c1).
  assert (Hv : rx_view c2 = rx_view c)
    by (transitivity (rx_view c1); [subst c2; by destruct (_ && _)|subst c1; by destruct (_ <? _)]).
  unfold rx_view in Hv. injection Hv as E1 E2 _ E4 E5 _. clearbody c2. clear c1.
  destruct (Z.eqb_spec L 0); [lia|]. cbn.
  rewrite E5, HoL, E1, E2, E4, HR, HO, !u32_add_l, (u32_small (rx_avail c - L)) by mach_lia.
  destruct (Z.eqb_spec L 0); [lia|].
  rewrite rxseq_ooo_clip by (unfold near; lia). unfold clip.
  destruct (Z.ltb_spec (Z.max P (R + L)) (Z.min (P + L) (R + L + (rx_avail c - L)))); [|lia].
  replace (Z.max 0 (P + L - (R + L + (rx_avail c - L)))) with 0 by lia.
  set (ts := Z.max 0 (R + L - P)). rewrite Z.add_0_r. cbn.
  rewrite !u32_add_l, (u32_small ts), (u32_small (L - ts)) by (subst ts; mach_lia).
  assert (Hnz : nz (L - ts) = true) by (apply nz_true; subst ts; lia). rewrite Hnz. cbn [andb].
  destruct (Z.leb_spec P (R + L)) as [HPL|HPL].
  - replace (P + ts) with (R + L) by (subst ts; lia). rewrite Z.eqb_refl. cbn. split; [|done].
    f_equal. subst ts. lia.
  - destruct (Z.eqb_spec (u32 (P + ts)) (u32 (R + L))) as [E|_].
    { apply u32_inj_close in E; subst ts; lia. }
    by cbn.
Qed.

(** The MTP build acknowledges bytes it never received: when a segment
    arrives with a gap before it (positions [R] to [P] - 1 missing, nothing
    remembered out of order), the connection advances by its length, over the
    missing bytes, and the acknowledgement it queues covers them.  In the
    source the test that would skip the advance is commented out. *)
Theorem mtp_acks_unreceived (ev : net_event) (c : bpf_tcp_conn) (io : interm_out) (m : rx_meta)
  (q : ack_queue) (R P : Z)
  (Hnear : near R P) (Hnext : rx_next_seq c = u32 R) (Hseq : ne_seq_num ev = u32 P)
  (Hooo : rx_ooo_len c = 0) (Hgap : R < P) (Hlen : 0 < ne_data_len ev <= 65469)
  (Hwnd : P + ne_data_len ev <= R + rx_avail c <= R + 1073741824)
  (Hq : aq_wf q) (Hroom : (length (ack_list q) < 63)%nat) :
  exists c' io' m' q' a R', mtp_data_chain ev c io m q = Some (c', io', m', q') /\
    rx_next_seq c' = u32 R' /\ R + ne_data_len ev <= R' <= P + ne_data_len ev /\
    ack_list q' = ack_list q ++ [a] /\ ack_ack a = u32 R'.
Proof.
  unfold mtp_data_chain. set (L := ne_data_len ev) in *.
  pose proof (mtp_detect_gap ev c io m R P Hnear Hnext Hseq Hooo Hgap Hlen ltac:(lia) ltac:(lia)) as Hd.
  destruct (verify_trim_data_ep ev c io m) as [[ev1 io1] m1].
  destruct (detect_ooo_data_ep ev1 c io1 m1) as [[[ev2 c2] io2] m2]. destruct Hd as (-> & -> & Ht).
  set (ev2 := _ <|ne_seq_num := u32 P|>). set (c2 := c <|rx_ooo_start := _|> <|rx_ooo_len := _|>).
  pose proof (mtp_flush_gap ev2 c2 io2 R P L Hnear Hnext eq_refl eq_refl eq_refl Hgap Hlen
    ltac:(change (rx_avail c2) with (rx_avail c); lia)
    ltac:(change (rx_avail c2) with (rx_avail c); lia)) as Hf.
  destruct (flush_ooo_data_ep ev2 c2 io2) as [c3 io3]. destruct Hf as [Hn ->].
  assert (Ht4 : forall io m, io_trigger_ack (fst (data_net_ep ev2 c3 io m)) = io_trigger_ack io)
    by (intros; unfold data_net_ep, mtp_add_data_seg_wrapper; by destruct (_ || _)).
  specialize (Ht4 io2 m2). destruct (data_net_ep ev2 c3 io2 m2) as [io4 m4]. cbn in Ht4.
  unfold send_ack. rewrite Ht4, Ht. cbn [negb].
  match goal with |- context [mtp_pkt_gen_for_xdp_gen ?bp c3 q] =>
    pose proof (mtp_pkt_gen_append bp c3 q Hq) as Ha;
    destruct (mtp_pkt_gen_for_xdp_gen bp c3 q) as [[c5 q5]|] end; [|lia].
  destruct Ha as (_ & -> & _ & a & Hl & _ & Hack & _).
  eexists _, _, _, _, a, _. split_and!; [reflexivity|exact Hn| | |exact Hl|by rewrite Hack];
    destruct (Z.leb_spec P (R + L)); lia.
Qed.

Definition ev_data (seq len : Z) : net_event :=
  mk_net_event NET_EVENT_DATA 0 0 0 len 0 seq false 5000.

Lemma mtp_acks_unreceived_witness :
  exists c' io' m' q' a R',
    mtp_data_chain (ev_data 1001 100) conn_blank io_blank (meta_init 0 7) aq_blank
      = Some (c', io', m', q') /\ rx_next_seq c' = u32 R' /\ 101 <= R' /\ ack_ack a = u32 R'.
Proof.
  destruct (mtp_acks_unreceived (ev_data 1001 100) conn_blank io_blank (meta_init 0 7) aq_blank 1 1001
    ltac:(unfold near; lia) eq_refl eq_refl eq_refl ltac:(lia) ltac:(cbn; lia) ltac:(cbn; lia)
    aq_init_wf ltac:(vm_compute; lia))
    as (c' & io' & m' & q' & a & R' & H1 & H2 & H3 & _ & H4).
  exists c', io', m', q', a, R'. split_and!; [exact H1|exact H2|cbn in H3; lia|exact H4].
Defined.

(** In-order data: what is left of a segment that contains position [R]. *)
Definition inorder_len (R W P L : Z) : Z := Z.min (P + L) (R + W) - R.

Lemma rxseq_ooo_inorder R W P L :
  near R P -> 0 < W <= 1073741824 -> 0 < L <= 65469 -> P <= R < P + L ->
  rxseq_ooo (u32 R) (u32 (R + W)) (u32 P) (u32 (P + L)) =
    Some (R - P, Z.max 0 (P + L - (R + W))) /\
  trimmed_len L (R - P) (Z.max 0 (P + L - (R + W))) = inorder_len R W P L /\
  0 < inorder_len R W P L <= L.
Proof.
  intros Hn HW HL HP. unfold inorder_len. split_and!; [| |lia..].
  - rewrite rxseq_ooo_clip by (done || lia). unfold clip.
    destruct (Z.ltb_spec (Z.max P R) (Z.min (P + L) (R + W))); [|lia]. f_equal. f_equal; lia.
  - unfold trimmed_len. rewrite (u32_small (R - P + _)) by mach_lia.
    destruct (Z.geb_spec L (R - P + Z.max 0 (P + L - (R + W)))); [|lia].
    rewrite u32_small by mach_lia. lia.
Qed.

Lemma mtp_flush_no_ooo c ev io : rx_ooo_len c = 0 -> ne_data_len ev <> 0 ->
  exists c', flush_ooo_data_ep ev c io = (c', io) /\
    rx_next_seq c' = rx_next_seq c ⊕ ne_data_len ev /\
    rx_avail c' = rx_avail c ⊖ ne_data_len ev /\ recv_init_seq c' = recv_init_seq c.
Proof.
  intros Ho Hn. unfold flush_ooo_data_ep. apply Z.eqb_neq in Hn. rewrite Hn.
  set (c1 := if rx_remote_avail c <? _ then _ else c). set (c2 := if _ && _ then _ else c1).
  assert (rx_view c2 = rx_view c /\ recv_init_seq c2 = recv_init_seq c) as [Hv Hr].
  { assert (rx_view c1 = rx_view c /\ recv_init_seq c1 = recv_init_seq c) as [<- <-]
      by (subst c1; by destruct (_ <? _)). subst c2. by destruct (_ && _). }
  unfold rx_view in Hv. injection Hv as E1 E2 _ _ E5 _. clearbody c2. cbn. rewrite E5, Ho. cbn [Z.eqb].
  eexists. split; [reflexivity|]. cbn. by rewrite E1, E2.
Qed.

Section InOrder.
Context (c : bpf_tcp_conn) (R P L : Z).
Context (Hnear : near R P) (Hnext : rx_next_seq c = u32 R) (Hooo : rx_ooo_len c = 0).
Context (Hlen : 0 < L <= 65469) (Hin : P <= R < P + L) (Hwnd : 0 < rx_avail c <= 1073741824).
Local Notation n := (inorder_len R (rx_avail c) P L).

Lemma rx_payload_stage_inorder s :
  rs_c s = c -> v_seq (rs_v s) = u32 P -> v_payload_len (rs_v s) = L ->
  v_payload_off (rs_v s) = HEADERS_LEN ->
  exists s', rx_payload_stage s = Fall s' /\ rs_c s' = c /\ v_payload_len (rs_v s') = n /\
    mrx_plen (rs_m s') = n /\ mrx_poff (rs_m s') = HEADERS_LEN + (R - P).
Proof.
  intros Hc Hs Hl Ho. destruct (rxseq_ooo_inorder R (rx_avail c) P L) as (Ev & Et & Hn); auto.
  unfold rx_payload_stage, tcp_valid_rxseq_ooo. rewrite Hs, Hl, Hc, Hnext, !u32_add_l, Ev. cbn.
  rewrite Hs, Hl, Ho, Et, u32_add_l. replace (P + (R - P)) with R by lia. rewrite Z.eqb_refl. cbn.
  eexists. split; [reflexivity|]. cbn. unfold near in Hnear.
  split_and!; [done|done|apply u16_small; mach_lia|].
  unfold HEADERS_LEN. rewrite u32_small by mach_lia. apply u16_small. mach_lia.
Qed.

Lemma rx_accept_stage_no_ooo s :
  rx_ooo_len (rs_c s) = 0 -> v_payload_len (rs_v s) <> 0 ->
  let s' := rx_accept_stage s in
  rs_c s' = rx_advance (v_payload_len (rs_v s)) (rs_c s) /\
  mrx_plen (rs_m s') = mrx_plen (rs_m s) /\ mrx_poff (rs_m s') = mrx_poff (rs_m s) /\
  v_rx_bump (rs_v s') = v_payload_len (rs_v s) /\
  v_payload_len (rs_v s') = v_payload_len (rs_v s).
Proof.
  intros Ho Hn. cbv zeta. unfold rx_accept_stage. apply Z.eqb_neq in Hn. rewrite Hn.
  set (s1 := s <|rs_v ::= _|> <|rs_c ::= _|>).
  assert (E : rx_merge_stage s1 = s1).
  { unfold rx_merge_stage. replace (rx_ooo_len (rs_c s1)) with 0 by (symmetry; exact Ho). done. }
  rewrite E. destruct (Z.shiftr _ _ =? 0); by split_and!.
Qed.

Lemma etran_rx_inorder t o now cc m pkt_len :
  th_ack t = false -> bpf_ntohl (th_seq t) = u32 P -> pkt_len = HEADERS_LEN + L ->
  let s' := etran_rx_body t o now (mk_rx_st c cc m (rx_vars_init t pkt_len)) in
  rx_next_seq (rs_c s') = u32 (R + n) /\ rx_avail (rs_c s') = rx_avail c - n /\
  mrx_plen (rs_m s') = n /\ mrx_poff (rs_m s') = HEADERS_LEN + (R - P) /\
  v_rx_bump (rs_v s') = n /\ v_payload_len (rs_v s') = n.
Proof.
  intros Hack Hseq ->. cbv zeta. destruct (rxseq_ooo_inorder R (rx_avail c) P L) as (_ & _ & Hn); auto.
  unfold etran_rx_body, rx_ack_stage. rewrite Hack. cbn [negb flow_bind].
  set (s := mk_rx_st c cc m _).
  destruct (rx_payload_stage_inorder s) as (s1 & -> & Ec & El & Ep & Eo); try done.
  { cbn. unfold HEADERS_LEN. rewrite u32_small; mach_lia. }
  cbn [flow_bind flow_st]. destruct (rx_window_stage_frame t o now s1) as (Hv & Em & Ev).
  set (s2 := rx_window_stage t o now s1) in *. clearbody s2.
  unfold rx_view in Hv. rewrite Ec in Hv. injection Hv as V1 V2 V3 V4 V5 V6.
  destruct (rx_accept_stage_no_ooo s2) as (Ec' & Ep' & Eo' & Eb & El');
    [congruence|rewrite Ev, El; lia|].
  rewrite Ec', Ep', Eo', Eb, El', Ev, El, Em. split_and!; try done.
  - cbn. by rewrite V1, Hnext, u32_add_l.
  - cbn. rewrite V2. unfold inorder_len in *. apply u32_small. mach_lia.
Qed.

Lemma mtp_rx_inorder ev io m q :
  ne_seq_num ev = u32 P -> ne_data_len ev = L -> aq_wf q -> (length (ack_list q) < 63)%nat ->
  exists c' io' m' q', mtp_data_chain ev c io m q = Some (c', io', m', q') /\
    rx_next_seq c' = u32 (R + n) /\ rx_avail c' = rx_avail c - n /\ io_drop io' = false /\
    mrx_plen m' = n /\ mrx_poff m' = HEADERS_LEN + (R - P) /\
    mrx_rx_pos m' = R ⊖ recv_init_seq c /\
    exists a, ack_list q' = ack_list q ++ [a] /\ ack_ack a = u32 (R + n).
Proof.
  intros Hs Hl Hq Hroom. destruct (rxseq_ooo_inorder R (rx_avail c) P L) as (Ev & Et & Hn); auto.
  unfold mtp_data_chain, verify_trim_data_ep. rewrite Hs, Hl, Hnext, !u32_add_l, Ev. cbn -[data_net_ep flush_ooo_data_ep send_ack].
  rewrite Et, Hs, u32_add_l. replace (P + (R - P)) with R by lia.
  unfold detect_ooo_data_ep. cbn -[data_net_ep flush_ooo_data_ep send_ack].
  rewrite Hnext, Z.eqb_refl. cbn [negb].
  set (ev1 := ev <|ne_data_len := _|> <|ne_seq_num := _|>).
  set (io1 := _ <|io_trigger_ack := true|>). set (m1 := m <|mrx_poff := _|> <|mrx_plen := _|>).
  destruct (mtp_flush_no_ooo c ev1 io1 Hooo) as (c1 & -> & E1 & E2 & E3);
    [change (ne_data_len ev1) with n; lia|]. change (ne_data_len ev1) with n in E1, E2.
  unfold data_net_ep, mtp_add_data_seg_wrapper. change (ne_data_len ev1) with n.
  assert (Hnz : nz n = true) by (apply nz_true; lia). rewrite Hnz. cbn [orb].
  destruct (Z.eqb_spec n 0) as [?|_]; [lia|]. unfold send_ack. cbn [negb io_trigger_ack].
  change (io_trigger_ack (io1 <| io_drop := false |>)) with true. cbn [negb].
  match goal with |- context [mtp_pkt_gen_for_xdp_gen ?bp c1 q] =>
    pose proof (mtp_pkt_gen_append bp c1 q Hq) as Ha;
    destruct (mtp_pkt_gen_for_xdp_gen bp c1 q) as [[c2 q2]|] end; [|lia].
  destruct Ha as (_ & -> & _ & a & Hl' & _ & Hack & _).
  eexists _, _, _, _. split; [reflexivity|]. cbn -[u16 u32].
  rewrite E1, E2, E3, Hnext, !u32_add_l, (u32_small (rx_avail c - n))
    by (unfold inorder_len in *; mach_lia).
  split_and!; try done.
  - apply u16_small. mach_lia.
  - unfold near in Hnear. unfold HEADERS_LEN. rewrite u32_small by mach_lia. apply u16_small. mach_lia.
  - by rewrite u32_sub_l.
  - exists a. split; [done|]. rewrite Hack. cbn. by rewrite E1, Hnext, u32_add_l.
Qed.
End InOrder.

(** C20. In-order data is accepted alike: with nothing remembered out of order,
    an open receive window and the acknowledgement ring not full, a data
    segment (its ACK flag is clear, as both builds send them) that contains the
    next expected position [R] advances both builds by the same number of
    bytes, clipped to the window, leaves them the same window, and tells user
    space the same payload offset and length; the MTP build also queues the
    acknowledgement of exactly these bytes. *)
Theorem mtp_inorder_matches_etran (c : bpf_tcp_conn) (cc : bpf_cc) (f : frame) (m : rx_meta)
  (io : interm_out) (q : ack_queue) (cpu ktime R P L : Z) (ece : bool) (pc : prev_conn_t)
  (Hnear : near R P) (Hnext : rx_next_seq c = u32 R) (Hooo : rx_ooo_len c = 0)
  (Hdata : th_ack (f_tcp f) = false) (Hseq : bpf_ntohl (th_seq (f_tcp f)) = u32 P)
  (Hlen : 0 < L <= 65469) (Htot : bpf_ntohs (ip_tot_len (f_ip f)) = 52 + L)
  (Hin : P <= R < P + L) (Hwnd : 0 < rx_avail c <= 1073741824)
  (Hq : aq_wf q) (Hroom : (length (ack_list q) < 63)%nat) :
  let n := inorder_len R (rx_avail c) P L in
  let '(a, ce, _, me, _) :=
    etran_rx_process cpu ktime 0 (f_tcp f) (f_ts f) c (Some cc) (HEADERS_LEN + L) m ece pc in
  exists cm mm q' k,
    mtp_rx_process ktime ktime 0 (parse_pkt_to_event f) c (Some cc) io m q =
      Some (a, cm, Some cc, mm, q') /\ a = XDP_REDIRECT /\
    rx_next_seq ce = u32 (R + n) /\ rx_next_seq cm = rx_next_seq ce /\
    rx_avail ce = rx_avail c - n /\ rx_avail cm = rx_avail ce /\
    mrx_plen me = n /\ mrx_plen mm = mrx_plen me /\
    mrx_poff me = HEADERS_LEN + (R - P) /\ mrx_poff mm = mrx_poff me /\
    ack_list q' = ack_list q ++ [k] /\ ack_ack k = u32 (R + n).
Proof.
  cbv zeta. set (n := inorder_len R (rx_avail c) P L).
  assert (Hn : 0 < n <= L) by (subst n; unfold inorder_len; lia).
  unfold etran_rx_process. set (now := u32 _).
  destruct (etran_rx_inorder c R P L Hnear Hnext Hooo Hlen Hin Hwnd (f_tcp f) (f_ts f) now cc m
    (HEADERS_LEN + L) Hdata Hseq eq_refl) as (E1 & E2 & E3 & E4 & E5 & E6).
  set (s := etran_rx_body _ _ _ _) in *. clearbody s. fold n in E1, E2, E3, E5, E6.
  assert (Hu : fst (rx_unlock_stage s) = false /\
    rs_c (snd (rx_unlock_stage s)) = rs_c s /\
    mrx_plen (rs_m (snd (rx_unlock_stage s))) = n /\
    mrx_poff (rs_m (snd (rx_unlock_stage s))) = HEADERS_LEN + (R - P)).
  { unfold rx_unlock_stage. rewrite E5, E6. assert (Hnz : nz n = true) by (apply nz_true; lia).
    rewrite Hnz. cbn [orb]. destruct (Z.eqb_spec n 0); [lia|].
    cbn. rewrite <- E3, <- E4. by repeat split_if. }
  destruct (rx_unlock_stage s) as [d s']. cbn in Hu. destruct Hu as (-> & Ec & Ep & Eo).
  unfold mtp_rx_process. fold now.
  set (ev := (parse_pkt_to_event f) <| ne_timestamp := now |>).
  replace (ne_minor_type ev) with NET_EVENT_DATA by (cbn; by rewrite Hdata).
  destruct (mtp_rx_inorder c R P L Hnear Hnext Hooo Hlen Hin Hwnd ev io m q)
    as (cm & io' & mm & q' & -> & F1 & F2 & -> & F3 & F4 & _ & k & F5 & F6); try done.
  { change (ne_data_len ev) with (u32 (bpf_ntohs (ip_tot_len (f_ip f)) - (20 + 20 + TS_OPT_SIZE))).
    rewrite Htot. unfold TS_OPT_SIZE. rewrite u32_small; mach_lia. }
  fold n in F1, F2, F3, F6. rewrite Ec. exists cm, mm, q', k. split_and!; congruence.
Qed.

Definition frame_data (seq n : Z) : frame :=
  frame_blank <| f_tcp := tcp_seg seq false 0 0 |>
    <| f_ip := ip_blank <| ip_tot_len := bpf_htons (52 + n) |> |>.

Lemma mtp_inorder_matches_etran_witness :
  exists cm mm q',
    mtp_rx_process 5000 5000 0 (parse_pkt_to_event (frame_data 1 100)) conn_blank (Some cc_blank)
      io_blank (meta_init 0 7) aq_blank = Some (XDP_REDIRECT, cm, Some cc_blank, mm, q') /\
    rx_next_seq cm = 101.
Proof.
  pose proof (mtp_inorder_matches_etran conn_blank cc_blank (frame_data 1 100) (meta_init 0 7) io_blank
    aq_blank 0 5000 1 1 100 false pc_none ltac:(unfold near; lia) eq_refl eq_refl eq_refl
    ltac:(vm_compute; done) ltac:(lia) ltac:(vm_compute; done) ltac:(lia) ltac:(vm_compute; by split)
    aq_init_wf ltac:(vm_compute; lia)) as H. cbv zeta in H.
  destruct (etran_rx_process _ _ _ _ _ _ _ _ _ _ _) as [[[[a ce] cc'] me] pc'].
  destruct H as (cm & mm & q' & k & H1 & -> & H2 & H3 & _).
  exists cm, mm, q'. split; [exact H1|]. rewrite H3, H2. reflexivity.
Defined.
