(* ===== verification/Cc.v ===== *)
(** The congestion-control loop of the microkernel: the algorithms of
    [micro_kernel/cc.cc] (window-based DCTCP, rate-based DCTCP, TIMELY), the
    rate conversion of [runtime/tcp.h], the per-connection step of
    [poll_tcp_cc_to] in [tcp.cc] and the event processors that replace it in
    the MTP build ([ctrl_plane_mtp.h]).

    The floating-point expressions of the code divide integers below 2^53 by
    25, 1000 or 8 and truncate, or multiply by an exact constant; the model
    uses the integer they denote.  [cur_ts] is the value of
    [cycles_to_us(curr_tsc)], which depends on a measured clock frequency.  An
    assertion or a division by zero is the result [None]. *)
From S2P Require Import Prelude Intf.
Local Open Scope Z_scope.
Local Open Scope u32_scope.

Definition TCP_RTT_INIT : Z := 50.
Definition TCP_RTO_MIN : Z := 4000.
Definition REXMIT_INTS : Z := 4.
Definition MAX_LINK_BANDWIDTH : Z := 25000000.
Definition CC_DCTCP_WEIGHT : Z := 268435455.
Definition CC_DCTCP_MINBYTES : Z := 64800.
Definition CC_DCTCP_STEP : Z := 10000.
Definition CC_DCTCP_MIN : Z := 500000.
Definition CC_TIMELY_TLOW : Z := 30.
Definition CC_TIMELY_THIGH : Z := 150.
Definition CC_TIMELY_STEP : Z := 10000.
Definition CC_TIMELY_MIN_RTT : Z := 11.
Definition CC_TIMELY_MIN_RATE : Z := 500000.
Definition CC_TIMELY_INIT_RATE : Z := CC_TIMELY_MIN_RATE.
(** (uint64_t)(0.8 * UINT32_MAX) and half of it; (uint64_t)(0.02 * UINT32_MAX / 2) *)
Definition CC_TIMELY_BETA : Z := 3435973836.
Definition CC_TIMELY_HALF_BETA : Z := 1717986918.
Definition CC_TIMELY_HALF_ALPHA : Z := 42949672.
Definition INT32_MAX : Z := 2147483647.
Definition INT16_MAX : Z := 32767.
Definition CC_INTERVAL_RTT : Z := 2.

(** ** State *)

Record cc_dctcp_wnd := mk_cc_dctcp_wnd {
  dw_ecn_rate : Z;
  dw_window : Z;
  dw_slowstart : bool
}.

#[export] Instance eta_cc_dctcp_wnd : Eta cc_dctcp_wnd := fun r =>
  mk_cc_dctcp_wnd (dw_ecn_rate r) (dw_window r) (dw_slowstart r).

Record cc_dctcp_rate := mk_cc_dctcp_rate {
  dr_unproc_acks : Z;
  dr_unproc_ackb : Z;
  dr_unproc_ecnb : Z;
  dr_unproc_drops : Z;
  dr_last_ts : Z;
  dr_ecn_rate : Z;
  dr_act_rate : Z;
  dr_slowstart : bool
}.

#[export] Instance eta_cc_dctcp_rate : Eta cc_dctcp_rate := fun r =>
  mk_cc_dctcp_rate (dr_unproc_acks r) (dr_unproc_ackb r) (dr_unproc_ecnb r) (dr_unproc_drops r)
    (dr_last_ts r) (dr_ecn_rate r) (dr_act_rate r) (dr_slowstart r).

Record cc_timely := mk_cc_timely {
  tm_rtt_prev : Z;
  tm_rtt_diff : Z;
  tm_hai_cnt : Z;
  tm_act_rate : Z;
  tm_last_ts : Z;
  tm_slowstart : bool
}.

#[export] Instance eta_cc_timely : Eta cc_timely := fun r =>
  mk_cc_timely (tm_rtt_prev r) (tm_rtt_diff r) (tm_hai_cnt r) (tm_act_rate r) (tm_last_ts r)
    (tm_slowstart r).

(** [struct bpf_cc_snapshot] *)
Record bpf_cc_snapshot := mk_bpf_cc_snapshot {
  c_drops : Z;
  c_acks : Z;
  c_ackb : Z;
  c_ecnb : Z;
  c_txp : bool;
  c_rtt : Z
}.

#[export] Instance eta_bpf_cc_snapshot : Eta bpf_cc_snapshot := fun r =>
  mk_bpf_cc_snapshot (c_drops r) (c_acks r) (c_ackb r) (c_ecnb r) (c_txp r) (c_rtt r).

(** The fields of [struct tcp_connection] that the control loop uses. *)
Record ctl_conn := mk_ctl_conn {
  ctl_tx_buf_size : Z;
  cc_last_tsc : Z;
  cc_last_rtt : Z;
  cc_last_drops : Z;
  cc_last_acks : Z;
  cc_last_ackb : Z;
  cc_last_ecnb : Z;
  ctl_cc_rate : Z;
  cc_rexmits : Z;
  cnt_tx_pending : Z;
  ts_tx_pending : Z;
  (* the copy of the shared map entry that only the MTP build keeps *)
  ctl_prev_desired_tx_ts : Z;
  ctl_rate : Z;
  ctl_cnt_tx_drops : Z;
  ctl_cnt_rx_acks : Z;
  ctl_cnt_rx_ack_bytes : Z;
  ctl_cnt_rx_ecn_bytes : Z;
  ctl_rtt_est : Z;
  ctl_txp : Z
}.

#[export] Instance eta_ctl_conn : Eta ctl_conn := fun r =>
  mk_ctl_conn (ctl_tx_buf_size r) (cc_last_tsc r) (cc_last_rtt r) (cc_last_drops r) (cc_last_acks r)
    (cc_last_ackb r) (cc_last_ecnb r) (ctl_cc_rate r) (cc_rexmits r) (cnt_tx_pending r)
    (ts_tx_pending r) (ctl_prev_desired_tx_ts r) (ctl_rate r) (ctl_cnt_tx_drops r)
    (ctl_cnt_rx_acks r) (ctl_cnt_rx_ack_bytes r) (ctl_cnt_rx_ecn_bytes r) (ctl_rtt_est r)
    (ctl_txp r).

(** ** Window-based DCTCP *)

(** [window_to_rate]: bytes and microseconds to kbps. *)
Definition window_to_rate (window rtt : Z) : option Z :=
  let time := 8 * window / 25 in
  let time := if time <? rtt ⊗ 1000 then rtt ⊗ 1000 else time in
  if time =? 0 then None else
  let rate := window * 8 * 1000000 / time in
  Some (if rate >? UINT32_MAX then UINT32_MAX else rate).

(** The moving average of the fraction of marked bytes, in units of
    1 / UINT32_MAX, shared by both DCTCP variants. *)
Definition ecn_ewma (old ecnb ackb : Z) : Z :=
  let ecn_rate := ecnb * UINT32_MAX / ackb in
  let ecn_rate := u64 (u64 (ecn_rate * CC_DCTCP_WEIGHT)
                       + u64 (old * (UINT32_MAX - CC_DCTCP_WEIGHT))) in
  u32 (ecn_rate / UINT32_MAX).

(** The scaling by [1 - ecn_rate / 2]. *)
Definition ecn_scale (v ecn_rate : Z) : Z := v * (UINT32_MAX - ecn_rate / 2) / UINT32_MAX.

(** [dctcp_wnd_cc] *)
Definition dctcp_wnd_cc (c : ctl_conn) (cc : cc_dctcp_wnd) (stats : bpf_cc_snapshot)
  : option (ctl_conn * cc_dctcp_wnd * bpf_cc_snapshot) :=
  let win := dw_window cc in
  if win <? 1448 then None else
  let rtt := if c_rtt stats =? 0 then TCP_RTT_INIT else c_rtt stats in
  let c := c <| cc_last_rtt := rtt |> in
  let '(win, cc) :=
    if dw_slowstart cc then
      if (c_drops stats =? 0) && (c_ecnb stats =? 0) && (cc_rexmits c =? 0)
      then (if win ⊕ c_ackb stats >? win then win ⊕ c_ackb stats else win, cc)
      else (win, cc <| dw_slowstart := false |>)
    else (win, cc) in
  let r :=
    if negb (dw_slowstart cc) then
      if (c_drops stats >? 0) || (cc_rexmits c >? 0) then Some (win / 2, cc, stats) else
      let '(cc, stats) :=
        if c_ackb stats >? 0 then
          let ecnb := if c_ecnb stats <=? c_ackb stats then c_ecnb stats else c_ackb stats in
          (cc <| dw_ecn_rate := ecn_ewma (dw_ecn_rate cc) ecnb (c_ackb stats) |>,
           stats <| c_ecnb := ecnb |>)
        else (cc, stats) in
      if c_ecnb stats >? 0 then Some (u32 (ecn_scale win (dw_ecn_rate cc)), cc, stats) else
      if win =? 0 then None else
      let incr := c_ackb stats * 1448 / win in
      Some (if u32 (win + incr) >? win then u32 (win + incr) else win, cc, stats)
    else Some (win, cc, stats) in
  match r with
  | None => None
  | Some (win, cc, stats) =>
    let win := if win <? 1448 then 1448 else win in
    let win := if win >? ctl_tx_buf_size c then ctl_tx_buf_size c else win in
    match window_to_rate win rtt with
    | None => None
    | Some rate =>
      let c := c <| ctl_cc_rate := rate |> in
      let cc := cc <| dw_window := win |> in
      Some (c <| cc_rexmits := 0 |>, cc, stats)
    end
  end.

(** [set_cc_rate]: kbps to bytes per second, clamped to 25 Gbps; [None] is the
    undefined conversion of a double that does not fit 32 bits. *)
Definition set_cc_rate (new_rate : Z) : option Z :=
  let v := 125 * new_rate in
  if v >? UINT32_MAX then None else Some (if v >? 3125000000 then 3125000000 else v).

(** ** Rate-based DCTCP *)

(** [dctcp_rate_cc]; [None] is the division by a zero interval. *)
Definition dctcp_rate_cc (c : ctl_conn) (cc : cc_dctcp_rate) (stats : bpf_cc_snapshot)
  (cur_ts : Z) : option (ctl_conn * cc_dctcp_rate) :=
  let rate := ctl_cc_rate c in
  let rtt := if c_rtt stats =? 0 then TCP_RTT_INIT else c_rtt stats in
  let c := c <| cc_last_rtt := rtt |> in
  let n_ecnb := dr_unproc_ecnb cc ⊕ c_ecnb stats in
  let n_acks := dr_unproc_acks cc ⊕ c_acks stats in
  let n_ackb := dr_unproc_ackb cc ⊕ c_ackb stats in
  let n_drops := dr_unproc_drops cc ⊕ c_drops stats in
  if n_ackb <? CC_DCTCP_MINBYTES then
    Some (c, cc <| dr_unproc_ecnb := n_ecnb |> <| dr_unproc_acks := n_acks |>
                <| dr_unproc_ackb := n_ackb |> <| dr_unproc_drops := n_drops |>)
  else
    let cc := cc <| dr_unproc_ecnb := 0 |> <| dr_unproc_acks := 0 |>
                 <| dr_unproc_ackb := 0 |> <| dr_unproc_drops := 0 |> in
    if nz (dr_last_ts cc) && (cur_ts ⊖ dr_last_ts cc =? 0) then None else
    let act_rate :=
      if nz (dr_last_ts cc) then n_ackb ⊗ 8 ⊗ 1000 / (cur_ts ⊖ dr_last_ts cc) else 0 in
    let cc := cc <| dr_act_rate := (7 ⊗ dr_act_rate cc ⊕ act_rate) / 8 |> in
    let act_rate := if act_rate >=? dr_act_rate cc then act_rate else dr_act_rate cc in
    let rate := if rate >? act_rate * 15 / 10 then act_rate * 15 / 10 else rate in
    let quiet := (n_drops =? 0) && (n_ecnb =? 0) && (cc_rexmits c =? 0) in
    let '(rate, cc) :=
      if dr_slowstart cc then
        if quiet then (if rate ⊗ 2 >=? rate then rate ⊗ 2 else UINT32_MAX, cc)
        else (rate, cc <| dr_slowstart := false |>)
      else (rate, cc) in
    let '(rate, cc, n_ecnb) :=
      if negb (dr_slowstart cc) then
        if (n_drops >? 0) || (cc_rexmits c >? 0) then (rate / 2, cc, n_ecnb) else
        let '(cc, n_ecnb) :=
          if n_ackb >? 0 then
            let ecnb := if n_ecnb <=? n_ackb then n_ecnb else n_ackb in
            (cc <| dr_ecn_rate := ecn_ewma (dr_ecn_rate cc) ecnb n_ackb |>, ecnb)
          else (cc, n_ecnb) in
        if n_ecnb >? 0 then (u32 (ecn_scale rate (dr_ecn_rate cc)), cc, n_ecnb)
        else (rate ⊕ CC_DCTCP_STEP, cc, n_ecnb)
      else (rate, cc, n_ecnb) in
    let rate := if rate <? CC_DCTCP_MIN then CC_DCTCP_MIN else rate in
    let cc :=
      if (rate =? CC_DCTCP_MIN) && (n_drops =? 0) && (n_ecnb =? 0) && (cc_rexmits c =? 0)
      then cc <| dr_slowstart := true |> else cc in
    Some (c <| ctl_cc_rate := rate |> <| cc_rexmits := 0 |>, cc <| dr_last_ts := cur_ts |>).

(** ** TIMELY *)

(** Conversion to and range of a signed 64-bit integer. *)
Definition s64 (x : Z) : Z := u64 (x + 9223372036854775808) - 9223372036854775808.
Definition fits_s64 (x : Z) : bool :=
  (-9223372036854775808 <=? x) && (x <=? 9223372036854775807).

(** The rate achieved since the last run; [None] where the conversion of the
    double to 32 bits is undefined. *)
Definition timely_act_rate (ackb last_ts cur_ts : Z) : option Z :=
  if nz last_ts then
    let d := cur_ts ⊖ last_ts in
    if d =? 0 then None else
    let r := ackb ⊗ 8 * 1000 / d in
    if r >? UINT32_MAX then None else Some r
  else Some 0.

(** The smoothed RTT difference and the normalized gradient. *)
Definition timely_gradient (cc : cc_timely) (new_rtt : Z) : cc_timely * Z :=
  if nz (tm_rtt_prev cc) then
    let new_rtt_diff := s32 (new_rtt - tm_rtt_prev cc) in
    let factor := CC_TIMELY_HALF_ALPHA in
    let x := s64 (u64 ((INT32_MAX - factor) * tm_rtt_diff cc) + u64 (factor * new_rtt_diff)) in
    let cc := cc <| tm_rtt_diff := s32 (Z.quot x INT32_MAX) |> in
    (cc, Z.quot (tm_rtt_diff cc * INT16_MAX) CC_TIMELY_MIN_RTT)
  else (cc, 0).

(** The additive or multiplicative step; [None] is a signed overflow. *)
Definition timely_step (cc : cc_timely) (rate new_rtt gradient : Z) : option (cc_timely * Z) :=
  if tm_slowstart cc then
    let rate := u32 (Z.shiftl rate 1) in
    Some (cc, if rate >? MAX_LINK_BANDWIDTH then MAX_LINK_BANDWIDTH else rate)
  else if new_rtt <? CC_TIMELY_TLOW then
    Some (cc <| tm_hai_cnt := 0 |>, rate ⊕ CC_TIMELY_STEP)
  else if new_rtt >? CC_TIMELY_THIGH then
    let d := u32 (UINT32_MAX * CC_TIMELY_THIGH / new_rtt) in
    let b := UINT32_MAX ⊖ d in
    let a := u32 (CC_TIMELY_BETA * b / UINT32_MAX) in
    Some (cc <| tm_hai_cnt := 0 |>, u32 (rate * (UINT32_MAX ⊖ a) / UINT32_MAX))
  else if gradient <=? 0 then
    let cc := cc <| tm_hai_cnt := tm_hai_cnt cc ⊕ 1 |> in
    if tm_hai_cnt cc >=? 5
    then Some (cc <| tm_hai_cnt := tm_hai_cnt cc ⊖ 1 |>, rate ⊕ (CC_TIMELY_STEP * 5))
    else Some (cc, rate ⊕ CC_TIMELY_STEP)
  else
    let a := CC_TIMELY_HALF_BETA * gradient in
    if negb (fits_s64 a) then None else
    let b := Z.quot a INT16_MAX in
    let d := if b <=? INT32_MAX then INT32_MAX - b else 0 in
    Some (cc <| tm_hai_cnt := 0 |>, u32 (Z.quot (rate * d) INT32_MAX)).

(** [timely_cc] *)
Definition timely_cc (c : ctl_conn) (cc : cc_timely) (stats : bpf_cc_snapshot) (cur_ts : Z)
  : option (ctl_conn * cc_timely) :=
  let new_rtt := c_rtt stats in
  match timely_act_rate (c_ackb stats) (tm_last_ts cc) cur_ts with
  | None => None
  | Some act_rate =>
    let cc := cc <| tm_act_rate := (7 ⊗ tm_act_rate cc ⊕ act_rate) / 8 |> in
    let act_rate := if act_rate >=? tm_act_rate cc then act_rate else tm_act_rate cc in
    if new_rtt =? 0 then Some (c, cc) else
    let mid := (CC_TIMELY_TLOW + CC_TIMELY_THIGH) / 2 in
    let cc := if tm_slowstart cc && (new_rtt >? mid) then cc <| tm_slowstart := false |> else cc in
    let cc :=
      if (ctl_cc_rate c <=? Z.shiftl CC_TIMELY_INIT_RATE 2) && negb (tm_slowstart cc)
         && (new_rtt <=? mid)
      then cc <| tm_slowstart := true |> else cc in
    let c :=
      if negb (tm_slowstart cc) && (ctl_cc_rate c >? act_rate * 15 / 10)
      then c <| ctl_cc_rate := act_rate * 15 / 10 |> else c in
    let '(cc, gradient) := timely_gradient cc new_rtt in
    let cc := cc <| tm_rtt_prev := new_rtt |> in
    let orig_rate := ctl_cc_rate c in
    match timely_step cc orig_rate new_rtt gradient with
    | None => None
    | Some (cc, rate) =>
      let rate := if rate <? orig_rate / 2 then orig_rate / 2 else rate in
      let rate := if rate <? CC_TIMELY_MIN_RATE then CC_TIMELY_MIN_RATE else rate in
      Some (c <| ctl_cc_rate := rate |> <| cc_last_rtt := c_rtt stats |> <| cc_rexmits := 0 |>,
            cc <| tm_last_ts := cur_ts |>)
    end
  end.

(** ** The control loop of the eTran build *)

(** The union [cc_data] with its tag [algorithm]. *)
Inductive cc_data :=
| CC_NONE
| CC_TIMELY (d : cc_timely)
| CC_DCTCP_RATE (d : cc_dctcp_rate)
| CC_DCTCP_WND (d : cc_dctcp_wnd).

(** [snapshot_cc] *)
Definition snapshot_cc (e : bpf_cc) : bpf_cc_snapshot :=
  mk_bpf_cc_snapshot (cc_cnt_tx_drops e) (cc_cnt_rx_acks e) (cc_cnt_rx_ack_bytes e)
    (cc_cnt_rx_ecn_bytes e) (nz (cc_txp e)) (cc_rtt_est e).

(** The differences to the last run. *)
Definition cc_difference (c : ctl_conn) (stats : bpf_cc_snapshot) : ctl_conn * bpf_cc_snapshot :=
  (c <| cc_last_drops := c_drops stats |> <| cc_last_acks := c_acks stats |>
     <| cc_last_ackb := c_ackb stats |> <| cc_last_ecnb := c_ecnb stats |>,
   stats <| c_drops := u16 (c_drops stats - cc_last_drops c) |>
         <| c_acks := u16 (c_acks stats - cc_last_acks c) |>
         <| c_ackb := c_ackb stats ⊖ cc_last_ackb c |>
         <| c_ecnb := c_ecnb stats ⊖ cc_last_ecnb c |>).

(** [handle_retransmission]; [issued] is whether [issue_retransmit] could
    allocate its packet, the flag returned is whether one was sent. *)
Definition handle_retransmission (c : ctl_conn) (stats : bpf_cc_snapshot) (cur_ts : Z)
  (issued : bool) : ctl_conn * bool :=
  let rtt := if nz (c_rtt stats) then c_rtt stats else TCP_RTT_INIT in
  if c_txp stats && (c_ackb stats =? 0) then
    let pending := cnt_tx_pending c in
    let c := c <| cnt_tx_pending := pending ⊕ 1 |> in
    if pending =? 0 then (c <| ts_tx_pending := cur_ts |>, false)
    else if (cnt_tx_pending c >=? REXMIT_INTS)
            && (cur_ts ⊖ ts_tx_pending c >=? Z.max (REXMIT_INTS ⊗ rtt) TCP_RTO_MIN) then
      if issued
      then (c <| cnt_tx_pending := 0 |> <| cc_rexmits := cc_rexmits c ⊕ 1 |>, true)
      else (c, false)
    else (c, false)
  else (c <| cnt_tx_pending := 0 |>, false).

(** The switch on the algorithm, with the rate written back to the map. *)
Definition run_algorithm (c : ctl_conn) (d : cc_data) (stats : bpf_cc_snapshot) (e : bpf_cc)
  (cur_ts : Z) : option (ctl_conn * cc_data * bpf_cc_snapshot * bpf_cc) :=
  let set c e := match set_cc_rate (ctl_cc_rate c) with
                 | Some v => Some (e <| cc_rate := v |>)
                 | None => None
                 end in
  match d with
  | CC_NONE => Some (c, d, stats, e)
  | CC_TIMELY cc =>
    match timely_cc c cc stats cur_ts with
    | Some (c, cc) =>
      match set c e with Some e => Some (c, CC_TIMELY cc, stats, e) | None => None end
    | None => None
    end
  | CC_DCTCP_WND cc =>
    match dctcp_wnd_cc c cc stats with
    | Some (c, cc, stats) =>
      match set c e with Some e => Some (c, CC_DCTCP_WND cc, stats, e) | None => None end
    | None => None
    end
  | CC_DCTCP_RATE cc =>
    match dctcp_rate_cc c cc stats cur_ts with
    | Some (c, cc) =>
      match set c e with Some e => Some (c, CC_DCTCP_RATE cc, stats, e) | None => None end
    | None => None
    end
  end.

(** The body of [poll_tcp_cc_to] for one open connection; [t_us] is the time
    since its last run in microseconds. *)
Definition poll_cc_one (c : ctl_conn) (d : cc_data) (e : bpf_cc) (curr_tsc cur_ts t_us : Z)
  (issued : bool) : option (ctl_conn * cc_data * bpf_cc * bool) :=
  if t_us <? cc_last_rtt c * CC_INTERVAL_RTT then Some (c, d, e, false) else
  let '(c, stats) := cc_difference c (snapshot_cc e) in
  match run_algorithm c d stats e cur_ts with
  | None => None
  | Some (c, d, stats, e) =>
    let '(c, sent) := handle_retransmission c stats cur_ts issued in
    Some (c <| cc_last_tsc := curr_tsc |>, d, e, sent)
  end.

(** ** The control loop of the MTP build *)

(** [mtp_snapshot_cc]: the event, returned first, is replaced by the one in the
    map entry. *)
Definition mtp_snapshot_cc (ev_curr_tsc : Z) (c : ctl_conn) (e : bpf_cc) : Z * ctl_conn :=
  (cc_ev_curr_tsc e,
   c <| ctl_cnt_tx_drops := cc_cnt_tx_drops e |> <| ctl_cnt_rx_acks := cc_cnt_rx_acks e |>
     <| ctl_cnt_rx_ack_bytes := cc_cnt_rx_ack_bytes e |>
     <| ctl_cnt_rx_ecn_bytes := cc_cnt_rx_ecn_bytes e |>
     <| ctl_txp := cc_txp e |> <| ctl_rtt_est := cc_rtt_est e |> <| ctl_rate := cc_rate e |>
     <| ctl_prev_desired_tx_ts := cc_prev_desired_tx_ts e |>).

(** [slows_congc_ep]; the pair returned last is [int_out->win], [int_out->rtt]. *)
Definition slows_congc_ep (c : ctl_conn) (cc : cc_dctcp_wnd)
  : option (ctl_conn * cc_dctcp_wnd * (Z * Z)) :=
  let last := cc_last_drops c in
  let c := c <| cc_last_drops := ctl_cnt_tx_drops c |> in
  let c := c <| ctl_cnt_tx_drops := u16 (ctl_cnt_tx_drops c - last) |> in
  let last := cc_last_ackb c in
  let c := c <| cc_last_ackb := ctl_cnt_rx_ack_bytes c |> in
  let c := c <| ctl_cnt_rx_ack_bytes := ctl_cnt_rx_ack_bytes c ⊖ last |> in
  let last := cc_last_ecnb c in
  let c := c <| cc_last_ecnb := ctl_cnt_rx_ecn_bytes c |> in
  let c := c <| ctl_cnt_rx_ecn_bytes := ctl_cnt_rx_ecn_bytes c ⊖ last |> in
  let win := dw_window cc in
  if win <? 1448 then None else
  let rtt := if ctl_rtt_est c =? 0 then TCP_RTT_INIT else ctl_rtt_est c in
  let c := c <| cc_last_rtt := rtt |> in
  let '(win, cc) :=
    if dw_slowstart cc then
      if (ctl_cnt_tx_drops c =? 0) && (ctl_cnt_rx_ecn_bytes c =? 0) && (cc_rexmits c =? 0)
      then (if win ⊕ ctl_cnt_rx_ack_bytes c >? win
            then win ⊕ ctl_cnt_rx_ack_bytes c else win, cc)
      else (win, cc <| dw_slowstart := false |>)
    else (win, cc) in
  let r :=
    if negb (dw_slowstart cc) then
      if (ctl_cnt_tx_drops c >? 0) || (cc_rexmits c >? 0) then Some (win / 2, cc, c) else
      let '(cc, c) :=
        if ctl_cnt_rx_ack_bytes c >? 0 then
          let ecnb := if ctl_cnt_rx_ecn_bytes c <=? ctl_cnt_rx_ack_bytes c
                      then ctl_cnt_rx_ecn_bytes c else ctl_cnt_rx_ack_bytes c in
          (cc <| dw_ecn_rate := ecn_ewma (dw_ecn_rate cc) ecnb (ctl_cnt_rx_ack_bytes c) |>,
           c <| ctl_cnt_rx_ecn_bytes := ecnb |>)
        else (cc, c) in
      if ctl_cnt_rx_ecn_bytes c >? 0
      then Some (u32 (ecn_scale win (dw_ecn_rate cc)), cc, c) else
      if win =? 0 then None else
      let incr := ctl_cnt_rx_ack_bytes c * 1448 / win in
      Some (if u32 (win + incr) >? win then u32 (win + incr) else win, cc, c)
    else Some (win, cc, c) in
  match r with
  | None => None
  | Some (win, cc, c) =>
    let win := if win <? 1448 then 1448 else win in
    let win := if win >? ctl_tx_buf_size c then ctl_tx_buf_size c else win in
    Some (c <| cc_rexmits := 0 |>, cc, (win, rtt))
  end.

(** [mtp_set_rate] *)
Definition mtp_set_rate (e : bpf_cc) (new_rate : Z) : bpf_cc := e <| cc_rate := new_rate |>.

(** [set_tx_rate_ep] *)
Definition set_tx_rate_ep (c : ctl_conn) (cc : cc_dctcp_wnd) (e : bpf_cc) (out : Z * Z)
  : option (ctl_conn * cc_dctcp_wnd * bpf_cc) :=
  let '(win, rtt) := out in
  let time := 8 * win / 25 in
  let time := if time <? rtt ⊗ 1000 then rtt ⊗ 1000 else time in
  if time =? 0 then None else
  let rate := win * 8 * 1000000 / time in
  let rate := if rate >? UINT32_MAX then UINT32_MAX else rate in
  let c := c <| ctl_cc_rate := rate |> in
  let cc := cc <| dw_window := win |> in
  let v := 125 * ctl_cc_rate c in
  if v >? UINT32_MAX then None else
  Some (c, cc, mtp_set_rate e (if v >? 3125000000 then 3125000000 else v)).

(** [ack_timeout_ep]; [cur_ts] is [cycles_to_us] of the event's clock. *)
Definition ack_timeout_ep (c : ctl_conn) (cur_ts : Z) : ctl_conn * bool :=
  let rtt := if nz (ctl_rtt_est c) then ctl_rtt_est c else TCP_RTT_INIT in
  if nz (ctl_txp c) && (ctl_cnt_rx_ack_bytes c =? 0) then
    let pending := cnt_tx_pending c in
    let c := c <| cnt_tx_pending := pending ⊕ 1 |> in
    if pending =? 0 then (c <| ts_tx_pending := cur_ts |>, false)
    else if (cnt_tx_pending c >=? REXMIT_INTS)
            && (cur_ts ⊖ ts_tx_pending c >=? Z.max (REXMIT_INTS ⊗ rtt) TCP_RTO_MIN)
    then (c <| cnt_tx_pending := 0 |> <| cc_rexmits := cc_rexmits c ⊕ 1 |>, true)
    else (c, false)
  else (c <| cnt_tx_pending := 0 |>, false).

(** The body of [poll_tcp_cc_to] for one open connection in the MTP build. *)
Definition mtp_poll_cc_one (cycles_to_us : Z -> Z) (c : ctl_conn) (cc : cc_dctcp_wnd)
  (e : bpf_cc) (curr_tsc t_us : Z) : option (ctl_conn * cc_dctcp_wnd * bpf_cc * bool) :=
  if t_us <? cc_last_rtt c * CC_INTERVAL_RTT then Some (c, cc, e, false) else
  let '(ev_curr_tsc, c) := mtp_snapshot_cc curr_tsc c e in
  match slows_congc_ep c cc with
  | None => None
  | Some (c, cc, int_out) =>
    match set_tx_rate_ep c cc e int_out with
    | None => None
    | Some (c, cc, e) =>
      let '(c, sent) := ack_timeout_ep c (cycles_to_us ev_curr_tsc) in
      Some (c <| cc_last_tsc := curr_tsc |>, cc, e, sent)
    end
  end.

(** The initial state [tcp_open], [tcp_accept] and [reg_tcp_conn_ebpf] set up. *)
Definition cc_dctcp_wnd_init : cc_dctcp_wnd := mk_cc_dctcp_wnd 0 (2 * 1448) true.

(** ** Window-based DCTCP: the window and the rate stay in range *)

Definition stats_wf (s : bpf_cc_snapshot) : Prop :=
  in16 (c_drops s) /\ in32 (c_ackb s) /\ in32 (c_ecnb s) /\ 0 <= c_rtt s <= TCP_MAX_RTT.

Definition wnd_inv (c : ctl_conn) (cc : cc_dctcp_wnd) : Prop :=
  1448 <= dw_window cc <= ctl_tx_buf_size c /\ in32 (ctl_tx_buf_size c) /\
  in32 (dw_ecn_rate cc) /\ in32 (cc_rexmits c).

Lemma div_bound (a b q : Z) : 0 < b -> a <= q * b -> a / b <= q.
Proof. intros Hb H. apply Z.div_le_upper_bound; nia. Qed.

Lemma window_to_rate_bounds (w rtt : Z) :
  1448 <= w -> in32 w -> 0 < rtt <= TCP_MAX_RTT ->
  exists r, window_to_rate w rtt = Some r /\ 0 < r <= 25060000 /\ r * rtt <= 8000 * w.
Proof.
  unfold window_to_rate, TCP_MAX_RTT, in32. intros Hw Hw' Hr.
  rewrite (u32_small (rtt * 1000)) by (unfold in32; lia).
  set (t := if 8 * w / 25 <? rtt * 1000 then rtt * 1000 else 8 * w / 25).
  assert (Ht : 8 * w / 25 <= t /\ rtt * 1000 <= t /\ t <= Z.max (8 * w / 25) (rtt * 1000))
    by (subst t; destruct (Z.ltb_spec (8 * w / 25) (rtt * 1000)); lia).
  clearbody t. destruct (Z.eqb_spec t 0) as [E|_]; [lia|].
  assert (Hup : w * 8 * 1000000 / t <= 25060000) by (apply div_bound; lia).
  assert (Hlo : 0 < w * 8 * 1000000 / t) by (apply Z.div_str_pos; lia).
  pose proof (Z.mul_div_le (w * 8 * 1000000) t ltac:(lia)).
  exists (w * 8 * 1000000 / t). split_and!; try lia.
  - f_equal. unfold UINT32_MAX. split_if; lia.
  - nia.
Qed.

Lemma set_cc_rate_bounds (r : Z) :
  0 < r <= 25060000 -> exists v, set_cc_rate r = Some v /\ 0 < v <= 3125000000 /\ v <= 125 * r.
Proof.
  unfold set_cc_rate, UINT32_MAX. intros H.
  destruct (Z.gtb_spec (125 * r) 4294967295); [lia|].
  eexists. split; [reflexivity|]. split_if; lia.
Qed.

(** The marked fraction [ecnb / ackb] is a fraction of UINT32_MAX, and no step
    of the moving average leaves 64 bits. *)
Lemma ecn_ewma_mean (old ecnb ackb : Z) :
  in32 old -> 0 <= ecnb <= ackb -> 0 < ackb ->
  let m := ecnb * UINT32_MAX / ackb in
  0 <= m <= UINT32_MAX /\ Z.min old m - 1 <= ecn_ewma old ecnb ackb <= Z.max old m.
Proof.
  intros Ho He Ha m. unfold ecn_ewma, CC_DCTCP_WEIGHT. unfold in32 in Ho.
  assert (Hm : 0 <= m <= UINT32_MAX).
  { subst m. unfold UINT32_MAX. split; [apply Z.div_pos; lia|apply div_bound; nia]. }
  fold m. clearbody m. split; [done|]. revert Hm. unfold UINT32_MAX, u32, u64. intros Hm.
  rewrite (Z.mod_small (m * _)), (Z.mod_small (old * _)) by lia.
  rewrite (Z.mod_small (_ + _)) by lia.
  rewrite Z.mod_small; lia.
Qed.

(** The window after the clamps to one segment and the send buffer. *)
Notation clamped c w := (Z.min (ctl_tx_buf_size c) (Z.max 1448 w)).

Lemma clamp_eq (w b : Z) : 1448 <= b ->
  (if (if w <? 1448 then 1448 else w) >? b then b else if w <? 1448 then 1448 else w)
  = Z.min b (Z.max 1448 w).
Proof. intros. repeat split_if; bool_props; lia. Qed.

(** The reaction to loss, to marks and to their absence, before the clamps. *)
Definition wnd_reaction (c : ctl_conn) (cc : cc_dctcp_wnd) (s : bpf_cc_snapshot)
  (ss : bool) (w : Z) : Prop :=
  let win := dw_window cc in
  let lost := 0 < c_drops s \/ 0 < cc_rexmits c in
  (lost -> ss = false /\ w = win / 2) /\
  (~ lost -> 0 < c_ecnb s -> ss = false /\ win / 2 <= w <= win) /\
  (~ lost -> c_ecnb s = 0 -> ss = dw_slowstart cc /\ win <= w /\
     let incr := if dw_slowstart cc then c_ackb s else c_ackb s * 1448 / win in
     (win + incr < 4294967296 -> w = win + incr)).

Lemma ecn_scale_bounds (v e : Z) : in32 v -> in32 e -> v / 2 <= ecn_scale v e <= v.
Proof.
  unfold in32, ecn_scale, UINT32_MAX. intros Hv He.
  assert (Hk : 2147483648 <= 4294967295 - e / 2 <= 4294967295) by lia.
  set (k := 4294967295 - e / 2) in *. clearbody k. split.
  - apply Z.div_le_lower_bound; [lia|]. pose proof (Z.mul_div_le v 2 ltac:(lia)). nia.
  - apply div_bound; nia.
Qed.

(** The part of [dctcp_wnd_cc] before the clamps: window, state, statistics. *)
Lemma dctcp_wnd_cc_eq (c : ctl_conn) (cc : cc_dctcp_wnd) (s : bpf_cc_snapshot) :
  wnd_inv c cc -> stats_wf s ->
  let rtt := if c_rtt s =? 0 then TCP_RTT_INIT else c_rtt s in
  exists w e ss s',
    in32 w /\ in32 e /\ wnd_reaction c cc s ss w /\
    dctcp_wnd_cc c cc s =
      match window_to_rate (clamped c w) rtt with
      | Some rate =>
        Some (c <| cc_last_rtt := rtt |> <| ctl_cc_rate := rate |> <| cc_rexmits := 0 |>,
              mk_cc_dctcp_wnd e (clamped c w) ss, s')
      | None => None
      end.
Proof.
  intros (Hw & Hb & He & Hx) (Hd & Ha & Hc & Hr) rtt. unfold dctcp_wnd_cc.
  destruct (Z.ltb_spec (dw_window cc) 1448); [lia|]. fold rtt. clearbody rtt. cbn.
  destruct cc as [e win ss]. cbn in *.
  assert (Hwin : in32 win) by (unfold in32 in *; lia).
  assert (Hadd : forall i, 0 <= i -> exists w, in32 w /\ win <= w /\
      (win + i < 4294967296 -> w = win + i) /\
      (if u32 (win + i) >? win then u32 (win + i) else win) = w).
  { intros i Hi. eexists. split_and!; [..|reflexivity]; destruct (Z.gtb_spec (u32 (win + i)) win);
      unfold in32, u32 in *; lia. }
  assert (Hpos : 0 <= c_ackb s * 1448 / win) by (unfold in32 in *; apply Z.div_pos; lia).
  assert (Hew : forall b a, in32 (ecn_ewma e b a)).
  { intros. unfold ecn_ewma, in32, u32. apply Z.mod_pos_bound. lia. }
  assert (Hcut : forall e', in32 e' -> win / 2 <= u32 (ecn_scale win e') <= win).
  { intros e' He'. pose proof (ecn_scale_bounds win e' Hwin He').
    rewrite u32_small; unfold in32 in *; lia. }
  destruct (ss && ((c_drops s =? 0) && (c_ecnb s =? 0) && (cc_rexmits c =? 0))) eqn:Q.
  { (* slow start goes on *)
    apply andb_prop in Q as [-> Q]. rewrite Q. cbn. bool_props.
    destruct (Hadd (c_ackb s)) as (w & Hw32 & Hge & Heq & ->); [unfold in32 in *; lia|].
    rewrite clamp_eq by lia. exists w, e, true, s. split_and!; try done.
    unfold wnd_reaction; cbn. split_and!; intros; try lia. }
  match goal with |- context [let '(_, _) := ?b in _] =>
    replace b with (win, mk_cc_dctcp_wnd e win false)
      by (destruct ss; [rewrite andb_true_l in Q; rewrite Q|]; reflexivity) end.
  cbn. destruct ((c_drops s >? 0) || (cc_rexmits c >? 0)) eqn:L; cbn.
  { rewrite clamp_eq by lia. exists (win / 2), e, false, s. unfold in32 in *.
    split_and!; try done; try lia. unfold wnd_reaction; cbn.
    split_and!; intros; bool_props; lia. }
  apply orb_false_iff in L as [L1 L2].
  assert (Hss : c_ecnb s = 0 -> ss = false).
  { intros E0. destruct ss; [|done]. bool_props. unfold in16, in32 in *.
    exfalso. rewrite E0 in Q. cbn in Q. lia. }
  set (b := if c_ecnb s <=? c_ackb s then c_ecnb s else c_ackb s).
  assert (Hbc : 0 < c_ackb s -> b > 0 <-> c_ecnb s > 0).
  { subst b. split_if; bool_props; lia. }
  assert (Hmark : forall e', in32 e' -> 0 < c_ecnb s -> in32 (u32 (ecn_scale win e')) /\
      wnd_reaction c (mk_cc_dctcp_wnd e win ss) s false (u32 (ecn_scale win e'))).
  { intros e' He' Hc0. pose proof (Hcut e' He'). unfold wnd_reaction, in32 in *; cbn.
    split_and!; intros; bool_props; lia. }
  destruct (Hadd (c_ackb s * 1448 / win) Hpos) as (w & Hw32 & Hge & Heq & Ew).
  assert (Hplain : c_ecnb s = 0 -> wnd_reaction c (mk_cc_dctcp_wnd e win ss) s false w).
  { intros E0. rewrite (Hss E0). unfold wnd_reaction; cbn. split_and!; intros; bool_props; lia. }
  destruct (Z.eqb_spec win 0) as [|_]; [lia|].
  destruct (Z.gtb_spec (c_ackb s) 0) as [Ha0|Ha0]; cbn.
  - destruct (Z.gtb_spec b 0) as [Hb0|Hb0]; [destruct (Hmark (ecn_ewma e b (c_ackb s)))|];
      try rewrite Ew; rewrite ?clamp_eq by lia; try done; try lia.
    + eexists _, _, false, _. split_and!; [| | |reflexivity]; cbn; eauto.
    + exists w, (ecn_ewma e b (c_ackb s)), false, (s <| c_ecnb := b |>). split_and!; eauto.
      apply Hplain. unfold in32 in *. lia.
  - destruct (Z.gtb_spec (c_ecnb s) 0) as [Hb0|Hb0]; [destruct (Hmark e)|];
      try rewrite Ew; rewrite ?clamp_eq by lia; try done; try lia.
    + eexists _, _, false, _. split_and!; [| | |reflexivity]; cbn; eauto.
    + exists w, e, false, s. split_and!; try done. apply Hplain. unfold in32 in *. lia.
Qed.

(** Totality and range of the window controller. *)
Lemma dctcp_wnd_cc_total (c : ctl_conn) (cc : cc_dctcp_wnd) (s : bpf_cc_snapshot) :
  wnd_inv c cc -> stats_wf s ->
  exists c' cc' s' w v,
    dctcp_wnd_cc c cc s = Some (c', cc', s') /\ wnd_inv c' cc' /\
    wnd_reaction c cc s (dw_slowstart cc') w /\ dw_window cc' = clamped c w /\
    set_cc_rate (ctl_cc_rate c') = Some v /\ 0 < v <= 3125000000 /\
    v * cc_last_rtt c' <= 1000000 * dw_window cc'.
Proof.
  intros Hi Hs. destruct (dctcp_wnd_cc_eq c cc s Hi Hs) as (w & e & ss & s' & Hw & He & Hre & ->).
  destruct Hi as (Hwin & Hb & _ & _), Hs as (_ & _ & _ & Hr).
  set (rtt := if c_rtt s =? 0 then _ else _).
  assert (Hrtt : 0 < rtt <= TCP_MAX_RTT).
  { subst rtt. unfold TCP_RTT_INIT, TCP_MAX_RTT in *. split_if; bool_props; lia. }
  clearbody rtt. unfold in32 in *.
  destruct (window_to_rate_bounds (clamped c w) rtt) as (r & -> & Hr0 & Hr1);
    [unfold in32; lia..|].
  destruct (set_cc_rate_bounds r Hr0) as (v & Hv & Hv0 & Hv1).
  eexists _, _, s', w, v. split; [reflexivity|]. unfold wnd_inv, in32; cbn.
  split_and!; try done; nia.
Qed.

(** C24. The window controller is total and its state stays in range.  From a
    window between one segment and the send buffer no assertion fails, the new
    window is in the same range and is the specified reaction to loss, marks or
    their absence, and the rate written to the map is positive, at most
    25 Gbps, and sends at most one window per round-trip time. *)
Theorem dctcp_wnd_cc_safe (c : ctl_conn) (cc : cc_dctcp_wnd) (s : bpf_cc_snapshot) :
  wnd_inv c cc -> stats_wf s ->
  exists c' cc' s' w v,
    dctcp_wnd_cc c cc s = Some (c', cc', s') /\ wnd_inv c' cc' /\
    wnd_reaction c cc s (dw_slowstart cc') w /\ dw_window cc' = clamped c w /\
    set_cc_rate (ctl_cc_rate c') = Some v /\ 0 < v <= 3125000000 /\
    v * cc_last_rtt c' <= 1000000 * dw_window cc'.
Proof. apply dctcp_wnd_cc_total. Qed.

Definition ctl_ex : ctl_conn :=
  mk_ctl_conn 524288 0 50 0 0 0 0 463360 0 0 0 0 0 0 0 0 0 0 0.

Lemma dctcp_wnd_cc_safe_witness :
  exists c' cc' s' w v,
    dctcp_wnd_cc ctl_ex cc_dctcp_wnd_init (mk_bpf_cc_snapshot 0 2 2896 0 true 40)
      = Some (c', cc', s') /\ wnd_inv c' cc' /\
    wnd_reaction ctl_ex cc_dctcp_wnd_init (mk_bpf_cc_snapshot 0 2 2896 0 true 40)
      (dw_slowstart cc') w /\ dw_window cc' = clamped ctl_ex w /\
    set_cc_rate (ctl_cc_rate c') = Some v /\ 0 < v <= 3125000000 /\
    v * cc_last_rtt c' <= 1000000 * dw_window cc'.
Proof.
  apply (dctcp_wnd_cc_safe ctl_ex cc_dctcp_wnd_init (mk_bpf_cc_snapshot 0 2 2896 0 true 40));
    unfold wnd_inv, stats_wf, in32, in16, TCP_MAX_RTT; cbn; lia.
Defined.

(** ** The MTP event processors compute the window and rate of the eTran loop *)

(** What both builds keep of the congestion state; the MTP build does not
    maintain [cc_last_acks]. *)
Definition cc_view (c : ctl_conn) : Z * Z * Z * Z * Z * Z * Z :=
  (cc_last_tsc c, cc_last_rtt c, cc_last_drops c, cc_last_ackb c, cc_last_ecnb c,
   ctl_cc_rate c, ctl_tx_buf_size c).

Definition etran_view (r : ctl_conn * cc_data * bpf_cc * bool) :=
  let '(c, d, e, _) := r in (cc_view c, d, e).

Definition mtp_view (r : ctl_conn * cc_dctcp_wnd * bpf_cc * bool) :=
  let '(c, cc, e, _) := r in (cc_view c, CC_DCTCP_WND cc, e).

(** The window computation both builds share, on plain numbers: the result is
    the window before the clamps, the ECN average, the slow-start flag and the
    marked bytes. *)
Definition wnd_core (er win : Z) (ss : bool) (drops ackb ecnb rex : Z)
  : option (Z * Z * bool * Z) :=
  let quiet := (drops =? 0) && (ecnb =? 0) && (rex =? 0) in
  if ss && quiet then Some (if win ⊕ ackb >? win then win ⊕ ackb else win, er, true, ecnb) else
  if (drops >? 0) || (rex >? 0) then Some (win / 2, er, false, ecnb) else
  let b := if ecnb <=? ackb then ecnb else ackb in
  let '(er, ecnb) := if ackb >? 0 then (ecn_ewma er b ackb, b) else (er, ecnb) in
  if ecnb >? 0 then Some (u32 (ecn_scale win er), er, false, ecnb) else
  if win =? 0 then None else
  let incr := ackb * 1448 / win in
  Some (if u32 (win + incr) >? win then u32 (win + incr) else win, er, false, ecnb).

Definition wnd_clamp (b w : Z) : Z :=
  if (if w <? 1448 then 1448 else w) >? b then b else if w <? 1448 then 1448 else w.

Lemma dctcp_wnd_cc_core (c : ctl_conn) (cc : cc_dctcp_wnd) (s : bpf_cc_snapshot) :
  dctcp_wnd_cc c cc s =
  if dw_window cc <? 1448 then None else
  let rtt := if c_rtt s =? 0 then TCP_RTT_INIT else c_rtt s in
  match wnd_core (dw_ecn_rate cc) (dw_window cc) (dw_slowstart cc) (c_drops s) (c_ackb s)
          (c_ecnb s) (cc_rexmits c) with
  | None => None
  | Some (w, er, ss, ecnb) =>
    let w := wnd_clamp (ctl_tx_buf_size c) w in
    match window_to_rate w rtt with
    | None => None
    | Some r =>
      Some (c <| cc_last_rtt := rtt |> <| ctl_cc_rate := r |> <| cc_rexmits := 0 |>,
            mk_cc_dctcp_wnd er w ss, s <| c_ecnb := ecnb |>)
    end
  end.
Proof.
  unfold dctcp_wnd_cc, wnd_core. destruct (_ <? 1448); [reflexivity|].
  destruct cc as [er win ss], s as [dr ak ab eb tx rt]. cbn.
  destruct ss, ((dr =? 0) && (eb =? 0) && (cc_rexmits c =? 0)), ((dr >? 0) || (cc_rexmits c >? 0));
    cbn; try reflexivity.
  all: destruct (ab >? 0); cbn; [destruct ((if eb <=? ab then eb else ab) >? 0)|destruct (eb >? 0)];
    cbn; try reflexivity.
  all: destruct (win =? 0); reflexivity.
Qed.

(** The fields the rest of the MTP chain reads. *)
Definition slow_view (c : ctl_conn) :=
  ((cc_last_tsc c, cc_last_rtt c, cc_last_drops c, cc_last_ackb c, cc_last_ecnb c,
    ctl_tx_buf_size c),
   (ctl_cnt_rx_ack_bytes c, ctl_txp c, ctl_rtt_est c, cnt_tx_pending c, ts_tx_pending c,
    cc_rexmits c)).

Lemma slows_congc_core (c : ctl_conn) (cc : cc_dctcp_wnd) :
  let drops := u16 (ctl_cnt_tx_drops c - cc_last_drops c) in
  let ackb := ctl_cnt_rx_ack_bytes c ⊖ cc_last_ackb c in
  let ecnb := ctl_cnt_rx_ecn_bytes c ⊖ cc_last_ecnb c in
  let rtt := if ctl_rtt_est c =? 0 then TCP_RTT_INIT else ctl_rtt_est c in
  option_map (fun '(c', cc', out) => (slow_view c', cc', out)) (slows_congc_ep c cc) =
  if dw_window cc <? 1448 then None else
  match wnd_core (dw_ecn_rate cc) (dw_window cc) (dw_slowstart cc) drops ackb ecnb
          (cc_rexmits c) with
  | None => None
  | Some (w, er, ss, _) =>
    Some (((cc_last_tsc c, rtt, ctl_cnt_tx_drops c, ctl_cnt_rx_ack_bytes c,
            ctl_cnt_rx_ecn_bytes c, ctl_tx_buf_size c),
           (ackb, ctl_txp c, ctl_rtt_est c, cnt_tx_pending c, ts_tx_pending c, 0)),
          mk_cc_dctcp_wnd er (dw_window cc) ss, (wnd_clamp (ctl_tx_buf_size c) w, rtt))
  end.
Proof.
  unfold slows_congc_ep, wnd_core. destruct (_ <? 1448); [reflexivity|].
  destruct cc as [er win ss]. cbn.
  set (dr := u16 _). set (ab := u32 (ctl_cnt_rx_ack_bytes c - _)).
  set (eb := u32 (ctl_cnt_rx_ecn_bytes c - _)). set (rtt := if _ =? 0 then _ else _).
  clearbody dr ab eb rtt.
  destruct ss, ((dr =? 0) && (eb =? 0) && (cc_rexmits c =? 0)), ((dr >? 0) || (cc_rexmits c >? 0));
    cbn; try reflexivity.
  all: destruct (ab >? 0); cbn; [destruct ((if eb <=? ab then eb else ab) >? 0)|destruct (eb >? 0)];
    cbn; try reflexivity.
  all: destruct (win =? 0); reflexivity.
Qed.

Lemma set_tx_rate_eq (c : ctl_conn) (cc : cc_dctcp_wnd) (e : bpf_cc) (win rtt : Z) :
  set_tx_rate_ep c cc e (win, rtt) =
  match window_to_rate win rtt with
  | None => None
  | Some r =>
    match set_cc_rate r with
    | None => None
    | Some v => Some (c <| ctl_cc_rate := r |>, cc <| dw_window := win |>, e <| cc_rate := v |>)
    end
  end.
Proof.
  unfold set_tx_rate_ep, window_to_rate, set_cc_rate, mtp_set_rate.
  destruct ((if _ <? _ then _ else 8 * win / 25) =? 0); [reflexivity|]. cbn.
  set (r := if _ >? UINT32_MAX then UINT32_MAX else _). clearbody r.
  by destruct (_ >? UINT32_MAX).
Qed.

Lemma handle_retransmission_view (c : ctl_conn) (s : bpf_cc_snapshot) (t : Z) (i : bool) :
  cc_view (fst (handle_retransmission c s t i)) = cc_view c.
Proof. unfold handle_retransmission. repeat split_if; reflexivity. Qed.

Lemma ack_timeout_view (c : ctl_conn) (t : Z) : cc_view (fst (ack_timeout_ep c t)) = cc_view c.
Proof. unfold ack_timeout_ep. repeat split_if; reflexivity. Qed.

(** C23. The chain [slows_congc_ep], [set_tx_rate_ep] of the MTP build is the
    window-based DCTCP of eTran: for every state of the connection and of the
    shared map entry it stops at an assertion exactly when eTran does and
    otherwise leaves the same window, ECN average, slow-start flag, counters of
    drops, bytes and marks, rate and map entry.  Not compared are
    [cc_last_acks], which the MTP build does not keep, and [cc_rexmits]. *)
Theorem mtp_cc_matches_etran (cycles_to_us : Z -> Z) (c : ctl_conn) (cc : cc_dctcp_wnd)
  (e : bpf_cc) (curr_tsc cur_ts t_us : Z) (issued : bool) :
  option_map etran_view (poll_cc_one c (CC_DCTCP_WND cc) e curr_tsc cur_ts t_us issued)
  = option_map mtp_view (mtp_poll_cc_one cycles_to_us c cc e curr_tsc t_us).
Proof.
  unfold poll_cc_one, mtp_poll_cc_one. destruct (t_us <? _); [reflexivity|].
  assert (Hf : exists c2, mtp_snapshot_cc curr_tsc c e = (cc_ev_curr_tsc e, c2) /\
    (ctl_cnt_tx_drops c2, ctl_cnt_rx_ack_bytes c2, ctl_cnt_rx_ecn_bytes c2, ctl_rtt_est c2,
     ctl_txp c2) = (cc_cnt_tx_drops e, cc_cnt_rx_ack_bytes e, cc_cnt_rx_ecn_bytes e,
     cc_rtt_est e, cc_txp e) /\
    (cc_last_drops c2, cc_last_ackb c2, cc_last_ecnb c2, cc_rexmits c2, ctl_tx_buf_size c2)
    = (cc_last_drops c, cc_last_ackb c, cc_last_ecnb c, cc_rexmits c, ctl_tx_buf_size c))
    by (eexists; split_and!; reflexivity).
  destruct Hf as (c2 & -> & Hf & Hg). injection Hf as F1 F2 F3 F4 F5.
  injection Hg as G1 G2 G3 G4 G5.
  pose proof (slows_congc_core c2 cc) as Hs. cbn zeta in Hs.
  rewrite F1, F2, F3, F4, F5, G1, G2, G3, G4, G5 in Hs.
  unfold run_algorithm, cc_difference, snapshot_cc. cbn match.
  rewrite dctcp_wnd_cc_core. cbn.
  destruct (_ <? 1448); [by destruct (slows_congc_ep c2 cc)|].
  destruct (wnd_core _ _ _ _ _ _ _) as [[[[w er] ss] ecnb]|];
    [|by destruct (slows_congc_ep c2 cc)].
  destruct (slows_congc_ep c2 cc) as [[[c3 cc3] out]|]; [|done].
  cbn in Hs. injection Hs as H1 H2 H3 H4 H5 H6 H7 H8 H9 H10 H11 H12 -> ->.
  rewrite set_tx_rate_eq. destruct (window_to_rate _ _) as [r|]; [|reflexivity]. cbn.
  destruct (set_cc_rate r) as [v|]; [|reflexivity]. cbn.
  match goal with |- context [handle_retransmission ?c ?s ?t ?i] =>
    pose proof (handle_retransmission_view c s t i) as V1;
    destruct (handle_retransmission c s t i) as [c4 b4] end.
  match goal with |- context [ack_timeout_ep ?c ?t] =>
    pose proof (ack_timeout_view c t) as V2; destruct (ack_timeout_ep c t) as [c5 b5] end.
  unfold cc_view in *. cbn in *. injection V1 as A1 A2 A3 A4 A5 A6 A7.
  injection V2 as B1 B2 B3 B4 B5 B6 B7.
  unfold cc_view. cbn. rewrite A2, A3, A4, A5, A6, A7, B2, B3, B4, B5, B6, B7, H2, H3, H4, H5, H6.
  reflexivity.
Qed.

(** ** Retransmission timeouts *)

(** The retransmission timeout, in microseconds. *)
Definition rto (rtt : Z) : Z := Z.max (REXMIT_INTS ⊗ (if nz rtt then rtt else TCP_RTT_INIT)) TCP_RTO_MIN.

(** Consecutive runs of [handle_retransmission] at the given times, all with
    unacknowledged data and no acknowledgment since the run before. *)
Fixpoint idle_runs (c : ctl_conn) (s : bpf_cc_snapshot) (ts : list Z) : list bool :=
  match ts with
  | [] => []
  | t :: ts =>
    let '(c, sent) := handle_retransmission c s t true in sent :: idle_runs c s ts
  end.

Lemma handle_retransmission_idle (c : ctl_conn) (s : bpf_cc_snapshot) (t : Z) :
  c_txp s = true -> c_ackb s = 0 -> 0 < cnt_tx_pending c < 4294967295 ->
  let '(c', sent) := handle_retransmission c s t true in
  if (cnt_tx_pending c + 1 >=? REXMIT_INTS) && (t ⊖ ts_tx_pending c >=? rto (c_rtt s))
  then sent = true
  else sent = false /\ cnt_tx_pending c' = cnt_tx_pending c + 1 /\
       ts_tx_pending c' = ts_tx_pending c.
Proof.
  intros Ht Ha Hc. unfold handle_retransmission, rto. rewrite Ht, Ha. cbn.
  rewrite (u32_small (cnt_tx_pending c + 1)) by (unfold in32; lia).
  destruct (Z.eqb_spec (cnt_tx_pending c) 0); [lia|].
  by destruct ((_ >=? REXMIT_INTS) && _).
Qed.

Lemma idle_runs_fire (s : bpf_cc_snapshot) (t : Z) (mid : list Z) (c : ctl_conn) :
  c_txp s = true -> c_ackb s = 0 -> 0 < cnt_tx_pending c ->
  REXMIT_INTS <= cnt_tx_pending c + Z.of_nat (length mid) + 1 < 4294967296 ->
  rto (c_rtt s) <= t ⊖ ts_tx_pending c -> In true (idle_runs c s (mid ++ [t])).
Proof.
  intros Ht Ha. revert c. induction mid as [|t1 mid IH]; intros c Hc Hn Hr; cbn in *.
  - pose proof (handle_retransmission_idle c s t Ht Ha ltac:(lia)) as H.
    destruct (handle_retransmission c s t true) as [c' sent].
    replace (_ && _) with true in H by (symmetry; apply andb_true_intro; split; lia). by left.
  - pose proof (handle_retransmission_idle c s t1 Ht Ha ltac:(lia)) as H.
    destruct (handle_retransmission c s t1 true) as [c' sent].
    destruct (_ && _); [by left|]. destruct H as (_ & Hc' & Hts). right.
    apply IH; rewrite ?Hc', ?Hts; lia.
Qed.

(** In the eTran loop a stalled connection is retransmitted: when data is
    pending and nothing is acknowledged over at least REXMIT_INTS consecutive
    runs, and the last one is a full timeout after the first, one of the runs
    issues the retransmission. *)
Theorem etran_rto_fires (c : ctl_conn) (s : bpf_cc_snapshot) (t0 t : Z) (mid : list Z) :
  cnt_tx_pending c = 0 -> c_txp s = true -> c_ackb s = 0 ->
  REXMIT_INTS <= Z.of_nat (length mid) + 2 < 4294967296 -> rto (c_rtt s) <= t ⊖ t0 ->
  In true (idle_runs c s (t0 :: mid ++ [t])).
Proof.
  intros Hc Ht Ha Hn Hr. cbn. unfold handle_retransmission at 1. rewrite Ht, Ha, Hc. cbn.
  right. apply idle_runs_fire; cbn; change (0 ⊕ 1) with 1; lia || done.
Qed.

Lemma etran_rto_fires_witness :
  In true (idle_runs ctl_ex (mk_bpf_cc_snapshot 0 0 0 0 true 100) (1000 :: [1200; 1400] ++ [5000])).
Proof.
  apply (etran_rto_fires ctl_ex (mk_bpf_cc_snapshot 0 0 0 0 true 100) 1000 5000 [1200; 1400]);
    vm_compute; try done; split; discriminate || reflexivity.
Defined.

(** The states of a connection in the MTP loop.  No code writes the event of
    the map entry, so it holds the zero of the freshly created map. *)
Inductive mtp_ctl_reach (cycles_to_us : Z -> Z) : ctl_conn -> Prop :=
| mtp_ctl_init c : cnt_tx_pending c = 0 -> mtp_ctl_reach cycles_to_us c
| mtp_ctl_step c cc e tsc t c' cc' e' sent :
    mtp_ctl_reach cycles_to_us c -> cc_ev_curr_tsc e = 0 ->
    mtp_poll_cc_one cycles_to_us c cc e tsc t = Some (c', cc', e', sent) ->
    mtp_ctl_reach cycles_to_us c'.

Definition pending_view (c : ctl_conn) : Z * Z := (cnt_tx_pending c, ts_tx_pending c).

Lemma mtp_poll_pending (f : Z -> Z) c cc e tsc t c' cc' e' sent :
  mtp_poll_cc_one f c cc e tsc t = Some (c', cc', e', sent) ->
  (pending_view c' = pending_view c /\ sent = false) \/
  exists c3, pending_view c3 = pending_view c /\
    (pending_view c', sent) =
    (pending_view (fst (ack_timeout_ep c3 (f (cc_ev_curr_tsc e)))),
     snd (ack_timeout_ep c3 (f (cc_ev_curr_tsc e)))).
Proof.
  unfold mtp_poll_cc_one. destruct (t <? _); [intros [= <- _ _ <-]; by left|].
  assert (Hf : exists c2, mtp_snapshot_cc tsc c e = (cc_ev_curr_tsc e, c2) /\
    pending_view c2 = pending_view c) by (eexists; split; reflexivity).
  destruct Hf as (c2 & -> & <-).
  pose proof (slows_congc_core c2 cc) as Hs. cbn zeta in Hs.
  destruct (slows_congc_ep c2 cc) as [[[c3 cc3] [w r]]|]; [|done].
  rewrite set_tx_rate_eq. destruct (window_to_rate w r) as [rate|]; [|done].
  destruct (set_cc_rate rate) as [v|]; [|done].
  destruct (_ <? 1448); [done|]. destruct (wnd_core _ _ _ _ _ _ _) as [[[[w' er] ss] ecnb]|]; [|done].
  cbn in Hs. injection Hs as _ _ _ _ _ _ _ _ _ Hp Ht _ _ _ _.
  intros H. right. exists (c3 <| ctl_cc_rate := rate |>).
  split; [unfold pending_view; cbn; congruence|].
  destruct (ack_timeout_ep _ _) as [c5 b5]. by injection H as <- _ _ <-.
Qed.

Lemma ack_timeout_stuck (c : ctl_conn) :
  cnt_tx_pending c = 0 \/ ts_tx_pending c = 0 ->
  snd (ack_timeout_ep c 0) = false /\
  let c' := fst (ack_timeout_ep c 0) in cnt_tx_pending c' = 0 \/ ts_tx_pending c' = 0.
Proof.
  intros H. unfold ack_timeout_ep. destruct (_ && _); cbn; [|auto].
  destruct (Z.eqb_spec (cnt_tx_pending c) 0) as [E|E]; cbn; [auto|].
  destruct H as [H|H]; [done|]. rewrite H. change (0 ⊖ 0) with 0.
  destruct (Z.geb_spec 0 (Z.max (REXMIT_INTS ⊗ (if nz (ctl_rtt_est c) then ctl_rtt_est c
    else TCP_RTT_INIT)) TCP_RTO_MIN)); [unfold TCP_RTO_MIN in *; lia|].
  rewrite andb_false_r. cbn. auto.
Qed.

Lemma mtp_ctl_reach_pending (f : Z -> Z) (c : ctl_conn) :
  f 0 = 0 -> mtp_ctl_reach f c -> cnt_tx_pending c = 0 \/ ts_tx_pending c = 0.
Proof.
  intros Hf. induction 1 as [|c cc e tsc t c' cc' e' sent _ IH He H]; [by left|].
  apply mtp_poll_pending in H. unfold pending_view in H. rewrite He, Hf in H.
  destruct H as [[[= -> ->] _]|(c3 & [= H1 H2] & [= H3 H4 _])]; [done|].
  rewrite H3, H4. apply ack_timeout_stuck. by rewrite H1, H2.
Qed.

(** In the MTP loop the retransmission timeout never fires:
    [mtp_snapshot_cc] replaces the clock reading of the event by the map
    entry's, which stays zero, so every timeout is measured from zero to zero. *)
Theorem mtp_rto_never_fires (cycles_to_us : Z -> Z) c cc e tsc t c' cc' e' sent :
  cycles_to_us 0 = 0 -> mtp_ctl_reach cycles_to_us c -> cc_ev_curr_tsc e = 0 ->
  mtp_poll_cc_one cycles_to_us c cc e tsc t = Some (c', cc', e', sent) -> sent = false.
Proof.
  intros Hf Hr He H. apply mtp_poll_pending in H. rewrite He, Hf in H.
  destruct H as [[_ ->]|(c3 & Hv & [= _ _ ->])]; [done|].
  injection Hv as H1 H2. apply ack_timeout_stuck. rewrite H1, H2. by eapply mtp_ctl_reach_pending.
Qed.

Lemma mtp_rto_never_fires_witness :
  exists c' cc' e' sent,
    mtp_poll_cc_one (fun x => x / 2400) ctl_ex cc_dctcp_wnd_init
      (mk_bpf_cc 0 0 0 0 0 0 100 1 0) 24000000 10000 = Some (c', cc', e', sent) /\ sent = false.
Proof.
  destruct (mtp_poll_cc_one (fun x => x / 2400) ctl_ex cc_dctcp_wnd_init
      (mk_bpf_cc 0 0 0 0 0 0 100 1 0) 24000000 10000) as [[[[c' cc'] e'] sent]|] eqn:E.
  - exists c', cc', e', sent. split; [reflexivity|].
    exact (mtp_rto_never_fires (fun x => x / 2400) ctl_ex cc_dctcp_wnd_init
      (mk_bpf_cc 0 0 0 0 0 0 100 1 0) 24000000 10000 c' cc' e' sent eq_refl
      (mtp_ctl_init _ ctl_ex eq_refl) eq_refl E).
  - apply (f_equal (fun o : option (ctl_conn * cc_dctcp_wnd * bpf_cc * bool) =>
      match o with Some _ => 1 | None => 0 end)) in E. vm_compute in E. discriminate.
Defined.

(** ** TIMELY *)

Definition timely_inv (cc : cc_timely) : Prop :=
  0 <= tm_rtt_prev cc <= TCP_MAX_RTT /\ - TCP_MAX_RTT <= tm_rtt_diff cc <= TCP_MAX_RTT.

Lemma timely_gradient_bounds (cc : cc_timely) (rtt : Z) :
  timely_inv cc -> 0 <= rtt <= TCP_MAX_RTT ->
  let '(cc', g) := timely_gradient cc rtt in
  tm_slowstart cc' = tm_slowstart cc /\ - TCP_MAX_RTT <= tm_rtt_diff cc' <= TCP_MAX_RTT /\
  g <= 300000000.
Proof.
  unfold timely_inv, timely_gradient, TCP_MAX_RTT. intros (Hp & Hd) Hr.
  destruct (nz _); [|split_and!; try done; lia]. cbn.
  set (nd := s32 (rtt - tm_rtt_prev cc)).
  assert (Hnd : -100000 <= nd <= 100000) by (subst nd; unfold s32, u32; lia).
  clearbody nd. set (d := tm_rtt_diff cc) in *. clearbody d.
  unfold s64, u64, s32, u32, INT32_MAX, CC_TIMELY_HALF_ALPHA, INT16_MAX, CC_TIMELY_MIN_RTT.
  set (x := (_ + 9223372036854775808) mod _ - 9223372036854775808).
  assert (Hx : -214748364700000 <= x <= 214748364700000) by (subst x; lia).
  clearbody x. set (q := Z.quot x 2147483647).
  assert (Hq : -100000 <= q <= 100000) by (subst q; Z.to_euclidean_division_equations; lia).
  clearbody q. rewrite Z.mod_small by lia.
  split_and!; try done; Z.to_euclidean_division_equations; lia.
Qed.

(** One step never overflows; it raises the rate by a bounded amount, and not
    at all when the RTT is above the high threshold. *)
Lemma timely_step_bounds (cc : cc_timely) (rate rtt g : Z) :
  0 <= rate -> rate + 50000 <= UINT32_MAX -> 0 < rtt <= TCP_MAX_RTT -> g <= 300000000 ->
  exists cc' rate', timely_step cc rate rtt g = Some (cc', rate') /\
    0 <= rate' <= Z.max MAX_LINK_BANDWIDTH (rate + 50000) /\
    (tm_slowstart cc = false -> CC_TIMELY_THIGH < rtt -> rate' <= rate) /\
    tm_rtt_prev cc' = tm_rtt_prev cc /\ tm_rtt_diff cc' = tm_rtt_diff cc.
Proof.
  unfold timely_step, UINT32_MAX, TCP_MAX_RTT, CC_TIMELY_THIGH, CC_TIMELY_TLOW,
    MAX_LINK_BANDWIDTH, CC_TIMELY_STEP. intros H0 Hr Hrtt Hg.
  destruct (tm_slowstart cc).
  { eexists _, _. split; [reflexivity|]. unfold u32. split_if; bool_props; split_and!; try done; lia. }
  destruct (Z.ltb_spec rtt 30).
  { eexists _, _. split; [reflexivity|]. unfold u32. cbn. split_and!; try done; lia. }
  destruct (Z.gtb_spec rtt 150).
  { eexists _, _. split; [reflexivity|].
    set (a := u32 (CC_TIMELY_BETA * _ / _)).
    assert (Ha : 0 <= 4294967295 ⊖ a <= 4294967295) by (unfold u32; lia).
    set (k := 4294967295 ⊖ a) in *. clearbody k.
    assert (0 <= rate * k / 4294967295 <= rate)
      by (split; [apply Z.div_pos; nia|apply div_bound; nia]).
    rewrite u32_small by (unfold in32; lia). cbn. split_and!; try done; lia. }
  destruct (Z.leb_spec g 0).
  { cbn. destruct (_ >=? 5); eexists _, _; (split; [reflexivity|]); unfold u32; cbn;
      split_and!; try done; lia. }
  unfold fits_s64, CC_TIMELY_HALF_BETA, INT16_MAX, INT32_MAX.
  destruct (negb _) eqn:F; [apply negb_true_iff, andb_false_iff in F; lia|].
  eexists _, _. split; [reflexivity|].
  set (b := Z.quot _ 32767).
  assert (Hb : 0 <= b) by (subst b; Z.to_euclidean_division_equations; lia).
  set (d := if b <=? 2147483647 then _ else 0).
  assert (Hd : 0 <= d <= 2147483647) by (subst d; split_if; lia).
  clearbody d. rewrite Z.quot_div_nonneg by nia.
  assert (0 <= rate * d / 2147483647 <= rate)
    by (split; [apply Z.div_pos; nia|apply div_bound; nia]).
  rewrite u32_small by (unfold in32; lia). cbn. split_and!; try done; lia.
Qed.

(** TIMELY is safe: while the RTT samples are in the range the data path
    accepts, no signed or narrowing operation overflows, the smoothed RTT
    difference stays in that range, the rate never falls below the minimum, one
    run raises it by at most a bounded step (or doubles it up to the link
    rate), and an RTT above the high threshold never raises it. *)
Theorem timely_cc_safe (c : ctl_conn) (cc : cc_timely) (s : bpf_cc_snapshot) (cur_ts act : Z) :
  timely_inv cc -> 0 <= c_rtt s <= TCP_MAX_RTT ->
  0 <= ctl_cc_rate c -> ctl_cc_rate c + 50000 <= UINT32_MAX ->
  timely_act_rate (c_ackb s) (tm_last_ts cc) cur_ts = Some act ->
  exists c' cc', timely_cc c cc s cur_ts = Some (c', cc') /\ timely_inv cc' /\
    (c_rtt s = 0 -> ctl_cc_rate c' = ctl_cc_rate c) /\
    (c_rtt s <> 0 -> CC_TIMELY_MIN_RATE <= ctl_cc_rate c'
                     <= Z.max MAX_LINK_BANDWIDTH (ctl_cc_rate c + 50000)) /\
    (CC_TIMELY_THIGH < c_rtt s -> ctl_cc_rate c' <= Z.max CC_TIMELY_MIN_RATE (ctl_cc_rate c)).
Proof.
  intros Hi Hr H0 Hmax Hact. unfold timely_cc. rewrite Hact.
  set (cc1 := cc <| tm_act_rate := _ |>).
  set (act' := if act >=? _ then _ else _).
  assert (Ha : 0 <= act' * 15 / 10) by (subst act' cc1; cbn; unfold u32; split_if; bool_props; lia).
  clearbody act'.
  assert (Hi1 : timely_inv cc1) by done. clearbody cc1. clear Hact Hi cc.
  destruct (Z.eqb_spec (c_rtt s) 0) as [E|E].
  { exists c, cc1. split_and!; try done. unfold CC_TIMELY_THIGH. lia. }
  cbn match. set (mid := (CC_TIMELY_TLOW + CC_TIMELY_THIGH) / 2).
  assert (Hmid : mid = 90) by reflexivity. clearbody mid.
  set (cc2 := if tm_slowstart cc1 && _ then _ else _).
  assert (H2 : timely_inv cc2 /\ (mid < c_rtt s -> tm_slowstart cc2 = false)).
  { subst cc2. destruct (tm_slowstart cc1 && (c_rtt s >? mid)) eqn:Q; [done|]. split; [done|].
    intros. destruct (tm_slowstart cc1); [|done]. cbn in Q. lia. }
  clearbody cc2. destruct H2 as (Hi2 & Hss2).
  set (cc3 := if _ && _ && _ then _ else cc2).
  assert (H3 : timely_inv cc3 /\ (mid < c_rtt s -> tm_slowstart cc3 = false)).
  { subst cc3. destruct (Z.leb_spec (c_rtt s) mid).
    - split; [split_if; done|lia].
    - by rewrite andb_false_r. }
  clearbody cc3. destruct H3 as (Hi3 & Hss3).
  set (c2 := if _ && _ then _ else c).
  assert (Hc2 : 0 <= ctl_cc_rate c2 <= ctl_cc_rate c).
  { subst c2. destruct (Z.gtb_spec (ctl_cc_rate c) (act' * 15 / 10)).
    - destruct (negb (tm_slowstart cc3)); cbn; lia.
    - rewrite andb_false_r. lia. }
  clearbody c2.
  pose proof (timely_gradient_bounds cc3 (c_rtt s) Hi3 Hr) as Hg.
  destruct (timely_gradient cc3 (c_rtt s)) as [cc4 g]. destruct Hg as (Hs4 & Hd4 & Hg).
  destruct (timely_step_bounds (cc4 <| tm_rtt_prev := c_rtt s |>) (ctl_cc_rate c2) (c_rtt s) g)
    as (cc5 & rate & -> & Hrate & Hhigh & Hp5 & Hd5); try lia.
  cbn in Hhigh, Hp5, Hd5. eexists _, _. split; [reflexivity|].
  unfold timely_inv, CC_TIMELY_MIN_RATE, CC_TIMELY_THIGH, MAX_LINK_BANDWIDTH in *. cbn.
  rewrite Hp5, Hd5, Hs4 in *.
  split_and!; try lia; intros; try specialize (Hhigh ltac:(apply Hss3; lia) ltac:(lia));
    repeat split_if; bool_props; lia.
Qed.

Lemma timely_cc_safe_witness :
  exists c' cc', timely_cc ctl_ex (mk_cc_timely 80 4 0 1000000 900 false)
      (mk_bpf_cc_snapshot 0 10 14480 0 true 200) 1000 = Some (c', cc') /\
    CC_TIMELY_MIN_RATE <= ctl_cc_rate c' <= Z.max CC_TIMELY_MIN_RATE (ctl_cc_rate ctl_ex).
Proof.
  destruct (timely_cc_safe ctl_ex (mk_cc_timely 80 4 0 1000000 900 false)
      (mk_bpf_cc_snapshot 0 10 14480 0 true 200) 1000 1158400) as (c' & cc' & H1 & _ & _ & H2 & H3);
    [split; split; discriminate|split; discriminate|discriminate|discriminate|vm_compute; reflexivity|].
  exists c', cc'. split; [exact H1|]. split; [apply H2; done|apply H3; reflexivity].
Defined.

(** ** Rate-based DCTCP *)

(** Rate-based DCTCP acts on batches: the counters of runs that stay below
    CC_DCTCP_MINBYTES are carried over, so a run on a small report followed by
    a run on a second report is the single run on the sum of both; nothing is
    lost or counted twice. *)
Theorem dctcp_rate_cc_batches (c : ctl_conn) (cc : cc_dctcp_rate) (s1 s2 : bpf_cc_snapshot)
  (t1 t2 : Z) :
  dr_unproc_ackb cc ⊕ c_ackb s1 < CC_DCTCP_MINBYTES ->
  exists c1 cc1, dctcp_rate_cc c cc s1 t1 = Some (c1, cc1) /\
    ctl_cc_rate c1 = ctl_cc_rate c /\
    dctcp_rate_cc c1 cc1 s2 t2 =
    dctcp_rate_cc c cc
      (s2 <| c_drops := c_drops s1 + c_drops s2 |> <| c_acks := c_acks s1 + c_acks s2 |>
          <| c_ackb := c_ackb s1 + c_ackb s2 |> <| c_ecnb := c_ecnb s1 + c_ecnb s2 |>) t2.
Proof.
  intros Hlt. unfold dctcp_rate_cc at 1.
  destruct (Z.ltb_spec (dr_unproc_ackb cc ⊕ c_ackb s1) CC_DCTCP_MINBYTES); [|lia].
  assert (Hst : exists c1 cc1, 
    (c <| cc_last_rtt := (if c_rtt s1 =? 0 then TCP_RTT_INIT else c_rtt s1) |>,
     cc <| dr_unproc_ecnb := dr_unproc_ecnb cc ⊕ c_ecnb s1 |>
        <| dr_unproc_acks := dr_unproc_acks cc ⊕ c_acks s1 |>
        <| dr_unproc_ackb := dr_unproc_ackb cc ⊕ c_ackb s1 |>
        <| dr_unproc_drops := dr_unproc_drops cc ⊕ c_drops s1 |>) = (c1, cc1) /\
    (forall r, c1 <| cc_last_rtt := r |> = c <| cc_last_rtt := r |>) /\
    ctl_cc_rate c1 = ctl_cc_rate c /\
    (forall a b d e, cc1 <| dr_unproc_ecnb := a |> <| dr_unproc_acks := b |>
                         <| dr_unproc_ackb := d |> <| dr_unproc_drops := e |>
                     = cc <| dr_unproc_ecnb := a |> <| dr_unproc_acks := b |>
                          <| dr_unproc_ackb := d |> <| dr_unproc_drops := e |>) /\
    dr_unproc_ecnb cc1 = dr_unproc_ecnb cc ⊕ c_ecnb s1 /\
    dr_unproc_acks cc1 = dr_unproc_acks cc ⊕ c_acks s1 /\
    dr_unproc_ackb cc1 = dr_unproc_ackb cc ⊕ c_ackb s1 /\
    dr_unproc_drops cc1 = dr_unproc_drops cc ⊕ c_drops s1)
    by (eexists _, _; split; [reflexivity|]; split_and!; reflexivity).
  destruct Hst as (c1 & cc1 & -> & Hc & Hrt & Hcc & H1 & H2 & H3 & H4).
  exists c1, cc1. split; [reflexivity|]. split; [done|].
  set (s3 := s2 <| c_drops := _ |> <| c_acks := _ |> <| c_ackb := _ |> <| c_ecnb := _ |>).
  assert (Hs : c_drops s3 = c_drops s1 + c_drops s2 /\ c_acks s3 = c_acks s1 + c_acks s2 /\
    c_ackb s3 = c_ackb s1 + c_ackb s2 /\ c_ecnb s3 = c_ecnb s1 + c_ecnb s2 /\ c_rtt s3 = c_rtt s2)
    by done.
  clearbody s3. destruct Hs as (S1 & S2 & S3 & S4 & S5). unfold dctcp_rate_cc.
  rewrite Hc, Hrt, !Hcc, H1, H2, H3, H4, S1, S2, S3, S4, S5, !u32_add_l, !Z.add_assoc. reflexivity.
Qed.

Lemma dctcp_rate_cc_batches_witness :
  exists c1 cc1,
    dctcp_rate_cc ctl_ex (mk_cc_dctcp_rate 0 0 0 0 900 0 0 true)
      (mk_bpf_cc_snapshot 0 4 5792 0 true 60) 1000 = Some (c1, cc1) /\
    ctl_cc_rate c1 = ctl_cc_rate ctl_ex /\
    dctcp_rate_cc c1 cc1 (mk_bpf_cc_snapshot 0 50 72400 0 true 70) 1200 =
    dctcp_rate_cc ctl_ex (mk_cc_dctcp_rate 0 0 0 0 900 0 0 true)
      (mk_bpf_cc_snapshot 0 54 78192 0 true 70) 1200.
Proof.
  exact (dctcp_rate_cc_batches ctl_ex (mk_cc_dctcp_rate 0 0 0 0 900 0 0 true)
    (mk_bpf_cc_snapshot 0 4 5792 0 true 60) (mk_bpf_cc_snapshot 0 50 72400 0 true 70) 1000 1200
    ltac:(vm_compute; reflexivity)).
Defined.
