(* ===== verification/Lrpc.v ===== *)
(** The shared-memory channels between the microkernel and the applications
    ([common/base/lrpc.h], [lrpc.cc]): a single-producer single-consumer ring
    whose messages carry a parity bit that tells a fresh message from the one
    of the turn before.

    [lrpc_send], [__lrpc_send], [lrpc_recv] and [lrpc_empty] are modelled as
    whole functions; for the two processes running at the same time each of
    them is also split at its accesses to shared memory ([sender_step],
    [receiver_step]), and the steps of both sides interleave arbitrarily.  The
    release store of the command word and the acquire load of it order the copy
    of the data, so the interleaving of the accesses is the C++ semantics. *)
From S2P Require Import Prelude Fifo.
Local Open Scope Z_scope.
Local Open Scope u32_scope.

Definition LRPC_DONE_PARITY : Z := 9223372036854775808.
Definition LRPC_CMD_MASK : Z := 9223372036854775807.

(** [lrpc_msg] *)
Record lrpc_msg := mk_lrpc_msg { lm_cmd : Z; lm_data : list Z }.

#[export] Instance eta_lrpc_msg : Eta lrpc_msg := fun r => mk_lrpc_msg (lm_cmd r) (lm_data r).

(** [lrpc_chan_out] and [lrpc_chan_in] of one channel, with the table and the
    written-back head they share. *)
Record lrpc_chan := mk_lrpc_chan {
  tbl : list lrpc_msg;
  recv_head_wb : Z;
  send_head : Z;
  send_tail : Z;
  recv_head : Z;
  chan_size : Z
}.

#[export] Instance eta_lrpc_chan : Eta lrpc_chan := fun r =>
  mk_lrpc_chan (tbl r) (recv_head_wb r) (send_head r) (send_tail r) (recv_head r) (chan_size r).

(** [is_power_of_two] of [base/stddef.h] on an unsigned int. *)
Definition is_power_of_two (x : Z) : bool := nz x && (Z.land x (x ⊖ 1) =? 0).

(** [lrpc_init_out] and [lrpc_init_in] on one zeroed table. *)
Definition lrpc_init (size : Z) : option lrpc_chan :=
  if is_power_of_two size
  then Some (mk_lrpc_chan (replicate (Z.to_nat size) (mk_lrpc_msg 0 (replicate 56 0))) 0 0 0 0 size)
  else None.

(** The slot of a head and the parity its message carries. *)
Definition slot (size head : Z) : nat := Z.to_nat (Z.land head (size - 1)).
Definition head_parity (size head : Z) : Z :=
  if nz (Z.land head size) then 0 else LRPC_DONE_PARITY.

(** The two stores that publish a message. *)
Definition put_data (i : nat) (d : list Z) (c : lrpc_chan) : lrpc_chan :=
  c <| tbl ::= alter (fun m => m <| lm_data := d |>) i |>.
Definition put_cmd (i : nat) (x : Z) (c : lrpc_chan) : lrpc_chan :=
  c <| tbl ::= alter (fun m => m <| lm_cmd := x |>) i |>.

Definition publish (m : lrpc_msg) (c : lrpc_chan) : lrpc_chan :=
  let i := slot (chan_size c) (send_head c) in
  let p := head_parity (chan_size c) (send_head c) in
  put_cmd i (Z.lor (lm_cmd m) p) (put_data i (lm_data m) c) <| send_head := send_head c ⊕ 1 |>.

(** [__lrpc_send]: the slow path, when the cached tail says full; [None] is a
    failed assertion, the flag is whether the message was sent. *)
Definition __lrpc_send (m : lrpc_msg) (c : lrpc_chan) : option (bool * lrpc_chan) :=
  if negb (send_head c ⊖ send_tail c =? chan_size c) then None else
  let c := c <| send_tail := recv_head_wb c |> in
  if send_head c ⊖ send_tail c =? chan_size c then Some (false, c) else Some (true, publish m c).

(** [lrpc_send] *)
Definition lrpc_send (m : lrpc_msg) (c : lrpc_chan) : option (bool * lrpc_chan) :=
  if nz (Z.land (lm_cmd m) LRPC_DONE_PARITY) then None else
  if send_head c ⊖ send_tail c >=? chan_size c then __lrpc_send m c
  else Some (true, publish m c).

(** [lrpc_recv]; [None] is the result -1. *)
Definition lrpc_recv (c : lrpc_chan) : option (lrpc_msg * lrpc_chan) :=
  match tbl c !! slot (chan_size c) (recv_head c) with
  | None => None
  | Some m =>
    if negb (Z.land (lm_cmd m) LRPC_DONE_PARITY =? head_parity (chan_size c) (recv_head c))
    then None else
    let c := c <| recv_head := recv_head c ⊕ 1 |> in
    let msg := mk_lrpc_msg (Z.land (lm_cmd m) LRPC_CMD_MASK) (lm_data m) in
    Some (msg, c <| recv_head_wb := recv_head c |>)
  end.

(** [lrpc_empty] *)
Definition lrpc_empty (c : lrpc_chan) : bool :=
  match tbl c !! slot (chan_size c) (recv_head c) with
  | None => true
  | Some m =>
    negb (Z.land (lm_cmd m) LRPC_DONE_PARITY =? head_parity (chan_size c) (recv_head c))
  end.

(** ** The two sides, access by access *)

Inductive s_pc := S_idle | S_slow (m : lrpc_msg) | S_copy (m : lrpc_msg) | S_store (m : lrpc_msg).
Inductive r_pc := R_idle | R_copy (cmd : Z) | R_wb (m : lrpc_msg).

(** What a call returns to its caller. *)
Inductive lrpc_event :=
| Sent (m : lrpc_msg) | SendFailed (m : lrpc_msg) | Received (m : lrpc_msg) | NoMessage.

Record sys := mk_sys { ch : lrpc_chan; spc : s_pc; rpc : r_pc }.

(** The call of [lrpc_send]: it only reads the sender's own fields. *)
Definition sender_call (m : lrpc_msg) (c : lrpc_chan) : s_pc :=
  if send_head c ⊖ send_tail c >=? chan_size c then S_slow m else S_copy m.

(** One access of the sender. *)
Definition sender_step (pc : s_pc) (c : lrpc_chan) : s_pc * lrpc_chan * list lrpc_event :=
  match pc with
  | S_idle => (S_idle, c, [])
  | S_slow m =>
    let c := c <| send_tail := recv_head_wb c |> in
    if send_head c ⊖ send_tail c =? chan_size c then (S_idle, c, [SendFailed m])
    else (S_copy m, c, [])
  | S_copy m => (S_store m, put_data (slot (chan_size c) (send_head c)) (lm_data m) c, [])
  | S_store m =>
    (S_idle,
     put_cmd (slot (chan_size c) (send_head c))
       (Z.lor (lm_cmd m) (head_parity (chan_size c) (send_head c))) c
       <| send_head := send_head c ⊕ 1 |>, [Sent m])
  end.

(** One access of the receiver. *)
Definition receiver_step (pc : r_pc) (c : lrpc_chan) : r_pc * lrpc_chan * list lrpc_event :=
  match pc with
  | R_idle =>
    match tbl c !! slot (chan_size c) (recv_head c) with
    | None => (R_idle, c, [NoMessage])
    | Some m =>
      if negb (Z.land (lm_cmd m) LRPC_DONE_PARITY =? head_parity (chan_size c) (recv_head c))
      then (R_idle, c, [NoMessage])
      else (R_copy (Z.land (lm_cmd m) LRPC_CMD_MASK), c <| recv_head := recv_head c ⊕ 1 |>, [])
    end
  | R_copy cmd =>
    match tbl c !! slot (chan_size c) (recv_head c ⊖ 1) with
    | None => (R_idle, c, [])
    | Some m => (R_wb (mk_lrpc_msg cmd (lm_data m)), c, [])
    end
  | R_wb m => (R_idle, c <| recv_head_wb := recv_head c |>, [Received m])
  end.

(** A message the sender may pass: the parity bit is its own, the data is
    56 bytes. *)
Definition msg_ok (m : lrpc_msg) : Prop := 0 <= lm_cmd m < LRPC_DONE_PARITY /\ length (lm_data m) = 56%nat.

(** The executions: any interleaving of calls and accesses, with the results
    returned so far. *)
Inductive lrpc_reach (size : Z) : sys -> list lrpc_event -> Prop :=
| lr_init c : lrpc_init size = Some c -> lrpc_reach size (mk_sys c S_idle R_idle) []
| lr_call s evs m : lrpc_reach size s evs -> spc s = S_idle -> msg_ok m ->
    lrpc_reach size (mk_sys (ch s) (sender_call m (ch s)) (rpc s)) evs
| lr_send s evs pc c e : lrpc_reach size s evs -> sender_step (spc s) (ch s) = (pc, c, e) ->
    lrpc_reach size (mk_sys c pc (rpc s)) (evs ++ e)
| lr_recv s evs pc c e : lrpc_reach size s evs -> receiver_step (rpc s) (ch s) = (pc, c, e) ->
    lrpc_reach size (mk_sys c (spc s) pc) (evs ++ e).

(** The specification: a bounded queue that answers the same results in the
    same order; [None] is a result it would not give. *)
Fixpoint queue_exec (cap : nat) (q : list lrpc_msg) (evs : list lrpc_event)
  : option (list lrpc_msg) :=
  match evs with
  | [] => Some q
  | Sent m :: evs => if decide (length q < cap)%nat then queue_exec cap (q ++ [m]) evs else None
  | SendFailed _ :: evs => if decide (length q = cap) then queue_exec cap q evs else None
  | NoMessage :: evs => match q with [] => queue_exec cap [] evs | _ => None end
  | Received m :: evs =>
    match q with
    | m' :: q => if decide (lm_cmd m = lm_cmd m' /\ lm_data m = lm_data m')
                 then queue_exec cap q evs else None
    | [] => None
    end
  end.

(** ** Arithmetic of heads, slots and parities *)

Lemma power_of_two_log (x : Z) : in32 x -> is_power_of_two x = true ->
  exists k, 0 <= k < 32 /\ x = 2 ^ k.
Proof.
  unfold is_power_of_two, in32. intros Hx H. apply andb_prop in H as [H0 H1].
  apply nz_true in H0. apply Z.eqb_eq in H1. rewrite u32_small in H1 by (unfold in32; lia).
  pose proof (Z.log2_spec x ltac:(lia)) as [Hl Hu].
  exists (Z.log2 x). split.
  { split; [apply Z.log2_nonneg|]. apply Z.log2_lt_pow2; lia. }
  destruct (Z.eq_dec x (2 ^ Z.log2 x)) as [E|E]; [done|]. exfalso.
  assert (El : Z.log2 (x - 1) = Z.log2 x).
  { apply Z.log2_unique; [apply Z.log2_nonneg|]. lia. }
  assert (Hb : Z.testbit (Z.land x (x - 1)) (Z.log2 x) = true).
  { rewrite Z.land_spec, Z.bit_log2 by lia. rewrite <- El. apply Z.bit_log2.
    pose proof (Z.pow_pos_nonneg 2 (Z.log2 x) ltac:(lia) (Z.log2_nonneg x)). lia. }
  rewrite H1, Z.bits_0 in Hb. done.
Qed.

Lemma msg_ok_parity (m : lrpc_msg) : msg_ok m -> Z.land (lm_cmd m) LRPC_DONE_PARITY = 0.
Proof.
  intros [Hm _]. unfold LRPC_DONE_PARITY in *.
  rewrite <- (Z.mod_small (lm_cmd m) (2 ^ 63)) by lia. change 9223372036854775808 with (2 ^ 63).
  apply Z.bits_inj'. intros n Hn.
  rewrite Z.land_spec, Z.bits_0, Z.pow2_bits_eqb, Z.testbit_mod_pow2 by lia.
  destruct (Z.eqb_spec 63 n) as [<-|]; [reflexivity|by rewrite andb_false_r].
Qed.

Section Ring.
Context (k : Z) (Hk : 0 <= k < 32).
Notation size := (2 ^ k).

(** The parity of a stream position. *)
Definition parity (p : Z) : Z := if Z.even (p / 2 ^ k) then LRPC_DONE_PARITY else 0.

Lemma size_pos : 0 < size <= 2147483648.
Proof.
  split; [apply Z.pow_pos_nonneg; lia|].
  change 2147483648 with (2 ^ 31). apply Z.pow_le_mono_r; lia.
Qed.

Lemma size_divides : exists q, 4294967296 = 2 * size * q /\ 0 < q.
Proof.
  exists (2 ^ (31 - k)). split; [|apply Z.pow_pos_nonneg; lia].
  rewrite <- Z.mul_assoc, <- Z.pow_add_r by lia. replace (k + (31 - k)) with 31 by lia. reflexivity.
Qed.

Lemma slot_pos (p : Z) : slot size (u32 p) = Z.to_nat (p mod size).
Proof.
  unfold slot. f_equal. replace (size - 1) with (Z.ones k) by (rewrite Z.ones_equiv; lia).
  rewrite Z.land_ones by lia. unfold u32.
  apply Z.mod_mod_divide. destruct size_divides as (q & -> & _). exists (2 * q). lia.
Qed.

Lemma nz_land_pow2 (x : Z) : nz (Z.land x size) = Z.testbit x k.
Proof.
  assert (E : Z.land x size = if Z.testbit x k then size else 0).
  { apply Z.bits_inj'. intros n Hn. rewrite Z.land_spec, Z.pow2_bits_eqb by lia.
    destruct (Z.eqb_spec k n) as [<-|Hne].
    - destruct (Z.testbit x k) eqn:B; [|by rewrite Z.bits_0]. by rewrite Z.pow2_bits_true by lia.
    - rewrite andb_false_r. destruct (Z.testbit x k); [|by rewrite Z.bits_0].
      by rewrite Z.pow2_bits_false by lia. }
  rewrite E. pose proof size_pos. unfold nz.
  destruct (Z.testbit x k); [|done]. by destruct (Z.eqb_spec size 0); [lia|].
Qed.

Lemma head_parity_pos (p : Z) : head_parity size (u32 p) = parity p.
Proof.
  unfold head_parity, parity. rewrite nz_land_pow2. unfold u32.
  change 4294967296 with (2 ^ 32). rewrite Z.mod_pow2_bits_low by lia.
  rewrite Z.testbit_odd, Z.shiftr_div_pow2 by lia. rewrite <- Z.negb_even.
  by destruct (Z.even _).
Qed.

Lemma parity_next (p : Z) : parity (p + size) <> parity p.
Proof.
  unfold parity. pose proof size_pos.
  replace ((p + size) / size) with (p / size + 1) by (rewrite <- Z.div_add; [f_equal|]; lia).
  rewrite Z.even_add. by destruct (Z.even (p / size)).
Qed.

(** A message on the wire carries its parity, and the command survives. *)
Lemma parity_encode (m : lrpc_msg) (p : Z) : msg_ok m ->
  let x := Z.lor (lm_cmd m) (parity p) in
  Z.land x LRPC_DONE_PARITY = parity p /\ Z.land x LRPC_CMD_MASK = lm_cmd m.
Proof.
  intros Hok. pose proof Hok as [Hm _]. unfold LRPC_DONE_PARITY in Hm.
  assert (Hlow : lm_cmd m = lm_cmd m mod 2 ^ 63) by (rewrite Z.mod_small; lia).
  assert (Hmask : LRPC_CMD_MASK = Z.ones 63) by reflexivity.
  assert (Hbit : LRPC_DONE_PARITY = 2 ^ 63) by reflexivity.
  assert (Hp : parity p = 0 \/ parity p = 2 ^ 63) by (unfold parity; destruct (Z.even _); auto).
  cbn zeta. rewrite !Z.land_lor_distr_l, (msg_ok_parity m Hok), Hbit, Hmask, Z.land_ones, <- Hlow by lia.
  split.
  - by destruct Hp as [-> | ->].
  - destruct Hp as [-> | ->]; [apply Z.lor_0_r|]. rewrite Z.land_ones, Z.mod_same by lia.
    apply Z.lor_0_r.
Qed.
Definition idx (p : Z) : nat := Z.to_nat (p mod 2 ^ k).

Lemma idx_inj (p p' : Z) : idx p = idx p' -> - size < p - p' < size -> p = p'.
Proof.
  unfold idx. pose proof size_pos. intros E Hd.
  assert (E' : p mod size = p' mod size).
  { pose proof (Z.mod_pos_bound p size). pose proof (Z.mod_pos_bound p' size). lia. }
  pose proof (Z.div_mod p size ltac:(lia)). pose proof (Z.div_mod p' size ltac:(lia)).
  assert (p / size = p' / size) by nia. nia.
Qed.

Lemma idx_turn (p : Z) : idx (p - size) = idx p.
Proof. unfold idx. f_equal. rewrite <- (Z.mod_add (p - size) 1); pose proof size_pos; [f_equal|]; lia. Qed.

(** ** The invariant of the two sides

    [H] messages have been published, [W] have been released by the receiver,
    [S] is what the sender last saw of [W], and [q] are the messages in
    between. *)
Definition published (m : lrpc_msg) (p : Z) : lrpc_msg :=
  mk_lrpc_msg (Z.lor (lm_cmd m) (parity p)) (lm_data m).

Definition s_inv (t : list lrpc_msg) (H S : Z) (pc : s_pc) : Prop :=
  match pc with
  | S_idle => True
  | S_slow m => msg_ok m /\ H - S = size
  | S_copy m => msg_ok m /\ H - S < size
  | S_store m => msg_ok m /\ H - S < size /\ exists x, t !! idx H = Some (mk_lrpc_msg x (lm_data m))
  end.

Definition r_inv (q : list lrpc_msg) (pc : r_pc) : Prop :=
  match pc with
  | R_idle => True
  | R_copy cmd => exists m q', q = m :: q' /\ cmd = lm_cmd m
  | R_wb m => exists q', q = m :: q'
  end.

Record linv (s : sys) (q : list lrpc_msg) (H W S : Z) : Prop := {
  li_size : chan_size (ch s) = size;
  li_len : length (tbl (ch s)) = Z.to_nat size;
  li_send_head : send_head (ch s) = u32 H;
  li_send_tail : send_tail (ch s) = u32 S;
  li_wb : recv_head_wb (ch s) = u32 W;
  li_recv_head : recv_head (ch s) = u32 (W + match rpc s with R_idle => 0 | _ => 1 end);
  li_order : S <= W /\ H = W + Z.of_nat (length q) /\ H <= S + size;
  li_parity : forall p, H - size <= p < H ->
    exists m, tbl (ch s) !! idx p = Some m /\ Z.land (lm_cmd m) LRPC_DONE_PARITY = parity p;
  li_msg : forall i m, q !! i = Some m -> tbl (ch s) !! idx (W + Z.of_nat i) = Some (published m (W + Z.of_nat i));
  li_ok : Forall msg_ok q;
  li_spc : s_inv (tbl (ch s)) H S (spc s);
  li_rpc : r_inv q (rpc s)
}.

Lemma idx_lt (t : list lrpc_msg) (p : Z) : length t = Z.to_nat size -> is_Some (t !! idx p).
Proof.
  intros E. apply lookup_lt_is_Some. rewrite E. unfold idx. pose proof size_pos.
  pose proof (Z.mod_pos_bound p size). lia.
Qed.

Lemma linv_init (c : lrpc_chan) : lrpc_init size = Some c -> linv (mk_sys c S_idle R_idle) [] 0 0 0.
Proof.
  unfold lrpc_init. destruct (is_power_of_two size); [|done]. intros [= <-].
  pose proof size_pos as Hs. split; cbn; try done.
  - by rewrite length_replicate.
  - lia.
  - intros p Hp. eexists. split.
    + apply lookup_replicate_2. unfold idx. pose proof (Z.mod_pos_bound p size). lia.
    + cbn. unfold parity. replace (p / size) with (-1); [done|].
      apply (Z.div_unique_pos p size (-1) (p + size)); lia.
Qed.

Lemma linv_call (s : sys) q H W S (m : lrpc_msg) :
  linv s q H W S -> spc s = S_idle -> msg_ok m ->
  linv (mk_sys (ch s) (sender_call m (ch s)) (rpc s)) q H W S.
Proof.
  intros I Hpc Hm. destruct I as [Is Il Ih It Iw Ir Io Ip Im Iok _ Irp]. split; try done. cbn.
  unfold sender_call. rewrite Ih, It, Is. pose proof size_pos.
  rewrite u32_sub_l, u32_sub_r, u32_small by (unfold in32; lia).
  destruct (Z.geb_spec (H - S) size); cbn; (split; [done|lia]).
Qed.
(** The sender's writes touch only the slot of [H], which no pending message
    occupies while the cached tail shows room. *)
Lemma other_slot (q : list lrpc_msg) H W S (i : nat) :
  S <= W -> H = W + Z.of_nat (length q) -> H - S < size -> (i < length q)%nat ->
  idx H <> idx (W + Z.of_nat i).
Proof. intros. pose proof size_pos. intros E. apply idx_inj in E; lia. Qed.

Lemma linv_sender (s : sys) q H W S pc c e :
  linv s q H W S -> sender_step (spc s) (ch s) = (pc, c, e) ->
  exists q' H' S', linv (mk_sys c pc (rpc s)) q' H' W S' /\
    queue_exec (Z.to_nat size) q e = Some q'.
Proof.
  intros I E. destruct I as [Is Il Ih It Iw Ir (Ho1 & Ho2 & Ho3) Ip Im Iok Isp Irp].
  pose proof size_pos as Hsz. destruct s as [c0 spc0 rpc0]; cbn in *.
  destruct spc0 as [|m|m|m]; cbn in E.
  - injection E as <- <- <-. exists q, H, S. split; [by split|done].
  - destruct Isp as [Hm Hfull]. rewrite Ih, Iw, Is in E.
    rewrite u32_sub_l, u32_sub_r, u32_small in E by (unfold in32; lia).
    destruct (Z.eqb_spec (H - W) size); injection E as <- <- <-; exists q, H, W; split.
    + split; cbn; try done; lia.
    + cbn. by rewrite decide_True by lia.
    + split; cbn; try done; split; done || lia.
    + done.
  - destruct Isp as [Hm Hroom]. injection E as <- <- <-. exists q, H, S. split; [|done].
    rewrite Is, Ih, slot_pos. fold (idx H). split; cbn; try done.
    + by rewrite length_alter.
    + intros p Hp. destruct (Ip p Hp) as (m' & Hm' & Hpar).
      destruct (decide (idx H = idx p)) as [->|Hne].
      * eexists. rewrite list_lookup_alter_eq, Hm'. split; [reflexivity|exact Hpar].
      * exists m'. by rewrite list_lookup_alter_ne.
    + intros i m' Hi. rewrite list_lookup_alter_ne; [by apply Im|].
      eapply other_slot; try done. by eapply lookup_lt_Some.
    + split_and!; [done..|]. destruct (idx_lt (tbl c0) H Il) as [m' Hm'].
      exists (lm_cmd m'). rewrite list_lookup_alter_eq, Hm'. done.
  - destruct Isp as (Hm & Hroom & x & Hx). injection E as <- <- <-.
    exists (q ++ [m]), (H + 1), S. split; [|cbn; by rewrite decide_True by lia].
    rewrite Is, Ih, slot_pos, head_parity_pos by done. fold (idx H).
    split; cbn; try done.
    + by rewrite length_alter.
    + by rewrite u32_add_l.
    + rewrite length_app. cbn. lia.
    + intros p Hp. destruct (decide (p = H)) as [->|Hne].
      * eexists. rewrite list_lookup_alter_eq, Hx. split; [done|]. cbn. by apply parity_encode.
      * rewrite list_lookup_alter_ne; [apply Ip; lia|]. intros E. apply idx_inj in E; lia.
    + intros i m' Hi. apply lookup_app_Some in Hi as [Hi|[Hle Hi]].
      * rewrite list_lookup_alter_ne; [by apply Im|].
        eapply other_slot; try done. by eapply lookup_lt_Some.
      * apply list_lookup_singleton_Some in Hi as [Hi <-].
        replace (W + Z.of_nat i) with H by lia. by rewrite list_lookup_alter_eq, Hx.
    + apply Forall_app. split; [done|]. by constructor.
    + destruct rpc0; cbn in *; try done.
      * destruct Irp as (m1 & q' & -> & ->). by exists m1, (q' ++ [m]).
      * destruct Irp as (q' & ->). by exists (q' ++ [m]).
Qed.

Lemma linv_receiver (s : sys) q H W S pc c e :
  linv s q H W S -> receiver_step (rpc s) (ch s) = (pc, c, e) ->
  exists q' W', linv (mk_sys c (spc s) pc) q' H W' S /\
    queue_exec (Z.to_nat size) q e = Some q'.
Proof.
  intros I E. destruct I as [Is Il Ih It Iw Ir (Ho1 & Ho2 & Ho3) Ip Im Iok Isp Irp].
  pose proof size_pos as Hsz. destruct s as [c0 spc0 rpc0]; cbn in *.
  destruct rpc0 as [|cmd|m]; cbn in E.
  - rewrite Is, Ir, Z.add_0_r, slot_pos, head_parity_pos in E by done. fold (idx W) in E.
    destruct q as [|m q].
    + destruct (Ip (W - size)) as (m' & Hm' & Hpar); [cbn in *; lia|].
      rewrite idx_turn in Hm'. rewrite Hm', Hpar in E.
      destruct (Z.eqb_spec (parity (W - size)) (parity W)) as [E1|_].
      { exfalso. apply (parity_next (W - size)). rewrite E1. f_equal. lia. }
      injection E as <- <- <-. exists [], W. split; [by split|done].
    + pose proof (Im 0%nat m eq_refl) as H0. rewrite Z.add_0_r in H0. rewrite H0 in E.
      apply Forall_cons_iff in Iok as [Hm Hok]. destruct (parity_encode m W Hm) as [E1 E2].
      cbn in E, E1, E2. rewrite E1, E2, Z.eqb_refl in E. injection E as <- <- <-.
      exists (m :: q), W. split; [|done]. split; cbn; try done; [by rewrite u32_add_l| |].
      * by constructor.
      * by exists m, q.
  - destruct Irp as (m & q' & -> & ->). rewrite Is, Ir, u32_sub_l, slot_pos in E by done.
    replace (W + 1 - 1) with W in E by lia. fold (idx W) in E.
    pose proof (Im 0%nat m eq_refl) as H0. rewrite Z.add_0_r in H0. rewrite H0 in E.
    injection E as <- <- <-. exists (m :: q'), W. split; [|done]. split; cbn; try done.
    exists q'. by destruct m.
  - destruct Irp as (q' & ->). injection E as <- <- <-. exists q', (W + 1). split.
    + apply Forall_cons_iff in Iok as [_ Hok]. split; cbn in *; try done; try lia.
      * by rewrite Z.add_0_r.
      * intros i m' Hi. replace (W + 1 + Z.of_nat i) with (W + Z.of_nat (Datatypes.S i)) by lia.
        by apply Im.
    + cbn. by rewrite decide_True.
Qed.
End Ring.

(** ** Every interleaving behaves as a bounded queue *)

Lemma queue_exec_app cap evs e : forall q,
  queue_exec cap q (evs ++ e) =
  match queue_exec cap q evs with Some q' => queue_exec cap q' e | None => None end.
Proof.
  induction evs as [|[m|m|m|] evs IH]; intros q; cbn; [done| | | |].
  - case_decide; [apply IH|done].
  - case_decide; [apply IH|done].
  - destruct q; [done|]. case_decide; [apply IH|done].
  - destruct q; [apply IH|done].
Qed.

Definition sent (evs : list lrpc_event) : list lrpc_msg :=
  omap (fun e => match e with Sent m => Some m | _ => None end) evs.
Definition received (evs : list lrpc_event) : list lrpc_msg :=
  omap (fun e => match e with Received m => Some m | _ => None end) evs.

Lemma queue_exec_in_order cap evs : forall q q',
  queue_exec cap q evs = Some q' -> q ++ sent evs = received evs ++ q'.
Proof.
  induction evs as [|[m|m|m|] evs IH]; intros q q' E; cbn in *.
  - injection E as ->. by rewrite app_nil_r.
  - case_decide; [|done]. apply IH in E. etransitivity; [|exact E]. by rewrite <- app_assoc.
  - case_decide; [|done]. by apply IH.
  - destruct q as [|m' q]; [done|]. case_decide as D; [|done]. apply IH in E.
    destruct m, m', D; cbn in *; subst. by f_equal.
  - destruct q; [|done]. by apply IH.
Qed.

Lemma lrpc_reach_inv (k : Z) (s : sys) evs : 0 <= k < 32 -> lrpc_reach (2 ^ k) s evs ->
  exists q H W S, linv k s q H W S /\ queue_exec (Z.to_nat (2 ^ k)) [] evs = Some q.
Proof.
  intros Hk. induction 1 as [c Hc|s evs m _ (q & H & W & S & I & E) Hpc Hm
    |s evs pc c e _ (q & H & W & S & I & E) Es|s evs pc c e _ (q & H & W & S & I & E) Er].
  - exists [], 0, 0, 0. split; [by apply linv_init|done].
  - exists q, H, W, S. split; [by apply linv_call|done].
  - destruct (linv_sender k Hk s q H W S pc c e I Es) as (q' & H' & S' & I' & E').
    exists q', H', W, S'. by rewrite queue_exec_app, E.
  - destruct (linv_receiver k Hk s q H W S pc c e I Er) as (q' & W' & I' & E').
    exists q', H, W', S. by rewrite queue_exec_app, E.
Qed.

(** C26. The channel is linearizable: however the accesses of a sending and a
    receiving process interleave, and however often the 32-bit heads wrap, the
    results the two see are those of one bounded queue of [size] messages: a
    send fails only when [size] messages are not yet released, a receive finds
    nothing only when all were taken, and the messages received, whole and
    unmodified, are those sent, in order.  The assertion of the slow path
    never fails. *)
Theorem lrpc_linearizable (size : Z) (s : sys) (evs : list lrpc_event) :
  in32 size -> lrpc_reach size s evs ->
  exists q, queue_exec (Z.to_nat size) [] evs = Some q /\
    sent evs = received evs ++ q /\
    (forall m, spc s = S_idle -> msg_ok m -> lrpc_send m (ch s) <> None).
Proof.
  intros Hs Hr. assert (Hp : is_power_of_two size = true).
  { clear Hs. induction Hr as [c Hc| | |]; [|done..]. unfold lrpc_init in Hc.
    by destruct (is_power_of_two size). }
  destruct (power_of_two_log size Hs Hp) as (k & Hk & ->).
  destruct (lrpc_reach_inv k s evs Hk Hr) as (q & H & W & S & I & E).
  exists q. split; [done|]. split; [by apply queue_exec_in_order in E|].
  intros m Hpc Hm. destruct I as [Is Il Ih It Iw Ir (Ho1 & Ho2 & Ho3) Ip Im Iok Isp Irp].
  pose proof (size_pos k Hk). unfold lrpc_send, __lrpc_send. rewrite Ih, It, Is.
  rewrite u32_sub_l, u32_sub_r, u32_small by (unfold in32; lia).
  rewrite msg_ok_parity by done. cbn.
  destruct (Z.geb_spec (H - S) (2 ^ k)); [|done].
  destruct (Z.eqb_spec (H - S) (2 ^ k)); [|lia]. cbn. by split_if.
Qed.

Definition msg_ex : lrpc_msg := mk_lrpc_msg 5 (replicate 56 7).

Lemma lrpc_linearizable_witness :
  exists s q, lrpc_reach 2 s [Sent msg_ex; Received msg_ex] /\
    queue_exec 2 [] [Sent msg_ex; Received msg_ex] = Some q /\
    sent [Sent msg_ex; Received msg_ex] = received [Sent msg_ex; Received msg_ex] ++ q.
Proof.
  destruct (lrpc_init 2) as [c|] eqn:E; [|discriminate].
  assert (Hm : msg_ok msg_ex) by (split; [cbn; unfold LRPC_DONE_PARITY; lia|reflexivity]).
  pose proof (lr_init 2 c E) as H. vm_compute in E. injection E as <-.
  pose proof (lr_call 2 _ _ msg_ex H eq_refl Hm) as H1. vm_compute in H1.
  pose proof (lr_send 2 _ _ _ _ _ H1 eq_refl) as H2. vm_compute in H2.
  pose proof (lr_send 2 _ _ _ _ _ H2 eq_refl) as H3. vm_compute in H3.
  pose proof (lr_recv 2 _ _ _ _ _ H3 eq_refl) as H4. vm_compute in H4.
  pose proof (lr_recv 2 _ _ _ _ _ H4 eq_refl) as H5. vm_compute in H5.
  pose proof (lr_recv 2 _ _ _ _ _ H5 eq_refl) as H6. vm_compute in H6.
  destruct (lrpc_linearizable 2 _ _ ltac:(unfold in32; lia) H6) as (q & Hq & Hs & _).
  eexists _, q. split; [exact H6|]. split; [exact Hq|exact Hs].
Defined.

(** ** The functions are the runs of their accesses *)

Fixpoint sender_run (n : nat) (pc : s_pc) (c : lrpc_chan) : lrpc_chan * list lrpc_event :=
  match n with
  | O => (c, [])
  | Datatypes.S n =>
    let '(pc, c, e) := sender_step pc c in
    let '(c, es) := sender_run n pc c in (c, e ++ es)
  end.

Fixpoint receiver_run (n : nat) (pc : r_pc) (c : lrpc_chan) : lrpc_chan * list lrpc_event :=
  match n with
  | O => (c, [])
  | Datatypes.S n =>
    let '(pc', c, e) := receiver_step pc c in
    match pc' with
    | R_idle => (c, e)
    | _ => let '(c, es) := receiver_run n pc' c in (c, e ++ es)
    end
  end.

(** The step-by-step sides are the functions: run alone from a call,
    [lrpc_send] returns what its three accesses do and [lrpc_recv] what its
    three accesses do, with the same channel, so the interleavings are
    interleavings of the code. *)
Theorem lrpc_functions_are_runs (m : lrpc_msg) (c : lrpc_chan) :
  msg_ok m -> send_head c ⊖ send_tail c <= chan_size c -> in32 (recv_head c) ->
  (lrpc_send m c =
   let '(c', e) := sender_run 3 (sender_call m c) c in
   Some (match e with [Sent _] => true | _ => false end, c')) /\
  (lrpc_recv c =
   match receiver_run 3 R_idle c with
   | (c', [Received x]) => Some (x, c')
   | _ => None
   end).
Proof.
  intros Hm Hle Hh. split.
  - unfold lrpc_send, __lrpc_send, sender_call. rewrite msg_ok_parity by done. cbn.
    destruct (Z.geb_spec (send_head c ⊖ send_tail c) (chan_size c)); [|reflexivity].
    destruct (Z.eqb_spec (send_head c ⊖ send_tail c) (chan_size c)); [|lia]. cbn.
    destruct (_ =? _); reflexivity.
  - unfold lrpc_recv. cbn. destruct (tbl c !! _) as [x|] eqn:Ex; [|reflexivity].
    destruct (negb _); [reflexivity|]. cbn.
    rewrite u32_sub_l. replace (recv_head c + 1 - 1) with (recv_head c) by lia.
    rewrite (u32_small (recv_head c)) by done. rewrite Ex. reflexivity.
Qed.

Lemma lrpc_functions_are_runs_witness :
  exists c, lrpc_init 2 = Some c /\
  (lrpc_send msg_ex c =
   let '(c', e) := sender_run 3 (sender_call msg_ex c) c in
   Some (match e with [Sent _] => true | _ => false end, c')) /\
  (lrpc_recv c =
   match receiver_run 3 R_idle c with
   | (c', [Received x]) => Some (x, c')
   | _ => None
   end).
Proof.
  eexists. split; [reflexivity|].
  apply (lrpc_functions_are_runs msg_ex);
    [split; [cbn; unfold LRPC_DONE_PARITY; lia|reflexivity]|vm_compute; discriminate|].
  unfold in32; cbn; lia.
Defined.
