(* ===== verification/Parse.v ===== *)
(** Packets as bytes: the header parsers of [include/xdp/parsing_helpers.h] and
    the layout of the header structures they hand out.

    A packet is the list of bytes between [data] and [data_end]; a read outside
    of it is the result [None], which the programs must never reach.  A parser
    returns the C return value (-1 on a malformed header) and the new cursor.
    [encode] lays a header record out in memory, the inverse of the reads. *)
From S2P Require Import Prelude Intf Headers.
Local Open Scope Z_scope.

Definition pkt_end (b : list Z) : Z := Z.of_nat (length b).

(** Loads of one, two and four bytes on a little-endian host. *)
Definition rd8 (b : list Z) (i : Z) : option Z := if i <? 0 then None else b !! Z.to_nat i.
Definition rd16 (b : list Z) (i : Z) : option Z :=
  x ← rd8 b i; y ← rd8 b (i + 1); Some (x + 256 * y).
Definition rd32 (b : list Z) (i : Z) : option Z :=
  x ← rd16 b i; y ← rd16 b (i + 2); Some (x + 65536 * y).

Definition ETH_P_8021Q : Z := 0x8100.
Definition ETH_P_8021AD : Z := 0x88A8.
Definition VLAN_MAX_DEPTH : nat := 2.

(** [proto_is_vlan] *)
Definition proto_is_vlan (h_proto : Z) : bool :=
  (h_proto =? bpf_htons ETH_P_8021Q) || (h_proto =? bpf_htons ETH_P_8021AD).

(** The loop of [parse_ethhdr_vlan] over the VLAN tags at [vlh]. *)
Fixpoint vlan_skip (n : nat) (b : list Z) (vlh h_proto : Z) : option (Z * Z) :=
  match n with
  | O => Some (h_proto, vlh)
  | S n =>
    if negb (proto_is_vlan h_proto) then Some (h_proto, vlh) else
    if vlh + 4 >? pkt_end b then Some (h_proto, vlh) else
    h_proto ← rd16 b (vlh + 2);
    vlan_skip n b (vlh + 4) h_proto
  end.

(** [parse_ethhdr] *)
Definition parse_ethhdr (b : list Z) (pos : Z) : option (Z * Z) :=
  if pos + 14 >? pkt_end b then Some (-1, pos) else
  h_proto ← rd16 b (pos + 12);
  vlan_skip VLAN_MAX_DEPTH b (pos + 14) h_proto.

(** [parse_iphdr] *)
Definition parse_iphdr (b : list Z) (pos : Z) : option (Z * Z) :=
  if pos + 20 >? pkt_end b then Some (-1, pos) else
  v ← rd8 b pos;
  if negb (v / 16 =? 4) then Some (-1, pos) else
  let hdrsize := v mod 16 * 4 in
  if hdrsize <? 20 then Some (-1, pos) else
  if pos + hdrsize >? pkt_end b then Some (-1, pos) else
  protocol ← rd8 b (pos + 9);
  Some (protocol, pos + hdrsize).

(** [parse_tcphdr] *)
Definition parse_tcphdr (b : list Z) (pos : Z) : option (Z * Z) :=
  if pos + 20 >? pkt_end b then Some (-1, pos) else
  d ← rd8 b (pos + 12);
  let len := d / 16 * 4 in
  if len <? 20 then Some (-1, pos) else
  if pos + len >? pkt_end b then Some (-1, pos) else
  Some (len, pos + len).

(** ** The structures behind the header pointers *)

Definition iphdr_at (b : list Z) (p : Z) : option iphdr :=
  v ← rd8 b p; tos ← rd8 b (p + 1); tot ← rd16 b (p + 2); id ← rd16 b (p + 4);
  frag ← rd16 b (p + 6); ttl ← rd8 b (p + 8); proto ← rd8 b (p + 9);
  chk ← rd16 b (p + 10); s ← rd32 b (p + 12); d ← rd32 b (p + 16);
  Some (mk_iphdr (v mod 16) (v / 16) tos tot id frag ttl proto chk s d).

Definition bit (x i : Z) : bool := Z.odd (x / 2 ^ i).

Definition tcphdr_at (b : list Z) (p : Z) : option tcphdr :=
  src ← rd16 b p; dst ← rd16 b (p + 2); sq ← rd32 b (p + 4); ak ← rd32 b (p + 8);
  d ← rd8 b (p + 12); fl ← rd8 b (p + 13); w ← rd16 b (p + 14); chk ← rd16 b (p + 16);
  urg ← rd16 b (p + 18);
  Some (mk_tcphdr src dst sq ak (d mod 16) (d / 16) (bit fl 0) (bit fl 1) (bit fl 2) (bit fl 3)
    (bit fl 4) (bit fl 5) (bit fl 6) (bit fl 7) w chk urg).

Definition ts_at (b : list Z) (p : Z) : option tcp_timestamp_opt :=
  k ← rd8 b p; l ← rd8 b (p + 1); v ← rd32 b (p + 2); e ← rd32 b (p + 6);
  Some (mk_tcp_timestamp_opt k l v e).

(** ** Layout of a frame without VLAN tags *)

Definition le16 (x : Z) : list Z := [x mod 256; x / 256].
Definition le32 (x : Z) : list Z := le16 (x mod 65536) ++ le16 (x / 65536).

Definition flag_byte (t : tcphdr) : Z :=
  b2z (th_fin t) + 2 * b2z (th_syn t) + 4 * b2z (th_rst t) + 8 * b2z (th_psh t)
  + 16 * b2z (th_ack t) + 32 * b2z (th_urg t) + 64 * b2z (th_ece t) + 128 * b2z (th_cwr t).

Definition encode_ip (h : iphdr) : list Z :=
  [ip_ihl h + 16 * ip_version h; ip_tos h] ++ le16 (ip_tot_len h) ++ le16 (ip_id h)
  ++ le16 (ip_frag_off h) ++ [ip_ttl h; ip_protocol h] ++ le16 (ip_check h)
  ++ le32 (ip_saddr h) ++ le32 (ip_daddr h).

Definition encode_tcp (t : tcphdr) : list Z :=
  le16 (th_source t) ++ le16 (th_dest t) ++ le32 (th_seq t) ++ le32 (th_ack_seq t)
  ++ [th_res1 t + 16 * th_doff t; flag_byte t] ++ le16 (th_window t) ++ le16 (th_check t)
  ++ le16 (th_urg_ptr t).

Definition encode_ts (o : tcp_timestamp_opt) : list Z :=
  [ts_kind o; ts_length o] ++ le32 (ts_ts_val o) ++ le32 (ts_ts_ecr o).

Definition encode (f : frame) (payload : list Z) : list Z :=
  eth_dest f ++ eth_source f ++ le16 (eth_proto f) ++ encode_ip (f_ip f)
  ++ encode_tcp (f_tcp f) ++ encode_ts (f_ts f) ++ payload.

(** ** Reads inside a packet succeed *)

Definition bytes (b : list Z) : Prop := Forall in8 b.

Lemma rd8_some b i : bytes b -> 0 <= i < pkt_end b -> exists x, rd8 b i = Some x /\ in8 x.
Proof.
  unfold rd8, pkt_end. intros Hb Hi. destruct (Z.ltb_spec i 0); [lia|].
  destruct (lookup_lt_is_Some_2 b (Z.to_nat i)) as [x Hx]; [lia|].
  exists x. split; [done|]. by eapply Forall_lookup_1.
Qed.

Lemma rd16_some b i : bytes b -> 0 <= i -> i + 2 <= pkt_end b ->
  exists x, rd16 b i = Some x /\ in16 x.
Proof.
  intros Hb H0 H1. unfold rd16.
  destruct (rd8_some b i Hb) as (x & -> & Hx); [lia|].
  destruct (rd8_some b (i + 1) Hb) as (y & -> & Hy); [lia|].
  eexists. split; [reflexivity|]. unfold in8, in16 in *. lia.
Qed.

Lemma rd32_some b i : bytes b -> 0 <= i -> i + 4 <= pkt_end b ->
  exists x, rd32 b i = Some x /\ in32 x.
Proof.
  intros Hb H0 H1. unfold rd32.
  destruct (rd16_some b i Hb) as (x & -> & Hx); [lia..|].
  destruct (rd16_some b (i + 2) Hb) as (y & -> & Hy); [lia..|].
  eexists. split; [reflexivity|]. unfold in16, in32 in *. lia.
Qed.

(** Step through the reads of a structure whose bytes are in bounds. *)
Ltac reads :=
  repeat match goal with
  | |- context [rd8 ?b ?i] =>
    let x := fresh "x" in let E := fresh "E" in let Hx := fresh "Hx" in
    destruct (rd8_some b i) as (x & E & Hx); [done|lia|]; rewrite E; cbn [mbind option_bind]
  | |- context [rd16 ?b ?i] =>
    let x := fresh "x" in let E := fresh "E" in let Hx := fresh "Hx" in
    destruct (rd16_some b i) as (x & E & Hx); [done|lia|lia|]; rewrite E; cbn [mbind option_bind]
  | |- context [rd32 ?b ?i] =>
    let x := fresh "x" in let E := fresh "E" in let Hx := fresh "Hx" in
    destruct (rd32_some b i) as (x & E & Hx); [done|lia|lia|]; rewrite E; cbn [mbind option_bind]
  end.

Lemma iphdr_at_some b p : bytes b -> 0 <= p -> p + 20 <= pkt_end b -> is_Some (iphdr_at b p).
Proof. intros. unfold iphdr_at. reads. by eexists. Qed.

Lemma tcphdr_at_some b p : bytes b -> 0 <= p -> p + 20 <= pkt_end b -> is_Some (tcphdr_at b p).
Proof. intros. unfold tcphdr_at. reads. by eexists. Qed.

Lemma ts_at_some b p : bytes b -> 0 <= p -> p + 10 <= pkt_end b -> is_Some (ts_at b p).
Proof. intros. unfold ts_at. reads. by eexists. Qed.

Lemma vlan_skip_safe n b : bytes b -> forall vlh h, 0 <= vlh ->
  exists r p, vlan_skip n b vlh h = Some (r, p) /\ vlh <= p <= vlh + 4 * Z.of_nat n.
Proof.
  intros Hb. induction n as [|n IH]; intros vlh h Hv; cbn [vlan_skip]; [eexists _, _; split; [done|lia]|].
  destruct (negb _); [eexists _, _; split; [done|lia]|].
  destruct (Z.gtb_spec (vlh + 4) (pkt_end b)); [eexists _, _; split; [done|lia]|].
  reads. destruct (IH (vlh + 4) x) as (r & p & -> & Hp); [lia|]. eexists _, _. split; [done|lia].
Qed.

Lemma parse_ethhdr_safe b : bytes b ->
  exists r p, parse_ethhdr b 0 = Some (r, p) /\ (r <> -1 -> 14 <= p <= 22).
Proof.
  intros Hb. unfold parse_ethhdr. destruct (Z.gtb_spec (0 + 14) (pkt_end b)).
  { eexists _, _. split; [done|lia]. }
  reads. destruct (vlan_skip_safe VLAN_MAX_DEPTH b Hb (0 + 14) x) as (r & p & -> & Hp); [lia|].
  exists r, p. split; [done|]. intros _. unfold VLAN_MAX_DEPTH in Hp. lia.
Qed.

Lemma parse_iphdr_safe b p : bytes b -> 0 <= p ->
  exists r q, parse_iphdr b p = Some (r, q) /\
    (r <> -1 -> p + 20 <= q <= pkt_end b /\ q <= p + 60).
Proof.
  intros Hb Hp. unfold parse_iphdr. destruct (Z.gtb_spec (p + 20) (pkt_end b)).
  { eexists _, _. split; [done|lia]. }
  reads. repeat split_if; bool_props; eexists _, _; (split; [done|lia]).
Qed.

Lemma parse_tcphdr_safe b p : bytes b -> 0 <= p ->
  exists r q, parse_tcphdr b p = Some (r, q) /\ (0 <= r -> p + 20 <= q <= pkt_end b).
Proof.
  intros Hb Hp. unfold parse_tcphdr. destruct (Z.gtb_spec (p + 20) (pkt_end b)).
  { eexists _, _. split; [done|lia]. }
  reads. repeat split_if; bool_props; eexists _, _; (split; [done|lia]).
Qed.

(** ** A frame survives the wire *)

Lemma rd8_app (l r : list Z) (i : Z) : 0 <= i -> rd8 (l ++ r) (pkt_end l + i) = rd8 r i.
Proof.
  intros Hi. unfold rd8, pkt_end. destruct (Z.ltb_spec (Z.of_nat (length l) + i) 0); [lia|].
  destruct (Z.ltb_spec i 0); [lia|]. rewrite lookup_app_r by lia. f_equal. lia.
Qed.

Lemma rd16_app (l r : list Z) (i : Z) : 0 <= i -> rd16 (l ++ r) (pkt_end l + i) = rd16 r i.
Proof. intros. unfold rd16. by rewrite <- Z.add_assoc, !rd8_app by lia. Qed.

Lemma rd32_app (l r : list Z) (i : Z) : 0 <= i -> rd32 (l ++ r) (pkt_end l + i) = rd32 r i.
Proof. intros. unfold rd32. by rewrite <- Z.add_assoc, !rd16_app by lia. Qed.

(** The structure at the end of a prefix is the structure at the start of the rest. *)
Ltac at_app := intros; unfold iphdr_at, tcphdr_at, ts_at;
  rewrite <- ?Z.add_assoc; rewrite ?rd8_app, ?rd16_app, ?rd32_app by lia; reflexivity.

Lemma iphdr_at_app (l r : list Z) : iphdr_at (l ++ r) (pkt_end l + 0) = iphdr_at r 0.
Proof. at_app. Qed.
Lemma tcphdr_at_app (l r : list Z) : tcphdr_at (l ++ r) (pkt_end l + 0) = tcphdr_at r 0.
Proof. at_app. Qed.
Lemma ts_at_app (l r : list Z) : ts_at (l ++ r) (pkt_end l + 0) = ts_at r 0.
Proof. at_app. Qed.

Definition tcphdr_wf (t : tcphdr) : Prop :=
  in16 (th_source t) /\ in16 (th_dest t) /\ in32 (th_seq t) /\ in32 (th_ack_seq t) /\
  0 <= th_res1 t < 16 /\ 5 <= th_doff t < 16 /\
  in16 (th_window t) /\ in16 (th_check t) /\ in16 (th_urg_ptr t).

Definition ts_wf (o : tcp_timestamp_opt) : Prop :=
  in8 (ts_kind o) /\ in8 (ts_length o) /\ in32 (ts_ts_val o) /\ in32 (ts_ts_ecr o).

Lemma le16_join (x : Z) : x mod 256 + 256 * (x / 256) = x.
Proof. lia. Qed.

Lemma le32_join (x : Z) :
  (x mod 65536) mod 256 + 256 * (x mod 65536 / 256)
  + 65536 * ((x / 65536) mod 256 + 256 * (x / 65536 / 256)) = x.
Proof. lia. Qed.

Lemma encode_tcp_at (t : tcphdr) (r : list Z) : tcphdr_wf t -> tcphdr_at (encode_tcp t ++ r) 0 = Some t.
Proof.
  intros H. destruct t as [src dst sq ak rs d f1 f2 f3 f4 f5 f6 f7 f8 w chk urg].
  destruct H as (_ & _ & _ & _ & Hr & Hd & _ & _ & _). cbn in Hr, Hd.
  set (fl := flag_byte (mk_tcphdr src dst sq ak rs d f1 f2 f3 f4 f5 f6 f7 f8 w chk urg)).
  transitivity (Some (mk_tcphdr (src mod 256 + 256 * (src / 256)) (dst mod 256 + 256 * (dst / 256))
    ((sq mod 65536) mod 256 + 256 * (sq mod 65536 / 256)
     + 65536 * ((sq / 65536) mod 256 + 256 * (sq / 65536 / 256)))
    ((ak mod 65536) mod 256 + 256 * (ak mod 65536 / 256)
     + 65536 * ((ak / 65536) mod 256 + 256 * (ak / 65536 / 256)))
    ((rs + 16 * d) mod 16) ((rs + 16 * d) / 16) (bit fl 0) (bit fl 1) (bit fl 2) (bit fl 3)
    (bit fl 4) (bit fl 5) (bit fl 6) (bit fl 7) (w mod 256 + 256 * (w / 256))
    (chk mod 256 + 256 * (chk / 256)) (urg mod 256 + 256 * (urg / 256)))); [reflexivity|].
  rewrite !le32_join, !le16_join. replace ((rs + 16 * d) mod 16) with rs by lia.
  replace ((rs + 16 * d) / 16) with d by lia.
  by destruct f1, f2, f3, f4, f5, f6, f7, f8.
Qed.

Lemma encode_ip_at (h : iphdr) (r : list Z) :
  0 <= ip_ihl h < 16 -> iphdr_at (encode_ip h ++ r) 0 = Some h.
Proof.
  intros H. destruct h as [ihl v tos tot id fr ttl pr chk s d]. cbn in H.
  transitivity (Some (mk_iphdr ((ihl + 16 * v) mod 16) ((ihl + 16 * v) / 16) tos
    (tot mod 256 + 256 * (tot / 256)) (id mod 256 + 256 * (id / 256))
    (fr mod 256 + 256 * (fr / 256)) ttl pr (chk mod 256 + 256 * (chk / 256))
    ((s mod 65536) mod 256 + 256 * (s mod 65536 / 256)
     + 65536 * ((s / 65536) mod 256 + 256 * (s / 65536 / 256)))
    ((d mod 65536) mod 256 + 256 * (d mod 65536 / 256)
     + 65536 * ((d / 65536) mod 256 + 256 * (d / 65536 / 256))))); [reflexivity|].
  rewrite !le32_join, !le16_join. repeat f_equal; lia.
Qed.

Lemma encode_ts_at (o : tcp_timestamp_opt) (r : list Z) : ts_at (encode_ts o ++ r) 0 = Some o.
Proof.
  destruct o as [k l v e].
  transitivity (Some (mk_tcp_timestamp_opt k l
    ((v mod 65536) mod 256 + 256 * (v mod 65536 / 256)
     + 65536 * ((v / 65536) mod 256 + 256 * (v / 65536 / 256)))
    ((e mod 65536) mod 256 + 256 * (e mod 65536 / 256)
     + 65536 * ((e / 65536) mod 256 + 256 * (e / 65536 / 256))))); [reflexivity|].
  by rewrite !le32_join.
Qed.

Definition eth_wf (f : frame) : Prop :=
  length (eth_dest f) = 6%nat /\ length (eth_source f) = 6%nat.

Lemma pkt_end_app (l r : list Z) : pkt_end (l ++ r) = pkt_end l + pkt_end r.
Proof. unfold pkt_end. rewrite length_app. lia. Qed.

Lemma pkt_end_encode (f : frame) (payload : list Z) :
  eth_wf f -> pkt_end (encode f payload) = 64 + pkt_end payload.
Proof.
  intros [Hd Hs]. unfold encode. rewrite !pkt_end_app.
  replace (pkt_end (eth_dest f)) with 6 by (unfold pkt_end; lia).
  replace (pkt_end (eth_source f)) with 6 by (unfold pkt_end; lia).
  change (pkt_end (le16 (eth_proto f))) with 2. change (pkt_end (encode_ip (f_ip f))) with 20.
  change (pkt_end (encode_tcp (f_tcp f))) with 20. change (pkt_end (encode_ts (f_ts f))) with 10.
  lia.
Qed.

(** The prefixes of [encode] in front of each header. *)
Lemma encode_split (f : frame) (payload : list Z) : eth_wf f ->
  exists e i t,
    encode f payload = e ++ le16 (eth_proto f) ++ encode_ip (f_ip f) ++ i /\ pkt_end e = 12 /\
    encode f payload = t ++ encode_ip (f_ip f) ++ i /\ pkt_end t = 14 /\
    i = encode_tcp (f_tcp f) ++ encode_ts (f_ts f) ++ payload.
Proof.
  intros [Hd Hs]. exists (eth_dest f ++ eth_source f), (encode_tcp (f_tcp f) ++ encode_ts (f_ts f) ++ payload),
    (eth_dest f ++ eth_source f ++ le16 (eth_proto f)).
  unfold encode. rewrite <- !app_assoc, !pkt_end_app. split_and!; try done;
    unfold pkt_end; rewrite Hd, Hs; reflexivity.
Qed.

(** C37. The parsers read back what is laid out in memory: for every frame
    without VLAN tags and with a 20-byte IP header that carries TCP, the
    parser chain of the receive program ends on the TCP payload and the three
    header structures it hands out are the frame's. *)
Theorem parse_encode (f : frame) (payload : list Z) :
  eth_wf f -> eth_proto f = bpf_htons ETH_P_IP ->
  ip_version (f_ip f) = 4 -> ip_ihl (f_ip f) = 5 -> ip_protocol (f_ip f) = IPPROTO_TCP ->
  tcphdr_wf (f_tcp f) -> 4 * th_doff (f_tcp f) <= 30 + pkt_end payload ->
  let b := encode f payload in
  let len := th_doff (f_tcp f) * 4 in
  parse_ethhdr b 0 = Some (bpf_htons ETH_P_IP, 14) /\
  parse_iphdr b 14 = Some (IPPROTO_TCP, 34) /\ parse_tcphdr b 34 = Some (len, 34 + len) /\
  iphdr_at b 14 = Some (f_ip f) /\ tcphdr_at b 34 = Some (f_tcp f) /\ ts_at b 54 = Some (f_ts f).
Proof.
  intros Hw He Hv Hh Hp Ht Hlen b len.
  pose proof (pkt_end_encode f payload Hw) as Hend. fold b in Hend.
  destruct (encode_split f payload Hw) as (e & i & t & E1 & L1 & E2 & L2 & Ei). fold b in E1, E2.
  assert (Hpl : 0 <= pkt_end payload) by (unfold pkt_end; lia).
  assert (Hiat : iphdr_at b 14 = Some (f_ip f)).
  { rewrite E2. replace 14 with (pkt_end t + 0) by lia. rewrite iphdr_at_app.
    apply encode_ip_at. lia. }
  assert (E3 : b = (t ++ encode_ip (f_ip f)) ++ i) by (rewrite E2; apply app_assoc).
  assert (L3 : pkt_end (t ++ encode_ip (f_ip f)) = 34)
    by (rewrite pkt_end_app, L2; reflexivity).
  assert (Htat : tcphdr_at b 34 = Some (f_tcp f)).
  { rewrite E3. replace 34 with (pkt_end (t ++ encode_ip (f_ip f)) + 0) by lia.
    rewrite tcphdr_at_app, Ei. by apply encode_tcp_at. }
  assert (Hoat : ts_at b 54 = Some (f_ts f)).
  { rewrite E3, Ei, app_assoc.
    replace 54 with (pkt_end ((t ++ encode_ip (f_ip f)) ++ encode_tcp (f_tcp f)) + 0)
      by (rewrite pkt_end_app, L3; reflexivity).
    rewrite ts_at_app. apply encode_ts_at. }
  assert (Hproto : rd16 b (0 + 12) = Some (eth_proto f)).
  { rewrite E1. replace (0 + 12) with (pkt_end e + 0) by lia. rewrite rd16_app by lia.
    transitivity (Some (eth_proto f mod 256 + 256 * (eth_proto f / 256))); [reflexivity|].
    by rewrite le16_join. }
  assert (Hvhl : rd8 b 14 = Some 69 /\ rd8 b (14 + 9) = Some IPPROTO_TCP).
  { rewrite E2. replace 14 with (pkt_end t + 0) by lia. rewrite <- Z.add_assoc, !rd8_app by lia.
    unfold encode_ip. rewrite Hv, Hh, Hp. split; reflexivity. }
  assert (Hdoff : rd8 b (34 + 12) = Some (th_res1 (f_tcp f) + 16 * th_doff (f_tcp f))).
  { rewrite E3, <- L3, rd8_app, Ei by lia. reflexivity. }
  destruct Ht as (_ & _ & _ & _ & Hr & Hd & _). destruct Hvhl as [Hvhl Hpr].
  unfold parse_ethhdr, parse_iphdr, parse_tcphdr. rewrite Hproto, Hend, He, Hvhl, Hpr, Hdoff.
  cbn [mbind option_bind]. change (69 / 16) with 4. change (69 mod 16) with 5.
  replace ((th_res1 (f_tcp f) + 16 * th_doff (f_tcp f)) / 16) with (th_doff (f_tcp f)) by lia.
  fold len. split_and!; try done;
    repeat (match goal with |- context [?x >? ?y] => destruct (Z.gtb_spec x y); [lia|]
            | |- context [?x <? ?y] => destruct (Z.ltb_spec x y); [lia|] end); reflexivity.
Qed.

Definition frame_ex : frame :=
  mk_frame [2; 0; 0; 0; 0; 1] [2; 0; 0; 0; 0; 2] (bpf_htons ETH_P_IP)
    (mk_iphdr 5 4 0 (bpf_htons 152) 0 0 255 IPPROTO_TCP 0 33554442 16777226)
    (mk_tcphdr 20480 47115 16777216 33554432 0 8 false false false false true false false false
       65535 0 0)
    (mk_tcp_timestamp_opt 1 2 3 4) 166.

Lemma parse_encode_witness :
  let b := encode frame_ex (replicate 102 7) in
  parse_ethhdr b 0 = Some (bpf_htons ETH_P_IP, 14) /\
  parse_iphdr b 14 = Some (IPPROTO_TCP, 34) /\ parse_tcphdr b 34 = Some (32, 66) /\
  iphdr_at b 14 = Some (f_ip frame_ex) /\ tcphdr_at b 34 = Some (f_tcp frame_ex) /\
  ts_at b 54 = Some (f_ts frame_ex).
Proof.
  apply (parse_encode frame_ex (replicate 102 7)); vm_compute;
    repeat (split || discriminate || reflexivity).
Defined.
