(* ===== verification/Xdp.v ===== *)
(** The XDP programs that dispatch packets to the handlers: [xdp_sock_prog],
    [xdp_gen_prog] and [xdp_egress_prog] of [eBPF/tcp/main.c], the neighbour
    cache of [eBPF/ebpf_fib.h] and the entrance programs of
    [eBPF/entrance/entrance.c].

    [mtp] selects the build ([MTP_ON]).  Results of kernel helpers that may
    fail, clock readings and the routing table are arguments.  [None] is a
    memory fault: a read outside the packet, or a handler's NULL write. *)
From stdpp Require Import gmap.
From S2P Require Import Prelude Intf Seq Headers Fifo AckQueue Pacing EtranTcp MtpTcp RxSafety Parse.
Local Open Scope Z_scope.
Local Open Scope u32_scope.

(** [struct dst_entry] *)
Record dst_entry := mk_dst_entry { de_valid : bool; de_smac : list Z; de_dmac : list Z }.

(** The maps and per-CPU variables the programs share, on one CPU. *)
Record xdp_state := mk_xdp_state {
  xs_conns : gmap ebpf_flow_tuple bpf_tcp_conn;
  xs_ccs : gmap Z bpf_cc;
  xs_acks : ack_queue;
  xs_prev : prev_conn_t;
  xs_tw : tw_state;
  xs_rx_cached_ts : Z;
  xs_slow : gmap Z slow_path_info;
  xs_fib : gmap Z dst_entry
}.

#[export] Instance eta_xdp_state : Eta xdp_state := fun r => mk_xdp_state
  (xs_conns r) (xs_ccs r) (xs_acks r) (xs_prev r) (xs_tw r) (xs_rx_cached_ts r) (xs_slow r)
  (xs_fib r).

(** What a program returns: an action, or the result of [bpf_redirect_map] on
    [xsks_map] with a key. *)
Inductive verdict := Act (a : xdp_action) | To_xsk (key : Z).

(** ** Neighbour cache *)

(** [find_dst_entry_in_cache] *)
Definition find_dst_entry_in_cache (f : frame) (fib : gmap Z dst_entry) : option frame :=
  match fib !! ip_daddr (f_ip f) with
  | None => None
  | Some d =>
    if negb (de_valid d) then None
    else Some (f <| eth_dest := de_dmac d |> <| eth_source := de_smac d |>
                 <| eth_proto := bpf_htons ETH_P_IP |>)
  end.

(** [update_dst_entry_in_cache]; the map update may fail. *)
Definition update_dst_entry_in_cache (f : frame) (ok : bool) (fib : gmap Z dst_entry)
  : bool * gmap Z dst_entry :=
  if ok then (true, <[ip_daddr (f_ip f) := mk_dst_entry true (eth_source f) (eth_dest f)]> fib)
  else (false, fib).

(** [fib_lookup]; [route] is [bpf_fib_lookup] on source and destination address:
    source and destination MAC of the next hop. *)
Definition fib_lookup (route : Z -> Z -> option (list Z * list Z)) (ok : bool) (f : frame)
  (fib : gmap Z dst_entry) : bool * frame * gmap Z dst_entry :=
  match find_dst_entry_in_cache f fib with
  | Some f => (true, f, fib)
  | None =>
    match route (ip_saddr (f_ip f)) (ip_daddr (f_ip f)) with
    | None => (false, f, fib)
    | Some (smac, dmac) =>
      let f := f <| eth_dest := dmac |> <| eth_source := smac |>
                 <| eth_proto := bpf_htons ETH_P_IP |> in
      let '(r, fib) := update_dst_entry_in_cache f ok fib in (r, f, fib)
    end
  end.

(** [xmit_packet_fib_lookup] and [xmit_packet]: a failed lookup is only logged. *)
Definition xmit_packet_fib_lookup (route : Z -> Z -> option (list Z * list Z)) (ok : bool)
  (f : frame) (st : xdp_state) : verdict * frame * xdp_state :=
  let '(_, f, fib) := fib_lookup route ok f (xs_fib st) in
  (Act XDP_TX, f, st <| xs_fib := fib |>).

(** ** Received packets *)

(** The call of [tcp_rx_process] on the connection at [key]: connection and
    control block are updated in their maps. *)
Definition rx_dispatch (mtp : bool) (cpu ktime ktime2 : Z) (io : interm_out) (f : frame)
  (pkt_len : Z) (key : ebpf_flow_tuple) (c : bpf_tcp_conn) (m : rx_meta) (st : xdp_state)
  : option (xdp_action * rx_meta * xdp_state) :=
  let cc := xs_ccs st !! cc_idx c in
  let store a c' cc' m st :=
    Some (a, m, st <| xs_conns := <[key := c']> (xs_conns st) |>
                   <| xs_ccs := match cc' with
                                | Some cc' => <[cc_idx c := cc']> (xs_ccs st)
                                | None => xs_ccs st
                                end |>) in
  if mtp then
    match mtp_rx_process ktime ktime2 (xs_rx_cached_ts st) (parse_pkt_to_event f) c cc io m
            (xs_acks st) with
    | None => None
    | Some (a, c', cc', m, q) => store a c' cc' m (st <| xs_acks := q |>)
    end
  else
    let ece := Z.land (ip_tos (f_ip f)) IPTOS_ECN_CE =? IPTOS_ECN_CE in
    let '(a, c', cc', m, pc) :=
      etran_rx_process cpu ktime (xs_rx_cached_ts st) (f_tcp f) (f_ts f) c cc pkt_len m ece
        (xs_prev st) in
    store a c' cc' m (st <| xs_prev := pc |>).

(** The acknowledgement of the connection seen before, when a packet of
    another connection arrives; a failure is only logged. *)
Definition flush_prev (ktime : Z) (st : xdp_state) : xdp_state :=
  let st := match enqueue_prev_ack ktime (xs_prev st) (xs_conns st) (xs_acks st) with
            | Some (conns, q) => st <| xs_conns := conns |> <| xs_acks := q |>
            | None => st
            end in
  st <| xs_prev := (xs_prev st) <| prev_conn := NULL_CONN |> |>.

Definition rx_key (f : frame) : ebpf_flow_tuple :=
  mk_ebpf_flow_tuple (bpf_ntohl (ip_daddr (f_ip f))) (bpf_ntohl (ip_saddr (f_ip f)))
    (bpf_ntohs (th_dest (f_tcp f))) (bpf_ntohs (th_source (f_tcp f))).

(** The label [slowpath]. *)
Definition to_slowpath (qid : Z) (st : xdp_state) : verdict :=
  match xs_slow st !! qid with
  | Some sp => if sp_active sp then To_xsk (sp_xsk_map_key sp) else Act XDP_DROP
  | None => Act XDP_DROP
  end.

(** [xdp_sock_prog] after the headers were parsed. *)
Definition sock_conn (mtp : bool) (cpu qid ktime ktime2 : Z) (io : interm_out) (f : frame)
  (m : rx_meta) (st : xdp_state) : option (verdict * rx_meta * xdp_state) :=
  let key := rx_key f in
  match xs_conns st !! key with
  | None => Some (Act XDP_DROP, m, st)
  | Some c =>
    let st := if negb (prev_conn (xs_prev st) =? NULL_CONN)
                 && negb (prev_conn (xs_prev st) =? cc_idx c)
              then flush_prev ktime st else st in
    let c := default c (xs_conns st !! key) in
    let m := m <| mrx_conn := opaque_connection c |> in
    match rx_dispatch mtp cpu ktime ktime2 io f (f_len f) key c m st with
    | None => None
    | Some (ret, m, st) =>
      if bool_decide (ret = XDP_REDIRECT) && (qid <? MAX_NIC_QUEUES)
      then key ← qid2xsk c !! Z.to_nat qid; Some (To_xsk key, m, st)
      else Some (Act XDP_DROP, m, st)
    end
  end.

(** [xdp_sock_prog] on a packet [b]. *)
Definition xdp_sock_prog (mtp : bool) (cpu qid ktime ktime2 : Z) (meta_ok : bool)
  (io : interm_out) (b : list Z) (st : xdp_state) : option (verdict * rx_meta * xdp_state) :=
  let m := meta_init qid 0xFFFFFFFFFFFFFFFF in
  let drop := Some (Act XDP_DROP, m, st) in
  if cpu >=? MAX_CPU then drop else
  if negb meta_ok then drop else
  '(h_proto, iph) ← parse_ethhdr b 0;
  if negb (h_proto =? bpf_htons ETH_P_IP) then drop else
  '(proto, tcph) ← parse_iphdr b iph;
  if negb (proto =? IPPROTO_TCP) then Some (Act XDP_PASS, m, st) else
  '(len, _) ← parse_tcphdr b tcph;
  if len <? 0 then drop else
  t ← tcphdr_at b tcph;
  if is_tcp_syn t || is_tcp_syn_ack t || is_tcp_rst t then Some (to_slowpath qid st, m, st) else
  if tcph + 20 + 10 >? pkt_end b then drop else
  o ← ts_at b (tcph + 20);
  h ← iphdr_at b iph;
  sock_conn mtp cpu qid ktime ktime2 io (mk_frame [] [] h_proto h t o (pkt_end b)) m st.

(** ** Generated acknowledgements *)

Definition XDP_GEN_PKT_SIZE : Z := 128.
Definition TCP_ACK_HEADER_CUTOFF : Z := XDP_GEN_PKT_SIZE - 14 - 20 - 20 - TS_OPT_SIZE.

(** The header fields written from an acknowledgement of the queue. *)
Definition gen_fill (ack : bpf_tcp_ack) (f : frame) : frame :=
  let o := (f_ts f) <| ts_kind := TCPI_OPT_TIMESTAMPS |> <| ts_length := 10 / 4 |>
                  <| ts_ts_val := bpf_htonl (ack_ts_val ack) |>
                  <| ts_ts_ecr := bpf_htonl (ack_ts_ecr ack) |> in
  let t := (f_tcp f) <| th_source := bpf_htons (ack_local_port ack) |>
                   <| th_dest := bpf_htons (ack_remote_port ack) |>
                   <| th_seq := bpf_htonl (ack_seq ack) |>
                   <| th_ack_seq := bpf_htonl (ack_ack ack) |>
                   <| th_doff := 5 + TS_OPT_SIZE / 4 |> <| th_res1 := 0 |>
                   <| th_fin := false |> <| th_syn := false |> <| th_rst := false |>
                   <| th_psh := false |> <| th_ack := true |> <| th_urg := false |>
                   <| th_ece := Z.odd (ack_ecn_flags ack) |> <| th_cwr := false |>
                   <| th_window := bpf_htons (u16 (ack_rxwnd ack)) |>
                   <| th_urg_ptr := 0 |> <| th_check := 0 |> in
  let h := (f_ip f) <| ip_saddr := bpf_htonl (ack_local_ip ack) |>
                  <| ip_daddr := bpf_htonl (ack_remote_ip ack) |> in
  f <| f_ts := o |> <| f_tcp := t |> <| f_ip := fill_ip_hdr h 0 false |>.

(** [xdp_gen_prog] on a fresh frame [f]; [tail_ok] is the outcome of
    [bpf_xdp_adjust_tail]. *)
Definition xdp_gen_prog (cpu ktime : Z) (tail_ok : bool)
  (route : Z -> Z -> option (list Z * list Z)) (fib_ok : bool) (f : frame) (st : xdp_state)
  : verdict * frame * xdp_state :=
  if cpu >=? MAX_CPU then (Act XDP_ABORTED, f, st) else
  let st := st <| xs_rx_cached_ts := 0 |> in
  let st := if negb (prev_conn (xs_prev st) =? NULL_CONN) then flush_prev ktime st else st in
  if negb tail_ok then (Act XDP_ABORTED, f, st) else
  let f := f <| f_len := f_len f - TCP_ACK_HEADER_CUTOFF |> in
  if 14 + 20 + 20 + 10 >? f_len f then (Act XDP_ABORTED, f, st) else
  if ackqueue_empty cpu (xs_acks st) then (Act XDP_ABORTED, f, st) else
  match dequeue_ack cpu (xs_acks st) with
  | (None, q) => (Act XDP_ABORTED, f, st <| xs_acks := q |>)
  | (Some ack, q) =>
    xmit_packet_fib_lookup route fib_ok (gen_fill ack f) (st <| xs_acks := q |>)
  end.

(** ** Submitted packets *)

Definition tx_key (f : frame) : ebpf_flow_tuple :=
  mk_ebpf_flow_tuple (bpf_ntohl (ip_saddr (f_ip f))) (bpf_ntohl (ip_daddr (f_ip f)))
    (bpf_ntohs (th_source (f_tcp f))) (bpf_ntohs (th_dest (f_tcp f))).

(** The call of [tcp_tx_process], with the event of the MTP build; [junk] is
    the uninitialised event structure. *)
Definition tx_dispatch (mtp : bool) (junk : app_timer_event) (tw_redirect : Z -> xdp_action)
  (e : tx_env) (t : tx_meta) (f : frame) (c : bpf_tcp_conn) (cc : option bpf_cc) (m : rx_meta) (s : tw_state)
  : option tx_out :=
  if mtp then
    let ev := if nz (Z.land (mtx_flag t) FLAG_TO) then parse_req_to_timer_event junk
              else parse_req_to_app_event junk t in
    mtp_tx_process tw_redirect e t ev f c cc m s
  else Some (etran_tx_process tw_redirect e t f c cc m s).

(** [xdp_egress_prog]; the result carries the bucket of the timing wheel the
    frame was put into. *)
Definition xdp_egress_prog (mtp : bool) (junk : app_timer_event)
  (tw_redirect : Z -> xdp_action) (e : tx_env) (qid : Z) (meta_ok : bool) (route : Z -> Z -> option (list Z * list Z)) (fib_ok : bool) (t : tx_meta)
  (m : rx_meta) (f : frame) (st : xdp_state)
  : option (verdict * option Z * frame * rx_meta * xdp_state) :=
  let drop := Some (Act XDP_DROP, None, f, m, st) in
  if negb meta_ok then drop else
  if 14 >? f_len f then drop else
  if 14 + 20 >? f_len f then drop else
  if nz (mtx_slowpath t) && negb (nz (Z.land (mtx_flag t) FLAG_TO)) then
    let '(v, f, st) := xmit_packet_fib_lookup route fib_ok f st in Some (v, None, f, m, st)
  else
  if 14 + 20 + 20 >? f_len f then drop else
  let key := tx_key f in
  match xs_conns st !! key with
  | None => drop
  | Some c =>
    if negb (local_ip c =? key_local_ip key) || negb (remote_ip c =? key_remote_ip key)
       || negb (local_port c =? key_local_port key) || negb (remote_port c =? key_remote_port key)
    then drop else
    match tx_dispatch mtp junk tw_redirect e t f c (xs_ccs st !! cc_idx c) m (xs_tw st) with
    | None => None
    | Some o =>
      let st := st <| xs_conns := <[key := to_conn o]> (xs_conns st) |>
                   <| xs_ccs := match to_cc o with
                                | Some cc => <[cc_idx c := cc]> (xs_ccs st)
                                | None => xs_ccs st
                                end |>
                   <| xs_tw := to_tw o |> in
      let f := to_frame o in
      match to_action o with
      | XDP_DROP => Some (Act XDP_DROP, None, f, to_meta o, st)
      | a =>
        let f := f <| eth_proto := bpf_htons ETH_P_IP |> <| eth_dest := remote_mac c |>
                   <| eth_source := local_mac c |> in
        match a with
        | XDP_REDIRECT =>
          Some (Act XDP_REDIRECT, to_bucket o, f, to_meta o,
                st <| xs_tw := kick_tw (te_cpu e) (xs_tw st) |>)
        | XDP_PASS =>
          if qid >=? MAX_NIC_QUEUES then Some (Act XDP_DROP, None, f, to_meta o, st) else
          xsk ← qid2xsk c !! Z.to_nat qid; Some (To_xsk xsk, None, f, to_meta o, st)
        | _ => Some (Act XDP_TX, None, f, to_meta o, st)
        end
      end
    end
  end.

(** ** The entrance programs

    A tail call that fails falls through; [Tail i] is the transport program
    that runs. *)
Definition IPPROTO_HOMA : Z := 0xFD.

Inductive entry := Tail (prog : Z) | Ret (a : xdp_action).

Definition entrance_xdp_sock (b : list Z) (tran_xdp_map : Z -> bool) : option entry :=
  '(proto, iph) ← parse_ethhdr b 0;
  if negb (proto =? bpf_htons ETH_P_IP) then Some (Ret XDP_DROP) else
  '(proto, _) ← parse_iphdr b iph;
  if proto =? IPPROTO_TCP then
    Some (if tran_xdp_map 0 then Tail 0 else Ret XDP_PASS)
  else if proto =? IPPROTO_HOMA then
    Some (if tran_xdp_map 1 then Tail 1 else Ret XDP_PASS)
  else Some (Ret XDP_PASS).

Definition entrance_by_umem (fail : xdp_action) (umem_id : Z) (umem_id_tran_map : gmap Z Z)
  (tran_map : Z -> bool) : entry :=
  match umem_id_tran_map !! umem_id with
  | None => Ret XDP_DROP
  | Some i => if tran_map i then Tail i else Ret fail
  end.

(** ** The receive program never reads outside the packet *)

Definition xsk_arrays (conns : gmap ebpf_flow_tuple bpf_tcp_conn) : Prop :=
  forall k c, conns !! k = Some c -> length (qid2xsk c) = Z.to_nat MAX_NIC_QUEUES.

Definition prev_key (pc : prev_conn_t) : ebpf_flow_tuple :=
  mk_ebpf_flow_tuple (prev_conn_li pc) (prev_conn_ri pc) (prev_conn_lp pc) (prev_conn_rp pc).

(** [flush_prev] only clears the timestamp of the remembered connection. *)
Lemma flush_prev_conns ktime st k :
  xs_conns (flush_prev ktime st) !! k = xs_conns st !! k \/
  (k = prev_key (xs_prev st) /\ exists c, xs_conns st !! k = Some c /\
   xs_conns (flush_prev ktime st) !! k = Some (c <| tx_next_ts := 0 |>)).
Proof.
  unfold flush_prev, enqueue_prev_ack. fold (prev_key (xs_prev st)).
  destruct (_ =? aq_next _); [by left|].
  destruct (aq_lookup _ _); [|by left].
  destruct (xs_conns st !! prev_key (xs_prev st)) as [c|] eqn:E; [|by left]. cbn.
  destruct (decide (k = prev_key (xs_prev st))) as [->|Hne].
  - right. split; [done|]. exists c. by rewrite lookup_insert_eq.
  - left. by rewrite lookup_insert_ne.
Qed.

Lemma flush_prev_arrays ktime st : xsk_arrays (xs_conns st) -> xsk_arrays (xs_conns (flush_prev ktime st)).
Proof.
  intros H k c Hk. destruct (flush_prev_conns ktime st k) as [E|(_ & c' & E & E')].
  - rewrite E in Hk. by apply (H k).
  - rewrite E' in Hk. injection Hk as <-. by apply (H k c').
Qed.

(** What keeps the handlers of the MTP build from a NULL write: room in the
    acknowledgement ring, and sequence numbers that have not wrapped around
    between the oldest unacknowledged byte and the last one sent. *)
Definition mtp_room (mtp : bool) (st : xdp_state) : Prop :=
  mtp = true -> prev_conn (xs_prev st) = NULL_CONN /\ aq_wf (xs_acks st) /\ (length (ack_list (xs_acks st)) < 63)%nat /\
    forall k c, xs_conns st !! k = Some c -> send_una c <= buf_curr_seq c.

Lemma fast_retr_numbers ev c io cc :
  let c' := (fast_retr_rec_ep ev c io cc).1.1 in send_una c' = send_una c /\ buf_curr_seq c' = buf_curr_seq c.
Proof.
  unfold fast_retr_rec_ep. destruct (rxack _ _ _); [|done]. destruct (nz _); [done|]. destruct (_ =? _); [|done].
  destruct (_ =? 3); [|done]. unfold mtp_go_back. by repeat case_match; simplify_eq.
Qed.

Lemma mtp_rx_defined ktime ktime2 rxc ev c cc io m q :
  aq_wf q -> (length (ack_list q) < 63)%nat -> send_una c <= buf_curr_seq c ->
  mtp_rx_process ktime ktime2 rxc ev c cc io m q <> None.
Proof.
  intros Hq Hl Hc. unfold mtp_rx_process. destruct cc as [cc|]; [|done]. destruct (ne_minor_type _).
  - unfold mtp_data_chain. destruct (verify_trim_data_ep _ _ _ _) as [[ev1 io1] m1].
    destruct (detect_ooo_data_ep _ _ _ _) as [[[ev2 c2] io2] m2]. destruct (flush_ooo_data_ep _ _ _) as [c3 io3].
    destruct (data_net_ep _ _ _ _) as [io4 m4]. unfold send_ack. destruct (negb _); [done|].
    match goal with |- context [mtp_pkt_gen_for_xdp_gen ?bp ?x ?y] =>
      pose proof (mtp_pkt_gen_append bp x y Hq) as H; destruct (mtp_pkt_gen_for_xdp_gen bp x y) as [[c5 q5]|] end;
      [done|lia].
  - unfold mtp_ack_chain. match goal with |- context [fast_retr_rec_ep ?e ?y ?z ?x] =>
      pose proof (fast_retr_numbers e y z x) as [Hs Hb]; destruct (fast_retr_rec_ep e y z x) as [[c1 io1] cc1] end.
    cbn [fst] in Hs, Hb. unfold ack_net_ep. destruct (_ =? 3).
    + unfold mtp_pkt_gen_wrapper. cbn [orb]. match goal with |- context [?a <? ?b] => destruct (Z.ltb_spec a b) as [H|H] end; [|done].
      cbn in H. lia.
    + match goal with |- context [if negb (io_drop io1) then ?x else ?y] => destruct (if negb (io_drop io1) then x else y) as [c2 cc2] end.
      by destruct (mtp_tx_data_flush _ _ _ _).
Qed.

Lemma rx_dispatch_defined mtp cpu ktime ktime2 io f n key c m st :
  mtp_room mtp st -> (mtp = true -> send_una c <= buf_curr_seq c) ->
  exists a m' st', rx_dispatch mtp cpu ktime ktime2 io f n key c m st = Some (a, m', st').
Proof.
  intros Hr Hc. unfold rx_dispatch. destruct mtp.
  - destruct (Hr eq_refl) as (_ & Hq & Hl & _).
    destruct (mtp_rx_process _ _ _ _ _ _ _ _ _) as [[[[[a c'] cc'] m'] q]|] eqn:E; [by eexists _, _, _|].
    exfalso. exact (mtp_rx_defined _ _ _ _ _ _ _ _ _ Hq Hl (Hc eq_refl) E).
  - destruct (etran_rx_process _ _ _ _ _ _ _ _ _ _ _) as [[[[a c'] cc'] m'] pc]. by eexists _, _, _.
Qed.

Lemma sock_conn_safe mtp cpu qid ktime ktime2 io f m st :
  0 <= qid -> xsk_arrays (xs_conns st) -> mtp_room mtp st -> sock_conn mtp cpu qid ktime ktime2 io f m st <> None.
Proof.
  intros Hq Ha Hroom. unfold sock_conn. destruct (xs_conns st !! rx_key f) as [c|] eqn:E; [|done].
  set (st1 := if _ && _ then _ else st).
  assert (Ha1 : xsk_arrays (xs_conns st1)) by (subst st1; split_if; [by apply flush_prev_arrays|done]).
  set (c1 := default c _).
  assert (Hc1 : length (qid2xsk c1) = Z.to_nat MAX_NIC_QUEUES).
  { subst c1. destruct (xs_conns st1 !! rx_key f) as [c2|] eqn:E2; [by apply (Ha1 (rx_key f))|].
    by apply (Ha (rx_key f)). }
  assert (Hr1 : mtp_room mtp st1 /\ (mtp = true -> send_una c1 <= buf_curr_seq c1)).
  { assert (Hst : mtp = true -> st1 = st) by (intros Hm; destruct (Hroom Hm) as (Hp & _); subst st1; by rewrite Hp).
    split; intros Hm; subst c1; rewrite (Hst Hm); [by apply Hroom|].
    rewrite E. cbn. destruct (Hroom Hm) as (_ & _ & _ & H). by apply (H (rx_key f)). }
  destruct Hr1 as [Hr1 Hs1]. clearbody c1 st1.
  edestruct (rx_dispatch_defined mtp cpu ktime ktime2 io f (f_len f) (rx_key f) c1
    (m <| mrx_conn := opaque_connection c1 |>) st1 Hr1 Hs1) as (a & m' & st' & ->).
  destruct (bool_decide _); [|done]. cbn. destruct (Z.ltb_spec qid MAX_NIC_QUEUES); [|done].
  destruct (lookup_lt_is_Some_2 (qid2xsk c1) (Z.to_nat qid)) as [x ->]; [lia|done].
Qed.

(** C32. The receive program is memory safe on every packet: whatever the bytes
    (short frames, VLAN tags, IP and TCP header lengths that do not fit), each
    header field it reads lies inside the packet, and it ends with a verdict.
    In the eTran build this holds in every state whose connections have their
    array of queues.  In the MTP build, where the handlers can write through
    NULL, three conditions are added: fewer than 63 acknowledgements are
    pending; no connection has a [send_una] above its [buf_curr_seq], as it has
    when the sequence numbers wrap around; and no acknowledgement is being
    coalesced, which that build never does. *)
Theorem xdp_sock_memory_safe (mtp : bool) (cpu qid ktime ktime2 : Z) (meta_ok : bool) (io : interm_out)
  (b : list Z) (st : xdp_state) :
  bytes b -> 0 <= qid -> xsk_arrays (xs_conns st) ->
  (mtp = true -> prev_conn (xs_prev st) = NULL_CONN /\ aq_wf (xs_acks st) /\ (length (ack_list (xs_acks st)) < 63)%nat /\
     forall k c, xs_conns st !! k = Some c -> send_una c <= buf_curr_seq c) ->
  exists v m st', xdp_sock_prog mtp cpu qid ktime ktime2 meta_ok io b st = Some (v, m, st').
Proof.
  intros Hb Hq Ha Hroom. unfold xdp_sock_prog.
  destruct (_ >=? _); [by eexists _, _, _|]. destruct (negb meta_ok); [by eexists _, _, _|].
  destruct (parse_ethhdr_safe b Hb) as (r & p & -> & Hp). cbn [mbind option_bind].
  destruct (Z.eqb_spec r (bpf_htons ETH_P_IP)) as [->|]; cbn [negb]; [|by eexists _, _, _].
  specialize (Hp ltac:(done)).
  destruct (parse_iphdr_safe b p Hb ltac:(lia)) as (r & q & -> & Hq'). cbn [mbind option_bind].
  destruct (Z.eqb_spec r IPPROTO_TCP) as [->|]; cbn [negb]; [|by eexists _, _, _].
  specialize (Hq' ltac:(done)).
  destruct (parse_tcphdr_safe b q Hb ltac:(lia)) as (len & e & -> & He). cbn [mbind option_bind].
  destruct (Z.ltb_spec len 0); [by eexists _, _, _|].
  destruct (tcphdr_at_some b q Hb ltac:(lia) ltac:(lia)) as [t ->]. cbn [mbind option_bind].
  destruct (_ || _ || _); [by eexists _, _, _|].
  destruct (Z.gtb_spec (q + 20 + 10) (pkt_end b)); [by eexists _, _, _|].
  destruct (ts_at_some b (q + 20) Hb ltac:(lia) ltac:(lia)) as [o ->]. cbn [mbind option_bind].
  destruct (iphdr_at_some b p Hb ltac:(lia) ltac:(lia)) as [h ->]. cbn [mbind option_bind].
  destruct (sock_conn _ _ _ _ _ _ _ _ _) as [[[v m] st']|] eqn:E; [by eexists _, _, _|].
  exfalso. exact (sock_conn_safe _ _ _ _ _ _ _ _ _ Hq Ha Hroom E).
Qed.

(** A connection of the examples, registered under the key of its packets. *)
Definition conn_ex : bpf_tcp_conn :=
  conn_blank <| qid2xsk := replicate 20 3 |> <| local_mac := [2; 0; 0; 0; 0; 1] |>
             <| remote_mac := [2; 0; 0; 0; 0; 2] |>.

Definition st_ex : xdp_state :=
  mk_xdp_state {[ mk_ebpf_flow_tuple 1 2 80 1024 := conn_ex ]} {[ 0 := cc_blank ]}
    (aq_init (replicate 64 ack_blank)) pc_none (mk_tw_state 0 0 false false 0) 0 ∅ ∅.

Definition io_none : interm_out := mk_interm_out false false false false false 0 0.

(** [n] payload bytes at sequence number 1, from the peer of [conn_ex]. *)
Definition segment_ex (n : Z) : frame :=
  mk_frame (replicate 6 1) (replicate 6 2) (bpf_htons ETH_P_IP)
    (mk_iphdr 5 4 0 (bpf_htons (52 + n)) 0 0 255 IPPROTO_TCP 0 (bpf_htonl 2) (bpf_htonl 1))
    (mk_tcphdr (bpf_htons 1024) (bpf_htons 80) (bpf_htonl 1) 0 0 8
       false false false false false false false false 0 0 0)
    (mk_tcp_timestamp_opt 1 2 0 0) 0.

(** The bytes of that frame; the option is padded to 12 bytes. *)
Definition packet_ex (n : Z) : list Z :=
  encode (segment_ex n) ([0; 0] ++ replicate (Z.to_nat n) 7).

Lemma xdp_sock_memory_safe_witness :
  exists v m st', xdp_sock_prog true 0 0 5000 5000 true io_none (packet_ex 100) st_ex
                  = Some (v, m, st').
Proof.
  apply (xdp_sock_memory_safe true 0 0 5000 5000 true io_none (packet_ex 100) st_ex).
  - apply Forall_forall. unfold packet_ex, in8. intros x Hx.
    assert (Hall : forallb (fun y => (0 <=? y) && (y <? 256))
      (encode (segment_ex 100) ([0; 0] ++ replicate (Z.to_nat 100) 7)) = true) by reflexivity.
    rewrite forallb_forall in Hall. apply Hall in Hx. lia.
  - lia.
  - intros k c Hk. cbn in Hk. apply lookup_singleton_Some in Hk as [_ <-]. reflexivity.
  - intros _. split_and!; [reflexivity|apply aq_init_wf|vm_compute; lia|].
    intros k c Hk. cbn in Hk. apply lookup_singleton_Some in Hk as [_ <-]. cbn. lia.
Defined.

(** ** A packet touches its own connection only *)

Lemma rx_dispatch_conns mtp cpu ktime ktime2 io f n key c m st a m' st' k :
  rx_dispatch mtp cpu ktime ktime2 io f n key c m st = Some (a, m', st') ->
  k <> key -> xs_conns st' !! k = xs_conns st !! k.
Proof.
  unfold rx_dispatch. intros H Hk. destruct mtp.
  - destruct (mtp_rx_process _ _ _ _ _ _ _ _ _) as [[[[[a' c'] cc'] m1] q]|]; [|done].
    injection H as _ _ <-. cbn. by rewrite lookup_insert_ne.
  - destruct (etran_rx_process _ _ _ _ _ _ _ _ _ _ _) as [[[[a' c'] cc'] m1] pc].
    injection H as _ _ <-. cbn. by rewrite lookup_insert_ne.
Qed.

(** C33. Connections are isolated: in both builds, a received packet changes no
    connection but the one its addresses and ports name, except that the
    timestamp of the connection whose acknowledgement was being coalesced is
    cleared when that acknowledgement is queued. *)
Theorem xdp_sock_isolates (mtp : bool) (cpu qid ktime ktime2 : Z) (io : interm_out) (f : frame)
  (m m' : rx_meta) (st st' : xdp_state) (v : verdict) (k : ebpf_flow_tuple) :
  sock_conn mtp cpu qid ktime ktime2 io f m st = Some (v, m', st') -> k <> rx_key f ->
  xs_conns st' !! k = xs_conns st !! k \/
  (k = prev_key (xs_prev st) /\ exists c, xs_conns st !! k = Some c /\
   xs_conns st' !! k = Some (c <| tx_next_ts := 0 |>)).
Proof.
  unfold sock_conn. intros H Hk.
  destruct (xs_conns st !! rx_key f) as [c|]; [|injection H as _ _ <-; by left].
  set (st1 := if _ && _ then _ else st) in H.
  destruct (rx_dispatch _ _ _ _ _ _ _ _ _ _ _) as [[[a m1] st2]|] eqn:E; [|done].
  apply (rx_dispatch_conns _ _ _ _ _ _ _ _ _ _ _ _ _ _ k) in E; [|done].
  assert (Hst : st' = st2).
  { destruct (bool_decide _ && _); [|congruence].
    destruct (qid2xsk _ !! _); cbn in H; congruence. }
  subst st'. rewrite E. subst st1. destruct (_ && _); [apply flush_prev_conns|by left].
Qed.

Lemma xdp_sock_isolates_witness :
  exists v m' st', sock_conn false 0 0 5000 5000 io_none ((segment_ex 100) <| f_len := 166 |>)
    (meta_init 0 0) st_ex = Some (v, m', st') /\
  xs_conns st' !! mk_ebpf_flow_tuple 1 3 80 1024 = xs_conns st_ex !! mk_ebpf_flow_tuple 1 3 80 1024.
Proof.
  destruct (sock_conn false 0 0 5000 5000 io_none ((segment_ex 100) <| f_len := 166 |>)
    (meta_init 0 0) st_ex) as [[[v m'] st']|] eqn:E.
  - exists v, m', st'. split; [reflexivity|].
    destruct (xdp_sock_isolates false 0 0 5000 5000 io_none ((segment_ex 100) <| f_len := 166 |>)
      (meta_init 0 0) m' st_ex st' v (mk_ebpf_flow_tuple 1 3 80 1024) E ltac:(discriminate))
      as [H|(H & _)]; [exact H|discriminate].
  - apply (f_equal (fun o : option (verdict * rx_meta * xdp_state) =>
      match o with Some _ => 1 | None => 0 end)) in E. vm_compute in E. discriminate.
Defined.

(** ** Acknowledgements on the wire *)

Record ack_wf (a : bpf_tcp_ack) : Prop := {
  aw_lip : in32 (ack_local_ip a); aw_rip : in32 (ack_remote_ip a);
  aw_lp : in16 (ack_local_port a); aw_rp : in16 (ack_remote_port a);
  aw_seq : in32 (ack_seq a); aw_ack : in32 (ack_ack a); aw_wnd : in16 (ack_rxwnd a);
  aw_val : in32 (ack_ts_val a); aw_ecr : in32 (ack_ts_ecr a)
}.

(** What the peer's parser and key lookup read of a generated frame. *)
Definition ack_event (a : bpf_tcp_ack) : net_event :=
  {| ne_minor_type := NET_EVENT_ACK; ne_ack_seq := ack_ack a; ne_rwnd_size := ack_rxwnd a;
     ne_ts_ecr := ack_ts_ecr a; ne_data_len := 0; ne_ts_val := ack_ts_val a;
     ne_seq_num := ack_seq a; ne_ecn_mark := Z.odd (ack_ecn_flags a); ne_timestamp := 0 |}.

Lemma gen_fill_event (a : bpf_tcp_ack) (f : frame) : ack_wf a ->
  parse_pkt_to_event (gen_fill a f) = ack_event a /\
  rx_key (gen_fill a f) =
  mk_ebpf_flow_tuple (ack_remote_ip a) (ack_local_ip a) (ack_remote_port a) (ack_local_port a).
Proof.
  intros [H1 H2 H3 H4 H5 H6 H7 H8 H9].
  unfold parse_pkt_to_event, rx_key, gen_fill, fill_ip_hdr, ack_event.
  cbn -[bpf_ntohl bpf_ntohs bpf_htons bpf_htonl ipv4_csum_inline].
  rewrite !bpf_ntohl_htonl, !bpf_ntohs_htons, u16_small by (done || by rewrite u16_small).
  split; reflexivity.
Qed.

Lemma fib_lookup_frame route ok f fib :
  let '(_, f', _) := fib_lookup route ok f fib in
  f_ip f' = f_ip f /\ f_tcp f' = f_tcp f /\ f_ts f' = f_ts f.
Proof.
  unfold fib_lookup, find_dst_entry_in_cache, update_dst_entry_in_cache.
  destruct (fib !! _) as [d|]; [destruct (negb (de_valid d)); [|done]|];
    (destruct (route _ _) as [[s d']|]; [destruct ok; done|done]).
Qed.

(** The state [xdp_gen_prog] works on: the coalesced acknowledgement is queued
    first. *)
Definition gen_flushed (ktime : Z) (st : xdp_state) : xdp_state :=
  let st := st <| xs_rx_cached_ts := 0 |> in
  if negb (prev_conn (xs_prev st) =? NULL_CONN) then flush_prev ktime st else st.

(** C31. The acknowledgement generator sends the queue, in order: on a frame of
    128 bytes that can be cut it takes the oldest pending acknowledgement, the
    coalesced one included, and transmits a frame in which the peer's program
    reads exactly its numbers, window and timestamps as a pure
    acknowledgement, under the key of the peer's own connection. *)
Theorem xdp_gen_sends_oldest (cpu ktime : Z) (route : Z -> Z -> option (list Z * list Z))
  (fib_ok : bool) (f : frame) (st : xdp_state) (a : bpf_tcp_ack) (l : list bpf_tcp_ack) :
  cpu < MAX_CPU -> f_len f = XDP_GEN_PKT_SIZE -> aq_wf (xs_acks (gen_flushed ktime st)) ->
  ack_list (xs_acks (gen_flushed ktime st)) = a :: l -> ack_wf a ->
  exists f' st', xdp_gen_prog cpu ktime true route fib_ok f st = (Act XDP_TX, f', st') /\
    parse_pkt_to_event f' = ack_event a /\
    rx_key f' = mk_ebpf_flow_tuple (ack_remote_ip a) (ack_local_ip a) (ack_remote_port a)
                  (ack_local_port a) /\
    ack_list (xs_acks st') = l /\ aq_wf (xs_acks st') /\
    prev_conn (xs_prev (gen_flushed ktime st)) = NULL_CONN /\
    xs_conns st' = xs_conns (gen_flushed ktime st).
Proof.
  intros Hcpu Hlen Hwf Hl Ha. set (st1 := gen_flushed ktime st) in *.
  assert (Hne : aq_prod (xs_acks st1) <> aq_cons (xs_acks st1)).
  { intros E. apply (ack_list_nil _ Hwf) in E. congruence. }
  destruct (ack_list_pop _ Hwf Hne) as (Hwf' & a' & Ha' & Hl'). rewrite Hl in Hl'.
  injection Hl' as <- ->.
  assert (Hq : ackqueue_empty cpu (xs_acks st1) = false /\
    dequeue_ack cpu (xs_acks st1)
    = (Some a, (xs_acks st1) <| aq_cons := aq_next (aq_cons (xs_acks st1)) |>)).
  { unfold ackqueue_empty, dequeue_ack. destruct (Z.geb_spec cpu MAX_CPU); [lia|].
    destruct (Z.eqb_spec (aq_prod (xs_acks st1)) (aq_cons (xs_acks st1))); [done|].
    by rewrite Ha'. }
  destruct Hq as [He Hd].
  set (q' := (xs_acks st1) <| aq_cons := _ |>) in *.
  set (f1 := f <| f_len := f_len f - TCP_ACK_HEADER_CUTOFF |>).
  assert (Hp : xdp_gen_prog cpu ktime true route fib_ok f st =
    xmit_packet_fib_lookup route fib_ok (gen_fill a f1) (st1 <| xs_acks := q' |>)).
  { unfold xdp_gen_prog. destruct (Z.geb_spec cpu MAX_CPU); [lia|].
    fold st1. change (if negb (prev_conn (xs_prev (st <| xs_rx_cached_ts := 0 |>)) =? NULL_CONN)
      then flush_prev ktime (st <| xs_rx_cached_ts := 0 |>)
      else st <| xs_rx_cached_ts := 0 |>) with st1. cbn [negb]. fold f1.
    replace (f_len f1) with 66 by (subst f1; cbn; rewrite Hlen; reflexivity).
    change (14 + 20 + 20 + 10 >? 66) with false. by rewrite He, Hd. }
  rewrite Hp. unfold xmit_packet_fib_lookup.
  pose proof (fib_lookup_frame route fib_ok (gen_fill a f1) (xs_fib (st1 <| xs_acks := q' |>))) as Hf.
  destruct (fib_lookup _ _ _ _) as [[r f'] fib']. destruct Hf as (F1 & F2 & F3).
  destruct (gen_fill_event a f1 Ha) as [Hev Hkey].
  eexists _, _. split; [reflexivity|]. split_and!; try done.
  - rewrite <- Hev. unfold parse_pkt_to_event. by rewrite F1, F2, F3.
  - rewrite <- Hkey. unfold rx_key. by rewrite F1, F2.
  - subst st1. unfold gen_flushed. destruct (Z.eqb_spec (prev_conn (xs_prev (st <| xs_rx_cached_ts := 0 |>))) NULL_CONN);
      [done|reflexivity].
Qed.

Lemma xdp_gen_sends_oldest_witness :
  exists f' st', xdp_gen_prog 0 9000 true (fun _ _ => None) true (frame_blank <| f_len := 128 |>)
      (st_ex <| xs_prev := mk_prev_conn 0 1 80 2 1024 0 |>) = (Act XDP_TX, f', st') /\
    ne_ack_seq (parse_pkt_to_event f') = 1.
Proof.
  set (st := st_ex <| xs_prev := mk_prev_conn 0 1 80 2 1024 0 |>).
  destruct (ack_list (xs_acks (gen_flushed 9000 st))) as [|a l] eqn:E.
  { apply (f_equal length) in E. vm_compute in E. discriminate. }
  assert (Ea : a = fill_ack conn_ex ack_blank 9000 false /\ l = []).
  { vm_compute in E. injection E as <- <-. by split. }
  destruct Ea as [-> ->].
  destruct (xdp_gen_sends_oldest 0 9000 (fun _ _ => None) true (frame_blank <| f_len := 128 |>) st
    (fill_ack conn_ex ack_blank 9000 false) []) as (f' & st' & H1 & H2 & _);
    [reflexivity|reflexivity|split; vm_compute; repeat split; discriminate|exact E|
     split; vm_compute; split; discriminate || reflexivity|].
  exists f', st'. split; [exact H1|]. rewrite H2. reflexivity.
Defined.

(** ** Tagged frames *)

(** The segment of [packet_ex] behind one VLAN tag. *)
Definition vlan_packet_ex (n : Z) : list Z :=
  replicate 6 1 ++ replicate 6 2 ++ le16 (bpf_htons ETH_P_8021Q) ++ [0; 5]
  ++ le16 (bpf_htons ETH_P_IP) ++ encode_ip (f_ip (segment_ex n)) ++ encode_tcp (f_tcp (segment_ex n))
  ++ encode_ts (f_ts (segment_ex n)) ++ [0; 0] ++ replicate (Z.to_nat n) 7.

(** Payload offsets ignore what the parser skipped: the parsers step over
    VLAN tags (and IP options), but both handlers tell user space a payload at
    the fixed offset of an untagged frame.  For a tagged segment of 100 bytes
    whose payload starts at offset 70, the eTran build hands over 104 bytes
    from offset 66 and acknowledges 104, and the MTP build hands over 100 bytes
    from offset 66: in both the last four bytes of the headers are delivered
    as data. *)
Theorem xdp_sock_vlan_shifts_payload :
  let b := vlan_packet_ex 100 in
  parse_tcphdr b 38 = Some (32, 70) /\ pkt_end b = 170 /\
  (exists v m st', xdp_sock_prog false 0 0 5000 5000 true io_none b st_ex = Some (v, m, st') /\
     v = To_xsk 3 /\ mrx_poff m = 66 /\ mrx_plen m = 104 /\
     (rx_next_seq <$> xs_conns st' !! mk_ebpf_flow_tuple 1 2 80 1024) = Some 105) /\
  (exists v m st', xdp_sock_prog true 0 0 5000 5000 true io_none b st_ex = Some (v, m, st') /\
     v = To_xsk 3 /\ mrx_poff m = 66 /\ mrx_plen m = 100).
Proof.
  cbv zeta. split; [reflexivity|]. split; [reflexivity|].
  split; eexists _, _, _; (split; [vm_compute; reflexivity|]); vm_compute; by split_and!.
Qed.

(** ** Submitted packets leave only for registered connections *)

(** No handler changes the addresses or ports of a frame. *)
Definition same_flow (f f' : frame) : Prop :=
  ip_saddr (f_ip f') = ip_saddr (f_ip f) /\ ip_daddr (f_ip f') = ip_daddr (f_ip f) /\
  th_source (f_tcp f') = th_source (f_tcp f) /\ th_dest (f_tcp f') = th_dest (f_tcp f).

Lemma fill_tcp_hdr_flow f c ts fl n e :
  same_flow f ((fill_tcp_hdr f c ts fl) <| f_ip := fill_ip_hdr (f_ip (fill_tcp_hdr f c ts fl)) n e |>).
Proof. unfold fill_tcp_hdr. by split_if. Qed.

Lemma mtp_fill_tcp_hdr_flow f c fl bp n e :
  same_flow f ((mtp_fill_tcp_hdr f c fl bp)
                 <| f_ip := fill_ip_hdr (f_ip (mtp_fill_tcp_hdr f c fl bp)) n e |>).
Proof. unfold mtp_fill_tcp_hdr. by split_if. Qed.

Lemma tx_depart_keeps_frame r e d ref only o cc : to_frame (tx_depart r e d ref only o cc) = to_frame o.
Proof.
  unfold tx_depart. repeat (split_if; [done|]).
  destruct (tw_insert _ _ _ _) as [i s]. by split_if.
Qed.

Lemma tx_sync_flow w ref f o : same_flow f (to_frame o) -> same_flow f (to_frame (tx_sync w ref o)).
Proof.
  unfold tx_sync. destruct w; [|done]. intros (H1 & H2 & H3 & H4).
  destruct (fill_tcp_hdr_flow (to_frame o) (to_conn o) ref TCP_FLAG_ACK 0 false) as (G1 & G2 & G3 & G4).
  unfold same_flow. cbn in *. by rewrite G1, G2, G3, G4.
Qed.

Lemma etran_tx_flow r e t f c cc m s : same_flow f (to_frame (etran_tx_process r e t f c cc m s)).
Proof.
  unfold etran_tx_process. destruct (_ >=? _); [done|]. destruct cc as [cc|]; [|done].
  destruct (nz (Z.land (mtx_flag t) FLAG_TO)).
  { unfold tx_timeout. destruct (negb _); [done|]. by destruct (fast_retransmit _ _) as [[? ?] ?]. }
  destruct (tx_rx_bump _ _) as [w c1]. destruct (nz (Z.land (mtx_flag t) FLAG_SYNC)).
  { by apply tx_sync_flow. }
  destruct (negb _); [done|]. destruct (cc_get_desired_tx_ts _ _ _) as [d cc1].
  destruct (etran_send _ _ _) as [c2 cc2]. rewrite tx_depart_keeps_frame. apply fill_tcp_hdr_flow.
Qed.

Lemma mtp_tx_flow r e t ev f c cc m s o :
  mtp_tx_process r e t ev f c cc m s = Some o -> same_flow f (to_frame o).
Proof.
  unfold mtp_tx_process. destruct (_ >=? _); [by intros [= <-]|].
  destruct cc as [cc|]; [|by intros [= <-]].
  destruct (tx_rx_bump _ _) as [w c1]. destruct (nz (Z.land (mtx_flag t) FLAG_SYNC)).
  { intros [= <-]. by apply tx_sync_flow. }
  destruct (negb _); [by intros [= <-]|]. destruct (cc_get_desired_tx_ts _ _ _) as [d cc1].
  destruct (ae_type _).
  - destruct (ack_timeout_xdp_ep _ _ _) as [[[[a c2] cc2] m2]|]; [|done]. by intros [= <-].
  - unfold send_ep. cbn [mtp_pkt_gen_wrapper orb]. intros [= <-]. rewrite tx_depart_keeps_frame.
    apply mtp_fill_tcp_hdr_flow.
  - intros [= <-]. by rewrite tx_depart_keeps_frame.
Qed.

Lemma same_flow_key f f' : same_flow f f' -> tx_key f' = tx_key f.
Proof. unfold tx_key. by intros (-> & -> & -> & ->). Qed.

(** C34. A packet submitted on the fast path reaches the network only for a
    registered connection: in both builds, a packet whose metadata does not
    have the slow-path mark and that is transmitted or put into the timing
    wheel belongs to a connection in the map, carries that connection's
    addresses and ports, and has the connection's MAC addresses, whatever the
    application wrote there; no other connection is changed.  The mark is part
    of the metadata that the submitter writes, and a marked packet leaves
    without these checks, as a TODO in [tcp/main.c] says. *)
Theorem xdp_egress_authentic (mtp : bool) (junk : app_timer_event) (r : Z -> xdp_action)
  (e : tx_env) (qid : Z) (meta_ok : bool) (route : Z -> Z -> option (list Z * list Z))
  (fib_ok : bool) (t : tx_meta) (m m' : rx_meta) (f f' : frame) (st st' : xdp_state)
  (v : verdict) (bkt : option Z) :
  mtx_slowpath t = 0 ->
  xdp_egress_prog mtp junk r e qid meta_ok route fib_ok t m f st = Some (v, bkt, f', m', st') ->
  v = Act XDP_TX \/ v = Act XDP_REDIRECT ->
  exists c, xs_conns st !! tx_key f = Some c /\
    tx_key f' = mk_ebpf_flow_tuple (local_ip c) (remote_ip c) (local_port c) (remote_port c) /\
    eth_source f' = local_mac c /\ eth_dest f' = remote_mac c /\
    forall k, k <> tx_key f -> xs_conns st' !! k = xs_conns st !! k.
Proof.
  intros Hslow. unfold xdp_egress_prog. rewrite Hslow. intros H Hv.
  assert (Hdrop : Some (Act XDP_DROP, None, f, m, st) = Some (v, bkt, f', m', st') -> False)
    by (intros [= <- _ _ _ _]; by destruct Hv).
  destruct (negb meta_ok); [done|]. destruct (14 >? _); [done|]. destruct (14 + 20 >? _); [done|].
  cbn [nz negb andb Z.eqb] in H. destruct (14 + 20 + 20 >? _); [done|].
  destruct (xs_conns st !! tx_key f) as [c|]; [|done]. exists c. split; [done|].
  destruct (_ || _ || _ || _) eqn:K; [done|].
  assert (Hkey : tx_key f = mk_ebpf_flow_tuple (local_ip c) (remote_ip c) (local_port c) (remote_port c)).
  { bool_props. destruct (tx_key f). cbn in *. f_equal; lia. }
  destruct (tx_dispatch _ _ _ _ _ _ _ _ _ _) as [o|] eqn:E; [|done].
  assert (Hflow : same_flow f (to_frame o)).
  { unfold tx_dispatch in E. destruct mtp; [by eapply mtp_tx_flow|].
    injection E as <-. apply etran_tx_flow. }
  apply same_flow_key in Hflow. rewrite Hkey in Hflow |- *. rewrite Hkey in H. clear Hkey E.
  set (k0 := mk_ebpf_flow_tuple _ _ _ _) in *.
  assert (Hins : forall k, k <> k0 -> <[k0 := to_conn o]> (xs_conns st) !! k = xs_conns st !! k)
    by (intros k Hk; by rewrite lookup_insert_ne).
  destruct (to_action o); try (injection H as <- _ <- _ <-); try (by destruct Hv); try done.
  destruct (_ >=? _); [injection H as <- _ _ _ _; by destruct Hv|].
  destruct (qid2xsk c !! _); [|done]. injection H as <- _ _ _ _. by destruct Hv.
Qed.

Lemma xdp_egress_authentic_witness :
  exists v f' st',
    xdp_egress_prog false (mk_app_timer_event APP_EVENT 0 0 0) (fun _ => XDP_REDIRECT)
      (mk_tx_env 0 5000 5000 0 true) 0 true (fun _ _ => None) true (mk_tx_meta 0 0 0 100 0 100)
      (meta_init 0 0) (frame_blank <| f_ip := mk_iphdr 0 0 0 0 0 0 0 0 0 (bpf_htonl 1) (bpf_htonl 2) |>
        <| f_tcp := tcp_blank <| th_source := bpf_htons 80 |> <| th_dest := bpf_htons 1024 |> |>) st_ex
    = Some (v, None, f', meta_init 0 0, st') /\ eth_dest f' = [2; 0; 0; 0; 0; 2].
Proof.
  set (f := frame_blank <| f_ip := _ |> <| f_tcp := _ |>).
  destruct (xdp_egress_prog false (mk_app_timer_event APP_EVENT 0 0 0) (fun _ => XDP_REDIRECT)
      (mk_tx_env 0 5000 5000 0 true) 0 true (fun _ _ => None) true (mk_tx_meta 0 0 0 100 0 100)
      (meta_init 0 0) f st_ex) as [[[[[v b] f'] m'] st']|] eqn:E.
  - assert (Hr : b = None /\ m' = meta_init 0 0 /\ v = Act XDP_TX).
    { vm_compute in E. injection E as <- <- _ <- _. by split. }
    destruct Hr as (-> & -> & Hv). exists v, f', st'. split; [reflexivity|].
    destruct (xdp_egress_authentic false (mk_app_timer_event APP_EVENT 0 0 0)
      (fun _ => XDP_REDIRECT) (mk_tx_env 0 5000 5000 0 true) 0 true (fun _ _ => None) true
      (mk_tx_meta 0 0 0 100 0 100) (meta_init 0 0) (meta_init 0 0) f f' st_ex st' v None
      eq_refl E (or_introl Hv)) as (c & Hc & _ & _ & Hd & _).
    rewrite Hd. vm_compute in Hc. injection Hc as <-. reflexivity.
  - apply (f_equal (fun o : option (verdict * option Z * frame * rx_meta * xdp_state) =>
      match o with Some _ => 1 | None => 0 end)) in E. vm_compute in E. discriminate.
Defined.
