(* ===== verification/Ports.v ===== *)
(** Ports and flow-director rules of the microkernel
    ([micro_kernel/control_plane.cc]: [alloc_port], [free_port],
    [record_port], [unrecord_port] and the loop of [ctx_init] that fills the
    pool).  The command that programs the NIC is external: its answer, the
    identifier of the rule it added, is an argument. *)
From stdpp Require Import gmap.
From S2P Require Import Prelude Headers.
Local Open Scope Z_scope.

Definition PORT_MIN : Z := 1000.
Definition PORT_MAX : Z := 60000.
Definition EINVAL : Z := 22.
Definition EADDRINUSE : Z := 98.

(** ** State *)

(** [available_ports] and [port_is_available]; a missing key of the map reads
    as [false], the value [operator[]] inserts. *)
Record port_pool := mk_port_pool {
  available_ports : list Z;
  port_is_available : gmap Z bool
}.

#[export] Instance eta_port_pool : Eta port_pool := fun r =>
  mk_port_pool (available_ports r) (port_is_available r).

Definition port_free (s : port_pool) (p : Z) : bool := default false (port_is_available s !! p).

Definition port_in_range (p : Z) : bool := (PORT_MIN <=? p) && (p <=? PORT_MAX).

(** The loop of [ctx_init]. *)
Definition ctx_init_ports : port_pool :=
  foldl (fun s p => mk_port_pool (available_ports s ++ [p]) (<[p := true]> (port_is_available s)))
    (mk_port_pool [] ∅) (seqZ PORT_MIN (PORT_MAX - PORT_MIN + 1)).

(** ** Operations *)

(** [alloc_port(uint16_t port)]: 0 or an error. *)
Definition alloc_port_at (port : Z) (s : port_pool) : Z * port_pool :=
  if negb (port_in_range port) then (- EINVAL, s)
  else if negb (port_free s port) then (- EINVAL, s)
  else (0, s <| available_ports ::= List.filter (fun p => negb (p =? port)) |>
             <| port_is_available ::= <[port := false]> |>).

(** [alloc_port(void)]: the first available port, or -1; [None] when the
    assertion on the port fails. *)
Definition alloc_port (s : port_pool) : option (Z * port_pool) :=
  match available_ports s with
  | [] => Some (-1, s)
  | port :: rest =>
    if port_free s port
    then Some (port, mk_port_pool rest (<[port := false]> (port_is_available s)))
    else None
  end.

(** [free_port] *)
Definition free_port (port : Z) (s : port_pool) : Z * port_pool :=
  if negb (port_in_range port) then (- EINVAL, s)
  else if port_free s port then (- EINVAL, s)
  else (0, mk_port_pool (available_ports s ++ [port]) (<[port := true]> (port_is_available s))).

(** [struct fd_rule_t] *)
Record fd_rule := mk_fd_rule { fr_id : Z; fr_port : Z; fr_source : bool }.

(** The sets [rule_dst_ports] and [rule_src_ports] with the ports and the
    rules of one application ([app_ctx]). *)
Record port_rules := mk_port_rules {
  rule_dst_ports : gset Z;
  rule_src_ports : gset Z;
  app_ports : gset Z;
  flow_director_rules : list fd_rule
}.

#[export] Instance eta_port_rules : Eta port_rules := fun r =>
  mk_port_rules (rule_dst_ports r) (rule_src_ports r) (app_ports r) (flow_director_rules r).

(** The command of [record_port]: a rule for a destination or a source port. *)
Inductive nic_rule := Dst_port (p : Z) | Src_port (p : Z).

(** [record_port]: the return value, the command run and the new state;
    [answer] is the identifier found in the output of the command. *)
Definition record_port (proto local_port remote_port : Z) (answer : option Z) (s : port_rules)
  : Z * option nic_rule * port_rules :=
  let s := s <| app_ports ::= fun a => {[local_port]} ∪ a |> in
  if negb (proto =? IPPROTO_TCP) then (0, None, s) else
  let '(cmd, s) :=
    if (remote_port =? 0) && bool_decide (local_port ∉ rule_dst_ports s)
    then (Some (Dst_port local_port), s <| rule_dst_ports ::= fun a => {[local_port]} ∪ a |>)
    else if bool_decide (remote_port ∉ rule_src_ports s)
    then (Some (Src_port remote_port), s <| rule_src_ports ::= fun a => {[remote_port]} ∪ a |>)
    else (None, s) in
  match cmd with
  | None => (0, None, s)
  | Some _ =>
    match answer with
    | None => (-1, cmd, s)
    | Some id =>
      (0, cmd, s <| flow_director_rules ::= fun l =>
         l ++ [mk_fd_rule id (if nz remote_port then remote_port else local_port) (nz remote_port)] |>)
    end
  end.

(** [unrecord_port]: every rule of the application is deleted from the NIC. *)
Definition unrecord_port (proto port : Z) (s : port_rules) : list Z * port_rules :=
  let s := s <| app_ports ::= fun a => a ∖ {[port]} |> in
  if negb (proto =? IPPROTO_TCP) then ([], s) else
  (map fr_id (flow_director_rules s),
   (foldl (fun s r => if fr_source r
                      then s <| rule_src_ports ::= fun a => a ∖ {[fr_port r]} |>
                      else s <| rule_dst_ports ::= fun a => a ∖ {[fr_port r]} |>)
      s (flow_director_rules s)) <| flow_director_rules := [] |>).

(** ** The pool is a partition of the port range *)

(** The pool against the set [held] of the ports handed out. *)
Record pool_inv (s : port_pool) (held : gset Z) : Prop := {
  pi_nodup : NoDup (available_ports s);
  pi_free : forall p, p ∈ available_ports s <-> port_free s p = true;
  pi_range : forall p, p ∈ available_ports s \/ p ∈ held <-> port_in_range p = true;
  pi_disjoint : forall p, p ∈ available_ports s -> p ∉ held
}.

(** Every sequence of calls, with what the callers hold: a fixed port, a
    random port, the return of a held port. *)
Inductive pool_reach : port_pool -> gset Z -> Prop :=
| pool_start : pool_reach ctx_init_ports ∅
| pool_at s held p s' : pool_reach s held -> alloc_port_at p s = (0, s') ->
    pool_reach s' ({[p]} ∪ held)
| pool_any s held p s' : pool_reach s held -> alloc_port s = Some (p, s') -> p <> -1 ->
    pool_reach s' ({[p]} ∪ held)
| pool_free s held p r s' : pool_reach s held -> free_port p s = (r, s') ->
    pool_reach s' (held ∖ {[p]}).

Lemma port_in_range_spec p : port_in_range p = true <-> PORT_MIN <= p <= PORT_MAX.
Proof. unfold port_in_range. rewrite andb_true_iff, !Z.leb_le. tauto. Qed.

Lemma port_free_insert s l p q b :
  port_free (mk_port_pool l (<[p := b]> (port_is_available s))) q =
  if decide (p = q) then b else port_free s q.
Proof.
  unfold port_free. cbn. destruct (decide (p = q)) as [->|Hn].
  - by rewrite lookup_insert_eq.
  - by rewrite lookup_insert_ne.
Qed.

(** The loop of [ctx_init] from any pool, one port at a time. *)
Lemma ctx_init_loop l s :
  let s' := foldl (fun s p => mk_port_pool (available_ports s ++ [p])
                      (<[p := true]> (port_is_available s))) s l in
  available_ports s' = available_ports s ++ l /\
  forall p, port_free s' p = bool_decide (p ∈ l) || port_free s p.
Proof.
  revert s. induction l as [|a l IH]; intros s; cbn [foldl].
  - split; [by rewrite app_nil_r|]. intros p. by rewrite bool_decide_eq_false_2 by apply not_elem_of_nil.
  - destruct (IH (mk_port_pool (available_ports s ++ [a]) (<[a := true]> (port_is_available s)))) as [E F].
    split; [rewrite E; cbn; by rewrite <- app_assoc|]. intros p. rewrite F, port_free_insert.
    destruct (decide (a = p)) as [->|Hn].
    + rewrite (bool_decide_eq_true_2 (p ∈ p :: l)) by constructor. by rewrite orb_true_r.
    + f_equal. apply bool_decide_ext. rewrite elem_of_cons. clear - Hn. split; [by right|]. intros [->|]; [done|done].
Qed.

Lemma pool_inv_start : pool_inv ctx_init_ports ∅.
Proof.
  unfold ctx_init_ports.
  pose proof (NoDup_seqZ PORT_MIN (PORT_MAX - PORT_MIN + 1)) as Hn.
  pose proof (fun p => elem_of_seqZ PORT_MIN (PORT_MAX - PORT_MIN + 1) p) as Hm.
  revert Hn Hm. generalize (seqZ PORT_MIN (PORT_MAX - PORT_MIN + 1)) as l. intros l Hn Hm.
  destruct (ctx_init_loop l (mk_port_pool [] ∅)) as [E F]. cbn in E. split.
  - by rewrite E.
  - intros p. rewrite E, F. unfold port_free. cbn. rewrite lookup_empty, orb_false_r.
    by rewrite bool_decide_eq_true.
  - intros p. rewrite E, port_in_range_spec, Hm, elem_of_empty. unfold PORT_MIN, PORT_MAX. lia.
  - intros p _. apply not_elem_of_empty.
Qed.

Lemma pool_inv_at s held p s' :
  pool_inv s held -> alloc_port_at p s = (0, s') -> p ∉ held /\ pool_inv s' ({[p]} ∪ held).
Proof.
  intros [Hn Hf Hr Hd]. unfold alloc_port_at.
  destruct (port_in_range p) eqn:Er; cbn [negb]; [|unfold EINVAL; by intros [=]].
  destruct (port_free s p) eqn:Ef; cbn [negb]; [|unfold EINVAL; by intros [=]].
  intros [= <-]. apply Hf in Ef. split; [by apply Hd|].
  assert (Hin : forall q, q ∈ List.filter (fun x => negb (x =? p)) (available_ports s) <->
                          q <> p /\ q ∈ available_ports s).
  { intros q. rewrite !list_elem_of_In, List.filter_In, negb_true_iff, Z.eqb_neq. tauto. }
  split.
  - cbn. by apply NoDup_ListNoDup, List.NoDup_filter, NoDup_ListNoDup.
  - intros q. cbn [available_ports upd_field setter_of]. unfold upd_field, setter_of. cbn.
    rewrite Hin, port_free_insert, Hf. case_decide; naive_solver.
  - intros q. unfold upd_field, setter_of. cbn. rewrite Hin, <- Hr.
    destruct (decide (q = p)); set_solver.
  - intros q. unfold upd_field, setter_of. cbn. rewrite Hin. set_solver.
Qed.

Lemma pool_inv_any s held :
  pool_inv s held ->
  match alloc_port s with
  | None => False
  | Some (p, s') =>
    (p = -1 /\ s' = s /\ available_ports s = []) \/
    (port_in_range p = true /\ p ∉ held /\ pool_inv s' ({[p]} ∪ held))
  end.
Proof.
  intros [Hn Hf Hr Hd]. unfold alloc_port.
  destruct (available_ports s) as [|p l] eqn:E; [by left|].
  destruct (port_free s p) eqn:Ef.
  - right. pose proof (NoDup_cons_1_1 _ _ Hn) as Hp. apply NoDup_cons_1_2 in Hn. split_and!.
    + apply Hr. left. constructor.
    + apply Hd. constructor.
    + split; cbn.
      * done.
      * intros q. rewrite port_free_insert. case_decide; [naive_solver|]. rewrite <- Hf, elem_of_cons.
        naive_solver.
      * intros q. rewrite <- Hr, elem_of_cons. set_solver.
      * intros q Hq. assert (q <> p) by congruence. specialize (Hd q). set_solver.
  - assert (port_free s p = true) by (apply Hf; constructor). congruence.
Qed.

Lemma pool_inv_free s held p r s' :
  pool_inv s held -> free_port p s = (r, s') ->
  pool_inv s' (held ∖ {[p]}) /\ (r = 0 <-> p ∈ held).
Proof.
  intros [Hn Hf Hr Hd]. unfold free_port.
  destruct (port_in_range p) eqn:Er; cbn [negb].
  2: { intros [= <- <-]. assert (p ∉ held) by (intros Hp; destruct (Hr p) as [H _];
         rewrite H in Er by (by right); discriminate).
       split; [|unfold EINVAL; naive_solver].
       replace (held ∖ {[p]}) with held by set_solver. by split. }
  destruct (port_free s p) eqn:Ef.
  - intros [= <- <-]. apply Hf in Ef. pose proof (Hd p Ef). split; [|unfold EINVAL; naive_solver].
    replace (held ∖ {[p]}) with held by set_solver. by split.
  - intros [= <- <-].
    assert (Hna : p ∉ available_ports s) by (intros Hp; apply Hf in Hp; congruence).
    assert (Hh : p ∈ held) by (apply Hr in Er; naive_solver).
    split; [|naive_solver]. split; cbn.
    + apply list.NoDup_app. split_and!; [done| |apply NoDup_singleton]. set_solver.
    + intros q. rewrite port_free_insert, elem_of_app, list_elem_of_singleton, Hf.
      case_decide; naive_solver.
    + intros q. rewrite elem_of_app, list_elem_of_singleton, <- Hr.
      destruct (decide (q = p)); set_solver.
    + intros q. specialize (Hd q). set_solver.
Qed.

Lemma pool_reach_inv s held : pool_reach s held -> pool_inv s held.
Proof.
  induction 1 as [|s held p s' _ IH E|s held p s' _ IH E Hp|s held p r s' _ IH E].
  - apply pool_inv_start.
  - by eapply pool_inv_at.
  - pose proof (pool_inv_any _ _ IH) as H. rewrite E in H. naive_solver.
  - by eapply pool_inv_free.
Qed.

Lemma alloc_port_at_ok s held p :
  pool_inv s held -> (alloc_port_at p s).1 = 0 <-> port_in_range p = true /\ p ∉ held.
Proof.
  intros [Hn Hf Hr Hd]. unfold alloc_port_at, EINVAL.
  destruct (port_in_range p) eqn:Er; cbn [negb fst]; [|naive_solver].
  destruct (port_free s p) eqn:Ef; cbn [negb fst].
  - apply Hf, Hd in Ef. naive_solver.
  - apply Hr in Er as [Hp|Hp]; [|naive_solver]. apply Hf in Hp. congruence.
Qed.

(** C38. Ports are exclusive: whatever sequence of allocations and releases
    came before, the assertion of [alloc_port] holds, a port it hands out is
    in range and held by nobody, it fails only when every port of the range is
    held, a fixed port is granted exactly when nobody holds it, and a release
    succeeds exactly for a held port. *)
Theorem ports_exclusive (s : port_pool) (held : gset Z) (Hreach : pool_reach s held) :
  match alloc_port s with
  | None => False
  | Some (p, _) =>
    (p = -1 /\ forall q, port_in_range q = true <-> q ∈ held) \/
    (port_in_range p = true /\ p ∉ held)
  end /\
  (forall p, (alloc_port_at p s).1 = 0 <-> port_in_range p = true /\ p ∉ held) /\
  (forall p, (free_port p s).1 = 0 <-> p ∈ held).
Proof.
  pose proof (pool_reach_inv _ _ Hreach) as Hi. split_and!.
  - pose proof (pool_inv_any _ _ Hi) as H. destruct (alloc_port s) as [[p s']|]; [|done].
    destruct H as [(-> & -> & E)|(? & ? & ?)]; [left|by right]. split; [done|].
    intros q. destruct Hi as [_ _ Hr _]. rewrite <- Hr, E. set_solver.
  - intros p. by apply alloc_port_at_ok.
  - intros p. destruct (free_port p s) as [r s'] eqn:E. by apply (pool_inv_free _ _ _ _ _ Hi E).
Qed.

Lemma ports_exclusive_witness :
  (forall p, (alloc_port_at p ctx_init_ports).1 = 0 <-> port_in_range p = true /\ p ∉ (∅ : gset Z)) /\
  (alloc_port_at 1000 ctx_init_ports).1 = 0.
Proof.
  destruct (ports_exclusive ctx_init_ports ∅ pool_start) as (_ & H & _).
  split; [exact H|]. apply H. split; [reflexivity|apply not_elem_of_empty].
Defined.

(** ** Rules of the NIC *)

Definition rules_none : port_rules := mk_port_rules ∅ ∅ ∅ [].

(** Closing one connection takes the NIC rules of all others: an
    application that listens on port 8000 and has connected from port 9000 to
    port 80 loses the steering rule of the listening port when the connection
    is closed, while it still holds the port. *)
Theorem unrecord_port_drops_all_rules :
  let s := (record_port IPPROTO_TCP 8000 0 (Some 1) rules_none).2 in
  let s := (record_port IPPROTO_TCP 9000 80 (Some 2) s).2 in
  let '(deleted, s') := unrecord_port IPPROTO_TCP 9000 s in
  deleted = [1; 2] /\ flow_director_rules s' = [] /\ app_ports s' = {[8000]}.
Proof. vm_compute. done. Qed.

(** A second bind to a port that already has its rule falls into the branch
    for outgoing connections and steers the packets that come from port 0. *)
Theorem record_port_again_src_zero :
  let s := (record_port IPPROTO_TCP 8000 0 (Some 1) rules_none).2 in
  let '(r, cmd, s') := record_port IPPROTO_TCP 8000 0 (Some 2) s in
  r = 0 /\ cmd = Some (Src_port 0) /\
  flow_director_rules s' = [mk_fd_rule 1 8000 false; mk_fd_rule 2 8000 false].
Proof. vm_compute. done. Qed.
