(* ===== verification/Csum.v ===== *)
(** The checksum routines of the microkernel's packets
    ([common/tran_def/tcp.h]: [from32to16], [do_csum], [ip_fast_csum],
    [csum_fold], [csum_tcpudp_nofold], [csum_tcpudp_magic], [tcp_csum]), on a
    little-endian host.

    A buffer is its address, of which only the alignment matters, and the
    bytes the allocation holds from there on; a read outside of them is
    [None].  [do_csum] reads four bytes at a time with an end-around carry and
    handles the unaligned ends apart; the theorem is that it is the plain
    one's complement sum of the 16-bit words. *)
From S2P Require Import Prelude Headers Parse.
Local Open Scope Z_scope.
Local Open Scope u32_scope.

(** [from32to16] *)
Definition from32to16 (x : Z) : Z :=
  let x := Z.land x 0xffff + Z.shiftr x 16 in
  let x := Z.land x 0xffff + Z.shiftr x 16 in
  u16 x.

(** The loop over 32-bit words: the sum and the carry. *)
Fixpoint csum_words (n : nat) (b : list Z) (pos result carry : Z) : option (Z * Z) :=
  match n with
  | O => Some (result, carry)
  | S n =>
    w ← rd32 b pos;
    let result := result ⊕ carry in
    let result := result ⊕ w in
    csum_words n b (pos + 4) result (b2z (w >? result))
  end.

(** The body of the branch [len >= 4]. *)
Definition csum_block (b : list Z) (pos result len : Z) : option (Z * Z) :=
  if len >=? 4 then
    '(result, carry) ← csum_words (Z.to_nat (len / 4)) b pos result 0;
    let result := result ⊕ carry in
    Some (Z.land result 0xffff + Z.shiftr result 16, pos + 4 * (len / 4))
  else Some (result, pos).

(** [do_csum] at address [buff]. *)
Definition do_csum (buff : Z) (b : list Z) (len : Z) : option Z :=
  if len <=? 0 then Some 0 else
  let odd := Z.odd buff in
  '(result, len, pos) ←
    (if odd then x ← rd8 b 0; Some (Z.shiftl x 8, len - 1, 1) else Some (0, len, 0));
  '(result, len, pos) ←
    (if len >=? 2 then
       '(result, len, pos) ←
         (if nz (Z.land 2 (buff + pos))
          then w ← rd16 b pos; Some (result ⊕ w, len - 2, pos + 2) else Some (result, len, pos));
       '(result, pos) ← csum_block b pos result len;
       if nz (Z.land len 2) then w ← rd16 b pos; Some (result ⊕ w, len, pos + 2)
       else Some (result, len, pos)
     else Some (result, len, pos));
  result ← (if nz (Z.land len 1) then x ← rd8 b pos; Some (result ⊕ x) else Some result);
  let result := from32to16 result in
  Some (if odd then Z.lor (Z.land (Z.shiftr result 8) 0xff) (Z.shiftl (Z.land result 0xff) 8)
        else result).

(** [ip_fast_csum]: [ihl] counts 32-bit words. *)
Definition ip_fast_csum (iph : Z) (b : list Z) (ihl : Z) : option Z :=
  s ← do_csum iph b (ihl * 4); Some (u16 (Z.lnot s)).

(** [csum_fold] *)
Definition csum_fold (csum : Z) : Z :=
  let sum := Z.land csum 0xffff + Z.shiftr csum 16 in
  let sum := Z.land sum 0xffff + Z.shiftr sum 16 in
  u16 (Z.lnot sum).

(** [from64to32] *)
Definition from64to32 (x : Z) : Z :=
  let x := Z.land x 0xffffffff + Z.shiftr x 32 in
  let x := Z.land x 0xffffffff + Z.shiftr x 32 in
  u32 x.

(** [csum_tcpudp_nofold] and [csum_tcpudp_magic] *)
Definition csum_tcpudp_nofold (saddr daddr len proto sum : Z) : Z :=
  from64to32 (sum + saddr + daddr + Z.shiftl (proto ⊕ len) 8 mod 4294967296).

Definition csum_tcpudp_magic (saddr daddr len proto sum : Z) : Z :=
  csum_fold (csum_tcpudp_nofold saddr daddr len proto sum).

(** The loop of [tcp_csum]: [cnt] from 0 by 2 while [cnt < len]. *)
Fixpoint tcp_csum_loop (n : nat) (b : list Z) (cnt csum : Z) : option Z :=
  match n with
  | O => Some csum
  | S n =>
    x ← rd8 b cnt; y ← rd8 b (cnt + 1);
    tcp_csum_loop n b (cnt + 2) (csum ⊕ (256 * x + y))
  end.

Definition tcp_csum (saddr daddr len proto : Z) (b : list Z) : option Z :=
  csum ← tcp_csum_loop (Z.to_nat ((len + 1) / 2)) b 0 0;
  Some (csum_tcpudp_magic saddr daddr len proto csum).

(** ** The reference: the sum of the 16-bit words *)

(** The bytes from [i] on, [n] of them, with weights 1 and 256 in turn. *)
Fixpoint bsum (b : list Z) (i : Z) (even : bool) (n : nat) : Z :=
  match n with
  | O => 0
  | S n => (if even then 1 else 256) * default 0 (rd8 b i) + bsum b (i + 1) (negb even) n
  end.

(** Equal modulo 65535, and zero only together: the one's complement sum. *)
Definition csum_eq (r s : Z) : Prop := r mod 65535 = s mod 65535 /\ (r = 0 <-> s = 0).

(** ** Lemmas *)

Lemma land_ffff x : Z.land x 0xffff = x mod 65536.
Proof. change 0xffff with (Z.ones 16). by rewrite Z.land_ones by lia. Qed.

Lemma nz_land_2 x : nz (Z.land x 2) = Z.odd (x / 2).
Proof.
  replace (Z.odd (x / 2)) with (Z.testbit x 1) by (by rewrite Z.testbit_odd, Z.shiftr_div_pow2 by lia).
  assert (E : Z.land x 2 = if Z.testbit x 1 then 2 else 0).
  { apply Z.bits_inj'. intros n Hn. change 2 with (2 ^ 1) at 1. rewrite Z.land_spec, Z.pow2_bits_eqb by lia.
    destruct (Z.eqb_spec 1 n) as [<-|Hne].
    - rewrite andb_true_r. by destruct (Z.testbit x 1).
    - rewrite andb_false_r. destruct (Z.testbit x 1); [|by rewrite Z.bits_0].
      change 2 with (2 ^ 1). rewrite Z.pow2_bits_eqb by lia. by destruct (Z.eqb_spec 1 n). }
  rewrite E. by destruct (Z.testbit x 1).
Qed.

Lemma nz_land_1 x : nz (Z.land x 1) = Z.odd x.
Proof.
  change 1 with (Z.ones 1). rewrite Z.land_ones by lia. change (2 ^ 1) with 2.
  rewrite Zmod_odd. by destruct (Z.odd x).
Qed.

Lemma odd_mod x : Z.odd x = (x mod 2 =? 1).
Proof. rewrite Zmod_odd. by destruct (Z.odd x). Qed.

(** Both foldings keep the value modulo 65535 and its being zero. *)
Lemma fold16_eq x s : in32 x -> csum_eq x s ->
  csum_eq (Z.land x 0xffff + Z.shiftr x 16) s /\ 0 <= Z.land x 0xffff + Z.shiftr x 16 <= 131070.
Proof.
  rewrite land_ffff, Z.shiftr_div_pow2 by lia. change (2 ^ 16) with 65536.
  unfold csum_eq, in32. intros Hx [Hm Hz].
  assert (x mod 65536 + x / 65536 = x + - (x / 65536) * 65535) as E by lia.
  split; [split|lia]; [rewrite E, Z.mod_add by lia; done|rewrite <- Hz; lia].
Qed.

Lemma from32to16_eq x s : in32 x -> csum_eq x s -> csum_eq (from32to16 x) s /\ in16 (from32to16 x).
Proof.
  intros Hx Hs. destruct (fold16_eq x s Hx Hs) as [Hs1 Hb]. unfold from32to16.
  set (y := Z.land x 0xffff + Z.shiftr x 16) in *. clearbody y.
  destruct (fold16_eq y s ltac:(unfold in32; lia) Hs1) as [Hs2 _]. revert Hs2.
  rewrite land_ffff, Z.shiftr_div_pow2 by lia. change (2 ^ 16) with 65536. intros Hs2.
  rewrite u16_small by mach_lia. split; [done|mach_lia].
Qed.

Lemma bsum_nonneg b i e n : bytes b -> 0 <= bsum b i e n.
Proof.
  intros Hb. revert i e. induction n as [|n IH]; intros i e; cbn [bsum]; [lia|].
  specialize (IH (i + 1) (negb e)). assert (0 <= default 0 (rd8 b i)).
  { unfold rd8. destruct (i <? 0); [cbn; lia|]. destruct (b !! Z.to_nat i) as [x|] eqn:E; [|cbn; lia].
    eapply Forall_lookup_1 in E; [|done]. unfold in8 in E. cbn. lia. }
  destruct e; lia.
Qed.

Lemma bsum_app b i e n m :
  bsum b i e (n + m) = bsum b i e n + bsum b (i + Z.of_nat n) (xorb e (Nat.odd n)) m.
Proof.
  revert i e. induction n as [|n IH]; intros i e; cbn [bsum Nat.add].
  - rewrite Z.add_0_r. by destruct e.
  - rewrite IH, Nat.odd_succ, <- Nat.negb_odd. replace (i + 1 + Z.of_nat n) with (i + Z.of_nat (S n)) by lia.
    replace (xorb (negb e) (Nat.odd n)) with (xorb e (negb (Nat.odd n))) by (destruct e, (Nat.odd n); done).
    lia.
Qed.

(** The word read at [i] is the weighted sum of its bytes. *)
Lemma rd16_bsum b i w : rd16 b i = Some w -> w = bsum b i true 2.
Proof.
  unfold rd16. cbn [bsum negb]. destruct (rd8 b i) as [x|]; [|done].
  cbn. destruct (rd8 b (i + 1)) as [y|]; [|done]. cbn. intros [= <-]. lia.
Qed.

Lemma rd32_bsum b i w : rd32 b i = Some w -> w mod 65535 = bsum b i true 4 mod 65535 /\
  (bytes b -> w = 0 <-> bsum b i true 4 = 0).
Proof.
  unfold rd32. destruct (rd16 b i) as [x|] eqn:E1; [|done]. cbn [mbind option_bind].
  destruct (rd16 b (i + 2)) as [y|] eqn:E2; [|done]. cbn [mbind option_bind]. intros [= <-].
  apply rd16_bsum in E1, E2. pose proof (bsum_app b i true 2 2) as E. change (2 + 2)%nat with 4%nat in E.
  change (Z.of_nat 2) with 2 in E. change (xorb true (Nat.odd 2)) with true in E. rewrite E, <- E1, <- E2.
  split; [replace (x + 65536 * y) with (x + y + y * 65535) by lia; apply Z.mod_add; lia|].
  intros Hb. pose proof (bsum_nonneg b i true 2 Hb). pose proof (bsum_nonneg b (i + 2) true 2 Hb). lia.
Qed.

(** Adding what is read to the sum so far. *)
Lemma csum_eq_add r s w t : 0 <= r -> 0 <= s -> 0 <= w -> 0 <= t ->
  csum_eq r s -> csum_eq w t -> csum_eq (r + w) (s + t).
Proof.
  intros ? ? ? ? [Hm Hz] [Hm' Hz']. split; [|lia].
  by rewrite Z.add_mod, Hm, Hm', <- Z.add_mod by lia.
Qed.

Lemma csum_eq_refl s : csum_eq s s.
Proof. by split. Qed.

(** The loop: the carry counts for one, and a set carry leaves room for it. *)
Lemma csum_words_sum n b pos r c s :
  bytes b -> 0 <= pos -> pos + 4 * Z.of_nat n <= pkt_end b ->
  in32 r -> (c = 0 \/ c = 1 /\ r <= 4294967294) -> 0 <= s -> csum_eq (r + c) s ->
  exists r' c', csum_words n b pos r c = Some (r', c') /\
    in32 r' /\ (c' = 0 \/ c' = 1 /\ r' <= 4294967294) /\
    csum_eq (r' + c') (s + bsum b pos true (4 * n)).
Proof.
  intros Hb. revert pos r c s. induction n as [|n IH]; intros pos r c s Hp He Hr Hc Hs0 Hs.
  { exists r, c. cbn [csum_words]. rewrite Nat.mul_0_r. cbn [bsum]. by rewrite Z.add_0_r. }
  cbn [csum_words]. destruct (rd32_some b pos Hb) as (w & Ew & Hw); [lia..|]. rewrite Ew.
  cbn [mbind option_bind]. pose proof (rd32_bsum b pos w Ew) as [Wm Wz]. specialize (Wz Hb).
  rewrite (u32_small (r + c)) by mach_lia.
  destruct (IH (pos + 4) ((r + c) ⊕ w) (b2z (w >? (r + c) ⊕ w)) (s + bsum b pos true 4))
    as (r' & c' & E & Hr' & Hc' & Hs').
  - lia.
  - lia.
  - apply u32_range.
  - destruct (Z.gtb_spec w ((r + c) ⊕ w)); cbn [b2z]; [right|by left]. split; [done|mach_lia].
  - pose proof (bsum_nonneg b pos true 4 Hb). lia.
  - assert (E' : csum_eq (r + c + w) (s + bsum b pos true 4)).
    { apply csum_eq_add; [mach_lia|done|mach_lia|by apply bsum_nonneg|done|by split]. }
    destruct (Z.gtb_spec w ((r + c) ⊕ w)); cbn [b2z].
    + assert ((r + c) ⊕ w = r + c + w - 4294967296) as -> by mach_lia.
      destruct E' as [Em Ez]. split; [|mach_lia]. rewrite <- Em.
      rewrite <- (Z.mod_add (r + c + w - 4294967296 + 1) 65537 65535) by lia. f_equal. lia.
    + assert ((r + c) ⊕ w = r + c + w) as -> by mach_lia. by rewrite Z.add_0_r.
  - exists r', c'. split_and!; [done..|].
    replace (4 * S n)%nat with (4 + 4 * n)%nat by lia. rewrite bsum_app.
    change (Z.of_nat 4) with 4. change (xorb true (Nat.odd 4)) with true. by rewrite Z.add_assoc.
Qed.

Lemma csum_block_sum b pos r len s :
  bytes b -> 0 <= pos -> 0 <= len -> pos + len <= pkt_end b -> 0 <= r <= 131070 -> 0 <= s ->
  csum_eq r s ->
  exists r', csum_block b pos r len = Some (r', pos + 4 * (len / 4)) /\ 0 <= r' <= 131070 /\
    csum_eq r' (s + bsum b pos true (4 * Z.to_nat (len / 4))).
Proof.
  intros Hb Hp Hl He Hr Hs0 Hs. unfold csum_block. destruct (Z.geb_spec len 4).
  - destruct (csum_words_sum (Z.to_nat (len / 4)) b pos r 0 s) as (r' & c' & E & Hr' & Hc' & Hs');
      [done|lia|lia|mach_lia|by left|done|by rewrite Z.add_0_r|].
    rewrite E. cbn [mbind option_bind]. rewrite u32_small by mach_lia.
    destruct (fold16_eq (r' + c') _ ltac:(mach_lia) Hs') as [H1 H2]. by eexists.
  - replace (len / 4) with 0 by lia. exists r. cbn [bsum Z.to_nat Nat.mul]. rewrite !Z.add_0_r. done.
Qed.

(** The bytes that are left after the aligned words. *)
Lemma csum_tail_sum b pos r len s :
  bytes b -> 0 <= pos -> 0 <= len -> pos + len mod 4 <= pkt_end b -> 0 <= r <= 131070 -> 0 <= s ->
  csum_eq r s ->
  exists r', ('(r, len, pos) ← (if nz (Z.land len 2) then w ← rd16 b pos; Some (r ⊕ w, len, pos + 2)
                     else Some (r, len, pos));
              if nz (Z.land len 1) then x ← rd8 b pos; Some (r ⊕ x) else Some r) = Some r' /\
    in32 r' /\ csum_eq r' (s + bsum b pos true (Z.to_nat (len mod 4))).
Proof.
  intros Hb Hp Hl He Hr Hs0 Hs. rewrite nz_land_2, odd_mod.
  assert (exists r1 pos1, (if (len / 2) mod 2 =? 1 then w ← rd16 b pos; Some (r ⊕ w, len, pos + 2)
                     else Some (r, len, pos)) = Some (r1, len, pos1) /\ 0 <= r1 <= 196605 /\
     pos1 = pos + 2 * ((len / 2) mod 2) /\
     csum_eq r1 (s + bsum b pos true (Z.to_nat (2 * ((len / 2) mod 2))))) as (r1 & p1 & E & Hr1 & -> & H1).
  { destruct (Z.eqb_spec ((len / 2) mod 2) 1) as [E|E].
    - destruct (rd16_some b pos Hb) as (w & Ew & Hw); [lia..|]. rewrite Ew. cbn [mbind option_bind].
      pose proof (rd16_bsum _ _ _ Ew) as Es. rewrite E, u32_small by mach_lia.
      eexists _, _. split_and!; [done|mach_lia..|]. change (Z.to_nat (2 * 1)) with 2%nat. rewrite <- Es.
      apply csum_eq_add; [lia|done|mach_lia|mach_lia|done|apply csum_eq_refl].
    - replace ((len / 2) mod 2) with 0 by lia. exists r, pos. cbn [bsum Z.to_nat Z.mul].
      rewrite !Z.add_0_r. split_and!; [done|lia|lia|lia|done]. }
  rewrite E. cbn [mbind option_bind]. rewrite nz_land_1, odd_mod.
  replace (Z.to_nat (len mod 4)) with (Z.to_nat (2 * ((len / 2) mod 2)) + Z.to_nat (len mod 2))%nat by lia.
  rewrite bsum_app, Z.add_assoc, Z2Nat.id by lia.
  replace (Nat.odd (Z.to_nat (2 * ((len / 2) mod 2)))) with false.
  2: { assert ((len / 2) mod 2 = 0 \/ (len / 2) mod 2 = 1) as [->| ->] by lia; done. }
  change (xorb true false) with true. destruct (Z.eqb_spec (len mod 2) 1) as [E2|E2].
  - destruct (rd8_some b (pos + 2 * ((len / 2) mod 2)) Hb) as (x & Ex & Hx); [lia|].
    rewrite E2. change (Z.to_nat 1) with 1%nat. cbn [bsum negb]. rewrite Ex. cbn [mbind option_bind default].
    change (id x) with x. rewrite Z.mul_1_l, u32_small by mach_lia. eexists. split_and!; [done|mach_lia|]. rewrite Z.add_0_r.
    apply csum_eq_add; [lia| |mach_lia|mach_lia|done|].
    + pose proof (bsum_nonneg b pos true (Z.to_nat (2 * ((len / 2) mod 2))) Hb). lia.
    + apply csum_eq_refl.
  - replace (len mod 2) with 0 by lia. cbn [bsum Z.to_nat]. rewrite Z.add_0_r.
    eexists. split_and!; [done|mach_lia|done].
Qed.

(** Swapping the two bytes of the sum multiplies it by 256 modulo 65535,
    which exchanges the weights. *)
Lemma bsum_swap b i e n : (256 * bsum b i e n) mod 65535 = bsum b i (negb e) n mod 65535.
Proof.
  revert i e. induction n as [|n IH]; intros i e; cbn [bsum]; [done|].
  specialize (IH (i + 1) (negb e)). rewrite negb_involutive in *.
  rewrite Z.mul_add_distr_l, Z.add_mod, IH by lia. destruct e; cbn [negb].
  - by rewrite <- Z.add_mod, Z.mul_assoc by lia.
  - set (x := default 0 (rd8 b i)). replace (256 * (256 * x)) with (1 * x + x * 65535) by lia.
    by rewrite Z.mod_add, <- Z.add_mod by lia.
Qed.

Lemma bsum_zero b i e n : bytes b -> bsum b i e n = 0 <-> bsum b i (negb e) n = 0.
Proof.
  intros Hb. revert i e. induction n as [|n IH]; intros i e; cbn [bsum]; [done|].
  pose proof (bsum_nonneg b (i + 1) (negb e) n Hb). pose proof (bsum_nonneg b (i + 1) e n Hb).
  specialize (IH (i + 1) (negb e)). rewrite negb_involutive in *.
  pose proof (bsum_nonneg b i true 1 Hb) as H1. cbn [bsum] in H1. destruct e; cbn [negb] in *; lia.
Qed.

Lemma byte_swap r : in16 r ->
  Z.lor (Z.land (Z.shiftr r 8) 0xff) (Z.shiftl (Z.land r 0xff) 8) = r / 256 + 256 * (r mod 256).
Proof.
  intros Hr. change 0xff with (Z.ones 8). rewrite !Z.land_ones, Z.shiftr_div_pow2 by lia.
  change (2 ^ 8) with 256. rewrite (Z.mod_small (r / 256)) by mach_lia.
  pose proof (Z.add_lor_land (r / 256) (Z.shiftl (r mod 256) 8)) as E.
  assert (Z.land (r / 256) (Z.shiftl (r mod 256) 8) = 0) as H0.
  { apply Z.bits_inj'. intros n Hn. rewrite Z.land_spec, Z.bits_0. destruct (Z.ltb_spec n 8).
    - rewrite Z.shiftl_spec_low by lia. apply andb_false_r.
    - rewrite (Z.bits_above_log2 (r / 256)); [done|mach_lia|].
      destruct (decide (r / 256 = 0)) as [->|]; [cbn; lia|].
      apply Z.log2_lt_pow2; [mach_lia|]. assert (2 ^ 8 <= 2 ^ n) by (apply Z.pow_le_mono_r; lia). mach_lia. }
  rewrite H0, Z.shiftl_mul_pow2 in E by lia. rewrite Z.shiftl_mul_pow2 by lia. change (2 ^ 8) with 256 in *. lia.
Qed.

Lemma byte_swap_eq r b i e n : bytes b -> in16 r -> csum_eq r (bsum b i e n) ->
  csum_eq (r / 256 + 256 * (r mod 256)) (bsum b i (negb e) n) /\ in16 (r / 256 + 256 * (r mod 256)).
Proof.
  intros Hb Hr [Hm Hz]. split; [|mach_lia]. split.
  - rewrite <- bsum_swap, Z.mul_mod, <- Hm, <- Z.mul_mod by lia.
    rewrite <- (Z.mod_add (r / 256 + 256 * (r mod 256)) (r / 256) 65535) by lia. f_equal. mach_lia.
  - rewrite <- bsum_zero, <- Hz by done. mach_lia.
Qed.

Lemma odd_of_nat n : Nat.odd n = Z.odd (Z.of_nat n).
Proof.
  induction n as [|n IH]; [done|].
  by rewrite Nat.odd_succ, <- Nat.negb_odd, Nat2Z.inj_succ, Z.odd_succ, <- Z.negb_odd, IH.
Qed.

(** Consecutive stretches of the buffer; the second starts with weight 1. *)
Lemma bsum_split b e (i n m : Z) : 0 <= n -> 0 <= m -> xorb e (Z.odd n) = true ->
  bsum b i e (Z.to_nat (n + m)) = bsum b i e (Z.to_nat n) + bsum b (i + n) true (Z.to_nat m).
Proof.
  intros Hn Hm Ho. by rewrite Z2Nat.inj_add, bsum_app, odd_of_nat, !Z2Nat.id, Ho by lia.
Qed.

(** What [do_csum] computes before the final folding and swap, from the first
    aligned byte on. *)
Lemma csum_aligned b buff pos r len s :
  bytes b -> 0 <= pos -> 0 <= len -> pos + len <= pkt_end b -> 0 <= r <= 65535 -> 0 <= s ->
  csum_eq r s ->
  exists r', ('(r, len, pos) ←
    (if len >=? 2 then
       '(r, len, pos) ←
         (if nz (Z.land 2 (buff + pos))
          then w ← rd16 b pos; Some (r ⊕ w, len - 2, pos + 2) else Some (r, len, pos));
       '(r, pos) ← csum_block b pos r len;
       if nz (Z.land len 2) then w ← rd16 b pos; Some (r ⊕ w, len, pos + 2)
       else Some (r, len, pos)
     else Some (r, len, pos));
    if nz (Z.land len 1) then x ← rd8 b pos; Some (r ⊕ x) else Some r) = Some r' /\
    in32 r' /\ csum_eq r' (s + bsum b pos true (Z.to_nat len)).
Proof.
  intros Hb Hp Hl He Hr Hs0 Hs. destruct (Z.geb_spec len 2) as [H2|H2].
  - assert (exists r1 n1, (if nz (Z.land 2 (buff + pos))
        then w ← rd16 b pos; Some (r ⊕ w, len - 2, pos + 2) else Some (r, len, pos))
        = Some (r1, len - n1, pos + n1) /\ (n1 = 0 \/ n1 = 2) /\ 0 <= r1 <= 131070 /\
        csum_eq r1 (s + bsum b pos true (Z.to_nat n1))) as (r1 & n1 & E & Hn & Hr1 & H1).
    { destruct (nz _).
      - destruct (rd16_some b pos Hb) as (w & Ew & Hw); [lia..|]. rewrite Ew. cbn [mbind option_bind].
        exists (r + w), 2. rewrite u32_small by mach_lia. pose proof (rd16_bsum _ _ _ Ew) as Es.
        split_and!; [done|by right|mach_lia|mach_lia|]. change (Z.to_nat 2) with 2%nat. rewrite <- Es.
        apply csum_eq_add; [lia|lia|mach_lia|mach_lia|done|apply csum_eq_refl].
      - exists r, 0. rewrite Z.sub_0_r, !Z.add_0_r. split_and!; [done|by left|lia|lia|done]. }
    rewrite E. cbn [mbind option_bind]. clear E Hs.
    pose proof (bsum_nonneg b pos true (Z.to_nat n1) Hb) as Hn1.
    destruct (csum_block_sum b (pos + n1) r1 (len - n1) (s + bsum b pos true (Z.to_nat n1)))
      as (r2 & E & Hr2 & H2'); [done|lia|lia|lia|done|lia|done|].
    rewrite E. cbn [mbind option_bind]. set (q := (len - n1) / 4) in *.
    pose proof (bsum_nonneg b (pos + n1) true (4 * Z.to_nat q) Hb) as Hn2.
    destruct (csum_tail_sum b (pos + n1 + 4 * q) r2 (len - n1)
      (s + bsum b pos true (Z.to_nat n1) + bsum b (pos + n1) true (4 * Z.to_nat q)))
      as (r3 & E3 & Hr3 & H3); [done|lia|lia|lia|done|lia|done|].
    exists r3. split_and!; [exact E3|done|].
    replace (Z.to_nat len) with (Z.to_nat (n1 + (4 * q + (len - n1) mod 4))) by (f_equal; lia).
    rewrite (bsum_split b true pos n1) by (lia || (destruct Hn as [-> | ->]; done)).
    rewrite (bsum_split b true (pos + n1) (4 * q)) by (lia || by rewrite Z.odd_mul).
    by rewrite Z2Nat.inj_mul, !Z.add_assoc by lia.
  - cbn [mbind option_bind].
    destruct (csum_tail_sum b pos r len s) as (r' & E & Hr' & H'); [done|lia..|done|].
    rewrite Z.mod_small in H' by lia. exists r'. split_and!; [|done|done].
    rewrite <- E, nz_land_2. by replace (len / 2) with 0 by lia.
Qed.

(** C39. The checksum routine is the one's complement sum: for every buffer, at
    any alignment, that holds [len] bytes, [do_csum] reads only those bytes
    and returns a 16-bit value that agrees modulo 65535 with the sum of the
    little-endian 16-bit words of the buffer and is zero only if all of its
    bytes are zero. *)
Theorem do_csum_ones_complement (buff : Z) (b : list Z) (len : Z)
  (Hb : bytes b) (Hlen : len <= pkt_end b) :
  exists r, do_csum buff b len = Some r /\ in16 r /\
    r mod 65535 = bsum b 0 true (Z.to_nat len) mod 65535 /\
    (r = 0 <-> bsum b 0 true (Z.to_nat len) = 0).
Proof.
  unfold do_csum. destruct (Z.leb_spec len 0) as [H0|H0].
  { replace (Z.to_nat len) with 0%nat by lia. exists 0. cbn [bsum]. split_and!; done || mach_lia. }
  destruct (Z.odd buff).
  - destruct (rd8_some b 0 Hb) as (x & Ex & Hx); [lia|]. rewrite Ex. cbn [mbind option_bind].
    rewrite Z.shiftl_mul_pow2 by lia. change (2 ^ 8) with 256.
    destruct (csum_aligned b buff 1 (x * 256) (len - 1) (bsum b 0 false 1)) as (r & E & Hr & Hs);
      [done|lia|lia|lia|mach_lia|by apply bsum_nonneg|cbn [bsum]; rewrite Ex; split; cbn [default id];
       [f_equal|]; unfold id; lia|].
    apply bind_Some in E as ([[r1 l1] p1] & E1 & E2). rewrite E1. cbn [mbind option_bind].
    cbn [mbind option_bind] in E2. rewrite E2. cbn [mbind option_bind].
    replace (bsum b 0 false 1 + _) with (bsum b 0 false (Z.to_nat len)) in Hs.
    2: { replace (Z.to_nat len) with (Z.to_nat (1 + (len - 1))) by (f_equal; lia). by rewrite bsum_split by (done || lia). }
    destruct (from32to16_eq r _ Hr Hs) as [Hs' Hr'].
    destruct (byte_swap_eq _ _ _ _ _ Hb Hr' Hs') as [[Hm Hz] Hw]. rewrite byte_swap by done.
    by eexists.
  - cbn [mbind option_bind].
    destruct (csum_aligned b buff 0 0 len 0) as (r & E & Hr & Hs); [done|lia..|apply csum_eq_refl|].
    apply bind_Some in E as ([[r1 l1] p1] & E1 & E2). rewrite E1. cbn [mbind option_bind].
    cbn [mbind option_bind] in E2. rewrite E2. cbn [mbind option_bind].
    destruct (from32to16_eq r _ Hr Hs) as [[Hm Hz] Hr']. by eexists.
Qed.

(** An IPv4 header as [send_tcp_control] fills it, checksum still zero. *)
Definition ip_hdr_ex : list Z :=
  [0x45; 0; 0; 56; 0; 0; 0; 0; 255; 6; 0; 0; 192; 168; 6; 1; 192; 168; 6; 2].

Lemma do_csum_ones_complement_witness :
  do_csum 0x100e ip_hdr_ex 20 = Some 0x93d1 /\
  exists r, do_csum 0x1001 ip_hdr_ex 19 = Some r /\
    r mod 65535 = bsum ip_hdr_ex 0 true 19 mod 65535.
Proof.
  split; [vm_compute; reflexivity|].
  destruct (do_csum_ones_complement 0x1001 ip_hdr_ex 19) as (r & E & _ & Hm & _).
  - unfold bytes, ip_hdr_ex. repeat constructor; mach_lia.
  - vm_compute. discriminate.
  - by exists r.
Defined.
