(* ===== verification/TcpOpts.v ===== *)
(** Packets of the TCP control path: the structures of [common/tran_def/tcp.h]
    ([ip_hdr], [tcp_hdr], [pkt_tcp], the options), the option parser
    [parse_tcp_opts] and the packets [send_tcp_control] and [send_tcp_reset]
    of [micro_kernel/tcp.cc] build. *)
From S2P Require Import Prelude Intf Headers Parse Csum.
Local Open Scope Z_scope.

(** ** Structures; multi-byte fields hold the raw value in network order *)

(** [struct ip_hdr] *)
Record ip_hdr := mk_ip_hdr {
  ih_v_hl : Z;
  ih_tos : Z;
  ih_len : Z;
  ih_id : Z;
  ih_offset : Z;
  ih_ttl : Z;
  ih_proto : Z;
  ih_chksum : Z;
  ih_src : Z;
  ih_dest : Z
}.

#[export] Instance eta_ip_hdr : Eta ip_hdr := fun r => mk_ip_hdr (ih_v_hl r) (ih_tos r) (ih_len r)
  (ih_id r) (ih_offset r) (ih_ttl r) (ih_proto r) (ih_chksum r) (ih_src r) (ih_dest r).

(** [struct tcp_hdr] *)
Record tcp_hdr := mk_tcp_hdr {
  tc_src : Z;
  tc_dest : Z;
  tc_seqno : Z;
  tc_ackno : Z;
  tc_hdrlen_rsvd_flags : Z;
  tc_wnd : Z;
  tc_chksum : Z;
  tc_urgp : Z
}.

#[export] Instance eta_tcp_hdr : Eta tcp_hdr := fun r => mk_tcp_hdr (tc_src r) (tc_dest r)
  (tc_seqno r) (tc_ackno r) (tc_hdrlen_rsvd_flags r) (tc_wnd r) (tc_chksum r) (tc_urgp r).

(** [struct pkt_tcp] and the bytes that follow it in the buffer. *)
Record pkt_tcp := mk_pkt_tcp {
  pe_dest : list Z;
  pe_src : list Z;
  pe_type : Z;
  p_ip : ip_hdr;
  p_tcp : tcp_hdr;
  p_opts : list Z
}.

#[export] Instance eta_pkt_tcp : Eta pkt_tcp := fun r => mk_pkt_tcp (pe_dest r) (pe_src r)
  (pe_type r) (p_ip r) (p_tcp r) (p_opts r).

Definition ETH_HLEN : Z := 14.
Definition TCP_HLEN : Z := 20.
(** sizeof(struct pkt_tcp) *)
Definition PKT_TCP_LEN : Z := 54.

Definition TCP_FIN : Z := 0x01.
Definition TCP_SYN : Z := 0x02.
Definition TCP_RST : Z := 0x04.
Definition TCP_ACK : Z := 0x10.
Definition TCP_ECE : Z := 0x40.
Definition TCP_CWR : Z := 0x80.
Definition TCP_FLAGS : Z := 0x1ff.
Definition TCP_MSS : Z := 1460.

Definition TCP_OPT_END_OF_OPTIONS : Z := 0.
Definition TCP_OPT_NO_OP : Z := 1.
Definition TCP_OPT_MSS : Z := 2.
Definition TCP_OPT_TIMESTAMP : Z := 8.
(** sizeof(struct tcp_mss_opt) and sizeof(struct tcp_timestamp_opt) *)
Definition MSS_OPT_LEN : Z := 4.
Definition TS_OPT_LEN : Z := 10.

(** [TCPH_HDRLEN], [TCPH_FLAGS] and [TCPH_HDRLEN_FLAGS_SET] *)
Definition TCPH_HDRLEN (t : tcp_hdr) : Z := Z.shiftr (bpf_ntohs (tc_hdrlen_rsvd_flags t)) 12.
Definition TCPH_FLAGS (t : tcp_hdr) : Z := Z.land (bpf_ntohs (tc_hdrlen_rsvd_flags t)) TCP_FLAGS.
Definition hdrlen_flags (len flags : Z) : Z := bpf_htons (u16 (Z.lor (Z.shiftl len 12) flags)).

(** ** The option parser *)

(** [struct tcp_opts]: the offsets of the options found, [None] for a null
    pointer. *)
Record tcp_opts := mk_tcp_opts { opt_mss : option Z; opt_ts : option Z }.

#[export] Instance eta_tcp_opts : Eta tcp_opts := fun r => mk_tcp_opts (opt_mss r) (opt_ts r).

Definition opts_none : tcp_opts := mk_tcp_opts None None.

(** The C return value, a read outside the buffer, or no more fuel. *)
Inductive opt_res := Parsed (ret : Z) (o : tcp_opts) | Overread | Out_of_fuel.

Fixpoint parse_opts_loop (fuel : nat) (opt : list Z) (opts_len off : Z) (o : tcp_opts) : opt_res :=
  match fuel with
  | O => Out_of_fuel
  | S fuel =>
    if off <? opts_len then
      match rd8 opt off with
      | None => Overread
      | Some opt_kind =>
        if opt_kind =? TCP_OPT_END_OF_OPTIONS then Parsed 0 o
        else if opt_kind =? TCP_OPT_NO_OP then parse_opts_loop fuel opt opts_len (u16 (off + 1)) o
        else
          match rd8 opt (off + 1) with
          | None => Overread
          | Some opt_len =>
            if opt_kind =? TCP_OPT_MSS then
              if negb (opt_len =? MSS_OPT_LEN) then Parsed (-1) o
              else parse_opts_loop fuel opt opts_len (u16 (off + opt_len)) (o <| opt_mss := Some off |>)
            else if opt_kind =? TCP_OPT_TIMESTAMP then
              if negb (opt_len =? TS_OPT_LEN) then Parsed (-1) o
              else parse_opts_loop fuel opt opts_len (u16 (off + opt_len)) (o <| opt_ts := Some off |>)
            else Parsed (-1) o
          end
      end
    else Parsed 0 o
  end.

(** [parse_tcp_opts]; the options length is a 16-bit variable. *)
Definition opts_len_of (t : tcp_hdr) : Z := u16 (TCPH_HDRLEN t * 4 - TCP_HLEN).

Definition parse_tcp_opts (p : pkt_tcp) : opt_res :=
  let opts_len := opts_len_of (p_tcp p) in
  parse_opts_loop (S (Z.to_nat opts_len)) (p_opts p) opts_len 0 opts_none.

(** [ntohl(opts->ts->ts_val)] for a timestamp option at offset [off]. *)
Definition ts_val_at (p : pkt_tcp) (off : Z) : option Z := x ← rd32 (p_opts p) (off + 2); Some (bpf_ntohl x).

(** ** The packets the microkernel sends *)

Definition be16 (x : Z) : list Z := le16 (bpf_htons x).
Definition be32 (x : Z) : list Z := le32 (bpf_htonl x).

(** The packet in memory. *)
Definition ip_hdr_bytes (h : ip_hdr) : list Z :=
  [ih_v_hl h; ih_tos h] ++ le16 (ih_len h) ++ le16 (ih_id h) ++ le16 (ih_offset h)
  ++ [ih_ttl h; ih_proto h] ++ le16 (ih_chksum h) ++ le32 (ih_src h) ++ le32 (ih_dest h).

Definition tcp_hdr_bytes (t : tcp_hdr) : list Z :=
  le16 (tc_src t) ++ le16 (tc_dest t) ++ le32 (tc_seqno t) ++ le32 (tc_ackno t)
  ++ le16 (tc_hdrlen_rsvd_flags t) ++ le16 (tc_wnd t) ++ le16 (tc_chksum t) ++ le16 (tc_urgp t).

Definition pkt_bytes (p : pkt_tcp) : list Z :=
  pe_dest p ++ pe_src p ++ le16 (pe_type p) ++ ip_hdr_bytes (p_ip p) ++ tcp_hdr_bytes (p_tcp p)
  ++ p_opts p.

Definition mac_zero : list Z := [0; 0; 0; 0; 0; 0].

(** Both checksums over a packet allocated at [base]; [junk] is what lies in
    memory where the routines leave the allocation. *)
Definition pkt_ip_csum (base : Z) (p : pkt_tcp) : option Z :=
  ip_fast_csum (base + ETH_HLEN) (drop 14 (pkt_bytes p)) (ih_v_hl (p_ip p)).
Definition pkt_tcp_csum (len : Z) (p : pkt_tcp) : option Z :=
  tcp_csum (ih_src (p_ip p)) (ih_dest (p_ip p)) len 6 (drop 34 (pkt_bytes p)).

Definition fill_csums (base len : Z) (junk : Z * Z) (p : pkt_tcp) : pkt_tcp :=
  let p := p <| p_ip := (p_ip p) <| ih_chksum := default junk.1 (pkt_ip_csum base p) |> |> in
  p <| p_tcp := (p_tcp p) <| tc_chksum := default junk.2 (pkt_tcp_csum len p) |> |>.

(** The length of the options of a control packet and their bytes: a calloc'ed
    area into which the two options are written. *)
Definition control_optlen (ts_opt : bool) (mss_opt : Z) : Z :=
  let optlen := (if nz mss_opt then MSS_OPT_LEN else 0) + (if ts_opt then TS_OPT_LEN else 0) in
  Z.land (optlen + 3) (Z.lnot 3).

Definition control_opts (ts_opt : bool) (ts_echo mss_opt : Z) : list Z :=
  let off_ts := if nz mss_opt then MSS_OPT_LEN else 0 in
  let o := replicate (Z.to_nat (control_optlen ts_opt mss_opt)) 0 in
  let o := if nz mss_opt
           then list_inserts 0 ([TCP_OPT_MSS; MSS_OPT_LEN] ++ be16 mss_opt) o else o in
  if ts_opt
  then list_inserts (Z.to_nat off_ts)
         ([TCP_OPT_TIMESTAMP; TS_OPT_LEN] ++ be32 0 ++ be32 ts_echo) o
  else o.

(** The addresses and sequence numbers [send_tcp_control] takes from its
    connection. *)
Record endpoints := mk_endpoints {
  ep_local_ip : Z; ep_local_port : Z; ep_remote_ip : Z; ep_remote_port : Z;
  ep_local_seq : Z; ep_remote_seq : Z
}.

(** The packet of [send_tcp_control] before and after the checksums. *)
Definition control_hdrs (e : endpoints) (flags : Z) (ts_opt : bool) (ts_echo mss_opt : Z) : pkt_tcp :=
  let optlen := control_optlen ts_opt mss_opt in
  let len := PKT_TCP_LEN + optlen in
  mk_pkt_tcp mac_zero mac_zero 0
    (mk_ip_hdr 0x45 0 (bpf_htons (len - ETH_HLEN)) (bpf_htons 0) (bpf_htons 0) 0xff IPPROTO_TCP 0
       (bpf_htonl (ep_local_ip e)) (bpf_htonl (ep_remote_ip e)))
    (mk_tcp_hdr (bpf_htons (ep_local_port e)) (bpf_htons (ep_remote_port e))
       (bpf_htonl (ep_local_seq e)) (bpf_htonl (ep_remote_seq e))
       (hdrlen_flags (5 + optlen / 4) flags) (bpf_htons 11680) 0 (bpf_htons 0))
    (control_opts ts_opt ts_echo mss_opt).

Definition control_pkt (base : Z) (junk : Z * Z) (e : endpoints) (flags : Z) (ts_opt : bool)
  (ts_echo mss_opt : Z) : pkt_tcp :=
  fill_csums base (PKT_TCP_LEN + control_optlen ts_opt mss_opt) junk
    (control_hdrs e flags ts_opt ts_echo mss_opt).

(** The packet of [send_tcp_reset]: the headers of the packet it answers with
    the ends swapped. *)
Definition reset_pkt (base : Z) (junk : Z * Z) (orig : pkt_tcp) : pkt_tcp :=
  fill_csums base PKT_TCP_LEN junk
    (mk_pkt_tcp (pe_src orig) (pe_dest orig) (pe_type orig)
       ((p_ip orig) <| ih_src := ih_dest (p_ip orig) |> <| ih_dest := ih_src (p_ip orig) |>)
       (mk_tcp_hdr (tc_dest (p_tcp orig)) (tc_src (p_tcp orig)) 0 0 (hdrlen_flags 5 TCP_RST) 0 0 0)
       []).

(** ** Termination of the parser *)

(** One turn moves the offset forward as long as it does not wrap. *)
Lemma parse_opts_loop_total fuel opt opts_len off o :
  bytes opt -> opts_len <= 65526 -> opts_len + 1 <= pkt_end opt -> 0 <= off ->
  Z.max 0 (opts_len - off) < Z.of_nat fuel ->
  (forall i, opt_mss o = Some i \/ opt_ts o = Some i -> 0 <= i < opts_len) ->
  exists ret o', parse_opts_loop fuel opt opts_len off o = Parsed ret o' /\ (ret = 0 \/ ret = -1) /\
    forall i, opt_mss o' = Some i \/ opt_ts o' = Some i -> 0 <= i < opts_len.
Proof.
  intros Hb Hl He. revert off o. induction fuel as [|fuel IH]; intros off o H0 Hf Ho; [lia|].
  cbn [parse_opts_loop]. destruct (Z.ltb_spec off opts_len); [|eauto 6].
  destruct (rd8_some opt off Hb) as (kind & -> & _); [lia|].
  destruct (kind =? _); [eauto 6|].
  destruct (kind =? _).
  { rewrite u16_small by mach_lia. apply IH; [lia|lia|done]. }
  destruct (rd8_some opt (off + 1) Hb) as (len & -> & Hlen); [lia|].
  assert (Hstep : forall o', (forall i, opt_mss o' = Some i \/ opt_ts o' = Some i -> 0 <= i < opts_len) ->
    len = MSS_OPT_LEN \/ len = TS_OPT_LEN ->
    exists ret o'', parse_opts_loop fuel opt opts_len (u16 (off + len)) o' = Parsed ret o'' /\
      (ret = 0 \/ ret = -1) /\
      forall i, opt_mss o'' = Some i \/ opt_ts o'' = Some i -> 0 <= i < opts_len).
  { intros o' Ho' Hk. unfold MSS_OPT_LEN, TS_OPT_LEN in Hk. rewrite u16_small by mach_lia.
    apply IH; [lia|lia|done]. }
  destruct (kind =? _); [|destruct (kind =? _); [|eauto 6]].
  - destruct (Z.eqb_spec len MSS_OPT_LEN); cbn [negb]; [|eauto 6]. apply Hstep; [|by left].
    cbn. intros i [[= <-]|Hi]; [lia|]. apply Ho. by right.
  - destruct (Z.eqb_spec len TS_OPT_LEN); cbn [negb]; [|eauto 6]. apply Hstep; [|by right].
    cbn. intros i [Hi|[= <-]]; [|lia]. apply Ho. by left.
Qed.

Lemma opts_len_range p : 5 <= TCPH_HDRLEN (p_tcp p) <= 15 ->
  opts_len_of (p_tcp p) = TCPH_HDRLEN (p_tcp p) * 4 - 20.
Proof. intros. unfold opts_len_of, TCP_HLEN. apply u16_small. mach_lia. Qed.

(** The option parser terminates: on every packet whose data offset covers
    at least the fixed header, as the XDP program checks before it hands a
    packet to the microkernel, and whose buffer extends one byte past the
    options, the loop ends within one turn per option byte, reads nothing
    outside of the buffer, returns 0 or -1, and the options it recorded start
    inside of the option area. *)
Theorem parse_tcp_opts_terminates (p : pkt_tcp) (Hb : bytes (p_opts p))
  (Hdoff : 5 <= TCPH_HDRLEN (p_tcp p) <= 15)
  (Hbuf : TCPH_HDRLEN (p_tcp p) * 4 - 20 < pkt_end (p_opts p)) :
  exists ret o, parse_tcp_opts p = Parsed ret o /\ (ret = 0 \/ ret = -1) /\
    forall i, opt_mss o = Some i \/ opt_ts o = Some i -> 0 <= i < TCPH_HDRLEN (p_tcp p) * 4 - 20.
Proof.
  unfold parse_tcp_opts. rewrite opts_len_range by done.
  apply parse_opts_loop_total; [done|lia|lia|done|lia|]. by intros i [|].
Qed.

(** The memory behind a packet with data offset 4: no-ops and a timestamp
    option at the very end of the 65532 bytes the parser assumes. *)
Definition opts_ring : list Z := replicate (Z.to_nat 65531) TCP_OPT_NO_OP ++ [TCP_OPT_TIMESTAMP; TS_OPT_LEN].

Lemma opts_ring_nop i : 0 <= i < 65531 -> rd8 opts_ring i = Some TCP_OPT_NO_OP.
Proof.
  intros Hi. unfold rd8, opts_ring. destruct (Z.ltb_spec i 0); [lia|].
  rewrite lookup_app_l by (rewrite length_replicate; lia). apply lookup_replicate_2. lia.
Qed.

Lemma opts_ring_last i : 0 <= i < 2 ->
  rd8 opts_ring (65531 + i) = rd8 [TCP_OPT_TIMESTAMP; TS_OPT_LEN] i.
Proof.
  intros Hi. unfold opts_ring.
  replace 65531 with (pkt_end (replicate (Z.to_nat 65531) TCP_OPT_NO_OP)) at 2 by (unfold pkt_end; rewrite length_replicate; lia).
  apply rd8_app. lia.
Qed.

Lemma opts_ring_loops fuel off o : 0 <= off <= 65531 ->
  parse_opts_loop fuel opts_ring 65532 off o = Out_of_fuel.
Proof.
  revert off o. induction fuel as [|fuel IH]; intros off o Ho; cbn [parse_opts_loop]; [done|].
  destruct (Z.ltb_spec off 65532); [|lia].
  destruct (decide (off = 65531)) as [->|Hne].
  - rewrite <- (Z.add_0_r 65531) at 1. rewrite !opts_ring_last by lia. cbn. apply IH.
    change (u16 (65531 + TS_OPT_LEN)) with 5. lia.
  - rewrite opts_ring_nop by lia. cbn. rewrite u16_small by mach_lia. apply IH. lia.
Qed.

(** Without the check of the XDP program the parser may never return: for a
    data offset of 4 the 16-bit length wraps to 65532, an option near the end
    makes the 16-bit offset wrap, and the loop starts over, whatever the
    number of turns. *)
Theorem parse_tcp_opts_short_header_loops (t : tcp_hdr) (fuel : nat)
  (Hdoff : TCPH_HDRLEN t = 4) :
  parse_opts_loop fuel opts_ring (opts_len_of t) 0 opts_none = Out_of_fuel.
Proof.
  unfold opts_len_of. rewrite Hdoff. change (u16 (4 * 4 - TCP_HLEN)) with 65532.
  apply opts_ring_loops. lia.
Qed.

Lemma parse_tcp_opts_short_header_loops_witness :
  TCPH_HDRLEN (mk_tcp_hdr 0 0 0 0 (hdrlen_flags 4 TCP_SYN) 0 0 0) = 4 /\
  parse_opts_loop 200000 opts_ring (opts_len_of (mk_tcp_hdr 0 0 0 0 (hdrlen_flags 4 TCP_SYN) 0 0 0)) 0
    opts_none = Out_of_fuel.
Proof. split; [reflexivity|]. apply (parse_tcp_opts_short_header_loops _ 200000). reflexivity. Defined.

(** ** The parser inverts the encoding of options *)

Inductive tcp_option := Nop | Mss (v : Z) | Timestamp (val ecr : Z).

Definition option_bytes (x : tcp_option) : list Z :=
  match x with
  | Nop => [TCP_OPT_NO_OP]
  | Mss v => [TCP_OPT_MSS; MSS_OPT_LEN] ++ be16 v
  | Timestamp val ecr => [TCP_OPT_TIMESTAMP; TS_OPT_LEN] ++ be32 val ++ be32 ecr
  end.

Definition options_bytes (l : list tcp_option) : list Z := flat_map option_bytes l.

(** The offsets the parser should record: those of the last option of a kind. *)
Fixpoint options_at (off : Z) (l : list tcp_option) (o : tcp_opts) : tcp_opts :=
  match l with
  | [] => o
  | x :: l =>
    options_at (off + pkt_end (option_bytes x)) l
      match x with
      | Nop => o
      | Mss _ => o <| opt_mss := Some off |>
      | Timestamp _ _ => o <| opt_ts := Some off |>
      end
  end.

Lemma option_bytes_len x : 1 <= pkt_end (option_bytes x) <= 10.
Proof. destruct x; unfold pkt_end; cbn; lia. Qed.

Lemma parse_opts_loop_encode l fuel pre rest opts_len o :
  pkt_end (pre ++ options_bytes l) <= opts_len <= 65526 ->
  opts_len = pkt_end (pre ++ options_bytes l) \/ head rest = Some TCP_OPT_END_OF_OPTIONS ->
  Z.max 0 (opts_len - pkt_end pre) < Z.of_nat fuel ->
  parse_opts_loop fuel (pre ++ options_bytes l ++ rest) opts_len (pkt_end pre) o =
  Parsed 0 (options_at (pkt_end pre) l o).
Proof.
  revert fuel pre o. induction l as [|x l IH]; intros fuel pre o Hl Hr Hf;
    (destruct fuel as [|fuel]; [lia|]); cbn [options_bytes flat_map options_at app] in *;
    cbn [parse_opts_loop]; pose proof (Nat2Z.is_nonneg (length pre)) as Hp; fold (pkt_end pre) in Hp.
  - rewrite app_nil_r in *. destruct (Z.ltb_spec (pkt_end pre) opts_len); [|done].
    destruct Hr as [->|Hr]; [lia|]. destruct rest as [|y rest]; [done|]. injection Hr as ->.
    rewrite <- (Z.add_0_r (pkt_end pre)), rd8_app by lia. done.
  - fold (options_bytes l) in *. pose proof (option_bytes_len x) as Hx. rewrite !pkt_end_app in Hl, Hr.
    assert (0 <= pkt_end (options_bytes l)) by (unfold pkt_end; lia).
    destruct (Z.ltb_spec (pkt_end pre) opts_len); [|lia]. rewrite <- app_assoc.
    assert (Hrd : forall i, 0 <= i -> i < pkt_end (option_bytes x) ->
      rd8 (pre ++ option_bytes x ++ options_bytes l ++ rest) (pkt_end pre + i) = rd8 (option_bytes x) i).
    { intros i Hi Hi'. rewrite rd8_app by done. unfold rd8. destruct (Z.ltb_spec i 0); [lia|].
      rewrite lookup_app_l; [done|]. unfold pkt_end in Hi'. lia. }
    specialize (IH fuel (pre ++ option_bytes x)). rewrite <- !app_assoc, !pkt_end_app in IH.
    pose proof (Hrd 0 ltac:(lia) ltac:(lia)) as Hk. rewrite Z.add_0_r in Hk. rewrite Hk.
    destruct x as [|v|val ecr].
    + cbn in Hx. change (rd8 (option_bytes Nop) 0) with (Some TCP_OPT_NO_OP). cbn.
      rewrite u16_small by mach_lia. apply IH; change (pkt_end (option_bytes Nop)) with 1 in *; try lia.
      destruct Hr; [left; lia|by right].
    + pose proof (Hrd 1 ltac:(lia) ltac:(vm_compute; reflexivity)) as Hn. rewrite Hn.
      change (rd8 (option_bytes (Mss v)) 0) with (Some TCP_OPT_MSS).
      change (rd8 (option_bytes (Mss v)) 1) with (Some MSS_OPT_LEN). cbn.
      change (pkt_end (option_bytes (Mss v))) with 4 in *. unfold MSS_OPT_LEN.
      rewrite u16_small by mach_lia. apply IH; try lia. destruct Hr; [left; lia|by right].
    + pose proof (Hrd 1 ltac:(lia) ltac:(vm_compute; reflexivity)) as Hn. rewrite Hn.
      change (rd8 (option_bytes (Timestamp val ecr)) 0) with (Some TCP_OPT_TIMESTAMP).
      change (rd8 (option_bytes (Timestamp val ecr)) 1) with (Some TS_OPT_LEN). cbn.
      change (pkt_end (option_bytes (Timestamp val ecr))) with 10 in *. unfold TS_OPT_LEN.
      rewrite u16_small by mach_lia. apply IH; try lia. destruct Hr; [left; lia|by right].
Qed.

(** Options of another kind leave the recorded timestamp alone. *)
Definition is_timestamp (x : tcp_option) : bool :=
  match x with Timestamp _ _ => true | _ => false end.

Lemma options_at_no_ts off l o :
  forallb (fun x => negb (is_timestamp x)) l = true -> opt_ts (options_at off l o) = opt_ts o.
Proof.
  revert off o. induction l as [|x l IH]; intros off o; cbn [forallb options_at]; [done|].
  intros [Hx Hl]%andb_true_iff. rewrite IH by done. by destruct x.
Qed.

Lemma options_at_app off l l' o :
  options_at off (l ++ l') o = options_at (off + pkt_end (options_bytes l)) l' (options_at off l o).
Proof.
  revert off o. induction l as [|x l IH]; intros off o; cbn [options_at app options_bytes flat_map].
  - by rewrite Z.add_0_r.
  - rewrite IH. fold (options_bytes l). by rewrite pkt_end_app, Z.add_assoc.
Qed.

Lemma rd32_be32 x rest : rd32 (be32 x ++ rest) 0 = Some (bpf_htonl x).
Proof.
  unfold be32. generalize (bpf_htonl x). intros y.
  transitivity (Some ((y mod 65536) mod 256 + 256 * (y mod 65536 / 256)
    + 65536 * ((y / 65536) mod 256 + 256 * (y / 65536 / 256)))); [reflexivity|]. by rewrite le32_join.
Qed.

(** C40. The option parser inverts the encoding: for every sequence of no-op,
    maximum-segment-size and timestamp options that fills the option area, or
    is followed in it by the end marker, the parser returns 0 with the offsets
    of the last option of each kind, and what the caller then reads at the
    recorded timestamp is the value the sender put there. *)
Theorem parse_options_round_trip (p : pkt_tcp) (l : list tcp_option) (rest : list Z)
  (Hdoff : 5 <= TCPH_HDRLEN (p_tcp p) <= 15)
  (Hopts : p_opts p = options_bytes l ++ rest)
  (Hfit : pkt_end (options_bytes l) <= TCPH_HDRLEN (p_tcp p) * 4 - 20)
  (Hend : TCPH_HDRLEN (p_tcp p) * 4 - 20 = pkt_end (options_bytes l) \/
          head rest = Some TCP_OPT_END_OF_OPTIONS) :
  parse_tcp_opts p = Parsed 0 (options_at 0 l opts_none) /\
  forall pre val ecr post, l = pre ++ Timestamp val ecr :: post ->
    forallb (fun x => negb (is_timestamp x)) post = true -> in32 val ->
    opt_ts (options_at 0 l opts_none) = Some (pkt_end (options_bytes pre)) /\
    ts_val_at p (pkt_end (options_bytes pre)) = Some val.
Proof.
  split.
  - unfold parse_tcp_opts. rewrite opts_len_range by done. rewrite Hopts.
    apply (parse_opts_loop_encode l _ [] rest); cbn [app]; change (pkt_end []) with 0; [lia|done|lia].
  - intros pre val ecr post -> Hpost Hv. rewrite options_at_app. cbn [options_at].
    split; [by rewrite options_at_no_ts|]. unfold ts_val_at. rewrite Hopts.
    unfold options_bytes. rewrite flat_map_app. cbn [flat_map option_bytes]. rewrite <- !app_assoc.
    rewrite rd32_app by done. cbn [app].
    match goal with |- context [rd32 (?a :: ?b :: ?l) 2] =>
      replace (rd32 (a :: b :: l) 2) with (rd32 l 0) by exact (eq_sym (rd32_app [a; b] l 0 ltac:(done))) end.
    rewrite rd32_be32. cbn [mbind option_bind]. f_equal. by apply bpf_ntohl_htonl.
Qed.

(** A SYN of [send_tcp_control] as it leaves. *)
Definition endpoints_ex : endpoints := mk_endpoints 0xc0a80601 1000 0xc0a80602 80 0 0.
Definition syn_ex : pkt_tcp :=
  control_pkt 0x1000 (0, 0) endpoints_ex (Z.lor TCP_SYN (Z.lor TCP_ECE TCP_CWR)) true 0 TCP_MSS.

Lemma parse_tcp_opts_terminates_witness :
  let p := syn_ex <| p_opts ::= fun o => o ++ [0] |> in
  TCPH_HDRLEN (p_tcp p) = 9 /\ exists ret o, parse_tcp_opts p = Parsed ret o.
Proof.
  split; [vm_compute; reflexivity|].
  destruct (parse_tcp_opts_terminates (syn_ex <| p_opts ::= fun o => o ++ [0] |>)) as (ret & o & E & _).
  - vm_compute. repeat constructor; discriminate.
  - vm_compute. split; discriminate.
  - vm_compute. reflexivity.
  - by exists ret, o.
Defined.

(** The options of a control packet with both options. *)
Lemma control_opts_both ts_echo mss : nz mss = true ->
  control_opts true ts_echo mss = options_bytes [Mss mss; Timestamp 0 ts_echo] ++ [0; 0].
Proof. intros E. unfold control_opts, control_optlen. rewrite E. reflexivity. Qed.

Lemma control_opts_ts ts_echo :
  control_opts true ts_echo 0 = options_bytes [Timestamp 0 ts_echo] ++ [0; 0].
Proof. reflexivity. Qed.

Lemma parse_options_round_trip_witness :
  parse_tcp_opts syn_ex = Parsed 0 (mk_tcp_opts (Some 0) (Some 4)) /\ ts_val_at syn_ex 4 = Some 0.
Proof.
  destruct (parse_options_round_trip syn_ex [Mss TCP_MSS; Timestamp 0 0] [0; 0]) as [E H].
  - vm_compute. split; discriminate.
  - reflexivity.
  - vm_compute. discriminate.
  - right. reflexivity.
  - split; [exact E|]. apply (H [Mss TCP_MSS] 0 0 []); [reflexivity..|mach_lia].
Defined.

(** ** The checksums of control packets *)

Lemma rd8_past b i : pkt_end b <= i -> rd8 b i = None.
Proof.
  intros Hi. unfold rd8, pkt_end in *. destruct (i <? 0); [done|]. apply lookup_ge_None_2. lia.
Qed.

Lemma rd16_past b i : pkt_end b <= i + 1 -> rd16 b i = None.
Proof. intros Hi. unfold rd16. rewrite (rd8_past b (i + 1)) by lia. by destruct (rd8 b i). Qed.

Lemma rd32_past b i : pkt_end b <= i + 3 -> rd32 b i = None.
Proof.
  intros Hi. unfold rd32. rewrite (rd16_past b (i + 2)) by lia. by destruct (rd16 b i).
Qed.

Lemma csum_words_past n b pos r c :
  pkt_end b < pos + 4 * Z.of_nat n -> (0 < n)%nat -> csum_words n b pos r c = None.
Proof.
  revert pos r c. induction n as [|n IH]; intros pos r c Hp Hn; [lia|]. cbn [csum_words].
  destruct (rd32 b pos) as [w|] eqn:E; [|done]. cbn [mbind option_bind].
  destruct n as [|n]; [|apply IH; lia]. rewrite rd32_past in E by lia. done.
Qed.

(** Past the end of its buffer [do_csum] reads other memory. *)
Lemma do_csum_past buff b len : Z.odd buff = false -> 8 <= len -> pkt_end b < len - 5 -> do_csum buff b len = None.
Proof.
  intros Ho Hl Hb. unfold do_csum. rewrite Ho. destruct (Z.leb_spec len 0); [lia|].
  cbn [mbind option_bind]. destruct (Z.geb_spec len 2); [|lia].
  assert (Hblk : forall pos r l, len <= pos + l -> 4 <= l -> csum_block b pos r l = None).
  { intros pos r l Hp H4. unfold csum_block. destruct (Z.geb_spec l 4); [|lia].
    rewrite csum_words_past by lia. done. }
  destruct (nz _).
  - destruct (rd16 b 0); [|done]. cbn [mbind option_bind]. rewrite Hblk by lia. done.
  - cbn [mbind option_bind]. rewrite Hblk by lia. done.
Qed.

Lemma tcp_csum_loop_past n b cnt s :
  pkt_end b < cnt + 2 * Z.of_nat n -> (0 < n)%nat -> tcp_csum_loop n b cnt s = None.
Proof.
  revert cnt s. induction n as [|n IH]; intros cnt s Hp Hn; [lia|]. cbn [tcp_csum_loop].
  destruct (rd8 b cnt) as [x|] eqn:E; [|done]. cbn [mbind option_bind].
  destruct (rd8 b (cnt + 1)) as [y|] eqn:E'; [|done]. cbn [mbind option_bind].
  destruct n as [|n]; [|apply IH; lia]. rewrite rd8_past in E' by lia. done.
Qed.

Lemma control_optlen_cases ts_opt mss_opt : 0 <= control_optlen ts_opt mss_opt <= 16.
Proof. unfold control_optlen. destruct (nz mss_opt), ts_opt; vm_compute; split; discriminate. Qed.

Lemma control_hdrs_len e flags ts_opt ts_echo mss_opt :
  pkt_end (pkt_bytes (control_hdrs e flags ts_opt ts_echo mss_opt)) = PKT_TCP_LEN + control_optlen ts_opt mss_opt.
Proof.
  unfold control_hdrs, pkt_bytes, control_opts, control_optlen. cbn [pe_dest pe_src pe_type p_ip p_tcp p_opts].
  destruct (nz mss_opt), ts_opt; reflexivity.
Qed.

(** The checksums of the control packets are not checksums: for every
    control packet, [ip_fast_csum] is given the version and header-length
    byte 0x45 as the number of words and [tcp_csum] the length of the whole
    packet, so both read past the end of the allocation, whatever the
    alignment of the packet. *)
Theorem control_csums_overread (base : Z) (e : endpoints) (flags : Z) (ts_opt : bool)
  (ts_echo mss_opt : Z) (Hbase : Z.even base = true) :
  let p := control_hdrs e flags ts_opt ts_echo mss_opt in
  pkt_ip_csum base p = None /\ pkt_tcp_csum (PKT_TCP_LEN + control_optlen ts_opt mss_opt) p = None.
Proof.
  intros p. pose proof (control_optlen_cases ts_opt mss_opt) as Ho.
  pose proof (control_hdrs_len e flags ts_opt ts_echo mss_opt) as Hl. fold p in Hl.
  unfold PKT_TCP_LEN in *. unfold pkt_end in Hl. split.
  - unfold pkt_ip_csum, ip_fast_csum. rewrite do_csum_past; [done| |vm_compute; discriminate|].
    + rewrite Z.odd_add, <- Z.negb_even, Hbase. done.
    + unfold pkt_end. rewrite length_drop. change (ih_v_hl (p_ip p)) with 0x45. lia.
  - unfold pkt_tcp_csum, tcp_csum. rewrite tcp_csum_loop_past; [done| |lia].
    unfold pkt_end. rewrite length_drop. lia.
Qed.

Lemma control_csums_overread_witness :
  pkt_ip_csum 0x1000 (control_hdrs endpoints_ex TCP_SYN true 0 TCP_MSS) = None.
Proof. apply (control_csums_overread 0x1000 endpoints_ex TCP_SYN true 0 TCP_MSS). reflexivity. Defined.
