(* ===== verification/TcpCtl.v ===== *)
(** TCP connection management of the microkernel ([micro_kernel/tcp.cc] with
    the structures of [runtime/tcp.h] and [runtime/app_if.h]): commands of the
    applications, control packets, the handshake list and the handshake part
    of the control loop.

    Objects created with [new] live in two heaps keyed by address; reading,
    writing or deleting an address that is not in its heap is undefined and
    makes the whole operation [None], as do a failed assertion and a copy past
    the end of an array.  An operation is a function of the state in the small
    monad [M].  What the operation sends, messages to application threads and
    packets, is appended to [k_out]. *)
From stdpp Require Import gmap.
From S2P Require Import Prelude Intf Headers Parse Csum TcpOpts Ports Cc.
Local Open Scope Z_scope.
Local Open Scope u32_scope.

(** ** Data *)

Definition ECN_ENABLE : Z := 1.
Definition MAX_NR_CONN : Z := 65536.
Definition TCP_HANDSHAKE_TIMEOUT : Z := 50.
Definition XSK_RING_PROD_NUM_DESCS : Z := 2048.
Definition BACKLOG_PKT_SIZE : Z := 256.

(** [enum connection_status] and [enum tcp_connection_type] *)
Inductive connection_status : Type :=
| CONN_WAIT_RX_SYN | CONN_WAIT_TX_SYNACK | CONN_WAIT_TX_SYN | CONN_WAIT_RX_SYNACK
| CONN_OPEN | CONN_CLOSED | CONN_FAILED.

#[export] Instance connection_status_eq_dec : EqDecision connection_status.
Proof. solve_decision. Defined.

Inductive tcp_connection_type : Type := TCP_CONN_TYPE_NORMAL | TCP_CONN_TYPE_FAKE.

#[export] Instance tcp_connection_type_eq_dec : EqDecision tcp_connection_type.
Proof. solve_decision. Defined.

(** [struct listen_tuple] and [struct flow_tuple], keys of the two tables. *)
Record listen_tuple := mk_listen_tuple { lt_local_ip : Z; lt_local_port : Z }.

#[export] Instance listen_tuple_eq_dec : EqDecision listen_tuple.
Proof. solve_decision. Defined.
#[export] Instance listen_tuple_countable : Countable listen_tuple.
Proof.
  refine (inj_countable' (fun k => (lt_local_ip k, lt_local_port k))
    (fun t => mk_listen_tuple t.1 t.2) _). by intros [].
Defined.

Record flow_tuple := mk_flow_tuple {
  ft_remote_ip : Z; ft_remote_port : Z; ft_local_ip : Z; ft_local_port : Z
}.

#[export] Instance flow_tuple_eq_dec : EqDecision flow_tuple.
Proof. solve_decision. Defined.
#[export] Instance flow_tuple_countable : Countable flow_tuple.
Proof.
  refine (inj_countable'
    (fun k => (ft_remote_ip k, ft_remote_port k, ft_local_ip k, ft_local_port k))
    (fun t => match t with (a, b, c, d) => mk_flow_tuple a b c d end) _). by intros [].
Defined.

(** [flow_tuple::hash], with the identity that [std::hash] is on integers. *)
Definition flow_hash (k : flow_tuple) : Z :=
  u32 (Z.lxor (Z.lxor (Z.shiftr (Z.lxor (ft_remote_ip k) (Z.shiftl (ft_local_ip k) 1)) 1)
                 (Z.shiftl (ft_remote_port k) 1)) (ft_local_port k)).

(** [struct tcp_connection]; a thread context is an application and the index
    of a thread, the fields of the control loop are those of [ctl_conn]. *)
Record tcp_connection := mk_tcp_connection {
  tn_type : tcp_connection_type;
  tn_tctx : Z * Z;
  tn_listener : option Z;
  tn_listen_fd : Z;
  tn_reuseport : bool;
  tn_opaque_connection : Z;
  tn_fd : Z;
  tn_local_mac : list Z;
  tn_remote_mac : list Z;
  tn_remote_ip : Z;
  tn_remote_port : Z;
  tn_local_ip : Z;
  tn_local_port : Z;
  tn_rx_buf_size : Z;
  tn_remote_seq : Z;
  tn_local_seq : Z;
  tn_status : connection_status;
  tn_syn_ts : Z;
  tn_syn_attempts : Z;
  tn_cc_idx : Z;
  tn_ctl : ctl_conn;
  tn_cc_data : cc_data;
  tn_qid : Z;
  tn_flags : Z;
  tn_next_timeout_tsc : Z;
  tn_ref : Z
}.

#[export] Instance eta_tcp_connection : Eta tcp_connection := fun r => mk_tcp_connection
  (tn_type r) (tn_tctx r) (tn_listener r) (tn_listen_fd r) (tn_reuseport r)
  (tn_opaque_connection r) (tn_fd r) (tn_local_mac r) (tn_remote_mac r) (tn_remote_ip r)
  (tn_remote_port r) (tn_local_ip r) (tn_local_port r) (tn_rx_buf_size r) (tn_remote_seq r)
  (tn_local_seq r) (tn_status r) (tn_syn_ts r) (tn_syn_attempts r) (tn_cc_idx r) (tn_ctl r)
  (tn_cc_data r) (tn_qid r) (tn_flags r) (tn_next_timeout_tsc r) (tn_ref r).

Definition tn_tx_buf_size (c : tcp_connection) : Z := ctl_tx_buf_size (tn_ctl c).

(** The constructor: [memset] to zero and one reference. *)
Definition new_connection : tcp_connection := mk_tcp_connection TCP_CONN_TYPE_NORMAL (0, 0) None 0
  false 0 0 mac_zero mac_zero 0 0 0 0 0 0 0 CONN_WAIT_RX_SYN 0 0 0
  (mk_ctl_conn 0 0 0 0 0 0 0 0 0 0 0 0 0 0 0 0 0 0 0) CC_NONE 0 0 0 1.

(** [flow_tuple(c->remote_ip, c->remote_port, c->local_ip, c->local_port)] *)
Definition conn_key (c : tcp_connection) : flow_tuple :=
  mk_flow_tuple (tn_remote_ip c) (tn_remote_port c) (tn_local_ip c) (tn_local_port c).

Definition conn_ebpf_key (c : tcp_connection) : ebpf_flow_tuple :=
  mk_ebpf_flow_tuple (tn_local_ip c) (tn_remote_ip c) (tn_local_port c) (tn_remote_port c).

Definition conn_endpoints (c : tcp_connection) : endpoints :=
  mk_endpoints (tn_local_ip c) (tn_local_port c) (tn_remote_ip c) (tn_remote_port c)
    (tn_local_seq c) (tn_remote_seq c).

(** [struct backlog_slot] and [struct tcp_listener] *)
Record backlog_slot := mk_backlog_slot { bs_pkt : pkt_tcp; bs_len : Z; bs_qid : Z }.

Record tcp_listener := mk_tcp_listener {
  tl_tctx : Z * Z;
  tl_opaque_listener : Z;
  tl_max_backlog_size : Z;
  tl_backlog : list backlog_slot;
  tl_listen_port : Z;
  tl_pending_conn : option Z;
  tl_c : Z;
  tl_fd : Z
}.

#[export] Instance eta_tcp_listener : Eta tcp_listener := fun r => mk_tcp_listener (tl_tctx r)
  (tl_opaque_listener r) (tl_max_backlog_size r) (tl_backlog r) (tl_listen_port r)
  (tl_pending_conn r) (tl_c r) (tl_fd r).

(** The parts of [struct app_ctx] and [struct app_ctx_per_thread] used here;
    [ap_bufs] counts the buffers the thread cache and the pool still hold. *)
Record app_ctx := mk_app_ctx {
  ap_proto : Z;
  ap_ports : gset Z;
  ap_rules : list fd_rule;
  ap_nic_qid : list Z;
  ap_bufs : Z
}.

#[export] Instance eta_app_ctx : Eta app_ctx := fun r => mk_app_ctx (ap_proto r) (ap_ports r)
  (ap_rules r) (ap_nic_qid r) (ap_bufs r).

Record thread_ctx := mk_thread_ctx { th_xsk_map_key : list Z; th_listeners : list Z }.

#[export] Instance eta_thread_ctx : Eta thread_ctx := fun r =>
  mk_thread_ctx (th_xsk_map_key r) (th_listeners r).

(** Messages to an application thread and packets handed to a NIC queue. *)
Inductive status_kind := ST_BIND | ST_LISTEN | ST_CLOSE.

Inductive ctl_out :=
| APPIN_TCP_CONN_ACCEPT (tctx : Z * Z) (opaque fd newfd status : Z) (backlog : bool)
    (rx_buf tx_buf l_ip r_ip r_port qid : Z)
| APPIN_TCP_EVENT_NEWCONN (tctx : Z * Z) (opaque_listener fd r_ip r_port : Z)
| APPIN_TCP_CONN_OPEN (tctx : Z * Z) (opaque fd status l_ip l_port rx_buf tx_buf qid : Z)
| APPIN_TCP_STATUS (k : status_kind) (tctx : Z * Z) (opaque fd status : Z)
| Xmit (qid : Z) (t : tx_meta) (p : pkt_tcp) (len : Z).

(** The state of the microkernel. *)
Record ctl := mk_ctl {
  k_conns : gmap flow_tuple Z;
  k_heap : gmap Z tcp_connection;
  k_listeners : gmap listen_tuple (list Z);
  k_lheap : gmap Z tcp_listener;
  k_handshake : list Z;
  k_pool : port_pool;
  k_rule_dst : gset Z;
  k_rule_src : gset Z;
  k_apps : gmap Z app_ctx;
  k_threads : gmap (Z * Z) thread_ctx;
  k_cc_avail : list Z;
  k_cc_map : gmap Z bpf_cc;
  k_ebpf : gmap ebpf_flow_tuple bpf_tcp_conn;
  k_queues : gmap Z Z;
  k_next : Z;
  k_out : list ctl_out
}.

#[export] Instance eta_ctl : Eta ctl := fun r => mk_ctl (k_conns r) (k_heap r) (k_listeners r)
  (k_lheap r) (k_handshake r) (k_pool r) (k_rule_dst r) (k_rule_src r) (k_apps r) (k_threads r)
  (k_cc_avail r) (k_cc_map r) (k_ebpf r) (k_queues r) (k_next r) (k_out r).

(** ** The monad of the operations *)

Definition M (A : Type) : Type := ctl -> option (A * ctl).

Definition ret {A} (a : A) : M A := fun s => Some (a, s).
Definition bindM {A B} (m : M A) (k : A -> M B) : M B :=
  fun s => match m s with Some (a, s) => k a s | None => None end.
Definition undefined {A} : M A := fun _ => None.
Definition get : M ctl := fun s => Some (s, s).
Definition modify (f : ctl -> ctl) : M unit := fun s => Some (tt, f s).
Definition emit (o : ctl_out) : M unit := modify (fun s => s <| k_out ::= fun l => l ++ [o] |>).

(** A value that must be there. *)
Definition must {A} (x : option A) : M A :=
  match x with Some a => ret a | None => undefined end.

Declare Scope ctl_scope.
Delimit Scope ctl_scope with ctl.
Notation "'let!' x := m 'in' k" := (bindM m (fun x => k))
  (at level 200, x pattern, m at level 100, k at level 200, right associativity) : ctl_scope.
Notation "m ;; k" := (bindM m (fun _ => k)) (at level 100, k at level 200, right associativity) : ctl_scope.
Local Open Scope ctl_scope.

Definition whenM (b : bool) (m : M unit) : M unit := if b then m else ret tt.

Fixpoint forM {A} (l : list A) (f : A -> M unit) : M unit :=
  match l with
  | [] => ret tt
  | x :: l => f x ;; forM l f
  end.

(** Dereferences. *)
Definition rd_conn (p : Z) : M tcp_connection := let! s := get in must (k_heap s !! p).
Definition upd_conn (p : Z) (f : tcp_connection -> tcp_connection) : M unit :=
  let! c := rd_conn p in modify (fun s => s <| k_heap ::= <[p := f c]> |>).
Definition delete_conn (p : Z) : M unit :=
  let! _ := rd_conn p in modify (fun s => s <| k_heap ::= delete p |>).
Definition rd_lst (p : Z) : M tcp_listener := let! s := get in must (k_lheap s !! p).
Definition upd_lst (p : Z) (f : tcp_listener -> tcp_listener) : M unit :=
  let! l := rd_lst p in modify (fun s => s <| k_lheap ::= <[p := f l]> |>).
Definition delete_lst (p : Z) : M unit :=
  let! _ := rd_lst p in modify (fun s => s <| k_lheap ::= delete p |>).
Definition rd_app (a : Z) : M app_ctx := let! s := get in must (k_apps s !! a).
Definition rd_thread (t : Z * Z) : M thread_ctx := let! s := get in must (k_threads s !! t).

(** [new tcp_connection()] and [new tcp_listener()]: an address never used. *)
Definition new_conn : M Z :=
  let! s := get in
  modify (fun s => s <| k_heap ::= <[k_next s := new_connection]> |> <| k_next := k_next s + 1 |>) ;;
  ret (k_next s).
Definition new_lst (l : tcp_listener) : M Z :=
  let! s := get in
  modify (fun s => s <| k_lheap ::= <[k_next s := l]> |> <| k_next := k_next s + 1 |>) ;;
  ret (k_next s).

(** ** Configuration and services outside of the file

    The parameters of the NIC and the transport, the conversions of the cycle
    counter, the answers of the command that programs the NIC, the order in
    which an unordered map is traversed and the memory next to an allocated
    packet. *)
Record ctl_env := mk_ctl_env {
  e_local_ip : Z;
  e_rx_buf_size : Z;
  e_tx_buf_size : Z;
  e_us_to_cycles : Z -> Z;
  e_cycles_to_us : Z -> Z;
  e_nic_answer : Z -> Z -> option Z;
  e_iter : gmap flow_tuple Z -> list (flow_tuple * Z);
  e_iter_listeners : gmap listen_tuple (list Z) -> list (listen_tuple * list Z);
  e_pkt_base : Z;
  e_junk : Z * Z
}.

(** ** Congestion-control indexes *)

(** [alloc_cc_idx] and [free_cc_idx] *)
Definition alloc_cc_idx : M (option Z) :=
  let! s := get in
  match k_cc_avail s with
  | [] => ret None
  | i :: rest => modify (fun s => s <| k_cc_avail := rest |>) ;; ret (Some i)
  end.

Definition free_cc_idx (i : Z) : M unit :=
  modify (fun s => s <| k_cc_avail ::= fun l => l ++ [i] |>).

(** ** Ports, through the state of one application *)

Definition with_rules (a : Z) (f : Z -> port_rules -> port_rules) : M unit :=
  let! ap := rd_app a in
  modify (fun s =>
    let r := f (ap_proto ap) (mk_port_rules (k_rule_dst s) (k_rule_src s) (ap_ports ap) (ap_rules ap)) in
    s <| k_rule_dst := rule_dst_ports r |> <| k_rule_src := rule_src_ports r |>
      <| k_apps ::= <[a := ap <| ap_ports := app_ports r |> <| ap_rules := flow_director_rules r |>]> |>).

Definition ctl_record_port (e : ctl_env) (a lport rport : Z) : M unit :=
  with_rules a (fun proto r => (record_port proto lport rport (e_nic_answer e lport rport) r).2).
Definition ctl_unrecord_port (a lport : Z) : M unit :=
  with_rules a (fun proto r => (unrecord_port proto lport r).2).
Definition ctl_free_port (p : Z) : M unit :=
  modify (fun s => s <| k_pool ::= fun q => (free_port p q).2 |>).

(** ** Messages to the applications *)

(** [k_out] records what is handed to [lrpc_send]; a full channel loses the
    message and only prints. *)
Definition notify_app_tcp_event_accept (e : ctl_env) (t : Z * Z) (opaque fd newfd status rx_buf_size
  tx_buf_size local_ip remote_ip remote_port qid : Z) (backlog : bool) : M unit :=
  emit (if status =? 0
        then APPIN_TCP_CONN_ACCEPT t opaque fd newfd status backlog rx_buf_size tx_buf_size
               (e_local_ip e) remote_ip remote_port qid
        else APPIN_TCP_CONN_ACCEPT t opaque fd newfd status backlog 0 0 0 0 0 0).

Definition notify_app_tcp_event_newconn (t : Z * Z) (l fd remote_ip remote_port : Z) : M unit :=
  emit (APPIN_TCP_EVENT_NEWCONN t l fd remote_ip remote_port).

(** The connection is dereferenced unless the status is -1. *)
Definition notify_app_tcp_conn_open (t : Z * Z) (opaque fd status : Z) (conn : option tcp_connection)
  : M unit :=
  match conn with
  | Some c =>
    let given (b : bool) (x : Z) := if b then x else 0 in
    emit (APPIN_TCP_CONN_OPEN t opaque fd status (given (negb (status =? -1)) (tn_local_ip c))
            (given (negb (status =? -1)) (tn_local_port c)) (given (status =? 1) (tn_rx_buf_size c))
            (given (status =? 1) (tn_tx_buf_size c)) (given (status =? 1) (tn_qid c)))
  | None => if status =? -1 then emit (APPIN_TCP_CONN_OPEN t opaque fd status 0 0 0 0 0) else undefined
  end.

Definition notify_app_tcp_status_bind (t : Z * Z) (opaque fd status : Z) : M unit :=
  emit (APPIN_TCP_STATUS ST_BIND t opaque fd status).
Definition notify_app_tcp_status_listen (t : Z * Z) (opaque fd status : Z) : M unit :=
  emit (APPIN_TCP_STATUS ST_LISTEN t opaque fd status).
Definition notify_app_tcp_status_close (t : Z * Z) (opaque fd status : Z) : M unit :=
  emit (APPIN_TCP_STATUS ST_CLOSE t opaque fd status).

(** ** The table of connections *)

(** [find_tcp_conn_slowpath]: every entry passed on the way is dereferenced. *)
Fixpoint find_conn (l : list (flow_tuple * Z)) (opaque : Z) : M (option Z) :=
  match l with
  | [] => ret None
  | (_, p) :: l =>
    let! c := rd_conn p in
    if tn_opaque_connection c =? opaque then ret (Some p) else find_conn l opaque
  end.

Definition find_tcp_conn_slowpath (e : ctl_env) (opaque : Z) : M (option Z) :=
  let! s := get in find_conn (e_iter e (k_conns s)) opaque.

(** [reg_tcp_conn_slowpath]: [insert] keeps an entry that is already there. *)
Definition reg_tcp_conn_slowpath (p : Z) : M unit :=
  let! c := rd_conn p in
  modify (fun s => s <| k_conns ::= fun m =>
    match m !! conn_key c with Some _ => m | None => <[conn_key c := p]> m end |>).

(** [unreg_tcp_conn_slowpath]: the first entry that holds the pointer. *)
Definition unreg_tcp_conn_slowpath (e : ctl_env) (p : Z) : M unit :=
  modify (fun s => s <| k_conns ::= fun m =>
    match List.find (fun x => x.2 =? p) (e_iter e m) with
    | Some (k, _) => delete k m
    | None => m
    end |>).

(** ** Packets to the NIC *)

(** [slow_path_send_tcp] *)
Definition slow_path_send_tcp (a : Z) (p : pkt_tcp) (len : Z) (to : bool) (qid : Z) : M unit :=
  let! ap := rd_app a in
  let! qid :=
    (if qid =? POISON_32 then
       let k := mk_flow_tuple (bpf_ntohl (ih_dest (p_ip p))) (bpf_ntohs (tc_dest (p_tcp p)))
                  (bpf_ntohl (ih_src (p_ip p))) (bpf_ntohs (tc_src (p_tcp p))) in
       let n := Z.of_nat (length (ap_nic_qid ap)) in
       if n =? 0 then undefined else must (ap_nic_qid ap !! Z.to_nat (flow_hash k mod n))
     else ret qid) in
  let! s := get in
  let! free := must (k_queues s !! qid) in
  if to && (free <? Z.shiftr XSK_RING_PROD_NUM_DESCS 2) then ret tt
  else if (ap_bufs ap <? 1) || (free <? 1) then ret tt
  else
    modify (fun s => s <| k_queues ::= <[qid := free - 1]> |>
                       <| k_apps ::= <[a := ap <| ap_bufs ::= fun n => n - 1 |>]> |>) ;;
    emit (Xmit qid (mk_tx_meta 1 (if to then FLAG_TO else 0) 0 0 0 0) p len).

(** [send_tcp_control] *)
Definition send_tcp_control (e : ctl_env) (p flags : Z) (ts_opt : bool) (ts_echo mss_opt : Z) : M unit :=
  let! c := rd_conn p in
  slow_path_send_tcp (tn_tctx c).1
    (control_pkt (e_pkt_base e) (e_junk e) (conn_endpoints c) flags ts_opt ts_echo mss_opt)
    (PKT_TCP_LEN + control_optlen ts_opt mss_opt) false (tn_qid c).

(** [send_tcp_reset] *)
Definition send_tcp_reset (e : ctl_env) (a : Z) (orig : pkt_tcp) : M unit :=
  slow_path_send_tcp a (reset_pkt (e_pkt_base e) (e_junk e) orig) PKT_TCP_LEN false POISON_32.

(** [issue_retransmit]: a packet with the two ends and nothing else. *)
Definition issue_retransmit (p : Z) : M unit :=
  let! c := rd_conn p in
  slow_path_send_tcp (tn_tctx c).1
    (mk_pkt_tcp mac_zero mac_zero 0
       (mk_ip_hdr 0 0 0 0 0 0 0 0 (bpf_htonl (tn_local_ip c)) (bpf_htonl (tn_remote_ip c)))
       (mk_tcp_hdr (bpf_htons (tn_local_port c)) (bpf_htons (tn_remote_port c)) 0 0 0 0 0 0) [])
    PKT_TCP_LEN true (tn_qid c).

(** ** Fast-path state of a connection *)

(** The assignment loop over [qid2xsk]; an index past the array is undefined. *)
Fixpoint fill_qid2xsk (qids keys : list Z) (a : list Z) : option (list Z) :=
  match qids, keys with
  | [], _ => Some a
  | q :: qids, k :: keys =>
    if (0 <=? q) && (q <? MAX_NIC_QUEUES)
    then fill_qid2xsk qids keys (<[Z.to_nat q := u8 k]> a) else None
  | _ :: _, [] => None
  end.

(** The value [reg_tcp_conn_ebpf] stores for connection [c]. *)
Definition ebpf_conn (e : ctl_env) (c : tcp_connection) (listen : bool) (cc_idx rate : Z)
  (q2x : list Z) : bpf_tcp_conn :=
  let win := Z.min (e_rx_buf_size e) (Z.shiftl 0xffff TCP_WND_SCALE) in
  let snd := if listen then tn_local_seq c ⊕ 1 else tn_local_seq c in
  mk_bpf_tcp_conn (tn_opaque_connection c) (tn_qid c) (tn_local_mac c) (tn_remote_mac c)
    (tn_local_ip c) (tn_remote_ip c) (tn_local_port c) (tn_remote_port c)
    (e_rx_buf_size e) (e_tx_buf_size e) win 0 0 0 0 0 cc_idx (Z.land (tn_flags c) ECN_ENABLE)
    (tn_remote_seq c) 0 0 0 snd win 1 1000000 0 0 snd rate snd 0 (tn_remote_seq c) snd
    (tn_remote_seq c) q2x.

(** The reset of the shared map entry; its last two fields are not written. *)
Definition cc_entry_reset (b : bpf_cc) : bpf_cc :=
  b <| cc_prev_desired_tx_ts := 0 |> <| cc_rate := CC_DCTCP_MIN |> <| cc_cnt_tx_drops := 0 |>
    <| cc_cnt_rx_acks := 0 |> <| cc_cnt_rx_ack_bytes := 0 |> <| cc_cnt_rx_ecn_bytes := 0 |>
    <| cc_rtt_est := 0 |>.

(** [reg_tcp_conn_ebpf]: 0, or -1 when no index or no map entry is left. *)
Definition reg_tcp_conn_ebpf (e : ctl_env) (p : Z) (listen : bool) : M Z :=
  let! i := alloc_cc_idx in
  match i with
  | None => ret (-1)
  | Some cc_idx =>
    let! s := get in
    let! b := must (k_cc_map s !! cc_idx) in
    modify (fun s => s <| k_cc_map ::= <[cc_idx := cc_entry_reset b]> |>) ;;
    let! c := rd_conn p in
    let! rate := must (window_to_rate (2 * 1448) TCP_RTT_INIT) in
    let! ap := rd_app (tn_tctx c).1 in
    let! th := rd_thread (tn_tctx c) in
    let! q2x := must (fill_qid2xsk (ap_nic_qid ap) (th_xsk_map_key th) (replicate 20 0)) in
    if bool_decide (conn_ebpf_key c ∉ dom (k_ebpf s)) && (MAX_TCP_FLOWS <=? Z.of_nat (size (k_ebpf s)))
    then free_cc_idx cc_idx ;; ret (-1)
    else
      modify (fun s => s <| k_ebpf ::= <[conn_ebpf_key c := ebpf_conn e c listen cc_idx rate q2x]> |>) ;;
      upd_conn p (fun c => c <| tn_cc_idx := cc_idx |>
        <| tn_ctl := (tn_ctl c) <| ctl_cc_rate := rate |> |>
        <| tn_cc_data := CC_DCTCP_WND cc_dctcp_wnd_init |>) ;;
      ret 0
  end.

(** [unreg_tcp_conn_ebpf]: when the lookup fails the index read is 0. *)
Definition unreg_tcp_conn_ebpf (p : Z) : M unit :=
  let! c := rd_conn p in
  let! s := get in
  free_cc_idx (match k_ebpf s !! conn_ebpf_key c with Some b => cc_idx b | None => 0 end) ;;
  modify (fun s => s <| k_ebpf ::= delete (conn_ebpf_key c) |>).

(** ** Closing *)

(** [_tcp_connection_close] *)
Definition _tcp_connection_close (e : ctl_env) (p : Z) (send_rst : bool) : M unit :=
  let! c := rd_conn p in
  if decide (tn_type c = TCP_CONN_TYPE_FAKE) then
    ctl_unrecord_port (tn_tctx c).1 (tn_local_port c) ;;
    ctl_free_port (tn_local_port c) ;;
    modify (fun s => s <| k_conns ::= delete (conn_key c) |>) ;;
    delete_conn p
  else
    unreg_tcp_conn_slowpath e p ;;
    whenM (bool_decide (tn_status c = CONN_OPEN \/ tn_status c = CONN_WAIT_TX_SYNACK))
      (unreg_tcp_conn_ebpf p) ;;
    whenM (bool_decide (tn_listener c = None))
      (ctl_unrecord_port (tn_tctx c).1 (tn_local_port c) ;; ctl_free_port (tn_local_port c)) ;;
    whenM send_rst (send_tcp_control e p TCP_RST false 0 0) ;;
    delete_conn p.

(** [tcp_conn_put]: [kref_put] with [tcp_connection_close]. *)
Definition tcp_conn_put (e : ctl_env) (p : Z) : M unit :=
  let! c := rd_conn p in
  upd_conn p (fun c => c <| tn_ref ::= fun n => n - 1 |>) ;;
  whenM (tn_ref c - 1 =? 0) (_tcp_connection_close e p true).

(** ** Packets from the network *)

Definition handshake_deadline (e : ctl_env) (now : Z) : Z :=
  u64 (now + e_us_to_cycles e (TCP_HANDSHAKE_TIMEOUT * 1000)).

(** [tcp_synack_pkt]; [now] is the cycle counter, read on failure only. *)
Definition tcp_synack_pkt (e : ctl_env) (now p : Z) (pkt : pkt_tcp) (o : tcp_opts) : M Z :=
  let fail :=
    upd_conn p (fun c => c <| tn_local_mac := mac_zero |> <| tn_remote_mac := mac_zero |>
      <| tn_remote_seq := 0 |> <| tn_local_seq := 0 |> <| tn_syn_ts := 0 |> <| tn_flags := 0 |>
      <| tn_next_timeout_tsc := handshake_deadline e now |>) ;;
    ret (-1) in
  upd_conn p (fun c => c <| tn_next_timeout_tsc := 0 |>) ;;
  if negb (Z.land (TCPH_FLAGS (p_tcp pkt)) (Z.lor TCP_SYN TCP_ACK) =? Z.lor TCP_SYN TCP_ACK) then fail
  else match opt_ts o with
  | None => fail
  | Some off =>
    let! ts := must (ts_val_at pkt off) in
    upd_conn p (fun c => c <| tn_local_mac := pe_dest pkt |> <| tn_remote_mac := pe_src pkt |>
      <| tn_remote_seq := bpf_ntohl (tc_seqno (p_tcp pkt)) ⊕ 1 |>
      <| tn_local_seq := bpf_ntohl (tc_ackno (p_tcp pkt)) |> <| tn_syn_ts := ts |>) ;;
    whenM (Z.land (TCPH_FLAGS (p_tcp pkt)) (Z.lor TCP_ECE TCP_CWR) =? TCP_ECE)
      (upd_conn p (fun c => c <| tn_flags ::= Z.lor ECN_ENABLE |>)) ;;
    let! r := reg_tcp_conn_ebpf e p false in
    if negb (r =? 0) then fail
    else
      upd_conn p (fun c => c <| tn_status := CONN_OPEN |>) ;;
      let! c := rd_conn p in
      notify_app_tcp_conn_open (tn_tctx c) (tn_opaque_connection c) (tn_fd c) 1 (Some c) ;;
      send_tcp_control e p TCP_ACK true (tn_syn_ts c) 0 ;;
      ret 0
  end.

(** [tcp_conn_lookup] and [tcp_listener_lookup] *)
Definition pkt_key (pkt : pkt_tcp) : flow_tuple :=
  mk_flow_tuple (bpf_ntohl (ih_src (p_ip pkt))) (bpf_ntohs (tc_src (p_tcp pkt)))
    (bpf_ntohl (ih_dest (p_ip pkt))) (bpf_ntohs (tc_dest (p_tcp pkt))).

Definition tcp_conn_lookup (pkt : pkt_tcp) : M (option Z) :=
  let! s := get in ret (k_conns s !! pkt_key pkt).

Definition tcp_listener_lookup (pkt : pkt_tcp) : M (option Z) :=
  let! s := get in
  let k := pkt_key pkt in
  match k_listeners s !! mk_listen_tuple (ft_local_ip k) (ft_local_port k) with
  | None | Some [] => ret None
  | Some l =>
    let h := Z.lxor (Z.lxor (Z.lxor (ft_remote_ip k) (ft_local_ip k)) (ft_remote_port k)) (ft_local_port k) in
    let! x := must (l !! Z.to_nat (h mod Z.of_nat (length l))) in ret (Some x)
  end.

(** [tcp_listener_accept]; the slot is read after it was taken off the list. *)
Definition tcp_listener_accept (e : ctl_env) (lp : Z) : M unit :=
  let! l := rd_lst lp in
  match tl_pending_conn l with
  | None => ret tt
  | Some p =>
    match tl_backlog l with
    | [] => undefined
    | slot :: rest =>
      upd_lst lp (fun l => l <| tl_backlog := rest |>) ;;
      let pkt := bs_pkt slot in
      match parse_tcp_opts pkt with
      | Overread | Out_of_fuel => undefined
      | Parsed r o =>
        match opt_ts o, opt_mss o with
        | Some off, Some _ =>
          if negb (r =? 0) then ret tt
          else
            let! ts := must (ts_val_at pkt off) in
            upd_conn p (fun c => c <| tn_qid := bs_qid slot |>
              <| tn_local_mac := pe_dest pkt |> <| tn_remote_mac := pe_src pkt |>
              <| tn_remote_ip := bpf_ntohl (ih_src (p_ip pkt)) |>
              <| tn_remote_port := bpf_ntohs (tc_src (p_tcp pkt)) |>
              <| tn_local_ip := e_local_ip e |> <| tn_local_port := tl_listen_port l |>
              <| tn_remote_seq := bpf_ntohl (tc_seqno (p_tcp pkt)) ⊕ 1 |>
              <| tn_local_seq := 1 |> <| tn_syn_ts := ts |>) ;;
            whenM (Z.land (TCPH_FLAGS (p_tcp pkt)) (Z.lor TCP_ECE TCP_CWR) =? Z.lor TCP_ECE TCP_CWR)
              (upd_conn p (fun c => c <| tn_flags ::= Z.lor ECN_ENABLE |>)) ;;
            let! r := reg_tcp_conn_ebpf e p true in
            if negb (r =? 0) then ret tt
            else
              reg_tcp_conn_slowpath p ;;
              upd_conn p (fun c => c <| tn_status := CONN_WAIT_TX_SYNACK |> <| tn_listen_fd := tl_fd l |>) ;;
              upd_lst lp (fun l => l <| tl_pending_conn := None |>) ;;
              modify (fun s => s <| k_handshake ::= fun h => h ++ [p] |>)
        | _, _ => ret tt
        end
      end
    end
  end.

(** [tcp_connection_pkt]; the mask [ecn_flags] is still zero in its test. *)
Definition tcp_connection_pkt (e : ctl_env) (now p : Z) (pkt : pkt_tcp) (qid : Z) (o : tcp_opts) : M unit :=
  let flags := TCPH_FLAGS (p_tcp pkt) in
  let! c := rd_conn p in
  if decide (tn_status c = CONN_WAIT_RX_SYNACK) then
    upd_conn p (fun c => c <| tn_qid := qid |>) ;;
    let! _ := tcp_synack_pkt e now p pkt o in ret tt
  else if decide (tn_status c = CONN_OPEN) then
    if Z.land flags (Z.lnot 0) =? TCP_SYN then
      match opt_ts o with
      | None => tcp_conn_put e p
      | Some off =>
        let! ts := must (ts_val_at pkt off) in
        let ecn_flags := if nz (Z.land (tn_flags c) ECN_ENABLE) then TCP_ECE else 0 in
        send_tcp_control e p (Z.lor (Z.lor TCP_SYN TCP_ACK) ecn_flags) true ts TCP_MSS
      end
    else if nz (Z.land flags TCP_SYN) then ret tt
    else if nz (Z.land flags TCP_RST) then
      notify_app_tcp_status_close (tn_tctx c) (tn_opaque_connection c) (tn_fd c) 0 ;;
      tcp_conn_put e p
    else ret tt
  else if decide (tn_status c = CONN_CLOSED) then
    whenM (nz (Z.land flags TCP_FIN)) (send_tcp_control e p TCP_ACK true 0 0)
  else ret tt.

(** [tcp_listener_pkt]; the copy into the slot must fit its 256 bytes. *)
Definition tcp_listener_pkt (e : ctl_env) (lp : Z) (pkt : pkt_tcp) (qid : Z) : M unit :=
  let len := u16 (ETH_HLEN + bpf_ntohs (ih_len (p_ip pkt))) in
  let! l := rd_lst lp in
  if negb (Z.land (TCPH_FLAGS (p_tcp pkt)) (Z.lnot (Z.lor TCP_ECE TCP_CWR)) =? TCP_SYN) then ret tt
  else if tl_max_backlog_size l <=? Z.of_nat (length (tl_backlog l)) then ret tt
  else if existsb (fun s => bool_decide (pkt_key (bs_pkt s) = pkt_key pkt)) (tl_backlog l) then ret tt
  else if BACKLOG_PKT_SIZE <? len then undefined
  else
    upd_lst lp (fun l => l <| tl_backlog ::= fun b => b ++ [mk_backlog_slot pkt len qid] |>) ;;
    notify_app_tcp_event_newconn (tl_tctx l) (tl_opaque_listener l) (tl_fd l)
      (ft_remote_ip (pkt_key pkt)) (ft_remote_port (pkt_key pkt)) ;;
    match tl_pending_conn l with
    | Some _ => tcp_listener_accept e lp
    | None => ret tt
    end.

(** [tcp_packet] *)
Definition tcp_packet (e : ctl_env) (now a : Z) (pkt : pkt_tcp) (qid : Z) : M Z :=
  match parse_tcp_opts pkt with
  | Overread | Out_of_fuel => undefined
  | Parsed r o =>
    if negb (r =? 0) then ret (-1)
    else
      let! c := tcp_conn_lookup pkt in
      match c with
      | Some p => tcp_connection_pkt e now p pkt qid o ;; ret 0
      | None =>
        let! l := tcp_listener_lookup pkt in
        match l with
        | Some lp => tcp_listener_pkt e lp pkt qid ;; ret 0
        | None =>
          whenM (negb (nz (Z.land (TCPH_FLAGS (p_tcp pkt)) TCP_RST))) (send_tcp_reset e a pkt) ;;
          ret (-1)
        end
      end
  end.

(** ** The control loop *)

(** The body of [poll_tcp_handshake_events] for the connection it popped. *)
Definition handshake_event (e : ctl_env) (now p : Z) : M unit :=
  let! c := rd_conn p in
  match tn_status c with
  | CONN_WAIT_TX_SYN =>
    upd_conn p (fun c => c <| tn_status := CONN_WAIT_RX_SYNACK |>
      <| tn_next_timeout_tsc := handshake_deadline e now |>) ;;
    send_tcp_control e p (Z.lor TCP_SYN (Z.lor TCP_ECE TCP_CWR)) true 0 TCP_MSS
  | CONN_WAIT_TX_SYNACK =>
    upd_conn p (fun c => c <| tn_status := CONN_OPEN |>) ;;
    (if nz (Z.land (tn_flags c) ECN_ENABLE)
     then send_tcp_control e p (Z.lor TCP_SYN (Z.lor TCP_ACK TCP_ECE)) true (tn_syn_ts c) TCP_MSS
     else send_tcp_control e p (Z.lor TCP_SYN TCP_ACK) true (tn_syn_ts c) TCP_MSS) ;;
    let! lp := must (tn_listener c) in
    let! l := rd_lst lp in
    notify_app_tcp_event_accept e (tn_tctx c) (tn_opaque_connection c) (tn_listen_fd c) (tn_fd c) 0
      (tn_rx_buf_size c) (tn_tx_buf_size c) (tn_local_ip c) (tn_remote_ip c) (tn_remote_port c)
      (tn_qid c) (match tl_backlog l with [] => false | _ => true end)
  | _ => ret tt
  end.

(** [poll_tcp_handshake_events]: until the list is empty; no body adds to it. *)
Fixpoint poll_handshake (n : nat) (e : ctl_env) (now : Z) : M unit :=
  match n with
  | O => ret tt
  | S n =>
    let! s := get in
    match k_handshake s with
    | [] => ret tt
    | p :: rest =>
      modify (fun s => s <| k_handshake := rest |>) ;;
      handshake_event e now p ;;
      poll_handshake n e now
    end
  end.

Definition poll_tcp_handshake_events (e : ctl_env) (now : Z) : M unit :=
  let! s := get in poll_handshake (length (k_handshake s)) e now.

(** The body of [poll_tcp_cc_to] for one entry: the connections whose
    handshake failed for good are collected in [to_put]. *)
Definition poll_cc_entry (e : ctl_env) (curr_tsc now p : Z) (to_put : list Z) : M (list Z) :=
  let! c := rd_conn p in
  if decide (tn_type c = TCP_CONN_TYPE_FAKE) then ret to_put
  else if negb (bool_decide (tn_status c = CONN_OPEN)) then
    if nz (tn_next_timeout_tsc c) && (tn_next_timeout_tsc c <=? now) then
      if bool_decide (tn_status c = CONN_WAIT_RX_SYNACK) && (tn_syn_attempts c <=? 3) then
        upd_conn p (fun c => c <| tn_status := CONN_WAIT_TX_SYN |>
          <| tn_syn_attempts ::= fun n => u16 (n + 1) |>) ;;
        modify (fun s => s <| k_handshake ::= fun h => h ++ [p] |>) ;;
        ret to_put
      else ret (if 3 <? tn_syn_attempts c then to_put ++ [p] else to_put)
    else ret to_put
  else
    let! s := get in
    let! b := must (k_cc_map s !! tn_cc_idx c) in
    let! r := must (poll_cc_one (tn_ctl c) (tn_cc_data c) b curr_tsc (u32 (e_cycles_to_us e curr_tsc))
                      (u32 (e_cycles_to_us e (u64 (curr_tsc - cc_last_tsc (tn_ctl c))))) true) in
    let '(ctl, d, b, sent) := r in
    upd_conn p (fun c => c <| tn_ctl := ctl |> <| tn_cc_data := d |>) ;;
    modify (fun s => s <| k_cc_map ::= <[tn_cc_idx c := b]> |>) ;;
    whenM sent (issue_retransmit p) ;;
    ret to_put.

Fixpoint poll_cc_loop (e : ctl_env) (curr_tsc : Z) (clock : Z -> Z) (l : list (flow_tuple * Z))
  (to_put : list Z) : M (list Z) :=
  match l with
  | [] => ret to_put
  | (_, p) :: l =>
    let! to_put := poll_cc_entry e curr_tsc (clock p) p to_put in
    poll_cc_loop e curr_tsc clock l to_put
  end.

(** [poll_tcp_cc_to], eTran build; [clock] are the later reads of the counter. *)
Definition poll_tcp_cc_to (e : ctl_env) (curr_tsc : Z) (clock : Z -> Z) : M unit :=
  let! s := get in
  let! to_put := poll_cc_loop e curr_tsc clock (e_iter e (k_conns s)) [] in
  forM to_put (tcp_conn_put e).

(** ** Commands of the applications *)

Inductive appout :=
| APPOUT_TCP_BIND (opaque fd : Z) (reuseport : bool) (l_ip l_port : Z)
| APPOUT_TCP_OPEN (opaque fd r_ip r_port : Z)
| APPOUT_TCP_LISTEN (opaque opaque_listener fd backlog : Z)
| APPOUT_TCP_ACCEPT (opaque_listener opaque fd newfd l_port : Z)
| APPOUT_TCP_CLOSE (opaque fd : Z).

(** [tcp_listen] *)
Definition tcp_listen (e : ctl_env) (t : Z * Z) (opaque opaque_listener backlog : Z) : M Z :=
  let! x := find_tcp_conn_slowpath e opaque in
  match x with
  | None => ret (-1)
  | Some p =>
    let! c := rd_conn p in
    if decide (tn_type c <> TCP_CONN_TYPE_FAKE) then ret (-1)
    else
      let! lp := new_lst (mk_tcp_listener t opaque_listener backlog [] (tn_local_port c) None p (tn_fd c)) in
      let! th := rd_thread t in
      modify (fun s => s <| k_threads ::= <[t := th <| th_listeners ::= fun l => l ++ [lp] |>]> |>) ;;
      modify (fun s => s <| k_listeners ::= fun m =>
        let k := mk_listen_tuple (e_local_ip e) (tn_local_port c) in
        <[k := default [] (m !! k) ++ [lp]]> m |>) ;;
      notify_app_tcp_status_listen t opaque_listener (tn_fd c) 0 ;;
      ret 0
  end.

(** The search of [tcp_accept] through the listeners of the thread. *)
Fixpoint find_listener (l : list Z) (port opaque_listener : Z) : M (option Z) :=
  match l with
  | [] => ret None
  | p :: l =>
    let! x := rd_lst p in
    if (tl_listen_port x =? port) && (tl_opaque_listener x =? opaque_listener) then ret (Some p)
    else find_listener l port opaque_listener
  end.

(** The connection [tcp_accept] fills in. *)
Definition accept_conn (e : ctl_env) (t : Z * Z) (lp opaque newfd port : Z) (c : tcp_connection)
  : tcp_connection :=
  c <| tn_type := TCP_CONN_TYPE_NORMAL |> <| tn_tctx := t |> <| tn_listener := Some lp |>
    <| tn_opaque_connection := opaque |> <| tn_remote_ip := 0 |> <| tn_remote_port := 0 |>
    <| tn_local_ip := e_local_ip e |> <| tn_local_port := port |>
    <| tn_rx_buf_size := e_rx_buf_size e |>
    <| tn_remote_seq := 0 |> <| tn_local_seq := 0 |> <| tn_status := CONN_WAIT_RX_SYN |>
    <| tn_syn_ts := 0 |> <| tn_syn_attempts := 0 |> <| tn_cc_idx := 0 |>
    <| tn_ctl := (tn_ctl c) <| ctl_tx_buf_size := e_tx_buf_size e |> <| cc_last_tsc := 0 |>
         <| cc_last_rtt := TCP_RTT_INIT |> <| cc_last_drops := 0 |> <| cc_last_acks := 0 |>
         <| cc_last_ackb := 0 |> <| cc_last_ecnb := 0 |> <| ctl_cc_rate := CC_TIMELY_INIT_RATE |>
         <| cc_rexmits := 0 |> <| cnt_tx_pending := 0 |> <| ts_tx_pending := 0 |> |>
    <| tn_cc_data := CC_NONE |> <| tn_qid := POISON_32 |> <| tn_flags := 0 |> <| tn_fd := newfd |>.

(** [tcp_accept] *)
Definition tcp_accept (e : ctl_env) (t : Z * Z) (opaque_listener opaque newfd port : Z) : M Z :=
  let! th := rd_thread t in
  let! x := find_listener (th_listeners th) port opaque_listener in
  match x with
  | None => ret (-1)
  | Some lp =>
    let! l := rd_lst lp in
    match tl_pending_conn l with
    | Some _ => ret (-1)
    | None =>
      let! s := get in
      if MAX_NR_CONN <? Z.of_nat (size (k_conns s)) then ret (-1)
      else
        let! p := new_conn in
        upd_conn p (accept_conn e t lp opaque newfd (tl_listen_port l)) ;;
        upd_lst lp (fun l => l <| tl_pending_conn := Some p |>) ;;
        whenM (match tl_backlog l with [] => false | _ => true end) (tcp_listener_accept e lp) ;;
        ret 0
    end
  end.

(** The connection [tcp_open] fills in; a port of 0 keeps the one of [bind]. *)
Definition open_conn (e : ctl_env) (t : Z * Z) (opaque fd r_ip r_port l_port : Z) (c : tcp_connection)
  : tcp_connection :=
  c <| tn_type := TCP_CONN_TYPE_NORMAL |> <| tn_tctx := t |> <| tn_listener := None |>
    <| tn_reuseport := false |> <| tn_opaque_connection := opaque |> <| tn_fd := fd |>
    <| tn_remote_ip := r_ip |> <| tn_remote_port := r_port |> <| tn_local_ip := e_local_ip e |>
    <| tn_local_port ::= fun q => if nz l_port then l_port else q |>
    <| tn_rx_buf_size := e_rx_buf_size e |> <| tn_status := CONN_WAIT_TX_SYN |>
    <| tn_cc_idx := POISON_32 |>
    <| tn_ctl := (tn_ctl c) <| ctl_tx_buf_size := e_tx_buf_size e |>
         <| cc_last_rtt := TCP_RTT_INIT |> <| ctl_cc_rate := CC_TIMELY_INIT_RATE |> |>
    <| tn_cc_data := CC_NONE |> <| tn_qid := POISON_32 |> <| tn_flags := 0 |>
    <| tn_remote_seq := 0 |> <| tn_local_seq := 0 |>.

(** [tcp_open] *)
Definition tcp_open (e : ctl_env) (t : Z * Z) (opaque fd r_ip r_port : Z) : M Z :=
  let! x := find_tcp_conn_slowpath e opaque in
  let! y :=
    match x with
    | Some p => ret (Some (p, 0))
    | None =>
      let! p := new_conn in
      let! s := get in
      let! r := must (alloc_port (k_pool s)) in
      if r.1 =? -1 then delete_conn p ;; ret None
      else
        modify (fun s => s <| k_pool := r.2 |>) ;;
        ctl_record_port e t.1 r.1 r_port ;;
        ret (Some (p, r.1))
    end in
  match y with
  | None => ret (-1)
  | Some (p, l_port) =>
    upd_conn p (open_conn e t opaque fd r_ip r_port l_port) ;;
    reg_tcp_conn_slowpath p ;;
    modify (fun s => s <| k_handshake ::= fun h => h ++ [p] |>) ;;
    let! c := rd_conn p in
    notify_app_tcp_conn_open t opaque fd 0 (Some c) ;;
    ret 0
  end.

(** The connection [tcp_bind] fills in: pieces of the opaque pointer stand in
    for the addresses. *)
Definition bind_conn (t : Z * Z) (opaque fd : Z) (reuseport : bool) (l_port : Z) (c : tcp_connection)
  : tcp_connection :=
  c <| tn_type := TCP_CONN_TYPE_FAKE |> <| tn_reuseport := reuseport |> <| tn_fd := fd |>
    <| tn_tctx := t |> <| tn_local_port := l_port |> <| tn_remote_port := u16 opaque |>
    <| tn_local_ip := u16 (Z.shiftr opaque 32) |> <| tn_remote_ip := u16 (Z.shiftr opaque 16) |>
    <| tn_opaque_connection := opaque |> <| tn_flags := 0 |>.

(** [tcp_bind] *)
Definition tcp_bind (e : ctl_env) (t : Z * Z) (opaque fd : Z) (reuseport : bool) (l_port : Z) : M Z :=
  let! x := find_tcp_conn_slowpath e opaque in
  match x with
  | Some _ => ret (- EADDRINUSE)
  | None =>
    let! p := new_conn in
    let! s := get in
    let r := alloc_port_at l_port (k_pool s) in
    modify (fun s => s <| k_pool := r.2 |>) ;;
    let! ap := rd_app t.1 in
    if nz r.1 && negb (reuseport && bool_decide (l_port ∈ ap_ports ap))
    then delete_conn p ;; ret (- EADDRINUSE)
    else
      upd_conn p (bind_conn t opaque fd reuseport l_port) ;;
      ctl_record_port e t.1 l_port 0 ;;
      reg_tcp_conn_slowpath p ;;
      notify_app_tcp_status_bind t opaque fd 0 ;;
      ret 0
  end.

(** [tcp_close] *)
Definition tcp_close (e : ctl_env) (t : Z * Z) (opaque fd : Z) : M Z :=
  let! x := find_tcp_conn_slowpath e opaque in
  match x with
  | None => ret (-1)
  | Some p =>
    tcp_conn_put e p ;;
    notify_app_tcp_status_close t opaque fd 1 ;;
    ret 0
  end.

(** [process_tcp_cmd] *)
Definition process_tcp_cmd (e : ctl_env) (t : Z * Z) (m : appout) : M unit :=
  match m with
  | APPOUT_TCP_OPEN opaque fd r_ip r_port =>
    let! r := tcp_open e t opaque fd r_ip r_port in
    whenM (nz r) (notify_app_tcp_conn_open t opaque fd (-1) None)
  | APPOUT_TCP_BIND opaque fd reuseport _ l_port =>
    let! r := tcp_bind e t opaque fd reuseport l_port in
    whenM (nz r) (notify_app_tcp_status_bind t opaque fd (-1))
  | APPOUT_TCP_LISTEN opaque opaque_listener fd backlog =>
    let! r := tcp_listen e t opaque opaque_listener backlog in
    whenM (nz r) (notify_app_tcp_status_listen t opaque_listener fd (-1))
  | APPOUT_TCP_ACCEPT opaque_listener opaque fd newfd l_port =>
    let! r := tcp_accept e t opaque_listener opaque newfd l_port in
    whenM (nz r) (notify_app_tcp_event_accept e t opaque fd newfd (-1) 0 0 0 0 0 0 false)
  | APPOUT_TCP_CLOSE opaque fd =>
    let! r := tcp_close e t opaque fd in
    whenM (nz r) (notify_app_tcp_status_close t opaque fd (-1))
  end.

(** ** Exit of an application *)

(** [free_connections] *)
Fixpoint conns_of (l : list (flow_tuple * Z)) (a : Z) : M (list Z) :=
  match l with
  | [] => ret []
  | (_, p) :: l =>
    let! c := rd_conn p in
    let! r := conns_of l a in
    ret (if (tn_tctx c).1 =? a then p :: r else r)
  end.

Definition free_connections (e : ctl_env) (a : Z) : M unit :=
  let! s := get in
  let! to_put := conns_of (e_iter e (k_conns s)) a in
  forM to_put (tcp_conn_put e).

(** The inner loop of [free_listeners]: whether one was deleted. *)
Fixpoint free_listener_list (l : list Z) (a : Z) : M bool :=
  match l with
  | [] => ret false
  | lp :: l =>
    let! x := rd_lst lp in
    let! del :=
      (if (tl_tctx x).1 =? a then
         match tl_pending_conn x with Some p => delete_conn p | None => ret tt end ;;
         delete_lst lp ;; ret true
       else ret false) in
    let! del' := free_listener_list l a in ret (del || del')
  end.

(** [free_listeners]: the whole entry of a port goes with its first listener. *)
Definition free_listeners (e : ctl_env) (a : Z) : M unit :=
  let! s := get in
  forM (e_iter_listeners e (k_listeners s)) (fun '(k, l) =>
    let! del := free_listener_list l a in
    whenM del (modify (fun s => s <| k_listeners ::= delete k |>))).

(** [free_tcp_resources] *)
Definition free_tcp_resources (e : ctl_env) (a : Z) : M unit :=
  free_connections e a ;; free_listeners e a.
