(* ===== verification/CtlInv.v ===== *)
(** Invariant of the connection management: the tables, the handshake list and
    the listeners only point to live objects, every object is owned by exactly
    one of them, and the congestion-control indexes are split between the free
    list and the connections on the fast path.

    [wp m s Q] says that operation [m] is defined in state [s] and that its
    result and final state satisfy [Q]; the operations are executed
    symbolically with the rules of this file. *)
From stdpp Require Import gmap.
From S2P Require Import Prelude Intf Headers Parse Csum TcpOpts Ports Cc TcpCtl.
Local Open Scope Z_scope.
Local Open Scope ctl_scope.

(** Projections of an updated state, without touching the maps inside. *)
Ltac ctl_simpl :=
  cbn [k_conns k_heap k_listeners k_lheap k_handshake k_pool k_rule_dst k_rule_src k_apps k_threads
       k_cc_avail k_cc_map k_ebpf k_queues k_next k_out upd_field setter_of].

(** The same for a state as a whole, once it is a constructor. *)
Ltac ctl_flat :=
  cbv beta iota zeta delta [upd_field setter_of
       k_conns k_heap k_listeners k_lheap k_handshake k_pool k_rule_dst k_rule_src k_apps k_threads
       k_cc_avail k_cc_map k_ebpf k_queues k_next k_out].

(** ** Weakest preconditions *)

Definition wp {A} (m : M A) (s : ctl) (Q : A -> ctl -> Prop) : Prop :=
  match m s with Some (a, s') => Q a s' | None => False end.

Lemma wp_bind {A B} (m : M A) (k : A -> M B) s Q :
  wp m s (fun a s' => wp (k a) s' Q) -> wp (bindM m k) s Q.
Proof. unfold wp, bindM. by destruct (m s) as [[a s']|]. Qed.

Lemma wp_mono {A} (m : M A) s (Q Q' : A -> ctl -> Prop) :
  wp m s Q -> (forall a s', Q a s' -> Q' a s') -> wp m s Q'.
Proof. unfold wp. destruct (m s) as [[a s']|]; [|done]. intros H HQ. by apply HQ. Qed.

Lemma wp_assoc {A B} (m : M unit) (m' : M A) (k : M B) s Q :
  wp ((m ;; m') ;; k) s Q -> wp (m ;; m' ;; k) s Q.
Proof. unfold wp, bindM. by destruct (m s) as [[a s']|]. Qed.

Lemma wp_ret {A} (a : A) s (Q : A -> ctl -> Prop) : Q a s -> wp (ret a) s Q.
Proof. done. Qed.

Lemma wp_get s (Q : ctl -> ctl -> Prop) : Q s s -> wp get s Q.
Proof. done. Qed.

Lemma wp_modify f s (Q : unit -> ctl -> Prop) : Q tt (f s) -> wp (modify f) s Q.
Proof. done. Qed.

Lemma wp_must {A} (x : option A) a s (Q : A -> ctl -> Prop) : x = Some a -> Q a s -> wp (must x) s Q.
Proof. by intros ->. Qed.

Lemma wp_rd_conn p c s (Q : tcp_connection -> ctl -> Prop) :
  k_heap s !! p = Some c -> Q c s -> wp (rd_conn p) s Q.
Proof. unfold wp, rd_conn, bindM, get, must. by intros ->. Qed.

Lemma wp_upd_conn p c f s (Q : unit -> ctl -> Prop) :
  k_heap s !! p = Some c -> Q tt (s <| k_heap ::= <[p := f c]> |>) -> wp (upd_conn p f) s Q.
Proof. intros E HQ. apply wp_bind, (wp_rd_conn p c); [done|]. by apply wp_modify. Qed.

Lemma wp_rd_lst p l s (Q : tcp_listener -> ctl -> Prop) :
  k_lheap s !! p = Some l -> Q l s -> wp (rd_lst p) s Q.
Proof. unfold wp, rd_lst, bindM, get, must. by intros ->. Qed.

Lemma wp_upd_lst p l f s (Q : unit -> ctl -> Prop) :
  k_lheap s !! p = Some l -> Q tt (s <| k_lheap ::= <[p := f l]> |>) -> wp (upd_lst p f) s Q.
Proof. intros E HQ. apply wp_bind, (wp_rd_lst p l); [done|]. by apply wp_modify. Qed.

Lemma wp_rd_app a ap s (Q : app_ctx -> ctl -> Prop) :
  k_apps s !! a = Some ap -> Q ap s -> wp (rd_app a) s Q.
Proof. unfold wp, rd_app, bindM, get, must. by intros ->. Qed.

Lemma wp_rd_thread t th s (Q : thread_ctx -> ctl -> Prop) :
  k_threads s !! t = Some th -> Q th s -> wp (rd_thread t) s Q.
Proof. unfold wp, rd_thread, bindM, get, must. by intros ->. Qed.

Lemma wp_when b m s (Q : unit -> ctl -> Prop) :
  (b = true -> wp m s Q) -> (b = false -> Q tt s) -> wp (whenM b m) s Q.
Proof. destruct b; intros H1 H2; [by apply H1|by apply H2]. Qed.

(** ** Parts of the state that only carry data *)

(** The ports on the list are the available ones; enough for the assertion of
    [alloc_port], whatever the range. *)
Definition pool_ok (q : port_pool) : Prop :=
  NoDup (available_ports q) /\ forall p, p ∈ available_ports q -> port_free q p = true.

Lemma pool_ok_alloc q : pool_ok q -> exists r, alloc_port q = Some r /\ pool_ok r.2 /\
  (r.1 <> -1 -> r.1 ∈ available_ports q /\ r.1 ∉ available_ports r.2).
Proof.
  intros [Hn Hf]. unfold alloc_port. destruct (available_ports q) as [|p l] eqn:E.
  { exists (-1, q). split; [done|]. split; [|by intros []]. split; cbn; rewrite ?E; [constructor|done]. }
  rewrite (Hf p) by constructor. eexists. split; [done|].
  pose proof (NoDup_cons_1_1 _ _ Hn) as Hp. apply NoDup_cons_1_2 in Hn.
  split; [|intros _; split; [constructor|done]]. split; cbn; [done|].
  intros p' Hp'. rewrite port_free_insert. rewrite decide_False by congruence. apply Hf. by constructor.
Qed.

Lemma pool_ok_free p q : pool_ok q -> pool_ok (free_port p q).2.
Proof.
  intros [Hn Hf]. unfold free_port. destruct (port_in_range p); cbn [negb]; [|done].
  destruct (port_free q p) eqn:Ep; [done|]. cbn. split; cbn.
  - apply list.NoDup_app. split_and!; [done| |apply NoDup_singleton].
    intros x Hx ->%list_elem_of_singleton. apply Hf in Hx. congruence.
  - intros x. rewrite port_free_insert, elem_of_app. case_decide; [done|].
    intros [Hx| ->%list_elem_of_singleton]; [by apply Hf|done].
Qed.

Lemma pool_ok_alloc_at p q : pool_ok q -> pool_ok (alloc_port_at p q).2.
Proof.
  intros [Hn Hf]. unfold alloc_port_at. destruct (port_in_range p); cbn [negb]; [|done].
  destruct (port_free q p) eqn:Ep; cbn [negb]; [|done]. cbn. split; cbn.
  - by apply NoDup_ListNoDup, List.NoDup_filter, NoDup_ListNoDup.
  - intros x. unfold upd_field, setter_of. cbn. rewrite port_free_insert.
    rewrite list_elem_of_In, List.filter_In, negb_true_iff, Z.eqb_neq, <- list_elem_of_In.
    intros [Hx Hne]. rewrite decide_False by congruence. by apply Hf.
Qed.

(** Well-formed congestion counters of the shared map. *)
Definition cc_wf (b : bpf_cc) : Prop :=
  0 <= cc_rtt_est b <= TCP_MAX_RTT.

(** Two states with the same objects: output, counters, ports and rules may
    differ, the fast path may have worked on its maps, the free indexes may be
    in another order; no application or queue disappears. *)
Record frame (s s' : ctl) : Prop := {
  fr_conns : k_conns s' = k_conns s;
  fr_heap : k_heap s' = k_heap s;
  fr_listeners : k_listeners s' = k_listeners s;
  fr_lheap : k_lheap s' = k_lheap s;
  fr_handshake : k_handshake s' = k_handshake s;
  fr_threads : k_threads s' = k_threads s;
  fr_avail : k_cc_avail s' ≡ₚ k_cc_avail s;
  fr_cc_map : forall i b, k_cc_map s !! i = Some b -> cc_wf b ->
    exists b', k_cc_map s' !! i = Some b' /\ cc_wf b';
  fr_ebpf : forall k, cc_idx <$> (k_ebpf s' !! k) = cc_idx <$> (k_ebpf s !! k);
  fr_next : k_next s <= k_next s';
  fr_apps : forall a ap, k_apps s !! a = Some ap ->
    exists ap', k_apps s' !! a = Some ap' /\ ap_nic_qid ap' = ap_nic_qid ap;
  fr_queues : forall q, is_Some (k_queues s !! q) -> is_Some (k_queues s' !! q);
  fr_pool : pool_ok (k_pool s) -> pool_ok (k_pool s')
}.

#[export] Hint Resolve Z.le_refl : core.

Lemma frame_refl s : frame s s.
Proof. split; eauto. Qed.

Lemma frame_trans s1 s2 s3 : frame s1 s2 -> frame s2 s3 -> frame s1 s3.
Proof.
  intros [] []. split; try congruence; eauto; try lia.
  - by etransitivity.
  - intros i b Eb Hb. destruct (fr_cc_map0 i b Eb Hb) as (b' & Eb' & Hb'). eauto.
  - intros a ap (ap' & H1 & H2)%fr_apps0. apply fr_apps1 in H1 as (ap'' & ? & ?). exists ap''. split; congruence.
Qed.

(** ** Services a connection relies on *)

Definition queue_ok (s : ctl) (q : Z) : Prop := is_Some (k_queues s !! q).

(** The application of a thread with its queues and its sockets. *)
Definition app_ok (s : ctl) (a : Z) : Prop :=
  exists ap, k_apps s !! a = Some ap /\ ap_nic_qid ap <> [] /\
    Forall (fun q => 0 <= q < MAX_NIC_QUEUES /\ queue_ok s q) (ap_nic_qid ap).

Definition tctx_ok (s : ctl) (t : Z * Z) : Prop :=
  app_ok s t.1 /\ exists ap th, k_apps s !! t.1 = Some ap /\ k_threads s !! t = Some th /\
    (length (ap_nic_qid ap) <= length (th_xsk_map_key th))%nat.

Definition qid_ok (s : ctl) (q : Z) : Prop := q = POISON_32 \/ queue_ok s q.

(** A state that offers at least the services of another. *)
Record env_le (s s' : ctl) : Prop := {
  el_next : k_next s <= k_next s';
  el_apps : forall a ap, k_apps s !! a = Some ap ->
    exists ap', k_apps s' !! a = Some ap' /\ ap_nic_qid ap' = ap_nic_qid ap;
  el_queues : forall q, is_Some (k_queues s !! q) -> is_Some (k_queues s' !! q);
  el_threads : forall t th, k_threads s !! t = Some th ->
    exists th', k_threads s' !! t = Some th' /\ th_xsk_map_key th' = th_xsk_map_key th;
  el_lheap : forall lp l, k_lheap s !! lp = Some l ->
    exists l', k_lheap s' !! lp = Some l' /\ tl_tctx l' = tl_tctx l /\ tl_listen_port l' = tl_listen_port l
}.

Lemma frame_env s s' : frame s s' -> env_le s s'.
Proof.
  intros []. split; [lia|done|done| |].
  - rewrite fr_threads0. eauto.
  - rewrite fr_lheap0. eauto.
Qed.

Lemma env_le_refl s : env_le s s.
Proof. apply frame_env, frame_refl. Qed.

Lemma app_ok_env s s' a : env_le s s' -> app_ok s a -> app_ok s' a.
Proof.
  intros [] (ap & E & Hn & Hq). destruct (el_apps0 a ap E) as (ap' & E' & Eq).
  exists ap'. rewrite Eq. split; [done|]. split; [done|]. eapply Forall_impl; [|exact Hq]. intros q [? ?].
  split; [done|]. by apply el_queues0.
Qed.

Lemma tctx_ok_env s s' t : env_le s s' -> tctx_ok s t -> tctx_ok s' t.
Proof.
  intros Hf [Ha (ap & th & E1 & E2 & Hl)]. split; [by eapply app_ok_env|].
  destruct Hf. destruct (el_apps0 _ _ E1) as (ap' & E' & Eq), (el_threads0 _ _ E2) as (th' & E2' & Eq').
  exists ap', th'. rewrite Eq, Eq'. done.
Qed.

Lemma qid_ok_env s s' q : env_le s s' -> qid_ok s q -> qid_ok s' q.
Proof. intros [] [->|H]; [by left|]. right. by apply el_queues0. Qed.

(** ** Sending *)

Lemma wp_slow_path_send a p len to qid s :
  app_ok s a -> qid_ok s qid ->
  wp (slow_path_send_tcp a p len to qid) s (fun _ s' => frame s s').
Proof.
  intros (ap & Ea & Hne & Hqs) Hq. unfold slow_path_send_tcp.
  apply wp_bind, (wp_rd_app a ap); [done|]. apply wp_bind.
  assert (wp (if qid =? POISON_32 then
       let k := mk_flow_tuple (bpf_ntohl (ih_dest (p_ip p))) (bpf_ntohs (tc_dest (p_tcp p)))
                  (bpf_ntohl (ih_src (p_ip p))) (bpf_ntohs (tc_src (p_tcp p))) in
       let n := Z.of_nat (length (ap_nic_qid ap)) in
       if n =? 0 then undefined else must (ap_nic_qid ap !! Z.to_nat (flow_hash k mod n))
     else ret qid) s (fun q s' => s' = s /\ queue_ok s q)) as Hw.
  { destruct (Z.eqb_spec qid POISON_32) as [->|Hp].
    - cbn zeta. match goal with |- context [flow_hash ?k] => generalize (flow_hash k) as h end. intros h.
      assert (0 < Z.of_nat (length (ap_nic_qid ap))) by (destruct (ap_nic_qid ap); [done|cbn; lia]).
      destruct (Z.eqb_spec (Z.of_nat (length (ap_nic_qid ap))) 0); [lia|].
      pose proof (Z.mod_pos_bound h (Z.of_nat (length (ap_nic_qid ap))) ltac:(lia)).
      destruct (lookup_lt_is_Some_2 (ap_nic_qid ap) (Z.to_nat (h mod Z.of_nat (length (ap_nic_qid ap))))) as [q Eq]; [lia|].
      eapply wp_must; [exact Eq|]. split; [done|]. eapply Forall_lookup_1 in Eq; [|done]. by destruct Eq.
    - destruct Hq as [|Hq]; [done|]. by apply wp_ret. }
  eapply wp_mono; [exact Hw|]. cbn beta. intros q s' [-> [free Ef]].
  apply wp_bind, wp_get. apply wp_bind, (wp_must _ free); [done|].
  destruct (to && _); [apply wp_ret, frame_refl|].
  destruct (_ || _); [apply wp_ret, frame_refl|].
  apply wp_bind, wp_modify, wp_modify. split; try done; try (by eauto).
  - intros b bp Eb. ctl_simpl. destruct (decide (a = b)) as [<-|Hn].
    + rewrite lookup_insert_eq. eexists. split; [done|]. cbn. congruence.
    + rewrite lookup_insert_ne by done. eauto.
  - intros q' Hq'. ctl_simpl. destruct (decide (q = q')) as [<-|Hn].
    + rewrite lookup_insert_eq. by eexists.
    + by rewrite lookup_insert_ne by done.
Qed.

Lemma wp_send_control e p c flags ts echo mss s :
  k_heap s !! p = Some c -> app_ok s (tn_tctx c).1 -> qid_ok s (tn_qid c) ->
  wp (send_tcp_control e p flags ts echo mss) s (fun _ s' => frame s s').
Proof.
  intros E Ha Hq. unfold send_tcp_control. apply wp_bind, (wp_rd_conn p c); [done|].
  by apply wp_slow_path_send.
Qed.

Lemma wp_emit o s (Q : unit -> ctl -> Prop) : (forall s', frame s s' -> Q tt s') -> wp (emit o) s Q.
Proof. intros H. apply wp_modify, H. split; eauto. Qed.

Lemma wp_ctl_unrecord a p s : app_ok s a ->
  wp (ctl_unrecord_port a p) s (fun _ s' => frame s s').
Proof.
  intros (ap & Ea & _). unfold ctl_unrecord_port, with_rules.
  apply wp_bind, (wp_rd_app a ap); [done|]. apply wp_modify. split; try done; try (by eauto); ctl_simpl.
  intros b bp Eb. destruct (decide (a = b)) as [<-|Hn].
  - rewrite lookup_insert_eq. eexists. split; [done|]. cbn. congruence.
  - rewrite lookup_insert_ne by done. eauto.
Qed.

Lemma wp_ctl_record e a p r s : app_ok s a ->
  wp (ctl_record_port e a p r) s (fun _ s' => frame s s').
Proof.
  intros (ap & Ea & _). unfold ctl_record_port, with_rules.
  apply wp_bind, (wp_rd_app a ap); [done|]. apply wp_modify. split; try done; try (by eauto); ctl_simpl.
  intros b bp Eb. destruct (decide (a = b)) as [<-|Hn].
  - rewrite lookup_insert_eq. eexists. split; [done|]. cbn. congruence.
  - rewrite lookup_insert_ne by done. eauto.
Qed.

Lemma wp_ctl_free_port p s : wp (ctl_free_port p) s (fun _ s' => frame s s').
Proof. apply wp_modify. split; eauto. apply pool_ok_free. Qed.

(** ** The invariant *)

(** A connection on the fast path owns a map entry and an index. *)
Definition fast (c : tcp_connection) : Prop :=
  tn_type c = TCP_CONN_TYPE_NORMAL /\ (tn_status c = CONN_OPEN \/ tn_status c = CONN_WAIT_TX_SYNACK).

(** What a status says about the handshake list. *)
Definition status_hs (st : connection_status) (in_hs : Prop) : Prop :=
  match st with
  | CONN_WAIT_TX_SYN | CONN_WAIT_TX_SYNACK => in_hs
  | CONN_WAIT_RX_SYNACK | CONN_OPEN => ~ in_hs
  | _ => False
  end.

(** Who owns object [p]: a listener for which it waits for a SYN, or the table. *)
Definition owned (C : gmap flow_tuple Z) (LH : gmap Z tcp_listener) (hs : list Z) (p : Z)
  (c : tcp_connection) : Prop :=
  (tn_type c = TCP_CONN_TYPE_NORMAL /\ tn_status c = CONN_WAIT_RX_SYN /\ p ∉ hs /\
   C !! conn_key c <> Some p /\
   exists lp l, tn_listener c = Some lp /\ LH !! lp = Some l /\ tl_pending_conn l = Some p) \/
  (C !! conn_key c = Some p /\
   match tn_type c with
   | TCP_CONN_TYPE_FAKE => tn_status c = CONN_WAIT_RX_SYN /\ p ∉ hs
   | TCP_CONN_TYPE_NORMAL => status_hs (tn_status c) (p ∈ hs)
   end).

Record tables (C : gmap flow_tuple Z) (H : gmap Z tcp_connection) (LH : gmap Z tcp_listener)
  (hs : list Z) : Prop := {
  tb_reg : forall k p, C !! k = Some p -> exists c, H !! p = Some c /\ conn_key c = k;
  tb_own : forall p c, H !! p = Some c -> owned C LH hs p c;
  tb_hs : NoDup hs;
  tb_hs_live : forall p, p ∈ hs -> is_Some (H !! p);
  tb_pend : forall lp l p, LH !! lp = Some l -> tl_pending_conn l = Some p ->
    exists c, H !! p = Some c /\ tn_type c = TCP_CONN_TYPE_NORMAL /\
      tn_status c = CONN_WAIT_RX_SYN /\ tn_listener c = Some lp
}.

Record indexes (H : gmap Z tcp_connection) (E : gmap ebpf_flow_tuple bpf_tcp_conn)
  (avail : list Z) (cm : gmap Z bpf_cc) (pool : gset Z) : Prop := {
  ix_in : forall p c, H !! p = Some c -> fast c ->
    exists b, E !! conn_ebpf_key c = Some b /\ cc_idx b = tn_cc_idx c;
  ix_out : forall k b, E !! k = Some b -> exists p c, H !! p = Some c /\ fast c /\ conn_ebpf_key c = k;
  ix_nodup : NoDup avail;
  ix_disj : forall k b, E !! k = Some b -> cc_idx b ∉ avail;
  ix_inj : forall k k' b b', E !! k = Some b -> E !! k' = Some b' -> cc_idx b = cc_idx b' -> k = k';
  ix_all : forall i, i ∈ pool <-> i ∈ avail \/ exists k b, E !! k = Some b /\ cc_idx b = i;
  ix_map : forall i, i ∈ pool -> exists b, cm !! i = Some b /\ cc_wf b
}.

(** What the control loop needs of a connection. *)
Definition cc_ok (c : tcp_connection) : Prop :=
  2896 <= ctl_tx_buf_size (tn_ctl c) /\ in32 (ctl_tx_buf_size (tn_ctl c)) /\
  in32 (cc_rexmits (tn_ctl c)) /\
  (fast c -> exists d, tn_cc_data c = CC_DCTCP_WND d /\ wnd_inv (tn_ctl c) d).

(** One connection by itself. *)
Record conn_ok (s : ctl) (p : Z) (c : tcp_connection) : Prop := {
  co_next : p < k_next s;
  co_ref : tn_ref c = 1;
  co_tctx : tctx_ok s (tn_tctx c);
  co_normal : tn_type c = TCP_CONN_TYPE_NORMAL -> qid_ok s (tn_qid c) /\ cc_ok c;
  co_listener : forall lp, tn_listener c = Some lp ->
    exists l, k_lheap s !! lp = Some l /\ (tl_tctx l).1 = (tn_tctx c).1;
  co_synack : tn_status c = CONN_WAIT_TX_SYNACK -> is_Some (tn_listener c)
}.

(** A packet as the XDP program passes it on: the data offset covers the
    header and the buffer extends past the options. *)
Definition pkt_ok (p : pkt_tcp) : Prop :=
  bytes (p_opts p) /\ 5 <= TCPH_HDRLEN (p_tcp p) <= 15 /\
  TCPH_HDRLEN (p_tcp p) * 4 - 20 + 6 <= pkt_end (p_opts p).

Record lst_ok (s : ctl) (lp : Z) (l : tcp_listener) : Prop := {
  lo_next : lp < k_next s;
  lo_tctx : tctx_ok s (tl_tctx l);
  lo_slots : Forall (fun x => pkt_ok (bs_pkt x) /\ queue_ok s (bs_qid x)) (tl_backlog l)
}.

(** The table of the listeners: it lists every live listener once, under its
    port, and the listeners of one port belong to one application. *)
Record ports_ok (L : gmap listen_tuple (list Z)) (LH : gmap Z tcp_listener) : Prop := {
  po_live : forall k ls lp, L !! k = Some ls -> lp ∈ ls ->
    exists l, LH !! lp = Some l /\ tl_listen_port l = lt_local_port k;
  po_listed : forall lp l, LH !! lp = Some l -> exists k ls, L !! k = Some ls /\ lp ∈ ls;
  po_nodup : forall k ls, L !! k = Some ls -> NoDup ls;
  po_uniq : forall k k' ls ls' lp, L !! k = Some ls -> L !! k' = Some ls' -> lp ∈ ls -> lp ∈ ls' -> k = k';
  po_app : forall k ls lp lp' l l', L !! k = Some ls -> lp ∈ ls -> lp' ∈ ls ->
    LH !! lp = Some l -> LH !! lp' = Some l' -> (tl_tctx l).1 = (tl_tctx l').1
}.

Record wf (pool : gset Z) (s : ctl) : Prop := {
  wf_tables : tables (k_conns s) (k_heap s) (k_lheap s) (k_handshake s);
  wf_index : indexes (k_heap s) (k_ebpf s) (k_cc_avail s) (k_cc_map s) pool;
  wf_conn : forall p c, k_heap s !! p = Some c -> conn_ok s p c;
  wf_lst : forall lp l, k_lheap s !! lp = Some l -> lst_ok s lp l;
  wf_ports : ports_ok (k_listeners s) (k_lheap s);
  wf_threads : forall t th lp, k_threads s !! t = Some th -> lp ∈ th_listeners th ->
    exists x, k_lheap s !! lp = Some x /\ (tl_tctx x).1 = t.1;
  wf_pool : pool_ok (k_pool s)
}.

(** ** Equivalent states *)

Lemma conn_ok_env s s' p c : env_le s s' -> conn_ok s p c -> conn_ok s' p c.
Proof.
  intros Hf [H1 H2 H3 H4 H5]. split; try done.
  - pose proof (el_next _ _ Hf). lia.
  - by eapply tctx_ok_env.
  - intros Hn. destruct (H4 Hn) as [Hq Hc]. split; [by eapply qid_ok_env|done].
  - intros lp Hl. destruct (H5 lp Hl) as (l & El & Ht). destruct (el_lheap _ _ Hf _ _ El) as (l' & ? & ? & ?).
    exists l'. split; [done|congruence].
Qed.

Lemma lst_ok_env s s' lp l : env_le s s' -> lst_ok s lp l -> lst_ok s' lp l.
Proof.
  intros Hf [H1 H2 H3]. split.
  - pose proof (el_next _ _ Hf). lia.
  - by eapply tctx_ok_env.
  - eapply Forall_impl; [|exact H3]. intros x [? Hq]. split; [done|]. by apply (el_queues _ _ Hf).
Qed.

(** The invariant of a new state from that of an old one: what changed is
    checked, the rest is inherited. *)
Lemma wf_build pool s s' :
  wf pool s -> env_le s s' ->
  tables (k_conns s') (k_heap s') (k_lheap s') (k_handshake s') ->
  indexes (k_heap s') (k_ebpf s') (k_cc_avail s') (k_cc_map s') pool ->
  (forall p c, k_heap s' !! p = Some c -> k_heap s !! p = Some c \/ conn_ok s' p c) ->
  (forall lp l, k_lheap s' !! lp = Some l -> k_lheap s !! lp = Some l \/ lst_ok s' lp l) ->
  ports_ok (k_listeners s') (k_lheap s') -> k_threads s' = k_threads s ->
  pool_ok (k_pool s') -> wf pool s'.
Proof.
  intros [_ _ H3 H4 _ H6 H7] Hle HT HI Hc Hl EL ET Hpool. split; try done.
  - intros p c E. destruct (Hc p c E) as [E'|]; [|done]. eapply conn_ok_env; eauto.
  - intros lp l E. destruct (Hl lp l E) as [E'|]; [|done]. eapply lst_ok_env; eauto.
  - rewrite ET. intros t th lp Et Hlp. destruct (H6 t th lp Et Hlp) as (x & Ex & Hx).
    destruct (el_lheap _ _ Hle _ _ Ex) as (x' & ? & ? & ?). exists x'. split; congruence.
Qed.

(** A listener changes its data. *)
Lemma ports_lst L LH lp l l' :
  LH !! lp = Some l -> tl_tctx l' = tl_tctx l -> tl_listen_port l' = tl_listen_port l ->
  ports_ok L LH -> ports_ok L (<[lp := l']> LH).
Proof.
  intros El Ht Hp [P1 P2 P3 P4 P5].
  assert (Hb : forall q x, <[lp := l']> LH !! q = Some x ->
    exists x0, LH !! q = Some x0 /\ tl_tctx x0 = tl_tctx x /\ tl_listen_port x0 = tl_listen_port x).
  { intros q x. destruct (decide (lp = q)) as [<-|Hn]; [rewrite lookup_insert_eq|rewrite lookup_insert_ne by done; eauto].
    intros [= <-]. eauto. }
  split; [| |done|done|].
  - intros k ls q Ek Hq. destruct (P1 k ls q Ek Hq) as (x & Ex & Hx).
    destruct (decide (lp = q)) as [<-|Hn]; [rewrite lookup_insert_eq|rewrite lookup_insert_ne by done; eauto].
    exists l'. split; [done|congruence].
  - intros q x Hx. destruct (Hb q x Hx) as (x0 & E0 & _). eauto.
  - intros k ls q q' x x' Ek Hq Hq' Hx Hx'. destruct (Hb q x Hx) as (y & Ey & <- & _), (Hb q' x' Hx') as (y' & Ey' & <- & _).
    exact (P5 k ls q q' y y' Ek Hq Hq' Ey Ey').
Qed.

(** ** Changes of the tables *)

(** Ownership of one object is kept when its entry, its place in the handshake
    list and its listener are. *)
Lemma owned_mono C C' LH LH' hs hs' p c :
  owned C LH hs p c ->
  (C' !! conn_key c = Some p <-> C !! conn_key c = Some p) ->
  (p ∈ hs' <-> p ∈ hs) ->
  (forall lp l, LH !! lp = Some l -> tl_pending_conn l = Some p ->
     exists l', LH' !! lp = Some l' /\ tl_pending_conn l' = Some p) ->
  owned C' LH' hs' p c.
Proof.
  intros [(H1 & H2 & H3 & H4 & lp & l & H5 & H6 & H7)|[H1 H2]] HC Hh HL.
  - left. destruct (HL lp l H6 H7) as (l' & ? & ?). split_and!; try tauto. by exists lp, l'.
  - right. split; [by apply HC|]. destruct (tn_type c); [|tauto].
    unfold status_hs in *. destruct (tn_status c); tauto.
Qed.

(** The same object with other data. *)
Lemma owned_data C LH hs p c c' :
  conn_key c' = conn_key c -> tn_type c' = tn_type c -> tn_status c' = tn_status c ->
  tn_listener c' = tn_listener c -> owned C LH hs p c -> owned C LH hs p c'.
Proof. unfold owned. by intros -> -> -> ->. Qed.

(** A registered object is the one its key leads to. *)
Lemma tables_reg_inj C H LH hs k k' p :
  tables C H LH hs -> C !! k = Some p -> C !! k' = Some p -> k = k'.
Proof.
  intros [HR _ _ _ _] E E'. destruct (HR _ _ E) as (c & E1 & <-), (HR _ _ E') as (c' & E2 & <-). congruence.
Qed.

Lemma tables_soft C H LH hs p c c' :
  H !! p = Some c -> conn_key c' = conn_key c -> tn_type c' = tn_type c ->
  tn_status c' = tn_status c -> tn_listener c' = tn_listener c ->
  tables C H LH hs -> tables C (<[p := c']> H) LH hs.
Proof.
  intros E Hk Ht Hs Hl [HR HO HN HV HP]. split; [| |done| |].
  - intros k q Hq. destruct (HR k q Hq) as (x & Ex & <-).
    destruct (decide (p = q)) as [<-|Hn]; [rewrite lookup_insert_eq|rewrite lookup_insert_ne by done].
    + exists c'. split; [done|congruence].
    + eauto.
  - intros q x. destruct (decide (p = q)) as [<-|Hn]; [rewrite lookup_insert_eq|rewrite lookup_insert_ne by done].
    + intros [= <-]. eapply owned_data; eauto.
    + apply HO.
  - intros q Hq. destruct (decide (p = q)) as [<-|Hn]; [rewrite lookup_insert_eq|rewrite lookup_insert_ne by done]; eauto.
  - intros lp l q HL Hq. destruct (HP lp l q HL Hq) as (x & Ex & Hx).
    destruct (decide (p = q)) as [<-|Hn]; [rewrite lookup_insert_eq|rewrite lookup_insert_ne by done]; [|eauto].
    exists c'. split; [done|]. rewrite Ht, Hs, Hl. assert (x = c) as -> by congruence. done.
Qed.

(** A registered connection moves on in its handshake. *)
Lemma tables_status C H LH hs hs' p c c' :
  H !! p = Some c -> C !! conn_key c = Some p -> conn_key c' = conn_key c ->
  tn_type c = TCP_CONN_TYPE_NORMAL -> tn_type c' = TCP_CONN_TYPE_NORMAL ->
  tn_status c <> CONN_WAIT_RX_SYN -> status_hs (tn_status c') (p ∈ hs') ->
  NoDup hs' -> (forall q, q <> p -> q ∈ hs' <-> q ∈ hs) ->
  tables C H LH hs -> tables C (<[p := c']> H) LH hs'.
Proof.
  intros E HC Hk Ht Ht' Hst Hs' Hnd Hhs [HR HO HN HV HP]. split; [| |done| |].
  - intros k q Hq. destruct (HR k q Hq) as (x & Ex & <-).
    destruct (decide (p = q)) as [<-|Hn]; [rewrite lookup_insert_eq|rewrite lookup_insert_ne by done].
    + exists c'. split; [done|congruence].
    + eauto.
  - intros q x. destruct (decide (p = q)) as [<-|Hn]; [rewrite lookup_insert_eq|rewrite lookup_insert_ne by done].
    + intros [= <-]. right. rewrite Hk, Ht'. done.
    + intros Hx. eapply owned_mono; [by apply HO|done|by apply Hhs|eauto].
  - intros q Hq. destruct (decide (p = q)) as [<-|Hn]; [rewrite lookup_insert_eq|rewrite lookup_insert_ne by done]; [by eexists|].
    apply HV, Hhs; done.
  - intros lp l q HL Hq. destruct (HP lp l q HL Hq) as (x & Ex & Hx).
    destruct (decide (p = q)) as [<-|Hn]; [|rewrite lookup_insert_ne by done; eauto].
    assert (x = c) as -> by congruence. by destruct Hx as (_ & ? & _).
Qed.

(** A new object in the table. *)
Lemma tables_new C H LH hs hs' p c :
  H !! p = None -> C !! conn_key c = None -> NoDup hs' -> (forall q, q <> p -> q ∈ hs' <-> q ∈ hs) ->
  match tn_type c with
  | TCP_CONN_TYPE_FAKE => tn_status c = CONN_WAIT_RX_SYN /\ p ∉ hs'
  | TCP_CONN_TYPE_NORMAL => status_hs (tn_status c) (p ∈ hs')
  end ->
  tables C H LH hs -> tables (<[conn_key c := p]> C) (<[p := c]> H) LH hs'.
Proof.
  intros E HC Hnd Hhs Hst [HR HO HN HV HP].
  assert (Hne : forall q x, H !! q = Some x -> p <> q) by (intros; congruence).
  split; [| |done| |].
  - intros k q. destruct (decide (conn_key c = k)) as [<-|Hk].
    + rewrite lookup_insert_eq. intros [= <-]. exists c. by rewrite lookup_insert_eq.
    + rewrite lookup_insert_ne by done. intros Hq. destruct (HR k q Hq) as (x & Ex & Hx).
      rewrite lookup_insert_ne by eauto. eauto.
  - intros q x. destruct (decide (p = q)) as [<-|Hn]; [rewrite lookup_insert_eq|rewrite lookup_insert_ne by done].
    + intros [= <-]. right. by rewrite lookup_insert_eq.
    + intros Hx. eapply owned_mono; [by apply HO| |by apply Hhs|eauto].
      destruct (decide (conn_key c = conn_key x)) as [Ek|Ek]; [rewrite Ek, lookup_insert_eq|by rewrite lookup_insert_ne].
      rewrite <- Ek, HC. naive_solver.
  - intros q Hq. destruct (decide (p = q)) as [<-|Hn]; [rewrite lookup_insert_eq|rewrite lookup_insert_ne by done]; [by eexists|].
    apply HV, Hhs; done.
  - intros lp l q HL Hq. destruct (HP lp l q HL Hq) as (x & Ex & Hx). rewrite lookup_insert_ne by eauto. eauto.
Qed.

(** A registered object goes. *)
Lemma tables_delete C H LH hs p c :
  H !! p = Some c -> C !! conn_key c = Some p -> p ∉ hs ->
  (tn_type c = TCP_CONN_TYPE_NORMAL -> tn_status c <> CONN_WAIT_RX_SYN) ->
  tables C H LH hs -> tables (delete (conn_key c) C) (delete p H) LH hs.
Proof.
  intros E HC Hp Hst HT. pose proof HT as [HR HO HN HV HP]. split; [| |done| |].
  - intros k q. destruct (decide (conn_key c = k)) as [<-|Hk]; [by rewrite lookup_delete_eq|].
    rewrite lookup_delete_ne by done. intros Hq. destruct (HR k q Hq) as (x & Ex & <-).
    assert (p <> q) by (intros <-; congruence). rewrite lookup_delete_ne by done. eauto.
  - intros q x. destruct (decide (p = q)) as [<-|Hn]; [by rewrite lookup_delete_eq|rewrite lookup_delete_ne by done].
    intros Hx. eapply owned_mono; [by apply HO| |done|eauto].
    destruct (decide (conn_key c = conn_key x)) as [Ek|Ek]; [rewrite Ek, lookup_delete_eq|by rewrite lookup_delete_ne].
    rewrite <- Ek, HC. naive_solver.
  - intros q Hq. rewrite lookup_delete_ne by congruence. eauto.
  - intros lp l q HL Hq. destruct (HP lp l q HL Hq) as (x & Ex & Hx & Hs & Hl).
    assert (p <> q) by (intros <-; assert (x = c) as -> by congruence; by apply Hst).
    rewrite lookup_delete_ne by done. eauto.
Qed.

(** A pending object is not in the table and not in the handshake list. *)
Lemma tables_pending C H LH hs lp l p :
  tables C H LH hs -> LH !! lp = Some l -> tl_pending_conn l = Some p ->
  exists c, H !! p = Some c /\ tn_type c = TCP_CONN_TYPE_NORMAL /\ tn_status c = CONN_WAIT_RX_SYN /\
    tn_listener c = Some lp /\ p ∉ hs /\ forall k, C !! k <> Some p.
Proof.
  intros [HR HO HN HV HP] El Ep. destruct (HP lp l p El Ep) as (c & Ec & Ht & Hs & Hl).
  exists c. split_and!; [done..| |].
  - destruct (HO p c Ec) as [(_ & _ & ? & _)|[_ Hx]]; [done|]. rewrite Ht, Hs in Hx. done.
  - intros k Ek. destruct (HR k p Ek) as (x & Ex & <-). assert (x = c) as -> by congruence.
    destruct (HO p c Ec) as [(_ & _ & _ & ? & _)|[_ Hx]]; [done|]. rewrite Ht, Hs in Hx. done.
Qed.

(** A listener gets a connection that waits for a SYN. *)
Lemma tables_new_pending C H LH hs lp l l' p c :
  H !! p = None -> LH !! lp = Some l -> tl_pending_conn l = None -> tl_pending_conn l' = Some p ->
  tn_type c = TCP_CONN_TYPE_NORMAL -> tn_status c = CONN_WAIT_RX_SYN -> tn_listener c = Some lp ->
  tables C H LH hs -> tables C (<[p := c]> H) (<[lp := l']> LH) hs.
Proof.
  intros E El Hl Hl' Ht Hs Hli [HR HO HN HV HP].
  assert (Hne : forall q x, H !! q = Some x -> p <> q) by (intros; congruence).
  split; [| |done| |].
  - intros k q Hq. destruct (HR k q Hq) as (x & Ex & Hx). rewrite lookup_insert_ne by eauto. eauto.
  - intros q x. destruct (decide (p = q)) as [<-|Hn]; [rewrite lookup_insert_eq|rewrite lookup_insert_ne by done].
    + intros [= <-]. left. split_and!; [done|done| | |].
      * intros Hp. destruct (HV p Hp). congruence.
      * intros Hp. destruct (HR _ _ Hp) as (y & Ey & _). congruence.
      * exists lp, l'. by rewrite lookup_insert_eq.
    + intros Hx. eapply owned_mono; [by apply HO|done|done|].
      intros lp2 l2 E2 Hp2. assert (lp <> lp2) by (intros <-; congruence).
      rewrite lookup_insert_ne by done. eauto.
  - intros q Hq. destruct (HV q Hq) as [x Ex]. rewrite lookup_insert_ne by eauto. eauto.
  - intros lp2 l2 q. destruct (decide (lp = lp2)) as [<-|Hn].
    + rewrite lookup_insert_eq. intros [= <-] Hq. assert (q = p) as -> by congruence.
      exists c. by rewrite lookup_insert_eq.
    + rewrite lookup_insert_ne by done. intros E2 Hq. destruct (HP _ _ _ E2 Hq) as (x & Ex & Hx).
      rewrite lookup_insert_ne by eauto. eauto.
Qed.

(** The SYN has come: the connection moves from its listener to the table. *)
Lemma tables_promote C H LH hs lp l l' p c' :
  LH !! lp = Some l -> tl_pending_conn l = Some p -> tl_pending_conn l' = None ->
  C !! conn_key c' = None -> tn_type c' = TCP_CONN_TYPE_NORMAL -> tn_status c' = CONN_WAIT_TX_SYNACK ->
  tables C H LH hs ->
  tables (<[conn_key c' := p]> C) (<[p := c']> H) (<[lp := l']> LH) (hs ++ [p]).
Proof.
  intros El Hl Hl' HC Ht Hs HT.
  destruct (tables_pending _ _ _ _ _ _ _ HT El Hl) as (c & Ec & _ & _ & _ & Hp & HCp).
  destruct HT as [HR HO HN HV HP].
  assert (Hhs : forall q, q <> p -> q ∈ hs ++ [p] <-> q ∈ hs).
  { intros q Hq. rewrite elem_of_app, list_elem_of_singleton. naive_solver. }
  split.
  - intros k q. destruct (decide (conn_key c' = k)) as [<-|Hk].
    + rewrite lookup_insert_eq. intros [= <-]. exists c'. by rewrite lookup_insert_eq.
    + rewrite lookup_insert_ne by done. intros Hq. destruct (HR k q Hq) as (x & Ex & Hx).
      assert (p <> q) by (intros <-; by apply (HCp k)). rewrite lookup_insert_ne by done. eauto.
  - intros q x. destruct (decide (p = q)) as [<-|Hn]; [rewrite lookup_insert_eq|rewrite lookup_insert_ne by done].
    + intros [= <-]. right. rewrite lookup_insert_eq, Ht, Hs. split; [done|]. cbn. set_solver.
    + intros Hx. eapply owned_mono; [by apply HO| |by apply Hhs|].
      * destruct (decide (conn_key c' = conn_key x)) as [Ek|Ek]; [rewrite Ek, lookup_insert_eq|by rewrite lookup_insert_ne].
        rewrite <- Ek, HC. naive_solver.
      * intros lp2 l2 E2 Hp2. assert (lp <> lp2) by (intros <-; congruence).
        rewrite lookup_insert_ne by done. eauto.
  - apply list.NoDup_app. split_and!; [done| |apply NoDup_singleton]. set_solver.
  - intros q Hq. destruct (decide (p = q)) as [<-|Hn]; [rewrite lookup_insert_eq|rewrite lookup_insert_ne by done]; [by eexists|].
    apply HV, Hhs; done.
  - intros lp2 l2 q. destruct (decide (lp = lp2)) as [<-|Hn].
    + rewrite lookup_insert_eq. intros [= <-]. congruence.
    + rewrite lookup_insert_ne by done. intros E2 Hq.
      destruct (HP _ _ _ E2 Hq) as (x & Ex & Hx).
      assert (p <> q). { intros <-. destruct (HP _ _ _ El Hl) as (y & Ey & _ & _ & Hy). destruct Hx as (_ & _ & Hx). congruence. }
      rewrite lookup_insert_ne by done. eauto.
Qed.

(** A listener changes its data, or is new. *)
Lemma tables_lst C H LH hs lp l' :
  match LH !! lp with Some l => tl_pending_conn l' = tl_pending_conn l | None => tl_pending_conn l' = None end ->
  tables C H LH hs -> tables C H (<[lp := l']> LH) hs.
Proof.
  intros Hl [HR HO HN HV HP]. split; [done| |done|done|].
  - intros q x Hx. eapply owned_mono; [by apply HO|done|done|]. intros lp2 l2 E2 Hp2.
    destruct (decide (lp = lp2)) as [<-|Hn]; [rewrite lookup_insert_eq|rewrite lookup_insert_ne by done]; [|eauto].
    rewrite E2 in Hl. exists l'. split; congruence.
  - intros lp2 l2 q. destruct (decide (lp = lp2)) as [<-|Hn]; [rewrite lookup_insert_eq|rewrite lookup_insert_ne by done; eauto].
    intros [= <-] Hq. destruct (LH !! lp) as [l|] eqn:El; [|congruence]. eapply HP; [exact El|congruence].
Qed.

(** A listener goes, with the connection that waits for it. *)
Lemma tables_delete_lst C H LH hs lp l :
  LH !! lp = Some l -> tables C H LH hs ->
  tables C (match tl_pending_conn l with Some p => delete p H | None => H end) (delete lp LH) hs.
Proof.
  intros El HT. pose proof HT as [HR HO HN HV HP].
  assert (Hother : forall lp2 l2 q, LH !! lp2 = Some l2 -> tl_pending_conn l2 = Some q ->
    tl_pending_conn l = Some q -> lp2 = lp).
  { intros lp2 l2 q E2 H2 Hq. destruct (HP _ _ _ E2 H2) as (x & Ex & _ & _ & Hx).
    destruct (HP _ _ _ El Hq) as (y & Ey & _ & _ & Hy). congruence. }
  assert (Hlook : forall q, tl_pending_conn l <> Some q ->
    match tl_pending_conn l with Some p => delete p H | None => H end !! q = H !! q).
  { intros q Hq. destruct (tl_pending_conn l) as [p|]; [|done]. apply lookup_delete_ne. congruence. }
  split; [| |done| |].
  - intros k q Hq. rewrite Hlook; [by apply HR|]. intros Hp.
    destruct (tables_pending _ _ _ _ _ _ _ HT El Hp) as (c & _ & _ & _ & _ & _ & HC). by apply (HC k).
  - intros q x Hx. destruct (decide (tl_pending_conn l = Some q)) as [Hp|Hp].
    { rewrite Hp in Hx. by rewrite lookup_delete_eq in Hx. }
    rewrite Hlook in Hx by done. eapply owned_mono; [by apply HO|done|done|].
    intros lp2 l2 E2 H2. destruct (decide (lp = lp2)) as [<-|Hn]; [congruence|].
    rewrite lookup_delete_ne by done. eauto.
  - intros q Hq. rewrite Hlook; [by apply HV|]. intros Hp.
    destruct (tables_pending _ _ _ _ _ _ _ HT El Hp) as (c & _ & _ & _ & _ & ? & _). done.
  - intros lp2 l2 q. destruct (decide (lp = lp2)) as [<-|Hn]; [by rewrite lookup_delete_eq|].
    rewrite lookup_delete_ne by done. intros E2 Hq. rewrite Hlook; [eauto|].
    intros Hp. apply Hn. symmetry. eauto.
Qed.

(** ** Changes of the index accounting *)

#[export] Instance fast_dec c : Decision (fast c).
Proof. unfold fast. apply _. Defined.

Lemma ebpf_key_inj c c' : conn_ebpf_key c = conn_ebpf_key c' <-> conn_key c = conn_key c'.
Proof.
  unfold conn_ebpf_key, conn_key. split; intros [= ? ? ? ?]; f_equal; done.
Qed.

(** Fast connections are registered, so they differ in their keys. *)
Lemma fast_registered C H LH hs p c :
  tables C H LH hs -> H !! p = Some c -> fast c -> C !! conn_key c = Some p.
Proof.
  intros [_ HO _ _ _] E [Ht Hs]. destruct (HO p c E) as [(_ & Hx & _)|[? _]]; [|done].
  rewrite Hx in Hs. naive_solver.
Qed.

Lemma registered_unique C H LH hs p q c x :
  tables C H LH hs -> H !! p = Some c -> C !! conn_key c = Some p ->
  H !! q = Some x -> fast x -> conn_ebpf_key x = conn_ebpf_key c -> q = p.
Proof.
  intros HT Ep HC Eq Hf Hk%ebpf_key_inj. pose proof (fast_registered _ _ _ _ _ _ HT Eq Hf). congruence.
Qed.

Lemma ix_soft H E av cm pool p c c' :
  H !! p = Some c -> (fast c' <-> fast c) -> (fast c -> conn_ebpf_key c' = conn_ebpf_key c) ->
  (fast c -> tn_cc_idx c' = tn_cc_idx c) ->
  indexes H E av cm pool -> indexes (<[p := c']> H) E av cm pool.
Proof.
  intros Ep Hf Hk Hi [H1 H2 H3 H4 H5 H6 H7]. split; try done.
  - intros q x. destruct (decide (p = q)) as [<-|Hn]; [rewrite lookup_insert_eq|rewrite lookup_insert_ne by done; eauto].
    intros [= <-] Hfx. apply Hf in Hfx. rewrite Hk, Hi by done. eauto.
  - intros k b Hb. destruct (H2 k b Hb) as (q & x & Eq & Hfx & Ek).
    destruct (decide (p = q)) as [<-|Hn].
    + assert (x = c) as -> by congruence. exists p, c'. rewrite lookup_insert_eq, Hk, Hf by done. done.
    + exists q, x. by rewrite lookup_insert_ne.
Qed.

(** An object off the fast path changes, appears or stays off it. *)
Lemma ix_slow H E av cm pool p c' :
  (forall c, H !! p = Some c -> ~ fast c) -> ~ fast c' ->
  indexes H E av cm pool -> indexes (<[p := c']> H) E av cm pool.
Proof.
  intros Hs Hf [H1 H2 H3 H4 H5 H6 H7]. split; try done.
  - intros q x. destruct (decide (p = q)) as [<-|Hn]; [rewrite lookup_insert_eq|rewrite lookup_insert_ne by done; eauto].
    by intros [= <-].
  - intros k b Hb. destruct (H2 k b Hb) as (q & x & Eq & Hfx & Ek). exists q, x.
    rewrite lookup_insert_ne; [done|]. intros <-. by apply (Hs x).
Qed.

Lemma ix_delete_slow H E av cm pool p :
  (forall c, H !! p = Some c -> ~ fast c) -> indexes H E av cm pool -> indexes (delete p H) E av cm pool.
Proof.
  intros Hs [H1 H2 H3 H4 H5 H6 H7]. split; try done.
  - intros q x. destruct (decide (p = q)) as [<-|Hn]; [by rewrite lookup_delete_eq|rewrite lookup_delete_ne by done; eauto].
  - intros k b Hb. destruct (H2 k b Hb) as (q & x & Eq & Hfx & Ek). exists q, x.
    rewrite lookup_delete_ne; [done|]. intros <-. by apply (Hs x).
Qed.

(** The entry of an index in the shared map changes. *)
Lemma ix_cc_map H E av cm pool i b :
  cc_wf b -> indexes H E av cm pool -> indexes H E av (<[i := b]> cm) pool.
Proof.
  intros Hb [H1 H2 H3 H4 H5 H6 H7]. split; try done.
  intros j Hj. destruct (decide (i = j)) as [<-|Hn]; [rewrite lookup_insert_eq|rewrite lookup_insert_ne by done]; eauto.
Qed.

(** The free list in another order. *)
Lemma ix_perm H E av av' cm pool :
  av ≡ₚ av' -> indexes H E av cm pool -> indexes H E av' cm pool.
Proof.
  intros Hp [H1 H2 H3 H4 H5 H6 H7].
  split; [done..|by rewrite <- Hp| |done| |done].
  - intros k b Hb. rewrite <- Hp. eauto.
  - intros i. by rewrite H6, Hp.
Qed.

(** A connection joins the fast path with the first free index. *)
Lemma ix_join H E i av cm pool p c' b :
  (forall c, H !! p = Some c -> ~ fast c) -> fast c' -> E !! conn_ebpf_key c' = None ->
  tn_cc_idx c' = i -> cc_idx b = i ->
  indexes H E (i :: av) cm pool ->
  indexes (<[p := c']> H) (<[conn_ebpf_key c' := b]> E) av cm pool.
Proof.
  intros Hs Hf HE Hi Hb [H1 H2 H3 H4 H5 H6 H7].
  pose proof (NoDup_cons_1_1 _ _ H3) as Hia. apply NoDup_cons_1_2 in H3.
  assert (Hold : forall k x, E !! k = Some x -> conn_ebpf_key c' <> k /\ cc_idx x <> i).
  { intros k x Ek. split; [intros <-; congruence|]. intros Hx. apply (H4 k x Ek). rewrite Hx. constructor. }
  split; [| |done| | | |done].
  - intros q x. destruct (decide (p = q)) as [<-|Hn]; [rewrite lookup_insert_eq|rewrite lookup_insert_ne by done].
    + intros [= <-] _. exists b. rewrite lookup_insert_eq. split; [done|congruence].
    + intros Eq Hfx. destruct (H1 q x Eq Hfx) as (y & Ey & Hy). exists y.
      rewrite lookup_insert_ne by (by apply (Hold _ _ Ey)). done.
  - intros k x. destruct (decide (conn_ebpf_key c' = k)) as [<-|Hn].
    + intros _. exists p, c'. by rewrite lookup_insert_eq.
    + rewrite lookup_insert_ne by done. intros Ek. destruct (H2 k x Ek) as (q & y & Eq & Hfy & Hy).
      exists q, y. rewrite lookup_insert_ne; [done|]. intros <-. by apply (Hs y).
  - intros k x. destruct (decide (conn_ebpf_key c' = k)) as [<-|Hn]; [rewrite lookup_insert_eq|rewrite lookup_insert_ne by done].
    + intros [= <-]. by rewrite Hb.
    + intros Ek Hx. apply (H4 k x Ek). by constructor.
  - intros k k' x x'.
    destruct (decide (conn_ebpf_key c' = k)) as [<-|Hn]; [rewrite lookup_insert_eq|rewrite lookup_insert_ne by done];
    (destruct (decide (conn_ebpf_key c' = k')) as [<-|Hn']; [rewrite lookup_insert_eq|rewrite lookup_insert_ne by done]).
    + done.
    + intros [= <-] Ek' Hx. destruct (Hold _ _ Ek'). congruence.
    + intros Ek [= <-] Hx. destruct (Hold _ _ Ek). congruence.
    + apply H5.
  - intros j. rewrite H6, elem_of_cons. split.
    + intros [[->|Hj]|(k & x & Ek & Hx)]; [|by left|].
      * right. exists (conn_ebpf_key c'), b. by rewrite lookup_insert_eq.
      * right. exists k, x. rewrite lookup_insert_ne by (by apply (Hold _ _ Ek)). done.
    + intros [Hj|(k & x & Ek & Hx)]; [by left; right|].
      destruct (decide (conn_ebpf_key c' = k)) as [<-|Hn].
      * rewrite lookup_insert_eq in Ek. injection Ek as <-. left. left. congruence.
      * rewrite lookup_insert_ne in Ek by done. right. eauto.
Qed.

(** A connection leaves the fast path and its index becomes free again. *)
Lemma ix_leave H E av cm pool p c b :
  H !! p = Some c -> fast c -> E !! conn_ebpf_key c = Some b ->
  (forall q x, H !! q = Some x -> fast x -> conn_ebpf_key x = conn_ebpf_key c -> q = p) ->
  indexes H E av cm pool ->
  indexes (delete p H) (delete (conn_ebpf_key c) E) (av ++ [cc_idx b]) cm pool.
Proof.
  intros Ep Hf Eb Hu [H1 H2 H3 H4 H5 H6 H7]. split; [| | | | | |done].
  - intros q x. destruct (decide (p = q)) as [<-|Hn]; [by rewrite lookup_delete_eq|rewrite lookup_delete_ne by done].
    intros Eq Hfx. destruct (H1 q x Eq Hfx) as (y & Ey & Hy). exists y.
    rewrite lookup_delete_ne; [done|]. intros Hk. apply Hn. symmetry. eapply Hu; eauto.
  - intros k x. destruct (decide (conn_ebpf_key c = k)) as [<-|Hn]; [by rewrite lookup_delete_eq|].
    rewrite lookup_delete_ne by done. intros Ek. destruct (H2 k x Ek) as (q & y & Eq & Hfy & Hy).
    exists q, y. rewrite lookup_delete_ne; [done|]. intros <-. congruence.
  - apply list.NoDup_app. split_and!; [done| |apply NoDup_singleton].
    intros x Hx ->%list_elem_of_singleton. by apply (H4 _ _ Eb).
  - intros k x. destruct (decide (conn_ebpf_key c = k)) as [<-|Hn]; [by rewrite lookup_delete_eq|].
    rewrite lookup_delete_ne by done. intros Ek. rewrite elem_of_app, list_elem_of_singleton.
    intros [Hx|Hx]; [by apply (H4 k x Ek)|]. apply Hn. symmetry. eapply H5; eauto.
  - intros k k' x x'.
    destruct (decide (conn_ebpf_key c = k)) as [<-|Hn]; [by rewrite lookup_delete_eq|].
    destruct (decide (conn_ebpf_key c = k')) as [<-|Hn']; [by rewrite !lookup_delete_eq|].
    rewrite !lookup_delete_ne by done. apply H5.
  - intros j. rewrite H6, elem_of_app, list_elem_of_singleton. split.
    + intros [Hj|(k & x & Ek & Hx)]; [by left; left|].
      destruct (decide (conn_ebpf_key c = k)) as [<-|Hn]; [left; right; congruence|].
      right. exists k, x. by rewrite lookup_delete_ne.
    + intros [[Hj|Hj]|(k & x & Ek & Hx)]; [by left|right; eauto|].
      destruct (decide (conn_ebpf_key c = k)) as [<-|Hn]; [by rewrite lookup_delete_eq in Ek|].
      rewrite lookup_delete_ne in Ek by done. right. eauto.
Qed.

Lemma ix_frame s s' pool :
  frame s s' -> indexes (k_heap s) (k_ebpf s) (k_cc_avail s) (k_cc_map s) pool ->
  indexes (k_heap s') (k_ebpf s') (k_cc_avail s') (k_cc_map s') pool.
Proof.
  intros [_ Eh _ _ _ _ Ea Em Ee _ _ _ _] HI. rewrite Eh. eapply ix_perm; [symmetry; exact Ea|].
  destruct HI as [H1 H2 H3 H4 H5 H6 H7].
  assert (Hto : forall k b, k_ebpf s' !! k = Some b -> exists b0, k_ebpf s !! k = Some b0 /\ cc_idx b0 = cc_idx b).
  { intros k b Ek. specialize (Ee k). rewrite Ek in Ee. destruct (k_ebpf s !! k) as [b0|]; [|done].
    injection Ee. eauto. }
  assert (Hof : forall k b, k_ebpf s !! k = Some b -> exists b0, k_ebpf s' !! k = Some b0 /\ cc_idx b0 = cc_idx b).
  { intros k b Ek. specialize (Ee k). rewrite Ek in Ee. destruct (k_ebpf s' !! k) as [b0|]; [|done].
    injection Ee. eauto. }
  split; [| |done| | | |].
  - intros p c Ep Hf. destruct (H1 p c Ep Hf) as (b & Eb & Hb). destruct (Hof _ _ Eb) as (b0 & E0 & Hb0).
    exists b0. split; [done|congruence].
  - intros k b Ek. destruct (Hto k b Ek) as (b0 & E0 & _). eauto.
  - intros k b Ek. destruct (Hto k b Ek) as (b0 & E0 & <-). eauto.
  - intros k k' b b' Ek Ek' Hb. destruct (Hto _ _ Ek) as (x & Ex & Hx), (Hto _ _ Ek') as (y & Ey & Hy).
    eapply H5; [exact Ex|exact Ey|congruence].
  - intros i. rewrite H6. split; (intros [Hi|(k & b & Ek & Hb)]; [by left|right]).
    + destruct (Hof _ _ Ek) as (x & Ex & Hx). exists k, x. split; [done|congruence].
    + destruct (Hto _ _ Ek) as (x & Ex & Hx). exists k, x. split; [done|congruence].
  - intros i Hi. destruct (H7 i Hi) as (b & Eb & Hb). eauto.
Qed.

(** The invariant does not depend on the data. *)
Lemma wf_frame pool s s' : frame s s' -> wf pool s -> wf pool s'.
Proof.
  intros Hf Hw. pose proof Hf as [E1 E2 E3 E4 E5 E6 _ _ _ _ _ _ E11].
  eapply wf_build; [exact Hw|by apply frame_env|..]; try done; rewrite ?E1, ?E2, ?E3, ?E4, ?E5; try apply Hw.
  - rewrite <- E2. eapply ix_frame; [done|apply Hw].
  - eauto.
  - eauto.
  - apply E11, Hw.
Qed.
