(* ===== verification/CtlSafe.v ===== *)
(** The operations of the connection management preserve the invariant of
    [CtlInv] and are defined wherever it holds: no object is used after it was
    deleted, no assertion fails, no array is left.

    The conditions under which an event is safe are part of the statements:
    they exclude the runs of [CtlRuns], where the code does use freed
    memory. *)
From stdpp Require Import gmap.
From S2P Require Import Prelude Intf Headers Parse Csum TcpOpts Ports Cc TcpCtl CtlInv.
Local Open Scope Z_scope.
Local Open Scope ctl_scope.

(** What is assumed of the environment: traversing a map visits every entry
    once, and the send buffer holds two segments. *)
Class env_good (e : ctl_env) : Prop := {
  eg_iter : forall m, e_iter e m ≡ₚ map_to_list m;
  eg_iter_listeners : forall m, e_iter_listeners e m ≡ₚ map_to_list m;
  eg_tx : 2896 <= e_tx_buf_size e < 4294967296
}.

(** ** Updates of one connection that keep its place *)

Record soft (s : ctl) (c c' : tcp_connection) : Prop := {
  so_key : conn_key c' = conn_key c;
  so_type : tn_type c' = tn_type c;
  so_status : tn_status c' = tn_status c;
  so_listener : tn_listener c' = tn_listener c;
  so_ref : tn_ref c' = tn_ref c;
  so_tctx : tn_tctx c' = tn_tctx c;
  so_idx : tn_cc_idx c' = tn_cc_idx c;
  so_ctl : tn_ctl c' = tn_ctl c;
  so_data : tn_cc_data c' = tn_cc_data c;
  so_qid : tn_type c = TCP_CONN_TYPE_NORMAL -> qid_ok s (tn_qid c')
}.

(** A state that differs from another at one connection only. *)
Record near (p : Z) (s s' : ctl) : Prop := {
  ne_conns : k_conns s' = k_conns s;
  ne_hs : k_handshake s' = k_handshake s;
  ne_lheap : k_lheap s' = k_lheap s;
  ne_heap : forall q, q <> p -> k_heap s' !! q = k_heap s !! q;
  ne_env : env_le s s'
}.

Lemma env_le_trans s1 s2 s3 : env_le s1 s2 -> env_le s2 s3 -> env_le s1 s3.
Proof.
  intros [N1 A1 Q1 T1 L1] [N2 A2 Q2 T2 L2]. split; [lia| |eauto| |].
  - intros a ap (ap' & E & H)%A1. destruct (A2 _ _ E) as (ap'' & E' & H'). exists ap''. split; congruence.
  - intros t th (th' & E & H)%T1. destruct (T2 _ _ E) as (th'' & E' & H'). exists th''. split; congruence.
  - intros lp l (l' & E & H & Hp)%L1. destruct (L2 _ _ E) as (l'' & E' & H' & Hp'). exists l''. split_and!; congruence.
Qed.

Lemma near_refl p s : near p s s.
Proof. split; try done. apply env_le_refl. Qed.

Lemma near_trans p s1 s2 s3 : near p s1 s2 -> near p s2 s3 -> near p s1 s3.
Proof.
  intros [] []. split; try congruence.
  - intros q Hq. by rewrite ne_heap1, ne_heap0.
  - by eapply env_le_trans.
Qed.

Lemma near_frame p s s' : frame s s' -> near p s s'.
Proof. intros Hf. pose proof Hf as []. split; try congruence. by apply frame_env. Qed.

Lemma fast_soft c c' : tn_type c' = tn_type c -> tn_status c' = tn_status c -> fast c' <-> fast c.
Proof. unfold fast. by intros -> ->. Qed.

Lemma heap_env s p c' : env_le s (s <| k_heap ::= <[p := c']> |>).
Proof. split; ctl_simpl; eauto; lia. Qed.

Lemma heap_near s p c' : near p s (s <| k_heap ::= <[p := c']> |>).
Proof. split; try done; [|apply heap_env]. intros q Hq. ctl_simpl. by rewrite lookup_insert_ne. Qed.

Lemma wf_soft pool s p c c' :
  wf pool s -> k_heap s !! p = Some c -> soft s c c' -> wf pool (s <| k_heap ::= <[p := c']> |>).
Proof.
  intros Hw E [S1 S2 S3 S4 S5 S6 S7 S8 S9 S10]. pose proof Hw as [HT HI HC HL HPO _ HP].
  eapply wf_build; [exact Hw|apply heap_env|..]; ctl_simpl; try done.
  - eapply tables_soft; eauto.
  - eapply ix_soft; eauto using fast_soft. intros _. by apply ebpf_key_inj.
  - intros q x. destruct (decide (p = q)) as [<-|Hn]; [rewrite lookup_insert_eq|rewrite lookup_insert_ne by done; by left].
    intros [= <-]. right. destruct (HC p c E) as [C1 C2 C3 C4 C5 C6]. split; try (by rewrite ?S3, ?S4, ?S5, ?S6).
    rewrite S2. intros Hn. destruct (C4 Hn) as [_ [K1 [K2 [K3 K4]]]]. split; [by apply S10|].
    unfold cc_ok. rewrite S8, S9. split_and!; try done. intros Hf. apply K4. by apply (fast_soft c c').
  - by left.
Qed.

Lemma wp_soft pool s p c f (Q : unit -> ctl -> Prop) :
  wf pool s -> k_heap s !! p = Some c -> soft s c (f c) ->
  (forall s', wf pool s' -> k_heap s' !! p = Some (f c) -> near p s s' -> Q tt s') ->
  wp (upd_conn p f) s Q.
Proof.
  intros Hw E Hs HQ. eapply wp_upd_conn; [done|]. apply HQ.
  - by eapply wf_soft.
  - ctl_simpl. by rewrite lookup_insert_eq.
  - apply heap_near.
Qed.

(** An operation that only changes data. *)
Lemma wp_framed {A} (m : M A) pool s (Q : A -> ctl -> Prop) :
  wf pool s -> wp m s (fun _ s' => frame s s') ->
  (forall a s', wf pool s' -> frame s s' -> Q a s') -> wp m s Q.
Proof. intros Hw Hm HQ. eapply wp_mono; [exact Hm|]. cbn. intros a s' Hf. apply HQ; [by eapply wf_frame|done]. Qed.

Lemma frame_lookup s s' p : frame s s' -> k_heap s' !! p = k_heap s !! p.
Proof. intros Hf. by rewrite (fr_heap _ _ Hf). Qed.

Lemma near_lookup p q s s' : near p s s' -> q <> p -> k_heap s' !! q = k_heap s !! q.
Proof. intros Hn. apply Hn. Qed.

(** ** The table of connections *)

(** The tactic for an update of data: the invariant is kept by computation. *)
Ltac soft_update :=
  split; cbn; try done; try (intros; assumption).

Section Ops.
Context {e : ctl_env} {He : env_good e} {pool : gset Z}.

Lemma iter_lookup m k p : (k, p) ∈ e_iter e m <-> m !! k = Some p.
Proof. rewrite (eg_iter m). apply elem_of_map_to_list. Qed.

Lemma wp_find opaque s (Q : option Z -> ctl -> Prop) :
  wf pool s ->
  (forall p c, k_heap s !! p = Some c -> k_conns s !! conn_key c = Some p ->
     tn_opaque_connection c = opaque -> Q (Some p) s) ->
  ((forall k p c, k_conns s !! k = Some p -> k_heap s !! p = Some c -> tn_opaque_connection c <> opaque) ->
     Q None s) ->
  wp (find_tcp_conn_slowpath e opaque) s Q.
Proof.
  intros Hw HS HN. unfold find_tcp_conn_slowpath. apply wp_bind, wp_get.
  assert (Hl : forall k p, (k, p) ∈ e_iter e (k_conns s) -> k_conns s !! k = Some p) by (intros; by apply iter_lookup).
  assert (Hc : forall k p, k_conns s !! k = Some p ->
    (k, p) ∈ e_iter e (k_conns s) \/ (forall c, k_heap s !! p = Some c -> tn_opaque_connection c <> opaque))
    by (intros; left; by apply iter_lookup).
  revert Hl Hc. generalize (e_iter e (k_conns s)) as l.
  induction l as [|[k p] l IH]; intros Hl Hc; cbn [find_conn].
  - apply wp_ret, HN. intros k p c Ek Ep. destruct (Hc k p Ek) as [Hx|Hx]; [by apply not_elem_of_nil in Hx|by apply Hx].
  - pose proof (Hl k p ltac:(constructor)) as Ek.
    destruct (tb_reg _ _ _ _ (wf_tables _ _ Hw) k p Ek) as (c & Ec & <-).
    apply wp_bind, (wp_rd_conn p c); [done|]. destruct (Z.eqb_spec (tn_opaque_connection c) opaque) as [Ho|Ho].
    + apply wp_ret. by eapply HS.
    + apply IH.
      * intros k' p' Hin. apply Hl. by constructor.
      * intros k' p' Ek'. destruct (Hc k' p' Ek') as [Hin|]; [|by right].
        apply elem_of_cons in Hin as [[= -> ->]|Hin]; [right|by left]. intros c' Ec'. congruence.
Qed.

(** ** Joining the fast path *)

Lemma fill_qid2xsk_ok qids keys a :
  Forall (fun q => 0 <= q < MAX_NIC_QUEUES) qids -> (length qids <= length keys)%nat ->
  is_Some (fill_qid2xsk qids keys a).
Proof.
  revert keys a. induction qids as [|q qids IH]; intros keys a Hq Hl; cbn [fill_qid2xsk]; [by eexists|].
  destruct keys as [|k keys]; cbn in Hl; [lia|]. inversion_clear Hq as [|? ? [H1 H2] Hq'].
  destruct (Z.leb_spec 0 q); [|lia]. destruct (Z.ltb_spec q MAX_NIC_QUEUES); [|lia].
  apply IH; [done|lia].
Qed.

(** The connection after a successful registration. *)
Definition joined_conn (c : tcp_connection) (i rate : Z) : tcp_connection :=
  c <| tn_cc_idx := i |> <| tn_ctl := (tn_ctl c) <| ctl_cc_rate := rate |> |>
    <| tn_cc_data := CC_DCTCP_WND cc_dctcp_wnd_init |>.

Record joined (s s' : ctl) (p : Z) (c : tcp_connection) (listen : bool) (i rate : Z) (q2x : list Z) : Prop := {
  jn_heap : k_heap s' = <[p := joined_conn c i rate]> (k_heap s);
  jn_ebpf : k_ebpf s' = <[conn_ebpf_key c := ebpf_conn e c listen i rate q2x]> (k_ebpf s);
  jn_avail : k_cc_avail s = i :: k_cc_avail s';
  jn_cm : exists b, k_cc_map s' = <[i := b]> (k_cc_map s) /\ cc_wf b;
  jn_conns : k_conns s' = k_conns s;
  jn_listeners : k_listeners s' = k_listeners s;
  jn_lheap : k_lheap s' = k_lheap s;
  jn_hs : k_handshake s' = k_handshake s;
  jn_threads : k_threads s' = k_threads s;
  jn_apps : k_apps s' = k_apps s;
  jn_queues : k_queues s' = k_queues s;
  jn_next : k_next s' = k_next s;
  jn_pool : k_pool s' = k_pool s
}.

Lemma wp_reg_ebpf p c listen s (Q : Z -> ctl -> Prop) :
  wf pool s -> k_heap s !! p = Some c ->
  (forall s', frame s s' -> Q (-1) s') ->
  (forall s' i rate q2x, joined s s' p c listen i rate q2x -> Q 0 s') ->
  wp (reg_tcp_conn_ebpf e p listen) s Q.
Proof.
  intros Hw Ec HF HJ. pose proof (wf_conn _ _ Hw p c Ec) as [_ _ [_ (ap & th & Ea & Et & Hlen)] _ _ _].
  pose proof (wf_conn _ _ Hw p c Ec) as [_ _ [(ap0 & Ea0 & _ & Hqs) _] _ _ _].
  assert (ap0 = ap) as -> by congruence.
  unfold reg_tcp_conn_ebpf, alloc_cc_idx. apply wp_bind, wp_bind, wp_get.
  destruct (k_cc_avail s) as [|i rest] eqn:Eav; [apply wp_ret, wp_ret, HF, frame_refl|].
  pose proof (wf_index _ _ Hw) as HI. rewrite Eav in HI.
  destruct (ix_map _ _ _ _ _ HI i) as (b & Eb & Hb); [apply (ix_all _ _ _ _ _ HI); left; constructor|].
  apply wp_bind, wp_modify, wp_ret. cbv beta iota. apply wp_bind, wp_get. apply wp_bind, (wp_must _ b); [done|].
  apply wp_bind, wp_modify. apply wp_bind, (wp_rd_conn p c); [done|].
  destruct (window_to_rate (2 * 1448) TCP_RTT_INIT) as [rate|] eqn:Er; [|by vm_compute in Er].
  apply wp_bind, (wp_must _ rate); [done|]. apply wp_bind, (wp_rd_app _ ap); [done|].
  apply wp_bind, (wp_rd_thread _ th); [done|].
  destruct (fill_qid2xsk_ok (ap_nic_qid ap) (th_xsk_map_key th) (replicate 20 0)) as [q2x Eq]; [|done|].
  { eapply Forall_impl; [|exact Hqs]. naive_solver. }
  apply wp_bind, (wp_must _ q2x); [done|].
  assert (Hreset : cc_wf (cc_entry_reset b)) by (unfold cc_wf, TCP_MAX_RTT; cbn; lia).
  destruct (_ && _).
  - apply wp_bind, wp_modify, wp_ret, HF. split; ctl_simpl; [reflexivity..| | | |reflexivity| | |]; [| |reflexivity|by eauto|done|done].
    + rewrite Eav. symmetry. apply Permutation_cons_append.
    + intros j x Ej Hj. destruct (decide (i = j)) as [<-|Hn]; [rewrite lookup_insert_eq|rewrite lookup_insert_ne by done]; eauto.
  - apply wp_bind, wp_modify. apply wp_bind, (wp_upd_conn p c); [done|]. apply wp_ret, (HJ _ i rate q2x).
    split; ctl_simpl; try reflexivity; [done|]. exists (cc_entry_reset b). by split.
Qed.

(** A connection [c'] that is [c] with index [i] and the initial window. *)
Record joins (c c' : tcp_connection) (i : Z) : Prop := {
  js_type : tn_type c' = TCP_CONN_TYPE_NORMAL;
  js_ekey : conn_ebpf_key c' = conn_ebpf_key c;
  js_fast : fast c';
  js_idx : tn_cc_idx c' = i;
  js_listener : tn_listener c' = tn_listener c;
  js_ref : tn_ref c' = tn_ref c;
  js_tctx : tn_tctx c' = tn_tctx c;
  js_qid : tn_qid c' = tn_qid c;
  js_tx : ctl_tx_buf_size (tn_ctl c') = ctl_tx_buf_size (tn_ctl c);
  js_rex : cc_rexmits (tn_ctl c') = cc_rexmits (tn_ctl c);
  js_data : tn_cc_data c' = CC_DCTCP_WND cc_dctcp_wnd_init
}.

Lemma joined_env s s' p c listen i rate q2x : joined s s' p c listen i rate q2x -> env_le s s'.
Proof. intros []. split; ctl_simpl; rewrite ?jn_lheap0, ?jn_threads0, ?jn_apps0, ?jn_queues0, ?jn_next0; eauto. Qed.

Lemma conn_ok_join s s' p c c' i :
  env_le s s' -> conn_ok s p c -> tn_type c = TCP_CONN_TYPE_NORMAL -> joins c c' i ->
  (tn_status c' = CONN_WAIT_TX_SYNACK -> is_Some (tn_listener c)) -> conn_ok s' p c'.
Proof.
  intros Hle Hok Ht [J1 J2 J3 J4 J5 J6 J7 J8 J9 J10 J11] Hsy.
  apply (conn_ok_env _ _ _ _ Hle) in Hok as [C1 C2 C3 C4 C5 C6].
  destruct (C4 Ht) as [K0 (K1 & K2 & K3 & _)]. split; rewrite ?J5, ?J6, ?J7, ?J8; try done.
  intros _. split; [done|]. unfold cc_ok. rewrite J9, J10. split_and!; try done.
  intros _. eexists. split; [exact J11|]. unfold wnd_inv. rewrite J9, J10. cbn.
  split_and!; try done; unfold in32 in *; lia.
Qed.

(** The map entry of a connection that is not on the fast path is free. *)
Lemma ebpf_free s p c : wf pool s -> k_heap s !! p = Some c -> k_conns s !! conn_key c = Some p ->
  ~ fast c -> k_ebpf s !! conn_ebpf_key c = None.
Proof.
  intros Hw Ec HC Hnf. destruct (k_ebpf s !! conn_ebpf_key c) as [x|] eqn:Ex; [|done].
  destruct (ix_out _ _ _ _ _ (wf_index _ _ Hw) _ _ Ex) as (q & y & Eq & Hf & Hy).
  assert (q = p) as -> by (eapply registered_unique; [apply Hw|exact Ec|done|exact Eq|done|done]).
  assert (y = c) as -> by congruence. done.
Qed.

(** A registered connection that joins becomes part of the fast path. *)
Lemma wf_join_status s s' p c listen i rate q2x c' :
  wf pool s -> k_heap s !! p = Some c -> k_conns s !! conn_key c = Some p ->
  tn_type c = TCP_CONN_TYPE_NORMAL -> tn_status c = CONN_WAIT_RX_SYNACK ->
  joined s s' p c listen i rate q2x -> joins c c' i -> tn_status c' = CONN_OPEN ->
  wf pool (s' <| k_heap ::= <[p := c']> |>).
Proof.
  intros Hw Ec HC Ht Hs HJ Hj Hs'. pose proof (wf_conn _ _ Hw p c Ec) as Hok.
  assert (Hle : env_le s (s' <| k_heap ::= <[p := c']> |>)).
  { eapply env_le_trans; [by eapply joined_env|apply heap_env]. }
  assert (Hok' : conn_ok (s' <| k_heap ::= <[p := c']> |>) p c') by (eapply conn_ok_join; eauto; congruence).
  assert (Hnf : ~ fast c) by (intros [_ Hx]; rewrite Hs in Hx; naive_solver).
  pose proof (ebpf_free s p c Hw Ec HC Hnf) as HE. pose proof (wf_tables _ _ Hw) as HT.
  assert (Hp : p ∉ k_handshake s).
  { destruct (tb_own _ _ _ _ HT p c Ec) as [(_ & Hx & _)|[_ Hx]]; [congruence|]. rewrite Ht, Hs in Hx. done. }
  destruct HJ as [J1 J2 J3 (b & J4 & Hb) J5 J6 J7 J8 J9 J10 J11 J12 J13].
  destruct Hj as [K1 K2 K3 K4 _ _ _ _ _ _ _].
  eapply wf_build; [exact Hw|exact Hle|..]; ctl_simpl; rewrite ?J1, ?J2, ?J4, ?J5, ?J6, ?J7, ?J8, ?J9, ?J13, ?insert_insert_eq.
  - eapply tables_status; [exact Ec|done|by apply ebpf_key_inj|done|done|congruence|by rewrite Hs'|apply HT|done|done].
  - apply ix_cc_map; [done|]. rewrite <- K2. apply (ix_join _ _ i); try done.
    + intros x Ex. by assert (x = c) as -> by congruence.
    + by rewrite K2.
    + rewrite <- J3. apply Hw.
  - intros q x. destruct (decide (p = q)) as [<-|Hn]; [rewrite lookup_insert_eq|rewrite lookup_insert_ne by done; by left].
    intros [= <-]. by right.
  - by left.
  - apply Hw.
  - done.
  - apply Hw.
Qed.

(** ** Packets *)

Lemma pkt_ok_parse pkt : pkt_ok pkt -> exists r o, parse_tcp_opts pkt = Parsed r o /\
  forall off, opt_ts o = Some off -> is_Some (ts_val_at pkt off).
Proof.
  intros (Hb & Hd & He'). unfold parse_tcp_opts. rewrite opts_len_range by done.
  destruct (parse_opts_loop_total (S (Z.to_nat (TCPH_HDRLEN (p_tcp pkt) * 4 - 20))) (p_opts pkt)
    (TCPH_HDRLEN (p_tcp pkt) * 4 - 20) 0 opts_none) as (r & o & E & _ & Ho); [done|lia|lia|done|lia|by intros i [|]|].
  exists r, o. split; [done|]. intros off Hoff. specialize (Ho off ltac:(by right)).
  unfold ts_val_at. destruct (rd32_some (p_opts pkt) (off + 2) Hb) as (x & -> & _); [lia|lia|]. by eexists.
Qed.

(** The fields that decide where a connection belongs. *)
Record same_place (c c' : tcp_connection) : Prop := {
  sp_key : conn_key c' = conn_key c;
  sp_type : tn_type c' = tn_type c;
  sp_status : tn_status c' = tn_status c;
  sp_listener : tn_listener c' = tn_listener c;
  sp_tctx : tn_tctx c' = tn_tctx c
}.

(** An update of data of one connection: what the rest of an operation knows. *)
Definition updated (p : Z) (c : tcp_connection) (s s' : ctl) : Prop :=
  wf pool s' /\ near p s s' /\ exists c', k_heap s' !! p = Some c' /\ same_place c c'.

Lemma updated_refl p c s : wf pool s -> k_heap s !! p = Some c -> updated p c s s.
Proof. intros Hw E. split; [done|]. split; [apply near_refl|]. by exists c. Qed.

Lemma updated_trans p c c' s s' s'' :
  updated p c s s' -> k_heap s' !! p = Some c' -> updated p c' s' s'' -> updated p c s s''.
Proof.
  intros (_ & N & x & Ex & [X1 X2 X3 X4 X5]) Ec (Hw & N' & y & Ey & [Y1 Y2 Y3 Y4 Y5]).
  assert (x = c') as -> by congruence. split; [done|]. split; [by eapply near_trans|].
  exists y. split; [done|]. split; congruence.
Qed.

Lemma updated_frame p c s s' : wf pool s -> k_heap s !! p = Some c -> frame s s' -> updated p c s s'.
Proof.
  intros Hw E F. split; [by eapply wf_frame|]. split; [by apply near_frame|].
  exists c. by rewrite (frame_lookup _ _ _ F).
Qed.

Lemma wp_update p c f s :
  wf pool s -> k_heap s !! p = Some c -> soft s c (f c) -> wp (upd_conn p f) s (fun _ s' => updated p c s s').
Proof.
  intros Hw E Hs. eapply wp_soft; [done..|]. intros s' Hw' E' N. split; [done|]. split; [done|].
  eexists. split; [exact E'|]. destruct Hs. by split.
Qed.

(** Its queue stays usable. *)
Lemma qid_keep p c s : wf pool s -> k_heap s !! p = Some c -> tn_type c = TCP_CONN_TYPE_NORMAL -> qid_ok s (tn_qid c).
Proof. intros Hw E Ht. by apply (wf_conn _ _ Hw p c E). Qed.

Lemma wp_synack_fail now p c s :
  wf pool s -> k_heap s !! p = Some c ->
  wp (upd_conn p (fun c => c <| tn_local_mac := mac_zero |> <| tn_remote_mac := mac_zero |>
      <| tn_remote_seq := 0 |> <| tn_local_seq := 0 |> <| tn_syn_ts := 0 |> <| tn_flags := 0 |>
      <| tn_next_timeout_tsc := handshake_deadline e now |>) ;; ret (-1)) s
    (fun _ s' => wf pool s' /\ k_handshake s' = k_handshake s).
Proof.
  intros Hw E. apply wp_bind. eapply wp_mono; [apply (wp_update p c); [done|done|soft_update; by apply (qid_keep p)]|].
  cbn beta. intros _ s' (Hw' & N & _). apply wp_ret. split; [done|apply N].
Qed.

Lemma wp_set_ecn p c b s :
  wf pool s -> k_heap s !! p = Some c ->
  wp (whenM b (upd_conn p (fun c => c <| tn_flags ::= Z.lor ECN_ENABLE |>))) s (fun _ s' => updated p c s s').
Proof.
  intros Hw E. apply wp_when; intros _; [|by apply updated_refl].
  apply wp_update; [done|done|soft_update; by apply (qid_keep p)].
Qed.

(** The last part of [tcp_synack_pkt]: the connection opens. *)
Lemma wp_synack_open p c i rate q2x s s' :
  wf pool s -> k_heap s !! p = Some c -> k_conns s !! conn_key c = Some p ->
  tn_type c = TCP_CONN_TYPE_NORMAL -> tn_status c = CONN_WAIT_RX_SYNACK ->
  joined s s' p c false i rate q2x ->
  wp (upd_conn p (fun c => c <| tn_status := CONN_OPEN |>) ;;
      let! c := rd_conn p in
      notify_app_tcp_conn_open (tn_tctx c) (tn_opaque_connection c) (tn_fd c) 1 (Some c) ;;
      send_tcp_control e p TCP_ACK true (tn_syn_ts c) 0 ;;
      ret 0) s' (fun _ s'' => wf pool s'' /\ k_handshake s'' = k_handshake s).
Proof.
  intros Hw Ec HC Ht Hs HJ.
  assert (E4 : k_heap s' !! p = Some (joined_conn c i rate)) by (rewrite (jn_heap _ _ _ _ _ _ _ _ HJ); apply lookup_insert_eq).
  apply wp_bind, (wp_upd_conn p (joined_conn c i rate)); [done|].
  set (c5 := (joined_conn c i rate) <| tn_status := CONN_OPEN |>).
  assert (Hj : joins c c5 i) by (split; try done; split; [done|by left]).
  assert (Hw5 : wf pool (s' <| k_heap ::= <[p := c5]> |>)) by (eapply (wf_join_status s); eauto).
  set (s5 := s' <| k_heap ::= <[p := c5]> |>) in *.
  assert (E5 : k_heap s5 !! p = Some c5) by (apply lookup_insert_eq).
  assert (Hhs5 : k_handshake s5 = k_handshake s) by (apply (jn_hs _ _ _ _ _ _ _ _ HJ)).
  clearbody s5 c5. apply wp_bind, (wp_rd_conn p c5); [done|]. apply wp_bind, wp_emit. intros s6 F6.
  pose proof (wf_frame _ _ _ F6 Hw5) as Hw6.
  assert (E6 : k_heap s6 !! p = Some c5) by (by rewrite (frame_lookup _ _ _ F6)).
  destruct (wf_conn _ _ Hw6 p c5 E6) as [_ _ [Ha _] Hn6 _ _].
  apply wp_bind, (wp_framed _ pool s6); [done|eapply wp_send_control; [exact E6|done|by apply Hn6, Hj]|].
  intros _ s7 Hw7 F7. apply wp_ret. split; [done|].
  by rewrite (fr_handshake _ _ F7), (fr_handshake _ _ F6).
Qed.

Lemma wp_synack now p c pkt o s :
  wf pool s -> k_heap s !! p = Some c -> k_conns s !! conn_key c = Some p ->
  tn_type c = TCP_CONN_TYPE_NORMAL -> tn_status c = CONN_WAIT_RX_SYNACK ->
  (forall off, opt_ts o = Some off -> is_Some (ts_val_at pkt off)) ->
  wp (tcp_synack_pkt e now p pkt o) s (fun _ s' => wf pool s' /\ k_handshake s' = k_handshake s).
Proof.
  intros Hw Ec HC Ht Hs Hts. unfold tcp_synack_pkt.
  assert (Hfail : forall s', updated p c s s' -> forall m,
    (forall x, k_heap s' !! p = Some x -> wp m s' (fun (_ : Z) s'' => wf pool s'' /\ k_handshake s'' = k_handshake s')) ->
    wp m s' (fun _ s'' => wf pool s'' /\ k_handshake s'' = k_handshake s)).
  { intros s' (Hw' & N & x & Ex & _) m Hm. rewrite <- (ne_hs _ _ _ N). by apply (Hm x). }
  apply wp_bind. eapply wp_mono; [apply (wp_update p c); [done|done|soft_update; by apply (qid_keep p)]|].
  cbn beta. intros _ s1 U1.
  destruct (negb _); [apply (Hfail s1 U1); intros x Ex; apply (wp_synack_fail now p x); [apply U1|done]|].
  destruct (opt_ts o) as [off|] eqn:Eo; [|apply (Hfail s1 U1); intros x Ex; apply (wp_synack_fail now p x); [apply U1|done]].
  destruct (Hts off eq_refl) as [ts Ets]. apply wp_bind, (wp_must _ ts); [done|].
  pose proof U1 as (Hw1 & _ & c1 & E1 & P1). apply wp_bind.
  eapply wp_mono; [apply (wp_update p c1); [done|done|soft_update; by apply (qid_keep p)]|].
  cbn beta. intros _ s2 U2. pose proof (updated_trans _ _ _ _ _ _ U1 E1 U2) as U12.
  destruct U2 as (Hw2 & _ & c2 & E2 & _).
  apply wp_bind. eapply wp_mono; [by apply (wp_set_ecn p c2)|]. cbn beta. intros _ s3 U3.
  pose proof (updated_trans _ _ _ _ _ _ U12 E2 U3) as U13.
  pose proof U13 as (Hw3 & N3 & c3 & E3 & [K1 K2 K3 K4 K5]).
  apply wp_bind, (wp_reg_ebpf p c3); [done|done| |].
  - intros s4 F4. cbn. assert (U4 : updated p c s s4) by (eapply updated_trans; [exact U13|exact E3|by apply updated_frame]).
    apply (Hfail s4 U4). intros x Ex. apply (wp_synack_fail now p x); [apply U4|done].
  - intros s4 i rate q2x HJ. cbn [Z.eqb negb]. rewrite <- (ne_hs _ _ _ N3).
    eapply (wp_synack_open p c3 i rate q2x s3); try congruence; [done..|].
    rewrite K1, (ne_conns _ _ _ N3). done.
Qed.

(** ** Closing *)

(** What closing connection [p] leaves. *)
Record closed (p : Z) (c : tcp_connection) (s s' : ctl) : Prop := {
  cl_conns : k_conns s' = delete (conn_key c) (k_conns s);
  cl_heap : k_heap s' = delete p (k_heap s);
  cl_hs : k_handshake s' = k_handshake s;
  cl_lheap : k_lheap s' = k_lheap s;
  cl_listeners : k_listeners s' = k_listeners s;
  cl_env : env_le s s'
}.

Lemma frame_heap s s' h : frame s s' -> frame (s <| k_heap := h |>) (s' <| k_heap := h |>).
Proof. intros []. split; ctl_simpl; try done; eauto. Qed.

Lemma find_registered C H LH hs p c :
  tables C H LH hs -> H !! p = Some c -> C !! conn_key c = Some p ->
  exists q, List.find (fun x => x.2 =? p) (e_iter e C) = Some (conn_key c, q).
Proof.
  intros HT Ec HC. destruct (List.find _ _) as [[k q]|] eqn:E.
  - apply List.find_some in E as [Hin Hq]. cbn in Hq. apply Z.eqb_eq in Hq as ->.
    apply list_elem_of_In, iter_lookup in Hin. exists p. f_equal. f_equal. by eapply tables_reg_inj.
  - assert (Hin : (conn_key c, p) ∈ e_iter e C) by (by apply iter_lookup).
    apply list_elem_of_In in Hin. apply (List.find_none _ _ E) in Hin. cbn in Hin. by rewrite Z.eqb_refl in Hin.
Qed.

(** The state without a connection of the table. *)
Definition without (p : Z) (c : tcp_connection) (s : ctl) : ctl :=
  let s := s <| k_conns ::= delete (conn_key c) |> <| k_heap ::= delete p |> in
  if decide (fast c) then
    s <| k_ebpf ::= delete (conn_ebpf_key c) |>
      <| k_cc_avail ::= fun l => l ++ [match k_ebpf s !! conn_ebpf_key c with Some b => cc_idx b | None => 0 end] |>
  else s.

Lemma wf_without p c s :
  wf pool s -> k_heap s !! p = Some c -> k_conns s !! conn_key c = Some p -> p ∉ k_handshake s ->
  wf pool (without p c s).
Proof.
  intros Hw Ec HC Hp. pose proof (wf_tables _ _ Hw) as HT.
  assert (Hst : tn_type c = TCP_CONN_TYPE_NORMAL -> tn_status c <> CONN_WAIT_RX_SYN).
  { intros Ht Hs. destruct (tb_own _ _ _ _ HT p c Ec) as [(_ & _ & _ & ? & _)|[_ Hx]]; [done|].
    rewrite Ht, Hs in Hx. done. }
  pose proof (tables_delete _ _ _ _ _ _ Ec HC Hp Hst HT) as HT'. unfold without.
  destruct (decide (fast c)) as [Hf|Hf].
  - destruct (ix_in _ _ _ _ _ (wf_index _ _ Hw) p c Ec Hf) as (b & Eb & _).
    eapply wf_build; [exact Hw|split; ctl_simpl; eauto; lia|exact HT'|..]; ctl_simpl; try done; try apply Hw.
    + rewrite Eb. eapply ix_leave; eauto; [|apply Hw]. intros q x Eq Hx Hk.
      by eapply (registered_unique _ _ _ _ p q c x HT).
    + intros q x Hx. left. by apply lookup_delete_Some in Hx as [_ ?].
    + by left.
  - eapply wf_build; [exact Hw|split; ctl_simpl; eauto; lia|exact HT'|..]; ctl_simpl; try done; try apply Hw.
    + apply ix_delete_slow; [|apply Hw]. intros x Ex. by assert (x = c) as -> by congruence.
    + intros q x Hx. left. by apply lookup_delete_Some in Hx as [_ ?].
    + by left.
Qed.

Lemma wp_delete_conn p c s (Q : unit -> ctl -> Prop) :
  k_heap s !! p = Some c -> Q tt (s <| k_heap ::= delete p |>) -> wp (delete_conn p) s Q.
Proof. intros E HQ. apply wp_bind, (wp_rd_conn p c); [done|]. by apply wp_modify. Qed.

(** Two ports calls at the end of a connection. *)
Lemma wp_release_port b a port s :
  app_ok s a -> wp (whenM b (ctl_unrecord_port a port ;; ctl_free_port port)) s (fun _ s' => frame s s').
Proof.
  intros Ha. apply wp_when; intros _; [|apply frame_refl].
  apply wp_bind. eapply wp_mono; [by apply wp_ctl_unrecord|]. cbn beta. intros _ s1 F1.
  eapply wp_mono; [apply wp_ctl_free_port|]. cbn beta. intros _ s2 F2. by eapply frame_trans.
Qed.

(** The steps of [_tcp_connection_close] before the port is released lead to
    the state without the connection, in which the object itself still is. *)
Definition closing (p : Z) (c c0 : tcp_connection) (s : ctl) : ctl :=
  (without p c s) <| k_heap ::= <[p := c0]> |>.

Lemma put_delete p c0 s : k_heap s !! p = None ->
  s <| k_heap ::= <[p := c0]> |> <| k_heap ::= delete p |> = s.
Proof. destruct s as [C H L LH HS P RD RS A T AV CM E Q N O]. ctl_flat. intros Hp. f_equal. by apply delete_insert_id. Qed.

Lemma closing_delete p c c0 s : (closing p c c0 s) <| k_heap ::= delete p |> = without p c s.
Proof. apply put_delete. unfold without. destruct (decide _); apply lookup_delete_eq. Qed.

Lemma closing_env p c c0 s : env_le s (closing p c c0 s).
Proof. unfold closing, without. destruct (decide _); (split; ctl_simpl; eauto; lia). Qed.

Lemma wp_closing p c c0 s :
  wf pool s -> k_heap s !! p = Some c -> k_conns s !! conn_key c = Some p ->
  tn_type c = TCP_CONN_TYPE_NORMAL -> conn_ebpf_key c0 = conn_ebpf_key c ->
  wp (unreg_tcp_conn_slowpath e p ;;
      whenM (bool_decide (tn_status c = CONN_OPEN \/ tn_status c = CONN_WAIT_TX_SYNACK))
        (unreg_tcp_conn_ebpf p)) (s <| k_heap ::= <[p := c0]> |>) (fun _ s' => s' = closing p c c0 s).
Proof.
  intros Hw Ec HC Ht Hk. destruct (find_registered _ _ _ _ p c (wf_tables _ _ Hw) Ec HC) as [q Eq].
  apply wp_bind, wp_modify.
  clear Hw HC Ec. destruct s as [C H L LH HS P RD RS A T AV CM E Q N O].
  cbn in Eq. unfold closing, without. ctl_flat. rewrite Eq.
  apply wp_when; intros Hb.
  - apply bool_decide_eq_true in Hb. rewrite decide_True by (by split).
    unfold unreg_tcp_conn_ebpf. apply wp_bind, (wp_rd_conn p c0); [apply lookup_insert_eq|].
    apply wp_bind, wp_get. apply wp_bind, wp_modify, wp_modify.
    rewrite Hk. ctl_flat. rewrite insert_delete_eq. reflexivity.
  - apply bool_decide_eq_false in Hb. rewrite decide_False by (intros [_ ?]; done).
    rewrite insert_delete_eq. reflexivity.
Qed.

(** The end of a connection: port, reset packet, memory. *)
Lemma wp_close_tail p c c0 b a port s s' :
  k_heap s !! p = Some c0 -> app_ok s a -> (tn_tctx c0).1 = a -> qid_ok s (tn_qid c0) ->
  s <| k_heap ::= delete p |> = without p c s' ->
  wp (whenM b (ctl_unrecord_port a port ;; ctl_free_port port) ;;
      whenM true (send_tcp_control e p TCP_RST false 0 0) ;; delete_conn p) s
    (fun _ s'' => frame (without p c s') s'').
Proof.
  intros E2 Ha Et Hq <-. apply wp_bind. eapply wp_mono; [by apply wp_release_port|].
  cbn beta. intros _ s3 F3. cbn [whenM]. apply wp_bind. pose proof (frame_env _ _ F3) as Hle.
  eapply wp_mono.
  { apply (wp_send_control e p c0); [by rewrite (frame_lookup _ _ _ F3)|rewrite Et; by eapply app_ok_env|by eapply qid_ok_env]. }
  cbn beta. intros _ s4 F4. pose proof (frame_trans _ _ _ F3 F4) as F.
  apply (wp_delete_conn p c0); [by rewrite (frame_lookup _ _ _ F)|].
  unfold upd_field, setter_of. rewrite (fr_heap _ _ F). by apply frame_heap.
Qed.

(** [_tcp_connection_close] ends in the state without the connection, up to
    data. *)
Lemma wp_close p c c0 s :
  wf pool s -> k_heap s !! p = Some c -> k_conns s !! conn_key c = Some p -> same_place c c0 ->
  tn_local_port c0 = tn_local_port c -> tn_qid c0 = tn_qid c ->
  wp (_tcp_connection_close e p true) (s <| k_heap ::= <[p := c0]> |>)
    (fun _ s' => frame (without p c s) s').
Proof.
  intros Hw Ec HC [S1 S2 S3 S4 S5] Hlp Hqid.
  destruct (wf_conn _ _ Hw p c Ec) as [_ _ [Ha _] Hn _ _].
  unfold _tcp_connection_close. apply wp_bind, (wp_rd_conn p c0); [apply lookup_insert_eq|].
  rewrite S1, S2, S3, S4, S5, Hlp.
  destruct (decide (tn_type c = TCP_CONN_TYPE_FAKE)) as [Ht|Ht].
  - apply wp_bind. eapply wp_mono; [by apply wp_ctl_unrecord|]. cbn beta. intros _ s1 F1.
    apply wp_bind. eapply wp_mono; [apply wp_ctl_free_port|]. cbn beta. intros _ s2 F2.
    pose proof (frame_trans _ _ _ F1 F2) as F. apply wp_bind, wp_modify.
    apply (wp_delete_conn p c0); [ctl_simpl; rewrite (frame_lookup _ _ _ F); apply lookup_insert_eq|].
    unfold without. rewrite decide_False by (intros [? _]; congruence).
    destruct F as [X1 X2 X3 X4 X5 X6 X7 X8 X9 X10 X11 X12 X13]. cbn in X1, X2.
    split; ctl_simpl; rewrite ?X1, ?X2, ?delete_insert_eq; try done; eauto.
  - assert (Ht' : tn_type c = TCP_CONN_TYPE_NORMAL) by (destruct (tn_type c); done).
    destruct (Hn Ht') as [Hq _].
    apply wp_assoc. apply wp_bind. eapply wp_mono; [apply wp_closing; try done; by apply ebpf_key_inj|].
    cbn beta. intros _ s' ->. pose proof (closing_env p c c0 s) as Hle.
    apply (wp_close_tail p c c0); [apply lookup_insert_eq|by eapply app_ok_env|by rewrite S5| |apply closing_delete].
    rewrite Hqid. by eapply qid_ok_env.
Qed.

Lemma wp_put p c s :
  wf pool s -> k_heap s !! p = Some c -> k_conns s !! conn_key c = Some p -> p ∉ k_handshake s ->
  wp (tcp_conn_put e p) s (fun _ s' => wf pool s' /\ closed p c s s').
Proof.
  intros Hw Ec HC Hp. unfold tcp_conn_put. apply wp_bind, (wp_rd_conn p c); [done|].
  pose proof (co_ref _ _ _ (wf_conn _ _ Hw p c Ec)) as Hr.
  apply wp_bind, (wp_upd_conn p c); [done|]. rewrite Hr. cbn [whenM].
  change (1 - 1 =? 0) with true. cbn [whenM].
  eapply wp_mono; [by apply (wp_close p c)|]. cbn beta. intros _ s' F.
  split; [eapply wf_frame; [exact F|by apply wf_without]|].
  pose proof (frame_env _ _ F) as Hle. destruct F as [X1 X2 X3 X4 X5 _ _ _ _ _ _ _ _].
  assert (Hw0 : env_le s (without p c s)) by (unfold without; destruct (decide _); (split; ctl_simpl; eauto; lia)).
  split; [| | | | |by eapply env_le_trans]; rewrite ?X1, ?X2, ?X3, ?X4, ?X5; unfold without; by destruct (decide _).
Qed.

(** ** Listeners *)

(** The key of the connection that the SYN in a slot leads to. *)
Definition slot_key (l : tcp_listener) (x : backlog_slot) : flow_tuple :=
  mk_flow_tuple (bpf_ntohl (ih_src (p_ip (bs_pkt x)))) (bpf_ntohs (tc_src (p_tcp (bs_pkt x))))
    (e_local_ip e) (tl_listen_port l).

Lemma lheap_env s lp l l' : k_lheap s !! lp = Some l -> tl_tctx l' = tl_tctx l ->
  tl_listen_port l' = tl_listen_port l -> env_le s (s <| k_lheap ::= <[lp := l']> |>).
Proof.
  intros El Ht Hp. split; ctl_simpl; eauto. intros q x Eq.
  destruct (decide (lp = q)) as [<-|Hn]; [rewrite lookup_insert_eq|rewrite lookup_insert_ne by done; eauto].
  exists l'. split_and!; congruence.
Qed.

(** A listener changes its backlog. *)
Lemma wf_lst_update s lp l l' :
  wf pool s -> k_lheap s !! lp = Some l -> tl_pending_conn l' = tl_pending_conn l ->
  tl_tctx l' = tl_tctx l -> tl_listen_port l' = tl_listen_port l ->
  Forall (fun x => pkt_ok (bs_pkt x) /\ queue_ok s (bs_qid x)) (tl_backlog l') ->
  wf pool (s <| k_lheap ::= <[lp := l']> |>).
Proof.
  intros Hw El Hp Ht Hq Hs. eapply wf_build; [exact Hw|by eapply lheap_env|..]; ctl_simpl; try done; try apply Hw.
  - apply tables_lst; [by rewrite El|apply Hw].
  - by left.
  - intros q x. destruct (decide (lp = q)) as [<-|Hn]; [rewrite lookup_insert_eq|rewrite lookup_insert_ne by done; by left].
    intros [= <-]. right. destruct (wf_lst _ _ Hw lp l El) as [L1 L2 L3].
    pose proof (lheap_env s lp l l' El Ht Hq) as Hle. split.
    + done.
    + rewrite Ht. by eapply tctx_ok_env.
    + done.
  - eapply ports_lst; eauto. apply Hw.
Qed.

(** The connection a listener has ready changes its data. *)
Lemma wf_pending_update s lp l p c c' :
  wf pool s -> k_lheap s !! lp = Some l -> tl_pending_conn l = Some p -> k_heap s !! p = Some c ->
  tn_type c' = tn_type c -> tn_status c' = tn_status c -> tn_listener c' = tn_listener c ->
  tn_ref c' = tn_ref c -> tn_tctx c' = tn_tctx c -> tn_ctl c' = tn_ctl c -> qid_ok s (tn_qid c') ->
  wf pool (s <| k_heap ::= <[p := c']> |>).
Proof.
  intros Hw El Ep Ec E1 E2 E3 E4 E5 E6 Hq. pose proof (wf_tables _ _ Hw) as HT.
  destruct (tables_pending _ _ _ _ _ _ _ HT El Ep) as (x & Ex & Ht & Hs & Hl & Hp & HC).
  assert (x = c) as -> by congruence.
  assert (Hnf : ~ fast c') by (intros [_ [Hx|Hx]]; congruence).
  eapply wf_build; [exact Hw|apply heap_env|..]; ctl_simpl; try done; try apply Hw.
  - destruct HT as [HR HO HN HV HP]. split; [| |done| |].
    + intros k q Hk. rewrite lookup_insert_ne by (intros <-; by apply (HC k)). by apply HR.
    + intros q y. destruct (decide (p = q)) as [<-|Hn]; [rewrite lookup_insert_eq|rewrite lookup_insert_ne by done; apply HO].
      intros [= <-]. left. split_and!; [congruence|congruence|done|apply HC|]. exists lp, l. split_and!; congruence.
    + intros q Hin. rewrite lookup_insert_ne by (intros <-; done). by apply HV.
    + intros lp2 l2 q E2' Hq'. destruct (HP lp2 l2 q E2' Hq') as (y & Ey & Hy).
      destruct (decide (p = q)) as [<-|Hn]; [rewrite lookup_insert_eq|rewrite lookup_insert_ne by done; eauto].
      assert (y = c) as -> by congruence. exists c'. rewrite E1, E2, E3. done.
  - apply ix_slow; [|done|apply Hw]. intros y Ey [_ [Hy|Hy]]; congruence.
  - intros q y. destruct (decide (p = q)) as [<-|Hn]; [rewrite lookup_insert_eq|rewrite lookup_insert_ne by done; by left].
    intros [= <-]. right. destruct (wf_conn _ _ Hw p c Ec) as [C1 C2 C3 C4 C5 C6].
    split; rewrite ?E1, ?E2, ?E3, ?E4, ?E5; try done. intros Hn. split; [done|].
    destruct (C4 Hn) as [_ (K1 & K2 & K3 & _)]. unfold cc_ok. rewrite E6. split_and!; done.
  - by left.
Qed.

(** The connection a listener had ready joins the fast path and the table. *)
Lemma wf_promote s s1 s' lp l l' p c c' i rate q2x :
  wf pool s -> k_lheap s !! lp = Some l -> tl_pending_conn l = Some p -> k_heap s !! p = Some c ->
  k_conns s !! conn_key c = None -> joined s s1 p c true i rate q2x -> joins c c' i ->
  tn_status c' = CONN_WAIT_TX_SYNACK ->
  tl_pending_conn l' = None -> tl_tctx l' = tl_tctx l -> tl_listen_port l' = tl_listen_port l ->
  tl_backlog l' = tl_backlog l ->
  s' = s1 <| k_conns ::= <[conn_key c' := p]> |> <| k_heap ::= <[p := c']> |>
          <| k_lheap ::= <[lp := l']> |> <| k_handshake ::= fun h => h ++ [p] |> ->
  wf pool s'.
Proof.
  intros Hw El Ep Ec HC HJ Hj Hs' Hl1 Hl2 Hl3 Hl4 Hs1.
  pose proof (wf_tables _ _ Hw) as HT. pose proof (wf_conn _ _ Hw p c Ec) as Hok.
  destruct (tables_pending _ _ _ _ _ _ _ HT El Ep) as (x & Ex & Ht & Hs & Hl & Hp & HCp).
  assert (x = c) as -> by congruence.
  assert (Hle : env_le s s').
  { pose proof (joined_env _ _ _ _ _ _ _ _ HJ) as Hle1. destruct HJ. subst s'.
    eapply env_le_trans; [exact Hle1|]. split; ctl_simpl; [lia|by eauto..|].
    intros q y Eq. destruct (decide (lp = q)) as [<-|Hn]; [rewrite lookup_insert_eq|rewrite lookup_insert_ne by done; by eauto].
    exists l'. rewrite jn_lheap0 in Eq. split_and!; congruence. }
  assert (Hkey : conn_key c' = conn_key c) by (apply ebpf_key_inj, Hj).
  assert (HE : k_ebpf s !! conn_ebpf_key c = None).
  { destruct (k_ebpf s !! conn_ebpf_key c) as [y|] eqn:Ey; [|done].
    destruct (ix_out _ _ _ _ _ (wf_index _ _ Hw) _ _ Ey) as (q & z & Eq & Hf & Hz%ebpf_key_inj).
    pose proof (fast_registered _ _ _ _ _ _ HT Eq Hf). congruence. }
  assert (Hok' : conn_ok s' p c') by (eapply conn_ok_join; eauto; by rewrite Hl).
  pose proof Hj as [K1 K2 K3 K4 _ _ _ _ _ _ _].
  destruct HJ as [J1 J2 J3 (b & J4 & Hb) J5 J6 J7 J8 J9 J10 J11 J12 J13].
  eapply wf_build; [exact Hw|exact Hle|..].
  - subst s'. ctl_simpl. rewrite J1, J5, J7, J8, insert_insert_eq.
    eapply tables_promote; eauto; congruence.
  - subst s'. ctl_simpl. rewrite J1, J2, J4, insert_insert_eq.
    apply ix_cc_map; [done|]. rewrite <- K2. apply (ix_join _ _ i); try done.
    + intros y Ey [_ [Hy|Hy]]; congruence.
    + by rewrite K2.
    + rewrite <- J3. apply Hw.
  - intros q y Hq. destruct (decide (p = q)) as [<-|Hn].
    + right. assert (y = c') as ->; [|done]. subst s'. revert Hq. ctl_simpl. rewrite lookup_insert_eq. congruence.
    + left. subst s'. revert Hq. ctl_simpl. by rewrite lookup_insert_ne, J1, lookup_insert_ne by done.
  - intros q y Hq. destruct (decide (lp = q)) as [<-|Hn].
    + right. assert (y = l') as ->. { subst s'. revert Hq. ctl_simpl. rewrite lookup_insert_eq. congruence. }
      destruct (lst_ok_env s s' lp l Hle (wf_lst _ _ Hw lp l El)) as [L1 L2 L3].
      split; [done|by rewrite Hl2|by rewrite Hl4].
    + left. subst s'. revert Hq. ctl_simpl. by rewrite lookup_insert_ne, J7 by done.
  - subst s'. ctl_simpl. rewrite J6, J7. eapply ports_lst; eauto. apply Hw.
  - by subst s'.
  - subst s'. ctl_simpl. rewrite J13. apply Hw.
Qed.

(** A connection with a new key enters the table. *)
Lemma wp_reg_slowpath p c s (Q : unit -> ctl -> Prop) :
  k_heap s !! p = Some c -> k_conns s !! conn_key c = None ->
  Q tt (s <| k_conns ::= <[conn_key c := p]> |>) -> wp (reg_tcp_conn_slowpath p) s Q.
Proof.
  intros Ec HC HQ. apply wp_bind, (wp_rd_conn p c); [done|]. apply wp_modify.
  assert (forall m, k_conns s = m -> s <| k_conns ::= fun m => match m !! conn_key c with Some _ => m | None => <[conn_key c := p]> m end |>
    = s <| k_conns ::= <[conn_key c := p]> |>) as E.
  { intros m Em. rewrite Em in HC. clear Ec HQ. destruct s as [C H L LH HS P RD RS A T AV CM E' Q' N O].
    cbn in Em. subst C. ctl_flat. by rewrite HC. }
  by rewrite (E _ eq_refl).
Qed.

(** What a SYN makes of the connection that waited for it. *)
Lemma wp_promote lp l p c i rate q2x s s' :
  wf pool s -> k_lheap s !! lp = Some l -> tl_pending_conn l = Some p -> k_heap s !! p = Some c ->
  k_conns s !! conn_key c = None -> joined s s' p c true i rate q2x ->
  wp (reg_tcp_conn_slowpath p ;;
      upd_conn p (fun c => c <| tn_status := CONN_WAIT_TX_SYNACK |> <| tn_listen_fd := tl_fd l |>) ;;
      upd_lst lp (fun l => l <| tl_pending_conn := None |>) ;;
      modify (fun s => s <| k_handshake ::= fun h => h ++ [p] |>)) s' (fun _ s'' => wf pool s'').
Proof.
  intros Hw El Ep Ec HC HJ.
  assert (Ec' : k_heap s' !! p = Some (joined_conn c i rate)) by (rewrite (jn_heap _ _ _ _ _ _ _ _ HJ); apply lookup_insert_eq).
  pose proof (jn_conns _ _ _ _ _ _ _ _ HJ) as EC. pose proof (jn_lheap _ _ _ _ _ _ _ _ HJ) as EL.
  set (c' := (joined_conn c i rate) <| tn_status := CONN_WAIT_TX_SYNACK |> <| tn_listen_fd := tl_fd l |>).
  assert (Hkey : conn_key c' = conn_key c) by done.
  destruct (tables_pending _ _ _ _ _ _ _ (wf_tables _ _ Hw) El Ep) as (x & Ex & Ht & _).
  assert (x = c) as -> by congruence.
  assert (Hj : joins c c' i) by (split; try done; split; [done|by right]).
  apply wp_bind, (wp_reg_slowpath p _ _ _ Ec'); [by rewrite EC|]. apply wp_bind, (wp_upd_conn p (joined_conn c i rate)); [done|]. apply wp_bind.
  apply (wp_upd_lst lp l); [ctl_simpl; congruence|]. apply wp_modify.
  eapply (wf_promote s s' _ lp l (l <| tl_pending_conn := None |>) p c c'); eauto.
Qed.

Lemma wp_listener_accept lp l s :
  wf pool s -> k_lheap s !! lp = Some l ->
  (is_Some (tl_pending_conn l) -> tl_backlog l <> []) ->
  (forall x rest, tl_backlog l = x :: rest -> k_conns s !! slot_key l x = None) ->
  wp (tcp_listener_accept e lp) s (fun _ s' => wf pool s').
Proof.
  intros Hw El Hb Hf. unfold tcp_listener_accept. apply wp_bind, (wp_rd_lst lp l); [done|].
  destruct (tl_pending_conn l) as [p|] eqn:Ep; [|by apply wp_ret].
  destruct (tl_backlog l) as [|x rest] eqn:Eb; [by destruct Hb|]. specialize (Hf x rest eq_refl).
  pose proof (lo_slots _ _ _ (wf_lst _ _ Hw lp l El)) as Hsl. rewrite Eb in Hsl.
  apply Forall_cons_1 in Hsl as [[Hpk Hq] Hsl].
  set (l1 := l <| tl_backlog := rest |>).
  assert (Hw1 : wf pool (s <| k_lheap ::= <[lp := l1]> |>)) by (by eapply wf_lst_update).
  apply wp_bind, (wp_upd_lst lp l); [done|]. fold l1.
  set (s1 := s <| k_lheap ::= <[lp := l1]> |>) in *.
  assert (El1 : k_lheap s1 !! lp = Some l1) by apply lookup_insert_eq.
  assert (HC1 : k_conns s1 = k_conns s) by done. assert (Hq1 : queue_ok s1 (bs_qid x)) by done.
  clearbody s1.
  destruct (pkt_ok_parse _ Hpk) as (r & o & -> & Hts).
  destruct (opt_ts o) as [off|]; [|by apply wp_ret]. destruct (opt_mss o); [|by apply wp_ret].
  destruct (negb _); [by apply wp_ret|]. destruct (Hts off eq_refl) as [ts Ets].
  apply wp_bind, (wp_must _ ts); [done|].
  destruct (tables_pending _ _ _ _ _ _ _ (wf_tables _ _ Hw1) El1 Ep) as (c & Ec & Ht & Hst & Hli & _).
  apply wp_bind, (wp_upd_conn p c); [done|]. set (c1 := _ <| tn_syn_ts := ts |>).
  assert (Hw2 : wf pool (s1 <| k_heap ::= <[p := c1]> |>)) by (eapply (wf_pending_update s1); eauto; by right).
  assert (Hk1 : conn_key c1 = slot_key l x) by done.
  set (s2 := s1 <| k_heap ::= <[p := c1]> |>) in *.
  assert (E2 : k_heap s2 !! p = Some c1) by apply lookup_insert_eq.
  assert (El2 : k_lheap s2 !! lp = Some l1) by done. assert (HC2 : k_conns s2 = k_conns s) by done.
  clearbody s2 c1.
  apply wp_bind. eapply wp_mono; [by apply (wp_set_ecn p c1)|]. cbn beta.
  intros _ s3 (Hw3 & N3 & c3 & E3 & [Hk3 _ _ _ _]).
  apply wp_bind, (wp_reg_ebpf p c3); [done|done|intros s4 F4; by eapply wf_frame|].
  intros s4 i rate q2x HJ. cbn [Z.eqb negb].
  eapply (wp_promote lp l1 p c3 i rate q2x s3); [done|by rewrite (ne_lheap _ _ _ N3)|done|done| |done].
  rewrite (ne_conns _ _ _ N3). congruence.
Qed.

End Ops.
