(* ===== verification/CtlEvents.v ===== *)
(** The events of the connection management, packets, commands of the
    applications and rounds of the control loop, keep the invariant and are
    defined wherever it holds.  The theorems about reachable states follow. *)
From stdpp Require Import gmap.
From S2P Require Import Prelude Intf Headers Parse Csum TcpOpts Ports Cc TcpCtl CtlInv CtlSafe.
Local Open Scope Z_scope.
Local Open Scope ctl_scope.

Section Packets.
Context {e : ctl_env} {He : env_good e} {pool : gset Z}.

(** What a registered connection can be. *)
Lemma registered_kind s p c :
  wf pool s -> k_heap s !! p = Some c -> k_conns s !! conn_key c = Some p ->
  match tn_type c with
  | TCP_CONN_TYPE_FAKE => tn_status c = CONN_WAIT_RX_SYN /\ p ∉ k_handshake s
  | TCP_CONN_TYPE_NORMAL => status_hs (tn_status c) (p ∈ k_handshake s)
  end.
Proof.
  intros Hw Ec HC. destruct (tb_own _ _ _ _ (wf_tables _ _ Hw) p c Ec) as [(_ & _ & _ & ? & _)|[_ ?]]; done.
Qed.

Lemma registered_normal s p c :
  wf pool s -> k_heap s !! p = Some c -> k_conns s !! conn_key c = Some p ->
  tn_status c <> CONN_WAIT_RX_SYN -> tn_type c = TCP_CONN_TYPE_NORMAL /\ status_hs (tn_status c) (p ∈ k_handshake s).
Proof.
  intros Hw Ec HC Hs. pose proof (registered_kind s p c Hw Ec HC) as Hk. destruct (tn_type c); [done|].
  by destruct Hk.
Qed.

Lemma wp_connection_pkt now p c pkt qid o s :
  wf pool s -> k_heap s !! p = Some c -> k_conns s !! conn_key c = Some p -> queue_ok s qid ->
  (forall off, opt_ts o = Some off -> is_Some (ts_val_at pkt off)) ->
  wp (tcp_connection_pkt e now p pkt qid o) s (fun _ s' => wf pool s').
Proof.
  intros Hw Ec HC Hq Hts. unfold tcp_connection_pkt. apply wp_bind, (wp_rd_conn p c); [done|].
  pose proof (registered_normal s p c Hw Ec HC) as Hk.
  assert (Hput : tn_status c = CONN_OPEN -> forall s1, frame s s1 -> wp (tcp_conn_put e p) s1 (fun _ s' => wf pool s')).
  { intros Hs s1 F. destruct Hk as [_ Hk]; [congruence|]. rewrite Hs in Hk.
    eapply wp_mono; [apply (wp_put (pool := pool) p c); [by eapply wf_frame|..]|by intros _ ? [? _]].
    - by rewrite (frame_lookup _ _ _ F).
    - by rewrite (fr_conns _ _ F).
    - by rewrite (fr_handshake _ _ F). }
  assert (Hsend : tn_status c <> CONN_WAIT_RX_SYN -> forall f b t m,
    wp (send_tcp_control e p f b t m) s (fun _ s' => wf pool s')).
  { intros Hs f b t m. destruct Hk as [Ht _]; [done|]. destruct (wf_conn _ _ Hw p c Ec) as [_ _ [Ha _] Hn _ _].
    eapply wp_mono; [apply (wp_send_control e p c); [done|done|by apply Hn]|]. cbn beta. intros _ s' F. by eapply wf_frame. }
  destruct (decide (tn_status c = CONN_WAIT_RX_SYNACK)) as [Hs|_].
  { destruct Hk as [Ht _]; [congruence|]. apply wp_bind.
    eapply wp_mono; [apply (wp_update (pool := pool) p c); [done|done|soft_update; intros _; by right]|].
    cbn beta. intros _ s1 (Hw1 & N1 & c1 & E1 & [K1 K2 K3 K4 K5]). apply wp_bind.
    eapply wp_mono; [apply (wp_synack (pool := pool) now p c1)|by intros _ ? [? _]]; try congruence; [done..| |done].
    rewrite K1, (ne_conns _ _ _ N1). done. }
  destruct (decide (tn_status c = CONN_OPEN)) as [Hs|_].
  - destruct (_ =? TCP_SYN).
    + destruct (opt_ts o) as [off|]; [|by apply (Hput Hs s), frame_refl].
      destruct (Hts off eq_refl) as [ts Ets]. apply wp_bind, (wp_must _ ts); [done|]. apply Hsend. congruence.
    + destruct (nz _); [by apply wp_ret|]. destruct (nz _); [|by apply wp_ret].
      apply wp_bind, wp_emit. intros s1 F. by apply Hput.
  - destruct (decide _) as [Hs|_]; [|by apply wp_ret].
    apply wp_when; intros _; [|done]. apply Hsend. congruence.
Qed.

(** The heads of the backlogs that a connection waits for are new. *)
Definition heads_fresh (s : ctl) : Prop :=
  forall lp l x rest, k_lheap s !! lp = Some l -> tl_backlog l = x :: rest ->
    k_conns s !! slot_key (e := e) l x = None.

Lemma wp_listener_pkt lp l pkt qid s :
  wf pool s -> k_lheap s !! lp = Some l -> heads_fresh s -> pkt_ok pkt -> queue_ok s qid ->
  u16 (ETH_HLEN + bpf_ntohs (ih_len (p_ip pkt))) <= BACKLOG_PKT_SIZE ->
  (forall len, k_conns s !! slot_key (e := e) l (mk_backlog_slot pkt len qid) = None) ->
  wp (tcp_listener_pkt e lp pkt qid) s (fun _ s' => wf pool s').
Proof.
  intros Hw El Hf Hpk Hq Hlen Hnew. unfold tcp_listener_pkt. apply wp_bind, (wp_rd_lst lp l); [done|].
  set (len := u16 _) in *. destruct (negb _); [by apply wp_ret|]. destruct (_ <=? _); [by apply wp_ret|].
  destruct (existsb _ _); [by apply wp_ret|]. destruct (Z.ltb_spec BACKLOG_PKT_SIZE len); [lia|].
  set (l1 := l <| tl_backlog ::= fun b => b ++ [mk_backlog_slot pkt len qid] |>).
  assert (Hw1 : wf pool (s <| k_lheap ::= <[lp := l1]> |>)).
  { eapply wf_lst_update; try done. cbn. apply Forall_app_2; [apply (lo_slots _ _ _ (wf_lst _ _ Hw lp l El))|].
    apply Forall_singleton. by split. }
  apply wp_bind, (wp_upd_lst lp l); [done|]. fold l1. apply wp_bind, wp_emit. intros s2 F2.
  pose proof (wf_frame _ _ _ F2 Hw1) as Hw2.
  destruct (tl_pending_conn l) as [p|] eqn:Ep; [|by apply wp_ret].
  apply (wp_listener_accept lp l1); [done|rewrite (fr_lheap _ _ F2); apply lookup_insert_eq| |].
  - intros _. cbn. by destruct (tl_backlog l).
  - intros x rest Hx. rewrite (fr_conns _ _ F2). change (k_conns s !! slot_key (e := e) l x = None).
    cbn in Hx. destruct (tl_backlog l) as [|y b] eqn:Eb; cbn in Hx; injection Hx as <- _; [apply Hnew|].
    by eapply Hf.
Qed.

(** A packet as it comes from the queues of application [a]. *)
Record pkt_in (s : ctl) (a : Z) (pkt : pkt_tcp) (qid : Z) : Prop := {
  pi_app : app_ok s a;
  pi_pkt : pkt_ok pkt;
  pi_qid : queue_ok s qid;
  pi_local : bpf_ntohl (ih_dest (p_ip pkt)) = e_local_ip e;
  pi_len : k_conns s !! pkt_key pkt = None -> u16 (ETH_HLEN + bpf_ntohs (ih_len (p_ip pkt))) <= BACKLOG_PKT_SIZE
}.

Lemma wp_packet now a pkt qid s :
  wf pool s -> pkt_in s a pkt qid -> heads_fresh s ->
  wp (tcp_packet e now a pkt qid) s (fun _ s' => wf pool s').
Proof.
  intros Hw [Ha Hpk Hq Hip Hlen] Hf. unfold tcp_packet. destruct (pkt_ok_parse _ Hpk) as (r & o & -> & Hts).
  destruct (negb _); [by apply wp_ret|]. apply wp_bind. unfold tcp_conn_lookup. apply wp_bind, wp_get, wp_ret.
  destruct (k_conns s !! pkt_key pkt) as [p|] eqn:Ek.
  - destruct (tb_reg _ _ _ _ (wf_tables _ _ Hw) _ _ Ek) as (c & Ec & Hk). apply wp_bind.
    eapply wp_mono; [apply (wp_connection_pkt now p c); try done; congruence|]. done.
  - apply wp_bind. unfold tcp_listener_lookup. apply wp_bind, wp_get.
    assert (Hrst : forall m, m = whenM (negb (nz (Z.land (TCPH_FLAGS (p_tcp pkt)) TCP_RST))) (send_tcp_reset e a pkt) ->
      wp (m ;; ret (-1)) s (fun _ s' => wf pool s')).
    { intros m ->. apply wp_bind, wp_when; intros _; [|done].
      eapply wp_mono; [apply wp_slow_path_send; [done|by left]|]. cbn beta. intros _ s' F. apply wp_ret. by eapply wf_frame. }
    destruct (k_listeners s !! _) as [[|l0 ls]|] eqn:El; [by apply wp_ret, Hrst| |by apply wp_ret, Hrst].
    set (h := Z.lxor _ _). pose proof (Z.mod_pos_bound h (Z.of_nat (length (l0 :: ls))) ltac:(cbn; lia)).
    destruct (lookup_lt_is_Some_2 (l0 :: ls) (Z.to_nat (h mod Z.of_nat (length (l0 :: ls))))) as [lp Elp]; [lia|].
    apply wp_bind, (wp_must _ lp); [done|]. apply wp_ret.
    destruct (po_live _ _ (wf_ports _ _ Hw) _ _ lp El) as (l & Ell & Hport); [by eapply list_elem_of_lookup_2|].
    apply wp_bind. eapply wp_mono; [apply (wp_listener_pkt lp l); try done|done].
    + by apply Hlen.
    + intros len. unfold slot_key. cbn. cbn in Hport. rewrite Hport, <- Hip. exact Ek.
Qed.

End Packets.

(** ** The handshake list *)

Section Loop.
Context {e : ctl_env} {He : env_good e} {pool : gset Z}.

(** A connection taken off the handshake list moves to its next status. *)
Lemma wf_pop s p rest c c' :
  wf pool s -> k_handshake s = p :: rest -> k_heap s !! p = Some c -> k_conns s !! conn_key c = Some p ->
  tn_type c = TCP_CONN_TYPE_NORMAL -> tn_status c <> CONN_WAIT_RX_SYN ->
  tn_status c' = CONN_WAIT_RX_SYNACK \/ tn_status c' = CONN_OPEN -> (fast c' <-> fast c) ->
  conn_key c' = conn_key c -> tn_type c' = tn_type c -> tn_listener c' = tn_listener c ->
  tn_ref c' = tn_ref c -> tn_tctx c' = tn_tctx c -> tn_cc_idx c' = tn_cc_idx c ->
  tn_ctl c' = tn_ctl c -> tn_cc_data c' = tn_cc_data c -> tn_qid c' = tn_qid c ->
  wf pool (s <| k_handshake := rest |> <| k_heap ::= <[p := c']> |>).
Proof.
  intros Hw Hhs Ec HC Ht Hns Hs' Hf Hk Ht' Hli Hr Htc Hi Hct Hd Hq. pose proof (wf_tables _ _ Hw) as HT.
  pose proof (tb_hs _ _ _ _ HT) as Hnd. rewrite Hhs in Hnd.
  pose proof (NoDup_cons_1_1 _ _ Hnd) as Hp. apply NoDup_cons_1_2 in Hnd.
  eapply wf_build; [exact Hw|split; ctl_simpl; by eauto|..]; ctl_simpl; try done; try apply Hw.
  - eapply tables_status; [exact Ec|done|done|done|congruence|done| |done| |exact HT].
    + by destruct Hs' as [-> | ->].
    + intros q Hn. rewrite Hhs, elem_of_cons. naive_solver.
  - eapply ix_soft; [exact Ec|done| |done|apply Hw]. intros _. by apply ebpf_key_inj.
  - intros q x. destruct (decide (p = q)) as [<-|Hn]; [rewrite lookup_insert_eq|rewrite lookup_insert_ne by done; by left].
    intros [= <-]. right. destruct (wf_conn _ _ Hw p c Ec) as [C1 C2 C3 C4 C5 C6].
    split; rewrite ?Hli, ?Hr, ?Htc, ?Hq; try done; [|intros Hx; destruct Hs'; congruence].
    intros _. destruct (C4 Ht) as [Hq' (K1 & K2 & K3 & K4)]. split; [done|]. unfold cc_ok. rewrite Hct, Hd.
    split_and!; try done. intros Hx. by apply K4, Hf.
  - by left.
Qed.

(** One turn of the loop. *)
Lemma wp_handshake_event now p rest s :
  wf pool s -> k_handshake s = p :: rest ->
  wp (handshake_event e now p) (s <| k_handshake := rest |>)
    (fun _ s' => wf pool s' /\ k_handshake s' = rest).
Proof.
  intros Hw Hhs. pose proof (wf_tables _ _ Hw) as HT.
  assert (Hin : p ∈ k_handshake s) by (rewrite Hhs; constructor).
  destruct (tb_hs_live _ _ _ _ HT p Hin) as [c Ec]. unfold handshake_event.
  destruct (tb_own _ _ _ _ HT p c Ec) as [(_ & _ & ? & _)|[HC Hk]]; [done|].
  assert (Ht : tn_type c = TCP_CONN_TYPE_NORMAL) by (destruct (tn_type c); [done|by destruct Hk]). rewrite Ht in Hk.
  pose proof (wf_conn _ _ Hw p c Ec) as [_ _ _ _ Hli Hsa].
  assert (Hsend : forall c' s1, wf pool s1 -> k_heap s1 !! p = Some c' -> tn_type c' = TCP_CONN_TYPE_NORMAL ->
    forall f b t m, wp (send_tcp_control e p f b t m) s1 (fun _ s' => frame s1 s')).
  { intros c' s1 Hw1 E1 Ht1 f b t m. destruct (wf_conn _ _ Hw1 p c' E1) as [_ _ [Ha _] Hn _ _].
    apply (wp_send_control e p c'); [done|done|by apply Hn]. }
  assert (Hpost : forall c' s1 s2, s1 = s <| k_handshake := rest |> <| k_heap ::= <[p := c']> |> -> wf pool s1 ->
    frame s1 s2 -> wf pool s2 /\ k_handshake s2 = rest).
  { intros c' s1 s2 -> Hw1 F. split; [by eapply wf_frame|]. by rewrite (fr_handshake _ _ F). }
  apply wp_bind, (wp_rd_conn p c); [done|]. destruct (tn_status c) eqn:Es; try done.
  - assert (Hfast : fast (c <| tn_status := CONN_OPEN |>) <-> fast c).
    { unfold fast. cbn. rewrite Es. naive_solver. }
    assert (Hw1 : wf pool (s <| k_handshake := rest |> <| k_heap ::= <[p := c <| tn_status := CONN_OPEN |>]> |>)).
    { eapply (wf_pop s p rest c); try done; [congruence|by right]. }
    apply wp_bind, (wp_upd_conn p c); [done|]. apply wp_bind.
    eapply wp_mono; [destruct (nz _); (eapply Hsend; [exact Hw1|apply lookup_insert_eq|exact Ht])|].
    cbn beta. intros _ s2 F2. destruct Hsa as [lp Elp]; [done|]. apply wp_bind, (wp_must _ lp); [done|].
    destruct (Hli lp Elp) as (l & Ell & _).
    apply wp_bind, (wp_rd_lst lp l); [by rewrite (fr_lheap _ _ F2)|].
    apply wp_emit. intros s3 F3. eapply Hpost; [reflexivity|exact Hw1|by eapply frame_trans].
  - assert (Hw1 : wf pool (s <| k_handshake := rest |> <| k_heap ::= <[p :=
      c <| tn_status := CONN_WAIT_RX_SYNACK |> <| tn_next_timeout_tsc := handshake_deadline e now |>]> |>)).
    { eapply (wf_pop s p rest c); try done; [congruence|by left|].
      unfold fast. cbn. rewrite Es. naive_solver. }
    apply wp_bind, (wp_upd_conn p c); [done|].
    eapply wp_mono; [eapply Hsend; [exact Hw1|apply lookup_insert_eq|exact Ht]|].
    cbn beta. intros _ s2 F2. by eapply Hpost.
Qed.

Lemma wp_poll_handshake now s :
  wf pool s -> wp (poll_tcp_handshake_events e now) s (fun _ s' => wf pool s' /\ k_handshake s' = []).
Proof.
  intros Hw. unfold poll_tcp_handshake_events. apply wp_bind, wp_get.
  assert (Hn : length (k_handshake s) = length (k_handshake s)) by done. revert Hn Hw.
  generalize (length (k_handshake s)) at 2 3 as n. intros n. revert s.
  induction n as [|n IH]; intros s Hl Hw; cbn [poll_handshake].
  - apply wp_ret. split; [done|]. by destruct (k_handshake s).
  - apply wp_bind, wp_get. destruct (k_handshake s) as [|p rest] eqn:Eh; [done|].
    apply wp_bind, wp_modify, wp_bind. eapply wp_mono; [by apply wp_handshake_event|].
    cbn beta. intros _ s' [Hw' Eh']. apply IH; [|done]. rewrite Eh'. cbn in Hl. lia.
Qed.

End Loop.

(** ** Congestion control and timeouts *)

Lemma dctcp_wnd_cc_buf c cc s c' cc' s' : wnd_inv c cc -> stats_wf s ->
  dctcp_wnd_cc c cc s = Some (c', cc', s') -> ctl_tx_buf_size c' = ctl_tx_buf_size c.
Proof.
  intros Hi Hs. destruct (dctcp_wnd_cc_eq c cc s Hi Hs) as (w & x & ss & s1 & _ & _ & _ & ->).
  destruct (window_to_rate _ _); [|done]. by intros [= <- _ _].
Qed.

Lemma handle_retransmission_keeps c stats ts issued :
  ctl_tx_buf_size (handle_retransmission c stats ts issued).1 = ctl_tx_buf_size c /\
  (in32 (cc_rexmits c) -> in32 (cc_rexmits (handle_retransmission c stats ts issued).1)).
Proof.
  unfold handle_retransmission. destruct (_ && _); [|done]. cbn zeta. destruct (_ =? 0); [done|].
  destruct (_ && _); [|done]. destruct issued; [|done]. split; [done|]. intros _. cbn. apply u32_range.
Qed.

(** The body of the loop runs on every connection on the fast path. *)
Lemma poll_cc_one_total c d b curr_tsc cur_ts t_us issued :
  wnd_inv c d -> cc_wf b ->
  exists c' d' b' sent, poll_cc_one c (CC_DCTCP_WND d) b curr_tsc cur_ts t_us issued
    = Some (c', CC_DCTCP_WND d', b', sent) /\ wnd_inv c' d' /\ cc_wf b' /\
    ctl_tx_buf_size c' = ctl_tx_buf_size c.
Proof.
  intros Hi Hb. unfold poll_cc_one. destruct (t_us <? _); [by eexists _, _, _, _|].
  destruct (cc_difference c (snapshot_cc b)) as [c1 st] eqn:Ed. injection Ed as E1 E2.
  assert (Hi1 : wnd_inv c1 d) by (subst c1; exact Hi).
  assert (Hst : stats_wf st).
  { subst st. unfold stats_wf. cbn. split_and!; [apply u16_range|apply u32_range|apply u32_range|apply Hb|apply Hb]. }
  assert (Hbuf : ctl_tx_buf_size c1 = ctl_tx_buf_size c) by (by subst c1). clear E1 E2.
  destruct (dctcp_wnd_cc_total c1 d st Hi1 Hst) as (c2 & d2 & st2 & w & v & E & Hi2 & _ & _ & Hv & _).
  pose proof (dctcp_wnd_cc_buf _ _ _ _ _ _ Hi1 Hst E) as Hbuf2.
  cbn [run_algorithm]. rewrite E. rewrite Hv.
  destruct (handle_retransmission c2 st2 cur_ts issued) as [c3 sent] eqn:Eh.
  destruct (handle_retransmission_keeps c2 st2 cur_ts issued) as [K1 K2]. rewrite Eh in K1, K2. cbn in K1, K2.
  eexists _, _, _, _. split; [reflexivity|]. destruct Hi2 as (I1 & I2 & I3 & I4). split_and!.
  - unfold wnd_inv. cbn. rewrite K1. split_and!; try done; try apply I1. by apply K2.
  - exact Hb.
  - cbn. congruence.
Qed.

Section Timeouts.
Context {e : ctl_env} {He : env_good e} {pool : gset Z}.

(** The control loop writes back the congestion state of one connection. *)
Lemma wf_cc s p c d d' ct b :
  wf pool s -> k_heap s !! p = Some c -> tn_cc_data c = CC_DCTCP_WND d -> tn_status c = CONN_OPEN ->
  tn_type c = TCP_CONN_TYPE_NORMAL ->
  wnd_inv ct d' -> ctl_tx_buf_size ct = ctl_tx_buf_size (tn_ctl c) -> cc_wf b ->
  wf pool (s <| k_heap ::= <[p := c <| tn_ctl := ct |> <| tn_cc_data := CC_DCTCP_WND d' |>]> |>
             <| k_cc_map ::= <[tn_cc_idx c := b]> |>).
Proof.
  intros Hw Ec Hd Hs Ht Hi Hbuf Hb. set (c' := c <| tn_ctl := ct |> <| tn_cc_data := _ |>).
  eapply wf_build; [exact Hw|split; ctl_simpl; by eauto|..]; ctl_simpl; try done; try apply Hw.
  - eapply tables_soft; [exact Ec|done..|apply Hw].
  - apply ix_cc_map; [done|]. eapply ix_soft; [exact Ec|done..|apply Hw].
  - intros q x. destruct (decide (p = q)) as [<-|Hn]; [rewrite lookup_insert_eq|rewrite lookup_insert_ne by done; by left].
    intros [= <-]. right. destruct (wf_conn _ _ Hw p c Ec) as [C1 C2 C3 C4 C5 C6]. split; try done.
    intros _. destruct (C4 Ht) as [Hq (K1 & K2 & K3 & K4)]. split; [done|].
    unfold cc_ok. cbn. rewrite Hbuf. split_and!; [lia|apply K2|apply Hi|].
    intros _. by exists d'.
  - by left.
Qed.

(** A SYN that was not answered is sent again. *)
Lemma wf_retry s p c c' :
  wf pool s -> k_heap s !! p = Some c -> k_conns s !! conn_key c = Some p -> p ∉ k_handshake s ->
  tn_type c = TCP_CONN_TYPE_NORMAL -> tn_status c = CONN_WAIT_RX_SYNACK ->
  c' = c <| tn_status := CONN_WAIT_TX_SYN |> <| tn_syn_attempts ::= fun n => u16 (n + 1) |> ->
  wf pool (s <| k_heap ::= <[p := c']> |> <| k_handshake ::= fun h => h ++ [p] |>).
Proof.
  intros Hw Ec HC Hp Ht Hs Hc'. pose proof (wf_tables _ _ Hw) as HT.
  assert (Hst : tn_status c' = CONN_WAIT_TX_SYN) by (by subst c').
  assert (Hty : tn_type c' = tn_type c) by (by subst c').
  assert (Hslow : ~ fast c') by (intros [_ [Hx|Hx]]; congruence).
  eapply wf_build; [exact Hw|split; ctl_simpl; by eauto|..]; ctl_simpl; try done; try apply Hw.
  - eapply tables_status; [exact Ec|done|by subst c'|done|congruence|congruence| | | |exact HT].
    + rewrite Hst. cbn. set_solver.
    + apply list.NoDup_app. split_and!; [apply HT| |apply NoDup_singleton]. set_solver.
    + intros q Hq. rewrite elem_of_app, list_elem_of_singleton. naive_solver.
  - apply ix_slow; [|done|apply Hw]. intros x Ex [_ [Hx|Hx]]; congruence.
  - intros q x. destruct (decide (p = q)) as [<-|Hn]; [rewrite lookup_insert_eq|rewrite lookup_insert_ne by done; by left].
    intros [= <-]. right. destruct (wf_conn _ _ Hw p c Ec) as [C1 C2 C3 C4 C5 C6].
    split; [done|by subst c'|by subst c'| |by subst c'|congruence].
    intros _. destruct (C4 Ht) as [Hq (K1 & K2 & K3 & K4)].
    split; [by subst c'|]. split_and!; [by subst c'|subst c'; apply K2|subst c'; apply K3|done].
  - by left.
Qed.

(** The connections that can be put at the end of a round: registered, not in
    the handshake list. *)
Definition idle (s : ctl) (p : Z) : Prop := (exists k, k_conns s !! k = Some p) /\ p ∉ k_handshake s.

Lemma idle_conn s p : wf pool s -> idle s p ->
  exists c, k_heap s !! p = Some c /\ k_conns s !! conn_key c = Some p /\ p ∉ k_handshake s.
Proof.
  intros Hw [[k Ek] Hp]. destruct (tb_reg _ _ _ _ (wf_tables _ _ Hw) k p Ek) as (c & Ec & <-). eauto.
Qed.

(** What one entry does to the others. *)
Record turn (p : Z) (tp tp' : list Z) (s s' : ctl) : Prop := {
  tu_wf : wf pool s';
  tu_conns : k_conns s' = k_conns s;
  tu_hs : forall q, q <> p -> q ∈ k_handshake s' <-> q ∈ k_handshake s;
  tu_put : tp' = tp \/ tp' = tp ++ [p] /\ p ∉ k_handshake s'
}.

Lemma turn_refl p tp s : wf pool s -> turn p tp tp s s.
Proof. intros Hw. split; try done. by left. Qed.

(** An open connection. *)
Lemma wp_poll_open p c curr_tsc tp s :
  wf pool s -> k_heap s !! p = Some c -> tn_type c = TCP_CONN_TYPE_NORMAL -> tn_status c = CONN_OPEN ->
  wp (let! s := get in
      let! b := must (k_cc_map s !! tn_cc_idx c) in
      let! r := must (poll_cc_one (tn_ctl c) (tn_cc_data c) b curr_tsc (u32 (e_cycles_to_us e curr_tsc))
                      (u32 (e_cycles_to_us e (u64 (curr_tsc - cc_last_tsc (tn_ctl c))))) true) in
      let '(ctl, d, b, sent) := r in
      upd_conn p (fun c => c <| tn_ctl := ctl |> <| tn_cc_data := d |>) ;;
      modify (fun s => s <| k_cc_map ::= <[tn_cc_idx c := b]> |>) ;;
      whenM sent (issue_retransmit p) ;;
      ret tp) s (fun tp' s' => turn p tp tp' s s').
Proof.
  intros Hw Ec Ht Hs. assert (Hf : fast c) by (split; [done|by left]).
  destruct (wf_conn _ _ Hw p c Ec) as [_ _ _ Hn _ _].
  destruct (Hn Ht) as [_ (_ & _ & _ & Hd)]. destruct (Hd Hf) as (d & Ed & Hi). clear Hd Hn.
  pose proof (wf_index _ _ Hw) as HI. destruct (ix_in _ _ _ _ _ HI p c Ec Hf) as (x & Ex & Hx).
  destruct (ix_map _ _ _ _ _ HI (tn_cc_idx c)) as (b & Eb & Hb).
  { apply (ix_all _ _ _ _ _ HI). right. eauto. }
  apply wp_bind, wp_get. apply wp_bind, (wp_must _ b); [done|]. rewrite Ed.
  destruct (poll_cc_one_total (tn_ctl c) d b curr_tsc (u32 (e_cycles_to_us e curr_tsc))
    (u32 (e_cycles_to_us e (u64 (curr_tsc - cc_last_tsc (tn_ctl c))))) true Hi Hb)
    as (ct & d' & b' & sent & E & Hi' & Hb' & Hbuf).
  apply wp_bind, (wp_must _ _ _ _ E). apply wp_bind, (wp_upd_conn p c); [done|].
  apply wp_bind, wp_modify.
  pose proof (wf_cc s p c d d' ct b' Hw Ec Ed Hs Ht Hi' Hbuf Hb') as Hw1.
  set (c1 := c <| tn_ctl := ct |> <| tn_cc_data := _ |>) in *.
  set (s1 := s <| k_heap ::= <[p := c1]> |> <| k_cc_map ::= _ |>) in *.
  assert (E1 : k_heap s1 !! p = Some c1) by apply lookup_insert_eq.
  assert (EC1 : k_conns s1 = k_conns s) by done. assert (EH1 : k_handshake s1 = k_handshake s) by done.
  assert (Ht1 : tn_type c1 = TCP_CONN_TYPE_NORMAL) by done. clearbody s1 c1.
  apply wp_bind, wp_when; intros _; apply wp_bind || apply wp_ret.
  - apply (wp_rd_conn p c1); [done|]. destruct (wf_conn _ _ Hw1 p c1 E1) as [_ _ [Ha _] Hn _ _].
    eapply wp_mono; [apply wp_slow_path_send; [done|by apply Hn]|]. cbn beta. intros _ s2 F2. apply wp_ret.
    split; [by eapply wf_frame|by rewrite (fr_conns _ _ F2)|by rewrite (fr_handshake _ _ F2), EH1|by left].
  - split; [done|done|by rewrite EH1|by left].
Qed.

Lemma wp_poll_entry p c curr_tsc now tp s :
  wf pool s -> k_heap s !! p = Some c -> k_conns s !! conn_key c = Some p -> p ∉ k_handshake s ->
  wp (poll_cc_entry e curr_tsc now p tp) s (fun tp' s' => turn p tp tp' s s').
Proof.
  intros Hw Ec HC Hp. unfold poll_cc_entry. apply wp_bind, (wp_rd_conn p c); [done|].
  pose proof (registered_kind s p c Hw Ec HC) as Hk.
  destruct (decide (tn_type c = TCP_CONN_TYPE_FAKE)); [by apply wp_ret, turn_refl|].
  assert (Ht : tn_type c = TCP_CONN_TYPE_NORMAL) by (by destruct (tn_type c)). rewrite Ht in Hk.
  case_bool_decide as Hs; cbn [negb]; [by apply wp_poll_open|].
  destruct (_ && _); [|by apply wp_ret, turn_refl].
  assert (Hs' : tn_status c = CONN_WAIT_RX_SYNACK) by (destruct (tn_status c); done).
  destruct (bool_decide (tn_status c = CONN_WAIT_RX_SYNACK) && _).
  - apply wp_bind, (wp_upd_conn p c); [done|]. apply wp_bind, wp_modify, wp_ret.
    split; [by eapply (wf_retry s p c)|done| |by left].
    intros q Hq. ctl_simpl. rewrite elem_of_app, list_elem_of_singleton. naive_solver.
  - apply wp_ret. split; [done..|]. destruct (3 <? _); [by right|by left].
Qed.

Lemma wp_poll_loop curr_tsc clock l tp s :
  wf pool s -> NoDup (l.*2 ++ tp) -> (forall p, p ∈ l.*2 ++ tp -> idle s p) ->
  wp (poll_cc_loop e curr_tsc clock l tp) s
    (fun tp' s' => wf pool s' /\ NoDup tp' /\ forall p, p ∈ tp' -> idle s' p).
Proof.
  revert tp s. induction l as [|[k p] l IH]; intros tp s Hw Hnd Hi; cbn [poll_cc_loop].
  { by apply wp_ret. }
  cbn in Hnd. pose proof (NoDup_cons_1_1 _ _ Hnd) as Hp. apply NoDup_cons_1_2 in Hnd.
  destruct (idle_conn s p Hw) as (c & Ec & HC & Hph); [apply Hi; constructor|].
  apply wp_bind. eapply wp_mono; [by apply (wp_poll_entry p c)|]. cbn beta. intros tp' s' [Hw' EC Hhs Htp].
  assert (Hi' : forall q, q ∈ l.*2 ++ tp -> idle s' q).
  { intros q Hq. destruct (Hi q ltac:(by constructor)) as [Hk Hnq]. split; [by rewrite EC|].
    rewrite Hhs; [done|]. by intros ->. }
  destruct Htp as [->|[-> Hp']]; apply IH; try done.
  - rewrite app_assoc. apply list.NoDup_app. split_and!; [done| |apply NoDup_singleton].
    intros q Hq ->%list_elem_of_singleton. done.
  - intros q. rewrite app_assoc, elem_of_app, list_elem_of_singleton. intros [Hq| ->]; [by apply Hi'|].
    split; [|done]. rewrite EC. by exists (conn_key c).
Qed.

Lemma wp_put_all tp s :
  wf pool s -> NoDup tp -> (forall p, p ∈ tp -> idle s p) ->
  wp (forM tp (tcp_conn_put e)) s (fun _ s' => wf pool s').
Proof.
  revert s. induction tp as [|p tp IH]; intros s Hw Hnd Hi; cbn [forM]; [by apply wp_ret|].
  pose proof (NoDup_cons_1_1 _ _ Hnd) as Hp. apply NoDup_cons_1_2 in Hnd.
  destruct (idle_conn s p Hw) as (c & Ec & HC & Hph); [apply Hi; constructor|].
  apply wp_bind. eapply wp_mono; [by apply (wp_put (pool := pool) p c)|]. cbn beta. intros _ s' [Hw' Hcl].
  apply IH; [done..|]. intros q Hq. destruct (Hi q ltac:(by constructor)) as [[k Ek] Hnq].
  split; [|by rewrite (cl_hs _ _ _ _ Hcl)]. exists k. rewrite (cl_conns _ _ _ _ Hcl).
  rewrite lookup_delete_ne; [done|]. intros <-. congruence.
Qed.

Lemma iter_idle s : wf pool s -> k_handshake s = [] ->
  NoDup ((e_iter e (k_conns s)).*2 ++ []) /\ forall p, p ∈ (e_iter e (k_conns s)).*2 ++ [] -> idle s p.
Proof.
  intros Hw Hhs. rewrite app_nil_r. split.
  - apply NoDup_fmap_2_strong.
    + intros [k p] [k' p'] Hk%iter_lookup Hk'%iter_lookup [= <-]. f_equal.
      by eapply tables_reg_inj; [apply Hw|..].
    + rewrite (eg_iter (k_conns s)). apply NoDup_map_to_list.
  - intros p. rewrite list_elem_of_fmap. intros ([k q] & -> & Hk%iter_lookup). cbn.
    split; [by exists k|]. rewrite Hhs. apply not_elem_of_nil.
Qed.

(** A round of the control loop. *)
Definition poll_round (now curr_tsc : Z) (clock : Z -> Z) : M unit :=
  poll_tcp_handshake_events e now ;; poll_tcp_cc_to e curr_tsc clock.

Lemma wp_poll_round now curr_tsc clock s :
  wf pool s -> wp (poll_round now curr_tsc clock) s (fun _ s' => wf pool s').
Proof.
  intros Hw. apply wp_bind. eapply wp_mono; [by apply (wp_poll_handshake (pool := pool))|]. cbn beta.
  intros _ s1 [Hw1 Hhs]. unfold poll_tcp_cc_to. apply wp_bind, wp_get, wp_bind.
  destruct (iter_idle s1 Hw1 Hhs) as [Hnd Hi].
  eapply wp_mono; [by apply wp_poll_loop|]. cbn beta. intros tp s2 (Hw2 & Hnd2 & Hi2). by apply wp_put_all.
Qed.

End Timeouts.

(** ** Commands *)

Lemma frame_upd_heap f s s' : frame s s' -> frame (s <| k_heap ::= f |>) (s' <| k_heap ::= f |>).
Proof. intros []. split; ctl_simpl; try done; by rewrite fr_heap. Qed.

Lemma frame_upd_conns f s s' : frame s s' -> frame (s <| k_conns ::= f |>) (s' <| k_conns ::= f |>).
Proof. intros []. split; ctl_simpl; try done; by rewrite fr_conns. Qed.

Lemma frame_upd_hs f s s' : frame s s' -> frame (s <| k_handshake ::= f |>) (s' <| k_handshake ::= f |>).
Proof. intros []. split; ctl_simpl; try done; by rewrite fr_handshake. Qed.

Section Commands.
Context {e : ctl_env} {He : env_good e} {pool : gset Z}.

Lemma next_fresh s : wf pool s -> k_heap s !! k_next s = None.
Proof.
  intros Hw. destruct (k_heap s !! k_next s) as [c|] eqn:E; [|done].
  pose proof (co_next _ _ _ (wf_conn _ _ Hw _ _ E)). lia.
Qed.

Lemma next_fresh_lst s : wf pool s -> k_lheap s !! k_next s = None.
Proof.
  intros Hw. destruct (k_lheap s !! k_next s) as [c|] eqn:E; [|done].
  pose proof (lo_next _ _ _ (wf_lst _ _ Hw _ _ E)). lia.
Qed.

(** A new registered object off the fast path. *)
Lemma wf_new s s' c :
  wf pool s -> k_conns s !! conn_key c = None -> ~ fast c -> env_le s s' ->
  k_conns s' = <[conn_key c := k_next s]> (k_conns s) -> k_heap s' = <[k_next s := c]> (k_heap s) ->
  (exists hs', k_handshake s' = k_handshake s ++ hs' /\ (hs' = [] \/ hs' = [k_next s]) /\
    match tn_type c with
    | TCP_CONN_TYPE_FAKE => tn_status c = CONN_WAIT_RX_SYN /\ hs' = []
    | TCP_CONN_TYPE_NORMAL => tn_status c = CONN_WAIT_TX_SYN /\ hs' = [k_next s]
    end) ->
  k_lheap s' = k_lheap s -> k_listeners s' = k_listeners s -> k_threads s' = k_threads s ->
  k_cc_avail s' = k_cc_avail s -> k_cc_map s' = k_cc_map s -> k_ebpf s' = k_ebpf s ->
  pool_ok (k_pool s') -> conn_ok s' (k_next s) c -> wf pool s'.
Proof.
  intros Hw HC Hf Hle E1 E2 (hs' & E3 & Hhs & Hk) E4 E5 E6 E7 E8 E9 Hpool Hok.
  pose proof (wf_tables _ _ Hw) as HT. pose proof (next_fresh s Hw) as Hn.
  assert (Hnh : k_next s ∉ k_handshake s).
  { intros Hx. destruct (tb_hs_live _ _ _ _ HT _ Hx). congruence. }
  eapply wf_build; [exact Hw|exact Hle|..]; rewrite ?E1, ?E2, ?E3, ?E4, ?E5, ?E6, ?E7, ?E8, ?E9; try done.
  - apply (tables_new _ _ _ (k_handshake s)); try done.
    + apply list.NoDup_app. split_and!; [apply HT| |destruct Hhs as [-> | ->]; [constructor|apply NoDup_singleton]].
      intros x Hx Hx'. destruct Hhs as [-> | ->]; [by apply not_elem_of_nil in Hx'|].
      by apply list_elem_of_singleton in Hx' as ->.
    + intros q Hq. rewrite elem_of_app. split; [|by left]. intros [?|Hx]; [done|].
      destruct Hhs as [-> | ->]; [by apply not_elem_of_nil in Hx|by apply list_elem_of_singleton in Hx].
    + destruct (tn_type c), Hk as [-> ->]; cbn; [set_solver|]. by rewrite app_nil_r.
  - apply ix_slow; [congruence|done|apply Hw].
  - intros q x. destruct (decide (k_next s = q)) as [<-|Hq]; [rewrite lookup_insert_eq|rewrite lookup_insert_ne by done; by left].
    intros [= <-]. by right.
  - by left.
  - apply Hw.
Qed.

Lemma wp_new_conn s (Q : Z -> ctl -> Prop) :
  Q (k_next s) (s <| k_heap ::= <[k_next s := new_connection]> |> <| k_next := k_next s + 1 |>) -> wp new_conn s Q.
Proof. intros HQ. apply wp_bind, wp_get. apply wp_bind, wp_modify. by apply wp_ret. Qed.

(** An allocation that is undone. *)
Lemma frame_undo s q : wf pool s -> (pool_ok (k_pool s) -> pool_ok q) ->
  frame s (s <| k_heap ::= <[k_next s := new_connection]> |> <| k_next := k_next s + 1 |>
             <| k_pool := q |> <| k_heap ::= delete (k_next s) |>).
Proof.
  intros Hw Hq. split; ctl_simpl; try done; try (by eauto); [|lia].
  apply delete_insert_id. by apply next_fresh.
Qed.

(** The connection [tcp_bind] registers. *)
Definition bind_key (opaque l_port : Z) : flow_tuple :=
  conn_key (bind_conn (0, 0) opaque 0 false l_port new_connection).

Lemma wp_bind_cmd t opaque fd reuseport l_port s :
  wf pool s -> tctx_ok s t -> k_conns s !! bind_key opaque l_port = None ->
  wp (tcp_bind e t opaque fd reuseport l_port) s (fun _ s' => wf pool s').
Proof.
  intros Hw Ht HC. unfold tcp_bind. apply wp_bind, (wp_find (pool := pool)); [done|by intros; apply wp_ret|].
  intros _. apply wp_bind, wp_new_conn. apply wp_bind, wp_get. apply wp_bind, wp_modify.
  pose proof Ht as [(ap & Ea & Hap) _]. apply wp_bind, (wp_rd_app t.1 ap); [done|].
  pose proof (pool_ok_alloc_at l_port (k_pool s)) as Hpool. ctl_simpl.
  destruct (_ && _).
  { apply wp_bind, (wp_delete_conn (k_next s) new_connection); [apply lookup_insert_eq|]. apply wp_ret.
    eapply wf_frame; [by apply frame_undo|done]. }
  apply wp_bind, (wp_upd_conn (k_next s) new_connection); [apply lookup_insert_eq|].
  set (c := bind_conn t opaque fd reuseport l_port new_connection).
  assert (Hkey : conn_key c = bind_key opaque l_port) by done.
  set (s3 := _ <| k_heap ::= <[k_next s := c]> |>).
  assert (Hle : env_le s (s3 <| k_conns ::= <[conn_key c := k_next s]> |>)) by (subst s3; split; ctl_simpl; eauto; lia).
  assert (Hw3 : wf pool (s3 <| k_conns ::= <[conn_key c := k_next s]> |>)).
  { apply (wf_new s _ c); try done.
    - by intros [? _].
    - subst s3. ctl_simpl. apply insert_insert_eq.
    - exists []. split; [by rewrite app_nil_r|]. split; [by left|]. done.
    - apply Hpool, Hw.
    - split; try done. subst s3. ctl_simpl. lia. }
  assert (E3 : k_heap s3 !! k_next s = Some c) by apply lookup_insert_eq.
  assert (EC : k_conns s3 = k_conns s) by done.
  assert (Ha3 : app_ok s3 t.1) by (eapply (app_ok_env s); [subst s3; split; ctl_simpl; eauto; lia|apply Ht]).
  clearbody s3. apply wp_bind. eapply wp_mono; [by apply wp_ctl_record|]. cbn beta. intros _ s4 F4.
  apply wp_bind, (wp_reg_slowpath _ c); [by rewrite (frame_lookup _ _ _ F4)|by rewrite (fr_conns _ _ F4), EC|].
  apply wp_bind, wp_emit. intros s5 F5. apply wp_ret.
  eapply wf_frame; [exact F5|]. eapply wf_frame; [|exact Hw3]. by apply frame_upd_conns.
Qed.

(** The connection [tcp_open] registers with port [port]. *)
Definition open_key (r_ip r_port port : Z) : flow_tuple := mk_flow_tuple r_ip r_port (e_local_ip e) port.

Lemma wp_open_cmd t opaque fd r_ip r_port s :
  wf pool s -> tctx_ok s t ->
  (forall p c, k_heap s !! p = Some c -> k_conns s !! conn_key c = Some p -> tn_opaque_connection c <> opaque) ->
  (forall port q, alloc_port (k_pool s) = Some (port, q) -> k_conns s !! open_key r_ip r_port port = None) ->
  wp (tcp_open e t opaque fd r_ip r_port) s (fun _ s' => wf pool s').
Proof.
  intros Hw Ht Hop HC. unfold tcp_open. apply wp_bind, (wp_find (pool := pool)); [done|by intros p c ? ? ?; destruct (Hop p c)|].
  intros _. apply wp_bind, wp_bind, wp_new_conn. apply wp_bind, wp_get. ctl_simpl.
  destruct (pool_ok_alloc (k_pool s)) as ([port q] & Er & Hpool & _); [apply Hw|].
  apply wp_bind, (wp_must _ _ _ _ Er). cbn [fst snd] in *. specialize (HC port q Er).
  destruct (port =? -1).
  { apply wp_bind, (wp_delete_conn (k_next s) new_connection); [apply lookup_insert_eq|]. apply wp_ret, wp_ret.
    eapply wf_frame; [|exact Hw]. split; ctl_simpl; try done; try (by eauto); [|lia].
    apply delete_insert_id. by apply (next_fresh s). }
  apply wp_bind, wp_modify. set (s2 := _ <| k_pool := q |>).
  set (c := open_conn e t opaque fd r_ip r_port port new_connection).
  assert (Hkey : conn_key c = open_key r_ip r_port port).
  { subst c. unfold conn_key, open_conn, open_key. cbn. f_equal. unfold nz. by destruct (Z.eqb_spec port 0) as [-> |]. }
  set (s6 := s2 <| k_heap ::= <[k_next s := c]> |> <| k_conns ::= <[conn_key c := k_next s]> |>
                <| k_handshake ::= fun h => h ++ [k_next s] |>).
  assert (Hle : env_le s s6) by (subst s6 s2; split; ctl_simpl; eauto; lia).
  assert (Hw6 : wf pool s6).
  { apply (wf_new s _ c); try done.
    - by rewrite Hkey.
    - intros [_ [Hx|Hx]]; done.
    - subst s6 s2. ctl_simpl. apply insert_insert_eq.
    - exists [k_next s]. split; [done|]. split; [by right|]. done.
    - pose proof (eg_tx (e := e)). split; try done; [subst s6 s2; ctl_simpl; lia|].
      intros _. split; [by left|]. split_and!; [cbn; lia|cbn; unfold in32; lia|cbn; unfold in32; lia|].
      intros [_ [Hx|Hx]]; done. }
  assert (E2 : k_heap s2 !! k_next s = Some new_connection) by apply lookup_insert_eq.
  assert (EC : k_conns s2 = k_conns s) by done.
  assert (Ha2 : app_ok s2 t.1) by (eapply (app_ok_env s); [subst s2; split; ctl_simpl; eauto; lia|apply Ht]).
  subst s6. clearbody s2. apply wp_bind. eapply wp_mono; [by apply wp_ctl_record|]. cbn beta. intros _ s3 F3.
  apply wp_ret. cbv beta iota. apply wp_bind, (wp_upd_conn (k_next s) new_connection); [by rewrite (frame_lookup _ _ _ F3)|].
  fold c. apply wp_bind, (wp_reg_slowpath _ c).
  { apply lookup_insert_eq. }
  { ctl_simpl. by rewrite (fr_conns _ _ F3), EC, Hkey. }
  apply wp_bind, wp_modify. apply wp_bind, (wp_rd_conn _ c); [apply lookup_insert_eq|].
  apply wp_bind, wp_emit. intros s7 F7. apply wp_ret.
  eapply wf_frame; [exact F7|]. eapply wf_frame; [|exact Hw6].
  by apply frame_upd_hs, frame_upd_conns, frame_upd_heap.
Qed.

(** A new listener. *)
Lemma ports_new L LH lp l k :
  ports_ok L LH -> LH !! lp = None -> tl_listen_port l = lt_local_port k ->
  (forall ls lp' l', L !! k = Some ls -> lp' ∈ ls -> LH !! lp' = Some l' -> (tl_tctx l').1 = (tl_tctx l).1) ->
  ports_ok (<[k := default [] (L !! k) ++ [lp]]> L) (<[lp := l]> LH).
Proof.
  intros [P1 P2 P3 P4 P5] Hn Hk Happ.
  assert (Hold : forall k' ls, L !! k' = Some ls -> lp ∉ ls).
  { intros k' ls Ek Hin. destruct (P1 _ _ _ Ek Hin) as (x & Ex & _). congruence. }
  set (ls0 := default [] (L !! k)).
  assert (Hls0 : forall q, q ∈ ls0 -> exists ls, L !! k = Some ls /\ q ∈ ls).
  { subst ls0. intros q Hq. destruct (L !! k) as [ls|]; [by exists ls|by apply not_elem_of_nil in Hq]. }
  assert (Hsp : forall k' ls q, <[k := ls0 ++ [lp]]> L !! k' = Some ls -> q ∈ ls ->
    (k' = k /\ q = lp) \/ (q <> lp /\ exists ls', L !! k' = Some ls' /\ q ∈ ls')).
  { intros k' ls q. destruct (decide (k = k')) as [<-|Hk']; [rewrite lookup_insert_eq|rewrite lookup_insert_ne by done].
    - intros [= <-]. rewrite elem_of_app, list_elem_of_singleton. intros [Hq| ->]; [right|by left].
      destruct (Hls0 q Hq) as (ls & El & Hin). split; [|eauto]. intros ->. by apply (Hold k ls).
    - intros El Hin. right. split; [|eauto]. intros ->. by apply (Hold k' ls). }
  split.
  - intros k' ls q El Hq. destruct (Hsp k' ls q El Hq) as [[-> ->]|[Hne (ls' & El' & Hq')]].
    + exists l. by rewrite lookup_insert_eq.
    + rewrite lookup_insert_ne by done. eauto.
  - intros q x. destruct (decide (lp = q)) as [<-|Hq]; [rewrite lookup_insert_eq|rewrite lookup_insert_ne by done].
    + intros _. exists k, (ls0 ++ [lp]). rewrite lookup_insert_eq. split; [done|]. set_solver.
    + intros Hx. destruct (P2 q x Hx) as (k' & ls & El & Hin). destruct (decide (k = k')) as [<-|Hk'].
      * exists k, (ls0 ++ [lp]). rewrite lookup_insert_eq. split; [done|]. subst ls0. rewrite El. set_solver.
      * exists k', ls. by rewrite lookup_insert_ne.
  - intros k' ls. destruct (decide (k = k')) as [<-|Hk']; [rewrite lookup_insert_eq|rewrite lookup_insert_ne by done; apply P3].
    intros [= <-]. apply list.NoDup_app. split_and!; [| |apply NoDup_singleton].
    + subst ls0. destruct (L !! k) as [ls|] eqn:El; [by eapply P3|constructor].
    + intros q Hq ->%list_elem_of_singleton. destruct (Hls0 lp Hq) as (ls & El & Hin). by apply (Hold k ls).
  - intros k1 k2 ls1 ls2 q E1 E2 H1 H2.
    destruct (Hsp _ _ _ E1 H1) as [[-> ->]|[Hne (x & Ex & Hx)]], (Hsp _ _ _ E2 H2) as [[-> Hq2]|[Hne2 (y & Ey & Hy)]]; try done.
    by eapply P4.
  - intros k' ls q q' x x' El Hq Hq' Hx Hx'.
    destruct (Hsp _ _ _ El Hq) as [[-> ->]|[Hne (y & Ey & Hy)]], (Hsp _ _ _ El Hq') as [[Hk2 ->]|[Hne' (z & Ez & Hz)]].
    + congruence.
    + rewrite lookup_insert_eq in Hx. rewrite lookup_insert_ne in Hx' by done. injection Hx as <-. symmetry. by eapply Happ.
    + rewrite lookup_insert_eq in Hx'. rewrite lookup_insert_ne in Hx by done. injection Hx' as <-. subst k'. by eapply Happ.
    + rewrite lookup_insert_ne in Hx, Hx' by done. assert (y = z) as -> by congruence. exact (P5 k' z q q' x x' Ez Hy Hz Hx Hx').
Qed.

(** The listeners of a port belong to application [a]. *)
Definition port_of_app (s : ctl) (a port : Z) : Prop :=
  forall ls lp l, k_listeners s !! mk_listen_tuple (e_local_ip e) port = Some ls -> lp ∈ ls ->
    k_lheap s !! lp = Some l -> (tl_tctx l).1 = a.

Lemma wf_listen s s' t th l :
  wf pool s -> tctx_ok s t -> k_threads s !! t = Some th -> port_of_app s t.1 (tl_listen_port l) ->
  tl_tctx l = t -> tl_pending_conn l = None -> tl_backlog l = [] ->
  s' = s <| k_lheap ::= <[k_next s := l]> |> <| k_next := k_next s + 1 |>
         <| k_threads ::= <[t := th <| th_listeners ::= fun x => x ++ [k_next s] |>]> |>
         <| k_listeners ::= fun m => let k := mk_listen_tuple (e_local_ip e) (tl_listen_port l) in
              <[k := default [] (m !! k) ++ [k_next s]]> m |> ->
  wf pool s'.
Proof.
  intros Hw Ht Eth Hport Htl Hpend Hb Hs'. pose proof (next_fresh_lst s Hw) as Hn.
  assert (Hle : env_le s s').
  { subst s'. split; ctl_simpl; [lia|by eauto|done| |].
    - intros t' th' Et. destruct (decide (t = t')) as [<-|Hne]; [rewrite lookup_insert_eq|rewrite lookup_insert_ne by done; eauto].
      eexists. split; [done|]. cbn. congruence.
    - intros lp x Hx. rewrite lookup_insert_ne by congruence. eauto. }
  split.
  - subst s'. ctl_simpl. apply tables_lst; [by rewrite Hn|apply Hw].
  - subst s'. apply Hw.
  - intros p c Ec. eapply conn_ok_env; [exact Hle|]. apply Hw. by subst s'.
  - intros lp x Hx. destruct (decide (k_next s = lp)) as [<-|Hne].
    + assert (x = l) as -> by (subst s'; revert Hx; ctl_simpl; rewrite lookup_insert_eq; congruence).
      split; [subst s'; ctl_simpl; lia|rewrite Htl; by eapply tctx_ok_env|by rewrite Hb].
    + eapply lst_ok_env; [exact Hle|]. apply Hw. subst s'. revert Hx. ctl_simpl. by rewrite lookup_insert_ne.
  - subst s'. ctl_simpl. cbv zeta. apply ports_new; [apply Hw|done|done|]. rewrite Htl. exact Hport.
  - intros t' th' lp Et Hlp. subst s'. revert Et. ctl_simpl.
    assert (Hold : forall t1 th1, k_threads s !! t1 = Some th1 -> lp ∈ th_listeners th1 ->
      exists x, <[k_next s := l]> (k_lheap s) !! lp = Some x /\ (tl_tctx x).1 = t1.1).
    { intros t1 th1 E1 H1. destruct (wf_threads _ _ Hw t1 th1 lp E1 H1) as (x & Ex & Hx).
      rewrite lookup_insert_ne by congruence. eauto. }
    destruct (decide (t = t')) as [<-|Hne]; [rewrite lookup_insert_eq|rewrite lookup_insert_ne by done; intros; by eapply Hold].
    intros [= <-]. cbn in Hlp. apply elem_of_app in Hlp as [Hlp| ->%list_elem_of_singleton]; [by eapply Hold|].
    exists l. rewrite lookup_insert_eq. split; congruence.
  - subst s'. apply Hw.
Qed.

Lemma wp_listen_cmd t opaque opaque_listener backlog s :
  wf pool s -> tctx_ok s t ->
  (forall p c, k_heap s !! p = Some c -> k_conns s !! conn_key c = Some p -> tn_opaque_connection c = opaque ->
     port_of_app s t.1 (tn_local_port c)) ->
  wp (tcp_listen e t opaque opaque_listener backlog) s (fun _ s' => wf pool s').
Proof.
  intros Hw Ht Hport. unfold tcp_listen. apply wp_bind, (wp_find (pool := pool)); [done| |by intros; apply wp_ret].
  intros p c Ec HC Ho. apply wp_bind, (wp_rd_conn p c); [done|]. destruct (decide _); [by apply wp_ret|].
  pose proof Ht as [_ (ap & th & Ea & Eth & _)].
  apply wp_bind. apply wp_bind, wp_get, wp_bind, wp_modify, wp_ret.
  apply wp_bind, (wp_rd_thread t th); [done|]. apply wp_bind, wp_modify. apply wp_bind, wp_modify.
  apply wp_bind, wp_emit. intros s' F. apply wp_ret. eapply wf_frame; [exact F|].
  eapply (wf_listen s _ t th (mk_tcp_listener t opaque_listener backlog [] (tn_local_port c) None p (tn_fd c)));
    [done|done|exact Eth|by eapply Hport|done|done|done|reflexivity].
Qed.

Lemma wp_find_listener l port opaque s (Q : option Z -> ctl -> Prop) :
  (forall lp, lp ∈ l -> is_Some (k_lheap s !! lp)) ->
  (forall lp x, lp ∈ l -> k_lheap s !! lp = Some x -> Q (Some lp) s) -> Q None s ->
  wp (find_listener l port opaque) s Q.
Proof.
  intros Hl HS HN. induction l as [|lp l IH]; cbn [find_listener]; [by apply wp_ret|].
  destruct (Hl lp) as [x Ex]; [constructor|]. apply wp_bind, (wp_rd_lst lp x); [done|].
  destruct (_ && _); [apply wp_ret; by eapply HS; [constructor|]|].
  apply IH; [intros; apply Hl|intros; eapply HS]; try done; by constructor.
Qed.

(** A listener gets a connection that waits. *)
Lemma wf_accept s s' t lp l opaque newfd :
  wf pool s -> tctx_ok s t -> k_lheap s !! lp = Some l -> (tl_tctx l).1 = t.1 -> tl_pending_conn l = None ->
  s' = s <| k_heap ::= <[k_next s := new_connection]> |> <| k_next := k_next s + 1 |>
         <| k_heap ::= <[k_next s := accept_conn e t lp opaque newfd (tl_listen_port l) new_connection]> |>
         <| k_lheap ::= <[lp := l <| tl_pending_conn := Some (k_next s) |>]> |> ->
  wf pool s'.
Proof.
  intros Hw Ht El Happ Hpend Hs'. set (c := accept_conn _ _ _ _ _ _ _) in *. set (l' := l <| tl_pending_conn := _ |>) in *.
  pose proof (next_fresh s Hw) as Hn. assert (Hslow : ~ fast c) by (intros [_ [Hx|Hx]]; done).
  assert (Hle : env_le s s').
  { subst s'. split; ctl_simpl; [lia|by eauto..|].
    intros q x Hx. destruct (decide (lp = q)) as [<-|Hne]; [rewrite lookup_insert_eq|rewrite lookup_insert_ne by done; eauto].
    exists l'. split_and!; [done|..]; cbn; congruence. }
  assert (El' : k_lheap s' !! lp = Some l') by (subst s'; apply lookup_insert_eq).
  eapply wf_build; [exact Hw|exact Hle|..].
  - subst s'. ctl_simpl. rewrite insert_insert_eq. eapply tables_new_pending; try done. apply Hw.
  - subst s'. ctl_simpl. rewrite insert_insert_eq. apply ix_slow; [congruence|done|apply Hw].
  - intros p x Hx. destruct (decide (k_next s = p)) as [<-|Hne].
    + right. assert (x = c) as -> by (subst s'; revert Hx; ctl_simpl; rewrite lookup_insert_eq; congruence).
      pose proof (eg_tx (e := e)). split; [subst s'; ctl_simpl; lia|done|by eapply tctx_ok_env| |..].
      * intros _. split; [by left|]. split_and!; [cbn; lia|cbn; unfold in32; lia|cbn; unfold in32; lia|done].
      * intros q [= <-]. exists l'. by split.
      * done.
    + left. subst s'. revert Hx. ctl_simpl. by rewrite !lookup_insert_ne.
  - intros q x Hx. destruct (decide (lp = q)) as [<-|Hne].
    + right. assert (x = l') as -> by congruence.
      destruct (lst_ok_env s s' lp l Hle (wf_lst _ _ Hw lp l El)) as [L1 L2 L3]. by split.
    + left. subst s'. revert Hx. ctl_simpl. by rewrite lookup_insert_ne.
  - subst s'. ctl_simpl. eapply ports_lst; [exact El|done|done|apply Hw].
  - by subst s'.
  - subst s'. apply Hw.
Qed.

Lemma wp_accept_cmd t opaque_listener opaque newfd port s :
  wf pool s -> tctx_ok s t -> heads_fresh (e := e) s ->
  wp (tcp_accept e t opaque_listener opaque newfd port) s (fun _ s' => wf pool s').
Proof.
  intros Hw Ht Hf. pose proof Ht as [_ (ap & th & Ea & Eth & _)]. unfold tcp_accept.
  apply wp_bind, (wp_rd_thread t th); [done|]. pose proof (wf_threads _ _ Hw t th) as Hth.
  apply wp_bind, wp_find_listener; [|intros lp l Hin El|by apply wp_ret].
  { intros lp Hlp. destruct (Hth lp Eth Hlp) as (x & Ex & _). by exists x. }
  destruct (Hth lp Eth Hin) as (x & Ex & Happ). assert (x = l) as -> by congruence.
  apply wp_bind, (wp_rd_lst lp l); [done|]. destruct (tl_pending_conn l) eqn:Ep; [by apply wp_ret|].
  apply wp_bind, wp_get. destruct (_ <? _); [by apply wp_ret|]. apply wp_bind, wp_new_conn.
  apply wp_bind, (wp_upd_conn (k_next s) new_connection); [apply lookup_insert_eq|].
  apply wp_bind, (wp_upd_lst lp l); [done|]. set (s' := _ <| k_lheap ::= _ |>).
  assert (Hw' : wf pool s') by (by eapply (wf_accept s s' t lp l)).
  assert (El' : k_lheap s' !! lp = Some (l <| tl_pending_conn := Some (k_next s) |>)) by apply lookup_insert_eq.
  assert (EC : k_conns s' = k_conns s) by done. clearbody s'.
  apply wp_bind, wp_when; intros Hb; [|by apply wp_ret].
  eapply wp_mono; [eapply (wp_listener_accept (pool := pool) lp); [done|exact El'| |]|done].
  - intros _. cbn. by destruct (tl_backlog l).
  - intros x rest Hx. rewrite EC. exact (Hf lp l x rest El Hx).
Qed.

Lemma wp_close_cmd t opaque fd s :
  wf pool s ->
  (forall p c, k_heap s !! p = Some c -> k_conns s !! conn_key c = Some p -> tn_opaque_connection c = opaque ->
     p ∉ k_handshake s) ->
  wp (tcp_close e t opaque fd) s (fun _ s' => wf pool s').
Proof.
  intros Hw Hp. unfold tcp_close. apply wp_bind, (wp_find (pool := pool)); [done| |by intros; apply wp_ret].
  intros p c Ec HC Ho. apply wp_bind. eapply wp_mono; [by apply (wp_put (pool := pool) p c); [..|by eapply Hp]|].
  cbn beta. intros _ s' [Hw' _]. apply wp_bind, wp_emit. intros s2 F. apply wp_ret. by eapply wf_frame.
Qed.

End Commands.
