(* ===== verification/CtlExit.v ===== *)
(** Exit of an application ([free_app_resources] of
    [micro_kernel/control_plane.cc] with [free_tcp_resources] of
    [micro_kernel/tcp.cc]): its connections are closed, its listeners deleted,
    its ports returned, and nothing of it stays behind. *)
From stdpp Require Import gmap sorting.
From S2P Require Import Prelude Intf Headers Parse Csum TcpOpts Ports Cc TcpCtl CtlInv CtlSafe CtlEvents.
Local Open Scope Z_scope.
Local Open Scope ctl_scope.

(** The part of [free_app_resources] and [destroy_app] that concerns TCP; the
    sockets, queues and shared memory of the application are not part of the
    state.  [std::set] is traversed in ascending order. *)
Definition free_app_resources (e : ctl_env) (a : Z) : M unit :=
  let! ap := rd_app a in
  whenM (ap_proto ap =? IPPROTO_TCP) (free_tcp_resources e a) ;;
  let! ap := rd_app a in
  forM (merge_sort Z.le (elements (ap_ports ap))) ctl_free_port ;;
  modify (fun s => s <| k_apps ::= delete a |> <| k_threads ::= filter (fun x => x.1.1 <> a) |>).

Section Exit.
Context {e : ctl_env} {He : env_good e} {pool : gset Z}.

(** ** Connections *)

Definition app_of (s : ctl) (p a : Z) : Prop := exists c, k_heap s !! p = Some c /\ (tn_tctx c).1 = a.

Lemma wp_conns_of l a s :
  (forall k p, (k, p) ∈ l -> is_Some (k_heap s !! p)) -> NoDup l.*2 ->
  wp (conns_of l a) s (fun r s' => s' = s /\ NoDup r /\ forall p, p ∈ r <-> p ∈ l.*2 /\ app_of s p a).
Proof.
  induction l as [|[k p] l IH]; intros Hl Hnd; cbn [conns_of].
  { apply wp_ret. split; [done|]. split; [constructor|]. intros p. cbn. set_solver. }
  destruct (Hl k p) as [c Ec]; [constructor|]. apply wp_bind, (wp_rd_conn p c); [done|].
  cbn in Hnd. pose proof (NoDup_cons_1_1 _ _ Hnd) as Hp. apply NoDup_cons_1_2 in Hnd.
  apply wp_bind. eapply wp_mono; [apply IH; [|done]|].
  { intros k' p' Hin. apply (Hl k'). by constructor. }
  cbn beta. intros r s' (-> & Hr & Hiff). apply wp_ret. split; [done|].
  destruct (Z.eqb_spec (tn_tctx c).1 a) as [Ha|Ha].
  - split.
    + apply list.NoDup_cons; split; [|done]. rewrite Hiff. by intros [? _].
    + intros q. cbn. rewrite !elem_of_cons, Hiff. split; [|naive_solver].
      intros [->|[? ?]]; [|by split; [right|]]. split; [by left|]. by exists c.
  - split; [done|]. intros q. cbn. rewrite elem_of_cons, Hiff. split; [naive_solver|].
    intros [[->|?] Hx]; [|done]. destruct Hx as (x & Ex & Hx). congruence.
Qed.

(** The connections of other applications are untouched. *)
Definition kept (a : Z) (s s' : ctl) : Prop :=
  forall p c, k_heap s !! p = Some c -> (tn_tctx c).1 <> a -> k_heap s' !! p = Some c.

(** What a number of closed connections leaves. *)
Record closed_all (tp : list Z) (s s' : ctl) : Prop := {
  ca_conns : forall k p, k_conns s' !! k = Some p -> k_conns s !! k = Some p /\ p ∉ tp;
  ca_heap : forall p c, k_heap s' !! p = Some c -> k_heap s !! p = Some c;
  ca_keep : forall p c, k_heap s !! p = Some c -> p ∉ tp -> k_heap s' !! p = Some c;
  ca_hs : k_handshake s' = k_handshake s;
  ca_lheap : k_lheap s' = k_lheap s;
  ca_listeners : k_listeners s' = k_listeners s;
  ca_env : env_le s s'
}.

Lemma wp_put_closed tp s :
  wf pool s -> NoDup tp -> (forall p, p ∈ tp -> idle s p) ->
  wp (forM tp (tcp_conn_put e)) s (fun _ s' => wf pool s' /\ closed_all tp s s').
Proof.
  revert s. induction tp as [|p tp IH]; intros s Hw Hnd Hi; cbn [forM].
  { apply wp_ret. split; [done|]. split; try done; [|apply env_le_refl]. intros k p Hk. split; [done|]. apply not_elem_of_nil. }
  pose proof (NoDup_cons_1_1 _ _ Hnd) as Hp. apply NoDup_cons_1_2 in Hnd.
  destruct (idle_conn (pool := pool) s p Hw) as (c & Ec & HC & Hph); [apply Hi; constructor|].
  apply wp_bind. eapply wp_mono; [by apply (wp_put (pool := pool) p c)|]. cbn beta. intros _ s' [Hw' [C1 C2 C3 C4 C5 C6]].
  eapply wp_mono; [apply IH; [done..|]|].
  { intros q Hq. destruct (Hi q ltac:(by constructor)) as [[k Ek] Hnq].
    split; [|by rewrite C3]. exists k. rewrite C1, lookup_delete_ne; [done|]. intros <-. congruence. }
  cbn beta. intros _ s2 [Hw2 [D1 D2 D2' D3 D4 D5 D6]]. split; [done|]. split; try congruence.
  - intros k q Hq. destruct (D1 k q Hq) as [Hk Hn]. rewrite C1 in Hk. apply lookup_delete_Some in Hk as [Hne Hk].
    split; [done|]. rewrite elem_of_cons. intros [->|?]; [|done]. apply Hne.
    by eapply tables_reg_inj; [apply Hw|..].
  - intros q x Hq%D2. rewrite C2 in Hq. by apply lookup_delete_Some in Hq as [_ ?].
  - intros q x Hq Hn. rewrite elem_of_cons in Hn. apply D2'; [|naive_solver].
    rewrite C2, lookup_delete_ne; [done|naive_solver].
  - by eapply env_le_trans.
Qed.

(** [free_connections] leaves no registered connection of the application. *)
Lemma wp_free_connections a s :
  wf pool s -> (forall p, app_of s p a -> p ∉ k_handshake s) ->
  wp (free_connections e a) s (fun _ s' => wf pool s' /\ kept a s s' /\ env_le s s' /\
    forall k p, k_conns s' !! k = Some p -> ~ app_of s' p a).
Proof.
  intros Hw Hhs. unfold free_connections. apply wp_bind, wp_get, wp_bind.
  assert (Hnd : NoDup (e_iter e (k_conns s)).*2).
  { apply NoDup_fmap_2_strong.
    - intros [k p] [k' p'] Hk%iter_lookup Hk'%iter_lookup [= <-]. f_equal. by eapply tables_reg_inj; [apply Hw|..].
    - rewrite (eg_iter (k_conns s)). apply NoDup_map_to_list. }
  eapply wp_mono; [apply wp_conns_of; [|exact Hnd]|].
  { intros k p Hk%iter_lookup. destruct (tb_reg _ _ _ _ (wf_tables _ _ Hw) k p Hk) as (c & Ec & _). by exists c. }
  cbn beta. intros r s' (-> & Hr & Hiff).
  assert (Hin : forall p, p ∈ (e_iter e (k_conns s)).*2 <-> exists k, k_conns s !! k = Some p).
  { intros p. rewrite list_elem_of_fmap. split.
    - intros ([k q] & -> & Hk%iter_lookup). by exists k.
    - intros [k Hk]. exists (k, p). by rewrite iter_lookup. }
  eapply wp_mono; [apply wp_put_closed; [done|done|]|].
  { intros p [Hp Ha]%Hiff. split; [by apply Hin|by apply Hhs]. }
  cbn beta. intros _ s' [Hw' [D1 D2 D2' D3 D4 D5 D6]]. split; [done|]. split.
  - intros p c Ec Ha. apply D2'; [done|]. intros [_ (x & Ex & Hx)]%Hiff. congruence.
  - split; [done|]. intros k p Hk (c & Ec & Ha). destruct (D1 k p Hk) as [Hk' Hn]. apply Hn, Hiff.
    split; [apply Hin; by exists k|]. exists c. split; [by apply D2|done].
Qed.

(** ** Listeners *)

(** The invariant while the listeners of application [a] are deleted: the lists
    of its threads may already point to nothing. *)
Record core (a : Z) (s : ctl) : Prop := {
  cr_tables : tables (k_conns s) (k_heap s) (k_lheap s) (k_handshake s);
  cr_index : indexes (k_heap s) (k_ebpf s) (k_cc_avail s) (k_cc_map s) pool;
  cr_conn : forall p c, k_heap s !! p = Some c -> conn_ok s p c;
  cr_lst : forall lp l, k_lheap s !! lp = Some l -> lst_ok s lp l;
  cr_threads : forall t th lp, t.1 <> a -> k_threads s !! t = Some th -> lp ∈ th_listeners th ->
    exists x, k_lheap s !! lp = Some x /\ (tl_tctx x).1 = t.1;
  cr_pool : pool_ok (k_pool s);
  cr_gone : forall k p, k_conns s !! k = Some p -> ~ app_of s p a
}.

(** A listener and the connection that waits for it are deleted. *)
Record drops (lp : Z) (l : tcp_listener) (s s' : ctl) : Prop := {
  dr_heap : k_heap s' = match tl_pending_conn l with Some p => delete p (k_heap s) | None => k_heap s end;
  dr_lheap : k_lheap s' = delete lp (k_lheap s);
  dr_conns : k_conns s' = k_conns s;
  dr_hs : k_handshake s' = k_handshake s;
  dr_listeners : k_listeners s' = k_listeners s;
  dr_threads : k_threads s' = k_threads s;
  dr_apps : k_apps s' = k_apps s;
  dr_queues : k_queues s' = k_queues s;
  dr_next : k_next s' = k_next s;
  dr_pool : k_pool s' = k_pool s;
  dr_ebpf : k_ebpf s' = k_ebpf s;
  dr_avail : k_cc_avail s' = k_cc_avail s;
  dr_map : k_cc_map s' = k_cc_map s
}.

Lemma core_drop a lp l s s' :
  core a s -> k_lheap s !! lp = Some l -> (tl_tctx l).1 = a -> drops lp l s s' -> core a s'.
Proof.
  intros [K1 K2 K3 K4 K5 K6 K7] El Ha [D1 D2 D3 D4 D5 D6 D7 D8 D9 D10 D11 D12 D13].
  assert (Hsub : forall p c, k_heap s' !! p = Some c -> k_heap s !! p = Some c /\ tl_pending_conn l <> Some p).
  { rewrite D1. intros p c. destruct (tl_pending_conn l) as [q|]; [|done].
    intros [Hn Hp]%lookup_delete_Some. split; [done|congruence]. }
  assert (Htc : forall t, tctx_ok s t -> tctx_ok s' t).
  { intros t. unfold tctx_ok, app_ok, queue_ok. by rewrite D6, D7, D8. }
  split; rewrite ?D2, ?D3, ?D4, ?D6, ?D10, ?D11, ?D12, ?D13; try done.
  - rewrite D1. by apply tables_delete_lst.
  - rewrite D1. destruct (tl_pending_conn l) as [p|] eqn:Ep; [|done]. apply ix_delete_slow; [|done].
    intros c Ec. destruct (tb_pend _ _ _ _ K1 lp l p El Ep) as (x & Ex & _ & Hs & _).
    intros [_ [Hx|Hx]]; congruence.
  - intros p c Hc. destruct (Hsub p c Hc) as [Ec Hne]. destruct (K3 p c Ec) as [C1 C2 C3 C4 C5 C6].
    split; rewrite ?D9; try done; [by apply Htc| |].
    + intros Hn. destruct (C4 Hn) as [Hq Hcc]. split; [|done]. unfold qid_ok, queue_ok. by rewrite D8.
    + intros lp' Hl. destruct (C5 lp' Hl) as (l' & El' & Hl'). exists l'. split; [|done]. rewrite D2.
      rewrite lookup_delete_ne; [done|]. intros <-. assert (l' = l) as -> by congruence.
      destruct (tb_own _ _ _ _ K1 p c Ec) as [(_ & _ & _ & _ & lp0 & l0 & H1 & H2 & H3)|[HC _]].
      * apply Hne. congruence.
      * apply (K7 _ _ HC). exists c. split; [done|congruence].
  - intros lp' x [Hn Hx]%lookup_delete_Some. destruct (K4 lp' x Hx) as [L1 L2 L3].
    split; [by rewrite D9|by apply Htc|]. unfold queue_ok. by rewrite D8.
  - intros t th lp' Ht Et Hlp. destruct (K5 t th lp' Ht Et Hlp) as (x & Ex & Hx). exists x. split; [|done].
    rewrite lookup_delete_ne; [done|]. intros <-. congruence.
  - intros k p Hk (c & Ec & Hc). apply (K7 k p Hk). exists c. split; [by apply Hsub|done].
Qed.

(** One listener of the application. *)
Lemma wp_drop a lp l s :
  core a s -> k_lheap s !! lp = Some l ->
  wp (match tl_pending_conn l with Some p => delete_conn p | None => ret tt end ;; delete_lst lp ;; ret true) s
    (fun b s' => b = true /\ drops lp l s s').
Proof.
  intros Hc El. apply wp_bind. destruct (tl_pending_conn l) as [p|] eqn:Ep.
  - destruct (tb_pend _ _ _ _ (cr_tables _ _ Hc) lp l p El Ep) as (c & Ec & _).
    apply (wp_delete_conn p c); [done|]. apply wp_bind, wp_bind, (wp_rd_lst lp l); [done|].
    apply wp_modify, wp_ret. split; [done|]. split; try done. by rewrite Ep.
  - apply wp_ret. apply wp_bind, wp_bind, (wp_rd_lst lp l); [done|].
    apply wp_modify, wp_ret. split; [done|]. split; try done. by rewrite Ep.
Qed.

(** The entry of a port: the whole list belongs to the application or none of
    it. *)
Lemma wp_free_list_other ls a s :
  (forall lp, lp ∈ ls -> exists l, k_lheap s !! lp = Some l /\ (tl_tctx l).1 <> a) ->
  wp (free_listener_list ls a) s (fun b s' => b = false /\ s' = s).
Proof.
  induction ls as [|lp ls IH]; intros Hl; cbn [free_listener_list]; [by apply wp_ret|].
  destruct (Hl lp) as (l & El & Ha); [constructor|]. apply wp_bind, (wp_rd_lst lp l); [done|].
  apply Z.eqb_neq in Ha. rewrite Ha. apply wp_bind, wp_ret, wp_bind. eapply wp_mono; [apply IH|].
  { intros lp' Hin. apply Hl. by constructor. }
  cbn beta. intros b s' [-> ->]. by apply wp_ret.
Qed.

Record dropped (ls : list Z) (s s' : ctl) : Prop := {
  dd_lheap : k_lheap s' = foldr delete (k_lheap s) ls;
  dd_listeners : k_listeners s' = k_listeners s;
  dd_apps : k_apps s' = k_apps s
}.

Lemma drops_kept a lp l s s' : core a s -> k_lheap s !! lp = Some l -> (tl_tctx l).1 = a -> drops lp l s s' -> kept a s s'.
Proof.
  intros Hc El Ha D p c Ec Hp. rewrite (dr_heap _ _ _ _ D). destruct (tl_pending_conn l) as [q|] eqn:Eq; [|done].
  rewrite lookup_delete_ne; [done|]. intros ->.
  destruct (tb_pend _ _ _ _ (cr_tables _ _ Hc) lp l p El Eq) as (x & Ex & _ & _ & Hl).
  assert (x = c) as -> by congruence. destruct (co_listener _ _ _ (cr_conn _ _ Hc p c Ec) lp Hl) as (l' & El' & Hl').
  congruence.
Qed.

Lemma foldr_delete_comm (ls : list Z) lp (m : gmap Z tcp_listener) :
  foldr delete (delete lp m) ls = delete lp (foldr delete m ls).
Proof. induction ls as [|x ls IH]; cbn; [done|]. by rewrite IH, delete_delete. Qed.

Lemma wp_free_list_own ls a s :
  core a s -> NoDup ls -> (forall lp, lp ∈ ls -> exists l, k_lheap s !! lp = Some l /\ (tl_tctx l).1 = a) ->
  wp (free_listener_list ls a) s
    (fun b s' => (ls <> [] -> b = true) /\ core a s' /\ dropped ls s s' /\ kept a s s').
Proof.
  revert s. induction ls as [|lp ls IH]; intros s Hc Hnd Hl; cbn [free_listener_list].
  { apply wp_ret. split_and!; [done|done|done|]. by intros p c. }
  pose proof (NoDup_cons_1_1 _ _ Hnd) as Hp. apply NoDup_cons_1_2 in Hnd.
  destruct (Hl lp) as (l & El & Ha); [constructor|]. apply wp_bind, (wp_rd_lst lp l); [done|].
  rewrite Ha, Z.eqb_refl. apply wp_bind. eapply wp_mono; [by apply (wp_drop a lp l)|].
  cbn beta. intros b s1 [-> D]. apply wp_bind. pose proof (core_drop _ _ _ _ _ Hc El Ha D) as Hc1.
  eapply wp_mono; [apply IH; [done..|]|].
  { intros lp' Hin. destruct (Hl lp') as (l' & El' & Ha'); [by constructor|]. exists l'.
    rewrite (dr_lheap _ _ _ _ D), lookup_delete_ne; [done|]. by intros ->. }
  cbn beta. intros b s2 (_ & Hc2 & [E1 E2 E3] & Hk). apply wp_ret. split; [done|]. split; [done|]. split.
  - split; [|rewrite E2; apply D|rewrite E3; apply D].
    rewrite E1, (dr_lheap _ _ _ _ D). apply foldr_delete_comm.
  - intros p c Ec Hc'. apply Hk; [|done]. exact (drops_kept a lp l s s1 Hc El Ha D p c Ec Hc').
Qed.

Lemma ports_drop L LH k ls :
  ports_ok L LH -> L !! k = Some ls -> ports_ok (delete k L) (foldr delete LH ls).
Proof.
  intros [P1 P2 P3 P4 P5] Ek.
  assert (Hin : forall lp l, foldr delete LH ls !! lp = Some l <-> LH !! lp = Some l /\ lp ∉ ls).
  { intros lp l. destruct (decide (lp ∈ ls)) as [Hl|Hl].
    - rewrite lookup_foldr_delete by done. split; [done|]. by intros [_ ?].
    - rewrite lookup_foldr_delete_not_elem_of by done. naive_solver. }
  split.
  - intros k' ls' lp [Hk' El]%lookup_delete_Some Hlp. destruct (P1 k' ls' lp El Hlp) as (l & Ell & Hl).
    exists l. split; [|done]. apply Hin. split; [done|]. intros Hls. apply Hk'. by eapply P4.
  - intros lp l [Hl Hn]%Hin. destruct (P2 lp l Hl) as (k' & ls' & El & Hlp). exists k', ls'. split; [|done].
    apply lookup_delete_Some. split; [|done]. intros <-. congruence.
  - intros k' ls' [_ El]%lookup_delete_Some. by eapply P3.
  - intros k1 k2 l1 l2 lp [_ E1]%lookup_delete_Some [_ E2]%lookup_delete_Some. by eapply P4.
  - intros k' ls' lp lp' l l' [_ El]%lookup_delete_Some H1 H2 [E1 _]%Hin [E2 _]%Hin.
    exact (P5 k' ls' lp lp' l l' El H1 H2 E1 E2).
Qed.

(** The state of the loop over the table, with the entries still to come. *)
Record sweep (a : Z) (rest : list (listen_tuple * list Z)) (s : ctl) : Prop := {
  sw_core : core a s;
  sw_ports : ports_ok (k_listeners s) (k_lheap s);
  sw_rest : forall k ls, (k, ls) ∈ rest -> k_listeners s !! k = Some ls;
  sw_nodup : NoDup rest.*1;
  sw_left : forall lp l, k_lheap s !! lp = Some l -> (tl_tctx l).1 = a ->
    exists k ls, (k, ls) ∈ rest /\ lp ∈ ls
}.

Lemma sweep_skip a k ls rest s :
  sweep a ((k, ls) :: rest) s ->
  (forall lp l, lp ∈ ls -> k_lheap s !! lp = Some l -> (tl_tctx l).1 <> a) -> sweep a rest s.
Proof.
  intros [S1 S2 S3 S4 S5] Hn. apply NoDup_cons_1_2 in S4. split; try done.
  - intros k' ls' Hin. apply S3. by constructor.
  - intros lp l El Ha. destruct (S5 lp l El Ha) as (k' & ls' & Hin & Hlp).
    apply elem_of_cons in Hin as [[= -> ->]|Hin]; [|eauto]. by destruct (Hn lp l).
Qed.

Lemma sweep_drop a k ls rest s s' :
  sweep a ((k, ls) :: rest) s -> core a s' -> k_lheap s' = foldr delete (k_lheap s) ls ->
  k_listeners s' = delete k (k_listeners s) -> sweep a rest s'.
Proof.
  intros [S1 S2 S3 S4 S5] Hc E1 E2. cbn in S4. pose proof (NoDup_cons_1_1 _ _ S4) as Hk. apply NoDup_cons_1_2 in S4.
  split; [done| | |done|].
  - rewrite E1, E2. apply ports_drop; [done|]. apply S3. constructor.
  - intros k' ls' Hin. rewrite E2, lookup_delete_ne; [apply S3; by constructor|].
    intros <-. apply Hk. apply list_elem_of_fmap. by exists (k, ls').
  - rewrite E1. intros lp l El Ha. destruct (decide (lp ∈ ls)) as [Hl|Hl]; [by rewrite lookup_foldr_delete in El|].
    rewrite lookup_foldr_delete_not_elem_of in El by done.
    destruct (S5 lp l El Ha) as (k' & ls' & Hin & Hlp). apply elem_of_cons in Hin as [[= -> ->]|Hin]; [done|eauto].
Qed.

Lemma wp_sweep a rest s :
  sweep a rest s ->
  wp (forM rest (fun '(k, l) =>
        let! del := free_listener_list l a in
        whenM del (modify (fun s => s <| k_listeners ::= delete k |>)))) s
    (fun _ s' => sweep a [] s' /\ k_apps s' = k_apps s /\ kept a s s').
Proof.
  revert s. induction rest as [|[k ls] rest IH]; intros s Hs; cbn [forM].
  { apply wp_ret. split_and!; [done|done|]. by intros p c. }
  pose proof Hs as [Hc Hpo Hr _ _]. pose proof (Hr k ls ltac:(constructor)) as Ek.
  assert (Hcase : (forall lp, lp ∈ ls -> exists l, k_lheap s !! lp = Some l /\ (tl_tctx l).1 <> a) \/
    (ls <> [] /\ forall lp, lp ∈ ls -> exists l, k_lheap s !! lp = Some l /\ (tl_tctx l).1 = a)).
  { destruct ls as [|lp0 ls']; [left; intros lp Hx; by apply not_elem_of_nil in Hx|].
    destruct (po_live _ _ Hpo k _ lp0 Ek ltac:(constructor)) as (l0 & El0 & _).
    assert (Hall : forall lp, lp ∈ lp0 :: ls' -> exists l, k_lheap s !! lp = Some l /\ (tl_tctx l).1 = (tl_tctx l0).1).
    { intros lp Hlp. destruct (po_live _ _ Hpo k _ lp Ek Hlp) as (l & El & _). exists l. split; [done|].
      eapply (po_app _ _ Hpo k); [exact Ek|exact Hlp|constructor|done|done]. }
    destruct (decide ((tl_tctx l0).1 = a)) as [<-|Hne]; [by right|left].
    intros lp Hlp. destruct (Hall lp Hlp) as (l & El & Hl). exists l. split; [done|congruence]. }
  apply wp_bind, wp_bind. destruct Hcase as [Hn|[Hne Hall]].
  - eapply wp_mono; [by apply wp_free_list_other|]. cbn beta. intros b s' [-> ->]. cbn [whenM]. apply wp_ret.
    apply IH. apply (sweep_skip _ _ _ _ _ Hs). intros lp l Hlp El. destruct (Hn lp Hlp) as (l' & El' & Ha). congruence.
  - eapply wp_mono; [apply wp_free_list_own; [done|by eapply po_nodup|done]|]. cbn beta.
    intros b s1 (Hb & Hc1 & [E1 E2 E3] & Hk). rewrite (Hb Hne). cbn [whenM]. apply wp_modify.
    eapply wp_mono; [apply IH|cbn beta; intros _ s2 (Hs2 & E4 & Hk2); split_and!; [done|by rewrite E4|]].
    2: { intros p c Ec Hp. apply Hk2; [by apply Hk|done]. }
    eapply sweep_drop; [exact Hs| |exact E1|ctl_simpl; by rewrite E2].
    destruct Hc1 as [K1 K2 K3 K4 K5 K6 K7].
    assert (Hle : env_le s1 (s1 <| k_listeners ::= delete k |>)) by (split; ctl_simpl; eauto).
    split; try done; [intros p c Ec; eapply conn_ok_env; eauto|intros lp l El; eapply lst_ok_env; eauto].
Qed.

(** ** The end *)

Lemma core_wf_remove a s s' :
  sweep a [] s ->
  s' = s <| k_apps ::= delete a |> <| k_threads ::= filter (fun x => x.1.1 <> a) |> ->
  wf pool s' /\ (forall p, ~ app_of s' p a) /\ (forall lp l, k_lheap s' !! lp = Some l -> (tl_tctx l).1 <> a).
Proof.
  intros [[K1 K2 K3 K4 K5 K6 K7] S2 _ _ S5] Hs'.
  assert (Hl : forall lp l, k_lheap s !! lp = Some l -> (tl_tctx l).1 <> a).
  { intros lp l El Ha. destruct (S5 lp l El Ha) as (k & ls & Hin & _). by apply not_elem_of_nil in Hin. }
  assert (Hc : forall p c, k_heap s !! p = Some c -> (tn_tctx c).1 <> a).
  { intros p c Ec Ha. destruct (tb_own _ _ _ _ K1 p c Ec) as [(_ & _ & _ & _ & lp & l & H1 & H2 & _)|[HC _]].
    - destruct (co_listener _ _ _ (K3 p c Ec) lp H1) as (l' & El' & Hl'). apply (Hl lp l H2). congruence.
    - apply (K7 _ _ HC). by exists c. }
  assert (Htc : forall t, t.1 <> a -> tctx_ok s t -> tctx_ok s' t).
  { intros t Ht [(ap & Ea & Hap) (ap' & th & Ea' & Et & Hlen)]. subst s'. split.
    - exists ap. ctl_simpl. by rewrite lookup_delete_ne.
    - exists ap', th. ctl_simpl. split_and!; [by rewrite lookup_delete_ne| |done].
      by apply map_lookup_filter_Some. }
  split; [|split].
  - split.
    + by subst s'.
    + by subst s'.
    + intros p c Hp. assert (Ec : k_heap s !! p = Some c) by (by subst s'). destruct (K3 p c Ec) as [C1 C2 C3 C4 C5 C6].
      pose proof (Hc p c Ec). split; [by subst s'|done|by apply Htc|by subst s'|by subst s'|done].
    + intros lp l Hlp. assert (El : k_lheap s !! lp = Some l) by (by subst s'). destruct (K4 lp l El) as [L1 L2 L3].
      pose proof (Hl lp l El). split; [by subst s'|by apply Htc|by subst s'].
    + by subst s'.
    + intros t th lp Et Hlp. subst s'. revert Et. ctl_simpl. intros [Et Ht]%map_lookup_filter_Some. by eapply K5.
    + by subst s'.
  - intros p (c & Ec & Ha). apply (Hc p c); [by subst s'|done].
  - intros lp l El. apply (Hl lp l). by subst s'.
Qed.

Lemma wp_free_ports l s : wp (forM l ctl_free_port) s (fun _ s' => frame s s' /\ k_apps s' = k_apps s).
Proof.
  revert s. induction l as [|p l IH]; intros s; cbn [forM]; [apply wp_ret; split; [apply frame_refl|done]|].
  apply wp_bind, wp_modify. eapply wp_mono; [apply IH|]. cbn beta. intros _ s' [F E]. split; [|done].
  eapply frame_trans; [|exact F]. split; ctl_simpl; try done; eauto. apply pool_ok_free.
Qed.

Lemma sweep_frame a s s' : sweep a [] s -> frame s s' -> sweep a [] s'.
Proof.
  intros [[K1 K2 K3 K4 K5 K6 K7] S2 _ _ S5] F. pose proof (frame_env _ _ F) as Hle.
  pose proof (ix_frame _ _ _ F K2) as K2'. destruct F as [X1 X2 X3 X4 X5 X6 _ _ _ _ _ _ X13].
  split; [| | |constructor|].
  - split; rewrite ?X1, ?X2, ?X4, ?X5, ?X6; try done.
    + by rewrite <- X2.
    + intros p c Ec. eapply conn_ok_env; eauto.
    + intros lp l El. eapply lst_ok_env; eauto.
    + by apply X13.
    + intros k p Hk (c & Ec & Hc). apply (K7 k p Hk). exists c. by rewrite <- X2.
  - by rewrite X3, X4.
  - intros k ls Hx. by apply not_elem_of_nil in Hx.
  - rewrite X4. exact S5.
Qed.

(** What an exit leaves: nothing of the application, and everything else. *)
Record exited (a : Z) (s s' : ctl) : Prop := {
  ex_wf : wf pool s';
  ex_conns : forall p, ~ app_of s' p a;
  ex_listeners : forall lp l, k_lheap s' !! lp = Some l -> (tl_tctx l).1 <> a;
  ex_kept : kept a s s'
}.

Lemma wp_free_tcp a s :
  wf pool s -> (forall p, app_of s p a -> p ∉ k_handshake s) ->
  wp (free_tcp_resources e a) s (fun _ s' => sweep a [] s' /\ kept a s s' /\ (is_Some (k_apps s !! a) -> is_Some (k_apps s' !! a))).
Proof.
  intros Hw Hhs.
  unfold free_tcp_resources. apply wp_bind. eapply wp_mono; [by apply wp_free_connections|].
  cbn beta. intros _ s1 (Hw1 & Hk1 & Hle1 & Hg1). unfold free_listeners. apply wp_bind, wp_get.
  eapply wp_mono; [apply wp_sweep|].
  - split.
    + split; try apply Hw1; [|done]. intros t th lp _. apply (wf_threads _ _ Hw1).
    + apply Hw1.
    + intros k ls. rewrite (eg_iter_listeners (k_listeners s1)). apply elem_of_map_to_list.
    + rewrite (eg_iter_listeners (k_listeners s1)). apply NoDup_fst_map_to_list.
    + intros lp l El _. destruct (po_listed _ _ (wf_ports _ _ Hw1) lp l El) as (k & ls & Ek & Hin).
      exists k, ls. split; [|done]. rewrite (eg_iter_listeners (k_listeners s1)). by apply elem_of_map_to_list.
  - cbn beta. intros _ s2 (Hs2 & E2 & Hk2). split; [done|]. split.
    + intros p c Ec Hp. apply Hk2; [by apply Hk1|done].
    + intros [ap Ea]. rewrite E2. destruct (el_apps _ _ Hle1 a ap Ea) as (ap' & Ea' & _). by exists ap'.
Qed.

Lemma wp_exit a ap s :
  wf pool s -> k_apps s !! a = Some ap -> ap_proto ap = IPPROTO_TCP ->
  (forall p, app_of s p a -> p ∉ k_handshake s) ->
  wp (free_app_resources e a) s (fun _ s' => exited a s s').
Proof.
  intros Hw Ea Hpr Hhs. unfold free_app_resources. apply wp_bind, (wp_rd_app a ap); [done|].
  rewrite Hpr. cbn [Z.eqb IPPROTO_TCP Pos.eqb whenM]. apply wp_bind. eapply wp_mono; [by apply wp_free_tcp|].
  cbn beta. intros _ s1 (Hs1 & Hk1 & Happ). destruct Happ as [ap1 Ea1]; [by exists ap|].
  apply wp_bind, (wp_rd_app a ap1); [done|]. apply wp_bind. eapply wp_mono; [apply wp_free_ports|].
  cbn beta. intros _ s2 [F2 _]. apply wp_modify.
  destruct (core_wf_remove a s2 _ (sweep_frame _ _ _ Hs1 F2) eq_refl) as (Hw' & Hc & Hl). split; try done.
  intros p c Ec Hp. ctl_simpl. rewrite (fr_heap _ _ F2). by apply Hk1.
Qed.

End Exit.
