(* ===== verification/CtlRuns.v ===== *)
(** Runs of the connection management on a concrete host: a client and a
    server application on one NIC, and what the handshake code does with a
    repeated SYN, a close during a retransmission, a bound client and a SYN
    that carries data. *)
From stdpp Require Import gmap.
From S2P Require Import Prelude Intf Headers Parse Csum TcpOpts Ports Cc TcpCtl.
Local Open Scope Z_scope.
Local Open Scope ctl_scope.

(** A host with address 192.168.6.[n] and one cycle per microsecond. *)
Definition host (n : Z) : ctl_env := mk_ctl_env (0xc0a80600 + n) 524288 524288 (fun x => x) (fun x => x)
  (fun _ _ => Some 7) map_to_list map_to_list 0x1000 (0, 0).

(** One TCP application with one thread on queue 0; four ports and four
    congestion-control entries keep the run small. *)
Definition ports_ex : port_pool :=
  mk_port_pool [1000; 1001; 1002; 1003] (list_to_map (map (fun p => (p, true)) [1000; 1001; 1002; 1003])).

Definition cc_entry : bpf_cc := mk_bpf_cc 0 0 0 0 0 0 0 0 0.

Definition boot : ctl := mk_ctl ∅ ∅ ∅ ∅ [] ports_ex ∅ ∅
  {[ 1 := mk_app_ctx IPPROTO_TCP ∅ [] [0] 64 ]} {[ (1, 0) := mk_thread_ctx [5] [] ]}
  [0; 1; 2; 3] (list_to_map (map (fun i => (i, cc_entry)) [0; 1; 2; 3])) ∅ {[ 0 := 2048 ]} 100 [].

Definition run {A} (m : M A) (s : ctl) : option ctl := snd <$> m s.

(** What an operation added to the output. *)
Definition sent {A} (m : M A) (s : ctl) : option (list ctl_out) :=
  s' ← run m s; Some (drop (length (k_out s)) (k_out s')).

Definition thr : Z * Z := (1, 0).

(** The server: bind to port 1000, listen, accept. *)
Definition server_up : option ctl :=
  run (process_tcp_cmd (host 2) thr (APPOUT_TCP_BIND 0xaaaa 3 false 0 1000) ;;
       process_tcp_cmd (host 2) thr (APPOUT_TCP_LISTEN 0xaaaa 0xbbbb 3 8) ;;
       process_tcp_cmd (host 2) thr (APPOUT_TCP_ACCEPT 0xbbbb 0xcccc 3 4 1000)) boot.

(** The client: connect to it. *)
Definition client_up : option ctl :=
  run (process_tcp_cmd (host 1) thr (APPOUT_TCP_OPEN 0xdddd 3 0xc0a80602 1000)) boot.

Definition the_packets (l : list ctl_out) : list pkt_tcp :=
  omap (fun o => match o with Xmit _ _ p _ => Some p | _ => None end) l.

(** A packet as it arrives: the fabric has filled in the addresses. *)
Definition deliver (p : pkt_tcp) : pkt_tcp :=
  p <| pe_dest := [2; 0; 0; 0; 0; 2] |> <| pe_src := [2; 0; 0; 0; 0; 1] |> <| p_opts ::= fun o => o ++ mac_zero |>.

Definition status_of (s : ctl) (p : Z) : option connection_status := tn_status <$> (k_heap s !! p).

(** ** What the handshake code does not handle *)

(** A SYN that repeats, with the ECN flags every eTran host sets, is ignored by
    an open connection: the mask of the comparison is the still empty
    [ecn_flags], so the branch that would send the SYN-ACK again is not taken.
    A client whose SYN-ACK was lost waits in vain. *)
Theorem repeated_syn_ignored (e : ctl_env) (now p qid : Z) (pkt : pkt_tcp) (o : tcp_opts) (s : ctl) (c : tcp_connection) :
  k_heap s !! p = Some c -> tn_status c = CONN_OPEN ->
  TCPH_FLAGS (p_tcp pkt) = Z.lor TCP_SYN (Z.lor TCP_ECE TCP_CWR) ->
  tcp_connection_pkt e now p pkt qid o s = Some (tt, s).
Proof.
  intros Ec Hs Hf. unfold tcp_connection_pkt, bindM, rd_conn, bindM, get. cbn. rewrite Ec. cbn.
  by rewrite Hs, Hf.
Qed.

(** A SYN longer than the 256 bytes of a backlog slot is copied past its end. *)
Theorem long_syn_overflows (e : ctl_env) (lp qid : Z) (pkt : pkt_tcp) (s : ctl) (l : tcp_listener) :
  k_lheap s !! lp = Some l -> tl_backlog l = [] -> 0 < tl_max_backlog_size l ->
  TCPH_FLAGS (p_tcp pkt) = TCP_SYN -> 256 < u16 (ETH_HLEN + bpf_ntohs (ih_len (p_ip pkt))) ->
  tcp_listener_pkt e lp pkt qid s = None.
Proof.
  intros El Hb Hm Hf Hlen. unfold tcp_listener_pkt. set (len := u16 _) in *. clearbody len.
  unfold bindM, rd_lst, bindM, get. cbn. rewrite El. cbn. rewrite Hf, Hb.
  change (Z.land TCP_SYN (Z.lnot (Z.lor TCP_ECE TCP_CWR)) =? TCP_SYN) with true. cbn.
  change (Z.of_nat 0) with 0. destruct (Z.leb_spec (tl_max_backlog_size l) 0); [lia|].
  unfold BACKLOG_PKT_SIZE.
  destruct (Z.ltb_spec 256 len); [reflexivity|lia].
Qed.

Definition tries (m : M unit) (s : option ctl) : option ctl := s ← s; run m s.

(** A client that closes between the timeout of its SYN and the next round: the
    handshake list still holds the deleted connection and the round uses it. *)
Definition client_timeout : option ctl :=
  tries (poll_tcp_handshake_events (host 1) 0 ;; poll_tcp_cc_to (host 1) 60000 (fun _ => 60000)) client_up.

Theorem close_while_retrying_faults :
  is_Some client_timeout /\
  is_Some (tries (process_tcp_cmd (host 1) thr (APPOUT_TCP_CLOSE 0xdddd 3)) client_timeout) /\
  tries (process_tcp_cmd (host 1) thr (APPOUT_TCP_CLOSE 0xdddd 3) ;; poll_tcp_handshake_events (host 1) 60000)
    client_timeout = None.
Proof. split; [|split]; vm_compute; [by eexists|by eexists|done]. Qed.

(** A socket that is bound and then connected stays in the table under the key
    of the bound socket as well; closing it leaves that entry behind, and the
    next search through the table reads the deleted connection. *)
Definition bound_client : option ctl :=
  run (process_tcp_cmd (host 1) thr (APPOUT_TCP_BIND 0xdddd 3 false 0 1002) ;;
       process_tcp_cmd (host 1) thr (APPOUT_TCP_OPEN 0xdddd 3 0xc0a80602 1000) ;;
       poll_tcp_handshake_events (host 1) 0 ;;
       process_tcp_cmd (host 1) thr (APPOUT_TCP_CLOSE 0xdddd 3)) boot.

Theorem bound_client_dangles :
  is_Some bound_client /\
  tries (process_tcp_cmd (host 1) thr (APPOUT_TCP_CLOSE 0xeeee 4)) bound_client = None.
Proof. split; vm_compute; [by eexists|done]. Qed.

(** Handles are addresses in the application that chose them, but the table is
    searched for the number alone: an application that closes a handle of its
    own with the same value closes the socket of another one. *)
Definition boot2 : ctl := boot <| k_apps ::= <[2 := mk_app_ctx IPPROTO_TCP ∅ [] [0] 64]> |>
  <| k_threads ::= <[(2, 0) := mk_thread_ctx [6] []]> |>.

Theorem handles_collide :
  let up := run (process_tcp_cmd (host 1) thr (APPOUT_TCP_BIND 0xdddd 3 false 0 1002)) boot2 in
  size <$> (k_heap <$> up) = Some 1%nat /\
  size <$> (k_heap <$> tries (process_tcp_cmd (host 1) (2, 0) (APPOUT_TCP_CLOSE 0xdddd 9)) up) = Some 0%nat.
Proof. split; vm_compute; done. Qed.

(** Closing the socket of a listener returns the port to the pool, but the
    listener goes on accepting. *)
Theorem listener_survives_close :
  let closed := tries (process_tcp_cmd (host 2) thr (APPOUT_TCP_CLOSE 0xaaaa 3)) server_up in
  1000 ∈ (default [] (available_ports <$> (k_pool <$> closed))) /\
  (k_listeners <$> closed) = (k_listeners <$> server_up) /\ (size <$> (k_listeners <$> closed)) = Some 1%nat.
Proof. split; [|split]; [apply (bool_decide_unpack _)|..]; by vm_compute. Qed.
