(* ===== verification/CtlReach.v ===== *)
(** The microkernel as a transition system: the events of its control loop,
    what an application and the network must respect, the states they lead to
    and what holds in all of them. *)
From stdpp Require Import gmap sorting.
From S2P Require Import Prelude Intf Headers Parse Csum TcpOpts Ports Cc TcpCtl CtlInv CtlSafe CtlEvents CtlExit CtlRuns.
Local Open Scope Z_scope.
Local Open Scope ctl_scope.

(** What [control_loop] does in a turn: a command of a thread ([poll_lrpc]), a
    packet ([poll_network]), the exit of an application ([poll_uds]), and the
    timers ([poll_tcp_handshake_events], then [poll_tcp_cc_to]). *)
Inductive ctl_event :=
| Ev_cmd (t : Z * Z) (m : appout)
| Ev_packet (now a : Z) (pkt : pkt_tcp) (qid : Z)
| Ev_timers (now curr_tsc : Z) (clock : Z -> Z)
| Ev_exit (a : Z).

Definition exec (e : ctl_env) (ev : ctl_event) : M unit :=
  match ev with
  | Ev_cmd t m => process_tcp_cmd e t m
  | Ev_packet now a pkt qid => let! _ := tcp_packet e now a pkt qid in ret tt
  | Ev_timers now curr_tsc clock => poll_round (e := e) now curr_tsc clock
  | Ev_exit a => free_app_resources e a
  end.

(** The socket with this handle, if there is one, satisfies [P]. *)
Definition socket_is (s : ctl) (opaque : Z) (P : Z -> tcp_connection -> Prop) : Prop :=
  forall p c, k_heap s !! p = Some c -> k_conns s !! conn_key c = Some p ->
    tn_opaque_connection c = opaque -> P p c.

(** The conditions under which a command is safe.  A new socket has a new
    handle and a new key; the listeners of a port are of one application; the
    SYN at the head of a backlog is not of a connection that exists; a socket
    is not closed while it is in the handshake list. *)
Definition cmd_ok (e : ctl_env) (s : ctl) (t : Z * Z) (m : appout) : Prop :=
  tctx_ok s t /\
  match m with
  | APPOUT_TCP_BIND opaque _ _ _ l_port => k_conns s !! bind_key opaque l_port = None
  | APPOUT_TCP_OPEN opaque _ r_ip r_port =>
    socket_is s opaque (fun _ _ => False) /\
    forall port q, alloc_port (k_pool s) = Some (port, q) -> k_conns s !! open_key (e := e) r_ip r_port port = None
  | APPOUT_TCP_LISTEN opaque _ _ _ =>
    socket_is s opaque (fun _ c => port_of_app (e := e) s t.1 (tn_local_port c))
  | APPOUT_TCP_ACCEPT _ _ _ _ _ => heads_fresh (e := e) s
  | APPOUT_TCP_CLOSE opaque _ => socket_is s opaque (fun p _ => p ∉ k_handshake s)
  end.

Definition admissible (e : ctl_env) (s : ctl) (ev : ctl_event) : Prop :=
  match ev with
  | Ev_cmd t m => cmd_ok e s t m
  | Ev_packet _ a pkt qid => pkt_in (e := e) s a pkt qid /\ heads_fresh (e := e) s
  | Ev_timers _ _ _ => True
  | Ev_exit a => (exists ap, k_apps s !! a = Some ap /\ ap_proto ap = IPPROTO_TCP) /\
      forall p, app_of s p a -> p ∉ k_handshake s
  end.

(** The microkernel after start-up, with its applications registered. *)
Record init_ok (pool : gset Z) (s : ctl) : Prop := {
  in_conns : k_conns s = ∅;
  in_heap : k_heap s = ∅;
  in_listeners : k_listeners s = ∅;
  in_lheap : k_lheap s = ∅;
  in_hs : k_handshake s = [];
  in_ebpf : k_ebpf s = ∅;
  in_avail : NoDup (k_cc_avail s) /\ pool = list_to_set (k_cc_avail s);
  in_map : forall i, i ∈ k_cc_avail s -> exists b, k_cc_map s !! i = Some b /\ cc_wf b;
  in_threads : forall t th, k_threads s !! t = Some th -> th_listeners th = [];
  in_pool : pool_ok (k_pool s)
}.

(** The states the microkernel gets into; in between the XDP programs work on
    their maps and the NIC on its queues. *)
Inductive reach (e : ctl_env) (pool : gset Z) : ctl -> Prop :=
| reach_init s : init_ok pool s -> reach e pool s
| reach_event s ev s' : reach e pool s -> admissible e s ev -> exec e ev s = Some (tt, s') -> reach e pool s'
| reach_fast s s' : reach e pool s -> frame s s' -> reach e pool s'.

Lemma init_wf pool s : init_ok pool s -> wf pool s.
Proof.
  intros [E1 E2 E3 E4 E5 E6 [E7 ->] E8 E9 E10]. split; [| | | | | |done].
  - rewrite E1, E2, E4, E5. split; try done; [constructor|]. intros p Hp. by apply not_elem_of_nil in Hp.
  - rewrite E2, E6. split; try done.
    + intros i. rewrite elem_of_list_to_set. split; [by left|]. intros [?|(k & b & Hk & _)]; done.
    + intros i. rewrite elem_of_list_to_set. apply E8.
  - by rewrite E2.
  - by rewrite E4.
  - rewrite E3, E4. split; done.
  - intros t th lp Et. rewrite (E9 t th Et). intros Hx. by apply not_elem_of_nil in Hx.
Qed.

Section Reach.
Context {e : ctl_env} {He : env_good e} {pool : gset Z}.

Lemma wp_then_emit (m : M Z) (b : Z -> bool) o s :
  wp m s (fun _ s' => wf pool s') ->
  wp (let! r := m in whenM (b r) (emit o)) s (fun _ s' => wf pool s').
Proof.
  intros Hm. apply wp_bind. eapply wp_mono; [exact Hm|]. cbn beta. intros r s' Hw.
  apply wp_when; intros _; [|done]. apply wp_emit. intros s2 F. by eapply wf_frame.
Qed.

Lemma wp_cmd t m s : wf pool s -> cmd_ok e s t m -> wp (process_tcp_cmd e t m) s (fun _ s' => wf pool s').
Proof.
  intros Hw [Ht Hm]. destruct m as [opaque fd ru lip lport|opaque fd rip rport|opaque ol fd b|ol opaque fd nfd lport|opaque fd];
    cbn [process_tcp_cmd]; apply wp_then_emit.
  - by apply wp_bind_cmd.
  - destruct Hm as [Ho HC]. apply wp_open_cmd; [done|done| |done]. intros p c Ec Hk Hc. by apply (Ho p c).
  - by apply wp_listen_cmd.
  - by apply wp_accept_cmd.
  - by apply wp_close_cmd.
Qed.

(** Every event that is admissible is defined and keeps the invariant. *)
Lemma wp_exec ev s : wf pool s -> admissible e s ev -> wp (exec e ev) s (fun _ s' => wf pool s').
Proof.
  intros Hw Ha. destruct ev as [t m|now a pkt qid|now curr clock|a]; cbn [exec].
  - by apply wp_cmd.
  - destruct Ha as [Hp Hf]. apply wp_bind. eapply wp_mono; [by apply (wp_packet (pool := pool))|done].
  - by apply (wp_poll_round (pool := pool)).
  - destruct Ha as [(ap & Ea & Hpr) Hhs]. eapply wp_mono; [by eapply (wp_exit (pool := pool))|].
    cbn beta. intros _ s' [? _ _ _]. done.
Qed.

Lemma wp_some {A} (m : M A) s Q : wp m s Q <-> exists a s', m s = Some (a, s') /\ Q a s'.
Proof.
  unfold wp. destruct (m s) as [[a s']|]; split; [by exists a, s'|by intros (? & ? & [= <- <-] & ?)|done|by intros (? & ? & ? & _)].
Qed.

Lemma reach_wf s : reach e pool s -> wf pool s.
Proof.
  induction 1 as [s Hi|s ev s' _ IH Ha Hx|s s' _ IH F].
  - by apply init_wf.
  - pose proof (wp_exec ev s IH Ha) as (u & s2 & Hx2 & Hw)%wp_some. congruence.
  - by eapply wf_frame.
Qed.

End Reach.

(** ** What holds in every reachable state *)


(** C10. Under a discipline of the applications no pointer dangles and no object
    leaks.  Take the states that a run of admissible events leads to: each
    [OPEN] has a handle and addresses that no connection of the table has, each
    [BIND] a port and handle that none has, each [LISTEN] is on a port whose
    listeners are of the same application, no [CLOSE] or exit is of a socket in
    the handshake list, and no SYN that arrives or waits in a backlog is of a
    connection in the table.  In such a state the table of
    connections, the handshake list and the listeners point to live
    connections, a connection is in the table under its own key, and every live
    connection is either in the table or waits for exactly one listener.  The
    code does not enforce the discipline, and without it pointers dangle
    ([bound_client_dangles], [close_while_retrying_faults]). *)
Theorem connections_owned (e : ctl_env) (pool : gset Z) (s : ctl) :
  env_good e -> reach e pool s ->
  (forall k p, k_conns s !! k = Some p -> exists c, k_heap s !! p = Some c /\ conn_key c = k) /\
  (forall p, p ∈ k_handshake s -> exists c, k_heap s !! p = Some c /\
     (tn_status c = CONN_WAIT_TX_SYN \/ tn_status c = CONN_WAIT_TX_SYNACK)) /\
  (forall k ls lp, k_listeners s !! k = Some ls -> lp ∈ ls -> is_Some (k_lheap s !! lp)) /\
  (forall p c, k_heap s !! p = Some c ->
     (k_conns s !! conn_key c = Some p /\
      forall lp l, k_lheap s !! lp = Some l -> tl_pending_conn l <> Some p) \/
     (k_conns s !! conn_key c <> Some p /\ tn_status c = CONN_WAIT_RX_SYN /\
      exists lp l, k_lheap s !! lp = Some l /\ tl_pending_conn l = Some p /\
        forall lp' l', k_lheap s !! lp' = Some l' -> tl_pending_conn l' = Some p -> lp' = lp)).
Proof.
  intros He Hr. pose proof (reach_wf s Hr) as Hw. pose proof (wf_tables _ _ Hw) as HT. split_and!.
  - apply HT.
  - intros p Hp. destruct (tb_hs_live _ _ _ _ HT p Hp) as [c Ec]. exists c. split; [done|].
    destruct (tb_own _ _ _ _ HT p c Ec) as [(_ & _ & ? & _)|[_ Hk]]; [done|].
    destruct (tn_type c); [|by destruct Hk]. destruct (tn_status c); cbn in Hk; tauto.
  - intros k ls lp Ek Hlp. destruct (po_live _ _ (wf_ports _ _ Hw) k ls lp Ek Hlp) as (l & El & _). by exists l.
  - intros p c Ec. destruct (tb_own _ _ _ _ HT p c Ec) as [(_ & Hs & _ & HC & lp & l & Hl & El & Hp)|[HC Hk]]; [right|left].
    + split_and!; [done|done|]. exists lp, l. split_and!; [done|done|]. intros lp' l' El' Hp'.
      destruct (tb_pend _ _ _ _ HT lp' l' p El' Hp') as (x & Ex & _ & _ & Hx). congruence.
    + split; [done|]. intros lp l El Hp. destruct (tables_pending _ _ _ _ _ _ _ HT El Hp) as (x & Ex & _ & _ & _ & _ & Hx).
      by apply (Hx (conn_key c)).
Qed.

(** The indexes of the connections on the fast path. *)
Definition used_indexes (s : ctl) : list Z := (fun x => cc_idx x.2) <$> map_to_list (k_ebpf s).

Lemma used_indexes_nodup pool s : wf pool s -> NoDup (k_cc_avail s ++ used_indexes s).
Proof.
  intros Hw. pose proof (wf_index _ _ Hw) as [H1 H2 H3 H4 H5 H6 H7].
  apply list.NoDup_app. split_and!; [done| |].
  - intros i Hi. unfold used_indexes. rewrite list_elem_of_fmap. intros ([k b] & -> & Hk%elem_of_map_to_list).
    by apply (H4 k b).
  - apply NoDup_fmap_2_strong; [|apply NoDup_map_to_list].
    intros [k b] [k' b'] Hk%elem_of_map_to_list Hk'%elem_of_map_to_list Hi. cbn in Hi.
    assert (k = k') as -> by (by eapply H5). f_equal. congruence.
Qed.

(** C11. Under a discipline of the applications congestion-control indexes are
    never shared and never lost.  Take the states that a run of admissible events leads to: each
    [OPEN] has a handle and addresses that no connection of the table has, each
    [BIND] a port and handle that none has, each [LISTEN] is on a port whose
    listeners are of the same application, no [CLOSE] or exit is of a socket in
    the handshake list, and no SYN that arrives or waits in a backlog is of a
    connection in the table.  In such a state the
    free list and the entries of the fast path split the indexes of the start
    between them, without repetition; the entries are exactly those of the
    connections that are open or answer a SYN, and no two such connections have
    the same index.  The code does not enforce the discipline: with equal
    handles of two applications, for one, an entry can be left without its
    connection. *)
Theorem cc_indexes_conserved (e : ctl_env) (pool : gset Z) (s : ctl) :
  env_good e -> reach e pool s ->
  k_cc_avail s ++ used_indexes s ≡ₚ elements pool /\
  (forall k, is_Some (k_ebpf s !! k) <-> exists p c, k_heap s !! p = Some c /\ fast c /\ conn_ebpf_key c = k) /\
  (forall p c q d, k_heap s !! p = Some c -> fast c -> k_heap s !! q = Some d -> fast d ->
     tn_cc_idx c = tn_cc_idx d -> p = q) /\
  (forall p c, k_heap s !! p = Some c -> fast c -> tn_cc_idx c ∉ k_cc_avail s).
Proof.
  intros He Hr. pose proof (reach_wf s Hr) as Hw. pose proof (wf_index _ _ Hw) as [H1 H2 H3 H4 H5 H6 H7]. split_and!.
  - apply NoDup_Permutation; [by eapply used_indexes_nodup|apply NoDup_elements|].
    intros i. rewrite elem_of_elements, H6, elem_of_app. unfold used_indexes. rewrite list_elem_of_fmap.
    split; (intros [Hi|Hi]; [by left|right]).
    + destruct Hi as ([k b] & -> & Hk%elem_of_map_to_list). by exists k, b.
    + destruct Hi as (k & b & Hk & <-). exists (k, b). by rewrite elem_of_map_to_list.
  - intros k. split.
    + intros [b Hb]. by apply (H2 k b).
    + intros (p & c & Ec & Hf & <-). destruct (H1 p c Ec Hf) as (b & Eb & _). by exists b.
  - intros p c q d Ec Hc Ed Hd Hi. destruct (H1 p c Ec Hc) as (b & Eb & Hb), (H1 q d Ed Hd) as (b' & Eb' & Hb').
    assert (Hk : conn_ebpf_key c = conn_ebpf_key d) by (eapply H5; [exact Eb|exact Eb'|congruence]).
    apply ebpf_key_inj in Hk. pose proof (fast_registered _ _ _ _ _ _ (wf_tables _ _ Hw) Ec Hc).
    pose proof (fast_registered _ _ _ _ _ _ (wf_tables _ _ Hw) Ed Hd). congruence.
  - intros p c Ec Hc. destruct (H1 p c Ec Hc) as (b & Eb & <-). by eapply H4.
Qed.

(** C12. Under a discipline of the applications one that exits leaves nothing
    behind and takes nothing of the others.  Take the states that a run of admissible events leads to: each
    [OPEN] has a handle and addresses that no connection of the table has, each
    [BIND] a port and handle that none has, each [LISTEN] is on a port whose
    listeners are of the same application, no [CLOSE] or exit is of a socket in
    the handshake list, and no SYN that arrives or waits in a backlog is of a
    connection in the table.  When an
    application exits in such a state, and none of its connections is in the
    handshake list, then afterwards no connection and no listener belongs to
    it, the connections of the other applications are unchanged, and no
    congestion-control index is lost.  The code enforces neither condition:
    connections in the handshake list are left behind, and a listener on a port
    that two applications share is deleted with the exit of one. *)
Theorem exit_leaves_nothing (e : ctl_env) (pool : gset Z) (s : ctl) (a : Z) :
  env_good e -> reach e pool s -> admissible e s (Ev_exit a) ->
  exists s', exec e (Ev_exit a) s = Some (tt, s') /\
    (forall p c, k_heap s' !! p = Some c -> (tn_tctx c).1 <> a) /\
    (forall lp l, k_lheap s' !! lp = Some l -> (tl_tctx l).1 <> a) /\
    (forall p c, k_heap s !! p = Some c -> (tn_tctx c).1 <> a -> k_heap s' !! p = Some c) /\
    k_cc_avail s' ++ used_indexes s' ≡ₚ k_cc_avail s ++ used_indexes s.
Proof.
  intros He Hr [(ap & Ea & Hpr) Hhs]. pose proof (reach_wf s Hr) as Hw.
  pose proof (wp_exit (pool := pool) a ap s Hw Ea Hpr Hhs) as ([] & s' & Hx & [Hw' X2 X3 X4])%wp_some.
  exists s'. split_and!; [done| |done|done|].
  - intros p c Ec Hc. apply (X2 p). by exists c.
  - apply NoDup_Permutation; [by eapply used_indexes_nodup..|]. intros i.
    pose proof (ix_all _ _ _ _ _ (wf_index _ _ Hw) i) as Hi. pose proof (ix_all _ _ _ _ _ (wf_index _ _ Hw') i) as Hi'.
    assert (Hu : forall s0, i ∈ used_indexes s0 <-> exists k b, k_ebpf s0 !! k = Some b /\ cc_idx b = i).
    { intros s0. unfold used_indexes. rewrite list_elem_of_fmap. split.
      - intros ([k b] & -> & Hk%elem_of_map_to_list). by exists k, b.
      - intros (k & b & Hk & <-). exists (k, b). by rewrite elem_of_map_to_list. }
    rewrite !elem_of_app, !Hu. tauto.
Qed.

(** Every connection of a reachable state is well formed: it holds one
    reference, its thread and application exist, packets of a connection that
    is not only bound go to a queue that exists, its send buffer holds two
    segments, the listener it came from is live and of the same application,
    and on the fast path it runs window-based DCTCP with a window between one
    segment and the send buffer. *)
Theorem connections_well_formed (e : ctl_env) (pool : gset Z) (s : ctl) (p : Z) (c : tcp_connection) :
  env_good e -> reach e pool s -> k_heap s !! p = Some c ->
  tn_ref c = 1 /\ tctx_ok s (tn_tctx c) /\
  (tn_type c = TCP_CONN_TYPE_NORMAL -> qid_ok s (tn_qid c) /\ 2896 <= tn_tx_buf_size c < 4294967296) /\
  (forall lp, tn_listener c = Some lp -> exists l, k_lheap s !! lp = Some l /\ (tl_tctx l).1 = (tn_tctx c).1) /\
  (fast c -> exists d, tn_cc_data c = CC_DCTCP_WND d /\ 1448 <= dw_window d <= tn_tx_buf_size c).
Proof.
  intros He Hr Ec. destruct (wf_conn _ _ (reach_wf s Hr) p c Ec) as [C1 C2 C3 C4 C5 _].
  split_and!; [done|done| |done|].
  - intros Hn. destruct (C4 Hn) as [Hq (K1 & K2 & _)]. unfold tn_tx_buf_size. unfold in32 in K2. split; [done|lia].
  - intros Hf. destruct (C4 (proj1 Hf)) as [_ (_ & _ & _ & Hd)]. destruct (Hd Hf) as (d & Ed & Hi).
    exists d. split; [done|]. apply Hi.
Qed.

(** ** A server, step by step *)

#[export] Instance host_good n : env_good (host n).
Proof. split; [done|done|cbn; lia]. Qed.

Definition step_to (ev : ctl_event) (s : ctl) : ctl := default s (run (exec (host 2) ev) s).

Definition ev_bind : ctl_event := Ev_cmd thr (APPOUT_TCP_BIND 0xaaaa 3 false 0 1000).
Definition ev_listen : ctl_event := Ev_cmd thr (APPOUT_TCP_LISTEN 0xaaaa 0xbbbb 3 8).
Definition ev_accept : ctl_event := Ev_cmd thr (APPOUT_TCP_ACCEPT 0xbbbb 0xcccc 3 4 1000).

(** The SYN the client of [CtlRuns] sends, as it arrives. *)
Definition the_syn : pkt_tcp := Eval vm_compute in
  deliver (control_pkt 0x1000 (0, 0) (mk_endpoints 0xc0a80601 1000 0xc0a80602 1000 0 0)
    (Z.lor TCP_SYN (Z.lor TCP_ECE TCP_CWR)) true 0 TCP_MSS).
Definition ev_syn : ctl_event := Ev_packet 0 1 the_syn 0.

Definition bound : ctl := Eval vm_compute in step_to ev_bind boot.
Definition listening : ctl := Eval vm_compute in step_to ev_listen bound.
Definition accepting : ctl := Eval vm_compute in step_to ev_accept listening.
Definition answering : ctl := Eval vm_compute in step_to ev_syn accepting.

Definition cc_pool : gset Z := list_to_set [0; 1; 2; 3].

Lemma boot_init : init_ok cc_pool boot.
Proof.
  split; try done.
  - split; [|done]. apply (bool_decide_unpack _). by vm_compute.
  - intros i Hi. exists cc_entry. split; [|unfold cc_wf, TCP_MAX_RTT; cbn; lia].
    cbn in Hi. repeat (apply elem_of_cons in Hi as [->|Hi]; [reflexivity|]). by apply not_elem_of_nil in Hi.
  - intros t th. cbn. rewrite lookup_singleton_Some. by intros [_ <-].
  - split.
    + apply (bool_decide_unpack _). by vm_compute.
    + intros p Hp. cbn in Hp. repeat (apply elem_of_cons in Hp as [->|Hp]; [reflexivity|]). by apply not_elem_of_nil in Hp.
Qed.

Lemma thr_ok s ap th : k_apps s !! 1 = Some ap -> ap_nic_qid ap = [0] ->
  k_threads s !! thr = Some th -> th_xsk_map_key th = [5] -> is_Some (k_queues s !! 0) -> tctx_ok s thr.
Proof.
  intros E1 E2 E3 E4 Hq. split.
  - exists ap. split; [done|]. rewrite E2. split; [done|]. apply Forall_singleton. unfold MAX_NIC_QUEUES. split; [lia|done].
  - exists ap, th. rewrite E2, E4. done.
Qed.

Ltac thr_ready := eapply thr_ok; [reflexivity|reflexivity|reflexivity|reflexivity|by eexists].

Lemma reach_bound : reach (host 2) cc_pool bound.
Proof.
  apply (reach_event _ _ boot ev_bind); [apply reach_init, boot_init| |by vm_compute].
  split; [thr_ready|reflexivity].
Qed.

Lemma reach_listening : reach (host 2) cc_pool listening.
Proof.
  apply (reach_event _ _ bound ev_listen); [apply reach_bound| |by vm_compute].
  split; [thr_ready|]. intros p c _ _ _ ls lp l Hls.
  assert (E : k_listeners bound = ∅) by (by vm_compute). rewrite E in Hls. discriminate Hls.
Qed.

Lemma accept_admissible : admissible (host 2) listening ev_accept.
Proof.
  split; [thr_ready|]. intros lp l x rest Hl Hb. exfalso.
  assert (E : k_lheap listening = {[ 101 := mk_tcp_listener thr 0xbbbb 8 [] 1000 None 100 3 ]}) by (by vm_compute).
  rewrite E in Hl. apply lookup_singleton_Some in Hl as [_ <-]. discriminate Hb.
Qed.

Lemma reach_accepting : reach (host 2) cc_pool accepting.
Proof. apply (reach_event _ _ listening ev_accept); [apply reach_listening|apply accept_admissible|by vm_compute]. Qed.

Lemma syn_admissible : admissible (host 2) accepting ev_syn.
Proof.
  split.
  - split; [apply thr_ok with (ap := default (mk_app_ctx 0 ∅ [] [] 0) (k_apps accepting !! 1)) (th := default (mk_thread_ctx [] []) (k_threads accepting !! thr)); try reflexivity; by eexists| |by eexists|reflexivity|by vm_compute].
    split; [|split; [by vm_compute|by vm_compute]]. unfold bytes.
    let l := eval vm_compute in (p_opts the_syn) in assert (E : p_opts the_syn = l) by (by vm_compute). rewrite E.
    repeat (apply Forall_cons_2; [unfold in8; lia|]). apply Forall_nil_2.
  - intros lp l x rest Hl Hb. exfalso.
    assert (E : k_lheap accepting = {[ 101 := mk_tcp_listener thr 0xbbbb 8 [] 1000 (Some 102) 100 3 ]}) by (by vm_compute).
    rewrite E in Hl. apply lookup_singleton_Some in Hl as [_ <-]. discriminate Hb.
Qed.

Lemma reach_answering : reach (host 2) cc_pool answering.
Proof. apply (reach_event _ _ accepting ev_syn); [apply reach_accepting|apply syn_admissible|by vm_compute]. Qed.


Lemma connections_owned_witness :
  exists c, k_heap answering !! 102 = Some c /\ conn_key c = mk_flow_tuple 0xc0a80601 1000 0xc0a80602 1000.
Proof.
  destruct (connections_owned (host 2) cc_pool answering (host_good 2) reach_answering) as (H & _).
  apply H. by vm_compute.
Defined.

Lemma cc_indexes_conserved_witness :
  used_indexes answering = [0] /\ k_cc_avail answering ++ used_indexes answering ≡ₚ elements cc_pool.
Proof.
  split; [by vm_compute|].
  destruct (cc_indexes_conserved (host 2) cc_pool answering (host_good 2) reach_answering) as (H & _). exact H.
Defined.

Lemma exit_leaves_nothing_witness :
  is_Some (k_heap accepting !! 102) /\
  exists s', exec (host 2) (Ev_exit 1) accepting = Some (tt, s') /\
    (forall p c, k_heap s' !! p = Some c -> (tn_tctx c).1 <> 1).
Proof.
  split; [by eexists|].
  destruct (exit_leaves_nothing (host 2) cc_pool accepting 1 (host_good 2) reach_accepting) as (s' & E & H & _).
  - split; [eexists; split; reflexivity|]. intros p _. by apply not_elem_of_nil.
  - exists s'. split; [exact E|exact H].
Defined.

Lemma connections_well_formed_witness :
  exists c d, k_heap answering !! 102 = Some c /\ tn_cc_data c = CC_DCTCP_WND d /\ 1448 <= dw_window d <= tn_tx_buf_size c.
Proof.
  destruct (k_heap answering !! 102) as [c|] eqn:Ec; [|by vm_compute in Ec].
  destruct (connections_well_formed (host 2) cc_pool answering 102 c (host_good 2) reach_answering Ec) as (_ & _ & _ & _ & H).
  destruct H as (d & Ed & Hd).
  - vm_compute in Ec. injection Ec as <-. split; [done|by right].
  - exists c, d. split; [reflexivity|]. split; [exact Ed|exact Hd].
Defined.
