(* ===== verification/Handshake.v ===== *)
(** The handshake across two hosts: what the client and the server store for
    the fast path when a SYN and its SYN-ACK have crossed, and that these
    entries are the states from which the theorems on the data path start.

    [pwp m s Q] says that if operation [m] ends in state [s], then [Q] holds of
    its result: [CtlReach] shows that it ends. *)
From stdpp Require Import gmap.
From S2P Require Import Prelude Intf Seq Headers Parse Csum TcpOpts Ports Cc TcpCtl.
From S2P Require Import CtlInv CtlSafe CtlEvents CtlExit CtlRuns CtlReach RxSafety TxSafety.
Local Open Scope Z_scope.
Local Open Scope u32_scope.
Local Open Scope ctl_scope.

Definition pwp {A} (m : M A) (s : ctl) (Q : A -> ctl -> Prop) : Prop :=
  forall a s', m s = Some (a, s') -> Q a s'.

Lemma pwp_bind {A B} (m : M A) (k : A -> M B) s Q :
  pwp m s (fun a s' => pwp (k a) s' Q) -> pwp (bindM m k) s Q.
Proof.
  unfold pwp, bindM. intros H b s'. destruct (m s) as [[a s1]|]; [|done]. intros E. by eapply H.
Qed.

Lemma pwp_mono {A} (m : M A) s (Q Q' : A -> ctl -> Prop) :
  pwp m s Q -> (forall a s', Q a s' -> Q' a s') -> pwp m s Q'.
Proof. unfold pwp. eauto. Qed.

Lemma pwp_ret {A} (a : A) s (Q : A -> ctl -> Prop) : Q a s -> pwp (ret a) s Q.
Proof. by intros H ? ? [= <- <-]. Qed.

Lemma pwp_get s (Q : ctl -> ctl -> Prop) : Q s s -> pwp get s Q.
Proof. by intros H ? ? [= <- <-]. Qed.

Lemma pwp_modify f s (Q : unit -> ctl -> Prop) : Q tt (f s) -> pwp (modify f) s Q.
Proof. by intros H ? ? [= <- <-]. Qed.

Lemma pwp_must {A} (x : option A) s Q : (forall a, x = Some a -> Q a s) -> pwp (must x) s Q.
Proof. intros H a s'. destruct x as [y|]; [|done]. intros [= <- <-]. by apply H. Qed.

Lemma pwp_rd_conn p s Q : (forall c, k_heap s !! p = Some c -> Q c s) -> pwp (rd_conn p) s Q.
Proof. intros H. apply pwp_bind, pwp_get. by apply pwp_must. Qed.

Lemma pwp_upd_conn p f s (Q : unit -> ctl -> Prop) :
  (forall c, k_heap s !! p = Some c -> Q tt (s <| k_heap ::= <[p := f c]> |>)) -> pwp (upd_conn p f) s Q.
Proof. intros H. apply pwp_bind, pwp_rd_conn. intros c Ec. by apply pwp_modify, H. Qed.

Lemma pwp_rd_lst p s Q : (forall l, k_lheap s !! p = Some l -> Q l s) -> pwp (rd_lst p) s Q.
Proof. intros H. apply pwp_bind, pwp_get. by apply pwp_must. Qed.

Lemma pwp_upd_lst p f s (Q : unit -> ctl -> Prop) :
  (forall l, k_lheap s !! p = Some l -> Q tt (s <| k_lheap ::= <[p := f l]> |>)) -> pwp (upd_lst p f) s Q.
Proof. intros H. apply pwp_bind, pwp_rd_lst. intros c Ec. by apply pwp_modify, H. Qed.

Lemma pwp_rd_app a s Q : (forall ap, k_apps s !! a = Some ap -> Q ap s) -> pwp (rd_app a) s Q.
Proof. intros H. apply pwp_bind, pwp_get. by apply pwp_must. Qed.

Lemma pwp_rd_thread t s Q : (forall th, k_threads s !! t = Some th -> Q th s) -> pwp (rd_thread t) s Q.
Proof. intros H. apply pwp_bind, pwp_get. by apply pwp_must. Qed.

Lemma pwp_when (b : bool) m s (Q : unit -> ctl -> Prop) :
  (b = true -> pwp m s Q) -> (b = false -> Q tt s) -> pwp (whenM b m) s Q.
Proof. intros H1 H2. destruct b; cbn; [by apply H1|]. by apply pwp_ret, H2. Qed.

(** ** The parts *)

(** Sending leaves the connections alone and adds at most the given packet. *)
Record sends (s s' : ctl) (pk : pkt_tcp) : Prop := {
  se_heap : k_heap s' = k_heap s;
  se_lheap : k_lheap s' = k_lheap s;
  se_ebpf : k_ebpf s' = k_ebpf s;
  se_out : exists o, k_out s' = k_out s ++ o /\ forall q t pk' n, Xmit q t pk' n ∈ o -> pk' = pk
}.

Lemma sends_refl s pk : sends s s pk.
Proof. split; try done. exists []. rewrite app_nil_r. split; [done|]. intros q t pk' n Hx. by apply not_elem_of_nil in Hx. Qed.

Lemma pwp_send a pk len to qid s : pwp (slow_path_send_tcp a pk len to qid) s (fun _ s' => sends s s' pk).
Proof.
  unfold slow_path_send_tcp. apply pwp_bind, pwp_rd_app. intros ap Ea. apply pwp_bind.
  assert (Hq : pwp (if qid =? POISON_32 then
       let k := mk_flow_tuple (bpf_ntohl (ih_dest (p_ip pk))) (bpf_ntohs (tc_dest (p_tcp pk)))
                  (bpf_ntohl (ih_src (p_ip pk))) (bpf_ntohs (tc_src (p_tcp pk))) in
       let n := Z.of_nat (length (ap_nic_qid ap)) in
       if n =? 0 then undefined else must (ap_nic_qid ap !! Z.to_nat (flow_hash k mod n))
     else ret qid) s (fun _ s' => s' = s)).
  { destruct (qid =? POISON_32); [|by apply pwp_ret]. cbv zeta. destruct (_ =? 0); [done|]. by apply pwp_must. }
  eapply pwp_mono; [exact Hq|]. cbn beta. intros q s' ->. apply pwp_bind, pwp_get. apply pwp_bind, pwp_must.
  intros free Ef. destruct (to && _); [apply pwp_ret, sends_refl|]. destruct (_ || _); [apply pwp_ret, sends_refl|].
  apply pwp_bind, pwp_modify, pwp_modify. split; try reflexivity. eexists. split; [reflexivity|].
  intros q' t pk' n [= _ _ -> _]%list_elem_of_singleton. done.
Qed.

(** [reg_tcp_conn_ebpf] stores the entry it computes from the connection. *)
Lemma pwp_reg e p listen s :
  pwp (reg_tcp_conn_ebpf e p listen) s (fun r s' => k_lheap s' = k_lheap s /\ k_out s' = k_out s /\
    (r = -1 /\ k_heap s' = k_heap s \/
     r = 0 /\ exists c i rate q2x, k_heap s !! p = Some c /\ k_heap s' = <[p := joined_conn c i rate]> (k_heap s) /\
       k_ebpf s' = <[conn_ebpf_key c := ebpf_conn e c listen i rate q2x]> (k_ebpf s))).
Proof.
  unfold reg_tcp_conn_ebpf. apply pwp_bind. unfold alloc_cc_idx. apply pwp_bind, pwp_get.
  destruct (k_cc_avail s) as [|i rest]; [apply pwp_ret, pwp_ret; split_and!; try done; by left|].
  apply pwp_bind, pwp_modify, pwp_ret. cbv beta iota. apply pwp_bind, pwp_get. apply pwp_bind, pwp_must. intros b Eb.
  apply pwp_bind, pwp_modify. apply pwp_bind, pwp_rd_conn. intros c Ec. apply pwp_bind, pwp_must. intros rate Er.
  apply pwp_bind, pwp_rd_app. intros ap Ea. apply pwp_bind, pwp_rd_thread. intros th Et.
  apply pwp_bind, pwp_must. intros q2x Eq. destruct (_ && _).
  - apply pwp_bind, pwp_modify, pwp_ret. split; [reflexivity|]. split; [reflexivity|]. left. split; reflexivity.
  - apply pwp_bind, pwp_modify. apply pwp_bind, pwp_upd_conn. intros c' Ec'. apply pwp_ret.
    split; [reflexivity|]. split; [reflexivity|]. right. split; [reflexivity|]. exists c, i, rate, q2x.
    change (k_heap s !! p = Some c) in Ec. change (k_heap s !! p = Some c') in Ec'.
    assert (c' = c) as -> by congruence. split; [done|]. split; reflexivity.
Qed.

(** What a SYN made of the connection that waited for it. *)
Definition server_side (e : ctl_env) (l : tcp_listener) (pkt : pkt_tcp) (p : Z) (s : ctl) : Prop :=
  forall c1, k_heap s !! p = Some c1 -> tn_status c1 = CONN_WAIT_TX_SYNACK ->
    conn_key c1 = mk_flow_tuple (bpf_ntohl (ih_src (p_ip pkt))) (bpf_ntohs (tc_src (p_tcp pkt)))
      (e_local_ip e) (tl_listen_port l) /\
    tn_remote_seq c1 = bpf_ntohl (tc_seqno (p_tcp pkt)) ⊕ 1 /\ tn_local_seq c1 = 1 /\
    exists i rate q2x, k_ebpf s !! conn_ebpf_key c1 = Some (ebpf_conn e c1 true i rate q2x).

Lemma server_side_not e l pkt p s :
  (forall c, k_heap s !! p = Some c -> tn_status c <> CONN_WAIT_TX_SYNACK) -> server_side e l pkt p s.
Proof. intros H c1 E Hs. by destruct (H c1 E). Qed.

(** The last steps, from the state in which the entry is stored. *)
Lemma pwp_answer e lp l pkt p c0 i rate q2x s s' :
  k_heap s' = <[p := joined_conn c0 i rate]> (k_heap s) ->
  k_ebpf s' = <[conn_ebpf_key c0 := ebpf_conn e c0 true i rate q2x]> (k_ebpf s) ->
  conn_key c0 = mk_flow_tuple (bpf_ntohl (ih_src (p_ip pkt))) (bpf_ntohs (tc_src (p_tcp pkt)))
    (e_local_ip e) (tl_listen_port l) ->
  tn_remote_seq c0 = bpf_ntohl (tc_seqno (p_tcp pkt)) ⊕ 1 -> tn_local_seq c0 = 1 ->
  pwp (reg_tcp_conn_slowpath p ;;
      upd_conn p (fun c => c <| tn_status := CONN_WAIT_TX_SYNACK |> <| tn_listen_fd := tl_fd l |>) ;;
      upd_lst lp (fun l => l <| tl_pending_conn := None |>) ;;
      modify (fun s => s <| k_handshake ::= fun h => h ++ [p] |>)) s'
    (fun _ s'' => server_side e l pkt p s'').
Proof.
  intros EH EE Hk Hr Hl. apply pwp_bind. unfold reg_tcp_conn_slowpath. apply pwp_bind, pwp_rd_conn. intros c1 Ec1.
  apply pwp_modify. apply pwp_bind, pwp_upd_conn. intros c2 Ec2. apply pwp_bind, pwp_upd_lst. intros l2 _.
  apply pwp_modify. change (k_heap s' !! p = Some c2) in Ec2. rewrite EH, lookup_insert_eq in Ec2. injection Ec2 as <-.
  intros c3 Ec3 _. revert Ec3. ctl_simpl. rewrite lookup_insert_eq. intros [= <-].
  split; [exact Hk|]. split; [exact Hr|]. split; [exact Hl|]. exists i, rate, q2x. rewrite EE. apply lookup_insert_eq.
Qed.

Lemma pwp_accept e lp l p x rest s :
  k_lheap s !! lp = Some l -> tl_pending_conn l = Some p -> tl_backlog l = x :: rest ->
  (forall c, k_heap s !! p = Some c -> tn_status c <> CONN_WAIT_TX_SYNACK) ->
  pwp (tcp_listener_accept e lp) s (fun _ s' => server_side e l (bs_pkt x) p s').
Proof.
  intros El Ep Eb Hs. unfold tcp_listener_accept. apply pwp_bind, pwp_rd_lst. intros l' El'.
  assert (l' = l) as -> by congruence. rewrite Ep, Eb. apply pwp_bind, pwp_upd_lst. intros l' _.
  assert (Hn : forall s1, k_heap s1 = k_heap s -> server_side e l (bs_pkt x) p s1).
  { intros s1 E. apply server_side_not. by rewrite E. }
  destruct (parse_tcp_opts (bs_pkt x)) as [r o| |]; [|done|done].
  destruct (opt_ts o) as [off|]; [|by apply pwp_ret, Hn]. destruct (opt_mss o); [|by apply pwp_ret, Hn].
  destruct (negb _); [by apply pwp_ret, Hn|]. apply pwp_bind, pwp_must. intros ts _.
  apply pwp_bind, pwp_upd_conn. intros c Ec. set (c1 := _ <| tn_syn_ts := ts |>).
  assert (Hst : tn_status c1 = tn_status c) by reflexivity. apply Hs in Ec.
  assert (Hk1 : conn_key c1 = mk_flow_tuple (bpf_ntohl (ih_src (p_ip (bs_pkt x)))) (bpf_ntohs (tc_src (p_tcp (bs_pkt x))))
    (e_local_ip e) (tl_listen_port l)) by reflexivity.
  assert (Hr1 : tn_remote_seq c1 = bpf_ntohl (tc_seqno (p_tcp (bs_pkt x))) ⊕ 1) by reflexivity.
  assert (Hl1 : tn_local_seq c1 = 1) by reflexivity. clearbody c1. set (s1 := _ <| k_heap ::= <[p := c1]> |>).
  assert (E1 : k_heap s1 !! p = Some c1) by (subst s1; apply lookup_insert_eq). clearbody s1. apply pwp_bind.
  eapply (pwp_mono _ _ (fun _ s2 => exists c2, k_heap s2 !! p = Some c2 /\ tn_status c2 = tn_status c /\
    conn_key c2 = conn_key c1 /\ tn_remote_seq c2 = tn_remote_seq c1 /\ tn_local_seq c2 = tn_local_seq c1)).
  { apply pwp_when; intros _; [|by exists c1]. apply pwp_upd_conn. intros c1' Ec1'. assert (c1' = c1) as -> by congruence.
    eexists. split; [apply lookup_insert_eq|]. done. }
  cbn beta. intros _ s2 (c2 & E2 & Hst2 & Hk2 & Hr2 & Hl2). apply pwp_bind. eapply pwp_mono; [apply pwp_reg|].
  cbn beta. intros r' s3 (_ & _ & [[-> EH]|[-> (c2' & i & rate & q2x & Ec2 & EH & EE)]]).
  - apply pwp_ret, server_side_not. rewrite EH. intros c3 Ec3. assert (c3 = c2) as -> by congruence. congruence.
  - assert (c2' = c2) as -> by congruence. cbn [Z.eqb negb]. eapply pwp_answer; [exact EH|exact EE|congruence..].
Qed.

Lemma pwp_listener e lp l p pkt qid s :
  k_lheap s !! lp = Some l -> tl_pending_conn l = Some p -> tl_backlog l = [] ->
  (forall c, k_heap s !! p = Some c -> tn_status c <> CONN_WAIT_TX_SYNACK) ->
  pwp (tcp_listener_pkt e lp pkt qid) s (fun _ s' => server_side e l pkt p s').
Proof.
  intros El Ep Eb Hs. unfold tcp_listener_pkt. apply pwp_bind, pwp_rd_lst. intros l' El'.
  assert (l' = l) as -> by congruence. assert (Hn : server_side e l pkt p s) by (by apply server_side_not).
  destruct (negb _); [by apply pwp_ret|]. destruct (_ <=? _); [by apply pwp_ret|].
  destruct (existsb _ _); [by apply pwp_ret|]. destruct (_ <? _); [done|].
  apply pwp_bind, pwp_upd_lst. intros l' El2. assert (l' = l) as -> by congruence. apply pwp_bind, pwp_modify.
  rewrite Ep. set (x := mk_backlog_slot pkt _ qid).
  eapply pwp_mono; [eapply (pwp_accept e lp (l <| tl_backlog ::= fun b => b ++ [x] |>) p x [])|].
  - apply lookup_insert_eq.
  - done.
  - cbn. by rewrite Eb.
  - exact Hs.
  - cbn beta. intros _ s' H. exact H.
Qed.

(** What the SYN-ACK made of the connection that waited for it. *)
Definition client_side (e : ctl_env) (pkt : pkt_tcp) (p : Z) (c : tcp_connection) (s : ctl) : Prop :=
  forall c2, k_heap s !! p = Some c2 -> tn_status c2 = CONN_OPEN ->
    conn_key c2 = conn_key c /\ tn_remote_seq c2 = bpf_ntohl (tc_seqno (p_tcp pkt)) ⊕ 1 /\
    tn_local_seq c2 = bpf_ntohl (tc_ackno (p_tcp pkt)) /\
    exists i rate q2x, k_ebpf s !! conn_ebpf_key c2 = Some (ebpf_conn e c2 false i rate q2x).

Lemma pwp_synack_fail e now pkt p c s :
  (forall x, k_heap s !! p = Some x -> tn_status x <> CONN_OPEN) ->
  pwp (upd_conn p (fun c => c <| tn_local_mac := mac_zero |> <| tn_remote_mac := mac_zero |>
      <| tn_remote_seq := 0 |> <| tn_local_seq := 0 |> <| tn_syn_ts := 0 |> <| tn_flags := 0 |>
      <| tn_next_timeout_tsc := handshake_deadline e now |>) ;; ret (-1)) s
    (fun _ s' => client_side e pkt p c s').
Proof.
  intros H. apply pwp_bind, pwp_upd_conn. intros x Ex. apply pwp_ret. intros c2 Ec2 Hs.
  revert Ec2. ctl_simpl. rewrite lookup_insert_eq. intros [= <-]. by destruct (H x Ex).
Qed.

Lemma pwp_synack e now p pkt o c s :
  (forall x, k_heap s !! p = Some x -> tn_status x <> CONN_OPEN /\ conn_key x = conn_key c) ->
  pwp (tcp_synack_pkt e now p pkt o) s (fun _ s' => client_side e pkt p c s').
Proof.
  intros H. unfold tcp_synack_pkt. apply pwp_bind, pwp_upd_conn. intros x Ex. apply H in Ex as [Hs Hk].
  set (x1 := x <| tn_next_timeout_tsc := 0 |>). set (s1 := s <| k_heap ::= _ |>).
  assert (E1 : k_heap s1 !! p = Some x1) by apply lookup_insert_eq. assert (Hs1 : tn_status x1 <> CONN_OPEN) by done.
  assert (Hk1 : conn_key x1 = conn_key c) by done. clearbody s1 x1.
  assert (Hf1 : forall y, k_heap s1 !! p = Some y -> tn_status y <> CONN_OPEN) by (intros; congruence).
  destruct (negb _); [by apply pwp_synack_fail|]. destruct (opt_ts o) as [off|]; [|by apply pwp_synack_fail].
  apply pwp_bind, pwp_must. intros ts _. apply pwp_bind, pwp_upd_conn. intros x1' Ex1. assert (x1' = x1) as -> by congruence.
  set (x2 := _ <| tn_syn_ts := ts |>). set (s2 := s1 <| k_heap ::= _ |>).
  assert (E2 : k_heap s2 !! p = Some x2) by apply lookup_insert_eq.
  assert (H2 : tn_status x2 <> CONN_OPEN /\ conn_key x2 = conn_key c /\
    tn_remote_seq x2 = bpf_ntohl (tc_seqno (p_tcp pkt)) ⊕ 1 /\ tn_local_seq x2 = bpf_ntohl (tc_ackno (p_tcp pkt))) by done.
  clearbody s2 x2. apply pwp_bind.
  eapply (pwp_mono _ _ (fun _ s3 => exists x3, k_heap s3 !! p = Some x3 /\ tn_status x3 <> CONN_OPEN /\ conn_key x3 = conn_key c /\
    tn_remote_seq x3 = bpf_ntohl (tc_seqno (p_tcp pkt)) ⊕ 1 /\ tn_local_seq x3 = bpf_ntohl (tc_ackno (p_tcp pkt)))).
  { apply pwp_when; intros _; [|by exists x2]. apply pwp_upd_conn. intros y Ey. assert (y = x2) as -> by congruence.
    eexists. split; [apply lookup_insert_eq|]. exact H2. }
  cbn beta. intros _ s3 (x3 & E3 & Hs3 & Hk3 & Hr3 & Hl3). apply pwp_bind. eapply pwp_mono; [apply pwp_reg|].
  cbn beta. intros r s4 (_ & _ & [[-> EH]|[-> (y & i & rate & q2x & Ey & EH & EE)]]).
  - cbn [Z.eqb negb]. apply pwp_synack_fail. rewrite EH. intros y Ey. congruence.
  - assert (y = x3) as -> by congruence. cbn [Z.eqb negb]. apply pwp_bind, pwp_upd_conn. intros y Ey'.
    rewrite EH, lookup_insert_eq in Ey'. injection Ey' as <-.
    set (s5 := s4 <| k_heap ::= _ |>).
    assert (H5 : client_side e pkt p c s5).
    { intros c2 Ec2 _. revert Ec2. subst s5. ctl_simpl. rewrite lookup_insert_eq. intros [= <-].
      split; [exact Hk3|]. split; [exact Hr3|]. split; [exact Hl3|]. exists i, rate, q2x. rewrite EE. apply lookup_insert_eq. }
    clearbody s5. apply pwp_bind, pwp_rd_conn. intros z _. apply pwp_bind, pwp_modify. apply pwp_bind.
    apply pwp_bind, pwp_rd_conn. intros z' _. eapply pwp_mono; [apply pwp_send|]. cbn beta.
    intros _ s6 [S1 _ S3 _]. apply pwp_ret. intros c2. rewrite S1, S3. apply H5.
Qed.

Lemma pwp_connection e now p pkt qid o c s :
  k_heap s !! p = Some c -> tn_status c = CONN_WAIT_RX_SYNACK ->
  pwp (tcp_connection_pkt e now p pkt qid o) s (fun _ s' => client_side e pkt p c s').
Proof.
  intros Ec Hs. unfold tcp_connection_pkt. apply pwp_bind, pwp_rd_conn. intros c' Ec'.
  assert (c' = c) as -> by congruence. rewrite decide_True by done. apply pwp_bind, pwp_upd_conn. intros c' Ec2.
  assert (c' = c) as -> by congruence. apply pwp_bind. eapply pwp_mono; [apply (pwp_synack e now p pkt o c)|].
  - intros x. ctl_simpl. rewrite lookup_insert_eq. intros [= <-]. cbn. by rewrite Hs.
  - cbn beta. intros _ s' H. by apply pwp_ret.
Qed.

(** The packets the handshake sends for a connection. *)
Definition news (s s' : ctl) : list ctl_out := drop (length (k_out s)) (k_out s').

Definition says (s s' : ctl) (P : pkt_tcp -> Prop) : Prop :=
  exists o, k_out s' = k_out s ++ o /\ forall q t pk n, Xmit q t pk n ∈ o -> P pk.

Lemma says_news s s' P q t pk n : says s s' P -> Xmit q t pk n ∈ news s s' -> P pk.
Proof. intros (o & E & H). unfold news. rewrite E, drop_app_length. apply H. Qed.

Lemma says_refl s s' P : k_out s' = k_out s -> says s s' P.
Proof.
  intros E. exists []. rewrite app_nil_r. split; [done|]. intros q t pk n Hx. by apply not_elem_of_nil in Hx.
Qed.

Lemma says_emit s s' P x :
  says s s' P -> (forall q t pk n, x <> Xmit q t pk n) -> says s (s' <| k_out ::= fun l => l ++ [x] |>) P.
Proof.
  intros (o & E & H) Hx. exists (o ++ [x]). split; [ctl_simpl; by rewrite E, app_assoc|].
  intros q t pk n. rewrite elem_of_app, list_elem_of_singleton. intros [Hin|Heq]; [by eapply H|]. by destruct (Hx q t pk n).
Qed.

(** A connection is sent as it is. *)
Definition from_conn (e : ctl_env) (c : tcp_connection) (pk : pkt_tcp) : Prop :=
  exists flags ts, pk = control_pkt (e_pkt_base e) (e_junk e) (conn_endpoints c) flags true ts TCP_MSS.

Lemma pwp_control e p c x s s0 flags ts :
  k_heap s !! p = Some x -> conn_endpoints x = conn_endpoints c -> k_out s = k_out s0 ->
  pwp (send_tcp_control e p flags true ts TCP_MSS) s (fun _ s' => says s0 s' (from_conn e c)).
Proof.
  intros Ec Ee Eo. apply pwp_bind, pwp_rd_conn. intros c' Ec'. assert (c' = x) as -> by congruence. rewrite Ee.
  eapply pwp_mono; [apply pwp_send|]. cbn beta. intros _ s' [_ _ _ (o & E & H)]. exists o. split; [by rewrite E, Eo|].
  intros q t pk n Hin. apply H in Hin as ->. by exists flags, ts.
Qed.

Lemma pwp_handshake e now p c s :
  k_heap s !! p = Some c -> pwp (handshake_event e now p) s (fun _ s' => says s s' (from_conn e c)).
Proof.
  intros Ec. unfold handshake_event. apply pwp_bind, pwp_rd_conn. intros c' Ec'. assert (c' = c) as -> by congruence.
  destruct (tn_status c); try (by apply pwp_ret, says_refl).
  - apply pwp_bind, pwp_upd_conn. intros c' Ec2. assert (c' = c) as -> by congruence. apply pwp_bind.
    eapply (pwp_mono _ _ (fun _ s' => says s s' (from_conn e c))).
    { destruct (nz _); (eapply (pwp_control e p c); [apply lookup_insert_eq|reflexivity|reflexivity]). }
    cbn beta. intros _ s1 H1. apply pwp_bind, pwp_must. intros lp _. apply pwp_bind, pwp_rd_lst. intros l _.
    apply pwp_modify. by apply says_emit.
  - apply pwp_bind, pwp_upd_conn. intros c' Ec2. assert (c' = c) as -> by congruence.
    eapply (pwp_control e p c); [apply lookup_insert_eq|reflexivity|reflexivity].
Qed.

(** ** Both ends *)

(** A packet as it arrives: link-layer addresses and what follows the packet in
    its buffer are those of the receiver. *)
Definition arrives (pk pk' : pkt_tcp) : Prop :=
  p_ip pk' = p_ip pk /\ p_tcp pk' = p_tcp pk /\ exists rest, p_opts pk' = p_opts pk ++ rest.

(** Two entries that describe the two ends of one connection. *)
Record mirrored (a b : bpf_tcp_conn) : Prop := {
  mi_ip : local_ip a = remote_ip b;
  mi_ip' : remote_ip a = local_ip b;
  mi_port : local_port a = remote_port b;
  mi_port' : remote_port a = local_port b;
  mi_seq : tx_next_seq a = rx_next_seq b;
  mi_seq' : rx_next_seq a = tx_next_seq b
}.

(** An entry from which the theorems on the data path start, in both builds. *)
Definition fresh_entry (b : bpf_tcp_conn) : Prop :=
  rx_reach (rx_next_seq b) b (rx_next_seq b) (rx_next_seq b) (fun _ => False) /\
  @snd_reach etran_build (tx_next_seq b) b /\ @snd_reach mtp_build (tx_next_seq b) b.

(** Buffers of a size the ring arithmetic can count. *)
Definition buffers_ok (e : ctl_env) : Prop :=
  0 < e_rx_buf_size e <= 1073741824 /\ 0 < e_tx_buf_size e <= 1073741824.

Lemma ebpf_conn_fresh e c listen i rate q2x :
  buffers_ok e -> in32 (tn_local_seq c) -> in32 (tn_remote_seq c) ->
  fresh_entry (ebpf_conn e c listen i rate q2x).
Proof.
  intros [Hrx Htx] Hl Hr. set (snd := if listen then tn_local_seq c ⊕ 1 else tn_local_seq c).
  assert (Hs : in32 snd) by (subst snd; destruct listen; [apply u32_range|done]).
  unfold fresh_entry. change (tx_next_seq (ebpf_conn e c listen i rate q2x)) with snd.
  change (rx_next_seq (ebpf_conn e c listen i rate q2x)) with (tn_remote_seq c). split_and!.
  - apply reach_open; cbn; [by rewrite u32_small|done|done|done|].
    change (Z.shiftl 65535 TCP_WND_SCALE) with (Z.shiftl 65535 3). split; [|lia]. apply Z.min_glb; [lia|done].
  - apply snd_open; [change (snd = u32 snd); by rewrite u32_small|done|done|done|done].
  - apply snd_open; [change (snd = u32 snd); by rewrite u32_small|done| | |done].
    + change (snd ⊖ snd = 0). by rewrite Z.sub_diag.
    + split; cbn; [done|done|lia].
Qed.

(** The ends of a connection in the range of their header fields. *)
Definition in_range (c : tcp_connection) : Prop :=
  in32 (tn_local_ip c) /\ in32 (tn_remote_ip c) /\ in16 (tn_local_port c) /\ in16 (tn_remote_port c) /\
  in32 (tn_local_seq c).

Lemma entry_mirrored ec es c1 c2 i i' rate rate' q q' :
  conn_key c1 = mk_flow_tuple (tn_local_ip c2) (tn_local_port c2) (tn_remote_ip c2) (tn_remote_port c2) ->
  tn_local_seq c2 = tn_remote_seq c1 -> tn_remote_seq c2 = tn_local_seq c1 ⊕ 1 ->
  mirrored (ebpf_conn ec c2 false i rate q) (ebpf_conn es c1 true i' rate' q').
Proof. intros [= E1 E2 E3 E4] H1 H2. by split. Qed.

(** C3. The handshake establishes one connection.  Take a client that sends a
    SYN and a listener with a waiting connection and an empty backlog that
    receives it; the SYN-ACK
    the server then sends for that connection reaches the client.  If the
    server's connection was accepted and the client's is open, then both hosts
    hold an entry for the fast path, the entries name each other's addresses
    and ports, the next sequence number each side sends is the one the other
    expects, and both entries are initial states of the data path of both
    builds, so that the theorems on acknowledgements and segments apply. *)
Theorem handshake_establishes (ec es : ctl_env) (l : tcp_listener) (lp p pc : Z)
  (c c' c1 c2 : tcp_connection) (k0 k1 k2 k3 v0 v1 v2 v3 : ctl) (syn syn' synack synack' : pkt_tcp) (o : tcp_opts)
  (q0 n0 q1 q2 n2 q3 t0 t1 t2 : Z) (m0 m2 : tx_meta)
  (Hbufs : buffers_ok ec /\ buffers_ok es) (Hrange : in_range c)
  (Hclient : k_heap k0 !! pc = Some c)
  (Hsend : handshake_event ec t0 pc k0 = Some (tt, k1)) (Hsyn : Xmit q0 m0 syn n0 ∈ news k0 k1)
  (Hwire : arrives syn syn')
  (Hlistener : k_lheap v0 !! lp = Some l) (Hempty : tl_backlog l = []) (Hpending : tl_pending_conn l = Some p)
  (Haddr : e_local_ip es = tn_remote_ip c /\ tl_listen_port l = tn_remote_port c)
  (Hwaiting : forall x, k_heap v0 !! p = Some x -> tn_status x = CONN_WAIT_RX_SYN)
  (Haccept : tcp_listener_pkt es lp syn' q1 v0 = Some (tt, v1))
  (Haccepted : k_heap v1 !! p = Some c1 /\ tn_status c1 = CONN_WAIT_TX_SYNACK)
  (Hserver : k_heap v2 !! p = Some c1)
  (Hanswer : handshake_event es t1 p v2 = Some (tt, v3)) (Hsynack : Xmit q2 m2 synack n2 ∈ news v2 v3)
  (Hwire' : arrives synack synack')
  (Hwait : k_heap k2 !! pc = Some c' /\ tn_status c' = CONN_WAIT_RX_SYNACK /\ conn_key c' = conn_key c)
  (Hreceive : tcp_connection_pkt ec t2 pc synack' q3 o k2 = Some (tt, k3))
  (Hopen : k_heap k3 !! pc = Some c2 /\ tn_status c2 = CONN_OPEN) :
  exists b1 b2, k_ebpf v1 !! conn_ebpf_key c1 = Some b1 /\ k_ebpf k3 !! conn_ebpf_key c2 = Some b2 /\
    mirrored b2 b1 /\ fresh_entry b1 /\ fresh_entry b2.
Proof.
  destruct Hbufs as [Hbc Hbs], Hrange as (R1 & R2 & R3 & R4 & R5), Haddr as [Hip Hport].
  destruct Haccepted as [Ec1 Hs1], Hwait as (Ec' & Hs' & Hk'), Hopen as [Ec2 Hs2].
  destruct (says_news _ _ _ _ _ _ _ (pwp_handshake ec t0 pc c k0 Hclient _ _ Hsend) Hsyn) as (f0 & ts0 & ->).
  destruct Hwire as (Wi & Wt & _), Hwire' as (Wi' & Wt' & _).
  destruct (pwp_listener es lp l p syn' q1 v0 Hlistener Hpending Hempty) with (2 := Haccept) (3 := Ec1) (4 := Hs1)
    as (Hk1 & Hr1 & Hl1 & i1 & rate1 & q2x1 & EB1); [intros x Hx; by rewrite (Hwaiting x Hx)|].
  destruct (says_news _ _ _ _ _ _ _ (pwp_handshake es t1 p c1 v2 Hserver _ _ Hanswer) Hsynack) as (f1 & ts1 & ->).
  destruct (pwp_connection ec t2 pc synack' q3 o c' k2 Ec' Hs' _ _ Hreceive c2 Ec2 Hs2)
    as (Hk2 & Hr2 & Hl2 & i2 & rate2 & q2x2 & EB2).
  rewrite Wi, Wt in Hk1. rewrite Wt in Hr1. rewrite Wt' in Hr2, Hl2. cbn in Hk1, Hr1, Hr2, Hl2.
  assert (Hr1' : in32 (tn_remote_seq c1)) by (rewrite Hr1; apply u32_range).
  rewrite bpf_ntohl_htonl in Hk1, Hr1, Hr2, Hl2 by (done || (rewrite Hl1; by split)).
  rewrite bpf_ntohs_htons in Hk1 by done.
  eexists _, _. split; [exact EB1|]. split; [exact EB2|]. split_and!.
  - rewrite Hk' in Hk2. injection Hk2 as K1 K2 K3 K4.
    apply entry_mirrored; [by rewrite Hk1, Hip, Hport, K1, K2, K3, K4|done|done].
  - apply ebpf_conn_fresh; [done|rewrite Hl1; by split|done].
  - apply ebpf_conn_fresh; [done|by rewrite Hl2|rewrite Hr2; apply u32_range].
Qed.

(** ** On the hosts of [CtlRuns] *)

Definition or_boot (x : option ctl) : ctl := default boot x.
Definition first_packet (s s' : ctl) : pkt_tcp := default the_syn (head (the_packets (news s s'))).

Definition cl0 : ctl := Eval vm_compute in or_boot client_up.
Definition cl1 : ctl := Eval vm_compute in or_boot (run (handshake_event (host 1) 0 100) cl0).
Definition syn1 : pkt_tcp := Eval vm_compute in first_packet cl0 cl1.
Definition sv1 : ctl := Eval vm_compute in or_boot (run (tcp_listener_pkt (host 2) 101 (deliver syn1) 0) accepting).
Definition sv2 : ctl := Eval vm_compute in or_boot (run (handshake_event (host 2) 0 102) sv1).
Definition synack1 : pkt_tcp := Eval vm_compute in first_packet sv1 sv2.
Definition opts1 : tcp_opts := Eval vm_compute in
  match parse_tcp_opts (deliver synack1) with Parsed _ o => o | _ => opts_none end.
Definition cl2 : ctl := Eval vm_compute in
  or_boot (run (tcp_connection_pkt (host 1) 0 100 (deliver synack1) 0 opts1) cl1).

Definition conn_at (s : ctl) (p : Z) : tcp_connection := default new_connection (k_heap s !! p).

Lemma handshake_establishes_witness :
  exists b1 b2, k_ebpf sv1 !! mk_ebpf_flow_tuple 0xc0a80602 0xc0a80601 1000 1000 = Some b1 /\
    k_ebpf cl2 !! mk_ebpf_flow_tuple 0xc0a80601 0xc0a80602 1000 1000 = Some b2 /\
    mirrored b2 b1 /\ fresh_entry b1 /\ fresh_entry b2.
Proof.
  refine (handshake_establishes (host 1) (host 2) (mk_tcp_listener thr 0xbbbb 8 [] 1000 (Some 102) 100 3) 101 102 100
    (conn_at cl0 100) (conn_at cl1 100) (conn_at sv1 102) (conn_at cl2 100)
    cl0 cl1 cl1 cl2 accepting sv1 sv1 sv2 syn1 (deliver syn1) synack1 (deliver synack1) opts1
    0 70 0 0 70 0 0 0 0 (mk_tx_meta 1 0 0 0 0 0) (mk_tx_meta 1 0 0 0 0 0)
    _ _ _ _ _ _ _ _ _ _ _ _ _ _ _ _ _ _ _ _).
  - split; (split; cbn; lia).
  - split_and!; vm_compute; by split.
  - by vm_compute.
  - by vm_compute.
  - vm_compute. by left.
  - split_and!; [done|done|]. by exists mac_zero.
  - by vm_compute.
  - done.
  - done.
  - done.
  - intros x Hx. vm_compute in Hx. by injection Hx as <-.
  - by vm_compute.
  - by vm_compute.
  - by vm_compute.
  - by vm_compute.
  - vm_compute. by left.
  - split_and!; [done|done|]. by exists mac_zero.
  - by vm_compute.
  - by vm_compute.
  - by vm_compute.
Defined.
