(* ===== verification/BufPool.v ===== *)
(** The pool of packet buffers in shared memory
    ([common/xskbp/xsk_buffer_pool.*]): slabs of buffer addresses that threads
    exchange with the pool, a full one for an empty one. *)
From stdpp Require Import gmap fin_maps.
From S2P Require Import Prelude.
Local Open Scope Z_scope.

(** ** State *)

Record buffer_pool_params := mk_buffer_pool_params {
  pr_nr_buffers : Z;
  pr_buffer_size : Z;
  pr_nr_users_max : Z;
  pr_nr_buffers_per_slab : Z
}.

#[export] Instance eta_buffer_pool_params : Eta buffer_pool_params := fun r =>
  mk_buffer_pool_params (pr_nr_buffers r) (pr_buffer_size r) (pr_nr_users_max r) (pr_nr_buffers_per_slab r).

Definition XSK_NUM_DESCS : Z := 2048.
Definition UMEM_FRAME_SIZE : Z := 4096.

(** [init_bp_params] *)
Definition init_bp_params : buffer_pool_params :=
  mk_buffer_pool_params (64 * XSK_NUM_DESCS) UMEM_FRAME_SIZE 32 (XSK_NUM_DESCS * 2).

(** The arrays [buffers] and [buffers_swap] are adjacent: [bp_mem] holds both,
    and a slab pointer is the index of its first entry. *)
Record buffer_pool := mk_buffer_pool {
  bp_slabs : list Z;
  bp_slabs_swap : list Z;
  bp_mem : gmap Z Z;
  bp_nr_slabs : Z;
  bp_nr_slabs_avail : Z;
  bp_nr_slabs_swap_avail : Z
}.

#[export] Instance eta_buffer_pool : Eta buffer_pool := fun r =>
  mk_buffer_pool (bp_slabs r) (bp_slabs_swap r) (bp_mem r) (bp_nr_slabs r) (bp_nr_slabs_avail r)
    (bp_nr_slabs_swap_avail r).

Record thread_bcache := mk_thread_bcache {
  slabs_cons : Z;
  slabs_prod : Z;
  nr_buffers_cons : Z;
  nr_buffers_prod : Z
}.

#[export] Instance eta_thread_bcache : Eta thread_bcache := fun r =>
  mk_thread_bcache (slabs_cons r) (slabs_prod r) (nr_buffers_cons r) (nr_buffers_prod r).

(** Array accesses; outside the array they are undefined. *)
Definition rdz {A} (l : list A) (i : Z) : option A := if 0 <=? i then l !! Z.to_nat i else None.

Definition wrz {A} (l : list A) (i : Z) (v : A) : option (list A) :=
  if (0 <=? i) && (i <? Z.of_nat (length l)) then Some (<[Z.to_nat i := v]> l) else None.

Definition wr_mem (m : gmap Z Z) (a v : Z) : option (gmap Z Z) :=
  match m !! a with Some _ => Some (<[a := v]> m) | None => None end.

Lemma rdz_in {A} (l : list A) i : 0 <= i < Z.of_nat (length l) -> exists v, rdz l i = Some v /\ l !! Z.to_nat i = Some v.
Proof.
  intros Hi. destruct (lookup_lt_is_Some_2 l (Z.to_nat i)) as [v Hv]; [lia|]. exists v. unfold rdz.
  destruct (Z.leb_spec 0 i); [done|lia].
Qed.

Lemma wrz_in {A} (l : list A) i v : 0 <= i < Z.of_nat (length l) -> wrz l i v = Some (<[Z.to_nat i := v]> l).
Proof. intros Hi. unfold wrz. destruct (Z.leb_spec 0 i), (Z.ltb_spec i (Z.of_nat (length l))); done || lia. Qed.

Lemma wr_mem_in m a v : is_Some (m !! a) -> wr_mem m a v = Some (<[a := v]> m).
Proof. intros [x E]. unfold wr_mem. by rewrite E. Qed.

(** ** Operations *)

(** The size computations of [bp_init]. *)
Definition nr_slabs_of (pr : buffer_pool_params) : Z :=
  (pr_nr_buffers pr + pr_nr_buffers_per_slab pr - 1) / pr_nr_buffers_per_slab pr.

Definition nr_slabs_swap_of (pr : buffer_pool_params) : Z := pr_nr_users_max pr * 2.

(** [bp_init]: parameters with the rounded number of buffers, and the pool. *)
Definition bp_init (pr : buffer_pool_params) : buffer_pool_params * buffer_pool :=
  let per := pr_nr_buffers_per_slab pr in
  let nr_slabs := nr_slabs_of pr in
  let nr_buffers := nr_slabs * per in
  let nr_slabs_swap := nr_slabs_swap_of pr in
  let buffers := (fun i => (i, i * pr_buffer_size pr)) <$> seqZ 0 nr_buffers in
  let buffers_swap := (fun i => (i, 0)) <$> seqZ nr_buffers (nr_slabs_swap * per) in
  (pr <| pr_nr_buffers := nr_buffers |>,
   mk_buffer_pool ((fun i => i * per) <$> seqZ 0 nr_slabs)
     ((fun i => nr_buffers + i * per) <$> seqZ 0 nr_slabs_swap)
     (list_to_map (buffers ++ buffers_swap)) nr_slabs nr_slabs nr_slabs_swap).

(** [thread_bcache_create] *)
Definition thread_bcache_create (bp : buffer_pool) : option (Z * thread_bcache * buffer_pool) :=
  let n := bp_nr_slabs_swap_avail bp in
  if n <? 2 then Some (-1, mk_thread_bcache 0 0 0 0, bp)
  else
    c ← rdz (bp_slabs_swap bp) (n - 1);
    p ← rdz (bp_slabs_swap bp) (n - 2);
    Some (0, mk_thread_bcache c p 0 0, bp <| bp_nr_slabs_swap_avail := n - 2 |>).

(** [thread_bcache_free] *)
Definition thread_bcache_free (bc : thread_bcache) (bp : buffer_pool) : option buffer_pool :=
  let n := bp_nr_slabs_swap_avail bp in
  sw ← wrz (bp_slabs_swap bp) n (slabs_cons bc);
  sw ← wrz sw (n + 1) (slabs_prod bc);
  Some (bp <| bp_slabs_swap := sw |> <| bp_nr_slabs_swap_avail := n + 2 |>).

(** [thread_bcache_check] *)
Definition thread_bcache_check (pr : buffer_pool_params) (bc : thread_bcache) (nr_req_buffers : Z)
  (bp : buffer_pool) : option (Z * thread_bcache * buffer_pool) :=
  if negb (nr_buffers_cons bc =? 0) then
    Some (if nr_buffers_cons bc <? nr_req_buffers then nr_buffers_cons bc else nr_req_buffers, bc, bp)
  else if bp_nr_slabs_avail bp =? 0 then Some (0, bc, bp)
  else
    let n := bp_nr_slabs_avail bp - 1 in
    slab_full ← rdz (bp_slabs bp) n;
    sl ← wrz (bp_slabs bp) n (slabs_cons bc);
    Some (nr_req_buffers,
          bc <| slabs_cons := slab_full |> <| nr_buffers_cons := pr_nr_buffers_per_slab pr |>,
          bp <| bp_slabs := sl |> <| bp_nr_slabs_avail := n |>).

(** [fix_umem_offset] *)
Definition fix_umem_offset (addr : Z) : Z := Z.land addr (Z.lnot (UMEM_FRAME_SIZE - 1)).

(** [thread_bcache_cons] *)
Definition thread_bcache_cons (bc : thread_bcache) (bp : buffer_pool) : option (Z * thread_bcache) :=
  if negb (nr_buffers_cons bc >? 0) then None
  else
    addr ← bp_mem bp !! (slabs_cons bc + (nr_buffers_cons bc - 1));
    Some (addr, bc <| nr_buffers_cons := nr_buffers_cons bc - 1 |>).

(** [thread_bcache_prod] *)
Definition thread_bcache_prod (pr : buffer_pool_params) (bc : thread_bcache) (buffer : Z)
  (bp : buffer_pool) : option (thread_bcache * buffer_pool) :=
  let buffer := fix_umem_offset buffer in
  if negb (bp_nr_slabs_avail bp <=? bp_nr_slabs bp) then None
  else if nr_buffers_prod bc <? pr_nr_buffers_per_slab pr then
    m ← wr_mem (bp_mem bp) (slabs_prod bc + nr_buffers_prod bc) buffer;
    Some (bc <| nr_buffers_prod := nr_buffers_prod bc + 1 |>, bp <| bp_mem := m |>)
  else
    let n := bp_nr_slabs_avail bp in
    slab_empty ← rdz (bp_slabs bp) n;
    sl ← wrz (bp_slabs bp) n (slabs_prod bc);
    m ← wr_mem (bp_mem bp) slab_empty buffer;
    Some (bc <| slabs_prod := slab_empty |> <| nr_buffers_prod := 1 |>,
          bp <| bp_slabs := sl |> <| bp_nr_slabs_avail := n + 1 |> <| bp_mem := m |>).

(** ** Threads that share a pool *)

(** The pool, the caches of the threads, and the buffers that are in neither:
    in the hands of a thread, of the NIC or of the kernel, or left behind in a
    cache that was freed. *)
Record bp_sys := mk_bp_sys {
  sy_bp : buffer_pool;
  sy_caches : gmap Z thread_bcache;
  sy_out : gset Z
}.

#[export] Instance eta_bp_sys : Eta bp_sys := fun r => mk_bp_sys (sy_bp r) (sy_caches r) (sy_out r).

Inductive bp_op := Create (t : Z) | Free (t : Z) | Check_ (t n : Z) | Cons (t : Z) | Prod (t addr : Z).

(** The buffers in a cache. *)
Definition slab_buffers (bp : buffer_pool) (p n : Z) : gset Z :=
  list_to_set (omap (fun k => bp_mem bp !! (p + k)) (seqZ 0 n)).

Definition cached (bc : thread_bcache) (bp : buffer_pool) : gset Z :=
  slab_buffers bp (slabs_cons bc) (nr_buffers_cons bc) ∪ slab_buffers bp (slabs_prod bc) (nr_buffers_prod bc).

(** An operation of a thread, with its result; the slow paths are under the
    lock of the pool and the fast paths touch memory of one thread only. *)
Definition bp_exec (pr : buffer_pool_params) (op : bp_op) (s : bp_sys) : option (Z * bp_sys) :=
  let bp := sy_bp s in
  match op with
  | Create t =>
    '(r, bc, bp) ← thread_bcache_create bp;
    Some (r, if r =? 0 then s <| sy_bp := bp |> <| sy_caches ::= <[t := bc]> |> else s)
  | Free t =>
    bc ← sy_caches s !! t;
    bp ← thread_bcache_free bc bp;
    Some (0, s <| sy_bp := bp |> <| sy_caches ::= delete t |> <| sy_out ::= union (cached bc (sy_bp s)) |>)
  | Check_ t n =>
    bc ← sy_caches s !! t;
    '(r, bc, bp) ← thread_bcache_check pr bc n bp;
    Some (r, s <| sy_bp := bp |> <| sy_caches ::= <[t := bc]> |>)
  | Cons t =>
    bc ← sy_caches s !! t;
    '(a, bc) ← thread_bcache_cons bc bp;
    Some (a, s <| sy_caches ::= <[t := bc]> |> <| sy_out ::= union {[ a ]} |>)
  | Prod t addr =>
    bc ← sy_caches s !! t;
    '(bc, bp) ← thread_bcache_prod pr bc addr bp;
    Some (0, s <| sy_bp := bp |> <| sy_caches ::= <[t := bc]> |>
               <| sy_out ::= fun o => o ∖ {[ fix_umem_offset addr ]} |>)
  end.

(** The buffers an operation leaves behind: [thread_bcache_free] returns the
    slabs of the cache as empty ones. *)
Definition left_by (op : bp_op) (s : bp_sys) : gset Z :=
  match op with
  | Free t => from_option (fun bc => cached bc (sy_bp s)) ∅ (sy_caches s !! t)
  | _ => ∅
  end.

(** What a caller respects: a thread has one cache, and an address is returned
    only while its buffer is handed out; [lost] are the buffers left behind so
    far. *)
Definition bp_allowed (op : bp_op) (s : bp_sys) (lost : gset Z) : Prop :=
  match op with
  | Create t => sy_caches s !! t = None
  | Free t | Check_ t _ | Cons t => is_Some (sy_caches s !! t)
  | Prod t addr => is_Some (sy_caches s !! t) /\ fix_umem_offset addr ∈ sy_out s ∖ lost
  end.

(** The states a pool gets into, with the buffers left behind. *)
Inductive bp_reach (pr : buffer_pool_params) : bp_sys -> gset Z -> Prop :=
| bp_reach_init : bp_reach pr (mk_bp_sys (bp_init pr).2 ∅ ∅) ∅
| bp_reach_op s lost op r s' : bp_reach pr s lost -> bp_allowed op s lost -> bp_exec pr op s = Some (r, s') ->
    bp_reach pr s' (left_by op s ∪ lost).

(** ** Invariant *)

(** Where a slab pointer can be. *)
Inductive place := P_slab (i : nat) | P_swap (i : nat) | P_cons (t : Z) | P_prod (t : Z).

#[export] Instance place_eq_dec : EqDecision place.
Proof. solve_decision. Defined.

Definition ptr_at (s : bp_sys) (x : place) : option Z :=
  match x with
  | P_slab i => bp_slabs (sy_bp s) !! i
  | P_swap i => if Z.of_nat i <? bp_nr_slabs_swap_avail (sy_bp s) then bp_slabs_swap (sy_bp s) !! i else None
  | P_cons t => slabs_cons <$> sy_caches s !! t
  | P_prod t => slabs_prod <$> sy_caches s !! t
  end.

(** How many entries of the slab there are buffers. *)
Definition level (per : Z) (s : bp_sys) (x : place) : Z :=
  match x with
  | P_slab i => if Z.of_nat i <? bp_nr_slabs_avail (sy_bp s) then per else 0
  | P_swap _ => 0
  | P_cons t => from_option nr_buffers_cons 0 (sy_caches s !! t)
  | P_prod t => from_option nr_buffers_prod 0 (sy_caches s !! t)
  end.

(** Entry [k] of the slab at [x] is the free buffer [a]. *)
Definition cell (per : Z) (s : bp_sys) (x : place) (k a : Z) : Prop :=
  exists p, ptr_at s x = Some p /\ 0 <= k < level per s x /\ bp_mem (sy_bp s) !! (p + k) = Some a.

Section Pool.
Context (pr : buffer_pool_params).

Let per : Z := pr_nr_buffers_per_slab pr.
Let nslabs : Z := nr_slabs_of pr.
Let nswap : Z := nr_slabs_swap_of pr.

(** Parameters under which the pool makes sense; those of [init_bp_params] do. *)
Record params_ok : Prop := {
  pk_per : 0 < per;
  pk_buffers : 0 <= pr_nr_buffers pr;
  pk_users : 0 <= pr_nr_users_max pr;
  pk_size : pr_buffer_size pr = UMEM_FRAME_SIZE
}.

(** The addresses of the frames of the UMEM. *)
Definition frames : list Z := (fun i => i * UMEM_FRAME_SIZE) <$> seqZ 0 (nslabs * per).

Record shape (s : bp_sys) : Prop := {
  sh_slabs : Z.of_nat (length (bp_slabs (sy_bp s))) = nslabs;
  sh_nr : bp_nr_slabs (sy_bp s) = nslabs;
  sh_avail : 0 <= bp_nr_slabs_avail (sy_bp s) <= nslabs;
  sh_swaps : Z.of_nat (length (bp_slabs_swap (sy_bp s))) = nswap;
  sh_swap : 0 <= bp_nr_slabs_swap_avail (sy_bp s);
  sh_users : bp_nr_slabs_swap_avail (sy_bp s) + 2 * Z.of_nat (size (sy_caches s)) = nswap;
  sh_counts : forall t bc, sy_caches s !! t = Some bc -> 0 <= nr_buffers_cons bc <= per /\ 0 <= nr_buffers_prod bc <= per
}.

Record content (s : bp_sys) : Prop := {
  co_ptr : forall x p, ptr_at s x = Some p -> exists k, p = k * per /\ 0 <= k < nslabs + nswap;
  co_inj : forall x y p, ptr_at s x = Some p -> ptr_at s y = Some p -> x = y;
  co_mem : forall a, 0 <= a < (nslabs + nswap) * per -> is_Some (bp_mem (sy_bp s) !! a);
  co_out : forall a, a ∈ sy_out s -> a ∈ frames;
  co_cell : forall x k a, cell per s x k a -> a ∈ frames /\ a ∉ sy_out s;
  co_uniq : forall x y k j a, cell per s x k a -> cell per s y j a -> x = y /\ k = j;
  co_all : forall a, a ∈ frames -> a ∈ sy_out s \/ exists x k, cell per s x k a
}.

Record bp_inv (s : bp_sys) : Prop := { bi_shape : shape s; bi_content : content s }.

Context (Hpr : params_ok).

Lemma per_pos : 0 < per.
Proof. apply Hpr. Qed.

Lemma nslabs_nonneg : 0 <= nslabs.
Proof. destruct Hpr as [H1 H2 _ _]. unfold nslabs, nr_slabs_of. fold per. apply Z.div_pos; lia. Qed.

Lemma nswap_nonneg : 0 <= nswap.
Proof. destruct Hpr as [_ _ H _]. unfold nswap, nr_slabs_swap_of. lia. Qed.

(** Entries of different slabs are different. *)
Lemma slab_apart k k' i j : 0 <= i < per -> 0 <= j < per -> k * per + i = k' * per + j -> k = k' /\ i = j.
Proof. intros. assert (k = k') by nia. subst. lia. Qed.

(** A state that differs by moving slabs from place to place. *)
Lemma content_rename s s' (f g : place -> place) :
  content s -> (forall x, g (f x) = x) -> (forall x, f (g x) = x) ->
  bp_mem (sy_bp s') = bp_mem (sy_bp s) -> sy_out s' = sy_out s ->
  (forall x, ptr_at s' x = ptr_at s (f x)) -> (forall x, level per s' x = level per s (f x)) -> content s'.
Proof.
  intros [C1 C2 C3 C4 C5 C6 C7] Hgf Hfg Em Eo Ep El.
  assert (Hc : forall x k a, cell per s' x k a <-> cell per s (f x) k a) by (intros; unfold cell; by rewrite Ep, El, Em).
  split; rewrite ?Em, ?Eo; [| |done|done| | |].
  - intros x p. rewrite Ep. apply C1.
  - intros x y p. rewrite !Ep. intros H1 H2. rewrite <- (Hgf x), <- (Hgf y). f_equal. by eapply C2.
  - intros x k a Hx%Hc. eauto.
  - intros x y k j a Hx%Hc Hy%Hc. destruct (C6 _ _ _ _ _ Hx Hy) as [E ->]. split; [|done].
    by rewrite <- (Hgf x), E, Hgf.
  - intros a Ha. destruct (C7 a Ha) as [?|(x & k & Hx)]; [by left|right]. exists (g x), k. apply Hc. by rewrite Hfg.
Qed.

(** Exchange of two places. *)
Definition xch (a b x : place) : place := if decide (x = a) then b else if decide (x = b) then a else x.

Lemma xch_inv a b x : xch a b (xch a b x) = x.
Proof. unfold xch. repeat case_decide; congruence. Qed.

Lemma xch_other a b x : x <> a -> x <> b -> xch a b x = x.
Proof. intros. unfold xch. by rewrite !decide_False by done. Qed.

Lemma xch_l a b : xch a b a = b.
Proof. unfold xch. by rewrite decide_True. Qed.

Lemma xch_r a b : xch a b b = a.
Proof. unfold xch. destruct (decide (b = a)) as [->|]; [done|by rewrite decide_True]. Qed.

(** Two slabs exchanged. *)
Lemma content_xch s s' a b :
  content s -> bp_mem (sy_bp s') = bp_mem (sy_bp s) -> sy_out s' = sy_out s ->
  ptr_at s' a = ptr_at s b -> ptr_at s' b = ptr_at s a ->
  level per s' a = level per s b -> level per s' b = level per s a ->
  (forall x, x <> a -> x <> b -> ptr_at s' x = ptr_at s x /\ level per s' x = level per s x) -> content s'.
Proof.
  intros HC Em Eo Pa Pb La Lb Hx. eapply (content_rename s s' (xch a b) (xch a b)); try done; [apply xch_inv|apply xch_inv| |].
  all: intros x; destruct (decide (x = a)) as [->|]; [by rewrite xch_l|].
  all: destruct (decide (x = b)) as [->|]; [by rewrite xch_r|rewrite xch_other by done; by apply Hx].
Qed.

(** A pair of slabs exchanged with another pair. *)
Lemma content_xch2 s s' a b c d :
  content s -> bp_mem (sy_bp s') = bp_mem (sy_bp s) -> sy_out s' = sy_out s ->
  NoDup [a; b; c; d] ->
  ptr_at s' a = ptr_at s c -> ptr_at s' c = ptr_at s a -> ptr_at s' b = ptr_at s d -> ptr_at s' d = ptr_at s b ->
  level per s' a = level per s c -> level per s' c = level per s a ->
  level per s' b = level per s d -> level per s' d = level per s b ->
  (forall x, x <> a -> x <> b -> x <> c -> x <> d -> ptr_at s' x = ptr_at s x /\ level per s' x = level per s x) -> content s'.
Proof.
  intros HC Em Eo Hnd Pa Pc Pb Pd La Lc Lb Ld Hx.
  assert (H : forall x, xch a c (xch b d x) = if decide (x = a) then c else if decide (x = b) then d else
    if decide (x = c) then a else if decide (x = d) then b else x).
  { apply list.NoDup_cons in Hnd as [H1 [H2 [H3 _]%list.NoDup_cons]%list.NoDup_cons].
    assert (a <> b /\ a <> c /\ a <> d /\ b <> c /\ b <> d /\ c <> d) as (?&?&?&?&?&?) by set_solver.
    intros x. unfold xch. repeat case_decide; congruence. }
  eapply (content_rename s s' (fun x => xch a c (xch b d x)) (fun x => xch b d (xch a c x))); try done.
  1,2: intros x; by rewrite !xch_inv.
  all: intros x; rewrite H; repeat case_decide; subst; try done; by apply Hx.
Qed.

Lemma inv_create t s : bp_inv s -> sy_caches s !! t = None -> exists r s', bp_exec pr (Create t) s = Some (r, s') /\ bp_inv s'.
Proof.
  intros [[S1 S2 S3 S4 S5 S6 S7] HC] Ht. cbn. unfold thread_bcache_create.
  destruct (Z.ltb_spec (bp_nr_slabs_swap_avail (sy_bp s)) 2) as [Hn|Hn]; [by eexists _, s|].
  remember (bp_nr_slabs_swap_avail (sy_bp s)) as n eqn:En.
  destruct (rdz_in (bp_slabs_swap (sy_bp s)) (n - 1)) as (c & -> & Ec); [lia|].
  destruct (rdz_in (bp_slabs_swap (sy_bp s)) (n - 2)) as (p & -> & Ep); [lia|].
  eexists _, _. split; [reflexivity|]. split.
  - split; cbn; try done; try lia.
    + rewrite map_size_insert_None by done. lia.
    + intros u bc. destruct (decide (u = t)) as [->|]; [rewrite lookup_insert_eq|rewrite lookup_insert_ne by done; apply S7].
      intros [= <-]. cbn. pose proof per_pos. lia.
  - apply (content_xch2 s _ (P_cons t) (P_prod t) (P_swap (Z.to_nat (n - 1))) (P_swap (Z.to_nat (n - 2)))); try done; cbn.
    + apply NoDup_cons_2; [set_solver|]. apply NoDup_cons_2; [set_solver|]. apply NoDup_cons_2; [|apply NoDup_singleton].
      rewrite list_elem_of_singleton. intros [=]. lia.
    + rewrite lookup_insert_eq, <- En, Ec. cbn. guards; [done|lia].
    + rewrite Ht. guards; [lia|done].
    + rewrite lookup_insert_eq, <- En, Ep. cbn. guards; [done|lia].
    + rewrite Ht. guards; [lia|done].
    + by rewrite lookup_insert_eq.
    + by rewrite Ht.
    + by rewrite lookup_insert_eq.
    + by rewrite Ht.
    + intros [i|i|u|u] H1 H2 H3 H4; cbn; rewrite ?lookup_insert_ne by congruence; try done.
      split; [|done]. rewrite <- En. destruct (Z.ltb_spec (Z.of_nat i) (n - 2)), (Z.ltb_spec (Z.of_nat i) n); try done; [lia|].
      destruct (decide (Z.of_nat i = n - 1)) as [E|]; [destruct H3; f_equal; lia|destruct H4; f_equal; lia].
Qed.

Lemma inv_free_empty t s c p :
  bp_inv s -> sy_caches s !! t = Some (mk_thread_bcache c p 0 0) ->
  exists bp, thread_bcache_free (mk_thread_bcache c p 0 0) (sy_bp s) = Some bp /\
    bp_inv (mk_bp_sys bp (delete t (sy_caches s)) (sy_out s)).
Proof.
  intros [[S1 S2 S3 S4 S5 S6 S7] HC] Ht. unfold thread_bcache_free.
  remember (bp_nr_slabs_swap_avail (sy_bp s)) as n eqn:En.
  assert (Hsz : size (delete t (sy_caches s)) = pred (size (sy_caches s))) by (apply map_size_delete_Some; by eexists).
  assert (Hs : size (sy_caches s) <> O) by (intros E%map_size_empty_inv; by rewrite E, lookup_empty in Ht).
  rewrite wrz_in by lia. cbn. rewrite wrz_in by (rewrite length_insert; lia). cbn.
  eexists. split; [reflexivity|]. split.
  - split; cbn; try done; rewrite ?length_insert; try done; try lia.
    intros u bc [_ Hu]%lookup_delete_Some. by apply (S7 u).
  - apply (content_xch2 s _ (P_cons t) (P_prod t) (P_swap (Z.to_nat n)) (P_swap (Z.to_nat (n + 1)))); try done; cbn; rewrite ?lookup_delete_eq.
    + apply NoDup_cons_2; [set_solver|]. apply NoDup_cons_2; [set_solver|]. apply NoDup_cons_2; [|apply NoDup_singleton].
      rewrite list_elem_of_singleton. intros [=]. lia.
    + guards; [lia|done].
    + rewrite Ht. cbn. rewrite list_lookup_insert_ne by lia. rewrite list_lookup_insert_eq by lia. guards; [done|lia].
    + guards; [lia|done].
    + rewrite Ht. cbn. rewrite list_lookup_insert_eq by (rewrite length_insert; lia). guards; [done|lia].
    + done.
    + by rewrite Ht.
    + done.
    + by rewrite Ht.
    + intros [i|i|u|u] H1 H2 H3 H4; cbn; rewrite ?lookup_delete_ne by congruence; try done.
      assert (i <> Z.to_nat n /\ i <> Z.to_nat (n + 1)) as [H5 H6] by (split; congruence).
      split; [|done]. rewrite <- En. rewrite !list_lookup_insert_ne by lia.
      destruct (Z.ltb_spec (Z.of_nat i) (n + 2)), (Z.ltb_spec (Z.of_nat i) n); done || lia.
Qed.

Lemma shape_cache t s bp bc bc0 :
  shape s -> sy_caches s !! t = Some bc0 ->
  0 <= nr_buffers_cons bc <= per -> 0 <= nr_buffers_prod bc <= per ->
  length (bp_slabs bp) = length (bp_slabs (sy_bp s)) -> bp_slabs_swap bp = bp_slabs_swap (sy_bp s) ->
  bp_nr_slabs bp = bp_nr_slabs (sy_bp s) -> bp_nr_slabs_swap_avail bp = bp_nr_slabs_swap_avail (sy_bp s) ->
  0 <= bp_nr_slabs_avail bp <= nslabs -> forall o, shape (mk_bp_sys bp (<[t := bc]> (sy_caches s)) o).
Proof.
  intros [S1 S2 S3 S4 S5 S6 S7] Ht Hc Hp E1 E2 E3 E4 Ha o. split; cbn; try congruence; rewrite ?E1, ?E4; try done.
  - rewrite map_size_insert_Some by (by eexists). done.
  - intros u x. destruct (decide (u = t)) as [->|]; [rewrite lookup_insert_eq; by intros [= <-]|].
    rewrite lookup_insert_ne by done. apply S7.
Qed.

Lemma same_cache s t bc : sy_caches s !! t = Some bc -> s <| sy_bp := sy_bp s |> <| sy_caches ::= <[t := bc]> |> = s.
Proof.
  destruct s as [b c o]. cbn. intros E. change (mk_bp_sys b (<[t := bc]> c) o = mk_bp_sys b c o).
  by rewrite insert_id.
Qed.

Lemma inv_check t n s :
  bp_inv s -> is_Some (sy_caches s !! t) -> exists r s', bp_exec pr (Check_ t n) s = Some (r, s') /\ bp_inv s'.
Proof.
  intros [HS HC] [bc Ht]. cbn. rewrite Ht. cbn. unfold thread_bcache_check.
  pose proof (sh_counts _ HS t bc Ht) as [Hc Hp]. pose proof per_pos as Hper.
  destruct (Z.eqb_spec (nr_buffers_cons bc) 0) as [E0|E0]; cbn; [|eexists _, s; by rewrite (same_cache s t bc Ht)].
  destruct (Z.eqb_spec (bp_nr_slabs_avail (sy_bp s)) 0) as [Ea|Ea]; cbn;
    [eexists _, s; by rewrite (same_cache s t bc Ht)|].
  pose proof (sh_avail _ HS) as Hav. pose proof (sh_slabs _ HS) as Hl.
  remember (bp_nr_slabs_avail (sy_bp s) - 1) as m eqn:Em.
  destruct (rdz_in (bp_slabs (sy_bp s)) m) as (full & -> & Ef); [lia|]. cbn. rewrite wrz_in by lia. cbn.
  eexists _, _. split; [reflexivity|]. split.
  - eapply (shape_cache t s); try done; cbn; rewrite ?length_insert; try done; lia.
  - apply (content_xch s _ (P_cons t) (P_slab (Z.to_nat m))); try done; cbn; rewrite ?lookup_insert_eq.
    + by rewrite Ef.
    + rewrite Ht, list_lookup_insert_eq by lia. done.
    + cbn. guards; [done|lia].
    + rewrite Ht. cbn. guards; [lia|done].
    + intros [i|i|u|u] H1 H2; cbn; rewrite ?lookup_insert_ne by congruence; try done.
      * assert (i <> Z.to_nat m) by congruence. rewrite list_lookup_insert_ne by done. split; [done|].
        destruct (Z.ltb_spec (Z.of_nat i) m), (Z.ltb_spec (Z.of_nat i) (bp_nr_slabs_avail (sy_bp s))); done || lia.
      * destruct (decide (u = t)) as [->|]; [by rewrite lookup_insert_eq, Ht|by rewrite lookup_insert_ne].
Qed.

Lemma level_range s x : shape s -> 0 <= level per s x <= per.
Proof.
  intros [_ _ _ _ _ _ S7]. pose proof per_pos. destruct x as [i|i|t|t]; cbn; [destruct (Z.ltb_spec (Z.of_nat i) (bp_nr_slabs_avail (sy_bp s)))| | |]; try lia.
  all: destruct (sy_caches s !! t) as [bc|] eqn:E; cbn; [|lia]; destruct (S7 t bc E); lia.
Qed.

(** A slab pointer with an index below the size of a slab is inside the arrays. *)
Lemma entry_in s x p k : content s -> ptr_at s x = Some p -> 0 <= k < per -> is_Some (bp_mem (sy_bp s) !! (p + k)).
Proof. intros HC Hp Hk. destruct (co_ptr _ HC x p Hp) as (i & -> & Hi). apply (co_mem _ HC). nia. Qed.

(** A buffer leaves, or enters, the slabs; the slabs stay where they are. *)
Lemma content_take s s' x0 k0 a :
  content s -> cell per s x0 k0 a -> (forall x, ptr_at s' x = ptr_at s x) ->
  bp_mem (sy_bp s') = bp_mem (sy_bp s) -> sy_out s' = {[ a ]} ∪ sy_out s ->
  (forall x k b, cell per s' x k b <-> cell per s x k b /\ ~ (x = x0 /\ k = k0)) -> content s'.
Proof.
  intros HC Ha Ep Em Eo Hcell. split; [intros x p|intros x y p|rewrite Em; apply HC| | | |]; rewrite ?Ep, ?Eo.
  - apply (co_ptr _ HC).
  - apply (co_inj _ HC).
  - intros b [->%elem_of_singleton|Hb]%elem_of_union; [by apply (co_cell _ HC _ _ _ Ha)|by apply (co_out _ HC)].
  - intros x k b [Hb Hx]%Hcell. destruct (co_cell _ HC _ _ _ Hb) as [H1 H2]. split; [done|].
    intros [->%elem_of_singleton|]%elem_of_union; [|done]. apply Hx. exact (co_uniq _ HC _ _ _ _ _ Hb Ha).
  - intros x y k j b [Hx _]%Hcell [Hy _]%Hcell. by eapply (co_uniq _ HC).
  - intros b Hb. destruct (co_all _ HC b Hb) as [?|(x & k & Hx)]; [left; set_solver|].
    destruct (decide (b = a)) as [->|]; [left; set_solver|right]. exists x, k. apply Hcell. split; [done|].
    intros [-> ->]. destruct Hx as (p & E & _ & Ex), Ha as (p' & E' & _ & Ex'). congruence.
Qed.

Lemma content_put s s' x0 k0 a :
  content s -> a ∈ sy_out s -> (forall x, ptr_at s' x = ptr_at s x) ->
  (forall b, is_Some (bp_mem (sy_bp s) !! b) -> is_Some (bp_mem (sy_bp s') !! b)) -> sy_out s' = sy_out s ∖ {[ a ]} ->
  (forall x k b, cell per s' x k b <-> cell per s x k b \/ (x = x0 /\ k = k0 /\ b = a)) -> content s'.
Proof.
  intros HC Ha Ep Em Eo Hcell. split; [intros x p|intros x y p| | | | |]; rewrite ?Ep, ?Eo.
  - apply (co_ptr _ HC).
  - apply (co_inj _ HC).
  - intros b Hb. by apply Em, (co_mem _ HC).
  - intros b [Hb _]%elem_of_difference. by apply (co_out _ HC).
  - intros x k b [Hb|(-> & -> & ->)]%Hcell; [destruct (co_cell _ HC _ _ _ Hb); set_solver|].
    split; [by apply (co_out _ HC)|set_solver].
  - intros x y k j b [Hx|(-> & -> & ->)]%Hcell [Hy|(-> & -> & E)]%Hcell; [by eapply (co_uniq _ HC)| | |done].
    + subst b. by destruct (co_cell _ HC _ _ _ Hx).
    + by destruct (co_cell _ HC _ _ _ Hy).
  - intros b Hb. destruct (decide (b = a)) as [->|]; [right; exists x0, k0; apply Hcell; by right|].
    destruct (co_all _ HC b Hb) as [?|(x & k & Hx)]; [left; set_solver|right]. exists x, k. apply Hcell. by left.
Qed.

(** Only the counters of a cache and the memory change. *)
Lemma ptr_counts t s s' bc bc' x :
  sy_caches s !! t = Some bc -> sy_caches s' = <[t := bc']> (sy_caches s) ->
  slabs_cons bc' = slabs_cons bc -> slabs_prod bc' = slabs_prod bc ->
  bp_slabs (sy_bp s') = bp_slabs (sy_bp s) -> bp_slabs_swap (sy_bp s') = bp_slabs_swap (sy_bp s) ->
  bp_nr_slabs_swap_avail (sy_bp s') = bp_nr_slabs_swap_avail (sy_bp s) -> ptr_at s' x = ptr_at s x.
Proof.
  intros Ht Ec E1 E2 E3 E4 E5. unfold ptr_at. rewrite Ec, E3, E4, E5. destruct x as [i|i|u|u]; cbn; try done.
  all: destruct (decide (u = t)) as [->|]; [rewrite lookup_insert_eq, Ht; cbn; congruence|by rewrite lookup_insert_ne].
Qed.

Lemma inv_cons t s bc :
  bp_inv s -> sy_caches s !! t = Some bc -> 0 < nr_buffers_cons bc ->
  exists a s', bp_exec pr (Cons t) s = Some (a, s') /\ bp_inv s' /\ a ∈ frames /\ a ∉ sy_out s /\ sy_out s' = {[ a ]} ∪ sy_out s.
Proof.
  intros [HS HC] Ht Hn. pose proof (sh_counts _ HS t bc Ht) as [Hc Hp].
  assert (Pt : ptr_at s (P_cons t) = Some (slabs_cons bc)) by (cbn; by rewrite Ht).
  destruct (entry_in s (P_cons t) (slabs_cons bc) (nr_buffers_cons bc - 1) HC Pt) as [a Ea]; [lia|].
  assert (Hca : cell per s (P_cons t) (nr_buffers_cons bc - 1) a).
  { exists (slabs_cons bc). cbn. rewrite Ht. cbn. split; [done|]. split; [lia|done]. }
  destruct (co_cell _ HC _ _ _ Hca) as [Hf Ho]. exists a. cbn. rewrite Ht. cbn. unfold thread_bcache_cons.
  destruct (Z.gtb_spec (nr_buffers_cons bc) 0); [|lia]. cbn. rewrite Ea. cbn.
  eexists. split; [reflexivity|]. split; [|done]. split; [eapply (shape_cache t s); try done; cbn; try lia; apply HS|].
  eapply (content_take s _ (P_cons t) (nr_buffers_cons bc - 1) a); try done; [intros x; by eapply (ptr_counts t s)|].
  intros x k b. unfold cell. destruct x as [i|i|u|u]; cbn; try naive_solver.
  all: destruct (decide (u = t)) as [->|]; [rewrite lookup_insert_eq, Ht; cbn|rewrite lookup_insert_ne by done; naive_solver].
  - split; [intros (p & E & Hk & Em); split; [exists p; split; [done|split; [lia|done]]|lia]|].
    intros [(p & E & Hk & Em) Hx]. exists p. split; [done|]. split; [|done].
    destruct (decide (k = nr_buffers_cons bc - 1)) as [->|]; [by destruct Hx|lia].
  - naive_solver.
Qed.

(** ** A cache is freed with what is in it *)

Lemma elem_of_slab_buffers bp p n a :
  a ∈ slab_buffers bp p n <-> exists k, 0 <= k < n /\ bp_mem bp !! (p + k) = Some a.
Proof.
  unfold slab_buffers. rewrite elem_of_list_to_set, list_elem_of_omap. setoid_rewrite elem_of_seqZ. naive_solver lia.
Qed.

Lemma elem_of_cached t s bc a :
  sy_caches s !! t = Some bc ->
  a ∈ cached bc (sy_bp s) <-> exists x k, (x = P_cons t \/ x = P_prod t) /\ cell per s x k a.
Proof.
  intros Ht. unfold cached, cell. rewrite elem_of_union, !elem_of_slab_buffers. split.
  - intros [(k & Hk & Hm)|(k & Hk & Hm)]; [exists (P_cons t)|exists (P_prod t)]; exists k; cbn; rewrite Ht; cbn; eauto 10.
  - intros (x & k & [->| ->] & p & Hp & Hk & Hm); cbn in Hp, Hk; rewrite Ht in Hp, Hk; cbn in Hp, Hk; simplify_eq; eauto.
Qed.

(** The same state with the buffers of a cache counted as gone. *)
Lemma inv_drain t s bc :
  bp_inv s -> sy_caches s !! t = Some bc ->
  bp_inv (mk_bp_sys (sy_bp s) (<[t := bc <| nr_buffers_cons := 0 |> <| nr_buffers_prod := 0 |>]> (sy_caches s))
    (cached bc (sy_bp s) ∪ sy_out s)).
Proof.
  intros [HS HC] Ht. set (s' := mk_bp_sys _ _ _). pose proof per_pos.
  split; [eapply (shape_cache t s); try done; cbn; try lia; apply HS|]. destruct HC as [C1 C2 C3 C4 C5 C6 C7].
  assert (Ep : forall x, ptr_at s' x = ptr_at s x) by (intros x; by eapply (ptr_counts t s)).
  assert (Hc : forall x k a, cell per s' x k a <-> cell per s x k a /\ x <> P_cons t /\ x <> P_prod t).
  { assert (El : forall x, level per s' x = if decide (x = P_cons t \/ x = P_prod t) then 0 else level per s x).
    { intros x. case_decide as Hx; [destruct Hx as [->| ->]; cbn; by rewrite lookup_insert_eq|].
      destruct x as [i|i|u|u]; cbn; try done; rewrite lookup_insert_ne; try done; intros ->; tauto. }
    intros x k a. unfold cell. rewrite Ep, El. change (bp_mem (sy_bp s')) with (bp_mem (sy_bp s)).
    case_decide as Hx; [|split; [intros H1; split; [exact H1|tauto]|tauto]].
    split; [intros (p & _ & Hk & _); lia|tauto]. }
  split; cbn; try done.
  - intros x p. rewrite Ep. apply C1.
  - intros x y p. rewrite !Ep. apply C2.
  - intros a [(x & k & _ & Hx)%(elem_of_cached t s bc a Ht)|Ho]%elem_of_union; [by eapply C5|by apply C4].
  - intros x k a (Hx & N1 & N2)%Hc. destruct (C5 x k a Hx) as [Hf Ho]. split; [done|].
    intros [(y & j & Hy & Hyc)%(elem_of_cached t s bc a Ht)|?]%elem_of_union; [|done].
    destruct (C6 _ _ _ _ _ Hx Hyc) as [-> _]. tauto.
  - intros x y k j a (Hx & _)%Hc (Hy & _)%Hc. eauto.
  - intros a Ha. destruct (C7 a Ha) as [Ho|(x & k & Hx)]; [left; set_solver|].
    destruct (decide (x = P_cons t \/ x = P_prod t)) as [Hxt|Hxt].
    + left. apply elem_of_union_l, (elem_of_cached t s bc a Ht). eauto.
    + right. exists x, k. apply Hc. tauto.
Qed.

Lemma inv_free t s bc :
  bp_inv s -> sy_caches s !! t = Some bc ->
  exists s', bp_exec pr (Free t) s = Some (0, s') /\ bp_inv s' /\ sy_out s' = cached bc (sy_bp s) ∪ sy_out s.
Proof.
  intros Hi Ht. pose proof (inv_drain t s bc Hi Ht) as Hd.
  destruct (inv_free_empty t _ (slabs_cons bc) (slabs_prod bc) Hd) as (bp & E & Hi'); [cbn; by rewrite lookup_insert_eq|].
  cbn [sy_bp sy_caches sy_out] in *. cbn. rewrite Ht. cbn.
  change (thread_bcache_free bc (sy_bp s)) with (thread_bcache_free (mk_thread_bcache (slabs_cons bc) (slabs_prod bc) 0 0) (sy_bp s)).
  rewrite E. cbn. eexists. split; [reflexivity|]. split; [|done]. by rewrite delete_insert_eq in Hi'.
Qed.

(** The fast path of [thread_bcache_prod], in terms of the cells. *)
Lemma inv_put t s bc a :
  bp_inv s -> sy_caches s !! t = Some bc -> nr_buffers_prod bc < per -> a ∈ sy_out s ->
  bp_inv (mk_bp_sys ((sy_bp s) <| bp_mem ::= <[slabs_prod bc + nr_buffers_prod bc := a]> |>)
    (<[t := bc <| nr_buffers_prod := nr_buffers_prod bc + 1 |>]> (sy_caches s)) (sy_out s ∖ {[ a ]})).
Proof.
  intros [HS HC] Ht Hn Ha. pose proof (sh_counts _ HS t bc Ht) as [Hc Hp].
  set (p0 := slabs_prod bc). set (n := nr_buffers_prod bc) in *. set (s' := mk_bp_sys _ _ _).
  assert (Pt : ptr_at s (P_prod t) = Some p0) by (cbn; by rewrite Ht).
  split; [eapply (shape_cache t s); try done; cbn; try lia; apply HS|].
  assert (Ep : forall x, ptr_at s' x = ptr_at s x) by (intros x; by eapply (ptr_counts t s)).
  assert (El : forall x, x <> P_prod t -> level per s' x = level per s x).
  { intros [i|i|u|u] Hx; cbn; try done.
    - destruct (decide (u = t)) as [->|]; [by rewrite lookup_insert_eq, Ht|by rewrite lookup_insert_ne].
    - by rewrite lookup_insert_ne by congruence. }
  assert (Elt : level per s' (P_prod t) = n + 1 /\ level per s (P_prod t) = n) by (cbn; by rewrite lookup_insert_eq, Ht).
  assert (Hne : forall x p k, ptr_at s x = Some p -> 0 <= k < level per s x -> p + k <> p0 + n).
  { intros x p k Hx Hk E. pose proof (level_range s x HS). destruct (co_ptr _ HC x p Hx) as (i & -> & _).
    destruct (co_ptr _ HC _ p0 Pt) as (j & Ej & _). rewrite Ej in E. apply slab_apart in E as [-> ->]; [|lia|lia].
    rewrite <- Ej in Hx. rewrite (co_inj _ HC _ _ _ Hx Pt) in Hk. lia. }
  eapply (content_put s s' (P_prod t) n a); try done.
  - intros b Hb. cbn. destruct (decide (b = p0 + n)) as [->|]; [rewrite lookup_insert_eq; by eexists|by rewrite lookup_insert_ne].
  - intros x k b. unfold cell. rewrite Ep. split.
    + intros (p & Hx & Hk & Em). cbn in Em. destruct (decide (x = P_prod t /\ k = n)) as [[-> ->]|Hxk].
      * right. rewrite Pt in Hx. injection Hx as <-. rewrite lookup_insert_eq in Em. by injection Em as <-.
      * left. assert (Hk' : 0 <= k < level per s x).
        { destruct (decide (x = P_prod t)) as [->|]; [|by rewrite <- El]. destruct Elt as [E1 E2]. rewrite E1 in Hk. rewrite E2.
          destruct (decide (k = n)) as [->|]; [by destruct Hxk|lia]. }
        exists p. split; [done|]. split; [done|]. rewrite lookup_insert_ne in Em; [done|]. intros E. by apply (Hne x p k).
    + intros [(p & Hx & Hk & Em)|(-> & -> & ->)].
      * exists p. split; [done|]. split; [destruct (decide (x = P_prod t)) as [->|]; [lia|by rewrite El]|].
        cbn. rewrite lookup_insert_ne; [done|]. intros E. by apply (Hne x p k).
      * exists p0. split; [done|]. split; [lia|]. cbn. by rewrite lookup_insert_eq.
Qed.

Lemma elem_of_frames a : a ∈ frames <-> exists i, a = i * UMEM_FRAME_SIZE /\ 0 <= i < nslabs * per.
Proof. unfold frames. rewrite list_elem_of_fmap. setoid_rewrite elem_of_seqZ. naive_solver lia. Qed.

(** While a buffer is handed out some slab of the pool is empty: the full slabs
    hold different frames. *)
Definition slab_entry (s : bp_sys) (i : Z) : Z :=
  default 0 (p ← bp_slabs (sy_bp s) !! Z.to_nat (i / per); bp_mem (sy_bp s) !! (p + i mod per)).

Lemma slab_entry_cell s i :
  bp_inv s -> 0 <= i < bp_nr_slabs_avail (sy_bp s) * per ->
  cell per s (P_slab (Z.to_nat (i / per))) (i mod per) (slab_entry s i).
Proof.
  intros [HS HC] Hi. pose proof per_pos as Hper. pose proof (Z.mod_pos_bound i per Hper).
  assert (0 <= i / per < bp_nr_slabs_avail (sy_bp s)) by (split; [apply Z.div_pos; lia|apply Z.div_lt_upper_bound; lia]).
  destruct (rdz_in (bp_slabs (sy_bp s)) (i / per)) as (p & _ & Ep); [rewrite (sh_slabs _ HS); pose proof (sh_avail _ HS); lia|].
  destruct (entry_in s (P_slab (Z.to_nat (i / per))) p (i mod per) HC) as [v Ev]; [done|lia|].
  unfold slab_entry. rewrite Ep. cbn. rewrite Ev. exists p. cbn. split; [done|].
  destruct (Z.ltb_spec (Z.of_nat (Z.to_nat (i / per))) (bp_nr_slabs_avail (sy_bp s))); [done|lia].
Qed.

Definition slab_entries (s : bp_sys) : list Z := slab_entry s <$> seqZ 0 (bp_nr_slabs_avail (sy_bp s) * per).

Lemma slab_entries_ok s :
  bp_inv s -> NoDup (slab_entries s) /\ forall v, v ∈ slab_entries s -> v ∈ frames /\ v ∉ sy_out s.
Proof.
  intros Hi. pose proof Hi as [HS HC]. pose proof (sh_avail _ HS). pose proof per_pos as Hper. split.
  - apply NoDup_fmap_2_strong; [|apply NoDup_seqZ]. intros i j Hb%elem_of_seqZ Hc%elem_of_seqZ Eij.
    pose proof (slab_entry_cell s i Hi ltac:(lia)) as C1. pose proof (slab_entry_cell s j Hi ltac:(lia)) as C2. rewrite <- Eij in C2.
    destruct (co_uniq _ HC _ _ _ _ _ C1 C2) as [[= Ed] Em].
    assert (0 <= i / per /\ 0 <= j / per) as [] by (split; apply Z.div_pos; lia).
    rewrite (Z.div_mod i per), (Z.div_mod j per) by lia. nia.
  - intros v (i & -> & Hv%elem_of_seqZ)%list_elem_of_fmap.
    apply (co_cell _ HC _ _ _ (slab_entry_cell s i Hi ltac:(lia))).
Qed.

Lemma frames_nodup : NoDup frames.
Proof. apply NoDup_fmap_2_strong; [|apply NoDup_seqZ]. unfold UMEM_FRAME_SIZE. lia. Qed.

Lemma room s a : bp_inv s -> a ∈ sy_out s -> bp_nr_slabs_avail (sy_bp s) < nslabs.
Proof.
  intros Hi Ha. pose proof Hi as [HS HC]. pose proof (sh_avail _ HS). pose proof per_pos as Hper.
  destruct (slab_entries_ok s Hi) as [Hnd Hl].
  assert (Hnd' : NoDup (a :: slab_entries s)) by (apply NoDup_cons_2; [by intros [_ ?]%Hl|done]).
  assert (Hin : forall x, x ∈ a :: slab_entries s -> x ∈ frames).
  { intros x [->|[? _]%Hl]%elem_of_cons; [by apply (co_out _ HC)|done]. }
  pose proof (submseteq_length _ _ (NoDup_submseteq _ _ Hnd' Hin)) as Hlen. cbn in Hlen.
  unfold slab_entries, frames in Hlen. rewrite !length_fmap, !length_seqZ in Hlen. nia.
Qed.

(** The slow path of [thread_bcache_prod] exchanges the full slab of the thread
    for an empty one. *)
Lemma inv_full t s bc q :
  let n := bp_nr_slabs_avail (sy_bp s) in
  bp_inv s -> sy_caches s !! t = Some bc -> nr_buffers_prod bc = per -> n < nslabs ->
  bp_slabs (sy_bp s) !! Z.to_nat n = Some q ->
  bp_inv (mk_bp_sys ((sy_bp s) <| bp_slabs := <[Z.to_nat n := slabs_prod bc]> (bp_slabs (sy_bp s)) |> <| bp_nr_slabs_avail := n + 1 |>)
    (<[t := bc <| slabs_prod := q |> <| nr_buffers_prod := 0 |>]> (sy_caches s)) (sy_out s)).
Proof.
  intros n [HS HC] Ht Hn Hlt Eq. pose proof (sh_counts _ HS t bc Ht) as [Hc Hp]. pose proof (sh_avail _ HS) as Hav.
  pose proof (sh_slabs _ HS) as Hl. pose proof per_pos as Hper. set (s1 := mk_bp_sys _ _ _).
  split; [eapply (shape_cache t s); try done; cbn; rewrite ?length_insert; try done; lia|].
  apply (content_xch s s1 (P_prod t) (P_slab (Z.to_nat n))); try done; cbn; rewrite ?lookup_insert_eq.
  - by rewrite Eq.
  - rewrite Ht, list_lookup_insert_eq by lia. done.
  - cbn. fold n. guards; [lia|done].
  - rewrite Ht. cbn. guards; lia.
  - intros [i|i|u|u] H1 H2; cbn; rewrite ?lookup_insert_ne by congruence; try done.
    + assert (i <> Z.to_nat n) by congruence. rewrite list_lookup_insert_ne by done. split; [done|]. fold n.
      destruct (Z.ltb_spec (Z.of_nat i) (n + 1)), (Z.ltb_spec (Z.of_nat i) n); done || lia.
    + destruct (decide (u = t)) as [->|]; [by rewrite lookup_insert_eq, Ht|by rewrite lookup_insert_ne].
Qed.

Lemma inv_prod t addr s :
  bp_inv s -> is_Some (sy_caches s !! t) -> fix_umem_offset addr ∈ sy_out s ->
  exists s', bp_exec pr (Prod t addr) s = Some (0, s') /\ bp_inv s' /\ sy_out s' = sy_out s ∖ {[ fix_umem_offset addr ]}.
Proof.
  intros Hi [bc Ht] Ha. pose proof Hi as [HS HC]. pose proof (sh_counts _ HS t bc Ht) as [Hc Hp].
  pose proof (sh_avail _ HS) as Hav. pose proof (sh_nr _ HS) as Hnr. pose proof (room s _ Hi Ha) as Hroom. pose proof per_pos as Hper.
  cbn. rewrite Ht. cbn. unfold thread_bcache_prod. rewrite Hnr.
  destruct (Z.leb_spec (bp_nr_slabs_avail (sy_bp s)) nslabs); [|lia]. cbn. fold per.
  destruct (Z.ltb_spec (nr_buffers_prod bc) per) as [Hn|Hn].
  - rewrite wr_mem_in by (eapply (entry_in s (P_prod t)); [done|cbn; by rewrite Ht|lia]). cbn.
    eexists. split; [reflexivity|]. split; [exact (inv_put t s bc _ Hi Ht Hn Ha)|done].
  - destruct (rdz_in (bp_slabs (sy_bp s)) (bp_nr_slabs_avail (sy_bp s))) as (q & -> & Eq); [rewrite (sh_slabs _ HS); lia|]. cbn.
    rewrite wrz_in by (rewrite (sh_slabs _ HS); lia). cbn.
    pose proof (inv_full t s bc q Hi Ht ltac:(lia) Hroom Eq) as Hi1. set (s1 := mk_bp_sys _ _ _) in Hi1.
    set (bc1 := bc <| slabs_prod := q |> <| nr_buffers_prod := 0 |>) in *.
    assert (Ht1 : sy_caches s1 !! t = Some bc1) by apply lookup_insert_eq.
    rewrite wr_mem_in; [|replace q with (q + 0) by lia; eapply (entry_in s1 (P_prod t)); [apply Hi1|cbn; by rewrite lookup_insert_eq|lia]].
    cbn. eexists. split; [reflexivity|]. split; [|done].
    pose proof (inv_put t s1 bc1 _ Hi1 Ht1 ltac:(cbn; lia) Ha) as Hi2. cbn in Hi2. rewrite insert_insert_eq, Z.add_0_r in Hi2. exact Hi2.
Qed.

(** ** Start *)

Lemma mem_init a :
  bp_mem (bp_init pr).2 !! a =
  (if decide (0 <= a < nslabs * per) then Some (a * UMEM_FRAME_SIZE)
   else if decide (nslabs * per <= a < (nslabs + nswap) * per) then Some 0 else None).
Proof.
  pose proof per_pos. pose proof nslabs_nonneg. pose proof nswap_nonneg.
  assert (Hg : forall (g : Z -> Z) x n, (list_to_map ((fun i => (i, g i)) <$> seqZ x n) : gmap Z Z) !! a =
    if decide (x <= a < x + n) then Some (g a) else None).
  { intros g x n. case_decide.
    - apply elem_of_list_to_map_1; [rewrite <- list_fmap_compose; cbn; rewrite list_fmap_id; apply NoDup_seqZ|].
      apply list_elem_of_fmap. exists a. split; [done|]. by apply elem_of_seqZ.
    - apply not_elem_of_list_to_map_1. rewrite <- list_fmap_compose. cbn. rewrite list_fmap_id. intros Hx%elem_of_seqZ. lia. }
  cbn. rewrite list_to_map_app, lookup_union, !Hg. fold per nslabs nswap. rewrite (pk_size Hpr).
  repeat case_decide; cbn; try done; try lia; nia.
Qed.

Definition bp_start : bp_sys := mk_bp_sys (bp_init pr).2 ∅ ∅.

Lemma ptr_init x p :
  ptr_at bp_start x = Some p ->
  match x with
  | P_slab i => p = Z.of_nat i * per /\ Z.of_nat i < nslabs
  | P_swap i => p = (nslabs + Z.of_nat i) * per /\ Z.of_nat i < nswap
  | _ => False
  end.
Proof.
  destruct x as [i|i|t|t]; cbn; fold per nslabs nswap; [| |by rewrite lookup_empty|by rewrite lookup_empty].
  - intros (k & -> & [-> Hk]%lookup_seqZ)%list_lookup_fmap_Some. lia.
  - destruct (Z.ltb_spec (Z.of_nat i) nswap) as [Hi|]; [|done].
    intros (k & -> & [-> Hk]%lookup_seqZ)%list_lookup_fmap_Some. lia.
Qed.

Lemma cell_init x k a :
  cell per bp_start x k a ->
  exists i, x = P_slab i /\ Z.of_nat i < nslabs /\ 0 <= k < per /\ a = (Z.of_nat i * per + k) * UMEM_FRAME_SIZE.
Proof.
  intros (p & Hp%ptr_init & Hk & Hm). destruct x as [i|i|t|t]; [|cbn in Hk; lia|done|done].
  destruct Hp as [-> Hi]. exists i. cbn in Hk. fold nslabs in Hk. destruct (Z.ltb_spec (Z.of_nat i) nslabs); [|lia].
  cbn [bp_start sy_bp] in Hm. rewrite mem_init, decide_True in Hm by nia. by injection Hm as <-.
Qed.

Lemma inv_init : bp_inv bp_start.
Proof.
  pose proof per_pos as Hper. pose proof nslabs_nonneg as Hns. pose proof nswap_nonneg as Hnw.
  split; [split; cbn; fold nslabs nswap per; rewrite ?length_fmap, ?length_seqZ, ?map_size_empty; try lia; done|].
  split.
  - intros x p Hp%ptr_init. destruct x as [i|i|t|t]; try done; destruct Hp as [-> ?]; eexists; split; try done; lia.
  - intros x y p Hx%ptr_init Hy%ptr_init. destruct x as [i|i|t|t], y as [j|j|u|u]; try done; f_equal; nia.
  - intros a Ha. cbn [bp_start sy_bp]. rewrite mem_init. repeat case_decide; try lia; by eexists.
  - done.
  - intros x k a (i & -> & Hi & Hk & ->)%cell_init. split; [|done]. apply elem_of_frames. eexists. split; [done|nia].
  - intros x y k j a (i & -> & Hi & Hk & ->)%cell_init (i' & -> & Hi' & Hj & E)%cell_init. unfold UMEM_FRAME_SIZE in E.
    destruct (slab_apart (Z.of_nat i) (Z.of_nat i') k j Hk Hj ltac:(lia)) as [Ei ->]. split; [f_equal; lia|done].
  - intros a (i & -> & Hi)%elem_of_frames. right. exists (P_slab (Z.to_nat (i / per))), (i mod per).
    pose proof (Z.mod_pos_bound i per Hper). pose proof (Z.div_mod i per).
    assert (0 <= i / per < nslabs) by (split; [apply Z.div_pos; lia|apply Z.div_lt_upper_bound; lia]).
    exists (i / per * per). cbn. fold nslabs per. split; [|split].
    + rewrite list_lookup_fmap, lookup_seqZ_lt by lia. cbn. f_equal. lia.
    + destruct (Z.ltb_spec (Z.of_nat (Z.to_nat (i / per))) nslabs); lia.
    + change (bp_mem (bp_init pr).2 !! (i / per * per + i mod per) = Some (i * UMEM_FRAME_SIZE)).
      rewrite mem_init, decide_True by nia. do 2 f_equal. lia.
Qed.

(** What an operation does that is not [thread_bcache_cons] on a cache without
    buffers. *)
Definition bp_effect (op : bp_op) (s : bp_sys) (r : Z) (s' : bp_sys) : Prop :=
  match op with
  | Cons _ => r ∈ frames /\ r ∉ sy_out s /\ sy_out s' = {[ r ]} ∪ sy_out s
  | Prod _ addr => sy_out s' = sy_out s ∖ {[ fix_umem_offset addr ]}
  | Check_ t n => sy_out s' = sy_out s /\
      (0 < r -> exists bc, sy_caches s' !! t = Some bc /\ Z.min r per <= nr_buffers_cons bc)
  | Free _ => sy_out s' = left_by op s ∪ sy_out s
  | Create _ => sy_out s' = sy_out s
  end.

Definition no_buffer (op : bp_op) (s : bp_sys) : Prop :=
  exists t bc, op = Cons t /\ sy_caches s !! t = Some bc /\ nr_buffers_cons bc = 0.

Lemma inv_exec op s lost :
  bp_inv s -> bp_allowed op s lost ->
  (no_buffer op s /\ bp_exec pr op s = None) \/
  (~ no_buffer op s /\ exists r s', bp_exec pr op s = Some (r, s') /\ bp_inv s' /\ bp_effect op s r s').
Proof.
  intros Hi Ha. destruct op as [t|t|t n|t|t addr]; [right; split; [by intros (? & ? & ? & _)|]..| |right; split; [by intros (? & ? & ? & _)|]].
  - destruct (inv_create t s Hi Ha) as (r & s' & E & Hi'). exists r, s'. split; [done|]. split; [done|]. revert E. cbn.
    destruct (thread_bcache_create (sy_bp s)) as [[[r' bc] bp]|]; [cbn|done]. intros [= -> <-]. by destruct (r =? 0).
  - destruct Ha as [bc Ht]. destruct (inv_free t s bc Hi Ht) as (s' & E & Hi' & Ho). exists 0, s'.
    split; [done|]. split; [done|]. cbn. by rewrite Ht.
  - destruct (inv_check t n s Hi Ha) as (r & s' & E & Hi'). exists r, s'. split; [done|]. split; [done|]. revert E. cbn.
    destruct (sy_caches s !! t) as [bc|]; [cbn|done]. unfold thread_bcache_check. fold per.
    destruct (Z.eqb_spec (nr_buffers_cons bc) 0) as [H0|H0]; cbn; [destruct (_ =? 0); cbn|].
    + intros [= <- <-]. cbn. split; [done|lia].
    + destruct (rdz _ _) as [p|]; [cbn|done]. destruct (wrz _ _ _) as [sl|]; [cbn|done]. intros [= <- <-]. cbn.
      split; [done|]. rewrite lookup_insert_eq. intros _. eexists. split; [done|]. cbn. lia.
    + intros [= <- <-]. cbn. split; [done|]. rewrite lookup_insert_eq. intros Hr. eexists. split; [done|].
      destruct (Z.ltb_spec (nr_buffers_cons bc) n); lia.
  - destruct Ha as [bc Ht]. pose proof (sh_counts _ (bi_shape _ Hi) t bc Ht) as [Hc _].
    destruct (decide (nr_buffers_cons bc = 0)) as [H0|H0]; [left|right].
    + split; [by exists t, bc|]. cbn. rewrite Ht. cbn. unfold thread_bcache_cons. by rewrite H0.
    + split; [intros (? & bc' & [= <-] & Ht' & ?); congruence|].
      destruct (inv_cons t s bc Hi Ht) as (a & s' & E & Hi' & H); [lia|]. by exists a, s'.
  - destruct Ha as [Ht Hx]. destruct (inv_prod t addr s Hi Ht) as (s' & E & Hi' & H); [set_solver|]. by exists 0, s'.
Qed.

Lemma bp_reach_inv s lost : bp_reach pr s lost -> bp_inv s /\ lost ⊆ sy_out s.
Proof.
  induction 1 as [|s lost op r s' _ [IH Hl] Ha E]; [split; [apply inv_init|done]|].
  destruct (inv_exec op s lost IH Ha) as [[_ E2]|(_ & r' & s2 & E2 & Hi & He)]; [congruence|].
  rewrite E in E2. injection E2 as <- <-. split; [done|]. destruct op; cbn in *.
  - set_solver.
  - set_solver.
  - destruct He as [-> _]. set_solver.
  - destruct He as (_ & _ & ->). set_solver.
  - rewrite He. set_solver.
Qed.

(** Without caches every frame is in a full slab of the pool or outside. *)
Lemma refilled s :
  bp_inv s -> sy_caches s = ∅ -> bp_nr_slabs_avail (sy_bp s) * per + Z.of_nat (size (sy_out s)) = nslabs * per.
Proof.
  intros Hi Ec. pose proof Hi as [HS HC]. pose proof (sh_avail _ HS) as Hav. pose proof per_pos as Hper.
  destruct (slab_entries_ok s Hi) as [Hnd Hl].
  assert (Hperm : slab_entries s ++ elements (sy_out s) ≡ₚ frames).
  { apply NoDup_Permutation; [apply list.NoDup_app; split_and!; [done| |apply NoDup_elements]|apply frames_nodup|].
    - intros x [_ Hx]%Hl. by rewrite elem_of_elements.
    - intros x. rewrite elem_of_app, elem_of_elements. split; [intros [[? _]%Hl|?]; [done|by apply (co_out _ HC)]|].
      intros Hx. destruct (co_all _ HC x Hx) as [Ho|(y & k & p & Hp & Hk & Em)]; [by right|left].
      destruct y as [i|i|t|t]; cbn in Hk; rewrite ?Ec, ?lookup_empty in Hk; cbn in Hk; [|lia..].
      destruct (Z.ltb_spec (Z.of_nat i) (bp_nr_slabs_avail (sy_bp s))); [|lia].
      apply list_elem_of_fmap. exists (Z.of_nat i * per + k).
      split; [|apply elem_of_seqZ; nia]. unfold slab_entry.
      rewrite Z.div_add_l, (Z.div_small k), Z.add_0_r, Nat2Z.id, (Z.add_comm _ k), Z.mod_add, Z.mod_small by lia.
      cbn in Hp. rewrite Hp. cbn. by rewrite Em. }
  apply Permutation_length in Hperm. rewrite length_app in Hperm. change (length (elements (sy_out s))) with (size (sy_out s)) in Hperm.
  unfold slab_entries, frames in Hperm. rewrite !length_fmap, !length_seqZ in Hperm. nia.
Qed.

End Pool.

(** An address inside a frame is mapped to the frame. *)
Lemma fix_umem_offset_frame i o : 0 <= o < UMEM_FRAME_SIZE -> fix_umem_offset (i * UMEM_FRAME_SIZE + o) = i * UMEM_FRAME_SIZE.
Proof.
  unfold fix_umem_offset, UMEM_FRAME_SIZE. intros Ho. change (4096 - 1) with (Z.ones 12). rewrite <- Z.ldiff_land, Z.ldiff_ones_r by lia.
  rewrite Z.shiftl_mul_pow2, Z.shiftr_div_pow2 by lia. change (2 ^ 12) with 4096. rewrite Z.div_add_l, Z.div_small by lia. lia.
Qed.

Lemma init_params_ok : params_ok init_bp_params.
Proof. by split. Qed.

(** C28. Packet buffers are never shared.  In a pool with slabs of any positive
    size and frames of 4096 bytes threads use their caches in any order; the
    conditions on them are that a thread has one cache and returns an address
    only while its buffer is handed out.  Then every
    operation stays inside the arrays of the pool and none of its assertions
    fails except the one of [thread_bcache_cons], which fails exactly on a
    cache without buffers; after a check that answers [r] at least [r] calls
    succeed (a slab, if that is less).  A buffer that is allocated is a frame
    of the UMEM that is handed out to nobody, returning an address in a frame
    frees exactly that frame, and freeing a cache loses exactly the buffers in
    it. *)
Theorem buffers_exclusive (pr : buffer_pool_params) (s : bp_sys) (lost : gset Z) (op : bp_op) :
  params_ok pr -> bp_reach pr s lost -> bp_allowed op s lost ->
  (bp_exec pr op s = None <-> exists t bc, op = Cons t /\ sy_caches s !! t = Some bc /\ nr_buffers_cons bc = 0) /\
  forall r s', bp_exec pr op s = Some (r, s') ->
    bp_reach pr s' (left_by op s ∪ lost) /\
    match op with
    | Cons _ => r ∈ frames pr /\ r ∉ sy_out s /\ sy_out s' = {[ r ]} ∪ sy_out s
    | Prod _ addr => sy_out s' = sy_out s ∖ {[ fix_umem_offset addr ]}
    | Check_ t n => sy_out s' = sy_out s /\
        (0 < r -> exists bc, sy_caches s' !! t = Some bc /\ Z.min r (pr_nr_buffers_per_slab pr) <= nr_buffers_cons bc)
    | Free _ => sy_out s' = left_by op s ∪ sy_out s
    | Create _ => sy_out s' = sy_out s
    end.
Proof.
  intros Hp Hr Ha. destruct (bp_reach_inv pr Hp s lost Hr) as [Hi _].
  destruct (inv_exec pr Hp op s lost Hi Ha) as [[Hn E]|(Hn & r & s' & E & _ & He)]; rewrite E.
  - split; [|done]. by split.
  - split; [split; [done|intros H; by destruct Hn]|]. intros r' s2 [= <- <-]. split; [by eapply bp_reach_op|done].
Qed.

(** C29. Packet buffers are lost only when a cache is freed with buffers in
    it.  Under the conditions of C28, a frame that is neither handed out nor
    left behind in a freed cache is in exactly one entry of one slab of the
    pool or of a cache.  When all caches are freed and everything that was
    handed out is returned, the full slabs of the pool hold all frames but
    those left behind: with none left behind every slab is full again. *)
Theorem buffers_conserved (pr : buffer_pool_params) (s : bp_sys) (lost : gset Z) :
  params_ok pr -> bp_reach pr s lost ->
  lost ⊆ sy_out s /\
  (forall a, a ∈ frames pr -> a ∉ sy_out s ->
     exists x k, cell (pr_nr_buffers_per_slab pr) s x k a /\
       forall y j, cell (pr_nr_buffers_per_slab pr) s y j a -> y = x /\ j = k) /\
  (sy_caches s = ∅ -> sy_out s = lost ->
     bp_nr_slabs_avail (sy_bp s) * pr_nr_buffers_per_slab pr =
       nr_slabs_of pr * pr_nr_buffers_per_slab pr - Z.of_nat (size lost) /\
     (lost = ∅ -> bp_nr_slabs_avail (sy_bp s) = nr_slabs_of pr)).
Proof.
  intros Hp Hr. destruct (bp_reach_inv pr Hp s lost Hr) as [Hi Hl]. pose proof Hi as [_ HC]. split_and!; [done| |].
  - intros a Ha Ho. destruct (co_all _ _ HC a Ha) as [?|(x & k & Hx)]; [done|]. exists x, k. split; [done|].
    intros y j Hy. by eapply (co_uniq _ _ HC).
  - intros Hc Ho. pose proof (refilled pr Hp s Hi Hc) as H. rewrite Ho in H. split; [lia|]. intros ->.
    rewrite size_empty in H. pose proof (pk_per _ Hp). nia.
Qed.

(** A pool of two slabs of two buffers, and a thread that has taken one, then
    freed its cache with the other one in it. *)
Definition pr_ex : buffer_pool_params := mk_buffer_pool_params 4 4096 1 2.

Definition bp_step (op : bp_op) (s : bp_sys) : bp_sys := from_option snd s (bp_exec pr_ex op s).

Definition sys_0 : bp_sys := Eval vm_compute in mk_bp_sys (bp_init pr_ex).2 ∅ ∅.
Definition sys_1 : bp_sys := Eval vm_compute in bp_step (Create 7) sys_0.
Definition sys_2 : bp_sys := Eval vm_compute in bp_step (Check_ 7 1) sys_1.
Definition sys_ex : bp_sys := Eval vm_compute in bp_step (Cons 7) sys_2.
Definition sys_free : bp_sys := Eval vm_compute in bp_step (Free 7) sys_ex.

Lemma bp_reach_next op s lost r s' lost' :
  bp_reach pr_ex s lost -> bp_allowed op s lost -> bp_exec pr_ex op s = Some (r, s') ->
  lost' = left_by op s ∪ lost -> bp_reach pr_ex s' lost'.
Proof. intros ? ? ? ->. by eapply bp_reach_op. Qed.

Lemma sys_ex_reach : bp_reach pr_ex sys_ex ∅.
Proof.
  assert (R0 : bp_reach pr_ex sys_0 ∅) by exact (bp_reach_init pr_ex).
  assert (R1 : bp_reach pr_ex sys_1 ∅) by (apply (bp_reach_next (Create 7) sys_0 ∅ 0); [done|by vm_compute..]).
  assert (R2 : bp_reach pr_ex sys_2 ∅)
    by (apply (bp_reach_next (Check_ 7 1) sys_1 ∅ 1); [done|vm_compute; by eexists|by vm_compute..]).
  apply (bp_reach_next (Cons 7) sys_2 ∅ 12288); [done|vm_compute; by eexists|by vm_compute..].
Qed.

Lemma sys_free_reach : bp_reach pr_ex sys_free {[ 8192 ]}.
Proof. apply (bp_reach_next (Free 7) sys_ex ∅ 0); [apply sys_ex_reach|vm_compute; by eexists|by vm_compute..]. Qed.

Lemma pr_ex_ok : params_ok pr_ex.
Proof. by split. Qed.

Lemma buffers_exclusive_witness :
  exists r s', bp_exec pr_ex (Cons 7) sys_ex = Some (r, s') /\ r ∈ frames pr_ex /\ r ∉ sy_out sys_ex.
Proof.
  destruct (buffers_exclusive pr_ex sys_ex ∅ (Cons 7) pr_ex_ok sys_ex_reach) as (_ & H); [vm_compute; by eexists|].
  destruct (H 8192 (bp_step (Cons 7) sys_ex)) as (_ & H1 & H2 & _); [by vm_compute|].
  exists 8192, (bp_step (Cons 7) sys_ex). split; [by vm_compute|by split].
Defined.

Lemma buffers_conserved_witness :
  sy_out sys_free = {[ 12288; 8192 ]} /\ (exists x k, cell 2 sys_free x k 0) /\ {[ 8192 ]} ⊆ sy_out sys_free.
Proof.
  destruct (buffers_conserved pr_ex sys_free {[ 8192 ]} pr_ex_ok sys_free_reach) as (Hl & H & _).
  split; [by vm_compute|]. split; [|exact Hl].
  destruct (H 0) as (x & k & Hx & _); [by vm_compute; left|apply (bool_decide_unpack _); by vm_compute|by exists x, k].
Defined.
