(* ===== verification/MemPool.v ===== *)
(** The memory pool of the Homa library ([common/base/mem_pool.*]): size
    classes with free lists, a larger buffer split in halves when a class is
    empty, regions of shared memory when all are. *)
From stdpp Require Import sorting.
From S2P Require Import Prelude.
Local Open Scope Z_scope.

(** ** State *)

Definition nr_class_type : Z := 18.
Definition min_class_size : Z := 64.
Definition class_type_shift : Z := 6.
Definition max_class_size : Z := 8 * 1024 * 1024.
Definition HugePageSize : Z := 2 * 1024 * 1024.
Definition SIZE_MAX : Z := 2 ^ 64 - 1.
Definition INT32_MAX : Z := 2 ^ 31 - 1.

Record Buffer := mk_Buffer { _buf : Z; actual_size : Z; class_size : Z }.

#[export] Instance eta_Buffer : Eta Buffer := fun r => mk_Buffer (_buf r) (actual_size r) (class_size r).

Definition null_buffer : Buffer := mk_Buffer 0 0 0.

(** A free list is a stack: its back is the head here. *)
Record Mempool := mk_Mempool {
  prev_alloc_class_size : Z;
  shm_regions : list (Z * Z);
  free_list : list (list Buffer);
  nr_freed : list Z;
  shm_reg : Z
}.

#[export] Instance eta_Mempool : Eta Mempool := fun r =>
  mk_Mempool (prev_alloc_class_size r) (shm_regions r) (free_list r) (nr_freed r) (shm_reg r).

(** How a call ends: with a result, with a C++ exception, with a failed
    assertion or an access outside an array, or not yet. *)
Inductive outcome (A : Type) : Type := Ret (a : A) | Throw | Undefined | Running.
Arguments Ret {A}. Arguments Throw {A}. Arguments Undefined {A}. Arguments Running {A}.

Definition obind {A B} (x : outcome A) (k : A -> outcome B) : outcome B :=
  match x with Ret a => k a | Throw => Throw | Undefined => Undefined | Running => Running end.

Declare Scope outcome_scope.
Delimit Scope outcome_scope with outcome.
Notation "'let?' x := m 'in' k" := (obind m (fun x => k))
  (at level 100, x pattern, right associativity) : outcome_scope.
Local Open Scope outcome_scope.

Definition expect {A} (x : option A) : outcome A := match x with Some a => Ret a | None => Undefined end.
Definition assert_ (b : bool) : outcome unit := if b then Ret tt else Undefined.

(** ** Operations *)

(** [Mempool::Mempool] *)
Definition new_Mempool (initial_size : Z) : Mempool :=
  mk_Mempool (if initial_size <? max_class_size then initial_size else max_class_size) []
    (replicate (Z.to_nat nr_class_type) []) (replicate (Z.to_nat nr_class_type) 0) 0.

(** [round_up] of [common/base/math.h] *)
Definition round_up (x n : Z) : Z := Z.land (u64 (x + n - 1)) (Z.lnot (n - 1)).

(** The answers of [shmget] and [shmat]. *)
Inductive shm_answer := Shm_exists | Shm_at (addr : Z) | Shm_nomem | Shm_error.

(** [Mempool::alloc_raw]; keys are drawn until one is not in use. *)
Fixpoint alloc_raw (size : Z) (answers : list shm_answer) (m : Mempool) : outcome (Buffer * Mempool) :=
  match answers with
  | [] => Running
  | Shm_exists :: answers => alloc_raw size answers m
  | Shm_at addr :: _ =>
    Ret (mk_Buffer addr 0 SIZE_MAX,
         m <| shm_regions ::= fun l => l ++ [(addr, round_up size HugePageSize)] |>
           <| shm_reg ::= fun n => u64 (n + round_up size HugePageSize) |>)
  | Shm_nomem :: _ => Ret (null_buffer, m)
  | Shm_error :: _ => Throw
  end.

Definition push_free (c : Z) (b : Buffer) (m : Mempool) : outcome Mempool :=
  let? l := expect (free_list m !! Z.to_nat c) in
  Ret (m <| free_list ::= <[Z.to_nat c := b :: l]> |>).

(** The loop of [alloc_slow]: [n] buffers of the largest class from [addr]. *)
Fixpoint carve (n : nat) (addr : Z) (m : Mempool) : outcome Mempool :=
  match n with
  | O => Ret m
  | S n =>
    let? m := push_free (nr_class_type - 1) (mk_Buffer addr 0 max_class_size) m in
    carve n (addr + max_class_size) m
  end.

(** [Mempool::alloc_slow] *)
Definition alloc_slow (alloc_size : Z) (answers : list shm_answer) (m : Mempool) : outcome (bool * Mempool) :=
  let? _ := assert_ (alloc_size >=? max_class_size) in
  let? (b, m) := alloc_raw alloc_size answers m in
  if _buf b =? 0 then Ret (false, m)
  else
    let? m := carve (Z.to_nat (alloc_size / max_class_size)) (_buf b) m in
    Ret (true, m).

(** [Mempool::split] *)
Definition split (c : Z) (m : Mempool) : outcome Mempool :=
  let? l := expect (free_list m !! Z.to_nat c) in
  let? low := expect (free_list m !! Z.to_nat (c - 1)) in
  match l, low with
  | b :: l, [] =>
    let half := class_size b / 2 in
    let m := m <| free_list ::= <[Z.to_nat c := l]> |> in
    let? m := push_free (c - 1) (mk_Buffer (_buf b) 0 half) m in
    push_free (c - 1) (mk_Buffer (_buf b + half) 0 half) m
  | _, _ => Undefined
  end.

(** [Mempool::alloc_from_class] *)
Definition alloc_from_class (c actual : Z) (m : Mempool) : outcome (Buffer * Mempool) :=
  let? l := expect (free_list m !! Z.to_nat c) in
  match l with
  | [] => Ret (null_buffer, m)
  | b :: l =>
    Ret (b <| actual_size := actual |>,
         m <| free_list ::= <[Z.to_nat c := l]> |>
           <| nr_freed ::= alter (fun n => u64 (n - 1)) (Z.to_nat c) |>)
  end.

(** The first loop of [alloc_buffer]: the next class that is not empty. *)
Fixpoint find_class (fuel : nat) (fl : list (list Buffer)) (c : Z) : outcome Z :=
  match fuel with
  | O => Running
  | S fuel =>
    if negb (c <? nr_class_type) then Ret c
    else
      let? l := expect (fl !! Z.to_nat c) in
      match l with [] => find_class fuel fl (c + 1) | _ => Ret c end
  end.

(** The second loop: halves from class [c] down to class [c - n]. *)
Fixpoint split_down (n : nat) (c : Z) (m : Mempool) : outcome Mempool :=
  match n with
  | O => Ret m
  | S n => let? m := split c m in split_down n (c - 1) m
  end.

Section Classes.
(** What [bsrl] leaves in its destination for the operand 0. *)
Context (bsr0 : Z).

(** [msb_index] of [common/base/math.h] *)
Definition msb_index (x : Z) : outcome Z :=
  let? _ := assert_ (x <? INT32_MAX / 2) in
  Ret (if x * 2 =? 0 then bsr0 else Z.log2 (x * 2)).

(** [Mempool::get_class_type] *)
Definition get_class_type (size : Z) : outcome Z :=
  let? _ := assert_ ((size >=? 1) && (size <=? max_class_size)) in
  msb_index (Z.shiftr (size - 1) class_type_shift).

(** [Mempool::free_buffer] *)
Definition free_buffer (b : Buffer) (m : Mempool) : outcome Mempool :=
  let? c := get_class_type (class_size b) in
  let? m := push_free c (b <| actual_size := 0 |>) m in
  Ret (m <| nr_freed ::= alter (fun n => u64 (n + 1)) (Z.to_nat c) |>).

(** [Mempool::alloc_buffer] *)
Definition alloc_buffer (size : Z) (answers : list shm_answer) (m : Mempool) : outcome (Buffer * Mempool) :=
  let? class_type := get_class_type size in
  let? l := expect (free_list m !! Z.to_nat class_type) in
  match l with
  | _ :: _ => alloc_from_class class_type size m
  | [] =>
    let? c := find_class 19 (free_list m) (class_type + 1) in
    if c =? nr_class_type then
      let m1 := m <| prev_alloc_class_size ::= fun n => u64 (Z.shiftl n 1) |> in
      let? (ok, m1) := alloc_slow (prev_alloc_class_size m1) answers m1 in
      if negb ok then Ret (null_buffer, m1 <| prev_alloc_class_size ::= fun n => Z.shiftr n 1 |>)
      else
        let c := nr_class_type - 1 in
        let? m1 := split_down (Z.to_nat (c - class_type)) c m1 in
        alloc_from_class class_type size m1
    else
      let? m := split_down (Z.to_nat (c - class_type)) c m in
      alloc_from_class class_type size m
  end.
End Classes.

(** [Mempool::valid_buffer] and [class_type_to_size] *)
Definition valid_buffer (b : Buffer) : bool :=
  negb (_buf b =? 0) && negb (actual_size b =? 0) && (actual_size b <=? class_size b).

Definition class_type_to_size (c : Z) : Z := min_class_size * Z.shiftl 1 c.

(** ** Disjoint stretches of memory *)

(** A stretch is an address and a length. *)
Definition disj (p q : Z * Z) : Prop := p.1 + p.2 <= q.1 \/ q.1 + q.2 <= p.1.
Definition within (p q : Z * Z) : Prop := q.1 <= p.1 /\ p.1 + p.2 <= q.1 + q.2.

Lemma disj_sym p q : disj p q -> disj q p.
Proof. unfold disj. lia. Qed.

Lemma disj_within p p' q : disj p q -> within p' p -> disj p' q.
Proof. unfold disj, within. lia. Qed.

Fixpoint apart (l : list (Z * Z)) : Prop :=
  match l with [] => True | p :: l => Forall (disj p) l /\ apart l end.

#[export] Instance apart_perm : Proper ((≡ₚ) ==> iff) apart.
Proof.
  assert (H : forall l k, l ≡ₚ k -> apart l -> apart k).
  { induction 1 as [|p l k E IH|p q l|l k m E1 IH1 E2 IH2]; cbn; [done| | |by eauto].
    - intros [H1 H2]. split; [by rewrite <- E|by apply IH].
    - intros [[H1 H2]%Forall_cons_1 [H3 H4]]. split; [apply Forall_cons_2; [by apply disj_sym|done]|done]. }
  intros l k E. split; by apply H.
Qed.

Lemma apart_app l k : apart (l ++ k) <-> apart l /\ apart k /\ forall p q, p ∈ l -> q ∈ k -> disj p q.
Proof.
  induction l as [|p l IH]; cbn; [split; [intros H; split; [done|]; split; [done|]; intros ? ? []%not_elem_of_nil|tauto]|].
  rewrite Forall_app, IH, !list.Forall_forall. split.
  - intros [[H1 H2] (H3 & H4 & H5)]. split; [split; done|]. split; [done|]. intros a q [->|Ha]%elem_of_cons Hq; eauto.
  - intros ([H1 H2] & H3 & H4). split; [split; [done|]|split; [done|split; [done|]]].
    + intros q Hq. apply H4; [apply elem_of_cons; by left|done].
    + intros a q Ha Hq. apply H4; [apply elem_of_cons; by right|done].
Qed.

(** ** Size classes *)

Lemma class_size_pow c : 0 <= c -> class_type_to_size c = 64 * 2 ^ c.
Proof. intros. unfold class_type_to_size, min_class_size. rewrite Z.shiftl_mul_pow2 by done. lia. Qed.

Lemma class_size_half c : 1 <= c -> class_type_to_size c / 2 = class_type_to_size (c - 1) /\ class_type_to_size c = 2 * class_type_to_size (c - 1).
Proof.
  intros Hc. rewrite !class_size_pow by lia. replace c with (Z.succ (c - 1)) at 1 3 by lia. rewrite Z.pow_succ_r by lia.
  replace (64 * (2 * 2 ^ (c - 1))) with (64 * 2 ^ (c - 1) * 2) by lia. rewrite Z.div_mul by lia. lia.
Qed.

Lemma class_size_pos c : 0 <= c -> 64 <= class_type_to_size c.
Proof. intros. rewrite class_size_pow by done. pose proof (Z.pow_pos_nonneg 2 c). lia. Qed.

(** The class of a request: the smallest that is large enough. *)
Lemma get_class_type_spec size :
  1 <= size <= max_class_size ->
  exists c, get_class_type 0 size = Ret c /\ 0 <= c < nr_class_type /\ size <= class_type_to_size c /\
    (c = 0 \/ class_type_to_size (c - 1) < size).
Proof.
  intros Hs. unfold get_class_type, msb_index, max_class_size, nr_class_type, INT32_MAX in *.
  destruct (Z.geb_spec size 1), (Z.leb_spec size (8 * 1024 * 1024)); try lia. cbn [andb assert_ obind].
  unfold class_type_shift. rewrite Z.shiftr_div_pow2 by lia. change (2 ^ 6) with 64. set (x := (size - 1) / 64).
  assert (Hx : 0 <= x < 131072) by (subst x; lia). change ((2 ^ 31 - 1) / 2) with 1073741823.
  destruct (Z.ltb_spec x 1073741823); [|lia]. cbn [assert_ obind].
  destruct (Z.eqb_spec (x * 2) 0) as [E|E]; [exists 0; rewrite class_size_pow by lia; change (64 * 2 ^ 0) with 64; split; [done|]; subst x; lia|].
  pose proof (Z.log2_double x) as Hd. rewrite Z.mul_comm, Hd by lia. pose proof (Z.log2_spec x) as [L1 L2]; [lia|].
  assert (Z.log2 x < 17) by (apply Z.log2_lt_pow2; lia). pose proof (Z.log2_nonneg x).
  exists (Z.succ (Z.log2 x)). rewrite !class_size_pow by lia. replace (Z.succ (Z.log2 x) - 1) with (Z.log2 x) by lia.
  split; [done|]. subst x. lia.
Qed.

Lemma get_class_type_size c : 0 <= c < nr_class_type -> get_class_type 0 (class_type_to_size c) = Ret c.
Proof.
  intros Hc. unfold nr_class_type in Hc. assert (c ∈ seqZ 0 18) as Hin by (apply elem_of_seqZ; lia).
  clear Hc; revert c Hin. apply list.Forall_forall. by repeat constructor.
Qed.

(** ** Invariant *)

Definition span (b : Buffer) : Z * Z := (_buf b, class_size b).

(** What is free, and what is free or handed out. *)
Definition free_spans (m : Mempool) : list (Z * Z) := span <$> concat (free_list m).

(** User addresses have 47 bits. *)
Definition USER_MAX : Z := 2 ^ 47.

Definition region_ok (r : Z * Z) : Prop := 0 < r.1 /\ 0 <= r.2 /\ r.1 + r.2 <= USER_MAX.

Record mp_inv (m : Mempool) (out : list Buffer) : Prop := {
  mi_len : length (free_list m) = Z.to_nat nr_class_type;
  mi_class : forall c l b, free_list m !! c = Some l -> b ∈ l -> class_size b = class_type_to_size (Z.of_nat c);
  mi_out : forall b, b ∈ out -> exists c, 0 <= c < nr_class_type /\ class_size b = class_type_to_size c;
  mi_apart : apart (free_spans m ++ (span <$> out));
  mi_in : forall p, p ∈ free_spans m ++ (span <$> out) -> exists r, r ∈ shm_regions m /\ within p r;
  mi_regions : apart (shm_regions m);
  mi_region : forall r, r ∈ shm_regions m -> region_ok r;
  mi_prev : max_class_size <= 2 * prev_alloc_class_size m <= 2 * USER_MAX
}.

(** A free list changed. *)
Lemma concat_insert (fl : list (list Buffer)) i l l' :
  fl !! i = Some l -> concat (<[i := l']> fl) ++ l ≡ₚ concat fl ++ l'.
Proof.
  revert i. induction fl as [|x fl IH]; intros [|i]; cbn; [done|done|intros [= ->]|intros E].
  - rewrite (Permutation_app_comm _ l), <- (app_assoc l). apply Permutation_app_head. by rewrite Permutation_app_comm.
  - rewrite <- !app_assoc. apply Permutation_app_head. by apply IH.
Qed.

(** Replacing the list of class [c]: the other parts of the invariant. *)
Lemma inv_class m out out' c l l' m' :
  mp_inv m out -> free_list m !! Z.to_nat c = Some l -> 0 <= c ->
  free_list m' = <[Z.to_nat c := l']> (free_list m) -> shm_regions m' = shm_regions m ->
  prev_alloc_class_size m' = prev_alloc_class_size m ->
  (forall b, b ∈ l' -> class_size b = class_type_to_size c) ->
  (forall b, b ∈ out' -> exists c, 0 <= c < nr_class_type /\ class_size b = class_type_to_size c) ->
  (span <$> l') ++ (span <$> out') ≡ₚ (span <$> l) ++ (span <$> out) -> mp_inv m' out'.
Proof.
  intros [I1 I2 I3 I4 I5 I6 I7 I8] El Hc Ef Er Ep Hl Ho E.
  assert (Hlt : (Z.to_nat c < length (free_list m))%nat) by (by apply lookup_lt_is_Some_1; eexists).
  assert (EP : free_spans m' ++ (span <$> out') ≡ₚ free_spans m ++ (span <$> out)).
  { unfold free_spans. rewrite Ef. pose proof (concat_insert (free_list m) (Z.to_nat c) l l' El) as Hp.
    apply (fmap_Permutation span) in Hp. rewrite !fmap_app in Hp.
    apply (Permutation_app_inv_l (span <$> l)). rewrite !app_assoc, (Permutation_app_comm (span <$> l)), Hp.
    rewrite <- !app_assoc, E, !app_assoc. apply Permutation_app_tail. by rewrite Permutation_app_comm. }
  split; rewrite ?Er, ?Ep; try done.
  - by rewrite Ef, length_insert.
  - intros i k b Hi Hb. rewrite Ef in Hi. destruct (decide (i = Z.to_nat c)) as [->|].
    + rewrite list_lookup_insert_eq in Hi by done. injection Hi as <-. rewrite Z2Nat.id by done. by apply Hl.
    + rewrite list_lookup_insert_ne in Hi by done. by eapply I2.
  - by rewrite EP.
  - intros p Hp. apply I5. by rewrite <- EP.
Qed.

Lemma inv_push m out b c l :
  mp_inv m (b :: out) -> free_list m !! Z.to_nat c = Some l -> 0 <= c -> class_size b = class_type_to_size c ->
  mp_inv (m <| free_list ::= <[Z.to_nat c := b :: l]> |>) out.
Proof.
  intros Hi El Hc Hb. eapply (inv_class m _ _ c l (b :: l)); try done.
  - intros x [->|Hx]%elem_of_cons; [done|]. rewrite <- (Z2Nat.id c) by done. by eapply mi_class.
  - intros x Hx. apply (mi_out _ _ Hi). apply elem_of_cons. by right.
  - cbn. by rewrite Permutation_middle.
Qed.

Lemma inv_pop m out b c l n :
  mp_inv m out -> free_list m !! Z.to_nat c = Some (b :: l) -> 0 <= c < nr_class_type ->
  mp_inv (m <| free_list ::= <[Z.to_nat c := l]> |>) (b <| actual_size := n |> :: out).
Proof.
  intros Hi El Hc. assert (Hb : forall x, x ∈ b :: l -> class_size x = class_type_to_size c).
  { intros x Hx. rewrite <- (Z2Nat.id c) by lia. by eapply mi_class. }
  eapply (inv_class m _ _ c (b :: l) l); try done; [lia| | |].
  - intros x Hx. apply Hb. apply elem_of_cons. by right.
  - intros x [->|Hx]%elem_of_cons; [|by apply (mi_out _ _ Hi)]. exists c. split; [done|]. apply (Hb b). apply elem_of_cons. by left.
  - cbn. by rewrite <- Permutation_middle.
Qed.

(** The same memory as two buffers. *)
Lemma inv_halve m out b c n n' :
  mp_inv m (b :: out) -> class_size b = class_type_to_size c -> 1 <= c < nr_class_type ->
  let h := class_size b / 2 in mp_inv m (mk_Buffer (_buf b) n h :: mk_Buffer (_buf b + h) n' h :: out).
Proof.
  intros [I1 I2 I3 I4 I5 I6 I7 I8] Hb Hc h. destruct (class_size_half c) as [E1 E2]; [lia|].
  assert (Eh : h = class_type_to_size (c - 1)) by (subst h; by rewrite Hb). pose proof (class_size_pos (c - 1) ltac:(lia)).
  set (p0 := (_buf b, h)). set (p1 := (_buf b + h, h)).
  assert (W0 : within p0 (span b)) by (unfold within, span; cbn; lia).
  assert (W1 : within p1 (span b)) by (unfold within, span; cbn; lia).
  assert (EP : forall x l, free_spans m ++ x :: l ≡ₚ x :: free_spans m ++ l) by (intros; by rewrite Permutation_middle).
  cbn in I4, I5. rewrite EP in I4. destruct I4 as [D4 A4]. split; try done.
  - intros x [->|[->|Hx]%elem_of_cons]%elem_of_cons; [exists (c - 1)|exists (c - 1)|apply I3, elem_of_cons; by right]; cbn; (split; [unfold nr_class_type in *; lia|done]).
  - change (apart (free_spans m ++ p0 :: p1 :: (span <$> out))). rewrite EP, EP. cbn [apart]. rewrite list.Forall_cons. repeat split.
    + unfold disj. cbn. lia.
    + eapply Forall_impl; [|exact D4]. intros q Hq. by eapply disj_within.
    + eapply Forall_impl; [|exact D4]. intros q Hq. by eapply disj_within.
    + done.
  - intros p Hp. change (p ∈ free_spans m ++ p0 :: p1 :: (span <$> out)) in Hp.
    assert (p = p0 \/ p = p1 \/ p ∈ free_spans m ++ (span <$> out)) as [->|[->|Hq]].
    { rewrite elem_of_app, !elem_of_cons in Hp. rewrite elem_of_app. tauto. }
    1,2: destruct (I5 (span b)) as (r & Hr & Hw); [rewrite elem_of_app, elem_of_cons; tauto|exists r; split; [done|unfold within in *; lia]].
    apply I5. rewrite elem_of_app in Hq. rewrite elem_of_app, elem_of_cons. tauto.
Qed.

(** [split] on a class whose lower neighbour is empty. *)
Lemma split_ok m out c b l :
  mp_inv m out -> 1 <= c < nr_class_type -> free_list m !! Z.to_nat c = Some (b :: l) ->
  free_list m !! Z.to_nat (c - 1) = Some [] ->
  exists m' x k, split c m = Ret m' /\ mp_inv m' out /\ free_list m' !! Z.to_nat (c - 1) = Some (x :: k) /\
    forall i, i <> Z.to_nat c -> i <> Z.to_nat (c - 1) -> free_list m' !! i = free_list m !! i.
Proof.
  intros Hi Hc El Ez. pose proof (mi_len _ _ Hi) as Hlen.
  assert (Hb : class_size b = class_type_to_size c).
  { rewrite <- (Z2Nat.id c) by lia. eapply mi_class; [done|done|apply elem_of_cons; by left]. }
  assert (Hne : Z.to_nat c <> Z.to_nat (c - 1)) by lia.
  pose proof (inv_pop m out b c l 0 Hi El ltac:(lia)) as H1. set (m1 := m <| free_list ::= <[Z.to_nat c := l]> |>) in *.
  pose proof (inv_halve m1 out _ c 0 0 H1 Hb Hc) as H2. cbn in H2. destruct (class_size_half c) as [E1 _]; [lia|].
  set (b0 := mk_Buffer (_buf b) 0 (class_size b / 2)) in *. set (b1 := mk_Buffer (_buf b + class_size b / 2) 0 (class_size b / 2)) in *.
  assert (Ez1 : free_list m1 !! Z.to_nat (c - 1) = Some []) by (cbn; by rewrite list_lookup_insert_ne).
  assert (Hlt : (Z.to_nat (c - 1) < length (free_list m1))%nat) by (apply lookup_lt_is_Some_1; by eexists).
  pose proof (inv_push m1 (b1 :: out) b0 (c - 1) [] H2 Ez1 ltac:(lia) ltac:(cbn; by rewrite Hb)) as H3.
  set (m2 := m1 <| free_list ::= <[Z.to_nat (c - 1) := [b0]]> |>) in *.
  assert (Ez2 : free_list m2 !! Z.to_nat (c - 1) = Some [b0]) by (cbn; by rewrite list_lookup_insert_eq).
  pose proof (inv_push m2 out b1 (c - 1) [b0] H3 Ez2 ltac:(lia) ltac:(cbn; by rewrite Hb)) as H4.
  exists (m2 <| free_list ::= <[Z.to_nat (c - 1) := [b1; b0]]> |>), b1, [b0]. split; [|split; [done|split]].
  - unfold split. rewrite El, Ez. cbn [expect obind]. fold m1. unfold push_free. rewrite Ez1. cbn [expect obind]. fold b0 m2. by rewrite Ez2.
  - change (<[Z.to_nat (c - 1) := [b1; b0]]> (free_list m2) !! Z.to_nat (c - 1) = Some [b1; b0]). rewrite list_lookup_insert_eq; [done|].
    apply lookup_lt_is_Some_1. by eexists.
  - intros i N1 N2. cbn. by rewrite !list_lookup_insert_ne.
Qed.

Lemma split_down_ok n c m out b l :
  mp_inv m out -> Z.of_nat n <= c < nr_class_type -> free_list m !! Z.to_nat c = Some (b :: l) ->
  (forall i, c - Z.of_nat n <= i < c -> free_list m !! Z.to_nat i = Some []) ->
  exists m' x k, split_down n c m = Ret m' /\ mp_inv m' out /\ free_list m' !! Z.to_nat (c - Z.of_nat n) = Some (x :: k).
Proof.
  revert c m b l. induction n as [|n IH]; intros c m b l Hi Hc El Hz; cbn [split_down].
  { exists m, b, l. rewrite Z.sub_0_r. done. }
  destruct (split_ok m out c b l Hi ltac:(lia) El (Hz (c - 1) ltac:(lia))) as (m1 & x & k & -> & Hi1 & E1 & Hs). cbn [obind].
  destruct (IH (c - 1) m1 x k Hi1 ltac:(lia) E1) as (m' & x' & k' & -> & Hi' & E').
  - intros i Hb. rewrite Hs by lia. apply Hz. lia.
  - exists m', x', k'. replace (c - Z.of_nat (S n)) with (c - 1 - Z.of_nat n) by lia. done.
Qed.

Lemma find_class_ok fuel fl c :
  length fl = Z.to_nat nr_class_type -> 0 <= c <= nr_class_type -> nr_class_type - c < Z.of_nat fuel ->
  exists c', find_class fuel fl c = Ret c' /\ c <= c' <= nr_class_type /\
    (forall i, c <= i < c' -> fl !! Z.to_nat i = Some []) /\
    (c' < nr_class_type -> exists b l, fl !! Z.to_nat c' = Some (b :: l)).
Proof.
  intros Hl. revert c. induction fuel as [|fuel IH]; intros c Hc Hf; [lia|]. cbn [find_class].
  destruct (Z.ltb_spec c nr_class_type); cbn [negb]; [|exists c; split; [done|]; split; [lia|]; split; [lia|lia]].
  destruct (lookup_lt_is_Some_2 fl (Z.to_nat c)) as [x Ex]; [lia|]. rewrite Ex. cbn [expect obind].
  destruct x as [|b l]; [|exists c; split; [done|]; split; [lia|]; split; [lia|]; intros _; by exists b, l].
  destruct (IH (c + 1)) as (c' & -> & H1 & H2 & H3); [lia|lia|]. exists c'. split; [done|]. split; [lia|]. split; [|done].
  intros i Hb. destruct (decide (i = c)) as [->|]; [done|apply H2; lia].
Qed.

(** The buffers [alloc_slow] cuts out of a region. *)
Fixpoint chunks (n : nat) (addr : Z) : list Buffer :=
  match n with O => [] | S n => mk_Buffer addr 0 max_class_size :: chunks n (addr + max_class_size) end.

Lemma chunks_in n addr b :
  b ∈ chunks n addr -> class_size b = max_class_size /\ addr <= _buf b /\ _buf b + max_class_size <= addr + Z.of_nat n * max_class_size.
Proof.
  revert addr. induction n as [|n IH]; intros addr; [by intros ?%not_elem_of_nil|]. cbn [chunks].
  intros [->|Hb]%elem_of_cons; [cbn; unfold max_class_size; lia|]. destruct (IH _ Hb) as (H1 & H2 & H3). unfold max_class_size in *. lia.
Qed.

Lemma chunks_apart n addr : apart (span <$> chunks n addr).
Proof.
  revert addr. induction n as [|n IH]; intros addr; cbn; [done|]. split; [|apply IH]. apply list.Forall_forall.
  intros p (b & -> & Hb%chunks_in)%list_elem_of_fmap. unfold disj, span. cbn. lia.
Qed.

Lemma carve_ok n addr m out l :
  mp_inv m (chunks n addr ++ out) -> free_list m !! 17%nat = Some l ->
  exists m', carve n addr m = Ret m' /\ mp_inv m' out /\ (forall i, i <> 17%nat -> free_list m' !! i = free_list m !! i) /\
    exists k, free_list m' !! 17%nat = Some (k ++ l) /\ length k = n.
Proof.
  revert addr m l. induction n as [|n IH]; intros addr m l Hi El; cbn [carve].
  { exists m. split; [done|]. split; [done|]. split; [done|]. by exists []. }
  unfold push_free. change (Z.to_nat (nr_class_type - 1)) with 17%nat. rewrite El. cbn [expect obind].
  cbn [chunks app] in Hi. pose proof (inv_push m _ _ 17 l Hi El ltac:(lia) eq_refl) as H1. change (Z.to_nat 17) with 17%nat in H1.
  assert (Hlt : (17 < length (free_list m))%nat) by (apply lookup_lt_is_Some_1; by eexists).
  destruct (IH _ _ (mk_Buffer addr 0 max_class_size :: l) H1) as (m' & -> & Hi' & Hs & k & Ek & Hk).
  { cbn. by rewrite list_lookup_insert_eq. }
  exists m'. split; [done|]. split; [done|]. split; [intros i Hne; rewrite (Hs i Hne); cbn; by rewrite list_lookup_insert_ne|].
  exists (k ++ [mk_Buffer addr 0 max_class_size]). rewrite <- app_assoc, length_app. cbn. split; [done|lia].
Qed.

(** A new region, and the buffers cut out of it. *)
Lemma inv_grant m out r n prev reg :
  mp_inv m out -> region_ok r -> (forall q, q ∈ shm_regions m -> disj r q) -> Z.of_nat n * max_class_size <= r.2 ->
  max_class_size <= 2 * prev <= 2 * USER_MAX ->
  mp_inv (m <| shm_regions ::= fun l => l ++ [r] |> <| shm_reg := reg |> <| prev_alloc_class_size := prev |>) (chunks n r.1 ++ out).
Proof.
  intros [I1 I2 I3 I4 I5 I6 I7 I8] Hr Hd Hn Hp.
  assert (Hw : forall b, b ∈ chunks n r.1 -> within (span b) r).
  { intros b (H1 & H2 & H3)%chunks_in. unfold within, span. cbn. lia. }
  set (m' := m <| shm_regions ::= _ |> <| shm_reg := _ |> <| prev_alloc_class_size := _ |>).
  assert (EP : free_spans m' ++ (span <$> chunks n r.1 ++ out) ≡ₚ (span <$> chunks n r.1) ++ (free_spans m ++ (span <$> out))).
  { change (free_spans m') with (free_spans m). rewrite fmap_app. apply Permutation_app_swap_app. }
  split; try done; rewrite ?EP.
  - intros b [Hb|Hb]%elem_of_app; [|by apply I3]. exists 17. split; [done|]. by destruct (chunks_in _ _ _ Hb) as [-> _].
  - apply apart_app. split; [apply chunks_apart|]. split; [done|].
    intros p q (b & -> & Hb)%list_elem_of_fmap Hq. destruct (I5 q Hq) as (r' & Hr' & Hq').
    apply disj_sym. eapply disj_within; [|exact Hq']. apply disj_sym. eapply disj_within; [by apply Hd|by apply Hw].
  - intros p. rewrite EP. intros [(b & -> & Hb)%list_elem_of_fmap|Hq]%elem_of_app.
    + exists r. split; [cbn; apply elem_of_app; right; by apply list_elem_of_singleton|by apply Hw].
    + destruct (I5 p Hq) as (r' & Hr' & Hq'). exists r'. split; [cbn; apply elem_of_app; by left|done].
  - cbn. apply apart_app. split; [done|]. split; [done|]. intros p q Hp' ->%list_elem_of_singleton. by apply disj_sym, Hd.
  - cbn. intros q [Hq| ->%list_elem_of_singleton]%elem_of_app; [by apply I7|done].
Qed.

(** ** The pool and its users *)

Lemma round_up_ge x : 0 <= x <= 2 * USER_MAX -> x <= round_up x HugePageSize.
Proof.
  unfold round_up, HugePageSize, USER_MAX. intros Hx. rewrite u64_small by (unfold in64; lia).
  change (2 * 1024 * 1024 - 1) with (Z.ones 21). rewrite <- Z.ldiff_land, Z.ldiff_ones_r by lia.
  rewrite Z.shiftl_mul_pow2, Z.shiftr_div_pow2 by lia. change (2 ^ 21) with 2097152. lia.
Qed.

(** What the operating system does when it is asked for [size] bytes: it
    answers in the end, without an error other than a lack of memory, and a
    region it grants is new and in the address space of users. *)
Record answers_ok (size : Z) (m : Mempool) (answers : list shm_answer) : Prop := {
  an_ends : exists x, x ∈ answers /\ x <> Shm_exists;
  an_error : Shm_error ∉ answers;
  an_grant : forall a, Shm_at a ∈ answers ->
    region_ok (a, round_up size HugePageSize) /\
    forall q, q ∈ shm_regions m -> disj (a, round_up size HugePageSize) q
}.

Lemma alloc_raw_ok size answers m :
  answers_ok size m answers ->
  (alloc_raw size answers m = Ret (null_buffer, m) /\ Shm_nomem ∈ answers) \/
  (exists a, Shm_at a ∈ answers /\ alloc_raw size answers m =
     Ret (mk_Buffer a 0 SIZE_MAX, m <| shm_regions ::= fun l => l ++ [(a, round_up size HugePageSize)] |>
       <| shm_reg ::= fun n => u64 (n + round_up size HugePageSize) |>)).
Proof.
  intros [(x & Hx & Hne) He _]. induction answers as [|[|a| |] l IH]; cbn [alloc_raw].
  - by apply not_elem_of_nil in Hx.
  - apply elem_of_cons in Hx as [->|Hx]; [done|]. rewrite not_elem_of_cons in He.
    destruct (IH Hx (proj2 He)) as [[E H]|(a & H & E)]; [left|right; exists a]; by rewrite elem_of_cons; auto.
  - right. exists a. split; [apply elem_of_cons; by left|done].
  - left. split; [done|apply elem_of_cons; by left].
  - exfalso. apply He, elem_of_cons. by left.
Qed.

(** The invariant does not depend on the statistics. *)
Lemma inv_ext m m' out :
  mp_inv m out -> free_list m' = free_list m -> shm_regions m' = shm_regions m ->
  prev_alloc_class_size m' = prev_alloc_class_size m -> mp_inv m' out.
Proof. intros [] E1 E2 E3. split; unfold free_spans in *; rewrite ?E1, ?E2, ?E3; done. Qed.

(** [alloc_slow] with the doubled size. *)
Lemma alloc_slow_ok m out answers :
  let m1 := m <| prev_alloc_class_size ::= fun n => u64 (Z.shiftl n 1) |> in
  mp_inv m out -> answers_ok (2 * prev_alloc_class_size m) m answers ->
  (exists m2, alloc_slow (prev_alloc_class_size m1) answers m1 = Ret (false, m2) /\ Shm_nomem ∈ answers /\
     mp_inv (m2 <| prev_alloc_class_size ::= fun n => Z.shiftr n 1 |>) out /\ free_list m2 = free_list m) \/
  (exists m2 b l, alloc_slow (prev_alloc_class_size m1) answers m1 = Ret (true, m2) /\ mp_inv m2 out /\
     free_list m2 !! 17%nat = Some (b :: l) /\ forall i, i <> 17%nat -> free_list m2 !! i = free_list m !! i).
Proof.
  intros m1 Hi Ha. pose proof (mi_prev _ _ Hi) as Hp. unfold USER_MAX, max_class_size in Hp.
  assert (E1 : prev_alloc_class_size m1 = 2 * prev_alloc_class_size m).
  { cbn. rewrite Z.shiftl_mul_pow2, u64_small by (unfold in64; lia). lia. }
  unfold alloc_slow. rewrite E1. set (sz := 2 * prev_alloc_class_size m) in *.
  destruct (Z.geb_spec sz max_class_size) as [Hge|]; [|unfold max_class_size in *; lia]. cbn [assert_ obind].
  destruct (alloc_raw_ok sz answers m1) as [[-> Hn]|(a & Hin & ->)]; [destruct Ha; by split| |]; cbn [obind].
  - left. exists m1. split; [done|]. split; [done|]. split; [|done]. eapply inv_ext; [exact Hi|done|done|].
    cbn. rewrite Z.shiftl_mul_pow2, u64_small, Z.shiftr_div_pow2 by (unfold in64; lia). change (2 ^ 1) with 2. lia.
  - right. destruct (an_grant _ _ _ Ha a Hin) as [Hr Hd]. pose proof (round_up_ge sz ltac:(unfold USER_MAX; lia)) as Hge2.
    cbn [_buf]. destruct (Z.eqb_spec a 0) as [->|]; [destruct Hr as [H _]; cbn in H; lia|].
    pose proof (inv_grant m out (a, round_up sz HugePageSize) (Z.to_nat (sz / max_class_size)) sz
      (u64 (shm_reg m + round_up sz HugePageSize)) Hi Hr Hd) as Hg. cbn [fst snd] in Hg.
    assert (0 < sz / max_class_size) by (apply Z.div_str_pos; unfold max_class_size in *; lia).
    assert (Hsz : mp_inv (m <| shm_regions ::= fun l => l ++ [(a, round_up sz HugePageSize)] |>
      <| shm_reg := u64 (shm_reg m + round_up sz HugePageSize) |> <| prev_alloc_class_size := sz |>)
      (chunks (Z.to_nat (sz / max_class_size)) a ++ out)).
    { apply Hg; [rewrite Z2Nat.id by lia; pose proof (Z.mul_div_le sz max_class_size); unfold max_class_size in *; lia|].
      destruct Hr as (Hr0 & _ & Hr). cbn in Hr0, Hr. unfold USER_MAX, max_class_size in *. lia. }
    destruct (lookup_lt_is_Some_2 (free_list m) 17) as [l El]; [rewrite (mi_len _ _ Hi); unfold nr_class_type; lia|].
    set (m2 := m1 <| shm_regions ::= _ |> <| shm_reg ::= _ |>).
    destruct (carve_ok (Z.to_nat (sz / max_class_size)) a m2 out l) as (m3 & -> & Hi3 & Hs & k & Ek & Hk);
      [eapply inv_ext; [exact Hsz|done|done|exact E1]|done|].
    destruct k as [|b k]; [cbn in Hk; lia|]. by exists m3, b, (k ++ l).
Qed.

(** [alloc_buffer] from a state that satisfies the invariant. *)
Definition alloc_post (size : Z) (answers : list shm_answer) (m : Mempool) (out : list Buffer) (b : Buffer) (m' : Mempool) : Prop :=
  (b = null_buffer /\ mp_inv m' out /\ Shm_nomem ∈ answers /\
     forall i l x, free_list m !! i = Some l -> x ∈ l -> class_size x < size) \/
  (mp_inv m' (b :: out) /\ valid_buffer b = true /\ actual_size b = size /\
     (class_size b = min_class_size \/ class_size b < 2 * size)).

Lemma alloc_class_ok c size answers m m0 out b l :
  mp_inv m out -> 0 <= c < nr_class_type -> free_list m !! Z.to_nat c = Some (b :: l) -> 1 <= size <= class_type_to_size c ->
  (c = 0 \/ class_type_to_size (c - 1) < size) ->
  exists b' m', alloc_from_class c size m = Ret (b', m') /\ alloc_post size answers m0 out b' m'.
Proof.
  intros Hi Hc El Hs Hmin. unfold alloc_from_class. rewrite El. cbn [expect obind]. eexists _, _. split; [done|]. right.
  pose proof (inv_pop m out b c l size Hi El Hc) as Hp.
  assert (Hb : class_size b = class_type_to_size c).
  { rewrite <- (Z2Nat.id c) by lia. eapply (mi_class m out); [done|done|apply elem_of_cons; by left]. }
  split; [by eapply inv_ext|]. split; [|split; [done|]].
  - destruct (mi_in _ _ Hp (span b)) as (r & Hr & Hw); [apply elem_of_app; right; apply elem_of_cons; left; reflexivity|].
    destruct (mi_region _ _ Hp r Hr) as [H1 _]. unfold within, span in Hw. cbn in Hw. unfold valid_buffer. cbn.
    destruct (Z.eqb_spec (_buf b) 0), (Z.eqb_spec size 0), (Z.leb_spec size (class_size b)); cbn; done || lia.
  - cbn. rewrite Hb. destruct (decide (c = 0)) as [->|]; [by left|right]. destruct Hmin as [->|H]; [done|].
    destruct (class_size_half c) as [_ E]; lia.
Qed.

Lemma alloc_ok size answers m out :
  mp_inv m out -> 1 <= size <= max_class_size -> answers_ok (2 * prev_alloc_class_size m) m answers ->
  exists b m', alloc_buffer 0 size answers m = Ret (b, m') /\ alloc_post size answers m out b m'.
Proof.
  intros Hi Hs Ha. destruct (get_class_type_spec size Hs) as (c & E & Hc & Hle & Hmin). unfold alloc_buffer. rewrite E. cbn [obind].
  pose proof (mi_len _ _ Hi) as Hlen. unfold nr_class_type in Hc, Hlen.
  destruct (lookup_lt_is_Some_2 (free_list m) (Z.to_nat c)) as [l El]; [lia|]. rewrite El. cbn [expect obind].
  destruct l as [|b l]; [|eapply alloc_class_ok; [done|done|done|lia|done]].
  destruct (find_class_ok 19 (free_list m) (c + 1)) as (c' & -> & H1 & H2 & H3); [done|unfold nr_class_type; lia|unfold nr_class_type; lia|].
  cbn [obind]. unfold nr_class_type in H1. destruct (Z.eqb_spec c' nr_class_type) as [->|Hne].
  - destruct (alloc_slow_ok m out answers Hi Ha) as [(m2 & -> & Hn & Hi2 & _)|(m2 & b & l & -> & Hi2 & Eb & Hs2)]; cbn [obind negb].
    + eexists _, _. split; [done|]. left. split; [done|]. split; [done|]. split; [done|].
      intros i k x Hk Hx. rewrite (mi_class _ _ Hi i k x Hk Hx).
      assert (Z.of_nat i < c).
      { assert (~ (c <= Z.of_nat i)) as Hni; [|lia]. intros Hci. pose proof (lookup_lt_Some _ _ _ Hk).
        assert (free_list m !! i = Some []) as Ei; [|rewrite Ei in Hk; injection Hk as <-; by apply not_elem_of_nil in Hx].
        destruct (decide (Z.of_nat i = c)); [by replace i with (Z.to_nat c) by lia|].
        replace i with (Z.to_nat (Z.of_nat i)) by lia. apply H2. unfold nr_class_type. lia. }
      destruct Hmin as [->|Hmin]; [lia|]. eapply Z.le_lt_trans; [|exact Hmin]. rewrite !class_size_pow by lia.
      apply Z.mul_le_mono_nonneg_l; [lia|]. apply Z.pow_le_mono_r; lia.
    + destruct (split_down_ok (Z.to_nat (nr_class_type - 1 - c)) (nr_class_type - 1) m2 out b l) as (m3 & x & k & -> & Hi3 & E3);
        [done|unfold nr_class_type; lia|done| |].
      * intros i Hb. unfold nr_class_type in Hb. rewrite Hs2 by lia. destruct (decide (i = c)) as [->|]; [done|]. apply H2. unfold nr_class_type. lia.
      * cbn [obind]. eapply (alloc_class_ok c); [done|done| |lia|done]. unfold nr_class_type in *. by replace (18 - 1 - Z.of_nat (Z.to_nat (18 - 1 - c))) with c in E3 by lia.
  - destruct H3 as (b & l & Eb); [unfold nr_class_type in *; lia|].
    destruct (split_down_ok (Z.to_nat (c' - c)) c' m out b l) as (m3 & x & k & -> & Hi3 & E3);
      [done|unfold nr_class_type in *; lia|done| |].
    + intros i Hb. destruct (decide (i = c)) as [->|]; [done|]. apply H2. lia.
    + cbn [obind]. eapply (alloc_class_ok c); [done|done| |lia|done]. by replace (c' - Z.of_nat (Z.to_nat (c' - c))) with c in E3 by lia.
Qed.

Lemma free_ok m o1 b o2 :
  mp_inv m (o1 ++ b :: o2) -> exists m', free_buffer 0 b m = Ret m' /\ mp_inv m' (o1 ++ o2).
Proof.
  intros Hi. destruct (mi_out _ _ Hi b) as (c & Hc & Hb); [apply elem_of_app; right; apply elem_of_cons; by left|].
  destruct (lookup_lt_is_Some_2 (free_list m) (Z.to_nat c)) as [l El]; [rewrite (mi_len _ _ Hi); unfold nr_class_type in *; lia|].
  unfold free_buffer, push_free. rewrite Hb, get_class_type_size by done. cbn [obind]. rewrite El. cbn [expect obind].
  eexists. split; [done|]. eapply (inv_class m _ _ c l (_ :: l)); try done; [lia| | |].
  - intros x [->|Hx]%elem_of_cons; [done|]. rewrite <- (Z2Nat.id c) by lia. by eapply (mi_class _ _ Hi).
  - intros x Hx. apply (mi_out _ _ Hi). rewrite elem_of_app, elem_of_cons in *. tauto.
  - rewrite (fmap_app _ o1 (b :: o2)), fmap_app. cbn. rewrite Permutation_middle. apply Permutation_app_head. by rewrite Permutation_middle.
Qed.

Lemma new_ok initial : max_class_size <= 2 * initial -> mp_inv (new_Mempool initial) [].
Proof.
  intros Hs. assert (E : concat (replicate 18 ([] : list Buffer)) = []) by done.
  split; try done; cbn [new_Mempool free_list shm_regions prev_alloc_class_size].
  - intros c l b [-> _]%lookup_replicate_1 Hb. by apply not_elem_of_nil in Hb.
  - intros b Hb. by apply not_elem_of_nil in Hb.
  - intros p Hp. by apply not_elem_of_nil in Hp.
  - intros r Hr. by apply not_elem_of_nil in Hr.
  - unfold USER_MAX, max_class_size in *. destruct (Z.ltb_spec initial (8 * 1024 * 1024)); lia.
Qed.

(** The pool and the buffers handed out, over any sequence of calls. *)
Inductive mp_reach : Mempool -> list Buffer -> Prop :=
| mp_new initial : max_class_size <= 2 * initial -> mp_reach (new_Mempool initial) []
| mp_alloc m out size answers b m' :
    mp_reach m out -> 1 <= size <= max_class_size -> answers_ok (2 * prev_alloc_class_size m) m answers ->
    alloc_buffer 0 size answers m = Ret (b, m') -> mp_reach m' (if _buf b =? 0 then out else b :: out)
| mp_free m o1 b o2 m' :
    mp_reach m (o1 ++ b :: o2) -> free_buffer 0 b m = Ret m' -> mp_reach m' (o1 ++ o2).

Lemma mp_reach_inv m out : mp_reach m out -> mp_inv m out.
Proof.
  induction 1 as [initial H|m out size answers b m' _ IH Hs Ha E|m o1 b o2 m' _ IH E]; [by apply new_ok| |].
  - destruct (alloc_ok size answers m out IH Hs Ha) as (b' & m2 & E' & Hp). rewrite E in E'. injection E' as <- <-.
    destruct Hp as [(-> & Hi & _)|(Hi & Hv & _)]; [done|]. unfold valid_buffer in Hv. by destruct (_buf b =? 0).
  - destruct (free_ok m o1 b o2 IH) as (m2 & E' & Hi). congruence.
Qed.

(** C30. The memory pool hands out disjoint buffers.  However allocations and
    releases are ordered, a request of at most 8 MB runs to its end: either the
    operating system has no memory and no free buffer is large enough, or the
    buffer returned holds the size asked for, wastes less than half of itself
    above the smallest class, lies in a region of the pool, and overlaps
    neither a buffer handed out nor one that is free.  A buffer handed out can
    always be returned.  The pool starts with at least 4 MB, the only error of
    the operating system is that it has no memory, and the operand 0 of the bit
    scan gives 0. *)
Theorem mempool_disjoint (m : Mempool) (out : list Buffer) :
  mp_reach m out ->
  (forall size answers, 1 <= size <= max_class_size -> answers_ok (2 * prev_alloc_class_size m) m answers ->
     exists b m', alloc_buffer 0 size answers m = Ret (b, m') /\
       ((b = null_buffer /\ Shm_nomem ∈ answers /\ forall i l x, free_list m !! i = Some l -> x ∈ l -> class_size x < size) \/
        (valid_buffer b = true /\ actual_size b = size /\ (class_size b = min_class_size \/ class_size b < 2 * size) /\
         (exists r, r ∈ shm_regions m' /\ within (span b) r) /\
         forall x, x ∈ out ++ concat (free_list m') -> disj (span b) (span x)))) /\
  (forall o1 b o2, out = o1 ++ b :: o2 -> exists m', free_buffer 0 b m = Ret m' /\ mp_reach m' (o1 ++ o2)).
Proof.
  intros Hr. pose proof (mp_reach_inv m out Hr) as Hi. split.
  - intros size answers Hs Ha. destruct (alloc_ok size answers m out Hi Hs Ha) as (b & m' & E & Hp). exists b, m'. split; [done|].
    destruct Hp as [(H1 & _ & H2 & H3)|(Hi' & H1 & H2 & H3)]; [by left|right]. split; [done|]. split; [done|]. split; [done|]. split.
    + apply (mi_in _ _ Hi'). apply elem_of_app. right. apply elem_of_cons. by left.
    + intros x Hx. pose proof (mi_apart _ _ Hi') as Hap. cbn [fmap list_fmap] in Hap. rewrite <- Permutation_middle in Hap. destruct Hap as [Hf _].
      rewrite list.Forall_forall in Hf. apply Hf. apply elem_of_app. rewrite elem_of_app in Hx.
      destruct Hx as [Hx|Hx]; [right|left]; apply list_elem_of_fmap; by exists x.
  - intros o1 b o2 ->. destruct (free_ok m o1 b o2 Hi) as (m' & E & _). exists m'. split; [done|]. by eapply mp_free.
Qed.

Lemma mempool_disjoint_witness :
  exists b m', alloc_buffer 0 100 [Shm_exists; Shm_at 0x10000000] (new_Mempool (16 * 1024 * 1024)) = Ret (b, m') /\ actual_size b = 100.
Proof.
  destruct (mempool_disjoint (new_Mempool (16 * 1024 * 1024)) []) as [H _]; [apply mp_new; unfold max_class_size; lia|].
  destruct (H 100 [Shm_exists; Shm_at 0x10000000]) as (b & m' & E & [(_ & Hn & _)|(_ & Hb & _)]).
  - unfold max_class_size. lia.
  - split; [exists (Shm_at 0x10000000); split; [apply elem_of_cons; right; by apply list_elem_of_singleton|done]| |].
    + by intros [|[|[]%not_elem_of_nil]%elem_of_cons]%elem_of_cons.
    + intros a [|[[= ->]|[]%not_elem_of_nil]%elem_of_cons]%elem_of_cons; [done|]. split; [by vm_compute|].
      intros q Hq. by apply not_elem_of_nil in Hq.
  - exfalso. by apply elem_of_cons in Hn as [|[|[]%not_elem_of_nil]%elem_of_cons].
  - exists b, m'. split; [exact E|exact Hb].
Defined.

(** For a request of at most 64 bytes [bsrl] has the operand 0, which leaves its
    destination undefined; with a stale register the index of the free list is
    outside the array. *)
Lemma small_request_undefined : alloc_buffer 31 64 [] (new_Mempool (16 * 1024 * 1024)) = Undefined.
Proof. by vm_compute. Qed.

(** Buffers enter the free lists uncounted, so the statistics wrap around. *)
Lemma statistics_wrap :
  exists b m', alloc_buffer 0 max_class_size [Shm_at 0x10000000] (new_Mempool (16 * 1024 * 1024)) = Ret (b, m') /\
    nr_freed m' !! 17%nat = Some (2 ^ 64 - 1).
Proof. eexists _, _. vm_compute. split; reflexivity. Qed.
