(* ===== verification/LibTcp.v ===== *)
(** The socket library, data path: the state of an application thread
    ([lib/include/app_if.h], [lib/include/tcp_if.h]), its receive path
    ([handle_rx], [sync_state], reads), its transmit path (segmentation,
    retransmission, release of acknowledged buffers) and the poll of the NIC
    ([lib/eTran_posix.cc], [lib/include/eTran_posix.h], [lib/funcs_mtp.h]).

    Packet buffers live in a shared store, one entry per frame, so that the
    lists of a connection hold addresses and every rewrite of metadata in
    place is seen through all of them.  The buffer pool is that of [BufPool].
    Dereferencing what is not there, an index outside an array and a failing
    assertion have no result. *)
From stdpp Require Import gmap.
From S2P Require Import Prelude Intf Headers BufPool.
Local Open Scope Z_scope.
Local Open Scope u32_scope.

(** ** Data *)

Definition POISON_64 : Z := 2 ^ 64 - 1.
Definition TCP_MSS_W_TS : Z := 1448.
Definition TX_BATCH_SIZE : Z := 32.
Definition RX_BATCH_SIZE : Z := 32.
Definition XDP_PACKET_HEADROOM : Z := 256.
Definition IPPROTO_TCP : Z := 6.

(** [enum conn_status] *)
Inductive conn_status :=
| CONN_CLOSED | CONN_OPEN_REQUESTED | CONN_ACCEPT_REQUESTED | CONN_BIND_REQUESTED | CONN_OPEN
| CONN_CLOSE_REQUESTED.

#[export] Instance conn_status_eq_dec : EqDecision conn_status.
Proof. solve_decision. Defined.

(** [struct eTrantcp_connection]; the lists hold the addresses of packets. *)
Record eTrantcp_connection := mk_eTrantcp_connection {
  rxb_head : Z;
  rxb_used : Z;
  rxb_bump : Z;
  txb_head : Z;
  txb_sent : Z;
  txb_allocated : Z;
  lc_local_ip : Z;
  lc_remote_ip : Z;
  lc_local_port : Z;
  lc_remote_port : Z;
  lc_rx_buf_size : Z;
  lc_tx_buf_size : Z;
  xsk_budget : Z;
  lc_qid : Z;
  lc_status : conn_status;
  pending_free_bytes : Z;
  unack_tx_addrs : list (Z * Z);
  rx_addrs : list Z;
  ooo_rx_addrs : list Z;
  in_rx_bump_pending : bool;
  force_rx_bump : bool;
  lc_s : Z;
  try_accept_done : bool
}.

#[export] Instance eta_eTrantcp_connection : Eta eTrantcp_connection := fun r =>
  mk_eTrantcp_connection (rxb_head r) (rxb_used r) (rxb_bump r) (txb_head r) (txb_sent r)
    (txb_allocated r) (lc_local_ip r) (lc_remote_ip r) (lc_local_port r) (lc_remote_port r)
    (lc_rx_buf_size r) (lc_tx_buf_size r) (xsk_budget r) (lc_qid r) (lc_status r)
    (pending_free_bytes r) (unack_tx_addrs r) (rx_addrs r) (ooo_rx_addrs r)
    (in_rx_bump_pending r) (force_rx_bump r) (lc_s r) (try_accept_done r).

(** The constructor; it leaves [pending_free_bytes] as the memory has it. *)
Definition new_eTrantcp_connection (junk : Z) : eTrantcp_connection :=
  mk_eTrantcp_connection 0 0 0 0 0 0 0 0 0 0 0 0 0 0 CONN_CLOSED junk [] [] [] false false 0 false.

(** [struct eTrantcp_event] *)
Inductive eTrantcp_event :=
| ETRANTCP_EV_LISTEN_OPEN (status listener fd : Z)
| ETRANTCP_EV_LISTEN_NEWCONN (remote_port remote_ip listener fd : Z)
| ETRANTCP_EV_LISTEN_ACCEPT (status conn : Z) (backlog : bool) (fd newfd : Z)
| ETRANTCP_EV_CONN_OPEN (status conn fd : Z)
| ETRANTCP_EV_CONN_BIND (status conn fd : Z)
| ETRANTCP_EV_CONN_CLOSE (status conn fd : Z)
| ETRANTCP_EV_CONN_RECVED (conn : Z)
| ETRANTCP_EV_CONN_SENDBUF (conn : Z).

(** The metadata in front of a packet: one union, read as what was written. *)
Inductive meta_info := Rx_meta (m : rx_meta) | Tx_meta (m : tx_meta).

#[export] Instance eta_tx_meta : Eta tx_meta := fun r =>
  mk_tx_meta (mtx_slowpath r) (mtx_flag r) (mtx_rx_bump r) (mtx_tx_pending r) (mtx_tx_pos r)
    (mtx_plen r).

(** A packet buffer: metadata, the header fields the library touches, in
    network byte order, and the bytes from [HEADERS_LEN] on. *)
Record uframe := mk_uframe {
  uf_meta : meta_info;
  uf_saddr : Z;
  uf_daddr : Z;
  uf_protocol : Z;
  uf_source : Z;
  uf_dest : Z;
  uf_seq : Z;
  uf_data : list Z
}.

#[export] Instance eta_uframe : Eta uframe := fun r =>
  mk_uframe (uf_meta r) (uf_saddr r) (uf_daddr r) (uf_protocol r) (uf_source r) (uf_dest r)
    (uf_seq r) (uf_data r).

(** [fixed_size_vector_32] *)
Record fixed_size_vector_32 := mk_fsv { fsv_vector : list Z; fsv_head : Z; fsv_tail : Z; slot_mask : Z }.

#[export] Instance eta_fsv : Eta fixed_size_vector_32 := fun r =>
  mk_fsv (fsv_vector r) (fsv_head r) (fsv_tail r) (slot_mask r).

Definition fsv_new (max_slot : Z) : fixed_size_vector_32 :=
  mk_fsv (replicate 32 0) 0 0 (max_slot ⊖ 1).

Definition fsv_push (e : Z) (v : fixed_size_vector_32) : option (Z * fixed_size_vector_32) :=
  if fsv_head v =? Z.land (fsv_tail v ⊕ 1) (slot_mask v) then Some (-1, v)
  else
    l ← wrz (fsv_vector v) (fsv_tail v) e;
    Some (0, v <| fsv_vector := l |> <| fsv_tail := Z.land (fsv_tail v ⊕ 1) (slot_mask v) |>).

Definition fsv_pop (v : fixed_size_vector_32) : option (option Z * fixed_size_vector_32) :=
  if fsv_head v =? fsv_tail v then Some (None, v)
  else
    e ← rdz (fsv_vector v) (fsv_head v);
    Some (Some e, v <| fsv_head := Z.land (fsv_head v ⊕ 1) (slot_mask v) |>).

(** A descriptor of a transmit ring. *)
Record xdp_desc := mk_xdp_desc { desc_addr : Z; desc_len : Z }.

(** [struct xsk_socket_info] with its rings: what the kernel has delivered
    ([xi_rx], [xi_cq]) and what was submitted to it ([xi_tx], [xi_fq]). *)
Record xsk_socket_info := mk_xsk_socket_info {
  xi_rx : list Z;
  xi_cq : list Z;
  xi_tx : list xdp_desc;
  xi_fq : list Z;
  outstanding : Z;
  cached_needfill : Z;
  xi_deficit : Z
}.

#[export] Instance eta_xsk_socket_info : Eta xsk_socket_info := fun r =>
  mk_xsk_socket_info (xi_rx r) (xi_cq r) (xi_tx r) (xi_fq r) (outstanding r) (cached_needfill r)
    (xi_deficit r).

(** [struct app_ctx_per_thread] with the buffer memory and the connections it
    points to.  The last seven fields are those added for MTP. *)
Record tctx := mk_tctx {
  t_tid : Z;
  t_params : buffer_pool_params;
  t_pool : bp_sys;
  t_umem : gmap Z uframe;
  t_conns : gmap Z eTrantcp_connection;
  t_queues : list xsk_socket_info;
  t_qid2idx : list Z;
  cached_fqidx : fixed_size_vector_32;
  next_rcv_qidx : Z;
  free_pending_conns : list Z;
  rx_bump_pending_conns : list Z;
  retransmission_conns : list (Z * Z);
  following_packets : bool;
  expected_seq : Z;
  t_ooo_start : Z;
  t_ooo_len : Z;
  last_offset : Z;
  t_rx_next_pos : Z;
  t_rx_buf_size : Z
}.

#[export] Instance eta_tctx : Eta tctx := fun r =>
  mk_tctx (t_tid r) (t_params r) (t_pool r) (t_umem r) (t_conns r) (t_queues r) (t_qid2idx r)
    (cached_fqidx r) (next_rcv_qidx r) (free_pending_conns r) (rx_bump_pending_conns r)
    (retransmission_conns r) (following_packets r) (expected_seq r) (t_ooo_start r) (t_ooo_len r)
    (last_offset r) (t_rx_next_pos r) (t_rx_buf_size r).

(** ** The monad of the operations *)

Definition L (A : Type) : Type := tctx -> option (A * tctx).

Definition lret {A} (a : A) : L A := fun t => Some (a, t).
Definition lbind {A B} (m : L A) (k : A -> L B) : L B :=
  fun t => match m t with Some (a, t) => k a t | None => None end.
Definition lundef {A} : L A := fun _ => None.
Definition lget : L tctx := fun t => Some (t, t).
Definition lmod (f : tctx -> tctx) : L unit := fun t => Some (tt, f t).
Definition lmust {A} (x : option A) : L A := match x with Some a => lret a | None => lundef end.

Declare Scope lib_scope.
Delimit Scope lib_scope with lib.
Notation "'let!' x := m 'in' k" := (lbind m (fun x => k))
  (at level 200, x pattern, m at level 100, k at level 200, right associativity) : lib_scope.
Notation "m ;; k" := (lbind m (fun _ => k)) (at level 100, k at level 200, right associativity) : lib_scope.
Local Open Scope lib_scope.

Definition lwhen (b : bool) (m : L unit) : L unit := if b then m else lret tt.

(** Connections, by pointer. *)
Definition rd_c (p : Z) : L eTrantcp_connection := let! t := lget in lmust (t_conns t !! p).
Definition upd_c (p : Z) (f : eTrantcp_connection -> eTrantcp_connection) : L unit :=
  let! c := rd_c p in lmod (fun t => t <| t_conns ::= <[p := f c]> |>).

(** Frames, by any address inside them. *)
Definition rd_frame (addr : Z) : L uframe :=
  let! t := lget in lmust (t_umem t !! fix_umem_offset addr).
Definition wr_frame (addr : Z) (f : uframe) : L unit :=
  lmod (fun t => t <| t_umem ::= <[fix_umem_offset addr := f]> |>).
Definition rd_rx (addr : Z) : L rx_meta :=
  let! f := rd_frame addr in match uf_meta f with Rx_meta m => lret m | Tx_meta _ => lundef end.
Definition rd_tx (addr : Z) : L tx_meta :=
  let! f := rd_frame addr in match uf_meta f with Tx_meta m => lret m | Rx_meta _ => lundef end.
Definition wr_rx (addr : Z) (g : rx_meta -> rx_meta) : L unit :=
  let! f := rd_frame addr in
  let! m := rd_rx addr in
  wr_frame addr (f <| uf_meta := Rx_meta (g m) |>).

(** Queues, by index. *)
Definition rd_q (i : Z) : L xsk_socket_info := let! t := lget in lmust (rdz (t_queues t) i).
Definition upd_q (i : Z) (f : xsk_socket_info -> xsk_socket_info) : L unit :=
  let! q := rd_q i in
  lmod (fun t => t <| t_queues ::= <[Z.to_nat i := f q]> |>).
Definition qid2idx (qid : Z) : L Z := let! t := lget in lmust (rdz (t_qid2idx t) qid).

(** The buffer cache of the thread. *)
Definition lpool (op : Z -> bp_op) : L Z := fun t =>
  match bp_exec (t_params t) (op (t_tid t)) (t_pool t) with
  | Some (r, p) => Some (r, t <| t_pool := p |>)
  | None => None
  end.
Definition bcache_prod (addr : Z) : L unit := let! _ := lpool (fun i => Prod i addr) in lret tt.
(** [assert(thread_bcache_check(bc, 1) == 1)], then [thread_bcache_cons] *)
Definition bcache_take : L Z :=
  let! n := lpool (fun i => Check_ i 1) in
  if n =? 1 then lpool Cons else lundef.

(** ** Receiving *)

(** [xsk_bytes_avail], [txb_bytes_avail] *)
Definition xsk_bytes_avail (c : eTrantcp_connection) : Z :=
  if xsk_budget c >? txb_sent c then xsk_budget c ⊖ txb_sent c else 0.
Definition txb_bytes_avail (c : eTrantcp_connection) : Z :=
  Z.min (lc_tx_buf_size c ⊖ txb_sent c ⊖ txb_allocated c) (xsk_bytes_avail c).

(** [connection_prepare_buffer] *)
Definition connection_prepare_buffer (c : eTrantcp_connection) : eTrantcp_connection :=
  c <| rxb_head := 0 |> <| rxb_used := 0 |> <| rxb_bump := 0 |>
    <| txb_head := 0 |> <| txb_sent := 0 |> <| txb_allocated := 0 |>
    <| xsk_budget := Z.shiftl 0xFFFF TCP_WND_SCALE |>.

Definition in_order_receive (p addr : Z) : L unit :=
  upd_c p (fun c => c <| rx_addrs ::= fun l => l ++ [addr] |>).
Definition out_of_order_receive (p addr : Z) : L unit :=
  upd_c p (fun c => c <| ooo_rx_addrs ::= fun l => l ++ [addr] |>).
(** [rx_addrs.insert(end, ooo_rx_addrs...)], then [ooo_rx_addrs.clear()] *)
Definition append_ooo (p : Z) : L unit :=
  upd_c p (fun c => c <| rx_addrs := rx_addrs c ++ ooo_rx_addrs c |> <| ooo_rx_addrs := [] |>).

(** The retransmission part of [sync_state]. *)
Definition sync_go_back (p go_back_pos : Z) : L unit :=
  let! c := rd_c p in
  if go_back_pos =? txb_head c then lret tt
  else
    let go_back_bytes :=
      if txb_head c >? go_back_pos then txb_head c ⊖ go_back_pos
      else lc_tx_buf_size c ⊖ (go_back_pos ⊖ txb_head c) in
    upd_c p (fun c => c <| txb_head := go_back_pos |>
                        <| txb_allocated := txb_allocated c ⊕ go_back_bytes |>
                        <| txb_sent := txb_sent c ⊖ go_back_bytes |>) ;;
    lmod (fun t => t <| retransmission_conns ::= fun l => l ++ [(p, go_back_bytes)] |>).

(** The acknowledgement part of [sync_state]. *)
Definition sync_ack (p ack_bytes : Z) : L unit :=
  let! c := rd_c p in
  lwhen (pending_free_bytes c =? 0)
    (lmod (fun t => t <| free_pending_conns ::= fun l => l ++ [p] |>)) ;;
  upd_c p (fun c => c <| txb_sent := txb_sent c ⊖ ack_bytes |>
                      <| pending_free_bytes := pending_free_bytes c ⊕ ack_bytes |>).

(** [sync_state]; the metadata has [ack_bytes] and [go_back_pos] in one place. *)
Definition sync_state (p : Z) (m : rx_meta) : L bool :=
  let! c := rd_c p in
  let send_event := txb_bytes_avail c =? 0 in
  let old_txb_sent := txb_sent c in
  let ack_bytes := mrx_ack_bytes m in
  lwhen (negb (ack_bytes =? POISON_32) && nz (Z.land ack_bytes RECOVERY_MASK))
    (sync_go_back p (Z.land ack_bytes (Z.lnot RECOVERY_MASK))) ;;
  lwhen (negb (mrx_xsk_budget_avail m =? POISON_32))
    (upd_c p (fun c => c <| xsk_budget := mrx_xsk_budget_avail m |>)) ;;
  let! c := rd_c p in
  lwhen ((old_txb_sent =? txb_sent c) && negb (ack_bytes =? POISON_32) && nz ack_bytes)
    (sync_ack p ack_bytes) ;;
  lret send_event.

(** What [handle_rx] carries from packet to packet: the connection whose
    events are due (0 for none), its received bytes, whether it may send, and
    the events so far. *)
Record rx_cache := mk_rx_cache {
  cached_conn : Z;
  cached_rx_bump : Z;
  cached_sendbuf_event : bool;
  ret_events : list eTrantcp_event
}.

#[export] Instance eta_rx_cache : Eta rx_cache := fun r =>
  mk_rx_cache (cached_conn r) (cached_rx_bump r) (cached_sendbuf_event r) (ret_events r).

(** [lazy_update_prev_conn_rxev], [lazy_update_prev_conn_txev] *)
Definition lazy_update_prev_conn_rxev (h : rx_cache) : L rx_cache :=
  if cached_rx_bump h =? 0 then lret h
  else
    upd_c (cached_conn h) (fun c => c <| rxb_used := rxb_used c ⊕ cached_rx_bump h |>) ;;
    lret (h <| ret_events ::= fun l => l ++ [ETRANTCP_EV_CONN_RECVED (cached_conn h)] |>).
Definition lazy_update_prev_conn_txev (h : rx_cache) : rx_cache :=
  if cached_sendbuf_event h
  then h <| ret_events ::= fun l => l ++ [ETRANTCP_EV_CONN_SENDBUF (cached_conn h)] |> else h.

(** The change to another connection. *)
Definition rx_switch (h : rx_cache) (conn : Z) : L rx_cache :=
  if negb (cached_conn h =? 0) && negb (conn =? cached_conn h) then
    let! h := lazy_update_prev_conn_rxev h in
    let h := lazy_update_prev_conn_txev h in
    lret (h <| cached_conn := conn |> <| cached_rx_bump := 0 |> <| cached_sendbuf_event := false |>)
  else if cached_conn h =? 0 then
    lret (h <| cached_conn := conn |> <| cached_rx_bump := 0 |>)
  else lret h.

(** [parse_packet] *)
Definition parse_packet (seq py_off py_len : Z) : Z * Z :=
  (seq ⊕ (py_off - HEADERS_LEN), seq ⊕ py_len).

(** The position [mtp_add_data_seg_wrapper] computes for a packet. *)
Definition mtp_rx_pos (t : tctx) (offset : Z) : Z :=
  let rx_pos := u32 (t_rx_next_pos t + (offset ⊖ last_offset t)) in
  if rx_pos >=? t_rx_buf_size t then rx_pos ⊖ t_rx_buf_size t else rx_pos.

Definition mtp_wrap_next (t : tctx) (n : Z) : Z :=
  let next := t_rx_next_pos t ⊕ n in
  if next >=? t_rx_buf_size t then next ⊖ t_rx_buf_size t else next.

(** [mtp_add_data_seg_wrapper]: the number of bytes it adds to
    [cached_rx_bump]. *)
Definition mtp_add_data_seg_wrapper (p addr start_seq end_seq py_len offset : Z) : L Z :=
  let set_pos := let! t := lget in wr_rx addr (fun m => m <| mrx_rx_pos := mtp_rx_pos t offset |>) in
  let! t := lget in
  if negb (following_packets t) then
    lmod (fun t => t <| expected_seq := end_seq |> <| following_packets := true |>
                     <| t_rx_buf_size := 524288 |> <| last_offset := offset |>) ;;
    set_pos ;; in_order_receive p addr ;; lret py_len
  else if expected_seq t =? start_seq then
    if (t_ooo_len t >? 0) && (end_seq =? t_ooo_start t) then
      append_ooo p ;; set_pos ;;
      lmod (fun t => t <| last_offset := offset |>
                       <| t_rx_next_pos := mtp_wrap_next t (py_len ⊕ t_ooo_len t) |>) ;;
      in_order_receive p addr ;;
      lmod (fun t => t <| expected_seq := t_ooo_start t ⊕ t_ooo_len t |> <| t_ooo_len := 0 |>) ;;
      lret (py_len ⊕ t_ooo_len t)
    else
      lmod (fun t => t <| expected_seq := expected_seq t ⊕ py_len |>) ;;
      set_pos ;;
      lmod (fun t => t <| t_rx_next_pos := mtp_wrap_next t (offset ⊖ last_offset t) |>
                       <| last_offset := offset |>) ;;
      in_order_receive p addr ;; lret py_len
  else
    if t_ooo_len t =? 0 then
      lmod (fun t => t <| t_ooo_start := start_seq |> <| t_ooo_len := py_len |>) ;;
      set_pos ;; out_of_order_receive p addr ;; lret 0
    else if end_seq =? t_ooo_start t then
      lmod (fun t => t <| t_ooo_start := start_seq |> <| t_ooo_len := t_ooo_len t ⊕ py_len |>) ;;
      set_pos ;; out_of_order_receive p addr ;; lret 0
    else if t_ooo_start t ⊕ t_ooo_len t =? start_seq then
      lmod (fun t => t <| t_ooo_len := t_ooo_len t ⊕ py_len |>) ;;
      set_pos ;; out_of_order_receive p addr ;; lret 0
    else lret 0.

(** The branch without [MTP_ON]. *)
Definition etran_add_data_seg (p addr py_len ooo_bump : Z) : L Z :=
  if negb (ooo_bump =? POISON_32) then
    if nz (Z.land ooo_bump OOO_FIN_MASK) then
      append_ooo p ;; in_order_receive p addr ;; lret (Z.land ooo_bump (Z.lnot OOO_FIN_MASK))
    else if nz (Z.land ooo_bump OOO_SEGMENT_MASK) then
      out_of_order_receive p addr ;; lret 0
    else lret 0
  else in_order_receive p addr ;; lret py_len.

(** The count of frames the fill ring of a queue is owed. *)
Definition need_fill (qid : Z) : L unit :=
  let! i := qid2idx qid in
  let! q := rd_q i in
  upd_q i (fun q => q <| cached_needfill := cached_needfill q ⊕ 1 |>) ;;
  lwhen (cached_needfill q =? 0)
    (let! t := lget in
     let! (_, v) := lmust (fsv_push i (cached_fqidx t)) in
     lmod (fun t => t <| cached_fqidx := v |>)).

(** The payload of a packet, [plen] not being poisoned. *)
Definition rx_payload (mtp : bool) (p addr : Z) (m : rx_meta) : L Z :=
  if mtp then
    let! f := rd_frame addr in
    let '(start_seq, end_seq) := parse_packet (bpf_ntohl (uf_seq f)) (mrx_poff m) (mrx_plen m) in
    mtp_add_data_seg_wrapper p addr start_seq end_seq (mrx_plen m) (mrx_rx_pos m)
  else etran_add_data_seg p addr (mrx_plen m) (mrx_ooo_bump m).

(** [handle_rx] for a packet of connection [p], up to the label [out]. *)
Definition rx_conn_packet (mtp : bool) (h : rx_cache) (p addr : Z) (m : rx_meta) : L rx_cache :=
  let! h := rx_switch h p in
  let sent (e : bool) (h : rx_cache) := if e then h <| cached_sendbuf_event := true |> else h in
  if mrx_qid m =? POISON_32 then
    let! e := sync_state p m in
    bcache_prod addr ;;
    lret (sent e h)
  else
    lwhen (nz (Z.land (mrx_qid m) FORCE_RX_BUMP_MASK)) (upd_c p (fun c => c <| force_rx_bump := true |>)) ;;
    need_fill (Z.land (mrx_qid m) (Z.lnot FORCE_RX_BUMP_MASK)) ;;
    let! e := sync_state p m in
    let h := sent e h in
    if mrx_plen m =? POISON_16 then
      lwhen (nz (Z.land (mrx_ooo_bump m) OOO_CLEAR_MASK)) (upd_c p (fun c => c <| ooo_rx_addrs := [] |>)) ;;
      bcache_prod addr ;;
      lret h
    else
      let! n := rx_payload mtp p addr m in
      lret (h <| cached_rx_bump := u64 (cached_rx_bump h + n) |>).

(** The label [out] for the last packet of a batch. *)
Definition rx_flush (h : rx_cache) : L rx_cache :=
  let! h := (if negb (cached_conn h =? 0) && nz (cached_rx_bump h)
             then lazy_update_prev_conn_rxev h else lret h) in
  lret (lazy_update_prev_conn_txev h).

(** [handle_rx] *)
Definition handle_rx (mtp : bool) (h : rx_cache) (addr : Z) (last : bool) : L rx_cache :=
  let! m := rd_rx addr in
  let conn := mrx_conn m in
  let! h := (if (conn =? POISON_64) || (conn =? 0) then bcache_prod addr ;; lret h
             else rx_conn_packet mtp h conn addr m) in
  if last then rx_flush h else lret h.

(** The loop over the packets of a batch. *)
Fixpoint handle_batch (mtp : bool) (h : rx_cache) (addrs : list Z) : L rx_cache :=
  match addrs with
  | [] => lret h
  | addr :: rest =>
    let! h := handle_rx mtp h addr (match rest with [] => true | _ => false end) in
    handle_batch mtp h rest
  end.

(** [n] bytes from offset [off] of a packet. *)
Definition payload_at (f : uframe) (off n : Z) : option (list Z) :=
  if (HEADERS_LEN <=? off) && (off - HEADERS_LEN + n <=? Z.of_nat (length (uf_data f)))
  then Some (take (Z.to_nat n) (drop (Z.to_nat (off - HEADERS_LEN)) (uf_data f))) else None.

(** The loops of [eTran_tcp_rx_peek_count_zc]: [keep] are the packets passed
    over, [buf] the bytes copied so far, [valid] the test of a position. *)
Fixpoint peek_loop (valid : Z -> bool) (size count : Z) (p : Z) (keep l : list Z) (buf : list Z)
  : L (list Z) :=
  let stop (l : list Z) := upd_c p (fun c => c <| rx_addrs := keep ++ l |>) in
  match l with
  | [] => stop [] ;; lret buf
  | addr :: rest =>
    let! f := rd_frame addr in
    let! m := rd_rx addr in
    let py_len := mrx_plen m in
    if valid (mrx_rx_pos m) then
      let append_len := Z.min py_len (count - Z.of_nat (length buf)) in
      let! bytes := lmust (payload_at f (mrx_poff m) append_len) in
      let buf := buf ++ bytes in
      if append_len =? py_len then
        bcache_prod addr ;;
        if Z.of_nat (length buf) =? count then stop rest ;; lret buf
        else peek_loop valid size count p keep rest buf
      else
        let pos := mrx_rx_pos m + append_len in
        wr_rx addr (fun m => m <| mrx_poff := u16 (mrx_poff m + append_len) |>
                               <| mrx_plen := u16 (py_len - append_len) |>
                               <| mrx_rx_pos := u32 (if pos >? size then pos - size else pos) |>) ;;
        stop l ;; lret buf
    else if Z.of_nat (length buf) =? count then stop l ;; lret buf
    else peek_loop valid size count p (keep ++ [addr]) rest buf
  end.

(** [eTran_tcp_rx_peek_count_zc]: the bytes copied to the caller. *)
Definition eTran_tcp_rx_peek_count_zc (p count : Z) : L (list Z) :=
  let! c := rd_c p in
  if rxb_used c =? 0 then lret []
  else
    let count := if count >? rxb_used c then rxb_used c else count in
    let head := rxb_head c in
    let size := lc_rx_buf_size c in
    let valid pos :=
      if head + count >? size then (pos >=? head) || (pos <? head + count - size)
      else (pos >=? head) && (pos <? head + count) in
    peek_loop valid size count p [] (rx_addrs c) [].

(** [eTran_tcp_rx_release] *)
Definition eTran_tcp_rx_release (p len : Z) : L Z :=
  let! c := rd_c p in
  if rxb_used c <? len then lret (-22)
  else
    let head := rxb_head c ⊕ len in
    upd_c p (fun c => c <| rxb_used := rxb_used c ⊖ len |> <| rxb_bump := rxb_bump c ⊕ len |>
                        <| rxb_head := if head >? lc_rx_buf_size c then head ⊖ lc_rx_buf_size c else head |>) ;;
    let! c := rd_c p in
    let limit := Z.min (Z.min (Z.shiftr (lc_rx_buf_size c) 2) (Z.shiftl 0xFFFF TCP_WND_SCALE)) 32768 in
    lwhen (((rxb_bump c >? limit) || force_rx_bump c) && negb (in_rx_bump_pending c))
      (lmod (fun t => t <| rx_bump_pending_conns ::= fun l => l ++ [p] |>) ;;
       upd_c p (fun c => c <| in_rx_bump_pending := true |>)) ;;
    upd_c p (fun c => c <| force_rx_bump := false |>) ;;
    lret 0.

(** [conn_recv] *)
Definition conn_recv (p count : Z) : L (list Z) :=
  let! bytes := eTran_tcp_rx_peek_count_zc p count in
  match bytes with
  | [] => lret []
  | _ => eTran_tcp_rx_release p (Z.of_nat (length bytes)) ;; lret bytes
  end.

(** ** Sending *)

(** [add_offset_tx_frame], with no extra headroom. *)
Definition add_offset_tx_frame (addr : Z) : Z := addr + XDP_PACKET_HEADROOM.

(** The headers the library writes into a packet of connection [c]. *)
Definition tx_headers (c : eTrantcp_connection) (f : uframe) : uframe :=
  f <| uf_saddr := bpf_htonl (lc_local_ip c) |> <| uf_daddr := bpf_htonl (lc_remote_ip c) |>
    <| uf_protocol := IPPROTO_TCP |>
    <| uf_source := bpf_htons (lc_local_port c) |> <| uf_dest := bpf_htons (lc_remote_port c) |>.

(** [tcp_txmeta_clear_all] *)
Definition txmeta_clear : tx_meta := mk_tx_meta 0 0 0 0 0 0.

(** Appending a descriptor to a transmit ring. *)
Definition tx_submit (i addr plen : Z) : L unit :=
  upd_q i (fun q => q <| xi_tx ::= fun l => l ++ [mk_xdp_desc addr (HEADERS_LEN + plen)] |>
                      <| outstanding := outstanding q ⊕ 1 |>).

(** The advance of [txb_head] over a segment. *)
Definition txb_advance (plen : Z) (c : eTrantcp_connection) : eTrantcp_connection :=
  let head := txb_head c ⊕ plen in
  c <| txb_head := if head >=? lc_tx_buf_size c then head ⊖ lc_tx_buf_size c else head |>.

(** The payload area after [n] bytes of [buf] were copied to its start. *)
Definition copy_in (buf : list Z) (n : Z) (data : list Z) : option (list Z) :=
  if n <=? Z.of_nat (length buf)
  then Some (take (Z.to_nat n) buf ++ drop (Z.to_nat n) data) else None.

(** The loops of [tcp_flow_tx_segmentation_zc]: [n] buffers remain, [pending]
    is the value for [tx_pending] of the next packet.  The reservations of
    ring entries, repeated until they succeed, are left out. *)
Fixpoint segment_loop (n : nat) (p i : Z) (buf : list Z) (remaining pending : Z) : L unit :=
  match n with
  | O => lret tt
  | S n =>
    let! frame := bcache_take in
    let addr := add_offset_tx_frame frame in
    let! c := rd_c p in
    let! f := rd_frame addr in
    let plen := Z.min TCP_MSS_W_TS remaining in
    let meta := txmeta_clear <| mtx_tx_pos := txb_head c |> <| mtx_plen := plen |>
                             <| mtx_tx_pending := pending |> in
    let! data := lmust (copy_in buf plen (uf_data f)) in
    wr_frame addr (tx_headers c f <| uf_meta := Tx_meta meta |> <| uf_data := data |>) ;;
    upd_c p (fun c => txb_advance plen (c <| unack_tx_addrs ::= fun l => l ++ [(addr, plen)] |>)) ;;
    tx_submit i addr plen ;;
    segment_loop n p i (drop (Z.to_nat plen) buf) (remaining ⊖ plen) 0
  end.

(** [tcp_flow_tx_segmentation_zc]; [CONN_AFFINITY] is defined. *)
Definition tcp_flow_tx_segmentation_zc (p : Z) (buf : list Z) (len : Z) : L unit :=
  let! c := rd_c p in
  let! i := qid2idx (lc_qid c) in
  segment_loop (Z.to_nat ((len + TCP_MSS_W_TS - 1) / TCP_MSS_W_TS)) p i buf (u32 len) (u32 len).

(** [eTran_tcp_tx_reserve_zc] *)
Definition eTran_tcp_tx_reserve_zc (p reserve_len : Z) : L Z :=
  let! c := rd_c p in
  if decide (lc_status c <> CONN_OPEN) then lret (-22)
  else
    let avail := txb_bytes_avail c in
    let reserve_len := if avail <? reserve_len then avail else reserve_len in
    upd_c p (fun c => c <| txb_allocated := txb_allocated c ⊕ reserve_len |>) ;;
    lret reserve_len.

(** [eTran_tcp_tx_submit_zc] *)
Definition eTran_tcp_tx_submit_zc (p : Z) (buf : list Z) (len : Z) : L Z :=
  let! c := rd_c p in
  if decide (lc_status c <> CONN_OPEN) then lret (-22)
  else if txb_allocated c <? len then lret (-22)
  else
    tcp_flow_tx_segmentation_zc p buf len ;;
    upd_c p (fun c => c <| txb_allocated := txb_allocated c ⊖ len |> <| txb_sent := txb_sent c ⊕ len |>) ;;
    lret 0.

(** [conn_send]; [buf] holds at least [count] bytes. *)
Definition conn_send (p : Z) (buf : list Z) (count : Z) : L Z :=
  let! r := eTran_tcp_tx_reserve_zc p count in
  if r <=? 0 then lret r
  else eTran_tcp_tx_submit_zc p buf r ;; lret r.

(** The loop of [tcp_flow_tx_segmentation_zc_retransmission] over the
    unacknowledged packets: what is left of [len], and the first packet
    submitted. *)
Fixpoint retransmit_loop (l : list (Z * Z)) (p i txb_sent0 len skip_len : Z) (first : option Z)
  : L (Z * option Z) :=
  match l with
  | [] => lret (len, first)
  | (addr, plen) :: l =>
    if len =? 0 then lret (len, first)
    else
      let skip_len := skip_len ⊕ plen in
      if skip_len <? txb_sent0 then retransmit_loop l p i txb_sent0 len skip_len first
      else
        let! c := rd_c p in
        let! f := rd_frame addr in
        wr_frame addr (f <| uf_meta := Tx_meta (txmeta_clear <| mtx_tx_pos := txb_head c |>
                                                             <| mtx_plen := plen |>) |>) ;;
        upd_c p (txb_advance plen) ;;
        tx_submit i addr plen ;;
        retransmit_loop l p i txb_sent0 (if len >? plen then len - plen else 0) skip_len
          (match first with None => Some addr | Some _ => first end)
  end.

(** [tcp_flow_tx_segmentation_zc_retransmission] *)
Definition tcp_flow_tx_segmentation_zc_retransmission (p len : Z) : L Z :=
  let! c := rd_c p in
  let! i := qid2idx (lc_qid c) in
  let! (rest, first) := retransmit_loop (unack_tx_addrs c) p i (txb_sent c) len 0 None in
  match first with
  | None => lret tt
  | Some addr =>
    let! f := rd_frame addr in
    let! m := rd_tx addr in
    wr_frame addr (f <| uf_meta := Tx_meta (m <| mtx_tx_pending := u32 (len - rest) |>) |>)
  end ;;
  lret (len - rest).

(** [eTran_tcp_tx_submit_zc_retransmission] *)
Definition eTran_tcp_tx_submit_zc_retransmission (p len : Z) : L Z :=
  let! c := rd_c p in
  if decide (lc_status c <> CONN_OPEN) then lret (-22)
  else
    let! len := tcp_flow_tx_segmentation_zc_retransmission p len in
    upd_c p (fun c => c <| txb_allocated := txb_allocated c ⊖ len |> <| txb_sent := txb_sent c ⊕ len |>) ;;
    lret 0.

(** [tcp_retransmission] *)
Fixpoint retransmission_loop (l : list (Z * Z)) : L unit :=
  match l with
  | [] => lret tt
  | (p, len) :: l =>
    let! c := rd_c p in
    match unack_tx_addrs c with
    | [] => lret tt
    | _ => let! _ := eTran_tcp_tx_submit_zc_retransmission p len in lret tt
    end ;;
    lmod (fun t => t <| retransmission_conns := l |>) ;;
    retransmission_loop l
  end.
Definition tcp_retransmission : L unit := let! t := lget in retransmission_loop (retransmission_conns t).

(** The inner loop of [tcp_free_buffers]; [front] of an empty list is
    undefined. *)
Fixpoint free_loop (l : list (Z * Z)) (p : Z) : L unit :=
  let! c := rd_c p in
  if pending_free_bytes c =? 0 then lret tt
  else
    match l with
    | [] => lundef
    | (addr, plen) :: l =>
      upd_c p (fun c => c <| unack_tx_addrs := l |>) ;;
      bcache_prod addr ;;
      upd_c p (fun c => c <| pending_free_bytes := pending_free_bytes c ⊖ plen |>) ;;
      free_loop l p
    end.

(** [tcp_free_buffers] *)
Fixpoint free_buffers_loop (l : list Z) : L unit :=
  match l with
  | [] => lret tt
  | p :: l =>
    let! c := rd_c p in
    free_loop (unack_tx_addrs c) p ;;
    lmod (fun t => t <| free_pending_conns := l |>) ;;
    free_buffers_loop l
  end.
Definition tcp_free_buffers : L unit := let! t := lget in free_buffers_loop (free_pending_conns t).

(** [tcp_ebpf_sync]; [room] reservations succeed before one fails. *)
Fixpoint ebpf_sync_loop (room : nat) (l : list Z) : L unit :=
  match room, l with
  | _, [] | O, _ => lret tt
  | S room, p :: l =>
    let! c := rd_c p in
    let! i := qid2idx (lc_qid c) in
    let! frame := bcache_take in
    let addr := add_offset_tx_frame frame in
    let! f := rd_frame addr in
    let meta := txmeta_clear <| mtx_flag := FLAG_SYNC |> <| mtx_rx_bump := rxb_bump c |> in
    wr_frame addr (tx_headers c f <| uf_meta := Tx_meta meta |>) ;;
    tx_submit i addr 0 ;;
    upd_c p (fun c => c <| rxb_bump := 0 |> <| in_rx_bump_pending := false |>) ;;
    lmod (fun t => t <| rx_bump_pending_conns := l |>) ;;
    ebpf_sync_loop room l
  end.
Definition tcp_ebpf_sync (room : nat) : L unit :=
  let! t := lget in ebpf_sync_loop room (rx_bump_pending_conns t).

(** ** Polling the NIC *)

(** The completions of one queue: packets of the slow path and dummy packets
    go back to the pool, data packets stay until they are acknowledged. *)
Fixpoint completion_loop (l : list Z) (sp : Z) : L Z :=
  match l with
  | [] => lret sp
  | addr :: l =>
    let! m := rd_tx addr in
    if nz (mtx_slowpath m) || (mtx_flag m =? FLAG_SYNC) then
      bcache_prod addr ;;
      completion_loop l (if nz (mtx_slowpath m) then sp ⊕ 1 else sp)
    else completion_loop l sp
  end.

Definition poll_completions (i : Z) : L unit :=
  let! q := rd_q i in
  if outstanding q =? 0 then lret tt
  else
    let n := Z.to_nat (Z.min (outstanding q) TX_BATCH_SIZE) in
    let done := take n (xi_cq q) in
    let! sp := completion_loop done 0 in
    upd_q i (fun q => q <| xi_cq ::= drop n |>
                        <| outstanding := outstanding q ⊖ (Z.of_nat (length done) ⊖ sp) |>).

Fixpoint for_queues (n : nat) (i : Z) (f : Z -> L unit) : L unit :=
  match n with O => lret tt | S n => f i ;; for_queues n (i + 1) f end.

(** The loop that fetches packets, once around the queues from [qidx]; the
    arrays hold 64 packets. *)
Fixpoint fetch_loop (n : nat) (qidx budget : Z) (addrs : list Z) : L (list Z) :=
  match n with
  | O => lret addrs
  | S n =>
    if budget <=? 0 then lret addrs
    else
      let! t := lget in
      let nr := Z.of_nat (length (t_queues t)) in
      let! q := rd_q qidx in
      let k := Z.to_nat (Z.min RX_BATCH_SIZE budget) in
      let rcvd := take k (xi_rx q) in
      if 64 <? Z.of_nat (length (addrs ++ rcvd)) then lundef
      else
        upd_q qidx (fun q => q <| xi_rx ::= drop k |>) ;;
        fetch_loop n ((qidx + 1) mod nr) (budget - Z.of_nat (length rcvd)) (addrs ++ rcvd)
  end.

(** The frames given back to a fill ring. *)
Fixpoint refill_loop (n : nat) (i : Z) : L unit :=
  match n with
  | O => lret tt
  | S n =>
    let! frame := bcache_take in
    upd_q i (fun q => q <| xi_fq ::= fun l => l ++ [frame] |>) ;;
    refill_loop n i
  end.

(** The loop over [cached_fqidx]; it holds fewer than 32 entries. *)
Fixpoint refill_queues (n : nat) : L unit :=
  match n with
  | O => lundef
  | S n =>
    let! t := lget in
    let! (e, v) := lmust (fsv_pop (cached_fqidx t)) in
    lmod (fun t => t <| cached_fqidx := v |>) ;;
    match e with
    | None => lret tt
    | Some i =>
      let! q := rd_q i in
      refill_loop (Z.to_nat (cached_needfill q)) i ;;
      upd_q i (fun q => q <| cached_needfill := 0 |>) ;;
      refill_queues n
    end
  end.

Definition rx_cache_init : rx_cache := mk_rx_cache 0 0 false [].

(** [tcp_nic_poll] *)
Definition tcp_nic_poll (mtp : bool) (budget : Z) : L (list eTrantcp_event) :=
  let! t := lget in
  let nr := length (t_queues t) in
  for_queues nr 0 poll_completions ;;
  let! addrs := fetch_loop nr (next_rcv_qidx t) budget [] in
  lmod (fun t => t <| next_rcv_qidx := (next_rcv_qidx t + 1) mod Z.of_nat nr |>) ;;
  let! h := handle_batch mtp rx_cache_init addrs in
  refill_queues 32 ;;
  lret (ret_events h).
