(* ===== verification/LibOwn.v ===== *)
(** Ownership of packet buffers in the socket library.  [own X t]: the lists of
    the connections, the rings of the kernel and the addresses [X] in the
    hands of the running operation name different frames, all taken from the
    pool.  Every operation of the library keeps this, so a buffer is never
    returned twice, and never used after it was returned. *)
From stdpp Require Import gmap.
From S2P Require Import Prelude Intf Headers BufPool LibTcp.
Local Open Scope Z_scope.
Local Open Scope lib_scope.

(** ** What holds after an operation, if it has a result *)

Definition lpost {A} (m : L A) (t : tctx) (Q : A -> tctx -> Prop) : Prop :=
  forall a t', m t = Some (a, t') -> Q a t'.

Lemma lpost_ret {A} (a : A) t (Q : A -> tctx -> Prop) : Q a t -> lpost (lret a) t Q.
Proof. by intros H ? ? [= <- <-]. Qed.

Lemma lpost_bind {A B} (m : L A) (k : A -> L B) t Q :
  lpost m t (fun a t' => lpost (k a) t' Q) -> lpost (lbind m k) t Q.
Proof.
  intros H b t'. unfold lbind. destruct (m t) as [[a t1]|] eqn:E; [|done]. by apply (H a t1 E).
Qed.

Lemma lpost_mono {A} (m : L A) t (P Q : A -> tctx -> Prop) :
  lpost m t P -> (forall a t', P a t' -> Q a t') -> lpost m t Q.
Proof. intros H HPQ a t' E. by apply HPQ, H. Qed.

Lemma lpost_undef {A} t (Q : A -> tctx -> Prop) : lpost lundef t Q.
Proof. by intros ? ?. Qed.

Lemma lpost_get t (Q : tctx -> tctx -> Prop) : Q t t -> lpost lget t Q.
Proof. by intros H ? ? [= <- <-]. Qed.

Lemma lpost_mod f t (Q : unit -> tctx -> Prop) : Q tt (f t) -> lpost (lmod f) t Q.
Proof. by intros H ? ? [= <- <-]. Qed.

Lemma lpost_must {A} (x : option A) t (Q : A -> tctx -> Prop) :
  (forall a, x = Some a -> Q a t) -> lpost (lmust x) t Q.
Proof. intros H. destruct x; [by apply lpost_ret, H|apply lpost_undef]. Qed.

Lemma lpost_when (b : bool) m t (Q : unit -> tctx -> Prop) :
  (b = true -> lpost m t Q) -> (b = false -> Q tt t) -> lpost (lwhen b m) t Q.
Proof. intros H1 H2. destruct b; [by apply H1|by apply lpost_ret, H2]. Qed.

Lemma lpost_rd_c p t (Q : eTrantcp_connection -> tctx -> Prop) :
  (forall c, t_conns t !! p = Some c -> Q c t) -> lpost (rd_c p) t Q.
Proof. intros H. apply lpost_bind, lpost_get, lpost_must, H. Qed.

Lemma lpost_upd_c p f t (Q : unit -> tctx -> Prop) :
  (forall c, t_conns t !! p = Some c -> Q tt (t <| t_conns ::= <[p := f c]> |>)) -> lpost (upd_c p f) t Q.
Proof. intros H. apply lpost_bind, lpost_rd_c. intros c E. by apply lpost_mod, H. Qed.

Lemma lpost_rd_frame a t (Q : uframe -> tctx -> Prop) :
  (forall f, t_umem t !! fix_umem_offset a = Some f -> Q f t) -> lpost (rd_frame a) t Q.
Proof. intros H. apply lpost_bind, lpost_get, lpost_must, H. Qed.

Lemma lpost_rd_rx a t (Q : rx_meta -> tctx -> Prop) :
  (forall f m, t_umem t !! fix_umem_offset a = Some f -> uf_meta f = Rx_meta m -> Q m t) ->
  lpost (rd_rx a) t Q.
Proof.
  intros H. apply lpost_bind, lpost_rd_frame. intros f E.
  destruct (uf_meta f) eqn:Em; [by eapply lpost_ret, H|apply lpost_undef].
Qed.

Lemma lpost_rd_tx a t (Q : tx_meta -> tctx -> Prop) :
  (forall f m, t_umem t !! fix_umem_offset a = Some f -> uf_meta f = Tx_meta m -> Q m t) ->
  lpost (rd_tx a) t Q.
Proof.
  intros H. apply lpost_bind, lpost_rd_frame. intros f E.
  destruct (uf_meta f) eqn:Em; [apply lpost_undef|by eapply lpost_ret, H].
Qed.

Lemma lpost_wr_rx a g t (Q : unit -> tctx -> Prop) :
  (forall f m, t_umem t !! fix_umem_offset a = Some f -> uf_meta f = Rx_meta m ->
     Q tt (t <| t_umem ::= <[fix_umem_offset a := f <| uf_meta := Rx_meta (g m) |>]> |>)) ->
  lpost (wr_rx a g) t Q.
Proof.
  intros H. apply lpost_bind, lpost_rd_frame. intros f E. apply lpost_bind, lpost_rd_rx.
  intros f' m E' Em. apply lpost_mod. rewrite E in E'. injection E' as <-. by apply H.
Qed.

Lemma lpost_rd_q i t (Q : xsk_socket_info -> tctx -> Prop) :
  (forall q, rdz (t_queues t) i = Some q -> Q q t) -> lpost (rd_q i) t Q.
Proof. intros H. apply lpost_bind, lpost_get, lpost_must, H. Qed.

Lemma lpost_upd_q i f t (Q : unit -> tctx -> Prop) :
  (forall q, rdz (t_queues t) i = Some q -> Q tt (t <| t_queues ::= <[Z.to_nat i := f q]> |>)) ->
  lpost (upd_q i f) t Q.
Proof. intros H. apply lpost_bind, lpost_rd_q. intros q E. by apply lpost_mod, H. Qed.

Lemma lpost_qid2idx x t (Q : Z -> tctx -> Prop) :
  (forall i, rdz (t_qid2idx t) x = Some i -> Q i t) -> lpost (qid2idx x) t Q.
Proof. intros H. apply lpost_bind, lpost_get, lpost_must, H. Qed.

#[global] Opaque rd_c upd_c rd_frame rd_rx rd_tx wr_rx rd_q upd_q qid2idx.

(** One step through the operation at hand. *)
Ltac lp1 :=
  cbv beta zeta;
  lazymatch goal with
  | |- lpost (lbind _ _) _ _ => apply lpost_bind
  | |- lpost (lret _) _ _ => apply lpost_ret
  | |- lpost lundef _ _ => apply lpost_undef
  | |- lpost lget _ _ => apply lpost_get
  | |- lpost (lmod _) _ _ => apply lpost_mod
  | |- lpost (lmust _) _ _ => apply lpost_must; intros ? ?
  | |- lpost (lwhen _ _) _ _ => apply lpost_when; intros ?
  | |- lpost (rd_c _) _ _ => apply lpost_rd_c; intros ? ?
  | |- lpost (upd_c _ _) _ _ => apply lpost_upd_c; intros ? ?
  | |- lpost (rd_frame _) _ _ => apply lpost_rd_frame; intros ? ?
  | |- lpost (wr_frame _ _) _ _ => apply lpost_mod
  | |- lpost (rd_rx _) _ _ => apply lpost_rd_rx; intros ? ? ? ?
  | |- lpost (rd_tx _) _ _ => apply lpost_rd_tx; intros ? ? ? ?
  | |- lpost (wr_rx _ _) _ _ => apply lpost_wr_rx; intros ? ? ? ?
  | |- lpost (rd_q _) _ _ => apply lpost_rd_q; intros ? ?
  | |- lpost (upd_q _ _) _ _ => apply lpost_upd_q; intros ? ?
  | |- lpost (qid2idx _) _ _ => apply lpost_qid2idx; intros ? ?
  | |- lpost (if ?b then _ else _) _ _ => destruct b eqn:?
  | |- lpost (match ?x with _ => _ end) _ _ => destruct x eqn:?
  end.
Ltac lp := repeat lp1.

(** ** The buffers of a thread *)

Definition own_c (c : eTrantcp_connection) : list Z :=
  rx_addrs c ++ ooo_rx_addrs c ++ (unack_tx_addrs c).*1.
Definition own_conns (m : gmap Z eTrantcp_connection) : list Z :=
  concat (own_c <$> (map_to_list m).*2).
Definition own_q (q : xsk_socket_info) : list Z := xi_rx q ++ xi_fq q.
Definition held (t : tctx) : list Z := own_conns (t_conns t) ++ concat (own_q <$> t_queues t).

Record own (X : list Z) (t : tctx) : Prop := {
  ow_params : params_ok (t_params t);
  ow_pool : bp_inv (t_params t) (t_pool t);
  ow_cache : is_Some (sy_caches (t_pool t) !! t_tid t);
  ow_nodup : NoDup (fix_umem_offset <$> (X ++ held t));
  ow_out : forall a, a ∈ X ++ held t -> fix_umem_offset a ∈ sy_out (t_pool t)
}.

Lemma own_conns_split m p c :
  m !! p = Some c -> own_conns m ≡ₚ own_c c ++ own_conns (delete p m).
Proof.
  intros E. unfold own_conns.
  change (own_c c ++ concat (own_c <$> (map_to_list (delete p m)).*2))
    with (concat (own_c <$> ((p, c) :: map_to_list (delete p m)).*2)).
  rewrite <- (map_to_list_insert (delete p m)) by apply lookup_delete_eq. by rewrite insert_delete_id.
Qed.

Lemma own_conns_insert m p c' : own_conns (<[p := c']> m) ≡ₚ own_c c' ++ own_conns (delete p m).
Proof. rewrite (own_conns_split _ p c') by apply lookup_insert_eq. by rewrite delete_insert_eq. Qed.

Lemma own_perm X X' Z t t' :
  own X t -> t_params t' = t_params t -> t_pool t' = t_pool t -> t_tid t' = t_tid t ->
  X ++ held t ≡ₚ (X' ++ held t') ++ Z -> own X' t'.
Proof.
  intros [H1 H2 H3 H4 H5] E1 E2 E3 Hp. split; rewrite ?E1, ?E2, ?E3; try done.
  - rewrite Hp, fmap_app in H4. by apply list.NoDup_app in H4 as (? & _ & _).
  - intros a Ha. apply H5. rewrite Hp. apply elem_of_app. by left.
Qed.

(** Fields that hold no buffers. *)
Lemma own_same X t t' :
  own X t -> t_params t' = t_params t -> t_pool t' = t_pool t -> t_tid t' = t_tid t ->
  t_conns t' = t_conns t -> t_queues t' = t_queues t -> own X t'.
Proof.
  intros H E1 E2 E3 E4 E5. eapply (own_perm X X []); try done.
  unfold held. rewrite E4, E5, app_nil_r. done.
Qed.

(** A connection exchanges buffers with the hand; [Z] are lost. *)
Lemma own_conn Y Y' Z X t p c c' :
  own (Y ++ X) t -> t_conns t !! p = Some c -> own_c c ++ Y ≡ₚ (own_c c' ++ Y') ++ Z ->
  own (Y' ++ X) (t <| t_conns ::= <[p := c']> |>).
Proof.
  intros H E Hp. eapply (own_perm (Y ++ X) (Y' ++ X) Z); try done.
  unfold held. cbn. rewrite (own_conns_split _ p c E), own_conns_insert.
  set (R := own_conns _). set (Q := concat _).
  transitivity ((own_c c ++ Y) ++ X ++ R ++ Q); [|rewrite Hp]; solve_Permutation.
Qed.

(** The same for a queue. *)
Lemma concat_update {A} (f : A -> list Z) (l : list A) i x x' :
  l !! i = Some x -> exists R, concat (f <$> l) ≡ₚ f x ++ R /\ concat (f <$> <[i := x']> l) ≡ₚ f x' ++ R.
Proof.
  revert i. induction l as [|y l IH]; intros [|i]; cbn; [done|done|intros [= ->]|intros E].
  - by eexists.
  - destruct (IH i E) as (R & H1 & H2). exists (f y ++ R). rewrite H1, H2. split; solve_Permutation.
Qed.

Lemma rdz_lookup {A} (l : list A) i x : rdz l i = Some x -> l !! Z.to_nat i = Some x.
Proof. unfold rdz. by destruct (0 <=? i). Qed.

Lemma own_queue Y Y' Z X t i q q' :
  own (Y ++ X) t -> rdz (t_queues t) i = Some q -> own_q q ++ Y ≡ₚ (own_q q' ++ Y') ++ Z ->
  own (Y' ++ X) (t <| t_queues ::= <[Z.to_nat i := q']> |>).
Proof.
  intros H E%rdz_lookup Hp. destruct (concat_update own_q _ _ q q' E) as (R & H1 & H2).
  eapply (own_perm (Y ++ X) (Y' ++ X) Z); try done. unfold held. cbn. rewrite H1, H2.
  set (C := own_conns _). transitivity ((own_q q ++ Y) ++ X ++ R ++ C); [|rewrite Hp]; solve_Permutation.
Qed.

Lemma own_conn_same X t p c c' :
  own X t -> t_conns t !! p = Some c -> own_c c' = own_c c -> own X (t <| t_conns ::= <[p := c']> |>).
Proof. intros H E Ec. apply (own_conn [] [] [] X t p c c' H E). rewrite Ec. solve_Permutation. Qed.

Lemma own_queue_same X t i q q' :
  own X t -> rdz (t_queues t) i = Some q -> own_q q' = own_q q ->
  own X (t <| t_queues ::= <[Z.to_nat i := q']> |>).
Proof. intros H E Ec. apply (own_queue [] [] [] X t i q q' H E). rewrite Ec. solve_Permutation. Qed.

Lemma own_swap X X' t : X ≡ₚ X' -> own X t -> own X' t.
Proof. intros E H. eapply (own_perm X X' []); try done. rewrite E. solve_Permutation. Qed.

Lemma own_readdr a a' X t : fix_umem_offset a' = fix_umem_offset a -> own (a :: X) t -> own (a' :: X) t.
Proof.
  intros E [H1 H2 H3 H4 H5]. split; try done.
  - cbn in H4 |- *. by rewrite E.
  - intros b [->|Hb]%elem_of_cons; [rewrite E; apply H5; by left|apply H5; by right].
Qed.

(** ** The pool *)

Definition pool_step (t t' : tctx) : Prop := exists s, t' = t <| t_pool := s |>.

Lemma own_prod a X t :
  own (a :: X) t -> lpost (bcache_prod a) t (fun _ t' => own X t' /\ pool_step t t').
Proof.
  intros [H1 H2 H3 H4 H5]. apply lpost_bind. intros r t' E. apply lpost_ret. unfold lpool in E.
  destruct (inv_prod _ H1 (t_tid t) a (t_pool t) H2 H3) as (s' & E' & Hi & Ho).
  { apply H5. apply elem_of_app. left. by left. }
  rewrite E' in E. injection E as _ <-. split; [|by eexists].
  cbn in H4. apply list.NoDup_cons in H4 as [Hn Hd]. split; try done.
  - assert (sy_caches s' !! t_tid t <> None) as Hc; [|cbn; by destruct (sy_caches s' !! t_tid t)].
    cbn in E'. destruct H3 as [bc Hbc]. rewrite Hbc in E'. cbn in E'.
    destruct (thread_bcache_prod _ _ _ _) as [[bc' bp']|]; [|done]. cbn in E'. injection E' as <-. cbn.
    by rewrite lookup_insert_eq.
  - intros b Hb. change (fix_umem_offset b ∈ sy_out s'). rewrite Ho. apply elem_of_difference. split.
    + apply H5. by apply elem_of_app, list_elem_of_further, elem_of_app in Hb as Hb' || (right; exact Hb).
    + rewrite elem_of_singleton. intros Eb. apply Hn. rewrite <- Eb. by apply list_elem_of_fmap_2.
Qed.

(** A successful check leaves a buffer in the cache. *)
Lemma check_fills pr t s s' :
  params_ok pr -> bp_inv pr s -> bp_exec pr (Check_ t 1) s = Some (1, s') ->
  exists bc, sy_caches s' !! t = Some bc /\ 0 < nr_buffers_cons bc.
Proof.
  intros Hp [HS _] E. cbn in E. destruct (sy_caches s !! t) as [bc|] eqn:Et; [|done]. cbn in E.
  pose proof (sh_counts _ _ HS t bc Et) as [Hc _]. unfold thread_bcache_check in E.
  destruct (Z.eqb_spec (nr_buffers_cons bc) 0) as [E0|E0]; cbn in E.
  - destruct (bp_nr_slabs_avail (sy_bp s) =? 0); [done|]. destruct (rdz _ _); [|done]. cbn in E.
    destruct (wrz _ _ _); [|done]. injection E as <-. eexists. split; [apply lookup_insert_eq|].
    apply (pk_per _ Hp).
  - injection E as _ <-. exists bc. split; [apply lookup_insert_eq|lia].
Qed.

Lemma cons_keeps pr t s a s' : bp_exec pr (Cons t) s = Some (a, s') -> is_Some (sy_caches s' !! t).
Proof.
  cbn. destruct (sy_caches s !! t) as [bc|]; [|done]. cbn. destruct (thread_bcache_cons _ _) as [[a' bc']|]; [|done].
  intros [= _ <-]. cbn. by rewrite lookup_insert_eq.
Qed.

Lemma own_take X t :
  own X t -> lpost bcache_take t (fun a t' => own (a :: X) t' /\ pool_step t t' /\ fix_umem_offset a = a).
Proof.
  intros [H1 H2 H3 H4 H5]. unfold bcache_take. apply lpost_bind. intros n t1 E1. unfold lpool in E1.
  destruct (inv_exec _ H1 (Check_ (t_tid t) 1) (t_pool t) ∅ H2 H3)
    as [[(? & ? & [=] & _) _]|(_ & r & s1 & E' & Hi & Ho1 & _)].
  rewrite E' in E1. injection E1 as <- <-. lp1; [|apply lpost_undef]. apply Z.eqb_eq in Heqb as ->.
  destruct (check_fills _ _ _ _ H1 H2 E') as (bc & Hbc & Hpos).
  intros a t2 E2. unfold lpool in E2. cbn in E2.
  destruct (inv_cons _ H1 (t_tid t) s1 bc Hi Hbc Hpos) as (a' & s2 & E2' & Hi2 & Hf & Hn & Ho).
  pose proof (cons_keeps _ _ _ _ _ E2') as Hk. cbn in E2'. rewrite E2' in E2. injection E2 as <- <-.
  assert (fix_umem_offset a' = a') as Ea.
  { apply elem_of_frames in Hf as (i & -> & _). rewrite <- (Z.add_0_r (_ * _)) at 1.
    by apply fix_umem_offset_frame. }
  split; [|split; [by eexists|done]]. split; try done.
  - cbn. apply NoDup_cons_2; [|done]. rewrite Ea. intros (b & -> & Hb)%list_elem_of_fmap.
    apply Hn. rewrite Ho1. by apply H5.
  - intros b Hb. change (fix_umem_offset b ∈ sy_out s2). rewrite Ho, elem_of_union, elem_of_singleton.
    apply elem_of_cons in Hb as [->|Hb]; [by left|right]. rewrite Ho1. by apply H5.
Qed.

(** ** What a connection has received *)

Section Quiet.
(** The connection under observation, and buffers in the hands of the kernel. *)
Context (p0 : Z) (W : list Z).

Definition rxpart (c : eTrantcp_connection) : Z * Z * list Z * list Z * Z * Z :=
  (rxb_head c, rxb_used c, rx_addrs c, ooo_rx_addrs c, lc_rx_buf_size c, rxb_bump c).

(** The received packets of [p0], and those the rings of the thread hold. *)
Definition rx_held (t : tctx) : list Z :=
  from_option rx_addrs [] (t_conns t !! p0) ++ concat (xi_rx <$> t_queues t).
Definition rx_frames (t : tctx) : list Z := W ++ rx_held t.

(** An operation leaves them alone. *)
Record quiet (t t' : tctx) : Prop := {
  qt_conn : rxpart <$> t_conns t' !! p0 = rxpart <$> t_conns t !! p0;
  qt_rx : xi_rx <$> t_queues t' = xi_rx <$> t_queues t;
  qt_mem : forall a, a ∈ rx_frames t -> t_umem t' !! fix_umem_offset a = t_umem t !! fix_umem_offset a
}.

Lemma quiet_refl t : quiet t t.
Proof. by split. Qed.

Lemma rxpart_addrs c c' : rxpart c = rxpart c' -> rx_addrs c = rx_addrs c'.
Proof. by intros [= _ _ -> _ _ _]. Qed.

Lemma quiet_frames t t' : quiet t t' -> rx_frames t' = rx_frames t.
Proof.
  intros [Hc Hr _]. unfold rx_frames, rx_held. rewrite Hr. do 2 f_equal.
  destruct (t_conns t' !! p0), (t_conns t !! p0); cbn in *; try done.
  apply (inj Some) in Hc. by apply rxpart_addrs.
Qed.

Lemma quiet_trans t1 t2 t3 : quiet t1 t2 -> quiet t2 t3 -> quiet t1 t3.
Proof.
  intros H1 H2. pose proof (quiet_frames _ _ H1) as E. destruct H1 as [A1 A2 A3], H2 as [B1 B2 B3]. split.
  - congruence.
  - congruence.
  - intros a Ha. rewrite B3 by (by rewrite E). by apply A3.
Qed.

(** The frames of the observed packets are among those held. *)
Lemma held_split t :
  exists R, held t ≡ₚ rx_held t ++ R /\
    (forall p c a n, t_conns t !! p = Some c -> (a, n) ∈ unack_tx_addrs c -> a ∈ R) /\
    (forall p c a, p <> p0 -> t_conns t !! p = Some c -> a ∈ own_c c -> a ∈ R).
Proof.
  unfold held, rx_held.
  assert (exists R, concat (own_q <$> t_queues t) ≡ₚ concat (xi_rx <$> t_queues t) ++ R) as [Q HQ].
  { induction (t_queues t) as [|q l [R IH]]; cbn; [by exists []|]. exists (xi_fq q ++ R). rewrite IH.
    unfold own_q. solve_Permutation. }
  assert (forall m p c a, m !! p = Some c -> a ∈ own_c c -> a ∈ own_conns m) as Hin.
  { intros m p c a E Ha. rewrite (own_conns_split _ _ _ E). apply elem_of_app. by left. }
  destruct (t_conns t !! p0) as [c0|] eqn:E0; cbn.
  - exists ((ooo_rx_addrs c0 ++ (unack_tx_addrs c0).*1) ++ own_conns (delete p0 (t_conns t)) ++ Q). split_and!.
    + rewrite HQ, (own_conns_split _ _ _ E0). unfold own_c. solve_Permutation.
    + intros p c a n Ep Ha. destruct (decide (p = p0)) as [->|Hp].
      * rewrite E0 in Ep. injection Ep as <-. apply elem_of_app. left. apply elem_of_app. right.
        apply list_elem_of_fmap. by exists (a, n).
      * apply elem_of_app. right. apply elem_of_app. left. apply (Hin _ p c); [by rewrite lookup_delete_ne|].
        unfold own_c. apply elem_of_app. right. apply elem_of_app. right. apply list_elem_of_fmap. by exists (a, n).
    + intros p c a Hp Ep Ha. apply elem_of_app. right. apply elem_of_app. left.
      apply (Hin _ p c); [by rewrite lookup_delete_ne|done].
  - exists (own_conns (t_conns t) ++ Q). split_and!; [rewrite HQ; solve_Permutation| |].
    + intros p c a n Ep Ha. apply elem_of_app. left. apply (Hin _ p c); [done|].
      unfold own_c. apply elem_of_app. right. apply elem_of_app. right. apply list_elem_of_fmap. by exists (a, n).
    + intros p c a _ Ep Ha. apply elem_of_app. left. by apply (Hin _ p c).
Qed.

Lemma own_apart X t R a b :
  own (X ++ W) t -> held t ≡ₚ rx_held t ++ R -> a ∈ X ++ R -> b ∈ rx_frames t ->
  fix_umem_offset a <> fix_umem_offset b.
Proof.
  intros H HR Ha Hb E. pose proof (ow_nodup _ _ H) as Hn.
  assert ((X ++ W) ++ held t ≡ₚ rx_frames t ++ (X ++ R)) as Hp by (rewrite HR; unfold rx_frames; solve_Permutation).
  rewrite Hp, fmap_app in Hn. apply list.NoDup_app in Hn as (_ & Hd & _).
  apply (Hd (fix_umem_offset b)); [by apply list_elem_of_fmap_2|]. rewrite <- E. by apply list_elem_of_fmap_2.
Qed.

(** A buffer in the hand is none of the observed packets, nor is one that
    waits for an acknowledgement or belongs to another connection. *)
Lemma hand_apart X t a b : own (X ++ W) t -> a ∈ X -> b ∈ rx_frames t -> fix_umem_offset a <> fix_umem_offset b.
Proof.
  intros H Ha Hb. destruct (held_split t) as (R & HR & _). eapply own_apart; [done..| |done].
  apply elem_of_app. by left.
Qed.

Lemma unack_apart X t p c a n b :
  own (X ++ W) t -> t_conns t !! p = Some c -> (a, n) ∈ unack_tx_addrs c -> b ∈ rx_frames t ->
  fix_umem_offset a <> fix_umem_offset b.
Proof.
  intros H Ep Ha Hb. destruct (held_split t) as (R & HR & Hu & _). eapply own_apart; [done..| |done].
  apply elem_of_app. right. by eapply Hu.
Qed.

Lemma other_apart X t p c a b :
  own (X ++ W) t -> p <> p0 -> t_conns t !! p = Some c -> a ∈ own_c c -> b ∈ rx_frames t ->
  fix_umem_offset a <> fix_umem_offset b.
Proof.
  intros H Hp Ep Ha Hb. destruct (held_split t) as (R & HR & _ & Ho). eapply own_apart; [done..| |done].
  apply elem_of_app. right. by eapply Ho.
Qed.
End Quiet.

(** ** Changes to the transmit half of a connection *)

Definition core (t : tctx) :=
  (t_tid t, t_params t, t_pool t, t_umem t, t_queues t, t_qid2idx t, cached_fqidx t, next_rcv_qidx t,
   rx_bump_pending_conns t,
   (following_packets t, expected_seq t, t_ooo_start t, t_ooo_len t, last_offset t, t_rx_next_pos t,
    t_rx_buf_size t)).

Definition crest (c : eTrantcp_connection) :=
  (rxpart c, unack_tx_addrs c, (in_rx_bump_pending c, force_rx_bump c),
   (lc_local_ip c, lc_remote_ip c, lc_local_port c, lc_remote_port c, lc_tx_buf_size c, lc_qid c),
   lc_status c, lc_s c, try_accept_done c).

Definition sync_rel (p : Z) (t t' : tctx) : Prop :=
  core t' = core t /\ exists c c', t_conns t !! p = Some c /\ t_conns t' = <[p := c']> (t_conns t) /\ crest c' = crest c.

Lemma sync_rel_refl p t c : t_conns t !! p = Some c -> sync_rel p t t.
Proof. intros E. split; [done|]. exists c, c. by rewrite insert_id. Qed.

Lemma sync_rel_upd p t t' c f :
  sync_rel p t t' -> t_conns t' !! p = Some c -> crest (f c) = crest c ->
  sync_rel p t (t' <| t_conns ::= <[p := f c]> |>).
Proof.
  intros (H1 & c0 & c1 & E0 & E1 & Ec) E Hf. rewrite E1, lookup_insert_eq in E. injection E as ->.
  split; [done|]. exists c0, (f c). cbn. rewrite E1, insert_insert_eq. split; [done|]. split; [done|]. congruence.
Qed.

Lemma sync_rel_mod p t t' t2 :
  sync_rel p t t' -> core t2 = core t' -> t_conns t2 = t_conns t' -> sync_rel p t t2.
Proof. intros (H1 & c & c' & E0 & E1 & Ec) E2 E3. split; [congruence|]. exists c, c'. rewrite E3. done. Qed.

Lemma sync_state_rel p m t : lpost (sync_state p m) t (fun _ t' => sync_rel p t t').
Proof.
  unfold sync_state, sync_go_back, sync_ack.
  lp; repeat match goal with
    | H : t_conns t !! p = Some _ |- sync_rel p t t => by apply (sync_rel_refl _ _ _ H)
    | |- sync_rel p t (_ <| t_conns ::= <[p := ?c']> |>) => eapply (sync_rel_upd p t _ _ (fun _ => c')); [|eassumption|done]
    | |- sync_rel p t (?x <| free_pending_conns ::= _ |>) => apply (sync_rel_mod p t x); [|done|done]
    | |- sync_rel p t (?x <| retransmission_conns ::= _ |>) => apply (sync_rel_mod p t x); [|done|done]
    end.
Qed.

(** ** Every operation keeps the buffers apart *)

Section Ops.
Context (p0 : Z) (W : list Z).

(** Between the state [t0] and [t] the observed connection was left alone. *)
Definition good (X : list Z) (t0 t : tctx) : Prop := own (X ++ W) t /\ quiet p0 W t0 t.

Lemma good_refl X t : own (X ++ W) t -> good X t t.
Proof. intros H. split; [done|apply quiet_refl]. Qed.

Lemma good_step X Y t0 t t' : good X t0 t -> own (Y ++ W) t' -> quiet p0 W t t' -> good Y t0 t'.
Proof. intros [_ H] Ho Hq. split; [done|by eapply quiet_trans]. Qed.

Lemma quiet_pool t t' : pool_step t t' -> quiet p0 W t t'.
Proof. intros [s ->]. by split. Qed.

Lemma quiet_conn t p c c' :
  t_conns t !! p = Some c -> p <> p0 \/ rxpart c' = rxpart c -> quiet p0 W t (t <| t_conns ::= <[p := c']> |>).
Proof.
  intros E Hc. split; [|done..]. cbn. destruct (decide (p = p0)) as [->|Hp].
  - rewrite lookup_insert_eq, E. destruct Hc as [|Hc]; [done|]. cbn. by rewrite Hc.
  - by rewrite lookup_insert_ne.
Qed.

Lemma quiet_queue t i q q' :
  rdz (t_queues t) i = Some q -> xi_rx q' = xi_rx q -> quiet p0 W t (t <| t_queues ::= <[Z.to_nat i := q']> |>).
Proof.
  intros E%rdz_lookup Hq. split; [done| |done]. cbn. rewrite list_fmap_insert, Hq, list_insert_id; [done|].
  by rewrite list_lookup_fmap, E.
Qed.

Lemma quiet_mem t a f :
  (forall b, b ∈ rx_frames p0 W t -> fix_umem_offset a <> fix_umem_offset b) ->
  quiet p0 W t (t <| t_umem ::= <[fix_umem_offset a := f]> |>).
Proof. intros H. split; [done..|]. intros b Hb. cbn. by rewrite lookup_insert_ne by auto. Qed.

Lemma good_conn X t0 t p c c' :
  good X t0 t -> t_conns t !! p = Some c -> own_c c' = own_c c -> rxpart c' = rxpart c ->
  good X t0 (t <| t_conns ::= <[p := c']> |>).
Proof.
  intros H E Ho Hr. eapply good_step; [exact H|by eapply own_conn_same, Ho; [apply H|]|].
  eapply quiet_conn; [done|by right].
Qed.

Lemma good_queue X t0 t i q q' :
  good X t0 t -> rdz (t_queues t) i = Some q -> xi_rx q' = xi_rx q -> xi_fq q' = xi_fq q ->
  good X t0 (t <| t_queues ::= <[Z.to_nat i := q']> |>).
Proof.
  intros H E H1 H2. eapply good_step; [exact H| |by eapply quiet_queue].
  eapply own_queue_same; [apply H|done|]. unfold own_q. by rewrite H1, H2.
Qed.

Lemma good_mem X t0 t a f :
  good X t0 t -> a ∈ X -> good X t0 (t <| t_umem ::= <[fix_umem_offset a := f]> |>).
Proof.
  intros H Ha. eapply good_step; [exact H|by eapply own_same; [apply H|..]|].
  apply quiet_mem. intros b Hb. eapply hand_apart; [apply H|done..].
Qed.

(** Fields that hold neither buffers nor packets. *)
Lemma good_same X t0 t t' :
  good X t0 t -> t_params t' = t_params t -> t_pool t' = t_pool t -> t_tid t' = t_tid t ->
  t_conns t' = t_conns t -> t_queues t' = t_queues t -> t_umem t' = t_umem t -> good X t0 t'.
Proof.
  intros H E1 E2 E3 E4 E5 E6. eapply good_step; [exact H|by eapply own_same; [apply H|..]|].
  split; rewrite ?E4, ?E5, ?E6; done.
Qed.

Lemma good_prod a X t0 t :
  good (a :: X) t0 t -> lpost (bcache_prod a) t (fun _ t' => good X t0 t' /\ pool_step t t').
Proof.
  intros H. eapply lpost_mono; [apply own_prod, H|]. intros _ t' [Ho Hp]. split; [|done].
  eapply good_step; [exact H|done|by apply quiet_pool].
Qed.

Lemma good_take X t0 t :
  good X t0 t -> lpost bcache_take t (fun a t' => good (a :: X) t0 t' /\ pool_step t t' /\ fix_umem_offset a = a).
Proof.
  intros H. eapply lpost_mono; [apply own_take, H|]. intros a t' (Ho & Hp & Ha). split; [|done].
  eapply good_step; [exact H|done|by apply quiet_pool].
Qed.

Lemma good_sync X t0 t p m :
  good X t0 t -> lpost (sync_state p m) t (fun _ t' => good X t0 t' /\ sync_rel p t t').
Proof.
  intros H. eapply lpost_mono; [apply sync_state_rel|]. intros b t' Hs; cbv beta in Hs. split; [|done].
  destruct Hs as (Hc & c & c' & E & E' & Ec). unfold core in Hc. injection Hc as H1 H2 H3 H4 H5 _.
  unfold crest in Ec. injection Ec as R1 R2 R3 R4 R5 R6 U _.
  eapply (good_same X t0 (t <| t_conns ::= <[p := c']> |>)); try done.
  eapply good_conn; [done|done| |]; unfold own_c, rxpart; congruence.
Qed.

Lemma good_readdr a a' X t0 t :
  fix_umem_offset a' = fix_umem_offset a -> good (a :: X) t0 t -> good (a' :: X) t0 t.
Proof. intros E [H Hq]. split; [by eapply own_readdr|done]. Qed.

Lemma tx_addr a : fix_umem_offset a = a -> fix_umem_offset (add_offset_tx_frame a) = a.
Proof.
  intros E. unfold add_offset_tx_frame, XDP_PACKET_HEADROOM.
  assert (exists i, a = i * UMEM_FRAME_SIZE) as [i ->].
  { exists (a / UMEM_FRAME_SIZE). revert E. unfold fix_umem_offset, UMEM_FRAME_SIZE. change (4096 - 1) with (Z.ones 12).
    rewrite <- Z.ldiff_land, Z.ldiff_ones_r by lia. rewrite Z.shiftl_mul_pow2, Z.shiftr_div_pow2 by lia. change (2 ^ 12) with 4096. done. }
  by apply fix_umem_offset_frame.
Qed.

Lemma good_tx_submit X t0 t i addr plen :
  good X t0 t -> lpost (tx_submit i addr plen) t (fun _ t' => good X t0 t' /\ t_conns t' = t_conns t).
Proof. intros H. unfold tx_submit. lp. split; [|done]. by eapply good_queue. Qed.

(** A packet is handed to the list of a connection. *)
Lemma good_send_packet X t0 t p c c' addr plen :
  good (addr :: X) t0 t -> t_conns t !! p = Some c ->
  unack_tx_addrs c' = unack_tx_addrs c ++ [(addr, plen)] -> rxpart c' = rxpart c ->
  good X t0 (t <| t_conns ::= <[p := c']> |>).
Proof.
  intros H E Hu Hr. eapply good_step; [exact H| |eapply quiet_conn; [done|by right]].
  apply (own_conn [addr] [] [] (X ++ W) t p c c'); [apply H|done|].
  unfold own_c. rewrite Hu, fmap_app. unfold rxpart in Hr. injection Hr as _ _ -> -> _ _. cbn. solve_Permutation.
Qed.

Lemma good_segment n X t0 t p i buf remaining pending :
  good X t0 t -> lpost (segment_loop n p i buf remaining pending) t (fun _ t' => good X t0 t').
Proof.
  revert t buf remaining pending. induction n as [|n IH]; intros t buf remaining pending H; cbn; [by lp1|].
  lp1. eapply lpost_mono; [by apply good_take|]. intros a t1 (H1 & _ & Ha). cbv beta.
  apply (good_readdr _ (add_offset_tx_frame a)) in H1; [|by rewrite tx_addr].
  do 11 lp1. eapply lpost_mono.
  - apply (good_tx_submit X t0). eapply good_send_packet; [apply good_mem; [exact H1|by left]|exact H4|done|done].
  - intros _ t2 [H5 _]. by apply IH.
Qed.

Lemma good_conn_send X t0 t p buf count :
  good X t0 t -> lpost (conn_send p buf count) t (fun _ t' => good X t0 t').
Proof.
  intros H. unfold conn_send, eTran_tcp_tx_reserve_zc, eTran_tcp_tx_submit_zc, tcp_flow_tx_segmentation_zc.
  repeat (lp1; try (by apply H)).
  all: try (by eapply good_conn).
  all: apply (lpost_mono _ _ (fun _ t' => good X t0 t')); [apply good_segment; first [exact H|by eapply good_conn]|].
  all: intros _ t1 Hg; lp; by eapply good_conn.
Qed.

(** Rewriting the metadata of a packet that waits for its acknowledgement. *)
Lemma good_unack_mem X t0 t p c a n f :
  good X t0 t -> t_conns t !! p = Some c -> (a, n) ∈ unack_tx_addrs c ->
  good X t0 (t <| t_umem ::= <[fix_umem_offset a := f]> |>).
Proof.
  intros H E Ha. eapply good_step; [exact H|by eapply own_same; [apply H|..]|].
  apply quiet_mem. intros b Hb. eapply unack_apart; [apply H|done..].
Qed.

Definition unack_at (p : Z) (u : list (Z * Z)) (t : tctx) : Prop :=
  exists c, t_conns t !! p = Some c /\ unack_tx_addrs c = u.

Lemma good_retransmit l u X t0 t p i s len skip first :
  good X t0 t -> unack_at p u t -> (forall x, x ∈ l -> x ∈ u) -> (forall a, first = Some a -> exists n, (a, n) ∈ u) ->
  lpost (retransmit_loop l p i s len skip first) t
    (fun r t' => good X t0 t' /\ unack_at p u t' /\ forall a, snd r = Some a -> exists n, (a, n) ∈ u).
Proof.
  revert t len skip first. induction l as [|[a n] l IH]; intros t len skip first H Hu Hl Hf; cbn; [by lp1|].
  lp1; [by lp1|]. lp1; [apply IH; [done..| |done]; intros x Hx; apply Hl; by right|].
  do 9 lp1. eapply lpost_mono; [apply (good_tx_submit X t0)|].
  - destruct Hu as (c' & E' & Eu). assert (c' = c) as -> by congruence. eapply good_conn; [|done..].
    eapply (good_unack_mem _ _ _ p c a n); [done..|]. rewrite Eu. apply Hl. by left.
  - intros _ t1 [H3 H4]. cbv beta. apply IH; [done| | |].
    + destruct Hu as (c' & E' & Eu). exists (txb_advance n c0). rewrite H4. cbn. rewrite lookup_insert_eq. split; [done|].
      cbn in H2. assert (c0 = c') as -> by congruence. done.
    + intros x Hx. apply Hl. by right.
    + destruct first; [done|]. intros b [= <-]. exists n. apply Hl. by left.
Qed.

Lemma good_retransmission X t0 t p len :
  good X t0 t -> lpost (eTran_tcp_tx_submit_zc_retransmission p len) t (fun _ t' => good X t0 t').
Proof.
  intros H. unfold eTran_tcp_tx_submit_zc_retransmission, tcp_flow_tx_segmentation_zc_retransmission.
  do 2 lp1. lp1; [by lp1|]. do 6 lp1.
  eapply lpost_mono; [apply (good_retransmit _ (unack_tx_addrs c0) X t0); [done|by eexists|done|done]|].
  intros [rest first] t1 (H3 & (c1 & E1 & Eu) & Hf). cbn in Hf. do 2 lp1.
  - do 6 lp1. destruct (Hf z eq_refl) as [k Hk]. lp. eapply good_conn; [|done..].
    eapply (good_unack_mem _ _ _ p c1 z k); [done..|by rewrite Eu].
  - lp. by eapply good_conn.
Qed.

Lemma good_tcp_retransmission X t0 t : good X t0 t -> lpost tcp_retransmission t (fun _ t' => good X t0 t').
Proof.
  intros H. unfold tcp_retransmission. do 2 lp1. generalize (retransmission_conns t) as l. intros l. revert t H.
  induction l as [|[p len] l IH]; intros t H; cbn; [by lp1|]. do 2 lp1.
  assert (forall t1, good X t0 t1 -> lpost (lmod (fun t => t <| retransmission_conns := l |>) ;;
    retransmission_loop l) t1 (fun _ t' => good X t0 t')) as Hrest.
  { intros t1 H1. do 2 lp1. apply IH. by eapply good_same. }
  lp1. lp1; [lp1; by apply Hrest|]. lp1. eapply lpost_mono; [by apply (good_retransmission X t0)|].
  intros ? t1 H1; cbv beta in H1. lp1. by apply Hrest.
Qed.

Lemma good_free l X t0 t p : good X t0 t -> unack_at p l t -> lpost (free_loop l p) t (fun _ t' => good X t0 t').
Proof.
  revert t. induction l as [|[a n] l IH]; intros t H Hu; cbn; do 2 lp1; lp1; [by lp1|by lp1|by lp1|].
  do 2 lp1. destruct Hu as (c' & E' & Eu). assert (c' = c0) as -> by congruence. assert (c0 = c) as -> by congruence.
  lp1. eapply lpost_mono; [apply (good_prod a X t0)|].
  - eapply good_step; [exact H| |eapply quiet_conn; [done|by right]].
    apply (own_conn [] [a] [] (X ++ W) t p c); [apply H|done|]. unfold own_c. rewrite Eu. cbn. solve_Permutation.
  - intros _ t1 [H2 [s ->]]. do 2 lp1. cbn in H3. rewrite lookup_insert_eq in H3. injection H3 as <-. apply IH.
    + by eapply good_conn; [exact H2|cbn; apply lookup_insert_eq|..].
    + eexists. cbn. rewrite lookup_insert_eq. split; reflexivity.
Qed.

Lemma good_free_buffers X t0 t : good X t0 t -> lpost tcp_free_buffers t (fun _ t' => good X t0 t').
Proof.
  intros H. unfold tcp_free_buffers. do 2 lp1. generalize (free_pending_conns t) as l. intros l. revert t H.
  induction l as [|p l IH]; intros t H; cbn; [by lp1|]. do 3 lp1.
  eapply lpost_mono; [apply (good_free _ X t0); [done|by eexists]|]. intros ? t1 H2; cbv beta in H2. do 2 lp1. apply IH. by eapply good_same.
Qed.

(** The completed packets that go back to the pool. *)
Definition returns (t : tctx) (a : Z) : bool :=
  match uf_meta <$> t_umem t !! fix_umem_offset a with
  | Some (Tx_meta m) => nz (mtx_slowpath m) || (mtx_flag m =? FLAG_SYNC)
  | _ => false
  end.

Lemma good_completions l sp X t0 t :
  good (filter (fun a => returns t a) l ++ X) t0 t ->
  lpost (completion_loop l sp) t (fun _ t' => good X t0 t' /\ t_queues t' = t_queues t /\ t_umem t' = t_umem t).
Proof.
  revert sp t. induction l as [|a l IH]; intros sp t H; cbn; [by lp1|]. do 2 lp1.
  assert (returns t a = nz (mtx_slowpath m) || (mtx_flag m =? FLAG_SYNC)) as Er
    by (unfold returns; rewrite H0; cbn; by rewrite H1).
  rewrite filter_cons in H. destruct (decide (returns t a)) as [Ed|Ed]; rewrite Er in Ed; lp1; try done.
  - lp1. eapply lpost_mono; [by apply (good_prod a (filter (fun a => returns t a) l ++ X) t0)|].
    intros _ t1 [H2 [s ->]]. 
    assert (forall k, lpost (completion_loop l k) (t <| t_pool := s |>) (fun _ t' => good X t0 t' /\
      t_queues t' = t_queues (t <| t_pool := s |>) /\ t_umem t' = t_umem (t <| t_pool := s |>))) as H3 by (intros k; apply IH; exact H2).
    apply H3.
  - by apply IH.
Qed.

(** What the completion ring of a queue gives back to the pool in one poll. *)
Definition completed_q (t : tctx) (q : xsk_socket_info) : list Z :=
  filter (fun a => returns t a) (take (Z.to_nat (Z.min (outstanding q) TX_BATCH_SIZE)) (xi_cq q)).
Definition completed (t : tctx) : list Z := concat (completed_q t <$> t_queues t).

Lemma good_poll_completions i q X t0 t :
  rdz (t_queues t) i = Some q -> good (completed_q t q ++ X) t0 t ->
  lpost (poll_completions i) t (fun _ t' => good X t0 t' /\ t_umem t' = t_umem t /\
    exists q', t_queues t' = <[Z.to_nat i := q']> (t_queues t)).
Proof.
  intros Eq H. unfold poll_completions. do 2 lp1. assert (q0 = q) as -> by congruence. lp1.
  - apply Z.eqb_eq in Heqb. unfold completed_q in H. rewrite Heqb in H. lp1. split_and!; try done.
    exists q. by rewrite list_insert_id by (by apply rdz_lookup).
  - lp1. eapply lpost_mono; [by apply (good_completions _ _ X t0)|]. intros sp t1 (H1 & H2 & H3). lp.
    split; [by eapply good_queue|]. split; [done|]. eexists. cbn. by rewrite H2.
Qed.

Lemma completed_q_mem t t' : t_umem t' = t_umem t -> completed_q t' = completed_q t.
Proof. intros E. unfold completed_q, returns. by rewrite E. Qed.

Lemma good_poll_all n i X t0 t :
  (i + n = length (t_queues t))%nat -> good (concat (completed_q t <$> drop i (t_queues t)) ++ X) t0 t ->
  lpost (for_queues n (Z.of_nat i) poll_completions) t (fun _ t' => good X t0 t').
Proof.
  revert i t. induction n as [|n IH]; intros i t Hn H; cbn.
  - rewrite drop_ge in H by lia. by lp1.
  - lp1. destruct (lookup_lt_is_Some_2 (t_queues t) i) as [q Eq]; [lia|]. rewrite (drop_S _ q) in H by done. cbn in H.
    rewrite <- app_assoc in H.
    eapply lpost_mono; [apply (good_poll_completions _ q); [|exact H]|].
    + unfold rdz. destruct (Z.leb_spec 0 (Z.of_nat i)); [by rewrite Nat2Z.id|lia].
    + intros ? t1 (H1 & E1 & q' & E2). replace (Z.of_nat i + 1) with (Z.of_nat (S i)) by lia.
      rewrite Nat2Z.id in E2. apply IH; [rewrite E2, length_insert; lia|].
      by rewrite E2, drop_insert_lt, (completed_q_mem _ _ E1) by lia.
Qed.

Lemma good_refill_loop n i X t0 t :
  good X t0 t -> lpost (refill_loop n i) t (fun _ t' => good X t0 t').
Proof.
  revert t. induction n as [|n IH]; intros t H; cbn; [by lp1|]. lp1.
  eapply lpost_mono; [by apply (good_take X t0)|]. intros a t1 (H1 & _ & _). do 2 lp1. apply IH.
  eapply good_step; [exact H1| |by eapply quiet_queue].
  apply (own_queue [a] [] [] (X ++ W) t1 i q); [apply H1|done|]. unfold own_q. cbn. solve_Permutation.
Qed.

Lemma good_refill n X t0 t : good X t0 t -> lpost (refill_queues n) t (fun _ t' => good X t0 t').
Proof.
  revert t. induction n as [|n IH]; intros t H; cbn; [by lp1|]. do 3 lp1. lp1. destruct a as [e v]. lp1. lp1.
  assert (good X t0 (t <| cached_fqidx := v |>)) as H1 by (by eapply good_same).
  lp1; [|by lp1]. do 3 lp1. eapply lpost_mono; [by apply (good_refill_loop _ _ X t0)|].
  intros ? t1 H3; cbv beta in H3. do 2 lp1. apply IH. by eapply good_queue.
Qed.
End Ops.
