(* ===== verification/LibRx.v ===== *)
(** Receiving in the socket library, and the path from the packet to the
    application.

    [σ] gives the byte at each position of the stream the peer sends, [R0] is
    the position at which the connection was opened, [size] the size of the
    receive ring; position [P] belongs at ring offset [(P - R0) mod size]. *)
From stdpp Require Import gmap.
From S2P Require Import Prelude Intf Seq Headers AckQueue Pacing EtranTcp RxSafety BufPool LibTcp LibOwn.
Local Open Scope Z_scope.
Local Open Scope lib_scope.

(** ** Returning a buffer has a result *)

Lemma prod_total a X t tv :
  own (a :: X) tv -> t_params tv = t_params t -> t_pool tv = t_pool t -> t_tid tv = t_tid t ->
  exists s, bcache_prod a t = Some (tt, t <| t_pool := s |>) /\ own X (tv <| t_pool := s |>).
Proof.
  intros H E1 E2 E3. pose proof (own_prod a X tv H) as Hp. destruct H as [H1 H2 H3 _ H5].
  destruct (inv_prod _ H1 (t_tid tv) a (t_pool tv) H2 H3) as (s & E & _).
  { apply H5. apply elem_of_app. left. by left. }
  exists s. split.
  - unfold bcache_prod, lpool, lbind. rewrite <- E1, <- E2, <- E3, E. done.
  - assert (bcache_prod a tv = Some (tt, tv <| t_pool := s |>)) as Ev
      by (unfold bcache_prod, lpool, lbind; by rewrite E).
    by destruct (Hp _ _ Ev) as [? _].
Qed.

(** ** Operations that have a result *)

Definition ltot {A} (m : L A) (t : tctx) (Q : A -> tctx -> Prop) : Prop :=
  exists a t', m t = Some (a, t') /\ Q a t'.

Lemma ltot_ret {A} (a : A) t (Q : A -> tctx -> Prop) : Q a t -> ltot (lret a) t Q.
Proof. intros H. by exists a, t. Qed.

Lemma ltot_bind {A B} (m : L A) (k : A -> L B) t Q :
  ltot m t (fun a t' => ltot (k a) t' Q) -> ltot (lbind m k) t Q.
Proof. intros (a & t' & E & b & t2 & E2 & H). exists b, t2. split; [|done]. unfold lbind. by rewrite E. Qed.

Lemma ltot_mono {A} (m : L A) t (P Q : A -> tctx -> Prop) :
  ltot m t P -> (forall a t', P a t' -> Q a t') -> ltot m t Q.
Proof. intros (a & t' & E & H) HPQ. exists a, t'. auto. Qed.

Lemma ltot_lpost {A} (m : L A) t (P Q : A -> tctx -> Prop) :
  ltot m t P -> lpost m t Q -> ltot m t (fun a t' => P a t' /\ Q a t').
Proof. intros (a & t' & E & H) HQ. exists a, t'. auto. Qed.

Lemma ltot_mod f t (Q : unit -> tctx -> Prop) : Q tt (f t) -> ltot (lmod f) t Q.
Proof. intros H. by exists tt, (f t). Qed.

Lemma ltot_must {A} (x : option A) a t (Q : A -> tctx -> Prop) : x = Some a -> Q a t -> ltot (lmust x) t Q.
Proof. intros -> H. by exists a, t. Qed.

#[local] Transparent rd_c upd_c rd_frame rd_rx wr_rx.

Lemma ltot_rd_c p c t (Q : eTrantcp_connection -> tctx -> Prop) :
  t_conns t !! p = Some c -> Q c t -> ltot (rd_c p) t Q.
Proof. intros E H. exists c, t. unfold rd_c, lbind, lget. by rewrite E. Qed.

Lemma ltot_upd_c p f c t (Q : unit -> tctx -> Prop) :
  t_conns t !! p = Some c -> Q tt (t <| t_conns ::= <[p := f c]> |>) -> ltot (upd_c p f) t Q.
Proof. intros E H. apply ltot_bind, (ltot_rd_c p c); [done|]. by apply ltot_mod. Qed.

Lemma ltot_rd_frame a f t (Q : uframe -> tctx -> Prop) :
  t_umem t !! fix_umem_offset a = Some f -> Q f t -> ltot (rd_frame a) t Q.
Proof. intros E H. exists f, t. unfold rd_frame, lbind, lget. by rewrite E. Qed.

Lemma ltot_rd_rx a f m t (Q : rx_meta -> tctx -> Prop) :
  t_umem t !! fix_umem_offset a = Some f -> uf_meta f = Rx_meta m -> Q m t -> ltot (rd_rx a) t Q.
Proof. intros E Em H. apply ltot_bind, (ltot_rd_frame a f); [done|]. rewrite Em. by apply ltot_ret. Qed.

Lemma ltot_wr_rx a g f m t (Q : unit -> tctx -> Prop) :
  t_umem t !! fix_umem_offset a = Some f -> uf_meta f = Rx_meta m ->
  Q tt (t <| t_umem ::= <[fix_umem_offset a := f <| uf_meta := Rx_meta (g m) |>]> |>) -> ltot (wr_rx a g) t Q.
Proof.
  intros E Em H. apply ltot_bind, (ltot_rd_frame a f); [done|]. apply ltot_bind, (ltot_rd_rx a f m); [done..|].
  by apply ltot_mod.
Qed.

#[local] Opaque rd_c upd_c rd_frame rd_rx wr_rx.

(** Parts of a payload. *)
Lemma payload_take f off n k bs :
  payload_at f off n = Some bs -> 0 <= k <= n -> payload_at f off k = Some (take (Z.to_nat k) bs).
Proof.
  unfold payload_at. intros H Hk. destruct (_ && _) eqn:E; [|done]. injection H as <-.
  apply andb_true_iff in E as [E1 E2]. rewrite E1. apply Z.leb_le in E2.
  destruct (Z.leb_spec (off - HEADERS_LEN + k) (Z.of_nat (length (uf_data f)))); [|lia]. cbn.
  by rewrite take_take, Nat.min_l by lia.
Qed.

Lemma payload_drop f f' off n k bs :
  uf_data f' = uf_data f -> payload_at f off n = Some bs -> 0 <= k <= n ->
  payload_at f' (off + k) (n - k) = Some (drop (Z.to_nat k) bs).
Proof.
  unfold payload_at. intros -> H Hk. destruct (_ && _) eqn:E; [|done]. injection H as <-.
  apply andb_true_iff in E as [E1 E2]. apply Z.leb_le in E1, E2.
  destruct (Z.leb_spec HEADERS_LEN (off + k)), (Z.leb_spec (off + k - HEADERS_LEN + (n - k)) (Z.of_nat (length (uf_data f)))); try lia. cbn.
  rewrite skipn_firstn_comm, drop_drop. f_equal. f_equal; [lia|]. f_equal. lia.
Qed.

Section Stream.
Context (σ : Z -> Z) (R0 size : Z).
Hypothesis Hsize : 0 < size <= 1073741824.

Definition bytes_of (P n : Z) : list Z := σ <$> seqZ P n.

Lemma bytes_length P n : 0 <= n -> Z.of_nat (length (bytes_of P n)) = n.
Proof. intros. unfold bytes_of. rewrite length_fmap, length_seqZ. lia. Qed.

Lemma bytes_app P n m : 0 <= n -> 0 <= m -> bytes_of P (n + m) = bytes_of P n ++ bytes_of (P + n) m.
Proof. intros. unfold bytes_of. by rewrite seqZ_app, fmap_app. Qed.

(** A packet of [n] payload bytes from position [P] on, at ring offset [pos]. *)
Record pkt (mem : gmap Z uframe) (a P pos n : Z) : Prop := {
  pk_len : 0 < n < 65535;
  pk_data : exists f m, mem !! fix_umem_offset a = Some f /\ uf_meta f = Rx_meta m /\ mrx_plen m = n /\
    mrx_rx_pos m = pos /\ HEADERS_LEN <= mrx_poff m /\ mrx_poff m + n <= 65535 /\
    payload_at f (mrx_poff m) n = Some (bytes_of P n)
}.

Definition offset (P : Z) : Z := (P - R0) mod size.

(** Packets that hold the positions from [P] up to [E], in order. *)
Inductive chain (mem : gmap Z uframe) : list Z -> Z -> Z -> Prop :=
| chain_nil P : chain mem [] P P
| chain_cons a l P n E : pkt mem a P (offset P) n -> chain mem l (P + n) E -> chain mem (a :: l) P E.

(** The head of the receive ring for position [A]: it may stand at the end
    instead of the start. *)
Definition head_ok (h A : Z) : Prop := 0 <= h <= size /\ h mod size = offset A.

(** The received packets of a connection whose ring head is [h]. *)
Inductive received (mem : gmap Z uframe) (h : Z) : list Z -> Z -> Z -> Prop :=
| received_nil P : received mem h [] P P
| received_cons a l P pos n E :
    pkt mem a P pos n -> pos = h \/ (h = size /\ pos = 0) -> chain mem l (P + n) E ->
    received mem h (a :: l) P E.

Lemma offset_range P : 0 <= offset P < size.
Proof. unfold offset. apply Z.mod_pos_bound. lia. Qed.

Lemma chain_le mem l P E : chain mem l P E -> P <= E.
Proof. induction 1 as [|a l P n E [Hn _] _ IH]; lia. Qed.

Lemma received_le mem h l P E : received mem h l P E -> P <= E.
Proof. intros [|a l' P' pos n E' [Hn _] _ Hc]; [lia|]. apply chain_le in Hc. lia. Qed.

Lemma chain_next mem l P E :
  chain mem l P E ->
  match l with [] => P = E | a :: l => exists n, pkt mem a P (offset P) n /\ chain mem l (P + n) E end.
Proof. intros [|a l' P' n E' Hp Hc]; [done|]. by exists n. Qed.

Lemma chain_received mem h l P E : head_ok h P -> chain mem l P E -> received mem h l P E.
Proof.
  intros Hh Hc. revert Hh. destruct Hc as [|a l' P' n E' Hp Hc]; intros [Hh Hm]; [constructor|]. econstructor; [done| |done].
  destruct (Z.eq_dec h size) as [->|Hn]; [right; rewrite Z_mod_same_full in Hm; by rewrite <- Hm|left].
  rewrite <- Hm. apply Z.mod_small. lia.
Qed.

Lemma chain_app mem l l' P Q E : chain mem l P Q -> chain mem l' Q E -> chain mem (l ++ l') P E.
Proof. induction 1; cbn; [done|]. intros. econstructor; eauto. Qed.

Lemma received_app mem h l l' P Q E :
  head_ok h P -> received mem h l P Q -> chain mem l' Q E -> received mem h (l ++ l') P E.
Proof.
  intros Hh Hr. revert Hh. destruct Hr as [P'|a k P' pos n E' Hp Ho Hc]; intros Hh H'; cbn; [by apply chain_received|].
  econstructor; [done..|]. by eapply chain_app.
Qed.

(** Only the frames of the packets matter. *)
Lemma pkt_ext mem mem' a P pos n :
  mem' !! fix_umem_offset a = mem !! fix_umem_offset a -> pkt mem a P pos n -> pkt mem' a P pos n.
Proof. intros E [H1 H2]. split; [done|]. by rewrite E. Qed.

Lemma chain_ext mem mem' l P E :
  (forall a, a ∈ l -> mem' !! fix_umem_offset a = mem !! fix_umem_offset a) -> chain mem l P E -> chain mem' l P E.
Proof.
  intros H. induction 1 as [|a l P n E Hp Hc IH]; [constructor|]. econstructor.
  - eapply pkt_ext; [|done]. apply H. by left.
  - apply IH. intros b Hb. apply H. by right.
Qed.

Lemma received_ext mem mem' h l P E :
  (forall a, a ∈ l -> mem' !! fix_umem_offset a = mem !! fix_umem_offset a) ->
  received mem h l P E -> received mem' h l P E.
Proof.
  intros H Hr. revert H. destruct Hr as [|a l' P' pos n E' Hp Ho Hc]; intros H; [constructor|]. econstructor; [|done|].
  - eapply pkt_ext; [|done]. apply H. by left.
  - eapply chain_ext; [|done]. intros b Hb. apply H. by right.
Qed.

(** ** Reading *)

Lemma offset_head h A d : head_ok h A -> offset (A + d) = (h + d) mod size.
Proof.
  intros [_ Hm]. unfold offset in *. replace (A + d - R0) with (A - R0 + d) by lia.
  rewrite <- (Z.add_mod_idemp_l (A - R0)), <- Hm, Z.add_mod_idemp_l by lia. done.
Qed.

(** The ring offset of the packet at position [A + d]. *)
Definition pos_ok (h A d pos : Z) : Prop :=
  pos = offset (A + d) \/ (d = 0 /\ (pos = h \/ (h = size /\ pos = 0))).

Definition in_window (h count pos : Z) : bool :=
  if h + count >? size then (pos >=? h) || (pos <? h + count - size)
  else (pos >=? h) && (pos <? h + count).

Definition wrap (x : Z) : Z := if x >? size then x - size else x.

Lemma pos_cases h A d pos :
  head_ok h A -> 0 <= d < size -> pos_ok h A d pos ->
  (h + d < size /\ pos = h + d) \/ (h + d = size /\ (pos = 0 \/ (pos = size /\ d = 0))) \/
  (size < h + d /\ pos = h + d - size).
Proof.
  intros Hh Hd Hp. pose proof Hh as [Hr _]. unfold pos_ok in Hp. rewrite (offset_head h A d Hh) in Hp.
  assert ((h + d) mod size = if h + d <? size then h + d else h + d - size) as Em.
  { destruct (Z.ltb_spec (h + d) size); [apply Z.mod_small; lia|].
    replace (h + d) with (h + d - size + 1 * size) at 1 by lia. rewrite Z.mod_add by lia. apply Z.mod_small. lia. }
  rewrite Em in Hp. destruct (Z.ltb_spec (h + d) size); lia.
Qed.

Lemma window_hit h A d pos count :
  head_ok h A -> 0 <= d < count -> count <= size -> pos_ok h A d pos -> in_window h count pos = true.
Proof.
  intros Hh Hd Hc Hp. pose proof Hh as [Hr _]. destruct (pos_cases h A d pos Hh ltac:(lia) Hp) as [?|[?|?]];
    unfold in_window; destruct (Z.gtb_spec (h + count) size); lia.
Qed.

(** A packet cut after [k] bytes has the new head as its position. *)
Lemma truncate_pos h A d pos k :
  head_ok h A -> 0 <= d < size -> pos_ok h A d pos -> 0 < k -> d + k <= size -> wrap (pos + k) = wrap (h + (d + k)).
Proof.
  intros Hh Hd Hp Hk Hs. pose proof Hh as [Hr _]. unfold wrap.
  destruct (pos_cases h A d pos Hh Hd Hp) as [?|[?|?]];
    destruct (Z.gtb_spec (pos + k) size), (Z.gtb_spec (h + (d + k)) size); lia.
Qed.

Lemma head_advance h A k : head_ok h A -> 0 <= k <= size -> head_ok (wrap (h + k)) (A + k).
Proof.
  intros Hh Hk. pose proof Hh as [Hr _]. split; [unfold wrap; destruct (Z.gtb_spec (h + k) size); lia|].
  rewrite (offset_head h A k Hh). unfold wrap. destruct (Z.gtb_spec (h + k) size); [|done].
  replace (h + k) with (h + k - size + 1 * size) at 2 by lia. by rewrite Z.mod_add by lia.
Qed.

Lemma take_bytes P n k : 0 <= k <= n -> take (Z.to_nat k) (bytes_of P n) = bytes_of P k.
Proof.
  intros H. replace n with (k + (n - k)) by lia. rewrite bytes_app by lia. rewrite take_app_length'; [done|].
  unfold bytes_of. rewrite length_fmap, length_seqZ. lia.
Qed.

Lemma drop_bytes P n k : 0 <= k <= n -> drop (Z.to_nat k) (bytes_of P n) = bytes_of (P + k) (n - k).
Proof.
  intros H. replace n with (k + (n - k)) at 1 by lia. rewrite bytes_app by lia. rewrite drop_app_length'; [done|].
  unfold bytes_of. rewrite length_fmap, length_seqZ. lia.
Qed.

(** The received packets of connection [p] replaced by [l]. *)
Definition with_rx (p : Z) (c : eTrantcp_connection) (l : list Z) (t : tctx) : tctx :=
  t <| t_conns ::= <[p := c <| rx_addrs := l |>]> |>.

Lemma own_pop p c a l X t :
  own X (with_rx p c (a :: l) t) -> own (a :: X) (with_rx p c l t).
Proof.
  intros H. eapply (own_same (a :: X) ((with_rx p c (a :: l) t) <| t_conns ::= <[p := c <| rx_addrs := l |>]> |>)); try done.
  - apply (own_conn [] [a] [] X _ p (c <| rx_addrs := a :: l |>)); [done|apply lookup_insert_eq|].
    unfold own_c. cbn. solve_Permutation.
  - cbn. by rewrite insert_insert_eq.
Qed.

Lemma own_rx_nodup X t p c : own X t -> t_conns t !! p = Some c -> NoDup (fix_umem_offset <$> rx_addrs c).
Proof.
  intros H E. pose proof (ow_nodup _ _ H) as Hn. unfold held in Hn.
  rewrite (own_conns_split _ _ _ E) in Hn. unfold own_c in Hn. rewrite !fmap_app in Hn.
  apply list.NoDup_app in Hn as (_ & _ & Hn). apply list.NoDup_app in Hn as (Hn & _ & _).
  apply list.NoDup_app in Hn as (Hn & _ & _). by apply list.NoDup_app in Hn as (Hn & _ & _).
Qed.

(** What a read leaves: the packets from the new position on. *)
Record read_post (p : Z) (c : eTrantcp_connection) (l : list Z) (X : list Z) (h' A' E : Z) (t t' : tctx) : Prop := {
  rp_own : own X t';
  rp_conns : exists l', t_conns t' = <[p := c <| rx_addrs := l' |>]> (t_conns t) /\
    received (t_umem t') h' l' A' E /\ forall a, a ∈ l' -> a ∈ l;
  rp_mem : forall b, (forall a, a ∈ l -> fix_umem_offset a <> fix_umem_offset b) ->
    t_umem t' !! fix_umem_offset b = t_umem t !! fix_umem_offset b;
  rp_queues : t_queues t' = t_queues t;
  rp_bumps : rx_bump_pending_conns t' = rx_bump_pending_conns t;
  rp_const : t_params t' = t_params t /\ t_tid t' = t_tid t
}.

(** A packet of which [k] bytes were read. *)
Lemma pkt_truncate mem a P pos n k f m :
  pkt mem a P pos n -> mem !! fix_umem_offset a = Some f -> uf_meta f = Rx_meta m -> 0 < k < n ->
  0 <= pos <= size -> 0 <= pos + k -> 
  pkt (<[fix_umem_offset a := f <| uf_meta := Rx_meta (m <| mrx_poff := u16 (mrx_poff m + k) |>
         <| mrx_plen := u16 (mrx_plen m - k) |> <| mrx_rx_pos := u32 (wrap (pos + k)) |>) |>]> mem)
    a (P + k) (wrap (pos + k)) (n - k).
Proof.
  intros [Hn (f' & m' & E & Em & H1 & H2 & H3 & H4 & H5)] E' Em' Hk Hp Hp'.
  assert (f' = f) as -> by congruence. assert (m' = m) as -> by congruence.
  split; [lia|]. eexists _, _. split; [apply lookup_insert_eq|]. split; [done|]. cbn.
  assert (0 <= wrap (pos + k) < 4294967296) as Hw by (unfold wrap; destruct (Z.gtb_spec (pos + k) size); lia).
  rewrite (u32_small (wrap (pos + k))) by done.
  unfold HEADERS_LEN in H3. rewrite !u16_small by (unfold in16; lia).
  split; [lia|]. split; [done|]. split; [unfold HEADERS_LEN; lia|]. split; [lia|].
  rewrite H1. rewrite (payload_drop f _ _ n k (bytes_of P n)) by (done || lia). by rewrite drop_bytes by lia.
Qed.

Lemma pos_range h A d pos : head_ok h A -> pos_ok h A d pos -> 0 <= pos <= size.
Proof. intros [H _] [->|[-> ?]]; [pose proof (offset_range (A + d))|]; lia. Qed.

Lemma peek_loop_spec p c X A h count E l t buf d :
  t_conns t !! p = Some c -> own X (with_rx p c l t) -> head_ok h A -> Z.of_nat (length buf) = d ->
  0 <= d < count -> count <= size -> A + count <= E ->
  match l with
  | [] => A + d = E
  | a :: l => exists pos n, pkt (t_umem t) a (A + d) pos n /\ pos_ok h A d pos /\ chain (t_umem t) l (A + d + n) E
  end ->
  ltot (peek_loop (in_window h count) size count p [] l buf) t
    (fun bs t' => bs = buf ++ bytes_of (A + d) (count - d) /\
       read_post p c l X (wrap (h + count)) (A + count) E t t').
Proof.
  revert t buf d. induction l as [|a l IH]; intros t buf d Ec Ho Hh Hd Hdc Hcs HE Hl; [lia|].
  destruct Hl as (pos & n & Hp & Hpos & Hc). pose proof Hp as [Hn (f & m & Ef & Em & Epl & Epos & Hoff & Hoff2 & Hpay)].
  cbn [peek_loop]. apply ltot_bind, (ltot_rd_frame a f); [done|]. apply ltot_bind, (ltot_rd_rx a f m); [done..|].
  rewrite Epos, Epl, Hd. rewrite (window_hit h A d pos count Hh Hdc Hcs Hpos).
  assert (Hpd : payload_at f (mrx_poff m) (Z.min n (count - d)) = Some (bytes_of (A + d) (Z.min n (count - d)))).
  { rewrite (payload_take _ _ n _ _ Hpay) by lia. by rewrite take_bytes by lia. }
  apply ltot_bind, (ltot_must _ _ _ _ Hpd).
  destruct (Z.eqb_spec (Z.min n (count - d)) n) as [Emin|Emin].
  - rewrite Emin. destruct (prod_total a X t _ (own_pop _ _ _ _ _ _ Ho)) as (s & Es & Hs); [done..|].
    apply ltot_bind. exists tt, (t <| t_pool := s |>). split; [done|].
    assert (Z.of_nat (length (buf ++ bytes_of (A + d) n)) = d + n) as Hlen.
    { rewrite length_app, Nat2Z.inj_add, bytes_length by lia. lia. }
    rewrite Hlen. destruct (Z.eqb_spec (d + n) count) as [Ecnt|Ecnt].
    + apply ltot_bind, (ltot_upd_c p _ c); [done|]. apply ltot_ret. replace (count - d) with n by lia. split; [done|].
      split; try done. exists l. split; [done|]. split; [|intros b Hb; by right].
      apply chain_received; [apply head_advance; [done|lia]|]. by replace (A + count) with (A + d + n) by lia.
    + eapply ltot_mono; [apply (IH (t <| t_pool := s |>) _ (d + n)); try done; try lia|].
      * apply chain_next in Hc. destruct l as [|b l]; [cbn; lia|]. destruct Hc as (n' & Hp' & Hc').
        exists (offset (A + (d + n))), n'. replace (A + (d + n)) with (A + d + n) by lia.
        split; [done|]. split; [by left; f_equal; lia|done].
      * intros bs t' [-> Hpost]. split.
        -- rewrite <- app_assoc. f_equal. replace (count - d) with (n + (count - (d + n))) by lia.
           rewrite bytes_app by lia. do 2 f_equal. lia.
        -- destruct Hpost as [Q1 (l' & Q2 & Q3 & Q4) Q5 Q6 Q7 Q8]. split; try done.
           ++ exists l'. split; [done|]. split; [done|]. intros b Hb. right. by apply Q4.
           ++ intros b Hb. apply Q5. intros x Hx. apply Hb. by right.
  - assert (Z.min n (count - d) = count - d) as Ek by lia. rewrite Ek. apply ltot_bind, (ltot_wr_rx a _ f m); [done..|].
    apply ltot_bind, (ltot_upd_c p _ c); [done|]. apply ltot_ret. split; [done|].
    pose proof (pos_range h A d pos Hh Hpos) as Hpr.
    split; try done.
    + eapply own_same; [exact Ho|done..].
    + exists (a :: l). split; [done|]. split; [|done].
      pose proof (own_rx_nodup X _ p (c <| rx_addrs := a :: l |>) Ho (lookup_insert_eq _ _ _)) as Hnd.
      cbn in Hnd. apply list.NoDup_cons in Hnd as [Hna _]. 
      apply (received_cons _ _ a l (A + count) (wrap (pos + (count - d))) (n - (count - d))).
      * replace (A + count) with (A + d + (count - d)) by lia.
        cbn. rewrite <- Epl.
        pose proof (pkt_truncate (t_umem t) a (A + d) pos n (count - d) f m Hp Ef Em ltac:(lia) Hpr ltac:(lia)) as Hk.
        rewrite Epl in *. exact Hk.
      * left. rewrite (truncate_pos h A d pos (count - d)) by (done || lia). f_equal. lia.
      * replace (A + count + (n - (count - d))) with (A + d + n) by lia. eapply chain_ext; [|exact Hc].
        intros b Hb. cbn. rewrite lookup_insert_ne; [done|]. intros E'. apply Hna. rewrite E'. by apply list_elem_of_fmap_2.
    + intros b Hb. cbn. rewrite lookup_insert_ne; [done|]. apply Hb. by left.
Qed.

(** A connection that holds the positions from [A] to [E]. *)
Record rx_conn (mem : gmap Z uframe) (c : eTrantcp_connection) (A E : Z) : Prop := {
  rc_size : lc_rx_buf_size c = size;
  rc_head : head_ok (rxb_head c) A;
  rc_addrs : received mem (rxb_head c) (rx_addrs c) A E;
  rc_window : E - A <= size;
  rc_ooo : ooo_rx_addrs c = []
}.

(** What the rest of the thread sees of a read by connection [p]. *)
Record read_frame (p : Z) (c c' : eTrantcp_connection) (X : list Z) (t t' : tctx) : Prop := {
  rf_own : own X t';
  rf_conns : t_conns t' = <[p := c']> (t_conns t);
  rf_addrs : forall a, a ∈ rx_addrs c' -> a ∈ rx_addrs c;
  rf_mem : forall b, (forall a, a ∈ rx_addrs c -> fix_umem_offset a <> fix_umem_offset b) ->
    t_umem t' !! fix_umem_offset b = t_umem t !! fix_umem_offset b;
  rf_queues : t_queues t' = t_queues t
}.

Definition rx_fields (c : eTrantcp_connection) : Z * Z * Z * list Z * list Z * list (Z * Z) * Z :=
  (rxb_head c, rxb_used c, rxb_bump c, rx_addrs c, ooo_rx_addrs c, unack_tx_addrs c, lc_rx_buf_size c).

(** Connection [p] has the receive half [v], nothing else that matters changed. *)
Definition rx_becomes (p : Z) (v : Z * Z * Z * list Z * list Z * list (Z * Z) * Z) (X : list Z) (t t' : tctx) : Prop :=
  own X t' /\ t_umem t' = t_umem t /\ t_queues t' = t_queues t /\
  exists c', t_conns t' = <[p := c']> (t_conns t) /\ rx_fields c' = v.

Lemma rx_becomes_conn p v X t t' c :
  rx_becomes p v X t t' -> t_conns t' !! p = Some c -> rx_fields c = v.
Proof.
  intros (_ & _ & _ & c' & E & Ev) E'. rewrite E, lookup_insert_eq in E'. congruence.
Qed.

Lemma rx_becomes_upd p v X t t' c f :
  rx_becomes p v X t t' -> t_conns t' !! p = Some c -> rx_fields (f c) = rx_fields c ->
  rx_becomes p v X t (t' <| t_conns ::= <[p := f c]> |>).
Proof.
  intros H E Hf. pose proof (rx_becomes_conn _ _ _ _ _ _ H E) as Ev. destruct H as (H1 & H2 & H3 & c' & H4 & H5).
  split; [|split; [done|split; [done|]]].
  - eapply own_conn_same; [done..|]. unfold rx_fields in Hf. injection Hf as _ _ _ A1 A2 A3 _. unfold own_c. congruence.
  - exists (f c). cbn. rewrite H4, insert_insert_eq. split; [done|congruence].
Qed.

Lemma release_spec p c n X t :
  t_conns t !! p = Some c -> own X t -> 0 <= n <= rxb_used c -> rxb_used c <= size ->
  lc_rx_buf_size c = size -> 0 <= rxb_head c <= size ->
  ltot (eTran_tcp_rx_release p n) t (fun r t' => r = 0 /\
    rx_becomes p (wrap (rxb_head c + n), rxb_used c - n, u32 (rxb_bump c + n), rx_addrs c, ooo_rx_addrs c,
                  unack_tx_addrs c, size) X t t').
Proof.
  intros Ec Ho Hn Hus Hsz Hh. set (v := (_, _, _, _, _, _, size)). unfold eTran_tcp_rx_release.
  apply ltot_bind, (ltot_rd_c p c); [done|]. destruct (Z.ltb_spec (rxb_used c) n) as [?|_]; [lia|]. cbv zeta.
  apply ltot_bind, (ltot_upd_c p _ c); [done|]. set (c1 := c <| rxb_used := _ |> <| rxb_bump := _ |> <| rxb_head := _ |>).
  assert (rx_becomes p v X t (t <| t_conns ::= <[p := c1]> |>)) as H1.
  { split; [by eapply own_conn_same|]. split; [done|]. split; [done|]. exists c1. split; [done|].
    unfold c1, rx_fields, v, wrap. cbn. rewrite Hsz, (u32_small (rxb_head c + n)), (u32_small (rxb_used c - n)) by (unfold in32; lia).
    destruct (Z.gtb_spec (rxb_head c + n) size); [rewrite u32_small by (unfold in32; lia)|]; done. }
  clearbody c1. apply ltot_bind, (ltot_rd_c p c1); [cbn; apply lookup_insert_eq|].
  assert (forall t1 c2, rx_becomes p v X t t1 -> t_conns t1 !! p = Some c2 ->
    ltot (upd_c p (fun c => c <| force_rx_bump := false |>) ;; lret 0) t1 (fun r t' => r = 0 /\ rx_becomes p v X t t')) as Hrest.
  { intros t1 c2 H2 E2. apply ltot_bind, (ltot_upd_c p _ c2); [done|]. apply ltot_ret. split; [done|].
    by apply (rx_becomes_upd p v X t t1 c2 (fun c => c <| force_rx_bump := false |>)). }
  apply ltot_bind. destruct (_ && _); cbn [lwhen].
  - apply ltot_bind, ltot_mod. apply (ltot_upd_c p _ c1); [cbn; apply lookup_insert_eq|].
    eapply Hrest; [|cbn; apply lookup_insert_eq].
    apply (rx_becomes_upd p v X t _ c1 (fun c => c <| in_rx_bump_pending := true |>)); [|cbn; apply lookup_insert_eq|done].
    destruct H1 as (Q1 & Q2 & Q3 & Q4). split; [eapply own_same; [exact Q1|done..]|done].
  - apply ltot_ret. by apply (Hrest _ c1); [|cbn; apply lookup_insert_eq].
Qed.

(** [conn_recv] returns the next bytes of the stream, as many as asked for if
    there are so many. *)
Lemma conn_recv_spec p c A E X t count :
  t_conns t !! p = Some c -> own X t -> rx_conn (t_umem t) c A E -> rxb_used c = E - A -> 0 <= count ->
  let n := Z.min count (E - A) in
  ltot (conn_recv p count) t (fun bs t' => bs = bytes_of A n /\
    exists c', read_frame p c c' X t t' /\ rx_conn (t_umem t') c' (A + n) E /\ rxb_used c' = E - A - n /\
      rxb_bump c' = (if n =? 0 then rxb_bump c else u32 (rxb_bump c + n))).
Proof.
  intros Ec Ho [Hsz Hh Hr Hw Hoo] Hu Hcnt n. pose proof (received_le _ _ _ _ _ Hr) as HAE.
  assert (n = 0 -> bytes_of A n = [] /\ exists c', read_frame p c c' X t t /\ rx_conn (t_umem t) c' (A + n) E /\
    rxb_used c' = E - A - n /\ rxb_bump c' = (if n =? 0 then rxb_bump c else u32 (rxb_bump c + n))) as Hnone.
  { intros En. rewrite En. split; [done|]. exists c. rewrite Z.add_0_r. split; [|split; [done|split; [lia|done]]].
    split; try done. by rewrite insert_id. }
  unfold conn_recv, eTran_tcp_rx_peek_count_zc. apply ltot_bind, ltot_bind, (ltot_rd_c p c); [done|].
  destruct (Z.eqb_spec (rxb_used c) 0) as [E0|E0]; [apply ltot_ret, ltot_ret; destruct Hnone as [-> ?]; [lia|done]|].
  cbv zeta. rewrite Hsz, Hu.
  assert ((if count >? E - A then E - A else count) = n) as -> by (unfold n; destruct (Z.gtb_spec count (E - A)); lia).
  destruct (Z.eq_dec n 0) as [En|En].
  - rewrite En in *. destruct (Hnone eq_refl) as [_ (c' & Hf & Hrest)].
    inversion Hr as [|a l P pos k E' Hp Hpos Hc]; subst; [lia|]. destruct Hp as [_ (f & m & Ef & Em & _)].
    cbn [peek_loop]. apply ltot_bind, (ltot_rd_frame a f); [done|]. apply ltot_bind, (ltot_rd_rx a f m); [done..|].
    assert (in_window (rxb_head c) 0 (mrx_rx_pos m) = false) as Hw0.
    { unfold in_window. destruct Hh as [Hh _]. destruct (Z.gtb_spec (rxb_head c + 0) size); lia. }
    fold (in_window (rxb_head c) 0 (mrx_rx_pos m)). rewrite Hw0. cbn [length]. cbn [Z.of_nat Z.eqb].
    apply ltot_bind, (ltot_upd_c p _ c); [done|]. apply ltot_ret, ltot_ret. split; [done|].
    assert (c <| rx_addrs := [] ++ a :: l |> = c) as -> by (cbn [app]; rewrite H; by destruct c).
    exists c. rewrite Z.add_0_r. split; [|split; [done|split; [lia|done]]].
    split; try done. eapply own_conn_same; done.
  - eapply ltot_mono; [apply (peek_loop_spec p c X A (rxb_head c) n E (rx_addrs c) t [] 0); try done; try lia|].
    + by eapply own_conn_same.
    + rewrite Z.add_0_r. destruct Hr as [|a l P pos k E' Hp Hpos Hc]; [done|]. exists pos, k. split; [done|].
      split; [|done]. by right.
    + intros bs t1 [-> [Q1 (l' & Q2 & Q3 & Q4) Q5 Q6 Q7 _]]. rewrite Z.add_0_r, Z.sub_0_r. cbn [app].
      assert (Z.of_nat (length (bytes_of A n)) = n) as Hlen by (apply bytes_length; lia).
      destruct (bytes_of A n) as [|b bs] eqn:Eb; [cbn in Hlen; lia|]. rewrite <- Eb in *. rewrite Hlen.
      apply ltot_bind. eapply ltot_mono; [apply (release_spec p (c <| rx_addrs := l' |>) n X t1)|].
      * rewrite Q2. apply lookup_insert_eq.
      * done.
      * cbn. lia.
      * cbn. lia.
      * done.
      * apply Hh.
      * intros r t2 [_ (W1 & W2 & W3 & c' & W4 & W5)]. apply ltot_ret. split; [done|]. exists c'.
        unfold rx_fields in W5. cbn in W5. injection W5 as V1 V2 V3 V4 V5 V6 V7.
        split; [split|]; try done.
        -- by rewrite W4, Q2, insert_insert_eq.
        -- by rewrite V4.
        -- intros x Hx. rewrite W2. by apply Q5.
        -- by rewrite W3.
        -- split; [split|split]; try done.
           ++ rewrite V1. apply head_advance; [done|lia].
           ++ rewrite W2, V1, V4. done.
           ++ lia.
           ++ congruence.
           ++ lia.
           ++ destruct (Z.eqb_spec n 0); [lia|done].
Qed.
End Stream.

(** ** A packet reaches its connection *)

(** Connection [p] may change, and lists that hold no packets. *)
Record still (p : Z) (t t' : tctx) : Prop := {
  st_mem : t_umem t' = t_umem t;
  st_rx : xi_rx <$> t_queues t' = xi_rx <$> t_queues t;
  st_conns : forall q, q <> p -> t_conns t' !! q = t_conns t !! q
}.

Lemma still_refl p t : still p t t.
Proof. by split. Qed.

Lemma still_trans p t1 t2 t3 : still p t1 t2 -> still p t2 t3 -> still p t1 t3.
Proof.
  intros [A1 A2 A3] [B1 B2 B3]. split; [congruence|congruence|]. intros q Hq. rewrite B3 by done. by apply A3.
Qed.

Lemma still_conn p t c : still p t (t <| t_conns ::= <[p := c]> |>).
Proof. split; [done..|]. intros q Hq. cbn. by rewrite lookup_insert_ne. Qed.

Lemma still_pool p t t' : pool_step t t' -> still p t t'.
Proof. intros [s ->]. by split. Qed.

Lemma still_sync p t t' : sync_rel p t t' -> still p t t'.
Proof.
  intros (Hc & c & c' & E & E' & _). unfold core in Hc. injection Hc as _ _ _ H4 H5 _. split; [done|by rewrite H5|].
  intros q Hq. by rewrite E', lookup_insert_ne.
Qed.

Lemma own_sync X p t t' : own X t -> sync_rel p t t' -> own X t'.
Proof.
  intros H (Hc & c & c' & E & E' & Ec). unfold core in Hc. injection Hc as H1 H2 H3 H4 H5 _.
  unfold crest in Ec. injection Ec as R1 R2 R3 R4 R5 _ U _.
  eapply (own_same X (t <| t_conns ::= <[p := c']> |>)); try done.
  eapply own_conn_same; [done..|]. unfold own_c. congruence.
Qed.

Lemma need_fill_spec qid X p t :
  own X t -> lpost (need_fill qid) t (fun _ t' => own X t' /\ still p t t' /\ t_conns t' = t_conns t).
Proof.
  intros H. unfold need_fill. do 6 lp1.
  assert (own X (t <| t_queues ::= <[Z.to_nat i := q0 <| cached_needfill := u32 (cached_needfill q0 + 1) |>]> |>)) as Ho
    by (by eapply own_queue_same).
  assert (still p t (t <| t_queues ::= <[Z.to_nat i := q0 <| cached_needfill := u32 (cached_needfill q0 + 1) |>]> |>)) as Hs.
  { split; [done| |done]. cbn. rewrite list_fmap_insert, list_insert_id; [done|]. cbn.
    by rewrite list_lookup_fmap, (rdz_lookup _ _ _ H2). }
  lp1; [|done]. do 3 lp1. lp1. destruct a as [r v]. lp1. split; [by eapply own_same|]. split; [|done].
  eapply still_trans; [exact Hs|]. by split.
Qed.

Lemma own_lose a X t : own (a :: X) t -> own X t.
Proof. intros H. eapply (own_perm _ X [a]); [exact H|done..|]. solve_Permutation. Qed.

Lemma own_rearrange X t p c c' :
  own X t -> t_conns t !! p = Some c -> own_c c' ≡ₚ own_c c -> own X (t <| t_conns ::= <[p := c']> |>).
Proof. intros H E Hc. apply (own_conn [] [] [] X t p c); [done..|]. rewrite Hc. solve_Permutation. Qed.

Lemma own_give a X t p c c' :
  own (a :: X) t -> t_conns t !! p = Some c -> own_c c' ≡ₚ a :: own_c c -> own X (t <| t_conns ::= <[p := c']> |>).
Proof. intros H E Hc. apply (own_conn [a] [] [] X t p c); [done..|]. rewrite Hc. solve_Permutation. Qed.

Lemma own_append a c : own_c (c <| rx_addrs ::= fun l => l ++ [a] |>) ≡ₚ a :: own_c c.
Proof. unfold own_c. cbn. solve_Permutation. Qed.

(** The payload of a packet of connection [p]: the packet is kept, or lost. *)
Lemma add_data_seg_own p a plen ooo X t :
  own (a :: X) t -> lpost (etran_add_data_seg p a plen ooo) t (fun _ t' => own X t' /\ still p t t').
Proof.
  intros H. unfold etran_add_data_seg, append_ooo, in_order_receive, out_of_order_receive.
  lp; (split; [|eauto using still_trans, still_conn, still_refl]).
  - cbn in H1. rewrite lookup_insert_eq in H1. injection H1 as <-.
    eapply own_give; [|cbn; apply lookup_insert_eq|apply own_append].
    eapply own_rearrange; [done..|]. unfold own_c. cbn. solve_Permutation.
  - eapply own_give; [done..|]. unfold own_c. cbn. solve_Permutation.
  - by eapply own_lose.
  - eapply own_give; [done..|apply own_append].
Qed.

(** An in-order packet extends the list of its connection. *)
Lemma add_data_seg_in_order p a plen X t :
  own (a :: X) t ->
  lpost (etran_add_data_seg p a plen POISON_32) t (fun n t' => n = plen /\ own X t' /\ still p t t' /\
    exists c, t_conns t !! p = Some c /\ t_conns t' = <[p := c <| rx_addrs ::= fun l => l ++ [a] |>]> (t_conns t)).
Proof.
  intros H. unfold etran_add_data_seg, in_order_receive. rewrite Z.eqb_refl. cbn [negb].
  lp. split; [done|]. split; [eapply own_give; [done..|apply own_append]|]. split; [apply still_conn|]. by exists c.
Qed.

(** The change of the cached connection: the bytes due to [p0] and those it
    counts already stay the same in sum. *)
Definition due (p0 : Z) (h : rx_cache) : Z := if cached_conn h =? p0 then cached_rx_bump h else 0.

(** The receive half of [c'] is that of [c] but for [rxb_used]. *)
Definition same_rx (c c' : eTrantcp_connection) : Prop :=
  (rxb_head c', rx_addrs c', ooo_rx_addrs c', lc_rx_buf_size c', own_c c', rxb_bump c') =
  (rxb_head c, rx_addrs c, ooo_rx_addrs c, lc_rx_buf_size c, own_c c, rxb_bump c).

Definition settles (p0 : Z) (d d' : Z) (t t' : tctx) : Prop :=
  forall c, t_conns t !! p0 = Some c -> 0 <= d -> 0 <= rxb_used c -> rxb_used c + d < 4294967296 ->
  exists c', t_conns t' !! p0 = Some c' /\ same_rx c c' /\ rxb_used c' + d' = rxb_used c + d /\ 0 <= d' /\ 0 <= rxb_used c'.

Lemma settles_same p0 d t t' : t_conns t' !! p0 = t_conns t !! p0 -> settles p0 d d t t'.
Proof. intros E c Ec. rewrite E. intros. by exists c. Qed.

Lemma lazy_rxev_spec p0 h X t :
  own X t -> lpost (lazy_update_prev_conn_rxev h) t (fun h' t' => own X t' /\ still (cached_conn h) t t' /\
    cached_conn h' = cached_conn h /\ cached_rx_bump h' = cached_rx_bump h /\
    cached_sendbuf_event h' = cached_sendbuf_event h /\
    (cached_conn h = p0 -> settles p0 (cached_rx_bump h) 0 t t')).
Proof.
  intros H. unfold lazy_update_prev_conn_rxev. lp1; lp.
  - split_and!; try done. apply Z.eqb_eq in Heqb as ->. intros _. by apply settles_same.
  - split_and!; try done.
    + by eapply own_conn_same.
    + apply still_conn.
    + intros <- c' E Hd Hu Hb. assert (c' = c) as -> by congruence. eexists. cbn. rewrite lookup_insert_eq.
      split; [done|]. split; [done|]. cbn. rewrite u32_small by (unfold in32; lia). lia.
Qed.

Lemma rx_switch_spec p0 p h X t :
  own X t -> p0 <> 0 -> lpost (rx_switch h p) t (fun h' t' => own X t' /\ cached_conn h' = p /\
    t_umem t' = t_umem t /\ xi_rx <$> t_queues t' = xi_rx <$> t_queues t /\
    settles p0 (due p0 h) (due p0 h') t t').
Proof.
  intros H Hp. unfold rx_switch. lp1.
  - apply andb_true_iff in Heqb as [Hb1 Hb2]. lp1. eapply lpost_mono; [by apply (lazy_rxev_spec p0 h X)|].
    intros h1 t1 (H1 & [S1 S2 S3] & E1 & E2 & E3 & Hs). lp1. cbn. split_and!; try done. unfold due. cbn.
    apply negb_true_iff, Z.eqb_neq in Hb2. destruct (Z.eqb_spec (cached_conn h) p0) as [Hc|Hc].
    + destruct (Z.eqb_spec p p0); [congruence|]. by apply Hs.
    + destruct (p =? p0); apply settles_same, S3; done.
  - lp1; lp1; cbn; split_and!; try done.
    + unfold due. cbn. apply Z.eqb_eq in Heqb0 as ->. destruct (Z.eqb_spec 0 p0); [done|].
      destruct (p =? p0); by apply settles_same.
    + apply andb_false_iff in Heqb as [Hb|Hb]; apply negb_false_iff in Hb; [congruence|]. by apply Z.eqb_eq in Hb.
    + by apply settles_same.
Qed.

(** Connection [p0] gains the packets [e], which hold [n] bytes; [d] and [d']
    are the bytes due to it before and after. *)
Definition advance (p0 : Z) (e : list Z) (n d d' : Z) (t t' : tctx) : Prop :=
  forall c, t_conns t !! p0 = Some c -> ooo_rx_addrs c = [] -> 0 <= d -> 0 <= rxb_used c -> 0 <= n ->
  rxb_used c + d + n < 4294967296 ->
  exists c', t_conns t' !! p0 = Some c' /\ ooo_rx_addrs c' = [] /\ rxb_head c' = rxb_head c /\
    lc_rx_buf_size c' = lc_rx_buf_size c /\ rxb_bump c' = rxb_bump c /\ rx_addrs c' = rx_addrs c ++ e /\
    rxb_used c' + d' = rxb_used c + d + n /\ 0 <= d' /\ 0 <= rxb_used c'.

Lemma advance_settles p0 d d' t t' : settles p0 d d' t t' -> advance p0 [] 0 d d' t t'.
Proof.
  intros H c E Eo Hd Hu _ Hb. destruct (H c E Hd Hu ltac:(lia)) as (c' & E' & Hs & H1 & H2 & H3).
  exists c'. unfold same_rx in Hs. injection Hs as S1 S2 S3 S4 _ S6. rewrite app_nil_r. split_and!; (done || congruence || lia).
Qed.

Lemma advance_refl p0 d t t' : t_conns t' !! p0 = t_conns t !! p0 -> advance p0 [] 0 d d t t'.
Proof. intros E. by apply advance_settles, settles_same. Qed.

Lemma advance_trans p0 e1 e2 n1 n2 d1 d2 d3 t1 t2 t3 :
  0 <= n1 -> 0 <= n2 -> advance p0 e1 n1 d1 d2 t1 t2 -> advance p0 e2 n2 d2 d3 t2 t3 ->
  advance p0 (e1 ++ e2) (n1 + n2) d1 d3 t1 t3.
Proof.
  intros Hn1 Hn2 H1 H2 c E Eo Hd Hu Hn Hb.
  destruct (H1 c E Eo Hd Hu ltac:(lia) ltac:(lia)) as (c1 & E1 & O1 & A1 & A2 & A3 & A4 & A5 & A6 & A7).
  destruct (H2 c1 E1 O1 A6 A7 ltac:(lia) ltac:(lia)) as (c2 & E2 & O2 & B1 & B2 & B3 & B4 & B5 & B6 & B7).
  exists c2. split_and!; try (done || congruence || lia). by rewrite B4, A4, app_assoc.
Qed.

Lemma advance_sync p0 d p t t' : sync_rel p t t' -> advance p0 [] 0 d d t t'.
Proof.
  intros (_ & c & c' & E & E' & Ec). unfold crest, rxpart in Ec. injection Ec as R1 R2 R3 R4 R5 R6 _.
  intros c0 E0 Eo Hd Hu _ Hb. rewrite app_nil_r. rewrite E'. destruct (decide (p = p0)) as [->|Hp].
  - rewrite lookup_insert_eq. assert (c0 = c) as -> by congruence. exists c'. split_and!; (done || congruence || lia).
  - rewrite lookup_insert_ne by done. exists c0. split_and!; (done || lia).
Qed.

Lemma advance_conn p0 d p t c f :
  t_conns t !! p = Some c ->
  (p = p0 -> (rxb_head (f c), rxb_used (f c), rxb_bump (f c), rx_addrs (f c), lc_rx_buf_size (f c)) =
     (rxb_head c, rxb_used c, rxb_bump c, rx_addrs c, lc_rx_buf_size c) /\
     (ooo_rx_addrs c = [] -> ooo_rx_addrs (f c) = [])) ->
  advance p0 [] 0 d d t (t <| t_conns ::= <[p := f c]> |>).
Proof.
  intros E H c0 E0 Eo Hd Hu _ Hb. rewrite app_nil_r. cbn. destruct (decide (p = p0)) as [->|Hp].
  - rewrite lookup_insert_eq. assert (c0 = c) as -> by congruence. destruct (H eq_refl) as [Hf Ho].
    injection Hf as F1 F2 F3 F4 F5. exists (f c). split_and!; (done || congruence || lia || auto).
  - rewrite lookup_insert_ne by done. exists c0. split_and!; (done || lia).
Qed.

(** Whether a packet carries payload for [p0], and how much. *)
Definition carries (p0 : Z) (m : rx_meta) : bool :=
  (mrx_conn m =? p0) && negb (mrx_qid m =? POISON_32) && negb (mrx_plen m =? POISON_16).

Definition gain (p0 a : Z) (m : rx_meta) : list Z * Z := if carries p0 m then ([a], mrx_plen m) else ([], 0).

Lemma rx_payload_spec p0 a X t m :
  own (a :: X) t -> (mrx_conn m = p0 -> mrx_ooo_bump m = POISON_32) ->
  lpost (rx_payload false (mrx_conn m) a m) t (fun n t' => own X t' /\ t_umem t' = t_umem t /\
    xi_rx <$> t_queues t' = xi_rx <$> t_queues t /\
    if mrx_conn m =? p0 then n = mrx_plen m /\ forall d, advance p0 [a] (mrx_plen m) d (d + mrx_plen m) t t'
    else t_conns t' !! p0 = t_conns t !! p0).
Proof.
  intros H Ho. unfold rx_payload. destruct (Z.eqb_spec (mrx_conn m) p0) as [Ep|Ep].
  - rewrite (Ho Ep), Ep. eapply lpost_mono; [by apply add_data_seg_in_order|].
    intros n t' (-> & H1 & [S1 S2 _] & c & E & E'). split_and!; try done.
    intros d c' Ec' Eo Hd Hu Hn Hb. rewrite E'. assert (c' = c) as -> by congruence. rewrite lookup_insert_eq.
    eexists. split; [done|]. cbn. split_and!; (done || lia).
  - eapply lpost_mono; [by apply add_data_seg_own|]. intros n t' (H1 & [S1 S2 S3]). split_and!; try done. by apply S3.
Qed.

Definition passive (t t' : tctx) : Prop :=
  t_umem t' = t_umem t /\ xi_rx <$> t_queues t' = xi_rx <$> t_queues t.

Lemma passive_trans t1 t2 t3 : passive t1 t2 -> passive t2 t3 -> passive t1 t3.
Proof. intros [A1 A2] [B1 B2]. split; congruence. Qed.

Lemma still_passive p t t' : still p t t' -> passive t t'.
Proof. intros [A1 A2 _]. by split. Qed.

(** So far connection [p0] gained nothing, and [d] bytes are due to it. *)
Definition stays (p0 d0 : Z) (X : list Z) (t0 : tctx) (d : Z) (t : tctx) : Prop :=
  own X t /\ passive t0 t /\ advance p0 [] 0 d0 d t0 t.

Lemma advance_then p0 e n d1 d2 d3 t1 t2 t3 :
  0 <= n -> advance p0 [] 0 d1 d2 t1 t2 -> advance p0 e n d2 d3 t2 t3 -> advance p0 e n d1 d3 t1 t3.
Proof. intros Hn H1 H2. exact (advance_trans p0 [] e 0 n d1 d2 d3 t1 t2 t3 ltac:(lia) Hn H1 H2). Qed.

Lemma stays_sync p0 d0 X t0 d t p m :
  stays p0 d0 X t0 d t -> lpost (sync_state p m) t (fun _ t' => stays p0 d0 X t0 d t').
Proof.
  intros (H1 & H2 & H3). eapply lpost_mono; [apply sync_state_rel|]. intros e t' Hr; cbv beta in Hr. split_and!.
  - by eapply own_sync.
  - eapply passive_trans; [done|]. by eapply still_passive, still_sync.
  - eapply advance_then; [done|exact H3|by eapply advance_sync].
Qed.

Lemma stays_prod p0 d0 X t0 d t a :
  stays p0 d0 (a :: X) t0 d t -> lpost (bcache_prod a) t (fun _ t' => stays p0 d0 X t0 d t').
Proof.
  intros (H1 & H2 & H3). eapply lpost_mono; [by apply own_prod|]. intros e t' [H4 Hs]. split_and!; [done| |].
  - eapply passive_trans; [done|]. by eapply (still_passive 0), still_pool.
  - eapply advance_then; [done|exact H3|]. apply advance_refl. by destruct Hs as [s ->].
Qed.

Lemma stays_need_fill p0 d0 X t0 d t qid :
  stays p0 d0 X t0 d t -> lpost (need_fill qid) t (fun _ t' => stays p0 d0 X t0 d t').
Proof.
  intros (H1 & H2 & H3). eapply lpost_mono; [by apply (need_fill_spec qid X 0)|]. intros e t' (H4 & Hs & Ec). split_and!; [done| |].
  - eapply passive_trans; [done|]. by eapply still_passive.
  - eapply advance_then; [done|exact H3|]. apply advance_refl. by rewrite Ec.
Qed.

Lemma stays_force p0 d0 X t0 d t p (b : bool) :
  stays p0 d0 X t0 d t ->
  lpost (lwhen b (upd_c p (fun c => c <| force_rx_bump := true |>))) t (fun _ t' => stays p0 d0 X t0 d t').
Proof.
  intros (H1 & H2 & H3). lp1; [|done]. lp1. split_and!.
  - by eapply own_conn_same.
  - eapply passive_trans; [done|]. apply (still_passive p), still_conn.
  - eapply advance_then; [done|exact H3|]. by apply (advance_conn p0 d p t c (fun c => c <| force_rx_bump := true |>)).
Qed.

Lemma stays_clear p0 d0 X t0 d t p (b : bool) :
  stays p0 d0 X t0 d t ->
  lpost (lwhen b (upd_c p (fun c => c <| ooo_rx_addrs := [] |>))) t (fun _ t' => stays p0 d0 X t0 d t').
Proof.
  intros (H1 & H2 & H3). lp1; [|done]. lp1. split_and!.
  - apply (own_conn [] [] (ooo_rx_addrs c) X t p c); [done..|]. unfold own_c. cbn. solve_Permutation.
  - eapply passive_trans; [done|]. apply (still_passive p), still_conn.
  - eapply advance_then; [done|exact H3|]. by apply (advance_conn p0 d p t c (fun c => c <| ooo_rx_addrs := [] |>)).
Qed.

Lemma advance_u64 p0 e n d t t' : advance p0 e n d (d + n) t t' -> advance p0 e n d (u64 (d + n)) t t'.
Proof.
  intros H c E Eo Hd Hu Hn Hb. destruct (H c E Eo Hd Hu Hn Hb) as (c' & E' & O1 & A1 & A2 & A3 & A4 & A5 & A6 & A7).
  exists c'. rewrite u64_small by (unfold in64; lia). done.
Qed.

(** A packet of some connection, under the conditions of a stream in order. *)
Lemma rx_conn_packet_spec p0 h a X t m :
  own (a :: X) t -> p0 <> 0 -> (carries p0 m = true -> mrx_ooo_bump m = POISON_32) -> 0 <= mrx_plen m ->
  lpost (rx_conn_packet false h (mrx_conn m) a m) t (fun h' t' => own X t' /\ passive t t' /\
    advance p0 (gain p0 a m).1 (gain p0 a m).2 (due p0 h) (due p0 h') t t').
Proof.
  intros H Hp Hooo Hl. unfold rx_conn_packet. lp1.
  eapply lpost_mono; [by apply (rx_switch_spec p0 _ h (a :: X))|]. intros h1 t1 (H1 & Ec & M1 & M2 & Hs).
  cbv beta zeta. apply advance_settles in Hs.
  assert (stays p0 (due p0 h) (a :: X) t (due p0 h1) t1) as Hst by (split_and!; done).
  assert (forall e : bool, due p0 (if e then h1 <| cached_sendbuf_event := true |> else h1) = due p0 h1) as Hdue by (by intros []).
  unfold gain, carries in *. lp1.
  - lp1. eapply lpost_mono; [by apply (stays_sync p0 (due p0 h) (a :: X) t)|]. intros e t2 H2; cbv beta in H2. lp1.
    eapply lpost_mono; [by apply (stays_prod p0 (due p0 h) X t)|]. intros ? t3 H3; cbv beta in H3. lp1.
    rewrite Hdue. destruct (mrx_conn m =? p0); cbn; apply H3.
  - lp1. eapply lpost_mono; [by apply (stays_force p0 (due p0 h) (a :: X) t)|]. intros ? t2 H2; cbv beta in H2. lp1.
    eapply lpost_mono; [by apply (stays_need_fill p0 (due p0 h) (a :: X) t)|]. intros ? t3 H3; cbv beta in H3. lp1.
    eapply lpost_mono; [by apply (stays_sync p0 (due p0 h) (a :: X) t)|]. intros e t4 H4; cbv beta in H4. cbv zeta.
    lp1.
    + lp1. eapply lpost_mono; [by apply (stays_clear p0 (due p0 h) (a :: X) t)|]. intros ? t5 H5; cbv beta in H5. lp1.
      eapply lpost_mono; [by apply (stays_prod p0 (due p0 h) X t)|]. intros ? t6 H6; cbv beta in H6. lp1.
      rewrite Hdue, andb_false_r. apply H6.
    + destruct H4 as (O4 & P4 & A4). lp1. eapply lpost_mono; [apply (rx_payload_spec p0 a X); [done|]|].
      * intros Ep. apply Hooo. by rewrite Ep, Z.eqb_refl.
      * intros n t5 (O5 & M5 & R5 & Hn). lp1. split; [done|]. split; [by eapply passive_trans|].
        cbn [negb]. rewrite !andb_true_r. destruct (Z.eqb_spec (mrx_conn m) p0) as [Ep|Ep]; cbn.
        -- destruct Hn as [-> Ha]. eapply advance_then; [done|exact A4|]. unfold due in Ha |- *.
           assert (forall b : bool, cached_conn (if b then h1 <| cached_sendbuf_event := true |> else h1) = mrx_conn m /\
             cached_rx_bump (if b then h1 <| cached_sendbuf_event := true |> else h1) = cached_rx_bump h1) as Hh
             by (by intros []).
           cbn. destruct (Hh e) as [-> ->]. rewrite Ec, Ep, Z.eqb_refl. apply advance_u64, Ha.
        -- eapply advance_then; [done|exact A4|]. unfold due.
           assert (forall b : bool, cached_conn (if b then h1 <| cached_sendbuf_event := true |> else h1) = mrx_conn m) as Hh
             by (by intros []).
           cbn. rewrite Hh, Ec. destruct (Z.eqb_spec (mrx_conn m) p0); [done|]. by apply advance_refl.
Qed.

Lemma rx_flush_spec p0 h X t :
  own X t -> p0 <> 0 ->
  lpost (rx_flush h) t (fun _ t' => own X t' /\ passive t t' /\ advance p0 [] 0 (due p0 h) 0 t t').
Proof.
  intros H Hp. unfold rx_flush. lp1. lp1.
  - eapply lpost_mono; [by apply (lazy_rxev_spec p0 h X)|]. intros h1 t1 (H1 & Hs & _ & _ & _ & Hd). lp1.
    split; [done|]. split; [by eapply still_passive|]. apply advance_settles. unfold due.
    destruct (Z.eqb_spec (cached_conn h) p0) as [Ec|Ec]; [by apply Hd|]. apply settles_same. by apply (st_conns _ _ _ Hs).
  - lp1. lp1. split; [done|]. split; [done|]. assert (due p0 h = 0) as ->; [|by apply advance_refl].
    unfold due. destruct (Z.eqb_spec (cached_conn h) p0) as [Ec|Ec]; [|done].
    apply andb_false_iff in Heqb as [Hb|Hb]; [|by apply nz_false]. apply negb_false_iff, Z.eqb_eq in Hb. lia.
Qed.

Lemma handle_rx_spec p0 h a last X t :
  own (a :: X) t -> p0 <> 0 ->
  lpost (handle_rx false h a last) t (fun h' t' => exists f m,
    t_umem t !! fix_umem_offset a = Some f /\ uf_meta f = Rx_meta m /\
    ((carries p0 m = true -> mrx_ooo_bump m = POISON_32) -> 0 <= mrx_plen m -> p0 <> POISON_64 ->
     own X t' /\ passive t t' /\
     advance p0 (gain p0 a m).1 (gain p0 a m).2 (due p0 h) (if last then 0 else due p0 h') t t')).
Proof.
  intros H Hp0. unfold handle_rx. lp1. lp1.
  apply (lpost_mono _ _ (fun h' t' => (carries p0 m = true -> mrx_ooo_bump m = POISON_32) -> 0 <= mrx_plen m -> p0 <> POISON_64 ->
     own X t' /\ passive t t' /\
     advance p0 (gain p0 a m).1 (gain p0 a m).2 (due p0 h) (if last then 0 else due p0 h') t t'));
    [|intros h' t' Hq; by exists f, m].
  intros h' t' E Hooo Hl Hp64. revert h' t' E.
  assert (0 <= (gain p0 a m).2) as Hg by (unfold gain; by destruct (carries p0 m)).
  change (lpost (let! h0 := (if (mrx_conn m =? POISON_64) || (mrx_conn m =? 0) then bcache_prod a ;; lret h
    else rx_conn_packet false h (mrx_conn m) a m) in if last then rx_flush h0 else lret h0) t
    (fun h' t' => own X t' /\ passive t t' /\
     advance p0 (gain p0 a m).1 (gain p0 a m).2 (due p0 h) (if last then 0 else due p0 h') t t')).
  lp1. apply (lpost_mono _ _ (fun h' t' => own X t' /\ passive t t' /\
    advance p0 (gain p0 a m).1 (gain p0 a m).2 (due p0 h) (due p0 h') t t')).
  - lp1; [|by apply rx_conn_packet_spec]. lp1. eapply lpost_mono; [by apply own_prod|].
    intros ? t' [H2 Hs]. lp1. split; [done|]. split; [by eapply (still_passive 0), still_pool|].
    assert (gain p0 a m = ([], 0)) as ->; [|apply advance_refl; by destruct Hs as [s ->]].
    unfold gain, carries. destruct (Z.eqb_spec (mrx_conn m) p0) as [Ep|Ep]; [|done].
    rewrite Ep in Heqb. apply orb_true_iff in Heqb as [Hb|Hb]; apply Z.eqb_eq in Hb; done.
  - intros h1 t1 (H2 & H3 & H4). destruct last; [|by lp1].
    eapply lpost_mono; [by apply (rx_flush_spec p0 h1 X)|]. intros h2 t2 (H5 & H6 & H7). split; [done|].
    split; [by eapply passive_trans|]. 
    pose proof (advance_trans p0 _ [] _ 0 _ _ _ _ _ _ Hg ltac:(lia) H4 H7) as Ha. by rewrite app_nil_r, Z.add_0_r in Ha.
Qed.

Section Flow.
Context (σ : Z -> Z) (R0 size p0 : Z).
Hypothesis Hsize : 0 < size <= 1073741824.
Hypothesis Hp0 : p0 <> 0 /\ p0 <> POISON_64.

(** The packets of a ring that carry payload for [p0] hold the positions from
    [P] to [E]; they are [e]. *)
Inductive flow (mem : gmap Z uframe) : list Z -> Z -> Z -> list Z -> Prop :=
| flow_nil P : flow mem [] P P []
| flow_data a l P n E e f m :
    mem !! fix_umem_offset a = Some f -> uf_meta f = Rx_meta m -> carries p0 m = true ->
    mrx_plen m = n -> mrx_ooo_bump m = POISON_32 ->
    pkt σ mem a P (offset R0 size P) n -> flow mem l (P + n) E e -> flow mem (a :: l) P E (a :: e)
| flow_skip a l P E e f m :
    mem !! fix_umem_offset a = Some f -> uf_meta f = Rx_meta m -> carries p0 m = false ->
    0 <= mrx_plen m -> flow mem l P E e -> flow mem (a :: l) P E e.

Lemma flow_chain mem l P E e : flow mem l P E e -> chain σ R0 size mem e P E.
Proof. induction 1; [constructor|econstructor; done|done]. Qed.

Lemma flow_app mem l l' P Q E e e' : flow mem l P Q e -> flow mem l' Q E e' -> flow mem (l ++ l') P E (e ++ e').
Proof. induction 1; intros; cbn; [done|eapply flow_data; eauto|eapply flow_skip; eauto]. Qed.

Lemma flow_split mem l l' P E e :
  flow mem (l ++ l') P E e -> exists Q e1 e2, flow mem l P Q e1 /\ flow mem l' Q E e2 /\ e = e1 ++ e2.
Proof.
  revert P e. induction l as [|a l IH]; intros P e H; cbn in H; [exists P, [], e; split; [constructor|done]|].
  inversion H; subst.
  - destruct (IH _ _ ltac:(eassumption)) as (Q & e1 & e2 & ? & ? & ->). exists Q, (a :: e1), e2.
    split; [by eapply flow_data|done].
  - destruct (IH _ _ ltac:(eassumption)) as (Q & e1 & e2 & ? & ? & ->). exists Q, e1, e2. split; [by eapply flow_skip|done].
Qed.

Lemma flow_ext mem mem' l P E e :
  (forall a, a ∈ l -> mem' !! fix_umem_offset a = mem !! fix_umem_offset a) -> flow mem l P E e -> flow mem' l P E e.
Proof.
  intros H. induction 1 as [|a l P n E e f m Ef Em Hc Hn Ho Hp Hf IH|a l P E e f m Ef Em Hc Hl Hf IH]; [constructor| |];
    (assert (mem' !! fix_umem_offset a = mem !! fix_umem_offset a) as Ea by (apply H; by left));
    (assert (flow mem' l _ E e) as IH' by (apply IH; intros b Hb; apply H; by right)).
  - eapply flow_data; try done; [by rewrite Ea|]. by eapply pkt_ext.
  - eapply flow_skip; try done. by rewrite Ea.
Qed.

Lemma flow_le mem l P E e : flow mem l P E e -> P <= E.
Proof. intros H. by eapply chain_le, flow_chain. Qed.

(** The first packet of a batch, and what it adds. *)
Lemma flow_head mem a l P E e :
  flow mem (a :: l) P E e -> exists f m e', mem !! fix_umem_offset a = Some f /\ uf_meta f = Rx_meta m /\
    (carries p0 m = true -> mrx_ooo_bump m = POISON_32) /\ 0 <= mrx_plen m /\ 0 <= (gain p0 a m).2 /\
    e = (gain p0 a m).1 ++ e' /\ flow mem l (P + (gain p0 a m).2) E e'.
Proof.
  intros H. inversion H as [|? ? ? n ? e' f m Ef Em Hc Hn Ho Hp Hf|? ? ? ? ? f m Ef Em Hc Hl Hf]; subst.
  - pose proof (pk_len _ _ _ _ _ _ Hp). exists f, m, e'. unfold gain. rewrite Hc. split_and!; (done || (cbn; lia)).
  - exists f, m, e. unfold gain. rewrite Hc, Z.add_0_r. split_and!; done.
Qed.

(** A batch of packets reaches the connections. *)
Lemma handle_batch_spec l P Q e h X t :
  flow (t_umem t) l P Q e -> own (l ++ X) t ->
  lpost (handle_batch false h l) t (fun _ t' => own X t' /\ passive t t' /\
    advance p0 e (Q - P) (due p0 h) (match l with [] => due p0 h | _ => 0 end) t t').
Proof.
  revert P e h t. induction l as [|a l IH]; intros P e h t Hf H; cbn [handle_batch].
  - inversion Hf; subst. lp1. rewrite Z.sub_diag. split; [done|]. split; [done|]. by apply advance_refl.
  - apply flow_head in Hf as (f & m & e' & Ef & Em & Hooo & Hl & Hg & -> & Hf). pose proof (flow_le _ _ _ _ _ Hf) as Hle.
    destruct Hp0 as [Hp Hp64]. lp1.
    eapply lpost_mono; [by apply (handle_rx_spec p0 h a _ (l ++ X))|]. intros h1 t1 (f' & m' & Ef' & Em' & Hpost).
    assert (f' = f) as -> by congruence. assert (m' = m) as -> by congruence.
    destruct (Hpost Hooo Hl Hp64) as (H1 & [M1 R1] & A1). clear Hpost. cbv beta.
    replace (Q - P) with ((gain p0 a m).2 + (Q - (P + (gain p0 a m).2))) by lia. destruct l as [|b l].
    + cbn. lp1. inversion Hf; subst. rewrite app_nil_r, Z.sub_diag, Z.add_0_r. done.
    + eapply lpost_mono; [apply (IH (P + (gain p0 a m).2) e' h1 t1); [by rewrite M1|done]|].
      intros h2 t2 (H2 & [M2 R2] & A2). split; [done|]. split; [split; congruence|].
      eapply advance_trans; [done|lia|exact A1|exact A2].
Qed.
End Flow.
