(* ===== verification/LibStream.v ===== *)
(** The path of a stream from the packets of the peer to the application: the
    eBPF receiver, the rings, the socket library and the window updates that
    go back, composed into one transition system. *)
From stdpp Require Import gmap.
From S2P Require Import Prelude Intf Seq Headers AckQueue Pacing EtranTcp RxSafety BufPool LibTcp LibOwn LibRx.
Local Open Scope Z_scope.
Local Open Scope lib_scope.

(** ** The eBPF receiver on segments that leave no gap *)

(** What the stages write into the metadata besides the payload. *)
Definition tags (m : rx_meta) : Z * Z := (mrx_conn m, mrx_ooo_bump m).

Definition handed : Z -> Prop := fun _ => True.

Section InOrder.
Context (R0 R U P L qid conn : Z).
Context (Hnear : near R P) (Hbehind : P <= R) (HL : 0 <= L <= 65469).

(** A segment that starts no later than the next expected position is not out
    of order. *)
Lemma payload_stage_in_order s :
  rx_base R0 R U handed (rs_c s) -> v_seq (rs_v s) = u32 P -> v_payload_len (rs_v s) = L ->
  mrx_plen (rs_m s) = POISON_16 ->
  let s' := flow_st (rx_payload_stage s) in
  rs_c s' = rs_c s /\ tags (rs_m s') = tags (rs_m s) /\ mrx_qid (rs_m s') = mrx_qid (rs_m s) /\
  v_rx_bump (rs_v s') = v_rx_bump (rs_v s) /\
  match rx_payload_stage s with
  | Unlock s' => v_payload_len (rs_v s') = 0 \/ mrx_plen (rs_m s') = POISON_16
  | Fall _ => True
  end.
Proof.
  intros [Hs Ha Hsz Hord Hw _ _] Hseq Hlen Hm. cbv zeta.
  unfold rx_payload_stage, tcp_valid_rxseq_ooo. rewrite Hseq, Hlen, Hs, !u32_add_l.
  destruct (rxseq_ooo _ _ _ _) as [[ts te]|] eqn:Ev; [|split_and!; auto].
  cbn. rewrite Hseq, u32_add_l, Hlen. set (n := trimmed_len L ts te).
  destruct (Z.eqb_spec (u32 (P + ts)) (u32 R)) as [Er|Er]; cbn; [by split_and!|].
  destruct (Z.eqb_spec n 0) as [E0|E0]; cbn; [split_and!; auto|]. exfalso.
  destruct (Z.eq_dec L 0) as [->|HL0].
  { apply rxseq_ooo_sound in Ev as (q & _ & Ht & _); [|done|lia..]. subst n. lia. }
  destruct (Z.eq_dec (rx_avail (rs_c s)) 0) as [EW|EW].
  - rewrite EW, rxseq_ooo_closed in Ev by (unfold near in *; lia).
    destruct (_ && _) eqn:Hv; simplify_eq; bool_props. apply Er. f_equal. lia.
  - rewrite rxseq_ooo_clip in Ev by (unfold near in *; lia). unfold clip in Ev.
    destruct (_ <? _) eqn:Hv; simplify_eq; bool_props. apply Er. f_equal. lia.
Qed.

(** Between [s] and [s'] the receiver accepted the [n] bytes from [R] on. *)
Record accepts (s s' : rx_st) : Prop := {
  ac_ooo : rx_ooo_len (rs_c s') = 0;
  ac_size : rx_buf_size (rs_c s') = rx_buf_size (rs_c s);
  ac_tags : tags (rs_m s') = (conn, POISON_32);
  ac_qid : mrx_qid (rs_m s') ∈ [qid; Z.lor qid FORCE_RX_BUMP_MASK];
  ac_data : exists n, 0 <= n /\ rx_base R0 (R + n) U handed (rs_c s') /\ v_rx_bump (rs_v s') = n /\
    (n = 0 /\ (v_payload_len (rs_v s') = 0 \/ mrx_plen (rs_m s') = POISON_16) \/
     0 < n /\ placed R0 P L R s' /\ v_payload_len (rs_v s') = n)
}.

Context (s : rx_st) (Hbase : rx_base R0 R U handed (rs_c s)) (Hooo : rx_ooo_len (rs_c s) = 0).

Lemma view_same s1 :
  rx_view (rs_c s1) = rx_view (rs_c s) -> rx_ooo_len (rs_c s1) = 0 /\
  rx_buf_size (rs_c s1) = rx_buf_size (rs_c s) /\ rx_inv R0 R U handed (rs_c s1).
Proof.
  intros E. assert (rx_inv R0 R U handed (rs_c s)) as Hinv by (split; [done|by apply ooo_inv_empty]).
  unfold rx_view in E. injection E as ? ? ? ? ? ?. split_and!; [congruence..|].
  eapply rx_inv_view, Hinv. unfold rx_view. congruence.
Qed.

Lemma accepts_none s1 :
  rx_view (rs_c s1) = rx_view (rs_c s) -> tags (rs_m s1) = (conn, POISON_32) ->
  mrx_qid (rs_m s1) = qid -> v_rx_bump (rs_v s1) = 0 ->
  v_payload_len (rs_v s1) = 0 \/ mrx_plen (rs_m s1) = POISON_16 ->
  accepts s s1.
Proof.
  intros E1 E2 E3 Eb E4. destruct (view_same s1 E1) as (? & ? & [? _]). split; [done..|rewrite E3; by left|].
  exists 0. rewrite Z.add_0_r. split_and!; [done..|]. by left.
Qed.

Lemma accept_stage_in_order s1 :
  rx_view (rs_c s1) = rx_view (rs_c s) -> tags (rs_m s1) = (conn, POISON_32) -> mrx_qid (rs_m s1) = qid ->
  v_rx_bump (rs_v s1) = 0 -> v_payload_len (rs_v s1) = 0 \/ placed R0 P L R s1 /\ v_payload_len (rs_v s1) <= rx_avail (rs_c s1) ->
  accepts s (rx_accept_stage s1).
Proof.
  intros Hv Ht Hq Hbm Hpl. destruct (view_same s1 Hv) as (Eo & Es & [Hb _]). unfold rx_accept_stage.
  destruct (Z.eqb_spec (v_payload_len (rs_v s1)) 0) as [E0|E0]; [apply accepts_none; auto|].
  destruct Hpl as [?|[Hpl Hle]]; [done|]. pose proof Hpl as (Hn & _). set (n := v_payload_len (rs_v s1)) in *.
  destruct (rx_advance_base R0 R U handed (rs_c s1) n Hb ltac:(lia) ltac:(done)) as [Hb' _].
  unfold rx_merge_stage. cbn. rewrite Eo. cbn.
  assert (forall s2, rs_c s2 = rx_advance n (rs_c s1) -> RxSafety.place s2 = RxSafety.place s1 ->
    tags (rs_m s2) = tags (rs_m s1) -> mrx_qid (rs_m s2) ∈ [qid; Z.lor qid FORCE_RX_BUMP_MASK] ->
    v_rx_bump (rs_v s2) = n -> accepts s s2) as Hgo.
  { intros s2 Ec Ep Et Hq2 Eb. destruct (place_eq _ _ Ep) as (El & _ & _).
    split; [by rewrite Ec|by rewrite Ec|congruence|done|]. exists n. rewrite Ec.
    split_and!; [lia|done|done|]. right. split_and!; [lia|by eapply placed_place; [symmetry|]|done]. }
  destruct (_ =? 0); apply Hgo; cbn; try done; rewrite ?Hq; [by right; left|by left].
Qed.

Lemma body_in_order t o now :
  v_seq (rs_v s) = u32 P -> v_payload_len (rs_v s) = L -> v_payload_off (rs_v s) = HEADERS_LEN ->
  rs_m s = meta_init qid conn -> v_rx_bump (rs_v s) = 0 -> accepts s (etran_rx_body t o now s).
Proof.
  intros Hseq Hlen Hoff Hm Hbm. unfold etran_rx_body.
  pose proof (rx_ack_stage_frame t s) as (Hv & Em & Elen & Eoff & Eseq & Ebm & _).
  destruct (rx_ack_stage t s) as [s1|s1]; cbn in *; [|apply accepts_none; rewrite ?Em, ?Hm, ?Ebm; auto].
  destruct (view_same s1 Hv) as (_ & Es1 & Hi1). pose proof Hi1 as [Hb1 _].
  destruct (payload_stage_in_order s1 Hb1) as (Pc & Pt & Pq & Pb & Pz); [congruence..|by rewrite Em, Hm|].
  pose proof (rx_payload_stage_inv R0 R U P L handed Hnear HL s1 Hi1) as Hp.
  rewrite Eseq, Elen, Eoff, Em, Hm in Hp. specialize (Hp Hseq Hlen Hoff eq_refl).
  rewrite Em, Hm in Pt, Pq.
  destruct (rx_payload_stage s1) as [s2|s2]; cbn in *; [|apply accepts_none; [by rewrite Pc|done|done|congruence|done]].
  destruct Hp as (_ & _ & Hpl).
  pose proof (rx_window_stage_frame t o now s2) as (Hv' & Em' & Ev').
  set (s3 := rx_window_stage t o now s2) in *. clearbody s3.
  assert (rx_view (rs_c s3) = rx_view (rs_c s)) as Hv3 by (by rewrite Hv', Pc).
  destruct (view_same s3 Hv3) as (_ & Es3 & _).
  apply accept_stage_in_order; rewrite ?Em', ?Ev'; try done; [congruence|].
  destruct Hpl as [?|[Hpl Hle]]; [by left|right]. split.
  - unfold placed in *. rewrite Em', Ev', Es3, <- Es1, <- Pc. done.
  - unfold rx_view in Hv'. injection Hv' as _ -> _ _ _ _. by rewrite Pc.
Qed.
End InOrder.

(** What the verdict says of a segment that leaves no gap: [n] bytes from [R]
    on are accepted and handed over. *)
Definition verdict (R0 R P L size qid conn n : Z) (a : xdp_action) (m : rx_meta) : Prop :=
  (a = XDP_REDIRECT -> mrx_conn m = conn /\ mrx_ooo_bump m = POISON_32 /\
     mrx_qid m ∈ [qid; Z.lor qid FORCE_RX_BUMP_MASK]) /\
  (n = 0 /\ (a = XDP_REDIRECT -> mrx_plen m = POISON_16) \/
   0 < n < POISON_16 /\ a = XDP_REDIRECT /\ mrx_plen m = n /\ mrx_poff m = HEADERS_LEN + (R - P) /\
   R + n <= P + L /\ mrx_rx_pos m = (R - R0) mod size).

Lemma unlock_verdict R0 R U P L qid conn s s' :
  accepts R0 R U P L qid conn s s' ->
  let '(drop, s'') := rx_unlock_stage s' in
  rs_c s'' = rs_c s' /\ exists n, 0 <= n /\ rx_base R0 (R + n) U handed (rs_c s') /\
    verdict R0 R P L (rx_buf_size (rs_c s)) qid conn n (if drop then XDP_DROP else XDP_REDIRECT) (rs_m s'').
Proof.
  intros [_ Hsz Ht Hq (n & Hn & Hb & Hbm & Hd)]. unfold tags in Ht. injection Ht as Hc Ho. unfold rx_unlock_stage.
  set (g := _ || v_clear_ooo (rs_v s')).
  assert (0 < n -> g = true) as Hg.
  { intros Hn0. subst g. rewrite Hbm. by rewrite (proj2 (nz_true n)) by lia. }
  assert (n < 65535) as Hlt by (destruct Hd as [[-> _]|(_ & ([_ H1] & _) & Hl)]; [lia|]; unfold POISON_16 in H1; lia).
  assert (Z.lor POISON_32 n = POISON_32) as Hones.
  { rewrite Z.lor_comm. apply (Z.lor_ones_low n 32); [done|]. destruct (Z.eq_dec n 0) as [->|]; [done|].
    apply Z.log2_lt_pow2; lia. }
  destruct g; (split; [done|]); exists n; (split_and!; [done..|]).
  2:{ split; [done|]. destruct Hd as [[-> _]|(? & _)]; [by left|]. by specialize (Hg ltac:(done)). }
  set (m := if nz (v_tx_bump _) then _ else _).
  assert ((mrx_conn m, mrx_ooo_bump m, mrx_qid m, mrx_plen m, mrx_poff m, mrx_rx_pos m) =
    (mrx_conn (rs_m s'), mrx_ooo_bump (rs_m s'), mrx_qid (rs_m s'), mrx_plen (rs_m s'), mrx_poff (rs_m s'),
     mrx_rx_pos (rs_m s'))) as E by (subst m; by repeat split_if).
  injection E as E1 E2 E3 E4 E5 E6. cbn. rewrite E2, Ho, Hbm, Hones. unfold verdict.
  destruct (Z.eqb_spec (v_payload_len (rs_v s')) 0) as [E0|E0]; cbn.
  - rewrite E1, E2, E3. split; [done|]. destruct Hd as [[-> _]|(? & _ & ?)]; [by left|lia].
  - change (nz (Z.land POISON_32 OOO_FIN_MASK)) with true. cbn. rewrite E1, E3.
    split; [done|]. destruct Hd as [[-> [?|Hp]]|(Hn0 & (H1 & H2 & H3 & H4 & H5 & H6) & Hl)]; [done|left; by rewrite E4|right].
    rewrite E4, E5, E6, <- Hsz, <- Hl. split_and!; (done || lia).
Qed.

Lemma etran_rx_in_order R0 R U P qid conn cpu ktime rxc t o c cc pkt_len ece pc :
  near R P -> P <= R -> rx_base R0 R U handed c -> rx_ooo_len c = 0 ->
  bpf_ntohl (th_seq t) = u32 P -> HEADERS_LEN <= pkt_len <= 65535 ->
  let '(a, c', _, m', _) :=
    etran_rx_process cpu ktime rxc t o c cc pkt_len (meta_init qid conn) ece pc in
  rx_ooo_len c' = 0 /\ rx_buf_size c' = rx_buf_size c /\
  exists n, 0 <= n /\ rx_base R0 (R + n) U handed c' /\
    verdict R0 R P (pkt_len - HEADERS_LEN) (rx_buf_size c) qid conn n a m'.
Proof.
  intros Hn Hle Hb Ho Hseq Hlen. unfold etran_rx_process. destruct cc as [cc|].
  2:{ split_and!; [done..|]. exists 0. rewrite Z.add_0_r. split_and!; [done..|]. split; [done|by left]. }
  set (now := u32 _). set (s := mk_rx_st _ _ _ _). unfold HEADERS_LEN in *.
  pose proof (body_in_order R0 R U P (pkt_len - 66) qid conn Hn Hle ltac:(lia) s Hb Ho t o now Hseq) as Hbody.
  specialize (Hbody ltac:(cbn; unfold HEADERS_LEN; mach_lia) eq_refl eq_refl eq_refl).
  pose proof (unlock_verdict _ _ _ _ _ _ _ _ _ Hbody) as Hu. destruct Hbody as [A1 A2 _ _ _].
  destruct (rx_unlock_stage _) as [drop s'']. destruct Hu as (Ec & n & Hn0 & Hb' & Hv). rewrite Ec.
  split_and!; [done..|]. by exists n.
Qed.

(** ** Reads by other connections *)

Section Others.
Context (p0 : Z).

Lemma quiet_same W t0 t t' :
  quiet p0 W t0 t -> t_conns t' !! p0 = t_conns t !! p0 -> t_queues t' = t_queues t -> t_umem t' = t_umem t ->
  quiet p0 W t0 t'.
Proof. intros H E1 E2 E3. eapply quiet_trans; [exact H|]. split; rewrite ?E1, ?E2, ?E3; done. Qed.

Lemma good_other W X t0 t p c c' :
  good p0 W X t0 t -> p <> p0 -> t_conns t !! p = Some c -> own_c c' = own_c c ->
  good p0 W X t0 (t <| t_conns ::= <[p := c']> |>).
Proof.
  intros [Ho Hq] Hp E Hc. split; [by eapply own_conn_same|]. eapply quiet_same; [exact Hq|cbn; by rewrite lookup_insert_ne|done..].
Qed.

(** Between [t0] and [t] with the list of connection [q] replaced. *)
Definition good_rx (W X : list Z) (t0 : tctx) (q : Z) (c : eTrantcp_connection) (l : list Z) (t : tctx) : Prop :=
  good p0 W X t0 (with_rx q c l t).

Lemma good_rx_pop W X t0 q c keep a l t :
  q <> p0 -> good_rx W X t0 q c (keep ++ a :: l) t ->
  exists s, bcache_prod a t = Some (tt, t <| t_pool := s |>) /\
    good_rx W X t0 q c (keep ++ l) (t <| t_pool := s |>).
Proof.
  intros Hq [Ho Hqt].
  assert (own (a :: X ++ W) (with_rx q c (keep ++ l) t)) as Ho'.
  { eapply (own_same _ ((with_rx q c (keep ++ a :: l) t) <| t_conns ::= <[q := c <| rx_addrs := keep ++ l |>]> |>)); try done.
    - apply (own_conn [] [a] [] (X ++ W) _ q (c <| rx_addrs := keep ++ a :: l |>)); [done|apply lookup_insert_eq|].
      unfold own_c. cbn. solve_Permutation.
    - cbn. by rewrite insert_insert_eq. }
  destruct (prod_total a (X ++ W) t _ Ho') as (s & Es & Hs); [done..|]. exists s. split; [done|]. split; [done|].
  eapply quiet_same; [exact Hqt|cbn; by rewrite !lookup_insert_ne|done..].
Qed.

Lemma peek_other valid size' count q W X t0 c l : q <> p0 -> forall keep buf t,
  t_conns t !! q = Some c -> good_rx W X t0 q c (keep ++ l) t ->
  lpost (peek_loop valid size' count q keep l buf) t (fun _ t' => good p0 W X t0 t' /\
    exists c', t_conns t' !! q = Some c').
Proof.
  intros Hq. assert (forall l' t, t_conns t !! q = Some c -> good_rx W X t0 q c l' t -> forall (bs : list Z),
    lpost (upd_c q (fun c => c <| rx_addrs := l' |>) ;; lret bs) t (fun _ t' => good p0 W X t0 t' /\
      exists c', t_conns t' !! q = Some c')) as Hstop.
  { intros l' t Ec H bs. do 3 lp1. assert (c0 = c) as -> by congruence. split; [exact H|]. eexists. apply lookup_insert_eq. }
  induction l as [|a l IH]; intros keep buf t Ec H; cbn [peek_loop]; [by apply Hstop|]. do 4 lp1.
  assert (H1' : good_rx W X t0 q c ((keep ++ [a]) ++ l) t) by (by rewrite <- app_assoc).
  lp1; [|lp1; [by apply Hstop|by apply IH]]. do 2 lp1. cbv zeta. lp1.
  - destruct (good_rx_pop _ _ _ _ _ _ _ _ _ Hq H) as (s & Es & Hs). apply lpost_bind. intros x t1 Et. rewrite Es in Et.
    injection Et as _ <-. lp1; [by apply Hstop|by apply IH].
  - do 2 lp1. apply Hstop; [done|]. destruct H as [Ho Hqt]. split; [by eapply own_same|].
    eapply quiet_trans; [exact Hqt|].
    match goal with |- quiet _ _ _ (with_rx _ _ _ (_ <| t_umem ::= <[_ := ?g]> |>)) =>
      apply (quiet_mem p0 W (with_rx q c (keep ++ a :: l) t) a g) end.
    intros b Hb. apply (other_apart p0 W X (with_rx q c (keep ++ a :: l) t) q (c <| rx_addrs := keep ++ a :: l |>));
      [done|done|apply lookup_insert_eq| |done].
    unfold own_c. cbn. set_solver.
Qed.

Lemma good_conn_recv W X t0 t q count :
  q <> p0 -> good p0 W X t0 t -> lpost (conn_recv q count) t (fun _ t' => good p0 W X t0 t').
Proof.
  intros Hq H. unfold conn_recv. lp1.
  apply (lpost_mono _ _ (fun _ t' => good p0 W X t0 t')).
  - unfold eTran_tcp_rx_peek_count_zc. do 2 lp1. lp1; [by lp1|]. cbv zeta.
    eapply lpost_mono; [apply (peek_other _ _ _ q W X t0 c); [done|done|]|by intros ? ? [? _]].
    eapply good_other; [done..|]. by destruct c.
  - intros bs t1 H1; cbv beta in H1. lp1; [by lp1|]. unfold eTran_tcp_rx_release. do 3 lp1. lp1; [do 2 lp1; done|].
    repeat lp1.
    all: repeat match goal with
      | |- good _ _ _ _ (?x <| t_conns ::= _ |>) => eapply good_other; [|done|eassumption|done]
      | |- good _ _ _ _ (?x <| rx_bump_pending_conns ::= _ |>) => apply (good_same _ _ _ _ x); [|done..]
      end; exact H1.
Qed.
End Others.

(** ** The library between the rings and the application *)

Section Library.
Context (σ : Z -> Z) (R0 size p0 : Z) (i0 : nat).
Hypothesis Hsize : 0 < size <= 1073741824.
Hypothesis Hp0 : p0 <> 0 /\ p0 <> POISON_64.

Notation flow := (flow σ R0 size p0).
Notation rx_conn := (rx_conn σ R0 size).

(** A packet without payload for [p0]. *)
Definition skips (mem : gmap Z uframe) (a : Z) : Prop :=
  exists f m, mem !! fix_umem_offset a = Some f /\ uf_meta f = Rx_meta m /\ carries p0 m = false /\
    0 <= mrx_plen m.

Lemma skips_flow mem l P : Forall (skips mem) l -> flow mem l P P [].
Proof.
  induction 1 as [|a l (f & m & Ef & Em & Hc & Hl) _ IH]; [constructor|]. by eapply flow_skip.
Qed.

(** The payload for [p0] arrives in queue [i0], whose ring holds the positions
    from [E] to [R]. *)
Record rings (mem : gmap Z uframe) (rs : list (list Z)) (E R : Z) : Prop := {
  rg_ring : exists l e, rs !! i0 = Some l /\ flow mem l E R e;
  rg_idle : forall j l, j <> i0 -> rs !! j = Some l -> Forall (skips mem) l
}.

Lemma skips_ext mem mem' a :
  mem' !! fix_umem_offset a = mem !! fix_umem_offset a -> skips mem a -> skips mem' a.
Proof. intros E (f & m & H). exists f, m. by rewrite E. Qed.

Lemma rings_ext mem mem' rs E R :
  (forall a, a ∈ concat rs -> mem' !! fix_umem_offset a = mem !! fix_umem_offset a) ->
  rings mem rs E R -> rings mem' rs E R.
Proof.
  intros H [(l & e & El & Hf) Hi].
  assert (forall j l' a, rs !! j = Some l' -> a ∈ l' -> mem' !! fix_umem_offset a = mem !! fix_umem_offset a) as Hin.
  { intros j l' a Ej Ha. apply H, list_elem_of_In, in_concat. exists l'. rewrite <- !list_elem_of_In.
    split; [by eapply list_elem_of_lookup_2|done]. }
  split.
  - exists l, e. split; [done|]. eapply flow_ext; [|done]. intros a Ha. by apply (Hin i0 l).
  - intros j l' Hj Ej. specialize (Hi j l' Hj Ej). rewrite list.Forall_forall in Hi |- *. intros a Ha.
    eapply skips_ext; [|by apply Hi]. by apply (Hin j l').
Qed.

Lemma rings_le mem rs E R : rings mem rs E R -> E <= R.
Proof. intros [(l & e & _ & Hf) _]. by eapply flow_le. Qed.

(** Taking the first packets of a ring. *)
Lemma rings_take mem rs E R j l k :
  rings mem rs E R -> rs !! j = Some l ->
  exists E' e', flow mem (take k l) E E' e' /\ rings mem (<[j := drop k l]> rs) E' R.
Proof.
  intros [(l0 & e & El & Hf) Hi] Ej. destruct (decide (j = i0)) as [->|Hj].
  - assert (l0 = l) as -> by congruence. rewrite <- (take_drop k l) in Hf.
    apply flow_split in Hf as (Q & e1 & e2 & H1 & H2 & _). exists Q, e1. split; [done|]. split.
    + exists (drop k l), e2. split; [|done]. apply list_lookup_insert_eq. by eapply lookup_lt_Some.
    + intros j' l' Hj'. rewrite list_lookup_insert_ne by done. by apply Hi.
  - exists E, []. pose proof (Hi j l Hj Ej) as Hl. split; [by apply skips_flow, Forall_take|]. split.
    + exists l0, e. by rewrite list_lookup_insert_ne.
    + intros j' l' Hj'. destruct (decide (j' = j)) as [->|]; [|rewrite list_lookup_insert_ne by done; by apply Hi].
      rewrite list_lookup_insert_eq by (by eapply lookup_lt_Some). intros [= <-]. by apply Forall_drop.
Qed.

Lemma fetch_spec n qidx budget addrs X P E R e t :
  own (addrs ++ X) t -> flow (t_umem t) addrs P E e -> rings (t_umem t) (xi_rx <$> t_queues t) E R ->
  lpost (fetch_loop n qidx budget addrs) t (fun addrs' t' => exists E' e', own (addrs' ++ X) t' /\
    t_umem t' = t_umem t /\ t_conns t' = t_conns t /\ flow (t_umem t) addrs' P E' e' /\
    rings (t_umem t) (xi_rx <$> t_queues t') E' R).
Proof.
  revert qidx budget addrs E e t.
  induction n as [|n IH]; intros qidx budget addrs E e t Ho Hf Hr; cbn [fetch_loop]; [lp1; by exists E, e|].
  lp1; [lp1; by exists E, e|]. do 5 lp1; [lp1|]. do 2 lp1. set (k := Z.to_nat _) in *.
  assert (q0 = q) as -> by congruence. pose proof (rdz_lookup _ _ _ H) as El.
  destruct (rings_take _ _ _ _ (Z.to_nat qidx) (xi_rx q) k Hr) as (E' & e' & Hf' & Hr').
  { by rewrite list_lookup_fmap, El. }
  eapply lpost_mono; [apply (IH _ _ _ E' (e ++ e'))|].
  - apply (own_swap (take k (xi_rx q) ++ addrs ++ X)); [solve_Permutation|].
    apply (own_queue [] (take k (xi_rx q)) [] (addrs ++ X) t qidx q); [done..|]. unfold own_q. cbn.
    rewrite <- (take_drop k (xi_rx q)) at 1. solve_Permutation.
  - cbn. by eapply flow_app.
  - cbn. rewrite list_fmap_insert. done.
  - intros addrs' t' (E2 & e2 & H2). by exists E2, e2.
Qed.

(** The library holds the positions from [A] to [E] for the application, the
    rings those up to [R]; [b] released bytes are not reported yet, and [W] is
    in the hands of the kernel. *)
Record lib_inv (W : list Z) (A E R b : Z) (t : tctx) : Prop := {
  li_own : own W t;
  li_conn : exists c, t_conns t !! p0 = Some c /\ rx_conn (t_umem t) c A E /\ rxb_used c = E - A /\ rxb_bump c = b;
  li_rings : rings (t_umem t) (xi_rx <$> t_queues t) E R;
  li_window : R - A <= size
}.

Lemma lib_rx_held W A E R b t c :
  lib_inv W A E R b t -> t_conns t !! p0 = Some c -> forall mem',
  (forall a, a ∈ rx_held p0 t -> mem' !! fix_umem_offset a = t_umem t !! fix_umem_offset a) ->
  rx_conn mem' c A E /\ rings mem' (xi_rx <$> t_queues t) E R.
Proof.
  intros [_ (c' & Ec' & Hc & _) Hr _] Ec mem' Hm. assert (c' = c) as -> by congruence. unfold rx_held in Hm.
  rewrite Ec in Hm. cbn in Hm. split.
  - destruct Hc as [C1 C2 C3 C4 C5]. split; try done. eapply received_ext; [|done]. intros a Ha. apply Hm, elem_of_app. by left.
  - eapply rings_ext; [|done]. intros a Ha. apply Hm, elem_of_app. by right.
Qed.

(** Operations that leave the receive half of [p0] alone. *)
Lemma lib_quiet V W W' A E R b t t' :
  lib_inv W A E R b t -> own W' t' -> quiet p0 V t t' -> lib_inv W' A E R b t'.
Proof.
  intros H Ho [Q1 Q2 Q3]. pose proof H as [_ (c & Ec & Hc & Hu & Hb) Hr Hw]. rewrite Ec in Q1. cbn in Q1.
  destruct (t_conns t' !! p0) as [c'|] eqn:Ec'; [|done]. apply (inj Some) in Q1. unfold rxpart in Q1.
  injection Q1 as R1 R2 R3 R4 R5 R6.
  destruct (lib_rx_held _ _ _ _ _ _ _ H Ec (t_umem t')) as [Hc' Hr'].
  { intros a Ha. apply Q3. unfold rx_frames. apply elem_of_app. by right. }
  split; [done| |by rewrite Q2|done]. exists c'. split; [done|]. split; [|split; congruence].
  destruct Hc' as [C1 C2 C3 C4 C5]. split; congruence.
Qed.

Lemma lib_good W A E R b t t' : lib_inv W A E R b t -> good p0 W [] t t' -> lib_inv W A E R b t'.
Proof. intros H [Ho Hq]. by eapply lib_quiet. Qed.

(** The packets [e] of a batch reach the connection. *)
Lemma batch_inv W A E E' R b e t t' :
  lib_inv W A E R b t -> E <= E' -> chain σ R0 size (t_umem t) e E E' -> own W t' -> t_umem t' = t_umem t ->
  rings (t_umem t) (xi_rx <$> t_queues t') E' R -> advance p0 e (E' - E) 0 0 t t' -> lib_inv W A E' R b t'.
Proof.
  intros [_ (c & Ec & [C1 C2 C3 C4 C5] & Hu & Hb) _ Hw] Hle He Ho M Hr Ha.
  pose proof (received_le _ _ _ _ _ _ _ _ C3). pose proof (rings_le _ _ _ _ Hr).
  destruct (Ha c Ec C5 ltac:(lia) ltac:(lia) ltac:(lia) ltac:(lia)) as (c' & Ec' & O' & D1 & D2 & D3 & D4 & D5 & _ & _).
  split; [done| |by rewrite M|done]. exists c'. split; [done|]. split; [|split; [lia|congruence]].
  split; [congruence|congruence| |lia|done]. rewrite M, D1, D4. by eapply received_app.
Qed.

(** A poll moves packets from the rings to the connection; [K'] stays in the
    hands of the kernel. *)
Lemma poll_spec B K K' A E R b t budget :
  lib_inv (B ++ K) A E R b t -> K ≡ₚ completed t ++ K' ->
  lpost (tcp_nic_poll false budget) t (fun _ t' => exists E', lib_inv (B ++ K') A E' R b t' /\
    forall a, a ∈ B -> t_umem t' !! fix_umem_offset a = t_umem t !! fix_umem_offset a).
Proof.
  intros H HK. unfold tcp_nic_poll. do 3 lp1.
  apply (lpost_mono _ _ (fun _ t' => good p0 (B ++ K') [] t t')).
  { apply (good_poll_all p0 (B ++ K') _ 0 []); [done|]. rewrite app_nil_r. apply good_refl.
    eapply own_swap; [|apply H]. rewrite HK. unfold completed. rewrite drop_0. solve_Permutation. }
  intros x1 t1 [O1 Q1]. pose proof (lib_quiet _ _ _ _ _ _ _ _ _ H O1 Q1) as H1. clear H.
  lp1. eapply lpost_mono; [apply (fetch_spec _ _ _ [] (B ++ K') E E R []); [apply H1|constructor|apply H1]|].
  intros addrs t2 (E' & e & O2 & M2 & C2 & F2 & G2). do 3 lp1. set (t3 := t2 <| next_rcv_qidx := _ |>).
  eapply lpost_mono; [apply (handle_batch_spec σ R0 size p0 Hp0 addrs E E' e rx_cache_init (B ++ K') t3)|].
  { cbn. by rewrite M2. }
  { by eapply own_same. }
  intros h t4 (O4 & [M4 R4] & A4). change (t_umem t3) with (t_umem t2) in M4. rewrite M2 in M4. lp1.
  assert (lib_inv (B ++ K') A E' R b t4) as H4.
  { eapply (batch_inv _ _ E E' R b e t1); [done|eapply flow_le, F2|eapply flow_chain, F2|done|done|by rewrite R4|].
    assert (due p0 rx_cache_init = 0) as Hd by (unfold due; by destruct (cached_conn rx_cache_init =? p0)). rewrite Hd in A4.
    assert (match addrs with [] => 0 | _ => 0 end = 0) as Hm by (by destruct addrs). rewrite Hm in A4.
    unfold advance in A4 |- *. cbn in A4. by rewrite C2 in A4. }
  eapply lpost_mono; [apply (good_refill p0 (B ++ K') _ [] t4), good_refl, O4|]. intros x5 t5 [O5 Q5]. lp1.
  exists E'. split; [by eapply lib_quiet|]. intros a Ha.
  rewrite (qt_mem _ _ _ _ Q5), M4, (qt_mem _ _ _ _ Q1); [done|unfold rx_frames; set_solver..].
Qed.

(** A read by the application. *)
Lemma read_spec W A E R b t count :
  lib_inv W A E R b t -> 0 <= count -> 0 <= b -> b + (E - A) < 4294967296 -> let n := Z.min count (E - A) in
  ltot (conn_recv p0 count) t (fun bs t' => bs = bytes_of σ A n /\ lib_inv W (A + n) E R (b + n) t' /\
    forall a, a ∈ W -> t_umem t' !! fix_umem_offset a = t_umem t !! fix_umem_offset a).
Proof.
  intros H Hc Hb Hbb n. pose proof H as [Ho (c & Ec & Hrc & Hu & Eb) Hr Hw].
  pose proof (received_le _ _ _ _ _ _ _ _ (rc_addrs _ _ _ _ _ _ _ Hrc)) as HAE.
  eapply ltot_mono; [by apply (conn_recv_spec σ R0 size Hsize p0 c A E W t count)|]. fold n.
  intros bs t' (-> & c' & [F1 F2 F3 F4 F5] & Hrc' & Hu' & Eb'). split; [done|].
  assert (forall a, a ∈ W ++ concat (xi_rx <$> t_queues t) ->
    t_umem t' !! fix_umem_offset a = t_umem t !! fix_umem_offset a) as Hmem.
  { intros a Ha. apply F4. intros x Hx.
    destruct (held_split p0 t) as (Q & HQ & _). pose proof (ow_nodup _ _ Ho) as Hnd. rewrite HQ in Hnd.
    unfold rx_held in Hnd. rewrite Ec in Hnd. cbn in Hnd.
    assert (W ++ (rx_addrs c ++ concat (xi_rx <$> t_queues t)) ++ Q ≡ₚ rx_addrs c ++ (W ++ concat (xi_rx <$> t_queues t)) ++ Q)
      as Hp by solve_Permutation.
    rewrite Hp, fmap_app in Hnd. apply list.NoDup_app in Hnd as (_ & Hd & _). intros Ex.
    apply (Hd (fix_umem_offset x)); [by apply list_elem_of_fmap_2|]. rewrite Ex. apply list_elem_of_fmap_2.
    apply elem_of_app. by left. }
  split; [|intros a Ha; apply Hmem, elem_of_app; by left]. split; [done| | |lia].
  - exists c'. rewrite F2, lookup_insert_eq. split_and!; [done..|lia|]. rewrite Eb', Eb.
    destruct (Z.eqb_spec n 0) as [->|]; [lia|]. apply u32_small. unfold in32. lia.
  - rewrite F5. eapply rings_ext; [|done]. intros a Ha. apply Hmem, elem_of_app. by right.
Qed.

(** ** Window updates *)

(** A dummy packet that reports [n] released bytes. *)
Definition update (mem : gmap Z uframe) (a n : Z) : Prop :=
  exists f m, mem !! fix_umem_offset a = Some f /\ uf_meta f = Tx_meta m /\ mtx_rx_bump m = n.

(** [a] is the packet of the descriptor that [t'] has more than [t] in the
    transmit ring of connection [p]. *)
Definition submits (p a : Z) (t t' : tctx) : Prop :=
  exists c i q q' n, t_conns t !! p = Some c /\ rdz (t_qid2idx t) (lc_qid c) = Some i /\
    rdz (t_queues t) i = Some q /\ rdz (t_queues t') i = Some q' /\ xi_tx q' = xi_tx q ++ [mk_xdp_desc a n].

Lemma rdz_insert_eq {A} (l : list A) i x y : rdz l i = Some x -> rdz (<[Z.to_nat i := y]> l) i = Some y.
Proof.
  unfold rdz. destruct (0 <=? i); [|done]. intros E. apply list_lookup_insert_eq. by eapply lookup_lt_Some.
Qed.

(** [tcp_ebpf_sync] is a sequence of rounds, one per packet. *)
Lemma ebpf_sync_rounds n t :
  tcp_ebpf_sync (S n) t = (tcp_ebpf_sync 1 ;; tcp_ebpf_sync n) t.
Proof.
  unfold tcp_ebpf_sync, lbind, lget. destruct (rx_bump_pending_conns t) as [|p l] eqn:El.
  - cbn. rewrite El. by destruct n.
  - cbn [ebpf_sync_loop]. cbv beta zeta. unfold lbind.
    do 7 (match goal with |- match ?x with Some _ => _ | None => None end = _ => destruct x as [[? ?]|]; [|reflexivity] end).
    by destruct l.
Qed.

(** One round of [tcp_ebpf_sync]: the released bytes of [p] go into a packet. *)
Lemma sync_spec W A E R b t p l :
  lib_inv W A E R b t -> rx_bump_pending_conns t = p :: l ->
  lpost (tcp_ebpf_sync 1) t (fun _ t' => forall a, submits p a t t' ->
    lib_inv (a :: W) A E R (if p =? p0 then 0 else b) t' /\ (p = p0 -> update (t_umem t') a b) /\
    forall x, x ∈ W -> t_umem t' !! fix_umem_offset x = t_umem t !! fix_umem_offset x).
Proof.
  intros H El. unfold tcp_ebpf_sync. do 2 lp1. rewrite El. cbn [ebpf_sync_loop].
  assert (match l with [] => lret tt | _ => lret tt end = lret tt) as -> by (by destruct l).
  do 5 lp1. eapply lpost_mono; [apply (good_take p0 W [] t), good_refl, H|]. intros fr t1 ([O1 Q1] & [sp ->] & Hfr). cbv beta zeta.
  set (a := add_offset_tx_frame fr). set (t1 := t <| t_pool := sp |>) in *.
  assert (good p0 W [a] t t1) as G1 by (apply (good_readdr p0 W fr a); [unfold a; by rewrite tx_addr|by split]).
  do 4 lp1. set (g := tx_headers c f <| uf_meta := _ |>).
  assert (good p0 W [a] t (t1 <| t_umem ::= <[fix_umem_offset a := g]> |>)) as G2 by (apply good_mem; [done|by left]).
  unfold tx_submit. do 2 lp1. set (q' := q <| xi_tx ::= _ |> <| outstanding := _ |>).
  eassert (good p0 W [a] t _) as G3 by (eapply (good_queue p0 W [a] t _ i q q'); [exact G2|done..]).
  do 4 lp1. cbn in H4. assert (c0 = c) as -> by congruence. lp1.
  set (c' := c <| rxb_bump := 0 |> <| in_rx_bump_pending := false |>).
  intros a' (c1 & i' & q1 & q2 & n & Ec1 & Ei & Eq1 & Eq2 & Etx).
  assert (c1 = c) as -> by congruence. assert (i' = i) as -> by congruence. cbn in H3.
  assert (q1 = q) as -> by congruence. cbn in Eq2. rewrite (rdz_insert_eq _ _ q) in Eq2 by done. injection Eq2 as <-.
  cbn in Etx. apply app_inv_head in Etx. injection Etx as <- _.
  destruct G3 as [O3 Q3]. 
  set (t3 := t1 <| t_umem ::= _ |> <| t_queues ::= _ |>) in *. split_and!.
  - pose proof (lib_quiet _ _ _ _ _ _ _ _ _ H O3 Q3) as H5. cbn [app] in H5.
    assert (own (a :: W) (t3 <| t_conns ::= <[p := c']> |> <| rx_bump_pending_conns := l |>)) as O4
      by (eapply own_same; [apply (own_conn_same (a :: W) t3 p c c'); [apply H5|done..]|done..]).
    destruct H5 as [_ (c4 & Ec4 & Hc4 & Hu4 & Hb4) Hr4 Hw4]. split; [exact O4| |exact Hr4|exact Hw4].
    cbn. destruct (Z.eqb_spec p p0) as [->|Hp].
    + exists c'. rewrite lookup_insert_eq. assert (c4 = c) as -> by (cbn in Ec4; congruence).
      split; [done|]. split; [by destruct Hc4|done].
    + exists c4. rewrite lookup_insert_ne by done. done.
  - intros ->. destruct H as [_ (c4 & Ec4 & _ & _ & Hb4) _ _]. assert (c4 = c) as -> by congruence.
    exists g, (txmeta_clear <| mtx_flag := FLAG_SYNC |> <| mtx_rx_bump := rxb_bump c |>). cbn.
    rewrite lookup_insert_eq. done.
  - intros x Hx. apply (qt_mem _ _ _ _ Q3). unfold rx_frames. apply elem_of_app. by left.
Qed.

(** ** Packets from the kernel *)

(** A packet [f] is put into the frame of [a] and into the ring of queue [j]. *)
Definition arrive (j a : Z) (f : uframe) (t : tctx) (q' : xsk_socket_info) : tctx :=
  t <| t_umem ::= <[fix_umem_offset a := f]> |> <| t_queues ::= <[Z.to_nat j := q']> |>.

(** The frame comes from the fill ring of the queue, *)
Definition delivers (j a : Z) (f : uframe) (t t' : tctx) : Prop :=
  exists q l1 a0 l2, rdz (t_queues t) j = Some q /\ xi_fq q = l1 ++ a0 :: l2 /\
    fix_umem_offset a0 = fix_umem_offset a /\
    t' = arrive j a f t (q <| xi_rx ::= fun l => l ++ [a] |> <| xi_fq := l1 ++ l2 |>).

(** or is one of the kernel's. *)
Definition injects (j a : Z) (f : uframe) (t t' : tctx) : Prop :=
  exists q, rdz (t_queues t) j = Some q /\ t' = arrive j a f t (q <| xi_rx ::= fun l => l ++ [a] |>).

(** The packet [f] extends the stream by [n] bytes. *)
Definition extends (j a : Z) (f : uframe) (R n : Z) : Prop :=
  exists m, uf_meta f = Rx_meta m /\
  (n = 0 /\ carries p0 m = false /\ 0 <= mrx_plen m \/
   Z.to_nat j = i0 /\ carries p0 m = true /\ mrx_ooo_bump m = POISON_32 /\ mrx_plen m = n /\
   pkt σ {[ fix_umem_offset a := f ]} a R (offset R0 size R) n).

Lemma rings_arrive mem rs E R j a f n l :
  rings mem rs E R -> rs !! Z.to_nat j = Some l -> extends j a f R n ->
  (forall b, b ∈ concat rs -> fix_umem_offset a <> fix_umem_offset b) ->
  rings (<[fix_umem_offset a := f]> mem) (<[Z.to_nat j := l ++ [a]]> rs) E (R + n).
Proof.
  intros H El (m & Em & Hx) Hfresh. set (mem' := <[_ := f]> mem).
  assert (mem' !! fix_umem_offset a = Some f) as Ef by apply lookup_insert_eq.
  apply (rings_ext _ mem') in H; [|intros b Hb; apply lookup_insert_ne; by apply Hfresh].
  destruct H as [(l0 & e & El0 & Hf) Hi]. destruct Hx as [(-> & Hc & Hp)|(Ej & Hc & Ho & Hn & Hp)].
  - rewrite Z.add_0_r. assert (skips mem' a) as Hs by (by exists f, m).
    destruct (decide (Z.to_nat j = i0)) as [Ej|Hj]; [rewrite Ej in *|]; split.
    + exists (l ++ [a]), (e ++ []). rewrite list_lookup_insert_eq by (by eapply lookup_lt_Some).
      assert (l0 = l) as -> by congruence. split; [done|]. eapply flow_app; [done|]. by apply skips_flow, Forall_singleton.
    + intros j' l' Hj'. rewrite list_lookup_insert_ne by done. by apply Hi.
    + exists l0, e. by rewrite list_lookup_insert_ne.
    + intros j' l' Hj'. destruct (decide (j' = Z.to_nat j)) as [->|]; [|rewrite list_lookup_insert_ne by done; by apply Hi].
      rewrite list_lookup_insert_eq by (by eapply lookup_lt_Some). intros [= <-]. apply Forall_app. split; [by eapply Hi|by apply Forall_singleton].
  - rewrite Ej in *. split.
    + exists (l ++ [a]), (e ++ [a]). rewrite list_lookup_insert_eq by (by eapply lookup_lt_Some).
      assert (l0 = l) as -> by congruence. split; [done|]. eapply flow_app; [done|].
      eapply flow_data; [done..| |constructor]. eapply pkt_ext; [|exact Hp]. by rewrite Ef, lookup_singleton_eq.
    + intros j' l' Hj'. rewrite list_lookup_insert_ne by done. by apply Hi.
Qed.

(** A frame in the hand receives the packet. *)
Lemma arrive_spec W A E R b n t j a f q q' :
  lib_inv W A E R b t -> rdz (t_queues t) j = Some q -> xi_rx q' = xi_rx q ++ [a] ->
  own W (arrive j a f t q') -> extends j a f R n -> 0 <= n -> R + n - A <= size ->
  (forall b, b ∈ rx_frames p0 W t -> fix_umem_offset a <> fix_umem_offset b) ->
  lib_inv W A E (R + n) b (arrive j a f t q') /\
  forall x, x ∈ W -> t_umem (arrive j a f t q') !! fix_umem_offset x = t_umem t !! fix_umem_offset x.
Proof.
  intros H Eq Erx Ho Hx Hn Hwin Hfresh. pose proof H as [_ (c & Ec & Hc & Hu & Hb) Hr Hw].
  assert (forall x, x ∈ rx_frames p0 W t ->
    t_umem (arrive j a f t q') !! fix_umem_offset x = t_umem t !! fix_umem_offset x) as Hm
    by (intros x Hxx; cbn; apply lookup_insert_ne; by apply Hfresh).
  split; [|intros x Hxx; apply Hm; unfold rx_frames; apply elem_of_app; by left].
  destruct (lib_rx_held _ _ _ _ _ _ _ H Ec (t_umem (arrive j a f t q'))) as [Hc' _].
  { intros x Hxx. apply Hm. unfold rx_frames. apply elem_of_app. by right. }
  split; [done| | |done].
  - exists c. done.
  - cbn. rewrite list_fmap_insert, Erx. apply rings_arrive; [done| |done|].
    + by rewrite list_lookup_fmap, (rdz_lookup _ _ _ Eq).
    + intros x Hxx. apply Hfresh. unfold rx_frames, rx_held. set_solver.
Qed.

Lemma lib_swap W W' A E R b t : lib_inv W A E R b t -> own W' t -> lib_inv W' A E R b t.
Proof. intros [_ H2 H3 H4] H1. by split. Qed.

Lemma hand_arrive W A E R b n t j a f q :
  lib_inv (a :: W) A E R b t -> rdz (t_queues t) j = Some q ->
  extends j a f R n -> 0 <= n -> R + n - A <= size ->
  let t' := arrive j a f t (q <| xi_rx ::= fun l => l ++ [a] |>) in
  lib_inv W A E (R + n) b t' /\ forall x, x ∈ W -> t_umem t' !! fix_umem_offset x = t_umem t !! fix_umem_offset x.
Proof.
  intros H Eq Hx Hn Hwin. cbv zeta. pose proof (li_own _ _ _ _ _ _ H) as Ho.
  assert (forall b, b ∈ rx_frames p0 W t -> fix_umem_offset a <> fix_umem_offset b) as Hfresh
    by (intros x Hxx; eapply (hand_apart p0 W [a]); [exact Ho|by left|done]).
  assert (own W (t <| t_umem ::= <[fix_umem_offset a := f]> |>)) as Ho' by (eapply own_same; [by eapply own_lose|done..]).
  apply (arrive_spec W A E R b n t j a f q); try done.
  - eapply lib_swap; [done|]. by eapply own_lose.
  - unfold arrive. apply (own_queue [a] [] [] W _ j q); [by eapply own_same|done|]. unfold own_q. cbn. solve_Permutation.
Qed.

Lemma delivers_spec W A E R b n t j a f t' :
  lib_inv W A E R b t -> delivers j a f t t' -> extends j a f R n -> 0 <= n -> R + n - A <= size ->
  lib_inv W A E (R + n) b t' /\ forall x, x ∈ W -> t_umem t' !! fix_umem_offset x = t_umem t !! fix_umem_offset x.
Proof.
  intros H (q & l1 & a0 & l2 & Eq & Efq & Ea & ->) Hx Hn Hwin.
  set (q1 := q <| xi_fq := l1 ++ l2 |>). set (t1 := t <| t_queues ::= <[Z.to_nat j := q1]> |>).
  assert (own (a :: W) t1) as Ho.
  { eapply own_readdr; [by symmetry in Ea|]. apply (own_queue [] [a0] [] W t j q q1); [apply H|done|].
    unfold own_q. cbn. rewrite Efq. solve_Permutation. }
  assert (lib_inv (a :: W) A E R b t1) as H1 by (eapply lib_quiet; [exact H|done|by eapply (quiet_queue p0 [])]).
  assert (rdz (t_queues t1) j = Some q1) as Eq1 by (cbn; by eapply rdz_insert_eq).
  destruct (hand_arrive W A E R b n t1 j a f q1 H1 Eq1 Hx Hn Hwin) as [H2 Hm].
  assert (arrive j a f t1 (q1 <| xi_rx ::= fun l => l ++ [a] |>) =
    arrive j a f t (q <| xi_rx ::= fun l => l ++ [a] |> <| xi_fq := l1 ++ l2 |>)) as <-; [|done].
  unfold arrive, t1, upd_field, setter_of. cbn.
  by rewrite list_insert_insert_eq.
Qed.

Lemma injects_spec W A E R b t j a a0 f t' :
  lib_inv (a0 :: W) A E R b t -> fix_umem_offset a0 = fix_umem_offset a -> injects j a f t t' -> extends j a f R 0 ->
  lib_inv W A E R b t' /\ forall x, x ∈ W -> t_umem t' !! fix_umem_offset x = t_umem t !! fix_umem_offset x.
Proof.
  intros H Ea (q & Eq & ->) Hx.
  assert (lib_inv (a :: W) A E R b t) as H1.
  { eapply lib_swap; [exact H|]. eapply own_readdr; [by symmetry in Ea|apply H]. }
  pose proof (li_window _ _ _ _ _ _ H). 
  destruct (hand_arrive W A E R b 0 t j a f q H1 Eq Hx ltac:(lia) ltac:(lia)) as [H2 Hm]. by rewrite Z.add_0_r in H2.
Qed.

(** ** Other connections come and go *)

Lemma open_spec W A E R b t q c :
  lib_inv W A E R b t -> q <> p0 -> t_conns t !! q = None -> own_c c = [] ->
  lib_inv W A E R b (t <| t_conns ::= <[q := c]> |>).
Proof.
  intros H Hq Eq Ec. apply (lib_quiet [] W W _ _ _ _ t); [done| |].
  - eapply (own_perm W W []); [apply H|done..|]. unfold held. cbn.
    rewrite own_conns_insert, Ec, delete_id by done. solve_Permutation.
  - split; [|done..]. cbn. by rewrite lookup_insert_ne.
Qed.

Lemma close_spec W A E R b t q :
  lib_inv W A E R b t -> q <> p0 -> lib_inv W A E R b (t <| t_conns ::= delete q |>).
Proof.
  intros H Hq. apply (lib_quiet [] W W _ _ _ _ t); [done| |].
  - destruct (t_conns t !! q) as [c|] eqn:Eq.
    + eapply (own_perm W W (own_c c)); [apply H|done..|]. unfold held. cbn. rewrite (own_conns_split _ _ _ Eq). solve_Permutation.
    + eapply own_same; [apply H|done..| |done]. cbn. by rewrite delete_id.
  - split; [|done..]. cbn. by rewrite lookup_delete_ne.
Qed.
End Library.

(** ** The system *)

(** The library thread, the entry of the connection in the eBPF map, the
    position of the next byte expected from the peer, the window updates that
    eBPF has not seen yet, the other buffers in the hands of the kernel, and
    what the application has read. *)
Record sys := mk_sys {
  s_lib : tctx;
  s_conn : bpf_tcp_conn;
  s_next : Z;
  s_updates : list Z;
  s_kernel : list Z;
  s_read : list Z
}.

#[export] Instance eta_sys : Eta sys := fun r =>
  mk_sys (s_lib r) (s_conn r) (s_next r) (s_updates r) (s_kernel r) (s_read r).

Section System.
Context (σ : Z -> Z) (R0 size p0 : Z) (i0 : nat) (qid : Z).
Hypothesis Hsize : 0 < size <= 1073741824.
Hypothesis Hp0 : p0 <> 0 /\ p0 <> POISON_64.

Local Open Scope u32_scope.

Inductive step : sys -> sys -> Prop :=
(** A segment of the peer that leaves no gap, through [tcp_rx_process]. *)
| step_packet s P cpu ktime rxc h o cc pkt_len ece pc a c' cc' m' pc' t' :
    near (s_next s) P -> P <= s_next s -> bpf_ntohl (th_seq h) = u32 P -> HEADERS_LEN <= pkt_len <= 65535 ->
    etran_rx_process cpu ktime rxc h o (s_conn s) cc pkt_len (meta_init qid p0) ece pc = (a, c', cc', m', pc') ->
    (a = XDP_REDIRECT -> exists addr f, uf_meta f = Rx_meta m' /\
       take (Z.to_nat (pkt_len - HEADERS_LEN)) (uf_data f) = bytes_of σ P (pkt_len - HEADERS_LEN) /\
       delivers (Z.of_nat i0) addr f (s_lib s) t') ->
    (a <> XDP_REDIRECT -> t' = s_lib s) ->
    step s (s <| s_lib := t' |> <| s_conn := c' |>
              <| s_next := s_next s + (rx_next_seq c' ⊖ rx_next_seq (s_conn s)) |>)
(** Any other packet, which has no payload for the connection. *)
| step_other s j addr f m t' :
    delivers j addr f (s_lib s) t' -> uf_meta f = Rx_meta m -> carries p0 m = false -> 0 <= mrx_plen m ->
    step s (s <| s_lib := t' |>)
(** A signal of the control plane, in a buffer of its own. *)
| step_signal s j addr a0 f m t' K :
    s_kernel s ≡ₚ a0 :: K -> fix_umem_offset a0 = fix_umem_offset addr -> injects j addr f (s_lib s) t' ->
    uf_meta f = Rx_meta m -> carries p0 m = false -> 0 <= mrx_plen m ->
    step s (s <| s_lib := t' |> <| s_kernel := K |>)
(** A packet of the connection that is no window update, through
    [tcp_tx_process]. *)
| step_submit s tw e t f cc m x :
    mtx_rx_bump t = 0 ->
    step s (s <| s_conn := to_conn (etran_tx_process tw e t f (s_conn s) cc m x) |>)
(** A window update reaches [tcp_tx_process]. *)
| step_update s a f tm B B' tw e g cc m x :
    s_updates s = B ++ a :: B' -> t_umem (s_lib s) !! fix_umem_offset a = Some f -> uf_meta f = Tx_meta tm ->
    step s (s <| s_conn := to_conn (etran_tx_process tw e tm g (s_conn s) cc m x) |>
              <| s_updates := B ++ B' |> <| s_kernel ::= fun K => a :: K |>)
(** The operations of the library.  A poll returns completed buffers to the
    pool; they were in the hands of the kernel. *)
| step_poll s budget ev t' K :
    tcp_nic_poll false budget (s_lib s) = Some (ev, t') -> s_kernel s ≡ₚ completed (s_lib s) ++ K ->
    step s (s <| s_lib := t' |> <| s_kernel := K |>)
| step_read s count bs t' :
    0 <= count -> conn_recv p0 count (s_lib s) = Some (bs, t') ->
    step s (s <| s_lib := t' |> <| s_read ::= fun l => l ++ bs |>)
| step_sync s p l a t' :
    rx_bump_pending_conns (s_lib s) = p :: l -> tcp_ebpf_sync 1 (s_lib s) = Some (tt, t') ->
    submits p a (s_lib s) t' ->
    step s (if p =? p0 then s <| s_lib := t' |> <| s_updates ::= fun B => a :: B |>
            else s <| s_lib := t' |> <| s_kernel ::= fun K => a :: K |>)
| step_read_other s q count bs t' :
    q <> p0 -> conn_recv q count (s_lib s) = Some (bs, t') -> step s (s <| s_lib := t' |>)
| step_send s q buf count r t' : conn_send q buf count (s_lib s) = Some (r, t') -> step s (s <| s_lib := t' |>)
| step_retransmit s t' : tcp_retransmission (s_lib s) = Some (tt, t') -> step s (s <| s_lib := t' |>)
| step_free s t' : tcp_free_buffers (s_lib s) = Some (tt, t') -> step s (s <| s_lib := t' |>)
(** Other connections are opened and closed. *)
| step_open s q c :
    q <> p0 -> t_conns (s_lib s) !! q = None -> own_c c = [] ->
    step s (s <| s_lib ::= fun t => t <| t_conns ::= <[q := c]> |> |>)
| step_close s q : q <> p0 -> step s (s <| s_lib ::= fun t => t <| t_conns ::= delete q |> |>).

(** The connection has just been opened. *)
Record start (s : sys) : Prop := {
  sa_own : own (s_kernel s) (s_lib s);
  sa_conn : exists c, t_conns (s_lib s) !! p0 = Some c /\
    (rxb_head c, rxb_used c, rxb_bump c, rx_addrs c, ooo_rx_addrs c, lc_rx_buf_size c) = (0, 0, 0, [], [], size);
  sa_rings : forall j l, (xi_rx <$> t_queues (s_lib s)) !! j = Some l -> Forall (skips p0 (t_umem (s_lib s))) l;
  sa_queue : (i0 < length (t_queues (s_lib s)))%nat;
  sa_ebpf : rx_next_seq (s_conn s) = u32 R0 /\ rx_next_pos (s_conn s) = 0 /\ rx_ooo_len (s_conn s) = 0 /\
    rx_buf_size (s_conn s) = size /\ 0 <= rx_avail (s_conn s) <= size;
  sa_none : (s_next s, s_updates s, s_read s) = (R0, [], [])
}.

Notation lib_inv := (lib_inv σ R0 size p0 i0).

(** The application has read up to [A] and may read up to [E]; eBPF knows of
    [U], [b] bytes are not reported yet, and the updates report [ns]. *)
Record inv (A E U b : Z) (ns : list Z) (s : sys) : Prop := {
  iv_lib : lib_inv (s_updates s ++ s_kernel s) A E (s_next s) b (s_lib s);
  iv_conn : rx_base R0 (s_next s) U handed (s_conn s);
  iv_ooo : rx_ooo_len (s_conn s) = 0;
  iv_size : rx_buf_size (s_conn s) = size;
  iv_updates : Forall2 (update (t_umem (s_lib s))) (s_updates s) ns;
  iv_nonneg : Forall (fun n => 0 <= n) (b :: ns);
  iv_sum : A = U + foldr Z.add 0 ns + b;
  iv_read : s_read s = bytes_of σ R0 (A - R0)
}.

Definition invariant (s : sys) : Prop := exists A E U b ns, inv A E U b ns s.

Lemma start_inv s : start s -> invariant s.
Proof.
  intros [H1 (c & Ec & Hc) H3 H4 (E1 & E2 & E3 & E4 & E5) Hn]. injection Hc as C1 C2 C3 C4 C5 C6. injection Hn as N1 N2 N3.
  exists R0, R0, R0, 0, []. split; rewrite ?N1, ?N2, ?N3; try done; try lia.
  - split; [done| | |lia].
    + exists c. split; [done|]. rewrite C2, C3. split; [|split; lia]. split; try done; [|by rewrite C4; constructor|lia].
      rewrite C1. split; [lia|]. unfold offset. rewrite Z.sub_diag. done.
    + split.
      * destruct (lookup_lt_is_Some_2 (xi_rx <$> t_queues (s_lib s)) i0) as [l El]; [by rewrite length_fmap|].
        exists l, []. split; [done|]. apply skips_flow. by eapply H3.
      * intros j l _ El. by eapply H3.
  - split; rewrite ?E1, ?E2, ?E4, ?Z.sub_diag; try done; try lia.
  - by constructor.
  - cbn. lia.
  - unfold bytes_of. by rewrite Z.sub_diag.
Qed.

Lemma updates_ext mem mem' B ns :
  (forall a, a ∈ B -> mem' !! fix_umem_offset a = mem !! fix_umem_offset a) ->
  Forall2 (update mem) B ns -> Forall2 (update mem') B ns.
Proof.
  intros H HF. revert H. induction HF as [|a n B ns (f & m & Ef & Em & En) _ IH]; intros H; constructor.
  - exists f, m. rewrite H by (by left). done.
  - apply IH. intros b Hb. apply H. by right.
Qed.

(** A step of the library that reads nothing. *)
Lemma inv_lib A E E' U b ns s t' K :
  inv A E U b ns s -> lib_inv (s_updates s ++ K) A E' (s_next s) b t' ->
  (forall a, a ∈ s_updates s -> t_umem t' !! fix_umem_offset a = t_umem (s_lib s) !! fix_umem_offset a) ->
  invariant (s <| s_lib := t' |> <| s_kernel := K |>).
Proof.
  intros [I1 I2 I3 I4 I5 I6 I7 I8] Hl Hm. exists A, E', U, b, ns. split; try done. by eapply updates_ext.
Qed.

Lemma inv_same A E U b ns s t' :
  inv A E U b ns s -> lib_inv (s_updates s ++ s_kernel s) A E (s_next s) b t' ->
  (forall a, a ∈ s_updates s -> t_umem t' !! fix_umem_offset a = t_umem (s_lib s) !! fix_umem_offset a) ->
  invariant (s <| s_lib := t' |>).
Proof. intros H Hl Hm. exact (inv_lib A E E U b ns s t' (s_kernel s) H Hl Hm). Qed.

Lemma inv_good A E U b ns s t' :
  inv A E U b ns s -> good p0 (s_updates s ++ s_kernel s) [] (s_lib s) t' -> invariant (s <| s_lib := t' |>).
Proof.
  intros H Hg. eapply inv_same; [exact H|eapply lib_good; [apply H|done]|]. intros a Ha.
  apply (qt_mem _ _ _ _ (proj2 Hg)). unfold rx_frames. set_solver.
Qed.

Lemma foldr_shift x ns : foldr Z.add x ns = foldr Z.add 0 ns + x.
Proof. induction ns; cbn; lia. Qed.

Lemma foldr_nonneg ns : Forall (fun n => 0 <= n) ns -> 0 <= foldr Z.add 0 ns.
Proof. induction 1; cbn; lia. Qed.

Hypothesis Hqid : 0 <= qid < 65536.

(** A delivered segment is a packet of the stream. *)
Lemma verdict_extends R P L n a m addr f :
  verdict R0 R P L size qid p0 n a m -> a = XDP_REDIRECT -> P <= R -> 0 <= L <= 65469 -> uf_meta f = Rx_meta m ->
  take (Z.to_nat L) (uf_data f) = bytes_of σ P L -> extends σ R0 size p0 i0 (Z.of_nat i0) addr f R n.
Proof.
  intros [Ht Hd] Ha HP HL Em Hdata. destruct (Ht Ha) as (Hc & Ho & Hq). exists m. split; [done|].
  assert ((mrx_qid m =? POISON_32) = false) as Hq'.
  { apply Z.eqb_neq. unfold POISON_32. apply elem_of_cons in Hq as [->|Hq]; [lia|].
    apply list_elem_of_singleton in Hq as ->. intros E. apply (f_equal (fun x => Z.testbit x 30)) in E.
    rewrite Z.lor_spec in E. change (Z.testbit FORCE_RX_BUMP_MASK 30) with false in E.
    change (Z.testbit 4294967295 30) with true in E. rewrite orb_false_r in E.
    assert (qid = qid mod 2 ^ 16) as Eq by (symmetry; apply Z.mod_small; lia). rewrite Eq in E.
    by rewrite Z.mod_pow2_bits_high in E by lia. }
  unfold carries. rewrite Hc, Z.eqb_refl, Hq'. destruct Hd as [[-> Hp]|(Hn & _ & Hp & Hoff & Hle & Hpos)].
  - left. rewrite (Hp Ha). done.
  - right. rewrite Hp, Nat2Z.id. unfold POISON_16 in *. destruct (Z.eqb_spec n 65535) as [?|_]; [lia|]. split_and!; try done.
    split; [lia|]. exists f, m. rewrite lookup_singleton_eq. unfold HEADERS_LEN in *. split_and!; try done; try lia.
    rewrite Hoff.
    assert (payload_at f 66 L = Some (bytes_of σ P L)) as Hpay.
    { unfold payload_at, HEADERS_LEN. rewrite Z.sub_diag, drop_0, Hdata, Z.leb_refl. cbn [andb].
      assert (L <= Z.of_nat (length (uf_data f))) as Hlen.
      { apply (f_equal length) in Hdata. rewrite length_take in Hdata. 
        pose proof (bytes_length σ P L ltac:(lia)). lia. }
      by rewrite (proj2 (Z.leb_le (0 + L) _)) by lia. }
    eassert (payload_at f (66 + (R - P)) (L - (R - P)) = Some _) as Hd by (eapply payload_drop; [done|exact Hpay|lia]).
    rewrite drop_bytes in Hd by lia.
    eassert (payload_at f (66 + (R - P)) n = Some _) as Hd' by (eapply payload_take; [exact Hd|lia]). clear Hd.
    rewrite take_bytes in Hd' by lia.
    by replace (P + (R - P)) with R in Hd' by lia.
Qed.

Lemma inv_packet A E U b ns s P cpu ktime rxc h o cc pkt_len ece pc a c' cc' m' pc' t' :
  inv A E U b ns s ->
  near (s_next s) P -> P <= s_next s -> bpf_ntohl (th_seq h) = u32 P -> HEADERS_LEN <= pkt_len <= 65535 ->
  etran_rx_process cpu ktime rxc h o (s_conn s) cc pkt_len (meta_init qid p0) ece pc = (a, c', cc', m', pc') ->
  (a = XDP_REDIRECT -> exists addr f, uf_meta f = Rx_meta m' /\
     take (Z.to_nat (pkt_len - HEADERS_LEN)) (uf_data f) = bytes_of σ P (pkt_len - HEADERS_LEN) /\
     delivers (Z.of_nat i0) addr f (s_lib s) t') ->
  (a <> XDP_REDIRECT -> t' = s_lib s) ->
  invariant (s <| s_lib := t' |> <| s_conn := c' |>
              <| s_next := s_next s + (rx_next_seq c' ⊖ rx_next_seq (s_conn s)) |>).
Proof.
  intros [I1 I2 I3 I4 I5 I6 I7 I8] Hn HP Hseq Hlen Ex Hyes Hno.
  pose proof (etran_rx_in_order R0 (s_next s) U P qid p0 cpu ktime rxc h o (s_conn s) cc pkt_len ece pc
    Hn HP I2 I3 Hseq Hlen) as Hx. rewrite Ex in Hx. destruct Hx as (X1 & X2 & n & X3 & X4 & X5).
  rewrite I4 in X2, X5. pose proof I2 as [J1 J2 J3 J4 J5 J6 _]. pose proof X4 as [L1 L2 L3 L4 L5 L6 _].
  assert (u32 (rx_next_seq c' - rx_next_seq (s_conn s)) = n) as En.
  { rewrite L1, J1. u32_norm. replace (s_next s + n - s_next s) with n by lia. apply u32_small.
    destruct X5 as [_ [[-> _]|(Hn16 & _)]]; [mach_lia|]. unfold POISON_16 in Hn16. mach_lia. }
  pose proof (foldr_nonneg _ I6) as Hsum. cbn in Hsum.
  assert (lib_inv (s_updates s ++ s_kernel s) A E (s_next s + n) b t' /\
    forall x, x ∈ s_updates s ++ s_kernel s -> t_umem t' !! fix_umem_offset x = t_umem (s_lib s) !! fix_umem_offset x)
    as [Hl Hm].
  { destruct (decide (a = XDP_REDIRECT)) as [Ha|Ha].
    - destruct (Hyes Ha) as (addr & f & Em & Hdata & Hdel). unfold HEADERS_LEN in *.
      eapply delivers_spec; [done..| |done|lia]. eapply verdict_extends; [exact X5|done|done|lia|done|done].
    - rewrite (Hno Ha). destruct X5 as [_ [[-> _]|(_ & ? & _)]]; [|done]. by rewrite Z.add_0_r. }
  exists A, E, U, b, ns.
  split; cbn; rewrite ?En; try done. eapply updates_ext; [|done]. intros x Hxx. apply Hm. set_solver.
Qed.

(** Packets that carry no payload for the connection. *)
Lemma extends_none j addr f m R :
  uf_meta f = Rx_meta m -> carries p0 m = false -> 0 <= mrx_plen m -> extends σ R0 size p0 i0 j addr f R 0.
Proof. intros Em Hc Hl. exists m. split; [done|]. by left. Qed.

Lemma inv_window A E U b ns s : inv A E U b ns s ->
  R0 <= U <= A /\ A <= E <= s_next s /\ s_next s - A <= size /\ 0 <= b /\ b + (E - A) <= size /\
  s_next s + rx_avail (s_conn s) <= A + size.
Proof.
  intros [[_ (c & _ & Hc & _) Hr Hw] [J1 J2 J3 J4 J5 J6 _] I3 I4 I5 I6 I7 I8].
  pose proof (received_le _ _ _ _ _ _ _ _ (rc_addrs _ _ _ _ _ _ _ Hc)). pose proof (rings_le _ _ _ _ _ _ _ _ _ Hr).
  apply list.Forall_cons in I6 as [Hb Hns]. pose proof (foldr_nonneg ns Hns). rewrite I4 in J5. lia.
Qed.

Lemma inv_other A E U b ns s j addr f m t' :
  inv A E U b ns s -> delivers j addr f (s_lib s) t' -> uf_meta f = Rx_meta m -> carries p0 m = false ->
  0 <= mrx_plen m -> invariant (s <| s_lib := t' |>).
Proof.
  intros H Hd Em Hc Hl. pose proof (inv_window _ _ _ _ _ _ H) as (_ & _ & Hw & _).
  destruct (delivers_spec σ R0 size p0 i0 Hsize Hp0 _ A E (s_next s) b 0 (s_lib s) j addr f t' (iv_lib _ _ _ _ _ _ H) Hd) as [Hi Hm];
    [by eapply extends_none|lia|lia|]. rewrite Z.add_0_r in Hi.
  eapply inv_same; [done..|]. intros a Ha. apply Hm. set_solver.
Qed.

Lemma inv_signal A E U b ns s j addr a0 f m t' K :
  inv A E U b ns s -> s_kernel s ≡ₚ a0 :: K -> fix_umem_offset a0 = fix_umem_offset addr ->
  injects j addr f (s_lib s) t' -> uf_meta f = Rx_meta m -> carries p0 m = false -> 0 <= mrx_plen m ->
  invariant (s <| s_lib := t' |> <| s_kernel := K |>).
Proof.
  intros H HK Ea Hd Em Hc Hl. pose proof (iv_lib _ _ _ _ _ _ H) as Hlib.
  assert (lib_inv (a0 :: s_updates s ++ K) A E (s_next s) b (s_lib s)) as Hlib'.
  { eapply lib_swap; [done|]. eapply own_swap; [|apply Hlib]. rewrite HK. solve_Permutation. }
  destruct (injects_spec σ R0 size p0 i0 Hsize Hp0 _ A E (s_next s) b (s_lib s) j addr a0 f t' Hlib' Ea Hd) as [Hi Hm];
    [by eapply extends_none|]. eapply inv_lib; [done..|]. intros a Ha. apply Hm. set_solver.
Qed.

Lemma inv_submit A E U b ns s tw e t f cc m x :
  inv A E U b ns s -> mtx_rx_bump t = 0 ->
  invariant (s <| s_conn := to_conn (etran_tx_process tw e t f (s_conn s) cc m x) |>).
Proof.
  intros H Hb. pose proof (inv_window _ _ _ _ _ _ H) as (Hw & _). destruct H as [I1 I2 I3 I4 I5 I6 I7 I8].
  assert (rx_inv R0 (s_next s) U handed (s_conn s)) as Hi by (split; [done|by apply ooo_inv_empty]).
  destruct (etran_tx_process_inv R0 (s_next s) U handed tw e t f (s_conn s) cc m x Hi) as [Hi' _];
    [lia|destruct I2; lia|]. rewrite Hb, Z.add_0_r in Hi'.
  destruct (etran_tx_process_rx tw e t f (s_conn s) cc m x) as [Ev|Ev]; unfold rx_view in Ev; injection Ev as _ _ _ _ Eo Es;
    (exists A, E, U, b, ns; split; cbn; try done; congruence).
Qed.

Lemma inv_update A E U b ns s a f tm B B' tw e g cc m x :
  inv A E U b ns s -> s_updates s = B ++ a :: B' -> t_umem (s_lib s) !! fix_umem_offset a = Some f -> uf_meta f = Tx_meta tm ->
  invariant (s <| s_conn := to_conn (etran_tx_process tw e tm g (s_conn s) cc m x) |>
               <| s_updates := B ++ B' |> <| s_kernel ::= fun K => a :: K |>).
Proof.
  intros H HB Ef Em. pose proof (inv_window _ _ _ _ _ _ H) as (Hw & Hw2 & _). destruct H as [I1 I2 I3 I4 I5 I6 I7 I8].
  rewrite HB in I5. apply Forall2_app_inv_l in I5 as (n1 & n2 & F1 & F2 & ->).
  inversion F2 as [|? n ? n3 (f' & m' & Ef' & Em' & En) F3]; subst n2.
  assert (m' = tm) as -> by congruence. rewrite foldr_app in I7. cbn in I7. rewrite foldr_shift in I7.
  apply list.Forall_cons in I6 as [Hb I6]. apply Forall_app in I6 as [P1 I6]. apply list.Forall_cons in I6 as [Hn P3].
  pose proof (foldr_nonneg _ P1) as Hs1. pose proof (foldr_nonneg _ P3) as Hs3.
  assert (rx_inv R0 (s_next s) U handed (s_conn s)) as Hi by (split; [done|by apply ooo_inv_empty]).
  destruct (etran_tx_process_inv R0 (s_next s) U handed tw e tm g (s_conn s) cc m x Hi) as [Hi' _]; [lia|lia|].
  rewrite En in Hi'. exists A, E, (U + n), b, (n1 ++ n3).
  destruct (etran_tx_process_rx tw e tm g (s_conn s) cc m x) as [Ev|Ev]; unfold rx_view in Ev; injection Ev as _ _ _ _ Eo Es;
    (split; cbn; try done; try congruence;
    [eapply lib_swap; [exact I1|]; eapply own_swap; [|apply I1]; rewrite HB; solve_Permutation|by apply Forall2_app
    |constructor; [done|by apply Forall_app]|rewrite foldr_app, foldr_shift; lia]).
Qed.

Lemma inv_read A E U b ns s count bs t' :
  inv A E U b ns s -> 0 <= count -> conn_recv p0 count (s_lib s) = Some (bs, t') ->
  invariant (s <| s_lib := t' |> <| s_read ::= fun l => l ++ bs |>).
Proof.
  intros H Hc Er. pose proof (inv_window _ _ _ _ _ _ H) as (W1 & W2 & W3 & W4 & W5 & _).
  destruct H as [I1 I2 I3 I4 I5 I6 I7 I8].
  destruct (read_spec σ R0 size p0 i0 Hsize _ A E (s_next s) b (s_lib s) count I1 Hc W4 ltac:(lia))
    as (bs' & t2 & E2 & -> & Hl & Hm). rewrite Er in E2. injection E2 as -> <-.
  set (n := Z.min count (E - A)) in *. apply list.Forall_cons in I6 as [Hb Hns].
  exists (A + n), E, U, (b + n), ns. split; cbn; try done; try lia.
  - eapply updates_ext; [|done]. intros a Ha. apply Hm. set_solver.
  - constructor; [lia|done].
  - rewrite I8. replace (A + n - R0) with (A - R0 + n) by lia. rewrite bytes_app by lia. do 2 f_equal. lia.
Qed.

Lemma inv_sync A E U b ns s p l a t' :
  inv A E U b ns s -> rx_bump_pending_conns (s_lib s) = p :: l -> tcp_ebpf_sync 1 (s_lib s) = Some (tt, t') ->
  submits p a (s_lib s) t' ->
  invariant (if p =? p0 then s <| s_lib := t' |> <| s_updates ::= fun B => a :: B |>
             else s <| s_lib := t' |> <| s_kernel ::= fun K => a :: K |>).
Proof.
  intros [I1 I2 I3 I4 I5 I6 I7 I8] El Es Ha.
  destruct (sync_spec σ R0 size p0 i0 _ A E (s_next s) b (s_lib s) p l I1 El tt t' Es a Ha) as (Hl & Hu & Hm).
  assert (Forall2 (update (t_umem t')) (s_updates s) ns) as HF
    by (eapply updates_ext; [|done]; intros x Hx; apply Hm; set_solver).
  destruct (Z.eqb_spec p p0) as [Ep|Ep].
  - apply list.Forall_cons in I6 as [Hb Hns]. exists A, E, U, 0, (b :: ns). split; cbn; try done; try lia.
    + constructor; [by apply Hu|done].
    + by repeat constructor.
  - exists A, E, U, b, ns. split; cbn; try done. eapply lib_swap; [exact Hl|]. eapply own_swap; [|apply Hl]. solve_Permutation.
Qed.

Lemma inv_step s s' : invariant s -> step s s' -> invariant s'.
Proof.
  intros (A & E & U & b & ns & H) Hs. pose proof (li_own _ _ _ _ _ _ _ _ _ _ _ (iv_lib _ _ _ _ _ _ H)) as Ho.
  destruct Hs.
  - by eapply inv_packet.
  - by eapply inv_other.
  - by eapply inv_signal.
  - by eapply inv_submit.
  - by eapply inv_update.
  - destruct (poll_spec σ R0 size p0 i0 Hsize Hp0 (s_updates s) (s_kernel s) K A E (s_next s) b (s_lib s) budget
      (iv_lib _ _ _ _ _ _ H) ltac:(done) _ _ ltac:(eassumption)) as (E' & Hl & Hm). by eapply inv_lib.
  - by eapply inv_read.
  - by eapply inv_sync.
  - eapply inv_good; [done|]. eapply (good_conn_recv p0 _ [] (s_lib s)); [..|eassumption]; [done|by apply good_refl].
  - eapply inv_good; [done|]. eapply (good_conn_send p0 _ [] (s_lib s)); [|eassumption]. by apply good_refl.
  - eapply inv_good; [done|]. eapply (good_tcp_retransmission p0 _ [] (s_lib s)); [|eassumption]. by apply good_refl.
  - eapply inv_good; [done|]. eapply (good_free_buffers p0 _ [] (s_lib s)); [|eassumption]. by apply good_refl.
  - eapply inv_same; [done|eapply open_spec; [apply H|done..]|done].
  - eapply inv_same; [done|eapply close_spec; [apply H|done..]|done].
Qed.

Lemma inv_rtc s s' : invariant s -> rtc step s s' -> invariant s'.
Proof. intros H. induction 1; eauto using inv_step. Qed.
End System.

(** C1. In the eTran build the stream reaches the application intact and
    complete.  Start with a connection that has just been opened and let
    anything happen in any order: segments of the peer arrive through the eBPF
    receiver, none leaving a gap but with any overlap and repetition; packets
    without payload for the connection and signals of the control plane
    arrive; the library polls the NIC with any budget, reads, sends,
    retransmits, frees buffers and reports released buffer space, eBPF sees
    these reports in any order; other connections are opened and closed.  Then
    what the application has read is a prefix of the peer's stream; a read
    returns, and returns the next bytes of the stream, as many as asked for if
    so many are counted as received; every byte that eBPF acknowledged is there
    once the rings are empty; and the advertised window never reaches past the
    free space of the receive buffer.  Completed buffers are assumed to be in
    the hands of the kernel, and the payload of a connection to arrive in one
    queue.  The MTP build does not have this property
    ([mtp_second_connection_starves]). *)
Theorem stream_delivered (σ : Z -> Z) (R0 size p0 : Z) (i0 : nat) (qid : Z) (s0 s : sys)
  (Hsize : 0 < size <= 1073741824) (Hp0 : p0 <> 0 /\ p0 <> POISON_64) (Hqid : 0 <= qid < 65536)
  (Hstart : start R0 size p0 i0 s0) (Hrun : rtc (step σ p0 i0 qid) s0 s) :
  exists c, t_conns (s_lib s) !! p0 = Some c /\
  let n := Z.of_nat (length (s_read s)) in
  s_read s = bytes_of σ R0 n /\
  (forall count, 0 <= count -> exists t',
     conn_recv p0 count (s_lib s) = Some (bytes_of σ (R0 + n) (Z.min count (rxb_used c)), t')) /\
  rx_next_seq (s_conn s) = u32 (s_next s) /\ R0 + n + rxb_used c <= s_next s /\
  (Forall (fun q => xi_rx q = []) (t_queues (s_lib s)) -> s_next s = R0 + n + rxb_used c) /\
  s_next s + rx_avail (s_conn s) <= R0 + n + size.
Proof.
  assert (invariant σ R0 size p0 i0 s) as (A & E & U & b & ns & H)
    by (eapply (inv_rtc σ R0 size p0 i0 qid); [done..| |exact Hrun]; by apply start_inv).
  destruct (inv_window _ _ _ _ _ qid Hqid _ _ _ _ _ _ H) as (W1 & W2 & W3 & W4 & W5 & W6).
  destruct H as [I1 I2 I3 I4 I5 I6 I7 I8]. pose proof I1 as [_ (c & Ec & Hc & Hu & Hb) [(l & e & El & Hf) _] _].
  exists c. split; [done|]. cbv zeta.
  assert (Z.of_nat (length (s_read s)) = A - R0) as En by (rewrite I8; apply bytes_length; lia).
  rewrite En, Hu. replace (R0 + (A - R0)) with A by lia. split_and!; try done; try lia.
  - intros count Hcnt. destruct (read_spec σ R0 size p0 i0 Hsize _ A E (s_next s) b (s_lib s) count I1 Hcnt W4 ltac:(lia))
      as (bs & t' & Er & -> & _). by exists t'.
  - apply I2.
  - intros Hall. rewrite list_lookup_fmap in El. destruct (t_queues (s_lib s) !! i0) as [q|] eqn:Eq; [|done].
    injection El as <-. eapply Forall_lookup_1 in Hall; [|exact Eq]. cbn in Hall. rewrite Hall in Hf. inversion Hf; subst. lia.
Qed.

(** A run: a segment of 100 bytes arrives, the library polls, the application
    reads 60 bytes. *)
Definition σ_ex (p : Z) : Z := p mod 256.
Definition lconn_ex : eTrantcp_connection :=
  connection_prepare_buffer (new_eTrantcp_connection 0) <| lc_rx_buf_size := 524288 |> <| lc_status := CONN_OPEN |>.
Definition lib_ex : tctx :=
  mk_tctx 7 pr_ex sys_ex ∅ {[ 7 := lconn_ex ]} [mk_xsk_socket_info [] [] [] [12288] 0 0 0] [0] (fsv_new 32) 0
    [] [] [] false 0 0 0 0 0 0.
Definition sys_run_0 : sys := mk_sys lib_ex conn_blank 1 [] [] [].

Definition seg_ex : xdp_action * bpf_tcp_conn * option bpf_cc * rx_meta * prev_conn_t :=
  Eval vm_compute in etran_rx_seg 1 100 conn_blank.
Definition frame_ex : uframe := mk_uframe (Rx_meta (seg_ex.1.2)) 0 0 0 0 0 0 (bytes_of σ_ex 1 100).
Definition lib_run_1 : tctx :=
  arrive 0 12544 frame_ex lib_ex (mk_xsk_socket_info [12544] [] [] [] 0 0 0).
Definition lib_run_2 : tctx := Eval vm_compute in from_option snd lib_ex (tcp_nic_poll false 32 lib_run_1).
Definition lib_run_3 : tctx := Eval vm_compute in from_option snd lib_ex (conn_recv 7 60 lib_run_2).
Definition sys_run_3 : sys := mk_sys lib_run_3 (seg_ex.1.1.1.2) 101 [] [] (bytes_of σ_ex 1 60).

Lemma start_ex : start 1 524288 7 0 sys_run_0.
Proof.
  split; try done.
  - split.
    + exact pr_ex_ok.
    + apply (proj1 (bp_reach_inv pr_ex pr_ex_ok _ _ sys_ex_reach)).
    + vm_compute. by eexists.
    + vm_compute. by repeat constructor; set_solver.
    + intros a Ha. cbn in Ha. apply list_elem_of_singleton in Ha as ->. by vm_compute.
  - by exists lconn_ex.
  - intros [|j] l; cbn; [by intros [= <-]|done].
  - cbn. lia.
Qed.

Lemma run_ex : rtc (step σ_ex 7 0 0) sys_run_0 sys_run_3.
Proof.
  eapply (rtc_l _ _ (mk_sys lib_run_1 (seg_ex.1.1.1.2) 101 [] [] [])).
  { eapply (step_packet σ_ex 7 0 0 sys_run_0 1 0 5000 0 (tcp_seg 1 false 0 0) ts_blank (Some cc_blank) (HEADERS_LEN + 100)
      false pc_none (seg_ex.1.1.1.1) (seg_ex.1.1.1.2) _ (seg_ex.1.2) _ lib_run_1).
    - unfold near. cbn. lia.
    - done.
    - by vm_compute.
    - unfold HEADERS_LEN. lia.
    - by vm_compute.
    - intros _. exists 12544, frame_ex. split; [done|]. split; [by vm_compute|].
      exists (mk_xsk_socket_info [] [] [] [12288] 0 0 0), [], 12288, []. done.
    - done. }
  eapply (rtc_l _ _ (mk_sys lib_run_2 (seg_ex.1.1.1.2) 101 [] [] [])).
  { eapply (step_poll σ_ex 7 0 0 (mk_sys lib_run_1 (seg_ex.1.1.1.2) 101 [] [] []) 32 _ lib_run_2 []); [by vm_compute|done]. }
  apply rtc_once. eapply (step_read σ_ex 7 0 0 (mk_sys lib_run_2 (seg_ex.1.1.1.2) 101 [] [] []) 60 _ lib_run_3); [done|by vm_compute].
Qed.

Lemma stream_delivered_witness :
  s_read sys_run_3 = bytes_of σ_ex 1 60 /\
  exists t', conn_recv 7 100 (s_lib sys_run_3) = Some (bytes_of σ_ex 61 40, t').
Proof.
  destruct (stream_delivered σ_ex 1 524288 7 0 0 sys_run_0 sys_run_3 ltac:(lia) ltac:(by split) ltac:(lia) start_ex run_ex)
    as (c & Ec & H1 & H2 & _).
  split; [exact H1|]. assert (rxb_used c = 40) as Hu by (vm_compute in Ec; by injection Ec as <-).
  destruct (H2 100 ltac:(lia)) as [t' Ht]. rewrite Hu in Ht. by exists t'.
Defined.
