(* ===== verification/LibSafe.v ===== *)
(** Buffers of the socket library: whatever packets arrive, in either build,
    no buffer is in two places. *)
From stdpp Require Import gmap.
From S2P Require Import Prelude Intf Headers BufPool LibTcp LibOwn LibRx LibStream.
Local Open Scope Z_scope.
Local Open Scope lib_scope.

(** Operations after which the hand holds [X]. *)
Definition keeps {A} (m : L A) (X X' : list Z) : Prop := forall t, own X t -> lpost m t (fun _ t' => own X' t').

Lemma keeps_ret {A} (a : A) X : keeps (lret a) X X.
Proof. intros t H. by lp1. Qed.

Lemma keeps_bind {A B} (m : L A) (k : A -> L B) X Y Z :
  keeps m X Y -> (forall a, keeps (k a) Y Z) -> keeps (lbind m k) X Z.
Proof. intros Hm Hk t H. lp1. eapply lpost_mono; [by apply Hm|]. intros a t' H'; cbv beta in H'. by apply Hk. Qed.

Lemma keeps_when b m X : keeps m X X -> keeps (lwhen b m) X X.
Proof. intros Hm t H. lp1; [by apply Hm|done]. Qed.

Lemma keeps_undef {A} X Y : keeps (lundef (A := A)) X Y.
Proof. intros t H. by lp1. Qed.

Lemma keeps_mod f X :
  (forall t, t_params (f t) = t_params t /\ t_pool (f t) = t_pool t /\ t_tid (f t) = t_tid t /\
     t_conns (f t) = t_conns t /\ t_queues (f t) = t_queues t) -> keeps (lmod f) X X.
Proof. intros Hf t H. lp1. destruct (Hf t) as (? & ? & ? & ? & ?). by eapply own_same. Qed.

Lemma keeps_upd_c p f X : (forall c, own_c (f c) = own_c c) -> keeps (upd_c p f) X X.
Proof. intros Hf t H. lp1. by eapply own_conn_same. Qed.

Lemma keeps_sync p m X : keeps (sync_state p m) X X.
Proof. intros t H. eapply lpost_mono; [apply sync_state_rel|]. intros a t' Hr; cbv beta in Hr. by eapply own_sync. Qed.

Lemma keeps_prod a X : keeps (bcache_prod a) (a :: X) X.
Proof. intros t H. eapply lpost_mono; [by apply own_prod|]. by intros ? ? [? _]. Qed.

Lemma keeps_need_fill qid X : keeps (need_fill qid) X X.
Proof. intros t H. eapply lpost_mono; [by apply (need_fill_spec qid X 0)|]. by intros ? ? (? & _). Qed.

Lemma keeps_rd {A} (m : L A) X : (forall t, lpost m t (fun _ t' => t' = t)) -> keeps m X X.
Proof. intros Hm t H. eapply lpost_mono; [apply Hm|]. by intros ? ? ->. Qed.

Lemma keeps_wr_rx a g X : keeps (wr_rx a g) X X.
Proof. intros t H. lp1. by eapply own_same. Qed.

Lemma keeps_lose {A} (m : L A) a X : keeps m X X -> keeps m (a :: X) X.
Proof. intros Hm t H. apply Hm. by eapply own_lose. Qed.

#[export] Hint Resolve keeps_ret keeps_undef keeps_sync keeps_prod keeps_need_fill keeps_wr_rx : lib.

(** The packet goes to a list of the connection. *)
Lemma keeps_give p a X f :
  (forall c, own_c (f c) ≡ₚ a :: own_c c) -> keeps (upd_c p f) (a :: X) X.
Proof. intros Hf t H. lp1. by eapply own_give. Qed.

Lemma keeps_in_order p a X : keeps (in_order_receive p a) (a :: X) X.
Proof. apply keeps_give. intros c. apply own_append. Qed.

Lemma keeps_out_of_order p a X : keeps (out_of_order_receive p a) (a :: X) X.
Proof. apply keeps_give. intros c. unfold own_c. cbn. solve_Permutation. Qed.

Lemma keeps_append_ooo p X : keeps (append_ooo p) X X.
Proof. intros t H. unfold append_ooo. lp1. eapply own_rearrange; [done..|]. unfold own_c. cbn. solve_Permutation. Qed.

#[export] Hint Resolve keeps_in_order keeps_out_of_order keeps_append_ooo : lib.

Ltac kp1 :=
  cbv beta zeta;
  lazymatch goal with
  | |- keeps (lbind _ _) _ _ => eapply keeps_bind; [|intros ?]
  | |- keeps (lwhen _ _) _ _ => apply keeps_when
  | |- keeps (lmod _) _ _ => apply keeps_mod; intros ?; by split_and!
  | |- keeps (if ?b then _ else _) _ _ => destruct b
  | |- keeps (let '_ := ?x in _) _ _ => destruct x
  | |- keeps lget _ _ => apply keeps_rd; intros ?; by lp1
  | |- keeps (rd_frame _) _ _ => apply keeps_rd; intros ?; by lp1
  | |- keeps (rd_rx _) _ _ => apply keeps_rd; intros ?; by lp1
  | |- keeps (rd_c _) _ _ => apply keeps_rd; intros ?; by lp1
  | |- keeps _ _ _ => eauto with lib
  end.

Lemma keeps_mtp_seg p a s e n o X : keeps (LibTcp.mtp_add_data_seg_wrapper p a s e n o) (a :: X) X.
Proof.
  unfold LibTcp.mtp_add_data_seg_wrapper. repeat kp1. apply keeps_lose. eauto with lib.
Qed.

Lemma keeps_payload mtp p a m X : keeps (rx_payload mtp p a m) (a :: X) X.
Proof.
  unfold rx_payload. destruct mtp.
  - repeat kp1. apply keeps_mtp_seg.
  - intros t H. eapply lpost_mono; [by apply add_data_seg_own|]. by intros ? ? [? _].
Qed.
#[export] Hint Resolve keeps_payload : lib.

Lemma keeps_rxev h X : keeps (lazy_update_prev_conn_rxev h) X X.
Proof. unfold lazy_update_prev_conn_rxev. repeat kp1. by apply keeps_upd_c. Qed.
#[export] Hint Resolve keeps_rxev : lib.

Lemma keeps_switch h p X : keeps (rx_switch h p) X X.
Proof. unfold rx_switch. repeat kp1. Qed.

Lemma keeps_clear p X : keeps (upd_c p (fun c => c <| ooo_rx_addrs := [] |>)) X X.
Proof.
  intros t H. lp1. apply (own_conn [] [] (ooo_rx_addrs c) X t p c); [done..|]. unfold own_c. cbn. solve_Permutation.
Qed.
#[export] Hint Resolve keeps_switch keeps_clear : lib.

Lemma keeps_conn_packet mtp h p a m X : keeps (rx_conn_packet mtp h p a m) (a :: X) X.
Proof. unfold rx_conn_packet. repeat kp1. by apply keeps_upd_c. Qed.
#[export] Hint Resolve keeps_conn_packet : lib.

Lemma keeps_handle_rx mtp h a last X : keeps (handle_rx mtp h a last) (a :: X) X.
Proof. unfold handle_rx, rx_flush. repeat kp1. Qed.

Lemma keeps_batch mtp l h X : keeps (handle_batch mtp h l) (l ++ X) X.
Proof.
  revert h. induction l as [|a l IH]; intros h; cbn [handle_batch app]; [kp1|].
  eapply keeps_bind; [apply keeps_handle_rx|]. done.
Qed.

Lemma own_fetch n qidx budget addrs X t :
  own (addrs ++ X) t -> lpost (fetch_loop n qidx budget addrs) t (fun addrs' t' => own (addrs' ++ X) t').
Proof.
  revert qidx budget addrs t. induction n as [|n IH]; intros qidx budget addrs t H; cbn [fetch_loop]; [by lp1|].
  lp1; [by lp1|]. do 5 lp1; [lp1|]. do 2 lp1. assert (q0 = q) as -> by congruence. apply IH. set (k := Z.to_nat _) in *.
  apply (own_swap (take k (xi_rx q) ++ addrs ++ X)); [solve_Permutation|].
  apply (own_queue [] (take k (xi_rx q)) [] (addrs ++ X) t qidx q); [done..|]. unfold own_q. cbn.
  rewrite <- (take_drop k (xi_rx q)) at 1. solve_Permutation.
Qed.

(** The parts of a poll, for no connection in particular. *)
Lemma own_good {A} (m : L A) X :
  (forall t, good 0 X [] t t -> lpost m t (fun _ t' => good 0 X [] t t')) -> keeps m X X.
Proof. intros Hm t H. eapply lpost_mono; [apply Hm; by apply good_refl|]. by intros ? ? [? _]. Qed.

Lemma own_poll mtp budget K K' t :
  own K t -> K ≡ₚ completed t ++ K' -> lpost (tcp_nic_poll mtp budget) t (fun _ t' => own K' t').
Proof.
  intros H HK. unfold tcp_nic_poll. do 3 lp1. apply (lpost_mono _ _ (fun _ t' => good 0 K' [] t t')).
  { apply (good_poll_all 0 K' _ 0 []); [done|]. rewrite app_nil_r. apply good_refl.
    eapply own_swap; [|exact H]. rewrite HK. unfold completed. by rewrite drop_0. }
  intros ? t1 [O1 _]. lp1. eapply lpost_mono; [by apply (own_fetch _ _ _ [] K')|].
  intros addrs t2 O2; cbv beta in O2. do 3 lp1.
  eapply lpost_mono; [apply (keeps_batch mtp addrs _ K'); by eapply own_same|].
  intros h t3 O3; cbv beta in O3. lp1. eapply lpost_mono; [apply (own_good (refill_queues 32) K'); [|exact O3]|].
  - intros t4 H4. by apply good_refill.
  - intros ? t4 O4; cbv beta in O4. by lp1.
Qed.

Lemma own_recv p count X : keeps (conn_recv p count) X X.
Proof.
  intros t H. eapply lpost_mono; [apply (good_conn_recv (p + 1) X [] t t p count); [lia|by apply good_refl]|].
  by intros ? ? [? _].
Qed.

(** One round of [tcp_ebpf_sync]. *)
Lemma own_sync_round X t p l :
  own X t -> rx_bump_pending_conns t = p :: l ->
  lpost (tcp_ebpf_sync 1) t (fun _ t' => forall a, submits p a t t' -> own (a :: X) t').
Proof.
  intros H El. unfold tcp_ebpf_sync. do 2 lp1. rewrite El. cbn [ebpf_sync_loop].
  assert (match l with [] => lret tt | _ => lret tt end = lret tt) as -> by (by destruct l).
  do 5 lp1. eapply lpost_mono; [by apply own_take|]. intros fr t1 (O1 & [sp ->] & Hfr). cbv beta zeta.
  apply (own_readdr _ (add_offset_tx_frame fr)) in O1; [|by rewrite tx_addr]. set (a := add_offset_tx_frame fr) in *.
  do 4 lp1. unfold tx_submit. repeat lp1.
  intros a' (c1 & i' & q1 & q2 & n & Ec1 & Ei & Eq1 & Eq2 & Etx).
  assert (c1 = c) as -> by congruence. assert (i' = i) as -> by congruence. cbn in H3, H4.
  assert (q1 = q) as -> by congruence. cbn in Eq2. rewrite (rdz_insert_eq _ _ q) in Eq2 by done. injection Eq2 as <-.
  cbn in Etx. apply app_inv_head in Etx. injection Etx as <- _. 
  match goal with |- own _ (?x <| rx_bump_pending_conns := _ |>) => apply (own_same _ x); [|done..] end.
  assert (c0 = c) as -> by congruence.
  eapply own_conn_same; [|cbn; eassumption|done]. eapply own_queue_same; [|cbn; eassumption|done]. by eapply own_same.
Qed.

(** The thread and its surroundings: the buffers in the hands of the kernel
    and the state of the thread. *)
Inductive lib_step (mtp : bool) : list Z * tctx -> list Z * tctx -> Prop :=
| ls_poll budget ev K K' t t' :
    K ≡ₚ completed t ++ K' -> tcp_nic_poll mtp budget t = Some (ev, t') -> lib_step mtp (K, t) (K', t')
| ls_recv p count bs K t t' : conn_recv p count t = Some (bs, t') -> lib_step mtp (K, t) (K, t')
| ls_send p buf count r K t t' : conn_send p buf count t = Some (r, t') -> lib_step mtp (K, t) (K, t')
| ls_retransmit K t t' : tcp_retransmission t = Some (tt, t') -> lib_step mtp (K, t) (K, t')
| ls_free K t t' : tcp_free_buffers t = Some (tt, t') -> lib_step mtp (K, t) (K, t')
| ls_sync p l a K t t' :
    rx_bump_pending_conns t = p :: l -> tcp_ebpf_sync 1 t = Some (tt, t') -> submits p a t t' ->
    lib_step mtp (K, t) (a :: K, t')
| ls_deliver j a f K t t' : delivers j a f t t' -> lib_step mtp (K, t) (K, t')
| ls_inject j a a0 f K K' t t' :
    K ≡ₚ a0 :: K' -> fix_umem_offset a0 = fix_umem_offset a -> injects j a f t t' -> lib_step mtp (K, t) (K', t')
| ls_open p c K t :
    t_conns t !! p = None -> own_c c = [] -> lib_step mtp (K, t) (K, t <| t_conns ::= <[p := c]> |>)
| ls_close p K t : lib_step mtp (K, t) (K, t <| t_conns ::= delete p |>).

Lemma own_delivers X j a f t t' : own X t -> delivers j a f t t' -> own X t'.
Proof.
  intros H (q & l1 & a0 & l2 & Eq & Efq & Ea & ->). unfold arrive.
  apply (own_queue [] [a0] [] X t j q (q <| xi_fq := l1 ++ l2 |>)) in H;
    [|done|unfold own_q; cbn; rewrite Efq; solve_Permutation].
  apply (own_readdr _ a) in H; [|done]. 
  eapply (own_queue [a] [] [] X _ j (q <| xi_fq := l1 ++ l2 |>)) in H; [|cbn; by eapply rdz_insert_eq|].
  - eapply own_same; [exact H|done..|]. cbn. by rewrite list_insert_insert_eq.
  - unfold own_q. cbn. solve_Permutation.
Qed.

Lemma own_injects X j a a0 f t t' :
  own (a0 :: X) t -> fix_umem_offset a0 = fix_umem_offset a -> injects j a f t t' -> own X t'.
Proof.
  intros H Ea (q & Eq & ->). unfold arrive. apply (own_readdr _ a) in H; [|done].
  apply (own_queue [a] [] [] X _ j q); [by eapply own_same|done|]. unfold own_q. cbn. solve_Permutation.
Qed.

Lemma own_step mtp x y : own x.1 x.2 -> lib_step mtp x y -> own y.1 y.2.
Proof.
  intros H Hs. destruct Hs; cbn in *.
  - exact (own_poll mtp budget K K' t H ltac:(done) _ _ ltac:(eassumption)).
  - exact (own_recv p count K t H _ _ ltac:(eassumption)).
  - refine (own_good (conn_send p buf count) K _ t H _ _ ltac:(eassumption)). intros t1 H1. by apply good_conn_send.
  - refine (own_good tcp_retransmission K _ t H _ _ ltac:(eassumption)). intros t1 H1. by apply good_tcp_retransmission.
  - refine (own_good tcp_free_buffers K _ t H _ _ ltac:(eassumption)). intros t1 H1. by apply good_free_buffers.
  - exact (own_sync_round K t p l H ltac:(done) _ _ ltac:(eassumption) a ltac:(done)).
  - by eapply own_delivers.
  - eapply own_injects; [by eapply own_swap|done..].
  - eapply (own_perm K K []); [done..|]. unfold held. cbn. rewrite own_conns_insert, H1, delete_id by done. solve_Permutation.
  - destruct (t_conns t !! p) as [c|] eqn:Ec.
    + eapply (own_perm K K (own_c c)); [done..|]. unfold held. cbn. rewrite (own_conns_split _ _ _ Ec). solve_Permutation.
    + eapply own_same; [done..| |done]. cbn. by rewrite delete_id.
Qed.

(** C27. No packet buffer of the socket library is ever in two places.  In
    either build, start with a thread whose buffers are apart and let any
    sequence of operations run, with any packets arriving in between in any
    order: the buffers in the lists of the connections, in the receive and
    fill rings and in the hands of the kernel are frames of the UMEM, all
    different, and none of them is free in the pool.  Completed buffers are
    assumed to be in the hands of the kernel. *)
Theorem library_buffers_exclusive (mtp : bool) (K0 K : list Z) (t0 t : tctx)
  (Hstart : own K0 t0) (Hrun : rtc (lib_step mtp) (K0, t0) (K, t)) :
  NoDup (fix_umem_offset <$> K ++ own_conns (t_conns t) ++ concat (own_q <$> t_queues t)) /\
  forall a, a ∈ K ++ own_conns (t_conns t) ++ concat (own_q <$> t_queues t) ->
    fix_umem_offset a ∈ frames (t_params t) /\
    forall x k, ~ cell (pr_nr_buffers_per_slab (t_params t)) (t_pool t) x k (fix_umem_offset a).
Proof.
  assert (forall x y, rtc (lib_step mtp) x y -> own x.1 x.2 -> own y.1 y.2) as Hind
    by (induction 1; eauto using own_step).
  destruct (Hind _ _ Hrun Hstart) as [_ [_ HC] _ Hn Ho]. cbn in *. split; [done|]. intros a Ha.
  specialize (Ho a Ha). split; [by apply (co_out _ _ HC)|]. intros x k Hc. by apply (co_cell _ _ HC) in Hc as [_ ?].
Qed.

(** The thread of [LibStream] after a packet has arrived and a poll. *)
Lemma library_buffers_exclusive_witness :
  exists t, rtc (lib_step false) ([], lib_ex) ([], t) /\ length (held t) = 2%nat /\
    NoDup (fix_umem_offset <$> [] ++ own_conns (t_conns t) ++ concat (own_q <$> t_queues t)).
Proof.
  assert (rtc (lib_step false) ([], lib_ex) ([], lib_run_2)) as Hrun.
  { eapply (rtc_l _ _ ([], lib_run_1)).
    - eapply (ls_deliver _ 0 12544 frame_ex). exists (mk_xsk_socket_info [] [] [] [12288] 0 0 0), [], 12288, []. done.
    - apply rtc_once. eapply (ls_poll _ 32); [done|by vm_compute]. }
  exists lib_run_2. split; [exact Hrun|]. split; [by vm_compute|].
  exact (proj1 (library_buffers_exclusive false [] [] lib_ex lib_run_2 (sa_own _ _ _ _ _ start_ex) Hrun)).
Defined.
