(* ===== verification/LibRuns.v ===== *)
(** Runs of the socket library outside the conditions of [LibStream] and
    [LibOwn]: segments out of order, acknowledgements that arrive in between,
    completions that are late. *)
From stdpp Require Import gmap.
From S2P Require Import Prelude Intf Seq Headers AckQueue Pacing EtranTcp MtpTcp RxSafety Compare BufPool LibTcp LibOwn LibRx LibStream.
Local Open Scope Z_scope.
Local Open Scope lib_scope.

(** Sixteen frames, of which the first buffers are in the fill ring. *)
Definition pr_run : buffer_pool_params := mk_buffer_pool_params 16 4096 1 4.
Definition pool_op (op : bp_op) (s : bp_sys) : bp_sys := from_option snd s (bp_exec pr_run op s).
Definition pool_run : bp_sys := Eval vm_compute in
  pool_op (Cons 7) (pool_op (Cons 7) (pool_op (Cons 7) (pool_op (Check_ 7 1)
    (pool_op (Create 7) (mk_bp_sys (bp_init pr_run).2 ∅ ∅))))).
Definition fill_run : list Z := Eval vm_compute in elements (sy_out pool_run).

Definition lib_run : tctx :=
  mk_tctx 7 pr_run pool_run
    (list_to_map ((fun i => (i * 4096, mk_uframe (Tx_meta txmeta_clear) 0 0 0 0 0 0 [])) <$> seqZ 0 16))
    {[ 7 := lconn_ex <| lc_tx_buf_size := 524288 |> ]}
    [mk_xsk_socket_info [] [] [] fill_run 0 0 0] [0] (fsv_new 32) 0 [] [] [] false 0 0 0 0 0 0.

(** Packet [f] arrives in the first frame of the fill ring. *)
Definition receive (f : uframe) (t : tctx) : tctx :=
  match t_queues t with
  | q :: _ =>
    match xi_fq q with
    | a :: l => arrive 0 a f t (q <| xi_rx ::= fun r => r ++ [a] |> <| xi_fq := l |>)
    | [] => t
    end
  | [] => t
  end.

Definition run {A} (m : L A) (t : tctx) : tctx := from_option snd t (m t).
Definition result {A} (m : L A) (t : tctx) : option A := fst <$> m t.

(** A segment of [n] bytes from position [P] on through eBPF: the entry of the
    connection and the packet for the library. *)
Definition etran_seg (P n : Z) (c : bpf_tcp_conn) : bpf_tcp_conn * uframe :=
  let '(_, c', _, m, _) := etran_rx_seg P n c in
  (c', mk_uframe (Rx_meta m) 0 0 0 0 0 (bpf_htonl P) (bytes_of σ_ex P n)).

(** Segments one after the other, then a poll. *)
Fixpoint segments (l : list (Z * Z)) (c : bpf_tcp_conn) (t : tctx) : bpf_tcp_conn * tctx :=
  match l with
  | [] => (c, t)
  | (P, n) :: l => let '(c', f) := etran_seg P n c in segments l c' (receive f t)
  end.

(** The same in the build with MTP. *)
Definition mtp_seg (P n : Z) (c : bpf_tcp_conn) : bpf_tcp_conn * uframe :=
  match mtp_rx_process 5000 5000 0 (parse_pkt_to_event (frame_data P n)) c (Some cc_blank) io_blank (meta_init 0 7)
          aq_blank with
  | Some (_, c', _, m, _) => (c', mk_uframe (Rx_meta m) 0 0 0 0 0 (bpf_htonl P) (bytes_of σ_ex P n))
  | None => (c, mk_uframe (Rx_meta (meta_init 0 0)) 0 0 0 0 0 0 [])
  end.

Fixpoint mtp_segments (l : list (Z * Z)) (c : bpf_tcp_conn) (t : tctx) : bpf_tcp_conn * tctx :=
  match l with
  | [] => (c, t)
  | (P, n) :: l => let '(c', f) := mtp_seg P n c in mtp_segments l c' (receive f t)
  end.

(** ** Receiving *)

(** A segment out of order, then the one that fills the gap: the library puts
    the later packet before the earlier one, and a read of both returns the
    bytes in the wrong order. *)
Theorem ooo_read_reversed :
  let '(c, t) := segments [(101, 100); (1, 100)] conn_blank lib_run in
  rx_next_seq c = 201 /\
  result (tcp_nic_poll false 32 ;; conn_recv 7 200) t = Some (bytes_of σ_ex 101 100 ++ bytes_of σ_ex 1 100).
Proof. vm_compute. by split. Qed.

(** A segment out of order, then one that covers it: eBPF acknowledges 200
    bytes and tells the library to forget the first packet; the library drops
    the second one with it, so that nothing reaches the application. *)
Theorem covering_segment_lost :
  let '(c, t) := segments [(101, 50); (1, 200)] conn_blank lib_run in
  rx_next_seq c = 201 /\ result (tcp_nic_poll false 32 ;; conn_recv 7 200) t = Some [].
Proof. vm_compute. by split. Qed.

(** A packet without payload between the two: all bits of its field
    [ooo_bump] are set, which the library takes for the order to forget the
    packets out of order.  Their bytes are counted as received when the gap is
    filled, but no read returns them. *)
Theorem pure_ack_drops_ooo :
  let '(c, t) := segments [(101, 100); (1, 0); (1, 100)] conn_blank lib_run in
  rx_next_seq c = 201 /\
  result (tcp_nic_poll false 32 ;; let! a := conn_recv 7 200 in let! b := conn_recv 7 200 in
          let! c := rd_c 7 in lret (a, b, rxb_used c)) t = Some (bytes_of σ_ex 1 100, [], 100).
Proof. vm_compute. by split. Qed.

(** In the build with MTP the state of reassembly belongs to the thread: the
    first packet of a second connection is taken for one out of order, and its
    bytes are never available. *)
Definition second_conn (f : uframe) : uframe :=
  match uf_meta f with Rx_meta m => f <| uf_meta := Rx_meta (m <| mrx_conn := 9 |>) |> | _ => f end.

Theorem mtp_second_connection_starves :
  let t := lib_run <| t_conns ::= <[9 := lconn_ex]> |> in
  let t := receive (second_conn (mtp_seg 1 10 conn_blank).2) (receive (mtp_seg 1 10 conn_blank).2 t) in
  result (tcp_nic_poll true 32 ;; let! a := conn_recv 7 10 in let! b := conn_recv 9 10 in lret (a, b)) t =
  Some (bytes_of σ_ex 1 10, []).
Proof. by vm_compute. Qed.

(** ** Sending *)

Definition signal (qid ack_bytes : Z) : uframe :=
  mk_uframe (Rx_meta ((meta_init qid 7) <| mrx_ack_bytes := ack_bytes |>)) 0 0 0 0 0 0 [].

(** 200 bytes sent as one packet. *)
Definition sent_run : tctx := run (conn_send 7 (bytes_of σ_ex 1 200) 200) lib_run.

(** The peer accepts only a part of the packet: releasing the buffers takes
    the whole packet off, the count of bytes to release wraps around, and the
    list of packets runs empty, which is undefined. *)
Theorem partial_ack_frees_too_much :
  (pending_free_bytes <$> result (tcp_nic_poll false 32 ;; rd_c 7) (receive (signal 0 100) sent_run)) = Some 100 /\
  result (tcp_nic_poll false 32 ;; tcp_free_buffers) (receive (signal 0 100) sent_run) = None.
Proof. vm_compute. by split. Qed.

(** Two signals to go back to the same position in one batch: the second finds
    the head at that position already and is taken for an acknowledgement of
    2^31 bytes. *)
Theorem second_go_back_is_ack :
  let t := receive (signal POISON_32 RECOVERY_MASK) (receive (signal POISON_32 RECOVERY_MASK) sent_run) in
  (pending_free_bytes <$> result (tcp_nic_poll false 32 ;; rd_c 7) t) = Some RECOVERY_MASK /\
  result (tcp_nic_poll false 32 ;; tcp_free_buffers) t = None.
Proof. vm_compute. by split. Qed.
