(* ===== verification/LibTx.v ===== *)
(** Sending in the socket library.

    [σ] gives the byte at each position of the stream the application sends,
    [size] is the size of the transmit ring, in which position [P] belongs at
    offset [P mod size]. *)
From stdpp Require Import gmap.
From S2P Require Import Prelude Intf Headers BufPool LibTcp LibOwn LibRx LibStream LibSafe.
Local Open Scope Z_scope.
Local Open Scope lib_scope.

(** ** More operations that have a result *)

#[local] Transparent rd_tx rd_q upd_q qid2idx.

Lemma ltot_get t (Q : tctx -> tctx -> Prop) : Q t t -> ltot lget t Q.
Proof. intros H. by exists t, t. Qed.

Lemma ltot_when (b : bool) m t (Q : unit -> tctx -> Prop) :
  (b = true -> ltot m t Q) -> (b = false -> Q tt t) -> ltot (lwhen b m) t Q.
Proof. intros H1 H2. destruct b; [by apply H1|by apply ltot_ret, H2]. Qed.

Lemma ltot_rd_tx a f m t (Q : tx_meta -> tctx -> Prop) :
  t_umem t !! fix_umem_offset a = Some f -> uf_meta f = Tx_meta m -> Q m t -> ltot (rd_tx a) t Q.
Proof. intros E Em H. apply ltot_bind, (ltot_rd_frame a f); [done|]. rewrite Em. by apply ltot_ret. Qed.

Lemma ltot_upd_q i f q t (Q : unit -> tctx -> Prop) :
  rdz (t_queues t) i = Some q -> Q tt (t <| t_queues ::= <[Z.to_nat i := f q]> |>) -> ltot (upd_q i f) t Q.
Proof. intros E H. exists tt. eexists. split; [|exact H]. unfold upd_q, rd_q, lbind, lget. by rewrite E. Qed.

Lemma ltot_qid2idx x i t (Q : Z -> tctx -> Prop) : rdz (t_qid2idx t) x = Some i -> Q i t -> ltot (qid2idx x) t Q.
Proof. intros E H. exists i, t. split; [|done]. unfold qid2idx, lbind, lget. by rewrite E. Qed.

#[local] Opaque rd_tx rd_q upd_q qid2idx.

(** One step through an operation whose next access is known to succeed. *)
Ltac tp1 :=
  cbv beta zeta;
  lazymatch goal with
  | |- ltot (lbind _ _) _ _ => apply ltot_bind
  | |- ltot (lret _) _ _ => apply ltot_ret
  | |- ltot lget _ _ => apply ltot_get
  | |- ltot (lmod _) _ _ => apply ltot_mod
  | |- ltot (wr_frame _ _) _ _ => apply ltot_mod
  | |- ltot (lwhen _ _) _ _ => apply ltot_when; intros ?
  | |- ltot (rd_c _) _ _ => eapply ltot_rd_c; [eassumption|]
  | |- ltot (upd_c _ _) _ _ => eapply ltot_upd_c; [eassumption|]
  | |- ltot (rd_frame _) _ _ => eapply ltot_rd_frame; [eassumption|]
  | |- ltot (upd_q _ _) _ _ => eapply ltot_upd_q; [eassumption|]
  | |- ltot (qid2idx _) _ _ => eapply ltot_qid2idx; [eassumption|]
  end.

Section Transmit.
Context (σ : Z -> Z) (size p0 : Z).
Hypothesis Hsize : 0 < size <= 1073741824.

(** A packet that holds the [n] bytes from position [P] on. *)
Definition holds (mem : gmap Z uframe) (a P n : Z) : Prop :=
  0 < n <= TCP_MSS_W_TS /\ exists f, mem !! fix_umem_offset a = Some f /\ take (Z.to_nat n) (uf_data f) = bytes_of σ P n.

(** Packets that hold the positions from [P] to [N], with their lengths. *)
Inductive tiles (mem : gmap Z uframe) : list (Z * Z) -> Z -> Z -> Prop :=
| tiles_nil P : tiles mem [] P P
| tiles_cons a n l P N : holds mem a P n -> tiles mem l (P + n) N -> tiles mem ((a, n) :: l) P N.

(** What is submitted to eBPF for the positions from [P] to [N]: each packet
    says where its payload belongs in the ring and how long it is, the first
    one also how many bytes are submitted in all. *)
Inductive submitted (mem : gmap Z uframe) : list xdp_desc -> Z -> Z -> Z -> Prop :=
| submitted_nil P w : submitted mem [] P P w
| submitted_cons a n l P N w f :
    mem !! fix_umem_offset a = Some f -> uf_meta f = Tx_meta (mk_tx_meta 0 0 0 w (P mod size) n) ->
    holds mem a P n -> submitted mem l (P + n) N 0 ->
    submitted mem (mk_xdp_desc a (HEADERS_LEN + n) :: l) P N w.

Definition segs (l : list xdp_desc) : list (Z * Z) := (fun d => (desc_addr d, desc_len d - HEADERS_LEN)) <$> l.

Lemma submitted_tiles mem l P N w : submitted mem l P N w -> tiles mem (segs l) P N.
Proof.
  induction 1 as [|a n l P N w f Ef Em Hh Hs IH]; [constructor|].
  unfold segs. cbn. replace (HEADERS_LEN + n - HEADERS_LEN) with n by lia. by constructor.
Qed.

Lemma tiles_le mem l P N : tiles mem l P N -> P <= N.
Proof. induction 1 as [|a n l P N [Hn _] _ IH]; lia. Qed.

Lemma tiles_app mem l l' P Q N : tiles mem l P Q -> tiles mem l' Q N -> tiles mem (l ++ l') P N.
Proof. induction 1; cbn; [done|]. intros. constructor; auto. Qed.

Lemma tiles_split mem l l' P N : tiles mem (l ++ l') P N -> exists Q, tiles mem l P Q /\ tiles mem l' Q N.
Proof.
  revert P. induction l as [|[a n] l IH]; intros P H; cbn in H; [exists P; split; [constructor|done]|].
  inversion H; subst. destruct (IH _ ltac:(eassumption)) as (Q & H1 & H2). exists Q. split; [by constructor|done].
Qed.

Lemma tiles_sum mem l P N : tiles mem l P N -> N = P + foldr Z.add 0 l.*2.
Proof. induction 1; cbn; lia. Qed.

Lemma holds_ext mem mem' a P n :
  (forall f, mem !! fix_umem_offset a = Some f -> exists f', mem' !! fix_umem_offset a = Some f' /\ uf_data f' = uf_data f) ->
  holds mem a P n -> holds mem' a P n.
Proof. intros H [Hn (f & Ef & Hd)]. destruct (H f Ef) as (f' & Ef' & E). split; [done|]. exists f'. by rewrite E. Qed.

(** The data of a frame is what it was. *)
Definition same_data (mem mem' : gmap Z uframe) (a : Z) : Prop :=
  forall f, mem !! fix_umem_offset a = Some f -> exists f', mem' !! fix_umem_offset a = Some f' /\ uf_data f' = uf_data f.

Lemma same_data_eq mem mem' a : mem' !! fix_umem_offset a = mem !! fix_umem_offset a -> same_data mem mem' a.
Proof. intros E f Ef. exists f. by rewrite E. Qed.

Lemma tiles_ext mem mem' l P N :
  (forall a, a ∈ l.*1 -> same_data mem mem' a) -> tiles mem l P N -> tiles mem' l P N.
Proof.
  intros H. induction 1 as [|a n l P N Hh Ht IH]; constructor.
  - eapply holds_ext; [|done]. apply H. by left.
  - apply IH. intros b Hb. apply H. by right.
Qed.

Lemma submitted_ext mem mem' l P N w :
  (forall d, d ∈ l -> mem' !! fix_umem_offset (desc_addr d) = mem !! fix_umem_offset (desc_addr d)) ->
  submitted mem l P N w -> submitted mem' l P N w.
Proof.
  intros H. induction 1 as [|a n l P N w f Ef Em Hh Hs IH]; [constructor|].
  assert (mem' !! fix_umem_offset a = mem !! fix_umem_offset a) as Ea by (apply (H (mk_xdp_desc a (HEADERS_LEN + n))); by left).
  econstructor; [by rewrite Ea|done| |apply IH; intros d Hd; apply H; by right].
  eapply holds_ext; [|done]. by apply same_data_eq.
Qed.

(** ** Segmentation *)

(** What an operation leaves alone but the connection and the ring. *)
Definition rest (t : tctx) := (t_params t, t_tid t, t_qid2idx t, free_pending_conns t, retransmission_conns t).

(** Between [t] and [t'], [ds] was submitted in queue [i]. *)
Definition queued (i : Z) (ds : list xdp_desc) (t t' : tctx) : Prop :=
  ds = [] /\ t_queues t' = t_queues t \/
  exists q q', rdz (t_queues t) i = Some q /\ t_queues t' = <[Z.to_nat i := q']> (t_queues t) /\
    own_q q' = own_q q /\ xi_tx q' = xi_tx q ++ ds.

(** And nothing else but the connection and its packets changed. *)
Record appends (i : Z) (ds : list xdp_desc) (t t' : tctx) : Prop := {
  ap_rest : rest t' = rest t;
  ap_queue : queued i ds t t'
}.

Lemma appends_nil i t t' : rest t' = rest t -> t_queues t' = t_queues t -> appends i [] t t'.
Proof. intros E1 E2. split; [done|]. by left. Qed.

Lemma appends_trans i ds ds' t1 t2 t3 :
  appends i ds t1 t2 -> appends i ds' t2 t3 -> appends i (ds ++ ds') t1 t3.
Proof.
  intros [R1 Q1] [R2 Q2]. split; [congruence|]. unfold queued in *.
  destruct Q1 as [[-> E1]|(q1 & q2 & E1 & E2 & O2 & X2)]; [rewrite E1 in Q2; by destruct Q2 as [[-> ?]|?]; [left|right]|].
  right. destruct Q2 as [[-> E3]|(q3 & q4 & E3 & E4 & O4 & X4)].
  - exists q1, q2. rewrite E3, app_nil_r. done.
  - rewrite E2, (rdz_insert_eq _ _ q1) in E3 by done. injection E3 as <-. exists q1, q4. split; [done|].
    rewrite E4, E2, list_insert_insert_eq. split; [done|]. split; [congruence|]. by rewrite X4, X2, app_assoc.
Qed.

Lemma mod_advance P n : 0 <= P -> 0 <= n <= size ->
  (if u32 (P mod size + n) >=? size then u32 (u32 (P mod size + n) - size) else u32 (P mod size + n)) = (P + n) mod size.
Proof.
  intros HP Hn. pose proof (Z.mod_pos_bound P size ltac:(lia)) as Hm.
  rewrite (u32_small (P mod size + n)) by (unfold in32; lia).
  rewrite <- (Z.add_mod_idemp_l P) by lia. destruct (Z.geb_spec (P mod size + n) size).
  - rewrite u32_small by (unfold in32; lia). replace (P mod size + n) with (P mod size + n - size + 1 * size) at 2 by lia.
    rewrite Z.mod_add by lia. symmetry. apply Z.mod_small. lia.
  - symmetry. apply Z.mod_small. lia.
Qed.

(** The fields of a connection that submitting a packet leaves alone. *)
Definition ctx_rest (c : eTrantcp_connection) :=
  (lc_tx_buf_size c, txb_sent c, txb_allocated c, pending_free_bytes c, lc_status c, lc_qid c, xsk_budget c,
   rx_addrs c, ooo_rx_addrs c).

(** Connection [c] of [t] has become [c'] in [t'], after [ds] was submitted
    and the head moved to position [N]. *)
Record sends (i : Z) (ds : list xdp_desc) (new : list (Z * Z)) (N : Z) (c : eTrantcp_connection) (t t' : tctx) : Prop := {
  sn_appends : appends i ds t t';
  sn_conn : exists c', t_conns t' = <[p0 := c']> (t_conns t) /\ unack_tx_addrs c' = unack_tx_addrs c ++ new /\
    txb_head c' = N mod size /\ ctx_rest c' = ctx_rest c
}.

Lemma own_hand_apart a X t b : own (a :: X) t -> b ∈ X ++ held t -> fix_umem_offset a <> fix_umem_offset b.
Proof.
  intros H Hb E. pose proof (ow_nodup _ _ H) as Hn. cbn in Hn. apply list.NoDup_cons in Hn as [Hn _]. apply Hn.
  rewrite E. by apply list_elem_of_fmap_2.
Qed.

(** One packet of [tcp_flow_tx_segmentation_zc]. *)
Definition segment_one (i : Z) (buf : list Z) (remaining pending : Z) : L unit :=
  let! frame := bcache_take in
  let addr := add_offset_tx_frame frame in
  let! c := rd_c p0 in
  let! f := rd_frame addr in
  let plen := Z.min TCP_MSS_W_TS remaining in
  let meta := txmeta_clear <| mtx_tx_pos := txb_head c |> <| mtx_plen := plen |>
                           <| mtx_tx_pending := pending |> in
  let! data := lmust (copy_in buf plen (uf_data f)) in
  wr_frame addr (tx_headers c f <| uf_meta := Tx_meta meta |> <| uf_data := data |>) ;;
  upd_c p0 (fun c => txb_advance plen (c <| unack_tx_addrs ::= fun l => l ++ [(addr, plen)] |>)) ;;
  tx_submit i addr plen.

Lemma lbind_assoc {A B C} (m : L A) (k : A -> L B) (h : B -> L C) t :
  lbind (lbind m k) h t = lbind m (fun a => lbind (k a) h) t.
Proof. unfold lbind. by destruct (m t) as [[a t']|]. Qed.

Lemma lbind_ext {A B} (m : L A) (k k' : A -> L B) t : (forall a t, k a t = k' a t) -> lbind m k t = lbind m k' t.
Proof. intros H. unfold lbind. destruct (m t) as [[a t']|]; [apply H|done]. Qed.

Lemma lpost_eq {A} (m m' : L A) t Q : m t = m' t -> lpost m' t Q -> lpost m t Q.
Proof. intros E H a t' Ea. apply H. congruence. Qed.

Lemma segment_unfold n i buf r w t :
  segment_loop (S n) p0 i buf r w t =
  (segment_one i buf r w ;; segment_loop n p0 i (drop (Z.to_nat (Z.min TCP_MSS_W_TS r)) buf) (u32 (r - Z.min TCP_MSS_W_TS r)) 0) t.
Proof.
  unfold segment_one. cbn [segment_loop]. repeat first [rewrite lbind_assoc; apply lbind_ext; intros ? ?; cbv beta zeta | reflexivity].
Qed.

Lemma segment_one_spec X t c i buf r w P :
  own X t -> t_conns t !! p0 = Some c -> lc_tx_buf_size c = size -> txb_head c = P mod size -> 0 <= P -> 0 < r <= size ->
  take (Z.to_nat r) buf = bytes_of σ P r -> let n := Z.min TCP_MSS_W_TS r in
  lpost (segment_one i buf r w) t (fun _ t' => exists a, own X t' /\
    sends i [mk_xdp_desc a (HEADERS_LEN + n)] [(a, n)] (P + n) c t t' /\
    submitted (t_umem t') [mk_xdp_desc a (HEADERS_LEN + n)] P (P + n) w /\
    forall b, b ∈ X ++ held t -> t_umem t' !! fix_umem_offset b = t_umem t !! fix_umem_offset b).
Proof.
  intros H Ec Hsz Hh HP Hr Hbuf n. unfold segment_one. lp1. eapply lpost_mono; [by apply own_take|].
  intros fr t1 (O1 & [sp ->] & Hfr). cbv beta zeta. fold n.
  apply (own_readdr _ (add_offset_tx_frame fr)) in O1; [|by rewrite tx_addr]. set (a := add_offset_tx_frame fr) in *.
  do 6 lp1. unfold tx_submit. repeat lp1. cbn in H0, H3. assert (c0 = c) as -> by congruence. assert (c1 = c) as -> by (cbn in H3; congruence).
  assert (0 < n <= TCP_MSS_W_TS /\ n <= size) as [Hn Hns] by (unfold n, TCP_MSS_W_TS; lia).
  set (g := tx_headers c f <| uf_meta := _ |> <| uf_data := _ |>) in *. set (c' := txb_advance n _) in *.
  assert (holds (<[fix_umem_offset a := g]> (t_umem t)) a P n) as Hhold.
  { split; [done|]. exists g. split; [apply lookup_insert_eq|]. cbn. unfold copy_in in H2.
    destruct (Z.leb_spec n (Z.of_nat (length buf))); [|done]. injection H2 as <-.
    rewrite take_app_le, take_take, Nat.min_id by (rewrite length_take; lia).
    rewrite <- (take_bytes σ P r n), <- Hbuf, take_take by lia. f_equal. lia. }
  exists a. split_and!.
  - eapply own_queue_same; [|exact H4|done]. apply (own_conn [a] [] [] X _ p0 c c'); [by eapply own_same|done|].
    unfold own_c, c', txb_advance. cbn. rewrite fmap_app. cbn. solve_Permutation.
  - split.
    + split; [done|]. right. cbn in H4. eexists q, _. split_and!; [done..|]. done.
    + exists c'. split_and!; try done. unfold c', txb_advance. cbn. rewrite Hh, Hsz. by apply mod_advance; [|lia].
  - cbn. econstructor; [apply lookup_insert_eq| |done|constructor]. cbn. by rewrite Hh.
  - intros b Hb. cbn. apply lookup_insert_ne. eapply (own_hand_apart a X); [exact O1|done].
Qed.

(** What the thread holds afterwards. *)
Lemma sends_held i ds new N c t t' :
  sends i ds new N c t t' -> t_conns t !! p0 = Some c -> held t' ≡ₚ held t ++ new.*1.
Proof.
  intros [[_ Hq] (c' & Ec' & Eu & _ & Er)] Ec. unfold held.
  assert (concat (own_q <$> t_queues t') ≡ₚ concat (own_q <$> t_queues t)) as ->.
  { destruct Hq as [[_ ->]|(q & q' & E1 & E2 & E3 & _)]; [done|]. apply rdz_lookup in E1.
    rewrite E2, list_fmap_insert, E3, list_insert_id; [done|]. by rewrite list_lookup_fmap, E1. }
  rewrite Ec', own_conns_insert, (own_conns_split _ _ _ Ec). unfold own_c. rewrite Eu, fmap_app.
  unfold ctx_rest in Er. injection Er as _ _ _ _ _ _ _ -> ->. solve_Permutation.
Qed.

Lemma sends_trans i ds ds' new new' N N' c c1 t t1 t2 :
  sends i ds new N c t t1 -> t_conns t1 !! p0 = Some c1 -> sends i ds' new' N' c1 t1 t2 ->
  sends i (ds ++ ds') (new ++ new') N' c t t2.
Proof.
  intros [A1 (c' & Ec' & Eu & _ & Er)] Ec1 [A2 (c2 & Ec2 & Eu2 & Eh2 & Er2)].
  rewrite Ec', lookup_insert_eq in Ec1. injection Ec1 as <-. split; [by eapply appends_trans|].
  exists c2. rewrite Ec2, Ec', insert_insert_eq, Eu2, Eu, app_assoc. split_and!; congruence.
Qed.

Lemma submitted_app mem l l' P Q N w :
  submitted mem l P Q w -> l <> [] -> submitted mem l' Q N 0 -> submitted mem (l ++ l') P N w.
Proof.
  induction 1 as [|a n l P Q w f Ef Em Hh Hs IH]; [done|]. intros _ Hl'. cbn. econstructor; [done..|].
  destruct l as [|d l]; [by inversion Hs; subst|]. by apply IH.
Qed.

(** The loop of [tcp_flow_tx_segmentation_zc]. *)
Lemma segment_spec n : forall X t c i buf r w P,
  own X t -> t_conns t !! p0 = Some c -> lc_tx_buf_size c = size -> txb_head c = P mod size -> 0 <= P -> 0 <= r <= size ->
  n = Z.to_nat ((r + TCP_MSS_W_TS - 1) / TCP_MSS_W_TS) -> take (Z.to_nat r) buf = bytes_of σ P r ->
  lpost (segment_loop n p0 i buf r w) t (fun _ t' => exists ds, own X t' /\ sends i ds (segs ds) (P + r) c t t' /\
    submitted (t_umem t') ds P (P + r) w /\
    forall b, b ∈ X ++ held t -> t_umem t' !! fix_umem_offset b = t_umem t !! fix_umem_offset b).
Proof.
  unfold TCP_MSS_W_TS.
  induction n as [|n IH]; intros X t c i buf r w P H Ec Hsz Hh HP Hr Hn Hbuf.
  - assert (r = 0) as -> by (pose proof (Z.div_pos (r + 1448 - 1) 1448); pose proof (Z.div_mod (r + 1448 - 1) 1448); lia).
    cbn. lp1. exists []. rewrite Z.add_0_r. split_and!; try done; [|constructor].
    split; [by apply appends_nil|]. exists c. by rewrite insert_id, app_nil_r.
  - assert (0 < r) as Hr0 by (destruct (Z.eq_dec r 0) as [->|]; [done|lia]).
    set (k := Z.min TCP_MSS_W_TS r). eapply lpost_eq; [apply segment_unfold|]. fold k. lp1. eapply lpost_mono; [by apply (segment_one_spec X t c i buf r w P); [..|lia|]|]. fold k.
    intros _ t1 (a & O1 & S1 & B1 & M1). pose proof (sends_held _ _ _ _ _ _ _ S1 Ec) as Hh1.
    pose proof S1 as [_ (c1 & Ec1 & Eu1 & Eh1 & Er1)]. unfold ctx_rest in Er1. injection Er1 as Rsz _ _ _ _ _ _ _ _.
    assert (0 < k <= r) as Hk by (unfold k, TCP_MSS_W_TS; lia).
    rewrite (u32_small (r - k)) by (unfold in32; lia).
    eapply lpost_mono; [apply (IH X t1 c1 i _ (r - k) 0 (P + k)); try done; try lia|].
    + by rewrite Ec1, lookup_insert_eq.
    + unfold k, TCP_MSS_W_TS. destruct (Z.le_gt_cases r 1448).
      * rewrite Z.min_r by lia. replace (r - r + 1448 - 1) with 1447 by lia. change (1447 / 1448) with 0.
        replace ((r + 1448 - 1) / 1448) with 1 in Hn; [lia|]. apply Z.div_unique with (r - 1); lia.
      * rewrite Z.min_l by lia. replace (r + 1448 - 1) with (r - 1448 + 1448 - 1 + 1 * 1448) in Hn by lia.
        rewrite Z.div_add in Hn by lia. pose proof (Z.div_pos (r - 1448 + 1448 - 1) 1448). lia.
    + rewrite <- (drop_bytes σ P r k), <- Hbuf by lia. rewrite skipn_firstn_comm. f_equal. lia.
    + intros _ t2 (ds & O2 & S2 & B2 & M2). exists (mk_xdp_desc a (HEADERS_LEN + k) :: ds).
      assert (forall b, b ∈ X ++ held t \/ b = a -> t_umem t2 !! fix_umem_offset b = t_umem t1 !! fix_umem_offset b) as M.
      { intros b Hb. apply M2. rewrite Hh1. cbn. set_solver. }
      replace (P + k + (r - k)) with (P + r) in * by lia. split_and!; [done| | |].
      * unfold segs. cbn. replace (HEADERS_LEN + k - HEADERS_LEN) with k by lia.
        eapply (sends_trans i [_] ds [(a, k)]); [exact S1|by rewrite Ec1, lookup_insert_eq|done].
      * eapply (submitted_app _ [_]); [|done|exact B2]. eapply submitted_ext; [|exact B1].
        intros d ->%list_elem_of_singleton. apply M. by right.
      * intros b Hb. rewrite M by (by left). by apply M1.
Qed.

(** ** The transmit half of a connection *)

(** The buffers up to [F] were released, the bytes up to [A] acknowledged, the
    head is at [H], and the application has sent up to [N]. *)
Record tx_conn (mem : gmap Z uframe) (c : eTrantcp_connection) (F A H N : Z) : Prop := {
  tc_size : lc_tx_buf_size c = size;
  tc_open : lc_status c = CONN_OPEN;
  tc_tiles : tiles mem (unack_tx_addrs c) F N;
  tc_free : pending_free_bytes c = A - F;
  tc_sent : txb_sent c = H - A;
  tc_alloc : txb_allocated c = N - H;
  tc_head : txb_head c = H mod size;
  tc_order : 0 <= F <= A /\ A <= H <= N /\ N - F <= size
}.

(** The queue of the connection exists. *)
Definition routed (t : tctx) : Prop :=
  exists c i q, t_conns t !! p0 = Some c /\ rdz (t_qid2idx t) (lc_qid c) = Some i /\ rdz (t_queues t) i = Some q.

Lemma routed_step i ds t t' c c' :
  routed t -> t_conns t !! p0 = Some c -> t_conns t' !! p0 = Some c' -> lc_qid c' = lc_qid c ->
  t_qid2idx t' = t_qid2idx t -> queued i ds t t' -> routed t'.
Proof.
  intros (c0 & j & q & Ec0 & Ej & Eq) Ec Ec' El Ei Hq. assert (c0 = c) as -> by congruence.
  assert (exists q', rdz (t_queues t') j = Some q') as [q' Eq'].
  { destruct Hq as [[_ ->]|(q1 & q2 & _ & -> & _)]; [by exists q|]. unfold rdz in *. destruct (0 <=? j); [|done].
    apply lookup_lt_is_Some. rewrite length_insert. by eapply lookup_lt_Some. }
  exists c', j, q'. by rewrite El, Ei.
Qed.

(** Between two calls of the library. *)
Record at_rest (X : list Z) (A N : Z) (t : tctx) : Prop := {
  ar_own : own X t;
  ar_conn : exists c, t_conns t !! p0 = Some c /\ tx_conn (t_umem t) c A A N N;
  ar_lists : free_pending_conns t = [] /\ retransmission_conns t = [];
  ar_routed : routed t
}.

Lemma avail_range c F A N mem :
  tx_conn mem c F A N N -> F = A -> 0 <= txb_bytes_avail c <= size - (N - A).
Proof.
  intros [E1 _ _ _ E2 E3 _ Ho] ->. unfold txb_bytes_avail. rewrite E1, E2, E3, Z.sub_diag.
  rewrite (u32_small (size - (N - A))) by (unfold in32; lia). rewrite u32_small by (unfold in32; lia).
  unfold xsk_bytes_avail. pose proof (u32_range (xsk_budget c - txb_sent c)). unfold in32 in *.
  destruct (_ >? _); lia.
Qed.

Lemma held_unack t c a n : t_conns t !! p0 = Some c -> (a, n) ∈ unack_tx_addrs c -> a ∈ held t.
Proof.
  intros Ec Ha. unfold held. rewrite (own_conns_split _ _ _ Ec). unfold own_c.
  apply (list_elem_of_fmap_2 fst) in Ha. cbn in Ha. set_solver.
Qed.

(** [conn_send] accepts what fits and submits it in packets. *)
Lemma send_spec X A N t buf count c :
  at_rest X A N t -> 0 <= count -> take (Z.to_nat count) buf = bytes_of σ N count -> t_conns t !! p0 = Some c ->
  let r := Z.min count (txb_bytes_avail c) in
  lpost (conn_send p0 buf count) t (fun r' t' => r' = r /\ at_rest X A (N + r) t' /\
    exists i ds, appends i ds t t' /\ submitted (t_umem t') ds N (N + r) r).
Proof.
  intros [Ho (c' & Ec' & Hc) [L1 L2] Hro] Hcnt Hbuf Ec r. assert (c' = c) as -> by congruence. clear Ec'.
  pose proof (avail_range _ _ _ _ _ Hc eq_refl) as Hav. pose proof Hc as [C1 C2 C3 C4 C5 C6 C7 C8].
  unfold conn_send, eTran_tcp_tx_reserve_zc. do 3 lp1. assert (c0 = c) as -> by congruence. lp1; [congruence|]. cbv zeta.
  assert ((if txb_bytes_avail c <? count then txb_bytes_avail c else count) = r) as ->
    by (unfold r; destruct (Z.ltb_spec (txb_bytes_avail c) count); lia).
  do 2 lp1. assert (c0 = c) as -> by congruence. lp1. set (c1 := c <| txb_allocated := _ |>).
  assert (txb_allocated c1 = r) as Ea1 by (cbn; rewrite C6, Z.sub_diag, u32_small by (unfold in32; lia); lia).
  set (t1 := t <| t_conns ::= <[p0 := c1]> |>). lp1.
  - apply Z.leb_le in Heqb. lp1. assert (r = 0) as Er by lia. rewrite Er, Z.add_0_r in *. split_and!; try done.
    + split; [by eapply own_conn_same| |done|].
      * exists c1. cbn. rewrite lookup_insert_eq. split; [done|]. split; try done. rewrite Ea1. lia.
      * eapply (routed_step 0 [] t _ c c1); [done..|apply lookup_insert_eq|done|done|by left].
    + exists 0, []. split; [by apply appends_nil|constructor].
  - apply Z.leb_gt in Heqb. unfold eTran_tcp_tx_submit_zc. do 3 lp1.
    assert (c0 = c1) as -> by (cbn in H1; rewrite lookup_insert_eq in H1; congruence). lp1; [done|]. lp1.
    { apply Z.ltb_lt in Heqb0. lia. }
    unfold tcp_flow_tx_segmentation_zc. do 5 lp1. cbn in H2. rewrite lookup_insert_eq in H2. injection H2 as <-.
    rewrite (u32_small r) by (unfold in32; lia).
    eapply lpost_mono; [eapply (segment_spec _ X t1 c1 i buf r r N); try done; try lia|].
    + by eapply own_conn_same.
    + rewrite <- (take_bytes σ N count r), <- Hbuf, take_take by lia. f_equal. lia.
    + intros _ t2 (ds & O2 & S2 & B2 & M2). pose proof S2 as [A2 (c2 & Ec2 & Eu2 & Eh2 & Er2)].
      do 2 lp1. rewrite Ec2, lookup_insert_eq in H2. injection H2 as <-. repeat lp1.
      unfold ctx_rest in Er2. injection Er2 as R1 R2 R3 R4 R5 R6 R7 R8 R9. destruct A2 as [Rr Rq]. unfold rest in Rr. injection Rr as P1 P2 P3 P4 P5.
      split; [done|]. split.
      * split; [by eapply own_conn_same; [|by rewrite Ec2, lookup_insert_eq|]| | |].
        -- eexists. cbn. rewrite lookup_insert_eq. split; [done|]. split; cbn; rewrite ?R1, ?R2, ?R4, ?R5, ?Eh2, ?Eu2; try done.
           ++ eapply tiles_app; [|by eapply submitted_tiles]. eapply tiles_ext; [|exact C3]. intros a Ha.
              apply list_elem_of_fmap in Ha as ([a' k] & -> & Ha). apply same_data_eq. rewrite M2; [done|].
              apply elem_of_app. right. eapply (held_unack _ c1); [cbn; apply lookup_insert_eq|exact Ha].
           ++ cbn. rewrite C5. rewrite u32_small by (unfold in32; lia). lia.
           ++ rewrite R3. change (u32 (txb_allocated c + r)) with (txb_allocated c1). rewrite Ea1, Z.sub_diag. rewrite u32_small by (unfold in32; lia). lia.
           ++ lia.
        -- cbn. by rewrite P4, P5.
        -- eapply (routed_step i ds t _ c); [done..|cbn; apply lookup_insert_eq|cbn; by rewrite R6|done|exact Rq].
      * exists i, ds. split; [|done]. split; [unfold rest; cbn in *; congruence|exact Rq].
Qed.

(** ** What a poll learns of the connection *)

(** [sync_state] on the packets of a batch that are for the connection: what
    [tcp_nic_poll] does for the transmit side of one connection. *)
Fixpoint sync_all (ms : list rx_meta) : L unit :=
  match ms with [] => lret tt | m :: ms => sync_state p0 m ;; sync_all ms end.

(** The end of [eTran_tcp_poll_events]. *)
Definition poll_end : L unit := tcp_free_buffers ;; tcp_retransmission.

(** Packet [m] acknowledges [k] bytes. *)
Definition acks (m : rx_meta) (k : Z) : Prop :=
  mrx_ack_bytes m = POISON_32 /\ k = 0 \/ mrx_ack_bytes m = k /\ 0 < k.

(** Packet [m] tells to go back to position [A]. *)
Definition goes_back (m : rx_meta) (A : Z) : Prop := mrx_ack_bytes m = Z.lor (A mod size) RECOVERY_MASK.

(** In the middle of a poll that started in [t0]. *)
Record polling (X : list Z) (F A H N : Z) (t0 t : tctx) : Prop := {
  pl_own : own X t;
  pl_conn : exists c c0, t_conns t !! p0 = Some c /\ t_conns t0 !! p0 = Some c0 /\ tx_conn (t_umem t) c F A H N /\
    unack_tx_addrs c = unack_tx_addrs c0 /\ lc_qid c = lc_qid c0;
  pl_mem : t_umem t = t_umem t0 /\ t_queues t = t_queues t0 /\
    (t_params t, t_tid t, t_qid2idx t) = (t_params t0, t_tid t0, t_qid2idx t0);
  pl_free : free_pending_conns t = if A =? F then [] else [p0];
  pl_back : retransmission_conns t = if H =? N then [] else [(p0, N - H)]
}.

Lemma polling_start X A N t : at_rest X A N t -> polling X A A N N t t.
Proof.
  intros [H1 (c & Ec & Hc) [L1 L2] _]. split; [done| |done|by rewrite Z.eqb_refl|by rewrite Z.eqb_refl].
  by exists c, c.
Qed.

Lemma land_recovery k : 0 <= k < 2147483648 -> Z.land k RECOVERY_MASK = 0.
Proof.
  intros Hk. apply Z.bits_inj'. intros j Hj. rewrite Z.land_spec, Z.bits_0. unfold RECOVERY_MASK.
  change 2147483648 with (2 ^ 31). destruct (Z.eq_dec j 31) as [->|Hn].
  - rewrite <- (Z.mod_small k (2 ^ 31)) by (change (2 ^ 31) with 2147483648; lia). by rewrite Z.mod_pow2_bits_high.
  - rewrite Z.pow2_bits_false by lia. apply andb_false_r.
Qed.

Lemma lor_recovery k : 0 <= k < 2147483648 -> Z.lor k RECOVERY_MASK = k + 2147483648.
Proof. intros Hk. rewrite <- Z.add_lor_land, land_recovery by done. unfold RECOVERY_MASK. lia. Qed.

Lemma land_recovered k : 0 <= k < 2147483648 ->
  Z.land (Z.lor k RECOVERY_MASK) RECOVERY_MASK = RECOVERY_MASK /\
  Z.land (Z.lor k RECOVERY_MASK) (Z.lnot RECOVERY_MASK) = k.
Proof.
  intros Hk. split.
  - by rewrite Z.land_lor_distr_l, land_recovery, Z.land_diag, Z.lor_0_l.
  - rewrite Z.land_lor_distr_l, Z.land_lnot_diag, Z.lor_0_r.
    pose proof (Z.lor_ldiff_and k RECOVERY_MASK) as E. by rewrite land_recovery, Z.lor_0_r, Z.ldiff_land in E.
Qed.

Lemma budget_spec X F A H N t0 t m :
  polling X F A H N t0 t ->
  ltot (lwhen (negb (mrx_xsk_budget_avail m =? POISON_32))
    (upd_c p0 (fun c => c <| xsk_budget := mrx_xsk_budget_avail m |>))) t (fun _ t' => polling X F A H N t0 t').
Proof.
  intros HP. tp1; [|done]. destruct HP as [P1 (c & c0 & Ec & E0 & Hc & Eu) P3 P4 P5]. tp1.
  split; [by eapply own_conn_same| |done..]. eexists _, c0. cbn. rewrite lookup_insert_eq. split; [done|].
  split; [done|]. split; [|done]. by destruct Hc; split.
Qed.

Lemma sync_ack_spec X F A N t0 t k :
  polling X F A N N t0 t -> 0 < k -> A + k <= N ->
  ltot (sync_ack p0 k) t (fun _ t' => polling X F (A + k) N N t0 t').
Proof.
  intros [P1 (c & c0 & Ec & E0 & [C1 C2 C3 C4 C5 C6 C7 C8] & Eu) P3 P4 P5] Hk Hle. unfold sync_ack. do 3 tp1.
  set (t1 := if pending_free_bytes c =? 0 then t <| free_pending_conns ::= fun l => l ++ [p0] |> else t).
  apply (ltot_mono _ _ (fun _ t' => t' = t1)).
  { unfold t1. tp1; [tp1|]; by rewrite H. }
  intros _ ? ->. assert (t_conns t1 = t_conns t /\ t_queues t1 = t_queues t /\ t_umem t1 = t_umem t /\
    rest t1 = (t_params t, t_tid t, t_qid2idx t, [p0], retransmission_conns t) /\ own X t1) as (T1 & T2 & T3 & T4 & T5).
  { unfold t1, rest. rewrite C4. destruct (Z.eqb_spec A F) as [->|Hn].
    - rewrite Z.sub_diag. cbn. rewrite P4. split_and!; try done. by eapply own_same.
    - destruct (Z.eqb_spec (A - F) 0); [lia|]. by rewrite P4. }
  clearbody t1. unfold rest in T4. injection T4 as T4 T6 T7 T8 T9.
  assert (t_conns t1 !! p0 = Some c) as Ec1 by by rewrite T1. tp1. split.
  - by eapply own_conn_same.
  - eexists _, c0. cbn. rewrite lookup_insert_eq, T3. split; [done|]. split; [done|]. split; [|done].
    split; cbn; try done; [rewrite C4|rewrite C5|lia]; rewrite u32_small by (unfold in32; lia); lia.
  - cbn. by rewrite T2, T3, T4, T6, T7.
  - cbn. rewrite T8. destruct (Z.eqb_spec (A + k) F); [lia|done].
  - cbn. by rewrite T9, P5.
Qed.

Lemma ack_spec X F A N t0 t m k :
  polling X F A N N t0 t -> acks m k -> A + k <= N ->
  ltot (sync_state p0 m) t (fun _ t' => polling X F (A + k) N N t0 t').
Proof.
  intros HP Hk Hle. pose proof HP as [_ (c & _ & Ec & _ & [_ _ _ _ C5 _ _ C8] & _) _ _ _]. unfold sync_state. do 3 tp1.
  assert (negb (mrx_ack_bytes m =? POISON_32) && nz (Z.land (mrx_ack_bytes m) RECOVERY_MASK) = false) as ->.
  { destruct Hk as [[-> _]|[-> Hk]]; [done|]. rewrite land_recovery by lia. apply andb_false_r. }
  cbn [lwhen]. do 2 tp1. eapply ltot_mono; [by apply budget_spec|]. intros ? t1 H1; cbv beta in H1.
  pose proof H1 as [_ (c1 & _ & Ec1 & _ & [_ _ _ _ D5 _ _ _] & _) _ _ _]. do 3 tp1.
  rewrite C5, D5, Z.eqb_refl. cbn [andb]. destruct Hk as [[-> ->]|[-> Hk]].
  - rewrite Z.eqb_refl. cbn [negb andb lwhen]. do 2 tp1. by rewrite Z.add_0_r.
  - assert ((k =? POISON_32) = false) as -> by (apply Z.eqb_neq; unfold POISON_32; lia). rewrite (proj2 (nz_true k)) by lia.
    cbn [negb andb lwhen]. eapply ltot_mono; [by apply sync_ack_spec|]. intros ? t2 H2; cbv beta in H2. by tp1.
Qed.

(** The distance back, from offsets in the ring. *)
Lemma go_back_bytes A N : 0 <= A -> 0 < N - A < size ->
  A mod size <> N mod size /\
  (if N mod size >? A mod size then u32 (N mod size - A mod size) else u32 (size - u32 (A mod size - N mod size))) = N - A.
Proof.
  intros HA Hd. pose proof (Z.mod_pos_bound A size ltac:(lia)). pose proof (Z.mod_pos_bound N size ltac:(lia)).
  assert (N mod size = A mod size + (N - A) \/ N mod size = A mod size + (N - A) - size) as Hm.
  { rewrite <- (Z.sub_add A N) at 1 3. rewrite <- Z.add_mod_idemp_r by lia.
    destruct (Z.lt_ge_cases (A mod size + (N - A)) size); [left|right].
    - rewrite Z.mod_small; lia.
    - replace (N - A + A mod size) with (A mod size + (N - A) - size + 1 * size) by lia.
      rewrite Z.mod_add, Z.mod_small by lia. lia. }
  split; [lia|]. destruct (Z.gtb_spec (N mod size) (A mod size)).
  - rewrite u32_small by (unfold in32; lia). lia.
  - rewrite (u32_small (A mod size - N mod size)), u32_small by (unfold in32; lia). lia.
Qed.

Lemma back_spec X F A N t0 t m :
  polling X F A N N t0 t -> goes_back m A -> 0 < N - A < size ->
  ltot (sync_state p0 m) t (fun _ t' => polling X F A A N t0 t').
Proof.
  intros [P1 (c & c0 & Ec & E0 & [C1 C2 C3 C4 C5 C6 C7 C8] & Eu) P3 P4 P5] Hb Hd.
  destruct (go_back_bytes A N) as [Hne Hg]; [lia..|]. pose proof (Z.mod_pos_bound A size ltac:(lia)) as Hm.
  unfold sync_state. rewrite Hb. destruct (land_recovered (A mod size)) as [-> ->]; [lia|]. rewrite lor_recovery by lia.
  assert ((A mod size + 2147483648 =? POISON_32) = false) as -> by (apply Z.eqb_neq; unfold POISON_32; lia).
  do 3 tp1. change (nz RECOVERY_MASK) with true. cbn [negb andb lwhen]. unfold sync_go_back. do 2 tp1. rewrite C7, C1, Hg.
  destruct (Z.eqb_spec (A mod size) (N mod size)); [done|]. do 3 tp1. rewrite C5, C6.
  rewrite (u32_small (N - A - (N - A))), (u32_small (N - N + (N - A))) by (unfold in32; lia).
  tp1. eapply ltot_mono; [apply (budget_spec X F A A N t0)|].
  - set (c1 := c <| txb_head := _ |> <| txb_allocated := _ |> <| txb_sent := _ |>).
    split; [by eapply (own_same _ (t <| t_conns ::= <[p0 := c1]> |>)); [by eapply own_conn_same|..]| |done|done|].
    + exists c1, c0. cbn. rewrite lookup_insert_eq. split; [done|]. split; [done|]. split; [|done].
      split; cbn; try done; lia.
    + cbn. rewrite P5, Z.eqb_refl. destruct (Z.eqb_spec A N); [lia|done].
  - intros ? t1 H1; cbv beta in H1. pose proof H1 as [_ (c1 & _ & Ec1 & _ & [_ _ _ _ D5 _ _ _] & _) _ _ _]. do 3 tp1.
    rewrite D5. destruct (Z.eqb_spec (N - A) (A - A)); [lia|]. cbn [andb lwhen]. by do 2 tp1.
Qed.
(** ** Releasing acknowledged packets *)

Lemma free_spec H A N l1 : forall X F l2 t c,
  own X t -> t_conns t !! p0 = Some c -> tx_conn (t_umem t) c F A H N -> unack_tx_addrs c = l1 ++ l2 -> tiles (t_umem t) l1 F A ->
  ltot (free_loop (l1 ++ l2) p0) t (fun _ t' => own X t' /\ rest t' = rest t /\ t_umem t' = t_umem t /\ t_queues t' = t_queues t /\
    exists c', t_conns t' !! p0 = Some c' /\ tx_conn (t_umem t) c' A A H N /\ unack_tx_addrs c' = l2 /\ lc_qid c' = lc_qid c).
Proof.
  induction l1 as [|[a n] l1 IH]; intros X F l2 t c Ho Ec Hc Eu Ht.
  - inversion Ht; subst. pose proof (tc_free _ _ _ _ _ _ Hc) as E. rewrite Z.sub_diag in E.
    cbn [app]. destruct l2 as [|[b k] l2]; cbn; do 2 tp1; rewrite E; cbn; tp1; split_and!; try done; by exists c.
  - inversion Ht as [|? ? ? ? ? Hh Ht']; subst. pose proof (tiles_le _ _ _ _ Ht') as Hle. pose proof Hh as [Hn _].
    cbn [app free_loop]. do 2 tp1. destruct Hc as [C1 C2 C3 C4 C5 C6 C7 C8]. rewrite C4.
    destruct (Z.eqb_spec (A - F) 0); [lia|]. do 3 tp1. set (c1 := c <| unack_tx_addrs := _ |>). set (t1 := t <| t_conns ::= _ |>).
    assert (own (a :: X) t1) as O1.
    { apply (own_conn [] [a] [] X t p0 c c1); [done..|]. unfold own_c. rewrite Eu. cbn. solve_Permutation. }
    destruct (prod_total a X t1 t1) as (s & Es & O2); [done..|].
    exists tt. eexists. split; [exact Es|]. assert (t_conns (t1 <| t_pool := s |>) !! p0 = Some c1) as Ec1 by apply lookup_insert_eq.
    do 2 tp1. set (c2 := c1 <| pending_free_bytes := _ |>).
    eapply ltot_mono; [apply (IH X (F + n) l2 _ c2)|].
    + by eapply own_conn_same.
    + cbn. apply lookup_insert_eq.
    + split; cbn; try done; [|rewrite C4, u32_small by (unfold in32; lia); lia|lia].
      rewrite Eu in C3. by inversion C3.
    + done.
    + done.
    + intros ? t2 (Q1 & Q2 & Q3 & Q4 & c' & Q5 & Q6 & Q7 & Q8). split_and!; try done. by exists c'.
Qed.

(** [tcp_free_buffers], when the acknowledged bytes end at the end of a packet. *)
Lemma free_buffers_spec X F A H N t0 t l1 l2 :
  polling X F A H N t0 t -> (forall c0, t_conns t0 !! p0 = Some c0 -> unack_tx_addrs c0 = l1 ++ l2) ->
  foldr Z.add 0 l1.*2 = A - F ->
  ltot tcp_free_buffers t (fun _ t' => polling X A A H N (t0 <| t_conns ::= alter (fun c => c <| unack_tx_addrs := l2 |>) p0 |>) t').
Proof.
  intros [P1 (c & c0 & Ec & E0 & Hc & Eu & Eq) P3 P4 P5] Hl Hsum. unfold tcp_free_buffers. do 2 tp1. rewrite P4.
  rewrite (Hl _ E0) in Eu. pose proof (tc_tiles _ _ _ _ _ _ Hc) as Ht. rewrite Eu in Ht.
  apply tiles_split in Ht as (Q & Ht1 & Ht2). pose proof (tiles_sum _ _ _ _ Ht1) as HQ. assert (Q = A) as -> by lia.
  assert (forall t', own X t' -> t_queues t' = t_queues t -> t_umem t' = t_umem t ->
    rest t' = (t_params t, t_tid t, t_qid2idx t, [], retransmission_conns t) ->
    (exists c', t_conns t' !! p0 = Some c' /\ tx_conn (t_umem t) c' A A H N /\ unack_tx_addrs c' = l2 /\ lc_qid c' = lc_qid c) ->
    polling X A A H N (t0 <| t_conns ::= alter (fun c => c <| unack_tx_addrs := l2 |>) p0 |>) t') as Hend.
  { intros t' Q1 Q2 Q3 Q4 (c' & Q5 & Q6 & Q7 & Q8). unfold rest in Q4. injection Q4 as R1 R2 R3 R4 R5.
    split; [done| |by cbn; rewrite Q2, Q3, R1, R2, R3|by rewrite R4, Z.eqb_refl|by rewrite R5].
    exists c'. eexists. cbn. rewrite lookup_alter_eq, E0. cbn. split; [done|]. split; [done|]. rewrite Q3. split; [done|].
    split; [done|cbn; congruence]. }
  destruct (Z.eqb_spec A F) as [->|Hn].
  - cbn. tp1. apply Hend; [done..|by unfold rest; rewrite P4|]. exists c. split_and!; try done.
    rewrite Eu. destruct l1 as [|[a n] l1]; [done|]. inversion Ht1 as [|? ? ? ? ? [? _] Ht']; subst.
    pose proof (tiles_le _ _ _ _ Ht'). lia.
  - cbn. do 3 tp1. rewrite Eu. eapply ltot_mono; [by apply (free_spec H A N l1 X F l2 t c)|].
    intros ? t1 (Q1 & Q2 & Q3 & Q4 & Q5). do 3 tp1. unfold rest in Q2. injection Q2 as R1 R2 R3 R4 R5.
    apply Hend; [by eapply own_same|done..|by unfold rest; cbn; rewrite R1, R2, R3, R5|]. exact Q5.
Qed.
(** ** Going back *)

Definition descs (l : list (Z * Z)) : list xdp_desc := (fun x => mk_xdp_desc x.1 (HEADERS_LEN + x.2)) <$> l.

Lemma segs_descs l : segs (descs l) = l.
Proof.
  unfold segs, descs. rewrite <- list_fmap_compose. induction l as [|[a n] l IH]; [done|]. cbn. rewrite IH.
  do 2 f_equal. lia.
Qed.

Lemma descs_frames l : (fun d => fix_umem_offset (desc_addr d)) <$> descs l = fix_umem_offset <$> l.*1.
Proof. induction l as [|[a n] l IH]; [done|]. unfold descs in *. rewrite !fmap_cons, IH. done. Qed.

Lemma unack_nodup X t c : own X t -> t_conns t !! p0 = Some c -> NoDup (fix_umem_offset <$> (unack_tx_addrs c).*1).
Proof.
  intros H Ec. pose proof (ow_nodup _ _ H) as Hn. unfold held in Hn. rewrite (own_conns_split _ _ _ Ec) in Hn.
  unfold own_c in Hn. rewrite !fmap_app in Hn.
  repeat match type of Hn with NoDup (_ ++ _) => apply list.NoDup_app in Hn as (? & ? & Hn) end.
  repeat match goal with H : NoDup (_ ++ _) |- _ => apply list.NoDup_app in H as (? & ? & ?) end. done.
Qed.

(** The fields of a connection that retransmitting a packet leaves alone. *)
Definition ctx_back (c : eTrantcp_connection) := (ctx_rest c, unack_tx_addrs c).

(** The loop of the retransmission, from position [P] on. *)
Lemma retransmit_spec N i l : forall X P t c q skip first,
  own X t -> t_conns t !! p0 = Some c -> lc_tx_buf_size c = size -> txb_head c = P mod size -> 0 <= P -> N - P <= size ->
  rdz (t_queues t) i = Some q -> tiles (t_umem t) l P N -> NoDup (fix_umem_offset <$> l.*1) ->
  ltot (retransmit_loop l p0 i 0 (N - P) skip first) t (fun r t' =>
    r = (0, match first with None => head l.*1 | _ => first end) /\ own X t' /\ appends i (descs l) t t' /\
    submitted (t_umem t') (descs l) P N 0 /\
    (exists c', t_conns t' !! p0 = Some c' /\ txb_head c' = N mod size /\ ctx_back c' = ctx_back c) /\
    forall k, k ∉ fix_umem_offset <$> l.*1 -> t_umem t' !! k = t_umem t !! k).
Proof.
  induction l as [|[a n] l IH]; intros X P t c q skip first Ho Ec Hsz Hh HP Hd Eq Ht Hn; cbn [retransmit_loop].
  - inversion Ht; subst. rewrite Z.sub_diag. tp1. split_and!; try done; [by destruct first|by apply appends_nil|constructor|by exists c].
  - inversion Ht as [|? ? ? ? ? Hhold Ht']; subst. pose proof (tiles_le _ _ _ _ Ht') as Hle. pose proof Hhold as [Hn0 (f & Ef & Hdata)].
    cbn in Hn. apply list.NoDup_cons in Hn as [Hna Hn]. destruct (Z.eqb_spec (N - P) 0); [lia|]. cbv zeta.
    pose proof (u32_range (skip + n)) as Hr. destruct (Z.ltb_spec (u32 (skip + n)) 0); [unfold in32 in Hr; lia|].
    set (g := f <| uf_meta := Tx_meta (txmeta_clear <| mtx_tx_pos := txb_head c |> <| mtx_plen := n |>) |>).
    do 6 tp1. fold g. set (t1 := t <| t_umem ::= _ |>). assert (t_conns t1 !! p0 = Some c) as Ec1 by done. do 2 tp1.
    set (t2 := t1 <| t_conns ::= _ |>). unfold tx_submit. assert (rdz (t_queues t2) i = Some q) as Eq2 by done. do 2 tp1.
    replace (if N - P >? n then N - P - n else 0) with (N - (P + n)) by (destruct (Z.gtb_spec (N - P) n); lia).
    set (q' := q <| xi_tx ::= _ |> <| outstanding := _ |>). set (t3 := t2 <| t_queues ::= _ |>).
    assert (forall k, k <> fix_umem_offset a -> t_umem t3 !! k = t_umem t !! k) as Hmem
      by (intros k Hk; cbn; by apply lookup_insert_ne).
    eapply ltot_mono; [apply (IH X (P + n) t3 (txb_advance n c) q')|].
    + eapply own_queue_same; [|exact Eq2|done]. eapply own_conn_same; [by eapply own_same|exact Ec1|done].
    + cbn. apply lookup_insert_eq.
    + done.
    + unfold txb_advance. cbn. rewrite Hh, Hsz. apply mod_advance; lia.
    + lia.
    + lia.
    + cbn. by apply (rdz_insert_eq _ _ q).
    + eapply tiles_ext; [|done]. intros b Hb. apply same_data_eq, Hmem. intros E. apply Hna. rewrite <- E. by apply list_elem_of_fmap_2.
    + done.
    + intros r t4 (E1 & O4 & A4 & S4 & (c' & Q1 & Q2 & Q3) & M4). split_and!; try done.
      * rewrite E1. by destruct first.
      * cbn. eapply (appends_trans i [_] (descs l) t t3); [|done]. split; [done|]. right. by exists q, q'.
      * assert (t_umem t4 !! fix_umem_offset a = Some g) as Eg by (rewrite M4 by done; apply lookup_insert_eq).
        cbn. econstructor; [exact Eg|cbn; by rewrite Hh| |done]. split; [done|]. by exists g.
      * by exists c'.
      * intros k Hk. cbn in Hk. apply not_elem_of_cons in Hk as [Hk1 Hk2]. rewrite M4 by done. by apply Hmem.
Qed.
Lemma submitted_first mem d l P N w f m :
  submitted mem (d :: l) P N 0 -> mem !! fix_umem_offset (desc_addr d) = Some f -> uf_meta f = Tx_meta m ->
  fix_umem_offset (desc_addr d) ∉ (fun d => fix_umem_offset (desc_addr d)) <$> l ->
  submitted (<[fix_umem_offset (desc_addr d) := f <| uf_meta := Tx_meta (m <| mtx_tx_pending := w |>) |>]> mem) (d :: l) P N w.
Proof.
  intros Hs Ef Em Hn. inversion Hs as [|a n l' ? ? ? f' Ef' Em' [Hn' (f2 & Ef2 & Hd)] Hs']; subst. cbn in *.
  assert (f' = f) as -> by congruence. assert (f2 = f) as -> by congruence.
  econstructor; [apply lookup_insert_eq|cbn; by replace m with (mk_tx_meta 0 0 0 0 (P mod size) n) by congruence| |].
  - split; [done|]. eexists. split; [apply lookup_insert_eq|done].
  - eapply submitted_ext; [|done]. intros e He. apply lookup_insert_ne. intros E. apply Hn. rewrite E.
    by apply (list_elem_of_fmap_2 (fun d => fix_umem_offset (desc_addr d))).
Qed.

(** Every unacknowledged packet is submitted again, with the total in the first. *)
Lemma resubmit_spec X A N t c i q :
  own X t -> t_conns t !! p0 = Some c -> tx_conn (t_umem t) c A A A N -> A < N ->
  rdz (t_qid2idx t) (lc_qid c) = Some i -> rdz (t_queues t) i = Some q ->
  ltot (eTran_tcp_tx_submit_zc_retransmission p0 (N - A)) t (fun _ t' => own X t' /\
    (exists c', t_conns t' !! p0 = Some c' /\ tx_conn (t_umem t') c' A A N N /\ lc_qid c' = lc_qid c) /\
    appends i (descs (unack_tx_addrs c)) t t' /\ submitted (t_umem t') (descs (unack_tx_addrs c)) A N (N - A)).
Proof.
  intros Ho Ec [C1 C2 C3 C4 C5 C6 C7 C8] HA Ei Eq. pose proof (unack_nodup _ _ _ Ho Ec) as Hnd.
  unfold eTran_tcp_tx_submit_zc_retransmission, tcp_flow_tx_segmentation_zc_retransmission. do 2 tp1.
  destruct (decide _); [done|]. do 6 tp1. rewrite C5, Z.sub_diag.
  eapply ltot_mono; [apply (retransmit_spec N i _ X A t c q); try done; lia|].
  intros r t1 (-> & O1 & [Ap Aq] & S1 & (c1 & Ec1 & Eh1 & Er1) & _). cbv beta iota.
  destruct (unack_tx_addrs c) as [|[a k] l] eqn:Eu; [inversion C3; lia|]. cbn [head fmap list_fmap fst]. tp1.
  inversion S1 as [|? ? ? ? ? ? f Ef Em Hh Hs]; subst. do 2 tp1. apply ltot_bind. eapply ltot_rd_tx; [done..|]. do 3 tp1.
  rewrite Z.sub_0_r, (u32_small (N - A)) by (unfold in32; lia).
  unfold ctx_back, ctx_rest in Er1. injection Er1 as R1 R2 R3 R4 R5 R6 R7 R8 R9 R10. rewrite Eu in R10.
  set (g := f <| uf_meta := _ |>). set (mem := <[fix_umem_offset a := g]> (t_umem t1)). assert (submitted mem (descs ((a, k) :: l)) A N (N - A)) as S2.
  { apply (submitted_first _ (mk_xdp_desc a (HEADERS_LEN + k))); [done..|]. change ((fun x => mk_xdp_desc x.1 (HEADERS_LEN + x.2)) <$> l) with (descs l).
    rewrite descs_frames. by apply list.NoDup_cons in Hnd as [Hnd _]. }
  set (t2 := t1 <| t_umem ::= _ |>). assert (t_conns t2 !! p0 = Some c1) as Ec2 by done. do 2 tp1. split_and!.
  - eapply own_conn_same; [by eapply own_same|exact Ec2|done].
  - eexists. cbn. rewrite lookup_insert_eq. split; [done|]. split; [|by cbn]. split; cbn; rewrite ?R1, ?R2, ?R4, ?R5, ?R10; try done.
    + rewrite <- (segs_descs ((a, k) :: l)). by eapply submitted_tiles.
    + rewrite C5, u32_small by (unfold in32; lia). lia.
    + rewrite R3, C6, u32_small by (unfold in32; lia). lia.
    + lia.
  - by split.
  - done.
Qed.

Lemma retransmission_spec X A H N t0 t :
  polling X A A H N t0 t -> H = N \/ H = A -> routed t0 ->
  ltot tcp_retransmission t (fun _ t' => at_rest X A N t' /\ exists i ds, queued i ds t0 t' /\ submitted (t_umem t') ds H N (N - H) /\
    (forall c0, t_conns t0 !! p0 = Some c0 -> H < N -> ds = descs (unack_tx_addrs c0))).
Proof.
  intros [P1 (c & c0 & Ec & E0 & Hc & Eu & Eq) (P3 & P3' & P3'') P4 P5] HH Hro.
  injection P3'' as P6 P7 P8. rewrite Z.eqb_refl in P4.
  assert (routed t) as Hrt by (eapply (routed_step 0 [] t0 t c0 c); [done..|by left]).
  unfold tcp_retransmission. do 2 tp1. rewrite P5. destruct (Z.eqb_spec H N) as [->|Hne].
  - cbn. tp1. split; [split; [done|by exists c|by rewrite P5|done]|]. exists 0, []. rewrite Z.sub_diag.
    split; [by left|]. split; [constructor|lia].
  - assert (H = A) as -> by lia. cbn [retransmission_loop]. do 3 tp1. pose proof (tc_order _ _ _ _ _ _ Hc) as Hord.
    pose proof (tc_tiles _ _ _ _ _ _ Hc) as Ht.
    destruct (unack_tx_addrs c) as [|x l] eqn:El; [inversion Ht; lia|]. tp1.
    destruct Hrt as (c' & i & q & Ec' & Ei & Eqi). assert (c' = c) as -> by congruence.
    eapply ltot_mono; [apply (resubmit_spec X A N t c i q); try done; lia|].
    intros r t1 (O1 & (c1 & Ec1 & Hc1 & El1) & [Ap Aq] & S1). do 3 tp1. unfold rest in Ap. injection Ap as R1 R2 R3 R4 R5.
    rewrite El in *. cbn. tp1. unfold queued in Aq. rewrite P3' in Aq. split.
    + split; [by eapply own_same|by exists c1|by cbn; rewrite R4, P4|].
      eapply (routed_step i (descs (x :: l)) t0 _ c0 c1); [done..|congruence|cbn; congruence|exact Aq].
    + exists i, (descs (x :: l)). split_and!; [exact Aq|done|]. intros c2 E2 _. congruence.
Qed.

(** ** A poll *)

Lemma acks_spec ms : forall ks X F A N t0 t,
  Forall2 acks ms ks -> polling X F A N N t0 t -> A + foldr Z.add 0 ks <= N ->
  ltot (sync_all ms) t (fun _ t' => polling X F (A + foldr Z.add 0 ks) N N t0 t').
Proof.
  induction ms as [|m ms IH]; intros ks X F A N t0 t Hk HP Hle; inversion Hk as [|? k ? ks' Hm Hms]; subst; cbn [sync_all foldr].
  - tp1. by rewrite Z.add_0_r.
  - assert (0 <= foldr Z.add 0 ks') as H0.
    { clear -Hms. induction Hms as [|m k ms ks [[_ ->]|[_ ?]] _ IH]; cbn; lia. }
    assert (A + k <= N) by (destruct Hm as [[_ ->]|[_ ?]]; cbn in Hle; lia).
    tp1. eapply ltot_mono; [by apply (ack_spec X F A N t0)|]. intros ? t1 H1; cbv beta in H1.
    eapply ltot_mono; [apply (IH ks' X F (A + k) N t0); [done..|cbn in Hle; lia]|]. intros ? t2 H2; cbv beta in H2.
    by replace (A + (k + foldr Z.add 0 ks')) with (A + k + foldr Z.add 0 ks') by lia.
Qed.

Lemma sync_all_app ms ms' t : sync_all (ms ++ ms') t = (sync_all ms ;; sync_all ms') t.
Proof.
  revert t. induction ms as [|m ms IH]; intros t; [done|]. cbn. rewrite lbind_assoc. apply lbind_ext. intros ? ?. apply IH.
Qed.

Lemma ltot_eq {A} (m m' : L A) t Q : m t = m' t -> ltot m' t Q -> ltot m t Q.
Proof. intros E (a & t' & Ea & H). exists a, t'. by rewrite E. Qed.

(** The packets of a poll: acknowledgements, and at the end one that tells to
    go back, or none. *)
Lemma batch_spec X A N t ms ks back :
  at_rest X A N t -> Forall2 acks ms ks -> let A' := A + foldr Z.add 0 ks in A' <= N ->
  back = [] \/ (exists m, back = [m] /\ goes_back m A' /\ 0 < N - A' < size) ->
  ltot (sync_all (ms ++ back)) t (fun _ t' => polling X A A' (match back with [] => N | _ => A' end) N t t').
Proof.
  intros HR Hk A' HA' Hb. eapply ltot_eq; [apply sync_all_app|]. tp1.
  eapply ltot_mono; [by eapply (acks_spec ms ks X A A N t); [|apply polling_start|]|]. intros ? t1 H1; cbv beta in H1.
  destruct Hb as [->|(m & -> & Hg & Hd)]; cbn [sync_all]; [by tp1|]. tp1.
  eapply ltot_mono; [by apply (back_spec X A A' N t)|]. intros ? t2 H2; cbv beta in H2. by tp1.
Qed.

(** The rest of a poll, when what is acknowledged in all ends at the end of a
    packet. *)
Lemma tx_poll_spec X A N t ms ks back l1 l2 c :
  at_rest X A N t -> t_conns t !! p0 = Some c -> Forall2 acks ms ks -> unack_tx_addrs c = l1 ++ l2 ->
  foldr Z.add 0 l1.*2 = foldr Z.add 0 ks -> let A' := A + foldr Z.add 0 ks in
  back = [] \/ (exists m, back = [m] /\ goes_back m A' /\ 0 < N - A' < size) ->
  ltot (sync_all (ms ++ back) ;; poll_end) t (fun _ t' => at_rest X A' N t' /\ exists i ds, queued i ds t t' /\
    match back with [] => ds = [] | _ => ds = descs l2 /\ submitted (t_umem t') ds A' N (N - A') end).
Proof.
  intros HR Ec Hk Eu Hs A' Hb. pose proof HR as [_ (c' & Ec' & Hc) _ Hro]. assert (c' = c) as -> by congruence.
  pose proof (tc_tiles _ _ _ _ _ _ Hc) as Ht. rewrite Eu in Ht. apply tiles_split in Ht as (Q & Ht1 & Ht2).
  pose proof (tiles_sum _ _ _ _ Ht1). pose proof (tiles_le _ _ _ _ Ht2). assert (Q = A') as -> by (unfold A'; lia).
  tp1. eapply ltot_mono; [by apply (batch_spec X A N t ms ks back)|]. intros ? t1 H1; cbv beta in H1. unfold poll_end.
  set (H' := match back with [] => N | _ => A' end) in *. tp1.
  eapply ltot_mono; [eapply (free_buffers_spec X A A' H' N t t1 l1 l2); [done|congruence|unfold A'; lia]|].
  intros ? t2 H2; cbv beta in H2. set (c1 := c <| unack_tx_addrs := l2 |>).
  set (t0 := t <| t_conns ::= _ |>) in *. assert (t_conns t0 !! p0 = Some c1) as E0 by (cbn; by rewrite lookup_alter_eq, Ec).
  eapply ltot_mono; [eapply (retransmission_spec X A' H' N t0); [done| |]|].
  - unfold H'. destruct back; [by left|by right].
  - by eapply (routed_step 0 [] t t0 c c1); [..|left].
  - intros ? t3 (HR' & i & ds & Hq & Hsub & Hds). split; [done|]. exists i, ds. split; [done|].
    destruct Hb as [->|(m & -> & _ & Hd)]; cbn in H'.
    + unfold H' in Hsub. inversion Hsub as [|? ? ? ? ? ? ? ? ? [Hn _] Hrest]; subst; [done|].
      pose proof (tiles_le _ _ _ _ (submitted_tiles _ _ _ _ _ Hrest)). lia.
    + split; [|done]. rewrite (Hds c1) by (done || (unfold H'; lia)). done.
Qed.
End Transmit.

(** C5. The library submits exactly the bytes of the application's stream, at
    the right offsets of the transmit ring, and goes back to exactly what is
    not acknowledged.  Let the application have sent up to position [N] and
    the peer have acknowledged up to [A], with the thread between two calls.
    A send that returns accepts what the ring and the budget of eBPF have room
    for, and appends to the transmit ring packets that hold these bytes in
    order, each with its offset and length and the first with the total; then
    the thread is again between two calls.  The steps of a poll that serve the
    transmit side are [sync_state] on each packet of the connection, then
    [tcp_free_buffers] and [tcp_retransmission].  When the packets acknowledge
    bytes up to the end of a packet, the last of them possibly with the order
    to go back, these steps return; they release the acknowledged packets, and
    if the order was given, with fewer bytes unacknowledged than the ring
    holds, they submit every packet from the acknowledged position up to [N]
    again, in order, with the payload of the first transmission. *)
Theorem transmit_exact (σ : Z -> Z) (size p0 : Z) (Hsize : 0 < size <= 1073741824) (X : list Z) (A N : Z) (t : tctx)
  (c : eTrantcp_connection) (Hrest : at_rest σ size p0 X A N t) (Hconn : t_conns t !! p0 = Some c) :
  (forall buf count, 0 <= count -> take (Z.to_nat count) buf = bytes_of σ N count ->
     let r := Z.min count (txb_bytes_avail c) in
     lpost (conn_send p0 buf count) t (fun r' t' => r' = r /\ at_rest σ size p0 X A (N + r) t' /\
       exists i ds, appends i ds t t' /\ submitted σ size (t_umem t') ds N (N + r) r)) /\
  (forall ms ks back l1 l2, Forall2 acks ms ks -> unack_tx_addrs c = l1 ++ l2 ->
     foldr Z.add 0 l1.*2 = foldr Z.add 0 ks -> let A' := A + foldr Z.add 0 ks in
     back = [] \/ (exists m, back = [m] /\ goes_back size m A' /\ 0 < N - A' < size) ->
     ltot (sync_all p0 (ms ++ back) ;; tcp_free_buffers ;; tcp_retransmission) t (fun _ t' =>
       at_rest σ size p0 X A' N t' /\ exists i ds, queued i ds t t' /\
       match back with
       | [] => ds = []
       | _ => ds = descs l2 /\ submitted σ size (t_umem t') ds A' N (N - A')
       end)).
Proof.
  split.
  - intros buf count Hcnt Hbuf. by apply send_spec.
  - intros ms ks back l1 l2 Hk Hu Hs A' Hb. by eapply tx_poll_spec.
Qed.

(** A run: the application sends 2000 bytes, the first packet is acknowledged,
    then the second is called for again. *)
Definition tx_run_0 : tctx := lib_ex
  <| t_umem := list_to_map ((fun i => (i * 4096, mk_uframe (Tx_meta txmeta_clear) 0 0 0 0 0 0 [])) <$> seqZ 0 4) |>
  <| t_conns := {[ 7 := lconn_ex <| lc_tx_buf_size := 524288 |> ]} |>.
Definition tx_run_1 : tctx := Eval vm_compute in from_option snd tx_run_0 (conn_send 7 (bytes_of σ_ex 0 2000) 2000 tx_run_0).
Definition ack_ex : rx_meta := mk_rx_meta 0 7 0 0 0 POISON_32 1448 POISON_32.
Definition back_ex : rx_meta := mk_rx_meta 0 7 0 0 0 POISON_32 (Z.lor 1448 RECOVERY_MASK) POISON_32.

Lemma tx_run_rest : at_rest σ_ex 524288 7 [] 0 0 tx_run_0.
Proof.
  split; [| |done|].
  - eapply (own_same _ (lib_ex <| t_conns ::= <[7 := lconn_ex <| lc_tx_buf_size := 524288 |>]> |>)); [|by vm_compute..].
    apply (own_conn_same [] lib_ex 7 lconn_ex); [exact (sa_own _ _ _ _ _ start_ex)|by vm_compute..].
  - eexists. split; [done|]. split; try done; constructor.
  - by eexists _, _, _.
Qed.

Lemma transmit_exact_witness :
  exists t2, conn_send 7 (bytes_of σ_ex 0 2000) 2000 tx_run_0 = Some (2000, tx_run_1) /\
    (sync_all 7 ([ack_ex] ++ [back_ex]) ;; tcp_free_buffers ;; tcp_retransmission) tx_run_1 = Some (tt, t2) /\
    at_rest σ_ex 524288 7 [] 1448 2000 t2 /\ exists ds, submitted σ_ex 524288 (t_umem t2) ds 1448 2000 552.
Proof.
  assert (conn_send 7 (bytes_of σ_ex 0 2000) 2000 tx_run_0 = Some (2000, tx_run_1)) as E1 by by vm_compute.
  pose (c0 := lconn_ex <| lc_tx_buf_size := 524288 |>).
  destruct (proj1 (transmit_exact σ_ex 524288 7 ltac:(lia) [] 0 0 tx_run_0 c0 tx_run_rest ltac:(done)) (bytes_of σ_ex 0 2000) 2000
    ltac:(lia) ltac:(by vm_compute) _ _ E1) as (_ & R1 & _).
  replace (0 + Z.min 2000 (txb_bytes_avail c0)) with 2000 in R1 by by vm_compute.
  destruct (t_conns tx_run_1 !! 7) as [c1|] eqn:Ec1; [|by vm_compute in Ec1].
  destruct (proj2 (transmit_exact σ_ex 524288 7 ltac:(lia) [] 0 2000 tx_run_1 c1 R1 Ec1) [ack_ex] [1448] [back_ex]
    (take 1 (unack_tx_addrs c1)) (drop 1 (unack_tx_addrs c1))) as (x & t2 & E2 & R2 & i & ds & _ & _ & S2).
  - constructor; [right; by split|constructor].
  - by rewrite take_drop.
  - vm_compute in Ec1. injection Ec1 as <-. by vm_compute.
  - right. exists back_ex. split; [done|]. split; [by vm_compute|cbn; lia].
  - destruct x. exists t2. split; [exact E1|]. split; [exact E2|]. split; [exact R2|]. by exists ds.
Defined.
