(* ===== verification/LibCtl.v ===== *)
(** The control half of the socket library: requests to the microkernel, its
    answers, and the poll that combines them with the packets of the NIC
    ([lib/eTran_posix.cc], [lib/include/eTran_posix.h]).

    The state is that of a process with one thread: the thread of [LibTcp],
    its channels, and what the sockets of [LibSock] point to.  The messages
    are those of [TcpCtl]. *)
From stdpp Require Import gmap.
From S2P Require Import Prelude Intf Headers TcpCtl BufPool LibTcp.
Local Open Scope Z_scope.
Local Open Scope u32_scope.

(** ** Data *)

Definition LRPC_CHANNEL_SIZE : Z := 2048.
Definition IPPROTO_HOMA : Z := 0xFD.
Definition EINVAL_ : Z := 22.

(** [struct eTrantcp_listener] *)
Record eTrantcp_listener := mk_eTrantcp_listener { ls_local_port : Z; ls_s : Z }.

(** [enum socket_type], [enum socket_status] *)
Inductive socket_type := SOCKET_TYPE_SOCKET | SOCKET_TYPE_CONNECTION | SOCKET_TYPE_LISTENER | SOCKET_TYPE_EPOLL.
Inductive socket_status :=
| S_UNUSED | S_CONN_INIT | S_CONN_CONNECTING | S_CONN_CONNECTED | S_CONN_BOUND | S_CONN_LISTENING | S_CONN_CLOSED
| S_HOMA_INIT | S_HOMA_BOUND | S_HOMA_CLOSED.

#[export] Instance socket_type_eq_dec : EqDecision socket_type.
Proof. solve_decision. Defined.
#[export] Instance socket_status_eq_dec : EqDecision socket_status.
Proof. solve_decision. Defined.

(** [enum socket_flags] *)
Definition SOF_NONBLOCK : Z := 1.
Definition SOF_BOUND : Z := 2.
Definition SOF_REUSEPORT : Z := 4.
Definition SOF_REUSEADDR : Z := 8.

(** What [release] of a socket points to. *)
Inductive release_fn := tcp_socket_release | homa_socket_release.

(** [struct eTran_socket_t]; a null pointer is 0, [sk_conn] is the union of
    [conn] and [hs], [sk_items] maps an epoll descriptor to an item. *)
Record eTran_socket_t := mk_eTran_socket_t {
  sk_fd : Z;
  sk_protocol : Z;
  sk_tctx : Z;
  sk_conn : Z;
  sk_listener : Z;
  sk_status : socket_status;
  sk_type : socket_type;
  sk_flags : Z;
  sk_addr : Z * Z;
  sk_epoll_events : Z;
  sk_ref : Z;
  sk_release : option release_fn;
  sk_items : gmap Z Z
}.

#[export] Instance eta_eTran_socket_t : Eta eTran_socket_t := fun r =>
  mk_eTran_socket_t (sk_fd r) (sk_protocol r) (sk_tctx r) (sk_conn r) (sk_listener r) (sk_status r) (sk_type r)
    (sk_flags r) (sk_addr r) (sk_epoll_events r) (sk_ref r) (sk_release r)
    (sk_items r).

(** [struct eTran_epoll], the lists by socket descriptor, and
    [struct eTran_epoll_item] *)
Record eTran_epoll := mk_eTran_epoll {
  ep_epfd : Z;
  ep_tctx : Z;
  inactive_list : gmap Z Z;
  active_list : gmap Z Z;
  num_linux : Z;
  num_eTran : Z;
  linux_first : bool
}.

#[export] Instance eta_eTran_epoll : Eta eTran_epoll := fun r =>
  mk_eTran_epoll (ep_epfd r) (ep_tctx r) (inactive_list r) (active_list r) (num_linux r) (num_eTran r) (linux_first r).

Record eTran_epoll_item := mk_eTran_epoll_item { it_epoll : Z; it_socket : Z; interest_events : Z; it_data : Z }.

#[export] Instance eta_eTran_epoll_item : Eta eTran_epoll_item := fun r =>
  mk_eTran_epoll_item (it_epoll r) (it_socket r) (interest_events r) (it_data r).

(** [struct eTran_file_handle]; what is not in the table is unused. *)
Inductive eTran_file_handle := FH_SOCKET (s : Z) | FH_EPOLL (ep : Z).

(** [struct eTranhoma_socket] *)
Record eTranhoma_socket := mk_eTranhoma_socket { hs_local_ip : Z; hs_local_port : Z; hs_s : Z }.

(** Messages in both directions. *)
Inductive app_in_msg :=
| Tcp_in (m : ctl_out)
| APPIN_HOMA_STATUS_BIND (opaque_socket fd status : Z)
| APPIN_HOMA_STATUS_CLOSE (opaque_socket fd status : Z).
Inductive app_out_msg :=
| Tcp_out (m : appout)
| APPOUT_HOMA_BIND (opaque_socket fd local_ip local_port : Z)
| APPOUT_HOMA_CLOSE (opaque_socket fd : Z).

(** [struct eTranhoma_event] *)
Inductive eTranhoma_event :=
| ETRANHOMA_EV_SOCKET_BIND (status hs fd : Z)
| ETRANHOMA_EV_SOCKET_CLOSE (status hs fd : Z).

(** The process.  [p_evfd] is the counter of the event descriptor,
    [p_evwork] is [pending_eventfd_work]. *)
Record proc := mk_proc {
  p_lib : tctx;
  p_open_conns : gmap (Z * Z * Z * Z) Z;
  p_app_in : list app_in_msg;
  p_app_out : list app_out_msg;
  p_evfd : Z;
  p_evwork : Z;
  p_listeners : gmap Z eTrantcp_listener;
  p_homas : gmap Z eTranhoma_socket;
  p_socks : gmap Z eTran_socket_t;
  p_items : gmap Z eTran_epoll_item;
  p_epolls : gmap Z eTran_epoll;
  p_fds : gmap Z eTran_file_handle
}.

#[export] Instance eta_proc : Eta proc := fun r =>
  mk_proc (p_lib r) (p_open_conns r) (p_app_in r) (p_app_out r) (p_evfd r) (p_evwork r) (p_listeners r) (p_homas r)
    (p_socks r) (p_items r) (p_epolls r) (p_fds r).

(** ** The monad of the operations; what is undefined has no result *)

Definition P (A : Type) : Type := proc -> option (A * proc).

Definition pret {A} (a : A) : P A := fun s => Some (a, s).
Definition pbind {A B} (m : P A) (k : A -> P B) : P B :=
  fun s => match m s with Some (a, s) => k a s | None => None end.
Definition pundef {A} : P A := fun _ => None.
Definition pget : P proc := fun s => Some (s, s).
Definition pmod (f : proc -> proc) : P unit := fun s => Some (tt, f s).
Definition pmust {A} (x : option A) : P A := match x with Some a => pret a | None => pundef end.

(** An operation of the thread. *)
Definition lib {A} (m : L A) : P A :=
  fun s => match m (p_lib s) with Some (a, t) => Some (a, s <| p_lib := t |>) | None => None end.

Declare Scope proc_scope.
Delimit Scope proc_scope with proc.
Notation "'let*' x := m 'in' k" := (pbind m (fun x => k))
  (at level 200, x pattern, m at level 100, k at level 200, right associativity) : proc_scope.
Notation "m ;; k" := (pbind m (fun _ => k)) (at level 100, k at level 200, right associativity) : proc_scope.
Local Open Scope proc_scope.

Definition pwhen (b : bool) (m : P unit) : P unit := if b then m else pret tt.

(** ** What the environment does

    Before a poll the kernel and the NIC deliver packets ([pe_nic]) and the
    microkernel messages ([pe_in], and [pe_in2] in the middle of a poll), with
    a notification for each; what it sends may depend on the process.  [pe_room] transmit slots are free for window
    updates, and [pe_ready] is the answer of [epoll_wait]: [None] for an
    error, else what is ready, [None] for the event descriptor and a queue for
    an AF_XDP socket. *)
Record poll_env := mk_poll_env {
  pe_nic : tctx -> tctx;
  pe_in : proc -> list app_in_msg;
  pe_in2 : proc -> list app_in_msg;
  pe_room : nat;
  pe_ready : option (list (option Z))
}.

Definition messages (f : proc -> list app_in_msg) : P unit :=
  pmod (fun s => s <| p_app_in := p_app_in s ++ f s |> <| p_evfd := p_evfd s + Z.of_nat (length (f s)) |>).

(** [consume_evfd] *)
Definition consume_evfd : P Z :=
  let* s := pget in
  pmod (fun s => s <| p_evfd := 0 |>) ;;
  pret (p_evfd s).

(** ** Answers of the microkernel *)

(** An entry of [open_conns]; [insert] keeps what is there. *)
Definition insert_open_conn (p : Z) : P unit :=
  let* c := lib (rd_c p) in
  pmod (fun s => s <| p_open_conns ::= fun m =>
    let k := (lc_remote_ip c, lc_remote_port c, lc_local_ip c, lc_local_port c) in
    match m !! k with Some _ => m | None => <[k := p]> m end |>).

(** One message in [process_tcp_kernel_events]: its events. *)
Definition tcp_kernel_event (m : app_in_msg) : P (list eTrantcp_event) :=
  match m with
  | Tcp_in (APPIN_TCP_EVENT_NEWCONN _ listener fd r_ip r_port) =>
    pret [ETRANTCP_EV_LISTEN_NEWCONN r_port r_ip listener fd]
  | Tcp_in (APPIN_TCP_CONN_ACCEPT _ conn fd newfd status backlog rx_buf tx_buf l_ip r_ip r_port qid) =>
    (if status =? 0 then
       lib (upd_c conn (fun c => connection_prepare_buffer
         (c <| lc_local_ip := l_ip |> <| lc_remote_ip := r_ip |> <| lc_remote_port := r_port |> <| lc_qid := qid |>
            <| lc_rx_buf_size := rx_buf |> <| lc_tx_buf_size := tx_buf |> <| lc_status := CONN_OPEN |>))) ;;
       insert_open_conn conn
     else lib (upd_c conn (fun c => c <| try_accept_done := true |>))) ;;
    pret [ETRANTCP_EV_LISTEN_ACCEPT status conn backlog fd newfd]
  | Tcp_in (APPIN_TCP_CONN_OPEN _ conn fd status l_ip l_port rx_buf tx_buf qid) =>
    if status =? 0 then
      lib (upd_c conn (fun c => c <| lc_local_ip := l_ip |>)) ;;
      pret [ETRANTCP_EV_CONN_OPEN status conn fd]
    else if status =? 1 then
      lib (upd_c conn (fun c => connection_prepare_buffer
        (c <| lc_qid := qid |> <| lc_local_port := l_port |> <| lc_rx_buf_size := rx_buf |> <| lc_tx_buf_size := tx_buf |>
           <| lc_status := CONN_OPEN |>))) ;;
      insert_open_conn conn ;;
      pret [ETRANTCP_EV_CONN_OPEN status conn fd; ETRANTCP_EV_CONN_SENDBUF conn]
    else pret [ETRANTCP_EV_CONN_OPEN status conn fd]
  | Tcp_in (APPIN_TCP_STATUS ST_LISTEN _ listener fd status) => pret [ETRANTCP_EV_LISTEN_OPEN status listener fd]
  | Tcp_in (APPIN_TCP_STATUS ST_BIND _ conn fd status) => pret [ETRANTCP_EV_CONN_BIND status conn fd]
  | Tcp_in (APPIN_TCP_STATUS ST_CLOSE _ conn fd status) => pret [ETRANTCP_EV_CONN_CLOSE status conn fd]
  | Tcp_in (Xmit _ _ _ _) | APPIN_HOMA_STATUS_BIND _ _ _ | APPIN_HOMA_STATUS_CLOSE _ _ _ => pret []
  end.

(** The loop, over the messages that are there: the events and the number of
    messages taken. *)
Fixpoint tcp_kernel_loop (msgs : list app_in_msg) (max_events : Z) (work : Z) (evs : list eTrantcp_event)
  : P (list eTrantcp_event * Z) :=
  match msgs with
  | [] => pret (evs, work)
  | m :: msgs =>
    pmod (fun s => s <| p_app_in := msgs |>
                     <| p_evwork ::= fun w => if w =? 0 then w else w ⊖ 1 |>) ;;
    let* new := tcp_kernel_event m in
    let evs := evs ++ new in
    if Z.of_nat (length evs) >=? max_events then pret (evs, work + 1)
    else tcp_kernel_loop msgs max_events (work + 1) evs
  end.

(** [process_tcp_kernel_events] *)
Definition process_tcp_kernel_events (max_events : Z) : P (list eTrantcp_event) :=
  let* s := pget in
  let* (evs, work) := tcp_kernel_loop (p_app_in s) max_events 0 [] in
  let* n := consume_evfd in
  pwhen (n >? work) (pmod (fun s => s <| p_evwork ::= fun w => w ⊕ (n - work) |>)) ;;
  pret evs.

(** [while (!lrpc_empty(&tctx->app_in))]; each round takes a message. *)
Fixpoint drain_kernel_events (n : nat) (maxevents : Z) (evs : list eTrantcp_event) : P (list eTrantcp_event) :=
  let* s := pget in
  match p_app_in s, n with
  | [], _ => pret evs
  | _, O => pundef
  | _, S n =>
    let* new := process_tcp_kernel_events (maxevents - Z.of_nat (length evs)) in
    drain_kernel_events n maxevents (evs ++ new)
  end.

(** ** Polling *)

(** The packets of one queue in [tcp_nic_poll_epoll]: the events. *)
Definition poll_queue (mtp : bool) (qidx quantum : Z) : L (list eTrantcp_event) :=
  (let! q := rd_q qidx in
   let deficit := xi_deficit q ⊕ quantum in
   let rcvd := take (Z.to_nat (Z.min deficit RX_BATCH_SIZE)) (xi_rx q) in
   match rcvd with
   | [] => upd_q qidx (fun q => q <| xi_deficit := deficit |>) ;; lret []
   | _ =>
     upd_q qidx (fun q => q <| xi_deficit := deficit ⊖ Z.of_nat (length rcvd) |> <| xi_rx ::= drop (length rcvd) |>) ;;
     let! h := handle_batch mtp rx_cache_init rcvd in
     upd_q qidx (fun q => match xi_rx q with [] => q <| xi_deficit := 0 |> | _ => q end) ;;
     lret (ret_events h)
   end)%lib.

(** The loop over what [epoll_wait] returned; [nfds] is their number. *)
Fixpoint poll_ready (mtp : bool) (ready : list (option Z)) (nfds budget quantum : Z) (evs : list eTrantcp_event)
  : P (list eTrantcp_event) :=
  match ready with
  | [] => pret evs
  | None :: ready =>
    let* new := process_tcp_kernel_events (budget - Z.of_nat (length evs)) in
    poll_ready mtp ready nfds budget (if nfds >? 1 then Z.quot budget (nfds - 1) else quantum) (evs ++ new)
  | Some qidx :: ready =>
    let* new := lib (poll_queue mtp qidx quantum) in
    poll_ready mtp ready nfds budget quantum (evs ++ new)
  end.

(** [tcp_nic_poll_epoll]; [None] is the result -1.  The timeout is set to 0
    before it is used. *)
Definition tcp_nic_poll_epoll (mtp : bool) (e : poll_env) (budget : Z) : P (option (list eTrantcp_event)) :=
  let* s := pget in
  lib (for_queues (length (t_queues (p_lib s))) 0 poll_completions) ;;
  let* evs := process_tcp_kernel_events budget in
  messages (pe_in2 e) ;;
  match pe_ready e with
  | None => pret None
  | Some [] => pret (Some evs)
  | Some ready =>
    let nfds := Z.of_nat (length ready) in
    let* evs := poll_ready mtp ready nfds budget (Z.quot budget nfds) evs in
    lib (refill_queues 32) ;;
    pret (Some evs)
  end.

(** [eTran_tcp_poll_events]; the array of the caller has 256 entries, and the
    channel holds at most [LRPC_CHANNEL_SIZE] messages. *)
Definition eTran_tcp_poll_events (mtp : bool) (e : poll_env) (maxevents timeout : Z) : P (list eTrantcp_event) :=
  pmod (fun s => s <| p_lib ::= pe_nic e |>) ;;
  messages (pe_in e) ;;
  lib (tcp_ebpf_sync (pe_room e)) ;;
  let* evs :=
    (if timeout =? 0 then
       let* evs := lib (tcp_nic_poll mtp maxevents) in
       let* s := pget in
       drain_kernel_events (length (p_app_in s)) maxevents evs
     else
       let* r := tcp_nic_poll_epoll mtp e maxevents in
       pret (match r with Some evs => evs | None => [] end)) in
  if 256 <? Z.of_nat (length evs) then pundef
  else
    lib tcp_free_buffers ;;
    lib tcp_retransmission ;;
    pret evs.

(** ** Requests to the microkernel *)

(** [lrpc_send]: the kernel takes the messages in order; -1 when the channel
    is full. *)
Definition send_out (m : app_out_msg) : P Z :=
  let* s := pget in
  if Z.of_nat (length (p_app_out s)) >=? LRPC_CHANNEL_SIZE then pret (-1)
  else pmod (fun s => s <| p_app_out ::= fun l => l ++ [m] |>) ;; pret 0.

(** [notify_kernel_tcp_conn_bind] and the rest are inlined; the fields the
    microkernel does not read are left out. *)
Definition eTran_tcp_bind (conn fd local_ip local_port : Z) (reuseport : bool) : P Z :=
  if conn =? 0 then pret (- EINVAL_)
  else
    lib (upd_c conn (fun c => c <| lc_status := CONN_BIND_REQUESTED |> <| lc_local_ip := local_ip |>
                                <| lc_local_port := u16 local_port |>)) ;;
    send_out (Tcp_out (APPOUT_TCP_BIND conn fd reuseport local_ip (u16 local_port))).

Definition eTran_tcp_open (conn fd remote_ip remote_port : Z) : P Z :=
  if conn =? 0 then pret (- EINVAL_)
  else
    lib (upd_c conn (fun c => c <| lc_status := CONN_OPEN_REQUESTED |> <| lc_remote_ip := remote_ip |>
                                <| lc_remote_port := remote_port |>)) ;;
    send_out (Tcp_out (APPOUT_TCP_OPEN conn fd remote_ip remote_port)).

Definition eTran_tcp_listen (conn listener fd port backlog : Z) : P Z :=
  if listener =? 0 then pret (- EINVAL_)
  else
    let* s := pget in
    let* l := pmust (p_listeners s !! listener) in
    pmod (fun s => s <| p_listeners ::= <[listener := mk_eTrantcp_listener port (ls_s l)]> |>) ;;
    send_out (Tcp_out (APPOUT_TCP_LISTEN conn listener fd backlog)).

Definition eTran_tcp_accept (listener conn fd newfd : Z) : P Z :=
  if (listener =? 0) || (conn =? 0) then pret (- EINVAL_)
  else
    let* s := pget in
    let* l := pmust (p_listeners s !! listener) in
    lib (upd_c conn (fun c => c <| lc_status := CONN_ACCEPT_REQUESTED |> <| lc_local_port := ls_local_port l |>)) ;;
    send_out (Tcp_out (APPOUT_TCP_ACCEPT listener conn fd newfd (ls_local_port l))).

Definition eTran_tcp_close (conn fd : Z) : P Z :=
  if conn =? 0 then pret (- EINVAL_)
  else
    lib (upd_c conn (fun c => c <| lc_status := CONN_CLOSE_REQUESTED |>)) ;;
    send_out (Tcp_out (APPOUT_TCP_CLOSE conn fd)).

(** ** Homa sockets *)

(** The loop of [process_homa_kernel_events]; the message of a close is read
    through the pointer to the last message of a bind, which has no value
    before one was seen. *)
Fixpoint homa_kernel_loop (msgs : list app_in_msg) (max_events work : Z) (bound : bool) (evs : list eTranhoma_event)
  : P (list eTranhoma_event * Z) :=
  match msgs with
  | [] => pret (evs, work)
  | m :: msgs =>
    pmod (fun s => s <| p_app_in := msgs |>
                     <| p_evwork ::= fun w => if w =? 0 then w else w ⊖ 1 |>) ;;
    let* new :=
      match m with
      | APPIN_HOMA_STATUS_BIND hs fd status => pret [ETRANHOMA_EV_SOCKET_BIND status hs fd]
      | APPIN_HOMA_STATUS_CLOSE hs fd status =>
        if bound then pret [ETRANHOMA_EV_SOCKET_CLOSE status hs fd] else pundef
      | Tcp_in _ => pret []
      end in
    let bound := match m with APPIN_HOMA_STATUS_BIND _ _ _ => true | _ => bound end in
    let evs := evs ++ new in
    if Z.of_nat (length evs) >=? max_events then pret (evs, work + 1)
    else homa_kernel_loop msgs max_events (work + 1) bound evs
  end.

(** [process_homa_kernel_events] *)
Definition process_homa_kernel_events (max_events : Z) : P (list eTranhoma_event) :=
  let* s := pget in
  let* (evs, work) := homa_kernel_loop (p_app_in s) max_events 0 false [] in
  let* n := consume_evfd in
  pwhen (n >? work) (pmod (fun s => s <| p_evwork ::= fun w => w ⊕ (n - work) |>)) ;;
  pret evs.

Fixpoint drain_homa_events (n : nat) (maxevents : Z) (evs : list eTranhoma_event) : P (list eTranhoma_event) :=
  let* s := pget in
  match p_app_in s, n with
  | [], _ => pret evs
  | _, O => pundef
  | _, S n =>
    let* new := process_homa_kernel_events (maxevents - Z.of_nat (length evs)) in
    let evs := evs ++ new in
    if Z.of_nat (length evs) >=? maxevents then pret evs else drain_homa_events n maxevents evs
  end.

(** [eTran_homa_poll_events]; [None] is a negative result. *)
Definition eTran_homa_poll_events (e : poll_env) (maxevents : Z) : P (option (list eTranhoma_event)) :=
  messages (pe_in e) ;;
  let* s := pget in
  let drain := let* evs := drain_homa_events (length (p_app_in s)) maxevents [] in pret (Some evs) in
  if nz (p_evwork s) then drain
  else
    match pe_ready e with
    | None => pret None
    | Some [] => pret (Some [])
    | Some _ => drain
    end.

Definition eTran_homa_bind (hs fd local_ip local_port : Z) : P Z :=
  if hs =? 0 then pret (- EINVAL_)
  else
    let* s := pget in
    let* h := pmust (p_homas s !! hs) in
    pmod (fun s => s <| p_homas ::= <[hs := mk_eTranhoma_socket local_ip (u16 local_port) (hs_s h)]> |>) ;;
    send_out (APPOUT_HOMA_BIND hs fd local_ip (u16 local_port)).

Definition eTran_homa_close (hs fd : Z) : P Z :=
  if hs =? 0 then pret (- EINVAL_) else send_out (APPOUT_HOMA_CLOSE hs fd).
