(* ===== verification/LibSock.v ===== *)
(** Sockets and epoll of the library ([lib/socket.cc]), without
    [SOCKET_MIGRATION]: the table of descriptors, the calls that open, bind,
    listen, accept, connect, close, read and write, and the lists of ready
    sockets.

    A call that blocks takes the environments of its polls; it has no result
    when these do not suffice for it to return.  The descriptors and pointers
    that the system hands out are arguments.  Allocation does not fail, and
    the thread has a context. *)
From stdpp Require Import gmap sorting.
From S2P Require Import Prelude Intf Headers TcpCtl BufPool LibTcp LibCtl.
Local Open Scope Z_scope.
Local Open Scope u32_scope.
Local Open Scope proc_scope.

Definition MAX_FD : Z := 1024 * 1024.
Definition EPOLLIN : Z := 0x1.
Definition EPOLLOUT : Z := 0x4.
Definition EPOLLERR : Z := 0x8.
Definition EPOLLHUP : Z := 0x10.
Definition EPOLLONESHOT : Z := 2 ^ 30.
Definition EPOLLET : Z := 2 ^ 31.
Definition EPERM_ : Z := 1.
Definition ENOENT_ : Z := 2.
Definition EIO_ : Z := 5.
Definition EBADF_ : Z := 9.
Definition ENOMEM_ : Z := 12.
Definition EEXIST_ : Z := 17.

(** ** Access *)

Definition rd_s (sp : Z) : P eTran_socket_t := let* s := pget in pmust (p_socks s !! sp).
Definition upd_s (sp : Z) (f : eTran_socket_t -> eTran_socket_t) : P unit :=
  let* k := rd_s sp in pmod (fun s => s <| p_socks ::= <[sp := f k]> |>).
Definition rd_ep (e : Z) : P eTran_epoll := let* s := pget in pmust (p_epolls s !! e).
Definition upd_ep (e : Z) (f : eTran_epoll -> eTran_epoll) : P unit :=
  let* ep := rd_ep e in pmod (fun s => s <| p_epolls ::= <[e := f ep]> |>).
Definition rd_it (i : Z) : P eTran_epoll_item := let* s := pget in pmust (p_items s !! i).
Definition upd_it (i : Z) (f : eTran_epoll_item -> eTran_epoll_item) : P unit :=
  let* it := rd_it i in pmod (fun s => s <| p_items ::= <[i := f it]> |>).
Definition tid : P Z := let* s := pget in pret (t_tid (p_lib s)).

(** The entries of a [std::map] in order. *)
Definition entry_le (x y : Z * Z) : Prop := x.1 <= y.1.
#[export] Instance entry_le_dec : RelDecision entry_le := fun x y => Z_le_dec x.1 y.1.
Definition ordered (m : gmap Z Z) : list (Z * Z) := merge_sort entry_le (map_to_list m).

Definition lookup_epoll_with_fd (fd : Z) : P (option Z) :=
  let* s := pget in
  pret (if (fd <? 0) || (fd >=? MAX_FD) then None
        else match p_fds s !! fd with Some (FH_EPOLL e) => Some e | _ => None end).
Definition lookup_socket_with_fd (fd : Z) : P (option Z) :=
  let* s := pget in
  pret (if (fd <? 0) || (fd >=? MAX_FD) then None
        else match p_fds s !! fd with Some (FH_SOCKET sp) => Some sp | _ => None end).
Definition clear_socket_with_fd (fd : Z) : P unit := pmod (fun s => s <| p_fds ::= delete fd |>).

(** ** Readiness *)

Definition clear_epoll_events (sp events : Z) : P unit :=
  upd_s sp (fun k => k <| sk_epoll_events := Z.land (sk_epoll_events k) (Z.lnot events) |>).

(** An item moves to the active list. *)
Definition activate (fd i : Z) (ep : eTran_epoll) : eTran_epoll :=
  match active_list ep !! fd with
  | Some _ => ep
  | None => ep <| active_list ::= <[fd := i]> |> <| inactive_list ::= delete fd |>
  end.

Fixpoint notify_items (fd new_events : Z) (l : list (Z * Z)) : P unit :=
  match l with
  | [] => pret tt
  | (_, i) :: l =>
    let* it := rd_it i in
    pwhen (nz (Z.land (interest_events it) new_events)) (upd_ep (it_epoll it) (activate fd i)) ;;
    notify_items fd new_events l
  end.

Definition set_epoll_events (sp events : Z) : P unit :=
  let* k := rd_s sp in
  let new_events := Z.land (Z.lnot (sk_epoll_events k)) events in
  if new_events =? 0 then pret tt
  else
    upd_s sp (fun k => k <| sk_epoll_events := Z.lor (sk_epoll_events k) events |>) ;;
    notify_items (sk_fd k) new_events (ordered (sk_items k)).

(** ** Reference counts *)

(** [tcp_socket_release], [homa_socket_release] *)
Definition release_socket (sp : Z) (r : release_fn) : P unit :=
  let* k := rd_s sp in
  pwhen (nz (sk_conn k))
    match r with
    | tcp_socket_release => lib (lmod (fun t => t <| t_conns ::= delete (sk_conn k) |>))
    | homa_socket_release => pmod (fun s => s <| p_homas ::= delete (sk_conn k) |>)
    end ;;
  clear_socket_with_fd (sk_fd k) ;;
  pmod (fun s => s <| p_socks ::= delete sp |>).

Definition socket_put (sp : Z) : P unit :=
  let* k := rd_s sp in
  match sk_release k with
  | None => pundef
  | Some r =>
    upd_s sp (fun k => k <| sk_ref := sk_ref k - 1 |>) ;;
    pwhen (sk_ref k =? 1) (release_socket sp r)
  end.

(** ** Events *)

(** One event of the loop of [socket_tcp_poll]. *)
Definition tcp_event (ev : eTrantcp_event) : P unit :=
  let with_socket (fd : Z) (f : Z -> eTran_socket_t -> P unit) :=
    let* r := lookup_socket_with_fd fd in
    match r with None => pret tt | Some sp => let* k := rd_s sp in f sp k end in
  let status (sp : Z) (x : socket_status) := upd_s sp (fun k => k <| sk_status := x |>) in
  match ev with
  | ETRANTCP_EV_CONN_RECVED conn => let* c := lib (rd_c conn) in set_epoll_events (lc_s c) EPOLLIN
  | ETRANTCP_EV_CONN_SENDBUF conn => let* c := lib (rd_c conn) in set_epoll_events (lc_s c) EPOLLOUT
  | ETRANTCP_EV_CONN_OPEN st conn fd =>
    with_socket fd (fun sp k =>
      if negb (sk_conn k =? conn) then pret tt
      else if st =? -1 then status sp S_CONN_CLOSED
      else if st =? 0 then status sp S_CONN_CONNECTING
      else if st =? 1 then status sp S_CONN_CONNECTED
      else pret tt)
  | ETRANTCP_EV_CONN_BIND st conn fd =>
    with_socket fd (fun sp k =>
      if negb (sk_conn k =? conn) then pret tt
      else if st =? -1 then status sp S_CONN_CLOSED
      else if st =? 0 then status sp S_CONN_BOUND
      else pret tt)
  | ETRANTCP_EV_LISTEN_OPEN st listener fd =>
    with_socket fd (fun sp k =>
      if negb (sk_listener k =? listener) then pret tt
      else if nz st then status sp S_CONN_CLOSED
      else status sp S_CONN_LISTENING)
  | ETRANTCP_EV_LISTEN_NEWCONN _ _ listener fd =>
    with_socket fd (fun sp k => if negb (sk_listener k =? listener) then pret tt else set_epoll_events sp EPOLLIN)
  | ETRANTCP_EV_LISTEN_ACCEPT st conn backlog fd newfd =>
    with_socket fd (fun sp k =>
      if conn =? 0 then pret tt
      else
        let* c := lib (rd_c conn) in
        if negb (sp =? lc_s c) then pret tt
        else if backlog then pret tt else clear_epoll_events sp EPOLLIN)
  | ETRANTCP_EV_CONN_CLOSE st conn fd =>
    with_socket fd (fun sp k =>
      if negb (sk_conn k =? conn) then pret tt
      else
        status sp S_CONN_CLOSED ;;
        set_epoll_events sp (Z.lor EPOLLERR EPOLLHUP))
  end.

Fixpoint tcp_events (evs : list eTrantcp_event) : P unit :=
  match evs with [] => pret tt | ev :: evs => tcp_event ev ;; tcp_events evs end.

(** [socket_tcp_poll]; the number of events is never negative. *)
Definition socket_tcp_poll (mtp : bool) (e : poll_env) (budget timeout : Z) : P unit :=
  let* evs := eTran_tcp_poll_events mtp e (if budget >? 64 then 64 else budget) timeout in
  tcp_events evs.

Definition homa_event (ev : eTranhoma_event) : P unit :=
  let with_socket (hs fd : Z) (f : Z -> P unit) :=
    let* r := lookup_socket_with_fd fd in
    match r with
    | None => pret tt
    | Some sp => let* k := rd_s sp in if negb (sk_conn k =? hs) then pret tt else f sp
    end in
  let status (sp : Z) (x : socket_status) := upd_s sp (fun k => k <| sk_status := x |>) in
  match ev with
  | ETRANHOMA_EV_SOCKET_BIND st hs fd =>
    with_socket hs fd (fun sp =>
      if st =? -1 then status sp S_HOMA_CLOSED else if st =? 0 then status sp S_HOMA_BOUND else pret tt)
  | ETRANHOMA_EV_SOCKET_CLOSE st hs fd => with_socket hs fd (fun sp => status sp S_HOMA_CLOSED)
  end.

Fixpoint homa_events_loop (evs : list eTranhoma_event) : P unit :=
  match evs with [] => pret tt | ev :: evs => homa_event ev ;; homa_events_loop evs end.

(** [socket_homa_poll]: false for -1. *)
Definition socket_homa_poll (e : poll_env) (budget : Z) : P bool :=
  let* r := eTran_homa_poll_events e (if budget >? 64 then 64 else budget) in
  match r with
  | None => pret false
  | Some evs => homa_events_loop evs ;; pret true
  end.

(** ** Sockets *)

(** [alloc_socket_fd]; [fd] is what [eventfd] returned, [sp] the new socket. *)
Definition alloc_socket_fd (fd sp : Z) : P Z :=
  if fd <? 0 then pret fd
  else if fd >=? MAX_FD then pret (- ENOMEM_)
  else
    let* t := tid in
    pmod (fun s => s <| p_socks ::= <[sp := mk_eTran_socket_t fd 0 t 0 0 S_UNUSED SOCKET_TYPE_SOCKET 0 (0, 0) 0 1 None ∅]> |>
                     <| p_fds ::= <[fd := FH_SOCKET sp]> |>) ;;
    pret fd.

(** [eTran_socket]; [nonblock] is the bit of the type. *)
Definition eTran_socket (fd sp : Z) (nonblock : bool) (protocol : Z) : P Z :=
  let* r := alloc_socket_fd fd sp in
  if r <? 0 then pret r
  else
    upd_s sp (fun k => k <| sk_flags := Z.lor (sk_flags k) (if nonblock then SOF_NONBLOCK else 0) |>
                         <| sk_protocol := protocol |>) ;;
    (if protocol =? IPPROTO_HOMA then
       upd_s sp (fun k => k <| sk_status := S_HOMA_INIT |> <| sk_release := Some homa_socket_release |>)
     else pwhen (protocol =? IPPROTO_TCP)
       (upd_s sp (fun k => k <| sk_status := S_CONN_INIT |> <| sk_release := Some tcp_socket_release |>))) ;;
    pret r.

(** [do { poll; } while (s->status != S_CONN_CLOSED)] *)
Fixpoint wait_tcp_closed (mtp : bool) (es : list poll_env) (sp : Z) : P unit :=
  match es with
  | [] => pundef
  | e :: es =>
    socket_tcp_poll mtp e 64 (-1) ;;
    let* k := rd_s sp in
    if decide (sk_status k = S_CONN_CLOSED) then pret tt else wait_tcp_closed mtp es sp
  end.

Fixpoint wait_homa_closed (es : list poll_env) (sp : Z) : P unit :=
  match es with
  | [] => pundef
  | e :: es =>
    let* ok := socket_homa_poll e 64 in
    let* k := rd_s sp in
    if negb ok || bool_decide (sk_status k = S_HOMA_CLOSED) then pret tt else wait_homa_closed es sp
  end.

Fixpoint delete_items (l : list (Z * Z)) : P unit :=
  match l with
  | [] => pret tt
  | (_, i) :: l =>
    let* _ := rd_it i in
    pmod (fun s => s <| p_items ::= delete i |>) ;;
    delete_items l
  end.

(** [eTran_close] *)
Definition eTran_close (mtp : bool) (es : list poll_env) (fd : Z) : P Z :=
  let* s := pget in
  let* t := tid in
  match (if (fd <? 0) || (fd >=? MAX_FD) then None else p_fds s !! fd) with
  | None => pret (- EBADF_)
  | Some (FH_EPOLL e) =>
    let* ep := rd_ep e in
    if negb (ep_tctx ep =? t) then pret (- EPERM_)
    else
      delete_items (ordered (inactive_list ep)) ;;
      delete_items (ordered (active_list ep)) ;;
      pmod (fun s => s <| p_epolls ::= delete e |> <| p_fds ::= delete fd |>) ;;
      pret 0
  | Some (FH_SOCKET sp) =>
    let* k := rd_s sp in
    if negb (sk_tctx k =? t) then pret (- EPERM_)
    else
      pwhen (nz (sk_conn k))
        (if sk_protocol k =? IPPROTO_TCP then
           eTran_tcp_close (sk_conn k) (sk_fd k) ;; wait_tcp_closed mtp es sp
         else pwhen (sk_protocol k =? IPPROTO_HOMA)
           (eTran_homa_close (sk_conn k) (sk_fd k) ;; wait_homa_closed es sp)) ;;
      socket_put sp ;;
      pret 0
  end.

(** A new connection for socket [sp]; [junk] is what [pending_free_bytes]
    holds. *)
Definition new_conn (conn junk sp : Z) : P unit :=
  lib (lmod (fun t => t <| t_conns ::= <[conn := (new_eTrantcp_connection junk) <| lc_s := sp |>]> |>)).
Definition delete_conn (conn : Z) : P unit := lib (lmod (fun t => t <| t_conns ::= delete conn |>)).

(** The label [out] of [eTran_connect] and [_tcp_bind]. *)
Definition conn_fail (sp ret : Z) : P Z :=
  let* k := rd_s sp in
  pwhen (nz (sk_conn k))
    (delete_conn (sk_conn k) ;; upd_s sp (fun k => k <| sk_conn := 0 |>)) ;;
  pwhen (bool_decide (sk_status k = S_CONN_CLOSED)) (socket_put sp) ;;
  pret ret.

(** The loop of [eTran_connect]: whether the connection is established. *)
Fixpoint wait_connected (mtp : bool) (es : list poll_env) (sp : Z) : P bool :=
  match es with
  | [] => pundef
  | e :: es =>
    socket_tcp_poll mtp e 64 (-1) ;;
    let* k := rd_s sp in
    if decide (sk_status k = S_CONN_CLOSED) then pret false
    else if decide (sk_status k = S_CONN_CONNECTED) then pret true
    else wait_connected mtp es sp
  end.

(** [eTran_connect]; [valid] is the check of the address. *)
Definition eTran_connect (mtp : bool) (es : list poll_env) (fd : Z) (valid : bool) (addr : Z * Z) (conn junk : Z) : P Z :=
  let* r := lookup_socket_with_fd fd in
  match r with
  | None => pret (- EBADF_)
  | Some sp =>
    let* k := rd_s sp in
    if negb valid || negb (sk_protocol k =? IPPROTO_TCP) || bool_decide (sk_type k = SOCKET_TYPE_LISTENER)
       || negb (bool_decide (sk_status k = S_CONN_INIT))
    then pret (- EINVAL_)
    else
      let* t := tid in
      new_conn conn junk sp ;;
      upd_s sp (fun k => k <| sk_tctx := t |> <| sk_conn := conn |>) ;;
      let* r := eTran_tcp_open conn (sk_fd k) addr.1 addr.2 in
      if nz r then conn_fail sp (- EIO_)
      else
        let* ok := wait_connected mtp es sp in
        if ok then
          upd_s sp (fun k => k <| sk_type := SOCKET_TYPE_CONNECTION |> <| sk_addr := addr |>) ;;
          pret 0
        else conn_fail sp (- EIO_)
  end.

(** The loop of [_tcp_bind]: whether the socket was not closed. *)
Fixpoint wait_bound (mtp : bool) (es : list poll_env) (sp : Z) : P bool :=
  match es with
  | [] => pundef
  | e :: es =>
    socket_tcp_poll mtp e 64 (-1) ;;
    let* k := rd_s sp in
    if decide (sk_status k = S_CONN_CLOSED) then pret false
    else if decide (sk_status k = S_CONN_INIT) then wait_bound mtp es sp
    else pret true
  end.

(** [_tcp_bind] *)
Definition _tcp_bind (mtp : bool) (es : list poll_env) (sp : Z) (addr : Z * Z) (conn junk : Z) : P Z :=
  let* t := tid in
  upd_s sp (fun k => k <| sk_tctx := t |>) ;;
  let* k := rd_s sp in
  if negb (bool_decide (sk_status k = S_CONN_INIT)) then conn_fail sp (- EINVAL_)
  else
    new_conn conn junk sp ;;
    upd_s sp (fun k => k <| sk_conn := conn |> <| sk_addr := addr |>) ;;
    let* r := eTran_tcp_bind conn (sk_fd k) addr.1 addr.2 (nz (Z.land (sk_flags k) SOF_REUSEPORT)) in
    if nz r then conn_fail sp (- EIO_)
    else
      let* ok := wait_bound mtp es sp in
      if ok then upd_s sp (fun k => k <| sk_flags := Z.lor (sk_flags k) SOF_BOUND |>) ;; pret 0
      else conn_fail sp (- EIO_).

(** The label [out] of [_homa_bind], and its loop: whether a poll failed. *)
Definition homa_fail (sp ret : Z) : P Z :=
  let* k := rd_s sp in
  pwhen (nz (sk_conn k))
    (pmod (fun s => s <| p_homas ::= delete (sk_conn k) |>) ;; upd_s sp (fun k => k <| sk_conn := 0 |>)) ;;
  pwhen (bool_decide (sk_status k = S_HOMA_CLOSED)) (socket_put sp) ;;
  pret ret.

Fixpoint wait_homa_bound (es : list poll_env) (sp : Z) : P bool :=
  match es with
  | [] => pundef
  | e :: es =>
    let* ok := socket_homa_poll e 64 in
    if negb ok then pret false
    else
      let* k := rd_s sp in
      if decide (sk_status k = S_HOMA_INIT) then wait_homa_bound es sp else pret true
  end.

(** [_homa_bind] *)
Definition _homa_bind (es : list poll_env) (sp : Z) (addr : Z * Z) (hs : Z) : P Z :=
  let* t := tid in
  upd_s sp (fun k => k <| sk_tctx := t |>) ;;
  let* k := rd_s sp in
  if negb (bool_decide (sk_status k = S_HOMA_INIT)) then homa_fail sp (- EINVAL_)
  else
    pmod (fun s => s <| p_homas ::= <[hs := mk_eTranhoma_socket 0 0 sp]> |>) ;;
    upd_s sp (fun k => k <| sk_conn := hs |> <| sk_addr := addr |>) ;;
    let* r := eTran_homa_bind hs (sk_fd k) addr.1 addr.2 in
    if nz r then homa_fail sp (- EIO_)
    else
      let* ok := wait_homa_bound es sp in
      if negb ok then homa_fail sp (- EIO_)
      else
        let* k := rd_s sp in
        if decide (sk_status k = S_HOMA_CLOSED) then homa_fail sp (- EIO_)
        else upd_s sp (fun k => k <| sk_flags := Z.lor (sk_flags k) SOF_BOUND |>) ;; pret 0.

(** [eTran_bind] *)
Definition eTran_bind (mtp : bool) (es : list poll_env) (fd : Z) (valid : bool) (addr : Z * Z) (conn junk : Z) : P Z :=
  let* r := lookup_socket_with_fd fd in
  match r with
  | None => pret (- EBADF_)
  | Some sp =>
    let* k := rd_s sp in
    if negb valid then pret (- EINVAL_)
    else if sk_protocol k =? IPPROTO_TCP then _tcp_bind mtp es sp addr conn junk
    else if sk_protocol k =? IPPROTO_HOMA then _homa_bind es sp addr conn
    else pret (- EINVAL_)
  end.

(** The loop of [eTran_listen]: whether the socket was not closed. *)
Fixpoint wait_listening (mtp : bool) (es : list poll_env) (sp : Z) : P bool :=
  match es with
  | [] => pundef
  | e :: es =>
    socket_tcp_poll mtp e 64 (-1) ;;
    let* k := rd_s sp in
    if decide (sk_status k = S_CONN_CLOSED) then pret false
    else if decide (sk_status k = S_CONN_BOUND) then wait_listening mtp es sp
    else pret true
  end.

(** [eTran_listen] *)
Definition eTran_listen (mtp : bool) (es : list poll_env) (fd backlog listener : Z) : P Z :=
  let* r := lookup_socket_with_fd fd in
  match r with
  | None => pret (- EBADF_)
  | Some sp =>
    let* k := rd_s sp in
    let* t := tid in
    if negb (sk_tctx k =? t) then pret (- EPERM_)
    else if negb (sk_protocol k =? IPPROTO_TCP) || nz (sk_listener k) || (sk_conn k =? 0)
            || (Z.land (sk_flags k) SOF_BOUND =? 0) || negb (bool_decide (sk_status k = S_CONN_BOUND))
    then pret (- EINVAL_)
    else
      pmod (fun s => s <| p_listeners ::= <[listener := mk_eTrantcp_listener 0 sp]> |>) ;;
      upd_s sp (fun k => k <| sk_listener := listener |>) ;;
      let fail :=
        pmod (fun s => s <| p_listeners ::= delete listener |>) ;;
        upd_s sp (fun k => k <| sk_listener := 0 |>) ;;
        pret (- EIO_) in
      let* r := eTran_tcp_listen (sk_conn k) listener (sk_fd k) (sk_addr k).2 backlog in
      if nz r then fail
      else
        let* ok := wait_listening mtp es sp in
        if ok then pret 0 else fail
  end.

(** The loop of [eTran_accept]: whether a connection was accepted. *)
Fixpoint wait_accepted (mtp : bool) (es : list poll_env) (sp conn : Z) : P bool :=
  match es with
  | [] => pundef
  | e :: es =>
    socket_tcp_poll mtp e 64 (-1) ;;
    let* k := rd_s sp in
    let* c := lib (rd_c conn) in
    let requested := bool_decide (lc_status c = CONN_ACCEPT_REQUESTED) in
    if try_accept_done c && nz (Z.land (sk_flags k) SOF_NONBLOCK) && requested then pret false
    else if requested then wait_accepted mtp es sp conn
    else pret true
  end.

(** The end of [eTran_accept], when the connection is established. *)
Definition accept_finish (sp ns conn : Z) : P unit :=
  let* k := rd_s sp in
  upd_s ns (fun n => n <| sk_conn := conn |> <| sk_protocol := sk_protocol k |> <| sk_status := S_CONN_CONNECTED |>
                       <| sk_type := SOCKET_TYPE_CONNECTION |> <| sk_epoll_events := EPOLLOUT |>) ;;
  lib (upd_c conn (fun c => c <| lc_s := ns |>)).

(** The failure of [eTran_accept]; [close] is the interposed one, and the new
    socket has no connection then. *)
Definition accept_fail (mtp : bool) (newfd conn ret : Z) : P Z := eTran_close mtp [] newfd ;; delete_conn conn ;; pret ret.

(** [eTran_accept] up to its loop: the listening socket, or the result. *)
Definition accept_start (mtp : bool) (fd newfd ns conn junk : Z) : P (Z + Z) :=
  let* r := lookup_socket_with_fd fd in
  match r with
  | None => pret (inr (- EBADF_))
  | Some sp =>
    let* k := rd_s sp in
    let* t := tid in
    if negb (sk_protocol k =? IPPROTO_TCP) then pret (inr (- EINVAL_))
    else if negb (sk_tctx k =? t) then pret (inr (- EPERM_))
    else
      let* r := alloc_socket_fd newfd ns in
      if r <? 0 then pret (inr (- EIO_))
      else
        upd_s ns (fun n => n <| sk_release := Some tcp_socket_release |>) ;;
        new_conn conn junk 0 ;;
        if negb (bool_decide (sk_status k = S_CONN_LISTENING)) then
          let* ret := accept_fail mtp newfd conn (- EINVAL_) in pret (inr ret)
        else
          let* r := eTran_tcp_accept (sk_listener k) conn (sk_fd k) newfd in
          if nz r then let* ret := accept_fail mtp newfd conn (- EIO_) in pret (inr ret)
          else
            lib (upd_c conn (fun c => c <| lc_s := sp |>)) ;;
            pret (inl sp)
  end.

(** [eTran_accept]; [newfd], [ns] and [conn] are the new descriptor, socket
    and connection. *)
Definition eTran_accept (mtp : bool) (es : list poll_env) (fd newfd ns conn junk : Z) : P Z :=
  let* r := accept_start mtp fd newfd ns conn junk in
  match r with
  | inr ret => pret ret
  | inl sp =>
    let* ok := wait_accepted mtp es sp conn in
    if ok then accept_finish sp ns conn ;; pret newfd
    else accept_fail mtp newfd conn (- EIO_)
  end.

(** ** Data *)

(** The loop of [eTran_read]: the bytes, and whether it polled. *)
Fixpoint read_loop (mtp : bool) (es : list poll_env) (sp count : Z) (polled : bool) : P (list Z * bool) :=
  let* k := rd_s sp in
  let* bytes := lib (conn_recv (sk_conn k) count) in
  if bool_decide (bytes = []) && (Z.land (sk_flags k) SOF_NONBLOCK =? 0) && bool_decide (sk_status k = S_CONN_CONNECTED) then
    match es with
    | [] => pundef
    | e :: es => socket_tcp_poll mtp e 64 (-1) ;; read_loop mtp es sp count true
    end
  else pret (bytes, polled).

(** The checks of [eTran_read] and [eTran_write]. *)
Definition check_connected (fd : Z) : P (Z + Z) :=
  let* r := lookup_socket_with_fd fd in
  match r with
  | None => pret (inr (- EBADF_))
  | Some sp =>
    let* k := rd_s sp in
    let* t := tid in
    pret (if negb (sk_protocol k =? IPPROTO_TCP) then inr (- EINVAL_)
          else if negb (sk_tctx k =? t) then inr (- EPERM_)
          else if negb (bool_decide (sk_type k = SOCKET_TYPE_CONNECTION)) || negb (bool_decide (sk_status k = S_CONN_CONNECTED))
          then inr (- EINVAL_) else inl sp)
  end.

(** [eTran_read]: the bytes, or an error; [e0] is the environment of the poll
    at the end. *)
Definition eTran_read (mtp : bool) (es : list poll_env) (e0 : poll_env) (fd count : Z) : P (list Z + Z) :=
  let* r := check_connected fd in
  match r with
  | inr ret => pret (inr ret)
  | inl sp =>
    let* (bytes, polled) := read_loop mtp es sp count false in
    let* k := rd_s sp in
    let* c := lib (rd_c (sk_conn k)) in
    pwhen (rxb_used c =? 0) (clear_epoll_events sp EPOLLIN) ;;
    pwhen (negb polled) (socket_tcp_poll mtp e0 64 0) ;;
    pret (inl bytes)
  end.

Fixpoint write_loop (mtp : bool) (es : list poll_env) (sp : Z) (buf : list Z) (count : Z) (polled : bool) : P (Z * bool) :=
  let* k := rd_s sp in
  let* ret := lib (conn_send (sk_conn k) buf count) in
  if (ret =? 0) && (Z.land (sk_flags k) SOF_NONBLOCK =? 0) && bool_decide (sk_status k = S_CONN_CONNECTED) then
    match es with
    | [] => pundef
    | e :: es => socket_tcp_poll mtp e 64 (-1) ;; write_loop mtp es sp buf count true
    end
  else pret (ret, polled).

(** [eTran_write] *)
Definition eTran_write (mtp : bool) (es : list poll_env) (e0 : poll_env) (fd : Z) (buf : list Z) (count : Z) : P Z :=
  let* r := check_connected fd in
  match r with
  | inr ret => pret ret
  | inl sp =>
    let* (ret, polled) := write_loop mtp es sp buf count false in
    let* k := rd_s sp in
    let* c := lib (rd_c (sk_conn k)) in
    pwhen (txb_bytes_avail c =? 0) (clear_epoll_events sp EPOLLOUT) ;;
    pwhen (negb polled) (socket_tcp_poll mtp e0 64 0) ;;
    pret ret
  end.

(** ** Options *)

Definition SO_REUSEADDR : Z := 2.
Definition SO_REUSEPORT : Z := 15.

Definition SOL_SOCKET : Z := 1.
Definition F_GETFL : Z := 3.
Definition F_SETFL : Z := 4.
Definition O_NONBLOCK : Z := 0x800.

(** [eTran_setsockopt]; [optval] is the value, [option_len] its length. *)
Definition eTran_setsockopt (fd level option_name optval option_len : Z) : P Z :=
  if negb (level =? SOL_SOCKET) || (negb (option_name =? SO_REUSEPORT) && negb (option_name =? SO_REUSEADDR)) then pret (- EINVAL_)
  else
    let* r := lookup_socket_with_fd fd in
    match r with
    | None => pret (- EBADF_)
    | Some sp =>
      let* k := rd_s sp in
      if negb (sk_protocol k =? IPPROTO_TCP) || negb (option_len =? 4) || (negb (optval =? 0) && negb (optval =? 1)) then pret (- EINVAL_)
      else
        upd_s sp (fun k => k <| sk_flags := Z.lor (sk_flags k)
          (if nz (Z.land option_name SO_REUSEPORT) then SOF_REUSEPORT
           else if nz (Z.land option_name SO_REUSEADDR) then SOF_REUSEADDR else 0) |>) ;;
        pret 0
    end.

Definition eTran_getsockopt : P Z := pret (- EINVAL_).

(** [eTran_fcntl] *)
Definition eTran_fcntl (fd cmd flags : Z) : P Z :=
  if negb (cmd =? F_GETFL) && negb (cmd =? F_SETFL) then pret (- EINVAL_)
  else if nz (Z.land flags (Z.lnot O_NONBLOCK)) then pret (- EINVAL_)
  else
    let* r := lookup_socket_with_fd fd in
    match r with
    | None => pret (- EBADF_)
    | Some sp =>
      let* k := rd_s sp in
      if negb (sk_protocol k =? IPPROTO_TCP) then pret (- EINVAL_)
      else if cmd =? F_GETFL then pret (Z.land (sk_flags k) SOF_NONBLOCK)
      else
        upd_s sp (fun k => k <| sk_flags := if nz (Z.land flags O_NONBLOCK) then Z.lor (sk_flags k) SOF_NONBLOCK
                                            else Z.land (sk_flags k) (Z.lnot SOF_NONBLOCK) |>) ;;
        pret 0
    end.

(** ** Epoll *)

(** [eTran_epoll_create1]; [epfd] is what [epoll_create1] of libc returned,
    [e] the new structure, in which [linux_first] is as the memory has it. *)
Definition eTran_epoll_create1 (flags epfd e : Z) (junk : bool) : P Z :=
  if nz flags then pret (- EINVAL_)
  else if (epfd <? 0) || (epfd >=? MAX_FD) then pret (-1)
  else
    let* t := tid in
    pmod (fun s => s <| p_epolls ::= <[e := mk_eTran_epoll epfd t ∅ ∅ 0 0 junk]> |> <| p_fds ::= <[epfd := FH_EPOLL e]> |>) ;;
    pret epfd.

Inductive epoll_op := EPOLL_CTL_ADD | EPOLL_CTL_MOD | EPOLL_CTL_DEL.

Definition epoll_events_ok (events : Z) : bool :=
  Z.land events (Z.lnot (Z.lor EPOLLIN (Z.lor EPOLLOUT (Z.lor EPOLLHUP (Z.lor EPOLLET (Z.lor EPOLLONESHOT EPOLLERR)))))) =? 0.

(** [EPOLL_CTL_ADD]; [i] is the new item. *)
Definition epoll_add (e sp epfd fd events data i : Z) : P Z :=
  let* k := rd_s sp in
  if negb (epoll_events_ok events) then pret (- EINVAL_)
  else
    match sk_items k !! epfd with
    | Some _ => pret (- EEXIST_)
    | None =>
      pmod (fun s => s <| p_items ::= <[i := mk_eTran_epoll_item e sp events data]> |>) ;;
      upd_s sp (fun k => k <| sk_items ::= <[epfd := i]> |>) ;;
      let* ep := rd_ep e in
      match inactive_list ep !! fd with
      | Some _ => pundef
      | None =>
        upd_ep e (fun ep => ep <| inactive_list ::= <[fd := i]> |>) ;;
        (if nz (Z.land (sk_epoll_events k) events) then
           match active_list ep !! fd with
           | Some _ => pundef
           | None => upd_ep e (fun ep => ep <| active_list ::= <[fd := i]> |> <| inactive_list ::= delete fd |>)
           end
         else pret tt) ;;
        upd_ep e (fun ep => ep <| num_eTran := num_eTran ep + 1 |>) ;;
        pret 0
      end
    end.

(** [EPOLL_CTL_MOD] *)
Definition epoll_mod (e sp epfd fd events : Z) : P Z :=
  let* k := rd_s sp in
  if negb (epoll_events_ok events) then pret (- EINVAL_)
  else
    match sk_items k !! epfd with
    | None => pret (- ENOENT_)
    | Some i =>
      upd_it i (fun it => it <| interest_events := events |>) ;;
      pwhen (nz (Z.land (sk_epoll_events k) events)) (upd_ep e (activate fd i)) ;;
      pret 0
    end.

(** [EPOLL_CTL_DEL] *)
Definition epoll_del (e sp epfd fd : Z) : P Z :=
  let* k := rd_s sp in
  match sk_items k !! epfd with
  | None => pret (- ENOENT_)
  | Some i =>
    let* _ := rd_it i in
    pmod (fun s => s <| p_items ::= delete i |>) ;;
    upd_s sp (fun k => k <| sk_items ::= delete epfd |>) ;;
    upd_ep e (fun ep =>
      match inactive_list ep !! fd with
      | Some _ => ep <| inactive_list ::= delete fd |>
      | None => ep <| active_list ::= delete fd |>
      end) ;;
    upd_ep e (fun ep => ep <| num_eTran := num_eTran ep - 1 |>) ;;
    pret 0
  end.

(** [eTran_epoll_ctl]; [linux] is the answer of [epoll_ctl] of libc. *)
Definition eTran_epoll_ctl (epfd : Z) (op : epoll_op) (fd events data i linux : Z) : P Z :=
  let* r := lookup_epoll_with_fd epfd in
  match r with
  | None => pret (- EBADF_)
  | Some e =>
    let* r := lookup_socket_with_fd fd in
    match r with
    | None =>
      pwhen (0 <=? linux)
        (upd_ep e (fun ep => ep <| num_linux ::= fun n =>
           match op with EPOLL_CTL_ADD => n + 1 | EPOLL_CTL_DEL => n - 1 | EPOLL_CTL_MOD => n end |>)) ;;
      pret linux
    | Some sp =>
      let* k := rd_s sp in
      let* ep := rd_ep e in
      let* t := tid in
      if negb (sk_protocol k =? IPPROTO_TCP) then pret (- EINVAL_)
      else if negb (t =? sk_tctx k) || negb (ep_tctx ep =? t) then pret (- EPERM_)
      else
        match op with
        | EPOLL_CTL_ADD => epoll_add e sp epfd fd events data i
        | EPOLL_CTL_MOD => epoll_mod e sp epfd fd events
        | EPOLL_CTL_DEL => epoll_del e sp epfd fd
        end
    end
  end.

(** The traversal of the active list, entry by entry: the events found, at
    most [room]. *)
Fixpoint collect (e : Z) (l : list (Z * Z)) (room : Z) (evs : list (Z * Z)) : P (list (Z * Z)) :=
  match l with
  | [] => pret evs
  | (fd, i) :: l =>
    if room <=? Z.of_nat (length evs) then pret evs
    else
      let* it := rd_it i in
      let* k := rd_s (it_socket it) in
      let ready := Z.land (sk_epoll_events k) (interest_events it) in
      if nz ready then collect e l room (evs ++ [(it_data it, Z.land (interest_events it) (sk_epoll_events k))])
      else
        upd_ep e (fun ep => ep <| active_list ::= delete fd |>
                              <| inactive_list ::= fun m =>
                                   match m !! sk_fd k with Some _ => m | None => <[sk_fd k := i]> m end |>) ;;
        collect e l room evs
  end.

Definition collect_active (e room : Z) : P (list (Z * Z)) :=
  let* ep := rd_ep e in collect e (ordered (active_list ep)) room [].

(** What the rest of the system does in [eTran_epoll_wait]: the polls, the
    answer of [epoll_wait] of libc, and what the uninitialised variable [n]
    holds. *)
Record wait_env := mk_wait_env { we_poll1 : poll_env; we_poll2 : poll_env; we_linux : Z * list (Z * Z); we_n : Z }.

(** [eTran_epoll_wait]: the result and the events in the array. *)
Definition eTran_epoll_wait (mtp : bool) (w : wait_env) (epfd maxevents timeout : Z) : P (Z * list (Z * Z)) :=
  if maxevents <=? 0 then pret (- EINVAL_, [])
  else
    let* r := lookup_epoll_with_fd epfd in
    match r with
    | None => pret (- EBADF_, [])
    | Some e =>
      let* ep := rd_ep e in
      let* t := tid in
      let '(ln, levs) := we_linux w in
      if num_eTran ep =? 0 then pret (ln, levs)
      else if num_linux ep =? 0 then
        socket_tcp_poll mtp (we_poll1 w) maxevents 0 ;;
        let* evs := collect_active e maxevents in
        pwhen (bool_decide (evs = []) && nz timeout) (socket_tcp_poll mtp (we_poll2 w) maxevents timeout) ;;
        pret (Z.of_nat (length evs), evs)
      else if linux_first ep then
        upd_ep e (fun ep => ep <| linux_first := false |>) ;;
        if negb (ep_tctx ep =? t) then pret (Z.max 0 ln, levs)
        else
          socket_tcp_poll mtp (we_poll1 w) maxevents 0 ;;
          let* evs := collect_active e (maxevents - Z.max 0 ln) in
          pret (Z.max 0 ln + Z.of_nat (length evs), levs ++ evs)
      else if negb (ep_tctx ep =? t) then pret (Z.max 0 (we_n w + ln), levs)
      else
        upd_ep e (fun ep => ep <| linux_first := true |>) ;;
        socket_tcp_poll mtp (we_poll1 w) maxevents 0 ;;
        let* evs := collect_active e maxevents in
        if Z.of_nat (length evs) <? maxevents
        then pret (Z.of_nat (length evs) + Z.max 0 (we_n w + ln), evs ++ levs)
        else pret (Z.of_nat (length evs), evs)
    end.

Definition eTran_select : P Z := pret (- EINVAL_).
