(* ===== verification/LibPoll.v ===== *)
(** Polls of the socket library: whatever a poll adds to the bytes an
    application can read it also reports as an event. *)
From stdpp Require Import gmap sorting.
From S2P Require Import Prelude Intf Headers TcpCtl BufPool LibTcp LibOwn LibCtl LibSock.
Local Open Scope Z_scope.
Local Open Scope lib_scope.

(** ** What the data path does to the received bytes *)

(** What of a connection matters here. *)
Definition sig (t : tctx) : gmap Z (Z * Z) := (fun c => (rxb_used c, lc_s c)) <$> t_conns t.

(** An operation that leaves it alone. *)
Definition calm {A} (m : L A) : Prop := forall t, lpost m t (fun _ t' => sig t' = sig t).

Lemma sig_insert t p c c' :
  t_conns t !! p = Some c -> rxb_used c' = rxb_used c -> lc_s c' = lc_s c ->
  sig (t <| t_conns ::= <[p := c']> |>) = sig t.
Proof.
  intros E E1 E2. unfold sig. cbn. rewrite fmap_insert, E1, E2. apply insert_id. by rewrite lookup_fmap, E.
Qed.

Lemma calm_ret {A} (a : A) : calm (lret a).
Proof. intros t. by lp1. Qed.
Lemma calm_undef {A} : calm (lundef (A := A)).
Proof. intros t. by lp1. Qed.
Lemma calm_bind {A B} (m : L A) (k : A -> L B) : calm m -> (forall a, calm (k a)) -> calm (lbind m k).
Proof.
  intros Hm Hk t. lp1. eapply lpost_mono; [apply Hm|]. intros a t1 E1; cbv beta in E1.
  eapply lpost_mono; [apply Hk|]. intros b t2 E2; cbv beta in E2. congruence.
Qed.
Lemma calm_when b m : calm m -> calm (lwhen b m).
Proof. intros Hm t. lp1; [apply Hm|done]. Qed.
Lemma calm_mod f : (forall t, t_conns (f t) = t_conns t) -> calm (lmod f).
Proof. intros Hf t. lp1. unfold sig. by rewrite Hf. Qed.
Lemma calm_upd_c p f : (forall c, rxb_used (f c) = rxb_used c /\ lc_s (f c) = lc_s c) -> calm (upd_c p f).
Proof. intros Hf t. lp1. destruct (Hf c). by eapply sig_insert. Qed.
Lemma calm_rd {A} (m : L A) : (forall t, lpost m t (fun _ t' => t' = t)) -> calm m.
Proof. intros Hm t. eapply lpost_mono; [apply Hm|]. by intros ? ? ->. Qed.
Lemma calm_upd_q i f : calm (upd_q i f).
Proof. intros t. by lp1. Qed.
Lemma calm_wr_rx a g : calm (wr_rx a g).
Proof. intros t. by lp1. Qed.
Lemma calm_pool op : calm (lpool op).
Proof. intros t r t' E. unfold lpool in E. destruct (bp_exec _ _ _) as [[r' s]|]; [|done]. by injection E as <- <-. Qed.
Lemma calm_prod a : calm (bcache_prod a).
Proof. apply calm_bind; [apply calm_pool|intros; apply calm_ret]. Qed.

Create HintDb calm.
#[export] Hint Resolve calm_ret calm_undef calm_upd_q calm_wr_rx calm_pool calm_prod : calm.

Ltac cm1 :=
  cbv beta zeta;
  lazymatch goal with
  | |- calm (lbind _ _) => eapply calm_bind; [|intros ?]
  | |- calm (lwhen _ _) => apply calm_when
  | |- calm (lmod _) => by apply calm_mod
  | |- calm (wr_frame _ _) => by apply calm_mod
  | |- calm (upd_c _ _) => by apply calm_upd_c
  | |- calm (if ?b then _ else _) => destruct b
  | |- calm (match ?x with _ => _ end) => destruct x
  | |- calm lget => apply calm_rd; intros ?; by lp1
  | |- calm (lmust _) => apply calm_rd; intros ?; by lp1
  | |- calm (rd_frame _) => apply calm_rd; intros ?; by lp1
  | |- calm (rd_rx _) => apply calm_rd; intros ?; by lp1
  | |- calm (rd_tx _) => apply calm_rd; intros ?; by lp1
  | |- calm (rd_c _) => apply calm_rd; intros ?; by lp1
  | |- calm (rd_q _) => apply calm_rd; intros ?; by lp1
  | |- calm (qid2idx _) => apply calm_rd; intros ?; by lp1
  | |- calm _ => solve [eauto with calm]
  end.
Ltac cm := repeat cm1.

Lemma calm_take : calm bcache_take.
Proof. unfold bcache_take. cm. Qed.
#[export] Hint Resolve calm_take : calm.

Lemma calm_sync_state p m : calm (sync_state p m).
Proof. unfold sync_state, sync_go_back, sync_ack. cm. Qed.

Lemma calm_need_fill qid : calm (need_fill qid).
Proof. unfold need_fill. cm. Qed.

Lemma calm_payload mtp p addr m : calm (rx_payload mtp p addr m).
Proof.
  unfold rx_payload, mtp_add_data_seg_wrapper, etran_add_data_seg, in_order_receive, out_of_order_receive, append_ooo. cm.
Qed.

Lemma calm_segment n p i buf r w : calm (segment_loop n p i buf r w).
Proof. revert buf r w. induction n as [|n IH]; intros; cbn [segment_loop]; unfold tx_submit; cm; auto. Qed.
#[export] Hint Resolve calm_sync_state calm_need_fill calm_payload calm_segment : calm.

Lemma calm_conn_send p buf count : calm (conn_send p buf count).
Proof.
  unfold conn_send, eTran_tcp_tx_reserve_zc, eTran_tcp_tx_submit_zc, tcp_flow_tx_segmentation_zc. cm.
Qed.

Lemma calm_free : calm tcp_free_buffers.
Proof.
  assert (forall l p, calm (free_loop l p)) as Hf.
  { induction l as [|[a n] l IH]; intros p; cbn [free_loop]; cm; auto. }
  unfold tcp_free_buffers. apply calm_bind; [cm|]. intros t. generalize (free_pending_conns t). intros l.
  induction l as [|p l IH]; cbn; cm; auto.
Qed.

Lemma calm_retransmit l p i s len skip first : calm (retransmit_loop l p i s len skip first).
Proof. revert len skip first. induction l as [|[a n] l IH]; intros; cbn; unfold tx_submit; cm; auto. Qed.
#[export] Hint Resolve calm_retransmit : calm.

Lemma calm_retransmission : calm tcp_retransmission.
Proof.
  unfold tcp_retransmission. apply calm_bind; [cm|]. intros t. generalize (retransmission_conns t). intros l.
  induction l as [|[p len] l IH]; cbn [retransmission_loop];
    unfold eTran_tcp_tx_submit_zc_retransmission, tcp_flow_tx_segmentation_zc_retransmission; cm; auto.
Qed.

Lemma calm_ebpf_sync room : calm (tcp_ebpf_sync room).
Proof.
  unfold tcp_ebpf_sync. apply calm_bind; [cm|]. intros t. generalize (rx_bump_pending_conns t). intros l.
  revert l. induction room as [|room IH]; intros [|p l]; cbn [ebpf_sync_loop]; unfold tx_submit; cm; auto.
Qed.

Lemma calm_completions i : calm (poll_completions i).
Proof.
  assert (forall l sp, calm (completion_loop l sp)) as Hc.
  { induction l as [|a l IH]; intros sp; cbn [completion_loop]; cm; auto. }
  unfold poll_completions. cm; auto.
Qed.

Lemma calm_queues n i f : (forall j, calm (f j)) -> calm (for_queues n i f).
Proof. intros Hf. revert i. induction n as [|n IH]; intros i; cbn; cm; auto. Qed.

Lemma calm_fetch n q b l : calm (fetch_loop n q b l).
Proof. revert q b l. induction n as [|n IH]; intros; cbn; cm; auto. Qed.

Lemma calm_refill n : calm (refill_queues n).
Proof.
  assert (forall k i, calm (refill_loop k i)) as Hr.
  { induction k as [|k IH]; intros i; cbn; cm; auto. }
  induction n as [|n IH]; cbn; cm; auto.
Qed.
#[export] Hint Resolve calm_conn_send calm_free calm_retransmission calm_ebpf_sync calm_completions calm_queues
  calm_fetch calm_refill : calm.

(** Bytes are only counted together with an event of [evs]. *)
Definition grow (evs : list eTrantcp_event) (p : Z) (c c' : eTrantcp_connection) : Prop :=
  lc_s c' = lc_s c /\ (rxb_used c' <> 0 -> rxb_used c <> 0 \/ ETRANTCP_EV_CONN_RECVED p ∈ evs).
Definition grows (evs : list eTrantcp_event) (t t' : tctx) : Prop :=
  forall p, option_Forall2 (grow evs p) (t_conns t !! p) (t_conns t' !! p).

Lemma grows_sig t t' : sig t' = sig t -> grows [] t t'.
Proof.
  intros E p. apply (f_equal (lookup p)) in E. unfold sig in E. rewrite !lookup_fmap in E.
  destruct (t_conns t !! p) as [c|], (t_conns t' !! p) as [c'|]; cbn in E; try done; constructor.
  injection E as E1 E2. split; [done|]. rewrite E1. auto.
Qed.

Lemma grows_trans l1 l2 t1 t2 t3 : grows l1 t1 t2 -> grows l2 t2 t3 -> grows (l1 ++ l2) t1 t3.
Proof.
  intros H1 H2 p. pose proof (H1 p) as X1. pose proof (H2 p) as X2.
  inversion X1 as [c1 c2 [A1 B1] E1 E2|E1 E2]; rewrite <- E2 in X2; inversion X2 as [? c3 [A2 B2]|]; subst; constructor.
  split; [congruence|]. rewrite elem_of_app. tauto.
Qed.

Lemma grows_eq t t' : t_conns t' = t_conns t -> grows [] t t'.
Proof. intros E. apply grows_sig. unfold sig. by rewrite E. Qed.

(** The connection an event about an accept names. *)
Definition accept_ev (ev : eTrantcp_event) : option Z :=
  match ev with ETRANTCP_EV_LISTEN_ACCEPT _ conn _ _ _ => Some conn | _ => None end.

(** Operations that report what they count. *)
Definition reports {A} (ev : A -> list eTrantcp_event) (m : L A) (l : list eTrantcp_event) : Prop :=
  forall t, lpost m t (fun a t' => exists new, ev a = l ++ new /\ grows new t t' /\ Forall (fun x => accept_ev x = None) new).

Lemma reports_ret {A} (ev : A -> list eTrantcp_event) (a : A) l new :
  ev a = l ++ new -> Forall (fun x => accept_ev x = None) new -> reports ev (lret a) l.
Proof.
  intros E Hn t. lp1. exists new. split; [done|]. split; [|done]. rewrite <- (app_nil_l new). intros p. destruct (t_conns t !! p); constructor.
  split; [done|]. auto.
Qed.

Lemma reports_calm {A B} (ev : B -> list eTrantcp_event) (m : L A) (k : A -> L B) l :
  calm m -> (forall a, reports ev (k a) l) -> reports ev (lbind m k) l.
Proof.
  intros Hm Hk t. lp1. eapply lpost_mono; [apply Hm|]. intros a t1 E1; cbv beta in E1.
  eapply lpost_mono; [apply Hk|]. intros b t2 (new & Eb & Hg & Hn). exists new. split; [done|]. split; [|done].
  by apply (grows_trans [] new t t1 t2), Hg; apply grows_sig.
Qed.

Lemma reports_bind {A B} (ev : A -> list eTrantcp_event) (ev' : B -> list eTrantcp_event) (m : L A) (k : A -> L B) l :
  reports ev m l -> (forall a, reports ev' (k a) (ev a)) -> reports ev' (lbind m k) l.
Proof.
  intros Hm Hk t. lp1. eapply lpost_mono; [apply Hm|]. intros a t1 (n1 & E1 & G1 & N1).
  eapply lpost_mono; [apply Hk|]. intros b t2 (n2 & E2 & G2 & N2). exists (n1 ++ n2).
  split; [by rewrite E2, E1, app_assoc|]. split; [by eapply grows_trans|]. by apply Forall_app.
Qed.

Lemma reports_txev h : reports ret_events (lret (lazy_update_prev_conn_txev h)) (ret_events h).
Proof.
  unfold lazy_update_prev_conn_txev. destruct (cached_sendbuf_event h).
  - eapply reports_ret; [done|by repeat constructor].
  - apply (reports_ret _ _ _ []); [by rewrite app_nil_r|constructor].
Qed.

Lemma reports_rxev h : reports ret_events (lazy_update_prev_conn_rxev h) (ret_events h).
Proof.
  unfold lazy_update_prev_conn_rxev. destruct (cached_rx_bump h =? 0); [by apply (reports_ret _ _ _ []); [rewrite app_nil_r|constructor]|].
  intros t. do 3 lp1. eexists. split; [done|]. split; [|by repeat constructor]. intros p. cbn. destruct (decide (p = cached_conn h)) as [->|Hn].
  - rewrite lookup_insert_eq, H. constructor. split; [done|]. intros _. right. by left.
  - rewrite lookup_insert_ne by done. destruct (t_conns t !! p); constructor. split; [done|]. auto.
Qed.

Lemma reports_same {A} (ev : A -> list eTrantcp_event) (a : A) l : ev a = l -> reports ev (lret a) l.
Proof. intros E. apply (reports_ret _ _ _ []); [by rewrite app_nil_r|constructor]. Qed.

Lemma reports_switch h p : reports ret_events (rx_switch h p) (ret_events h).
Proof.
  unfold rx_switch. destruct (_ && _).
  - eapply reports_bind; [apply reports_rxev|]. intros h1. cbv beta zeta. unfold lazy_update_prev_conn_txev.
    destruct (cached_sendbuf_event h1); [eapply reports_ret; [done|by repeat constructor]|by apply reports_same].
  - destruct (_ =? _); by apply reports_same.
Qed.

Lemma reports_packet mtp h p addr m : reports ret_events (rx_conn_packet mtp h p addr m) (ret_events h).
Proof.
  unfold rx_conn_packet. eapply reports_bind; [apply reports_switch|]. intros h1. cbv beta zeta.
  destruct (_ =? _).
  - apply reports_calm; [cm|]. intros e. apply reports_calm; [cm|]. intros _. by apply reports_same; destruct e.
  - apply reports_calm; [cm|]. intros _. apply reports_calm; [cm|]. intros _. apply reports_calm; [cm|]. intros e.
    destruct (_ =? _).
    + apply reports_calm; [cm|]. intros _. apply reports_calm; [cm|]. intros _. by apply reports_same; destruct e.
    + apply reports_calm; [cm|]. intros n. by apply reports_same; destruct e.
Qed.

Lemma reports_flush h : reports ret_events (rx_flush h) (ret_events h).
Proof.
  unfold rx_flush. eapply (reports_bind ret_events).
  - destruct (_ && _); [apply reports_rxev|by apply reports_same].
  - intros h1. apply reports_txev.
Qed.

Lemma reports_handle_rx mtp h addr last : reports ret_events (handle_rx mtp h addr last) (ret_events h).
Proof.
  unfold handle_rx. apply reports_calm; [cm|]. intros m. eapply (reports_bind ret_events).
  - destruct (_ || _); [|apply reports_packet]. apply reports_calm; [cm|]. intros _. by apply reports_same.
  - intros h1. destruct last; [apply reports_flush|by apply reports_same].
Qed.

Lemma reports_batch mtp l h : reports ret_events (handle_batch mtp h l) (ret_events h).
Proof.
  revert h. induction l as [|a l IH]; intros h; cbn; [by apply reports_same|].
  eapply (reports_bind ret_events); [apply reports_handle_rx|]. intros h1. apply IH.
Qed.

Lemma reports_nic_poll mtp budget : reports (fun x => x) (tcp_nic_poll mtp budget) [].
Proof.
  unfold tcp_nic_poll. apply reports_calm; [cm|]. intros t. apply reports_calm; [cm|]. intros _. apply reports_calm; [cm|].
  intros addrs. apply reports_calm; [cm|]. intros _.
  eapply (reports_bind ret_events _ _ _ (ret_events rx_cache_init)); [apply reports_batch|]. intros h.
  apply reports_calm; [cm|]. intros _. by apply reports_same.
Qed.

Lemma reports_queue mtp q quantum : reports (fun x => x) (poll_queue mtp q quantum) [].
Proof.
  unfold poll_queue. apply reports_calm; [cm|]. intros k. cbv zeta. destruct (take _ _) eqn:Et.
  - apply reports_calm; [cm|]. intros _. by apply reports_same.
  - apply reports_calm; [cm|]. intros _.
    eapply (reports_bind ret_events _ _ _ (ret_events rx_cache_init)); [apply reports_batch|]. intros h.
    apply reports_calm; [cm|]. intros _. by apply reports_same.
Qed.

(** A read of the application. *)
Lemma release_grows p len c t :
  t_conns t !! p = Some c -> rxb_used c <> 0 -> lpost (eTran_tcp_rx_release p len) t (fun _ t' => grows [] t t').
Proof.
  intros Ec Hu. unfold eTran_tcp_rx_release. do 2 lp1. assert (c0 = c) as -> by congruence.
  lp1; [by lp1; apply grows_eq|]. do 2 lp1. assert (c0 = c) as -> by congruence.
  set (t2 := t <| t_conns ::= _ |>). assert (grows [] t t2) as G12.
  { intros q. unfold t2. cbn. destruct (decide (q = p)) as [->|Hn].
    - rewrite lookup_insert_eq, Ec. constructor. split; [done|]. by left.
    - rewrite lookup_insert_ne by done. destruct (t_conns t !! q); constructor. split; [done|]. auto. }
  apply (lpost_mono _ _ (fun _ t' => sig t' = sig t2)).
  - match goal with |- lpost ?m _ _ => assert (calm m) as Hm by cm end. apply Hm.
  - intros ? t3 E3; cbv beta in E3. by apply (grows_trans [] [] t t2), grows_sig.
Qed.

Lemma recv_grows p count t : lpost (conn_recv p count) t (fun _ t' => grows [] t t').
Proof.
  assert (forall valid size n keep l buf, calm (peek_loop valid size n p keep l buf)) as Hp.
  { intros valid size n keep l. revert keep. induction l as [|a l IH]; intros keep buf; cbn [peek_loop]; cm; auto. }
  unfold conn_recv, eTran_tcp_rx_peek_count_zc. do 3 lp1. lp1; [lp; by apply grows_eq|]. cbv zeta.
  eapply lpost_mono; [apply Hp|]. intros bytes t1 E1; cbv beta in E1. destruct bytes as [|b bytes]; [lp1; by apply grows_sig|].
  lp1. destruct (t_conns t1 !! p) as [c1|] eqn:Ec1.
  - apply (f_equal (lookup p)) in E1 as E2. unfold sig in E2. rewrite !lookup_fmap, H, Ec1 in E2. injection E2 as E2 _.
    apply Z.eqb_neq in Heqb. eapply lpost_mono; [by apply (release_grows p _ c1); [|rewrite E2]|].
    intros ? t2 G; cbv beta in G. lp1. apply (grows_trans [] [] t t1); [by apply grows_sig|done].
  - unfold eTran_tcp_rx_release. do 2 lp1. congruence.
Qed.

(** ** Reasoning about the process *)

Local Open Scope proc_scope.

Definition ppost {A} (m : P A) (s : proc) (Q : A -> proc -> Prop) : Prop := forall a s', m s = Some (a, s') -> Q a s'.

Lemma ppost_ret {A} (a : A) s (Q : A -> proc -> Prop) : Q a s -> ppost (pret a) s Q.
Proof. intros H ? ? E. by injection E as <- <-. Qed.
Lemma ppost_undef {A} s (Q : A -> proc -> Prop) : ppost pundef s Q.
Proof. intros ? ? E. done. Qed.
Lemma ppost_bind {A B} (m : P A) (k : A -> P B) s Q : ppost m s (fun a s' => ppost (k a) s' Q) -> ppost (pbind m k) s Q.
Proof. intros H b s' E. unfold pbind in E. destruct (m s) as [[a s1]|] eqn:Em; [|done]. by eapply H. Qed.
Lemma ppost_mono {A} (m : P A) s (Q Q' : A -> proc -> Prop) :
  ppost m s Q -> (forall a s', Q a s' -> Q' a s') -> ppost m s Q'.
Proof. intros H HQ a s' E. by apply HQ, H. Qed.
Lemma ppost_get s (Q : proc -> proc -> Prop) : Q s s -> ppost pget s Q.
Proof. intros H ? ? E. by injection E as <- <-. Qed.
Lemma ppost_mod f s (Q : unit -> proc -> Prop) : Q tt (f s) -> ppost (pmod f) s Q.
Proof. intros H ? ? E. by injection E as <- <-. Qed.
Lemma ppost_must {A} (x : option A) s (Q : A -> proc -> Prop) : (forall a, x = Some a -> Q a s) -> ppost (pmust x) s Q.
Proof. intros H. destruct x; [by apply ppost_ret, H|apply ppost_undef]. Qed.
Lemma ppost_when (b : bool) m s (Q : unit -> proc -> Prop) :
  (b = true -> ppost m s Q) -> (b = false -> Q tt s) -> ppost (pwhen b m) s Q.
Proof. intros H1 H2. destruct b; [by apply H1|by apply ppost_ret, H2]. Qed.
Lemma ppost_lib {A} (m : L A) s (Q : A -> proc -> Prop) :
  lpost m (p_lib s) (fun a t => Q a (s <| p_lib := t |>)) -> ppost (lib m) s Q.
Proof. intros H a s' E. unfold lib in E. destruct (m (p_lib s)) as [[a' t]|] eqn:Em; [|done]. injection E as <- <-. by apply H. Qed.
Lemma ppost_rd_s sp s (Q : eTran_socket_t -> proc -> Prop) :
  (forall k, p_socks s !! sp = Some k -> Q k s) -> ppost (rd_s sp) s Q.
Proof. intros H. apply ppost_bind, ppost_get, ppost_must, H. Qed.
Lemma ppost_upd_s sp f s (Q : unit -> proc -> Prop) :
  (forall k, p_socks s !! sp = Some k -> Q tt (s <| p_socks ::= <[sp := f k]> |>)) -> ppost (upd_s sp f) s Q.
Proof. intros H. apply ppost_bind, ppost_rd_s. intros k E. by apply ppost_mod, H. Qed.
Lemma ppost_rd_ep e s (Q : eTran_epoll -> proc -> Prop) :
  (forall ep, p_epolls s !! e = Some ep -> Q ep s) -> ppost (rd_ep e) s Q.
Proof. intros H. apply ppost_bind, ppost_get, ppost_must, H. Qed.
Lemma ppost_upd_ep e f s (Q : unit -> proc -> Prop) :
  (forall ep, p_epolls s !! e = Some ep -> Q tt (s <| p_epolls ::= <[e := f ep]> |>)) -> ppost (upd_ep e f) s Q.
Proof. intros H. apply ppost_bind, ppost_rd_ep. intros ep E. by apply ppost_mod, H. Qed.
Lemma ppost_rd_it i s (Q : eTran_epoll_item -> proc -> Prop) :
  (forall it, p_items s !! i = Some it -> Q it s) -> ppost (rd_it i) s Q.
Proof. intros H. apply ppost_bind, ppost_get, ppost_must, H. Qed.
Lemma ppost_upd_it i f s (Q : unit -> proc -> Prop) :
  (forall it, p_items s !! i = Some it -> Q tt (s <| p_items ::= <[i := f it]> |>)) -> ppost (upd_it i f) s Q.
Proof. intros H. apply ppost_bind, ppost_rd_it. intros it E. by apply ppost_mod, H. Qed.
Lemma ppost_tid s (Q : Z -> proc -> Prop) : Q (t_tid (p_lib s)) s -> ppost tid s Q.
Proof. intros H. apply ppost_bind, ppost_get, ppost_ret, H. Qed.
#[global] Opaque rd_s upd_s rd_ep upd_ep rd_it upd_it tid.

Ltac pp1 :=
  cbv beta zeta;
  lazymatch goal with
  | |- ppost (pbind _ _) _ _ => apply ppost_bind
  | |- ppost (pret _) _ _ => apply ppost_ret
  | |- ppost pundef _ _ => apply ppost_undef
  | |- ppost pget _ _ => apply ppost_get
  | |- ppost (pmod _) _ _ => apply ppost_mod
  | |- ppost (pmust _) _ _ => apply ppost_must; intros ? ?
  | |- ppost (pwhen _ _) _ _ => apply ppost_when; intros ?
  | |- ppost (lib _) _ _ => apply ppost_lib
  | |- ppost (rd_s _) _ _ => apply ppost_rd_s; intros ? ?
  | |- ppost (upd_s _ _) _ _ => apply ppost_upd_s; intros ? ?
  | |- ppost (rd_ep _) _ _ => apply ppost_rd_ep; intros ? ?
  | |- ppost (upd_ep _ _) _ _ => apply ppost_upd_ep; intros ? ?
  | |- ppost (rd_it _) _ _ => apply ppost_rd_it; intros ? ?
  | |- ppost (upd_it _ _) _ _ => apply ppost_upd_it; intros ? ?
  | |- ppost tid _ _ => apply ppost_tid
  | |- ppost (if ?b then _ else _) _ _ => destruct b eqn:?
  | |- ppost (match ?x with _ => _ end) _ _ => destruct x eqn:?
  end.
Ltac pp := repeat pp1.

(** ** The poll of the library *)

(** The connection an answer to an accept is about. *)
Definition accept_of (m : app_in_msg) : option Z :=
  match m with Tcp_in (APPIN_TCP_CONN_ACCEPT _ conn _ _ _ _ _ _ _ _ _ _) => Some conn | _ => None end.

(** Connection [p] belongs to a socket. *)
Definition owns (socks : gmap Z eTran_socket_t) (p : Z) : Prop :=
  p <> 0 /\ exists sp k, socks !! sp = Some k /\ sk_protocol k = IPPROTO_TCP /\ sk_conn k = p.

Definition msg_ok (socks : gmap Z eTran_socket_t) (m : app_in_msg) : Prop := forall p, accept_of m = Some p -> ~ owns socks p.
Definition ev_ok (socks : gmap Z eTran_socket_t) (ev : eTrantcp_event) : Prop := forall p, accept_ev ev = Some p -> ~ owns socks p.

(** The environment leaves the connections alone, and accepts are only
    answered for connections that do not belong to a socket yet. *)
Definition env_ok (e : poll_env) : Prop :=
  (forall t, t_conns (pe_nic e t) = t_conns t) /\
  forall s, Forall (msg_ok (p_socks s)) (pe_in e s) /\ Forall (msg_ok (p_socks s)) (pe_in2 e s).

Definition same_socks (s s' : proc) : Prop :=
  p_socks s' = p_socks s /\ p_items s' = p_items s /\ p_epolls s' = p_epolls s /\ p_fds s' = p_fds s.

(** What a part of a poll with events [evs] does. *)
Record polled (evs : list eTrantcp_event) (s s' : proc) : Prop := {
  pd_socks : same_socks s s';
  pd_grows : grows evs (p_lib s) (p_lib s');
  pd_msgs : Forall (msg_ok (p_socks s)) (p_app_in s) -> Forall (msg_ok (p_socks s)) (p_app_in s');
  pd_evs : Forall (msg_ok (p_socks s)) (p_app_in s) -> Forall (ev_ok (p_socks s)) evs
}.

Lemma grows_weaken l l' t t' : l ⊆ l' -> grows l t t' -> grows l' t t'.
Proof.
  intros Hl H p. pose proof (H p) as X. inversion X as [c c' [A B]|]; constructor. split; [done|].
  intros Hu. destruct (B Hu); [by left|right; by apply Hl].
Qed.

Lemma polled_trans l1 l2 s1 s2 s3 : polled l1 s1 s2 -> polled l2 s2 s3 -> polled (l1 ++ l2) s1 s3.
Proof.
  intros [(A1 & A2 & A3 & A4) B1 C1 D1] [(A1' & A2' & A3' & A4') B2 C2 D2]. rewrite A1 in *. split.
  - split_and!; congruence.
  - by eapply grows_trans.
  - auto.
  - intros H. apply Forall_app. auto.
Qed.

Lemma polled_lib l s t : grows l (p_lib s) t -> Forall (fun ev => accept_ev ev = None) l -> polled l s (s <| p_lib := t |>).
Proof.
  intros H Hl. split; [done|done|done|]. intros _. eapply List.Forall_impl; [|exact Hl]. intros ev E p Ep. cbn in E. congruence.
Qed.

Lemma polled_calm s t : sig t = sig (p_lib s) -> polled [] s (s <| p_lib := t |>).
Proof. intros H. apply polled_lib; [by apply grows_sig|constructor]. Qed.

Lemma polled_refl s : polled [] s s.
Proof. split; [done|by apply grows_eq|done|constructor]. Qed.

Lemma polled_reports (m : L (list eTrantcp_event)) s :
  reports (fun x => x) m [] -> ppost (lib m) s (fun evs s' => polled evs s s').
Proof.
  intros H. pp1. eapply lpost_mono; [apply H|]. intros evs t (new & -> & G & Hn). by apply polled_lib.
Qed.

Lemma polled_calm_lib {A} (m : L A) s : calm m -> ppost (lib m) s (fun _ s' => polled [] s s').
Proof. intros H. pp1. eapply lpost_mono; [apply H|]. intros a t E; cbv beta in E. by apply polled_calm. Qed.

Lemma upd_conn_grows p f t :
  (forall c, lc_s (f c) = lc_s c /\ (rxb_used (f c) = 0 \/ rxb_used (f c) = rxb_used c)) ->
  lpost (upd_c p f) t (fun _ t' => grows [] t t').
Proof.
  intros Hf. lp1. intros q. cbn. destruct (decide (q = p)) as [->|Hn].
  - rewrite lookup_insert_eq, H. constructor. destruct (Hf c) as [E1 E2]. split; [done|]. intros Hu. left. intuition congruence.
  - rewrite lookup_insert_ne by done. destruct (t_conns t !! q); constructor. split; [done|]. auto.
Qed.

(** One message: the state of the library and the events. *)
Lemma kernel_event_spec m s :
  ppost (tcp_kernel_event m) s (fun evs s' => same_socks s s' /\ p_app_in s' = p_app_in s /\
    grows [] (p_lib s) (p_lib s') /\ forall ev, ev ∈ evs -> forall p, accept_ev ev = Some p -> accept_of m = Some p).
Proof.
  assert (forall p s, ppost (insert_open_conn p) s (fun _ s' => same_socks s s' /\ p_app_in s' = p_app_in s /\ p_lib s' = p_lib s)) as Hins.
  { intros p s1. unfold insert_open_conn. do 2 pp1. lp1. by pp. }
  assert (forall s, same_socks s s /\ p_app_in s = p_app_in s /\ grows [] (p_lib s) (p_lib s)) as Hrefl
    by (intros; split_and!; try done; by apply grows_eq).
  assert (forall (evs : list eTrantcp_event) s1 s2 s3, same_socks s1 s2 /\ p_app_in s2 = p_app_in s1 /\ grows [] (p_lib s1) (p_lib s2) ->
    same_socks s2 s3 /\ p_app_in s3 = p_app_in s2 /\ p_lib s3 = p_lib s2 ->
    (forall ev, ev ∈ evs -> forall p, accept_ev ev = Some p -> accept_of m = Some p) ->
    same_socks s1 s3 /\ p_app_in s3 = p_app_in s1 /\ grows [] (p_lib s1) (p_lib s3) /\
    forall ev, ev ∈ evs -> forall p, accept_ev ev = Some p -> accept_of m = Some p) as Hend.
  { intros evs s1 s2 s3 ((A1 & A2 & A3 & A4) & A5 & A6) ((B1 & B2 & B3 & B4) & B5 & B6) Hev.
    split_and!; [split_and!; congruence|congruence|by rewrite B6|done]. }
  unfold tcp_kernel_event. destruct m as [[t conn fd newfd st bl rx tx lip rip rport qid|t l fd rip rport|t conn fd st lip lport rx tx qid|[] t x fd st|? ? ? ?]| |].
  - do 2 pp1.
    + do 2 pp1. eapply lpost_mono; [apply upd_conn_grows; intros c; cbn; auto|]. intros ? t1 G; cbv beta in G.
      eapply ppost_mono; [apply Hins|]. intros ? s2 H2; cbv beta in H2. pp1.
      eapply Hend; [|exact H2|]; [done|]. intros ev ->%list_elem_of_singleton. by cbn.
    + pp1. eapply lpost_mono; [apply upd_conn_grows; intros c; cbn; auto|]. intros ? t1 G; cbv beta in G. pp1.
      split_and!; try done. intros ev ->%list_elem_of_singleton. by cbn.
  - pp1. split_and!; try apply Hrefl; try done. intros ev ->%list_elem_of_singleton. by cbn.
  - pp1; [|pp1].
    + do 2 pp1. eapply lpost_mono; [apply upd_conn_grows; intros c; cbn; auto|]. intros ? t1 G; cbv beta in G. pp1.
      split_and!; try done. intros ev ->%list_elem_of_singleton. by cbn.
    + do 2 pp1. eapply lpost_mono; [apply upd_conn_grows; intros c; cbn; auto|]. intros ? t1 G; cbv beta in G. pp1.
      eapply ppost_mono; [apply Hins|]. intros ? s2 H2; cbv beta in H2. pp1.
      eapply Hend; [|exact H2|]; [done|]. intros ev Hev. apply elem_of_cons in Hev as [->|Hev]; [by cbn|]. apply list_elem_of_singleton in Hev as ->. by cbn.
    + pp1. split_and!; try apply Hrefl; try done. intros ev ->%list_elem_of_singleton. by cbn.
  - pp1. split_and!; try apply Hrefl; try done. intros ev ->%list_elem_of_singleton. by cbn.
  - pp1. split_and!; try apply Hrefl; try done. intros ev ->%list_elem_of_singleton. by cbn.
  - pp1. split_and!; try apply Hrefl; try done. intros ev ->%list_elem_of_singleton. by cbn.
  - pp1. split_and!; try apply Hrefl; try done. by intros ev ?%not_elem_of_nil.
  - pp1. split_and!; try apply Hrefl; try done. by intros ev ?%not_elem_of_nil.
  - pp1. split_and!; try apply Hrefl; try done. by intros ev ?%not_elem_of_nil.
Qed.

Lemma kernel_loop_spec max msgs : forall w evs s, p_app_in s = msgs ->
  ppost (tcp_kernel_loop msgs max w evs) s (fun r s' => exists new, r.1 = evs ++ new /\ polled new s s' /\
    grows [] (p_lib s) (p_lib s')).
Proof.
  induction msgs as [|m msgs IH]; intros w evs s Em; cbn [tcp_kernel_loop].
  - pp1. exists []. rewrite app_nil_r. split; [done|]. split; [apply polled_refl|by apply grows_eq].
  - do 3 pp1. set (s1 := s <| p_app_in := msgs |> <| p_evwork ::= _ |>).
    eapply ppost_mono; [apply kernel_event_spec|]. intros new s2 ((A1 & A2 & A3 & A4) & A5 & A6 & A7). cbv zeta.
    assert (polled new s s2) as Hp.
    { split; [by split_and!| |rewrite Em; by rewrite A5; intros (? & ?)%list.Forall_cons|].
      - eapply grows_weaken; [|exact A6]. by intros x ?%not_elem_of_nil.
      - rewrite Em. intros (Hm & _)%list.Forall_cons. apply list.Forall_forall. intros ev Hev p Ep. apply Hm.
        by eapply A7. }
    pp1; [pp1; by exists new|]. eapply ppost_mono; [apply IH; by rewrite A5|].
    intros r s3 (new' & E & Hp' & G'). exists (new ++ new'). split; [by rewrite E, app_assoc|].
    split; [by eapply polled_trans|]. by apply (grows_trans [] [] _ (p_lib s2)).
Qed.

Lemma polled_eq s s' : same_socks s s' -> p_lib s' = p_lib s -> p_app_in s' = p_app_in s -> polled [] s s'.
Proof. intros H1 H2 H3. split; [done|rewrite H2; by apply grows_eq|by rewrite H3|constructor]. Qed.

Lemma kernel_events_spec max s :
  ppost (process_tcp_kernel_events max) s (fun evs s' => polled evs s s' /\ grows [] (p_lib s) (p_lib s')).
Proof.
  unfold process_tcp_kernel_events. do 3 pp1. eapply ppost_mono; [by apply kernel_loop_spec|].
  intros [evs w] s1 (new & E & Hp & G). cbn in E. subst evs.
  assert (forall s2, same_socks s1 s2 -> p_lib s2 = p_lib s1 -> p_app_in s2 = p_app_in s1 ->
    polled new s s2 /\ grows [] (p_lib s) (p_lib s2)) as Hend.
  { intros s2 E1 E2 E3. rewrite E2. split; [|done]. rewrite <- (app_nil_r new).
    by eapply polled_trans; [exact Hp|apply polled_eq]. }
  unfold consume_evfd. do 8 pp1; pp; by apply Hend.
Qed.

Lemma drain_spec n max : forall evs s, ppost (drain_kernel_events n max evs) s (fun r s' => exists new, r = evs ++ new /\ polled new s s').
Proof.
  induction n as [|n IH]; intros evs s; cbn [drain_kernel_events]; do 2 pp1; pp1.
  - pp1. exists []. rewrite app_nil_r. split; [done|apply polled_refl].
  - pp1.
  - pp1. exists []. rewrite app_nil_r. split; [done|apply polled_refl].
  - pp1. eapply ppost_mono; [apply kernel_events_spec|]. intros new s1 [H1 _].
    eapply ppost_mono; [apply IH|]. intros r s2 (new' & -> & H2). exists (new ++ new'). split; [by rewrite app_assoc|].
    by eapply polled_trans.
Qed.

Lemma ready_spec mtp nfds budget ready : forall quantum evs s,
  ppost (poll_ready mtp ready nfds budget quantum evs) s (fun r s' => exists new, r = evs ++ new /\ polled new s s').
Proof.
  induction ready as [|[q|] ready IH]; intros quantum evs s; cbn [poll_ready].
  - pp1. exists []. rewrite app_nil_r. split; [done|apply polled_refl].
  - pp1. eapply ppost_mono; [apply polled_reports, reports_queue|]. intros new s1 H1; cbv beta in H1.
    eapply ppost_mono; [apply IH|]. intros r s2 (new' & -> & H2). exists (new ++ new'). split; [by rewrite app_assoc|].
    by eapply polled_trans.
  - pp1. eapply ppost_mono; [apply kernel_events_spec|]. intros new s1 [H1 _].
    eapply ppost_mono; [apply IH|]. intros r s2 (new' & -> & H2). exists (new ++ new'). split; [by rewrite app_assoc|].
    by eapply polled_trans.
Qed.

Lemma messages_spec f s : Forall (msg_ok (p_socks s)) (f s) -> ppost (messages f) s (fun _ s' => polled [] s s').
Proof.
  intros Hf. unfold messages. pp1. split; [done|by apply grows_eq| |constructor]. cbn. intros H. by apply Forall_app.
Qed.

Lemma polled_weaken l l' s s' : l ⊆ l' -> Forall (ev_ok (p_socks s)) l' -> polled l s s' -> polled l' s s'.
Proof. intros Hl Hl' [A B C D]. split; [done|by eapply grows_weaken|done|done]. Qed.

Lemma nic_poll_epoll_spec mtp e budget s :
  env_ok e -> ppost (tcp_nic_poll_epoll mtp e budget) s (fun r s' => polled (match r with Some evs => evs | None => [] end) s s').
Proof.
  intros [_ He]. unfold tcp_nic_poll_epoll. do 3 pp1. eapply ppost_mono; [apply polled_calm_lib; eauto with calm|].
  intros ? s1 H1; cbv beta in H1. pp1. eapply ppost_mono; [apply kernel_events_spec|]. intros evs s2 [H2 G2].
  pose proof (polled_trans _ _ _ _ _ H1 H2) as H12. cbn [app] in H12.
  pp1. eapply ppost_mono; [apply messages_spec, He|]. intros ? s3 H3; cbv beta in H3.
  pose proof (polled_trans _ _ _ _ _ H12 H3) as H13. rewrite app_nil_r in H13.
  destruct (pe_ready e) as [[|r0 ready]|].
  - by pp1.
  - pp1. eapply ppost_mono; [apply ready_spec|]. intros r s4 (new & -> & H4).
    pp1. eapply ppost_mono; [apply polled_calm_lib; eauto with calm|]. intros ? s5 H5; cbv beta in H5. pp1.
    pose proof (polled_trans _ _ _ _ _ H13 (polled_trans _ _ _ _ _ H4 H5)) as H. by rewrite app_nil_r in H.
  - pp1. destruct H13 as [A B C D]. split; [done| |done|constructor].
    eapply (grows_trans [] []); [eapply (grows_trans [] []); [apply H1|exact G2]|apply H3].
Qed.

(** [eTran_tcp_poll_events]: all bytes counted are reported. *)
Lemma poll_events_spec mtp e max timeout s :
  env_ok e -> ppost (eTran_tcp_poll_events mtp e max timeout) s (fun evs s' => polled evs s s').
Proof.
  intros He. unfold eTran_tcp_poll_events. do 2 pp1. set (s1 := s <| p_lib ::= _ |>).
  assert (polled [] s s1) as H1 by (split; [done|apply grows_eq, He|done|constructor]).
  pp1. eapply ppost_mono; [apply messages_spec, He|]. intros ? s2 H2; cbv beta in H2.
  pp1. eapply ppost_mono; [apply polled_calm_lib; eauto with calm|]. intros ? s3 H3; cbv beta in H3.
  pose proof (polled_trans _ _ _ _ _ H1 (polled_trans _ _ _ _ _ H2 H3)) as H13. cbn [app] in H13.
  pp1. apply (ppost_mono _ _ (fun evs s' => polled evs s s')).
  - pp1.
    + pp1. eapply ppost_mono; [apply polled_reports, reports_nic_poll|]. intros evs s4 H4; cbv beta in H4. do 2 pp1.
      eapply ppost_mono; [apply drain_spec|]. intros r s5 (new & -> & H5).
      exact (polled_trans _ _ _ _ _ H13 (polled_trans _ _ _ _ _ H4 H5)).
    + pp1. eapply ppost_mono; [by apply nic_poll_epoll_spec|]. intros r s4 H4; cbv beta in H4. pp1.
      exact (polled_trans _ _ _ _ _ H13 H4).
  - intros evs s4 H4; cbv beta in H4. pp1; [pp1|]. pp1. eapply ppost_mono; [apply polled_calm_lib; eauto with calm|].
    intros ? s5 H5; cbv beta in H5. pp1. eapply ppost_mono; [apply polled_calm_lib; eauto with calm|].
    intros ? s6 H6; cbv beta in H6. pp1.
    pose proof (polled_trans _ _ _ _ _ H4 (polled_trans _ _ _ _ _ H5 H6)) as H. by rewrite app_nil_r in H.
Qed.
