(* ===== verification/LibEpoll.v ===== *)
(** Readiness in the socket library: every socket that has data is found by
    [eTran_epoll_wait]. *)
From stdpp Require Import gmap sorting.
From S2P Require Import Prelude Intf Headers TcpCtl BufPool LibTcp LibOwn LibCtl LibSock LibPoll.
Local Open Scope Z_scope.
Local Open Scope proc_scope.

Lemma ppost_rd_conn p s (Q : eTrantcp_connection -> proc -> Prop) :
  (forall c, t_conns (p_lib s) !! p = Some c -> Q c s) -> ppost (lib (rd_c p)) s Q.
Proof. intros H. pp1. lp1. replace (s <| p_lib := p_lib s |>) with s by (by destruct s). by apply H. Qed.

(** ** Bits of events *)

Lemma land_clear x e y : Z.land (Z.land x (Z.lnot e)) y <> 0 -> Z.land x y <> 0.
Proof.
  intros H E. apply H. rewrite <- Z.land_assoc, (Z.land_comm (Z.lnot e)), Z.land_assoc, E. apply Z.land_0_l.
Qed.

Lemma land_set x e y : Z.land y (Z.land (Z.lnot x) e) = 0 -> Z.land (Z.lor x e) y <> 0 -> Z.land x y <> 0.
Proof.
  intros H1 H2 H3. apply H2. apply Z.bits_inj'. intros n Hn. apply (f_equal (fun z => Z.testbit z n)) in H1, H3.
  rewrite !Z.land_spec, Z.lnot_spec, Z.bits_0 in H1 by done. rewrite Z.land_spec, Z.bits_0 in H3.
  rewrite Z.land_spec, Z.lor_spec, Z.bits_0. by destruct (Z.testbit x n), (Z.testbit e n), (Z.testbit y n).
Qed.

Lemma land_in x y : Z.testbit x 0 = true -> Z.testbit y 0 = true -> Z.land x y <> 0.
Proof. intros H1 H2 E. apply (f_equal (fun z => Z.testbit z 0)) in E. by rewrite Z.land_spec, H1, H2 in E. Qed.

Lemma elem_of_ordered m fd i : (fd, i) ∈ ordered m <-> m !! fd = Some i.
Proof. unfold ordered. rewrite merge_sort_Permutation. apply elem_of_map_to_list. Qed.

(** ** Sockets, items and lists *)

(** Item [i] is in one of the lists, under descriptor [fd]. *)
Definition listed (ep : eTran_epoll) (fd i : Z) : Prop :=
  active_list ep !! fd = Some i /\ inactive_list ep !! fd = None \/
  active_list ep !! fd = None /\ inactive_list ep !! fd = Some i.

(** The lists hold the items of the sockets, and those whose socket has an
    event of interest are in the active list; the items [W] that are
    interested in [new] may still have to be moved there. *)
Record wired_but (new : Z) (W : list Z) (s : proc) : Prop := {
  w_item : forall sp k epfd i, p_socks s !! sp = Some k -> sk_items k !! epfd = Some i ->
    exists it ep, p_items s !! i = Some it /\ it_socket it = sp /\ p_epolls s !! it_epoll it = Some ep /\ ep_epfd ep = epfd /\
      listed ep (sk_fd k) i /\
      (Z.land (sk_epoll_events k) (interest_events it) <> 0 ->
       active_list ep !! sk_fd k = Some i \/ i ∈ W /\ Z.land (interest_events it) new <> 0);
  w_list : forall e ep fd i, p_epolls s !! e = Some ep -> active_list ep !! fd = Some i \/ inactive_list ep !! fd = Some i ->
    exists it k, p_items s !! i = Some it /\ it_epoll it = e /\ p_socks s !! it_socket it = Some k /\ sk_fd k = fd /\
      sk_items k !! ep_epfd ep = Some i;
  w_sock : forall sp k, p_socks s !! sp = Some k -> p_fds s !! sk_fd k = Some (FH_SOCKET sp);
  w_sock_fd : forall fd sp, p_fds s !! fd = Some (FH_SOCKET sp) -> exists k, p_socks s !! sp = Some k /\ sk_fd k = fd;
  w_epoll : forall e ep, p_epolls s !! e = Some ep -> p_fds s !! ep_epfd ep = Some (FH_EPOLL e);
  w_epoll_fd : forall fd e, p_fds s !! fd = Some (FH_EPOLL e) -> exists ep, p_epolls s !! e = Some ep /\ ep_epfd ep = fd;
  w_count : forall e ep, p_epolls s !! e = Some ep ->
    num_eTran ep = Z.of_nat (size (active_list ep) + size (inactive_list ep))
}.
Definition wired : proc -> Prop := wired_but 0 [].

Lemma wired_weaken new W s : wired s -> wired_but new W s.
Proof.
  intros [H1 H2 H3 H4 H5 H6 H7]. split; try done. intros sp k epfd i E1 E2.
  destruct (H1 _ _ _ _ E1 E2) as (it & ep & ? & ? & ? & ? & ? & Hr). exists it, ep. split_and!; try done.
  intros Hl. destruct (Hr Hl) as [?|[?%not_elem_of_nil _]]; [by left|done].
Qed.

Lemma wired_done new s : wired_but new [] s -> wired s.
Proof.
  intros [H1 H2 H3 H4 H5 H6 H7]. split; try done. intros sp k epfd i E1 E2.
  destruct (H1 _ _ _ _ E1 E2) as (it & ep & ? & ? & ? & ? & ? & Hr). exists it, ep. split_and!; try done.
  intros Hl. destruct (Hr Hl) as [?|[?%not_elem_of_nil _]]; [by left|done].
Qed.

Lemma listed_fun ep fd i j : listed ep fd i -> listed ep fd j -> i = j.
Proof. unfold listed. intuition congruence. Qed.

Lemma activate_listed ep fd i : listed ep fd i ->
  active_list (activate fd i ep) !! fd = Some i /\ inactive_list (activate fd i ep) !! fd = None /\
  (forall fd', fd' <> fd -> active_list (activate fd i ep) !! fd' = active_list ep !! fd' /\
     inactive_list (activate fd i ep) !! fd' = inactive_list ep !! fd') /\
  ep_epfd (activate fd i ep) = ep_epfd ep /\ num_eTran (activate fd i ep) = num_eTran ep /\
  (size (active_list (activate fd i ep)) + size (inactive_list (activate fd i ep)) =
   size (active_list ep) + size (inactive_list ep))%nat.
Proof.
  intros [[E1 E2]|[E1 E2]]; unfold activate; rewrite E1; [split_and!; try done|]. cbn.
  rewrite lookup_insert_eq, lookup_delete_eq. split_and!; try done.
  - intros fd' Hn. by rewrite lookup_insert_ne, lookup_delete_ne.
  - rewrite map_size_insert_None by done. pose proof (map_size_delete_Some _ _ (mk_is_Some _ _ E2)).
    assert (size (inactive_list ep) <> 0%nat) by (intros ?%map_size_empty_inv; rewrite H0 in E2; done). lia.
Qed.

Lemma wired_activate new W s i it ep k :
  wired_but new (i :: W) s -> p_items s !! i = Some it -> p_epolls s !! it_epoll it = Some ep ->
  p_socks s !! it_socket it = Some k -> sk_items k !! ep_epfd ep = Some i ->
  wired_but new W (s <| p_epolls ::= <[it_epoll it := activate (sk_fd k) i ep]> |>).
Proof.
  intros [H1 H2 H3 H4 H5 H6 H7] Ei Ee Ek Es. destruct (H1 _ _ _ _ Ek Es) as (it0 & ep0 & Ei0 & _ & Ee0 & _ & Hl & _).
  assert (it0 = it) as -> by congruence. assert (ep0 = ep) as -> by congruence. clear Ei0 Ee0.
  destruct (activate_listed _ _ _ Hl) as (A1 & A2 & A3 & A4 & A5 & A6). set (ep' := activate (sk_fd k) i ep) in *.
  split; cbn; try done.
  - intros sp k1 epfd i1 E1 E2. destruct (H1 _ _ _ _ E1 E2) as (it1 & ep1 & F1 & F2 & F3 & F4 & F5 & F6).
    destruct (decide (it_epoll it1 = it_epoll it)) as [Ee1|Hn].
    + assert (ep1 = ep) as -> by congruence. exists it1, ep'. rewrite Ee1, lookup_insert_eq. split_and!; try done; [congruence| |].
      * destruct (decide (sk_fd k1 = sk_fd k)) as [Ef|Hf].
        -- rewrite Ef in *. assert (i1 = i) as -> by (by eapply listed_fun). by left.
        -- destruct (A3 _ Hf) as [B1 B2]. unfold listed. by rewrite B1, B2.
      * destruct (decide (sk_fd k1 = sk_fd k)) as [Ef|Hf].
        -- rewrite Ef in *. assert (i1 = i) as -> by (by eapply listed_fun). by left.
        -- destruct (A3 _ Hf) as [B1 B2]. rewrite B1. intros Hr. destruct (F6 Hr) as [?|[Hw ?]]; [by left|].
           apply elem_of_cons in Hw as [->|Hw]; [|by right]. congruence.
    + exists it1, ep1. rewrite lookup_insert_ne by done. split_and!; try done. intros Hr.
      destruct (F6 Hr) as [?|[Hw ?]]; [by left|]. apply elem_of_cons in Hw as [->|Hw]; [|by right]. congruence.
  - intros e ep1 fd i1 E1 E2. destruct (decide (e = it_epoll it)) as [->|Hn].
    + rewrite lookup_insert_eq in E1. injection E1 as <-. rewrite A4. destruct (decide (fd = sk_fd k)) as [->|Hf].
      * rewrite A1, A2 in E2. destruct E2 as [[= <-]|]; [|done]. by exists it, k.
      * destruct (A3 _ Hf) as [B1 B2]. rewrite B1, B2 in E2. by apply (H2 _ ep).
    + rewrite lookup_insert_ne in E1 by done. by apply (H2 e ep1).
  - intros e ep1 E1. destruct (decide (e = it_epoll it)) as [->|Hn].
    + rewrite lookup_insert_eq in E1. injection E1 as <-. rewrite A4. by apply H5.
    + rewrite lookup_insert_ne in E1 by done. by apply H5.
  - intros fd e E1. destruct (H6 _ _ E1) as (ep1 & E2 & E3). destruct (decide (e = it_epoll it)) as [->|Hn].
    + exists ep'. rewrite lookup_insert_eq, A4. split; [done|congruence].
    + exists ep1. by rewrite lookup_insert_ne.
  - intros e ep1 E1. destruct (decide (e = it_epoll it)) as [->|Hn].
    + rewrite lookup_insert_eq in E1. injection E1 as <-. rewrite A5, A6. by apply (H7 _ _ Ee).
    + rewrite lookup_insert_ne in E1 by done. by apply (H7 e).
Qed.

(** A socket changes but for its descriptor and items. *)
Lemma wired_sock new W s sp k k' :
  wired s -> p_socks s !! sp = Some k -> sk_fd k' = sk_fd k -> sk_items k' = sk_items k ->
  (forall epfd i it, sk_items k !! epfd = Some i -> p_items s !! i = Some it ->
     Z.land (sk_epoll_events k') (interest_events it) <> 0 ->
     Z.land (sk_epoll_events k) (interest_events it) <> 0 \/ i ∈ W /\ Z.land (interest_events it) new <> 0) ->
  wired_but new W (s <| p_socks ::= <[sp := k']> |>).
Proof.
  intros [H1 H2 H3 H4 H5 H6 H7] Ek Ef Es Hev. split; cbn; try done.
  - intros sp1 k1 epfd i E1 E2. destruct (decide (sp1 = sp)) as [->|Hn].
    + rewrite lookup_insert_eq in E1. injection E1 as <-. rewrite Es in E2.
      destruct (H1 _ _ _ _ Ek E2) as (it & ep & F1 & F2 & F3 & F4 & F5 & F6). exists it, ep. rewrite Ef. split_and!; try done.
      intros Hr. destruct (Hev _ _ _ E2 F1 Hr) as [Hr'|?]; [|by right]. destruct (F6 Hr') as [?|[?%not_elem_of_nil _]]; [by left|done].
    + rewrite lookup_insert_ne in E1 by done. destruct (H1 _ _ _ _ E1 E2) as (it & ep & F1 & F2 & F3 & F4 & F5 & F6).
      exists it, ep. split_and!; try done. intros Hr. destruct (F6 Hr) as [?|[?%not_elem_of_nil _]]; [by left|done].
  - intros e ep fd i E1 E2. destruct (H2 _ _ _ _ E1 E2) as (it & k1 & F1 & F2 & F3 & F4 & F5).
    destruct (decide (it_socket it = sp)) as [Hs|Hn].
    + assert (k1 = k) as -> by congruence. exists it, k'. rewrite Hs, lookup_insert_eq, Ef, Es. done.
    + exists it, k1. by rewrite lookup_insert_ne.
  - intros sp1 k1 E1. destruct (decide (sp1 = sp)) as [->|Hn].
    + rewrite lookup_insert_eq in E1. injection E1 as <-. rewrite Ef. by apply H3.
    + rewrite lookup_insert_ne in E1 by done. by apply H3.
  - intros fd sp1 E1. destruct (H4 _ _ E1) as (k1 & E2 & E3). destruct (decide (sp1 = sp)) as [->|Hn].
    + exists k'. rewrite lookup_insert_eq. split; [done|congruence].
    + exists k1. by rewrite lookup_insert_ne.
Qed.

Lemma wired_same s s' : same_socks s s' -> wired s -> wired s'.
Proof. intros (E1 & E2 & E3 & E4) [H1 H2 H3 H4 H5 H6 H7]. split; rewrite ?E1, ?E2, ?E3, ?E4; done. Qed.

Definition bound (k : eTran_socket_t) : bool := Z.testbit (sk_flags k) 1.

(** What events do to the sockets. *)
Definition skeleton (k : eTran_socket_t) :=
  (sk_fd k, sk_protocol k, sk_conn k, sk_listener k, bound k, sk_release k, sk_items k).
Definition evolves (k k' : eTran_socket_t) : Prop :=
  skeleton k' = skeleton k /\ (sk_status k' = S_CONN_INIT -> sk_status k = S_CONN_INIT).

Record sock_step (s s' : proc) : Prop := {
  ss_lib : p_lib s' = p_lib s /\ p_app_in s' = p_app_in s /\ p_fds s' = p_fds s /\ p_items s' = p_items s;
  ss_socks : forall sp, option_Forall2 evolves (p_socks s !! sp) (p_socks s' !! sp)
}.

Lemma sock_step_refl s : sock_step s s.
Proof. split; [done|]. intros sp. destruct (p_socks s !! sp); by constructor. Qed.

Lemma sock_step_trans s1 s2 s3 : sock_step s1 s2 -> sock_step s2 s3 -> sock_step s1 s3.
Proof.
  intros [(A1 & A2 & A3 & A4) B1] [(A1' & A2' & A3' & A4') B2]. split; [split_and!; congruence|]. intros sp.
  pose proof (B1 sp) as X1. pose proof (B2 sp) as X2.
  inversion X1 as [c1 c2 A E1 E2|E1 E2]; rewrite <- E2 in X2; inversion X2 as [? c3 A'|]; subst; constructor.
  destruct A, A'. split; [congruence|auto].
Qed.

Lemma sock_step_upd s sp k k' : p_socks s !! sp = Some k -> evolves k k' -> sock_step s (s <| p_socks ::= <[sp := k']> |>).
Proof.
  intros E Ek. split; [done|]. intros sp1. cbn. destruct (decide (sp1 = sp)) as [->|Hn].
  - rewrite lookup_insert_eq, E. by constructor.
  - rewrite lookup_insert_ne by done. destruct (p_socks s !! sp1); by constructor.
Qed.

(** [set_epoll_events] moves the items that have to be. *)
Lemma notify_spec new sp k l : forall s,
  wired_but new l.*2 s -> p_socks s !! sp = Some k -> (forall epfd i, (epfd, i) ∈ l -> sk_items k !! epfd = Some i) ->
  ppost (notify_items (sk_fd k) new l) s (fun _ s' => wired s' /\ sock_step s s' /\ p_socks s' = p_socks s).
Proof.
  induction l as [|[epfd i] l IH]; intros s Hw Ek Hl; cbn [notify_items].
  - pp1. split; [by eapply wired_done|]. split; [apply sock_step_refl|done].
  - destruct (w_item _ _ _ Hw sp k epfd i Ek (Hl _ _ ltac:(by left))) as (it & ep & F1 & F2 & F3 & F4 & F5 & F6).
    do 2 pp1. assert (it0 = it) as -> by congruence. do 2 pp1.
    + pp1. assert (ep0 = ep) as -> by congruence.
      eapply ppost_mono; [apply IH|].
      * apply (wired_activate new l.*2 s i it ep k); [done..|by rewrite F2|]. rewrite F4. apply Hl. by left.
      * done.
      * intros epfd' i' Hi'. apply Hl. by right.
      * intros ? s' (A1 & A2 & A3). split; [done|]. split; [|done]. eapply sock_step_trans; [|exact A2]. split; [done|].
        intros sp1. cbn. destruct (p_socks s !! sp1); by constructor.
    + apply IH; [|done|intros epfd' i' Hi'; apply Hl; by right]. destruct Hw as [H1 H2 H3 H4 H5 H6 H7]. split; try done.
      intros sp1 k1 epfd1 i1 E1 E2. destruct (H1 _ _ _ _ E1 E2) as (it1 & ep1 & G1 & G2 & G3 & G4 & G5 & G6).
      exists it1, ep1. split_and!; try done. intros Hr. destruct (G6 Hr) as [?|[Hi ?]]; [by left|]. right. split; [|done].
      cbn in Hi. apply elem_of_cons in Hi as [->|Hi]; [|done]. exfalso. assert (it1 = it) as -> by congruence.
      match goal with Hz : nz _ = false |- _ => by apply nz_false in Hz end.
Qed.

Lemma set_events_spec s sp ev :
  wired s -> ppost (set_epoll_events sp ev) s (fun _ s' => wired s' /\ sock_step s s' /\
    exists k k', p_socks s !! sp = Some k /\ sk_epoll_events k' = Z.lor (sk_epoll_events k) ev /\
      p_socks s' = <[sp := k']> (p_socks s)).
Proof.
  intros Hw. unfold set_epoll_events. do 2 pp1. pp1.
  - apply Z.eqb_eq in Heqb. pp1. split; [done|]. split; [apply sock_step_refl|]. exists k, k. rewrite insert_id by done. split_and!; try done.
    apply Z.bits_inj'. intros n Hn. apply (f_equal (fun z => Z.testbit z n)) in Heqb.
    rewrite Z.land_spec, Z.lnot_spec, Z.bits_0 in Heqb by done. rewrite Z.lor_spec.
    by destruct (Z.testbit (sk_epoll_events k) n), (Z.testbit ev n).
  - do 2 pp1. assert (k0 = k) as -> by congruence. set (k' := k <| sk_epoll_events := _ |>).
    set (new := Z.land _ ev) in *. set (s1 := s <| p_socks ::= _ |>).
    eapply ppost_mono; [apply (notify_spec new sp k')|].
    + apply (wired_sock new _ s sp k k'); [done..|]. intros epfd i it E1 E2 Hr.
      destruct (Z.eq_dec (Z.land (interest_events it) new) 0) as [E0|Hn]; [left; by eapply land_set|right].
      split; [|done]. apply list_elem_of_fmap. exists (epfd, i). split; [done|]. by apply elem_of_ordered.
    + cbn. apply lookup_insert_eq.
    + intros epfd i Hi. by apply elem_of_ordered.
    + intros ? s' (A1 & A2 & A3). split; [done|]. split; [|by exists k, k'].
      eapply sock_step_trans; [|exact A2]. by eapply sock_step_upd.
Qed.

(** ** Sockets and connections *)

(** The call in progress: none, one that gives the socket a connection, or an
    accept with the new connection and the listening socket. *)
Inductive call := Idle | Opening (sp : Z) | Accepting (conn sp : Z).

(** Sockets and connections point to each other. *)
Record owned (cl : call) (s : proc) : Prop := {
  o_sock : forall sp k, p_socks s !! sp = Some k -> sk_protocol k = IPPROTO_TCP -> sk_conn k <> 0 ->
    exists c, t_conns (p_lib s) !! sk_conn k = Some c /\ lc_s c = sp;
  o_conn : forall p c, t_conns (p_lib s) !! p = Some c ->
    (exists k, p_socks s !! lc_s c = Some k /\ sk_protocol k = IPPROTO_TCP /\ sk_conn k = p) \/ cl = Accepting p (lc_s c);
  o_pend : forall p sp k, cl = Accepting p sp -> p_socks s !! sp = Some k -> sk_listener k <> 0;
  o_new : forall p sp, cl = Accepting p sp -> ~ owns (p_socks s) p;
  o_null : t_conns (p_lib s) !! 0 = None /\ p_socks s !! 0 = None;
  o_msgs : Forall (msg_ok (p_socks s)) (p_app_in s);
  o_bound : forall sp k, p_socks s !! sp = Some k -> sk_listener k <> 0 -> bound k = true;
  o_release : forall sp k, p_socks s !! sp = Some k ->
    (sk_protocol k = IPPROTO_TCP -> sk_release k = Some tcp_socket_release) /\
    (sk_protocol k = IPPROTO_HOMA -> sk_release k = Some homa_socket_release) /\
    (sk_conn k <> 0 -> sk_protocol k = IPPROTO_TCP \/ sk_protocol k = IPPROTO_HOMA);
  o_init : forall sp k, p_socks s !! sp = Some k -> sk_protocol k = IPPROTO_TCP -> sk_status k = S_CONN_INIT ->
    sk_conn k = 0 \/ cl = Opening sp
}.

(** A socket whose connection holds data has the event, or it is due. *)
Definition ready (evs : list eTrantcp_event) (s : proc) : Prop :=
  forall sp k c, p_socks s !! sp = Some k -> sk_protocol k = IPPROTO_TCP -> bound k = false ->
    t_conns (p_lib s) !! sk_conn k = Some c -> rxb_used c <> 0 ->
    Z.testbit (sk_epoll_events k) 0 = true \/ ETRANTCP_EV_CONN_RECVED (sk_conn k) ∈ evs.

Record inv (cl : call) (evs : list eTrantcp_event) (s : proc) : Prop := {
  iv_wired : wired s;
  iv_owned : owned cl s;
  iv_ready : ready evs s
}.

Lemma inv_polled cl evs s s' : inv cl [] s -> polled evs s s' -> inv cl evs s' /\ Forall (ev_ok (p_socks s')) evs.
Proof.
  intros [Hw [O1 O2 O3 O9 [O4 O4'] O5 O6 O7 O8] Hr] [(E1 & E2 & E3 & E4) G M V]. rewrite <- E1 in V.
  split; [|rewrite E1 in V; rewrite E1; auto]. split.
  - by eapply wired_same.
  - split; rewrite ?E1; try done.
    + intros sp k Ek Hp Hc. destruct (O1 _ _ Ek Hp Hc) as (c & Ec & El). pose proof (G (sk_conn k)) as X. rewrite Ec in X.
      inversion X as [? c' [A _]|]; subst. exists c'. split; [done|congruence].
    + intros p c' Ec. pose proof (G p) as X. rewrite Ec in X. inversion X as [c ? [A _] Ec0|]; subst. rewrite A. by apply O2.
    + split; [|done]. pose proof (G 0) as X. rewrite O4 in X. by inversion X.
    + auto.
  - intros sp k c' Ek Hp Hb Ec Hu. rewrite E1 in Ek. pose proof (G (sk_conn k)) as X. rewrite Ec in X.
    inversion X as [c ? [_ B] Ec0|]; subst. destruct (B Hu) as [Hu'|?]; [|by right].
    destruct (Hr sp k c Ek Hp Hb (eq_sym Ec0) Hu') as [?|?%not_elem_of_nil]; [by left|done].
Qed.

Lemma step_back s s' sp k' : sock_step s s' -> p_socks s' !! sp = Some k' -> exists k, p_socks s !! sp = Some k /\ evolves k k'.
Proof. intros [_ H] E. pose proof (H sp) as X. rewrite E in X. inversion X as [k ? A Ek|]; subst. by exists k. Qed.

Lemma step_forth s s' sp k : sock_step s s' -> p_socks s !! sp = Some k -> exists k', p_socks s' !! sp = Some k' /\ evolves k k'.
Proof. intros [_ H] E. pose proof (H sp) as X. rewrite E in X. inversion X as [? k' A Ek Ek'|]; subst. by exists k'. Qed.

Lemma owns_step s s' p : sock_step s s' -> owns (p_socks s') p -> owns (p_socks s) p.
Proof.
  intros H (Hp & sp & k' & E & H1 & H2). destruct (step_back _ _ _ _ H E) as (k & Ek & Es & _). unfold skeleton in Es. simplify_eq.
  split; [done|]. exists sp, k. split_and!; congruence.
Qed.

Lemma owned_step cl s s' : sock_step s s' -> owned cl s -> owned cl s'.
Proof.
  intros Hs [O1 O2 O3 O9 [O4 O4'] O5 O6 O7 O8]. pose proof Hs as [(E1 & E2 & E3 & E4) Hk].
  assert (forall sp k', p_socks s' !! sp = Some k' -> exists k, p_socks s !! sp = Some k /\
    sk_protocol k' = sk_protocol k /\ sk_conn k' = sk_conn k /\ sk_listener k' = sk_listener k /\ bound k' = bound k /\
    sk_release k' = sk_release k /\ (sk_status k' = S_CONN_INIT -> sk_status k = S_CONN_INIT)) as Hback.
  { intros sp k' Ek. destruct (step_back _ _ _ _ Hs Ek) as (k & Ek0 & Es & Est). unfold skeleton in Es. simplify_eq. by exists k. }
  split; rewrite ?E1, ?E2.
  - intros sp k' Ek Hp Hc. destruct (Hback _ _ Ek) as (k & Ek0 & F1 & F2 & _). rewrite F1 in Hp. rewrite F2 in Hc |- *. by apply O1.
  - intros p c Ec. destruct (O2 p c Ec) as [(k & Ek & Hp & Hc)|?]; [left|by right].
    destruct (step_forth _ _ _ _ Hs Ek) as (k' & Ek' & Es & _). unfold skeleton in Es. simplify_eq. exists k'. split_and!; congruence.
  - intros p sp k' Ep Ek. destruct (Hback _ _ Ek) as (k & Ek0 & _ & _ & -> & _). by eapply O3.
  - intros p sp Ep Ho. eapply O9; [done|]. by eapply owns_step.
  - split; [done|]. pose proof (Hk 0) as X. rewrite O4' in X. by inversion X.
  - eapply List.Forall_impl; [|exact O5]. intros m Hm p Ep Ho. eapply Hm; [done|]. by eapply owns_step.
  - intros sp k' Ek. destruct (Hback _ _ Ek) as (k & Ek0 & _ & _ & -> & -> & _). by apply (O6 sp).
  - intros sp k' Ek. destruct (Hback _ _ Ek) as (k & Ek0 & -> & -> & _ & _ & -> & _). by apply (O7 sp).
  - intros sp k' Ek Hp Hi. destruct (Hback _ _ Ek) as (k & Ek0 & F1 & -> & _ & _ & _ & F6). rewrite F1 in Hp. apply (O8 sp k); auto.
Qed.

(** The event of a socket with data stays. *)
Lemma ready_step evs evs' s s' :
  sock_step s s' -> ready evs s ->
  (forall sp k k', p_socks s !! sp = Some k -> p_socks s' !! sp = Some k' -> bound k = false -> sk_protocol k = IPPROTO_TCP ->
     Z.testbit (sk_epoll_events k) 0 = true -> Z.testbit (sk_epoll_events k') 0 = true) ->
  (forall sp k k' c, p_socks s !! sp = Some k -> p_socks s' !! sp = Some k' -> sk_protocol k = IPPROTO_TCP ->
     t_conns (p_lib s) !! sk_conn k = Some c -> ETRANTCP_EV_CONN_RECVED (sk_conn k) ∈ evs ->
     ETRANTCP_EV_CONN_RECVED (sk_conn k) ∈ evs' \/ Z.testbit (sk_epoll_events k') 0 = true) ->
  ready evs' s'.
Proof.
  intros Hs Hr Hk He sp k' c Ek Hp Hb Ec Hu. pose proof Hs as [(E1 & E2 & E3 & E4) _]. rewrite E1 in Ec.
  destruct (step_back _ _ _ _ Hs Ek) as (k & Ek0 & Es & Est). unfold skeleton in Es. simplify_eq.
  replace (sk_conn k') with (sk_conn k) in * by congruence. replace (sk_protocol k') with (sk_protocol k) in * by congruence.
  assert (bound k = false) as Hb' by (unfold bound in *; congruence).
  destruct (Hr sp k c Ek0 Hp Hb' Ec Hu) as [Ht|Ht]; [left; by eapply Hk|]. destruct (He sp k k' c Ek0 Ek Hp Ec Ht); auto.
Qed.

(** ** Events *)

Definition steps (cl : call) (evs : list eTrantcp_event) (s s' : proc) : Prop := inv cl evs s' /\ sock_step s s'.

Lemma steps_refl cl evs s : inv cl evs s -> steps cl evs s s.
Proof. intros H. split; [done|apply sock_step_refl]. Qed.

(** An event other than the arrival of data is handled. *)
Lemma inv_drop cl ev evs s : (forall p, ev <> ETRANTCP_EV_CONN_RECVED p) -> inv cl (ev :: evs) s -> inv cl evs s.
Proof.
  intros Hn [Hw Ho Hr]. split; try done. intros sp k c Ek Hp Hb Ec Hu.
  destruct (Hr sp k c Ek Hp Hb Ec Hu) as [?|[?|?]%elem_of_cons]; [by left| |by right]. by destruct (Hn (sk_conn k)).
Qed.

Lemma inv_set cl evs s sp ev : inv cl evs s -> ppost (set_epoll_events sp ev) s (fun _ s' => steps cl evs s s').
Proof.
  intros [Hw Ho Hr]. eapply ppost_mono; [by apply set_events_spec|]. intros _ s' (A1 & A2 & k & k' & E1 & E2 & E3).
  split; [|done]. split; [done|by eapply owned_step|]. eapply ready_step; [done..| |auto].
  intros sp1 k1 k1' F1 F2 _ _ Ht. rewrite E3 in F2. destruct (decide (sp1 = sp)) as [->|Hn].
  - rewrite lookup_insert_eq in F2. injection F2 as <-. assert (k1 = k) as -> by congruence. by rewrite E2, Z.lor_spec, Ht.
  - rewrite lookup_insert_ne in F2 by done. congruence.
Qed.

Lemma inv_recved cl p evs s c :
  inv cl (ETRANTCP_EV_CONN_RECVED p :: evs) s -> t_conns (p_lib s) !! p = Some c ->
  ppost (set_epoll_events (lc_s c) EPOLLIN) s (fun _ s' => steps cl evs s s').
Proof.
  intros [Hw Ho Hr] Ec. eapply ppost_mono; [by apply set_events_spec|]. intros _ s' (A1 & A2 & k & k' & E1 & E2 & E3).
  split; [|done]. split; [done|by eapply owned_step|].
  assert (Z.testbit (sk_epoll_events k') 0 = true) as Hb by (rewrite E2, Z.lor_spec; apply orb_true_r).
  eapply ready_step; [done|exact Hr| |].
  - intros sp1 k1 k1' F1 F2 _ _ Ht. rewrite E3 in F2. destruct (decide (sp1 = lc_s c)) as [->|Hn].
    + rewrite lookup_insert_eq in F2. by injection F2 as <-.
    + rewrite lookup_insert_ne in F2 by done. congruence.
  - intros sp1 k1 k1' c1 F1 F2 Hp Ec1 [E|?]%elem_of_cons; [|by left]. injection E as E. right. rewrite E in Ec1.
    assert (c1 = c) as -> by congruence.
    assert (sk_conn k1 <> 0) as Hnz by (rewrite E; intros ->; rewrite (proj1 (o_null _ _ Ho)) in Ec; done).
    destruct (o_sock _ _ Ho sp1 k1 F1 Hp Hnz) as (c2 & Ec2 & El). rewrite E in Ec2. assert (c2 = c) as -> by congruence.
    rewrite E3, El, lookup_insert_eq in F2. by injection F2 as <-.
Qed.

(** A socket changes, but neither its skeleton nor its events. *)
Lemma inv_upd cl evs s sp k k' :
  inv cl evs s -> p_socks s !! sp = Some k -> evolves k k' -> sk_epoll_events k' = sk_epoll_events k ->
  steps cl evs s (s <| p_socks ::= <[sp := k']> |>).
Proof.
  intros [Hw Ho Hr] Ek Es Ev. pose proof (sock_step_upd _ _ _ _ Ek Es) as Hs. split; [|done].
  destruct Es as [Es _]. unfold skeleton in Es. simplify_eq. split.
  - apply (wired_sock 0 [] s sp k k'); [done..|]. intros epfd i it _ _. rewrite Ev. auto.
  - by eapply owned_step.
  - eapply ready_step; [done..| |auto]. intros sp1 k1 k1' F1 F2 _ _ Ht. cbn in F2. destruct (decide (sp1 = sp)) as [->|Hn].
    + rewrite lookup_insert_eq in F2. injection F2 as <-. congruence.
    + rewrite lookup_insert_ne in F2 by done. congruence.
Qed.

(** Events of a socket are cleared: not the arrival of data, or of a bound
    socket, or of one without data. *)
Lemma inv_clear cl evs s sp k ev :
  inv cl evs s -> p_socks s !! sp = Some k ->
  (Z.testbit ev 0 = false \/ bound k = true \/
   forall c, t_conns (p_lib s) !! sk_conn k = Some c -> rxb_used c = 0) ->
  steps cl evs s (s <| p_socks ::= <[sp := k <| sk_epoll_events := Z.land (sk_epoll_events k) (Z.lnot ev) |>]> |>).
Proof.
  intros [Hw Ho Hr] Ek Hev. set (k' := k <| sk_epoll_events := _ |>).
  pose proof (sock_step_upd s sp k k' Ek ltac:(done)) as Hs. split; [|done]. split.
  - apply (wired_sock 0 [] s sp k k'); [done..|]. intros epfd i it _ _ H. left. exact (land_clear _ _ _ H).
  - by eapply owned_step.
  - intros sp1 k1 c F1 Hp Hb Ec Hu. cbn in F1, Ec. destruct (decide (sp1 = sp)) as [->|Hn].
    + rewrite lookup_insert_eq in F1. injection F1 as <-. destruct (Hr sp k c Ek Hp Hb Ec Hu) as [Ht|?]; [|by right].
      left. change (Z.testbit (Z.land (sk_epoll_events k) (Z.lnot ev)) 0 = true). rewrite Z.land_spec, Z.lnot_spec, Ht by done.
      destruct Hev as [->|[Hb'|Hd]]; [done|by change (bound k = false) in Hb; congruence|by destruct Hu; apply Hd].
    + rewrite lookup_insert_ne in F1 by done. by apply (Hr sp1 k1 c).
Qed.

Lemma lookup_sock_spec fd s (Q : option Z -> proc -> Prop) :
  (forall sp, p_fds s !! fd = Some (FH_SOCKET sp) -> Q (Some sp) s) -> Q None s -> ppost (lookup_socket_with_fd fd) s Q.
Proof.
  intros H1 H2. unfold lookup_socket_with_fd. do 3 pp1. destruct (_ || _); [done|].
  destruct (p_fds s !! fd) as [[sp|e]|] eqn:E; [by apply H1|done..].
Qed.

Ltac with_sock := pp1; apply lookup_sock_spec; [intros sp Hfd|by pp1; apply steps_refl]; pp1; pp1.

Lemma event_spec cl ev evs s :
  inv cl (ev :: evs) s -> ev_ok (p_socks s) ev -> ppost (tcp_event ev) s (fun _ s' => steps cl evs s s').
Proof.
  intros H Hok. destruct ev as [st l fd|rp rip l fd|st conn bl fd newfd|st conn fd|st conn fd|st conn fd|conn|conn];
    cbn [tcp_event]; cbv zeta.
  - apply inv_drop in H; [|done]. with_sock. pp; try (by apply steps_refl); by eapply inv_upd.
  - apply inv_drop in H; [|done]. with_sock. pp1; [by pp1; apply steps_refl|]. by apply inv_set.
  - apply inv_drop in H; [|done]. with_sock. pp1; [by pp1; apply steps_refl|]. pp1. apply ppost_rd_conn. intros c Ec.
    pp1; [by pp1; apply steps_refl|]. pp1; [by pp1; apply steps_refl|]. unfold clear_epoll_events.
    match goal with E : negb _ = false |- _ => apply negb_false_iff, Z.eqb_eq in E as -> end.
    destruct (o_conn _ _ (iv_owned _ _ _ H) _ _ Ec) as [(k1 & E1 & E2 & E3)|Hp].
    { destruct (Hok conn eq_refl). split; [by apply Z.eqb_neq|]. by exists (lc_s c), k1. }
    pp1.
    eapply (inv_clear cl evs s); [done..|]. right. left. eapply (o_bound _ _ (iv_owned _ _ _ H)); [done|].
    by eapply (o_pend _ _ (iv_owned _ _ _ H)).
  - apply inv_drop in H; [|done]. with_sock. pp; try (by apply steps_refl); by eapply inv_upd.
  - apply inv_drop in H; [|done]. with_sock. pp; try (by apply steps_refl); by eapply inv_upd.
  - apply inv_drop in H; [|done]. with_sock. pp1; [by pp1; apply steps_refl|]. do 2 pp1.
    match goal with |- ppost _ (s <| p_socks ::= <[sp := ?k']> |>) _ => pose proof (inv_upd cl evs s sp _ k' H ltac:(eassumption) ltac:(done) eq_refl) as [Hi1 Hs1] end.
    eapply ppost_mono; [by apply inv_set|]. intros _ s2 [Hi2 Hs2]. split; [done|]. by eapply sock_step_trans.
  - pp1. apply ppost_rd_conn. intros c Ec. by apply (inv_recved cl conn evs).
  - apply inv_drop in H; [|done]. pp1. apply ppost_rd_conn. intros c Ec. by apply inv_set.
Qed.

Lemma events_spec cl evs : forall s, inv cl evs s -> Forall (ev_ok (p_socks s)) evs ->
  ppost (tcp_events evs) s (fun _ s' => steps cl [] s s').
Proof.
  induction evs as [|ev evs IH]; intros s H Hok; cbn; [pp1; by apply steps_refl|].
  apply list.Forall_cons in Hok as [Hev Hok]. pp1. eapply ppost_mono; [by apply event_spec|]. intros ? s1 [H1 S1].
  eapply ppost_mono; [apply IH; [done|]|].
  - eapply List.Forall_impl; [|exact Hok]. intros e He p Ep Ho. eapply He; [done|]. by eapply owns_step.
  - intros ? s2 [H2 S2]. split; [done|]. by eapply sock_step_trans.
Qed.
