(* ===== verification/LibCalls.v ===== *)
(** The calls of the socket library keep the invariant of [LibEpoll], and what
    [eTran_epoll_wait] reports. *)
From stdpp Require Import gmap sorting.
From S2P Require Import Prelude Intf Headers TcpCtl BufPool LibTcp LibOwn LibCtl LibSock LibPoll LibEpoll.
Local Open Scope Z_scope.
Local Open Scope proc_scope.

(** ** Polls *)

(** What a poll leaves alone. *)
Record poll_step (s s' : proc) : Prop := {
  ps_fds : p_fds s' = p_fds s /\ p_items s' = p_items s;
  ps_socks : forall sp, option_Forall2 evolves (p_socks s !! sp) (p_socks s' !! sp);
  ps_conns : forall p, option_Forall2 (fun c c' => lc_s c' = lc_s c) (t_conns (p_lib s) !! p) (t_conns (p_lib s') !! p)
}.

Lemma poll_step_refl s : poll_step s s.
Proof.
  split; [done| |]; intros x; [destruct (p_socks s !! x)|destruct (t_conns (p_lib s) !! x)]; by constructor.
Qed.

Lemma poll_step_trans s1 s2 s3 : poll_step s1 s2 -> poll_step s2 s3 -> poll_step s1 s3.
Proof.
  intros [[A1 A2] B1 C1] [[A1' A2'] B2 C2]. split; [split; congruence| |].
  - intros sp. pose proof (B1 sp) as X1. pose proof (B2 sp) as X2.
    inversion X1 as [c1 c2 D1 E1 E2|E1 E2]; rewrite <- E2 in X2; inversion X2 as [? c3 D2|]; subst; constructor.
    destruct D1, D2. split; [congruence|auto].
  - intros p. pose proof (C1 p) as X1. pose proof (C2 p) as X2.
    inversion X1 as [c1 c2 D1 E1 E2|E1 E2]; rewrite <- E2 in X2; inversion X2 as [? c3 D2|]; subst; constructor. congruence.
Qed.

Lemma poll_step_polled evs s s' : polled evs s s' -> poll_step s s'.
Proof.
  intros [(E1 & E2 & E3 & E4) G _ _]. split; [done| |].
  - intros sp. rewrite E1. destruct (p_socks s !! sp); by constructor.
  - intros p. pose proof (G p) as X. inversion X as [c c' [A _]|]; by constructor.
Qed.

Lemma poll_step_socks s s' : sock_step s s' -> poll_step s s'.
Proof.
  intros [(E1 & E2 & E3 & E4) H]. split; [done|done|]. intros p. rewrite E1. destruct (t_conns (p_lib s) !! p); by constructor.
Qed.

(** Operations that keep the invariant. *)
Definition kept {A} (cl : call) (m : P A) : Prop :=
  forall s, inv cl [] s -> ppost m s (fun _ s' => inv cl [] s' /\ poll_step s s').

Lemma kept_ret {A} cl (a : A) : kept cl (pret a).
Proof. intros s H. pp1. split; [done|apply poll_step_refl]. Qed.
Lemma kept_undef {A} cl : kept (A := A) cl pundef.
Proof. intros s H. pp1. Qed.
Lemma kept_bind {A B} cl (m : P A) (k : A -> P B) : kept cl m -> (forall a, kept cl (k a)) -> kept cl (pbind m k).
Proof.
  intros Hm Hk s H. pp1. eapply ppost_mono; [by apply Hm|]. intros a s1 [H1 S1].
  eapply ppost_mono; [by apply Hk|]. intros b s2 [H2 S2]. split; [done|]. by eapply poll_step_trans.
Qed.
Lemma kept_when cl b m : kept cl m -> kept cl (pwhen b m).
Proof. intros Hm. destruct b; [done|apply kept_ret]. Qed.
Lemma kept_rd {A} cl (m : P A) : (forall s, ppost m s (fun _ s' => s' = s)) -> kept cl m.
Proof. intros Hm s H. eapply ppost_mono; [apply Hm|]. intros a ? ->. split; [done|apply poll_step_refl]. Qed.
Lemma kept_polled {A} cl (m : P A) : (forall s, ppost m s (fun _ s' => polled [] s s')) -> kept cl m.
Proof.
  intros Hm s H. eapply ppost_mono; [apply Hm|]. intros a s' Hp; cbv beta in Hp. split; [|by eapply poll_step_polled].
  by apply (inv_polled _ _ _ _ H Hp).
Qed.
Lemma kept_calm {A} cl (m : L A) : calm m -> kept cl (lib m).
Proof. intros Hm. apply kept_polled. intros s. by apply polled_calm_lib. Qed.
Lemma kept_recv cl p count : kept cl (lib (conn_recv p count)).
Proof.
  apply kept_polled. intros s. pp1. eapply lpost_mono; [apply recv_grows|]. intros ? t G; cbv beta in G.
  apply polled_lib; [done|constructor].
Qed.
Lemma kept_send cl m : kept cl (send_out m).
Proof. apply kept_polled. intros s. unfold send_out. do 3 pp1; pp; [apply polled_refl|by apply polled_eq]. Qed.

(** A change that neither sockets nor connections notice. *)
Lemma kept_mod cl f :
  (forall s, same_socks s (f s) /\ p_lib (f s) = p_lib s /\ p_app_in (f s) = p_app_in s) -> kept cl (pmod f).
Proof. intros Hf. apply kept_polled. intros s. pp1. destruct (Hf s) as (? & ? & ?). by apply polled_eq. Qed.

Lemma kept_upd cl sp f : (forall k, evolves k (f k) /\ sk_epoll_events (f k) = sk_epoll_events k) -> kept cl (upd_s sp f).
Proof.
  intros Hf s H. pp1. destruct (Hf k) as [Hk He]. destruct (inv_upd cl [] s sp k (f k) H ltac:(done) Hk He) as [H1 S1].
  split; [done|]. by apply poll_step_socks.
Qed.

Lemma kept_poll cl mtp e budget timeout : env_ok e -> kept cl (socket_tcp_poll mtp e budget timeout).
Proof.
  intros He s H. unfold socket_tcp_poll. pp1. eapply ppost_mono; [by apply poll_events_spec|]. intros evs s1 Hp; cbv beta in Hp.
  destruct (inv_polled _ _ _ _ H Hp) as [H1 Hev]. eapply ppost_mono; [by apply (events_spec cl evs s1)|]. intros ? s2 [H2 S2].
  split; [done|]. eapply poll_step_trans; [by eapply poll_step_polled|by apply poll_step_socks].
Qed.

#[export] Hint Resolve kept_ret kept_undef kept_recv kept_send kept_poll : kept.

Ltac kt1 :=
  cbv beta zeta;
  lazymatch goal with
  | |- kept _ (pbind _ _) => apply kept_bind; [|intros ?]
  | |- kept _ (pwhen _ _) => apply kept_when
  | |- kept _ (if ?b then _ else _) => destruct b
  | |- kept _ (match ?x with _ => _ end) => destruct x
  | |- kept _ pget => apply kept_rd; intros ?; by pp
  | |- kept _ (pmust _) => apply kept_rd; intros ?; by pp
  | |- kept _ tid => apply kept_rd; intros ?; by pp
  | |- kept _ (rd_s _) => apply kept_rd; intros ?; by pp
  | |- kept _ (rd_ep _) => apply kept_rd; intros ?; by pp
  | |- kept _ (rd_it _) => apply kept_rd; intros ?; by pp
  | |- kept _ (lookup_socket_with_fd _) => apply kept_rd; intros ?; by apply lookup_sock_spec
  | |- kept _ (lib (conn_recv _ _)) => apply kept_recv
  | |- kept _ (lib _) => apply kept_calm; cm
  | |- kept _ (upd_s _ _) => by apply kept_upd
  | |- kept _ (pmod _) => by apply kept_mod
  | |- kept _ _ => solve [eauto with kept]
  end.
Ltac kt := repeat kt1.

(** Polls for Homa. *)
Lemma homa_loop_spec max msgs : forall w b evs s, p_app_in s = msgs ->
  ppost (homa_kernel_loop msgs max w b evs) s (fun _ s' => polled [] s s').
Proof.
  induction msgs as [|m msgs IH]; intros w b evs s Em; cbn [homa_kernel_loop]; [pp1; apply polled_refl|].
  do 3 pp1. set (s1 := s <| p_app_in := msgs |> <| p_evwork ::= _ |>).
  assert (polled [] s s1) as H1 by (split; [done|by apply grows_eq|rewrite Em; by intros (_ & ?)%list.Forall_cons|constructor]).
  assert (forall new, ppost
    (if Z.of_nat (length (evs ++ new)) >=? max then pret (evs ++ new, w + 1)
     else homa_kernel_loop msgs max (w + 1) (match m with APPIN_HOMA_STATUS_BIND _ _ _ => true | _ => b end) (evs ++ new)) s1
    (fun _ s' => polled [] s s')) as Hrec.
  { intros new. pp1; [by pp1|]. eapply ppost_mono; [by apply IH|]. intros ? s2 H2; cbv beta in H2. exact (polled_trans _ _ _ _ _ H1 H2). }
  destruct m; pp1; try apply Hrec; pp1; apply Hrec.
Qed.

Lemma kept_homa_events cl max : kept cl (process_homa_kernel_events max).
Proof.
  apply kept_polled. intros s. unfold process_homa_kernel_events, consume_evfd. do 3 pp1. eapply ppost_mono; [by apply homa_loop_spec|].
  intros [evs w] s1 H1; cbv beta in H1.
  assert (forall s2, same_socks s1 s2 -> p_lib s2 = p_lib s1 -> p_app_in s2 = p_app_in s1 -> polled [] s s2) as Hend.
  { intros s2 E1 E2 E3. exact (polled_trans _ _ _ _ _ H1 (polled_eq _ _ E1 E2 E3)). }
  do 8 pp1; pp; by apply Hend.
Qed.
#[export] Hint Resolve kept_homa_events : kept.

Lemma kept_homa_drain cl n max : forall evs, kept cl (drain_homa_events n max evs).
Proof. induction n as [|n IH]; intros evs; cbn [drain_homa_events]; kt. Qed.
#[export] Hint Resolve kept_homa_drain : kept.

Lemma kept_homa_event cl evs : kept cl (homa_events_loop evs).
Proof. induction evs as [|[] evs IH]; cbn; kt. Qed.
#[export] Hint Resolve kept_homa_event : kept.

Lemma kept_homa_poll cl e budget : env_ok e -> kept cl (socket_homa_poll e budget).
Proof.
  intros [_ He]. unfold socket_homa_poll, eTran_homa_poll_events. kt. apply kept_polled. intros s. by apply messages_spec, He.
Qed.
#[export] Hint Resolve kept_homa_poll : kept.

Section Waits.
Context (cl : call) (mtp : bool).

Lemma kept_closed es sp : Forall env_ok es -> kept cl (wait_tcp_closed mtp es sp).
Proof. induction 1 as [|e es He Hes IH]; cbn; kt. Qed.
Lemma kept_connected es sp : Forall env_ok es -> kept cl (wait_connected mtp es sp).
Proof. induction 1 as [|e es He Hes IH]; cbn; kt. Qed.
Lemma kept_bound es sp : Forall env_ok es -> kept cl (wait_bound mtp es sp).
Proof. induction 1 as [|e es He Hes IH]; cbn; kt. Qed.
Lemma kept_listening es sp : Forall env_ok es -> kept cl (wait_listening mtp es sp).
Proof. induction 1 as [|e es He Hes IH]; cbn; kt. Qed.
Lemma kept_accepted es sp conn : Forall env_ok es -> kept cl (wait_accepted mtp es sp conn).
Proof. induction 1 as [|e es He Hes IH]; cbn; kt. Qed.
Lemma kept_read_loop es sp count b : Forall env_ok es -> kept cl (read_loop mtp es sp count b).
Proof. intros H. revert b. induction H as [|e es He Hes IH]; intros b; cbn; kt. Qed.
Lemma kept_write_loop es sp buf count b : Forall env_ok es -> kept cl (write_loop mtp es sp buf count b).
Proof. intros H. revert b. induction H as [|e es He Hes IH]; intros b; cbn; kt. Qed.
Lemma kept_homa_closed es sp : Forall env_ok es -> kept cl (wait_homa_closed es sp).
Proof. induction 1 as [|e es He Hes IH]; cbn; kt. Qed.
Lemma kept_homa_bound es sp : Forall env_ok es -> kept cl (wait_homa_bound es sp).
Proof. induction 1 as [|e es He Hes IH]; cbn; kt. Qed.
End Waits.
#[export] Hint Resolve kept_closed kept_connected kept_bound kept_listening kept_accepted kept_read_loop kept_write_loop
  kept_homa_closed kept_homa_bound : kept.

(** ** Changes of sockets and connections *)

Ltac ins E x y :=
  destruct (decide (x = y)) as [->|];
  [rewrite lookup_insert_eq in E; injection E as <-|rewrite lookup_insert_ne in E by done].

(** What the changes below leave alone. *)
Definition rest (s s' : proc) : Prop :=
  p_items s' = p_items s /\ p_epolls s' = p_epolls s /\ p_fds s' = p_fds s /\ p_app_in s' = p_app_in s.

Lemma wired_change s s' sp k k' :
  wired s -> p_socks s !! sp = Some k -> rest s s' -> p_socks s' = <[sp := k']> (p_socks s) ->
  sk_fd k' = sk_fd k -> sk_items k' = sk_items k -> sk_epoll_events k' = sk_epoll_events k \/ sk_items k = ∅ -> wired s'.
Proof.
  intros Hw Ek (E1 & E2 & E3 & E4) Es Ef Ei Ev. apply (wired_same (s <| p_socks ::= <[sp := k']> |>)); [done|].
  apply (wired_sock 0 [] s sp k k'); [done..|]. intros epfd i it Hi _ Hl. left. destruct Ev as [Ev|Ev]; [by rewrite <- Ev|].
  by rewrite Ev in Hi.
Qed.

Definition keeps (k k' : eTran_socket_t) : Prop :=
  sk_fd k' = sk_fd k /\ sk_protocol k' = sk_protocol k /\ sk_release k' = sk_release k /\ sk_items k' = sk_items k /\
  sk_epoll_events k' = sk_epoll_events k.

(** A socket changes, its TCP connection does not. *)
Lemma inv_rewire cl s s' sp k k' :
  inv cl [] s -> wired s' -> p_socks s !! sp = Some k -> p_app_in s' = p_app_in s -> p_lib s' = p_lib s ->
  p_socks s' = <[sp := k']> (p_socks s) ->
  sk_protocol k' = sk_protocol k -> sk_release k' = sk_release k -> sk_epoll_events k' = sk_epoll_events k ->
  sk_conn k' = sk_conn k \/ sk_protocol k = IPPROTO_HOMA ->
  (sk_listener k' <> 0 -> bound k' = true) -> (bound k' = false -> bound k = false) ->
  (sk_listener k' = 0 -> forall p, cl <> Accepting p sp) ->
  (sk_status k' = S_CONN_INIT -> sk_status k = S_CONN_INIT) -> inv cl [] s'.
Proof.
  intros [Hw [O1 O2 O3 O9 [O4 O4'] O5 O6 O7 O8] Hr] Hw' Ek F4 El Es K2 K3 K5 Hc Hl Hb Ha Hi.
  assert (sk_protocol k = IPPROTO_TCP -> sk_conn k' = sk_conn k) as Hc'
    by (intros Ht; destruct Hc as [?|Hh]; [done|by rewrite Ht in Hh]).
  assert (forall p, owns (p_socks s') p -> owns (p_socks s) p) as Hown.
  { intros p (Hp & sp1 & k1 & E1 & E2 & E3). split; [done|]. rewrite Es in E1. ins E1 sp1 sp; [|by exists sp1, k1].
    exists sp, k. rewrite K2 in E2. split_and!; try done. rewrite <- Hc'; done. }
  split; [done| |].
  - split; rewrite ?El, ?F4.
    + intros sp1 k1 E1 Hp Hn. rewrite Es in E1. ins E1 sp1 sp; [|by apply O1]. rewrite K2 in Hp. rewrite Hc' in Hn |- * by done. by apply O1.
    + intros p c Ec. rewrite Es. destruct (O2 p c Ec) as [(k1 & E1 & E2 & E3)|?]; [left|by right].
      destruct (decide (lc_s c = sp)) as [Hs|Hn]; [|by exists k1; rewrite lookup_insert_ne].
      exists k'. assert (k1 = k) as -> by congruence. rewrite Hs, lookup_insert_eq. split_and!; try congruence. rewrite Hc'; done.
    + intros p sp1 k1 Ecl E1. rewrite Es in E1. ins E1 sp1 sp; [|by eapply O3]. intros Hl0. by destruct (Ha Hl0 p).
    + intros p sp1 Ecl Ho. eapply O9; [done|auto].
    + split; [done|]. rewrite Es. destruct (decide (sp = 0)) as [->|]; [congruence|]. by rewrite lookup_insert_ne.
    + eapply List.Forall_impl; [|exact O5]. intros m Hm p Ep Ho. eapply Hm; [done|auto].
    + intros sp1 k1 E1. rewrite Es in E1. ins E1 sp1 sp; [done|by apply (O6 sp1)].
    + intros sp1 k1 E1. rewrite Es in E1. ins E1 sp1 sp; [|by apply (O7 sp1)]. rewrite K2, K3. destruct (O7 _ _ Ek) as (A1 & A2 & A3).
      split_and!; try done. destruct Hc as [->|?]; [done|by right].
    + intros sp1 k1 E1 Hp Hs. rewrite Es in E1. ins E1 sp1 sp; [|by apply (O8 sp1)]. rewrite K2 in Hp. rewrite Hc' by done. auto.
  - intros sp1 k1 c E1 Hp Hbd Ec Hu. rewrite El in Ec. rewrite Es in E1. ins E1 sp1 sp; [|by eapply Hr].
    rewrite K2 in Hp. rewrite Hc' in Ec |- * by done. rewrite K5. apply (Hr sp k c); auto.
Qed.

Lemma inv_resock cl s s' sp k k' :
  inv cl [] s -> p_socks s !! sp = Some k -> rest s s' -> p_lib s' = p_lib s -> p_socks s' = <[sp := k']> (p_socks s) ->
  keeps k k' -> sk_conn k' = sk_conn k \/ sk_protocol k = IPPROTO_HOMA ->
  (sk_listener k' <> 0 -> bound k' = true) -> (bound k' = false -> bound k = false) ->
  (sk_listener k' = 0 -> forall p, cl <> Accepting p sp) ->
  (sk_status k' = S_CONN_INIT -> sk_status k = S_CONN_INIT) -> inv cl [] s'.
Proof.
  intros H Ek Hf El Es (K1 & K2 & K3 & K4 & K5) Hc Hl Hb Ha Hi. eapply (inv_rewire cl s s' sp k k'); try done; [|apply Hf].
  eapply wired_change; eauto. apply H.
Qed.

(** The call that opened a connection ends. *)
Lemma inv_opened s sp :
  inv (Opening sp) [] s -> (forall k, p_socks s !! sp = Some k -> sk_conn k = 0 \/ sk_status k <> S_CONN_INIT) -> inv Idle [] s.
Proof.
  intros [Hw [O1 O2 O3 O9 O4 O5 O6 O7 O8] Hr] Hs. split; try done. split; try done.
  - intros p c Ec. destruct (O2 p c Ec); [by left|done].
  - intros sp1 k1 E1 Hp Hi. destruct (O8 sp1 k1 E1 Hp Hi) as [?|[= <-]]; [by left|]. destruct (Hs _ E1); [by left|done].
Qed.

(** A new connection that no queued answer names. *)
Definition fresh_conn (s : proc) (conn : Z) : Prop :=
  conn <> 0 /\ t_conns (p_lib s) !! conn = None /\ Forall (fun m => accept_of m <> Some conn) (p_app_in s).

(** A socket gets a connection. *)
Lemma inv_attach s s' sp k k' conn c :
  inv Idle [] s -> p_socks s !! sp = Some k -> rest s s' -> fresh_conn s conn ->
  p_socks s' = <[sp := k']> (p_socks s) -> t_conns (p_lib s') = <[conn := c]> (t_conns (p_lib s)) ->
  keeps k k' -> sk_conn k' = conn -> sk_listener k' = sk_listener k -> bound k' = bound k ->
  sk_protocol k = IPPROTO_TCP -> sk_conn k = 0 -> lc_s c = sp -> rxb_used c = 0 -> inv (Opening sp) [] s'.
Proof.
  intros [Hw [O1 O2 O3 O9 [O4 O4'] O5 O6 O7 O8] Hr] Ek Hf (C1 & C2 & C3) Es El (K1 & K2 & K3 & K4 & K5) Kc Kl Kb Kp K0 Hlc Hu.
  assert (forall sp1 k1, p_socks s !! sp1 = Some k1 -> sk_protocol k1 = IPPROTO_TCP -> sk_conn k1 <> conn) as Hold.
  { intros sp1 k1 E1 E2 E3. destruct (O1 sp1 k1 E1 E2) as (c1 & Ec1 & _); [congruence|]. congruence. }
  split; [eapply wired_change; eauto| |].
  - destruct Hf as (F1 & F2 & F3 & F4). split; rewrite ?El, ?F4.
    + intros sp1 k1 E1 Hp Hn. rewrite Es in E1. ins E1 sp1 sp.
      * exists c. by rewrite Kc, lookup_insert_eq.
      * rewrite lookup_insert_ne; [by apply O1|]. intros E. by eapply Hold.
    + intros p c1 Ec. rewrite Es. left. ins Ec p conn; [exists k'; by rewrite Hlc, lookup_insert_eq, K2|].
      destruct (O2 p c1 Ec) as [(k1 & E1 & E2 & E3)|?]; [|done]. exists k1. rewrite lookup_insert_ne; [done|]. intros Hs.
      rewrite <- Hs in E1. assert (k1 = k) as -> by congruence. rewrite K0 in E3. subst p. by rewrite O4 in Ec.
    + done.
    + done.
    + split; [by rewrite lookup_insert_ne|]. rewrite Es. destruct (decide (sp = 0)) as [->|]; [congruence|]. by rewrite lookup_insert_ne.
    + apply list.Forall_forall. intros m Hm p Ep (Hp & sp1 & k1 & E1 & E2 & E3).
      pose proof (proj1 (list.Forall_forall _ _) O5 m Hm) as A. pose proof (proj1 (list.Forall_forall _ _) C3 m Hm) as B. cbv beta in B.
      rewrite Es in E1. ins E1 sp1 sp; [congruence|]. eapply A; [done|]. split; [done|]. by exists sp1, k1.
    + intros sp1 k1 E1. rewrite Es in E1. ins E1 sp1 sp; [rewrite Kl, Kb|]; by eapply O6.
    + intros sp1 k1 E1. rewrite Es in E1. ins E1 sp1 sp; [|by apply (O7 sp1)]. rewrite K2, K3. destruct (O7 _ _ Ek) as (A1 & A2 & A3).
      split_and!; try done. by left.
    + intros sp1 k1 E1 Hp Hs. rewrite Es in E1. ins E1 sp1 sp; [by right|]. left. destruct (O8 sp1 k1 E1 Hp Hs); done.
  - intros sp1 k1 c1 E1 Hp Hbd Ec Hu1. rewrite El in Ec. rewrite Es in E1. ins E1 sp1 sp.
    + rewrite Kc, lookup_insert_eq in Ec. by injection Ec as <-.
    + rewrite lookup_insert_ne in Ec; [by eapply Hr|]. intros E. by eapply (Hold sp1 k1).
Qed.

(** A connection belongs to one socket. *)
Lemma conn_socket cl s sp k sp1 k1 :
  owned cl s -> p_socks s !! sp = Some k -> p_socks s !! sp1 = Some k1 -> sk_protocol k = IPPROTO_TCP -> sk_protocol k1 = IPPROTO_TCP ->
  sk_conn k <> 0 -> sk_conn k1 = sk_conn k -> sp1 = sp.
Proof.
  intros Ho E E1 Hp Hp1 Hn Hc. destruct (o_sock _ _ Ho sp k E Hp Hn) as (c & Ec & El).
  destruct (o_sock _ _ Ho sp1 k1 E1 Hp1) as (c1 & Ec1 & El1); [congruence|]. congruence.
Qed.

(** The connection of a socket is deleted. *)
Lemma inv_detach cl s s' sp k k' :
  inv cl [] s -> cl = Idle \/ cl = Opening sp -> p_socks s !! sp = Some k -> rest s s' ->
  p_socks s' = <[sp := k']> (p_socks s) -> t_conns (p_lib s') = delete (sk_conn k) (t_conns (p_lib s)) ->
  keeps k k' -> sk_conn k' = 0 -> sk_listener k' = sk_listener k -> bound k' = bound k -> sk_protocol k = IPPROTO_TCP -> sk_conn k <> 0 ->
  inv Idle [] s'.
Proof.
  intros [Hw Ho Hr] Hcl Ek Hf Es El (K1 & K2 & K3 & K4 & K5) Kc Kl Kb Kp K0.
  assert (forall sp1 k1, sp1 <> sp -> p_socks s !! sp1 = Some k1 -> sk_protocol k1 = IPPROTO_TCP -> sk_conn k <> sk_conn k1) as Hold.
  { intros sp1 k1 Hn E1 E2 E3. destruct Hn. by eapply (conn_socket cl s sp k sp1 k1). }
  destruct Ho as [O1 O2 O3 O9 [O4 O4'] O5 O6 O7 O8].
  split; [eapply wired_change; eauto| |].
  - destruct Hf as (F1 & F2 & F3 & F4). split; rewrite ?El, ?F4.
    + intros sp1 k1 E1 Hp Hn. rewrite Es in E1. ins E1 sp1 sp; [done|]. rewrite lookup_delete_ne; [by apply O1|]. by apply (Hold sp1).
    + intros p c Ec. apply lookup_delete_Some in Ec as [Hn Ec]. rewrite Es. left.
      destruct (O2 p c Ec) as [(k1 & E1 & E2 & E3)|?]; [|by destruct Hcl; subst]. exists k1. rewrite lookup_insert_ne; [done|]. intros Hs.
      rewrite <- Hs in E1. congruence.
    + done.
    + done.
    + split; [by rewrite lookup_delete_None; right|]. rewrite Es. destruct (decide (sp = 0)) as [->|]; [congruence|]. by rewrite lookup_insert_ne.
    + eapply List.Forall_impl; [|exact O5]. intros m Hm p Ep (Hp & sp1 & k1 & E1 & E2 & E3). rewrite Es in E1. ins E1 sp1 sp; [congruence|].
      eapply Hm; [done|]. split; [done|]. by exists sp1, k1.
    + intros sp1 k1 E1. rewrite Es in E1. ins E1 sp1 sp; [rewrite Kl, Kb|]; by eapply O6.
    + intros sp1 k1 E1. rewrite Es in E1. ins E1 sp1 sp; [|by apply (O7 sp1)]. rewrite K2, K3. destruct (O7 _ _ Ek) as (A1 & A2 & A3).
      split_and!; try done.
    + intros sp1 k1 E1 Hp Hs. left. rewrite Es in E1. ins E1 sp1 sp; [done|]. destruct (O8 sp1 k1 E1 Hp Hs) as [?|Hc]; [done|].
      destruct Hcl; subst; congruence.
  - intros sp1 k1 c1 E1 Hp Hbd Ec Hu1. rewrite El in Ec. apply lookup_delete_Some in Ec as [Hn Ec]. rewrite Es in E1. ins E1 sp1 sp.
    + rewrite Kc in Ec. congruence.
    + by eapply Hr.
Qed.

(** A new socket. *)
Lemma inv_new_sock cl s s' sp k :
  inv cl [] s -> sp <> 0 -> p_socks s !! sp = None -> p_fds s !! sk_fd k = None ->
  p_items s' = p_items s -> p_epolls s' = p_epolls s -> p_app_in s' = p_app_in s -> p_lib s' = p_lib s ->
  p_socks s' = <[sp := k]> (p_socks s) -> p_fds s' = <[sk_fd k := FH_SOCKET sp]> (p_fds s) ->
  sk_conn k = 0 -> sk_listener k = 0 -> sk_items k = ∅ -> (forall p, cl <> Accepting p sp) ->
  (sk_protocol k = IPPROTO_TCP -> sk_release k = Some tcp_socket_release) ->
  (sk_protocol k = IPPROTO_HOMA -> sk_release k = Some homa_socket_release) -> inv cl [] s'.
Proof.
  intros [[W1 W2 W3 W4 W5 W6 W7] [O1 O2 O3 O9 [O4 O4'] O5 O6 O7 O8] Hr] Hsp Es0 Ef0 E1 E2 E3 E4 Es Ef Kc Kl Ki Ha R1 R2.
  split.
  - split; rewrite ?E1, ?E2, ?Es, ?Ef.
    + intros sp1 k1 epfd i F1 F2. ins F1 sp1 sp; [by rewrite Ki in F2|]. by eapply W1.
    + intros e ep fd i F1 F2. destruct (W2 e ep fd i F1 F2) as (it & k1 & A1 & A2 & A3 & A4 & A5). exists it, k1.
      rewrite lookup_insert_ne by congruence. done.
    + intros sp1 k1 F1. ins F1 sp1 sp; [by rewrite lookup_insert_eq|]. pose proof (W3 _ _ F1). rewrite lookup_insert_ne by congruence. done.
    + intros fd sp1 F1. ins F1 fd (sk_fd k); [exists k; by rewrite lookup_insert_eq|].
      destruct (W4 _ _ F1) as (k1 & A1 & A2). exists k1. rewrite lookup_insert_ne by congruence. done.
    + intros e ep F1. pose proof (W5 _ _ F1). rewrite lookup_insert_ne by congruence. done.
    + intros fd e F1. destruct (decide (fd = sk_fd k)) as [->|]; [by rewrite lookup_insert_eq in F1|].
      rewrite lookup_insert_ne in F1 by done. by apply W6.
    + done.
  - assert (forall p, owns (p_socks s') p -> owns (p_socks s) p) as Hown.
    { intros p (Hp & sp1 & k1 & F1 & F2 & F3). split; [done|]. rewrite Es in F1. ins F1 sp1 sp; [congruence|by exists sp1, k1]. }
    split; rewrite ?E3, ?E4.
    + intros sp1 k1 F1 Hp Hn. rewrite Es in F1. ins F1 sp1 sp; [done|]. by apply O1.
    + intros p c Ec. rewrite Es. destruct (O2 p c Ec) as [(k1 & F1 & F2 & F3)|?]; [left|by right]. exists k1. rewrite lookup_insert_ne by congruence. done.
    + intros p sp1 k1 Ecl F1. rewrite Es in F1. ins F1 sp1 sp; [by destruct (Ha p)|by eapply O3].
    + intros p sp1 Ecl Ho. eapply O9; [done|auto].
    + split; [done|]. by rewrite Es, lookup_insert_ne.
    + eapply List.Forall_impl; [|exact O5]. intros m Hm p Ep Ho. eapply Hm; [done|auto].
    + intros sp1 k1 F1. rewrite Es in F1. ins F1 sp1 sp; [done|]. by eapply O6.
    + intros sp1 k1 F1. rewrite Es in F1. ins F1 sp1 sp; [by split_and!|]. by apply (O7 sp1).
    + intros sp1 k1 F1 Hp Hs. rewrite Es in F1. ins F1 sp1 sp; [by left|]. by apply (O8 sp1).
  - intros sp1 k1 c F1 Hp Hb Ec Hu. rewrite E4 in Ec. rewrite Es in F1. ins F1 sp1 sp; [rewrite Kc in Ec; congruence|by eapply Hr].
Qed.

Ltac del E := apply lookup_delete_Some in E as [? E].

(** A socket that no epoll watches is freed. *)
Lemma inv_freed cl s s' sp k :
  inv cl [] s -> p_socks s !! sp = Some k -> sk_items k = ∅ ->
  p_items s' = p_items s -> p_epolls s' = p_epolls s -> p_app_in s' = p_app_in s ->
  p_socks s' = delete sp (p_socks s) -> p_fds s' = delete (sk_fd k) (p_fds s) ->
  t_conns (p_lib s') = (if sk_protocol k =? IPPROTO_TCP then delete (sk_conn k) (t_conns (p_lib s)) else t_conns (p_lib s)) ->
  inv cl [] s'.
Proof.
  intros [[W1 W2 W3 W4 W5 W6 W7] Ho Hr] Ek Ki E1 E2 E3 Es Ef El.
  assert (forall p c, t_conns (p_lib s') !! p = Some c -> t_conns (p_lib s) !! p = Some c) as Hsub.
  { intros p c Ec. rewrite El in Ec. destruct (_ =? _); [|done]. by del Ec. }
  split.
  - split; rewrite ?E1, ?E2, ?Es, ?Ef.
    + intros sp1 k1 epfd i F1 F2. del F1. by eapply W1.
    + intros e ep fd i F1 F2. destruct (W2 e ep fd i F1 F2) as (it & k1 & A1 & A2 & A3 & A4 & A5). exists it, k1.
      rewrite lookup_delete_ne; [done|]. intros Hs. rewrite <- Hs, Ek in A3. injection A3 as <-. by rewrite Ki in A5.
    + intros sp1 k1 F1. del F1. pose proof (W3 _ _ F1). pose proof (W3 _ _ Ek). rewrite lookup_delete_ne by congruence. done.
    + intros fd sp1 F1. del F1. destruct (W4 _ _ F1) as (k1 & A1 & A2). exists k1. rewrite lookup_delete_ne by congruence. done.
    + intros e ep F1. pose proof (W5 _ _ F1). pose proof (W3 _ _ Ek). rewrite lookup_delete_ne by congruence. done.
    + intros fd e F1. del F1. by apply W6.
    + done.
  - assert (forall p, owns (p_socks s') p -> owns (p_socks s) p) as Hown.
    { intros p (Hp & sp1 & k1 & F1 & F2 & F3). split; [done|]. rewrite Es in F1. del F1. by exists sp1, k1. }
    pose proof Ho as [O1 O2 O3 O9 [O4 O4'] O5 O6 O7 O8]. split; rewrite ?E3.
    + intros sp1 k1 F1 Hp Hn. rewrite Es in F1. del F1. destruct (O1 _ _ F1 Hp Hn) as (c & Ec & Hl). exists c. split; [|done].
      rewrite El. destruct (Z.eqb_spec (sk_protocol k) IPPROTO_TCP) as [Hk|]; [|done]. rewrite lookup_delete_ne; [done|]. intros Hc.
      rewrite <- Hc in Ec, Hn. by destruct (conn_socket cl s sp k sp1 k1 Ho Ek F1 Hk Hp Hn (eq_sym Hc)).
    + intros p c Ec. pose proof (Hsub _ _ Ec) as Ec0. rewrite Es. destruct (O2 p c Ec0) as [(k1 & F1 & F2 & F3)|?]; [left|by right]. exists k1.
      rewrite lookup_delete_ne; [done|]. intros Hs. rewrite <- Hs, Ek in F1. injection F1 as <-. rewrite El, F2, Z.eqb_refl in Ec. by del Ec.
    + intros p sp1 k1 Ecl F1. rewrite Es in F1. del F1. by eapply O3.
    + intros p sp1 Ecl Hown1. eapply O9; [done|auto].
    + split; [destruct (t_conns (p_lib s') !! 0) eqn:E0; [|done]; apply Hsub in E0; congruence|]. rewrite Es. apply lookup_delete_None. by right.
    + eapply List.Forall_impl; [|exact O5]. intros m Hm p Ep Hown1. eapply Hm; [done|auto].
    + intros sp1 k1 F1. rewrite Es in F1. del F1. by eapply O6.
    + intros sp1 k1 F1. rewrite Es in F1. del F1. by apply (O7 sp1).
    + intros sp1 k1 F1 Hp Hs. rewrite Es in F1. del F1. by apply (O8 sp1).
  - intros sp1 k1 c F1 Hp Hb Ec Hu. rewrite Es in F1. del F1. eapply Hr; eauto.
Qed.

(** A connection that belongs to no socket is made, changed and deleted. *)
Lemma inv_pending s s' conn c :
  inv Idle [] s -> fresh_conn s conn -> same_socks s s' -> p_app_in s' = p_app_in s ->
  t_conns (p_lib s') = <[conn := c]> (t_conns (p_lib s)) -> lc_s c = 0 -> inv (Accepting conn 0) [] s'.
Proof.
  intros [Hw [O1 O2 O3 O9 [O4 O4'] O5 O6 O7 O8] Hr] (C1 & C2 & C3) Hs Ea El Hlc. pose proof Hs as (Es & _).
  assert (~ owns (p_socks s) conn) as Hno.
  { intros (Hp & sp1 & k1 & F1 & F2 & F3). destruct (O1 _ _ F1 F2) as (c1 & Ec1 & _); congruence. }
  split; [by eapply wired_same| |].
  - split; rewrite ?Es, ?Ea, ?El; try done.
    + intros sp1 k1 F1 Hp Hn. rewrite lookup_insert_ne; [by apply O1|]. intros E. apply Hno. rewrite E. split; [done|]. by exists sp1, k1.
    + intros p c1 Ec. ins Ec p conn; [right; by rewrite Hlc|]. destruct (O2 p c1 Ec); [by left|done].
    + intros p sp1 k1 [= -> <-] F1. congruence.
    + by intros p sp1 [= -> <-].
    + split; [|done]. by rewrite lookup_insert_ne.
    + intros sp1 k1 F1 Hp Hi. left. by destruct (O8 sp1 k1 F1 Hp Hi).
  - intros sp1 k1 c1 F1 Hp Hb Ec Hu. rewrite Es in F1. rewrite El in Ec. destruct (decide (sk_conn k1 = conn)) as [Hc|].
    + destruct Hno. split; [done|]. by exists sp1, k1.
    + rewrite lookup_insert_ne in Ec by done. by eapply Hr.
Qed.

Lemma inv_aim s s' conn x sp k c c' :
  inv (Accepting conn x) [] s -> same_socks s s' -> p_app_in s' = p_app_in s -> t_conns (p_lib s) !! conn = Some c ->
  t_conns (p_lib s') = <[conn := c']> (t_conns (p_lib s)) -> lc_s c' = sp -> p_socks s !! sp = Some k -> sk_listener k <> 0 ->
  inv (Accepting conn sp) [] s'.
Proof.
  intros [Hw [O1 O2 O3 O9 [O4 O4'] O5 O6 O7 O8] Hr] Hs Ea Ec0 El Hlc Ek Hl. pose proof Hs as (Es & _). specialize (O9 _ _ eq_refl) as Hno.
  assert (conn <> 0) as Hnz by congruence.
  split; [by eapply wired_same| |].
  - split; rewrite ?Es, ?Ea, ?El; try done.
    + intros sp1 k1 F1 Hp Hn. rewrite lookup_insert_ne; [by apply O1|]. intros E. apply Hno. rewrite E. split; [done|]. by exists sp1, k1.
    + intros p c1 Ec. ins Ec p conn; [right; by rewrite Hlc|]. destruct (O2 p c1 Ec) as [?|?]; [by left|congruence].
    + intros p sp1 k1 [= -> <-] F1. congruence.
    + by intros p sp1 [= -> <-].
    + split; [|done]. by rewrite lookup_insert_ne.
    + intros sp1 k1 F1 Hp Hi. left. by destruct (O8 sp1 k1 F1 Hp Hi).
  - intros sp1 k1 c1 F1 Hp Hb Ec Hu. rewrite Es in F1. rewrite El in Ec. destruct (decide (sk_conn k1 = conn)) as [Hc|].
    + destruct Hno. split; [done|]. by exists sp1, k1.
    + rewrite lookup_insert_ne in Ec by done. by eapply Hr.
Qed.

Lemma inv_unpend s s' conn x :
  inv (Accepting conn x) [] s -> same_socks s s' -> p_app_in s' = p_app_in s ->
  t_conns (p_lib s') = delete conn (t_conns (p_lib s)) -> inv Idle [] s'.
Proof.
  intros [Hw [O1 O2 O3 O9 [O4 O4'] O5 O6 O7 O8] Hr] Hs Ea El. pose proof Hs as (Es & _). specialize (O9 _ _ eq_refl) as Hno.
  split; [by eapply wired_same| |].
  - split; rewrite ?Es, ?Ea, ?El; try done.
    + intros sp1 k1 F1 Hp Hn. rewrite lookup_delete_ne; [by apply O1|]. intros E. apply Hno. rewrite E. split; [done|]. by exists sp1, k1.
    + intros p c1 Ec. del Ec. destruct (O2 p c1 Ec) as [?|?]; [by left|congruence].
    + split; [|done]. apply lookup_delete_None. by right.
    + intros sp1 k1 F1 Hp Hi. left. by destruct (O8 sp1 k1 F1 Hp Hi).
  - intros sp1 k1 c1 F1 Hp Hb Ec Hu. rewrite Es in F1. rewrite El in Ec. del Ec. by eapply Hr.
Qed.

(** What the accepted connection must not have seen when its socket gets
    it: data, or another answer. *)
Definition quiet_conn (s : proc) (conn : Z) : Prop :=
  (forall c, t_conns (p_lib s) !! conn = Some c -> rxb_used c = 0) /\ Forall (fun m => accept_of m <> Some conn) (p_app_in s).

Lemma inv_accepted s s' conn x ns n n' c c' :
  inv (Accepting conn x) [] s -> p_socks s !! ns = Some n -> t_conns (p_lib s) !! conn = Some c -> quiet_conn s conn ->
  rest s s' -> p_socks s' = <[ns := n']> (p_socks s) -> t_conns (p_lib s') = <[conn := c']> (t_conns (p_lib s)) ->
  lc_s c' = ns -> rxb_used c' = rxb_used c -> sk_items n = ∅ -> sk_items n' = ∅ -> sk_protocol n <> IPPROTO_TCP -> sk_fd n' = sk_fd n ->
  sk_conn n' = conn -> sk_protocol n' = IPPROTO_TCP -> sk_release n' = Some tcp_socket_release -> sk_listener n' = 0 ->
  sk_status n' = S_CONN_CONNECTED -> inv Idle [] s'.
Proof.
  intros [Hw [O1 O2 O3 O9 [O4 O4'] O5 O6 O7 O8] Hr] En Ec0 [Q1 Q2] Hf Es El Hlc Hu0 Ki Ki' Kp Kf Kc Kp' Kr Kl Kst.
  specialize (O9 _ _ eq_refl) as Hno. assert (conn <> 0) as Hnz by congruence.
  assert (forall sp1 k1, p_socks s !! sp1 = Some k1 -> sk_protocol k1 = IPPROTO_TCP -> conn <> sk_conn k1) as Hold.
  { intros sp1 k1 F1 F2 F3. apply Hno. split; [done|]. by exists sp1, k1. }
  split; [eapply (wired_change s s' ns n n'); eauto; congruence| |].
  - destruct Hf as (F1 & F2 & F3 & F4). split; rewrite ?El, ?F4; try done.
    + intros sp1 k1 E1 Hp Hn. rewrite Es in E1. ins E1 sp1 ns; [exists c'; by rewrite Kc, lookup_insert_eq|].
      rewrite lookup_insert_ne; [by apply O1|]. by eapply Hold.
    + intros p c1 Ec. rewrite Es. left. ins Ec p conn; [exists n'; by rewrite Hlc, lookup_insert_eq|].
      destruct (O2 p c1 Ec) as [(k1 & E1 & E2 & E3)|?]; [|congruence]. exists k1. rewrite lookup_insert_ne by congruence. done.
    + split; [by rewrite lookup_insert_ne|]. rewrite Es. by rewrite lookup_insert_ne by congruence.
    + apply list.Forall_forall. intros m Hm p Ep (Hp & sp1 & k1 & E1 & E2 & E3).
      pose proof (proj1 (list.Forall_forall _ _) O5 m Hm) as A. pose proof (proj1 (list.Forall_forall _ _) Q2 m Hm) as B. cbv beta in B.
      rewrite Es in E1. ins E1 sp1 ns; [congruence|]. eapply A; [done|]. split; [done|]. by exists sp1, k1.
    + intros sp1 k1 E1. rewrite Es in E1. ins E1 sp1 ns; [done|by eapply O6].
    + intros sp1 k1 E1. rewrite Es in E1. ins E1 sp1 ns; [|by apply (O7 sp1)]. rewrite Kp', Kr. split_and!; try done. by left.
    + intros sp1 k1 E1 Hp Hs. rewrite Es in E1. ins E1 sp1 ns; [congruence|]. left. by destruct (O8 sp1 k1 E1 Hp Hs).
  - intros sp1 k1 c1 E1 Hp Hbd Ec Hu1. rewrite El in Ec. rewrite Es in E1. ins E1 sp1 ns.
    + rewrite Kc, lookup_insert_eq in Ec. injection Ec as <-. rewrite Hu0, (Q1 c Ec0) in Hu1. done.
    + rewrite lookup_insert_ne in Ec by (by eapply Hold). by eapply Hr.
Qed.

(** ** The calls *)

Lemma ppost_at_s sp k s (Q : eTran_socket_t -> proc -> Prop) : p_socks s !! sp = Some k -> Q k s -> ppost (rd_s sp) s Q.
Proof. intros E H. pp1. congruence. Qed.
Lemma ppost_to_s sp k f s (Q : unit -> proc -> Prop) :
  p_socks s !! sp = Some k -> Q tt (s <| p_socks ::= <[sp := f k]> |>) -> ppost (upd_s sp f) s Q.
Proof. intros E H. pp1. congruence. Qed.
Lemma ppost_lib_mod f s (Q : unit -> proc -> Prop) : Q tt (s <| p_lib ::= f |>) -> ppost (lib (lmod f)) s Q.
Proof. intros H. pp1. by lp1. Qed.

Ltac rd_at E := pp1; apply (ppost_at_s _ _ _ _ E).

Lemma release_socket_spec cl s sp k r :
  inv cl [] s -> p_socks s !! sp = Some k -> sk_items k = ∅ -> sk_release k = Some r ->
  ppost (release_socket sp r) s (fun _ s' => inv cl [] s').
Proof.
  intros H Ek Ki Er. unfold release_socket, clear_socket_with_fd. rd_at Ek.
  destruct (o_release _ _ (iv_owned _ _ _ H) sp k Ek) as (R1 & R2 & R3). rewrite Er in R1, R2.
  do 2 pp1.
  - match goal with Hz : nz _ = true |- _ => apply nz_true in Hz; specialize (R3 Hz) end.
    destruct r; [apply ppost_lib_mod|pp1]; do 3 pp1; eapply (inv_freed cl s _ sp k); try done.
    + destruct R3 as [->|R3]; [done|]. by specialize (R2 R3).
    + destruct R3 as [R3| ->]; [|done]. by specialize (R1 R3).
  - match goal with Hz : nz _ = false |- _ => apply nz_false in Hz end.
    do 3 pp1. eapply (inv_freed cl s _ sp k); try done. cbn. destruct (_ =? _); [|done]. rewrite delete_id; [done|].
    destruct (o_null _ _ (iv_owned _ _ _ H)). congruence.
Qed.

Lemma put_spec cl s sp k :
  inv cl [] s -> p_socks s !! sp = Some k -> sk_items k = ∅ -> ppost (socket_put sp) s (fun _ s' => inv cl [] s').
Proof.
  intros H Ek Ki. unfold socket_put. rd_at Ek. destruct (sk_release k) as [r|] eqn:Er; [|by pp1].
  pp1. apply (ppost_to_s _ _ _ _ _ Ek). set (k' := k <| sk_ref := _ |>).
  destruct (inv_upd cl [] s sp k k' H Ek ltac:(done) eq_refl) as [Hi _].
  pp1; [|done]. apply (release_socket_spec _ _ _ k'); try done. apply lookup_insert_eq.
Qed.

(** The socket of a descriptor is watched by no epoll; an epoll watches no
    socket. *)
Definition unwatched (s : proc) (fd : Z) : Prop :=
  match p_fds s !! fd with
  | Some (FH_SOCKET sp) => forall k, p_socks s !! sp = Some k -> sk_items k = ∅
  | Some (FH_EPOLL e) => forall ep, p_epolls s !! e = Some ep -> active_list ep = ∅ /\ inactive_list ep = ∅
  | None => True
  end.

Lemma skel_protocol k k' : skeleton k' = skeleton k -> sk_protocol k' = sk_protocol k.
Proof. unfold skeleton. congruence. Qed.

Lemma step_sock s s' sp k :
  poll_step s s' -> p_socks s !! sp = Some k -> exists k', p_socks s' !! sp = Some k' /\ evolves k k' /\ sk_items k' = sk_items k.
Proof.
  intros [_ H _] E. pose proof (H sp) as X. rewrite E in X. inversion X as [k0 k' [A B] E0 Ek|]; subst. exists k'.
  split_and!; try done. unfold skeleton in A. congruence.
Qed.

Ltac new_sock cl s := eapply (inv_new_sock cl s); [..|by cbn; rewrite !insert_insert_eq|by cbn| | | | | |]; try done.

Section Calls.
Context (mtp : bool).

Lemma socket_spec fd sp nonblock protocol s :
  inv Idle [] s -> sp <> 0 -> p_socks s !! sp = None -> p_fds s !! fd = None ->
  ppost (eTran_socket fd sp nonblock protocol) s (fun _ s' => inv Idle [] s').
Proof.
  intros H Hsp Es Ef. unfold eTran_socket, alloc_socket_fd. pp1. pp1; [by pp|]. pp1; [by pp|]. do 6 pp1; [done|].
  pp1. eapply ppost_to_s; [apply lookup_insert_eq|]. do 2 pp1.
  - eapply ppost_to_s; [apply lookup_insert_eq|]. pp1. new_sock Idle s. cbn. by apply Z.eqb_eq in Heqb2 as ->.
  - pp1.
    + eapply ppost_to_s; [apply lookup_insert_eq|]. pp1. new_sock Idle s. cbn. by intros ->.
    + pp1. new_sock Idle s; cbn; intros ->; done.
Qed.

(** Requests to the microkernel. *)
Lemma kept_tcp_close cl conn fd : kept cl (eTran_tcp_close conn fd).
Proof. unfold eTran_tcp_close. kt. Qed.
Lemma kept_tcp_open cl conn fd ip port : kept cl (eTran_tcp_open conn fd ip port).
Proof. unfold eTran_tcp_open. kt. Qed.
Lemma kept_tcp_bind cl conn fd ip port b : kept cl (eTran_tcp_bind conn fd ip port b).
Proof. unfold eTran_tcp_bind. kt. Qed.
Lemma kept_tcp_listen cl conn l fd port n : kept cl (eTran_tcp_listen conn l fd port n).
Proof. unfold eTran_tcp_listen. kt. Qed.
Lemma kept_tcp_accept cl l conn fd newfd : kept cl (eTran_tcp_accept l conn fd newfd).
Proof. unfold eTran_tcp_accept. kt. Qed.
Lemma kept_homa_close cl hs fd : kept cl (eTran_homa_close hs fd).
Proof. unfold eTran_homa_close. kt. Qed.
Lemma kept_homa_bind cl hs fd ip port : kept cl (eTran_homa_bind hs fd ip port).
Proof. unfold eTran_homa_bind. kt. Qed.
Hint Resolve kept_tcp_close kept_tcp_open kept_tcp_bind kept_tcp_listen kept_tcp_accept kept_homa_close kept_homa_bind : kept.

Lemma inv_del_epoll cl s s' e ep :
  inv cl [] s -> p_epolls s !! e = Some ep -> active_list ep = ∅ -> inactive_list ep = ∅ ->
  p_items s' = p_items s -> p_epolls s' = delete e (p_epolls s) -> p_app_in s' = p_app_in s ->
  p_socks s' = p_socks s -> p_fds s' = delete (ep_epfd ep) (p_fds s) -> p_lib s' = p_lib s -> inv cl [] s'.
Proof.
  intros [[W1 W2 W3 W4 W5 W6 W7] [O1 O2 O3 O9 O4 O5 O6 O7 O8] Hr] Ee Ha Hi E1 E2 E3 E4 E5 E6. split.
  - split; rewrite ?E1, ?E2, ?E4, ?E5.
    + intros sp k epfd i F1 F2. destruct (W1 _ _ _ _ F1 F2) as (it & ep1 & A1 & A2 & A3 & A4 & A5 & A6). exists it, ep1.
      rewrite lookup_delete_ne; [done|]. intros He. rewrite <- He, Ee in A3. injection A3 as <-. unfold listed in A5.
      rewrite Ha, Hi in A5. by destruct A5 as [[]|[]].
    + intros e1 ep1 fd i F1 F2. del F1. by eapply W2.
    + intros sp k F1. pose proof (W3 _ _ F1). pose proof (W5 _ _ Ee). rewrite lookup_delete_ne by congruence. done.
    + intros fd sp F1. del F1. by apply W4.
    + intros e1 ep1 F1. del F1. pose proof (W5 _ _ F1). pose proof (W5 _ _ Ee). rewrite lookup_delete_ne by congruence. done.
    + intros fd e1 F1. del F1. destruct (W6 _ _ F1) as (ep1 & A1 & A2). exists ep1. rewrite lookup_delete_ne by congruence. done.
    + intros e1 ep1 F1. del F1. by apply (W7 e1).
  - split; rewrite ?E3, ?E4, ?E6; done.
  - unfold ready. by rewrite E4, E6.
Qed.

Lemma eTran_close_spec cl es fd s :
  inv cl [] s -> Forall env_ok es -> unwatched s fd -> ppost (eTran_close mtp es fd) s (fun _ s' => inv cl [] s').
Proof.
  intros H Hes Hu. unfold eTran_close, unwatched in *. do 4 pp1.
  destruct (_ || _); [by pp1|]. destruct (p_fds s !! fd) as [[sp|e]|] eqn:Efd; [| |by pp1].
  - do 2 pp1. rename H0 into Ek. specialize (Hu _ Ek). pp1; [by pp1|]. pp1.
    apply (ppost_mono _ _ (fun _ s' => inv cl [] s' /\ poll_step s s')).
    + assert (kept cl (pwhen (nz (sk_conn k)) (if sk_protocol k =? IPPROTO_TCP
        then eTran_tcp_close (sk_conn k) (sk_fd k) ;; wait_tcp_closed mtp es sp
        else pwhen (sk_protocol k =? IPPROTO_HOMA) (eTran_homa_close (sk_conn k) (sk_fd k) ;; wait_homa_closed es sp)))) as Hk by kt.
      by apply Hk.
    + intros ? s1 [H1 S1]. pp1. destruct (step_sock _ _ _ _ S1 Ek) as (k1 & E1 & _ & Ei).
      eapply ppost_mono; [eapply put_spec; [done..|congruence]|]. intros ? s2 H2. by pp1.
  - do 2 pp1. pp1; [by pp1|]. rename H0 into Ee. destruct (Hu _ Ee) as [Ea Ei]. rewrite Ea, Ei.
    change (ordered ∅) with (@nil (Z * Z)). cbn [delete_items]. do 6 pp1. pp1. eapply inv_del_epoll; eauto; cbn.
    destruct (w_epoll_fd _ _ _ (iv_wired _ _ _ H) _ _ Efd) as (ep1 & A1 & A2). congruence.
Qed.

(** The label [out] of [eTran_connect] and [_tcp_bind]. *)
Lemma conn_fail_spec cl sp k ret s :
  inv cl [] s -> cl = Idle \/ cl = Opening sp -> p_socks s !! sp = Some k -> sk_protocol k = IPPROTO_TCP -> sk_items k = ∅ ->
  ppost (conn_fail sp ret) s (fun _ s' => inv Idle [] s').
Proof.
  intros H Hcl Ek Hp Ki. unfold conn_fail. rd_at Ek. pp1.
  apply (ppost_mono _ _ (fun _ s' => inv Idle [] s' /\ exists k', p_socks s' !! sp = Some k' /\ sk_items k' = ∅)).
  - pp1.
    + pp1. unfold delete_conn. apply ppost_lib_mod. eapply ppost_to_s; [done|]. split.
      * eapply (inv_detach cl s _ sp k); try done. by apply nz_true.
      * eexists. split; [apply lookup_insert_eq|done].
    + split; [|by exists k]. destruct Hcl as [-> | ->]; [done|]. eapply inv_opened; [done|]. intros k1 E1. left.
      assert (k1 = k) as -> by congruence. by apply nz_false.
  - intros ? s1 (H1 & k' & Ek' & Ki'). do 2 pp1; [|by pp1]. eapply ppost_mono; [by eapply put_spec|]. intros ? s2 H2. by pp1.
Qed.

Lemma conn_fail_ret sp ret s : ppost (conn_fail sp ret) s (fun r _ => r = ret).
Proof.
  intros r s' E. unfold conn_fail, pbind in E. repeat (case_match; try done). by injection E.
Qed.

Lemma fail_spec (G : Prop) cl sp k ret s :
  inv cl [] s -> cl = Idle \/ cl = Opening sp -> p_socks s !! sp = Some k -> sk_protocol k = IPPROTO_TCP -> (G -> sk_items k = ∅) -> ret <> 0 ->
  ppost (conn_fail sp ret) s (fun r s' => r = 0 \/ G -> inv Idle [] s').
Proof.
  intros H Hcl Ek Hp Hk Hr r s' E [->|HG].
  - by apply conn_fail_ret in E.
  - by apply (conn_fail_spec cl sp k ret s H Hcl Ek Hp (Hk HG) r s').
Qed.

Lemma ppost_and {A} (m : P A) s (Q1 Q2 : A -> proc -> Prop) : ppost m s Q1 -> ppost m s Q2 -> ppost m s (fun a s' => Q1 a s' /\ Q2 a s').
Proof. intros H1 H2 a s' E. split; [by apply H1|by apply H2]. Qed.

(** What the loops of connect and bind wait for. *)
Definition settled (sp : Z) (b : bool) (s : proc) : Prop :=
  b = true -> exists k, p_socks s !! sp = Some k /\ sk_status k <> S_CONN_INIT.

Lemma connected_settled es sp : forall s, ppost (wait_connected mtp es sp) s (settled sp).
Proof.
  induction es as [|e es IH]; intros s; cbn [wait_connected]; [by pp1|]. pp1. intros ? s1 _. do 2 pp1. pp1; [by pp1|]. pp1; [|apply IH].
  pp1. intros _. exists k. split; [done|congruence].
Qed.
Lemma bound_settled es sp : forall s, ppost (wait_bound mtp es sp) s (settled sp).
Proof.
  induction es as [|e es IH]; intros s; cbn [wait_bound]; [by pp1|]. pp1. intros ? s1 _. do 2 pp1. pp1; [by pp1|]. pp1; [apply IH|].
  pp1. intros _. by exists k.
Qed.

Lemma bound_lor k : bound (k <| sk_flags := Z.lor (sk_flags k) SOF_BOUND |>) = true.
Proof. change (Z.testbit (Z.lor (sk_flags k) SOF_BOUND) 1 = true). rewrite Z.lor_spec. apply orb_true_r. Qed.

Lemma unwatched_items s fd sp k : unwatched s fd -> p_fds s !! fd = Some (FH_SOCKET sp) -> p_socks s !! sp = Some k -> sk_items k = ∅.
Proof. unfold unwatched. intros H E. rewrite E in H. apply H. Qed.

(** A request for a new connection, the answer and the failures. *)
Lemma opening_spec (G : Prop) sp k conn s (m : P Z) (wait : P bool) (fin : P unit) :
  inv (Opening sp) [] s -> p_socks s !! sp = Some k -> sk_protocol k = IPPROTO_TCP -> (G -> sk_items k = ∅) ->
  kept (Opening sp) m -> kept (Opening sp) wait -> (forall s1, ppost wait s1 (settled sp)) ->
  (forall s1 k1, inv (Opening sp) [] s1 -> p_socks s1 !! sp = Some k1 -> sk_status k1 <> S_CONN_INIT -> skeleton k1 = skeleton k ->
     ppost fin s1 (fun _ s' => inv Idle [] s')) -> conn <> 0 ->
  ppost (let* r := m in
         if nz r then conn_fail sp (- EIO_)
         else let* ok := wait in if ok then fin ;; pret 0 else conn_fail sp (- EIO_)) s
    (fun r s' => r = 0 \/ G -> inv Idle [] s').
Proof.
  intros H Ek Hp Hi Hm Hw Hst Hfin Hc. pp1. eapply ppost_mono; [by apply Hm|]. intros r s1 [H1 S1].
  destruct (step_sock _ _ _ _ S1 Ek) as (k1 & E1 & [A1 _] & I1).
  assert (sk_protocol k1 = IPPROTO_TCP) as Hp1 by (by rewrite (skel_protocol _ _ A1)).
  pp1; [eapply fail_spec; try done; [by right|intros; rewrite I1; auto]|].
  pp1. eapply ppost_mono; [apply ppost_and; [by apply Hw|apply Hst]|]. intros ok s2 [[H2 S2] Hset].
  destruct (step_sock _ _ _ _ S2 E1) as (k2 & E2 & [A2 _] & I2).
  assert (sk_protocol k2 = IPPROTO_TCP) as Hp2 by (by rewrite (skel_protocol _ _ A2)).
  destruct ok; [|eapply fail_spec; try done; [by right|intros; rewrite I2, I1; auto]].
  destruct (Hset eq_refl) as (k2' & E2' & Hs2). assert (k2' = k2) as -> by congruence.
  pp1. eapply ppost_mono; [eapply (Hfin s2); [done..|congruence]|]. intros ? s3 H3. by pp1.
Qed.

Lemma connect_spec es fd valid addr conn junk s :
  inv Idle [] s -> Forall env_ok es -> fresh_conn s conn ->
  ppost (eTran_connect mtp es fd valid addr conn junk) s (fun r s' => r = 0 \/ unwatched s fd -> inv Idle [] s').
Proof.
  intros H Hes Hc. unfold eTran_connect. pp1. apply lookup_sock_spec; [|by pp1]. intros sp Efd. do 2 pp1. rename H0 into Ek.
  pp1; [by pp1|]. apply orb_false_iff in Heqb as [[[_ Hp]%orb_false_iff _]%orb_false_iff Hst].
  apply negb_false_iff in Hp, Hst. apply Z.eqb_eq in Hp. apply bool_decide_eq_true in Hst.
  assert (sk_conn k = 0) as K0 by (destruct (o_init _ _ (iv_owned _ _ _ H) _ _ Ek Hp Hst); done).
  do 3 pp1. unfold new_conn. apply ppost_lib_mod. pp1. eapply ppost_to_s; [done|]. set (k' := k <| sk_tctx := _ |> <| sk_conn := _ |>).
  set (s1 := s <| p_lib ::= _ |> <| p_socks ::= _ |>).
  assert (inv (Opening sp) [] s1) as H1 by (eapply (inv_attach s s1 sp k k' conn); done).
  eapply (opening_spec _ sp k' conn); try done; eauto with kept.
  - apply lookup_insert_eq.
  - intros Hu. change (sk_items k = ∅). by eapply unwatched_items.
  - apply connected_settled.
  - intros s2 k2 H2 E2 Hs2 _. eapply ppost_to_s; [done|]. set (k2' := k2 <| sk_type := _ |> <| sk_addr := _ |>).
    destruct (inv_upd _ [] s2 sp k2 k2' H2 E2 ltac:(done) eq_refl) as [H3 _]. eapply inv_opened; [done|]. cbn. rewrite lookup_insert_eq.
    intros ? [= <-]. by right.
  - apply Hc.
Qed.

Lemma tcp_bind_spec (G : Prop) es sp k addr conn junk s :
  inv Idle [] s -> Forall env_ok es -> fresh_conn s conn -> p_socks s !! sp = Some k -> sk_protocol k = IPPROTO_TCP -> (G -> sk_items k = ∅) ->
  ppost (_tcp_bind mtp es sp addr conn junk) s (fun r s' => r = 0 \/ G -> inv Idle [] s').
Proof.
  intros H Hes Hc Ek Hp Hi. unfold _tcp_bind. do 3 pp1. eapply ppost_to_s; [done|]. set (k1 := k <| sk_tctx := _ |>).
  destruct (inv_upd _ [] s sp k k1 H Ek ltac:(done) eq_refl) as [H1 _]. set (s1 := s <| p_socks ::= _ |>) in *.
  assert (p_socks s1 !! sp = Some k1) as E1 by apply lookup_insert_eq. rd_at E1.
  pp1; [eapply fail_spec; try done; by left|]. apply negb_false_iff, bool_decide_eq_true in Heqb.
  assert (sk_conn k = 0) as K0 by (destruct (o_init _ _ (iv_owned _ _ _ H) _ _ Ek Hp Heqb); done).
  pp1. unfold new_conn. apply ppost_lib_mod. pp1. eapply ppost_to_s; [done|]. set (k2 := k1 <| sk_conn := _ |> <| sk_addr := _ |>).
  set (s2 := s1 <| p_lib ::= _ |> <| p_socks ::= _ |>).
  assert (inv (Opening sp) [] s2) as H2 by (eapply (inv_attach s1 s2 sp k1 k2 conn); done).
  eapply (opening_spec _ sp k2 conn); try done; eauto with kept.
  - apply lookup_insert_eq.
  - apply bound_settled.
  - intros s3 k3 H3 E3 Hs3 _. eapply ppost_to_s; [done|]. set (k3' := k3 <| sk_flags := _ |>).
    assert (bound k3' = true) as Hb by apply bound_lor.
    apply (inv_opened _ sp).
    + eapply (inv_resock _ s3 _ sp k3 k3'); try done; [by left|congruence].
    + cbn. rewrite lookup_insert_eq. intros ? [= <-]. by right.
  - apply Hc.
Qed.

Lemma homa_fail_spec (G : Prop) sp k ret s :
  inv Idle [] s -> p_socks s !! sp = Some k -> sk_protocol k = IPPROTO_HOMA -> (G -> sk_items k = ∅) -> ret <> 0 ->
  ppost (homa_fail sp ret) s (fun r s' => r = 0 \/ G -> inv Idle [] s').
Proof.
  intros H Ek Hp Hi Hr. unfold homa_fail. rd_at Ek. pp1.
  apply (ppost_mono _ _ (fun _ s' => inv Idle [] s' /\ exists k', p_socks s' !! sp = Some k' /\ sk_items k' = sk_items k)).
  - pp1; [|split; [done|by exists k]]. do 2 pp1. eapply ppost_to_s; [done|]. split; [|eexists; split; [apply lookup_insert_eq|done]].
    eapply (inv_resock Idle s _ sp k); try done; [by right|]. exact (o_bound _ _ (iv_owned _ _ _ H) sp k Ek).
  - intros ? s1 (H1 & k' & Ek' & Ki'). do 2 pp1; [|by pp1; intros; destruct H0].
    intros ? s2 E. pp1. intros [?|HG]; [done|]. eapply (put_spec Idle s1 sp k'); [done..| |exact E]. rewrite Ki'. auto.
Qed.

Lemma homa_bind_spec (G : Prop) es sp k addr hs s :
  inv Idle [] s -> Forall env_ok es -> p_socks s !! sp = Some k -> sk_protocol k = IPPROTO_HOMA -> (G -> sk_items k = ∅) ->
  ppost (_homa_bind es sp addr hs) s (fun r s' => r = 0 \/ G -> inv Idle [] s').
Proof.
  intros H Hes Ek Hp Hi. unfold _homa_bind. do 3 pp1. eapply ppost_to_s; [done|]. set (k1 := k <| sk_tctx := _ |>).
  destruct (inv_upd _ [] s sp k k1 H Ek ltac:(done) eq_refl) as [H1 _]. set (s1 := s <| p_socks ::= _ |>) in *.
  assert (p_socks s1 !! sp = Some k1) as E1 by apply lookup_insert_eq. rd_at E1.
  pp1; [by eapply (homa_fail_spec G sp k1)|]. do 3 pp1. eapply ppost_to_s; [done|]. set (k2 := k1 <| sk_conn := _ |> <| sk_addr := _ |>).
  match goal with |- ppost _ ?x _ => set (s2 := x) end.
  assert (inv Idle [] s2) as H2.
  { eapply (inv_resock Idle s1 s2 sp k1 k2); try done; [by right|]. exact (o_bound _ _ (iv_owned _ _ _ H) sp k Ek). }
  assert (p_socks s2 !! sp = Some k2) as E2 by apply lookup_insert_eq.
  pp1. eapply ppost_mono; [by apply kept_homa_bind|]. intros r s3 [H3 S3]. destruct (step_sock _ _ _ _ S3 E2) as (k3 & E3 & [A3 _] & I3).
  assert (sk_protocol k3 = IPPROTO_HOMA) as Hp3 by (by rewrite (skel_protocol _ _ A3)).
  pp1; [eapply (homa_fail_spec G sp k3); try done; intros; rewrite I3; auto|].
  pp1. eapply ppost_mono; [by apply kept_homa_bound|]. intros ok s4 [H4 S4]. destruct (step_sock _ _ _ _ S4 E3) as (k4 & E4 & [A4 _] & I4).
  assert (sk_protocol k4 = IPPROTO_HOMA) as Hp4 by (by rewrite (skel_protocol _ _ A4)).
  pp1; [eapply (homa_fail_spec G sp k4); try done; intros; rewrite I4, I3; auto|].
  rd_at E4. pp1; [eapply (homa_fail_spec G sp k4); try done; intros; rewrite I4, I3; auto|].
  pp1. eapply ppost_to_s; [done|]. pp1. intros _. pose proof (bound_lor k4).
  eapply (inv_resock Idle s4 _ sp k4); try done; [by left|congruence].
Qed.

Lemma bind_spec es fd valid addr conn junk s :
  inv Idle [] s -> Forall env_ok es -> fresh_conn s conn ->
  ppost (eTran_bind mtp es fd valid addr conn junk) s (fun r s' => r = 0 \/ unwatched s fd -> inv Idle [] s').
Proof.
  intros H Hes Hc. unfold eTran_bind. pp1. apply lookup_sock_spec; [|by pp1]. intros sp Efd. do 2 pp1. rename H0 into Ek.
  assert (unwatched s fd -> sk_items k = ∅) as Hu by (intros Hu; by eapply unwatched_items).
  pp1; [by pp1|]. pp1; [apply Z.eqb_eq in Heqb0; by eapply tcp_bind_spec|].
  pp1; [apply Z.eqb_eq in Heqb1; by eapply homa_bind_spec|]. by pp1.
Qed.

Lemma bound_land k : (Z.land (sk_flags k) SOF_BOUND =? 0) = false -> bound k = true.
Proof.
  intros E%Z.eqb_neq. unfold bound. destruct (Z.testbit (sk_flags k) 1) eqn:Eb; [done|]. destruct E. apply Z.bits_inj'. intros n Hn.
  rewrite Z.land_spec, Z.bits_0. change SOF_BOUND with (2 ^ 1). rewrite Z.pow2_bits_eqb by lia.
  destruct (Z.eqb_spec 1 n) as [<-|]; [by rewrite Eb|apply andb_false_r].
Qed.

Lemma listen_spec es fd backlog listener s :
  inv Idle [] s -> Forall env_ok es -> ppost (eTran_listen mtp es fd backlog listener) s (fun _ s' => inv Idle [] s').
Proof.
  intros H Hes. unfold eTran_listen. pp1. apply lookup_sock_spec; [|by pp1]. intros sp Efd. do 4 pp1. rename H0 into Ek.
  pp1; [by pp1|]. pp1; [by pp1|]. apply orb_false_iff in Heqb0 as [[[[_ _]%orb_false_iff _]%orb_false_iff Hb]%orb_false_iff _].
  apply bound_land in Hb. do 3 pp1. eapply ppost_to_s; [done|]. set (k1 := k <| sk_listener := _ |>).
  match goal with |- ppost _ ?x _ => set (s1 := x) end.
  assert (inv Idle [] s1) as H1 by (eapply (inv_resock Idle s s1 sp k k1); try done; by left).
  assert (p_socks s1 !! sp = Some k1) as E1 by apply lookup_insert_eq.
  assert (forall s2, inv Idle [] s2 -> ppost (pmod (fun s => s <| p_listeners ::= delete listener |>) ;;
    upd_s sp (fun k => k <| sk_listener := 0 |>) ;; pret (- EIO_)) s2 (fun _ s' => inv Idle [] s')) as Hfail.
  { intros s2 H2. do 4 pp1. cbn in H0. pp1. eapply (inv_resock Idle s2 _ sp); try done. by left. }
  pp1. eapply ppost_mono; [by apply kept_tcp_listen|]. intros r s2 [H2 _]. pp1; [by apply Hfail|].
  pp1. eapply ppost_mono; [by apply kept_listening|]. intros ok s3 [H3 _]. pp1; [by pp1|]. by apply Hfail.
Qed.

(** The socket that [eTran_accept] made. *)
Definition blank (s : proc) (ns newfd : Z) : Prop :=
  p_fds s !! newfd = Some (FH_SOCKET ns) /\
  exists n, p_socks s !! ns = Some n /\ sk_items n = ∅ /\ sk_protocol n = 0 /\ sk_release n = Some tcp_socket_release /\ sk_listener n = 0.

Lemma blank_unwatched s ns newfd : blank s ns newfd -> unwatched s newfd.
Proof. intros (E & n & En & Ei & _). unfold unwatched. rewrite E. intros k Ek. congruence. Qed.

Lemma blank_step s s' ns newfd : poll_step s s' -> blank s ns newfd -> blank s' ns newfd.
Proof.
  intros S (E & n & En & Ei & Ep & Er & El). split; [by rewrite (proj1 (ps_fds _ _ S))|].
  destruct (step_sock _ _ _ _ S En) as (n' & En' & [A _] & I). exists n'. unfold skeleton in A. simplify_eq. split_and!; congruence.
Qed.

Lemma accept_fail_spec conn x newfd ret s :
  inv (Accepting conn x) [] s -> unwatched s newfd -> ppost (accept_fail mtp newfd conn ret) s (fun _ s' => inv Idle [] s').
Proof.
  intros H Hu. unfold accept_fail. pp1. eapply ppost_mono; [apply (eTran_close_spec _ [] newfd s H); [constructor|done]|].
  intros ? s1 H1; cbv beta in H1. pp1. unfold delete_conn. apply ppost_lib_mod. pp1. by eapply inv_unpend.
Qed.

Lemma tcp_accept_listener l conn fd newfd s : ppost (eTran_tcp_accept l conn fd newfd) s (fun r _ => r = 0 -> l <> 0).
Proof. unfold eTran_tcp_accept. pp1; [by pp1|]. intros r s' _ _. by apply orb_false_iff in Heqb as [?%Z.eqb_neq _]. Qed.

Lemma accept_start_spec fd newfd ns conn junk s :
  inv Idle [] s -> fresh_conn s conn -> ns <> 0 -> p_socks s !! ns = None -> p_fds s !! newfd = None ->
  ppost (accept_start mtp fd newfd ns conn junk) s (fun r s' =>
    match r with
    | inr _ => inv Idle [] s'
    | inl sp => inv (Accepting conn sp) [] s' /\ blank s' ns newfd /\
        exists k, p_socks s' !! sp = Some k /\ sk_protocol k = IPPROTO_TCP
    end).
Proof.
  intros H Hc Hns Es Ef. unfold accept_start, alloc_socket_fd. pp1. apply lookup_sock_spec; [|by pp1]. intros sp Efd. do 4 pp1. rename H0 into Ek.
  pp1; [by pp1|]. apply negb_false_iff, Z.eqb_eq in Heqb. pp1; [by pp1|]. pp1. pp1; [by pp|]. pp1; [by pp|]. do 6 pp1; [done|].
  pp1. eapply ppost_to_s; [apply lookup_insert_eq|]. pp1. unfold new_conn.
  match goal with |- ppost _ ?x _ => set (s1 := x) end.
  assert (inv Idle [] s1) as H1 by (subst s1; new_sock Idle s).
  assert (blank s1 ns newfd) as Hb by (split; [apply lookup_insert_eq|]; eexists; split; [apply lookup_insert_eq|done]).
  assert (p_socks s1 !! sp = Some k) as E1.
  { subst s1. cbn. rewrite !lookup_insert_ne by congruence. done. }
  assert (fresh_conn s1 conn) as Hc1 by done. clearbody s1. apply ppost_lib_mod. match goal with |- ppost _ ?x _ => set (s2 := x) end.
  assert (inv (Accepting conn 0) [] s2) as H2 by (by eapply inv_pending).
  assert (blank s2 ns newfd) as Hb2 by done. assert (p_socks s2 !! sp = Some k) as E2 by done. clearbody s2.
  pp1.
  - pp1. eapply ppost_mono; [by eapply accept_fail_spec, blank_unwatched|]. intros ? s3 H3. by pp1.
  - pp1. eapply ppost_mono; [apply ppost_and; [by apply kept_tcp_accept|apply tcp_accept_listener]|].
    intros r s3 [[H3 S3] Hl]. pose proof (blank_step _ _ _ _ S3 Hb2) as Hb3. destruct (step_sock _ _ _ _ S3 E2) as (k3 & E3 & [A3 _] & _).
    pp1; [pp1; eapply ppost_mono; [by eapply accept_fail_spec, blank_unwatched|]; intros ? s4 H4; by pp1|].
    do 2 pp1. lp1. pp1. split_and!; [|done|exists k3; by rewrite (skel_protocol _ _ A3)].
    match goal with Hz : nz _ = false |- _ => apply nz_false in Hz; specialize (Hl Hz) end.
    eapply (inv_aim s3 _ conn 0 sp k3); try done. unfold skeleton in A3. congruence.
Qed.

Lemma accept_finish_spec sp ns newfd k conn s :
  inv (Accepting conn sp) [] s -> blank s ns newfd -> p_socks s !! sp = Some k -> sk_protocol k = IPPROTO_TCP -> quiet_conn s conn ->
  ppost (accept_finish sp ns conn) s (fun _ s' => inv Idle [] s').
Proof.
  intros H (Efd & n & En & Ni & Np & Nr & Nl) Ek Hp Hq. unfold accept_finish. rd_at Ek. pp1. eapply ppost_to_s; [done|]. pp1. lp1.
  eapply (inv_accepted s _ conn sp ns n); try done. rewrite Np. done.
Qed.

Lemma accept_spec es fd newfd ns conn junk s :
  inv Idle [] s -> Forall env_ok es -> fresh_conn s conn -> ns <> 0 -> p_socks s !! ns = None -> p_fds s !! newfd = None ->
  (forall sp s1 s2, accept_start mtp fd newfd ns conn junk s = Some (inl sp, s1) ->
     wait_accepted mtp es sp conn s1 = Some (true, s2) -> quiet_conn s2 conn) ->
  ppost (eTran_accept mtp es fd newfd ns conn junk) s (fun _ s' => inv Idle [] s').
Proof.
  intros H Hes Hc Hns Es Ef Hq. unfold eTran_accept. pp1. intros [sp|ret] s1 E1; [|by pp1; apply (accept_start_spec _ _ _ _ _ _ H Hc Hns Es Ef _ _ E1)].
  destruct (accept_start_spec _ _ _ _ _ _ H Hc Hns Es Ef _ _ E1) as (H1 & Hb1 & k & Ek & Hp). pp1. intros ok s2 E2.
  destruct (kept_accepted (Accepting conn sp) mtp es sp conn Hes s1 H1 _ _ E2) as [H2 S2].
  pose proof (blank_step _ _ _ _ S2 Hb1) as Hb2. destruct (step_sock _ _ _ _ S2 Ek) as (k2 & Ek2 & [A _] & _).
  destruct ok; [|by eapply accept_fail_spec, blank_unwatched].
  pp1. eapply ppost_mono; [eapply accept_finish_spec; try done; [by rewrite (skel_protocol _ _ A)|by eapply Hq]|]. intros ? s3 H3. by pp1.
Qed.

(** Data. *)
Lemma clear_spec sp ev s :
  inv Idle [] s -> (Z.testbit ev 0 = false \/ forall k c, p_socks s !! sp = Some k -> t_conns (p_lib s) !! sk_conn k = Some c -> rxb_used c = 0) ->
  ppost (clear_epoll_events sp ev) s (fun _ s' => inv Idle [] s').
Proof.
  intros H Hev. unfold clear_epoll_events. pp1. apply (inv_clear Idle [] s sp k ev H); [done|].
  destruct Hev as [?|Hev]; [by left|]. right. right. intros c. by apply Hev.
Qed.

Lemma kept_check cl fd : kept cl (check_connected fd).
Proof. unfold check_connected. kt. Qed.

Lemma eTran_read_spec es e0 fd count s :
  inv Idle [] s -> Forall env_ok es -> env_ok e0 -> ppost (eTran_read mtp es e0 fd count) s (fun _ s' => inv Idle [] s').
Proof.
  intros H Hes He. unfold eTran_read. pp1. eapply ppost_mono; [by apply kept_check|]. intros [sp|ret] s1 [H1 _]; [|by pp1].
  pp1. eapply ppost_mono; [by apply kept_read_loop|]. intros [bytes b] s2 [H2 _]. do 3 pp1. apply ppost_rd_conn. intros c Ec.
  pp1. apply (ppost_mono _ _ (fun _ s' => inv Idle [] s')).
  - pp1; [|done]. apply clear_spec; [done|]. right. intros k1 c1 Ek1 Ec1. assert (k1 = k) as -> by congruence.
    assert (c1 = c) as -> by congruence. by apply Z.eqb_eq.
  - intros ? s3 H3; cbv beta in H3. do 2 pp1; [|by pp1]. eapply ppost_mono; [by apply kept_poll|]. intros ? s4 [Hi4 _]. by pp1.
Qed.

Lemma write_spec es e0 fd buf count s :
  inv Idle [] s -> Forall env_ok es -> env_ok e0 -> ppost (eTran_write mtp es e0 fd buf count) s (fun _ s' => inv Idle [] s').
Proof.
  intros H Hes He. unfold eTran_write. pp1. eapply ppost_mono; [by apply kept_check|]. intros [sp|ret] s1 [H1 _]; [|by pp1].
  pp1. eapply ppost_mono; [by apply kept_write_loop|]. intros [n b] s2 [H2 _]. do 3 pp1. apply ppost_rd_conn. intros c Ec.
  pp1. apply (ppost_mono _ _ (fun _ s' => inv Idle [] s')).
  - pp1; [|done]. apply clear_spec; [done|by left].
  - intros ? s3 H3; cbv beta in H3. do 2 pp1; [|by pp1]. eapply ppost_mono; [by apply kept_poll|]. intros ? s4 [Hi4 _]. by pp1.
Qed.

(** Options leave the bit of bound sockets alone. *)
Lemma setsockopt_spec fd level name val len s : inv Idle [] s -> ppost (eTran_setsockopt fd level name val len) s (fun _ s' => inv Idle [] s').
Proof.
  intros H. unfold eTran_setsockopt. pp1; [by pp1|]. pp1. apply lookup_sock_spec; [|by pp1]. intros sp Efd. do 2 pp1. rename H0 into Ek.
  pp1; [by pp1|]. pp1. eapply ppost_to_s; [done|]. pp1. eapply inv_upd; try done. split; [|done]. unfold skeleton. do 3 f_equal.
  change (Z.testbit (Z.lor (sk_flags k) (if nz (Z.land name SO_REUSEPORT) then SOF_REUSEPORT
    else if nz (Z.land name SO_REUSEADDR) then SOF_REUSEADDR else 0)) 1 = Z.testbit (sk_flags k) 1).
  rewrite Z.lor_spec. destruct (nz _); [apply orb_false_r|]. destruct (nz _); apply orb_false_r.
Qed.

Lemma fcntl_spec fd cmd flags s : inv Idle [] s -> ppost (eTran_fcntl fd cmd flags) s (fun _ s' => inv Idle [] s').
Proof.
  intros H. unfold eTran_fcntl. pp1; [by pp1|]. pp1; [by pp1|]. pp1. apply lookup_sock_spec; [|by pp1]. intros sp Efd. do 2 pp1. rename H0 into Ek.
  pp1; [by pp1|]. pp1; [by pp1|]. pp1. eapply ppost_to_s; [done|]. pp1. eapply inv_upd; try done. split; [|done]. unfold skeleton. do 3 f_equal.
  change (Z.testbit (if nz (Z.land flags O_NONBLOCK) then Z.lor (sk_flags k) SOF_NONBLOCK else Z.land (sk_flags k) (Z.lnot SOF_NONBLOCK)) 1 = Z.testbit (sk_flags k) 1).
  destruct (nz (Z.land flags O_NONBLOCK)); [rewrite Z.lor_spec; apply orb_false_r|rewrite Z.land_spec; apply andb_true_r].
Qed.
End Calls.
