(* ===== verification/LibWait.v ===== *)
(** Epoll in the socket library: the registrations keep the invariant of
    [LibEpoll], and [eTran_epoll_wait] reports every socket that has data. *)
From stdpp Require Import gmap sorting relations.
From S2P Require Import Prelude Intf Headers TcpCtl BufPool LibTcp LibOwn LibRx LibStream LibRuns LibCtl LibSock LibPoll LibEpoll LibCalls.
Local Open Scope Z_scope.
Local Open Scope proc_scope.

(** ** Registrations *)

Lemma ppost_to_ep e ep f s (Q : unit -> proc -> Prop) :
  p_epolls s !! e = Some ep -> Q tt (s <| p_epolls ::= <[e := f ep]> |>) -> ppost (upd_ep e f) s Q.
Proof. intros E H. pp1. congruence. Qed.
Lemma ppost_at_ep e ep s (Q : eTran_epoll -> proc -> Prop) : p_epolls s !! e = Some ep -> Q ep s -> ppost (rd_ep e) s Q.
Proof. intros E H. pp1. congruence. Qed.

Lemma lookup_ep_spec fd s (Q : option Z -> proc -> Prop) :
  (forall e, p_fds s !! fd = Some (FH_EPOLL e) -> Q (Some e) s) -> Q None s -> ppost (lookup_epoll_with_fd fd) s Q.
Proof.
  intros H1 H2. unfold lookup_epoll_with_fd. do 3 pp1. destruct (_ || _); [done|].
  destruct (p_fds s !! fd) as [[sp|e]|] eqn:E; [done|by apply H1|done].
Qed.

(** Changes outside of sockets and connections. *)
Lemma inv_wired cl s s' :
  inv cl [] s -> wired s' -> p_socks s' = p_socks s -> p_lib s' = p_lib s -> p_app_in s' = p_app_in s -> inv cl [] s'.
Proof.
  intros [_ [O1 O2 O3 O9 O4 O5 O6 O7 O8] Hr] Hw E1 E2 E3. split; [done|split; rewrite ?E1, ?E2, ?E3; done|].
  unfold ready. by rewrite E1, E2.
Qed.

(** The items in the lists under a descriptor. *)
Lemma slot s e ep sp k fd j :
  wired s -> p_epolls s !! e = Some ep -> p_socks s !! sp = Some k -> sk_fd k = fd ->
  active_list ep !! fd = Some j \/ inactive_list ep !! fd = Some j -> sk_items k !! ep_epfd ep = Some j.
Proof.
  intros Hw Ee Ek Ef Hj. destruct (w_list _ _ _ Hw e ep fd j Ee Hj) as (it & k1 & A1 & A2 & A3 & A4 & A5).
  pose proof (w_sock _ _ _ Hw _ _ A3) as B1. pose proof (w_sock _ _ _ Hw _ _ Ek) as B2. rewrite A4 in B1. rewrite Ef, B1 in B2.
  injection B2 as B2. congruence.
Qed.

Lemma slot_free s e ep sp k fd :
  wired s -> p_epolls s !! e = Some ep -> p_socks s !! sp = Some k -> sk_fd k = fd -> sk_items k !! ep_epfd ep = None ->
  active_list ep !! fd = None /\ inactive_list ep !! fd = None.
Proof.
  intros Hw Ee Ek Ef Hn. split.
  - destruct (active_list ep !! fd) as [j|] eqn:E; [|done]. rewrite (slot s e ep sp k fd j) in Hn; auto.
  - destruct (inactive_list ep !! fd) as [j|] eqn:E; [|done]. rewrite (slot s e ep sp k fd j) in Hn; auto.
Qed.

(** The lists change under one descriptor. *)
Definition relisted (ep ep' : eTran_epoll) (fd : Z) : Prop :=
  ep_epfd ep' = ep_epfd ep /\
  forall fd', fd' <> fd -> active_list ep' !! fd' = active_list ep !! fd' /\ inactive_list ep' !! fd' = inactive_list ep !! fd'.
Definition entries (ep : eTran_epoll) : Z := Z.of_nat (size (active_list ep) + size (inactive_list ep)).

Lemma relisted_listed ep ep' fd fd' i : relisted ep ep' fd -> fd' <> fd ->
  (listed ep' fd' i <-> listed ep fd' i) /\ active_list ep' !! fd' = active_list ep !! fd'.
Proof. intros [_ H] Hn. destruct (H fd' Hn) as [A B]. unfold listed. by rewrite A, B. Qed.

Section Lists.
Context (s s' : proc) (e : Z) (ep ep' : eTran_epoll) (sp : Z) (k : eTran_socket_t).
Hypothesis Hw : wired s.
Hypothesis Ee : p_epolls s !! e = Some ep.
Hypothesis Ek : p_socks s !! sp = Some k.
Hypothesis Ee' : p_epolls s' = <[e := ep']> (p_epolls s).
Hypothesis Ef' : p_fds s' = p_fds s.
Hypothesis Hre : relisted ep ep' (sk_fd k).
Hypothesis Hnum : num_eTran ep' = entries ep'.

(** What does not depend on the item. *)
Lemma relist_epolls :
  (forall e ep, p_epolls s' !! e = Some ep -> p_fds s' !! ep_epfd ep = Some (FH_EPOLL e)) /\
  (forall fd e, p_fds s' !! fd = Some (FH_EPOLL e) -> exists ep, p_epolls s' !! e = Some ep /\ ep_epfd ep = fd) /\
  (forall e ep, p_epolls s' !! e = Some ep -> num_eTran ep = entries ep).
Proof using All.
  destruct Hw as [W1 W2 W3 W4 W5 W6 W7]. rewrite Ee', Ef'. split_and!.
  - intros e1 ep1 F1. ins F1 e1 e; [rewrite (proj1 Hre)|]; by apply W5.
  - intros fd e1 F1. destruct (W6 _ _ F1) as (ep1 & A1 & A2). destruct (decide (e1 = e)) as [->|].
    + exists ep'. rewrite lookup_insert_eq, (proj1 Hre). split; [done|congruence].
    + exists ep1. by rewrite lookup_insert_ne.
  - intros e1 ep1 F1. ins F1 e1 e; [done|]. by apply (W7 e1).
Qed.

(** Another item: not of this socket and this epoll. *)
Lemma relist_item sp1 k1 epfd i :
  p_socks s !! sp1 = Some k1 -> sk_items k1 !! epfd = Some i -> sp1 <> sp \/ epfd <> ep_epfd ep ->
  exists it ep1, p_items s !! i = Some it /\ it_socket it = sp1 /\ p_epolls s' !! it_epoll it = Some ep1 /\ ep_epfd ep1 = epfd /\
    listed ep1 (sk_fd k1) i /\ (Z.land (sk_epoll_events k1) (interest_events it) <> 0 -> active_list ep1 !! sk_fd k1 = Some i).
Proof using All.
  intros E1 E2 Hn. destruct (w_item _ _ _ Hw _ _ _ _ E1 E2) as (it & ep1 & A1 & A2 & A3 & A4 & A5 & A6). exists it.
  assert (Z.land (sk_epoll_events k1) (interest_events it) <> 0 -> active_list ep1 !! sk_fd k1 = Some i) as A6'.
  { intros Hr. destruct (A6 Hr) as [?|[?%not_elem_of_nil _]]; done. }
  rewrite Ee'. destruct (decide (it_epoll it = e)) as [Hee|Hne]; [|exists ep1; by rewrite lookup_insert_ne].
  rewrite Hee, Ee in A3. injection A3 as <-. exists ep'. rewrite Hee, lookup_insert_eq.
  assert (sk_fd k1 <> sk_fd k) as Hfd.
  { intros Hf. pose proof (w_sock _ _ _ Hw _ _ E1) as B1. pose proof (w_sock _ _ _ Hw _ _ Ek) as B2. rewrite Hf in B1. destruct Hn; congruence. }
  destruct (relisted_listed ep ep' (sk_fd k) (sk_fd k1) i Hre Hfd) as [B1 B2]. rewrite B1, B2, (proj1 Hre). done.
Qed.

(** An entry under another descriptor or of another epoll. *)
Lemma relist_entry e1 ep1 fd i :
  p_epolls s' !! e1 = Some ep1 -> active_list ep1 !! fd = Some i \/ inactive_list ep1 !! fd = Some i ->
  (e1 = e /\ ep1 = ep' /\ fd = sk_fd k) \/
  exists it k1, p_items s !! i = Some it /\ it_epoll it = e1 /\ p_socks s !! it_socket it = Some k1 /\ sk_fd k1 = fd /\
      sk_items k1 !! ep_epfd ep1 = Some i /\ (it_socket it <> sp \/ ep_epfd ep1 <> ep_epfd ep).
Proof using All.
  intros E1 E2. rewrite Ee' in E1. destruct (decide (e1 = e)) as [->|Hne].
  - rewrite lookup_insert_eq in E1. injection E1 as <-. destruct (decide (fd = sk_fd k)) as [->|Hn]; [by left|right].
    destruct (proj2 Hre fd Hn) as [B1 B2]. rewrite B1, B2 in E2. rewrite (proj1 Hre).
    destruct (w_list _ _ _ Hw e ep fd i Ee E2) as (it & k1 & A1 & A2 & A3 & A4 & A5). exists it, k1. split_and!; try done.
    left. congruence.
  - rewrite lookup_insert_ne in E1 by done. right.
    destruct (w_list _ _ _ Hw e1 ep1 fd i E1 E2) as (it & k1 & A1 & A2 & A3 & A4 & A5). exists it, k1. split_and!; try done.
    right. intros He. pose proof (w_epoll _ _ _ Hw _ _ E1). pose proof (w_epoll _ _ _ Hw _ _ Ee). congruence.
Qed.

(** An item moves from list to list. *)
Lemma wired_relist i it :
  p_socks s' = p_socks s -> p_items s' = p_items s -> sk_items k !! ep_epfd ep = Some i -> p_items s !! i = Some it ->
  it_epoll it = e -> listed ep' (sk_fd k) i ->
  (Z.land (sk_epoll_events k) (interest_events it) <> 0 -> active_list ep' !! sk_fd k = Some i) -> wired s'.
Proof using All.
  intros Es Ei Hi Hit Hie Hl Hr. destruct relist_epolls as (R1 & R2 & R3). split; try done; rewrite ?Es, ?Ei.
  - intros sp1 k1 epfd j E1 E2. destruct (decide (sp1 = sp /\ epfd = ep_epfd ep)) as [[-> ->]|Hn].
    + assert (k1 = k) as -> by congruence. assert (j = i) as -> by congruence.
      destruct (w_item _ _ _ Hw _ _ _ _ E1 E2) as (it1 & ep1 & A1 & A2 & A3 & A4 & A5 & A6). assert (it1 = it) as -> by congruence.
      exists it, ep'. rewrite Ee', Hie, lookup_insert_eq, (proj1 Hre). split_and!; try done. intros H. left. auto.
    + destruct (relist_item sp1 k1 epfd j E1 E2) as (it1 & ep1 & A1 & A2 & A3 & A4 & A5 & A6).
      { destruct (decide (sp1 = sp)); [right|by left]. intros ?. by destruct Hn. }
      exists it1, ep1. split_and!; try done. intros H. left. auto.
  - intros e1 ep1 fd j E1 E2. destruct (relist_entry e1 ep1 fd j E1 E2) as [(-> & -> & ->)|(it1 & k1 & A1 & A2 & A3 & A4 & A5 & _)].
    + assert (j = i) as -> by (unfold listed in Hl; intuition congruence). rewrite (proj1 Hre).
      destruct (w_item _ _ _ Hw _ _ _ _ Ek Hi) as (it1 & ep1 & A1 & A2 & _). assert (it1 = it) as -> by congruence.
      exists it, k. by rewrite A2.
    + by exists it1, k1.
  - rewrite Ef'. by apply Hw.
  - rewrite Ef'. by apply Hw.
Qed.

(** The socket changes but for its descriptor. *)
Lemma relist_socks k' :
  p_socks s' = <[sp := k']> (p_socks s) -> sk_fd k' = sk_fd k ->
  (forall sp k, p_socks s' !! sp = Some k -> p_fds s' !! sk_fd k = Some (FH_SOCKET sp)) /\
  (forall fd sp, p_fds s' !! fd = Some (FH_SOCKET sp) -> exists k, p_socks s' !! sp = Some k /\ sk_fd k = fd).
Proof using All.
  intros Es Ef. rewrite Es, Ef'. split.
  - intros sp1 k1 E1. ins E1 sp1 sp; [rewrite Ef|]; by apply Hw.
  - intros fd sp1 E1. destruct (w_sock_fd _ _ _ Hw _ _ E1) as (k1 & A1 & A2). destruct (decide (sp1 = sp)) as [->|].
    + exists k'. rewrite lookup_insert_eq. split; [done|congruence].
    + exists k1. by rewrite lookup_insert_ne.
Qed.

(** What is required of an item. *)
Definition item_ok (items : gmap Z eTran_epoll_item) (sp1 : Z) (k1 : eTran_socket_t) (epfd i : Z) : Prop :=
  exists it ep1, items !! i = Some it /\ it_socket it = sp1 /\ p_epolls s' !! it_epoll it = Some ep1 /\ ep_epfd ep1 = epfd /\
    listed ep1 (sk_fd k1) i /\ (Z.land (sk_epoll_events k1) (interest_events it) <> 0 ->
    active_list ep1 !! sk_fd k1 = Some i \/ i ∈ [] /\ Z.land (interest_events it) 0 <> 0).

(** An item is added. *)
Lemma wired_add i it :
  p_socks s' = <[sp := k <| sk_items ::= <[ep_epfd ep := i]> |>]> (p_socks s) -> p_items s' = <[i := it]> (p_items s) ->
  p_items s !! i = None -> it_epoll it = e -> it_socket it = sp -> listed ep' (sk_fd k) i ->
  (Z.land (sk_epoll_events k) (interest_events it) <> 0 -> active_list ep' !! sk_fd k = Some i) -> wired s'.
Proof using All.
  set (k' := k <| sk_items ::= _ |>). intros Es Ei Hni Hie His Hl Hr. destruct relist_epolls as (R1 & R2 & R3).
  destruct (relist_socks k' Es eq_refl) as [R4 R5]. split; try done; rewrite ?Es, ?Ei.
  - assert (forall sp1 k1 k2 epfd j, p_socks s !! sp1 = Some k1 -> sk_items k1 !! epfd = Some j -> sp1 <> sp \/ epfd <> ep_epfd ep ->
      sk_fd k2 = sk_fd k1 -> sk_epoll_events k2 = sk_epoll_events k1 ->
      item_ok (<[i := it]> (p_items s)) sp1 k2 epfd j) as Hold.
    { intros sp1 k1 k2 epfd j E1 E2 Hn F1 F2. destruct (relist_item sp1 k1 epfd j E1 E2 Hn) as (it1 & ep1 & A1 & A2 & A3 & A4 & A5 & A6).
      exists it1, ep1. rewrite lookup_insert_ne by congruence. rewrite F1, F2. split_and!; try done. intros H. left. auto. }
    intros sp1 k1 epfd j E1 E2. ins E1 sp1 sp; [|eapply Hold; eauto]. cbn in E2. destruct (decide (epfd = ep_epfd ep)) as [->|Hne].
    + rewrite lookup_insert_eq in E2. injection E2 as <-. exists it, ep'.
      rewrite lookup_insert_eq, Ee', Hie, lookup_insert_eq, (proj1 Hre). split_and!; try done. intros H. left. by apply Hr.
    + rewrite lookup_insert_ne in E2 by done. eapply Hold; eauto.
  - intros e1 ep1 fd j E1 E2. destruct (relist_entry e1 ep1 fd j E1 E2) as [(-> & -> & ->)|(it1 & k1 & A1 & A2 & A3 & A4 & A5 & A6)].
    + assert (j = i) as -> by (unfold listed in Hl; intuition congruence). exists it, k'.
      rewrite lookup_insert_eq, His, lookup_insert_eq, (proj1 Hre). cbn. by rewrite lookup_insert_eq.
    + exists it1. rewrite lookup_insert_ne by congruence. destruct (decide (it_socket it1 = sp)) as [Hs|Hn].
      * assert (k1 = k) as -> by congruence. exists k'. rewrite Hs, lookup_insert_eq. cbn. rewrite lookup_insert_ne; [done|].
        destruct A6; congruence.
      * exists k1. by rewrite lookup_insert_ne.
Qed.

(** An item is removed. *)
Lemma wired_del i :
  p_socks s' = <[sp := k <| sk_items ::= delete (ep_epfd ep) |>]> (p_socks s) -> p_items s' = delete i (p_items s) ->
  sk_items k !! ep_epfd ep = Some i -> active_list ep' !! sk_fd k = None -> inactive_list ep' !! sk_fd k = None -> wired s'.
Proof using All.
  set (k' := k <| sk_items ::= _ |>). intros Es Ei Hi Ha Hna. destruct relist_epolls as (R1 & R2 & R3).
  destruct (relist_socks k' Es eq_refl) as [R4 R5].
  destruct (w_item _ _ _ Hw _ _ _ _ Ek Hi) as (it & ep0 & B1 & B2 & B3 & B4 & _).
  assert (it_epoll it = e) as B5.
  { pose proof (w_epoll _ _ _ Hw _ _ B3) as C1. pose proof (w_epoll _ _ _ Hw _ _ Ee) as C2. rewrite B4, C2 in C1. by injection C1. }
  split; try done; rewrite ?Es, ?Ei.
  - assert (forall sp1 k1 k2 epfd j, p_socks s !! sp1 = Some k1 -> sk_items k1 !! epfd = Some j -> sp1 <> sp \/ epfd <> ep_epfd ep ->
      sk_fd k2 = sk_fd k1 -> sk_epoll_events k2 = sk_epoll_events k1 ->
      item_ok (delete i (p_items s)) sp1 k2 epfd j) as Hold.
    { intros sp1 k1 k2 epfd j E1 E2 Hn F1 F2. destruct (relist_item sp1 k1 epfd j E1 E2 Hn) as (it1 & ep1 & A1 & A2 & A3 & A4 & A5 & A6).
      exists it1, ep1. rewrite F1, F2. split_and!; try done; [|intros H; left; auto]. rewrite lookup_delete_ne; [done|]. intros <-.
      assert (it1 = it) as -> by congruence. rewrite B5, Ee', lookup_insert_eq in A3. injection A3 as <-. rewrite (proj1 Hre) in A4.
      destruct Hn; congruence. }
    intros sp1 k1 epfd j E1 E2. ins E1 sp1 sp; [|eapply Hold; eauto]. cbn in E2. del E2. eapply Hold; eauto.
  - intros e1 ep1 fd j E1 E2. destruct (relist_entry e1 ep1 fd j E1 E2) as [(-> & -> & ->)|(it1 & k1 & A1 & A2 & A3 & A4 & A5 & A6)].
    + rewrite Ha, Hna in E2. by destruct E2.
    + exists it1. rewrite lookup_delete_ne.
      * destruct (decide (it_socket it1 = sp)) as [Hs|Hn]; [|exists k1; by rewrite lookup_insert_ne].
        assert (k1 = k) as -> by congruence. exists k'. rewrite Hs, lookup_insert_eq. cbn. rewrite lookup_delete_ne; [done|].
        destruct A6; congruence.
      * intros <-. assert (it1 = it) as -> by congruence. rewrite Ee', <- A2, B5, lookup_insert_eq in E1. injection E1 as <-.
        rewrite (proj1 Hre) in A6. destruct A6; congruence.
Qed.
End Lists.

Lemma create_spec flags epfd e junk s :
  inv Idle [] s -> p_epolls s !! e = None -> p_fds s !! epfd = None ->
  ppost (eTran_epoll_create1 flags epfd e junk) s (fun _ s' => inv Idle [] s').
Proof.
  intros H Ee Ef. unfold eTran_epoll_create1. pp1; [by pp1|]. pp1; [by pp1|]. do 5 pp1. eapply inv_wired; try done.
  destruct (iv_wired _ _ _ H) as [W1 W2 W3 W4 W5 W6 W7]. split; cbn.
  - intros sp k epfd1 i E1 E2. destruct (W1 _ _ _ _ E1 E2) as (it & ep1 & A1 & A2 & A3 & A4 & A5 & A6). exists it, ep1.
    rewrite lookup_insert_ne by congruence. done.
  - intros e1 ep1 fd i E1 E2. ins E1 e1 e; [by destruct E2|]. by eapply W2.
  - intros sp k E1. pose proof (W3 _ _ E1). rewrite lookup_insert_ne by congruence. done.
  - intros fd sp E1. destruct (decide (fd = epfd)) as [->|]; [by rewrite lookup_insert_eq in E1|].
    rewrite lookup_insert_ne in E1 by done. by apply W4.
  - intros e1 ep1 E1. ins E1 e1 e; [by rewrite lookup_insert_eq|]. pose proof (W5 _ _ E1). rewrite lookup_insert_ne by congruence. done.
  - intros fd e1 E1. destruct (decide (fd = epfd)) as [->|].
    + rewrite lookup_insert_eq in E1. injection E1 as <-. eexists. by rewrite lookup_insert_eq.
    + rewrite lookup_insert_ne in E1 by done. destruct (W6 _ _ E1) as (ep1 & A1 & A2). exists ep1. rewrite lookup_insert_ne by congruence. done.
  - intros e1 ep1 E1. ins E1 e1 e; [done|]. by apply (W7 e1).
Qed.

(** Neither the lists nor their counter change. *)
Lemma wired_meta s e ep ep' :
  wired s -> p_epolls s !! e = Some ep -> active_list ep' = active_list ep -> inactive_list ep' = inactive_list ep ->
  ep_epfd ep' = ep_epfd ep -> num_eTran ep' = num_eTran ep -> wired (s <| p_epolls ::= <[e := ep']> |>).
Proof.
  intros [W1 W2 W3 W4 W5 W6 W7] E1 Ha Hi Hf Hn. split; cbn; try done.
  - intros sp k epfd j F1 F2. destruct (W1 _ _ _ _ F1 F2) as (it1 & ep1 & A1 & A2 & A3 & A4 & A5 & A6). exists it1.
    destruct (decide (it_epoll it1 = e)) as [He|]; [|exists ep1; by rewrite lookup_insert_ne].
    assert (ep1 = ep) as -> by congruence. exists ep'. rewrite He, lookup_insert_eq, Hf. unfold listed. by rewrite Ha, Hi.
  - intros e1 ep1 fd1 j F1 F2. ins F1 e1 e; [|by eapply W2]. rewrite Ha, Hi in F2. rewrite Hf. exact (W2 _ ep _ _ E1 F2).
  - intros e1 ep1 F1. ins F1 e1 e; [rewrite Hf|]; by apply W5.
  - intros fd1 e1 F1. destruct (W6 _ _ F1) as (ep1 & A1 & A2). destruct (decide (e1 = e)) as [->|]; [|exists ep1; by rewrite lookup_insert_ne].
    exists ep'. rewrite lookup_insert_eq, Hf. split; [done|congruence].
  - intros e1 ep1 F1. ins F1 e1 e; [rewrite Ha, Hi, Hn; by apply (W7 e)|by apply (W7 e1)].
Qed.

(** An item changes its interest. *)
Lemma wired_reitem s sp k epfd i it it' :
  wired s -> p_socks s !! sp = Some k -> sk_items k !! epfd = Some i -> p_items s !! i = Some it ->
  it_epoll it' = it_epoll it -> it_socket it' = it_socket it ->
  wired_but (sk_epoll_events k) [i] (s <| p_items ::= <[i := it']> |>).
Proof.
  intros Hw Ek Ei Hit F1 F2. pose proof Hw as [W1 W2 W3 W4 W5 W6 W7]. split; cbn; try done.
  - intros sp1 k1 epfd1 j E1 E2. destruct (W1 _ _ _ _ E1 E2) as (it1 & ep1 & A1 & A2 & A3 & A4 & A5 & A6).
    destruct (decide (j = i)) as [->|Hn].
    + assert (it1 = it) as -> by congruence. exists it', ep1. rewrite lookup_insert_eq, F1, F2. split_and!; try done. intros Hr. right.
      split; [by left|]. destruct (W1 _ _ _ _ Ek Ei) as (it1 & _ & B1 & B2 & _). assert (sp1 = sp) as -> by congruence.
      assert (k1 = k) as -> by congruence. by rewrite Z.land_comm.
    + exists it1, ep1. rewrite lookup_insert_ne by done. split_and!; try done. intros Hr.
      destruct (A6 Hr) as [?|[?%not_elem_of_nil _]]; [by left|done].
  - intros e1 ep1 fd j E1 E2. destruct (W2 _ _ _ _ E1 E2) as (it1 & k1 & A1 & A2 & A3 & A4 & A5).
    destruct (decide (j = i)) as [->|Hn]; [|exists it1, k1; by rewrite lookup_insert_ne].
    assert (it1 = it) as -> by congruence. exists it', k1. rewrite lookup_insert_eq, F1, F2. done.
Qed.

Section Control.
Context (s : proc) (e : Z) (ep : eTran_epoll) (sp : Z) (k : eTran_socket_t).
Hypothesis H : inv Idle [] s.
Hypothesis Ee : p_epolls s !! e = Some ep.
Hypothesis Ek : p_socks s !! sp = Some k.

Lemma inv_add s1 ep2 events data i :
  p_items s !! i = None -> p_socks s1 = <[sp := k <| sk_items ::= <[ep_epfd ep := i]> |>]> (p_socks s) ->
  p_items s1 = <[i := mk_eTran_epoll_item e sp events data]> (p_items s) -> p_epolls s1 = <[e := ep2]> (p_epolls s) ->
  p_fds s1 = p_fds s -> p_lib s1 = p_lib s -> p_app_in s1 = p_app_in s ->
  relisted ep ep2 (sk_fd k) -> num_eTran ep2 = entries ep2 -> listed ep2 (sk_fd k) i ->
  (Z.land (sk_epoll_events k) events <> 0 -> active_list ep2 !! sk_fd k = Some i) -> inv Idle [] s1.
Proof using All.
  intros Hi F1 F2 F3 F4 F5 F6 G1 G2 G3 G4.
  eapply (inv_rewire Idle s s1 sp k (k <| sk_items ::= <[ep_epfd ep := i]> |>)); try done; [|by left|by apply (o_bound _ _ (iv_owned _ _ _ H) sp k)].
  by eapply (wired_add s s1 e ep ep2 sp k (iv_wired _ _ _ H) Ee Ek F3 F4 G1 G2 i).
Qed.

Lemma add_spec events data i :
  p_items s !! i = None -> ppost (epoll_add e sp (ep_epfd ep) (sk_fd k) events data i) s (fun _ s' => inv Idle [] s').
Proof using All.
  intros Hi. unfold epoll_add. rd_at Ek. pp1; [by pp1|]. destruct (sk_items k !! ep_epfd ep) as [j|] eqn:Ej; [by pp1|].
  destruct (slot_free s e ep sp k (sk_fd k) (iv_wired _ _ _ H) Ee Ek eq_refl Ej) as [Sa Si].
  pose proof (w_count _ _ _ (iv_wired _ _ _ H) _ _ Ee) as Hn.
  do 3 pp1. eapply ppost_to_s; [done|]. pp1. eapply ppost_at_ep; [done|]. rewrite Si, Sa. pp1. eapply ppost_to_ep; [done|].
  do 2 pp1.
  - eapply ppost_to_ep; [apply lookup_insert_eq|]. pp1. eapply ppost_to_ep; [apply lookup_insert_eq|]. pp1.
    eapply (inv_add _ _ events data i); [done..|by cbn; rewrite !insert_insert_eq|done|done|done| | | |]; unfold relisted, listed, entries; cbn;
      rewrite ?lookup_insert_eq, ?delete_insert_id by done.
    + split; [done|]. intros fd' Hne. by rewrite lookup_insert_ne.
    + rewrite map_size_insert_None by done. lia.
    + by left.
    + done.
  - pp1. pp1. eapply ppost_to_ep; [apply lookup_insert_eq|]. pp1.
    eapply (inv_add _ _ events data i); [done..|by cbn; rewrite !insert_insert_eq|done|done|done| | | |]; unfold relisted, listed, entries; cbn;
      rewrite ?lookup_insert_eq by done.
    + split; [done|]. intros fd' Hne. by rewrite lookup_insert_ne.
    + rewrite map_size_insert_None by done. lia.
    + by right.
    + match goal with Hz : nz _ = false |- _ => by apply nz_false in Hz end.
Qed.

Lemma del_spec : ppost (epoll_del e sp (ep_epfd ep) (sk_fd k)) s (fun _ s' => inv Idle [] s').
Proof using All.
  unfold epoll_del. rd_at Ek. destruct (sk_items k !! ep_epfd ep) as [i|] eqn:Ei; [|by pp1].
  destruct (w_item _ _ _ (iv_wired _ _ _ H) _ _ _ _ Ek Ei) as (it & ep0 & A1 & A2 & A3 & A4 & A5 & _).
  assert (ep0 = ep) as ->.
  { pose proof (w_epoll _ _ _ (iv_wired _ _ _ H) _ _ A3) as C1. pose proof (w_epoll _ _ _ (iv_wired _ _ _ H) _ _ Ee) as C2. congruence. }
  pose proof (w_count _ _ _ (iv_wired _ _ _ H) _ _ Ee) as Hn.
  do 5 pp1. eapply ppost_to_s; [done|]. pp1. eapply ppost_to_ep; [done|]. pp1. eapply ppost_to_ep; [apply lookup_insert_eq|]. pp1.
  set (k' := k <| sk_items ::= _ |>).
  match goal with |- inv _ _ ?x => set (s1 := x) end.
  set (ep' := match inactive_list ep !! sk_fd k with Some _ => _ | None => _ end) in s1. set (ep2 := ep' <| num_eTran := _ |>) in s1.
  assert (relisted ep ep' (sk_fd k) /\ active_list ep' !! sk_fd k = None /\ inactive_list ep' !! sk_fd k = None /\
    num_eTran ep' - 1 = entries ep') as (G1 & G2 & G3 & G4).
  { unfold ep', relisted, entries. destruct A5 as [[B1 B2]|[B1 B2]]; rewrite B2; cbn; rewrite ?lookup_delete_eq; split_and!; try done;
      try (intros fd' Hne; by rewrite lookup_delete_ne).
    - rewrite map_size_delete_Some by done. assert (size (active_list ep) <> 0%nat) by (intros E%map_size_empty_inv; by rewrite E in B1). lia.
    - rewrite map_size_delete_Some by done. assert (size (inactive_list ep) <> 0%nat) by (intros E%map_size_empty_inv; by rewrite E in B2). lia. }
  eapply (inv_rewire Idle s s1 sp k k'); try done; [|by left|by apply (o_bound _ _ (iv_owned _ _ _ H) sp k)].
  apply (wired_del s s1 e ep ep2 sp k (iv_wired _ _ _ H) Ee Ek) with (i := i); try done. unfold s1. cbn. by rewrite insert_insert_eq.
Qed.

Lemma mod_spec events : ppost (epoll_mod e sp (ep_epfd ep) (sk_fd k) events) s (fun _ s' => inv Idle [] s').
Proof using All.
  unfold epoll_mod. rd_at Ek. pp1; [by pp1|]. destruct (sk_items k !! ep_epfd ep) as [i|] eqn:Ei; [|by pp1]. do 3 pp1.
  destruct (w_item _ _ _ (iv_wired _ _ _ H) _ _ _ _ Ek Ei) as (it1 & ep0 & A1 & A2 & A3 & A4 & A5 & _). assert (it1 = it) as -> by congruence.
  assert (it_epoll it = e) as B5.
  { pose proof (w_epoll _ _ _ (iv_wired _ _ _ H) _ _ A3) as C1. pose proof (w_epoll _ _ _ (iv_wired _ _ _ H) _ _ Ee) as C2. rewrite A4, C2 in C1. by injection C1. }
  set (it' := it <| interest_events := events |>).
  pose proof (wired_reitem s sp k _ i it it' (iv_wired _ _ _ H) Ek Ei A1 eq_refl eq_refl) as Hw. set (s1 := s <| p_items ::= _ |>) in *.
  assert (p_items s1 !! i = Some it') as Hi' by apply lookup_insert_eq. pp1.
  - eapply ppost_to_ep; [done|]. pp1. eapply inv_wired; try done. apply (wired_done (sk_epoll_events k)).
    pose proof (wired_activate _ _ s1 i it' ep k Hw Hi') as X. change (it_epoll it') with (it_epoll it) in X. rewrite B5 in X.
    apply X; try done. cbn. by rewrite A2.
  - pp1. eapply inv_wired; try done. destruct Hw as [W1 W2 W3 W4 W5 W6 W7]. split; try done.
    intros sp1 k1 epfd1 j E1 E2. destruct (W1 _ _ _ _ E1 E2) as (it1 & ep1 & B1 & B2 & B3 & B4 & B6 & B7). exists it1, ep1. split_and!; try done.
    intros Hr. destruct (B7 Hr) as [?|[->%list_elem_of_singleton Hx]]; [by left|]. assert (it1 = it') as -> by congruence.
    rewrite Z.land_comm in Hx. match goal with Hz : nz _ = false |- _ => by apply nz_false in Hz end.
Qed.
End Control.

Lemma ctl_spec epfd op fd events data i linux s :
  inv Idle [] s -> p_items s !! i = None -> ppost (eTran_epoll_ctl epfd op fd events data i linux) s (fun _ s' => inv Idle [] s').
Proof.
  intros H Hi. unfold eTran_epoll_ctl. pp1. apply lookup_ep_spec; [|by pp1]. intros e Ee. pp1.
  destruct (w_epoll_fd _ _ _ (iv_wired _ _ _ H) _ _ Ee) as (ep & E1 & <-). apply lookup_sock_spec.
  - intros sp Es. destruct (w_sock_fd _ _ _ (iv_wired _ _ _ H) _ _ Es) as (k & E2 & <-). rd_at E2. pp1. eapply ppost_at_ep; [done|].
    do 2 pp1. pp1; [by pp1|]. pp1; [by pp1|]. destruct op; [by apply add_spec|by apply mod_spec|by apply del_spec].
  - do 2 pp1; [|by pp1]. eapply ppost_to_ep; [done|]. pp1. eapply inv_wired; try done.
    by eapply (wired_meta s e ep); [apply H|done..].
Qed.

(** ** The traversal of the active list *)

(** Item [i] is to be reported as [x]. *)
Definition ready_item (s : proc) (i : Z) (x : Z * Z) : Prop :=
  exists it k, p_items s !! i = Some it /\ p_socks s !! it_socket it = Some k /\
    Z.land (sk_epoll_events k) (interest_events it) <> 0 /\ x = (it_data it, Z.land (interest_events it) (sk_epoll_events k)).

Definition but_epolls (s s' : proc) : Prop :=
  p_socks s' = p_socks s /\ p_items s' = p_items s /\ p_fds s' = p_fds s /\ p_lib s' = p_lib s /\ p_app_in s' = p_app_in s.

(** An item without events goes back to the inactive list. *)
Lemma wired_park s e ep fd i it k :
  wired s -> p_epolls s !! e = Some ep -> active_list ep !! fd = Some i -> p_items s !! i = Some it -> p_socks s !! it_socket it = Some k ->
  Z.land (sk_epoll_events k) (interest_events it) = 0 ->
  wired (s <| p_epolls ::= <[e := ep <| active_list ::= delete fd |>
    <| inactive_list ::= fun m => match m !! sk_fd k with Some _ => m | None => <[sk_fd k := i]> m end |>]> |>).
Proof.
  intros Hw Ee Ha Hi Ek Hz. destruct (w_list _ _ _ Hw e ep fd i Ee (or_introl Ha)) as (it0 & k0 & A1 & A2 & A3 & A4 & A5).
  assert (it0 = it) as -> by congruence. assert (k0 = k) as -> by congruence. subst fd.
  destruct (w_item _ _ _ Hw _ _ _ _ Ek A5) as (it0 & ep0 & B1 & _ & B3 & _ & [[_ B5]|[B5 _]] & _); [|congruence].
  assert (it0 = it) as -> by congruence. assert (ep0 = ep) as -> by congruence.
  pose proof (w_count _ _ _ Hw _ _ Ee) as Hn.
  eapply (wired_relist s _ e ep _ (it_socket it) k Hw Ee Ek) with (i := i) (it := it); try done;
    unfold relisted, entries, listed; cbn; rewrite B5, ?lookup_delete_eq, ?lookup_insert_eq.
  - split; [done|]. intros fd' Hne. by rewrite lookup_delete_ne, lookup_insert_ne.
  - rewrite map_size_insert_None, map_size_delete_Some by done.
    assert (size (active_list ep) <> 0%nat) by (intros E%map_size_empty_inv; by rewrite E in Ha). lia.
  - by right.
Qed.

Lemma collect_spec e room l : forall evs s ep,
  wired s -> p_epolls s !! e = Some ep -> NoDup l.*1 -> (forall fd i, (fd, i) ∈ l -> active_list ep !! fd = Some i) ->
  Z.of_nat (length evs) <= room ->
  ppost (collect e l room evs) s (fun evs' s' => wired s' /\ but_epolls s s' /\ Z.of_nat (length evs') <= room /\
    exists new, evs' = evs ++ new /\ (forall x, x ∈ new -> exists fd i, (fd, i) ∈ l /\ ready_item s i x) /\
      (room <= Z.of_nat (length evs') \/ forall fd i x, (fd, i) ∈ l -> ready_item s i x -> x ∈ new)).
Proof.
  induction l as [|[fd i] l IH]; intros evs s ep Hw Ee Hnd Hl Hroom; cbn [collect].
  - pp1. split_and!; try done. exists []. rewrite app_nil_r. split_and!; try done; [by intros ? ?%not_elem_of_nil|].
    right. by intros ? ? ? ?%not_elem_of_nil.
  - apply list.NoDup_cons in Hnd as [Hnot Hnd]. pp1.
    { apply Z.leb_le in Heqb. pp1. split_and!; try done. exists []. rewrite app_nil_r. split_and!; try done; [by intros ? ?%not_elem_of_nil|by left]. }
    apply Z.leb_gt in Heqb. do 5 pp1.
    + apply nz_true in Heqb0. set (x := (it_data it, _)). eapply ppost_mono; [apply (IH _ s ep); try done|].
      * intros fd' i' Hin. apply Hl. by right.
      * rewrite length_app. cbn. lia.
      * intros evs' s' (H1 & H2 & H3 & new & -> & H4 & H5). split_and!; try done. exists (x :: new). rewrite <- app_assoc. split; [done|]. split.
        -- intros y [->|Hy]%elem_of_cons; [exists fd, i; split; [by left|by exists it, k]|]. destruct (H4 y Hy) as (fd' & i' & ? & ?).
           exists fd', i'. split; [by right|done].
        -- rewrite <- app_assoc in H5. destruct H5 as [?|H5]; [by left|right]. intros fd' i' y [[= -> ->]|Hin]%elem_of_cons Hy; [|right; by eapply H5].
           destruct Hy as (it1 & k1 & ? & ? & ? & ->). assert (it1 = it) as -> by congruence. assert (k1 = k) as -> by congruence. by left.
    + apply nz_false in Heqb0. pp1. eapply ppost_to_ep; [done|].
      match goal with |- context [<[e := ?y]>] => set (ep' := y) end. set (s1 := s <| p_epolls ::= _ |>).
      eapply ppost_mono; [apply (IH evs s1 ep'); try done|].
      * apply (wired_park s e ep fd i it k); try done. apply Hl. by left.
      * apply lookup_insert_eq.
      * intros fd' i' Hin. unfold ep'. cbn. rewrite lookup_delete_ne; [apply Hl; by right|]. intros <-. apply Hnot.
        apply list_elem_of_fmap. by exists (fd, i').
      * intros evs' s' (H1 & H2 & H3 & new & -> & H4 & H5). split_and!; try done. exists new. split; [done|]. split.
        -- intros y Hy. destruct (H4 y Hy) as (fd' & i' & ? & ?). exists fd', i'. split; [by right|done].
        -- destruct H5 as [?|H5]; [by left|right]. intros fd' i' y [[= -> ->]|Hin]%elem_of_cons Hy; [|by eapply H5].
           destruct Hy as (it1 & k1 & ? & ? & Hne & _). assert (it1 = it) as -> by congruence. assert (k1 = k) as -> by congruence. done.
Qed.

(** What [collect_active] finds. *)
Lemma active_spec e ep room s :
  inv Idle [] s -> p_epolls s !! e = Some ep -> 0 <= room ->
  ppost (collect_active e room) s (fun evs s' => inv Idle [] s' /\ but_epolls s s' /\ Z.of_nat (length evs) <= room /\
    (forall x, x ∈ evs -> exists fd i, active_list ep !! fd = Some i /\ ready_item s i x) /\
    (room <= Z.of_nat (length evs) \/ forall fd i x, active_list ep !! fd = Some i -> ready_item s i x -> x ∈ evs)).
Proof.
  intros H Ee Hroom. unfold collect_active. pp1. eapply ppost_at_ep; [done|]. eapply ppost_mono; [apply (collect_spec e room _ [] s ep)|].
  - apply H.
  - done.
  - unfold ordered. rewrite merge_sort_Permutation. apply NoDup_fst_map_to_list.
  - intros fd i. apply elem_of_ordered.
  - done.
  - intros evs s' (H1 & (E1 & E2 & E3 & E4 & E5) & H3 & new & -> & H4 & H5). split; [by eapply inv_wired|]. split; [done|]. split; [done|]. split.
    + intros x Hx. destruct (H4 x Hx) as (fd & i & Hin & ?). exists fd, i. split; [by apply elem_of_ordered|done].
    + destruct H5 as [?|H5]; [by left|right]. intros fd i x Ha. apply H5 with (fd := fd). by apply elem_of_ordered.
Qed.

Lemma poll_epoll cl s s' e ep :
  inv cl [] s -> inv cl [] s' -> poll_step s s' -> p_epolls s !! e = Some ep ->
  exists ep', p_epolls s' !! e = Some ep' /\ ep_epfd ep' = ep_epfd ep.
Proof.
  intros H H' S Ee. pose proof (w_epoll _ _ _ (iv_wired _ _ _ H) _ _ Ee) as E. rewrite <- (proj1 (ps_fds _ _ S)) in E.
  apply (w_epoll_fd _ _ _ (iv_wired _ _ _ H') _ _ E).
Qed.

Lemma wait_spec mtp w epfd maxevents timeout s :
  inv Idle [] s -> env_ok (we_poll1 w) -> env_ok (we_poll2 w) ->
  ppost (eTran_epoll_wait mtp w epfd maxevents timeout) s (fun _ s' => inv Idle [] s').
Proof.
  intros H He1 He2. unfold eTran_epoll_wait. pp1; [by pp1|]. pp1. apply lookup_ep_spec; [|by pp1]. intros e Ee.
  destruct (w_epoll_fd _ _ _ (iv_wired _ _ _ H) _ _ Ee) as (ep & E1 & _). pp1. eapply ppost_at_ep; [done|]. do 2 pp1.
  destruct (we_linux w) as [ln levs]. apply Z.leb_gt in Heqb.
  assert (forall s1 room, inv Idle [] s1 -> p_epolls s1 !! e <> None -> ppost (collect_active e room) s1 (fun _ s' => inv Idle [] s')) as Hcol.
  { intros s1 room H1 Hne. destruct (p_epolls s1 !! e) as [ep1|] eqn:Ee1; [|done]. destruct (Z_le_dec 0 room).
    - eapply ppost_mono; [by apply active_spec|]. by intros evs s' (? & _).
    - unfold collect_active. pp1. eapply ppost_at_ep; [done|]. destruct (ordered (active_list ep1)) as [|[fd i] l]; cbn; [by pp1|].
      destruct (Z.leb_spec room (Z.of_nat 0)); [|lia]. by pp1. }
  assert (forall ep1, active_list ep1 = active_list ep -> inactive_list ep1 = inactive_list ep -> ep_epfd ep1 = ep_epfd ep ->
    num_eTran ep1 = num_eTran ep -> inv Idle [] (s <| p_epolls ::= <[e := ep1]> |>)) as Hmeta.
  { intros ep1 F1 F2 F3 F4. eapply inv_wired; try done. eapply (wired_meta s e ep); try done. apply H. }
  assert (forall s1, inv Idle [] s1 -> p_epolls s1 !! e <> None -> ppost (socket_tcp_poll mtp (we_poll1 w) maxevents 0) s1
    (fun _ s' => inv Idle [] s' /\ p_epolls s' !! e <> None)) as Hpoll.
  { intros s1 H1 Hne. eapply ppost_mono; [by apply kept_poll|]. intros ? s2 [H2 S2]. split; [done|].
    destruct (p_epolls s1 !! e) as [ep1|] eqn:Ee1; [|done]. destruct (poll_epoll _ _ _ _ _ H1 H2 S2 Ee1) as (ep2 & -> & _). done. }
  pp1; [by pp1|]. pp1; [|pp1].
  - pp1. eapply ppost_mono; [apply Hpoll; [done|congruence]|]. intros ? s1 [H1 N1]. pp1. eapply ppost_mono; [by apply Hcol|].
    intros evs s2 H2. cbv beta in H2. do 2 pp1; [|by pp1]. eapply ppost_mono; [by apply kept_poll|]. intros ? s3 [H3 _]. by pp1.
  - pp1. eapply ppost_to_ep; [done|]. pp1; [by pp1; apply Hmeta|]. pp1.
    eapply ppost_mono; [apply Hpoll; [by apply Hmeta|cbn; by rewrite lookup_insert_eq]|]. intros ? s1 [H1 N1]. pp1.
    eapply ppost_mono; [by apply Hcol|]. intros evs s2 H2. by pp1.
  - pp1; [by pp1|]. pp1. eapply ppost_to_ep; [done|]. pp1.
    eapply ppost_mono; [apply Hpoll; [by apply Hmeta|cbn; by rewrite lookup_insert_eq]|]. intros ? s1 [H1 N1]. pp1.
    eapply ppost_mono; [by apply Hcol|]. intros evs s2 H2. pp1; by pp1.
Qed.

(** ** Runs of a program *)

(** A process that has made no call yet. *)
Definition no_calls (s : proc) : Prop :=
  p_socks s = ∅ /\ p_items s = ∅ /\ p_epolls s = ∅ /\ p_fds s = ∅ /\ t_conns (p_lib s) = ∅ /\ p_app_in s = [].

(** The calls of one thread that return.  The system hands out descriptors and
    pointers that are not in use; a descriptor is taken off all epolls before
    it is closed, and before a call that closes it when it fails; an accepted
    connection has not received data when [eTran_accept] returns. *)
Inductive call_step (mtp : bool) (s : proc) : proc -> Prop :=
| Call_socket fd sp nonblock protocol r s' :
    sp <> 0 -> p_socks s !! sp = None -> p_fds s !! fd = None ->
    eTran_socket fd sp nonblock protocol s = Some (r, s') -> call_step mtp s s'
| Call_connect es fd valid addr conn junk r s' :
    Forall env_ok es -> fresh_conn s conn -> r = 0 \/ unwatched s fd ->
    eTran_connect mtp es fd valid addr conn junk s = Some (r, s') -> call_step mtp s s'
| Call_bind es fd valid addr conn junk r s' :
    Forall env_ok es -> fresh_conn s conn -> r = 0 \/ unwatched s fd ->
    eTran_bind mtp es fd valid addr conn junk s = Some (r, s') -> call_step mtp s s'
| Call_listen es fd backlog listener r s' :
    Forall env_ok es -> eTran_listen mtp es fd backlog listener s = Some (r, s') -> call_step mtp s s'
| Call_accept es fd newfd ns conn junk r s' :
    Forall env_ok es -> fresh_conn s conn -> ns <> 0 -> p_socks s !! ns = None -> p_fds s !! newfd = None ->
    (forall sp s1 s2, accept_start mtp fd newfd ns conn junk s = Some (inl sp, s1) ->
       wait_accepted mtp es sp conn s1 = Some (true, s2) -> quiet_conn s2 conn) ->
    eTran_accept mtp es fd newfd ns conn junk s = Some (r, s') -> call_step mtp s s'
| Call_close es fd r s' :
    Forall env_ok es -> unwatched s fd -> eTran_close mtp es fd s = Some (r, s') -> call_step mtp s s'
| Call_read es e0 fd count r s' :
    Forall env_ok es -> env_ok e0 -> eTran_read mtp es e0 fd count s = Some (r, s') -> call_step mtp s s'
| Call_write es e0 fd buf count r s' :
    Forall env_ok es -> env_ok e0 -> eTran_write mtp es e0 fd buf count s = Some (r, s') -> call_step mtp s s'
| Call_setsockopt fd level name val len r s' : eTran_setsockopt fd level name val len s = Some (r, s') -> call_step mtp s s'
| Call_fcntl fd cmd flags r s' : eTran_fcntl fd cmd flags s = Some (r, s') -> call_step mtp s s'
| Call_epoll_create1 flags epfd e junk r s' :
    p_epolls s !! e = None -> p_fds s !! epfd = None ->
    eTran_epoll_create1 flags epfd e junk s = Some (r, s') -> call_step mtp s s'
| Call_epoll_ctl epfd op fd events data i linux r s' :
    p_items s !! i = None -> eTran_epoll_ctl epfd op fd events data i linux s = Some (r, s') -> call_step mtp s s'
| Call_epoll_wait w epfd maxevents timeout r s' :
    env_ok (we_poll1 w) -> env_ok (we_poll2 w) ->
    eTran_epoll_wait mtp w epfd maxevents timeout s = Some (r, s') -> call_step mtp s s'.

Lemma no_calls_inv s : no_calls s -> inv Idle [] s.
Proof.
  intros (E1 & E2 & E3 & E4 & E5 & E6). split.
  - split; rewrite ?E1, ?E2, ?E3, ?E4; done.
  - split; rewrite ?E1, ?E5, ?E6; done.
  - unfold ready. by rewrite E1.
Qed.

Lemma call_inv mtp s s' : inv Idle [] s -> call_step mtp s s' -> inv Idle [] s'.
Proof.
  intros H [fd sp nb pr r s1 H1 H2 H3 E|es fd v a c j r s1 H1 H2 H3 E|es fd v a c j r s1 H1 H2 H3 E|es fd b l r s1 H1 E
    |es fd nfd ns c j r s1 H1 H2 H3 H4 H5 H6 E|es fd r s1 H1 H2 E|es e0 fd n r s1 H1 H2 E|es e0 fd b n r s1 H1 H2 E|fd l x v n r s1 E|fd x b r s1 E
    |fl fd e j r s1 H1 H2 E|epfd op fd ev d i l r s1 H1 E|w epfd m t r s1 H1 H2 E].
  - by eapply socket_spec.
  - by eapply (connect_spec mtp es fd v a c j).
  - by eapply (bind_spec mtp es fd v a c j).
  - by eapply listen_spec.
  - by eapply (accept_spec mtp es fd nfd ns c j).
  - by eapply (eTran_close_spec mtp Idle es fd).
  - by eapply eTran_read_spec.
  - by eapply write_spec.
  - by eapply setsockopt_spec.
  - by eapply fcntl_spec.
  - by eapply create_spec.
  - by eapply ctl_spec.
  - by eapply wait_spec.
Qed.

Lemma run_inv mtp s s' : inv Idle [] s -> rtc (call_step mtp) s s' -> inv Idle [] s'.
Proof. intros H Hr. induction Hr as [|s s1 s2 Hs _ IH]; [done|]. apply IH. by eapply call_inv. Qed.

#[local] Transparent rd_ep tid.

(** The first poll of [eTran_epoll_wait] and what it reports then. *)
Lemma wait_result mtp w epfd e ep maxevents timeout s s1 n evs s' :
  inv Idle [] s -> p_fds s !! epfd = Some (FH_EPOLL e) -> 0 <= epfd < MAX_FD -> p_epolls s !! e = Some ep ->
  num_linux ep = 0 -> num_eTran ep <> 0 -> 0 < maxevents -> env_ok (we_poll1 w) ->
  socket_tcp_poll mtp (we_poll1 w) maxevents 0 s = Some (tt, s1) ->
  eTran_epoll_wait mtp w epfd maxevents timeout s = Some ((n, evs), s') ->
  exists s2, collect_active e maxevents s1 = Some (evs, s2) /\ n = Z.of_nat (length evs).
Proof.
  intros H Efd Hr Ee Hl Hn Hm He E1 E2. unfold eTran_epoll_wait in E2. destruct (Z.leb_spec maxevents 0); [lia|].
  assert (lookup_epoll_with_fd epfd s = Some (Some e, s)) as El.
  { unfold lookup_epoll_with_fd, pbind, pget, pret. rewrite Efd. destruct (Z.ltb_spec epfd 0); [lia|].
    destruct (Z.geb_spec epfd MAX_FD); [lia|done]. }
  unfold pbind in E2. rewrite El in E2.
  assert (rd_ep e s = Some (ep, s)) as Er by (unfold rd_ep, pbind, pget; by rewrite Ee). rewrite Er in E2.
  assert (tid s = Some (t_tid (p_lib s), s)) as Et by done. rewrite Et in E2.
  destruct (we_linux w) as [ln levs]. destruct (Z.eqb_spec (num_eTran ep) 0); [done|]. rewrite Hl, Z.eqb_refl, E1 in E2.
  destruct (collect_active e maxevents s1) as [[evs1 s2]|] eqn:Ec; [|done]. exists s2.
  destruct (pwhen _ _ s2) as [[[] s3]|]; [|done]. by injection E2 as <- <- _.
Qed.


(** A client that connects, watches the connection and waits; 100 bytes arrive
    then. *)
Definition proc_0 : proc := mk_proc (lib_run <| t_conns := ∅ |>) ∅ [] [] 0 0 ∅ ∅ ∅ ∅ ∅ ∅.
Definition env_open : poll_env :=
  mk_poll_env (fun t => t) (fun _ => [Tcp_in (APPIN_TCP_CONN_OPEN (0, 7) 7 5 1 100 40000 524288 524288 0)]) (fun _ => []) 0 (Some []).
Definition env_data : poll_env := mk_poll_env (receive frame_ex) (fun _ => []) (fun _ => []) 0 (Some []).
Definition wait_ex : wait_env := mk_wait_env env_data env_data (0, []) 0.
Definition after {A} (m : P A) (s : proc) : proc := from_option snd s (m s).
Definition proc_1 : proc := Eval vm_compute in after (eTran_socket 5 1000 false IPPROTO_TCP) proc_0.
Definition proc_2 : proc := Eval vm_compute in after (eTran_connect false [env_open] 5 true (200, 80) 7 0) proc_1.
Definition proc_3 : proc := Eval vm_compute in after (eTran_epoll_create1 0 6 2000 false) proc_2.
Definition proc_4 : proc := Eval vm_compute in after (eTran_epoll_ctl 6 EPOLL_CTL_ADD 5 EPOLLIN 99 3000 0) proc_3.
Definition proc_5 : proc := Eval vm_compute in after (socket_tcp_poll false env_data 8 0) proc_4.

Lemma env_open_ok : env_ok env_open.
Proof. split; [done|]. intros s. split; [|constructor]. by repeat constructor. Qed.
Lemma env_data_ok : env_ok env_data.
Proof.
  split; [|by intros s; split]. intros t. cbn. unfold receive. destruct (t_queues t) as [|q l]; [done|]. by destruct (xi_fq q).
Qed.

Lemma run_4 : rtc (call_step false) proc_0 proc_4.
Proof.
  apply (rtc_l _ _ proc_1). { by eapply (Call_socket _ _ 5 1000 false IPPROTO_TCP 5); try by vm_compute. }
  apply (rtc_l _ _ proc_2).
  { eapply (Call_connect _ _ [env_open] 5 true (200, 80) 7 0 0); [by constructor; [apply env_open_ok|]| |by left|by vm_compute].
    split_and!; [done|by vm_compute|]. constructor. }
  apply (rtc_l _ _ proc_3). { by eapply (Call_epoll_create1 _ _ 0 6 2000 false 6); vm_compute. }
  apply rtc_once. by eapply (Call_epoll_ctl _ _ 6 EPOLL_CTL_ADD 5 EPOLLIN 99 3000 0 0); vm_compute.
Qed.

Definition events_ex : list (Z * Z) := [(99, EPOLLIN)].


(** ** Runs that lose data or a wakeup *)

Definition answer (l : list app_in_msg) (nic : tctx -> tctx) : poll_env := mk_poll_env nic (fun _ => l) (fun _ => []) 0 (Some [Some 0]).

(** A server: socket, bind, listen, accept; 100 bytes arrive in the poll in
    which the accept is answered. *)
Definition server : P Z :=
  eTran_socket 5 1000 false IPPROTO_TCP ;;
  eTran_bind false [answer [Tcp_in (APPIN_TCP_STATUS ST_BIND (0, 7) 8 5 0)] (fun t => t)] 5 true (100, 80) 8 0 ;;
  eTran_listen false [answer [Tcp_in (APPIN_TCP_STATUS ST_LISTEN (0, 7) 500 5 0)] (fun t => t)] 5 16 500 ;;
  eTran_accept false [answer [Tcp_in (APPIN_TCP_CONN_ACCEPT (0, 7) 7 5 6 0 false 524288 524288 100 200 40000 0)] (receive frame_ex)]
    5 6 1001 7 0.

(** The accepted socket has the bytes but not the event: until more data
    arrives, no [eTran_epoll_wait] reports it. *)
Lemma accept_loses_wakeup :
  let s := after server proc_0 in
  let w := after (eTran_epoll_ctl 9 EPOLL_CTL_ADD 6 EPOLLIN 99 3000 0) (after (eTran_epoll_create1 0 9 2000 false) s) in
  fst <$> server proc_0 = Some 6 /\
  rxb_used <$> t_conns (p_lib w) !! 7 = Some 100 /\
  fst <$> eTran_epoll_wait false (mk_wait_env (answer [] (fun t => t)) (answer [] (fun t => t)) (0, []) 0) 9 8 100 w = Some (0, []).
Proof. by vm_compute. Qed.

(** Bytes that arrive before the answer to a connect are not counted after it,
    although their buffers are kept. *)
Lemma answer_resets_data :
  let s := after (eTran_connect false [answer [] (receive frame_ex); answer (pe_in env_open proc_0) (fun t => t)] 5 true (200, 80) 7 0) proc_1 in
  (fun c => (rxb_used c, length (rx_addrs c))) <$> t_conns (p_lib s) !! 7 = Some (0, 1%nat).
Proof. by vm_compute. Qed.

(** A read of a socket without data that does not block returns no bytes, as
    at the end of a stream. *)
Lemma nonblocking_read_empty :
  let s := after (eTran_fcntl 5 F_SETFL O_NONBLOCK) proc_2 in
  fst <$> eTran_read false [] (answer [] (fun t => t)) 5 100 s = Some (inl []).
Proof. by vm_compute. Qed.

(** A watched socket that is closed leaves its item in the epoll, which then
    reads the memory of the socket. *)
Lemma close_leaves_item :
  let closing := answer [Tcp_in (APPIN_TCP_STATUS ST_CLOSE (0, 7) 7 5 0)] (fun t => t) in
  let s := after (eTran_close false [closing] 5) proc_5 in
  (fst <$> eTran_close false [closing] 5 proc_5, p_socks s !! 1000) = (Some 0, None) /\
  eTran_epoll_wait false (mk_wait_env (answer [] (fun t => t)) (answer [] (fun t => t)) (0, []) 0) 6 8 0 s = None.
Proof. by vm_compute. Qed.
