(* ===== verification/LibInterp.v ===== *)
(** The interposed system calls ([lib/interpose.cc]): which calls the library
    answers and which go on to libc.  The functions of libc are not modelled:
    an interposed call says that it calls them with its own arguments. *)
From stdpp Require Import gmap.
From S2P Require Import Prelude Intf Headers TcpCtl BufPool LibTcp LibOwn LibRx LibStream LibRuns LibCtl LibSock LibPoll LibWait.
Local Open Scope Z_scope.
Local Open Scope proc_scope.

Definition AF_INET_ : Z := 2.
Definition SOCK_STREAM : Z := 1.
Definition SOCK_DGRAM : Z := 2.
Definition SOCK_NONBLOCK : Z := 0x800.
Definition SOCK_CLOEXEC : Z := 0x80000.

(** The call returns, or is passed to the function of libc. *)
Inductive outcome (A : Type) := Returns (a : A) | Libc.
Arguments Returns {A} _.
Arguments Libc {A}.

(** What [eTran_*] refuses goes to libc: any result but 0, or any negative
    one. *)
Definition unless_zero (fd : Z) (m : P Z) : P (outcome Z) :=
  if fd <? 0 then pret (Returns (- EINVAL_)) else let* r := m in pret (if nz r then Libc else Returns 0).
Definition unless_negative (fd : Z) (m : P Z) : P (outcome Z) :=
  if fd <? 0 then pret (Returns (- EINVAL_)) else let* r := m in pret (if r <? 0 then Libc else Returns r).

(** [socket]; [fd] and [sp] are what a new socket would get. *)
Definition socket (domain type protocol fd sp : Z) : P (outcome Z) :=
  if negb (domain =? AF_INET_) then pret Libc
  else
    let kind := Z.land type (Z.lnot (Z.lor SOCK_NONBLOCK SOCK_CLOEXEC)) in
    let cond1 := (kind =? SOCK_STREAM) && negb (protocol =? IPPROTO_HOMA) in
    let cond2 := (kind =? SOCK_DGRAM) && (protocol =? IPPROTO_HOMA) in
    if cond1 || cond2 then
      let* r := eTran_socket fd sp (Z.land type SOCK_NONBLOCK =? SOCK_NONBLOCK) (if cond1 then IPPROTO_TCP else protocol) in
      pret (Returns r)
    else pret Libc.

Section Interposed.
Context (mtp : bool).

Definition connect es fd valid addr conn junk : P (outcome Z) := unless_zero fd (eTran_connect mtp es fd valid addr conn junk).
Definition bind es fd valid addr conn junk : P (outcome Z) := unless_zero fd (eTran_bind mtp es fd valid addr conn junk).
Definition listen es fd backlog listener : P (outcome Z) := unless_zero fd (eTran_listen mtp es fd backlog listener).
Definition accept es fd newfd ns conn junk : P (outcome Z) := unless_negative fd (eTran_accept mtp es fd newfd ns conn junk).
Definition close es fd : P (outcome Z) := unless_zero fd (eTran_close mtp es fd).
(** [read]: the bytes, or an error. *)
Definition read es e0 fd count : P (outcome (list Z + Z)) :=
  if fd <? 0 then pret (Returns (inr (- EINVAL_)))
  else let* r := eTran_read mtp es e0 fd count in pret (match r with inl bytes => Returns (inl bytes) | inr _ => Libc end).
Definition write es e0 fd buf count : P (outcome Z) := unless_negative fd (eTran_write mtp es e0 fd buf count).
Definition setsockopt fd level name val len : P (outcome Z) := unless_zero fd (eTran_setsockopt fd level name val len).
Definition getsockopt (fd : Z) : P (outcome Z) := unless_zero fd eTran_getsockopt.
(** [fcntl]; [flags] is the third argument, or what the register holds. *)
Definition fcntl fd cmd flags : P (outcome Z) :=
  if negb (cmd =? F_SETFL) && negb (cmd =? F_GETFL) then pret Libc
  else if fd <? 0 then pret (Returns (- EINVAL_))
  else let* r := eTran_fcntl fd cmd flags in pret (if r <? 0 then Libc else Returns 0).
Definition epoll_create1 flags epfd e junk : P (outcome Z) :=
  let* r := eTran_epoll_create1 flags epfd e junk in pret (if r <=? 0 then Libc else Returns r).
Definition epoll_ctl epfd op fd events data i linux : P (outcome Z) := unless_zero epfd (eTran_epoll_ctl epfd op fd events data i linux).
(** [epoll_wait]: the number of events and the events. *)
Definition epoll_wait w epfd maxevents timeout : P (outcome (Z * list (Z * Z))) :=
  if epfd <? 0 then pret (Returns (- EINVAL_, []))
  else let* r := eTran_epoll_wait mtp w epfd maxevents timeout in pret (if r.1 <? 0 then Libc else Returns r).
Definition select : P (outcome Z) := let* r := eTran_select in pret (if r <? 0 then Libc else Returns r).

(** ** Descriptors of the system *)

Context (s : proc) (fd : Z).
Hypothesis Hfd : 0 <= fd.
Hypothesis Hnot : p_fds s !! fd = None.

Lemma no_socket : lookup_socket_with_fd fd s = Some (None, s).
Proof using Hnot. unfold lookup_socket_with_fd, pbind, pget, pret. rewrite Hnot. by destruct (_ || _). Qed.
Lemma no_epoll : lookup_epoll_with_fd fd s = Some (None, s).
Proof using Hnot. unfold lookup_epoll_with_fd, pbind, pget, pret. rewrite Hnot. by destruct (_ || _). Qed.

(** A call on a descriptor that the library does not know reaches libc, and
    the library does not change. *)
Lemma system_descriptors :
  (forall es valid addr conn junk, connect es fd valid addr conn junk s = Some (Libc, s)) /\
  (forall es valid addr conn junk, bind es fd valid addr conn junk s = Some (Libc, s)) /\
  (forall es backlog listener, listen es fd backlog listener s = Some (Libc, s)) /\
  (forall es newfd ns conn junk, accept es fd newfd ns conn junk s = Some (Libc, s)) /\
  (forall es, close es fd s = Some (Libc, s)) /\
  (forall es e0 count, read es e0 fd count s = Some (Libc, s)) /\
  (forall es e0 buf count, write es e0 fd buf count s = Some (Libc, s)) /\
  (forall level name val len, setsockopt fd level name val len s = Some (Libc, s)) /\
  getsockopt fd s = Some (Libc, s) /\
  (forall cmd flags, fcntl fd cmd flags s = Some (Libc, s)) /\
  (forall op fd' events data i linux, epoll_ctl fd op fd' events data i linux s = Some (Libc, s)) /\
  (forall w maxevents timeout, epoll_wait w fd maxevents timeout s = Some (Libc, s)).
Proof using All.
  pose proof no_socket as Hs. pose proof no_epoll as He. assert ((fd <? 0) = false) as Hn by (apply Z.ltb_ge; lia).
  split_and!; intros.
  - unfold connect, unless_zero, eTran_connect, pbind. by rewrite Hn, Hs.
  - unfold bind, unless_zero, eTran_bind, pbind. by rewrite Hn, Hs.
  - unfold listen, unless_zero, eTran_listen, pbind. by rewrite Hn, Hs.
  - unfold accept, unless_negative, eTran_accept, accept_start, pbind. by rewrite Hn, Hs.
  - unfold close, unless_zero, eTran_close, pbind, pget. rewrite Hn. cbn [orb]. rewrite Hnot. by destruct (fd >=? MAX_FD).
  - unfold read, eTran_read, check_connected, pbind. by rewrite Hn, Hs.
  - unfold write, unless_negative, eTran_write, check_connected, pbind. by rewrite Hn, Hs.
  - unfold setsockopt, unless_zero, eTran_setsockopt, pbind. rewrite Hn. destruct (negb _ || _); [done|]. by rewrite Hs.
  - unfold getsockopt, unless_zero, pbind. by rewrite Hn.
  - unfold fcntl, eTran_fcntl, pbind. destruct (negb (cmd =? F_SETFL) && _); [done|]. rewrite Hn. destruct (negb _ && _); [done|].
    destruct (nz _); [done|]. by rewrite Hs.
  - unfold epoll_ctl, unless_zero, eTran_epoll_ctl, pbind. by rewrite Hn, He.
  - unfold epoll_wait, eTran_epoll_wait, pbind. rewrite Hn. destruct (maxevents <=? 0); [done|]. by rewrite He.
Qed.
End Interposed.

(** ** Runs *)

Definition closed_run : proc :=
  after (socket_tcp_poll false (answer [Tcp_in (APPIN_TCP_STATUS ST_CLOSE (0, 7) 7 5 0)] (fun t => t)) 64 0) proc_2.
Definition quiet_env : poll_env := answer [] (fun t => t).

(** When the peer has closed a connection, reads and writes reach the event
    descriptor that stands for the socket. *)
Lemma closed_connection_reaches_eventfd :
  fst <$> read false [] quiet_env 5 100 closed_run = Some Libc /\
  fst <$> write false [] quiet_env 5 [1; 2; 3; 4; 5; 6; 7; 8] 8 closed_run = Some Libc.
Proof. by vm_compute. Qed.

(** The flags that [fcntl] reports are always 0. *)
Lemma getfl_hides_nonblock :
  fst <$> fcntl 5 F_GETFL 0 (after (eTran_fcntl 5 F_SETFL O_NONBLOCK) proc_2) = Some (Returns 0).
Proof. by vm_compute. Qed.
