(* ===== verification/HomaDefs.v ===== *)
(** The Homa transport: constants ([eBPF/homa/bss_data_defs.h],
    [common/intf/intf_ebpf.h]), packet headers ([common/tran_def/homa.h]),
    per-RPC state, the identifier and priority helpers and the reception
    bitmap of [eBPF/homa/rpc.h], with what the bitmap guarantees: a packet of
    a message is accepted once, and the message is complete exactly when each
    of its packets was accepted. *)
From stdpp Require Import gmap.
From S2P Require Import Prelude Intf Headers.
Local Open Scope Z_scope.

(** ** Constants *)
Definition MAX_PEER : Z := 32.
Definition MAX_BUCKET_SIZE : Z := 8192.
Definition MAX_RPC_TBL_SIZE : Z := 65536.
Definition QUEUE_SIZE : Z := 2048.
Definition POISON_64 : Z := UINT64_MAX.
Definition HOMA_MSS : Z := 1420.
Definition HDR_OVERHEAD : Z := 94.
Definition HOMA_MAX_PRIORITY : Z := 8.
Definition HOMA_MAX_SCHED_PRIO : Z := 3.
Definition HOMA_OVERCOMMITMENT : Z := 8.
Definition HOMA_MAX_MESSAGE_LENGTH : Z := 1000000.
Definition MAX_UPDATE_DELAY_PACKETS : Z := 32.
Definition GRANT_FIFO_INCREMENT : Z := 10000.
Definition PACER_FIFO_FRACTION : Z := 50.
Definition PACER_FIFO_INCREMENT : Z := 1000.
Definition Homa_min_throttled_bytes : Z := 200.
Definition Homa_unsched_bytes : Z := 60000.
Definition Homa_max_incoming : Z := 480000.
Definition Homa_grant_window : Z := 100000.
Definition ns_per_kbyte : Z := 323.
Definition max_nic_queue_ns : Z := 3000.
Definition grant_nonfifo : Z := 90000.

(** [enum homa_packet_type] *)
Definition DATA : Z := 0x10.
Definition GRANT : Z := 0x11.
Definition RESEND : Z := 0x12.
Definition UNKNOWN : Z := 0x13.
Definition BUSY : Z := 0x14.
Definition NEED_ACK : Z := 0x17.

(** The states of an RPC. *)
Definition BPF_RPC_DEAD : Z := 0.
Definition BPF_RPC_OUTGOING : Z := 5.
Definition BPF_RPC_INCOMING : Z := 6.
Definition BPF_RPC_IN_SERVICE : Z := 8.

(** ** Byte order of a 64-bit field *)
Definition bpf_cpu_to_be64 (x : Z) : Z :=
  bpf_htonl (x mod 4294967296) * 4294967296 + bpf_htonl (x / 4294967296).
Definition bpf_be64_to_cpu (x : Z) : Z := bpf_cpu_to_be64 x.

(** ** Packet headers; multi-byte fields hold the raw (network order) value *)
Record common_header := mk_common_header {
  ch_sport : Z;
  ch_dport : Z;
  ch_doff : Z;
  ch_type : Z;
  ch_seq : Z;
  ch_sender_id : Z
}.

#[export] Instance eta_common_header : Eta common_header := fun r => mk_common_header
  (ch_sport r) (ch_dport r) (ch_doff r) (ch_type r) (ch_seq r) (ch_sender_id r).

Record homa_ack := mk_homa_ack { ack_rpcid : Z; ack_sport : Z; ack_dport : Z }.

(** [struct data_segment], the payload apart. *)
Record data_segment := mk_data_segment {
  seg_offset : Z;
  segment_length : Z;
  seg_ack : homa_ack
}.

#[export] Instance eta_data_segment : Eta data_segment := fun r => mk_data_segment
  (seg_offset r) (segment_length r) (seg_ack r).

Record data_header := mk_data_header {
  d_common : common_header;
  d_message_length : Z;
  d_incoming : Z;
  d_cutoff_version : Z;
  d_retransmit : Z;
  d_unused1 : Z;
  d_seg : data_segment
}.

#[export] Instance eta_data_header : Eta data_header := fun r => mk_data_header
  (d_common r) (d_message_length r) (d_incoming r) (d_cutoff_version r) (d_retransmit r)
  (d_unused1 r) (d_seg r).

Record grant_header := mk_grant_header {
  g_common : common_header;
  g_offset : Z;
  g_priority : Z;
  g_resend_all : Z
}.

Record resend_header := mk_resend_header {
  r_common : common_header;
  r_offset : Z;
  r_length : Z;
  r_priority : Z
}.

(** [homa_rx_t], the metadata a received packet carries to the library. *)
Record homa_rx_t := mk_homa_rx_t {
  hm_qid : Z;
  reap_client_buffer_addr : Z;
  reap_server_buffer_addr : Z
}.

#[export] Instance eta_homa_rx_t : Eta homa_rx_t := fun r => mk_homa_rx_t
  (hm_qid r) (reap_client_buffer_addr r) (reap_server_buffer_addr r).

(** ** Per-RPC state *)

(** [struct rpc_key_t] *)
Record rpc_key_t := mk_rpc_key_t {
  rk_rpcid : Z;
  rk_local_port : Z;
  rk_remote_port : Z;
  rk_remote_ip : Z
}.

#[export] Instance rpc_key_t_eq_dec : EqDecision rpc_key_t.
Proof. solve_decision. Defined.

#[export] Instance rpc_key_t_countable : Countable rpc_key_t.
Proof.
  refine (inj_countable' (fun k => (rk_rpcid k, rk_local_port k, rk_remote_port k, rk_remote_ip k))
            (fun '(a, b, c, d) => mk_rpc_key_t a b c d) _).
  by intros [].
Defined.

(** [struct homa_cc] *)
Record homa_cc := mk_homa_cc {
  hc_bytes_remaining : Z;
  hc_last_bytes_remaining : Z;
  hc_incoming : Z;
  hc_granted : Z;
  hc_sched_prio : Z
}.

#[export] Instance eta_homa_cc : Eta homa_cc := fun r => mk_homa_cc
  (hc_bytes_remaining r) (hc_last_bytes_remaining r) (hc_incoming r) (hc_granted r)
  (hc_sched_prio r).

(** [struct rpc_state]; [rs_bitmap] is the twelve words [bitmap_0] to
    [bitmap_11] and [rs_cc_node] the kptr, the name of an object. *)
Record rpc_state := mk_rpc_state {
  rs_state : Z;
  rs_busy_count : Z;
  rs_remote_port : Z;
  rs_local_port : Z;
  rs_remote_ip : Z;
  rs_id : Z;
  rs_bit_width : Z;
  rs_bitmap_round : Z;
  rs_message_length : Z;
  rs_nr_pkts_in_rl : Z;
  rs_qid : Z;
  rs_next_xmit_offset : Z;
  rs_cc : homa_cc;
  rs_buffer_head : Z;
  rs_bitmap : list Z;
  rs_resend_count : Z;
  rs_cc_node : option nat
}.

#[export] Instance eta_rpc_state : Eta rpc_state := fun r => mk_rpc_state
  (rs_state r) (rs_busy_count r) (rs_remote_port r) (rs_local_port r) (rs_remote_ip r) (rs_id r)
  (rs_bit_width r) (rs_bitmap_round r) (rs_message_length r) (rs_nr_pkts_in_rl r) (rs_qid r)
  (rs_next_xmit_offset r) (rs_cc r) (rs_buffer_head r) (rs_bitmap r) (rs_resend_count r)
  (rs_cc_node r).

(** [struct rpc_state x = {0}] *)
Definition zero_rpc_state : rpc_state :=
  mk_rpc_state 0 0 0 0 0 0 0 0 0 0 0 0 (mk_homa_cc 0 0 0 0 0) 0 (replicate 12 0) 0 None.

(** ** Identifiers and priorities *)
Definition local_id (recv_rpcid : Z) : Z := Z.lxor recv_rpcid 1.
Definition rpc_is_client (id : Z) : bool := Z.land id 1 =? 0.

(** [get_peerid]; the parameter has type [__u16]. *)
Definition get_peerid (remote_ip : Z) : Z := Z.land (u16 remote_ip) (MAX_PEER - 1).

(** [workload_cutoff]; [None] is a read past the table. *)
Definition workload_cutoff : list (list Z) :=
  [[1000000; 12288; 2112; 1280; 832; 576; 384; 192];
   [1000000; 1000000; 1000000; 7168; 1920; 640; 448; 320];
   [1000000; 1000000; 1000000; 1000000; 1000000; 63488; 12288; 3008];
   [1000000; 1000000; 1000000; 1000000; 1000000; 1000000; 1000000; 68608];
   [1000000; 1000000; 1000000; 1000000; 1000000; 1000000; 1000000; 1000000]].
Definition workload_type : Z := 5.

(** The loop of [get_prio], whose condition [i >= 0] always holds for the
    unsigned [i]: [None] once each value of [i] was tried. *)
Fixpoint get_prio_loop (fuel : nat) (i idx message_length : Z) : option Z :=
  match fuel with
  | O => None
  | S fuel =>
    let idx := Z.land idx (HOMA_MAX_PRIORITY - 1) in
    let w := Z.land (u8 (workload_type - 1)) (HOMA_MAX_PRIORITY - 1) in
    match workload_cutoff !! Z.to_nat w ≫= (!!) (Z.to_nat idx) with
    | None => None
    | Some c => if c >=? message_length then Some i
                else get_prio_loop fuel (u8 (i - 1)) idx message_length
    end
  end.

Definition get_prio (message_length : Z) : option Z :=
  get_prio_loop 256 (HOMA_MAX_PRIORITY - 1) 0 message_length.

Definition set_prio (iph : iphdr) (prio : Z) : iphdr := iph <| ip_tos := u8 (Z.shiftl prio 5) |>.

(** ** The reception bitmap *)
Definition bitmap_word (s : rpc_state) (round : Z) : Z := nth (Z.to_nat round) (rs_bitmap s) 0.

Definition and_bitmap (s : rpc_state) (round seq : Z) : bool :=
  nz (Z.land (bitmap_word s round) (Z.shiftl 1 (Z.land seq 63))).

Definition or_bitmap (s : rpc_state) (round seq : Z) : rpc_state :=
  s <| rs_bitmap ::= <[Z.to_nat round := Z.lor (bitmap_word s round) (Z.shiftl 1 (Z.land seq 63))]> |>.

Definition inc_round (s : rpc_state) (round last_round : Z) : rpc_state :=
  let next := s <| rs_bitmap_round := u16 (rs_bitmap_round s + 1) |> in
  if (round <? last_round) || (Z.land (rs_bit_width s) 63 =? 0) then
    if bitmap_word s round =? UINT64_MAX then next else s
  else if round =? last_round then
    if bitmap_word s round =? u64 (Z.shiftl 1 (Z.land (rs_bit_width s) 63) - 1) then next else s
  else s.

Definition clear_all_bitmaps (s : rpc_state) : rpc_state :=
  s <| rs_bitmap := replicate 12 0 |> <| rs_bitmap_round := 0 |>.

(** [set_bitmap]: the value returned and the state; the word of each of the
    twelve rounds is treated alike. *)
Definition set_bitmap (s : rpc_state) (seq : Z) : Z * rpc_state :=
  let tmp := if rs_bit_width s >? 0 then rs_bit_width s - 1 else rs_bit_width s in
  let last_round := u8 (tmp / 64) in
  let round := u8 (seq / 64) in
  if round >? 11 then (-1, s) else
  if and_bitmap s round seq then (-1, s) else
  let s := inc_round (or_bitmap s round seq) round last_round in
  (b2z (rs_bitmap_round s =? tmp / 64 + 1), s).

(** ** What the bitmap records *)

(** The packet [q] was received. *)
Definition rcvd (s : rpc_state) (q : Z) : bool := Z.testbit (bitmap_word s (q / 64)) (q mod 64).

(** The last word in use and the value of word [r] when all its packets were
    received. *)
Definition last_word (s : rpc_state) : Z := (rs_bit_width s - 1) / 64.
Definition word_bits (s : rpc_state) (r : Z) : Z := Z.min 64 (rs_bit_width s - 64 * r).
Definition word_full (s : rpc_state) (r : nat) : bool :=
  bitmap_word s (Z.of_nat r) =? Z.ones (word_bits s (Z.of_nat r)).

(** How many of the first [n] numbers satisfy [f]. *)
Fixpoint count (f : nat -> bool) (n : nat) : nat :=
  match n with
  | O => O
  | S n => (if f n then 1 else 0) + count f n
  end.

(** The bitmap of a message of [rs_bit_width] packets. *)
Record bitmap_ok (s : rpc_state) : Prop := {
  bo_length : length (rs_bitmap s) = 12%nat;
  bo_width : 1 <= rs_bit_width s <= 768;
  bo_words : forall r, in64 (bitmap_word s r);
  bo_above : forall q, rs_bit_width s <= q -> rcvd s q = false;
  bo_round : rs_bitmap_round s = Z.of_nat (count (word_full s) (Z.to_nat (last_word s + 1)))
}.

(** [t] has the fields of [s], the bitmap apart. *)
Definition same_but_bitmap (s t : rpc_state) : Prop :=
  t = s <| rs_bitmap := rs_bitmap t |> <| rs_bitmap_round := rs_bitmap_round t |>.

(** All packets of the message were received. *)
Definition all_rcvd (s : rpc_state) : Prop := forall q, 0 <= q < rs_bit_width s -> rcvd s q = true.

(** *** Byte order *)
Lemma bpf_be64_roundtrip x : in64 x -> bpf_be64_to_cpu (bpf_cpu_to_be64 x) = x.
Proof.
  intros Hx. unfold bpf_be64_to_cpu, bpf_cpu_to_be64.
  pose proof (bpf_htonl_range (x mod 4294967296)) as H1.
  pose proof (bpf_htonl_range (x / 4294967296)) as H2.
  pose proof (bpf_ntohl_htonl (x mod 4294967296) ltac:(mach_lia)) as E1.
  pose proof (bpf_ntohl_htonl (x / 4294967296) ltac:(mach_lia)) as E2.
  unfold bpf_ntohl in *.
  set (a := bpf_htonl (x mod 4294967296)) in *. set (b := bpf_htonl (x / 4294967296)) in *.
  replace ((a * 4294967296 + b) mod 4294967296) with b by mach_lia.
  replace ((a * 4294967296 + b) / 4294967296) with a by mach_lia.
  rewrite E1, E2. mach_lia.
Qed.

(** *** Counting *)
Lemma count_ext f g n : (forall i, (i < n)%nat -> f i = g i) -> count f n = count g n.
Proof.
  induction n as [|n IH]; [done|]. intros H. cbn.
  rewrite H by lia. rewrite IH; [done|]. intros; apply H; lia.
Qed.

Lemma count_all f n : count f n = n <-> forall i, (i < n)%nat -> f i = true.
Proof.
  assert (Hle : forall n, (count f n <= n)%nat) by (induction n0; cbn; [lia | split_if; lia]).
  induction n as [|n IH]; cbn; [split; [intros; lia | done]|].
  specialize (Hle n). destruct (f n) eqn:E.
  - split.
    + intros H i Hi. destruct (decide (i = n)) as [->|]; [done|]. apply IH; lia.
    + intros H. rewrite (proj2 IH); [lia|]. intros; apply H; lia.
  - split; [lia|]. intros H. rewrite H in E by lia. done.
Qed.

Lemma count_set f g k n : (k < n)%nat -> f k = false -> (forall i, i <> k -> g i = f i) ->
  count g n = (count f n + (if g k then 1 else 0))%nat.
Proof.
  intros Hk Hf Hg. induction n as [|n IH]; [lia|]. cbn.
  destruct (decide (k = n)) as [->|Hne].
  - rewrite Hf. rewrite (count_ext g f n); [split_if; lia|]. intros; apply Hg; lia.
  - rewrite IH by lia. rewrite (Hg n) by lia. split_if; lia.
Qed.

(** *** Words *)
Lemma ones_bits k j : 0 <= k -> 0 <= j -> Z.testbit (Z.ones k) j = (j <? k).
Proof.
  intros Hk Hj. rewrite Z.testbit_ones_nonneg by lia. done.
Qed.

Lemma word_eq_ones w k : 0 <= k -> 0 <= w -> (forall j, k <= j -> Z.testbit w j = false) ->
  w = Z.ones k <-> forall j, 0 <= j < k -> Z.testbit w j = true.
Proof.
  intros Hk Hw Ha. split.
  - intros -> j Hj. rewrite ones_bits by lia. lia.
  - intros H. apply Z.bits_inj'. intros j Hj. rewrite ones_bits by lia.
    destruct (Z.ltb_spec j k); [apply H; lia | apply Ha; lia].
Qed.

Lemma in64_above w j : in64 w -> 64 <= j -> Z.testbit w j = false.
Proof.
  intros [H0 Hw] Hj. destruct (decide (w = 0)) as [->|]; [apply Z.bits_0|].
  apply Z.bits_above_log2; [lia|].
  apply Z.lt_le_trans with 64; [|lia]. apply Z.log2_lt_pow2; [lia|]. exact Hw.
Qed.

Lemma in64_lor_bit w j : in64 w -> 0 <= j < 64 -> in64 (Z.lor w (Z.shiftl 1 j)).
Proof.
  intros Hw Hj. split; [apply Z.lor_nonneg; split; [destruct Hw; lia | apply Z.shiftl_nonneg; lia]|].
  destruct (decide (Z.lor w (Z.shiftl 1 j) = 0)) as [->|Hn]; [lia|].
  assert (0 <= Z.lor w (Z.shiftl 1 j))
    by (apply Z.lor_nonneg; split; [destruct Hw; lia | apply Z.shiftl_nonneg; lia]).
  change 18446744073709551616 with (2 ^ 64). apply Z.log2_lt_pow2; [lia|].
  destruct (Z.lt_ge_cases (Z.log2 (Z.lor w (Z.shiftl 1 j))) 64) as [|Hge]; [done|exfalso].
  pose proof (Z.bit_log2 (Z.lor w (Z.shiftl 1 j)) ltac:(lia)) as Hb.
  rewrite Z.lor_spec, in64_above, Z.shiftl_spec in Hb by (done || lia). cbn in Hb.
  change 1 with (2 ^ 0) in Hb at 1. rewrite Z.pow2_bits_false in Hb by lia. done.
Qed.

Lemma shiftl1_bit k j : 0 <= k -> Z.testbit (Z.shiftl 1 k) j = (j =? k).
Proof. intros. rewrite Z.shiftl_1_l, Z.pow2_bits_eqb by lia. apply Z.eqb_sym. Qed.

Lemma and_bit w k : 0 <= k -> nz (Z.land w (Z.shiftl 1 k)) = Z.testbit w k.
Proof.
  intros Hk. destruct (Z.testbit w k) eqn:E.
  - apply nz_true. intros H0.
    assert (Z.testbit (Z.land w (Z.shiftl 1 k)) k = true).
    { rewrite Z.land_spec, E, shiftl1_bit, Z.eqb_refl by lia. done. }
    rewrite H0, Z.bits_0 in *. done.
  - apply nz_false. apply Z.bits_inj'. intros j Hj.
    rewrite Z.land_spec, Z.bits_0, shiftl1_bit by lia.
    destruct (Z.eqb_spec j k) as [->|]; [by rewrite E | apply andb_false_r].
Qed.

Lemma land63 x : 0 <= x -> Z.land x 63 = x mod 64.
Proof. intros. change 63 with (Z.ones 6). rewrite Z.land_ones by lia. done. Qed.

(** *** Setting a bit *)
Lemma bitmap_word_or s r seq r' : length (rs_bitmap s) = 12%nat -> 0 <= r < 12 -> 0 <= r' ->
  bitmap_word (or_bitmap s r seq) r' =
  if r' =? r then Z.lor (bitmap_word s r) (Z.shiftl 1 (Z.land seq 63)) else bitmap_word s r'.
Proof.
  intros Hl Hr Hr'. unfold or_bitmap, bitmap_word. cbn.
  rewrite !nth_lookup. destruct (Z.eqb_spec r' r) as [->|Hne].
  - rewrite list_lookup_insert_eq by lia. done.
  - rewrite list_lookup_insert_ne by lia. done.
Qed.

Lemma rcvd_or s seq q : length (rs_bitmap s) = 12%nat -> 0 <= seq < 768 -> 0 <= q ->
  rcvd (or_bitmap s (seq / 64) seq) q = rcvd s q || (q =? seq).
Proof.
  intros Hl Hs Hq. unfold rcvd. rewrite bitmap_word_or by lia.
  destruct (Z.eqb_spec (q / 64) (seq / 64)) as [He|He].
  - rewrite He, Z.lor_spec, land63, shiftl1_bit by lia. f_equal.
    destruct (Z.eqb_spec q seq) as [->|]; [apply Z.eqb_refl | apply Z.eqb_neq; lia].
  - replace (q =? seq) with false by (symmetry; apply Z.eqb_neq; congruence).
    by rewrite orb_false_r.
Qed.

Lemma inc_round_word s r last r' : bitmap_word (inc_round s r last) r' = bitmap_word s r'.
Proof. unfold inc_round. repeat split_if; done. Qed.

Lemma inc_round_same s r last : same_but_bitmap s (inc_round s r last).
Proof. unfold inc_round, same_but_bitmap. destruct s; repeat split_if; done. Qed.

Lemma or_bitmap_same s r seq : same_but_bitmap s (or_bitmap s r seq).
Proof. unfold or_bitmap, same_but_bitmap. by destruct s. Qed.

Lemma same_but_bitmap_trans s t u : same_but_bitmap s t -> same_but_bitmap t u -> same_but_bitmap s u.
Proof. unfold same_but_bitmap. intros -> ->. by destruct s. Qed.

Lemma same_bit_width s t : same_but_bitmap s t -> rs_bit_width t = rs_bit_width s.
Proof. intros ->. by destruct s. Qed.

(** The masks of the macro are the full words. *)
Lemma inc_round_full s r : 1 <= rs_bit_width s <= 768 -> 0 <= r <= last_word s ->
  rs_bitmap_round (inc_round s r (last_word s)) =
  if word_full s (Z.to_nat r) then u16 (rs_bitmap_round s + 1) else rs_bitmap_round s.
Proof.
  unfold last_word. intros Hw Hr. unfold inc_round, word_full, word_bits.
  rewrite land63, Z2Nat.id by lia.
  destruct (Z.ltb_spec r ((rs_bit_width s - 1) / 64)); [|destruct (Z.eqb_spec (rs_bit_width s mod 64) 0)]; cbn [orb].
  - rewrite Z.min_l by lia. change (Z.ones 64) with UINT64_MAX. by split_if.
  - rewrite Z.min_l by lia. change (Z.ones 64) with UINT64_MAX. by split_if.
  - replace (r =? (rs_bit_width s - 1) / 64) with true by (symmetry; apply Z.eqb_eq; lia).
    replace (Z.min 64 (rs_bit_width s - 64 * r)) with (rs_bit_width s mod 64) by lia.
    rewrite Z.ones_equiv, Z.shiftl_1_l, <- Z.sub_1_r, u64_small; [by split_if|].
    pose proof (Z.pow_pos_nonneg 2 (rs_bit_width s mod 64)).
    pose proof (Z.pow_le_mono_r 2 (rs_bit_width s mod 64) 63 ltac:(lia) ltac:(lia)).
    change (2 ^ 63) with 9223372036854775808 in *. mach_lia.
Qed.

(** A word is full when its packets were received. *)
Lemma word_full_rcvd s r : bitmap_ok s -> (Z.of_nat r <= last_word s) ->
  word_full s r = true <->
  forall q, 64 * Z.of_nat r <= q < Z.min (64 * Z.of_nat r + 64) (rs_bit_width s) -> rcvd s q = true.
Proof.
  intros Hok Hr. unfold word_full, last_word, word_bits in *. rewrite Z.eqb_eq.
  destruct (bo_width _ Hok).
  rewrite word_eq_ones; [|lia|apply (bo_words _ Hok)|].
  - split.
    + intros H1 q Hq. unfold rcvd. replace (q / 64) with (Z.of_nat r) by lia. apply H1. lia.
    + intros H1 j Hj. specialize (H1 (64 * Z.of_nat r + j) ltac:(lia)). unfold rcvd in H1.
      replace ((64 * Z.of_nat r + j) / 64) with (Z.of_nat r) in H1 by lia.
      replace ((64 * Z.of_nat r + j) mod 64) with j in H1 by lia. done.
  - intros j Hj. destruct (Z.lt_ge_cases j 64) as [Hlt|]; [|by apply in64_above; [apply (bo_words _ Hok)|]].
    pose proof (bo_above _ Hok (64 * Z.of_nat r + j) ltac:(lia)) as Ha. unfold rcvd in Ha.
    replace ((64 * Z.of_nat r + j) / 64) with (Z.of_nat r) in Ha by lia.
    replace ((64 * Z.of_nat r + j) mod 64) with j in Ha by lia. done.
Qed.

Lemma all_words_full s : bitmap_ok s ->
  (forall r, (r < Z.to_nat (last_word s + 1))%nat -> word_full s r = true) <-> all_rcvd s.
Proof.
  intros Hok. pose proof (bo_width _ Hok) as Hw. split.
  - intros H q Hq.
    assert (Hr : Z.of_nat (Z.to_nat (q / 64)) <= last_word s) by (unfold last_word; lia).
    refine (proj1 (word_full_rcvd s (Z.to_nat (q / 64)) Hok Hr) _ q _); [|lia].
    apply H. unfold last_word. lia.
  - intros H r Hr. unfold last_word in *.
    apply word_full_rcvd; [done|unfold last_word; lia|]. intros q Hq. apply H. lia.
Qed.

Lemma round_complete s : bitmap_ok s ->
  (rs_bitmap_round s =? (rs_bit_width s - 1) / 64 + 1) = true <-> all_rcvd s.
Proof.
  intros Hok. rewrite Z.eqb_eq, <- all_words_full, <- count_all by done.
  rewrite (bo_round _ Hok). pose proof (bo_width _ Hok). unfold last_word. lia.
Qed.

(** The state after a bit that was not set is set. *)
Lemma bitmap_ok_or s seq : bitmap_ok s -> 0 <= seq < rs_bit_width s -> rcvd s seq = false ->
  let s' := inc_round (or_bitmap s (seq / 64) seq) (seq / 64) (last_word s) in
  bitmap_ok s' /\ forall q, 0 <= q -> rcvd s' q = rcvd s q || (q =? seq).
Proof.
  intros Hok Hs Hn s'. destruct (bo_width _ Hok) as [Hw1 Hw2].
  pose proof (bo_length _ Hok) as Hlen.
  assert (Hsame : same_but_bitmap s s')
    by (eapply same_but_bitmap_trans; [apply or_bitmap_same | apply inc_round_same]).
  assert (Hbw : rs_bit_width s' = rs_bit_width s) by (by apply same_bit_width).
  assert (Hrc : forall q, 0 <= q -> rcvd s' q = rcvd s q || (q =? seq)).
  { intros q Hq. unfold rcvd at 1. unfold s'. rewrite inc_round_word. apply rcvd_or; lia. }
  split; [|done]. split.
  - unfold s', inc_round. repeat split_if; cbn; by rewrite length_insert.
  - by rewrite Hbw.
  - intros r. unfold s'. rewrite inc_round_word.
    destruct (Z.lt_ge_cases r 0) as [Hneg|Hpos].
    + unfold bitmap_word. replace (Z.to_nat r) with (Z.to_nat 0) by lia.
      fold (bitmap_word (or_bitmap s (seq / 64) seq) 0). rewrite bitmap_word_or by lia.
      split_if; [apply in64_lor_bit; [|rewrite land63; lia]|]; apply (bo_words _ Hok).
    + rewrite bitmap_word_or by lia.
      split_if; [apply in64_lor_bit; [|rewrite land63; lia]|]; apply (bo_words _ Hok).
  - rewrite Hbw. intros q Hq. rewrite Hrc, (bo_above _ Hok) by lia. apply Z.eqb_neq. lia.
  - assert (Hr : (Z.to_nat (seq / 64) < Z.to_nat (last_word s + 1))%nat) by (unfold last_word; lia).
    assert (Hnf : word_full s (Z.to_nat (seq / 64)) = false).
    { apply not_true_iff_false. intros Hf.
      rewrite word_full_rcvd in Hf by (done || (unfold last_word; lia)).
      rewrite (Hf seq ltac:(lia)) in Hn. done. }
    assert (Hwf : forall i, word_full s' i = word_full (or_bitmap s (seq / 64) seq) i).
    { intros i. unfold word_full, word_bits, s'. rewrite inc_round_word.
      by rewrite (same_bit_width _ _ (inc_round_same _ _ _)). }
    replace (last_word s') with (last_word s) by (unfold last_word; by rewrite Hbw).
    rewrite (count_ext _ _ _ (fun i _ => Hwf i)).
    rewrite (count_set (word_full s) _ (Z.to_nat (seq / 64))); [|done|done|].
    + unfold s'. change (last_word s) with (last_word (or_bitmap s (seq / 64) seq)) at 1.
      rewrite inc_round_full; [|done|unfold last_word; cbn; lia].
      change (rs_bitmap_round (or_bitmap s (seq / 64) seq)) with (rs_bitmap_round s).
      rewrite (bo_round _ Hok). unfold last_word.
      assert (Hle : forall f n, (count f n <= n)%nat)
        by (intros f n; induction n; cbn; [lia | split_if; lia]).
      specialize (Hle (word_full s) (Z.to_nat ((rs_bit_width s - 1) / 64 + 1))).
      split_if; [rewrite u16_small by mach_lia|]; lia.
    + intros i Hi. unfold word_full, word_bits. rewrite bitmap_word_or by lia.
      replace (Z.of_nat i =? seq / 64) with false by (symmetry; apply Z.eqb_neq; lia). done.
Qed.

Lemma set_bitmap_unfold s seq : bitmap_ok s -> 0 <= seq < rs_bit_width s ->
  set_bitmap s seq =
  if rcvd s seq then (-1, s) else
  let s := inc_round (or_bitmap s (seq / 64) seq) (seq / 64) (last_word s) in
  (b2z (rs_bitmap_round s =? (rs_bit_width s - 1) / 64 + 1), s).
Proof.
  intros Hok Hs. destruct (bo_width _ Hok) as [Hw1 Hw2]. unfold set_bitmap.
  replace (rs_bit_width s >? 0) with true by (symmetry; apply Z.gtb_lt; lia).
  replace (u8 (seq / 64)) with (seq / 64) by mach_lia.
  replace (seq / 64 >? 11) with false by (symmetry; rewrite Z.gtb_ltb; apply Z.ltb_ge; lia).
  unfold and_bitmap. rewrite and_bit by (rewrite land63; lia). rewrite land63 by lia.
  unfold rcvd. split_if; [done|]. cbn zeta. f_equal.
  - unfold last_word. replace (u8 ((rs_bit_width s - 1) / 64)) with ((rs_bit_width s - 1) / 64) by mach_lia.
    rewrite (same_bit_width s (inc_round (or_bitmap s (seq / 64) seq) (seq / 64) ((rs_bit_width s - 1) / 64))); [done|].
    eapply same_but_bitmap_trans; [apply or_bitmap_same | apply inc_round_same].
  - unfold last_word. by replace (u8 ((rs_bit_width s - 1) / 64)) with ((rs_bit_width s - 1) / 64) by mach_lia.
Qed.

(** [set_bitmap] on a packet of the message: refused when it was received
    before, recorded otherwise, and 1 when it was the last one missing. *)
Lemma set_bitmap_spec s seq : bitmap_ok s -> 0 <= seq < rs_bit_width s ->
  let '(r, s') := set_bitmap s seq in
  if rcvd s seq then r = -1 /\ s' = s
  else bitmap_ok s' /\ same_but_bitmap s s' /\
       (forall q, 0 <= q -> rcvd s' q = rcvd s q || (q =? seq)) /\
       (r = 1 /\ all_rcvd s' \/ r = 0 /\ ~ all_rcvd s').
Proof.
  intros Hok Hs. rewrite set_bitmap_unfold by done. cbn zeta. destruct (rcvd s seq) eqn:E; [done|].
  destruct (bitmap_ok_or s seq Hok Hs E) as [Hok' Hrc].
  split_and!; [done| |done|].
  { eapply same_but_bitmap_trans; [apply or_bitmap_same | apply inc_round_same]. }
  pose proof (round_complete _ Hok') as Hc. destruct (_ =? _).
  - left. split; [done|]. by apply Hc.
  - right. split; [done|]. rewrite <- Hc. done.
Qed.

(** The state of a message of which nothing was received. *)
Lemma bitmap_ok_clear s : 1 <= rs_bit_width s <= 768 -> bitmap_ok (clear_all_bitmaps s).
Proof.
  intros Hw.
  assert (Hz : forall r, bitmap_word (clear_all_bitmaps s) r = 0).
  { intros r. unfold bitmap_word. cbn -[replicate]. rewrite nth_lookup.
    destruct (replicate 12 0 !! Z.to_nat r) as [x|] eqn:E; [|done].
    by apply lookup_replicate in E as [-> _]. }
  split.
  - done.
  - done.
  - intros r. rewrite Hz. mach_lia.
  - intros q _. unfold rcvd. by rewrite Hz, Z.bits_0.
  - assert (Hf : forall n, (n <= Z.to_nat (last_word (clear_all_bitmaps s) + 1))%nat ->
      count (word_full (clear_all_bitmaps s)) n = O).
    { unfold last_word. cbn [clear_all_bitmaps rs_bit_width upd_field setter_of].
      induction n as [|n IH]; [done|]. intros Hn. cbn [count]. rewrite IH by lia.
      unfold word_full, word_bits. rewrite Hz. cbn [clear_all_bitmaps rs_bit_width upd_field setter_of].
      rewrite (proj2 (Z.eqb_neq _ _)); [done|].
      rewrite Z.ones_equiv. pose proof (Z.pow_gt_1 2 (Z.min 64 (rs_bit_width s - 64 * Z.of_nat n))). lia. }
    by rewrite Hf by lia.
Qed.

Lemma rcvd_clear s q : rcvd (clear_all_bitmaps s) q = false.
Proof.
  unfold rcvd, bitmap_word. cbn -[replicate]. rewrite nth_lookup.
  destruct (replicate 12 0 !! _) as [x|] eqn:E; [|apply Z.bits_0].
  apply lookup_replicate in E as [-> _]. apply Z.bits_0.
Qed.

(** [set_bitmap] changes the bitmap only. *)
Lemma set_bitmap_fields s seq : same_but_bitmap s (snd (set_bitmap s seq)).
Proof.
  assert (Hr : same_but_bitmap s s) by (unfold same_but_bitmap; by destruct s).
  unfold set_bitmap. repeat (split_if; [done|]). cbn zeta. cbn [snd].
  repeat split_if; first [done | eapply same_but_bitmap_trans; [apply or_bitmap_same | apply inc_round_same]].
Qed.
