(* ===== verification/HomaRpc.v ===== *)
(** The RPC table of the Homa fast path ([eBPF/homa/rpc.h] and the maps of
    [homa.h]): acknowledgement queues, pacing queue numbers, the grant list and
    the handlers of transmitted and received packets.

    Objects allocated with [bpf_obj_new] have names; [h_heap] holds their
    contents and the two trees are lists of names in tree order.  Dropping a
    reference only releases memory, which the model does not bound; [h_mem]
    answers the allocations.  [bpf_rbtree_lower_bound] and
    [bpf_rbtree_search_less] are functions of a patched kernel whose code and
    documentation are not part of the sources: they are parameters.  [None] is
    a handler that does not return. *)
From stdpp Require Import gmap.
From S2P Require Import Prelude Intf Headers HomaDefs.
Local Open Scope Z_scope.

(** [struct rpc_state_cc] *)
Record rpc_state_cc := mk_rpc_state_cc {
  n_bytes_remaining : Z;
  n_tree_id : Z;
  n_peer_id : Z;
  n_incoming : Z;
  n_hkey : rpc_key_t;
  n_birth : Z;
  n_message_length : Z
}.

#[export] Instance eta_rpc_state_cc : Eta rpc_state_cc := fun r => mk_rpc_state_cc
  (n_bytes_remaining r) (n_tree_id r) (n_peer_id r) (n_incoming r) (n_hkey r) (n_birth r)
  (n_message_length r).

(** [struct dead_client_rpc_info] *)
Record dead_client_rpc_info := mk_dead_client_rpc_info {
  dc_remote_ip : Z;
  dc_remote_port : Z;
  dc_local_port : Z;
  dc_rpcid : Z
}.

(** The maps and global variables of the programs. *)
Record homa := mk_homa {
  h_rpc_tbl : gmap rpc_key_t rpc_state;
  h_peer_tbl : gmap Z (list dead_client_rpc_info);
  h_avail_pacing_idx : list Z;
  h_total_incoming : Z;
  h_link_idle_time : Z;
  h_nr_rpc_in_throttle : Z;
  h_heap : gmap nat rpc_state_cc;
  h_next : nat;
  h_mem : list bool;
  h_troot : list nat;
  h_groot : list nat;
  h_cache_rpc : gmap Z rpc_key_t;
  h_update_delay_packets : gmap Z Z;
  h_pacer_ready : bool;
  h_next_pacer_round : Z;
  h_pacer_starts : Z
}.

#[export] Instance eta_homa : Eta homa := fun r => mk_homa
  (h_rpc_tbl r) (h_peer_tbl r) (h_avail_pacing_idx r) (h_total_incoming r) (h_link_idle_time r)
  (h_nr_rpc_in_throttle r) (h_heap r) (h_next r) (h_mem r) (h_troot r) (h_groot r) (h_cache_rpc r)
  (h_update_delay_packets r) (h_pacer_ready r) (h_next_pacer_round r) (h_pacer_starts r).

Definition upd_rpc (k : rpc_key_t) (f : rpc_state -> rpc_state) (w : homa) : homa :=
  w <| h_rpc_tbl ::= alter f k |>.

(** ** Objects and trees *)
Definition zero_key : rpc_key_t := mk_rpc_key_t 0 0 0 0.
Definition zero_node : rpc_state_cc := mk_rpc_state_cc 0 0 0 0 zero_key 0 0.

Definition node (w : homa) (n : nat) : rpc_state_cc := default zero_node (h_heap w !! n).
Definition set_node (n : nat) (c : rpc_state_cc) (w : homa) : homa := w <| h_heap ::= <[n := c]> |>.

(** [bpf_obj_new] *)
Definition bpf_obj_new (w : homa) : option nat * homa :=
  match h_mem w with
  | false :: m => (None, w <| h_mem := m |>)
  | m => (Some (h_next w), set_node (h_next w) zero_node (w <| h_next ::= S |> <| h_mem := tail m |>))
  end.

(** [bpf_rbtree_add] and [bpf_rbtree_remove], as their comments say. *)
Fixpoint tree_insert (less : rpc_state_cc -> rpc_state_cc -> bool) (at_ : nat -> rpc_state_cc)
  (n : nat) (t : list nat) : list nat :=
  match t with
  | [] => [n]
  | x :: t => if less (at_ n) (at_ x) then n :: x :: t else x :: tree_insert less at_ n t
  end.

Definition bpf_rbtree_add (less : rpc_state_cc -> rpc_state_cc -> bool) (w : homa) (n : nat)
  (t : list nat) : option (list nat) :=
  if decide (n ∈ h_troot w ++ h_groot w) then None else Some (tree_insert less (node w) n t).

Definition bpf_rbtree_remove (n : nat) (t : list nat) : option (list nat) :=
  if decide (n ∈ t) then Some (filter (.≠ n) t) else None.

(** *** Comparison functions *)

(** The bytes of a key in memory, and [__builtin_memcmp] on them. *)
Definition le_bytes (k : nat) (x : Z) : list Z :=
  map (fun i => (x / 2 ^ (8 * Z.of_nat i)) mod 256) (seq 0 k).

Definition key_bytes (k : rpc_key_t) : list Z :=
  le_bytes 8 (rk_rpcid k) ++ le_bytes 2 (rk_local_port k) ++ le_bytes 2 (rk_remote_port k)
  ++ le_bytes 4 (rk_remote_ip k).

Fixpoint memcmp (a b : list Z) : Z :=
  match a, b with
  | x :: a, y :: b => if x =? y then memcmp a b else x - y
  | _, _ => 0
  end.

Definition srpt_less_rpc (a b : rpc_state_cc) : bool :=
  if negb (n_tree_id a =? n_tree_id b) then n_tree_id a <? n_tree_id b else
  if negb (n_peer_id a =? n_peer_id b) then n_peer_id a <? n_peer_id b else
  if negb (n_bytes_remaining a =? n_bytes_remaining b)
  then n_bytes_remaining a <? n_bytes_remaining b else
  memcmp (key_bytes (n_hkey a)) (key_bytes (n_hkey b)) <=? 0.

Definition srpt_less_peer (a b : rpc_state_cc) : bool :=
  if negb (n_tree_id a =? n_tree_id b) then n_tree_id a <? n_tree_id b else
  if negb (n_bytes_remaining a =? n_bytes_remaining b)
  then n_bytes_remaining a <? n_bytes_remaining b else
  if negb (n_peer_id a =? n_peer_id b) then n_peer_id a <? n_peer_id b else true.

Definition srpt_less_pacer (a b : rpc_state_cc) : bool :=
  if negb (n_bytes_remaining a =? n_bytes_remaining b)
  then n_bytes_remaining a <? n_bytes_remaining b else
  if negb (rk_rpcid (n_hkey a) =? rk_rpcid (n_hkey b))
  then rk_rpcid (n_hkey a) <? rk_rpcid (n_hkey b) else
  if negb (rk_local_port (n_hkey a) =? rk_local_port (n_hkey b))
  then rk_local_port (n_hkey a) <? rk_local_port (n_hkey b) else true.

Definition less_birth_pacer (a b : rpc_state_cc) : bool := n_birth a <? n_birth b.

Definition less_birth_grant (a b : rpc_state_cc) : bool :=
  if n_tree_id b =? 1 then true else
  if nz (Z.land (n_birth b) 1) then true else n_birth a <? n_birth b.

(** ** Pacing queue numbers *)

(** [allocate_qid] and [free_qid] on the queue map [avail_pacing_idx]. *)
Definition allocate_qid (w : homa) : Z * homa :=
  match h_avail_pacing_idx w with
  | [] => (MAX_BUCKET_SIZE, w)
  | q :: l => (q, w <| h_avail_pacing_idx := l |>)
  end.

Definition free_qid (qid : Z) (w : homa) : homa :=
  if Z.of_nat (length (h_avail_pacing_idx w)) <? MAX_BUCKET_SIZE
  then w <| h_avail_pacing_idx ::= fun l => l ++ [qid] |> else w.

(** ** Acknowledgement queues *)

(** [enqueue_dead_crpc]; with [BPF_EXIST] the oldest element of a full queue
    makes room. *)
Definition enqueue_dead_crpc (remote_ip remote_port local_port rpcid : Z) (w : homa) : homa :=
  let dead_client := mk_dead_client_rpc_info remote_ip remote_port local_port rpcid in
  let peer_id := get_peerid remote_ip in
  match h_peer_tbl w !! peer_id with
  | None => w
  | Some ack_tbl =>
    let ack_tbl := if Z.of_nat (length ack_tbl) <? QUEUE_SIZE then ack_tbl else tail ack_tbl in
    w <| h_peer_tbl ::= <[peer_id := ack_tbl ++ [dead_client]]> |>
  end.

(** [dequeue_dead_crpc]; [None] is -1. *)
Definition dequeue_dead_crpc (remote_ip : Z) (w : homa) : option dead_client_rpc_info * homa :=
  let peer_id := get_peerid remote_ip in
  match h_peer_tbl w !! peer_id with
  | Some (d :: ack_tbl) => (Some d, w <| h_peer_tbl ::= <[peer_id := ack_tbl]> |>)
  | _ => (None, w)
  end.

(** ** The NIC queue *)

(** [check_nic_queue]; [now] are the two readings of the clock, and [other] is
    what another CPU writes to [link_idle_time] between the read and the
    compare-and-swap of each of the two rounds. *)
Fixpoint check_nic_queue_loop (try_cnt : nat) (now : nat -> Z) (other : nat -> Z -> Z)
  (ns_per_packet : Z) (w : homa) : bool * homa :=
  match try_cnt with
  | O => (true, w)
  | S try_cnt =>
    let idle := h_link_idle_time w in
    if u64 (now try_cnt + max_nic_queue_ns) <? idle then (false, w)
    else
      let new_idle := if idle <? now try_cnt then u64 (now try_cnt + ns_per_packet)
                      else u64 (idle + ns_per_packet) in
      let w := w <| h_link_idle_time := other try_cnt idle |> in
      if h_link_idle_time w =? idle then (true, w <| h_link_idle_time := new_idle |>)
      else check_nic_queue_loop try_cnt now other ns_per_packet w
  end.

Definition check_nic_queue (now : nat -> Z) (other : nat -> Z -> Z) (packet_bytes : Z) (w : homa)
  : bool * homa :=
  check_nic_queue_loop 2 now other (u64 (u32 (packet_bytes + HDR_OVERHEAD) * ns_per_kbyte) / 1000) w.

(** [kick_pacer]: the first call prepares the timer, each call starts it. *)
Definition kick_pacer (w : homa) : homa :=
  let w := if h_pacer_ready w then w
           else w <| h_pacer_ready := true |> <| h_next_pacer_round := 0 |> in
  w <| h_pacer_starts ::= Z.add 1 |>.

(** The answer of a search in a tree: a position, given the nodes in order. *)
Definition tree_search : Type :=
  (rpc_state_cc -> rpc_state_cc -> bool) -> list rpc_state_cc -> rpc_state_cc -> option nat.

Definition find_node (f : tree_search) (less : rpc_state_cc -> rpc_state_cc -> bool) (w : homa)
  (t : list nat) (key : rpc_state_cc) : option nat :=
  f less (node w <$> t) key ≫= (t !!.).

(** [struct ret_grant_info] and [struct remove_info] *)
Record ret_grant_info := mk_ret_grant_info {
  gi_sport : Z;
  gi_dport : Z;
  gi_rpcid : Z;
  gi_newgrant : Z;
  gi_remote_ip : Z;
  gi_priority : Z
}.

(** ** The grant list *)
Section GrantList.
Variables lower_bound search_less : tree_search.

Definition same_rpc (a b : rpc_key_t) : bool :=
  (rk_rpcid a =? rk_rpcid b) && (rk_local_port a =? rk_local_port b)
  && (rk_remote_port a =? rk_remote_port b) && (rk_remote_ip a =? rk_remote_ip b).

(** The search key for the shortest RPC of a peer. *)
Definition peer_key (peer_id : Z) : rpc_state_cc := mk_rpc_state_cc 0 0 peer_id 0 zero_key 0 0.

(** The node of Tree1 to use for the RPC of [t0], which is the shortest of its
    peer: the one of the RPC that was in Tree1 before, taken out of the tree, or
    [t1]; [None] when a search fails. *)
Definition take_peer_node (t0 t1 : nat) (w : homa) : option nat * homa :=
  let c0 := node w t0 in
  let old_key := mk_rpc_state_cc (n_bytes_remaining c0) 0 (n_peer_id c0) 0
                   (mk_rpc_key_t (rk_rpcid (n_hkey c0)) (rk_local_port (n_hkey c0))
                      (rk_remote_port (n_hkey c0)) (u32 (rk_remote_ip (n_hkey c0) + 1))) 0 0 in
  match find_node lower_bound srpt_less_rpc w (h_groot w) old_key with
  | None => (Some t1, w)
  | Some o =>
    if (n_tree_id (node w o) =? 0) && (n_peer_id (node w o) =? n_peer_id c0) then
      let w := set_node o ((node w o) <| n_birth ::= fun b => Z.land b (UINT64_MAX - 1) |>) w in
      let t1_key := mk_rpc_state_cc (n_bytes_remaining (node w o)) 1 (n_peer_id (node w o)) 0 zero_key 0 0 in
      match find_node lower_bound srpt_less_peer w (h_groot w) t1_key with
      | None => (None, w)
      | Some y =>
        if (n_tree_id (node w y) =? 1) && (n_peer_id (node w y) =? n_peer_id (node w o)) then
          match bpf_rbtree_remove y (h_groot w) with
          | None => (None, w)
          | Some t =>
            (Some y, set_node o ((node w o) <| n_incoming := n_incoming (node w y) |>)
                       (w <| h_groot := t |>))
          end
        else (None, w)
      end
    else (Some t1, w)
  end.

(** [cc_node_t1] becomes a copy of [cc_node_t0] in Tree1. *)
Definition add_to_peer_tree (t0 t1 : nat) (w : homa) : homa :=
  let c0 := (node w t0) <| n_birth ::= fun b => Z.lor b 1 |> in
  let w := set_node t1 (c0 <| n_tree_id := 1 |>) (set_node t0 c0 w) in
  match bpf_rbtree_add srpt_less_peer w t1 (h_groot w) with
  | Some t => w <| h_groot := t |>
  | None => w
  end.

(** The common end of [update_grant_for_cached_rpc] and [insert_grant_list]:
    when [t0] is the shortest RPC of its peer it replaces the peer's RPC in
    Tree1. *)
Definition promote (t0 t1 : nat) (w : homa) : homa :=
  match find_node lower_bound srpt_less_rpc w (h_groot w) (peer_key (n_peer_id (node w t0))) with
  | None => w
  | Some x =>
    if negb (n_tree_id (node w x) =? 0) || negb (n_peer_id (node w x) =? n_peer_id (node w t0))
    then w
    else if same_rpc (n_hkey (node w x)) (n_hkey (node w t0)) then
      let '(t1, w) := take_peer_node t0 t1 w in
      match t1 with Some t1 => add_to_peer_tree t0 t1 w | None => w end
    else w
  end.

(** A node of Tree1 whose RPC is updated keeps its place by the new key. *)
Definition update_peer_node (t0 : nat) (old_br new_br : Z) (w : homa) : homa :=
  let t1_key := mk_rpc_state_cc old_br 1 (n_peer_id (node w t0)) 0 zero_key 0 0 in
  match find_node lower_bound srpt_less_peer w (h_groot w) t1_key with
  | None => w
  | Some y =>
    if (n_tree_id (node w y) =? 1) && (n_peer_id (node w y) =? n_peer_id (node w t0)) then
      match bpf_rbtree_remove y (h_groot w) with
      | None => w
      | Some t =>
        let w := set_node y ((node w y) <| n_bytes_remaining := new_br |>) (w <| h_groot := t |>) in
        match bpf_rbtree_add srpt_less_peer w y (h_groot w) with
        | Some t => w <| h_groot := t |>
        | None => w
        end
      end
    else w
  end.

(** [update_grant_for_cached_rpc] from the lock on; [t1] is the object for
    Tree1. *)
Definition update_grant_locked (hkey : rpc_key_t) (rpc_slot : rpc_state) (t1 : nat) (w : homa) : homa :=
  let t0_key := mk_rpc_state_cc (u32 (hc_last_bytes_remaining (rs_cc rpc_slot))) 0
                  (get_peerid (rk_remote_ip hkey)) 0 hkey 0 0 in
  match find_node lower_bound srpt_less_rpc w (h_groot w) t0_key with
  | None => w
  | Some t0 =>
    if negb (n_tree_id (node w t0) =? 0) || negb (n_peer_id (node w t0) =? get_peerid (rk_remote_ip hkey))
       || negb (same_rpc (n_hkey (node w t0)) hkey) then w
    else
      let new_br := u32 (hc_bytes_remaining (rs_cc rpc_slot)) in
      let old_br := n_bytes_remaining (node w t0) in
      if old_br =? new_br then w
      else
        let w := upd_rpc hkey (fun s => s <| rs_cc ::= fun c => c <| hc_last_bytes_remaining := new_br |> |>) w in
        match bpf_rbtree_remove t0 (h_groot w) with
        | None => w
        | Some t =>
          let w := set_node t0 ((node w t0) <| n_bytes_remaining := new_br |>) (w <| h_groot := t |>) in
          let w := match bpf_rbtree_add srpt_less_rpc w t0 (h_groot w) with
                   | Some t => w <| h_groot := t |>
                   | None => w
                   end in
          if nz (Z.land (n_birth (node w t0)) 1) then update_peer_node t0 old_br new_br w
          else promote t0 t1 w
        end
  end.

(** [update_grant_for_cached_rpc] *)
Definition update_grant_for_cached_rpc (cpu : Z) (w : homa) : homa :=
  match h_cache_rpc w !! cpu with
  | None => w
  | Some hkey =>
    let w := w <| h_cache_rpc ::= delete cpu |> <| h_update_delay_packets ::= <[cpu := 0]> |> in
    match h_rpc_tbl w !! hkey with
    | None => w
    | Some rpc_slot =>
      if hc_incoming (rs_cc rpc_slot) >=? rs_message_length rpc_slot then w
      else
        match bpf_obj_new w with
        | (None, w) => w
        | (Some _, w) =>
          match bpf_obj_new w with
          | (None, w) => w
          | (Some t1, w) => update_grant_locked hkey rpc_slot t1 w
          end
        end
    end
  end.

(** [cache_this_rpc] *)
Definition cache_this_rpc (cpu : Z) (hkey : rpc_key_t) (w : homa) : homa :=
  if cpu >=? MAX_CPU then w else
  let cache w := w <| h_cache_rpc ::= <[cpu := hkey]> |> <| h_update_delay_packets ::= <[cpu := 1]> |> in
  match h_cache_rpc w !! cpu with
  | None => cache w
  | Some k =>
    if same_rpc k hkey then
      let n := u64 (default 0 (h_update_delay_packets w !! cpu) + 1) in
      let w := w <| h_update_delay_packets ::= <[cpu := n]> |> in
      if n <? MAX_UPDATE_DELAY_PACKETS then w else cache (update_grant_for_cached_rpc cpu w)
    else cache (update_grant_for_cached_rpc cpu w)
  end.

(** [insert_grant_list] *)
Definition insert_grant_list (now : Z) (hkey : rpc_key_t) (message_length : Z) (w : homa)
  : xdp_action * homa :=
  match bpf_obj_new w with
  | (None, w) => (XDP_DROP, w)
  | (Some t0, w) =>
    match bpf_obj_new w with
    | (None, w) => (XDP_DROP, w)
    | (Some t1, w) =>
      let cc := default (mk_homa_cc 0 0 0 0 0) (rs_cc <$> h_rpc_tbl w !! hkey) in
      let c0 := mk_rpc_state_cc (u32 (hc_bytes_remaining cc)) 0 (get_peerid (rk_remote_ip hkey))
                  (u32 (hc_incoming cc)) hkey (Z.land now (UINT64_MAX - 1)) message_length in
      let w := set_node t0 c0 w in
      let w := upd_rpc hkey (fun s => s <| rs_cc ::= fun c =>
                 c <| hc_last_bytes_remaining := n_bytes_remaining c0 |> |>) w in
      let w := match bpf_rbtree_add srpt_less_rpc w t0 (h_groot w) with
               | Some t => w <| h_groot := t |>
               | None => w
               end in
      (XDP_REDIRECT, promote t0 t1 w)
    end
  end.

(** [grant_fifo_rpc]: what to grant to the oldest RPC that is not in Tree1;
    [None] is a nonzero result. *)
Definition grant_fifo_rpc (w : homa) : option ret_grant_info * homa :=
  match bpf_obj_new w with
  | (None, w) => (None, w)
  | (Some _, w) =>
    match find_node search_less less_birth_grant w (h_groot w) (zero_node <| n_birth := POISON_64 |>) with
    | None => (None, w)
    | Some n =>
      let c := node w n in
      let newgrant := GRANT_FIFO_INCREMENT + n_incoming c in
      let need_remove := newgrant >=? n_message_length c in
      let increment := if need_remove
                       then u64 (GRANT_FIFO_INCREMENT - (newgrant - n_message_length c))
                       else GRANT_FIFO_INCREMENT in
      let c := c <| n_incoming := if need_remove then n_message_length c else u32 newgrant |> in
      let w := set_node n c w <| h_total_incoming ::= fun x => u64 (x + increment) |> in
      let gi := mk_ret_grant_info (rk_local_port (n_hkey c)) (rk_remote_port (n_hkey c))
                  (rk_rpcid (n_hkey c)) (n_incoming c) (rk_remote_ip (n_hkey c)) HOMA_MAX_SCHED_PRIO in
      let w := if need_remove
               then match bpf_rbtree_remove n (h_groot w) with
                    | Some t => w <| h_groot := t |>
                    | None => w
                    end
               else w in
      (Some gi, w)
    end
  end.

End GrantList.

(** ** Transmitted packets *)

(** What a run of the egress handlers reads from outside: the two clock
    readings and the interference of [check_nic_queue], and the birth time. *)
Record egress_env := mk_egress_env {
  ee_now : nat -> Z;
  ee_other : nat -> Z -> Z;
  ee_birth : Z
}.

(** Verdict, headers, queue of the rate limiter, whether to kick the pacer. *)
Record egress_out := mk_egress_out {
  eo_action : xdp_action;
  eo_ip : iphdr;
  eo_data : data_header;
  eo_qid : Z;
  eo_trigger : bool
}.

Definition seg_end (d : data_header) : Z :=
  u32 (bpf_ntohl (seg_offset (d_seg d)) + bpf_ntohl (segment_length (d_seg d))).

Definition tx_key (iph : iphdr) (d : data_header) : rpc_key_t :=
  mk_rpc_key_t (bpf_be64_to_cpu (ch_sender_id (d_common d))) (bpf_ntohs (ch_sport (d_common d)))
    (bpf_ntohs (ch_dport (d_common d))) (bpf_ntohl (ip_daddr iph)).

(** The rate limiter's part of [client_request] and [server_response]: the
    packet is counted, and the first one of an RPC puts it on the throttle
    list. *)
Definition throttle_packet (e : egress_env) (iph : iphdr) (d : data_header) (granted : Z) (w : homa)
  : egress_out * homa :=
  let hkey := tx_key iph d in
  let w := upd_rpc hkey (fun s => s <| rs_nr_pkts_in_rl := u64 (rs_nr_pkts_in_rl s + 1) |>) w in
  let drop w := (mk_egress_out XDP_DROP iph d MAX_BUCKET_SIZE false, w) in
  let redirect w := (mk_egress_out XDP_REDIRECT iph d (default MAX_BUCKET_SIZE (rs_qid <$> h_rpc_tbl w !! hkey))
                       (granted >=? seg_end d), w) in
  let rpc_slot := default zero_rpc_state (h_rpc_tbl w !! hkey) in
  if rs_qid rpc_slot =? MAX_BUCKET_SIZE then
    let '(qid, w) := allocate_qid w in
    let w := upd_rpc hkey (fun s => s <| rs_qid := qid |>) w in
    if qid =? MAX_BUCKET_SIZE then drop w
    else
      match bpf_obj_new w with
      | (None, w) => drop w
      | (Some n, w) =>
        let w := set_node n (mk_rpc_state_cc (u32 (rs_message_length rpc_slot - rs_next_xmit_offset rpc_slot))
                               0 0 0 hkey (ee_birth e) 0) w in
        let w := match bpf_rbtree_add srpt_less_pacer w n (h_troot w) with
                 | Some t => w <| h_troot := t |>
                 | None => w
                 end in
        let w := w <| h_nr_rpc_in_throttle ::= fun x => u64 (x + 1) |> in
        redirect (upd_rpc hkey (fun s => s <| rs_cc_node := Some n |>) w)
      end
  else redirect w.

(** The end of both handlers, from the choice of a priority on. *)
Definition send_or_throttle (e : egress_env) (iph : iphdr) (d : data_header) (rpc_slot : rpc_state)
  (w : homa) : option (egress_out * homa) :=
  let packet_bytes := bpf_ntohl (segment_length (d_seg d)) in
  match (if seg_end d <? Homa_unsched_bytes then get_prio (bpf_ntohl (d_message_length d))
         else Some (hc_sched_prio (rs_cc rpc_slot))) with
  | None => None
  | Some prio =>
    let iph := set_prio iph (u8 prio) in
    let cc_granted := hc_granted (rs_cc rpc_slot) in
    let d := d <| d_incoming := bpf_htonl (u32 cc_granted) |> in
    if (seg_end d <=? cc_granted) && (rs_nr_pkts_in_rl rpc_slot =? 0) then
      let '(send, w) := if packet_bytes <=? Homa_min_throttled_bytes then (true, w)
                        else check_nic_queue (ee_now e) (ee_other e) packet_bytes w in
      if send : bool then
        Some (mk_egress_out XDP_TX iph d MAX_BUCKET_SIZE false,
              upd_rpc (tx_key iph d) (fun s => s <| rs_next_xmit_offset := seg_end d |>) w)
      else Some (throttle_packet e iph d cc_granted w)
    else Some (throttle_packet e iph d cc_granted w)
  end.

(** [bpf_map_update_elem] with [BPF_NOEXIST] on [rpc_tbl]. *)
Definition rpc_create (k : rpc_key_t) (s : rpc_state) (w : homa) : option homa :=
  match h_rpc_tbl w !! k with
  | Some _ => None
  | None => if Z.of_nat (size (h_rpc_tbl w)) <? MAX_RPC_TBL_SIZE
            then Some (w <| h_rpc_tbl ::= <[k := s]> |>) else None
  end.

Definition single_packet_out (iph : iphdr) (d : data_header) : egress_out :=
  mk_egress_out XDP_TX (set_prio iph (HOMA_MAX_PRIORITY - 1))
    (d <| d_incoming := bpf_htonl (bpf_ntohl (d_message_length d)) |>) MAX_BUCKET_SIZE false.

(** [client_request] *)
Definition client_request (e : egress_env) (iph : iphdr) (d : data_header) (buffer_addr : Z) (w : homa)
  : option (egress_out * homa) :=
  let hkey := tx_key iph d in
  let message_length := bpf_ntohl (d_message_length d) in
  let packet_bytes := bpf_ntohl (segment_length (d_seg d)) in
  let drop := mk_egress_out XDP_DROP iph d MAX_BUCKET_SIZE false in
  let rest w :=
    match h_rpc_tbl w !! hkey with
    | None => Some (drop, w)
    | Some rpc_slot => send_or_throttle e iph d rpc_slot w
    end in
  if bpf_ntohs (ch_seq (d_common d)) =? 0 then
    let new_rpc_state := zero_rpc_state
      <| rs_state := BPF_RPC_OUTGOING |> <| rs_message_length := message_length |>
      <| rs_next_xmit_offset := packet_bytes |> <| rs_buffer_head := buffer_addr |>
      <| rs_remote_port := rk_remote_port hkey |> <| rs_local_port := rk_local_port hkey |>
      <| rs_remote_ip := rk_remote_ip hkey |> <| rs_id := rk_rpcid hkey |>
      <| rs_cc := mk_homa_cc 0 0 0 (Z.min message_length Homa_unsched_bytes) 0 |>
      <| rs_qid := MAX_BUCKET_SIZE |> in
    match rpc_create hkey new_rpc_state w with
    | None => Some (drop, w)
    | Some w => if message_length <=? HOMA_MSS then Some (single_packet_out iph d, w) else rest w
    end
  else rest w.

(** [server_response] *)
Definition server_response (e : egress_env) (iph : iphdr) (d : data_header) (buffer_addr : Z) (w : homa)
  : option (egress_out * homa) :=
  let hkey := tx_key iph d in
  let message_length := bpf_ntohl (d_message_length d) in
  let packet_bytes := bpf_ntohl (segment_length (d_seg d)) in
  match h_rpc_tbl w !! hkey with
  | None => Some (mk_egress_out XDP_DROP iph d MAX_BUCKET_SIZE false, w)
  | Some rpc_slot =>
    if bpf_ntohs (ch_seq (d_common d)) =? 0 then
      let rpc_slot := rpc_slot
        <| rs_state := BPF_RPC_OUTGOING |> <| rs_message_length := message_length |>
        <| rs_next_xmit_offset := packet_bytes |> <| rs_buffer_head := buffer_addr |>
        <| rs_nr_pkts_in_rl := 0 |>
        <| rs_cc ::= fun c => c <| hc_sched_prio := 0 |>
                                <| hc_granted := Z.min message_length Homa_unsched_bytes |> |>
        <| rs_qid := MAX_BUCKET_SIZE |> in
      let w := upd_rpc hkey (fun _ => rpc_slot) w in
      if message_length <=? HOMA_MSS then Some (single_packet_out iph d, w)
      else send_or_throttle e iph d rpc_slot w
    else send_or_throttle e iph d rpc_slot w
  end.

(** ** Received packets *)
Definition rx_key (c : common_header) (remote_ip : Z) : rpc_key_t :=
  mk_rpc_key_t (local_id (bpf_be64_to_cpu (ch_sender_id c))) (bpf_ntohs (ch_dport c))
    (bpf_ntohs (ch_sport c)) remote_ip.

Definition DIV_ROUND_UP (n d : Z) : Z := u32 (u32 (n + d) - 1) / d.

(** [GET_POINTER] *)
Definition get_pointer (k : rpc_key_t) (w : homa) : option nat * homa :=
  (h_rpc_tbl w !! k ≫= rs_cc_node, upd_rpc k (fun s => s <| rs_cc_node := None |>) w).

(** A client RPC that has its whole response is dead: its buffers go back to
    the library, its queue number is freed, and the server will be told. *)
Definition finish_client (rpc_slot : rpc_state) (k : rpc_key_t) (m : homa_rx_t) (w : homa)
  : xdp_action * homa_rx_t * homa :=
  let m := m <| reap_client_buffer_addr := rs_buffer_head rpc_slot |> in
  let w := if rs_qid rpc_slot =? MAX_BUCKET_SIZE then w else free_qid (rs_qid rpc_slot) w in
  let w := enqueue_dead_crpc (rk_remote_ip k) (rk_remote_port k) (rk_local_port k) (rk_rpcid k) w in
  (XDP_REDIRECT, m, w <| h_rpc_tbl ::= delete k |>).

Section Receive.
Variable lower_bound : tree_search.

(** What follows the update of a slot: a message that needs a grant is cached,
    and put on the grant list by its first packet. *)
Definition schedule (cpu now : Z) (k : rpc_key_t) (message_length : Z) (new_state need_schedule : bool)
  (w : homa) : xdp_action * homa :=
  let w := if need_schedule then cache_this_rpc lower_bound cpu k w else w in
  if negb new_state || negb need_schedule then (XDP_REDIRECT, w)
  else insert_grant_list lower_bound now k message_length w.

(** The state of a message whose first packet is [d]. *)
Definition first_packet (d : data_header) (s : rpc_state) : rpc_state :=
  let message_length := bpf_ntohl (d_message_length d) in
  let seg_length := bpf_ntohl (segment_length (d_seg d)) in
  let s := clear_all_bitmaps (s <| rs_bit_width := u16 (DIV_ROUND_UP message_length HOMA_MSS) |>) in
  let s := snd (set_bitmap s (bpf_ntohs (ch_seq (d_common d)))) in
  s <| rs_message_length := message_length |>
    <| rs_cc ::= fun c => c <| hc_incoming := bpf_ntohl (d_incoming d) |>
                            <| hc_bytes_remaining := u64 (message_length - seg_length) |> |>.

(** The state after a later packet, its bit apart. *)
Definition later_packet (d : data_header) (s : rpc_state) : rpc_state :=
  let seg_length := bpf_ntohl (segment_length (d_seg d)) in
  s <| rs_cc ::= fun c =>
         c <| hc_incoming := Z.max (hc_incoming c) (bpf_ntohl (d_incoming d)) |>
           <| hc_bytes_remaining := u64 (hc_bytes_remaining c - seg_length) |> |>.

(** [client_response] *)
Definition client_response (cpu now : Z) (d : data_header) (remote_ip : Z) (m : homa_rx_t)
  (single_packet : bool) (w : homa) : xdp_action * homa_rx_t * homa :=
  let k := rx_key (d_common d) remote_ip in
  let message_length := bpf_ntohl (d_message_length d) in
  let incoming := bpf_ntohl (d_incoming d) in
  let seg_length := bpf_ntohl (segment_length (d_seg d)) in
  match h_rpc_tbl w !! k with
  | None => (XDP_DROP, m, w)
  | Some s =>
    if rs_state s =? BPF_RPC_DEAD then (XDP_DROP, m, w) else
    if rs_state s =? BPF_RPC_OUTGOING then
      if single_packet then finish_client s k m (upd_rpc k (fun s => s <| rs_state := BPF_RPC_DEAD |>) w)
      else
        let s := first_packet d (s <| rs_state := BPF_RPC_INCOMING |>) in
        let w := upd_rpc k (fun _ => s) w in
        let w := w <| h_total_incoming ::= fun x => u64 (x + u64 (incoming - seg_length)) |> in
        let w := snd (get_pointer k w) in
        let '(a, w) := schedule cpu now k message_length true
                         (message_length >? hc_incoming (rs_cc s)) w in
        (a, m, w)
    else
      let '(complete, s) := set_bitmap s (bpf_ntohs (ch_seq (d_common d))) in
      if complete =? -1 then (XDP_DROP, m, w) else
      let s := later_packet d s in
      if complete =? 1 then
        let s := s <| rs_state := BPF_RPC_DEAD |> in
        finish_client s k m (upd_rpc k (fun _ => s) w)
      else
        let w := upd_rpc k (fun _ => s) w in
        let w := w <| h_total_incoming ::= fun x => u64 (x - seg_length) |> in
        let '(a, w) := schedule cpu now k message_length false
                         (message_length >? hc_incoming (rs_cc s)) w in
        (a, m, w)
  end.

(** The label [update] of [server_request]: the verdict when the packet is
    dropped, or whether it was the last one and whether a grant is needed. *)
Definition server_update (d : data_header) (k : rpc_key_t) (s : rpc_state) (w : homa)
  : option (bool * bool) * homa :=
  let seg_length := bpf_ntohl (segment_length (d_seg d)) in
  if rs_state s =? BPF_RPC_DEAD then (None, w) else
  let '(complete, s) := set_bitmap s (bpf_ntohs (ch_seq (d_common d))) in
  if complete =? -1 then (None, w) else
  let s := if complete =? 1 then s <| rs_state := BPF_RPC_IN_SERVICE |> else s in
  let s := later_packet d s in
  let w := upd_rpc k (fun _ => s) w in
  (Some (complete =? 1, bpf_ntohl (d_message_length d) >? hc_incoming (rs_cc s)),
   w <| h_total_incoming ::= fun x => u64 (x - seg_length) |>).

(** [server_request]; [race] is what other CPUs do between the failed lookup
    and the insertion. *)
Definition server_request (race : homa -> homa) (cpu now : Z) (d : data_header) (remote_ip : Z)
  (single_packet : bool) (w : homa) : xdp_action * homa :=
  let k := rx_key (d_common d) remote_ip in
  let message_length := bpf_ntohl (d_message_length d) in
  let incoming := bpf_ntohl (d_incoming d) in
  let seg_length := bpf_ntohl (segment_length (d_seg d)) in
  let finish complete new_state need_schedule w :=
    if single_packet || complete then (XDP_REDIRECT, w)
    else schedule cpu now k message_length new_state need_schedule w in
  let update s w :=
    match server_update d k s w with
    | (None, w) => (XDP_DROP, w)
    | (Some (complete, need_schedule), w) => finish complete false need_schedule w
    end in
  match h_rpc_tbl w !! k with
  | Some s => update s w
  | None =>
    if nz (d_retransmit d) then (XDP_DROP, w) else
    let s := zero_rpc_state
      <| rs_remote_ip := remote_ip |> <| rs_remote_port := rk_remote_port k |>
      <| rs_local_port := rk_local_port k |> <| rs_id := rk_rpcid k |>
      <| rs_state := if single_packet then BPF_RPC_IN_SERVICE else BPF_RPC_INCOMING |>
      <| rs_buffer_head := POISON_64 |> in
    let s := first_packet d s in
    let w := race w in
    match rpc_create k s w with
    | None => match h_rpc_tbl w !! k with
              | Some s => update s w
              | None => (XDP_DROP, w)
              end
    | Some w =>
      finish false true (message_length >? hc_incoming (rs_cc s))
        (w <| h_total_incoming ::= fun x => u64 (x + u64 (incoming - seg_length)) |>)
    end
  end.

End Receive.

(** [reclaim_rpc]: the acknowledgement a data packet carries frees the server
    RPC it names. *)
Definition reclaim_rpc (d : data_header) (remote_ip : Z) (m : homa_rx_t) (w : homa) : homa_rx_t * homa :=
  let ack := seg_ack (d_seg d) in
  let del_rpcid := bpf_be64_to_cpu (ack_rpcid ack) in
  let del_local_port := bpf_ntohs (ack_dport ack) in
  let del_remote_port := bpf_ntohs (ack_sport ack) in
  if (del_rpcid =? 0) && (del_local_port =? 0) && (del_remote_port =? 0) then (m, w)
  else
    let k := mk_rpc_key_t (local_id del_rpcid) del_local_port del_remote_port remote_ip in
    match h_rpc_tbl w !! k with
    | None => (m, w)
    | Some s =>
      if rs_state s =? BPF_RPC_DEAD then (m, w)
      else
        let w := upd_rpc k (fun s => s <| rs_state := BPF_RPC_DEAD |>) w in
        let m := m <| reap_server_buffer_addr := rs_buffer_head s |> in
        let w := if rs_qid s =? MAX_BUCKET_SIZE then w else free_qid (rs_qid s) w in
        let w := snd (get_pointer k w) in
        (m, w <| h_rpc_tbl ::= delete k |>)
    end.

(** [resend_pkt]; the request comes from the receiver of a message. *)
Definition resend_pkt (h : resend_header) (remote_ip : Z) (m : homa_rx_t) (w : homa)
  : Z * homa_rx_t * homa :=
  let k := rx_key (r_common h) remote_ip in
  match h_rpc_tbl w !! k with
  | None => (UNKNOWN, m, w)
  | Some s =>
    if rs_state s =? BPF_RPC_DEAD then (UNKNOWN, m, w)
    else
      let received := u64 (rs_message_length s - hc_bytes_remaining (rs_cc s)) in
      let incoming := hc_incoming (rs_cc s) in
      let whole := u64 (incoming / HOMA_MSS * HOMA_MSS) in
      let '(ret, need_kick) :=
        if negb (rpc_is_client (rk_rpcid k)) && negb (rs_state s =? BPF_RPC_OUTGOING) then
          if (received >? whole) || (received =? whole) && negb (incoming =? rs_message_length s)
          then (BUSY, false) else (0, false)
        else if bpf_ntohl (r_offset h) >=? rs_next_xmit_offset s then
          (BUSY, (rs_next_xmit_offset s <? rs_message_length s)
                 && (u64 (rs_next_xmit_offset s + 1420) <=? hc_granted (rs_cc s)))
        else if r_length h =? 0 then (BUSY, false)
        else (RESEND, false) in
      let '(m, w) :=
        if ret =? RESEND then
          (m <| reap_server_buffer_addr := rs_buffer_head s |>,
           upd_rpc k (fun s => s <| rs_resend_count := u16 (rs_resend_count s + 1) |>) w)
        else (m, w) in
      (ret, m, if need_kick : bool then kick_pacer w else w)
  end.

(** [unknown_pkt]; [grown] says whether [bpf_xdp_adjust_tail] could make room
    for a RESEND header, the packet the handler may turn into.  The second
    result is the header it has then and, when it grew, the length to resend. *)
Definition unknown_pkt (grown : bool) (c : common_header) (remote_ip : Z) (m : homa_rx_t) (w : homa)
  : Z * option (common_header * option Z) * homa_rx_t * homa :=
  let k := rx_key c remote_ip in
  let resend length := Some (c <| ch_type := RESEND |>, length) in
  match h_rpc_tbl w !! k with
  | None => (-1, None, m, w)
  | Some s =>
    if rs_state s =? BPF_RPC_DEAD then (1, None, m, w)
    else if rpc_is_client (rk_rpcid k) then
      if rs_state s =? BPF_RPC_OUTGOING then
        let m := m <| reap_server_buffer_addr := rs_buffer_head s |> in
        if grown then (0, resend (Some (bpf_htonl (u32 (rs_next_xmit_offset s)))), m, w)
        else (-1, None, m, w)
      else (-1, None, m, w)
    else
      let m := m <| reap_client_buffer_addr := rs_buffer_head s |> in
      (0, resend None, m, w <| h_rpc_tbl ::= delete k |>)
  end.

(** [busy_pkt] *)
Definition busy_pkt (c : common_header) (remote_ip : Z) (w : homa) : homa :=
  let k := rx_key c remote_ip in
  match h_rpc_tbl w !! k with
  | None => w
  | Some s => if rs_state s =? BPF_RPC_DEAD then w
              else upd_rpc k (fun s => s <| rs_busy_count := u8 (rs_busy_count s + 1) |>) w
  end.

(** [grant_pkt] *)
Definition grant_pkt (h : grant_header) (remote_ip : Z) (w : homa) : homa :=
  let k := rx_key (g_common h) remote_ip in
  let offset := bpf_ntohl (g_offset h) in
  match h_rpc_tbl w !! k with
  | None => w
  | Some s =>
    if negb (rs_state s =? BPF_RPC_OUTGOING) then w
    else
      let w := upd_rpc k (fun s => s <| rs_cc ::= fun c => c <| hc_sched_prio := g_priority h |> |>) w in
      if hc_granted (rs_cc s) <? offset then
        let w := upd_rpc k (fun s => s <| rs_cc ::= fun c => c <| hc_granted := offset |> |>) w in
        if rs_qid s =? MAX_BUCKET_SIZE then kick_pacer w
        else
          match get_pointer k w with
          | (None, w) => kick_pacer w
          | (Some n, w) =>
            let w := match bpf_rbtree_add srpt_less_pacer w n (h_troot w) with
                     | Some t => w <| h_troot := t |> <| h_nr_rpc_in_throttle ::= fun x => u64 (x + 1) |>
                     | None => w
                     end in
            kick_pacer (upd_rpc k (fun s => s <| rs_cc_node := Some n |>) w)
          end
      else kick_pacer w
  end.

(** The header [xmit_ctrl_pkt] answers with, addresses swapped. *)
Definition xmit_ctrl_pkt (type : Z) (iph : iphdr) (c : common_header) : iphdr * common_header :=
  (iph <| ip_saddr := ip_daddr iph |> <| ip_daddr := ip_saddr iph |>,
   c <| ch_type := type |>
     <| ch_sender_id := bpf_cpu_to_be64 (local_id (bpf_be64_to_cpu (ch_sender_id c))) |>
     <| ch_sport := ch_dport c |> <| ch_dport := ch_sport c |>).
