(* ===== verification/HomaRecv.v ===== *)
(** Reception of Homa messages ([server_request] and [client_response] of
    [eBPF/homa/rpc.h]): whatever the network repeats or reorders, and whatever
    happens to other RPCs in between, each packet of a message is passed to the
    application once and the RPC changes state with the last one. *)
From stdpp Require Import gmap.
From S2P Require Import Prelude Intf Headers HomaDefs HomaRpc.
Local Open Scope Z_scope.

(** ** What the grant list leaves alone *)

(** The slots agree, [last_bytes_remaining] apart. *)
Definition slot_eq (s t : rpc_state) : Prop :=
  t = s <| rs_cc ::= fun c => c <| hc_last_bytes_remaining := hc_last_bytes_remaining (rs_cc t) |> |>.

Definition opt_slot_eq (a b : option rpc_state) : Prop :=
  match a, b with
  | Some s, Some t => slot_eq s t
  | None, None => True
  | _, _ => False
  end.

Definition outer_view (w : homa) :=
  (h_peer_tbl w, h_avail_pacing_idx w, h_total_incoming w, h_link_idle_time w,
   h_nr_rpc_in_throttle w, h_troot w).

(** [w'] differs from [w] in the grant list, its objects and
    [last_bytes_remaining] only, and no allocation will fail. *)
Record grant_frame (w w' : homa) : Prop := {
  gf_view : outer_view w' = outer_view w;
  gf_tbl : forall k, opt_slot_eq (h_rpc_tbl w !! k) (h_rpc_tbl w' !! k);
  gf_size : size (h_rpc_tbl w') = size (h_rpc_tbl w);
  gf_mem : h_mem w = [] -> h_mem w' = []
}.

Lemma slot_eq_refl s : slot_eq s s.
Proof. unfold slot_eq. by destruct s as [? ? ? ? ? ? ? ? ? ? ? ? [] ? ? ? ?]. Qed.

Lemma slot_eq_trans s t u : slot_eq s t -> slot_eq t u -> slot_eq s u.
Proof. unfold slot_eq. intros -> ->. by destruct s. Qed.

Lemma opt_slot_eq_refl a : opt_slot_eq a a.
Proof. destruct a; [apply slot_eq_refl | done]. Qed.

Lemma opt_slot_eq_trans a b c : opt_slot_eq a b -> opt_slot_eq b c -> opt_slot_eq a c.
Proof. destruct a, b, c; cbn; try done. apply slot_eq_trans. Qed.

Lemma gf_refl w : grant_frame w w.
Proof. split; [done | intros; apply opt_slot_eq_refl | done | done]. Qed.

Lemma gf_trans w1 w2 w3 : grant_frame w1 w2 -> grant_frame w2 w3 -> grant_frame w1 w3.
Proof.
  intros [V1 T1 S1 M1] [V2 T2 S2 M2]. split; [congruence | | congruence | auto].
  intros k. eapply opt_slot_eq_trans; eauto.
Qed.

(** A step that leaves table, outer variables and memory alone. *)
Lemma gf_inner w w' : h_rpc_tbl w' = h_rpc_tbl w -> outer_view w' = outer_view w -> h_mem w' = h_mem w ->
  grant_frame w w'.
Proof.
  intros Ht Hv Hm. split; [done| |by rewrite Ht|by rewrite Hm].
  intros k. rewrite Ht. apply opt_slot_eq_refl.
Qed.

Lemma size_alter {V} (f : V -> V) (k : rpc_key_t) (m : gmap rpc_key_t V) : size (alter f k m) = size m.
Proof.
  destruct (m !! k) as [v|] eqn:E.
  - replace (alter f k m) with (<[k := f v]> m); [by apply map_size_insert_Some|].
    apply map_eq. intros j. destruct (decide (j = k)) as [->|].
    + by rewrite lookup_insert_eq, lookup_alter_eq, E.
    + by rewrite lookup_insert_ne, lookup_alter_ne by done.
  - f_equal. apply map_eq. intros j. destruct (decide (j = k)) as [->|].
    + by rewrite lookup_alter_eq, E.
    + by rewrite lookup_alter_ne.
Qed.

Lemma gf_last k v w :
  grant_frame w (upd_rpc k (fun s => s <| rs_cc ::= fun c => c <| hc_last_bytes_remaining := v |> |>) w).
Proof.
  split; [done| |apply size_alter|done].
  intros j. cbn. destruct (decide (j = k)) as [->|].
  - rewrite lookup_alter_eq. destruct (h_rpc_tbl w !! k) as [s|]; [|done]. cbn. unfold slot_eq. by destruct s.
  - rewrite lookup_alter_ne by done. apply opt_slot_eq_refl.
Qed.

Lemma gf_obj_new w : grant_frame w (snd (bpf_obj_new w)).
Proof.
  unfold bpf_obj_new. destruct (h_mem w) as [|[] m] eqn:E; (split; cbn; [done|intros; apply opt_slot_eq_refl|done|]);
    rewrite ?E; done.
Qed.

Lemma obj_new_ok w : h_mem w = [] -> exists n, fst (bpf_obj_new w) = Some n.
Proof. intros E. unfold bpf_obj_new. rewrite E. eauto. Qed.

Create HintDb homa.
#[export] Hint Resolve gf_refl gf_last : homa.

(** Split a step of the grant list and close its trivial parts. *)
Ltac gf :=
  repeat match goal with
  | |- grant_frame ?w ?w => apply gf_refl
  | |- grant_frame _ (if ?b then _ else _) => destruct b
  | |- grant_frame _ (match ?x with _ => _ end) => destruct x eqn:?
  | |- grant_frame _ (let '(_, _) := ?x in _) => destruct x eqn:?
  end; try (by apply gf_inner); auto with homa.

Lemma gf_add_to_peer_tree t0 t1 w : grant_frame w (add_to_peer_tree t0 t1 w).
Proof. unfold add_to_peer_tree. cbn zeta. gf. Qed.

Lemma gf_take_peer_node lb t0 t1 w : grant_frame w (snd (take_peer_node lb t0 t1 w)).
Proof.
  unfold take_peer_node. cbn zeta.
  repeat match goal with
  | |- context [match ?x with Some _ => _ | None => _ end] => destruct x
  | |- context [if ?b then _ else _] => destruct b
  end; cbn [snd]; gf.
Qed.

Lemma gf_promote lb t0 t1 w : grant_frame w (promote lb t0 t1 w).
Proof.
  unfold promote. destruct (find_node _ _ _ _ _); [|gf]. destruct (_ || _); [gf|].
  destruct (same_rpc _ _); [|gf].
  pose proof (gf_take_peer_node lb t0 t1 w) as H. destruct (take_peer_node lb t0 t1 w) as [[t|] w'].
  - eapply gf_trans; [exact H | apply gf_add_to_peer_tree].
  - exact H.
Qed.

Lemma gf_update_peer_node lb t0 o n w : grant_frame w (update_peer_node lb t0 o n w).
Proof. unfold update_peer_node. cbn zeta. gf. Qed.

Lemma gf_update_grant_locked lb k s t1 w : grant_frame w (update_grant_locked lb k s t1 w).
Proof.
  unfold update_grant_locked. cbn zeta. destruct (find_node _ _ _ _ _) as [t0|]; [|gf].
  destruct (_ || _); [gf|]. destruct (_ =? _); [gf|].
  set (w1 := upd_rpc _ _ w). apply (gf_trans w w1); [apply gf_last|].
  destruct (bpf_rbtree_remove t0 (h_groot w1)) as [t|]; [|gf].
  set (w2 := set_node t0 _ _). assert (H2 : grant_frame w1 w2) by (by apply gf_inner).
  set (w3 := match bpf_rbtree_add srpt_less_rpc w2 t0 (h_groot w2) with
             | Some t => w2 <| h_groot := t |> | None => w2 end).
  assert (H3 : grant_frame w2 w3) by (unfold w3; gf).
  eapply gf_trans; [exact H2|]. eapply gf_trans; [exact H3|].
  split_if; [apply gf_update_peer_node | apply gf_promote].
Qed.

Lemma gf_update_grant lb cpu w : grant_frame w (update_grant_for_cached_rpc lb cpu w).
Proof.
  unfold update_grant_for_cached_rpc. destruct (h_cache_rpc w !! cpu) as [k|]; [|gf].
  cbn zeta. set (w1 := upd_field h_update_delay_packets _ _).
  assert (H1 : grant_frame w w1) by (by apply gf_inner).
  eapply gf_trans; [exact H1|]. destruct (h_rpc_tbl w1 !! k) as [s|]; [|gf]. split_if; [gf|].
  pose proof (gf_obj_new w1) as H2. destruct (bpf_obj_new w1) as [[n|] w2]; [|exact H2].
  eapply gf_trans; [exact H2|].
  pose proof (gf_obj_new w2) as H3. destruct (bpf_obj_new w2) as [[t1|] w3]; [|exact H3].
  eapply gf_trans; [exact H3|]. apply gf_update_grant_locked.
Qed.

Lemma gf_cache_this_rpc lb cpu k w : grant_frame w (cache_this_rpc lb cpu k w).
Proof.
  unfold cache_this_rpc. split_if; [gf|]. cbn zeta.
  assert (Hc : forall v, grant_frame v (v <| h_cache_rpc ::= <[cpu := k]> |> <| h_update_delay_packets ::= <[cpu := 1]> |>))
    by (intros; by apply gf_inner).
  destruct (h_cache_rpc w !! cpu) as [k'|]; [|apply Hc]. split_if.
  - set (w1 := upd_field h_update_delay_packets _ w).
    assert (H1 : grant_frame w w1) by (by apply gf_inner).
    eapply gf_trans; [exact H1|]. split_if; [gf|].
    eapply gf_trans; [apply gf_update_grant | apply Hc].
  - eapply gf_trans; [apply gf_update_grant | apply Hc].
Qed.

Lemma gf_insert_grant_list lb now k ml w :
  let '(a, w') := insert_grant_list lb now k ml w in
  grant_frame w w' /\ (h_mem w = [] -> a = XDP_REDIRECT).
Proof.
  unfold insert_grant_list.
  pose proof (gf_obj_new w) as H1. pose proof (obj_new_ok w) as A1.
  destruct (bpf_obj_new w) as [[t0|] w1]; cbn [fst snd] in *;
    [|split; [done | intros E; by destruct (A1 E)]].
  pose proof (gf_obj_new w1) as H2. pose proof (obj_new_ok w1) as A2.
  destruct (bpf_obj_new w1) as [[t1|] w2]; cbn [fst snd] in *.
  - split; [|done]. eapply gf_trans; [exact H1|]. eapply gf_trans; [exact H2|]. cbn zeta.
    set (cc := default _ _). set (c0 := mk_rpc_state_cc _ _ _ _ _ _ _).
    eapply gf_trans; [|apply gf_promote].
    eapply gf_trans with (set_node t0 c0 w2); [by apply gf_inner|].
    set (w3 := upd_rpc _ _ _). apply (gf_trans _ w3); [apply gf_last|]. gf.
  - split; [eapply gf_trans; eauto|]. intros E. destruct (A2 (gf_mem _ _ H1 E)). done.
Qed.

Lemma gf_schedule lb cpu now k ml ns need w :
  let '(a, w') := schedule lb cpu now k ml ns need w in
  grant_frame w w' /\ (h_mem w = [] -> a = XDP_REDIRECT).
Proof.
  unfold schedule. cbn zeta.
  set (w1 := if need then _ else w). assert (H1 : grant_frame w w1)
    by (unfold w1; destruct need; [apply gf_cache_this_rpc | gf]).
  split_if; [done|].
  pose proof (gf_insert_grant_list lb now k ml w1) as H2.
  destruct (insert_grant_list lb now k ml w1) as [a w2]. destruct H2 as [H2 A2].
  split; [eapply gf_trans; eauto|]. intros E. apply A2, (gf_mem _ _ H1), E.
Qed.

(** ** Messages *)

(** Number of packets of a message of [L] bytes and length of packet [q]. *)
Definition npkts (L : Z) : Z := (L + (HOMA_MSS - 1)) / HOMA_MSS.
Definition seg_len (L q : Z) : Z := Z.min HOMA_MSS (L - q * HOMA_MSS).

Definition sum_len (L : Z) (R : list Z) : Z := foldr Z.add 0 (seg_len L <$> R).

(** The length of a message a sender may submit. *)
Definition msg_length_ok (L : Z) : Prop := 1 <= L <= HOMA_MAX_MESSAGE_LENGTH.

(** The data header [d] from the host [ip] is packet [q] of the message of [L]
    bytes of the RPC known here as [k]. *)
Record msg_packet (k : rpc_key_t) (L q ip : Z) (d : data_header) : Prop := {
  mp_key : rx_key (d_common d) ip = k;
  mp_length : bpf_ntohl (d_message_length d) = L;
  mp_seq : bpf_ntohs (ch_seq (d_common d)) = q;
  mp_range : 0 <= q < npkts L;
  mp_seg : bpf_ntohl (segment_length (d_seg d)) = seg_len L q
}.

(** The packets accepted so far, in the order of their acceptance. *)
Record accepted (L : Z) (R : list Z) : Prop := {
  ac_nodup : NoDup R;
  ac_range : forall q, q ∈ R -> 0 <= q < npkts L
}.

(** What the slot of the message says after [R]. *)
Record msg_slot (L : Z) (R : list Z) (s : rpc_state) : Prop := {
  ms_bitmap : bitmap_ok s;
  ms_width : rs_bit_width s = npkts L;
  ms_length : rs_message_length s = L;
  ms_rcvd : forall q, 0 <= q -> rcvd s q = bool_decide (q ∈ R);
  ms_remaining : hc_bytes_remaining (rs_cc s) = L - sum_len L R
}.

Definition complete_msg (L : Z) (R : list Z) : bool := Z.of_nat (length R) =? npkts L.

Lemma bitmap_ok_ext s t : rs_bitmap t = rs_bitmap s -> rs_bit_width t = rs_bit_width s ->
  rs_bitmap_round t = rs_bitmap_round s -> bitmap_ok s -> bitmap_ok t.
Proof.
  intros E1 E2 E3 [H1 H2 H3 H4 H5].
  assert (W : forall r, bitmap_word t r = bitmap_word s r) by (intros; unfold bitmap_word; by rewrite E1).
  split; rewrite ?E1, ?E2, ?E3; auto.
  - intros r. by rewrite W.
  - intros q Hq. unfold rcvd. rewrite W. by apply H4.
  - rewrite H5. unfold last_word. rewrite E2. f_equal. apply count_ext. intros i _.
    unfold word_full, word_bits. by rewrite W, E2.
Qed.

Lemma rcvd_ext s t q : rs_bitmap t = rs_bitmap s -> rcvd t q = rcvd s q.
Proof. intros E. unfold rcvd, bitmap_word. by rewrite E. Qed.

Lemma msg_slot_ext L R s t : rs_bitmap t = rs_bitmap s -> rs_bit_width t = rs_bit_width s ->
  rs_bitmap_round t = rs_bitmap_round s -> rs_message_length t = rs_message_length s ->
  hc_bytes_remaining (rs_cc t) = hc_bytes_remaining (rs_cc s) -> msg_slot L R s -> msg_slot L R t.
Proof.
  intros E1 E2 E3 E4 E5 [H1 H2 H3 H4 H5].
  split; [by eapply bitmap_ok_ext|congruence..| |congruence].
  intros q Hq. rewrite (rcvd_ext s) by done. by apply H4.
Qed.

Lemma npkts_range L : msg_length_ok L -> 1 <= npkts L <= 705.
Proof. unfold msg_length_ok, npkts, HOMA_MAX_MESSAGE_LENGTH, HOMA_MSS. lia. Qed.

Lemma seg_len_range L q : msg_length_ok L -> 0 <= q < npkts L -> 1 <= seg_len L q <= 1420.
Proof. unfold msg_length_ok, npkts, seg_len, HOMA_MAX_MESSAGE_LENGTH, HOMA_MSS. lia. Qed.

Lemma sum_len_app L R R' : sum_len L (R ++ R') = sum_len L R + sum_len L R'.
Proof.
  unfold sum_len. induction R as [|q R IH]; cbn; [done|]. lia.
Qed.

Lemma sum_len_perm L R R' : R ≡ₚ R' -> sum_len L R = sum_len L R'.
Proof. unfold sum_len. induction 1; cbn in *; lia. Qed.

Lemma sum_len_prefix L (m : nat) : 0 <= L -> Z.of_nat m <= npkts L ->
  sum_len L (Z.of_nat <$> seq 0 m) = Z.min (Z.of_nat m * HOMA_MSS) L.
Proof.
  intros HL. induction m as [|m IH]; intros Hm.
  - cbn. lia.
  - rewrite seq_S, fmap_app, sum_len_app, IH by lia. unfold npkts, seg_len, sum_len, HOMA_MSS in *. cbn.
    unfold seg_len, HOMA_MSS. lia.
Qed.

Definition all_packets (L : Z) : list Z := Z.of_nat <$> seq 0 (Z.to_nat (npkts L)).

Lemma elem_all_packets L q : 0 <= L -> q ∈ all_packets L <-> 0 <= q < npkts L.
Proof.
  intros HL. unfold all_packets. rewrite list_elem_of_fmap. split.
  - intros (n & -> & Hn). apply elem_of_seq in Hn. lia.
  - intros Hq. exists (Z.to_nat q). split; [lia|]. apply elem_of_seq. lia.
Qed.

Lemma sum_len_all L : msg_length_ok L -> sum_len L (all_packets L) = L.
Proof.
  intros H. pose proof (npkts_range L H). unfold all_packets.
  rewrite sum_len_prefix by (unfold msg_length_ok in H; lia).
  unfold npkts, HOMA_MSS, msg_length_ok in *. lia.
Qed.

Lemma accepted_rest L R : msg_length_ok L -> accepted L R ->
  exists R', all_packets L ≡ₚ R ++ R' /\ (forall q, q ∈ R' -> 0 <= q < npkts L).
Proof.
  intros HL [Hn Hr].
  destruct (submseteq_Permutation R (all_packets L)) as [R' HR'].
  { apply NoDup_submseteq; [done|]. intros q Hq. apply elem_all_packets; [unfold msg_length_ok in HL; lia|auto]. }
  exists R'. split; [done|]. intros q Hq. apply elem_all_packets; [unfold msg_length_ok in HL; lia|].
  rewrite HR'. apply elem_of_app. by right.
Qed.

Lemma sum_len_nonneg L R : msg_length_ok L -> (forall q, q ∈ R -> 0 <= q < npkts L) -> 0 <= sum_len L R.
Proof.
  intros HL. induction R as [|q R IH]; intros H; [done|].
  pose proof (seg_len_range L q HL (H q ltac:(left))).
  assert (0 <= sum_len L R) by (apply IH; intros; apply H; by right).
  change (sum_len L (q :: R)) with (seg_len L q + sum_len L R). lia.
Qed.

Lemma sum_len_le L R : msg_length_ok L -> accepted L R -> 0 <= sum_len L R <= L.
Proof.
  intros HL Ha. destruct (accepted_rest L R HL Ha) as (R' & HP & HR').
  pose proof (sum_len_nonneg L R HL (ac_range _ _ Ha)). pose proof (sum_len_nonneg L R' HL HR').
  pose proof (sum_len_all L HL) as Hs. rewrite (sum_len_perm L _ _ HP), sum_len_app in Hs. lia.
Qed.

(** All packets were accepted when there are as many as the message has. *)
Lemma complete_all L R : msg_length_ok L -> accepted L R ->
  complete_msg L R = true <-> forall q, 0 <= q < npkts L -> q ∈ R.
Proof.
  intros HL Ha. unfold complete_msg. rewrite Z.eqb_eq.
  destruct (accepted_rest L R HL Ha) as (R' & HP & HR').
  assert (Hlen : length (all_packets L) = (length R + length R')%nat) by (by rewrite HP, length_app).
  unfold all_packets in Hlen. rewrite length_fmap, length_seq in Hlen.
  pose proof (npkts_range L HL).
  split.
  - intros Hc q Hq. assert (R' = []) as -> by (destruct R'; [done | cbn in Hlen; lia]).
    rewrite app_nil_r in HP. rewrite <- HP. apply elem_all_packets; [unfold msg_length_ok in HL; lia | done].
  - intros Hq. destruct R' as [|x R']; [cbn in Hlen; lia|].
    assert (Hnd : NoDup (R ++ x :: R')).
    { rewrite <- HP. unfold all_packets. apply NoDup_fmap_2; [intros ? ? ?; lia | apply NoDup_seq]. }
    apply list.NoDup_app in Hnd as (_ & Hd & _). exfalso. apply (Hd x); [|left].
    apply Hq, HR'. left.
Qed.

Lemma accepted_snoc L R q : accepted L R -> 0 <= q < npkts L -> q ∉ R -> accepted L (R ++ [q]).
Proof.
  intros [Hn Hr] Hq Hni. split.
  - apply list.NoDup_app. split; [done|]. split; [|apply NoDup_singleton].
    intros x Hx Hxq. apply list_elem_of_singleton in Hxq as ->. done.
  - intros x. rewrite elem_of_app, list_elem_of_singleton. intros [Hx| ->]; auto.
Qed.

(** ** One packet *)
Lemma div_round_up L : msg_length_ok L -> u16 (DIV_ROUND_UP L HOMA_MSS) = npkts L.
Proof.
  unfold msg_length_ok, DIV_ROUND_UP, npkts, HOMA_MAX_MESSAGE_LENGTH, HOMA_MSS. intros H. mach_lia.
Qed.

Lemma first_packet_slot k L q ip d s : msg_length_ok L -> msg_packet k L q ip d ->
  msg_slot L [q] (first_packet d s).
Proof.
  intros HL [Hk Hl Hq Hr Hs]. pose proof (npkts_range L HL) as Hn.
  pose proof (seg_len_range L q HL Hr) as Hsl.
  unfold first_packet. rewrite Hl, Hq, Hs, div_round_up by done. cbn zeta.
  set (s1 := clear_all_bitmaps _).
  assert (Hok : bitmap_ok s1) by (apply bitmap_ok_clear; cbn; lia).
  assert (Hw : rs_bit_width s1 = npkts L) by done.
  pose proof (set_bitmap_spec s1 q Hok ltac:(lia)) as H.
  destruct (set_bitmap s1 q) as [r s2]. unfold s1 in H at 1. rewrite rcvd_clear in H.
  destruct H as (Hok2 & Hsame & Hrc & _). cbn [snd].
  split.
  - by apply (bitmap_ok_ext s2).
  - cbn. by rewrite (same_bit_width _ _ Hsame).
  - done.
  - intros x Hx. rewrite (rcvd_ext s2) by done. rewrite Hrc by done. unfold s1.
    rewrite rcvd_clear. cbn. symmetry.
    rewrite (bool_decide_ext _ (x = q)) by apply list_elem_of_singleton.
    destruct (Z.eqb_spec x q); [by apply bool_decide_eq_true | by apply bool_decide_eq_false].
  - cbn. unfold msg_length_ok, HOMA_MAX_MESSAGE_LENGTH in HL.
    assert (seg_len L q <= L) by (unfold seg_len, HOMA_MSS in *; lia).
    rewrite u64_small by mach_lia. unfold sum_len. cbn. lia.
Qed.

(** Whether packet [q] is refused, and the slot after it. *)
Lemma later_packet_slot k L R q ip d s : msg_length_ok L -> accepted L R -> msg_packet k L q ip d ->
  msg_slot L R s ->
  let '(c, s1) := set_bitmap s q in
  if decide (q ∈ R) then c = -1
  else c = b2z (complete_msg L (R ++ [q])) /\ same_but_bitmap s s1 /\
       msg_slot L (R ++ [q]) (later_packet d s1).
Proof.
  intros HL Ha [Hk Hl Hq Hr Hs] [Hok Hw Hm Hrc Hrem]. pose proof (npkts_range L HL) as Hn.
  pose proof (set_bitmap_spec s q Hok ltac:(lia)) as H.
  destruct (set_bitmap s q) as [c s1]. rewrite Hrc in H by lia.
  destruct (decide (q ∈ R)) as [Hin|Hni].
  { rewrite bool_decide_eq_true_2 in H by done. by destruct H. }
  rewrite bool_decide_eq_false_2 in H by done. destruct H as (Hok1 & Hsame & Hrc1 & Hc).
  pose proof (same_bit_width _ _ Hsame) as Hw1.
  assert (Hel : forall x, 0 <= x -> rcvd s1 x = bool_decide (x ∈ R ++ [q])).
  { intros x Hx. rewrite Hrc1, Hrc by done. destruct (Z.eqb_spec x q) as [->|Hne].
    - rewrite orb_true_r. symmetry. apply bool_decide_eq_true. apply elem_of_app. right. left.
    - rewrite orb_false_r. apply bool_decide_ext. rewrite elem_of_app, list_elem_of_singleton. tauto. }
  split_and!; [|done|].
  - assert (Hall : complete_msg L (R ++ [q]) = true <-> all_rcvd s1).
    { rewrite complete_all by (done || by apply accepted_snoc). unfold all_rcvd. rewrite Hw1, Hw.
      split; intros Hx x Hx0; specialize (Hx x Hx0);
        [rewrite Hel by lia; by apply bool_decide_eq_true | rewrite Hel in Hx by lia; by apply bool_decide_eq_true in Hx]. }
    destruct Hc as [[-> Hc]|[-> Hc]]; destruct (complete_msg L (R ++ [q])); try done;
      exfalso; intuition congruence.
  - pose proof (sum_len_le L _ HL (accepted_snoc L R q Ha Hr Hni)) as Hsum. rewrite sum_len_app in Hsum.
    pose proof (sum_len_le L R HL Ha). unfold msg_length_ok, HOMA_MAX_MESSAGE_LENGTH in HL.
    split.
    + by apply (bitmap_ok_ext s1).
    + cbn. by rewrite Hw1.
    + cbn. rewrite Hsame. by destruct s.
    + intros x Hx. rewrite (rcvd_ext s1) by done. by apply Hel.
    + assert (Hcc : rs_cc s1 = rs_cc s) by (rewrite Hsame; by destruct s).
      cbn. rewrite Hcc, Hrem, Hs. rewrite sum_len_app. change (sum_len L [q]) with (seg_len L q + 0) in *.
      rewrite u64_small by mach_lia. lia.
Qed.

(** ** Other RPCs *)

(** From [w] to [w'] only the RPC [k] was touched, [last_bytes_remaining]
    apart. *)
Record others_kept (k : rpc_key_t) (w w' : homa) : Prop := {
  ok_tbl : forall j, j <> k -> opt_slot_eq (h_rpc_tbl w !! j) (h_rpc_tbl w' !! j);
  ok_mem : h_mem w = [] -> h_mem w' = []
}.

Lemma ok_refl k w : others_kept k w w.
Proof. split; [intros; apply opt_slot_eq_refl | done]. Qed.

Lemma ok_trans k w1 w2 w3 : others_kept k w1 w2 -> others_kept k w2 w3 -> others_kept k w1 w3.
Proof.
  intros [T1 M1] [T2 M2]. split; [|auto]. intros j Hj. eapply opt_slot_eq_trans; eauto.
Qed.

Lemma gf_others k w w' : grant_frame w w' -> others_kept k w w'.
Proof. intros [_ T _ M]. split; [intros; apply T | done]. Qed.

Lemma ok_upd k f w : others_kept k w (upd_rpc k f w).
Proof. split; [|done]. intros j Hj. cbn. rewrite lookup_alter_ne by done. apply opt_slot_eq_refl. Qed.

Lemma ok_delete k w : others_kept k w (w <| h_rpc_tbl ::= delete k |>).
Proof. split; [|done]. intros j Hj. cbn. rewrite lookup_delete_ne by done. apply opt_slot_eq_refl. Qed.

Lemma ok_inner k w w' : h_rpc_tbl w' = h_rpc_tbl w -> h_mem w' = h_mem w -> others_kept k w w'.
Proof. intros Ht Hm. split; [intros j _; rewrite Ht; apply opt_slot_eq_refl | by rewrite Hm]. Qed.

Lemma ok_create k s w w' : rpc_create k s w = Some w' -> others_kept k w w'.
Proof.
  unfold rpc_create. destruct (h_rpc_tbl w !! k); [done|]. split_if; [|done]. intros [= <-].
  split; [|done]. intros j Hj. cbn. rewrite lookup_insert_ne by done. apply opt_slot_eq_refl.
Qed.

Lemma ok_schedule lb cpu now k ml ns need w :
  others_kept k w (snd (schedule lb cpu now k ml ns need w)).
Proof.
  pose proof (gf_schedule lb cpu now k ml ns need w) as H. destruct (schedule _ _ _ _ _ _ _ _).
  destruct H as [H _]. by apply gf_others.
Qed.

Lemma ok_finish_client s k m w : others_kept k w (snd (finish_client s k m w)).
Proof.
  unfold finish_client. cbn [snd]. eapply ok_trans; [|apply ok_delete]. apply ok_inner.
  - unfold free_qid, enqueue_dead_crpc. by repeat case_match.
  - unfold free_qid, enqueue_dead_crpc. by repeat case_match.
Qed.

Section Handlers.
Variable lb : tree_search.

Lemma ok_client_response cpu now d ip m sp w :
  others_kept (rx_key (d_common d) ip) w (snd (client_response lb cpu now d ip m sp w)).
Proof.
  unfold client_response. set (k := rx_key (d_common d) ip). cbn zeta.
  destruct (h_rpc_tbl w !! k) as [s|]; [|apply ok_refl].
  split_if; [apply ok_refl|]. split_if; [split_if|].
  - eapply ok_trans; [apply ok_upd | apply ok_finish_client].
  - set (need := _ >? _). set (w1 := snd (get_pointer k _)).
    assert (H1 : others_kept k w w1).
    { unfold w1, get_pointer. cbn [snd]. eapply ok_trans; [|apply ok_upd].
      eapply ok_trans; [apply (ok_upd k (fun _ => first_packet d (s <| rs_state := BPF_RPC_INCOMING |>)))|].
      by apply ok_inner. }
    pose proof (ok_schedule lb cpu now k (bpf_ntohl (d_message_length d)) true need w1) as H2.
    destruct (schedule _ _ _ _ _ _ _ _). cbn [snd] in *. eapply ok_trans; eauto.
  - destruct (set_bitmap s _) as [c s1]. split_if; [apply ok_refl|]. split_if.
    + eapply ok_trans; [|apply ok_finish_client]. apply ok_upd.
    + set (need := _ >? _). set (w1 := upd_field h_total_incoming _ _).
      assert (H1 : others_kept k w w1).
      { eapply ok_trans; [apply (ok_upd k (fun _ => later_packet d s1))|]. by apply ok_inner. }
      pose proof (ok_schedule lb cpu now k (bpf_ntohl (d_message_length d)) false need w1) as H2.
      destruct (schedule _ _ _ _ _ _ _ _). cbn [snd] in *. eapply ok_trans; eauto.
Qed.

Lemma ok_server_update d k s w : others_kept k w (snd (server_update d k s w)).
Proof.
  unfold server_update. split_if; [apply ok_refl|]. destruct (set_bitmap s _) as [c s1].
  split_if; [apply ok_refl|]. cbn [snd].
  eapply ok_trans; [apply ok_upd|]. by apply ok_inner.
Qed.

Lemma ok_server_request cpu now d ip sp w :
  others_kept (rx_key (d_common d) ip) w (snd (server_request lb id cpu now d ip sp w)).
Proof.
  unfold server_request. set (k := rx_key (d_common d) ip). cbn zeta.
  assert (Hfin : forall (c ns need : bool) v, others_kept k w v ->
    others_kept k w (snd (if sp || c then (XDP_REDIRECT, v)
      else schedule lb cpu now k (bpf_ntohl (d_message_length d)) ns need v))).
  { intros c ns need v Hv. split_if; [done|]. eapply ok_trans; [exact Hv|]. apply ok_schedule. }
  assert (Hupd : forall s, others_kept k w (snd
    match server_update d k s w with
    | (None, w0) => (XDP_DROP, w0)
    | (Some (complete, need_schedule), w0) =>
      if sp || complete then (XDP_REDIRECT, w0)
      else schedule lb cpu now k (bpf_ntohl (d_message_length d)) false need_schedule w0
    end)).
  { intros s. pose proof (ok_server_update d k s w) as H.
    destruct (server_update d k s w) as [[[c need]|] w1]; [|done]. by apply Hfin. }
  destruct (h_rpc_tbl w !! k) as [s|] eqn:E; [apply Hupd|].
  split_if; [apply ok_refl|]. unfold id at 1 2. destruct (rpc_create k _ w) as [w1|] eqn:Ec.
  - apply Hfin. eapply ok_trans; [by eapply ok_create|]. by apply ok_inner.
  - unfold id. rewrite E. apply ok_refl.
Qed.

End Handlers.

(** The RPC named by the acknowledgement of a data packet. *)
Definition acked (d : data_header) (ip : Z) : rpc_key_t :=
  let ack := seg_ack (d_seg d) in
  mk_rpc_key_t (local_id (bpf_be64_to_cpu (ack_rpcid ack))) (bpf_ntohs (ack_dport ack))
    (bpf_ntohs (ack_sport ack)) ip.

Lemma ok_reclaim d ip m w : others_kept (acked d ip) w (snd (reclaim_rpc d ip m w)).
Proof.
  unfold reclaim_rpc. cbn zeta. split_if; [apply ok_refl|]. fold (acked d ip).
  destruct (h_rpc_tbl w !! acked d ip) as [s|]; [|apply ok_refl]. split_if; [apply ok_refl|]. cbn [snd].
  eapply ok_trans; [|apply ok_delete]. unfold get_pointer. cbn [snd]. eapply ok_trans; [|apply ok_upd].
  eapply ok_trans; [apply (ok_upd _ (fun s => s <| rs_state := BPF_RPC_DEAD |>))|].
  apply ok_inner; unfold free_qid; by repeat case_match.
Qed.

(** ** A request at the server *)

(** After the packets [R] of the request were accepted. *)
Definition srv_msg (L : Z) (R : list Z) (k : rpc_key_t) (w : homa) : Prop :=
  match R with
  | [] => h_rpc_tbl w !! k = None
  | _ => exists s, h_rpc_tbl w !! k = Some s /\ msg_slot L R s /\
           rs_state s = if complete_msg L R then BPF_RPC_IN_SERVICE else BPF_RPC_INCOMING
  end.

Lemma srv_msg_slot_eq L R k w w' : opt_slot_eq (h_rpc_tbl w !! k) (h_rpc_tbl w' !! k) ->
  srv_msg L R k w -> srv_msg L R k w'.
Proof.
  unfold srv_msg, opt_slot_eq. destruct R as [|q R].
  - intros H E. rewrite E in H. by destruct (h_rpc_tbl w' !! k).
  - intros H (s & E & Hs & Hst). rewrite E in H. destruct (h_rpc_tbl w' !! k) as [t|]; [|done].
    exists t. split; [done|]. rewrite H. split; [|by destruct s].
    apply (msg_slot_ext L (q :: R) s); by destruct s.
Qed.

(** [srv_msg] of a nonempty [R ++ [q]]. *)
Lemma srv_msg_snoc L R q k w s : h_rpc_tbl w !! k = Some s -> msg_slot L (R ++ [q]) s ->
  rs_state s = (if complete_msg L (R ++ [q]) then BPF_RPC_IN_SERVICE else BPF_RPC_INCOMING) ->
  srv_msg L (R ++ [q]) k w.
Proof. unfold srv_msg. destruct (R ++ [q]) eqn:E; [by destruct R|]. eauto. Qed.

Lemma complete_singleton L q : msg_length_ok L -> complete_msg L [q] = (L <=? HOMA_MSS).
Proof.
  unfold msg_length_ok, complete_msg, npkts, HOMA_MAX_MESSAGE_LENGTH, HOMA_MSS. cbn. intros.
  destruct (Z.leb_spec L 1420); [apply Z.eqb_eq | apply Z.eqb_neq]; lia.
Qed.

Section Server.
Variable lb : tree_search.

(** The verdict and the state when the schedule of a packet ends a handler. *)
Lemma schedule_redirect L R cpu now k ml ns need (b : bool) w : h_mem w = [] -> srv_msg L R k w ->
  let '(a, w') := if b then (XDP_REDIRECT, w) else schedule lb cpu now k ml ns need w in
  a = XDP_REDIRECT /\ srv_msg L R k w' /\ h_mem w' = [] /\ h_total_incoming w' = h_total_incoming w.
Proof.
  intros Hm Hs. destruct b; [done|].
  pose proof (gf_schedule lb cpu now k ml ns need w) as H.
  destruct (schedule lb cpu now k ml ns need w) as [a w']. destruct H as [H Ha].
  split_and!; [auto | | by apply (gf_mem _ _ H) | ].
  - eapply srv_msg_slot_eq; [apply (gf_tbl _ _ H) | done].
  - pose proof (gf_view _ _ H) as V. unfold outer_view in V. congruence.
Qed.

(** The credit a packet takes from or gives back to [total_incoming]. *)
Definition credit (L : Z) (R : list Z) (q : Z) (d : data_header) : Z :=
  match R with
  | [] => bpf_ntohl (d_incoming d) - seg_len L q
  | _ => - seg_len L q
  end.

Lemma server_request_msg cpu now k L R q ip d w :
  msg_length_ok L -> accepted L R -> srv_msg L R k w -> msg_packet k L q ip d ->
  h_mem w = [] -> Z.of_nat (size (h_rpc_tbl w)) < MAX_RPC_TBL_SIZE -> d_retransmit d = 0 \/ R <> [] ->
  let '(a, w') := server_request lb id cpu now d ip (L <=? HOMA_MSS) w in
  if decide (q ∈ R) then a = XDP_DROP /\ w' = w
  else a = XDP_REDIRECT /\ srv_msg L (R ++ [q]) k w' /\ h_mem w' = [] /\
       h_total_incoming w' = u64 (h_total_incoming w + credit L R q d).
Proof.
  intros HL Ha Hw Hp Hm Hsz Hrt. destruct (Hp) as [Hk Hl Hq Hr Hs].
  unfold server_request. cbn zeta. rewrite Hk, Hl, Hs. destruct R as [|q0 R].
  - cbn in Hw. rewrite Hw. destruct Hrt as [->|]; [|done]. cbn [nz Z.eqb negb]. unfold id.
    destruct (decide (q ∈ [])) as [Hin|_]; [by apply not_elem_of_nil in Hin|].
    set (s0 := upd_field rs_buffer_head _ _). set (s := first_packet d s0).
    assert (Hslot : msg_slot L [q] s) by (by eapply first_packet_slot).
    assert (Hst : rs_state s = if complete_msg L [q] then BPF_RPC_IN_SERVICE else BPF_RPC_INCOMING).
    { rewrite complete_singleton by done. unfold s, first_packet. cbn zeta.
      match goal with |- context [set_bitmap ?x ?y] => pose proof (set_bitmap_fields x y) as E;
        destruct (set_bitmap x y) as [r s2] end.
      cbn [snd] in *. cbn. rewrite E. done. }
    unfold rpc_create. rewrite Hw, (proj2 (Z.ltb_lt _ _) Hsz).
    set (w1 := upd_field h_total_incoming _ _).
    pose proof (schedule_redirect L [q] cpu now k L true (L >? hc_incoming (rs_cc s))
      ((L <=? HOMA_MSS) || false) w1 Hm) as H.
    assert (Hw1 : srv_msg L [q] k w1).
    { exists s. split; [|done]. cbn. apply lookup_insert_eq. }
    specialize (H Hw1). destruct (if _ || _ then _ else _) as [a w']. destruct H as (-> & H1 & H2 & ->).
    split_and!; [done..|]. unfold w1. cbn. mach. lia.
  - destruct Hw as (s & E & Hslot & Hst). rewrite E. unfold server_update. rewrite Hs, Hl.
    replace (rs_state s =? BPF_RPC_DEAD) with false by (rewrite Hst; by split_if).
    rewrite Hq.
    pose proof (later_packet_slot k L (q0 :: R) q ip d s HL Ha Hp Hslot) as H.
    destruct (set_bitmap s q) as [c s1]. case_decide as Hin; [by subst c|].
    destruct H as (-> & Hsame & Hslot1).
    replace (b2z (complete_msg L ((q0 :: R) ++ [q])) =? -1) with false
      by (destruct (complete_msg L ((q0 :: R) ++ [q])); reflexivity).
    replace (b2z (complete_msg L ((q0 :: R) ++ [q])) =? 1) with (complete_msg L ((q0 :: R) ++ [q]))
      by (destruct (complete_msg L ((q0 :: R) ++ [q])); reflexivity).
    set (c := complete_msg L ((q0 :: R) ++ [q])) in *.
    set (s2 := if c then _ else s1).
    set (w1 := upd_field h_total_incoming _ _).
    pose proof (schedule_redirect L ((q0 :: R) ++ [q]) cpu now k L false
      (L >? hc_incoming (rs_cc (later_packet d s2))) ((L <=? HOMA_MSS) || c) w1 Hm) as H.
    assert (Hw1 : srv_msg L ((q0 :: R) ++ [q]) k w1).
    { apply (srv_msg_snoc _ _ _ _ _ (later_packet d s2)).
      - cbn. by rewrite lookup_alter_eq, E.
      - apply (msg_slot_ext _ _ (later_packet d s1)); try done; unfold s2; by destruct c.
      - fold c. unfold s2. destruct c eqn:Ec; [done|]. cbn. rewrite Hsame.
        transitivity (rs_state s); [by destruct s|]. rewrite Hst.
        enough (complete_msg L (q0 :: R) = false) as -> by done.
        apply not_true_iff_false. intros Hc. apply Hin.
        by apply (complete_all L (q0 :: R) HL Ha). }
    specialize (H Hw1). destruct (if _ || _ then _ else _) as [a w']. destruct H as (-> & H1 & H2 & ->).
    split_and!; [done..|]. unfold w1. cbn. mach. done.
Qed.

End Server.

(** ** A response at the client *)

(** After the packets [R] of the response were accepted; [B] is the request's
    first buffer, which goes back to the library at the end. *)
Definition cli_msg (L : Z) (R : list Z) (B : Z) (k : rpc_key_t) (w : homa) : Prop :=
  match R with
  | [] => exists s, h_rpc_tbl w !! k = Some s /\ rs_state s = BPF_RPC_OUTGOING /\ rs_buffer_head s = B
  | _ => if complete_msg L R then h_rpc_tbl w !! k = None
         else exists s, h_rpc_tbl w !! k = Some s /\ msg_slot L R s /\
                rs_state s = BPF_RPC_INCOMING /\ rs_buffer_head s = B
  end.

Lemma cli_msg_slot_eq L R B k w w' : opt_slot_eq (h_rpc_tbl w !! k) (h_rpc_tbl w' !! k) ->
  cli_msg L R B k w -> cli_msg L R B k w'.
Proof.
  unfold cli_msg, opt_slot_eq. intros H. destruct R as [|q R]; [|destruct (complete_msg L (q :: R))].
  - intros (s & E & H1 & H2). rewrite E in H. destruct (h_rpc_tbl w' !! k) as [t|]; [|done].
    exists t. rewrite H. by destruct s.
  - intros E. rewrite E in H. by destruct (h_rpc_tbl w' !! k).
  - intros (s & E & Hs & H1 & H2). rewrite E in H. destruct (h_rpc_tbl w' !! k) as [t|]; [|done].
    exists t. split; [done|]. rewrite H. split; [|by destruct s].
    apply (msg_slot_ext L (q :: R) s); by destruct s.
Qed.

Lemma cli_msg_snoc L R q B k w :
  (if complete_msg L (R ++ [q]) then h_rpc_tbl w !! k = None
   else exists s, h_rpc_tbl w !! k = Some s /\ msg_slot L (R ++ [q]) s /\
          rs_state s = BPF_RPC_INCOMING /\ rs_buffer_head s = B) ->
  cli_msg L (R ++ [q]) B k w.
Proof. unfold cli_msg. destruct (R ++ [q]) eqn:E; [by destruct R|]. done. Qed.

Lemma first_packet_fields d s : rs_state (first_packet d s) = rs_state s /\
  rs_buffer_head (first_packet d s) = rs_buffer_head s.
Proof.
  unfold first_packet. cbn zeta.
  match goal with |- context [set_bitmap ?x ?y] => pose proof (set_bitmap_fields x y) as E;
    destruct (set_bitmap x y) as [r s2] end.
  cbn [snd] in *. cbn. by rewrite E.
Qed.

(** The end of a client RPC. *)
Lemma finish_client_spec s k m w : let '(a, m', w') := finish_client s k m w in
  a = XDP_REDIRECT /\ reap_client_buffer_addr m' = rs_buffer_head s /\
  h_rpc_tbl w' = delete k (h_rpc_tbl w) /\ h_mem w' = h_mem w /\
  h_total_incoming w' = h_total_incoming w.
Proof.
  unfold finish_client. split_and!; try done; unfold free_qid, enqueue_dead_crpc;
    by repeat case_match.
Qed.

Section Client.
Variable lb : tree_search.

Lemma schedule_client L R B cpu now k ml ns need w : h_mem w = [] -> cli_msg L R B k w ->
  let '(a, w') := schedule lb cpu now k ml ns need w in
  a = XDP_REDIRECT /\ cli_msg L R B k w' /\ h_mem w' = [] /\ h_total_incoming w' = h_total_incoming w.
Proof.
  intros Hm Hs. pose proof (gf_schedule lb cpu now k ml ns need w) as H.
  destruct (schedule lb cpu now k ml ns need w) as [a w']. destruct H as [H Ha].
  split_and!; [auto | | by apply (gf_mem _ _ H) | ].
  - eapply cli_msg_slot_eq; [apply (gf_tbl _ _ H) | done].
  - pose proof (gf_view _ _ H) as V. unfold outer_view in V. congruence.
Qed.

(** A packet of the response; the last one ends the RPC, hands the buffers of
    the request back, and leaves [total_incoming] as it was. *)
Definition client_step (L : Z) (R : list Z) (B q : Z) (k : rpc_key_t) (d : data_header) (m : homa_rx_t)
  (w : homa) (r : xdp_action * homa_rx_t * homa) : Prop :=
  let '(a, m', w') := r in
  if decide (q ∈ R) then a = XDP_DROP /\ m' = m /\ w' = w
  else a = XDP_REDIRECT /\ cli_msg L (R ++ [q]) B k w' /\ h_mem w' = [] /\
       if complete_msg L (R ++ [q])
       then reap_client_buffer_addr m' = B /\ h_total_incoming w' = h_total_incoming w
       else m' = m /\ h_total_incoming w' = u64 (h_total_incoming w + credit L R q d).

Lemma client_first_msg cpu now k L B q ip d m w :
  msg_length_ok L -> cli_msg L [] B k w -> msg_packet k L q ip d -> h_mem w = [] ->
  client_step L [] B q k d m w (client_response lb cpu now d ip m (L <=? HOMA_MSS) w).
Proof.
  intros HL (s & E & Hst & HB) Hp Hm. destruct (Hp) as [Hk Hl Hq Hr Hs].
  unfold client_response. cbn zeta. rewrite Hk, Hl, Hs, E, Hst. cbn [Z.eqb BPF_RPC_OUTGOING BPF_RPC_DEAD].
  change (5 =? 0) with false. change (5 =? 5) with true. cbn iota.
  pose proof (complete_singleton L q HL) as Hc.
  destruct (Z.leb_spec L HOMA_MSS) as [Hle|Hgt].
  - pose proof (finish_client_spec s k m (upd_rpc k (fun s => s <| rs_state := BPF_RPC_DEAD |>) w)) as H.
    unfold client_step. destruct (finish_client _ _ _ _) as [[a m'] w']. destruct H as (-> & H2 & H3 & H4 & H5).
    destruct (decide (q ∈ [])) as [Hin|_]; [by apply not_elem_of_nil in Hin|].
    cbn [app]. rewrite Hc. split_and!; [done| |by rewrite H4|by rewrite H2|done].
    unfold cli_msg. rewrite Hc, H3. apply lookup_delete_eq.
  - set (s1 := first_packet d _). set (w1 := snd (get_pointer k _)).
    assert (Hs1 : msg_slot L [q] s1) by (by eapply first_packet_slot).
    destruct (first_packet_fields d (s <| rs_state := BPF_RPC_INCOMING |>)) as [F1 F2]. fold s1 in F1, F2.
    pose proof (schedule_client L [q] B cpu now k L true (L >? hc_incoming (rs_cc s1)) w1 Hm) as H.
    assert (Hw1 : cli_msg L [q] B k w1).
    { unfold cli_msg. rewrite Hc. exists (s1 <| rs_cc_node := None |>). split_and!.
      - unfold w1, get_pointer. cbn. by rewrite lookup_alter_eq, lookup_alter_eq, E.
      - by apply (msg_slot_ext L [q] s1).
      - exact F1.
      - change (rs_buffer_head s1 = B). rewrite F2. exact HB. }
    specialize (H Hw1). unfold client_step. destruct (schedule _ _ _ _ _ _ _ _) as [a w'].
    destruct H as (-> & H1 & H2 & H3).
    destruct (decide (q ∈ [])) as [Hin|_]; [by apply not_elem_of_nil in Hin|].
    cbn [app]. rewrite Hc. split_and!; [done..|]. rewrite H3. unfold w1. cbn. mach. lia.
Qed.

Lemma client_later_msg cpu now k L q0 R B q ip d m w :
  msg_length_ok L -> accepted L (q0 :: R) -> cli_msg L (q0 :: R) B k w -> msg_packet k L q ip d ->
  h_mem w = [] ->
  client_step L (q0 :: R) B q k d m w (client_response lb cpu now d ip m (L <=? HOMA_MSS) w).
Proof.
  intros HL Ha Hw Hp Hm. destruct (Hp) as [Hk Hl Hq Hr Hs].
  unfold client_response. cbn zeta. rewrite Hk, Hl, Hs. unfold cli_msg in Hw.
  destruct (complete_msg L (q0 :: R)) eqn:Ec.
  { rewrite Hw. unfold client_step. rewrite decide_True; [done|]. by apply (complete_all L (q0 :: R) HL Ha). }
  destruct Hw as (s & E & Hslot & Hst & HB). rewrite E, Hst.
  change (BPF_RPC_INCOMING =? BPF_RPC_DEAD) with false.
  change (BPF_RPC_INCOMING =? BPF_RPC_OUTGOING) with false. cbn iota. rewrite Hq.
  pose proof (later_packet_slot k L (q0 :: R) q ip d s HL Ha Hp Hslot) as H.
  destruct (set_bitmap s q) as [c s1]. unfold client_step.
  destruct (decide (q ∈ q0 :: R)) as [Hin|Hni]; [by subst c|].
  destruct H as (-> & Hsame & Hslot1).
  set (c := complete_msg L ((q0 :: R) ++ [q])) in *.
  assert (Hst1 : rs_state s1 = BPF_RPC_INCOMING) by (rewrite Hsame; by destruct s).
  assert (HB1 : rs_buffer_head s1 = B) by (rewrite Hsame; by destruct s).
  destruct c eqn:Hc; cbn [b2z].
  - change (1 =? -1) with false. change (1 =? 1) with true. cbn iota.
    match goal with |- context [finish_client ?a ?b ?c ?d] =>
      pose proof (finish_client_spec a b c d) as H; destruct (finish_client a b c d) as [[a' m'] w'] end.
    destruct H as (-> & H2 & H3 & H4 & H5).
    split_and!; [done| |by rewrite H4|by rewrite H2|done].
    apply cli_msg_snoc. fold c. rewrite Hc, H3. apply lookup_delete_eq.
  - change (0 =? -1) with false. change (0 =? 1) with false. cbn iota.
    set (w1 := upd_field h_total_incoming _ _).
    pose proof (schedule_client L ((q0 :: R) ++ [q]) B cpu now k L false
      (L >? hc_incoming (rs_cc (later_packet d s1))) w1 Hm) as H.
    assert (Hw1 : cli_msg L ((q0 :: R) ++ [q]) B k w1).
    { apply cli_msg_snoc. fold c. rewrite Hc. exists (later_packet d s1). split_and!; try done.
      cbn. by rewrite lookup_alter_eq, E. }
    specialize (H Hw1). destruct (schedule _ _ _ _ _ _ _ _) as [a w'].
    destruct H as (-> & H1 & H2 & ->). split_and!; [done..|]. unfold w1. cbn. mach. done.
Qed.

Lemma client_response_msg cpu now k L R B q ip d m w :
  msg_length_ok L -> accepted L R -> cli_msg L R B k w -> msg_packet k L q ip d -> h_mem w = [] ->
  client_step L R B q k d m w (client_response lb cpu now d ip m (L <=? HOMA_MSS) w).
Proof.
  destruct R as [|q0 R]; intros HL Ha Hw Hp Hm; [by apply client_first_msg | by apply client_later_msg].
Qed.

End Client.
