(* ===== verification/HomaXdp.v ===== *)
(** The XDP programs of the Homa fast path ([xdp_sock_prog] and
    [xdp_egress_prog] of [eBPF/homa/main.c], the parsers of [homa.h]), built
    without load balancing ([LB] is not defined).  A packet is modelled from its
    IP header on; the link-layer addresses are those of [Xdp].

    The theorem: over any sequence of received packets, the packets of a
    message reach the application's socket once each. *)
From stdpp Require Import gmap.
From S2P Require Import Prelude Intf Headers HomaDefs HomaRpc HomaRecv.
Local Open Scope Z_scope.

(** A frame: its IP header, the bytes between [data] and [data_end], and what
    follows the IP header, read as each of the headers it may be. *)
Record hpkt := mk_hpkt {
  hp_ip : iphdr;
  hp_len : Z;
  hp_data : data_header;
  hp_resend : Z * Z * Z;
  hp_grant : Z * Z * Z;
  hp_payload : list Z
}.

#[export] Instance eta_hpkt : Eta hpkt := fun r => mk_hpkt
  (hp_ip r) (hp_len r) (hp_data r) (hp_resend r) (hp_grant r) (hp_payload r).

Definition hp_common (p : hpkt) : common_header := d_common (hp_data p).

(** sizeof(struct ethhdr) + sizeof(struct iphdr) *)
Definition L2L3 : Z := 34.

(** ** Parsers; [None] is -1 *)
Definition homa_parse_common_hdr (p : hpkt) : option Z :=
  if L2L3 + 28 >? hp_len p then None else Some (ch_type (hp_common p)).

(** [homa_parse_data_hdr]: whether the message has one packet. *)
Definition homa_parse_data_hdr (p : hpkt) : option (data_header * bool) :=
  if L2L3 + 60 >? hp_len p then None
  else Some (hp_data p, bpf_ntohl (d_message_length (hp_data p)) <=? HOMA_MSS).

Definition homa_parse_resend_hdr (p : hpkt) : option resend_header :=
  if L2L3 + 37 >? hp_len p then None
  else let '(o, l, r) := hp_resend p in Some (mk_resend_header (hp_common p) o l r).

Definition homa_parse_grant_hdr (p : hpkt) : option grant_header :=
  if L2L3 + 34 >? hp_len p then None
  else let '(o, r, a) := hp_grant p in Some (mk_grant_header (hp_common p) o r a).

Definition homa_parse_unknown_hdr (p : hpkt) : option common_header :=
  if L2L3 + 28 >? hp_len p then None else Some (hp_common p).

Definition homa_parse_busy_hdr (p : hpkt) : option common_header :=
  if L2L3 + 28 >? hp_len p then None else Some (hp_common p).

(** ** Received packets *)

(** What a program returns: an action or a redirection to a socket. *)
Inductive hverdict := Act (a : xdp_action) | To_xsk (key : Z).

(** CPU, receive queue, outcome of [bpf_xdp_adjust_meta], clock, and outcome of
    the [bpf_xdp_adjust_tail] a control packet may need. *)
Record rx_env := mk_rx_env {
  re_cpu : Z;
  re_queue : Z;
  re_meta : bool;
  re_now : Z;
  re_tail : bool
}.

Section Receive.
Variable lower_bound : tree_search.

(** The sockets of [port_tbl]: port to CPU to key; -1 is the value of a CPU
    that has no socket. *)
Variable port_tbl : gmap Z (Z -> Z).

(** The redirection to the application's socket; [socket_id] is unsigned, so
    that the test for a negative one never holds. *)
Definition to_socket (cpu local_port : Z) : hverdict :=
  match port_tbl !! local_port with
  | None => Act XDP_DROP
  | Some target_xsk => To_xsk (u32 (target_xsk cpu))
  end.

(** The label [bypass_lb]. *)
Definition rx_data (e : rx_env) (d : data_header) (single_packet : bool) (remote_ip : Z) (m : homa_rx_t)
  (w : homa) : hverdict * homa_rx_t * homa :=
  let '(m, w) := reclaim_rpc d remote_ip m w in
  let '(a, m, w) :=
    if rpc_is_client (local_id (bpf_be64_to_cpu (ch_sender_id (d_common d))))
    then client_response lower_bound (re_cpu e) (re_now e) d remote_ip m single_packet w
    else let '(a, w) := server_request lower_bound id (re_cpu e) (re_now e) d remote_ip single_packet w in
         (a, m, w) in
  match a with
  | XDP_DROP => (Act XDP_DROP, m, w)
  | _ => (to_socket (re_cpu e) (bpf_ntohs (ch_dport (d_common d))), m, w)
  end.

(** The label [ctrl_pkt]: a control packet is answered, or goes to the socket
    of its port as the handler left it. *)
Definition rx_ctrl (e : rx_env) (p : hpkt) (remote_ip : Z) (m : homa_rx_t) (w : homa)
  : hverdict * hpkt * homa_rx_t * homa :=
  let pass p m w := (to_socket (re_cpu e) (bpf_ntohs (ch_dport (hp_common p))), p, m, w) in
  let drop m w := (Act XDP_DROP, p, m, w) in
  let type := ch_type (hp_common p) in
  if type =? RESEND then
    match homa_parse_resend_hdr p with
    | None => drop m w
    | Some h =>
      let '(ret, m, w) := resend_pkt h remote_ip m w in
      if (ret =? UNKNOWN) || (ret =? BUSY) then
        if re_tail e then
          let '(iph, c) := xmit_ctrl_pkt ret (hp_ip p) (hp_common p) in
          (Act XDP_TX, p <| hp_ip := iph |> <| hp_len ::= fun n => n + (28 - 37) |>
                         <| hp_data ::= fun d => d <| d_common := c |> |>, m, w)
        else drop m w
      else pass p m w
    end
  else if type =? UNKNOWN then
    match homa_parse_unknown_hdr p with
    | None => drop m w
    | Some c =>
      let '(_, r, m, w) := unknown_pkt (re_tail e) c remote_ip m w in
      let p := match r with
               | None => p
               | Some (c, len) =>
                 let p := p <| hp_data ::= fun d => d <| d_common := c |> |> in
                 match len with
                 | Some len => p <| hp_len ::= Z.add (37 - 28) |> <| hp_resend := (0, len, 0) |>
                 | None => p
                 end
               end in
      pass p m w
    end
  else if type =? GRANT then
    match homa_parse_grant_hdr p with
    | None => drop m w
    | Some h => pass p m (grant_pkt h remote_ip w)
    end
  else if type =? BUSY then
    match homa_parse_busy_hdr p with
    | None => drop m w
    | Some c => pass p m (busy_pkt c remote_ip w)
    end
  else drop m w.

(** [xdp_sock_prog] *)
Definition xdp_sock_prog (e : rx_env) (p : hpkt) (w : homa) : hverdict * hpkt * homa_rx_t * homa :=
  let m := mk_homa_rx_t (re_queue e) POISON_64 POISON_64 in
  let drop m w := (Act XDP_DROP, p, m, w) in
  if (re_cpu e >=? MAX_CPU) || negb (re_cpu e =? re_queue e) then drop m w else
  if negb (re_meta e) then drop m w else
  match homa_parse_common_hdr p with
  | None => drop m w
  | Some proto_type =>
    let remote_ip := bpf_ntohl (ip_saddr (hp_ip p)) in
    if proto_type =? DATA then
      match homa_parse_data_hdr p with
      | None => drop m w
      | Some (d, single_packet) =>
        let '(v, m, w) := rx_data e d single_packet remote_ip m w in (v, p, m, w)
      end
    else rx_ctrl e p remote_ip m w
  end.

End Receive.

(** ** Transmitted packets *)

(** [fill_ip_hdr] of the Homa program. *)
Definition fill_ip_hdr (iph : iphdr) (len : Z) : iphdr :=
  let iph := iph <| ip_ihl := 5 |> in
  let iph := iph <| ip_version := 4 |> in
  let iph := iph <| ip_tot_len := bpf_htons (u16 (len - 14)) |> in
  let iph := iph <| ip_id := bpf_htons 0 |> in
  let iph := iph <| ip_frag_off := 0 |> in
  let iph := iph <| ip_ttl := 0xff |> in
  let csum := ipv4_csum_inline iph 0 in
  iph <| ip_check := u16 csum |>.

(** The metadata of a packet the library transmits. *)
Record homa_tx_t := mk_homa_tx_t { ht_slowpath : Z; ht_buffer_addr : Z }.

(** Where a transmitted packet goes: to the wire, or to a queue of the rate
    limiter. *)
Inductive egress_verdict := E_act (a : xdp_action) | E_queue (qid : Z).

Definition IPPROTO_HOMA : Z := 0xFD.

(** [xdp_egress_prog]; [meta] is [None] when the metadata cannot be read. *)
Definition xdp_egress_prog (e : egress_env) (meta : option homa_tx_t) (p : hpkt) (w : homa)
  : option (egress_verdict * hpkt * homa) :=
  let drop := Some (E_act XDP_DROP, p, w) in
  match meta with
  | None => drop
  | Some meta =>
    if L2L3 + 60 >? hp_len p then drop else
    if negb (ip_protocol (hp_ip p) =? IPPROTO_HOMA) then drop else
    if nz (ht_slowpath meta) then Some (E_act XDP_TX, p, w) else
    if negb (ch_type (hp_common p) =? DATA) then drop else
    let d := hp_data p in
    if nz (d_retransmit d) then Some (E_act XDP_TX, p, w) else
    let handler := if rpc_is_client (bpf_be64_to_cpu (ch_sender_id (d_common d)))
                   then client_request else server_response in
    match handler e (hp_ip p) d (ht_buffer_addr meta) w with
    | None => None
    | Some (o, w) =>
      let set_hdr ack := p <| hp_ip := fill_ip_hdr (eo_ip o) (hp_len p) |>
          <| hp_data := (eo_data o) <| d_seg ::= fun s => s <| seg_ack := ack |> |> |> in
      match eo_action o with
      | XDP_TX | XDP_REDIRECT =>
        let '(dead_crpc, w) := dequeue_dead_crpc (bpf_ntohl (ip_daddr (hp_ip p))) w in
        let ack := match dead_crpc with
                   | Some c => mk_homa_ack (bpf_cpu_to_be64 (dc_rpcid c)) (bpf_htons (dc_local_port c))
                                 (bpf_htons (dc_remote_port c))
                   | None => mk_homa_ack 0 0 0
                   end in
        match eo_action o with
        | XDP_TX => Some (E_act XDP_TX, set_hdr ack, w)
        | _ => Some (E_queue (eo_qid o), set_hdr ack, if eo_trigger o then kick_pacer w else w)
        end
      | _ => Some (E_act XDP_DROP, p <| hp_ip := eo_ip o |> <| hp_data := eo_data o |>, w)
      end
    end
  end.

(** *** What the egress program leaves alone *)

(** The fields of a data packet that are not for the egress program to write. *)
Definition same_hdr (iph : iphdr) (d : data_header) (iph' : iphdr) (d' : data_header) : Prop :=
  ip_saddr iph' = ip_saddr iph /\ d_common d' = d_common d /\ d_message_length d' = d_message_length d /\
  d_unused1 d' = d_unused1 d /\ d_retransmit d' = d_retransmit d /\
  seg_offset (d_seg d') = seg_offset (d_seg d) /\ segment_length (d_seg d') = segment_length (d_seg d).

Definition same_segment (p p' : hpkt) : Prop :=
  same_hdr (hp_ip p) (hp_data p) (hp_ip p') (hp_data p') /\ hp_payload p' = hp_payload p /\ hp_len p' = hp_len p.

Lemma throttle_same e iph d granted w : same_hdr iph d (eo_ip (fst (throttle_packet e iph d granted w)))
  (eo_data (fst (throttle_packet e iph d granted w))).
Proof.
  unfold throttle_packet. cbn zeta. split_if; [|done].
  destruct (allocate_qid _) as [qid w1]. split_if; [done|]. by destruct (bpf_obj_new _) as [[n|] w2].
Qed.

Lemma send_or_throttle_same e iph d s w o w' : send_or_throttle e iph d s w = Some (o, w') ->
  same_hdr iph d (eo_ip o) (eo_data o).
Proof.
  unfold send_or_throttle. cbn zeta. case_match; [|done].
  set (iph' := set_prio _ _). set (d' := d <| d_incoming := _ |>).
  assert (Ht : forall g w1, throttle_packet e iph' d' g w1 = (o, w') -> same_hdr iph d (eo_ip o) (eo_data o)).
  { intros g w1 E. pose proof (throttle_same e iph' d' g w1) as Hs. rewrite E in Hs. exact Hs. }
  split_if.
  - match goal with |- context [let '(send, w) := ?x in _] => destruct x as [send w1] end.
    split_if; intros [= E]; [by subst o | by eapply Ht].
  - intros [= E]. by eapply Ht.
Qed.

Lemma client_request_same e iph d b w o w' : client_request e iph d b w = Some (o, w') ->
  same_hdr iph d (eo_ip o) (eo_data o).
Proof.
  unfold client_request. cbn zeta.
  assert (Hrest : forall w1, match h_rpc_tbl w1 !! tx_key iph d with
      | None => Some (mk_egress_out XDP_DROP iph d MAX_BUCKET_SIZE false, w1)
      | Some s => send_or_throttle e iph d s w1 end = Some (o, w') -> same_hdr iph d (eo_ip o) (eo_data o)).
  { intros w1. case_match; [apply send_or_throttle_same|]. by intros [= <- _]. }
  split_if; [|apply Hrest]. case_match; [|by intros [= <- _]].
  split_if; [by intros [= <- _]|]. apply Hrest.
Qed.

Lemma server_response_same e iph d b w o w' : server_response e iph d b w = Some (o, w') ->
  same_hdr iph d (eo_ip o) (eo_data o).
Proof.
  unfold server_response. cbn zeta. case_match; [|by intros [= <- _]].
  split_if; [split_if; [by intros [= <- _]|]|]; apply send_or_throttle_same.
Qed.

Lemma egress_same e meta p w v p' w' : xdp_egress_prog e meta p w = Some (v, p', w') -> same_segment p p'.
Proof.
  assert (Hself : same_segment p p) by done.
  unfold xdp_egress_prog. destruct meta as [meta|]; [|by intros [= _ <- _]].
  do 5 (split_if; [by intros [= _ <- _]|]).
  destruct ((if rpc_is_client _ then _ else _) e (hp_ip p) (hp_data p) (ht_buffer_addr meta) w) as [[o w1]|] eqn:E;
    [|done].
  assert (Hs : same_hdr (hp_ip p) (hp_data p) (eo_ip o) (eo_data o)).
  { revert E. split_if; [apply client_request_same | apply server_response_same]. }
  destruct (dequeue_dead_crpc _ w1) as [dead w2].
  destruct (eo_action o); intros [= _ <- _]; (split; [exact Hs | done]).
Qed.

(** ** Exactly once *)

Definition pkt_ip (p : hpkt) : Z := bpf_ntohl (ip_saddr (hp_ip p)).
Definition pkt_key (p : hpkt) : rpc_key_t := rx_key (hp_common p) (pkt_ip p).
Definition pkt_seq (p : hpkt) : Z := bpf_ntohs (ch_seq (hp_common p)).

(** A data packet of the RPC [k]. *)
Definition data_of (k : rpc_key_t) (p : hpkt) : bool :=
  (ch_type (hp_common p) =? DATA) && bool_decide (pkt_key p = k).

(** What may arrive while the message of [L] bytes of RPC [k] is received: a
    packet of another RPC, a packet of the message, or a control packet other
    than UNKNOWN for [k]; none acknowledges [k]. *)
Inductive arrival (k : rpc_key_t) (L : Z) (e : rx_env) (p : hpkt) : Prop :=
| arr_other : pkt_key p <> k ->
    (ch_type (hp_common p) = DATA -> acked (hp_data p) (pkt_ip p) <> k) -> arrival k L e p
| arr_data : ch_type (hp_common p) = DATA -> L2L3 + 60 <= hp_len p ->
    msg_packet k L (pkt_seq p) (pkt_ip p) (hp_data p) -> acked (hp_data p) (pkt_ip p) <> k ->
    re_cpu e < MAX_CPU -> re_cpu e = re_queue e -> re_meta e = true -> arrival k L e p
| arr_ctrl : pkt_key p = k -> ch_type (hp_common p) ∈ [RESEND; GRANT; BUSY] -> arrival k L e p.

(** A run of the program over the packets received, with its verdicts. *)
Fixpoint rx_run (lb : tree_search) (ports : gmap Z (Z -> Z)) (l : list (rx_env * hpkt)) (w : homa)
  : list (hverdict * homa_rx_t) * homa :=
  match l with
  | [] => ([], w)
  | (e, p) :: l =>
    let '(v, _, m, w) := xdp_sock_prog lb ports e p w in
    let '(vs, w) := rx_run lb ports l w in ((v, m) :: vs, w)
  end.

(** The packets of [k] passed to a socket, in order. *)
Definition passed (k : rpc_key_t) (x : (rx_env * hpkt) * (hverdict * homa_rx_t)) : option Z :=
  let '((_, p), (v, _)) := x in
  match v with
  | To_xsk _ => if data_of k p then Some (pkt_seq p) else None
  | Act _ => None
  end.

Definition delivered (k : rpc_key_t) (l : list (rx_env * hpkt)) (vs : list (hverdict * homa_rx_t)) : list Z :=
  omap (passed k) (zip l vs).

(** *** The size of the table *)
Lemma size_others k w w' : others_kept k w w' -> (size (h_rpc_tbl w') <= S (size (h_rpc_tbl w)))%nat.
Proof.
  intros [T _].
  assert (Hd : dom (h_rpc_tbl w') ⊆ dom (h_rpc_tbl w) ∪ {[k]}).
  { intros j Hj. apply elem_of_dom in Hj as [s Hs]. destruct (decide (j = k)) as [->|Hne]; [set_solver|].
    specialize (T j Hne). rewrite Hs in T. unfold opt_slot_eq in T.
    destruct (h_rpc_tbl w !! j) as [t|] eqn:E; [|done]. apply elem_of_union_l, elem_of_dom. eauto. }
  rewrite <- !size_dom. apply subseteq_size in Hd. etrans; [exact Hd|]. rewrite size_union_alt.
  assert (size ({[k]} ∖ dom (h_rpc_tbl w)) <= 1)%nat; [|lia].
  etrans; [apply subseteq_size; apply (subseteq_difference_l {[k]})|]; [done|]. by rewrite size_singleton.
Qed.

Lemma size_reclaim d ip m w : (size (h_rpc_tbl (snd (reclaim_rpc d ip m w))) <= size (h_rpc_tbl w))%nat.
Proof.
  unfold reclaim_rpc. cbn zeta. split_if; [done|]. destruct (h_rpc_tbl w !! _) as [s|]; [|done].
  split_if; [done|]. cbn [snd get_pointer].
  match goal with |- (size (h_rpc_tbl (upd_field _ (delete ?k) ?v)) <= _)%nat =>
    assert (H1 : (size (delete k (h_rpc_tbl v)) <= size (h_rpc_tbl v))%nat)
      by (rewrite map_size_delete; case_match; unfold id; lia);
    etrans; [exact H1|] end.
  cbn. rewrite size_alter. unfold free_qid. repeat case_match; cbn; by rewrite size_alter.
Qed.

(** *** Control packets *)
Lemma ok_kick k w : others_kept k w (kick_pacer w).
Proof. apply ok_inner; unfold kick_pacer; by split_if. Qed.

Lemma ok_resend h ip m w : others_kept (rx_key (r_common h) ip) w (snd (resend_pkt h ip m w)).
Proof.
  unfold resend_pkt. set (k := rx_key _ ip). cbn zeta. destruct (h_rpc_tbl w !! k) as [s|]; [|apply ok_refl].
  split_if; [apply ok_refl|].
  match goal with |- context [let '(ret, need_kick) := ?x in _] => destruct x as [ret kick] end.
  split_if; cbn [snd]; (destruct kick; [eapply ok_trans; [|apply ok_kick]|]);
    first [apply ok_refl | apply ok_upd].
Qed.

Lemma ok_unknown g c ip m w : others_kept (rx_key c ip) w (snd (unknown_pkt g c ip m w)).
Proof.
  unfold unknown_pkt. cbn zeta. destruct (h_rpc_tbl w !! _) as [s|]; [|apply ok_refl].
  repeat split_if; cbn [snd]; try apply ok_refl; apply ok_delete.
Qed.

Lemma ok_busy c ip w : others_kept (rx_key c ip) w (busy_pkt c ip w).
Proof.
  unfold busy_pkt. cbn zeta. destruct (h_rpc_tbl w !! _) as [s|]; [|apply ok_refl].
  split_if; [apply ok_refl | apply ok_upd].
Qed.

Lemma ok_grant h ip w : others_kept (rx_key (g_common h) ip) w (grant_pkt h ip w).
Proof.
  unfold grant_pkt. set (k := rx_key _ ip). cbn zeta. destruct (h_rpc_tbl w !! k) as [s|]; [|apply ok_refl].
  split_if; [apply ok_refl|]. set (w1 := upd_rpc k _ w). assert (H1 : others_kept k w w1) by apply ok_upd.
  eapply ok_trans; [exact H1|]. split_if; [|apply ok_kick].
  set (w2 := upd_rpc k _ w1). assert (H2 : others_kept k w1 w2) by apply ok_upd.
  eapply ok_trans; [exact H2|]. split_if; [apply ok_kick|]. unfold get_pointer.
  set (w3 := upd_rpc k _ w2). assert (H3 : others_kept k w2 w3) by apply ok_upd.
  eapply ok_trans; [exact H3|]. destruct (h_rpc_tbl w2 !! k ≫= rs_cc_node) as [n|]; [|apply ok_kick].
  eapply ok_trans; [|apply ok_kick]. eapply ok_trans; [|apply ok_upd].
  destruct (bpf_rbtree_add _ _ _ _); [by apply ok_inner | apply ok_refl].
Qed.

Section Once.
Variables (lb : tree_search) (ports : gmap Z (Z -> Z)).

Lemma ok_ctrl e p m w : others_kept (pkt_key p) w (snd (rx_ctrl ports e p (pkt_ip p) m w)).
Proof.
  unfold rx_ctrl, pkt_key. cbn zeta. destruct (_ =? RESEND); [|destruct (_ =? UNKNOWN);
    [|destruct (_ =? GRANT); [|destruct (_ =? BUSY); [|apply ok_refl]]]].
  - unfold homa_parse_resend_hdr. split_if; [apply ok_refl|]. destruct (hp_resend p) as [[o l] r].
    pose proof (ok_resend (mk_resend_header (hp_common p) o l r) (pkt_ip p) m w) as H.
    destruct (resend_pkt _ _ _ _) as [[ret m'] w']. cbn [snd r_common] in H. repeat split_if; exact H.
  - unfold homa_parse_unknown_hdr. split_if; [apply ok_refl|].
    pose proof (ok_unknown (re_tail e) (hp_common p) (pkt_ip p) m w) as H.
    destruct (unknown_pkt _ _ _ _ _) as [[[ret r] m'] w']. exact H.
  - unfold homa_parse_grant_hdr. split_if; [apply ok_refl|]. destruct (hp_grant p) as [[o r] a].
    exact (ok_grant (mk_grant_header (hp_common p) o r a) (pkt_ip p) w).
  - unfold homa_parse_busy_hdr. split_if; [apply ok_refl|]. exact (ok_busy (hp_common p) (pkt_ip p) w).
Qed.

Variables (k : rpc_key_t) (L : Z).
Hypothesis server : rpc_is_client (rk_rpcid k) = false.

(** A control packet that is not UNKNOWN leaves a request at the server as it
    is. *)
Lemma ctrl_server_kept e p m R w : srv_msg L R k w -> pkt_key p = k ->
  ch_type (hp_common p) ∈ [RESEND; GRANT; BUSY] ->
  srv_msg L R k (snd (rx_ctrl ports e p (pkt_ip p) m w)).
Proof.
  intros Hs Hk Ht. unfold rx_ctrl. cbn zeta. unfold pkt_key in Hk.
  assert (Hnot : forall s, h_rpc_tbl w !! k = Some s -> rs_state s =? BPF_RPC_OUTGOING = false).
  { intros s E. unfold srv_msg in Hs. destruct R as [|q R]; [congruence|].
    destruct Hs as (t & E' & _ & Hst). rewrite E in E'. injection E' as <-. rewrite Hst. by split_if. }
  rewrite !elem_of_cons in Ht. destruct Ht as [->|[->|[->|Ht]]]; [| | |by apply not_elem_of_nil in Ht].
  - unfold homa_parse_resend_hdr. rewrite Z.eqb_refl. split_if; [done|]. destruct (hp_resend p) as [[o l] r].
    assert (E : snd (resend_pkt (mk_resend_header (hp_common p) o l r) (pkt_ip p) m w) = w).
    { unfold resend_pkt. cbn [r_common]. rewrite Hk. destruct (h_rpc_tbl w !! k) as [s|] eqn:E; [|done].
      split_if; [done|]. rewrite server, (Hnot s eq_refl). cbn [negb andb]. by split_if. }
    destruct (resend_pkt _ _ _ _) as [[ret m'] w']. cbn [snd] in E. subst w'. repeat split_if; done.
  - change (GRANT =? RESEND) with false. change (GRANT =? UNKNOWN) with false. rewrite Z.eqb_refl. cbn iota.
    unfold homa_parse_grant_hdr. split_if; [done|]. destruct (hp_grant p) as [[o r] a]. cbn [snd].
    unfold grant_pkt. cbn [g_common]. rewrite Hk. destruct (h_rpc_tbl w !! k) as [s|] eqn:E; [|done].
    by rewrite (Hnot s eq_refl).
  - change (BUSY =? RESEND) with false. change (BUSY =? UNKNOWN) with false.
    change (BUSY =? GRANT) with false. rewrite Z.eqb_refl. cbn iota.
    unfold homa_parse_busy_hdr. split_if; [done|]. cbn [snd]. unfold busy_pkt. rewrite Hk.
    destruct (h_rpc_tbl w !! k) as [s|] eqn:E; [|done]. split_if; [done|].
    unfold srv_msg in *. destruct R as [|q R]; [congruence|].
    destruct Hs as (t & E' & Ht & Hst). rewrite E in E'. injection E' as <-.
    exists (s <| rs_busy_count := u8 (rs_busy_count s + 1) |>). split; [cbn; by rewrite lookup_alter_eq, E|].
    split; [by apply (msg_slot_ext _ _ s) | exact Hst].
Qed.

(** The packets accepted after [p] arrived: a retransmitted packet does not
    start a message. *)
Definition accept (R : list Z) (p : hpkt) : list Z :=
  if data_of k p && negb (bool_decide (pkt_seq p ∈ R))
     && ((d_retransmit (hp_data p) =? 0) || bool_decide (R <> []))
  then R ++ [pkt_seq p] else R.

Definition accept_all (R : list Z) (l : list (rx_env * hpkt)) : list Z :=
  foldl (fun R x => accept R (snd x)) R l.

Lemma accept_all_cons R e p l : accept_all R ((e, p) :: l) = accept_all (accept R p) l.
Proof. done. Qed.

(** What a packet does to the message. *)
Definition sock_step (R : list Z) (e : rx_env) (p : hpkt) (w : homa)
  (r : hverdict * hpkt * homa_rx_t * homa) : Prop :=
  let '(v, _, m, w') := r in
  srv_msg L (accept R p) k w' /\ accepted L (accept R p) /\ h_mem w' = [] /\
  (size (h_rpc_tbl w') <= S (size (h_rpc_tbl w)))%nat /\
  accept R p = R ++ from_option (fun q => [q]) [] (passed k ((e, p), (v, m))).

Hypothesis length_ok : msg_length_ok L.
Variable target : Z -> Z.
Hypothesis port : ports !! rk_local_port k = Some target.

Lemma accept_same R p : data_of k p = false -> accept R p = R.
Proof. unfold accept. by intros ->. Qed.

Lemma passed_none e p v m : data_of k p = false -> passed k ((e, p), (v, m)) = None.
Proof. cbn. intros ->. by destruct v. Qed.

Lemma step_unchanged R e p v p' m w w' : accepted L R -> srv_msg L R k w' -> h_mem w' = [] ->
  (size (h_rpc_tbl w') <= S (size (h_rpc_tbl w)))%nat ->
  data_of k p = false -> sock_step R e p w (v, p', m, w').
Proof.
  intros Ha Hs Hm Hz Hd. unfold sock_step. rewrite accept_same, passed_none by done.
  split_and!; try done. by rewrite app_nil_r.
Qed.

Lemma rx_data_others e d sp ip m w j : j <> rx_key (d_common d) ip -> j <> acked d ip ->
  opt_slot_eq (h_rpc_tbl w !! j) (h_rpc_tbl (snd (rx_data lb ports e d sp ip m w)) !! j) /\
  (h_mem w = [] -> h_mem (snd (rx_data lb ports e d sp ip m w)) = []) /\
  (size (h_rpc_tbl (snd (rx_data lb ports e d sp ip m w))) <= S (size (h_rpc_tbl w)))%nat.
Proof.
  intros Hj1 Hj2. unfold rx_data.
  pose proof (ok_reclaim d ip m w) as H1. pose proof (size_reclaim d ip m w) as Z1.
  destruct (reclaim_rpc d ip m w) as [m1 w1]. cbn [snd] in *.
  set (r := if rpc_is_client _ then _ else _).
  assert (H2 : others_kept (rx_key (d_common d) ip) w1 (snd r)).
  { unfold r. split_if; [apply ok_client_response|].
    pose proof (ok_server_request lb (re_cpu e) (re_now e) d ip sp w1) as H.
    by destruct (server_request _ _ _ _ _ _ _ _). }
  pose proof (size_others _ _ _ H2) as Z2.
  destruct r as [[a m2] w2]. cbn [snd] in *.
  assert (Hw : snd (match a with XDP_DROP => (Act XDP_DROP, m2, w2)
    | _ => (to_socket ports (re_cpu e) (bpf_ntohs (ch_dport (d_common d))), m2, w2) end) = w2) by (by destruct a).
  rewrite Hw. split_and!; [|intros E; apply (ok_mem _ _ _ H2), (ok_mem _ _ _ H1), E|lia].
  eapply opt_slot_eq_trans; [by apply (ok_tbl _ _ _ H1) | by apply (ok_tbl _ _ _ H2)].
Qed.

(** A packet of another RPC. *)
Lemma sock_step_other R e p w : accepted L R -> srv_msg L R k w -> h_mem w = [] ->
  pkt_key p <> k -> (ch_type (hp_common p) = DATA -> acked (hp_data p) (pkt_ip p) <> k) ->
  sock_step R e p w (xdp_sock_prog lb ports e p w).
Proof.
  intros Ha Hs Hm Hk Hack.
  assert (Hd : data_of k p = false) by (unfold data_of; rewrite (bool_decide_eq_false_2 (pkt_key p = k)) by done; apply andb_false_r).
  assert (Hself : forall m, sock_step R e p w (Act XDP_DROP, p, m, w))
    by (intros; apply step_unchanged; auto).
  unfold xdp_sock_prog. cbn zeta. fold (pkt_ip p). destruct (_ || _); [apply Hself|].
  destruct (negb (re_meta e)); [apply Hself|].
  unfold homa_parse_common_hdr. destruct (_ >? _); [apply Hself|].
  destruct (Z.eqb_spec (ch_type (hp_common p)) DATA) as [Et|Et].
  - unfold homa_parse_data_hdr. destruct (_ >? _); [apply Hself|].
    pose proof (rx_data_others e (hp_data p) (bpf_ntohl (d_message_length (hp_data p)) <=? HOMA_MSS)
      (pkt_ip p) (mk_homa_rx_t (re_queue e) POISON_64 POISON_64) w k (not_eq_sym Hk) (not_eq_sym (Hack Et))) as H.
    destruct (rx_data _ _ _ _ _ _ _ _) as [[v m] w']. cbn [snd] in H. destruct H as (H1 & H2 & H3).
    apply step_unchanged; [done| |auto|done|done]. by eapply srv_msg_slot_eq.
  - pose proof (ok_ctrl e p (mk_homa_rx_t (re_queue e) POISON_64 POISON_64) w) as H.
    destruct (rx_ctrl _ _ _ _ _ _) as [[[v p'] m] w']. cbn [snd] in H.
    apply step_unchanged; [done| |by apply (ok_mem _ _ _ H)|by eapply size_others|done].
    eapply srv_msg_slot_eq; [|done]. apply (ok_tbl _ _ _ H). congruence.
Qed.

Lemma sock_step_ctrl R e p w : accepted L R -> srv_msg L R k w -> h_mem w = [] -> pkt_key p = k ->
  ch_type (hp_common p) ∈ [RESEND; GRANT; BUSY] -> sock_step R e p w (xdp_sock_prog lb ports e p w).
Proof.
  intros Ha Hs Hm Hk Ht.
  assert (Hnd : ch_type (hp_common p) =? DATA = false).
  { rewrite !elem_of_cons in Ht. destruct Ht as [->|[->|[->|Ht]]]; try done. by apply not_elem_of_nil in Ht. }
  assert (Hd : data_of k p = false) by (unfold data_of; by rewrite Hnd).
  assert (Hself : forall m, sock_step R e p w (Act XDP_DROP, p, m, w))
    by (intros; apply step_unchanged; auto).
  unfold xdp_sock_prog. cbn zeta. fold (pkt_ip p). destruct (_ || _); [apply Hself|].
  destruct (negb (re_meta e)); [apply Hself|].
  unfold homa_parse_common_hdr. destruct (_ >? _); [apply Hself|]. rewrite Hnd.
  pose proof (ok_ctrl e p (mk_homa_rx_t (re_queue e) POISON_64 POISON_64) w) as H.
  pose proof (ctrl_server_kept e p (mk_homa_rx_t (re_queue e) POISON_64 POISON_64) R w Hs Hk Ht) as H2.
  destruct (rx_ctrl _ _ _ _ _ _) as [[[v p'] m] w']. cbn [snd] in *.
  apply step_unchanged; [done|done|by apply (ok_mem _ _ _ H)|by eapply size_others|done].
Qed.

(** A retransmitted packet of an unknown message is dropped. *)
Lemma server_retransmit cpu now d ip sp w : h_rpc_tbl w !! rx_key (d_common d) ip = None ->
  nz (d_retransmit d) = true -> server_request lb id cpu now d ip sp w = (XDP_DROP, w).
Proof. intros E Hr. unfold server_request. by rewrite E, Hr. Qed.

(** A packet of the message. *)
Lemma sock_step_data R e p w : accepted L R -> srv_msg L R k w -> h_mem w = [] ->
  Z.of_nat (size (h_rpc_tbl w)) < MAX_RPC_TBL_SIZE -> ch_type (hp_common p) = DATA -> L2L3 + 60 <= hp_len p ->
  msg_packet k L (pkt_seq p) (pkt_ip p) (hp_data p) -> acked (hp_data p) (pkt_ip p) <> k ->
  re_cpu e < MAX_CPU -> re_cpu e = re_queue e -> re_meta e = true ->
  sock_step R e p w (xdp_sock_prog lb ports e p w).
Proof.
  intros Ha Hs Hm Hz Et Hlen Hp Hack Hcpu Hq Hmeta.
  assert (Hkey : rx_key (d_common (hp_data p)) (pkt_ip p) = k) by apply Hp.
  assert (Hd : data_of k p = true).
  { unfold data_of. rewrite Et. cbn [Z.eqb andb]. by apply bool_decide_eq_true. }
  unfold xdp_sock_prog. cbn zeta. fold (pkt_ip p).
  replace (re_cpu e >=? MAX_CPU) with false by (symmetry; rewrite Z.geb_leb; apply Z.leb_gt; lia).
  rewrite <- Hq, Z.eqb_refl, Hmeta. cbn [orb negb].
  unfold homa_parse_common_hdr, homa_parse_data_hdr.
  replace (L2L3 + 28 >? hp_len p) with false by (symmetry; rewrite Z.gtb_ltb; apply Z.ltb_ge; lia).
  replace (L2L3 + 60 >? hp_len p) with false by (symmetry; rewrite Z.gtb_ltb; apply Z.ltb_ge; lia).
  rewrite Et, Z.eqb_refl, (mp_length _ _ _ _ _ Hp).
  unfold rx_data. set (m0 := mk_homa_rx_t _ _ _).
  pose proof (ok_reclaim (hp_data p) (pkt_ip p) m0 w) as H1.
  pose proof (size_reclaim (hp_data p) (pkt_ip p) m0 w) as Z1.
  destruct (reclaim_rpc (hp_data p) (pkt_ip p) m0 w) as [m1 w1]. cbn [snd] in *.
  assert (Hs1 : srv_msg L R k w1)
    by (eapply srv_msg_slot_eq; [apply (ok_tbl _ _ _ H1); congruence | done]).
  pose proof (ok_mem _ _ _ H1 Hm) as Hm1.
  replace (rpc_is_client (local_id (bpf_be64_to_cpu (ch_sender_id (d_common (hp_data p)))))) with false
    by (rewrite <- server, <- Hkey; done).
  assert (Hport : bpf_ntohs (ch_dport (d_common (hp_data p))) = rk_local_port k) by (by rewrite <- Hkey).
  unfold sock_step, accept. rewrite Hd. cbn [andb].
  destruct ((d_retransmit (hp_data p) =? 0) || bool_decide (R <> [])) eqn:Hrt.
  - pose proof (server_request_msg lb (re_cpu e) (re_now e) k L R (pkt_seq p) (pkt_ip p) (hp_data p) w1
      length_ok Ha Hs1 Hp Hm1 ltac:(lia)) as H.
    pose proof (ok_server_request lb (re_cpu e) (re_now e) (hp_data p) (pkt_ip p) (L <=? HOMA_MSS) w1) as H2.
    destruct (server_request _ _ _ _ _ _ _ _) as [a w2]. cbn [snd] in H2. apply size_others in H2.
    assert (Hc : d_retransmit (hp_data p) = 0 \/ R <> []).
    { apply orb_true_iff in Hrt as [Hrt|Hrt]; [left; by apply Z.eqb_eq | right; by apply bool_decide_eq_true in Hrt]. }
    specialize (H Hc). destruct (decide (pkt_seq p ∈ R)) as [Hin|Hni].
    + destruct H as [-> ->]. rewrite (bool_decide_eq_true_2 (pkt_seq p ∈ R)) by done. cbn [negb andb].
      split_and!; [done|done|done|lia|]. by rewrite app_nil_r.
    + destruct H as (-> & H3 & H4 & _). rewrite (bool_decide_eq_false_2 (pkt_seq p ∈ R)) by done. cbn [negb andb].
      split_and!; [done|apply accepted_snoc; [done|apply Hp|done]|done|lia|].
      unfold to_socket. rewrite Hport, port. cbn. by rewrite Hd.
  - apply orb_false_iff in Hrt as [Hrt HR]. apply bool_decide_eq_false in HR.
    assert (R = []) as -> by (destruct R; [done | exfalso; apply HR; done]).
    rewrite server_retransmit; [|by rewrite Hkey|unfold nz; by rewrite Hrt].
    rewrite andb_false_r. split_and!; [done|done|done|lia|]. done.
Qed.

Lemma sock_step_ok R e p w : accepted L R -> srv_msg L R k w -> h_mem w = [] ->
  Z.of_nat (size (h_rpc_tbl w)) < MAX_RPC_TBL_SIZE -> arrival k L e p ->
  sock_step R e p w (xdp_sock_prog lb ports e p w).
Proof.
  intros Ha Hs Hm Hz [H1 H2|H1 H2 H3 H4 H5 H6 H7|H1 H2];
    [by apply sock_step_other | by apply sock_step_data | by apply sock_step_ctrl].
Qed.

Lemma rx_run_ok l R w : accepted L R -> srv_msg L R k w -> h_mem w = [] ->
  Z.of_nat (size (h_rpc_tbl w) + length l) <= MAX_RPC_TBL_SIZE -> Forall (fun '(e, p) => arrival k L e p) l ->
  let '(vs, w') := rx_run lb ports l w in
  let R' := accept_all R l in
  srv_msg L R' k w' /\ accepted L R' /\ R' = R ++ delivered k l vs.
Proof.
  revert R w. induction l as [|[e p] l IH]; intros R w Ha Hs Hm Hz Hl.
  { cbn. split_and!; [done..|]. by rewrite app_nil_r. }
  apply list.Forall_cons in Hl as [Hp Hl]. cbn [length] in Hz.
  pose proof (sock_step_ok R e p w Ha Hs Hm ltac:(lia) Hp) as H.
  cbn [rx_run]. rewrite accept_all_cons. destruct (xdp_sock_prog lb ports e p w) as [[[v p'] m] w1].
  destruct H as (H1 & H2 & H3 & H4 & H5).
  specialize (IH (accept R p) w1 H2 H1 H3 ltac:(lia) Hl).
  destruct (rx_run lb ports l w1) as [vs w2]. destruct IH as (I1 & I2 & I3).
  split_and!; [done..|]. rewrite I3. rewrite H5 at 1. rewrite <- app_assoc. f_equal.
  unfold delivered. cbn [zip zip_with omap list_omap]. by destruct (passed k _).
Qed.

(** The packets accepted are those that arrived. *)
Lemma accept_sub l R q : q ∈ accept_all R l ->
  q ∈ R \/ exists e p, (e, p) ∈ l /\ data_of k p = true /\ pkt_seq p = q.
Proof.
  revert R. induction l as [|[e p] l IH]; intros R; [by left|]. rewrite accept_all_cons. intros H.
  destruct (IH _ H) as [Hq|(e' & p' & Hin & Hd & Hq)].
  - unfold accept in Hq. destruct (data_of k p) eqn:Hd; [|by left]. split_if; [|by left].
    apply elem_of_app in Hq as [Hq|Hq]; [by left|]. apply list_elem_of_singleton in Hq as ->.
    right. exists e, p. split; [left|done].
  - right. exists e', p'. split; [by right|done].
Qed.

Lemma accept_mono l R q : q ∈ R -> q ∈ accept_all R l.
Proof.
  revert R. induction l as [|[e p] l IH]; intros R Hq; [done|]. rewrite accept_all_cons. apply IH.
  unfold accept. split_if; [|done]. apply elem_of_app. by left.
Qed.

Lemma accept_sup l R e p : (e, p) ∈ l -> data_of k p = true -> d_retransmit (hp_data p) = 0 ->
  pkt_seq p ∈ accept_all R l.
Proof.
  revert R. induction l as [|[e' p'] l IH]; intros R Hin Hd Hr; [by apply not_elem_of_nil in Hin|].
  rewrite accept_all_cons. apply elem_of_cons in Hin as [[= -> ->]|Hin]; [|by apply IH].
  apply accept_mono. unfold accept. rewrite Hd, Hr. cbn [andb Z.eqb orb].
  destruct (decide (pkt_seq p' ∈ R)) as [Hq|Hq].
  - by rewrite (bool_decide_eq_true_2 _ Hq).
  - rewrite (bool_decide_eq_false_2 _ Hq). cbn. apply elem_of_app. right. left.
Qed.

End Once.

(** C13. A Homa request is received once, until something ends its RPC.  Let a
    request arrive at the XDP program of a host whose table does not hold the
    RPC and has room, and whose objects can be allocated: packets of the
    message in any order, on the queue of their CPU, repeated and retransmitted,
    RESEND, GRANT and BUSY packets for it, and anything for other RPCs, but no
    UNKNOWN packet for the RPC and no packet that acknowledges it.  Then each
    packet of the request is passed to the application's socket at most once,
    every packet that arrived as an original transmission is passed, and the
    slot of the RPC ends in the state of the packets passed: absent when there
    is none, in service when all of them were passed and incoming before, with
    the bytes still missing in [bytes_remaining].  An UNKNOWN packet or an
    acknowledgement deletes the RPC, and a packet that comes again after it is
    passed again ([ended_request_passed_again]). *)
Theorem homa_request_once (lb : tree_search) (ports : gmap Z (Z -> Z)) (target : Z -> Z) (k : rpc_key_t)
  (L : Z) (l : list (rx_env * hpkt)) (w : homa)
  (Hserver : rpc_is_client (rk_rpcid k) = false) (HL : msg_length_ok L)
  (Hport : ports !! rk_local_port k = Some target)
  (Hnew : h_rpc_tbl w !! k = None) (Hmem : h_mem w = [])
  (Hroom : Z.of_nat (size (h_rpc_tbl w) + length l) <= MAX_RPC_TBL_SIZE)
  (Harr : Forall (fun '(e, p) => arrival k L e p) l) :
  let '(vs, w') := rx_run lb ports l w in
  let R := delivered k l vs in
  NoDup R /\
  (forall q, q ∈ R -> exists e p, (e, p) ∈ l /\ data_of k p = true /\ pkt_seq p = q) /\
  (forall e p, (e, p) ∈ l -> data_of k p = true -> d_retransmit (hp_data p) = 0 -> pkt_seq p ∈ R) /\
  srv_msg L R k w'.
Proof.
  assert (Ha : accepted L []) by (split; [apply base.NoDup_nil_2 | intros q Hq; by apply not_elem_of_nil in Hq]).
  pose proof (rx_run_ok lb ports k L Hserver HL target Hport l [] w Ha Hnew Hmem Hroom Harr) as H.
  destruct (rx_run lb ports l w) as [vs w']. cbn zeta in *. destruct H as (H1 & H2 & H3).
  cbn [app] in H3. rewrite <- H3. split_and!; [apply H2| | |done].
  - intros q Hq. destruct (accept_sub k l [] q Hq) as [Hn|Hn]; [by apply not_elem_of_nil in Hn | done].
  - intros e p Hin Hd Hr. by apply (accept_sup k l [] e p).
Qed.

(** A request of 2000 bytes whose second packet arrives first, and twice. *)
Definition wit_key : rpc_key_t := mk_rpc_key_t 9 4000 5000 3232236033.

Definition wit_hdr (q : Z) : data_header :=
  mk_data_header
    (mk_common_header (bpf_htons 5000) (bpf_htons 4000) 0 DATA (bpf_htons q) (bpf_cpu_to_be64 8))
    (bpf_htonl 2000) (bpf_htonl 2000) 0 0 0
    (mk_data_segment (bpf_htonl (q * 1420)) (bpf_htonl (seg_len 2000 q)) (mk_homa_ack 0 0 0)).

Definition wit_pkt (q : Z) : hpkt :=
  mk_hpkt (mk_iphdr 5 4 0 0 0 0 0 0xFD 0 (bpf_htonl 3232236033) (bpf_htonl 3232236034))
    (94 + seg_len 2000 q) (wit_hdr q) (0, 0, 0) (0, 0, 0) [].

Definition wit_env : rx_env := mk_rx_env 0 0 true 17 true.

Definition empty_homa : homa :=
  mk_homa ∅ ∅ [] 0 0 0 ∅ 0 [] [] [] ∅ ∅ false 0 0.

Lemma wit_arrival q : 0 <= q < 2 -> arrival wit_key 2000 wit_env (wit_pkt q).
Proof.
  intros Hq. assert (q = 0 \/ q = 1) as [->| ->] by lia;
    (apply arr_data; [reflexivity | vm_compute; discriminate | split; try reflexivity; vm_compute; split; [discriminate|reflexivity]
                     | intros E; by vm_compute in E | done | done | done]).
Qed.

Lemma homa_request_once_witness :
  let l := [(wit_env, wit_pkt 1); (wit_env, wit_pkt 0); (wit_env, wit_pkt 1)] in
  let '(vs, w') := rx_run (fun _ _ _ => None) {[ 4000 := fun _ => 7 ]} l empty_homa in
  delivered wit_key l vs = [1; 0] /\ NoDup (delivered wit_key l vs) /\
  rs_state <$> h_rpc_tbl w' !! wit_key = Some BPF_RPC_IN_SERVICE.
Proof.
  cbn zeta. set (l := [_; _; _]).
  pose proof (homa_request_once (fun _ _ _ => None) {[ 4000 := fun _ => 7 ]} (fun _ => 7) wit_key 2000 l empty_homa
    eq_refl ltac:(split; reflexivity || (cbv; congruence)) (lookup_singleton_eq _ _) eq_refl eq_refl
    ltac:(vm_compute; discriminate)
    ltac:(repeat apply Forall_cons; [apply wit_arrival; lia..|apply Forall_nil])) as H.
  assert (E : forall vs, fst (rx_run (fun _ _ _ => None) {[ 4000 := fun _ => 7 ]} l empty_homa) = vs ->
    delivered wit_key l vs = [1; 0]) by (intros vs <-; vm_compute; reflexivity).
  assert (Es : rs_state <$> h_rpc_tbl (snd (rx_run (fun _ _ _ => None) {[ 4000 := fun _ => 7 ]} l empty_homa)) !! wit_key
    = Some BPF_RPC_IN_SERVICE) by (vm_compute; reflexivity).
  destruct (rx_run _ _ l empty_homa) as [vs w']. cbn [fst snd] in *.
  split; [by apply E|]. split; [apply H | done].
Defined.

(** What ends the RPC.  After an UNKNOWN packet the first packet of the request
    is passed a second time. *)
Definition wit_unknown : hpkt :=
  (wit_pkt 0) <| hp_data ::= fun d => d <| d_common ::= fun c => c <| ch_type := UNKNOWN |> |> |>.

Lemma ended_request_passed_again :
  let l := [(wit_env, wit_pkt 0); (wit_env, wit_unknown); (wit_env, wit_pkt 0)] in
  let '(vs, _) := rx_run (fun _ _ _ => None) {[ 4000 := fun _ => 7 ]} l empty_homa in
  delivered wit_key l vs = [0; 0].
Proof. vm_compute. reflexivity. Qed.

(** After the request is complete, a packet of another RPC of the client that
    acknowledges it deletes it too, and a copy of the request is passed as a
    new one. *)
Definition wit_acking : hpkt :=
  (wit_pkt 0) <| hp_data ::= fun d => d
    <| d_common ::= fun c => c <| ch_sender_id := bpf_cpu_to_be64 20 |> |>
    <| d_seg ::= fun g => g <| seg_ack := mk_homa_ack (bpf_cpu_to_be64 8) (bpf_htons 5000) (bpf_htons 4000) |> |> |>.

Lemma acknowledged_request_passed_again :
  let l := [(wit_env, wit_pkt 0); (wit_env, wit_pkt 1); (wit_env, wit_acking);
            (wit_env, wit_pkt 0); (wit_env, wit_pkt 1)] in
  let '(vs, w) := rx_run (fun _ _ _ => None) {[ 4000 := fun _ => 7 ]} l empty_homa in
  delivered wit_key l vs = [0; 1; 0; 1].
Proof. vm_compute. reflexivity. Qed.
