(* ===== verification/HomaLib.v ===== *)
(** The RPC socket of the Homa library ([lib/eTran_rpc.cc],
    [lib/include/eTran_rpc.h], the frame metadata of [lib/include/xsk_if.h]):
    segmentation of messages into frames, reassembly of received packets,
    retransmission and the return of frames.

    Message buffers are byte lists.  [s_bcache] are the frames the buffer cache
    hands out, [room] the descriptors the transmit ring has left.  Calls of the
    application's handlers are recorded in [s_log]; what a handler does in turn
    is a sequence of the operations below.  [None] is a memory fault: a copy
    that leaves a buffer, or a frame address that is none. *)
From stdpp Require Import gmap.
From S2P Require Import Prelude Intf Headers BufPool HomaDefs HomaRpc HomaRecv HomaXdp.
Local Open Scope Z_scope.

Definition TX_BATCH_SIZE : Z := 32.
Definition HOMA_PAYLOAD_OFFSET : Z := 94.
Definition MAX_OUTSTANDING_RPC : Z := 256.
Definition FLAG_UNDER_REAP : Z := 1.
Definition FLAG_UNDER_RETRANSMISSION : Z := 2.
Definition XDP_PACKET_HEADROOM : Z := 256.

(** ** Data *)

(** A frame of the UMEM with the transmit metadata in front of it. *)
Record txframe := mk_txframe {
  tf_slowpath : Z;
  tf_buffer_next : Z;
  tf_buffer_addr : Z;
  tf_flag : Z;
  tf_pkt : hpkt
}.

#[export] Instance eta_txframe : Eta txframe := fun r => mk_txframe
  (tf_slowpath r) (tf_buffer_next r) (tf_buffer_addr r) (tf_flag r) (tf_pkt r).

(** [struct sockaddr_in], raw values. *)
Record sockaddr := mk_sockaddr { sin_addr : Z; sin_port : Z }.

(** [struct InternalReqMeta]; [rm_actual_size] is [buffer.actual_size]. *)
Record InternalReqMeta := mk_InternalReqMeta {
  rm_buffer : list Z;
  rm_actual_size : Z;
  rm_dest_addr : sockaddr;
  rm_rpcid : Z;
  rm_seq : Z;
  rm_prev_buffer_addr : Z;
  rm_qidx : Z;
  rm_slot_idx : Z;
  rm_recv_count : Z
}.

#[export] Instance eta_InternalReqMeta : Eta InternalReqMeta := fun r => mk_InternalReqMeta
  (rm_buffer r) (rm_actual_size r) (rm_dest_addr r) (rm_rpcid r) (rm_seq r) (rm_prev_buffer_addr r)
  (rm_qidx r) (rm_slot_idx r) (rm_recv_count r).

(** [struct InternalReqHandle] *)
Record InternalReqHandle := mk_InternalReqHandle {
  rh_buffer : list Z;
  rh_dest_addr : sockaddr;
  rh_rpcid : Z;
  rh_slot_idx : Z;
  rh_qidx : Z;
  rh_count : Z
}.

#[export] Instance eta_InternalReqHandle : Eta InternalReqHandle := fun r => mk_InternalReqHandle
  (rh_buffer r) (rh_dest_addr r) (rh_rpcid r) (rh_slot_idx r) (rh_qidx r) (rh_count r).

(** [struct InternalResendMeta] *)
Record InternalResendMeta := mk_InternalResendMeta {
  im_orig_addr : Z;
  im_addr : Z;
  im_len : Z;
  im_nr_pkt : Z
}.

#[export] Instance eta_InternalResendMeta : Eta InternalResendMeta := fun r => mk_InternalResendMeta
  (im_orig_addr r) (im_addr r) (im_len r) (im_nr_pkt r).

(** A call of a handler of the application. *)
Inductive app_call : Type :=
| Req_handler (rpcid remote_ip remote_port slot_idx : Z) (msg : list Z)
| Cont_handler (rpcid : Z) (msg : list Z).

(** [class RpcSocket] *)
Record rpc_socket := mk_rpc_socket {
  s_frames : gmap Z txframe;
  s_bcache : list Z;
  s_tx : list (Z * Z);
  s_slots : gmap Z InternalReqMeta;
  s_available_slots : list Z;
  s_request_queue : list Z;
  s_pending_request_queue : list (list Z * sockaddr);
  s_response_queue : list InternalReqMeta;
  s_pending_response_queue : list InternalReqMeta;
  s_retransmission_queue : list InternalResendMeta;
  s_reap_backlog : list Z;
  s_req_handle_map : gmap (Z * Z * Z) InternalReqHandle;
  s_next_rpcid : Z;
  s_log : list app_call
}.

#[export] Instance eta_rpc_socket : Eta rpc_socket := fun r => mk_rpc_socket
  (s_frames r) (s_bcache r) (s_tx r) (s_slots r) (s_available_slots r) (s_request_queue r)
  (s_pending_request_queue r) (s_response_queue r) (s_pending_response_queue r)
  (s_retransmission_queue r) (s_reap_backlog r) (s_req_handle_map r) (s_next_rpcid r) (s_log r).

Definition set_frame (addr : Z) (f : txframe -> txframe) (s : rpc_socket) : rpc_socket :=
  s <| s_frames ::= alter f addr |>.

Definition log_call (c : app_call) (s : rpc_socket) : rpc_socket := s <| s_log ::= fun l => l ++ [c] |>.

(** [fixed_size_vector_64k::push], a ring of [slots] entries that holds one
    less and drops what does not fit; [pop] takes the oldest. *)
Definition fsv_push (slots e : Z) (l : list Z) : list Z :=
  if Z.of_nat (length l) <? slots - 1 then l ++ [e] else l.

(** [memcpy] of [src] into a buffer. *)
Definition memcpy_at (buf : list Z) (offset : Z) (src : list Z) : option (list Z) :=
  if (0 <=? offset) && (offset + Z.of_nat (length src) <=? Z.of_nat (length buf))
  then Some (take (Z.to_nat offset) buf ++ src ++ drop (Z.to_nat offset + length src) buf)
  else None.

Definition blank_pkt : hpkt :=
  mk_hpkt (mk_iphdr 0 0 0 0 0 0 0 0 0 0 0) 0
    (mk_data_header (mk_common_header 0 0 0 0 0 0) 0 0 0 0 0 (mk_data_segment 0 0 (mk_homa_ack 0 0 0)))
    (0, 0, 0) (0, 0, 0) [].

Section Socket.
(** The address and port the socket is bound to, and the room the UMEM leaves in
    front of a frame ([frame_headroom]). *)
Variables (local_addr local_port frame_headroom : Z).

Definition add_offset_tx_frame (frame_addr : Z) : Z := frame_addr + XDP_PACKET_HEADROOM + frame_headroom.

(** ** Segmentation *)

(** The frame of one packet of a message; [old] is what the frame held, whose
    other bytes stay. *)
Definition segment_pkt (rm : InternalReqMeta) (slot_idx message_length copy_offset plen : Z) (old : hpkt)
  : hpkt :=
  old <| hp_ip := (hp_ip old) <| ip_saddr := local_addr |> <| ip_daddr := sin_addr (rm_dest_addr rm) |>
                              <| ip_protocol := IPPROTO_HOMA |> |>
      <| hp_len := HOMA_PAYLOAD_OFFSET + plen |>
      <| hp_data := mk_data_header
           (mk_common_header (bpf_htons local_port) (sin_port (rm_dest_addr rm)) 10 DATA
              (bpf_htons (rm_seq rm)) (bpf_cpu_to_be64 (rm_rpcid rm)))
           (bpf_htonl message_length) 0 0 0 (u8 slot_idx)
           (mk_data_segment (bpf_htonl copy_offset) (bpf_htonl plen) (mk_homa_ack 0 0 0)) |>
      <| hp_payload := take (Z.to_nat plen) (drop (Z.to_nat copy_offset) (rm_buffer rm)) |>.

(** The loop of [message_tx_segmentation]: the metadata of the message, the
    offset reached, the frames used and the socket. *)
Fixpoint segmentation_loop (n room : nat) (rm : InternalReqMeta) (slot_idx message_length copy_offset size : Z)
  (s : rpc_socket) : InternalReqMeta * Z * Z * rpc_socket :=
  match n, room, s_bcache s with
  | S n, S room, b :: bc =>
    let addr := add_offset_tx_frame b in
    let plen := Z.min HOMA_MSS size in
    let old := default blank_pkt (tf_pkt <$> s_frames s !! addr) in
    let pkt := segment_pkt rm slot_idx message_length copy_offset plen old in
    let s := s <| s_bcache := bc |> <| s_frames ::= <[addr := mk_txframe 0 POISON_64 addr 0 pkt]> |> in
    let s := if rm_prev_buffer_addr rm =? POISON_64 then s
             else set_frame (rm_prev_buffer_addr rm) (fun f => f <| tf_buffer_next := addr |>) s in
    let s := s <| s_tx ::= fun l => l ++ [(addr, HOMA_PAYLOAD_OFFSET + plen)] |> in
    let rm := rm <| rm_prev_buffer_addr := addr |> <| rm_seq := u16 (rm_seq rm + 1) |> in
    let '(rm, off, sent, s) :=
      segmentation_loop n room rm slot_idx message_length (u32 (copy_offset + plen)) (size - plen) s in
    (rm, off, sent + 1, s)
  | _, _, _ => (rm, copy_offset, 0, s)
  end.

(** [message_tx_segmentation]: whether the message is finished. *)
Definition message_tx_segmentation (room : nat) (rm : InternalReqMeta) (slot_idx send_out : Z) (s : rpc_socket)
  : bool * InternalReqMeta * Z * rpc_socket :=
  let message_length := u32 (rm_actual_size rm) in
  let copy_offset := u32 (rm_seq rm * HOMA_MSS) in
  let size := u64 (rm_actual_size rm - copy_offset) in
  let nr_buffers := Z.min (u32 ((size + (HOMA_MSS - 1)) / HOMA_MSS)) TX_BATCH_SIZE in
  let '(rm, off, sent, s) :=
    segmentation_loop (Z.to_nat nr_buffers) room rm slot_idx message_length copy_offset size s in
  (off >=? rm_actual_size rm, rm, send_out + sent, s).

(** ** Requests *)

(** The descriptors the ring has when a message is segmented. *)
Variable room : rpc_socket -> nat.

(** The second loop of [flush_rpc_request_queue]. *)
Fixpoint request_loop (n : nat) (budget_use : Z) (s : rpc_socket) : rpc_socket :=
  match n, s_request_queue s with
  | S n, slot_idx :: q =>
    match s_slots s !! slot_idx with
    | None => s
    | Some rm =>
      let '(done, rm, budget_use, s) := message_tx_segmentation (room s) rm slot_idx budget_use s in
      let s := s <| s_slots ::= <[slot_idx := rm]> |> in
      if negb done then s
      else
        let s := s <| s_request_queue := q |>
                   <| s_slots ::= alter (fun rm => rm <| rm_actual_size := 0 |>) slot_idx |> in
        if budget_use >=? TX_BATCH_SIZE then s else request_loop n budget_use s
    end
  | _, _ => s
  end.

(** [enqueue_request] and [flush_rpc_request_queue] call each other: the bodies,
    with the other one as [flush]. *)
Section Bodies.
Variable flush : rpc_socket -> option rpc_socket.

Definition enqueue_request_body (buffer : list Z) (dest_addr : sockaddr) (s : rpc_socket) : option rpc_socket :=
  match s_available_slots s with
  | [] => Some (s <| s_pending_request_queue ::= fun l => l ++ [(buffer, dest_addr)] |>)
  | slot_idx :: l =>
    let old := s_slots s !! slot_idx in
    let rm := mk_InternalReqMeta buffer (Z.of_nat (length buffer)) dest_addr (s_next_rpcid s) 0 POISON_64
                (default 255 (rm_qidx <$> old)) (default 0 (rm_slot_idx <$> old))
                (default 0 (rm_recv_count <$> old)) in
    let s := s <| s_available_slots := l |> <| s_slots ::= <[slot_idx := rm]> |>
               <| s_next_rpcid := u64 (s_next_rpcid s + 2) |>
               <| s_request_queue ::= fsv_push MAX_OUTSTANDING_RPC slot_idx |> in
    if Z.of_nat (length (s_request_queue s)) >? TX_BATCH_SIZE then flush s else Some s
  end.

(** The first loop of [flush_rpc_request_queue]: requests that waited for a
    slot.  The request leaves the queue after it was enqueued; [pop] on an empty
    queue is undefined. *)
Fixpoint admit_pending (n : nat) (s : rpc_socket) : option rpc_socket :=
  match s_pending_request_queue s, s_available_slots s with
  | (buffer, dest) :: _, _ :: _ =>
    match n with
    | O => None
    | S n =>
      match enqueue_request_body buffer dest s with
      | None => None
      | Some s =>
        match s_pending_request_queue s with
        | [] => None
        | _ :: l => admit_pending n (s <| s_pending_request_queue := l |>)
        end
      end
    end
  | _, _ => Some s
  end.
End Bodies.

(** [flush_rpc_request_queue]; [n] bounds the nesting of the calls and the turns
    of the first loop. *)
Fixpoint flush_rpc_request_queue (n : nat) (s : rpc_socket) : option rpc_socket :=
  match n with
  | O => None
  | S n =>
    match admit_pending (flush_rpc_request_queue n) n s with
    | None => None
    | Some s => Some (request_loop (length (s_request_queue s)) 0 s)
    end
  end.

(** [enqueue_request] *)
Definition enqueue_request (n : nat) : list Z -> sockaddr -> rpc_socket -> option rpc_socket :=
  enqueue_request_body (flush_rpc_request_queue n).

(** ** Responses *)
Fixpoint pending_response_loop (n : nat) (budget_use : Z) (s : rpc_socket)
  : bool * Z * rpc_socket :=
  match n, s_pending_response_queue s with
  | S n, rm :: q =>
    let '(done, rm, budget_use, s) := message_tx_segmentation (room s) rm (rm_slot_idx rm) budget_use s in
    if negb done then (true, budget_use, s <| s_pending_response_queue := rm :: q |>)
    else
      let s := s <| s_pending_response_queue := q |> in
      if budget_use >=? TX_BATCH_SIZE then (true, budget_use, s)
      else pending_response_loop n budget_use s
  | _, _ => (false, budget_use, s)
  end.

Fixpoint response_loop (n : nat) (budget_use : Z) (s : rpc_socket) : rpc_socket :=
  match n, s_response_queue s with
  | S n, rm :: q =>
    let s := s <| s_response_queue := q |> in
    let '(done, rm, budget_use, s) := message_tx_segmentation (room s) rm (rm_slot_idx rm) budget_use s in
    if negb done then s <| s_pending_response_queue ::= fun l => l ++ [rm] |>
    else if budget_use >=? TX_BATCH_SIZE then s else response_loop n budget_use s
  | _, _ => s
  end.

(** [flush_rpc_response_queue] *)
Definition flush_rpc_response_queue (s : rpc_socket) : rpc_socket :=
  let '(stop, budget_use, s) :=
    pending_response_loop (length (s_pending_response_queue s)) 0 s in
  if stop : bool then s else response_loop (length (s_response_queue s)) budget_use s.

(** [enqueue_response] *)
Definition enqueue_response (rpcid slot_idx qidx : Z) (dest_addr : sockaddr) (buffer : list Z) (s : rpc_socket)
  : rpc_socket :=
  let s := s <| s_response_queue ::= fun l => l ++
             [mk_InternalReqMeta buffer (Z.of_nat (length buffer)) dest_addr rpcid 0 POISON_64 qidx slot_idx 0] |> in
  if Z.of_nat (length (s_response_queue s)) >? TX_BATCH_SIZE then flush_rpc_response_queue s else s.

(** ** Reassembly *)

(** [server_request]; [junk], of the length of the message, is what a new
    buffer of the memory pool holds. *)
Definition server_request (qidx : Z) (p : hpkt) (remote_ip rpcid : Z) (junk : list Z) (s : rpc_socket)
  : option rpc_socket :=
  let d := hp_data p in
  let remote_port := bpf_ntohs (ch_sport (d_common d)) in
  let msg_len := bpf_ntohl (d_message_length d) in
  let offset := bpf_ntohl (seg_offset (d_seg d)) in
  let seg_len := bpf_ntohl (segment_length (d_seg d)) in
  let payload := take (Z.to_nat seg_len) (hp_payload p) in
  let dest_addr := mk_sockaddr (bpf_htonl remote_ip) (bpf_htons remote_port) in
  let slot_idx := d_unused1 d in
  let key := (remote_ip, remote_port, rpcid) in
  if msg_len <=? HOMA_MSS then
    Some (log_call (Req_handler rpcid remote_ip remote_port slot_idx (take (Z.to_nat msg_len) (hp_payload p))) s)
  else
    match s_req_handle_map s !! key with
    | None =>
      match memcpy_at junk offset payload with
      | None => None
      | Some buffer =>
        let count := u32 (u32 (u32 (msg_len + HOMA_MSS) - 1) / HOMA_MSS - 1) in
        Some (s <| s_req_handle_map ::=
                <[key := mk_InternalReqHandle buffer dest_addr rpcid slot_idx qidx count]> |>)
      end
    | Some h =>
      match memcpy_at (rh_buffer h) offset payload with
      | None => None
      | Some buffer =>
        let h := h <| rh_buffer := buffer |> <| rh_count := u32 (rh_count h - 1) |> in
        if rh_count h =? 0 then
          Some (log_call (Req_handler (rh_rpcid h) remote_ip remote_port (rh_slot_idx h) buffer)
                  (s <| s_req_handle_map ::= delete key |>))
        else Some (s <| s_req_handle_map ::= <[key := h]> |>)
      end
    end.

(** [client_response] *)
Definition client_response (qidx : Z) (p : hpkt) (junk : list Z) (s : rpc_socket) : option rpc_socket :=
  let d := hp_data p in
  let msg_len := bpf_ntohl (d_message_length d) in
  let offset := bpf_ntohl (seg_offset (d_seg d)) in
  let seg_len := bpf_ntohl (segment_length (d_seg d)) in
  let payload := take (Z.to_nat seg_len) (hp_payload p) in
  let slot_idx := d_unused1 d in
  match s_slots s !! slot_idx with
  | None => None
  | Some rm =>
    let put rm s := s <| s_slots ::= <[slot_idx := rm]> |> in
    let finish rm s := put rm s <| s_available_slots ::= fsv_push MAX_OUTSTANDING_RPC slot_idx |> in
    if msg_len <=? HOMA_MSS then
      let msg := take (Z.to_nat msg_len) (hp_payload p) in
      let rm := rm <| rm_buffer := msg |> <| rm_actual_size := msg_len |> <| rm_qidx := qidx |> in
      Some (finish rm (log_call (Cont_handler (rm_rpcid rm) msg) s))
    else if rm_actual_size rm =? 0 then
      match memcpy_at junk offset payload with
      | None => None
      | Some buffer =>
        Some (put (rm <| rm_buffer := buffer |> <| rm_actual_size := msg_len |>
                      <| rm_recv_count := u32 (u32 (u32 (msg_len + HOMA_MSS) - 1) / HOMA_MSS - 1) |>) s)
      end
    else
      match memcpy_at (rm_buffer rm) offset payload with
      | None => None
      | Some buffer =>
        let rm := rm <| rm_buffer := buffer |> <| rm_recv_count := u32 (rm_recv_count rm - 1) |> in
        if rm_recv_count rm =? 0 then Some (finish rm (log_call (Cont_handler (rm_rpcid rm) buffer) s))
        else Some (put rm s)
      end
  end.

(** ** Return of frames *)

(** [reap_rpc_buffers]: at most [budget] frames of a chain; the rest of it as
    the [int] the function returns. *)
Fixpoint reap_loop (budget : nat) (buffer_addr : Z) (s : rpc_socket) : option (Z * Z * rpc_socket) :=
  if buffer_addr =? POISON_64 then Some (buffer_addr, 0, s)
  else
    match budget, s_frames s !! buffer_addr with
    | O, _ => Some (buffer_addr, 0, s)
    | S budget, Some f =>
      let s := set_frame buffer_addr (fun f => mk_txframe 0 0 0 0 (tf_pkt f)) s in
      let s := s <| s_bcache ::= fun l => l ++ [fix_umem_offset buffer_addr] |> in
      match reap_loop budget (tf_buffer_next f) s with
      | None => None
      | Some (rest, used, s) => Some (rest, used + 1, s)
      end
    | S _, None => None
    end.

Definition reap_rpc_buffers (buffer_addr total_budget_use : Z) (s : rpc_socket) : option (Z * Z * rpc_socket) :=
  match reap_loop (Z.to_nat (TX_BATCH_SIZE * 4)) buffer_addr s with
  | None => None
  | Some (rest, used, s) => Some (u64 (s32 rest), total_budget_use + used, s)
  end.

(** [enqueue_reap_backlog] *)
Definition enqueue_reap_backlog (buffer_addr : Z) (s : rpc_socket) : option rpc_socket :=
  match s_frames s !! buffer_addr with
  | None => None
  | Some _ =>
    let s := set_frame buffer_addr (fun f => f <| tf_flag := FLAG_UNDER_REAP |>) s in
    match tf_flag <$> s_frames s !! buffer_addr with
    | Some flag => if nz (Z.land flag FLAG_UNDER_RETRANSMISSION) then Some s
                   else Some (s <| s_reap_backlog ::= fsv_push 65536 buffer_addr |>)
    | None => None
    end
  end.

(** [flush_reap_backlog]; [n] bounds the turns of its loop. *)
Fixpoint flush_reap_backlog (n : nat) (total_budget_use : Z) (s : rpc_socket) : option rpc_socket :=
  match n, s_reap_backlog s with
  | S n, buffer_addr :: l =>
    match reap_rpc_buffers buffer_addr total_budget_use (s <| s_reap_backlog := l |>) with
    | None => None
    | Some (rest, total_budget_use, s) =>
      if rest =? POISON_64 then flush_reap_backlog n total_budget_use s
      else
        match enqueue_reap_backlog rest s with
        | None => None
        | Some s =>
          if (Z.of_nat (length (s_reap_backlog s)) <? 20) && (total_budget_use >=? TX_BATCH_SIZE * 8)
          then Some s else flush_reap_backlog n 0 s
        end
    end
  | _, _ => Some s
  end.

(** ** Retransmission *)

(** What a copy of fewer bytes than the headers leaves in a frame. *)
Variable partial_copy : Z -> hpkt -> hpkt -> hpkt.

(** [memcpy] of the first [n] bytes of a packet onto another. *)
Definition copy_pkt (n : Z) (old new : hpkt) : hpkt :=
  if n <? HOMA_PAYLOAD_OFFSET then partial_copy n old new
  else let k := Z.to_nat (n - HOMA_PAYLOAD_OFFSET) in
       new <| hp_ip := hp_ip old |> <| hp_data := hp_data old |>
           <| hp_payload := take k (hp_payload old) ++ drop k (hp_payload new) |>.

(** The locals of [prepare_retransmission]. *)
Record prepare_st := mk_prepare_st {
  ps_first : bool;
  ps_length : Z;
  ps_orig_tail : Z;
  ps_tail : Z;
  ps_rm : InternalResendMeta
}.

#[export] Instance eta_prepare_st : Eta prepare_st := fun r => mk_prepare_st
  (ps_first r) (ps_length r) (ps_orig_tail r) (ps_tail r) (ps_rm r).

(** Its loop over the chain of frames; [n] bounds the chain. *)
Fixpoint prepare_loop (n : nat) (priority first_seq last_seq seq buffer_addr : Z) (l : prepare_st)
  (s : rpc_socket) : option (prepare_st * rpc_socket) :=
  if buffer_addr =? POISON_64 then Some (l, s)
  else
    match n, s_frames s !! buffer_addr with
    | S n, Some f =>
      let buffer_next := tf_buffer_next f in
      let l := if buffer_next =? POISON_64 then l <| ps_orig_tail := buffer_addr |> else l in
      if (first_seq <=? seq) && (seq <=? last_seq) then
        match s_bcache s with
        | [] => Some (l, s)
        | b :: bc =>
          let new_buffer := add_offset_tx_frame b in
          let s := s <| s_bcache := bc |> in
          let s := if ps_tail l =? POISON_64 then s
                   else set_frame (ps_tail l) (fun f => f <| tf_buffer_next := new_buffer |>) s in
          let held := default (mk_txframe 0 0 0 0 blank_pkt) (s_frames s !! new_buffer) in
          let pkt := copy_pkt (Z.min HOMA_MSS (ps_length l)) (tf_pkt f) (tf_pkt held) in
          let pkt := pkt <| hp_ip ::= fun i => i <| ip_tos := u8 (Z.shiftl priority 5) |> |>
                         <| hp_data ::= fun d => d <| d_retransmit := 1 |> |> in
          let s := s <| s_frames ::= <[new_buffer := held <| tf_buffer_next := POISON_64 |> <| tf_pkt := pkt |>]> |> in
          let rm := if ps_first l then (ps_rm l) <| im_addr := new_buffer |> else ps_rm l in
          let rm := rm <| im_len := Z.min HOMA_MSS (ps_length l) |> <| im_nr_pkt := u16 (im_nr_pkt rm + 1) |> in
          let l := l <| ps_tail := new_buffer |> <| ps_first := false |> <| ps_rm := rm |>
                     <| ps_length := if ps_length l >? HOMA_MSS then ps_length l - HOMA_MSS else ps_length l |> in
          prepare_loop n priority first_seq last_seq (u32 (seq + 1)) buffer_next l s
        end
      else prepare_loop n priority first_seq last_seq (u32 (seq + 1)) buffer_next l s
    | _, _ => None
    end.

(** [prepare_retransmission] *)
Definition prepare_retransmission (r : resend_header) (buffer_addr : Z) (s : rpc_socket) : option rpc_socket :=
  let offset := bpf_ntohl (r_offset r) in
  let length := bpf_ntohl (r_length r) in
  let first_seq := offset / HOMA_MSS in
  let last_seq := u32 (u32 (offset + length) - 1) / HOMA_MSS in
  let l := mk_prepare_st true length POISON_64 POISON_64 (mk_InternalResendMeta buffer_addr 0 0 0) in
  match prepare_loop (S (size (s_frames s))) (r_priority r) first_seq last_seq 0 buffer_addr l s with
  | None => None
  | Some (l, s) =>
    if ps_first l then Some s
    else
      match s_frames s !! ps_orig_tail l with
      | None => None
      | Some _ =>
        Some (set_frame (ps_orig_tail l) (fun f => f <| tf_buffer_next := im_addr (ps_rm l) |>) s
                <| s_retransmission_queue ::= fun q => q ++ [ps_rm l] |>)
      end
  end.

(** The descriptors of a retransmission. *)
Fixpoint resend_descs (n : nat) (len addr : Z) (s : rpc_socket) : option (list (Z * Z)) :=
  match n with
  | O => Some []
  | S n =>
    match s_frames s !! addr with
    | None => None
    | Some f =>
      match resend_descs n len (tf_buffer_next f) s with
      | None => None
      | Some l => Some ((addr, L2L3 + match n with O => len | _ => HOMA_MSS end) :: l)
      end
    end
  end.

Definition clear_retransmission (addr : Z) (s : rpc_socket) : rpc_socket :=
  set_frame addr (fun f => f <| tf_flag := Z.land (UINT32_MAX - FLAG_UNDER_RETRANSMISSION) (tf_flag f) |>) s.

(** [message_tx_retransmission]: whether it succeeded. *)
Definition message_tx_retransmission (room : Z) (rm : InternalResendMeta) (s : rpc_socket)
  : option (bool * rpc_socket) :=
  match s_frames s !! im_orig_addr rm with
  | None => None
  | Some f =>
    if nz (Z.land (tf_flag f) FLAG_UNDER_REAP) then
      match enqueue_reap_backlog (im_orig_addr rm) (clear_retransmission (im_orig_addr rm) s) with
      | None => None
      | Some s => Some (true, s)
      end
    else if room <? im_nr_pkt rm then Some (false, s)
    else
      match resend_descs (Z.to_nat (im_nr_pkt rm)) (im_len rm) (im_addr rm) s with
      | None => None
      | Some l => Some (true, clear_retransmission (im_orig_addr rm) (s <| s_tx ::= fun tx => tx ++ l |>))
      end
  end.

(** [flush_rpc_retransmission_queue]: one message, tried until it succeeds;
    [room] are the descriptors at each try, [None] a loop that goes on. *)
Fixpoint flush_rpc_retransmission_queue (n : nat) (room : nat -> Z) (s : rpc_socket) : option rpc_socket :=
  match s_retransmission_queue s with
  | [] => Some s
  | rm :: q =>
    match n with
    | O => None
    | S n =>
      match message_tx_retransmission (room n) rm s with
      | None => None
      | Some (true, s) => Some (s <| s_retransmission_queue := q |>)
      | Some (false, s) => flush_rpc_retransmission_queue n room s
      end
    end
  end.

(** ** Received packets *)

(** What [poll_nic_rx] does with one packet of the receive ring, the return of
    its own frame apart; a request needs a handler. *)
Definition rx_packet (has_req_handler : bool) (qidx : Z) (p : hpkt) (m : homa_rx_t) (junk : list Z)
  (s : rpc_socket) : option rpc_socket :=
  let remote_ip := bpf_ntohl (ip_saddr (hp_ip p)) in
  let rpcid := local_id (bpf_be64_to_cpu (ch_sender_id (hp_common p))) in
  let reap addr s := if addr =? POISON_64 then Some s else enqueue_reap_backlog addr s in
  if negb (ch_type (hp_common p) =? DATA) then
    if ch_type (hp_common p) =? RESEND then
      match reap (reap_client_buffer_addr m) s with
      | None => None
      | Some s =>
        let addr := reap_server_buffer_addr m in
        if addr =? POISON_64 then Some s
        else
          match s_frames s !! addr with
          | None => None
          | Some f =>
            if nz (Z.land (tf_flag f) (Z.lor FLAG_UNDER_REAP FLAG_UNDER_RETRANSMISSION)) then Some s
            else
              let '(o, l, r) := hp_resend p in
              prepare_retransmission (mk_resend_header (hp_common p) o l r) addr
                (set_frame addr (fun f => f <| tf_flag := FLAG_UNDER_RETRANSMISSION |>) s)
          end
      end
    else Some s
  else
    match reap (reap_client_buffer_addr m) s with
    | None => None
    | Some s =>
      match reap (reap_server_buffer_addr m) s with
      | None => None
      | Some s =>
        if rpc_is_client rpcid then client_response qidx p junk s
        else if has_req_handler then server_request qidx p remote_ip rpcid junk s
        else Some s
      end
    end.

End Socket.

(** ** What the library does in corner cases *)

(** A message that is being resent is put on the list of frames to return all
    the same: the flag that should prevent it was just overwritten. *)
Lemma reap_ignores_retransmission addr f s : s_frames s !! addr = Some f ->
  exists s', enqueue_reap_backlog addr s = Some s' /\
    s_reap_backlog s' = fsv_push 65536 addr (s_reap_backlog s).
Proof.
  intros E. unfold enqueue_reap_backlog. rewrite E. cbn. rewrite lookup_alter_eq, E. cbn. eauto.
Qed.

(** The copy of a full packet that is resent has the last 94 bytes of its
    payload from whatever the new frame held: the length copied counts the
    payload, the copy starts at the headers. *)
Lemma retransmission_loses_tail pc old new :
  hp_payload (copy_pkt pc HOMA_MSS old new) = take 1326 (hp_payload old) ++ drop 1326 (hp_payload new).
Proof. done. Qed.

(** A flush that finds the queue of requests long enqueues the first waiting
    request twice and loses the second: the request is taken off the queue after
    [enqueue_request], which flushes again. *)
Lemma pending_request_lost :
  let rm := mk_InternalReqMeta [0] 1 (mk_sockaddr 0 0) 0 0 POISON_64 255 0 0 in
  let queued := Z.of_nat <$> seq 0 32 in
  let s := mk_rpc_socket ∅ [] [] (list_to_map ((fun i => (i, rm)) <$> queued)) [40; 41] queued
             [([1], mk_sockaddr 0 0); ([2], mk_sockaddr 0 0)] [] [] [] [] ∅ 0 [] in
  exists s', flush_rpc_request_queue 0 0 0 (fun _ => 0%nat) 4 s = Some s' /\
    s_pending_request_queue s' = [] /\
    rm_buffer <$> s_slots s' !! 40 = Some [1] /\ rm_buffer <$> s_slots s' !! 41 = Some [1] /\
    Forall (fun x => rm_buffer (snd x) <> [2]) (map_to_list (s_slots s')).
Proof.
  cbn zeta. eexists. split; [vm_compute; reflexivity|]. split_and!; [vm_compute; reflexivity..|].
  apply (bool_decide_unpack _). vm_compute. exact I.
Qed.
