(* ===== verification/HomaEnd.v ===== *)
(** A Homa request from one application to the other: the frames the library
    cuts a message into, what the egress program may change in them, and their
    reassembly from what the receiving program passes on.  The message arrives
    complete and once, whatever the network repeats and reorders. *)
From stdpp Require Import gmap.
From S2P Require Import Prelude Intf Headers BufPool HomaDefs HomaRpc HomaRecv HomaXdp HomaLib.
Local Open Scope Z_scope.

(** ** Copies into a buffer *)
Lemma memcpy_at_ok buf off src : 0 <= off -> off + Z.of_nat (length src) <= Z.of_nat (length buf) ->
  exists b, memcpy_at buf off src = Some b /\ length b = length buf /\
    forall i, b !! i = if bool_decide (Z.to_nat off <= i < Z.to_nat off + length src)%nat
                       then src !! (i - Z.to_nat off)%nat else buf !! i.
Proof.
  intros H0 H1. unfold memcpy_at.
  replace ((0 <=? off) && _) with true by (symmetry; apply andb_true_iff; split; apply Z.leb_le; lia).
  eexists. split; [reflexivity|]. split; [rewrite !length_app, length_take, length_drop; lia|].
  intros i. case_bool_decide as Hi.
  - rewrite lookup_app_r by (rewrite length_take; lia). rewrite length_take.
    rewrite lookup_app_l by lia. f_equal. lia.
  - destruct (decide (i < Z.to_nat off)%nat).
    + rewrite lookup_app_l by (rewrite length_take; lia). by rewrite lookup_take_lt by lia.
    + rewrite lookup_app_r by (rewrite length_take; lia). rewrite length_take.
      rewrite lookup_app_r by lia. rewrite lookup_drop. f_equal. lia.
Qed.

(** ** Packets of a message *)

(** The bytes of packet [q]. *)
Definition seg_bytes (msg : list Z) (q : Z) : list Z :=
  take (Z.to_nat (seg_len (Z.of_nat (length msg)) q)) (drop (Z.to_nat (q * HOMA_MSS)) msg).

(** [p] carries packet [q] of [msg] for the RPC [k]. *)
Record carries (k : rpc_key_t) (msg : list Z) (slot q : Z) (p : hpkt) : Prop := {
  ca_packet : msg_packet k (Z.of_nat (length msg)) q (pkt_ip p) (hp_data p);
  ca_offset : bpf_ntohl (seg_offset (d_seg (hp_data p))) = q * HOMA_MSS;
  ca_slot : d_unused1 (hp_data p) = slot;
  ca_payload : take (length (seg_bytes msg q)) (hp_payload p) = seg_bytes msg q
}.

Lemma length_seg_bytes msg q : msg_length_ok (Z.of_nat (length msg)) -> 0 <= q < npkts (Z.of_nat (length msg)) ->
  Z.of_nat (length (seg_bytes msg q)) = seg_len (Z.of_nat (length msg)) q.
Proof.
  intros HL Hq. pose proof (seg_len_range _ _ HL Hq). unfold seg_bytes. rewrite length_take, length_drop.
  unfold seg_len, HOMA_MSS in *. lia.
Qed.

Lemma lookup_seg_bytes msg q i : (i < length (seg_bytes msg q))%nat ->
  seg_bytes msg q !! i = msg !! (Z.to_nat (q * HOMA_MSS) + i)%nat.
Proof.
  unfold seg_bytes. intros Hi. rewrite length_take in Hi. rewrite lookup_take_lt by lia. apply lookup_drop.
Qed.

(** ** Reassembly *)

(** The buffer holds the packets [R]. *)
Record holds (msg : list Z) (R : list Z) (buf : list Z) : Prop := {
  ho_length : length buf = length msg;
  ho_bytes : forall i, (i < length msg)%nat -> Z.of_nat i / HOMA_MSS ∈ R -> buf !! i = msg !! i
}.

Definition lib_key (k : rpc_key_t) : Z * Z * Z := (rk_remote_ip k, rk_remote_port k, rk_rpcid k).

(** The library after the packets [R] of a message of several packets. *)
Definition lib_msg (k : rpc_key_t) (msg : list Z) (slot : Z) (R : list Z) (s : rpc_socket) : Prop :=
  match R with
  | [] => s_req_handle_map s !! lib_key k = None
  | _ => if complete_msg (Z.of_nat (length msg)) R then s_req_handle_map s !! lib_key k = None
         else exists h, s_req_handle_map s !! lib_key k = Some h /\ holds msg R (rh_buffer h) /\
                rh_count h = npkts (Z.of_nat (length msg)) - Z.of_nat (length R) /\
                rh_rpcid h = rk_rpcid k /\ rh_slot_idx h = slot
  end.

(** The call that hands the request to the application. *)
Definition request_call (k : rpc_key_t) (msg : list Z) (slot : Z) : app_call :=
  Req_handler (rk_rpcid k) (rk_remote_ip k) (rk_remote_port k) slot msg.

Section Reassembly.
Variables (k : rpc_key_t) (msg : list Z) (slot : Z).
Notation L := (Z.of_nat (length msg)).
Hypothesis length_ok : msg_length_ok L.

(** A copy of a packet into a buffer that holds [R]. *)
Lemma holds_put R q p buf : (forall i, (i < length msg)%nat -> Z.of_nat i / HOMA_MSS ∈ R -> buf !! i = msg !! i) ->
  length buf = length msg -> carries k msg slot q p ->
  exists b, memcpy_at buf (q * HOMA_MSS)
              (take (Z.to_nat (bpf_ntohl (segment_length (d_seg (hp_data p))))) (hp_payload p)) = Some b /\
    holds msg (R ++ [q]) b.
Proof.
  intros Hb Hl [Hp Ho Hs Hpay]. pose proof (mp_range _ _ _ _ _ Hp) as Hr.
  pose proof (length_seg_bytes msg q length_ok Hr) as Hsl. pose proof (seg_len_range _ _ length_ok Hr) as Hse.
  rewrite (mp_seg _ _ _ _ _ Hp). rewrite <- Hsl, Nat2Z.id, Hpay.
  destruct (memcpy_at_ok buf (q * HOMA_MSS) (seg_bytes msg q)) as (b & E & Hlb & Hlk).
  { unfold HOMA_MSS. lia. }
  { rewrite Hsl. unfold seg_len, HOMA_MSS, npkts in *. lia. }
  exists b. split; [exact E|]. split; [congruence|]. intros i Hi Hin. rewrite Hlk.
  assert (Hlen : Z.of_nat (length (seg_bytes msg q)) = seg_len L q) by done.
  case_bool_decide as Hc.
  - rewrite lookup_seg_bytes by lia. f_equal. lia.
  - apply Hb; [done|]. apply elem_of_app in Hin as [Hin|Hin]; [done|].
    apply list_elem_of_singleton in Hin. exfalso. apply Hc. unfold seg_len, HOMA_MSS in *. lia.
Qed.

Lemma holds_all R b : accepted L R -> complete_msg L R = true -> holds msg R b -> b = msg.
Proof.
  intros Ha Hc [Hl Hb]. apply list_eq. intros i. destruct (decide (i < length msg)%nat) as [Hi|Hi].
  - apply Hb; [done|]. apply (complete_all L R length_ok Ha); [done|].
    unfold npkts, HOMA_MSS. lia.
  - rewrite !lookup_ge_None_2 by lia. done.
Qed.

(** What one packet that the program passed on does. *)
Definition lib_step_ok (R : list Z) (q qidx : Z) (p : hpkt) (junk : list Z) (s : rpc_socket) : Prop :=
  exists s', HomaLib.server_request qidx p (rk_remote_ip k) (rk_rpcid k) junk s = Some s' /\
    lib_msg k msg slot (R ++ [q]) s' /\
    s_log s' = s_log s ++ (if complete_msg L (R ++ [q]) then [request_call k msg slot] else []).

Lemma carries_port q p : carries k msg slot q p -> bpf_ntohs (ch_sport (d_common (hp_data p))) = rk_remote_port k.
Proof. intros [Hp _ _ _]. by rewrite <- (mp_key _ _ _ _ _ Hp). Qed.

Ltac open_request Hc :=
  unfold lib_step_ok, HomaLib.server_request; cbn zeta;
  rewrite (carries_port _ _ Hc), (mp_length _ _ _ _ _ (ca_packet _ _ _ _ _ Hc)), (ca_offset _ _ _ _ _ Hc),
    (ca_slot _ _ _ _ _ Hc).

(** The packet of a message that has only one. *)
Lemma lib_step_single R q qidx p junk s : L <= HOMA_MSS -> accepted L R -> q ∉ R -> carries k msg slot q p ->
  lib_msg k msg slot R s -> lib_step_ok R q qidx p junk s.
Proof.
  intros Hle Ha Hni Hc Hs. open_request Hc. rewrite (proj2 (Z.leb_le _ _) Hle).
  destruct Hc as [Hp Ho Hsl Hpay]. pose proof (mp_range _ _ _ _ _ Hp) as Hr.
  assert (Hn1 : npkts L = 1) by (unfold npkts, HOMA_MSS, msg_length_ok in *; lia).
  assert (q = 0) as -> by lia.
  assert (R = []) as ->.
  { destruct R as [|x R]; [done|]. pose proof (ac_range _ _ Ha x ltac:(left)). exfalso. apply Hni.
    replace 0 with x by lia. left. }
  assert (Hseg : seg_bytes msg 0 = msg).
  { unfold seg_bytes. rewrite Z.mul_0_l, drop_0. apply take_ge. unfold seg_len, HOMA_MSS in *. lia. }
  rewrite Hseg in Hpay. eexists. split; [reflexivity|]. rewrite Nat2Z.id, Hpay.
  assert (Hcm : complete_msg L [0] = true) by (unfold complete_msg; rewrite Hn1; done).
  cbn [app]. rewrite Hcm. split; [|done]. unfold lib_msg. by rewrite Hcm.
Qed.

(** The first packet of a message of several. *)
Lemma lib_step_first q qidx p junk s : HOMA_MSS < L -> carries k msg slot q p ->
  length junk = length msg -> lib_msg k msg slot [] s -> lib_step_ok [] q qidx p junk s.
Proof.
  intros Hgt Hc Hj Hs. open_request Hc. rewrite (proj2 (Z.leb_gt _ _) Hgt).
  pose proof (npkts_range L length_ok) as Hn. pose proof (mp_range _ _ _ _ _ (ca_packet _ _ _ _ _ Hc)) as Hr.
  cbn in Hs. unfold lib_key in Hs. rewrite Hs.
  destruct (holds_put [] q p junk) as (b & E & Hb); [|done|done|].
  { intros i _ Hin. by apply not_elem_of_nil in Hin. }
  rewrite E. eexists. split; [reflexivity|]. cbn [app].
  assert (Hcm : complete_msg L [q] = false) by (rewrite complete_singleton by done; apply Z.leb_gt; done).
  rewrite Hcm. split; [|by rewrite app_nil_r]. unfold lib_msg. rewrite Hcm.
  eexists. split; [apply lookup_insert_eq|]. split_and!; try done. cbn.
  unfold npkts, HOMA_MSS, msg_length_ok, HOMA_MAX_MESSAGE_LENGTH in *. mach_lia.
Qed.

(** The packets accepted, one more included, are no more than there are. *)
Lemma accepted_bound R : accepted L R -> Z.of_nat (length R) <= npkts L.
Proof.
  intros Ha. pose proof (npkts_range L length_ok). destruct (accepted_rest L _ length_ok Ha) as (R' & HP & _).
  assert (length (all_packets L) = (length R + length R')%nat) as Hx by (by rewrite HP, length_app).
  unfold all_packets in Hx. rewrite length_fmap, length_seq in Hx. lia.
Qed.

(** The count of missing packets after one more. *)
Lemma count_after R q c : accepted L (R ++ [q]) -> c = npkts L - Z.of_nat (length R) ->
  u32 (c - 1) = npkts L - Z.of_nat (length (R ++ [q])) /\ (u32 (c - 1) =? 0) = complete_msg L (R ++ [q]).
Proof.
  intros Ha ->. pose proof (accepted_bound _ Ha) as Hb. pose proof (npkts_range L length_ok).
  unfold complete_msg. rewrite length_app in *. cbn [length] in *.
  assert (E : u32 (npkts L - Z.of_nat (length R) - 1) = npkts L - Z.of_nat (length R + 1)) by (unfold u32; lia).
  rewrite E. split; [done|]. apply eq_bool_prop_intro. rewrite !Is_true_true, !Z.eqb_eq. lia.
Qed.

(** A later packet. *)
Lemma lib_step_later x R q qidx p junk s : HOMA_MSS < L -> accepted L (x :: R) -> q ∉ x :: R ->
  carries k msg slot q p -> lib_msg k msg slot (x :: R) s -> lib_step_ok (x :: R) q qidx p junk s.
Proof.
  intros Hgt Ha Hni Hc Hs. open_request Hc. rewrite (proj2 (Z.leb_gt _ _) Hgt).
  pose proof (mp_range _ _ _ _ _ (ca_packet _ _ _ _ _ Hc)) as Hr.
  pose proof (accepted_snoc L _ q Ha Hr Hni) as Ha'.
  unfold lib_msg in Hs. destruct (complete_msg L (x :: R)) eqn:Ec.
  { exfalso. apply Hni. by apply (complete_all L (x :: R) length_ok Ha). }
  destruct Hs as (h & Eh & Hh & Hcnt & Hid & Hsi). unfold lib_key in Eh. rewrite Eh.
  destruct (holds_put (x :: R) q p (rh_buffer h)) as (b & E & Hb); [apply Hh|apply Hh|done|].
  destruct (count_after _ q _ Ha' Hcnt) as [Hcnt' Hz].
  rewrite E. cbn [rh_count rh_buffer rh_rpcid rh_slot_idx upd_field setter_of]. rewrite Hz.
  destruct (complete_msg L ((x :: R) ++ [q])) eqn:Ec'.
  - eexists. split; [reflexivity|]. rewrite (holds_all _ b Ha' Ec' Hb), Hid, Hsi. split; [|done].
    unfold lib_msg. cbn [app]. cbn [app] in Ec'. rewrite Ec'. apply lookup_delete_eq.
  - eexists. split; [reflexivity|]. split; [|by rewrite app_nil_r].
    unfold lib_msg. cbn [app]. cbn [app] in Ec', Hb. rewrite Ec'.
    eexists. split; [apply lookup_insert_eq|]. by split_and!.
Qed.

Lemma lib_step R q qidx p junk s : accepted L R -> q ∉ R -> carries k msg slot q p ->
  length junk = length msg -> lib_msg k msg slot R s -> lib_step_ok R q qidx p junk s.
Proof.
  intros Ha Hni Hc Hj Hs. destruct (Z.leb_spec L HOMA_MSS) as [Hle|Hgt]; [by apply lib_step_single|].
  destruct R as [|x R]; [by apply lib_step_first | by apply lib_step_later].
Qed.

End Reassembly.

(** ** From the wire to the application *)

(** The receiving host: each packet runs the program, and a packet of [k] that
    is passed to the socket is handled by the library.  Packets of other RPCs
    have reassembly buffers of their own. *)
Fixpoint recv_run (lb : tree_search) (ports : gmap Z (Z -> Z)) (k : rpc_key_t) (junk : list Z)
  (l : list (rx_env * hpkt)) (w : homa) (s : rpc_socket) : option (homa * rpc_socket) :=
  match l with
  | [] => Some (w, s)
  | (e, p) :: l =>
    let '(v, _, m, w) := xdp_sock_prog lb ports e p w in
    match passed k ((e, p), (v, m)) with
    | None => recv_run lb ports k junk l w s
    | Some _ =>
      match HomaLib.server_request (re_queue e) p (pkt_ip p)
              (local_id (bpf_be64_to_cpu (ch_sender_id (hp_common p)))) junk s with
      | None => None
      | Some s => recv_run lb ports k junk l w s
      end
    end
  end.

Section EndToEnd.
Variables (lb : tree_search) (ports : gmap Z (Z -> Z)) (target : Z -> Z).
Variables (k : rpc_key_t) (msg : list Z) (slot : Z) (junk : list Z).
Notation L := (Z.of_nat (length msg)).
Hypothesis server : rpc_is_client (rk_rpcid k) = false.
Hypothesis length_ok : msg_length_ok L.
Hypothesis port : ports !! rk_local_port k = Some target.
Hypothesis junk_length : length junk = length msg.

(** The calls made by the packets [R']. *)
Definition calls_of (R : list Z) : list app_call :=
  if complete_msg L R then [request_call k msg slot] else [].

Lemma passed_some e p v m q : passed k ((e, p), (v, m)) = Some q -> data_of k p = true /\ q = pkt_seq p.
Proof.
  cbn. destruct v; [done|]. destruct (data_of k p); [|done]. by intros [= <-].
Qed.

Lemma complete_mono R l : accepted L R -> accepted L (accept_all k R l) -> complete_msg L R = true ->
  complete_msg L (accept_all k R l) = true.
Proof.
  intros Ha Hb Hc. apply (complete_all _ _ length_ok Hb). intros q Hq. apply accept_mono.
  by apply (complete_all _ _ length_ok Ha).
Qed.

Lemma recv_run_ok l R w s : accepted L R -> srv_msg L R k w -> lib_msg k msg slot R s -> h_mem w = [] ->
  Z.of_nat (size (h_rpc_tbl w) + length l) <= MAX_RPC_TBL_SIZE ->
  Forall (fun '(e, p) => arrival k L e p) l ->
  Forall (fun '(_, p) => data_of k p = true -> carries k msg slot (pkt_seq p) p) l ->
  exists w' s', recv_run lb ports k junk l w s = Some (w', s') /\
    accepted L (accept_all k R l) /\
    s_log s' ++ calls_of R = s_log s ++ calls_of (accept_all k R l).
Proof.
  revert R w s. induction l as [|[e p] l IH]; intros R w s Ha Hw Hs Hm Hz Harr Hcar.
  { exists w, s. done. }
  apply list.Forall_cons in Harr as [Hp Harr]. apply list.Forall_cons in Hcar as [Hc Hcar]. cbn [length] in Hz.
  pose proof (sock_step_ok lb ports k L server length_ok target port R e p w Ha Hw Hm ltac:(lia) Hp) as H.
  rewrite accept_all_cons. cbn [recv_run]. unfold sock_step in H.
  destruct (xdp_sock_prog lb ports e p w) as [[[v p'] m] w1].
  destruct H as (H1 & H2 & H3 & H4 & H5).
  destruct (passed k (e, p, (v, m))) as [q|] eqn:Ep; cbn [from_option] in H5.
  - apply passed_some in Ep as [Hd ->]. specialize (Hc Hd).
    assert (Hni : pkt_seq p ∉ R).
    { pose proof (ac_nodup _ _ H2) as Hnd. rewrite H5 in Hnd. apply list.NoDup_app in Hnd as (_ & Hnd & _).
      intros Hin. apply (Hnd _ Hin). left. }
    destruct (ca_packet _ _ _ _ _ Hc) as [Hk _ _ _ _].
    destruct (lib_step k msg slot length_ok R (pkt_seq p) (re_queue e) p junk s Ha Hni Hc junk_length Hs)
      as (s1 & E1 & Hs1 & Hlog).
    replace (HomaLib.server_request _ _ _ _ _ _) with (Some s1).
    2: { rewrite <- E1. f_equal; by rewrite <- Hk. }
    rewrite H5 in *.
    destruct (IH (R ++ [pkt_seq p]) w1 s1 H2 H1 Hs1 H3 ltac:(lia) Harr Hcar) as (w' & s' & E & I1 & I2).
    exists w', s'. split_and!; [done..|]. rewrite Hlog in I2.
    assert (HR : calls_of R = []).
    { unfold calls_of. destruct (complete_msg L R) eqn:Ec; [|done]. exfalso. apply Hni.
      apply (complete_all L R length_ok Ha); [done|]. apply (ca_packet _ _ _ _ _ Hc). }
    rewrite HR, app_nil_r. fold (calls_of (R ++ [pkt_seq p])) in I2. unfold calls_of in *.
    destruct (complete_msg L (R ++ [pkt_seq p])) eqn:Ec.
    + rewrite (complete_mono _ l H2 I1 Ec) in *. by apply app_inv_tail in I2.
    + rewrite !app_nil_r in I2. done.
  - rewrite app_nil_r in H5. rewrite H5 in *.
    apply (IH R w1 s Ha H1 Hs H3 ltac:(lia) Harr Hcar).
Qed.

End EndToEnd.

(** ** Segmentation *)
Section Segmentation.
Variables (local_addr local_port frame_headroom : Z).
Variables (slot L : Z).
Hypothesis length_ok : msg_length_ok L.

Notation at_ := (add_offset_tx_frame frame_headroom).

(** Packet [q] of the message of [rm], in a frame that held [old]. *)
Definition packet_of (rm : InternalReqMeta) (q : Z) (old : hpkt) : hpkt :=
  segment_pkt local_addr local_port (rm <| rm_seq := q |>) slot L (q * HOMA_MSS) (seg_len L q) old.

(** [n] frames from [bc] on carry the packets from [q] on, chained. *)
Fixpoint chained (rm : InternalReqMeta) (n : nat) (q : Z) (bc : list Z) (frames : gmap Z txframe) : Prop :=
  match n, bc with
  | O, _ => True
  | S n, b :: bc =>
    (exists old, frames !! at_ b = Some (mk_txframe 0 (match n, bc with S _, c :: _ => at_ c | _, _ => POISON_64 end)
                                           (at_ b) 0 (packet_of rm q old))) /\
    chained rm n (q + 1) bc frames
  | S _, [] => False
  end.

(** The descriptors of those frames. *)
Fixpoint descs (n : nat) (q : Z) (bc : list Z) : list (Z * Z) :=
  match n, bc with
  | S n, b :: bc => (at_ b, HOMA_PAYLOAD_OFFSET + seg_len L q) :: descs n (q + 1) bc
  | _, _ => []
  end.

(** Writes elsewhere do not touch a chain. *)
Lemma chained_other rm n q bc f g : (forall b, b ∈ bc -> g !! at_ b = f !! at_ b) ->
  chained rm n q bc f -> chained rm n q bc g.
Proof.
  revert q bc. induction n as [|n IH]; intros q bc H Hc; [done|]. destruct bc as [|b bc]; [done|].
  destruct Hc as [[old Ho] Hc]. split; [exists old; rewrite H; [done|left]|].
  apply IH; [|done]. intros c Hin. apply H. by right.
Qed.

Definition link_prev (prev addr : Z) (f : gmap Z txframe) : gmap Z txframe :=
  if prev =? POISON_64 then f else alter (fun x => x <| tf_buffer_next := addr |>) prev f.

(** One turn of the loop. *)
Lemma segmentation_loop_step n room rm slot_idx ml off size s b bc : s_bcache s = b :: bc ->
  segmentation_loop local_addr local_port frame_headroom (S n) (S room) rm slot_idx ml off size s =
  let addr := at_ b in
  let plen := Z.min HOMA_MSS size in
  let old := default blank_pkt (tf_pkt <$> s_frames s !! addr) in
  let pkt := segment_pkt local_addr local_port rm slot_idx ml off plen old in
  let s1 := s <| s_bcache := bc |>
              <| s_frames := link_prev (rm_prev_buffer_addr rm) addr
                               (<[addr := mk_txframe 0 POISON_64 addr 0 pkt]> (s_frames s)) |>
              <| s_tx := s_tx s ++ [(addr, HOMA_PAYLOAD_OFFSET + plen)] |> in
  let rm1 := rm <| rm_prev_buffer_addr := addr |> <| rm_seq := u16 (rm_seq rm + 1) |> in
  let '(rm, o, sent, s) := segmentation_loop local_addr local_port frame_headroom n room rm1 slot_idx ml
                             (u32 (off + plen)) (size - plen) s1 in
  (rm, o, sent + 1, s).
Proof.
  intros E. cbn [segmentation_loop]. rewrite E. cbn zeta. unfold link_prev, set_frame.
  by destruct (rm_prev_buffer_addr rm =? POISON_64).
Qed.

(** What the loop does with [m] frames of the cache. *)
Definition loop_post (rm : InternalReqMeta) (m : nat) (q : Z) (bc : list Z) (s : rpc_socket)
  (r : InternalReqMeta * Z * Z * rpc_socket) : Prop :=
  let '(rm', off', sent, s') := r in
  sent = Z.of_nat m /\ off' = Z.min ((q + Z.of_nat m) * HOMA_MSS) L /\
  rm_seq rm' = q + Z.of_nat m /\ rm_actual_size rm' = rm_actual_size rm /\
  rm_buffer rm' = rm_buffer rm /\ s_bcache s' = drop m bc /\
  s_tx s' = s_tx s ++ descs m q bc /\ chained rm m q bc (s_frames s') /\
  (forall a, a ∉ at_ <$> take m bc -> s_frames s' !! a =
     if (0 <? Z.of_nat m) && (a =? rm_prev_buffer_addr rm) && negb (a =? POISON_64)
     then (fun x => x <| tf_buffer_next := at_ (nth 0 bc 0) |>) <$> s_frames s !! a else s_frames s !! a).

Lemma packet_of_ext rm rm' q old : rm_dest_addr rm' = rm_dest_addr rm -> rm_rpcid rm' = rm_rpcid rm ->
  rm_buffer rm' = rm_buffer rm -> packet_of rm' q old = packet_of rm q old.
Proof. intros E1 E2 E3. unfold packet_of, segment_pkt. cbn. by rewrite E1, E2, E3. Qed.

Lemma chained_ext rm rm' n q bc f : rm_dest_addr rm' = rm_dest_addr rm -> rm_rpcid rm' = rm_rpcid rm ->
  rm_buffer rm' = rm_buffer rm -> chained rm' n q bc f -> chained rm n q bc f.
Proof.
  intros E1 E2 E3. revert q bc. induction n as [|n IH]; intros q bc Hc; [done|]. destruct bc as [|b bc]; [done|].
  destruct Hc as [[old Ho] Hc]. split; [exists old; by rewrite <- (packet_of_ext rm rm')|]. by apply IH.
Qed.

Lemma at_inj a b : at_ a = at_ b -> a = b.
Proof. unfold add_offset_tx_frame. lia. Qed.

Lemma link_prev_lookup prev addr f a : link_prev prev addr f !! a =
  if (a =? prev) && negb (a =? POISON_64) then (fun x => x <| tf_buffer_next := addr |>) <$> f !! a else f !! a.
Proof.
  unfold link_prev. destruct (Z.eqb_spec prev POISON_64) as [->|Hp].
  { destruct (a =? POISON_64); done. }
  destruct (Z.eqb_spec a prev) as [->|Ha]; [|by rewrite lookup_alter_ne].
  rewrite lookup_alter_eq. by destruct (Z.eqb_spec prev POISON_64).
Qed.

(** The chain of the frames [b :: bc]: the first frame, linked to the chain of
    the others. *)
Lemma chained_cons rm m q b bc f old : NoDup (b :: bc) -> chained rm m (q + 1) bc f -> (m <= length bc)%nat ->
  f !! at_ b = Some (mk_txframe 0 (match m with O => POISON_64 | S _ => at_ (nth 0 bc 0) end)
                       (at_ b) 0 (packet_of rm q old)) ->
  chained rm (S m) q (b :: bc) f.
Proof.
  intros Hnd Hc Hm Hf. split; [|done]. exists old. rewrite Hf. by destruct m, bc.
Qed.

Lemma segmentation_loop_ok n room rm q bc s : s_bcache s = bc -> NoDup bc ->
  rm_prev_buffer_addr rm ∉ at_ <$> bc -> POISON_64 ∉ at_ <$> bc -> rm_seq rm = q -> 0 <= q ->
  q + Z.of_nat n <= npkts L ->
  loop_post rm (Nat.min n (Nat.min room (length bc))) q bc s
    (segmentation_loop local_addr local_port frame_headroom n room rm slot L
       (Z.min (q * HOMA_MSS) L) (L - Z.min (q * HOMA_MSS) L) s).
Proof.
  revert room rm q bc s. induction n as [|n IH]; intros room rm q bc s Hbc Hnd Hprev Hpois Hq H0 Hn.
  { unfold loop_post. cbn. rewrite Z.add_0_r. split_and!; try done. by rewrite app_nil_r. }
  destruct room as [|room]; [|destruct bc as [|b bc]].
  1, 2: unfold loop_post; cbn; rewrite ?Hbc, Z.add_0_r; split_and!; try done; by rewrite app_nil_r.
  assert (Hlt : q * HOMA_MSS < L) by (unfold npkts, HOMA_MSS in *; lia).
  assert (HL : L <= 1000000) by apply length_ok.
  pose proof (npkts_range L length_ok) as Hnp.
  rewrite (segmentation_loop_step _ _ _ _ _ _ _ _ b bc Hbc). cbn zeta.
  rewrite Z.min_l by lia. fold (seg_len L q).
  set (old := default _ _). set (rm1 := rm <| rm_prev_buffer_addr := _ |> <| rm_seq := _ |>). set (s1 := upd_field _ _ _).
  replace (u32 (q * HOMA_MSS + seg_len L q)) with (Z.min ((q + 1) * HOMA_MSS) L)
    by (unfold seg_len, HOMA_MSS, u32 in *; lia).
  replace (L - q * HOMA_MSS - seg_len L q) with (L - Z.min ((q + 1) * HOMA_MSS) L)
    by (unfold seg_len, HOMA_MSS in *; lia).
  apply list.NoDup_cons in Hnd as [Hb Hnd].
  assert (Hb' : at_ b ∉ at_ <$> bc).
  { intros Hin. apply list_elem_of_fmap in Hin as (c & E & Hin). by apply at_inj in E as ->. }
  cbn [fmap list_fmap] in Hprev, Hpois. rewrite elem_of_cons in Hprev, Hpois.
  assert (Hq1 : rm_seq rm1 = q + 1) by (cbn; rewrite Hq; unfold HOMA_MSS, u16 in *; lia).
  specialize (IH room rm1 (q + 1) bc s1 eq_refl Hnd Hb' ltac:(tauto) Hq1 ltac:(lia) ltac:(lia)).
  cbn [length Nat.min]. set (m := Nat.min n (Nat.min room (length bc))) in *.
  destruct (segmentation_loop _ _ _ n room rm1 _ _ _ _ s1) as [[[rm' off'] sent] s'].
  destruct IH as (I1 & I2 & I3 & I4 & I5 & I6 & I7 & I8 & I9).
  unfold loop_post. rewrite Nat2Z.inj_succ. split_and!; try done; try lia.
  - rewrite I7. cbn [s_tx s1 upd_field setter_of]. cbn. by rewrite <- app_assoc.
  - apply (chained_cons _ _ _ _ _ _ old); [by apply list.NoDup_cons| |lia|].
    { by apply (chained_ext rm rm1). }
    rewrite I9. 2: { intros Hin. apply Hb'. apply list_elem_of_fmap in Hin as (c & -> & Hin).
                     apply list_elem_of_fmap. exists c. split; [done|]. by apply elem_of_take in Hin as (? & ? & _); eapply list_elem_of_lookup_2. }
    assert (Hf : s_frames s1 !! at_ b = Some (mk_txframe 0 POISON_64 (at_ b) 0 (packet_of rm q old))).
    { cbn. rewrite link_prev_lookup, lookup_insert_eq.
      destruct (Z.eqb_spec (at_ b) (rm_prev_buffer_addr rm)); [exfalso; apply Hprev; by left|].
      unfold packet_of, segment_pkt. cbn. by rewrite Hq. }
    rewrite Hf. cbn [rm_prev_buffer_addr rm1 upd_field setter_of]. rewrite Z.eqb_refl.
    destruct (Z.eqb_spec (at_ b) POISON_64); [exfalso; apply Hpois; by left|]. by destruct m.
  - intros a Ha. cbn [take fmap list_fmap] in Ha. rewrite elem_of_cons in Ha. rewrite I9 by tauto.
    assert (Hne : a <> at_ b) by tauto. cbn [rm_prev_buffer_addr rm1 upd_field setter_of].
    replace (a =? at_ b) with false by (symmetry; by apply Z.eqb_neq). rewrite andb_false_r.
    cbn. rewrite link_prev_lookup, lookup_insert_ne by done.
    by replace (0 <? Z.succ (Z.of_nat m)) with true by (symmetry; apply Z.ltb_lt; lia).
Qed.

(** The packets [message_tx_segmentation] can send at once. *)
Definition batch (room : nat) (q : Z) (bc : list Z) : nat :=
  Nat.min (Z.to_nat (Z.min (npkts L - q) TX_BATCH_SIZE)) (Nat.min room (length bc)).

Lemma nr_buffers_eq q : 0 <= q < npkts L ->
  Z.min (u32 ((u64 (L - u32 (q * HOMA_MSS)) + (HOMA_MSS - 1)) / HOMA_MSS)) TX_BATCH_SIZE =
  Z.min (npkts L - q) TX_BATCH_SIZE.
Proof.
  intros Hq. assert (HL : L <= 1000000) by apply length_ok. f_equal.
  unfold npkts, HOMA_MSS, u32, u64 in *. lia.
Qed.

End Segmentation.

(** C14. Segmentation of a message from its packet [q] on: as many packets as are
    left, the batch, the ring and the buffer cache allow are written, in order
    and each once, into frames taken from the cache, with the bytes of the
    message at their offsets; the frames are linked into the chain the message
    is later resent and reclaimed from, the chain continues the one of the
    packets sent before, and their descriptors go to the ring in that order.
    The message is reported finished exactly when its last packet is out, and no
    other frame changes. *)
Theorem homa_segmentation (local_addr local_port headroom slot L send_out q : Z) (room : nat)
  (rm : InternalReqMeta) (s : rpc_socket)
  (HL : msg_length_ok L) (Hsize : rm_actual_size rm = L) (Hseq : rm_seq rm = q) (Hq : 0 <= q < npkts L)
  (Hnodup : NoDup (s_bcache s))
  (Hprev : rm_prev_buffer_addr rm ∉ add_offset_tx_frame headroom <$> s_bcache s)
  (Hpois : POISON_64 ∉ add_offset_tx_frame headroom <$> s_bcache s) :
  let m := batch L room q (s_bcache s) in
  let '(done, rm', sent, s') :=
    message_tx_segmentation local_addr local_port headroom room rm slot send_out s in
  done = (q + Z.of_nat m =? npkts L) /\ sent = send_out + Z.of_nat m /\
  rm_seq rm' = q + Z.of_nat m /\ s_bcache s' = drop m (s_bcache s) /\
  s_tx s' = s_tx s ++ descs headroom L m q (s_bcache s) /\
  chained local_addr local_port headroom slot L rm m q (s_bcache s) (s_frames s') /\
  (forall a, a ∉ add_offset_tx_frame headroom <$> take m (s_bcache s) -> s_frames s' !! a =
     if (0 <? Z.of_nat m) && (a =? rm_prev_buffer_addr rm) && negb (a =? POISON_64)
     then (fun x => x <| tf_buffer_next := add_offset_tx_frame headroom (nth 0 (s_bcache s) 0) |>) <$>
            s_frames s !! a
     else s_frames s !! a).
Proof.
  assert (HL' : 1 <= L <= 1000000) by apply HL. cbn zeta. unfold message_tx_segmentation. rewrite Hsize, Hseq.
  rewrite (nr_buffers_eq L HL q Hq).
  pose proof (segmentation_loop_ok local_addr local_port headroom slot L HL
    (Z.to_nat (Z.min (npkts L - q) TX_BATCH_SIZE)) room rm q (s_bcache s) s eq_refl Hnodup Hprev Hpois Hseq
    ltac:(lia) ltac:(unfold TX_BATCH_SIZE in *; lia)) as H.
  assert (Hlt : q * HOMA_MSS < L) by (unfold npkts, HOMA_MSS in *; lia).
  rewrite (Z.min_l (q * HOMA_MSS)) in H by lia. fold (batch L room q (s_bcache s)) in H.
  set (m := batch L room q (s_bcache s)) in *.
  replace (u32 L) with L by (unfold u32; lia).
  replace (u32 (q * HOMA_MSS)) with (q * HOMA_MSS) by (unfold HOMA_MSS, u32 in *; lia).
  replace (u64 (L - q * HOMA_MSS)) with (L - q * HOMA_MSS) by (unfold HOMA_MSS, u64 in *; lia).
  destruct (segmentation_loop _ _ _ _ _ _ _ _ _ _ _) as [[[rm' off'] sent] s'].
  destruct H as (-> & -> & H3 & H4 & _ & H6 & H7 & H8 & H9). split_and!; try done.
  assert (Hm : q + Z.of_nat m <= npkts L) by (unfold m, batch, TX_BATCH_SIZE in *; lia).
  rewrite H4, Hsize, Z.geb_leb. apply eq_bool_prop_intro. rewrite !Is_true_true, Z.leb_le, Z.eqb_eq.
  unfold npkts, HOMA_MSS in *. lia.
Qed.

(** ** A request from end to end *)
Section Sender.
(** The sender's socket, the metadata and the slot of its request. *)
Variables (local_addr local_port slot : Z) (rm : InternalReqMeta).

(** The RPC as the receiver knows it. *)
Definition receiver_key : rpc_key_t :=
  mk_rpc_key_t (local_id (rm_rpcid rm)) (bpf_ntohs (sin_port (rm_dest_addr rm))) local_port
    (bpf_ntohl local_addr).

Notation L := (Z.of_nat (length (rm_buffer rm))).

(** [p] left the egress program for packet [q]. *)
Inductive transmitted (q : Z) (p : hpkt) : Prop :=
| transmitted_intro old e meta w v w' : 0 <= q < npkts L ->
    xdp_egress_prog e meta (packet_of local_addr local_port slot L rm q old) w = Some (v, p, w') ->
    transmitted q p.

Hypothesis length_ok : msg_length_ok L.
Hypothesis id_range : in64 (rm_rpcid rm).
Hypothesis port_range : in16 local_port.

Lemma packet_of_carries q old : 0 <= q < npkts L ->
  carries receiver_key (rm_buffer rm) (u8 slot) q (packet_of local_addr local_port slot L rm q old).
Proof.
  intros Hq. assert (HL : 1 <= L <= 1000000) by apply length_ok. pose proof (npkts_range L length_ok).
  pose proof (seg_len_range L q length_ok Hq).
  split; [split| | |]; cbn; try done.
  - unfold rx_key, receiver_key. cbn. by rewrite bpf_be64_roundtrip, bpf_ntohs_htons.
  - apply bpf_ntohl_htonl. unfold in32. lia.
  - apply bpf_ntohs_htons. unfold in16. lia.
  - apply bpf_ntohl_htonl. unfold in32. lia.
  - apply bpf_ntohl_htonl. unfold in32, HOMA_MSS, npkts in *. lia.
  - apply take_ge. done.
Qed.

Lemma same_segment_carries k msg sl q p p' : same_segment p p' -> carries k msg sl q p -> carries k msg sl q p'.
Proof.
  intros [(H1 & H2 & H3 & H4 & _ & H6 & H7) [H8 _]] [[C1 C2 C3 C4 C5] C6 C7 C8].
  unfold pkt_ip in *. split; [split; unfold pkt_ip; congruence|congruence..].
Qed.

Lemma transmitted_carries q p : transmitted q p -> carries receiver_key (rm_buffer rm) (u8 slot) q p.
Proof.
  intros [old e meta w v w' Hq E]. eapply same_segment_carries; [by eapply egress_same|]. by apply packet_of_carries.
Qed.

Lemma transmitted_data q p : transmitted q p ->
  ch_type (hp_common p) = DATA /\ L2L3 + 60 <= hp_len p /\ d_retransmit (hp_data p) = 0 /\
  data_of receiver_key p = true /\ pkt_seq p = q.
Proof.
  intros Ht. destruct (transmitted_carries q p Ht) as [[C1 _ C3 _ _] _ _ _].
  destruct Ht as [old e meta w v w' Hq E]. apply egress_same in E as [(_ & H2 & _ & _ & H5 & _) [_ H9]].
  pose proof (seg_len_range L q length_ok Hq) as Hs.
  assert (Et : ch_type (hp_common p) = DATA) by (unfold hp_common; by rewrite H2).
  split_and!; [done|rewrite H9; cbn; unfold HOMA_PAYLOAD_OFFSET, L2L3; lia|by rewrite H5| |done].
  unfold data_of. rewrite Et. cbn [Z.eqb andb]. by apply bool_decide_eq_true.
Qed.

(** What the receiving host may see while the request is under way: packets of
    other RPCs, control packets, and packets of the request that left the
    sender, on a queue that is that of their CPU; none acknowledges the RPC. *)
Inductive wire (e : rx_env) (p : hpkt) : Prop :=
| wire_other : pkt_key p <> receiver_key ->
    (ch_type (hp_common p) = DATA -> acked (hp_data p) (pkt_ip p) <> receiver_key) -> wire e p
| wire_ctrl : pkt_key p = receiver_key -> ch_type (hp_common p) ∈ [RESEND; GRANT; BUSY] -> wire e p
| wire_data q : transmitted q p -> acked (hp_data p) (pkt_ip p) <> receiver_key ->
    re_cpu e < MAX_CPU -> re_cpu e = re_queue e -> re_meta e = true -> wire e p.

Lemma wire_arrival e p : wire e p -> arrival receiver_key L e p /\
  (data_of receiver_key p = true -> carries receiver_key (rm_buffer rm) (u8 slot) (pkt_seq p) p).
Proof.
  intros [H1 H2|H1 H2|q H1 H2 H3 H4 H5].
  - split; [by apply arr_other|]. unfold data_of. rewrite (bool_decide_eq_false_2 _ H1), andb_false_r. done.
  - split; [by apply arr_ctrl|]. unfold data_of. rewrite !elem_of_cons in H2.
    destruct H2 as [->|[->|[->|H2]]]; try done. by apply not_elem_of_nil in H2.
  - destruct (transmitted_data q p H1) as (T1 & T2 & T3 & T4 & T5).
    pose proof (transmitted_carries q p H1) as C. rewrite <- T5 in C. split; [|done].
    apply arr_data; try done. apply C.
Qed.

Lemma wire_transmitted e p : wire e p -> data_of receiver_key p = true -> transmitted (pkt_seq p) p.
Proof.
  intros [H1 _|_ H2|q H1 _ _ _ _] Hd.
  - unfold data_of in Hd. by rewrite (bool_decide_eq_false_2 _ H1), andb_false_r in Hd.
  - unfold data_of in Hd. rewrite !elem_of_cons in H2.
    destruct H2 as [E|[E|[E|H2]]]; try (by rewrite E in Hd). by apply not_elem_of_nil in H2.
  - by destruct (transmitted_data q p H1) as (_ & _ & _ & _ & ->).
Qed.

End Sender.

(** Packet [q] of the request is among the packets received. *)
Definition received (local_addr local_port slot : Z) (rm : InternalReqMeta) (l : list (rx_env * hpkt)) (q : Z)
  : Prop :=
  exists e p, (e, p) ∈ l /\ transmitted local_addr local_port slot rm q p.

Lemma land_1_odd x : Z.land x 1 = Z.b2z (Z.odd x).
Proof. change 1 with (Z.ones 1) at 1. rewrite Z.land_ones by lia. change (2 ^ 1) with 2. by rewrite Zmod_odd; destruct (Z.odd x). Qed.

(** The request of a client is a server's RPC at the receiver. *)
Lemma local_id_server x : rpc_is_client x = true -> rpc_is_client (local_id x) = false.
Proof.
  unfold rpc_is_client, local_id. rewrite !land_1_odd, <- !Z.bit0_odd, Z.lxor_spec.
  by destruct (Z.testbit x 0).
Qed.


(** A request of 1421 bytes whose second packet arrives first, and twice. *)
Definition wit_meta : InternalReqMeta :=
  mk_InternalReqMeta (Z.of_nat <$> seq 0 1421) 1421 (mk_sockaddr (bpf_htonl 3232236034) (bpf_htons 4000)) 8 0
    POISON_64 0 3 0.

Definition wit_egress (q : Z) (w : homa) : option (egress_verdict * hpkt * homa) :=
  xdp_egress_prog (mk_egress_env (fun _ => 0) (fun _ x => x) 0) (Some (mk_homa_tx_t 0 4096))
    (packet_of (bpf_htonl 3232236033) 5000 3 1421 wit_meta q blank_pkt) w.

Definition wit_first : option (egress_verdict * hpkt * homa) := wit_egress 0 empty_homa.
Definition wit_second : option (egress_verdict * hpkt * homa) := wit_first ≫= fun x => wit_egress 1 (snd x).
Definition wit_frame (x : option (egress_verdict * hpkt * homa)) : hpkt := default blank_pkt (snd ∘ fst <$> x).

Lemma wit_transmitted q w x : wit_egress q w = Some x -> 0 <= q < 2 ->
  transmitted (bpf_htonl 3232236033) 5000 3 wit_meta q (wit_frame (Some x)).
Proof.
  assert (HL : Z.of_nat (length (rm_buffer wit_meta)) = 1421) by (vm_compute; reflexivity).
  destruct x as [[v p] w']. intros E Hq. eapply transmitted_intro; rewrite HL; [exact Hq | exact E].
Qed.

Lemma wit_wire q x w : wit_egress q w = Some x -> 0 <= q < 2 ->
  seg_ack (d_seg (hp_data (wit_frame (Some x)))) = mk_homa_ack 0 0 0 ->
  wire (bpf_htonl 3232236033) 5000 3 wit_meta wit_env (wit_frame (Some x)).
Proof.
  intros E Hq Hack. apply (wire_data _ _ _ _ _ _ q); [exact (wit_transmitted q w x E Hq)| |done..].
  unfold acked. rewrite Hack. by intros [=].
Qed.

Definition wit_socket : rpc_socket := mk_rpc_socket ∅ [] [] ∅ [] [] [] [] [] [] [] ∅ 0 [].


(** The same request with four frames in the cache and room for all. *)
Lemma homa_segmentation_witness :
  let s := wit_socket <| s_bcache := [0; 4096; 8192; 12288] |> in
  let '(done, rm', sent, s') := message_tx_segmentation (bpf_htonl 3232236033) 5000 64 8 wit_meta 3 0 s in
  done = true /\ sent = 2 /\ s_tx s' = [(320, 94 + 1420); (4416, 94 + 1)] /\
  tf_buffer_next <$> s_frames s' !! 320 = Some 4416.
Proof.
  cbn zeta. set (s := wit_socket <| s_bcache := _ |>).
  pose proof (homa_segmentation (bpf_htonl 3232236033) 5000 64 3 1421 0 0 8 wit_meta s
    ltac:(split; vm_compute; congruence) eq_refl eq_refl ltac:(split; vm_compute; congruence)
    ltac:(apply (bool_decide_unpack _); vm_compute; exact I)
    ltac:(apply (bool_decide_unpack _); vm_compute; exact I)
    ltac:(apply (bool_decide_unpack _); vm_compute; exact I)) as H.
  destruct (message_tx_segmentation _ _ _ _ _ _ _ _) as [[[done rm'] sent] s'].
  destruct H as (-> & -> & _ & _ & -> & [[old E] _] & _). split_and!; [vm_compute; reflexivity..|].
  change 320 with (add_offset_tx_frame 64 0). rewrite E. reflexivity.
Defined.
