(* ===== verification/HomaPacer.v ===== *)
(** The pacer of the Homa fast path ([eBPF/homa/pacing.h]): packets that found
    no credit or a busy NIC wait in the queue of their RPC; the callbacks of two
    timers take an RPC from the throttle list and send what its credit covers.

    The queue map of the kernel is that of [Pacing], its frames are packets of
    [HomaXdp].  The searches in the tree are parameters as in [HomaRpc]. *)
From stdpp Require Import gmap.
From S2P Require Import Prelude Intf Headers Pacing HomaDefs HomaRpc HomaRecv HomaXdp.
Local Open Scope Z_scope.

Definition MAX_PKT_SEND : nat := 16.
Definition MAX_RPC_CHECK : Z := 4.

(** [pacer_next_info], [pacer_nonfifo_left] and the timer of NET_TX_ACTION. *)
Record pacer_state := mk_pacer_state {
  pa_bytes_remaining : Z;
  pa_rpcid : Z;
  pa_local_port : Z;
  pa_nonfifo_left : Z;
  pa_nettx_ready : bool;
  pa_nettx_starts : Z
}.

#[export] Instance eta_pacer_state : Eta pacer_state := fun r => mk_pacer_state
  (pa_bytes_remaining r) (pa_rpcid r) (pa_local_port r) (pa_nonfifo_left r) (pa_nettx_ready r)
  (pa_nettx_starts r).

(** Whether another CPU holds the pacer lock, and, by turns left of the loop,
    whether a frame can be read and be handed to the NIC. *)
Record pacer_env := mk_pacer_env {
  pe_locked : bool;
  pe_readable : nat -> bool;
  pe_sent : nat -> bool
}.

(** [NEXT_RPC] *)
Definition NEXT_RPC (w : homa) : homa :=
  let r := u64 (h_next_pacer_round w + 1) in
  w <| h_next_pacer_round := if r >=? MAX_RPC_CHECK then 0 else r |>.

Section Pacer.
Context {M : Type} `{PktQueue M hpkt}.
Variables lower_bound search_less : tree_search.

(** The state of a callback: maps and trees, the queues, the pacer. *)
Definition pacer_world : Type := homa * M * pacer_state.

(** What a callback leaves: the packets it sent, for which RPC, and whether the
    timer was started again and with a wake-up. *)
Record pacer_out := mk_pacer_out {
  po_sent : list (rpc_key_t * hpkt);
  po_timer : option bool
}.

Definition slot_of (k : rpc_key_t) (w : homa) : rpc_state := default zero_rpc_state (h_rpc_tbl w !! k).

(** The loop that sends: whether the RPC stays on the list, the packets sent. *)
Fixpoint send_loop (n : nat) (e : pacer_env) (k : rpc_key_t) (rpc_qid : Z) (q : M) (w : homa)
  : bool * list hpkt * M * homa :=
  match n with
  | O => (true, [], q, w)
  | S n =>
    match pkt_queue_dequeue q rpc_qid with
    | None => (true, [], q, w)
    | Some (pkt, q) =>
      if negb (pe_readable e n) then (true, [], q, w) else
      let d := hp_data pkt in
      let granted := hc_granted (rs_cc (slot_of k w)) in
      if seg_end d >? granted then (false, [], pkt_queue_enqueue q pkt rpc_qid, w) else
      let pkt := pkt <| hp_data := d <| d_incoming := bpf_ntohl (u32 granted) |> |> in
      if negb (pe_sent e n) then (true, [], q, w) else
      let w := upd_rpc k (fun s => s <| rs_next_xmit_offset := seg_end d |>) w in
      let '(need, sent, q, w) := send_loop n e k rpc_qid q w in (need, pkt :: sent, q, w)
    end
  end.

(** The node the callback works on: [None] when the allocation failed, else the
    answer of the search. *)
Definition pick_rpc (w : homa) (pa : pacer_state) : option (option nat) * homa * pacer_state :=
  let pa := if h_next_pacer_round w =? 0
            then pa <| pa_bytes_remaining := 0 |> <| pa_rpcid := 0 |> <| pa_local_port := 0 |> else pa in
  let left := pa_nonfifo_left pa - PACER_FIFO_FRACTION in
  let do_fifo := left <=? 0 in
  let pa := pa <| pa_nonfifo_left := left |> in
  let fifo pa := if do_fifo then pa <| pa_nonfifo_left := left + PACER_FIFO_INCREMENT |> else pa in
  if do_fifo || negb (h_next_pacer_round w =? 0) then
    match bpf_obj_new w with
    | (None, w) => (None, w, pa)
    | (Some _, w) =>
      let pa := fifo pa in
      if do_fifo then
        (Some (find_node search_less less_birth_pacer w (h_troot w) (zero_node <| n_birth := POISON_64 |>)), w, pa)
      else
        let key := mk_rpc_state_cc (pa_bytes_remaining pa) 0 0 0
                     (mk_rpc_key_t (pa_rpcid pa) (pa_local_port pa) 0 0) 0 0 in
        (Some (find_node lower_bound srpt_less_pacer w (h_troot w) key), w, pa)
    end
  else (Some (head (h_troot w)), w, pa).

(** From the end of the loop on. *)
Definition pacer_finish (n : nat) (k : rpc_key_t) (need_enqueue : bool) (sent : list hpkt) (q : M) (w : homa)
  (pa : pacer_state) : pacer_out * pacer_world :=
  let out := (fun p => (k, p)) <$> sent in
  let nr_tx := Z.of_nat (length sent) in
  let left w := u32 (rs_message_length (slot_of k w) - rs_next_xmit_offset (slot_of k w)) in
  let w := if nr_tx =? 0 then w
           else
             let w := upd_rpc k (fun s => s <| rs_nr_pkts_in_rl := u64 (rs_nr_pkts_in_rl s - nr_tx) |>) w in
             set_node n ((node w n) <| n_bytes_remaining := left w |>) w in
  let completed := rs_next_xmit_offset (slot_of k w) >=? rs_message_length (slot_of k w) in
  let hkey := n_hkey (node w n) in
  let pa := pa <| pa_bytes_remaining := n_bytes_remaining (node w n) |> <| pa_rpcid := rk_rpcid hkey |> in
  if need_enqueue && negb completed then
    let pa := pa <| pa_local_port := rk_local_port hkey |> in
    let w := match bpf_rbtree_add srpt_less_pacer w n (h_troot w) with
             | Some t => w <| h_troot := t |> <| h_nr_rpc_in_throttle ::= fun x => u64 (x + 1) |>
             | None => w
             end in
    (mk_pacer_out out (Some true), (NEXT_RPC w, q, pa))
  else
    let pa := pa <| pa_local_port := u16 (rk_local_port hkey + 1) |> in
    if h_nr_rpc_in_throttle w =? 0
    then (mk_pacer_out out (Some false), (w <| h_next_pacer_round := 0 |>, q, pa))
    else (mk_pacer_out out (Some true), (NEXT_RPC w, q, pa)).

(** The callbacks once they have the lock. *)
Definition pacer_round (e : pacer_env) (x : pacer_world) : pacer_out * pacer_world :=
  let '(w, q, pa) := x in
  let idle timer w pa := (mk_pacer_out [] timer, (w, q, pa)) in
  if h_nr_rpc_in_throttle w =? 0 then idle None (w <| h_next_pacer_round := 0 |>) pa else
  match pick_rpc w pa with
  | (None, w, pa) => idle None w pa
  | (Some None, w, pa) => idle (Some true) (w <| h_next_pacer_round := 0 |>) pa
  | (Some (Some n), w, pa) =>
    match bpf_rbtree_remove n (h_troot w) with
    | None => idle (Some true) (NEXT_RPC w) pa
    | Some t =>
      let w := w <| h_troot := t |> <| h_nr_rpc_in_throttle ::= fun x => u64 (x - 1) |> in
      let k := n_hkey (node w n) in
      match h_rpc_tbl w !! k with
      | None => idle (Some true) (NEXT_RPC w) pa
      | Some rpc_slot =>
        if negb (rs_state rpc_slot =? BPF_RPC_OUTGOING) || (rs_qid rpc_slot =? MAX_BUCKET_SIZE)
           || (rs_next_xmit_offset rpc_slot >=? rs_message_length rpc_slot)
        then idle (Some true) (NEXT_RPC w) pa
        else
          let '(need_enqueue, sent, q, w) := send_loop (MAX_PKT_SEND - 1) e k (rs_qid rpc_slot) q w in
          pacer_finish n k need_enqueue sent q w pa
      end
    end
  end.

(** [pacer_timer_cb] and [nettx_timer_cb]: they differ when the lock is taken. *)
Definition pacer_timer_cb (e : pacer_env) (x : pacer_world) : pacer_out * pacer_world :=
  if pe_locked e then (mk_pacer_out [] (Some true), x) else pacer_round e x.

Definition nettx_timer_cb (e : pacer_env) (x : pacer_world) : pacer_out * pacer_world :=
  if pe_locked e then (mk_pacer_out [] None, x) else pacer_round e x.

(** [kick_nettx] *)
Definition kick_nettx (pa : pacer_state) : pacer_state :=
  pa <| pa_nettx_ready := true |> <| pa_nettx_starts ::= Z.add 1 |>.

(** [nic_busy] and [help_pacer] *)
Definition nic_busy (now : Z) (w : homa) : bool := u64 (now + max_nic_queue_ns / 2) <? h_link_idle_time w.

Definition help_pacer (now : Z) (w : homa) (pa : pacer_state) : pacer_state :=
  if nic_busy now w then pa else kick_nettx pa.

End Pacer.
