(* ===== verification/HomaCredit.v ===== *)
(** The sender of a Homa message keeps to its credit: over any sequence of
    transmitted packets, received packets and callbacks of the pacer, a packet
    of a message of several packets is put on the wire only when it lies within
    the unscheduled bytes or within a grant that was received before. *)
From stdpp Require Import gmap.
From S2P Require Import Prelude Intf Headers Pacing HomaDefs HomaRpc HomaRecv HomaXdp HomaPacer.
Local Open Scope Z_scope.

(** ** Runs of the fast path of a host *)

Inductive hevent :=
| Ev_egress (e : egress_env) (meta : option homa_tx_t) (p : hpkt)
| Ev_rx (e : rx_env) (p : hpkt)
| Ev_pacer (e : pacer_env)
| Ev_nettx (e : pacer_env).

Section Runs.
Context {M : Type} `{PktQueue M hpkt}.
Variables (lb search_less : tree_search) (ports : gmap Z (Z -> Z)).

Definition hsys : Type := homa * M * pacer_state.

(** One event, with the data packets it puts on the wire and the RPCs they are
    sent for; [None] when the program does not come to an end.  Packets of the
    control plane pass the egress program as they are. *)
Definition hstep (x : hsys) (ev : hevent) : option (list (rpc_key_t * hpkt) * hsys) :=
  let '(w, q, pa) := x in
  match ev with
  | Ev_egress e meta p =>
    match xdp_egress_prog e meta p w with
    | None => None
    | Some (E_act XDP_TX, p', w) =>
      let fast := match meta with Some m => negb (nz (ht_slowpath m)) | None => false end in
      Some (if fast then [(tx_key (hp_ip p) (hp_data p), p')] else [], (w, q, pa))
    | Some (E_act _, _, w) => Some ([], (w, q, pa))
    | Some (E_queue qid, p, w) => Some ([], (w, pkt_queue_enqueue q p qid, pa))
    end
  | Ev_rx e p => let '(_, _, _, w) := xdp_sock_prog lb ports e p w in Some ([], (w, q, pa))
  | Ev_pacer e => let '(o, x) := pacer_timer_cb lb search_less e x in Some (po_sent o, x)
  | Ev_nettx e => let '(o, x) := nettx_timer_cb lb search_less e x in Some (po_sent o, x)
  end.

Fixpoint hrun (l : list hevent) (x : hsys) : option hsys :=
  match l with
  | [] => Some x
  | ev :: l => match hstep x ev with Some (_, x) => hrun l x | None => None end
  end.

End Runs.

(** The credit of an RPC: the unscheduled bytes, or the largest grant. *)
Definition grant_of (k : rpc_key_t) (ev : hevent) : Z :=
  match ev with
  | Ev_rx _ p => if (ch_type (hp_common p) =? GRANT) && bool_decide (pkt_key p = k)
                 then bpf_ntohl (fst (fst (hp_grant p))) else 0
  | _ => 0
  end.

Definition granted_by (l : list hevent) (k : rpc_key_t) : Z :=
  foldr (fun ev c => Z.max (grant_of k ev) c) Homa_unsched_bytes l.

Lemma granted_by_app l l' k : granted_by (l ++ l') k = Z.max (granted_by l k) (granted_by l' k).
Proof.
  unfold granted_by. induction l as [|ev l IH]; cbn.
  - assert (Homa_unsched_bytes <= foldr (fun ev c => Z.max (grant_of k ev) c) Homa_unsched_bytes l'); [|lia].
    induction l' as [|ev l' IH]; cbn; lia.
  - rewrite IH. lia.
Qed.

Lemma granted_by_unsched l k : Homa_unsched_bytes <= granted_by l k.
Proof. unfold granted_by. induction l; cbn; lia. Qed.

(** ** The credit in the table *)

Definition credit_ok (f : rpc_key_t -> Z) (w : homa) : Prop :=
  forall k s, h_rpc_tbl w !! k = Some s -> hc_granted (rs_cc s) <= f k.

Section Credit.
Variable lim : rpc_key_t -> Z.
Hypothesis unsched : forall k, Homa_unsched_bytes <= lim k.

Lemma co_tbl w w' : h_rpc_tbl w' = h_rpc_tbl w -> credit_ok lim w -> credit_ok lim w'.
Proof. unfold credit_ok. by intros ->. Qed.

Lemma co_upd k g w : (forall s, hc_granted (rs_cc (g s)) = hc_granted (rs_cc s)) ->
  credit_ok lim w -> credit_ok lim (upd_rpc k g w).
Proof.
  intros Hg Hw j s. cbn. destruct (decide (j = k)) as [->|Hne].
  - rewrite lookup_alter_eq. destruct (h_rpc_tbl w !! k) as [t|] eqn:E; [|done]. intros [= <-].
    rewrite Hg. by apply Hw.
  - rewrite lookup_alter_ne by done. apply Hw.
Qed.

Lemma co_set k s w : hc_granted (rs_cc s) <= lim k -> credit_ok lim w -> credit_ok lim (upd_rpc k (fun _ => s) w).
Proof.
  intros Hg Hw j t. cbn. destruct (decide (j = k)) as [->|Hne].
  - rewrite lookup_alter_eq. destruct (h_rpc_tbl w !! k); [|done]. by intros [= <-].
  - rewrite lookup_alter_ne by done. apply Hw.
Qed.

Lemma co_delete (k : rpc_key_t) w : credit_ok lim w -> credit_ok lim (w <| h_rpc_tbl ::= delete k |>).
Proof. intros Hw j s. cbn. rewrite lookup_delete_Some. intros [_ E]. by apply Hw. Qed.

Lemma co_create k s w w' : rpc_create k s w = Some w' -> hc_granted (rs_cc s) <= lim k ->
  credit_ok lim w -> credit_ok lim w'.
Proof.
  unfold rpc_create. destruct (h_rpc_tbl w !! k); [done|]. split_if; [|done]. intros [= <-] Hg Hw j t. cbn.
  rewrite lookup_insert_Some. intros [[<- <-]|[_ E]]; [done | by apply Hw].
Qed.

Lemma co_frame w w' : grant_frame w w' -> credit_ok lim w -> credit_ok lim w'.
Proof.
  intros [_ T _ _] Hw k t E. specialize (T k). rewrite E in T. destruct (h_rpc_tbl w !! k) as [s|] eqn:Es; [|done].
  cbn in T. unfold slot_eq in T. rewrite T. cbn. by apply Hw.
Qed.

Lemma tbl_obj_new w : h_rpc_tbl (snd (bpf_obj_new w)) = h_rpc_tbl w.
Proof. unfold bpf_obj_new. by destruct (h_mem w) as [|[] ?]. Qed.

Lemma tbl_free_qid qid w : h_rpc_tbl (free_qid qid w) = h_rpc_tbl w.
Proof. unfold free_qid. by split_if. Qed.

Lemma tbl_kick w : h_rpc_tbl (kick_pacer w) = h_rpc_tbl w.
Proof. unfold kick_pacer. by split_if. Qed.

Lemma tbl_enqueue_dead a b c d w : h_rpc_tbl (enqueue_dead_crpc a b c d w) = h_rpc_tbl w.
Proof. unfold enqueue_dead_crpc. by case_match. Qed.

Lemma tbl_dequeue_dead ip w : h_rpc_tbl (snd (dequeue_dead_crpc ip w)) = h_rpc_tbl w.
Proof. unfold dequeue_dead_crpc. by repeat case_match. Qed.

Lemma tbl_check_nic now other n w : h_rpc_tbl (snd (check_nic_queue now other n w)) = h_rpc_tbl w.
Proof.
  unfold check_nic_queue. set (ns := _ / 1000). clearbody ns. generalize 2%nat as t.
  intros t. revert w. induction t as [|t IH]; intros w; [done|]. cbn [check_nic_queue_loop].
  repeat (split_if; [done|]). rewrite IH. done.
Qed.

Lemma tbl_allocate_qid w : h_rpc_tbl (snd (allocate_qid w)) = h_rpc_tbl w.
Proof. unfold allocate_qid. by case_match. Qed.

(** *** Transmitted packets *)

Lemma co_throttle e iph d g w : credit_ok lim w -> credit_ok lim (snd (throttle_packet e iph d g w)).
Proof.
  intros Hw. unfold throttle_packet. cbn zeta. set (k := tx_key iph d).
  set (w1 := upd_rpc k _ w). assert (H1 : credit_ok lim w1) by (by apply co_upd).
  split_if; [|exact H1]. pose proof (tbl_allocate_qid w1) as Ha. destruct (allocate_qid w1) as [qid w2].
  cbn [snd] in Ha. set (w3 := upd_rpc k _ w2).
  assert (H3 : credit_ok lim w3) by (apply co_upd; [done | by apply (co_tbl w1)]).
  split_if; [exact H3|]. pose proof (tbl_obj_new w3) as Hn. destruct (bpf_obj_new w3) as [[n|] w4]; cbn [snd] in *.
  - apply co_upd; [done|]. apply (co_tbl w3); [|done]. etrans; [|exact Hn]. cbn. by case_match.
  - by apply (co_tbl w3).
Qed.

Lemma send_or_throttle_credit e iph d s w o w' : send_or_throttle e iph d s w = Some (o, w') ->
  credit_ok lim w -> credit_ok lim w' /\ (eo_action o = XDP_TX -> seg_end d <= hc_granted (rs_cc s)).
Proof.
  unfold send_or_throttle. cbn zeta. case_match; [|done].
  set (iph' := set_prio _ _). set (d' := d <| d_incoming := _ |>).
  assert (Ht : forall g w1, credit_ok lim w1 -> throttle_packet e iph' d' g w1 = (o, w') ->
    credit_ok lim w' /\ (eo_action o = XDP_TX -> seg_end d <= hc_granted (rs_cc s))).
  { intros g w1 H1 E. pose proof (co_throttle e iph' d' g w1 H1) as Hc. rewrite E in Hc. split; [exact Hc|].
    assert (Hna : eo_action (fst (throttle_packet e iph' d' g w1)) <> XDP_TX).
    { unfold throttle_packet. cbn zeta. split_if; [|done]. destruct (allocate_qid _) as [qid w2].
      split_if; [done|]. by destruct (bpf_obj_new _) as [[n|] w3]. }
    by rewrite E in Hna. }
  destruct (_ && _) eqn:Ec.
  - pose proof (tbl_check_nic (ee_now e) (ee_other e) (bpf_ntohl (segment_length (d_seg d))) w) as Hn.
    match goal with |- context [let '(send, w) := ?x in _] => destruct x as [send w1] eqn:Ex end.
    intros E Hw. assert (H1 : credit_ok lim w1).
    { apply (co_tbl w); [|done]. revert Ex. split_if; [by intros [= _ <-]|]. intros Ex. by rewrite Ex in Hn. }
    apply andb_true_iff in Ec as [Ec _]. apply Z.leb_le in Ec.
    destruct send; injection E as E; [|by eapply Ht].
    subst. split; [by apply co_upd|]. intros _. exact Ec.
  - intros [= E] Hw. by eapply Ht.
Qed.

Lemma client_request_credit e iph d b w o w' : client_request e iph d b w = Some (o, w') -> credit_ok lim w ->
  credit_ok lim w' /\
  (eo_action o = XDP_TX -> HOMA_MSS < bpf_ntohl (d_message_length d) -> seg_end d <= lim (tx_key iph d)).
Proof.
  unfold client_request. cbn zeta. set (k := tx_key iph d).
  assert (Hrest : forall w1, credit_ok lim w1 -> match h_rpc_tbl w1 !! k with
      | None => Some (mk_egress_out XDP_DROP iph d MAX_BUCKET_SIZE false, w1)
      | Some s => send_or_throttle e iph d s w1 end = Some (o, w') ->
    credit_ok lim w' /\ (eo_action o = XDP_TX -> HOMA_MSS < bpf_ntohl (d_message_length d) -> seg_end d <= lim k)).
  { intros w1 H1. destruct (h_rpc_tbl w1 !! k) as [s|] eqn:Es; [|by intros [= <- <-]]. intros E.
    apply send_or_throttle_credit in E as [H2 H3]; [|done]. split; [done|]. intros Ha _.
    specialize (H1 k s Es). specialize (H3 Ha). lia. }
  split_if; [|intros E Hw; by apply (Hrest w)]. intros E Hw. revert E. case_match eqn:Ec; [|by intros [= <- <-]].
  apply co_create in Ec; [|specialize (unsched k); unfold Homa_unsched_bytes in *; cbn; lia|done].
  destruct (Z.leb_spec (bpf_ntohl (d_message_length d)) HOMA_MSS); [|by apply Hrest].
  intros [= <- <-]. split; [done|]. lia.
Qed.

Lemma server_response_credit e iph d b w o w' : server_response e iph d b w = Some (o, w') -> credit_ok lim w ->
  credit_ok lim w' /\
  (eo_action o = XDP_TX -> HOMA_MSS < bpf_ntohl (d_message_length d) -> seg_end d <= lim (tx_key iph d)).
Proof.
  unfold server_response. cbn zeta. set (k := tx_key iph d).
  destruct (h_rpc_tbl w !! k) as [s|] eqn:Es; [|by intros [= <- <-]]. intros E Hw.
  assert (Hs : forall t w1, hc_granted (rs_cc t) <= lim k -> credit_ok lim w1 ->
    send_or_throttle e iph d t w1 = Some (o, w') -> credit_ok lim w' /\
      (eo_action o = XDP_TX -> HOMA_MSS < bpf_ntohl (d_message_length d) -> seg_end d <= lim k)).
  { intros t w1 Ht H1 Et. apply send_or_throttle_credit in Et as [H2 H3]; [|done]. split; [done|].
    intros Ha _. specialize (H3 Ha). lia. }
  revert E. split_if; [|by apply Hs; [apply Hw|]].
  set (t := s <| rs_state := _ |> <| rs_message_length := _ |> <| rs_next_xmit_offset := _ |>
              <| rs_buffer_head := _ |> <| rs_nr_pkts_in_rl := _ |> <| rs_cc ::= _ |> <| rs_qid := _ |>).
  assert (Ht : hc_granted (rs_cc t) <= lim k)
    by (specialize (unsched k); unfold Homa_unsched_bytes in *; cbn; lia).
  assert (H1 : credit_ok lim (upd_rpc k (fun _ => t) w)) by (by apply co_set).
  destruct (Z.leb_spec (bpf_ntohl (d_message_length d)) HOMA_MSS); [|by apply Hs].
  intros [= <- <-]. split; [done|]. lia.
Qed.

Lemma egress_credit e meta p w v p' w' : xdp_egress_prog e meta p w = Some (v, p', w') -> credit_ok lim w ->
  credit_ok lim w' /\
  (v = E_act XDP_TX -> (exists m, meta = Some m /\ nz (ht_slowpath m) = false) -> d_retransmit (hp_data p) = 0 ->
   HOMA_MSS < bpf_ntohl (d_message_length (hp_data p)) ->
   seg_end (hp_data p) <= lim (tx_key (hp_ip p) (hp_data p))).
Proof.
  unfold xdp_egress_prog. destruct meta as [meta|]; [|by intros [= <- _ <-]].
  do 2 (split_if; [by intros [= <- _ <-]|]). destruct (nz (ht_slowpath meta)) eqn:Esl.
  { intros [= <- _ <-] Hw. split; [done|]. intros _ (m & [= <-] & E). congruence. }
  split_if; [by intros [= <- _ <-]|]. destruct (nz (d_retransmit (hp_data p))) eqn:Er.
  { intros [= <- _ <-] Hw. split; [done|]. intros _ _ E. by rewrite E in Er. }
  destruct ((if rpc_is_client _ then _ else _) e (hp_ip p) (hp_data p) (ht_buffer_addr meta) w) as [[o w1]|] eqn:E;
    [|done].
  intros Eq Hw.
  assert (Ho : credit_ok lim w1 /\ (eo_action o = XDP_TX -> HOMA_MSS < bpf_ntohl (d_message_length (hp_data p)) ->
                seg_end (hp_data p) <= lim (tx_key (hp_ip p) (hp_data p)))).
  { revert E. split_if; [by intros E; eapply client_request_credit | by intros E; eapply server_response_credit]. }
  destruct Ho as [H1 H2].
  pose proof (tbl_dequeue_dead (bpf_ntohl (ip_daddr (hp_ip p))) w1) as Hd.
  destruct (dequeue_dead_crpc _ w1) as [dead w2]. cbn [snd] in Hd.
  assert (H3 : credit_ok lim w2) by (by apply (co_tbl w1)).
  destruct (eo_action o); injection Eq as <- _ <-; (split; [|intros [=]; auto]); try done.
  split_if; [|done]. apply (co_tbl w2); [apply tbl_kick | done].
Qed.

(** *** Received packets *)
Variables (lb : tree_search) (ports : gmap Z (Z -> Z)).

Lemma bitmap_granted s seq : rs_cc (snd (set_bitmap s seq)) = rs_cc s.
Proof. pose proof (set_bitmap_fields s seq) as E. unfold same_but_bitmap in E. by rewrite E. Qed.

Lemma first_packet_granted d s : hc_granted (rs_cc (first_packet d s)) = hc_granted (rs_cc s).
Proof. unfold first_packet. cbn. by rewrite bitmap_granted. Qed.

Lemma co_schedule cpu now k ml ns need w : credit_ok lim w ->
  credit_ok lim (snd (schedule lb cpu now k ml ns need w)).
Proof.
  intros Hw. pose proof (gf_schedule lb cpu now k ml ns need w) as H.
  destruct (schedule _ _ _ _ _ _ _ _) as [a w']. destruct H as [H _]. by apply (co_frame w).
Qed.

Lemma co_finish_client s k m w : credit_ok lim w -> credit_ok lim (snd (finish_client s k m w)).
Proof.
  intros Hw. unfold finish_client. cbn [snd]. apply co_delete. apply (co_tbl w); [|done].
  rewrite tbl_enqueue_dead. split_if; [done | apply tbl_free_qid].
Qed.

Lemma co_get_pointer k w : credit_ok lim w -> credit_ok lim (snd (get_pointer k w)).
Proof. intros Hw. by apply co_upd. Qed.

Lemma co_client_response cpu now d ip m sp w : credit_ok lim w ->
  credit_ok lim (snd (client_response lb cpu now d ip m sp w)).
Proof.
  intros Hw. unfold client_response. set (k := rx_key _ ip). cbn zeta.
  destruct (h_rpc_tbl w !! k) as [s|] eqn:Es; [|done]. split_if; [done|]. split_if; [split_if|].
  - by apply co_finish_client, co_upd.
  - set (need := _ >? _). set (w1 := upd_rpc k (fun _ => first_packet d _) w).
    assert (H1 : credit_ok lim w1) by (apply co_set; [rewrite first_packet_granted; apply (Hw k s Es) | done]).
    set (w2 := snd (get_pointer k _)). assert (H2 : credit_ok lim w2) by (apply co_get_pointer; by apply (co_tbl w1)).
    pose proof (co_schedule cpu now k (bpf_ntohl (d_message_length d)) true need w2 H2) as H.
    by destruct (schedule _ _ _ _ _ _ _ _).
  - set (seq := bpf_ntohs _). pose proof (bitmap_granted s seq) as Eb. destruct (set_bitmap s seq) as [c s1].
    cbn [snd] in Eb. split_if; [done|].
    assert (H1 : hc_granted (rs_cc s1) <= lim k) by (rewrite Eb; apply (Hw k s Es)).
    split_if; [apply co_finish_client; by apply co_set|].
    set (need := _ >? _). set (w1 := upd_field h_total_incoming _ _).
    assert (H2 : credit_ok lim w1) by (apply (co_tbl (upd_rpc k (fun _ => later_packet d s1) w)); [done | by apply co_set]).
    pose proof (co_schedule cpu now k (bpf_ntohl (d_message_length d)) false need w1 H2) as H.
    by destruct (schedule _ _ _ _ _ _ _ _).
Qed.

Lemma co_server_update d k s w : hc_granted (rs_cc s) <= lim k -> credit_ok lim w ->
  credit_ok lim (snd (server_update d k s w)).
Proof.
  intros Hs Hw. unfold server_update. split_if; [done|]. set (seq := bpf_ntohs _).
  pose proof (bitmap_granted s seq) as Eb. destruct (set_bitmap s seq) as [c s1]. cbn [snd] in Eb.
  split_if; [done|]. cbn [snd]. set (t := later_packet d _).
  apply (co_tbl (upd_rpc k (fun _ => t) w)); [done|]. apply co_set; [|done].
  unfold t. split_if; cbn; by rewrite Eb.
Qed.

Lemma co_server_request cpu now d ip sp w : credit_ok lim w ->
  credit_ok lim (snd (server_request lb id cpu now d ip sp w)).
Proof.
  intros Hw. unfold server_request. set (k := rx_key _ ip). cbn zeta.
  assert (Hfin : forall (c ns need : bool) v, credit_ok lim v ->
    credit_ok lim (snd (if sp || c then (XDP_REDIRECT, v)
      else schedule lb cpu now k (bpf_ntohl (d_message_length d)) ns need v))).
  { intros c ns need v Hv. split_if; [done | by apply co_schedule]. }
  destruct (h_rpc_tbl w !! k) as [s|] eqn:E.
  - pose proof (co_server_update d k s w (Hw k s E) Hw) as H.
    destruct (server_update d k s w) as [[[c need]|] w1]; [by apply Hfin | done].
  - split_if; [done|]. unfold id at 1 2. destruct (rpc_create k _ w) as [w1|] eqn:Ec.
    + apply Hfin. apply (co_tbl w1); [done|]. apply co_create in Ec; [done| |done].
      rewrite first_packet_granted. cbn. specialize (unsched k). unfold Homa_unsched_bytes in *. lia.
    + unfold id. by rewrite E.
Qed.

Lemma co_reclaim d ip m w : credit_ok lim w -> credit_ok lim (snd (reclaim_rpc d ip m w)).
Proof.
  intros Hw. unfold reclaim_rpc. cbn zeta. split_if; [done|]. destruct (h_rpc_tbl w !! _) as [s|]; [|done].
  split_if; [done|]. cbn [snd]. apply co_delete, co_get_pointer. set (w1 := upd_rpc _ _ w).
  assert (H1 : credit_ok lim w1) by (by apply co_upd). split_if; [done|].
  apply (co_tbl w1); [apply tbl_free_qid | done].
Qed.

Lemma co_rx_data e d sp ip m w : credit_ok lim w -> credit_ok lim (snd (rx_data lb ports e d sp ip m w)).
Proof.
  intros Hw. unfold rx_data. pose proof (co_reclaim d ip m w Hw) as H1.
  destruct (reclaim_rpc d ip m w) as [m1 w1]. cbn [snd] in H1.
  set (r := if rpc_is_client _ then _ else _).
  assert (H2 : credit_ok lim (snd r)).
  { unfold r. split_if; [by apply co_client_response|].
    pose proof (co_server_request (re_cpu e) (re_now e) d ip sp w1 H1) as H.
    by destruct (server_request _ _ _ _ _ _ _ _). }
  destruct r as [[a m2] w2]. cbn [snd] in *. by destruct a.
Qed.

Lemma co_resend h ip m w : credit_ok lim w -> credit_ok lim (snd (resend_pkt h ip m w)).
Proof.
  intros Hw. unfold resend_pkt. cbn zeta. destruct (h_rpc_tbl w !! _) as [s|]; [|done]. split_if; [done|].
  match goal with |- context [let '(ret, need_kick) := ?x in _] => destruct x as [ret kick] end.
  split_if; cbn [snd]; (destruct kick; [eapply co_tbl; [apply tbl_kick|]|]); by try apply co_upd.
Qed.

Lemma co_unknown g c ip m w : credit_ok lim w -> credit_ok lim (snd (unknown_pkt g c ip m w)).
Proof.
  intros Hw. unfold unknown_pkt. cbn zeta. destruct (h_rpc_tbl w !! _) as [s|]; [|done].
  repeat split_if; cbn [snd]; try done; by apply co_delete.
Qed.

Lemma co_busy c ip w : credit_ok lim w -> credit_ok lim (busy_pkt c ip w).
Proof.
  intros Hw. unfold busy_pkt. cbn zeta. destruct (h_rpc_tbl w !! _) as [s|]; [|done].
  split_if; [done | by apply co_upd].
Qed.

(** A grant raises the credit to its offset. *)
Lemma co_grant h ip w : bpf_ntohl (g_offset h) <= lim (rx_key (g_common h) ip) ->
  credit_ok lim w -> credit_ok lim (grant_pkt h ip w).
Proof.
  intros Hg Hw. unfold grant_pkt. set (k := rx_key _ ip) in *. cbn zeta.
  destruct (h_rpc_tbl w !! k) as [s|]; [|done]. split_if; [done|]. set (w1 := upd_rpc k _ w).
  assert (H1 : credit_ok lim w1) by (by apply co_upd).
  assert (Hk : forall v, credit_ok lim v -> credit_ok lim (kick_pacer v))
    by (intros v Hv; eapply co_tbl; [apply tbl_kick | done]).
  split_if; [|by apply Hk]. set (w2 := upd_rpc k _ w1).
  assert (H2 : credit_ok lim w2).
  { intros j t. unfold w2. cbn. destruct (decide (j = k)) as [->|Hne].
    - rewrite lookup_alter_eq. destruct (alter _ k (h_rpc_tbl w) !! k) as [x|]; [|done]. by intros [= <-].
    - rewrite lookup_alter_ne by done. apply (H1 j t). }
  split_if; [by apply Hk|]. unfold get_pointer. set (w3 := upd_rpc k _ w2).
  assert (H3 : credit_ok lim w3) by (by apply co_upd).
  destruct (h_rpc_tbl w2 !! k ≫= rs_cc_node) as [n|]; [|by apply Hk].
  apply Hk, co_upd; [done|]. destruct (bpf_rbtree_add _ _ _ _); [|done]. by apply (co_tbl w3).
Qed.

End Credit.

Lemma co_mono (lim lim' : rpc_key_t -> Z) w : (forall k, lim k <= lim' k) -> credit_ok lim w -> credit_ok lim' w.
Proof. intros Hl Hw k s E. specialize (Hw k s E). specialize (Hl k). lia. Qed.

Section Steps.
Context {M : Type} `{PktQueue M hpkt}.
Variables (lb search_less : tree_search) (ports : gmap Z (Z -> Z)).
Variables lim : rpc_key_t -> Z.
Hypothesis unsched : forall k, Homa_unsched_bytes <= lim k.

Lemma rx_credit e p w : (forall k, grant_of k (Ev_rx e p) <= lim k) -> credit_ok lim w ->
  credit_ok lim (snd (xdp_sock_prog lb ports e p w)).
Proof.
  intros Hg Hw. unfold xdp_sock_prog. cbn zeta. do 2 (split_if; [done|]).
  unfold homa_parse_common_hdr. split_if; [done|]. set (m := mk_homa_rx_t _ _ _). fold (pkt_ip p).
  destruct (Z.eqb_spec (ch_type (hp_common p)) DATA) as [Et|Et].
  { unfold homa_parse_data_hdr. split_if; [done|].
    set (sp := bpf_ntohl _ <=? _).
    pose proof (co_rx_data lim unsched lb ports e (hp_data p) sp (pkt_ip p) m w Hw) as Hd.
    by destruct (rx_data _ _ _ _ _ _ _ _) as [[v m'] w']. }
  unfold rx_ctrl. cbn zeta. split_if.
  { unfold homa_parse_resend_hdr. split_if; [done|]. destruct (hp_resend p) as [[o l] r].
    pose proof (co_resend lim (mk_resend_header (hp_common p) o l r) (pkt_ip p) m w Hw) as Hr.
    destruct (resend_pkt _ _ _ _) as [[ret m'] w']. by repeat split_if. }
  split_if.
  { unfold homa_parse_unknown_hdr. split_if; [done|].
    pose proof (co_unknown lim (re_tail e) (hp_common p) (pkt_ip p) m w Hw) as Hu.
    by destruct (unknown_pkt _ _ _ _ _) as [[[ret r] m'] w']. }
  destruct (Z.eqb_spec (ch_type (hp_common p)) GRANT) as [Eg|Eg].
  { unfold homa_parse_grant_hdr. split_if; [done|]. destruct (hp_grant p) as [[o r] a] eqn:Ep. cbn [snd].
    apply co_grant; [|done]. specialize (Hg (pkt_key p)). cbn in Hg.
    rewrite Eg, Ep, bool_decide_eq_true_2 in Hg by done. exact Hg. }
  split_if; [|done]. unfold homa_parse_busy_hdr. split_if; [done | by apply co_busy].
Qed.

(** *** The pacer *)

Lemma tbl_pick w pa : h_rpc_tbl (snd (fst (pick_rpc lb search_less w pa))) = h_rpc_tbl w.
Proof.
  unfold pick_rpc. cbn zeta. split_if; [|done].
  pose proof (tbl_obj_new w) as Hn. destruct (bpf_obj_new w) as [[n|] w1]; cbn in *; [by split_if | done].
Qed.

(** The packets sent lie within the credit of the RPC. *)
Lemma send_loop_credit n e k qid (q : M) w s : h_rpc_tbl w !! k = Some s -> credit_ok lim w ->
  let '(_, sent, _, w') := send_loop n e k qid q w in
  credit_ok lim w' /\ Forall (fun p => seg_end (hp_data p) <= hc_granted (rs_cc s)) sent.
Proof.
  revert q w s. induction n as [|n IH]; intros q w s Es Hw; [done|]. cbn [send_loop].
  destruct (pkt_queue_dequeue q qid) as [[pkt q']|]; [|done]. split_if; [done|].
  assert (Hsl : slot_of k w = s) by (unfold slot_of; by rewrite Es). rewrite Hsl.
  destruct (seg_end (hp_data pkt) >? _) eqn:Eg; [done|]. split_if; [done|].
  set (w1 := upd_rpc k _ w).
  assert (E1 : h_rpc_tbl w1 !! k = Some (s <| rs_next_xmit_offset := seg_end (hp_data pkt) |>))
    by (cbn; by rewrite lookup_alter_eq, Es).
  specialize (IH q' w1 _ E1 ltac:(by apply co_upd)).
  destruct (send_loop n e k qid q' w1) as [[[need sent] q2] w2]. destruct IH as [H1 H2]. split; [done|].
  apply Forall_cons; [|exact H2]. rewrite Z.gtb_ltb in Eg. apply Z.ltb_ge in Eg. exact Eg.
Qed.

Lemma finish_credit n k need sent (q : M) w pa : credit_ok lim w ->
  Forall (fun p => seg_end (hp_data p) <= lim k) sent ->
  let '(o, (w', _, _)) := pacer_finish n k need sent q w pa in
  credit_ok lim w' /\ Forall (fun x => seg_end (hp_data (snd x)) <= lim (fst x)) (po_sent o).
Proof.
  intros Hw Hs. unfold pacer_finish. cbn zeta.
  match goal with |- context [upd_rpc k ?g w] => set (v := upd_rpc k g w) end.
  match goal with |- context [if Z.of_nat (length sent) =? 0 then w else ?x] =>
    set (w1 := if Z.of_nat (length sent) =? 0 then w else x) end.
  assert (H1 : credit_ok lim w1).
  { unfold w1. split_if; [done|]. apply (co_tbl lim v); [done|]. by apply co_upd. }
  assert (Ho : Forall (fun x => seg_end (hp_data (snd x)) <= lim (fst x)) ((fun p => (k, p)) <$> sent)).
  { apply Forall_fmap. exact Hs. }
  split_if.
  - split; [|exact Ho]. apply (co_tbl lim w1); [|done]. unfold NEXT_RPC. cbn. by case_match.
  - split_if; (split; [|exact Ho]); by apply (co_tbl lim w1).
Qed.

Lemma round_credit e (x : homa * M * pacer_state) : credit_ok lim (fst (fst x)) ->
  let '(o, (w', _, _)) := pacer_round lb search_less e x in
  credit_ok lim w' /\ Forall (fun x => seg_end (hp_data (snd x)) <= lim (fst x)) (po_sent o).
Proof.
  destruct x as [[w q] pa]. cbn [fst]. intros Hw. unfold pacer_round.
  assert (Hidle : forall v, h_rpc_tbl v = h_rpc_tbl w -> credit_ok lim v /\
    Forall (fun x : rpc_key_t * hpkt => seg_end (hp_data (snd x)) <= lim (fst x)) [])
    by (intros v Hv; split; [by apply (co_tbl lim w) | done]).
  split_if; [by apply Hidle|]. pose proof (tbl_pick w pa) as Hp.
  destruct (pick_rpc lb search_less w pa) as [[[[n|]|] w1] pa1]; cbn [fst snd] in Hp; [|by apply Hidle..].
  destruct (bpf_rbtree_remove n (h_troot w1)) as [t|]; [|by apply Hidle].
  set (w2 := w1 <| h_troot := t |> <| h_nr_rpc_in_throttle ::= _ |>). cbn zeta.
  set (k := n_hkey (node w2 n)). destruct (h_rpc_tbl w2 !! k) as [s|] eqn:Es; [|by apply Hidle].
  split_if; [by apply Hidle|].
  assert (H2 : credit_ok lim w2) by (by apply (co_tbl lim w)).
  pose proof (send_loop_credit (MAX_PKT_SEND - 1) e k (rs_qid s) q w2 s Es H2) as Hs.
  destruct (send_loop _ _ _ _ _ _) as [[[need sent] q3] w3]. destruct Hs as [H3 H4].
  apply finish_credit; [done|]. eapply list.Forall_impl; [exact H4|]. intros p Hle. cbn in Hle.
  specialize (H2 k s Es). lia.
Qed.

End Steps.

(** ** Theorem *)
Section Theorem_.
Context {M : Type} `{PktQueue M hpkt}.
Variables (lb search_less : tree_search) (ports : gmap Z (Z -> Z)).

(** The packet that leaves is the one that came, as far as the credit goes. *)
Lemma egress_tx_credit p p' k (lim : rpc_key_t -> Z) : same_segment p p' ->
  (d_retransmit (hp_data p) = 0 -> HOMA_MSS < bpf_ntohl (d_message_length (hp_data p)) ->
   seg_end (hp_data p) <= lim k) ->
  d_retransmit (hp_data p') = 0 -> HOMA_MSS < bpf_ntohl (d_message_length (hp_data p')) ->
  seg_end (hp_data p') <= lim k.
Proof.
  intros [(_ & _ & H3 & _ & H5 & H6 & H7) _]. unfold seg_end. rewrite H3, H5, H6, H7. auto.
Qed.

(** What one event does to the credit, and what it may send. *)
Lemma hstep_credit lim (x x' : hsys) ev out : (forall k, Homa_unsched_bytes <= lim k) ->
  (forall k, grant_of k ev <= lim k) -> credit_ok lim (fst (fst x)) ->
  hstep lb search_less ports x ev = Some (out, x') ->
  credit_ok lim (fst (fst x')) /\
  (forall k p, (k, p) ∈ out -> d_retransmit (hp_data p) = 0 ->
     HOMA_MSS < bpf_ntohl (d_message_length (hp_data p)) -> seg_end (hp_data p) <= lim k).
Proof.
  destruct x as [[w q] pa]. cbn [fst]. intros Hu Hg Hw. unfold hstep.
  assert (Hnil : forall (k : rpc_key_t) (p : hpkt), (k, p) ∈ [] -> d_retransmit (hp_data p) = 0 ->
     HOMA_MSS < bpf_ntohl (d_message_length (hp_data p)) -> seg_end (hp_data p) <= lim k)
    by (intros k p Hin; by apply not_elem_of_nil in Hin).
  assert (Hpacer : forall e r, (let '(o, (w', _, _)) := r in credit_ok lim w' /\
      Forall (fun x => seg_end (hp_data (snd x)) <= lim (fst x)) (po_sent o)) ->
    (let '(o, x) := r in Some (po_sent o, x)) = Some (out, x') -> e = ev -> credit_ok lim (fst (fst x')) /\
    (forall k p, (k, p) ∈ out -> d_retransmit (hp_data p) = 0 ->
     HOMA_MSS < bpf_ntohl (d_message_length (hp_data p)) -> seg_end (hp_data p) <= lim k)).
  { intros _ [o [[w1 q1] pa1]] [H1 H2] [= <- <-] _. split; [done|]. intros k p Hin _ _.
    exact (proj1 (list.Forall_forall _ _) H2 (k, p) Hin). }
  destruct ev as [e meta p|e p|e|e].
  - destruct (xdp_egress_prog e meta p w) as [[[v p'] w1]|] eqn:E; [|done].
    destruct (egress_credit lim Hu e meta p w v p' w1 E Hw) as [H1 H2].
    pose proof (egress_same e meta p w v p' w1 E) as Hs.
    destruct v as [a|qid]; [|intros [= <- <-]; by split].
    destruct a; intros [= <- <-]; (split; [done|]); try exact Hnil.
    destruct meta as [meta|]; [|exact Hnil]. destruct (nz (ht_slowpath meta)) eqn:Esl; [exact Hnil|].
    intros k p0 Hin. apply list_elem_of_singleton in Hin as [= -> ->]. 
    apply (egress_tx_credit p p' _ lim Hs). intros Hr Hl. apply H2; eauto.
  - intros E. pose proof (rx_credit lb ports lim Hu e p w Hg Hw) as Hr.
    destruct (xdp_sock_prog lb ports e p w) as [[[v p'] m] w1]. injection E as <- <-. by split.
  - intros E. eapply (Hpacer (Ev_pacer e)); [|exact E|done]. unfold pacer_timer_cb.
    split_if; [done|]. by apply round_credit.
  - intros E. eapply (Hpacer (Ev_nettx e)); [|exact E|done]. unfold nettx_timer_cb.
    split_if; [done|]. by apply round_credit.
Qed.

Lemma hrun_credit l (x x' : hsys) lim : (forall k, Homa_unsched_bytes <= lim k) ->
  (forall k, granted_by l k <= lim k) -> credit_ok lim (fst (fst x)) ->
  hrun lb search_less ports l x = Some x' -> credit_ok lim (fst (fst x')).
Proof.
  revert x. induction l as [|ev l IH]; intros x Hu Hl Hx; [by intros [= <-]|]. cbn [hrun].
  destruct (hstep lb search_less ports x ev) as [[out x1]|] eqn:E; [|done].
  assert (Hg : forall k, grant_of k ev <= lim k /\ granted_by l k <= lim k)
    by (intros k; specialize (Hl k); unfold granted_by in *; cbn in Hl; lia).
  apply IH; [done|apply Hg|]. eapply hstep_credit; [done|apply Hg|done|exact E].
Qed.

End Theorem_.

(** C15. The sender of a Homa message keeps to its credit, retransmissions
    apart.  From an empty table, in any run of the fast path - packets of the
    library in any order, any packets from the network, callbacks of the pacer
    and of the transmit interrupt at any time, searches in the trees that
    answer anything, queues that hand out anything - a data packet of a message
    of several packets that is not marked as a retransmission goes to the wire,
    directly or through the pacer, only when it ends within the unscheduled
    bytes or within a GRANT that was received before for the RPC it is sent
    for.  A packet the library marks as a retransmission goes to the wire with
    no such check, as a TODO of [xdp_egress_prog] says. *)
Theorem homa_sender_keeps_credit {M : Type} `{PktQueue M hpkt} (lb search_less : tree_search)
  (ports : gmap Z (Z -> Z)) (l : list hevent) (ev : hevent) (w0 : homa) (q0 : M) (pa0 : pacer_state)
  (x x' : hsys) (out : list (rpc_key_t * hpkt)) (k : rpc_key_t) (p : hpkt)
  (Hempty : h_rpc_tbl w0 = ∅) (Hrun : hrun lb search_less ports l (w0, q0, pa0) = Some x)
  (Hstep : hstep lb search_less ports x ev = Some (out, x')) (Hsent : (k, p) ∈ out)
  (Hfirst : d_retransmit (hp_data p) = 0) (Hmulti : HOMA_MSS < bpf_ntohl (d_message_length (hp_data p))) :
  seg_end (hp_data p) <= granted_by l k.
Proof.
  assert (Hx : credit_ok (granted_by l) (fst (fst x))).
  { apply (hrun_credit lb search_less ports l (w0, q0, pa0) x); [apply granted_by_unsched|done| |done].
    intros j s. cbn. rewrite Hempty, lookup_empty. done. }
  pose proof (granted_by_unsched l) as Hu.
  assert (Hother : (forall j, grant_of j ev = 0) -> seg_end (hp_data p) <= granted_by l k).
  { intros Hg. eapply hstep_credit; [exact Hu| |exact Hx|exact Hstep|exact Hsent|done|done].
    intros j. rewrite Hg. specialize (Hu j). unfold Homa_unsched_bytes in Hu. lia. }
  destruct ev as [e meta p0|e p0|e|e]; try (by apply Hother).
  destruct x as [[w q] pa]. cbn in Hstep. destruct (xdp_sock_prog _ _ _ _ _) as [[[v p'] m] w'].
  injection Hstep as <- _. by apply not_elem_of_nil in Hsent.
Qed.

(** A message of 100000 bytes: packet 42 ends behind the unscheduled bytes and
    waits in the queue of the RPC until a grant of 70000 bytes arrives. *)
Definition wit_segment (L q : Z) : hpkt :=
  mk_hpkt (mk_iphdr 5 4 0 0 0 0 0 0xFD 0 (bpf_htonl 3232236033) (bpf_htonl 3232236034)) 1514
    (mk_data_header
       (mk_common_header (bpf_htons 5000) (bpf_htons 4000) 0 DATA (bpf_htons q) (bpf_cpu_to_be64 8))
       (bpf_htonl L) 0 0 0 0
       (mk_data_segment (bpf_htonl (q * 1420)) (bpf_htonl 1420) (mk_homa_ack 0 0 0)))
    (0, 0, 0) (0, 0, 0) [].

Definition wit_grant (offset : Z) : hpkt :=
  mk_hpkt (mk_iphdr 5 4 0 0 0 0 0 0xFD 0 (bpf_htonl 3232236034) (bpf_htonl 3232236033)) 68
    (mk_data_header
       (mk_common_header (bpf_htons 4000) (bpf_htons 5000) 0 GRANT 0 (bpf_cpu_to_be64 9))
       0 0 0 0 0 (mk_data_segment 0 0 (mk_homa_ack 0 0 0)))
    (0, 0, 0) (bpf_htonl offset, 2, 0) [].

Definition wit_send (L q : Z) : hevent :=
  Ev_egress (mk_egress_env (fun _ => 0) (fun _ x => x) 0) (Some (mk_homa_tx_t 0 4096)) (wit_segment L q).

Definition wit_sys : hsys :=
  (empty_homa <| h_avail_pacing_idx := [5] |>, (∅ : gmap Z (list hpkt)), mk_pacer_state 0 0 0 0 false 0).

Definition wit_events : list hevent := [wit_send 100000 0; wit_send 100000 42; Ev_rx wit_env (wit_grant 70000)].

Definition wit_pacer : hevent := Ev_pacer (mk_pacer_env false (fun _ => true) (fun _ => true)).

Lemma homa_sender_keeps_credit_witness :
  exists x x' p, hrun (fun _ _ _ => None) (fun _ _ _ => Some 0%nat) ∅ wit_events wit_sys = Some x /\
    hstep (fun _ _ _ => None) (fun _ _ _ => Some 0%nat) ∅ x wit_pacer =
      Some ([(mk_rpc_key_t 8 5000 4000 3232236034, p)], x') /\
    seg_end (hp_data p) = 61060 /\
    seg_end (hp_data p) <= granted_by wit_events (mk_rpc_key_t 8 5000 4000 3232236034).
Proof.
  destruct (hrun (fun _ _ _ => None) (fun _ _ _ => Some 0%nat) ∅ wit_events wit_sys) as [x|] eqn:E1;
    [|by vm_compute in E1].
  assert (Eo : fst <$> (Some x ≫= fun x => hstep (fun _ _ _ => None) (fun _ _ _ => Some 0%nat) ∅ x wit_pacer) =
    Some [(mk_rpc_key_t 8 5000 4000 3232236034, (wit_segment 100000 42) <| hp_ip := fill_ip_hdr (set_prio (hp_ip (wit_segment 100000 42)) 0) 1514 |>
             <| hp_data ::= fun d => d <| d_incoming := bpf_htonl 70000 |> |>)]).
  { rewrite <- E1. vm_compute. reflexivity. }
  cbn [mbind option_bind] in Eo.
  destruct (hstep _ _ _ x wit_pacer) as [[out x']|] eqn:E2; [|done]. cbn in Eo. injection Eo as ->.
  eexists x, x', _. split; [reflexivity|]. split; [exact E2|]. split; [vm_compute; reflexivity|].
  eapply (homa_sender_keeps_credit (fun _ _ _ => None) (fun _ _ _ => Some 0%nat) ∅ wit_events wit_pacer
    (empty_homa <| h_avail_pacing_idx := [5] |>) ∅ (mk_pacer_state 0 0 0 0 false 0) x x');
    [reflexivity|exact E1|exact E2|left|reflexivity|vm_compute; reflexivity].
Defined.

(** ** A packet the pacer forgets *)

(** A packet without credit goes back to the end of its queue.  When the rest of
    the message fills the next batch, the last packet of the message is sent
    before it; the RPC then counts as sent and leaves the throttle list, and the
    packet stays in the queue. *)
Lemma throttled_packet_stranded :
  let L := 58 * 1420 in
  let l := wit_send L 0 :: (wit_send L ∘ Z.of_nat <$> seq 42 16) ++
           [wit_pacer; Ev_rx wit_env (wit_grant L); wit_pacer] in
  exists w q pa, hrun (fun _ _ _ => None) (fun _ _ _ => Some 0%nat) ∅ l wit_sys = Some (w, q, pa) /\
    (bpf_ntohs ∘ ch_seq ∘ hp_common) <$> pq_view q 5 = [42] /\ h_troot w = [] /\
    forall e, hstep (fun _ _ _ => None) (fun _ _ _ => Some 0%nat) ∅ (w, q, pa) (Ev_pacer e) =
              Some ([], (w, q, pa)).
Proof.
  cbn zeta. set (l := _ :: _).
  destruct (hrun (fun _ _ _ => None) (fun _ _ _ => Some 0%nat) ∅ l wit_sys) as [[[w q] pa]|] eqn:E;
    [|by vm_compute in E].
  vm_compute in E. injection E as <- <- <-. eexists _, _, _. split; [reflexivity|].
  split; [vm_compute; reflexivity|]. split; [reflexivity|]. intros [[] r t]; reflexivity.
Qed.
