(* ===== verification/HomaTimer.v ===== *)
(** The timeouts of the Homa control plane ([micro_kernel/homa.cc]): once per
    tick [poll_homa_to] walks over the RPC table, compares each RPC with what it
    was before, asks the peer for missing packets and gives an RPC up that got
    no answer.

    The order in which the kernel hands out the entries of the table is an
    argument, as is whether a buffer and a descriptor for a packet are found. *)
From stdpp Require Import gmap.
From S2P Require Import Prelude Intf Headers HomaDefs HomaRpc HomaRecv HomaXdp.
Local Open Scope Z_scope.

Definition ABORT_RESEND : Z := 10.
Definition NEED_ACK_TICK : Z := 15.
Definition RESEND_TICK : Z := 15.

(** ** The first hole of a message *)

(** The loops of [find_first_zero_segment], by bits left. *)
Fixpoint zero_segment_loop (n : nat) (s : rpc_state) (bit_width total_bits start end_ : Z) : Z * Z :=
  match n with
  | O => (start, end_)
  | S n =>
    if total_bits =? bit_width then (start, end_)
    else if negb (nz (Z.land (bitmap_word s (total_bits / 64)) (Z.shiftl 1 (total_bits mod 64)))) then
      zero_segment_loop n s bit_width (total_bits + 1) (if start =? -1 then total_bits else start) total_bits
    else if negb (start =? -1) then (start, end_)
    else zero_segment_loop n s bit_width (total_bits + 1) start end_
  end.

Definition find_first_zero_segment (s : rpc_state) (bit_width : Z) : Z * Z :=
  zero_segment_loop 768 s bit_width 0 (-1) (-1).

(** [get_resend_range]: offset, length and priority to ask for. *)
Definition get_resend_range (s : rpc_state) : option (Z * Z * Z) :=
  if rs_state s =? BPF_RPC_OUTGOING then Some (0, 100, HOMA_MAX_PRIORITY - 1)
  else
    let '(first, second) := find_first_zero_segment s (rs_bit_width s) in
    if (first =? -1) || (second =? -1) then None
    else Some (first * HOMA_MSS, (second - first + 1) * HOMA_MSS, HOMA_MAX_PRIORITY - 1).

(** ** Packets of the control plane *)

(** The IP header both packets get. *)
Definition ctrl_iphdr (local_ip remote_ip tot_len : Z) : iphdr :=
  mk_iphdr 5 4 (u8 (Z.shiftl (HOMA_MAX_PRIORITY - 1) 5)) (bpf_htons tot_len) 0 16384 64 IPPROTO_HOMA 0
    (bpf_htonl local_ip) (bpf_htonl remote_ip).

(** [xmit_need_ack_pkt] and [xmit_resend_pkt]: the frame, in a buffer that held
    [old]. *)
Definition need_ack_frame (local_ip : Z) (s : rpc_state) (old : hpkt) : hpkt :=
  old <| hp_ip := ctrl_iphdr local_ip (rs_remote_ip s) (20 + 28) |> <| hp_len := L2L3 + 28 |>
      <| hp_data ::= fun d => d <| d_common ::= fun c =>
           c <| ch_type := NEED_ACK |> <| ch_sender_id := bpf_cpu_to_be64 (rs_id s) |>
             <| ch_sport := bpf_htons (rs_local_port s) |> <| ch_dport := bpf_htons (rs_remote_port s) |> |> |>.

Definition resend_frame (local_ip : Z) (s : rpc_state) (resend : Z * Z * Z) (old : hpkt) : hpkt :=
  let '(offset, length, priority) := resend in
  old <| hp_ip := ctrl_iphdr local_ip (rs_remote_ip s) (20 + 37) |> <| hp_len := L2L3 + 37 |>
      <| hp_data ::= fun d => d <| d_common ::= fun c =>
           c <| ch_type := RESEND |> <| ch_sender_id := bpf_cpu_to_be64 (rs_id s) |>
             <| ch_sport := bpf_htons (rs_local_port s) |> <| ch_dport := bpf_htons (rs_remote_port s) |> |> |>
      <| hp_resend := (bpf_htonl offset, bpf_htonl length, priority) |>.

(** ** Timeouts *)

(** [struct rpc_state_wrapper] *)
Record rpc_state_wrapper := mk_rpc_state_wrapper {
  sw_data : rpc_state;
  sw_last_scan_tick : Z;
  sw_done_timer_ticks : Z;
  sw_silent_ticks : Z;
  sw_resend_try : Z
}.

#[export] Instance eta_rpc_state_wrapper : Eta rpc_state_wrapper := fun r => mk_rpc_state_wrapper
  (sw_data r) (sw_last_scan_tick r) (sw_done_timer_ticks r) (sw_silent_ticks r) (sw_resend_try r).

(** A packet a tick sends. *)
Inductive timer_pkt :=
| T_need_ack (k : rpc_key_t) (s : rpc_state)
| T_resend (k : rpc_key_t) (s : rpc_state) (range : Z * Z * Z).

(** A receiver that has got all the sender may send waits for a grant. *)
Definition waits_for_grant (s : rpc_state) : bool :=
  let received := u64 (rs_message_length s - hc_bytes_remaining (rs_cc s)) in
  let whole := u64 (hc_incoming (rs_cc s) / HOMA_MSS * HOMA_MSS) in
  (received >? whole) || (received =? whole) && negb (hc_incoming (rs_cc s) =? rs_message_length s).

(** [check_timeout]; [sent] says whether a packet can be sent. *)
Definition check_timeout (global_tick : Z) (sent : bool) (k : rpc_key_t) (s : rpc_state) (sw : rpc_state_wrapper)
  : option timer_pkt * rpc_state_wrapper :=
  let reset sw := sw <| sw_silent_ticks := 0 |> <| sw_resend_try := 0 |> in
  let outgoing := rs_state s =? BPF_RPC_OUTGOING in
  let left := u64 (rs_message_length s - rs_next_xmit_offset s) in
  if negb (rpc_is_client (rs_id s)) && outgoing && (rs_next_xmit_offset s >=? rs_message_length s) then
    if sw_done_timer_ticks sw =? 0
    then (None, sw <| sw_done_timer_ticks := global_tick |> <| sw_resend_try := 0 |>)
    else if Z.testbit (u32 (sw_done_timer_ticks sw + NEED_ACK_TICK - 1 - global_tick)) 31
    then (if sent then Some (T_need_ack k s) else None, sw <| sw_resend_try := u32 (sw_resend_try sw + 1) |>)
    else (None, sw)
  else if outgoing && (rs_next_xmit_offset s <? rs_message_length s)
          && (u64 (rs_next_xmit_offset s + Z.min left HOMA_MSS) <=? hc_granted (rs_cc s)) then (None, reset sw)
  else if (rs_state s =? BPF_RPC_INCOMING) && waits_for_grant s then (None, reset sw)
  else if negb (rs_state s =? BPF_RPC_INCOMING) && negb (rpc_is_client (rs_id s)) then (None, reset sw)
  else
    let c := rs_cc s in
    let c' := rs_cc (sw_data sw) in
    if negb (hc_bytes_remaining c =? hc_bytes_remaining c') || negb (hc_granted c =? hc_granted c')
       || negb (hc_incoming c =? hc_incoming c') || negb (rs_resend_count s =? rs_resend_count (sw_data sw)) then
      (None, reset sw <| sw_data ::= fun d =>
               d <| rs_resend_count := rs_resend_count s |>
                 <| rs_cc ::= fun x => x <| hc_bytes_remaining := hc_bytes_remaining c |>
                                         <| hc_granted := hc_granted c |> <| hc_incoming := hc_incoming c |> |> |>)
    else if sw_silent_ticks sw <? RESEND_TICK - 1 then (None, sw)
    else
      let sw := sw <| sw_resend_try := u32 (sw_resend_try sw + 1) |> in
      match get_resend_range s with
      | None => (None, sw)
      | Some range => if sent then (Some (T_resend k s range), sw <| sw_silent_ticks := 0 |>) else (None, sw)
      end.

(** The shadow table, the keys to delete and the packets sent by a tick. *)
Record timer_st := mk_timer_st {
  ti_shadow : gmap rpc_key_t rpc_state_wrapper;
  ti_delete : list rpc_key_t;
  ti_sent : list timer_pkt
}.

#[export] Instance eta_timer_st : Eta timer_st := fun r => mk_timer_st (ti_shadow r) (ti_delete r) (ti_sent r).

(** What [poll_homa_to] does with one entry of the table; [bound] are the ports
    of [homa_sockets]. *)
Definition scan_rpc (bound : gset Z) (global_tick : Z) (sent : bool) (k : rpc_key_t) (s : rpc_state)
  (x : timer_st) : timer_st :=
  if bool_decide (rs_local_port s ∉ bound) || (rs_state s =? BPF_RPC_DEAD)
  then x <| ti_delete ::= fun l => l ++ [k] |>
  else
    match ti_shadow x !! k with
    | None => x <| ti_shadow ::= <[k := mk_rpc_state_wrapper s global_tick 0 0 0]> |>
    | Some sw =>
      let sw := sw <| sw_last_scan_tick := global_tick |> in
      let sw := if negb (rs_busy_count s =? rs_busy_count (sw_data sw))
                then sw <| sw_silent_ticks := 0 |> <| sw_data ::= fun d => d <| rs_busy_count := rs_busy_count s |> |>
                else sw <| sw_silent_ticks := u32 (sw_silent_ticks sw + 1) |> in
      if sw_resend_try sw =? ABORT_RESEND
      then x <| ti_delete ::= fun l => l ++ [k] |> <| ti_shadow ::= delete k |>
      else
        let '(out, sw) := check_timeout global_tick sent k s sw in
        x <| ti_shadow ::= <[k := sw]> |> <| ti_sent ::= fun l => l ++ option_list out |>
    end.

(** [bpf_map_delete_batch]: the keys in order, up to the first that is not in
    the table; how many were deleted. *)
Fixpoint bpf_map_delete_batch (keys : list rpc_key_t) (tbl : gmap rpc_key_t rpc_state)
  : nat * gmap rpc_key_t rpc_state :=
  match keys with
  | [] => (0%nat, tbl)
  | k :: keys =>
    match tbl !! k with
    | None => (0%nat, tbl)
    | Some _ => let '(n, tbl) := bpf_map_delete_batch keys (delete k tbl) in (S n, tbl)
    end
  end.

(** The loop that deletes; a batch always starts at the first key. *)
Fixpoint delete_loop (n : nat) (keys : list rpc_key_t) (delete_count : nat) (tbl : gmap rpc_key_t rpc_state)
  : nat * gmap rpc_key_t rpc_state :=
  match n, delete_count with
  | S n, S _ =>
    let '(count, tbl) := bpf_map_delete_batch (take delete_count keys) tbl in
    if Nat.eqb count 0 then (0%nat, tbl) else delete_loop n keys (delete_count - count) tbl
  | _, _ => (delete_count, tbl)
  end.

(** The walk over the table. *)
Definition scan_all (bound : gset Z) (entries : list (rpc_key_t * rpc_state * bool)) (global_tick : Z)
  (x : timer_st) : timer_st :=
  foldl (fun x '(k, s, sent) => scan_rpc bound global_tick sent k s x) x entries.

(** [poll_homa_to], its completion queues apart: [entries] are the entries of
    the table in the order of the kernel, each with whether a packet can be sent
    for it.  The results are the packets sent, the keys to delete, the tick and
    the tables. *)
Definition poll_homa_to (bound : gset Z) (entries : list (rpc_key_t * rpc_state * bool)) (global_tick : Z)
  (shadow : gmap rpc_key_t rpc_state_wrapper) (tbl : gmap rpc_key_t rpc_state)
  : list timer_pkt * list rpc_key_t * Z * gmap rpc_key_t rpc_state_wrapper * gmap rpc_key_t rpc_state :=
  let global_tick := u32 (global_tick + 1) in
  let x := scan_all bound entries global_tick (mk_timer_st shadow [] []) in
  let '(_, tbl) := delete_loop (S (length (ti_delete x))) (ti_delete x) (length (ti_delete x)) tbl in
  (ti_sent x, ti_delete x, global_tick,
   filter (fun p => sw_last_scan_tick (snd p) = global_tick) (ti_shadow x), tbl).

(** ** The hole that is asked for *)

(** [a] to [b] is the first run of packets that are missing. *)
Record first_hole (s : rpc_state) (width a b : Z) : Prop := {
  fh_range : 0 <= a <= b /\ b < width;
  fh_before : forall q, 0 <= q < a -> rcvd s q = true;
  fh_missing : forall q, a <= q <= b -> rcvd s q = false;
  fh_maximal : b + 1 = width \/ rcvd s (b + 1) = true
}.

Lemma bit_rcvd s q : 0 <= q -> nz (Z.land (bitmap_word s (q / 64)) (Z.shiftl 1 (q mod 64))) = rcvd s q.
Proof.
  intros Hq. unfold rcvd, nz. set (j := q mod 64). assert (Hj : 0 <= j) by (apply Z.mod_pos_bound; lia).
  rewrite Z.shiftl_1_l. destruct (Z.testbit (bitmap_word s (q / 64)) j) eqn:E.
  - apply negb_true_iff, Z.eqb_neq. intros H. assert (Hb : Z.testbit 0 j = true); [|by rewrite Z.bits_0 in Hb].
    rewrite <- H, Z.land_spec, E, Z.pow2_bits_true by done. done.
  - apply negb_false_iff, Z.eqb_eq, Z.bits_inj'. intros i Hi. rewrite Z.land_spec, Z.bits_0, Z.pow2_bits_eqb by done.
    destruct (Z.eqb_spec j i) as [<-|]; [by rewrite E | apply andb_false_r].
Qed.

(** The state of the loop: no packet missing so far, or a run that is open. *)
Lemma zero_segment_loop_ok n s w t start end_ : 0 <= t <= w -> w <= t + Z.of_nat n ->
  (start = -1 /\ end_ = -1 /\ (forall q, 0 <= q < t -> rcvd s q = true) \/
   0 <= start /\ end_ = t - 1 /\ start <= end_ /\ (forall q, 0 <= q < start -> rcvd s q = true) /\
   (forall q, start <= q <= end_ -> rcvd s q = false)) ->
  let '(a, b) := zero_segment_loop n s w t start end_ in
  a = -1 /\ b = -1 /\ (forall q, 0 <= q < w -> rcvd s q = true) \/ first_hole s w a b.
Proof.
  revert t start end_. induction n as [|n IH]; intros t start end_ Ht Hn Hinv.
  { assert (t = w) as -> by lia. cbn. destruct Hinv as [(-> & -> & H)|(H1 & -> & H2 & H3 & H4)]; [by left|].
    right. split; [lia|done|done|]. left. lia. }
  cbn [zero_segment_loop]. destruct (Z.eqb_spec t w) as [->|Hne].
  { destruct Hinv as [(-> & -> & H)|(H1 & -> & H2 & H3 & H4)]; [by left|]. right. split; [lia|done|done|]. left. lia. }
  rewrite bit_rcvd by lia. destruct (rcvd s t) eqn:Er; cbn [negb].
  - destruct Hinv as [(-> & -> & H)|(H1 & -> & H2 & H3 & H4)]; [rewrite Z.eqb_refl|].
    + apply IH; [lia|lia|]. left. split_and!; [done..|]. intros q Hq.
      destruct (decide (q = t)) as [->|]; [done | apply H; lia].
    + destruct (Z.eqb_spec start (-1)); [lia|]. right. split; [lia|done|done|]. right.
      by replace (t - 1 + 1) with t by lia.
  - apply IH; [lia|lia|]. right. destruct Hinv as [(-> & -> & H)|(H1 & -> & H2 & H3 & H4)]; [rewrite Z.eqb_refl|].
    + split_and!; [lia|lia|lia|done|]. intros q Hq. by replace q with t by lia.
    + destruct (Z.eqb_spec start (-1)); [lia|]. split_and!; [lia|lia|lia|done|]. intros q Hq.
      destruct (decide (q = t)) as [->|]; [done | apply H4; lia].
Qed.

Lemma find_first_zero_segment_spec s w : 0 <= w <= 768 ->
  let '(a, b) := find_first_zero_segment s w in
  a = -1 /\ b = -1 /\ (forall q, 0 <= q < w -> rcvd s q = true) \/ first_hole s w a b.
Proof.
  intros Hw. apply zero_segment_loop_ok; [lia | change (Z.of_nat 768) with 768; lia |].
  left. split_and!; [done..|lia].
Qed.

(** ** The life of an RPC that hears nothing *)

Definition pkt_rpc (p : timer_pkt) : rpc_key_t := match p with T_need_ack k _ | T_resend k _ _ => k end.

(** What a tick does for the RPC [k]. *)
Definition view (k : rpc_key_t) (x : timer_st) : option rpc_state_wrapper * bool * list timer_pkt :=
  (ti_shadow x !! k, bool_decide (k ∈ ti_delete x), filter (fun p => pkt_rpc p = k) (ti_sent x)).

Lemma check_timeout_rpc t b k s sw p : fst (check_timeout t b k s sw) = Some p -> pkt_rpc p = k.
Proof.
  unfold check_timeout. cbn zeta. repeat case_match; cbn; intros; by simplify_eq.
Qed.

Lemma scan_other bound t b j s k x : j <> k -> view k (scan_rpc bound t b j s x) = view k x.
Proof.
  intros Hne. unfold scan_rpc, view. split_if.
  { cbn. f_equal. f_equal. apply bool_decide_ext. rewrite elem_of_app, list_elem_of_singleton. naive_solver. }
  destruct (ti_shadow x !! j) as [sw|]; [|cbn; by rewrite lookup_insert_ne].
  cbn zeta. match goal with |- context [check_timeout _ _ _ _ ?y] => set (sw' := y) end. split_if.
  { cbn. rewrite lookup_delete_ne by done. f_equal. f_equal. apply bool_decide_ext.
    rewrite elem_of_app, list_elem_of_singleton. naive_solver. }
  pose proof (check_timeout_rpc t b j s sw') as Hp. destruct (check_timeout t b j s sw') as [out sw2]. cbn in *.
  rewrite lookup_insert_ne by done. f_equal. rewrite list.filter_app. destruct out as [p|]; cbn; [|by rewrite app_nil_r].
  rewrite (Hp p eq_refl). destruct (decide (j = k)); [done | by rewrite app_nil_r].
Qed.

Lemma scan_others bound t l k x : k ∉ (fst ∘ fst) <$> l -> view k (scan_all bound l t x) = view k x.
Proof.
  revert x. induction l as [|[[j s] b] l IH]; intros x Hk; [done|]. cbn in Hk. rewrite elem_of_cons in Hk.
  unfold scan_all. cbn [foldl]. fold (scan_all bound l t (scan_rpc bound t b j s x)).
  rewrite IH by tauto. apply scan_other. intros ->. tauto.
Qed.

(** A table in which the RPC [k] is found once, as [s]. *)
Definition found_as (k : rpc_key_t) (s : rpc_state) (l : list (rpc_key_t * rpc_state * bool)) : Prop :=
  exists l1 l2, l = l1 ++ (k, s, true) :: l2 /\ k ∉ (fst ∘ fst) <$> l1 /\ k ∉ (fst ∘ fst) <$> l2.

Lemma view_ext_scan bound t b k s x y : view k x = view k y ->
  view k (scan_rpc bound t b k s x) = view k (scan_rpc bound t b k s y).
Proof.
  unfold view. intros [= E1 E2 E3].
  assert (Hd : bool_decide (k ∈ ti_delete x ++ [k]) = bool_decide (k ∈ ti_delete y ++ [k])).
  { rewrite !bool_decide_eq_true_2; [done|apply elem_of_app; right; left..]. }
  unfold scan_rpc. split_if; [cbn; by rewrite E1, E3, Hd|].
  rewrite E1. destruct (ti_shadow y !! k) as [sw|]; [|cbn; by rewrite !lookup_insert_eq, E2, E3].
  cbn zeta. match goal with |- context [check_timeout _ _ _ _ ?z] => set (sw' := z) end. split_if.
  { cbn. by rewrite !lookup_delete_eq, E3, Hd. }
  destruct (check_timeout t b k s sw') as [out sw2]. cbn. by rewrite !lookup_insert_eq, !list.filter_app, E2, E3.
Qed.

Lemma scan_found bound t k s l x : found_as k s l ->
  view k (scan_all bound l t x) = view k (scan_rpc bound t true k s x).
Proof.
  intros (l1 & l2 & -> & H1 & H2). unfold scan_all. rewrite foldl_app. cbn [foldl].
  fold (scan_all bound l1 t x). set (x1 := scan_all bound l1 t x).
  fold (scan_all bound l2 t (scan_rpc bound t true k s x1)). rewrite scan_others by done.
  apply view_ext_scan. by apply scan_others.
Qed.

(** Ticks one after the other, with the table each finds; the packets sent and
    the keys to delete are collected. *)
Fixpoint polls (bound : gset Z) (l : list (list (rpc_key_t * rpc_state * bool) * gmap rpc_key_t rpc_state))
  (global_tick : Z) (shadow : gmap rpc_key_t rpc_state_wrapper)
  : list timer_pkt * list rpc_key_t * Z * gmap rpc_key_t rpc_state_wrapper :=
  match l with
  | [] => ([], [], global_tick, shadow)
  | (entries, tbl) :: l =>
    let '(sent, del, global_tick, shadow, _) := poll_homa_to bound entries global_tick shadow tbl in
    let '(sent', del', global_tick, shadow) := polls bound l global_tick shadow in
    (sent ++ sent', del ++ del', global_tick, shadow)
  end.

(** The RPCs that wait for packets of their peer and that the timer watches: a
    message of which packets are missing, and not all bytes it was granted have
    arrived (or all of it was granted); a request that was sent whole, so that
    the response is due; a request whose next packet needs a GRANT. *)
Inductive expects_packets (s : rpc_state) : Prop :=
| expects_message q :
    rs_state s = BPF_RPC_INCOMING -> in32 (rs_message_length s) -> in32 (hc_incoming (rs_cc s)) ->
    0 <= hc_bytes_remaining (rs_cc s) <= rs_message_length s ->
    (let received := rs_message_length s - hc_bytes_remaining (rs_cc s) in
     let whole := hc_incoming (rs_cc s) / HOMA_MSS * HOMA_MSS in
     received < whole \/ received = whole /\ hc_incoming (rs_cc s) = rs_message_length s) ->
    0 <= q < rs_bit_width s -> rs_bit_width s <= 768 -> rcvd s q = false -> expects_packets s
| expects_response :
    rs_state s = BPF_RPC_OUTGOING -> rpc_is_client (rs_id s) = true ->
    rs_message_length s <= rs_next_xmit_offset s -> expects_packets s
| expects_grant :
    rs_state s = BPF_RPC_OUTGOING -> rpc_is_client (rs_id s) = true -> in32 (rs_message_length s) ->
    0 <= rs_next_xmit_offset s < rs_message_length s ->
    hc_granted (rs_cc s) < rs_next_xmit_offset s + Z.min (rs_message_length s - rs_next_xmit_offset s) HOMA_MSS ->
    expects_packets s.

(** What a RESEND of the RPC asks for: of a message, the first run of packets
    that is missing; of a response of which nothing has come, its start. *)
Definition asked_for (s : rpc_state) (range : Z * Z * Z) : Prop :=
  (rs_state s = BPF_RPC_INCOMING /\
   exists a b, first_hole s (rs_bit_width s) a b /\ range = (a * HOMA_MSS, (b - a + 1) * HOMA_MSS, 7)) \/
  (rs_state s = BPF_RPC_OUTGOING /\ range = (0, 100, 7)).

(** None of the conditions holds under which [check_timeout] takes silence for
    normal. *)
Definition silence_counts (s : rpc_state) : bool :=
  let outgoing := rs_state s =? BPF_RPC_OUTGOING in
  let left := u64 (rs_message_length s - rs_next_xmit_offset s) in
  negb (negb (rpc_is_client (rs_id s)) && outgoing && (rs_next_xmit_offset s >=? rs_message_length s))
  && negb (outgoing && (rs_next_xmit_offset s <? rs_message_length s)
           && (u64 (rs_next_xmit_offset s + Z.min left HOMA_MSS) <=? hc_granted (rs_cc s)))
  && negb ((rs_state s =? BPF_RPC_INCOMING) && waits_for_grant s)
  && negb (negb (rs_state s =? BPF_RPC_INCOMING) && negb (rpc_is_client (rs_id s))).

Section Silent.
Variables (bound : gset Z) (k : rpc_key_t) (s : rpc_state) (range : Z * Z * Z).
Hypothesis port_bound : rs_local_port s ∈ bound.
Hypothesis alive : rs_state s <> BPF_RPC_DEAD.
Hypothesis waiting : silence_counts s = true.
Hypothesis hole : get_resend_range s = Some range.

(** The record of the RPC after [i] silent ticks and [j] requests. *)
Definition silent_at (i j : Z) (sw : rpc_state_wrapper) : Prop :=
  sw_data sw = s /\ sw_silent_ticks sw = i /\ sw_resend_try sw = j.

Lemma check_silent t sw : sw_data sw = s ->
  check_timeout t true k s sw =
  if sw_silent_ticks sw <? 14 then (None, sw)
  else (Some (T_resend k s range), sw <| sw_resend_try := u32 (sw_resend_try sw + 1) |> <| sw_silent_ticks := 0 |>).
Proof.
  intros Hd. unfold check_timeout. cbn zeta. unfold silence_counts in waiting. cbn zeta in waiting.
  rewrite !andb_true_iff, !negb_true_iff in waiting. destruct waiting as [[[H1 H2] H3] H4].
  rewrite H1, H2, H3, H4, Hd, !Z.eqb_refl. cbn [negb orb]. change (RESEND_TICK - 1) with 14.
  split_if; [done|]. by rewrite hole.
Qed.

Lemma scan_silent t x sw i j : ti_shadow x !! k = Some sw -> silent_at i j sw -> 0 <= i < 14 -> 0 <= j < 10 ->
  exists sw', silent_at ((i + 1) mod 14) (j + (i + 1) / 14) sw' /\ sw_last_scan_tick sw' = t /\
    view k (scan_rpc bound t true k s x) =
    (Some sw', bool_decide (k ∈ ti_delete x),
     filter (fun p => pkt_rpc p = k) (ti_sent x) ++ replicate (Z.to_nat ((i + 1) / 14)) (T_resend k s range)).
Proof.
  intros E (Hd & Hi & Hj) Hir Hjr. unfold scan_rpc.
  rewrite bool_decide_eq_false_2 by (intros H; done).
  replace (rs_state s =? BPF_RPC_DEAD) with false by (symmetry; by apply Z.eqb_neq). cbn [orb]. rewrite E. cbn zeta.
  cbn [sw_data upd_field setter_of]. rewrite Hd, Z.eqb_refl. cbn [negb].
  set (sw1 := sw <| sw_last_scan_tick := t |> <| sw_silent_ticks := _ |>).
  assert (Hs1 : silent_at (i + 1) j sw1) by (split_and!; cbn; [done|rewrite Hi; unfold u32; lia|done]).
  destruct Hs1 as (Hd1 & Hi1 & Hj1). rewrite Hj1. replace (j =? ABORT_RESEND) with false
    by (symmetry; apply Z.eqb_neq; unfold ABORT_RESEND; lia).
  rewrite check_silent by done. rewrite Hi1, Hj1. unfold view. destruct (Z.ltb_spec (i + 1) 14).
  - exists sw1. rewrite Z.mod_small, Z.div_small, Z.add_0_r by lia. split; [by split_and!|]. split; [done|].
    cbn. by rewrite lookup_insert_eq, !app_nil_r.
  - assert (i = 13) as -> by lia. exists (sw1 <| sw_resend_try := u32 (j + 1) |> <| sw_silent_ticks := 0 |>).
    split; [split_and!; cbn; [done|done|unfold u32; change ((13 + 1) / 14) with 1; lia]|]. split; [done|].
    cbn [upd_field setter_of ti_shadow ti_delete ti_sent]. rewrite lookup_insert_eq, list.filter_app.
    f_equal. f_equal. cbn. by destruct (decide (k = k)).
Qed.

(** One tick. *)
Lemma poll_silent entries tbl t shadow sw i j : found_as k s entries -> shadow !! k = Some sw ->
  silent_at i j sw -> 0 <= i < 14 -> 0 <= j < 10 ->
  let '(sent, del, _, shadow', _) := poll_homa_to bound entries t shadow tbl in
  filter (fun p => pkt_rpc p = k) sent = replicate (Z.to_nat ((i + 1) / 14)) (T_resend k s range) /\
  k ∉ del /\ exists sw', shadow' !! k = Some sw' /\ silent_at ((i + 1) mod 14) (j + (i + 1) / 14) sw'.
Proof.
  intros Hf E Hs Hi Hj. unfold poll_homa_to. cbn zeta. set (x0 := mk_timer_st shadow [] []).
  pose proof (scan_found bound (u32 (t + 1)) k s entries x0 Hf) as Hv.
  destruct (scan_silent (u32 (t + 1)) x0 sw i j E Hs Hi Hj) as (sw' & Hs' & Ht & Hv').
  rewrite Hv' in Hv. set (x := scan_all _ _ _ x0) in *. unfold view in Hv. injection Hv as E1 E2 E3.
  destruct (delete_loop _ _ _ _) as [n tbl']. split_and!; [by rewrite E3|..].
  - intros Hin. by rewrite (bool_decide_eq_true_2 _ Hin) in E2.
  - exists sw'. split; [|done]. by apply map_lookup_filter_Some.
Qed.

(** Any number of ticks up to the tenth request. *)
Lemma polls_silent l t shadow sw i j : Forall (fun e => found_as k s (fst e)) l -> shadow !! k = Some sw ->
  silent_at i j sw -> 0 <= i < 14 -> 0 <= j -> 14 * j + i + Z.of_nat (length l) <= 140 ->
  let '(sent, del, _, shadow') := polls bound l t shadow in
  filter (fun p => pkt_rpc p = k) sent =
    replicate (Z.to_nat ((i + Z.of_nat (length l)) / 14)) (T_resend k s range) /\
  k ∉ del /\ exists sw', shadow' !! k = Some sw' /\
    silent_at ((i + Z.of_nat (length l)) mod 14) (j + (i + Z.of_nat (length l)) / 14) sw'.
Proof.
  revert t shadow sw i j. induction l as [|[entries tbl] l IH]; intros t shadow sw i j Hl E Hs Hi Hj Hn.
  { cbn. rewrite Z.add_0_r, Z.mod_small, Z.div_small, Z.add_0_r by lia. split_and!; [done|apply not_elem_of_nil|eauto]. }
  apply list.Forall_cons in Hl as [Hf Hl]. cbn [length] in Hn. cbn [polls fst] in *.
  pose proof (poll_silent entries tbl t shadow sw i j Hf E Hs Hi ltac:(lia)) as H.
  destruct (poll_homa_to bound entries t shadow tbl) as [[[[sent del] t1] shadow1] tbl1].
  destruct H as (H1 & H2 & sw1 & E1 & Hs1).
  specialize (IH t1 shadow1 sw1 _ _ Hl E1 Hs1 ltac:(apply Z.mod_pos_bound; lia) ltac:(lia) ltac:(lia)).
  destruct (polls bound l t1 shadow1) as [[[sent' del'] t2] shadow2]. destruct IH as (I1 & I2 & sw2 & E2 & Hs2).
  cbn [length]. rewrite Nat2Z.inj_succ.
  replace (((i + 1) mod 14 + Z.of_nat (length l)) / 14) with ((i + Z.succ (Z.of_nat (length l))) / 14 - (i + 1) / 14) in * by lia.
  replace (((i + 1) mod 14 + Z.of_nat (length l)) mod 14) with ((i + Z.succ (Z.of_nat (length l))) mod 14) in * by lia.
  split_and!.
  - rewrite list.filter_app, H1, I1, <- replicate_add. f_equal. lia.
  - rewrite elem_of_app. tauto.
  - exists sw2. split; [done|]. replace (j + (i + Z.succ (Z.of_nat (length l))) / 14)
      with (j + (i + 1) / 14 + ((i + Z.succ (Z.of_nat (length l))) / 14 - (i + 1) / 14)) by lia. done.
Qed.

(** The first tick that finds the RPC. *)
Lemma poll_first entries tbl t shadow : found_as k s entries -> shadow !! k = None ->
  let '(sent, del, _, shadow', _) := poll_homa_to bound entries t shadow tbl in
  filter (fun p => pkt_rpc p = k) sent = [] /\ k ∉ del /\ exists sw', shadow' !! k = Some sw' /\ silent_at 0 0 sw'.
Proof.
  intros Hf E. unfold poll_homa_to. cbn zeta. set (x0 := mk_timer_st shadow [] []).
  pose proof (scan_found bound (u32 (t + 1)) k s entries x0 Hf) as Hv.
  unfold scan_rpc in Hv at 1. rewrite bool_decide_eq_false_2 in Hv by (intros H; done).
  replace (rs_state s =? BPF_RPC_DEAD) with false in Hv by (symmetry; by apply Z.eqb_neq). cbn [orb] in Hv.
  replace (ti_shadow x0 !! k) with (@None rpc_state_wrapper) in Hv. set (x := scan_all _ _ _ x0) in *.
  unfold view in Hv. cbn in Hv. injection Hv as E1 E2 E3. rewrite lookup_insert_eq in E1.
  destruct (delete_loop _ _ _ _) as [n tbl']. split_and!; [done|..].
  - intros Hin. by rewrite (bool_decide_eq_true_2 _ Hin) in E2.
  - eexists. split; [by apply map_lookup_filter_Some|]. done.
Qed.

(** The tick after the tenth request. *)
Lemma poll_abort entries tbl t shadow sw : found_as k s entries -> shadow !! k = Some sw -> silent_at 0 10 sw ->
  let '(_, del, _, shadow', _) := poll_homa_to bound entries t shadow tbl in k ∈ del /\ shadow' !! k = None.
Proof.
  intros Hf E (Hd & Hi & Hj). unfold poll_homa_to. cbn zeta. set (x0 := mk_timer_st shadow [] []).
  pose proof (scan_found bound (u32 (t + 1)) k s entries x0 Hf) as Hv.
  unfold scan_rpc in Hv at 1. rewrite bool_decide_eq_false_2 in Hv by (intros H; done).
  replace (rs_state s =? BPF_RPC_DEAD) with false in Hv by (symmetry; by apply Z.eqb_neq). cbn [orb] in Hv.
  replace (ti_shadow x0 !! k) with (Some sw) in Hv. cbn zeta in Hv.
  cbn [sw_data upd_field setter_of] in Hv. rewrite Hd, Z.eqb_refl in Hv.
  cbn [negb sw_resend_try upd_field setter_of] in Hv. rewrite Hj, Z.eqb_refl in Hv.
  set (x := scan_all _ _ _ x0) in *. unfold view in Hv.
  cbn [ti_shadow ti_delete ti_sent upd_field setter_of] in Hv. injection Hv as E1 E2 E3. rewrite lookup_delete_eq in E1.
  destruct (delete_loop _ _ _ _) as [n tbl']. split.
  - rewrite (bool_decide_eq_true_2 (k ∈ [k])) in E2 by left. by apply bool_decide_eq_true in E2.
  - apply map_lookup_filter_None. left. exact E1.
Qed.

End Silent.

(** The range asked for is the first hole. *)
Lemma resend_range_hole s range : get_resend_range s = Some range -> rs_state s <> BPF_RPC_OUTGOING ->
  0 <= rs_bit_width s <= 768 ->
  exists a b, first_hole s (rs_bit_width s) a b /\ range = (a * HOMA_MSS, (b - a + 1) * HOMA_MSS, 7).
Proof.
  unfold get_resend_range. intros Hr Hs Hw. replace (rs_state s =? BPF_RPC_OUTGOING) with false in Hr
    by (symmetry; by apply Z.eqb_neq).
  pose proof (find_first_zero_segment_spec s (rs_bit_width s) Hw) as H.
  destruct (find_first_zero_segment _ _) as [a b]. destruct (_ || _) eqn:E; [done|]. injection Hr as <-.
  destruct H as [(-> & _)|H]; [done|]. eauto.
Qed.

Lemma expects_counts s : expects_packets s -> rs_state s <> BPF_RPC_DEAD /\ silence_counts s = true.
Proof.
  unfold silence_counts. intros [q E HL Hi Hb Hw _ _ _|E Hc Hx|E Hc HL Hx Hg]; rewrite E; (split; [done|]);
    cbn zeta; cbn [Z.eqb BPF_RPC_OUTGOING BPF_RPC_INCOMING negb andb Pos.eqb].
  - change (BPF_RPC_INCOMING =? BPF_RPC_OUTGOING) with false. rewrite andb_false_r. cbn [negb andb].
    rewrite !andb_true_r. apply negb_true_iff. unfold waits_for_grant, in32 in *. cbn zeta in *.
    assert (0 <= hc_incoming (rs_cc s) / HOMA_MSS * HOMA_MSS <= hc_incoming (rs_cc s)) by (unfold HOMA_MSS; lia).
    rewrite !u64_small by mach_lia. apply orb_false_iff. rewrite Z.gtb_ltb, Z.ltb_ge, andb_false_iff, Z.eqb_neq, negb_false_iff, Z.eqb_eq.
    lia.
  - rewrite Hc. cbn [negb andb]. rewrite !andb_true_r. apply negb_true_iff.
    replace (_ <? _) with false by (symmetry; apply Z.ltb_ge; lia). done.
  - rewrite Hc. cbn [negb andb]. rewrite !andb_true_r. apply negb_true_iff. unfold in32 in HL.
    replace (rs_next_xmit_offset s <? _) with true by (symmetry; apply Z.ltb_lt; lia). cbn [andb].
    rewrite (u64_small (_ - _)) by mach_lia. rewrite u64_small by (unfold HOMA_MSS in *; mach_lia). apply Z.leb_gt. lia.
Qed.

Lemma expects_range s : expects_packets s -> exists range, get_resend_range s = Some range /\ asked_for s range.
Proof.
  intros [q E _ _ _ _ Hq Hw Hm|E _ _|E _ _ _ _].
  2, 3: unfold get_resend_range; rewrite E; eexists; (split; [reflexivity|by right]).
  destruct (get_resend_range s) as [range|] eqn:Er.
  - exists range. split; [done|]. left. split; [done|]. apply resend_range_hole; [done| |lia]. by rewrite E.
  - exfalso. revert Er. unfold get_resend_range. rewrite E. change (BPF_RPC_INCOMING =? BPF_RPC_OUTGOING) with false.
    pose proof (find_first_zero_segment_spec s (rs_bit_width s) ltac:(lia)) as H.
    destruct (find_first_zero_segment _ _) as [a b]. destruct H as [(_ & _ & H)|H]; [by rewrite H in Hm|].
    destruct (fh_range _ _ _ _ H). destruct (Z.eqb_spec a (-1)), (Z.eqb_spec b (-1)); cbn; done || lia.
Qed.

(** C18. An RPC that waits for packets and hears nothing: a message of which
    packets are missing, unless all that its sender was allowed to send has
    arrived; a request that was sent whole; or a request whose next packet
    needs a GRANT.  Its port is bound and every tick finds it unchanged, finds
    it once, and finds a buffer and a descriptor for a packet; the table may
    hold any other RPCs.  From the tick that first finds it a RESEND is issued
    every 14 ticks, ten times in all, and the tick after the tenth gives the
    RPC up.  For a message each RESEND names the first run of packets that is
    missing, from its first to its last packet; for a request it asks for the
    first 100 bytes of the response. *)
Theorem homa_silent_rpc (bound : gset Z) (k : rpc_key_t) (s : rpc_state)
  (l : list (list (rpc_key_t * rpc_state * bool) * gmap rpc_key_t rpc_state)) (tick : Z)
  (shadow : gmap rpc_key_t rpc_state_wrapper)
  (Hport : rs_local_port s ∈ bound) (Hexpects : expects_packets s)
  (Hfound : Forall (fun e => found_as k s (fst e)) l) (Hnew : shadow !! k = None)
  (Hlen : (1 <= length l <= 141)%nat) :
  let '(sent, del, tick', shadow') := polls bound l tick shadow in
  (exists range, filter (fun p => pkt_rpc p = k) sent = replicate ((length l - 1) / 14) (T_resend k s range) /\
     asked_for s range) /\ k ∉ del /\
  (length l = 141%nat -> forall entries tbl, found_as k s entries ->
   let '(_, del, _, shadow'', _) := poll_homa_to bound entries tick' shadow' tbl in
   k ∈ del /\ shadow'' !! k = None).
Proof.
  destruct (expects_counts s Hexpects) as [Halive Hwait].
  destruct (expects_range s Hexpects) as (range & Hrange & Hasked).
  destruct l as [|[entries tbl] l]; [cbn in Hlen; lia|]. apply list.Forall_cons in Hfound as [Hf Hl].
  cbn [length] in Hlen. cbn [polls fst] in *.
  pose proof (poll_first bound k s Hport Halive entries tbl tick shadow Hf Hnew) as H.
  destruct (poll_homa_to bound entries tick shadow tbl) as [[[[sent del] t1] shadow1] tbl1].
  destruct H as (H1 & H2 & sw1 & E1 & Hs1).
  pose proof (polls_silent bound k s range Hport Halive Hwait Hrange l t1 shadow1 sw1 0 0 Hl E1 Hs1
    ltac:(lia) ltac:(lia) ltac:(lia)) as H.
  destruct (polls bound l t1 shadow1) as [[[sent' del'] t2] shadow2]. destruct H as (I1 & I2 & sw2 & E2 & Hs2).
  cbn [length]. rewrite Z.add_0_l in I1, Hs2. split_and!.
  - exists range. split; [|done]. rewrite list.filter_app, H1, I1. cbn [app]. f_equal. replace (S (length l) - 1)%nat with (length l) by lia.
    change 14 with (Z.of_nat 14). rewrite <- Nat2Z.inj_div. apply Nat2Z.id.
  - rewrite elem_of_app. tauto.
  - intros Hn e tb He. assert (Z.of_nat (length l) = 140) as Hl' by lia. rewrite Hl' in Hs2.
    by apply (poll_abort bound k s Hport Halive e tb t2 shadow2 sw2).
Qed.

(** A request of 4000 bytes whose second packet is missing, over 15 ticks. *)
Definition wit_waiting : rpc_state :=
  zero_rpc_state <| rs_state := BPF_RPC_INCOMING |> <| rs_local_port := 4000 |> <| rs_id := 9 |>
    <| rs_bit_width := 3 |> <| rs_message_length := 4000 |> <| rs_bitmap := 5 :: replicate 11 0 |>
    <| rs_cc := mk_homa_cc 1420 0 4000 0 0 |>.

Lemma homa_silent_rpc_witness :
  let l := replicate 15 ([(wit_key, wit_waiting, true)], ∅) in
  fst (fst (fst (polls {[ 4000 ]} l 0 ∅))) = [T_resend wit_key wit_waiting (1420, 1420, 7)] /\
  exists range, filter (fun p => pkt_rpc p = wit_key) (fst (fst (fst (polls {[ 4000 ]} l 0 ∅)))) =
    [T_resend wit_key wit_waiting range] /\ asked_for wit_waiting range.
Proof.
  cbn zeta. split; [vm_compute; reflexivity|].
  pose proof (homa_silent_rpc {[ 4000 ]} wit_key wit_waiting
    (replicate 15 ([(wit_key, wit_waiting, true)], ∅)) 0 ∅) as H.
  destruct (polls {[ 4000 ]} _ 0 ∅) as [[[sent del] t] sh].
  apply H; [set_solver| | |apply lookup_empty|cbn; lia].
  - apply (expects_message _ 1); [reflexivity|vm_compute; by split..|left; vm_compute; reflexivity|vm_compute; by split|vm_compute; discriminate|reflexivity].
  - apply Forall_replicate. exists [], []. split; [done|]. split; apply not_elem_of_nil.
Defined.

(** ** What does not work *)

(** No packet of the control plane leaves the host: the egress program drops
    frames that are shorter than a data packet before it looks at the flag that
    marks them. *)
Lemma control_packets_dropped e meta local_ip s range old w :
  (exists p, xdp_egress_prog e meta (resend_frame local_ip s range old) w = Some (E_act XDP_DROP, p, w)) /\
  (exists p, xdp_egress_prog e meta (need_ack_frame local_ip s old) w = Some (E_act XDP_DROP, p, w)).
Proof. destruct range as [[o l] p]. destruct meta as [m|]; split; eexists; reflexivity. Qed.

(** A grant that is lost is not asked for: a receiver that has all the bytes it
    knows to be granted takes silence for normal at every tick, and answers a
    RESEND of the sender with BUSY, at which the sender starts counting anew. *)
Lemma lost_grant_unnoticed t sent k s sw h m w :
  rs_state s = BPF_RPC_INCOMING -> waits_for_grant s = true -> rpc_is_client (rs_id s) = false ->
  fst (check_timeout t sent k s sw) = None /\ sw_silent_ticks (snd (check_timeout t sent k s sw)) = 0 /\
  (forall ip, rx_key (r_common h) ip = k -> rk_rpcid k = rs_id s -> h_rpc_tbl w !! k = Some s ->
   fst (fst (resend_pkt h ip m w)) = BUSY).
Proof.
  intros Hs Hw Hc. assert (E : check_timeout t sent k s sw = (None, sw <| sw_silent_ticks := 0 |> <| sw_resend_try := 0 |>)).
  { unfold check_timeout. cbn zeta. rewrite Hs, Hw, Hc. done. }
  rewrite E. split_and!; [done..|]. intros ip Hk Hid Et. unfold resend_pkt. rewrite Hk, Et, Hs. cbn zeta.
  rewrite Hid, Hc. cbn [Z.eqb negb andb]. unfold waits_for_grant in Hw. cbn zeta in Hw.
  replace (BPF_RPC_INCOMING =? BPF_RPC_DEAD) with false by done.
  replace (BPF_RPC_INCOMING =? BPF_RPC_OUTGOING) with false by done. cbn [negb andb]. by rewrite Hw.
Qed.
