(* ===== verification/HomaCtl.v ===== *)
(** The Homa sockets of the microkernel ([micro_kernel/homa.cc]:
    [homa_bind], [homa_close], [process_homa_cmd], [free_homa_resources] and
    what they call; [free_app_resources] of [micro_kernel/control_plane.cc]).  The ports come from the pool of [Ports], which other
    parts of the microkernel use too; the table the XDP programs look a port
    up in has room for [MAX_SERVER_PORT] entries.

    The theorem: the sockets, the table of the XDP programs and the pool agree
    as long as no application closes a handle of another one; a bind succeeds
    exactly when the handle and the port are free and the table has room, a
    close exactly when the handle is in use. *)
From stdpp Require Import gmap sorting.
From S2P Require Import Prelude Headers Ports HomaXdp.
Local Open Scope Z_scope.

Definition MAX_SERVER_PORT : nat := 64.
Definition ENOENT : Z := 2.

(** ** State *)

(** A thread of an application, [app_ctx_per_thread]. *)
Record homa_thread := mk_homa_thread { th_app : Z; th_index : Z }.

(** [struct homa_socket] *)
Record homa_socket := mk_homa_socket {
  hs_tctx : homa_thread;
  hs_opaque : Z;
  hs_fd : Z;
  hs_local_ip : Z;
  hs_local_port : Z
}.

(** The answers to an application, [struct appin_homa_status_t]. *)
Inductive homa_status :=
| Status_bind (opaque fd status : Z)
| Status_close (opaque fd status : Z).

(** [homa_sockets], the pool of ports, the ports of each application, the map
    [port_tbl] and the messages sent. *)
Record homa_ctl := mk_homa_ctl {
  hk_sockets : gmap Z homa_socket;
  hk_pool : port_pool;
  hk_apps : gmap Z port_rules;
  hk_tbl : gmap Z (Z -> Z);
  hk_out : list (homa_thread * homa_status)
}.

#[export] Instance eta_homa_ctl : Eta homa_ctl := fun r => mk_homa_ctl
  (hk_sockets r) (hk_pool r) (hk_apps r) (hk_tbl r) (hk_out r).

(** The commands of an application, [APPOUT_HOMA_BIND] and
    [APPOUT_HOMA_CLOSE]; any other number is printed. *)
Inductive homa_cmd :=
| Homa_bind (opaque fd local_ip local_port : Z)
| Homa_close (opaque fd : Z)
| Homa_other (cmd : Z).

Definition homa_ctl_init : homa_ctl := mk_homa_ctl ∅ ctx_init_ports ∅ ∅ [].

(** ** Operations *)

Section homa_ctl.

(** [actx->nic_qid], [tctx->txrx_xsk_map_key] and the address of the NIC. *)
Variable nic_qid : Z -> list Z.
Variable txrx_xsk_map_key : homa_thread -> list Z.
Variable nic_local_ip : Z.

(** [struct target_xsk] as [reg_homa_socket_ebpf] fills it: -1 but for the
    queues of the application. *)
Definition target_xsk (tctx : homa_thread) : Z -> Z :=
  foldl (fun v '(qid, key) cpu => if cpu =? qid then key else v cpu) (fun _ => -1)
    (zip (nic_qid (th_app tctx)) (txrx_xsk_map_key tctx)).

(** [reg_homa_socket_ebpf]; the update of a hash map fails when a new key
    finds no room. *)
Definition reg_homa_socket_ebpf (tctx : homa_thread) (port : Z) (st : homa_ctl) : Z * homa_ctl :=
  if bool_decide (hk_tbl st !! port = None) && (MAX_SERVER_PORT <=? size (hk_tbl st))%nat
  then (-1, st)
  else (0, st <| hk_tbl ::= <[port := target_xsk tctx]> |>).

Definition unreg_homa_socket_ebpf (port : Z) (st : homa_ctl) : homa_ctl :=
  st <| hk_tbl ::= delete port |>.

(** [notify_app_homa_status_bind] and [notify_app_homa_status_close] *)
Definition notify_app_homa (tctx : homa_thread) (m : homa_status) (st : homa_ctl) : homa_ctl :=
  st <| hk_out ::= fun l => l ++ [(tctx, m)] |>.

(** [find_homa_socket_slowpath]; a socket is named by its key, in place of its
    address. *)
Definition find_homa_socket_slowpath (opaque : Z) (st : homa_ctl) : option (Z * homa_socket) :=
  List.find (fun e => hs_opaque e.2 =? opaque) (map_to_list (hk_sockets st)).

(** [reg_homa_socket_slowpath]: [insert] leaves a present key alone. *)
Definition reg_homa_socket_slowpath (s : homa_socket) (st : homa_ctl) : homa_ctl :=
  match hk_sockets st !! hs_local_port s with
  | Some _ => st
  | None => st <| hk_sockets ::= <[hs_local_port s := s]> |>
  end.

Definition unreg_homa_socket_slowpath (key : Z) (st : homa_ctl) : homa_ctl :=
  st <| hk_sockets ::= delete key |>.

(** [record_port] and [unrecord_port] in an application of Homa. *)
Definition app_rules (app : Z) (st : homa_ctl) : port_rules := default rules_none (hk_apps st !! app).

Definition homa_record_port (app port : Z) (st : homa_ctl) : homa_ctl :=
  st <| hk_apps ::= <[app := (record_port IPPROTO_HOMA port 0 None (app_rules app st)).2]> |>.

Definition homa_unrecord_port (app port : Z) (st : homa_ctl) : homa_ctl :=
  st <| hk_apps ::= <[app := (unrecord_port IPPROTO_HOMA port (app_rules app st)).2]> |>.

Definition homa_free_port (port : Z) (st : homa_ctl) : homa_ctl :=
  st <| hk_pool := (free_port port (hk_pool st)).2 |>.

Definition homa_bind (tctx : homa_thread) (opaque fd local_port : Z) (st : homa_ctl) : Z * homa_ctl :=
  match find_homa_socket_slowpath opaque st with
  | Some _ => (- EADDRINUSE, st)
  | None =>
    let '(r, pool) := alloc_port_at local_port (hk_pool st) in
    let st := st <| hk_pool := pool |> in
    if nz r then (- EADDRINUSE, st) else
    let hs := mk_homa_socket tctx opaque fd nic_local_ip local_port in
    let st := homa_record_port (th_app tctx) local_port st in
    let '(r, st) := reg_homa_socket_ebpf tctx local_port st in
    if nz r
    then (-1, homa_free_port local_port (homa_unrecord_port (th_app tctx) local_port st))
    else (0, notify_app_homa tctx (Status_bind opaque fd 0) (reg_homa_socket_slowpath hs st))
  end.

Definition homa_close (tctx : homa_thread) (opaque : Z) (st : homa_ctl) : Z * homa_ctl :=
  match find_homa_socket_slowpath opaque st with
  | None => (- ENOENT, st)
  | Some (key, s) =>
    let st := unreg_homa_socket_slowpath key st in
    let st := unreg_homa_socket_ebpf (hs_local_port s) st in
    let st := homa_unrecord_port (th_app tctx) (hs_local_port s) st in
    let st := homa_free_port (hs_local_port s) st in
    (0, notify_app_homa tctx (Status_close opaque (hs_fd s) 0) st)
  end.

Definition process_homa_cmd (tctx : homa_thread) (msg : homa_cmd) (st : homa_ctl) : homa_ctl :=
  match msg with
  | Homa_bind opaque fd _ local_port =>
    let '(r, st) := homa_bind tctx opaque fd local_port st in
    if nz r then notify_app_homa tctx (Status_bind opaque fd (-1)) st else st
  | Homa_close opaque fd =>
    let '(r, st) := homa_close tctx opaque st in
    if nz r then notify_app_homa tctx (Status_close opaque fd (-2)) st else st
  | Homa_other _ => st
  end.

(** The body of the loop of [free_homa_sockets]. *)
Definition free_homa_socket (app : Z) (st : homa_ctl) (e : Z * homa_socket) : homa_ctl :=
  let '(key, s) := e in
  if th_app (hs_tctx s) =? app then
    let st := unreg_homa_socket_slowpath key st in
    let st := unreg_homa_socket_ebpf (hs_local_port s) st in
    let st := homa_unrecord_port app (hs_local_port s) st in
    homa_free_port (hs_local_port s) st
  else st.

Definition free_homa_resources (app : Z) (st : homa_ctl) : homa_ctl :=
  foldl (free_homa_socket app) st (map_to_list (hk_sockets st)).

(** The part of [free_app_resources] and [destroy_app] that concerns the
    sockets and ports of a Homa application: its sockets are closed, then
    every port that is still in [actx->ports] is returned.  [std::set] is
    traversed in ascending order. *)
Definition homa_free_app_resources (app : Z) (st : homa_ctl) : homa_ctl :=
  let st := free_homa_resources app st in
  let st := foldl (fun st port => homa_free_port port st) st
              (merge_sort Z.le (elements (app_ports (app_rules app st)))) in
  st <| hk_apps ::= delete app |>.

(** ** Reachable states *)

(** The handle of a close is not that of a socket of another application.
    Nothing in the code ensures it, see [close_by_other_application]. *)
Definition own_close (st : homa_ctl) (tctx : homa_thread) (msg : homa_cmd) : Prop :=
  forall opaque fd p s, msg = Homa_close opaque fd -> hk_sockets st !! p = Some s -> hs_opaque s = opaque ->
    th_app (hs_tctx s) = th_app tctx.

(** The commands of the applications, their exits, and the rest of the
    microkernel taking ports from the pool and returning those it took; the
    ports it has are the second index. *)
Inductive homa_ctl_reach : homa_ctl -> gset Z -> Prop :=
| hr_start : homa_ctl_reach homa_ctl_init ∅
| hr_cmd st o tctx msg : homa_ctl_reach st o -> own_close st tctx msg ->
    homa_ctl_reach (process_homa_cmd tctx msg st) o
| hr_exit st o app : homa_ctl_reach st o -> homa_ctl_reach (homa_free_app_resources app st) o
| hr_alloc_at st o p pool : homa_ctl_reach st o -> alloc_port_at p (hk_pool st) = (0, pool) ->
    homa_ctl_reach (st <| hk_pool := pool |>) ({[p]} ∪ o)
| hr_alloc st o p pool : homa_ctl_reach st o -> alloc_port (hk_pool st) = Some (p, pool) ->
    p <> -1 -> homa_ctl_reach (st <| hk_pool := pool |>) ({[p]} ∪ o)
| hr_free st o p r pool : homa_ctl_reach st o -> p ∈ o -> free_port p (hk_pool st) = (r, pool) ->
    homa_ctl_reach (st <| hk_pool := pool |>) (o ∖ {[p]}).

Record homa_ctl_inv (st : homa_ctl) (o : gset Z) : Prop := {
  hi_pool : pool_inv (hk_pool st) (dom (hk_sockets st) ∪ o);
  hi_other : dom (hk_sockets st) ## o;
  hi_port : forall p s, hk_sockets st !! p = Some s -> hs_local_port s = p;
  hi_handle : forall p q s t, hk_sockets st !! p = Some s -> hk_sockets st !! q = Some t ->
    hs_opaque s = hs_opaque t -> p = q;
  hi_tbl : hk_tbl st = (fun s => target_xsk (hs_tctx s)) <$> hk_sockets st;
  hi_apps : forall a p, p ∈ app_ports (app_rules a st) <->
    exists s, hk_sockets st !! p = Some s /\ th_app (hs_tctx s) = a
}.

(** The invariant does not speak of the messages. *)
Lemma homa_ctl_inv_ext st st' o :
  homa_ctl_inv st o -> hk_sockets st' = hk_sockets st -> hk_pool st' = hk_pool st ->
  hk_tbl st' = hk_tbl st -> hk_apps st' = hk_apps st -> homa_ctl_inv st' o.
Proof. intros [H1 H2 H3 H4 H5 H6] E1 E2 E3 E4. split; unfold app_rules; rewrite ?E1, ?E2, ?E3, ?E4; done. Qed.

(** ** The ports of an application *)

Lemma app_ports_insert a b r st :
  app_ports (app_rules b (st <| hk_apps ::= <[a := r]> |>)) =
  if decide (a = b) then app_ports r else app_ports (app_rules b st).
Proof.
  unfold app_rules. cbn. case_decide as H; [subst b; by rewrite lookup_insert_eq|by rewrite lookup_insert_ne].
Qed.

Lemma app_ports_record a b p st :
  app_ports (app_rules b (homa_record_port a p st)) =
  if decide (a = b) then {[p]} ∪ app_ports (app_rules b st) else app_ports (app_rules b st).
Proof. unfold homa_record_port. rewrite app_ports_insert. by case_decide; subst. Qed.

Lemma app_ports_unrecord a b p st :
  app_ports (app_rules b (homa_unrecord_port a p st)) =
  if decide (a = b) then app_ports (app_rules b st) ∖ {[p]} else app_ports (app_rules b st).
Proof. unfold homa_unrecord_port. rewrite app_ports_insert. by case_decide; subst. Qed.

Lemma app_rules_ext a st st' : hk_apps st' = hk_apps st -> app_rules a st' = app_rules a st.
Proof. unfold app_rules. by intros ->. Qed.

Lemma find_some opaque st p s :
  find_homa_socket_slowpath opaque st = Some (p, s) -> hk_sockets st !! p = Some s /\ hs_opaque s = opaque.
Proof.
  intros [Hin He]%List.find_some. apply list_elem_of_In, elem_of_map_to_list in Hin.
  split; [done|by apply Z.eqb_eq].
Qed.

Lemma find_none opaque st :
  find_homa_socket_slowpath opaque st = None <->
  forall p s, hk_sockets st !! p = Some s -> hs_opaque s <> opaque.
Proof.
  unfold find_homa_socket_slowpath. split.
  - intros H p s Hs. apply Z.eqb_neq. apply (List.find_none _ _ H (p, s)).
    by apply list_elem_of_In, elem_of_map_to_list.
  - intros H. destruct (List.find _ _) as [[p s]|] eqn:E; [|done].
    apply find_some in E as [Hs He]. by destruct (H p s).
Qed.

(** ** A socket is added or removed *)

Lemma free_socket_inv st o p s app :
  homa_ctl_inv st o -> hk_sockets st !! p = Some s -> th_app (hs_tctx s) = app ->
  homa_ctl_inv (homa_free_port (hs_local_port s) (homa_unrecord_port app (hs_local_port s)
    (unreg_homa_socket_ebpf (hs_local_port s) (unreg_homa_socket_slowpath p st)))) o.
Proof.
  intros [H1 H2 H3 H4 H5 H6] Hs Happ. rewrite (H3 _ _ Hs).
  assert (Hp : p ∈ dom (hk_sockets st)) by (apply elem_of_dom; eauto).
  destruct (free_port p (hk_pool st)) as [r pool] eqn:E.
  destruct (pool_inv_free _ _ _ _ _ H1 E) as [Hi _].
  split; cbn; rewrite ?dom_delete_L, ?E; cbn.
  - by replace (dom (hk_sockets st) ∖ {[p]} ∪ o) with ((dom (hk_sockets st) ∪ o) ∖ {[p]}) by set_solver.
  - set_solver.
  - intros q t [_ Hq]%lookup_delete_Some. by apply H3.
  - intros q q' t t' [_ Hq]%lookup_delete_Some [_ Hq']%lookup_delete_Some. eauto.
  - by rewrite H5, fmap_delete.
  - intros a q. setoid_rewrite lookup_delete_Some.
    rewrite (app_rules_ext a (homa_unrecord_port app p st)) by done.
    rewrite app_ports_unrecord. case_decide as Ha; rewrite ?elem_of_difference, ?elem_of_singleton, H6; naive_solver.
Qed.

Lemma size_tbl st o : homa_ctl_inv st o -> size (hk_tbl st) = size (hk_sockets st).
Proof. intros H. rewrite (hi_tbl _ _ H). apply map_size_fmap. Qed.

(** A bind that finds the table full gives the port back. *)
Lemma bind_undone st st' o port pool app :
  homa_ctl_inv st o -> alloc_port_at port (hk_pool st) = (0, pool) ->
  hk_sockets st' = hk_sockets st -> hk_pool st' = pool -> hk_tbl st' = hk_tbl st ->
  hk_apps st' = hk_apps (homa_record_port app port st) ->
  homa_ctl_inv (homa_free_port port (homa_unrecord_port app port st')) o.
Proof.
  intros [H1 H2 H3 H4 H5 H6] Ea E1 E2 E3 E4. destruct (pool_inv_at _ _ _ _ H1 Ea) as [Hn Hp].
  destruct (free_port port pool) as [r pool'] eqn:E.
  destruct (pool_inv_free _ _ _ _ _ Hp E) as [Hi _].
  split; cbn; rewrite ?E1, ?E2, ?E3, ?E; try done; cbn.
  - by replace (dom (hk_sockets st) ∪ o) with (({[port]} ∪ (dom (hk_sockets st) ∪ o)) ∖ {[port]}) by set_solver.
  - intros a q. rewrite (app_rules_ext a (homa_unrecord_port app port st')), app_ports_unrecord by done.
    rewrite (app_rules_ext a _ _ E4), app_ports_record, <- H6. case_decide; [|done].
    assert (q ∈ app_ports (app_rules a st) -> q <> port); [|set_solver].
    intros (s & Hs & _)%H6 ->. apply Hn, elem_of_union_l, elem_of_dom. by exists s.
Qed.

(** A bind that succeeds adds its socket to both tables. *)
Lemma bind_done st st' o port pool s :
  homa_ctl_inv st o -> alloc_port_at port (hk_pool st) = (0, pool) ->
  find_homa_socket_slowpath (hs_opaque s) st = None -> hs_local_port s = port ->
  hk_sockets st' = <[port := s]> (hk_sockets st) -> hk_pool st' = pool ->
  hk_tbl st' = <[port := target_xsk (hs_tctx s)]> (hk_tbl st) ->
  hk_apps st' = hk_apps (homa_record_port (th_app (hs_tctx s)) port st) -> homa_ctl_inv st' o.
Proof.
  intros [H1 H2 H3 H4 H5 H6] Ea Hf Hport E1 E2 E3 E4. destruct (pool_inv_at _ _ _ _ H1 Ea) as [Hn Hp].
  pose proof (proj1 (find_none _ _) Hf) as Hnone.
  assert (Hnew : hk_sockets st !! port = None) by (apply not_elem_of_dom; set_solver).
  split; rewrite ?E1, ?E2, ?E3, ?dom_insert_L.
  - by rewrite <- union_assoc_L.
  - set_solver.
  - intros p t [[<- <-]|[_ Ht]]%lookup_insert_Some; eauto.
  - intros p q t u [[<- <-]|[_ Ht]]%lookup_insert_Some [[<- <-]|[_ Hu]]%lookup_insert_Some Ho; eauto.
    + by destruct (Hnone q u).
    + by destruct (Hnone p t).
  - by rewrite H5, fmap_insert.
  - intros a q. rewrite (app_rules_ext a _ _ E4), app_ports_record. setoid_rewrite lookup_insert_Some.
    case_decide as Ha; rewrite ?elem_of_union, ?elem_of_singleton, H6; naive_solver.
Qed.

(** What a bind does: its conditions in the order of the code. *)
Lemma homa_bind_cases st o tctx opaque fd port (Hi : homa_ctl_inv st o) :
  let '(r, st') := homa_bind tctx opaque fd port st in
  homa_ctl_inv st' o /\
  (((exists p s, hk_sockets st !! p = Some s /\ hs_opaque s = opaque) \/ port_in_range port = false \/
    port ∈ dom (hk_sockets st) ∪ o \/ (MAX_SERVER_PORT <= size (hk_sockets st))%nat) /\
   r <> 0 /\ hk_sockets st' = hk_sockets st /\ hk_out st' = hk_out st
   \/
   find_homa_socket_slowpath opaque st = None /\ port_in_range port = true /\
   port ∉ dom (hk_sockets st) ∪ o /\ (size (hk_sockets st) < MAX_SERVER_PORT)%nat /\ r = 0 /\
   hk_sockets st' = <[port := mk_homa_socket tctx opaque fd nic_local_ip port]> (hk_sockets st) /\
   hk_out st' = hk_out st ++ [(tctx, Status_bind opaque fd 0)]).
Proof.
  unfold homa_bind. destruct (find_homa_socket_slowpath opaque st) as [[p s]|] eqn:Ef.
  { split; [done|]. left. apply find_some in Ef. unfold EADDRINUSE. split_and!; eauto. }
  pose proof (alloc_port_at_ok _ _ port (hi_pool _ _ Hi)) as Hok.
  destruct (alloc_port_at port (hk_pool st)) as [r pool] eqn:Ea. cbn [fst] in Hok.
  unfold nz. destruct (Z.eqb_spec r 0) as [->|Hr]; cbn [negb].
  2: { assert (pool = hk_pool st) as -> by
         (revert Ea Hr; unfold alloc_port_at; repeat case_match; naive_solver).
       split; [by apply (homa_ctl_inv_ext st)|]. left. unfold EADDRINUSE. split_and!; try done.
       destruct (port_in_range port); [|auto]. right. right. left. destruct (decide (port ∈ dom (hk_sockets st) ∪ o)); tauto. }
  destruct (proj1 Hok eq_refl) as [Hrange Hfree].
  assert (Hs : hk_sockets st !! port = None) by (apply not_elem_of_dom; set_solver).
  assert (Ht : hk_tbl st !! port = None) by (by rewrite (hi_tbl _ _ Hi), lookup_fmap, Hs).
  unfold reg_homa_socket_ebpf, homa_record_port, upd_field, setter_of. cbn [hk_tbl].
  rewrite (bool_decide_eq_true_2 _ Ht), (size_tbl _ _ Hi). cbn [andb].
  destruct (Nat.leb_spec MAX_SERVER_PORT (size (hk_sockets st))) as [Hfull|Hroom]; cbn [Z.eqb negb].
  - split; [by apply (bind_undone st _ o port pool (th_app tctx))|]. left. cbn. auto 10.
  - unfold reg_homa_socket_slowpath, notify_app_homa, upd_field, setter_of. cbn. rewrite Hs.
    split; [|by right]. by eapply (bind_done st _ o port pool (mk_homa_socket tctx opaque fd nic_local_ip port)).
Qed.

Lemma homa_close_inv st o tctx opaque fd :
  homa_ctl_inv st o -> own_close st tctx (Homa_close opaque fd) -> homa_ctl_inv (homa_close tctx opaque st).2 o.
Proof.
  intros Hi Hown. unfold homa_close. destruct (find_homa_socket_slowpath opaque st) as [[p s]|] eqn:E; [|done].
  apply find_some in E as [Hs Ho]. pose proof (Hown opaque fd p s eq_refl Hs Ho). eapply homa_ctl_inv_ext; [by apply (free_socket_inv st o p s (th_app tctx))|done..].
Qed.

Lemma process_homa_cmd_inv st o tctx msg :
  homa_ctl_inv st o -> own_close st tctx msg -> homa_ctl_inv (process_homa_cmd tctx msg st) o.
Proof.
  intros Hi Hown. destruct msg as [opaque fd ip port|opaque fd|cmd]; cbn [process_homa_cmd]; [| |done].
  - pose proof (homa_bind_cases st o tctx opaque fd port Hi) as H.
    destruct (homa_bind tctx opaque fd port st) as [r st']. destruct H as [H _].
    destruct (nz r); [by eapply homa_ctl_inv_ext|done].
  - pose proof (homa_close_inv st o tctx opaque fd Hi Hown) as H.
    destruct (homa_close tctx opaque st) as [r st']. destruct (nz r); [by eapply homa_ctl_inv_ext|done].
Qed.

(** ** The exit of an application *)

Definition not_of (app : Z) (e : Z * homa_socket) : Prop := th_app (hs_tctx e.2) <> app.

(** The loop over the entries [l], which are in the table: those of the
    application go, the others stay. *)
Lemma free_homa_loop app l st o :
  homa_ctl_inv st o -> NoDup l.*1 -> (forall p s, (p, s) ∈ l -> hk_sockets st !! p = Some s) ->
  let st' := foldl (free_homa_socket app) st l in
  homa_ctl_inv st' o /\
  forall p s, hk_sockets st' !! p = Some s <->
    hk_sockets st !! p = Some s /\ ((p, s) ∈ l -> not_of app (p, s)).
Proof.
  revert st. induction l as [|[q t] l IH]; intros st Hi Hn Hl; cbn [foldl].
  { split; [done|]. intros p s. split; [|tauto]. intros H. split; [done|]. by intros ?%not_elem_of_nil. }
  cbn in Hn. apply list.NoDup_cons in Hn as [Hq Hn].
  assert (Ht : hk_sockets st !! q = Some t) by (apply Hl; constructor).
  assert (Hrest : forall p s, (p, s) ∈ l -> p <> q /\ hk_sockets st !! p = Some s).
  { intros p s Hp. split; [intros ->; apply Hq, list_elem_of_fmap; by exists (q, s)|].
    apply Hl. by constructor. }
  unfold free_homa_socket at 2 4. destruct (Z.eqb_spec (th_app (hs_tctx t)) app) as [Ha|Ha].
  - edestruct (IH _ (free_socket_inv st o q t app Hi Ht Ha) Hn) as [Hi' Hs].
    { intros p s [Hne Hp]%Hrest. cbn. by rewrite lookup_delete_ne by congruence. }
    split; [exact Hi'|]. intros p s. rewrite Hs. cbn. rewrite lookup_delete_Some, elem_of_cons.
    unfold not_of. cbn. naive_solver.
  - edestruct (IH _ Hi Hn) as [Hi' Hs]; [by intros p s [_ Hp]%Hrest|].
    split; [exact Hi'|]. intros p s. rewrite Hs, elem_of_cons. unfold not_of. cbn. naive_solver.
Qed.

Lemma free_homa_resources_spec app st o :
  homa_ctl_inv st o ->
  homa_ctl_inv (free_homa_resources app st) o /\
  forall p s, hk_sockets (free_homa_resources app st) !! p = Some s <->
    hk_sockets st !! p = Some s /\ th_app (hs_tctx s) <> app.
Proof.
  intros Hi. unfold free_homa_resources.
  destruct (free_homa_loop app (map_to_list (hk_sockets st)) st o Hi) as [Hi' Hs].
  - apply NoDup_fst_map_to_list.
  - intros p s. by rewrite elem_of_map_to_list.
  - split; [done|]. intros p s. rewrite Hs, elem_of_map_to_list. unfold not_of. cbn. tauto.
Qed.

(** When its sockets are closed no port of the application is recorded. *)
Lemma homa_exit_spec app st o :
  homa_ctl_inv st o ->
  homa_ctl_inv (homa_free_app_resources app st) o /\
  forall p s, hk_sockets (homa_free_app_resources app st) !! p = Some s <->
    hk_sockets st !! p = Some s /\ th_app (hs_tctx s) <> app.
Proof.
  intros Hi. destruct (free_homa_resources_spec app st o Hi) as [Hi' Hs]. unfold homa_free_app_resources.
  set (st1 := free_homa_resources app st) in *.
  assert (Hnil : app_ports (app_rules app st1) = ∅).
  { apply set_eq. intros p. rewrite (hi_apps _ _ Hi'). setoid_rewrite Hs. set_solver. }
  rewrite Hnil, elements_empty. cbn [merge_sort foldl]. split; [|done].
  destruct Hi' as [H1 H2 H3 H4 H5 H6]. split; try done. intros a p. cbn. rewrite <- H6. unfold app_rules. cbn.
  destruct (decide (a = app)) as [->|Hne]; [|by rewrite lookup_delete_ne].
  rewrite lookup_delete_eq. fold (app_rules app st1). rewrite Hnil. done.
Qed.

Lemma homa_ctl_reach_inv st o : homa_ctl_reach st o -> homa_ctl_inv st o.
Proof.
  induction 1 as [|st o tctx msg _ IH Hown|st o app _ IH|st o p pool _ IH E|st o p pool _ IH E Hp
                 |st o p r pool _ IH Hp E].
  - split; cbn [homa_ctl_init hk_sockets hk_pool hk_tbl].
    + rewrite dom_empty_L, union_empty_l_L. apply pool_inv_start.
    + set_solver.
    + intros p s Hs. by rewrite lookup_empty in Hs.
    + intros p q s t Hs. by rewrite lookup_empty in Hs.
    + by rewrite fmap_empty.
    + intros a p. unfold app_rules. cbn [hk_apps]. rewrite lookup_empty. cbn.
      setoid_rewrite lookup_empty. set_solver.
  - by apply process_homa_cmd_inv.
  - by apply homa_exit_spec.
  - destruct IH as [H1 H2 H3 H4 H5 H6]. destruct (pool_inv_at _ _ _ _ H1 E) as [Hn Hi].
    split; try done; cbn; [|set_solver].
    by replace (dom (hk_sockets st) ∪ ({[p]} ∪ o)) with ({[p]} ∪ (dom (hk_sockets st) ∪ o)) by set_solver.
  - destruct IH as [H1 H2 H3 H4 H5 H6]. pose proof (pool_inv_any _ _ H1) as H. rewrite E in H.
    destruct H as [[? _]|(_ & Hn & Hi)]; [done|]. split; try done; cbn; [|set_solver].
    by replace (dom (hk_sockets st) ∪ ({[p]} ∪ o)) with ({[p]} ∪ (dom (hk_sockets st) ∪ o)) by set_solver.
  - destruct IH as [H1 H2 H3 H4 H5 H6]. destruct (pool_inv_free _ _ _ _ _ H1 E) as [Hi _].
    split; try done; cbn; [|set_solver].
    by replace (dom (hk_sockets st) ∪ o ∖ {[p]}) with ((dom (hk_sockets st) ∪ o) ∖ {[p]}) by set_solver.
Qed.

(** ** What each call does *)

Lemma pool_free_iff st o p :
  homa_ctl_inv st o -> port_free (hk_pool st) p = true <-> port_in_range p = true /\ p ∉ dom (hk_sockets st) ∪ o.
Proof.
  intros [[_ Hf Hr Hd] _ _ _ _ _]. rewrite <- Hf. split.
  - intros H. split; [apply Hr; by left|by apply Hd].
  - intros [H Hn]. apply Hr in H. tauto.
Qed.

Lemma bound_port st o p s :
  homa_ctl_inv st o -> hk_sockets st !! p = Some s ->
  hs_local_port s = p /\ port_in_range p = true /\ port_free (hk_pool st) p = false /\ p ∉ o.
Proof.
  intros Hi Hs. assert (Hp : p ∈ dom (hk_sockets st)) by (apply elem_of_dom; eauto).
  split_and!.
  - by apply (hi_port _ _ Hi).
  - apply (pi_range _ _ (hi_pool _ _ Hi)). set_solver.
  - apply not_true_iff_false. rewrite (pool_free_iff _ _ _ Hi). set_solver.
  - pose proof (hi_other _ _ Hi). set_solver.
Qed.

Lemma bind_outcome st o tctx opaque fd port :
  homa_ctl_inv st o -> let '(r, st') := homa_bind tctx opaque fd port st in
  (r = 0 <-> (forall p s, hk_sockets st !! p = Some s -> hs_opaque s <> opaque) /\
             port_in_range port = true /\ port_free (hk_pool st) port = true /\
             (size (hk_sockets st) < 64)%nat) /\
  hk_sockets st' =
    if decide (r = 0) then <[port := mk_homa_socket tctx opaque fd nic_local_ip port]> (hk_sockets st)
    else hk_sockets st.
Proof.
  intros Hi. pose proof (homa_bind_cases st o tctx opaque fd port Hi) as H.
  destruct (homa_bind tctx opaque fd port st) as [r st'].
  destruct H as [_ [(Hc & Hr & -> & _)|(Hf & Hrange & Hfree & Hroom & -> & -> & _)]];
    rewrite (pool_free_iff _ _ _ Hi).
  - rewrite decide_False by done. split; [|done]. split; [done|]. intros (Hu & Hrg & (_ & Hn) & Hsz).
    exfalso. destruct Hc as [(p & s & Hs & Ho)|[Hc|[Hc|Hc]]]; [by destruct (Hu p s)|congruence|done|].
    unfold MAX_SERVER_PORT in Hc. lia.
  - rewrite decide_True by done. split; [|done]. split; [|done]. intros _. by pose proof (proj1 (find_none _ _) Hf).
Qed.

Lemma close_outcome st o tctx opaque :
  homa_ctl_inv st o -> let '(r, st') := homa_close tctx opaque st in
  (r = 0 <-> exists p s, hk_sockets st !! p = Some s /\ hs_opaque s = opaque) /\
  (r <> 0 -> st' = st) /\
  (forall p s, hk_sockets st !! p = Some s -> hs_opaque s = opaque ->
     hk_sockets st' = delete p (hk_sockets st) /\ hk_tbl st' = delete p (hk_tbl st) /\
     port_free (hk_pool st') p = true).
Proof.
  intros Hi. unfold homa_close.
  destruct (find_homa_socket_slowpath opaque st) as [[q t]|] eqn:E.
  - apply find_some in E as [Ht Ho]. split_and!; [naive_solver|done|]. intros p s Hs Hos.
    assert (p = q) as -> by (apply (hi_handle _ _ Hi p q s t Hs Ht); congruence).
    pose proof (free_socket_inv st o q t _ Hi Ht eq_refl) as Hi'.
    destruct (bound_port st o q t Hi Ht) as (Hport & Hrg & _ & Hno). cbn. rewrite Hport.
    split_and!; [done|done|]. rewrite Hport in Hi'. apply (pool_free_iff _ _ _ Hi').
    split; [done|]. cbn. rewrite dom_delete_L. set_solver.
  - pose proof (proj1 (find_none _ _) E) as Hn. split_and!; [|done|by intros p s Hs ?%(Hn p s Hs)].
    unfold ENOENT. split; [done|]. intros (p & s & Hs & ?%(Hn p s Hs)). done.
Qed.

Lemma exit_outcome st o app p s :
  homa_ctl_inv st o -> hk_sockets st !! p = Some s -> th_app (hs_tctx s) = app ->
  port_free (hk_pool (homa_free_app_resources app st)) p = true.
Proof.
  intros Hi Hs Ha. destruct (homa_exit_spec app st o Hi) as [Hi' Hx]. apply (pool_free_iff _ _ _ Hi').
  destruct (bound_port st o p s Hi Hs) as (_ & Hrg & _ & Hno). split; [done|].
  assert (p ∉ dom (hk_sockets (homa_free_app_resources app st))); [|set_solver].
  intros (t & [Ht Hne]%Hx)%elem_of_dom. congruence.
Qed.


End homa_ctl.

(** ** Runs *)

Definition wit_nic_qid (_ : Z) : list Z := [2; 3].
Definition wit_xsk_key (t : homa_thread) : list Z := [10 * th_index t; 10 * th_index t + 1].
Definition wit_thread : homa_thread := mk_homa_thread 7 4.

(** Every port of the range is free at the start. *)
Lemma start_port_free p : port_in_range p = true -> port_free ctx_init_ports p = true.
Proof.
  intros H. destruct pool_inv_start as [_ Hf Hr _]. apply Hf. apply Hr in H as [H|H]; [exact H|].
  by apply not_elem_of_empty in H.
Qed.

Definition wit_bind : Z * homa_ctl := homa_bind wit_nic_qid wit_xsk_key 1 wit_thread 100 5 4000 homa_ctl_init.


(** Handles are addresses in the application that sent them, and the lookup
    compares nothing else: a thread of application 8 that closes the handle 100
    closes the socket of application 7 that has the same address, and the port
    stays in the list of application 7. *)
Lemma close_by_other_application pool rules :
  let st := mk_homa_ctl {[4000 := mk_homa_socket wit_thread 100 5 1 4000]} pool
              {[7 := mk_port_rules ∅ ∅ {[4000]} rules]} {[4000 := fun _ => 40]} [] in
  let '(r, st') := homa_close (mk_homa_thread 8 0) 100 st in
  r = 0 /\ hk_sockets st' = ∅ /\ hk_tbl st' !! 4000 = None /\
  app_ports (app_rules 7 st') = {[4000]} /\
  hk_out st' = [(mk_homa_thread 8 0, Status_close 100 5 0)].
Proof.
  cbn zeta. unfold homa_close.
  replace (find_homa_socket_slowpath 100 _) with (Some (4000, mk_homa_socket wit_thread 100 5 1 4000))
    by reflexivity.
  split_and!; reflexivity.
Qed.

(** When the port is bound again, by application 9, the exit of application 7
    returns it to the pool, and it is bound and free at the same time. *)
Lemma exit_frees_bound_port :
  let pool := mk_port_pool [4001] {[4000 := false; 4001 := true]} in
  let st0 := mk_homa_ctl {[4000 := mk_homa_socket wit_thread 100 5 1 4000]} pool
               {[7 := mk_port_rules ∅ ∅ {[4000]} []]} {[4000 := fun _ => 40]} [] in
  let st1 := process_homa_cmd wit_nic_qid wit_xsk_key 1 (mk_homa_thread 8 0) (Homa_close 100 6) st0 in
  let st2 := process_homa_cmd wit_nic_qid wit_xsk_key 1 (mk_homa_thread 9 0) (Homa_bind 200 5 0 4000) st1 in
  let st3 := homa_free_app_resources 7 st2 in
  hk_sockets st3 = {[4000 := mk_homa_socket (mk_homa_thread 9 0) 200 5 1 4000]} /\
  port_free (hk_pool st2) 4000 = false /\ port_free (hk_pool st3) 4000 = true.
Proof. split_and!; vm_compute; reflexivity. Qed.
