(* ===== verification/HomaGrant.v ===== *)
(** The programs that grant ([xdp_gen_prog], [choose_rpc_to_grant_prog] and
    [complete_grant_1_prog] to [complete_grant_8_prog] of [eBPF/homa/main.c],
    [grant_prio_rpc] of [eBPF/homa/rpc.h]) on one CPU.  The kernel runs
    [xdp_gen_prog] on empty frames until it returns [XDP_ABORTED]: one run
    chooses up to eight RPCs, each of the next ones sends the GRANT of one.

    The eight copies of a block in [choose_rpc_to_grant_prog] and the eight
    programs that complete a choice differ in an index, which is an argument
    here.  The programs of a chain of tail calls run under the lock
    [grantable_lock]; they are one step.  A second reference to an object that
    is owned can be had ([bpf_refcount_acquire]); the link-layer addresses that
    [fib_lookup] writes are those of [Xdp]. *)
From stdpp Require Import gmap.
From S2P Require Import Prelude Intf Headers HomaDefs HomaRpc HomaRecv HomaXdp.
Local Open Scope Z_scope.

Definition HOMA_GRANT_HEADER_CUTOFF : Z := 128 - 34 - L2L3.

(** ** State *)

(** One index of [struct remove_info]. *)
Record remove_entry := mk_remove_entry {
  ri_rpcid : Z;
  ri_local_port : Z;
  ri_remote_port : Z;
  ri_remote_ip : Z;
  ri_newgrant : Z;
  ri_priority : Z
}.

#[export] Instance eta_remove_entry : Eta remove_entry := fun r => mk_remove_entry
  (ri_rpcid r) (ri_local_port r) (ri_remote_port r) (ri_remote_ip r) (ri_newgrant r) (ri_priority r).

Definition zero_entry : remove_entry := mk_remove_entry 0 0 0 0 0 0.

(** The variables of a CPU. *)
Record grant_cpu := mk_grant_cpu {
  gc_finish_choose : Z;
  gc_granting_idx : Z;
  gc_need_fifo : Z;
  gc_candidate : nat;
  gc_ready : Z;
  gc_remove : list bool;
  gc_ri : list remove_entry
}.

#[export] Instance eta_grant_cpu : Eta grant_cpu := fun r => mk_grant_cpu
  (gc_finish_choose r) (gc_granting_idx r) (gc_need_fifo r) (gc_candidate r) (gc_ready r) (gc_remove r)
  (gc_ri r).

(** The maps of all CPUs, [grant_nonfifo_left] and this CPU. *)
Record grant_world := mk_grant_world {
  gw_homa : homa;
  gw_nonfifo_left : Z;
  gw_cpu : grant_cpu
}.

#[export] Instance eta_grant_world : Eta grant_world := fun r => mk_grant_world
  (gw_homa r) (gw_nonfifo_left r) (gw_cpu r).

(** The CPU, whether [grantable_lock] is free, whether each tail call is made,
    and the outcomes of [bpf_xdp_adjust_tail] and [fib_lookup]. *)
Record gen_env := mk_gen_env {
  ge_cpu : Z;
  ge_lock : bool;
  ge_tail_call : nat -> bool;
  ge_adjust_tail : bool;
  ge_fib : bool
}.

Section Grant.
Variables lower_bound search_less : tree_search.
Variable local_ip : Z.

(** ** The choice *)

(** The local variables of [choose_rpc_to_grant_prog]. *)
Record choose_st := mk_choose_st {
  cs_homa : homa;
  cs_min_last : Z;
  cs_next_peer : Z;
  cs_total_increment : Z;
  cs_nr_rpc : nat;
  cs_cpu : grant_cpu
}.

(** An RPC granted to its end leaves Tree1, and the node that a search by its
    key finds leaves the tree too. *)
Definition remove_granted (n : nat) (w : homa) : homa :=
  match bpf_rbtree_remove n (h_groot w) with
  | None => w
  | Some t =>
    let w := set_node n ((node w n) <| n_tree_id := 0 |>) (w <| h_groot := t |>) in
    match find_node lower_bound srpt_less_rpc w (h_groot w) (node w n) with
    | None => w
    | Some m =>
      match bpf_rbtree_remove m (h_groot w) with
      | None => w
      | Some t => w <| h_groot := t |>
      end
    end
  end.

(** How far to grant: the window behind the received bytes, within the message
    and what is available; [None] when nothing is granted. *)
Definition new_grant (c : rpc_state_cc) (total_incoming : Z) : option (Z * Z) :=
  let new_grant := u32 (n_message_length c - n_bytes_remaining c + Homa_grant_window) in
  let new_grant := if new_grant >? n_message_length c then n_message_length c else new_grant in
  let available := s32 (Homa_max_incoming - total_incoming) in
  let increment := u32 (new_grant - n_incoming c) in
  if (increment >? 0) && (available >? 0) then
    if increment >? available then Some (available, u32 (n_incoming c + available))
    else Some (increment, new_grant)
  else None.

(** Block [i]; [None] is the jump to [out]. *)
Definition choose_one (i : nat) (st : choose_st) : option choose_st :=
  let w := cs_homa st in
  let key := mk_rpc_state_cc (cs_min_last st) 1 (cs_next_peer st) 0 zero_key 0 0 in
  match find_node lower_bound srpt_less_peer w (h_groot w) key with
  | None => None
  | Some n =>
    let c := node w n in
    let k := n_hkey c in
    let gc := (cs_cpu st) <| gc_ri ::= alter (fun e =>
                mk_remove_entry (rk_rpcid k) (rk_local_port k) (rk_remote_port k) (rk_remote_ip k)
                  (ri_newgrant e) (ri_priority e)) i |> in
    let next_peer := u16 (get_peerid (rk_remote_ip k) + 1) in
    let nr_rpc := S (cs_nr_rpc st) in
    match new_grant c (h_total_incoming w) with
    | None => Some (mk_choose_st w (n_bytes_remaining c) next_peer (cs_total_increment st) nr_rpc gc)
    | Some (increment, grant) =>
      let w := set_node n (c <| n_incoming := grant |>) w in
      let all := grant >=? n_message_length c in
      let w := if all then remove_granted n w else w in
      let gc := gc <| gc_remove ::= <[i := all]> |>
                   <| gc_ri ::= alter (fun e => e <| ri_newgrant := grant |>) i |> in
      Some (mk_choose_st w (n_bytes_remaining c) next_peer (u32 (cs_total_increment st + increment)) nr_rpc gc)
    end
  end.

Fixpoint choose_loop (l : list nat) (st : choose_st) : choose_st :=
  match l with
  | [] => st
  | i :: l => match choose_one i st with Some st => choose_loop l st | None => st end
  end.

(** The first loop over the priorities: the entries and [actual_rpc]. *)
Fixpoint assign_prio (nr_rpc : nat) (prio_idx : Z) (ri : list remove_entry) : list remove_entry * Z :=
  match nr_rpc, ri with
  | S nr_rpc, e :: ri =>
    if nz (ri_newgrant e) then
      let '(ri, actual_rpc) := assign_prio nr_rpc (prio_idx + 1) ri in
      (e <| ri_priority := Z.max 0 (HOMA_MAX_SCHED_PRIO - prio_idx) |> :: ri, actual_rpc)
    else let '(ri, actual_rpc) := assign_prio nr_rpc prio_idx ri in (e :: ri, actual_rpc)
  | _, _ => (ri, prio_idx)
  end.

(** The second. *)
Fixpoint lower_prio (nr_rpc : nat) (extra_levels : Z) (ri : list remove_entry) : list remove_entry :=
  match nr_rpc, ri with
  | S nr_rpc, e :: ri =>
    let priority := ri_priority e - extra_levels in
    (if nz (ri_newgrant e) && nz priority then e <| ri_priority := u8 priority |> else e)
    :: lower_prio nr_rpc extra_levels ri
  | _, _ => ri
  end.

Definition finish (st : grant_world) : xdp_action * grant_world :=
  if gc_ready (gw_cpu st) >? 0
  then (XDP_DROP, st <| gw_cpu ::= fun gc => gc <| gc_finish_choose := 1 |> |>)
  else (XDP_ABORTED, st).

(** The shortest remaining RPC of the peer of index [i] takes the place in
    Tree1; [None] when there is no memory. *)
Definition replace_granted (i : nat) (gc : grant_cpu) (w : homa) : option homa * homa :=
  if default false (gc_remove gc !! i) then
    let peer_id := get_peerid (ri_remote_ip (default zero_entry (gc_ri gc !! i))) in
    match bpf_obj_new w with
    | (None, w) => (None, w)
    | (Some t1, w) =>
      match find_node lower_bound srpt_less_rpc w (h_groot w) (peer_key peer_id) with
      | None => (Some w, w)
      | Some t0 =>
        let c := node w t0 in
        if (n_tree_id c =? 0) && (n_peer_id c =? peer_id) && (Z.land (n_birth c) 1 =? 0)
        then let w := add_to_peer_tree t0 t1 w in (Some w, w)
        else (Some w, w)
      end
    end
  else (Some w, w).

(** [complete_grant_1_prog] to [complete_grant_8_prog]; [n] programs are left,
    the next one has index [i]. *)
Fixpoint complete_grant (e : gen_env) (n i : nat) (st : grant_world) : xdp_action * grant_world :=
  match n with
  | O => finish st
  | S n =>
    if (gc_candidate (gw_cpu st) <? S i)%nat then finish st else
    match replace_granted i (gw_cpu st) (gw_homa st) with
    | (None, w) => (XDP_ABORTED, st <| gw_homa := w |>)
    | (Some w, _) =>
      let st := st <| gw_homa := w |> in
      match n with
      | O => finish st
      | S _ => if ge_tail_call e (S (S i)) then complete_grant e n (S i) st else (XDP_ABORTED, st)
      end
    end
  end.

(** [choose_rpc_to_grant_prog] behind the lock of the tree: the priorities. *)
Definition choose_priorities (e : gen_env) (nr_rpc : nat) (st : grant_world) : xdp_action * grant_world :=
  if (nr_rpc =? 0)%nat then (XDP_ABORTED, st) else
  let gc := gw_cpu st in
  let '(ri, actual_rpc) := assign_prio nr_rpc 0 (gc_ri gc) in
  let gc := gc <| gc_candidate := nr_rpc |> <| gc_ready := actual_rpc |> <| gc_ri := ri |> in
  if actual_rpc =? 0 then (XDP_ABORTED, st <| gw_cpu := gc |>) else
  let extra_levels := HOMA_MAX_SCHED_PRIO + 1 - actual_rpc in
  let gc := if extra_levels >=? 0 then gc <| gc_ri ::= lower_prio nr_rpc extra_levels |> else gc in
  let st := st <| gw_cpu := gc |> in
  if ge_tail_call e 1 then complete_grant e 8 0 st else (XDP_ABORTED, st).

(** [choose_rpc_to_grant_prog] *)
Definition choose_rpc_to_grant (e : gen_env) (st : grant_world) : xdp_action * grant_world :=
  if negb (ge_lock e) then (XDP_ABORTED, st) else
  match bpf_obj_new (gw_homa st) with
  | (None, w) => (XDP_ABORTED, st <| gw_homa := w |>)
  | (Some _, w) =>
    let cs := choose_loop (seq 0 8) (mk_choose_st w 0 0 0 0 (gw_cpu st)) in
    let w := (cs_homa cs) <| h_total_incoming ::= fun x => u64 (x + cs_total_increment cs) |> in
    let left := s32 (gw_nonfifo_left st - cs_total_increment cs) in
    let fifo := left <=? 0 in
    let left := if fifo then s32 (left + grant_nonfifo) else left in
    let gc := if fifo then (cs_cpu cs) <| gc_need_fifo := 1 |> else cs_cpu cs in
    choose_priorities e (cs_nr_rpc cs) (mk_grant_world w left gc)
  end.

(** ** The packets *)

(** [grant_prio_rpc]; [None] is -1. *)
Definition grant_prio_rpc (idx : nat) (gc : grant_cpu) : option (ret_grant_info * grant_cpu) :=
  let e := default zero_entry (gc_ri gc !! idx) in
  if negb (nz (ri_newgrant e)) then None
  else Some (mk_ret_grant_info (ri_local_port e) (ri_remote_port e) (ri_rpcid e) (ri_newgrant e)
               (ri_remote_ip e) (ri_priority e),
             gc <| gc_ri ::= alter (fun e => e <| ri_newgrant := 0 |>) idx |>).

(** The frame of a GRANT: what the program does not write is as in the frame
    [p] it was given. *)
Definition fill_grant (gi : ret_grant_info) (p : hpkt) : hpkt :=
  let iph := hp_ip p in
  let iph := iph <| ip_saddr := bpf_htonl local_ip |> <| ip_daddr := bpf_htonl (gi_remote_ip gi) |>
                 <| ip_version := 4 |> <| ip_protocol := IPPROTO_HOMA |> <| ip_ihl := 5 |>
                 <| ip_tos := u8 (Z.shiftl (gi_priority gi) 5) |> <| ip_tot_len := bpf_htons (20 + 34) |>
                 <| ip_id := 0 |> <| ip_ttl := 64 |> <| ip_check := 0 |> in
  let c := (hp_common p) <| ch_type := GRANT |> <| ch_dport := bpf_htons (gi_dport gi) |>
             <| ch_sport := bpf_htons (gi_sport gi) |> <| ch_sender_id := bpf_cpu_to_be64 (gi_rpcid gi) |> in
  p <| hp_ip := iph |> <| hp_data ::= fun d => d <| d_common := c |> |>
    <| hp_grant := (bpf_htonl (gi_newgrant gi), gi_priority gi, 0) |>.

Definition XDP_GEN_RETURN_DROP (last_grant : bool) : xdp_action := if last_grant then XDP_ABORTED else XDP_DROP.

(** The label [reset], for the last GRANT of a round. *)
Definition reset (last_grant : bool) (st : grant_world) : grant_world :=
  if last_grant
  then st <| gw_cpu ::= fun gc => gc <| gc_granting_idx := 0 |> <| gc_candidate := O |>
                                     <| gc_finish_choose := 0 |> |>
  else st.

(** From the choice of an RPC on; [fifo] is [send_fifo_rpc]. *)
Definition send_grant (e : gen_env) (gi : ret_grant_info) (last_grant fifo : bool) (p : hpkt) (st : grant_world)
  : xdp_action * hpkt * grant_world :=
  if negb (ge_adjust_tail e) then (XDP_GEN_RETURN_DROP last_grant, p, st) else
  let p := p <| hp_len ::= fun n => n - HOMA_GRANT_HEADER_CUTOFF |> in
  if L2L3 + 34 >? hp_len p then (XDP_GEN_RETURN_DROP last_grant, p, st) else
  let p := fill_grant gi p in
  let st := reset last_grant st in
  if negb (ge_fib e) then (XDP_GEN_RETURN_DROP last_grant, p, st) else
  (XDP_TX, p, if fifo then st <| gw_cpu ::= fun gc => gc <| gc_need_fifo := 0 |> |> else st).

(** [granting_idx[cpu]++] *)
Definition next_idx (st : grant_world) : grant_world :=
  st <| gw_cpu ::= fun gc => gc <| gc_granting_idx := u64 (gc_granting_idx gc + 1) |> |>.

(** [xdp_gen_prog] *)
Definition xdp_gen_prog (e : gen_env) (p : hpkt) (st : grant_world) : xdp_action * hpkt * grant_world :=
  if ge_cpu e >=? MAX_CPU then (XDP_ABORTED, p, st) else
  if gc_finish_choose (gw_cpu st) =? 0 then
    let st := st <| gw_homa ::= update_grant_for_cached_rpc lower_bound (ge_cpu e) |> in
    if ge_tail_call e 0 then let '(a, st) := choose_rpc_to_grant e st in (a, p, st)
    else (XDP_ABORTED, p, st)
  else
    let st := next_idx st in
    let gc := gw_cpu st in
    if (gc_ready gc =? 0) && (gc_need_fifo gc =? 0) then (XDP_ABORTED, p, reset true st) else
    let count := Z.min (Z.of_nat (gc_candidate gc)) HOMA_OVERCOMMITMENT in
    let last_grant := gc_granting_idx gc =? (if gc_need_fifo gc =? 1 then count + 1 else count) in
    if (gc_need_fifo gc =? 1) && last_grant then
      match grant_fifo_rpc search_less (gw_homa st) with
      | (None, w) =>
        let st := st <| gw_homa := w |> <| gw_cpu ::= fun gc => gc <| gc_need_fifo := 0 |> |> in
        (XDP_GEN_RETURN_DROP last_grant, p, reset last_grant st)
      | (Some gi, w) => send_grant e gi last_grant true p (st <| gw_homa := w |>)
      end
    else
      match grant_prio_rpc (Z.to_nat (u64 (gc_granting_idx gc - 1) mod HOMA_OVERCOMMITMENT)) gc with
      | None => (XDP_GEN_RETURN_DROP last_grant, p, reset last_grant st)
      | Some (gi, gc) => send_grant e gi last_grant false p (st <| gw_cpu := gc |>)
      end.

(** ** A round *)

(** Calls of the kernel, each with the frame it provides. *)
Fixpoint gen_run (l : list (gen_env * hpkt)) (st : grant_world) : list (xdp_action * hpkt) * grant_world :=
  match l with
  | [] => ([], st)
  | (e, p) :: l =>
    let '(a, p, st) := xdp_gen_prog e p st in
    let '(out, st) := gen_run l st in ((a, p) :: out, st)
  end.

(** A call on a frame of [XDP_GEN_PKT_SIZE] bytes. *)
Definition call_ok (x : gen_env * hpkt) : Prop := ge_cpu x.1 < MAX_CPU /\ hp_len x.2 = 128.

Definition entry_gi (e : remove_entry) : ret_grant_info :=
  mk_ret_grant_info (ri_local_port e) (ri_remote_port e) (ri_rpcid e) (ri_newgrant e) (ri_remote_ip e)
    (ri_priority e).

(** The GRANT frame made of [p]. *)
Definition grant_of_frame (gi : ret_grant_info) (p : hpkt) : hpkt :=
  fill_grant gi (p <| hp_len ::= fun n => n - HOMA_GRANT_HEADER_CUTOFF |>).

(** The calls of a round. *)
Definition round_calls (gc : grant_cpu) : nat := gc_candidate gc + (if gc_need_fifo gc =? 1 then 1 else 0).

(** The frame [p] of a call leaves as the GRANT [gi] when it can be cut and
    routed, and is dropped otherwise. *)
Definition grant_out (e : gen_env) (gi : ret_grant_info) (last_grant : bool) (p : hpkt) : xdp_action * hpkt :=
  if ge_adjust_tail e then
    (if ge_fib e then XDP_TX else XDP_GEN_RETURN_DROP last_grant, grant_of_frame gi p)
  else (XDP_GEN_RETURN_DROP last_grant, p).

(** The RPC that the kernel's search by birth answers, if it answers one, and
    its grant: [GRANT_FIFO_INCREMENT] more bytes, but not past the end of the
    message. *)
Definition fifo_grant (w : homa) : option ret_grant_info :=
  match (bpf_obj_new w).1 with
  | None => None
  | Some _ =>
    (fun n => let c := node w n in
       mk_ret_grant_info (rk_local_port (n_hkey c)) (rk_remote_port (n_hkey c)) (rk_rpcid (n_hkey c))
         (Z.min (n_message_length c) (n_incoming c + GRANT_FIFO_INCREMENT)) (rk_remote_ip (n_hkey c))
         HOMA_MAX_SCHED_PRIO) <$>
    find_node search_less less_birth_grant w (h_groot w) (zero_node <| n_birth := POISON_64 |>)
  end.

(** What call [j] of the round that [st] begins returns. *)
Definition call_out (st : grant_world) (j : nat) (x : gen_env * hpkt) : xdp_action * hpkt :=
  let last_grant := (S j =? round_calls (gw_cpu st))%nat in
  if (j <? gc_candidate (gw_cpu st))%nat then
    let e := default zero_entry (gc_ri (gw_cpu st) !! j) in
    if nz (ri_newgrant e) then grant_out x.1 (entry_gi e) last_grant x.2
    else (XDP_GEN_RETURN_DROP last_grant, x.2)
  else
    match fifo_grant (gw_homa st) with
    | Some gi => grant_out x.1 gi last_grant x.2
    | None => (XDP_ABORTED, x.2)
    end.

(** The first [j] entries are sent. *)
Definition sent_entry (e : remove_entry) : remove_entry := e <| ri_newgrant := 0 |>.
Definition sent_entries (j : nat) (ri : list remove_entry) : list remove_entry :=
  map sent_entry (take j ri) ++ drop j ri.

Lemma sent_entries_S j ri : (j < length ri)%nat ->
  alter sent_entry j (sent_entries j ri) = sent_entries (S j) ri.
Proof.
  intros Hj. destruct (lookup_lt_is_Some_2 _ _ Hj) as [e He]. unfold sent_entries.
  rewrite (take_S_r _ _ _ He), map_app, <- app_assoc, (drop_S _ _ _ He).
  rewrite alter_app_r_alt by (rewrite length_map, length_take; lia).
  rewrite length_map, length_take. replace (j - j `min` length ri)%nat with O by lia. done.
Qed.

Lemma sent_entries_lookup j ri : sent_entries j ri !! j = ri !! j.
Proof.
  unfold sent_entries. destruct (decide (j <= length ri)%nat) as [H|H].
  - rewrite lookup_app_r by (rewrite length_map, length_take; lia).
    rewrite length_map, length_take, lookup_drop. f_equal. lia.
  - rewrite !lookup_ge_None_2; [done|lia|]. rewrite length_app, length_map, length_take, length_drop. lia.
Qed.

(** The state after [j] calls of the round that [st] begins. *)
Definition sending (j : nat) (st : grant_world) : grant_world :=
  st <| gw_cpu ::= fun gc => gc <| gc_granting_idx := Z.of_nat j |> <| gc_ri ::= sent_entries j |> |>.

Record round_ok (st : grant_world) : Prop := {
  ro_finish : gc_finish_choose (gw_cpu st) = 1;
  ro_idx : gc_granting_idx (gw_cpu st) = 0;
  ro_ready : 0 < gc_ready (gw_cpu st);
  ro_fifo : gc_need_fifo (gw_cpu st) = 0 \/ gc_need_fifo (gw_cpu st) = 1;
  ro_candidate : (1 <= gc_candidate (gw_cpu st) <= 8)%nat;
  ro_length : length (gc_ri (gw_cpu st)) = 8%nat
}.

(** The tests a call makes before it looks at an RPC. *)
Lemma gen_call_start e p st j :
  round_ok st -> (j < round_calls (gw_cpu st))%nat -> ge_cpu e < MAX_CPU ->
  let st' := next_idx (sending j st) in
  let last_grant := (S j =? round_calls (gw_cpu st))%nat in
  xdp_gen_prog e p (sending j st) =
  if (gc_need_fifo (gw_cpu st) =? 1) && last_grant then
    match grant_fifo_rpc search_less (gw_homa st) with
    | (None, w) =>
      (XDP_GEN_RETURN_DROP last_grant, p,
       reset last_grant (st' <| gw_homa := w |> <| gw_cpu ::= fun gc => gc <| gc_need_fifo := 0 |> |>))
    | (Some gi, w) => send_grant e gi last_grant true p (st' <| gw_homa := w |>)
    end
  else
    match grant_prio_rpc j (gw_cpu st') with
    | None => (XDP_GEN_RETURN_DROP last_grant, p, reset last_grant st')
    | Some (gi, gc) => send_grant e gi last_grant false p (st' <| gw_cpu := gc |>)
    end.
Proof.
  intros [H1 H2 H3 H4 H5 H6] Hj Hcpu st' last_grant.
  assert (Hj9 : (j < 9)%nat) by (revert Hj; unfold round_calls; split_if; lia).
  unfold xdp_gen_prog.
  replace (ge_cpu e >=? MAX_CPU) with false by (symmetry; rewrite Z.geb_leb; apply Z.leb_gt; lia).
  replace (gc_finish_choose _ =? 0) with false by (symmetry; change (gc_finish_choose (gw_cpu st) =? 0 = false); by rewrite H1).
  fold st'.
  assert (Hidx : gc_granting_idx (gw_cpu st') = Z.of_nat (S j)).
  { unfold st', next_idx, sending, upd_field, setter_of. cbn -[u64]. rewrite u64_small by mach_lia. lia. }
  cbn zeta.
  change (gc_ready (gw_cpu st')) with (gc_ready (gw_cpu st)).
  change (gc_need_fifo (gw_cpu st')) with (gc_need_fifo (gw_cpu st)).
  change (gc_candidate (gw_cpu st')) with (gc_candidate (gw_cpu st)).
  change (gw_homa st') with (gw_homa st). rewrite Hidx.
  replace (gc_ready (gw_cpu st) =? 0) with false by (symmetry; apply Z.eqb_neq; lia). cbn [andb].
  replace (Z.of_nat (S j) =? _) with last_grant.
  2: { unfold last_grant, round_calls, HOMA_OVERCOMMITMENT. apply eq_bool_prop_intro.
       rewrite !Is_true_true, Nat.eqb_eq, Z.eqb_eq. split_if; lia. }
  destruct (_ && last_grant) eqn:E; [done|].
  assert (j < 8)%nat.
  { destruct (gc_need_fifo (gw_cpu st) =? 1) eqn:Ef; unfold last_grant, round_calls in *; rewrite Ef in *; [|lia].
    cbn [andb] in E. apply Nat.eqb_neq in E. lia. }
  unfold HOMA_OVERCOMMITMENT. rewrite u64_small, Z.mod_small by mach_lia.
  by replace (Z.to_nat _) with j by lia.
Qed.


(** In the tree are objects that exist, with offsets and lengths of 32 bits. *)
Definition nodes_ok (w : homa) : Prop :=
  Forall (fun n => (n < h_next w)%nat /\ 0 <= n_incoming (node w n) /\ n_message_length (node w n) < 4294967296)
    (h_groot w).

Lemma grant_fifo_spec w : nodes_ok w -> (grant_fifo_rpc search_less w).1 = fifo_grant w.
Proof.
  intros Hw. unfold grant_fifo_rpc, fifo_grant. destruct (bpf_obj_new w) as [[o|] w1] eqn:E; [|done].
  assert (Hg : h_groot w1 = h_groot w /\ forall n, n ∈ h_groot w -> node w1 n = node w n).
  { assert (Hw1 : h_groot w1 = h_groot w /\ h_heap w1 = <[h_next w := zero_node]> (h_heap w)).
    { unfold bpf_obj_new in E. destruct (h_mem w) as [|[] m]; [by injection E as _ <-..|discriminate]. }
    destruct Hw1 as [-> Hh]. split; [done|]. intros n Hn. unfold node. rewrite Hh, lookup_insert_ne; [done|].
    destruct (proj1 (list.Forall_forall _ _) Hw n Hn). lia. }
  destruct Hg as [Hg Hnode]. cbn [fst].
  assert (Hf : find_node search_less less_birth_grant w1 (h_groot w1) (zero_node <| n_birth := POISON_64 |>) =
               find_node search_less less_birth_grant w (h_groot w) (zero_node <| n_birth := POISON_64 |>)).
  { unfold find_node. rewrite Hg. do 2 f_equal. apply list_fmap_ext. intros i n Hn.
    apply Hnode. by eapply list_elem_of_lookup_2. }
  rewrite Hf. destruct (find_node _ _ w _ _) as [n|] eqn:En; [|done].
  assert (Hn : n ∈ h_groot w).
  { unfold find_node in En. destruct (search_less _ _ _) as [i|]; [|done]. by eapply list_elem_of_lookup_2. }
  rewrite (Hnode n Hn). destruct (proj1 (list.Forall_forall _ _) Hw n Hn) as (_ & H0 & HL).
  cbn [fst fmap option_fmap option_map]. f_equal. unfold upd_field, setter_of. cbn. f_equal. rewrite Z.geb_leb.
  unfold GRANT_FIFO_INCREMENT in *. destruct (Z.leb_spec (n_message_length (node w n)) (10000 + n_incoming (node w n))); [lia|].
  rewrite u32_small by mach_lia. lia.
Qed.

(** The state after the round that [st] begins; [fib] tells whether the frame
    of the last call could be routed. *)
Record round_over (fib : bool) (st st' : grant_world) : Prop := {
  rv_finish : gc_finish_choose (gw_cpu st') = 0;
  rv_idx : gc_granting_idx (gw_cpu st') = 0;
  rv_candidate : gc_candidate (gw_cpu st') = O;
  rv_fifo : gc_need_fifo (gw_cpu st') = 0 \/ fib = false /\ gc_need_fifo (gw_cpu st') = 1;
  rv_ri : gc_ri (gw_cpu st') = sent_entries (gc_candidate (gw_cpu st)) (gc_ri (gw_cpu st));
  rv_homa : gw_homa st' = if gc_need_fifo (gw_cpu st) =? 1 then (grant_fifo_rpc search_less (gw_homa st)).2
                          else gw_homa st
}.

Lemma send_grant_ok e gi last_grant fifo p st :
  call_ok (e, p) ->
  send_grant e gi last_grant fifo p st =
  ((grant_out e gi last_grant p).1, (grant_out e gi last_grant p).2,
   if ge_adjust_tail e then
     if fifo && ge_fib e then (reset last_grant st) <| gw_cpu ::= fun gc => gc <| gc_need_fifo := 0 |> |>
     else reset last_grant st
   else st).
Proof.
  intros (_ & Hl). cbn [fst snd] in *. unfold send_grant, grant_out. destruct (ge_adjust_tail e); [|done].
  replace (L2L3 + 34 >? _) with false.
  2: { symmetry. rewrite Z.gtb_ltb. apply Z.ltb_ge. unfold upd_field, setter_of. cbn. rewrite Hl.
       unfold HOMA_GRANT_HEADER_CUTOFF, L2L3. lia. }
  by destruct (ge_fib e), fifo.
Qed.

(** Sending entry [j], or finding that it holds no grant, leads to the same
    state. *)
Lemma sent_state st j :
  (j < length (gc_ri (gw_cpu st)))%nat -> (j < 9)%nat ->
  (next_idx (sending j st)) <| gw_cpu := (gw_cpu (next_idx (sending j st)))
     <| gc_ri ::= alter sent_entry j |> |> = sending (S j) st.
Proof.
  intros Hl Hj. unfold next_idx, sending, upd_field, setter_of. cbn -[u64 sent_entries].
  rewrite u64_small by mach_lia. rewrite sent_entries_S by done. do 2 f_equal. lia.
Qed.

Lemma skipped_state st j :
  (j < 9)%nat -> ri_newgrant (default zero_entry (gc_ri (gw_cpu st) !! j)) = 0 ->
  next_idx (sending j st) = sending (S j) st.
Proof.
  intros Hj Hz. unfold next_idx, sending, upd_field, setter_of. cbn -[u64 sent_entries].
  rewrite u64_small by mach_lia. do 2 f_equal; [lia|].
  destruct (decide (j < length (gc_ri (gw_cpu st)))%nat) as [Hl|Hl].
  - rewrite <- sent_entries_S by done. apply list_eq. intros i.
    destruct (decide (i = j)) as [->|Hn]; [|by rewrite list_lookup_alter_ne].
    rewrite list_lookup_alter_eq, sent_entries_lookup. destruct (gc_ri (gw_cpu st) !! j) as [[]|]; [|done].
    cbn in *. by rewrite Hz.
  - unfold sent_entries. by rewrite !take_ge, !drop_ge by lia.
Qed.

(** Call [j] of a round: only a last call whose frame cannot be cut leaves the
    variables as they are. *)
Lemma gen_prio_call e p st j :
  round_ok st -> (j < gc_candidate (gw_cpu st))%nat -> call_ok (e, p) ->
  let last_grant := (S j =? round_calls (gw_cpu st))%nat in
  (last_grant = true -> ge_adjust_tail e = true) ->
  xdp_gen_prog e p (sending j st) =
  ((call_out st j (e, p)).1, (call_out st j (e, p)).2, reset last_grant (sending (S j) st)).
Proof.
  intros Hr Hj He last_grant Hcut. pose proof (ro_candidate _ Hr). pose proof (ro_length _ Hr).
  rewrite gen_call_start; [|done| |apply He].
  2: { unfold round_calls. lia. }
  replace (_ && _) with false.
  2: { symmetry. apply andb_false_iff. unfold round_calls. destruct (_ =? 1) eqn:E; [right|by left].
       apply Nat.eqb_neq. lia. }
  unfold grant_prio_rpc, call_out. rewrite (proj2 (Nat.ltb_lt _ _) Hj).
  change (gc_ri (gw_cpu (next_idx (sending j st)))) with (sent_entries j (gc_ri (gw_cpu st))).
  rewrite sent_entries_lookup. fold last_grant. cbn zeta. destruct (nz (ri_newgrant _)) eqn:En; cbn [negb fst snd].
  - rewrite send_grant_ok by done. f_equal. cbn [andb]. rewrite <- (sent_state st j) by lia.
    destruct (ge_adjust_tail e) eqn:Ec; [done|]. destruct last_grant; [by specialize (Hcut eq_refl)|done].
  - cbn [fst snd]. do 2 f_equal. apply skipped_state; [lia|]. unfold nz in En. by apply negb_false_iff, Z.eqb_eq in En.
Qed.

Lemma gen_fifo_call e p st :
  round_ok st -> nodes_ok (gw_homa st) -> gc_need_fifo (gw_cpu st) = 1 -> call_ok (e, p) -> ge_adjust_tail e = true ->
  let c := gc_candidate (gw_cpu st) in
  exists st', xdp_gen_prog e p (sending c st) = ((call_out st c (e, p)).1, (call_out st c (e, p)).2, st') /\
    round_over (ge_fib e) st st'.
Proof.
  intros Hr Hw Hf He Hcut c. pose proof (grant_fifo_spec _ Hw) as Hspec.
  assert (Hlast : (S c =? round_calls (gw_cpu st))%nat = true)
    by (unfold round_calls; rewrite Hf; apply Nat.eqb_eq; cbn; lia).
  rewrite gen_call_start; [|done|unfold round_calls; rewrite Hf; cbn; lia|apply He].
  fold c. rewrite Hlast, Hf. cbn [Z.eqb Pos.eqb andb]. unfold call_out. rewrite (proj2 (Nat.ltb_ge _ _)) by done. cbn zeta.
  rewrite Hlast, <- Hspec. destruct (grant_fifo_rpc search_less (gw_homa st)) as [[gi|] w] eqn:Eg; cbn [fst snd].
  - rewrite send_grant_ok by done. rewrite Hcut. cbn [andb]. eexists. split; [done|].
    destruct (ge_fib e); split; try done; cbn; rewrite ?Hf, ?Eg; auto.
  - eexists. split; [done|]. split; try done; cbn; rewrite ?Hf, ?Eg; auto.
Qed.

Lemma round_from st l j ef pf :
  round_ok st -> nodes_ok (gw_homa st) -> (j + length (l ++ [(ef, pf)]) = round_calls (gw_cpu st))%nat ->
  Forall call_ok (l ++ [(ef, pf)]) -> ge_adjust_tail ef = true ->
  (gen_run (l ++ [(ef, pf)]) (sending j st)).1 = imap (fun k x => call_out st (j + k) x) (l ++ [(ef, pf)]) /\
  round_over (ge_fib ef) st (gen_run (l ++ [(ef, pf)]) (sending j st)).2.
Proof.
  intros Hr Hw. revert j. induction l as [|[e p] l IH]; intros j Hlen Hok Hcut; cbn [app] in *.
  - apply list.Forall_cons in Hok as [He _]. cbn [length] in Hlen. cbn [gen_run imap].
    destruct (decide (j < gc_candidate (gw_cpu st))%nat) as [Hj|Hj].
    + rewrite gen_prio_call by done. replace (S j =? _)%nat with true by (symmetry; apply Nat.eqb_eq; lia).
      cbn. rewrite Nat.add_0_r. split; [by destruct (call_out st j (ef, pf))|].
      assert (Hf : (gc_need_fifo (gw_cpu st) =? 1) = false /\ gc_candidate (gw_cpu st) = S j).
      { revert Hlen. unfold round_calls. split_if; [lia|]. split; [done|lia]. }
      destruct Hf as [Hf Hc]. split; try done; cbn; rewrite ?Hc, ?Hf; try done.
      apply Z.eqb_neq in Hf. left. by destruct (ro_fifo _ Hr).
    + assert (Hf : gc_need_fifo (gw_cpu st) = 1 /\ j = gc_candidate (gw_cpu st)).
      { revert Hlen. unfold round_calls. split_if; [|lia]. intros. split; [by apply Z.eqb_eq|lia]. }
      destruct Hf as (Hf & ->). destruct (gen_fifo_call ef pf st Hr Hw Hf He Hcut) as (st' & E & Ho).
      rewrite E. cbn. rewrite Nat.add_0_r. split; [by destruct (call_out _ _ _)|done].
  - apply list.Forall_cons in Hok as [He Hok]. rewrite length_cons, length_app in Hlen. cbn [length] in Hlen.
    cbn [gen_run imap].
    assert (Hj : (j < gc_candidate (gw_cpu st))%nat) by (revert Hlen; unfold round_calls; split_if; lia).
    assert (Hl : (S j =? round_calls (gw_cpu st))%nat = false) by (apply Nat.eqb_neq; lia).
    rewrite gen_prio_call; [|done..|by rewrite Hl]. rewrite Hl. cbn [reset]. destruct (IH (S j)) as [E1 E2]; [rewrite length_app; cbn; lia|done|done|].
    destruct (gen_run (l ++ [(ef, pf)]) (sending (S j) st)) as [out st'] eqn:Eo. cbn [fst snd] in *.
    split; [|done]. rewrite E1, Nat.add_0_r. destruct (call_out st j (e, p)). f_equal.
    apply imap_ext. intros k y _. cbn. by rewrite Nat.add_succ_r.
Qed.

(** *** A choice begins a round *)

(** What the choice leaves alone in the variables of the CPU. *)
Definition same_cpu (gc gc' : grant_cpu) : Prop :=
  gc_granting_idx gc' = gc_granting_idx gc /\ gc_need_fifo gc' = gc_need_fifo gc /\
  length (gc_ri gc') = length (gc_ri gc).

Lemma choose_one_cpu i st st' :
  choose_one i st = Some st' -> same_cpu (cs_cpu st) (cs_cpu st') /\ cs_nr_rpc st' = S (cs_nr_rpc st).
Proof.
  unfold choose_one. destruct (find_node _ _ _ _ _) as [n|]; [|done].
  destruct (new_grant _ _) as [[inc g]|]; intros [= <-]; unfold same_cpu, upd_field, setter_of; cbn;
    by rewrite ?length_alter.
Qed.

Lemma choose_loop_cpu l st :
  same_cpu (cs_cpu st) (cs_cpu (choose_loop l st)) /\
  (cs_nr_rpc st <= cs_nr_rpc (choose_loop l st) <= cs_nr_rpc st + length l)%nat.
Proof.
  revert st. induction l as [|i l IH]; intros st; cbn [choose_loop length]; [split; [done|lia]|].
  destruct (choose_one i st) as [st'|] eqn:E; [|split; [done|lia]].
  apply choose_one_cpu in E as [(A & B & C) E]. destruct (IH st') as [(A' & B' & C') H].
  unfold same_cpu. split_and!; [congruence..|lia|lia].
Qed.

Lemma assign_prio_length nr k ri : length (assign_prio nr k ri).1 = length ri.
Proof.
  revert k ri. induction nr as [|nr IH]; intros k [|e ri]; cbn [assign_prio]; try done.
  destruct (nz (ri_newgrant e)).
  - specialize (IH (k + 1) ri). destruct (assign_prio nr (k + 1) ri). cbn in *. by rewrite IH.
  - specialize (IH k ri). destruct (assign_prio nr k ri). cbn in *. by rewrite IH.
Qed.

Lemma lower_prio_length nr k ri : length (lower_prio nr k ri) = length ri.
Proof. revert ri. induction nr as [|nr IH]; intros [|e ri]; cbn; [done..|]. by rewrite IH. Qed.

Lemma finish_ok st st' :
  finish st = (XDP_DROP, st') -> 0 < gc_ready (gw_cpu st) /\
  st' = st <| gw_cpu ::= fun gc => gc <| gc_finish_choose := 1 |> |>.
Proof. unfold finish. destruct (Z.gtb_spec (gc_ready (gw_cpu st)) 0) as [H|H]; intros [= <-]. split; [lia|done]. Qed.

(** The programs that complete the choice change the trees only. *)
Lemma complete_grant_ok e n i st st' :
  complete_grant e n i st = (XDP_DROP, st') ->
  0 < gc_ready (gw_cpu st) /\ gw_cpu st' = (gw_cpu st) <| gc_finish_choose := 1 |>.
Proof.
  revert i st. induction n as [|n IH]; intros i st; cbn [complete_grant].
  { intros [H ->]%finish_ok. done. }
  split_if; [by intros [H ->]%finish_ok|].
  destruct (replace_granted _ _ _) as [[w|] w']; [|done].
  destruct n as [|n]; [by intros [H ->]%finish_ok|]. split_if; [|done]. intros H. by apply IH in H.
Qed.

Lemma choose_priorities_ok e nr st st' :
  choose_priorities e nr st = (XDP_DROP, st') -> (nr <= 8)%nat ->
  gc_granting_idx (gw_cpu st) = 0 -> (gc_need_fifo (gw_cpu st) = 0 \/ gc_need_fifo (gw_cpu st) = 1) ->
  length (gc_ri (gw_cpu st)) = 8%nat -> round_ok st'.
Proof.
  unfold choose_priorities. intros H Hn Hi Hf Hl. revert H.
  destruct (nr =? 0)%nat eqn:E0; [done|]. apply Nat.eqb_neq in E0.
  pose proof (assign_prio_length nr 0 (gc_ri (gw_cpu st))) as Hlen.
  destruct (assign_prio _ _ _) as [ri actual] eqn:Ep. cbn [fst] in Hlen.
  split_if; [done|]. set (gc' := if _ >=? 0 then _ else _).
  assert (Hgc' : gc_granting_idx gc' = 0 /\ gc_need_fifo gc' = gc_need_fifo (gw_cpu st) /\ gc_candidate gc' = nr /\
                 length (gc_ri gc') = 8%nat).
  { unfold gc'. split_if; cbn -[lower_prio]; rewrite ?lower_prio_length, Hlen; done. }
  clearbody gc'. destruct Hgc' as (K1 & K2 & K3 & K4). split_if; [|done].
  intros [Hr E]%complete_grant_ok. cbn [gw_cpu] in *.
  split; rewrite E; cbn; rewrite ?K1, ?K2, ?K3, ?K4; first [done | lia].
Qed.

Lemma choose_ok e st st' :
  choose_rpc_to_grant e st = (XDP_DROP, st') ->
  gc_granting_idx (gw_cpu st) = 0 -> (gc_need_fifo (gw_cpu st) = 0 \/ gc_need_fifo (gw_cpu st) = 1) ->
  length (gc_ri (gw_cpu st)) = 8%nat -> round_ok st'.
Proof.
  unfold choose_rpc_to_grant. intros H Hi Hf Hl. revert H. split_if; [done|].
  destruct (bpf_obj_new _) as [[x|] w]; [|done].
  destruct (choose_loop_cpu (seq 0 8) (mk_choose_st w 0 0 0 0 (gw_cpu st))) as [(A & B & C) Hn].
  set (cs := choose_loop _ _) in *. clearbody cs. cbn [cs_cpu cs_nr_rpc length seq] in *.
  intros H. eapply choose_priorities_ok; [exact H|lia|..]; cbn [gw_cpu]; split_if; cbn; rewrite ?A, ?B, ?C; auto.
Qed.

Lemma sending_0 st : round_ok st -> sending 0 st = st.
Proof. intros [_ H _ _ _ _]. destruct st as [h left gc]. destruct gc. cbn in H. by rewrite H. Qed.

Lemma sent_entries_length j ri : length (sent_entries j ri) = length ri.
Proof. unfold sent_entries. rewrite length_app, length_map, length_take, length_drop. lia. Qed.

Lemma sent_entries_zero j ri : Forall (fun x => ri_newgrant x = 0) (take j (sent_entries j ri)).
Proof.
  apply list.Forall_forall. intros x Hx. unfold sent_entries in Hx.
  destruct (decide (j <= length ri)%nat) as [Hj|Hj].
  - rewrite take_app_le, take_ge in Hx by (rewrite length_map, length_take; lia).
    apply list_elem_of_fmap in Hx as (y & -> & _). done.
  - rewrite (drop_ge ri), app_nil_r in Hx by lia. apply elem_of_take in Hx as (i & Hx & _).
    apply list_elem_of_lookup_2, list_elem_of_fmap in Hx as (y & -> & _). done.
Qed.

(** Only the last call of a round can make the kernel stop. *)
Lemma call_out_aborted st j x f :
  round_ok st -> (j < round_calls (gw_cpu st))%nat -> call_out st j x = (XDP_ABORTED, f) ->
  S j = round_calls (gw_cpu st).
Proof.
  intros Hr Hj. unfold call_out, grant_out, XDP_GEN_RETURN_DROP. cbn zeta.
  destruct (Nat.ltb_spec j (gc_candidate (gw_cpu st))) as [Hc|Hc].
  - destruct (Nat.eqb_spec (S j) (round_calls (gw_cpu st))); [done|]. by repeat split_if.
  - intros _. revert Hj. unfold round_calls. split_if; lia.
Qed.

(** C17. A round of grants, on frames of 128 bytes: when a run of
    [xdp_gen_prog] has chosen, the next runs take the chosen RPCs one by one,
    in the order of the choice.  The run of an RPC that was given bytes makes
    its frame the GRANT with the offset and the priority chosen for it, and
    sends it if the frame can be cut and routed; otherwise that grant is lost.
    The run of an RPC that was given nothing sends nothing.  When a FIFO grant
    is due a last run serves the RPC that the kernel's search by birth answers
    (a function of a patched kernel, any answer is allowed): it is granted
    10000 bytes more, but not past its end; nothing is sent if there is none
    or no object can be allocated.  No run before the last makes the kernel
    stop.  If the frame of the last run can be cut, the CPU is ready for a new
    choice after it and no grant of this one is left to be sent; a FIFO grant
    is due again only if the last frame could not be routed. *)
Theorem homa_grant_round (st st1 : grant_world) (e ef : gen_env) (p p' pf : hpkt) (l : list (gen_env * hpkt))
  (Hfinish : gc_finish_choose (gw_cpu st) = 0) (Hidx : gc_granting_idx (gw_cpu st) = 0)
  (Hfifo : gc_need_fifo (gw_cpu st) = 0 \/ gc_need_fifo (gw_cpu st) = 1)
  (Hri : length (gc_ri (gw_cpu st)) = 8%nat)
  (Hchoose : xdp_gen_prog e p st = (XDP_DROP, p', st1)) (Hnodes : nodes_ok (gw_homa st1))
  (Hlen : S (length l) = round_calls (gw_cpu st1))
  (Hframe : Forall (fun x => ge_cpu x.1 < MAX_CPU /\ hp_len x.2 = 128) (l ++ [(ef, pf)]))
  (Hlast : ge_adjust_tail ef = true) :
  let '(out, st2) := gen_run (l ++ [(ef, pf)]) st1 in
  (1 <= gc_candidate (gw_cpu st1) <= 8)%nat /\
  out = imap (call_out st1) (l ++ [(ef, pf)]) /\
  (forall j a f, out !! j = Some (a, f) -> a = XDP_ABORTED -> j = length l) /\
  gc_finish_choose (gw_cpu st2) = 0 /\ gc_granting_idx (gw_cpu st2) = 0 /\
  (gc_need_fifo (gw_cpu st2) = 0 \/ ge_fib ef = false /\ gc_need_fifo (gw_cpu st2) = 1) /\
  length (gc_ri (gw_cpu st2)) = 8%nat /\
  Forall (fun x => ri_newgrant x = 0) (take (gc_candidate (gw_cpu st1)) (gc_ri (gw_cpu st2))).
Proof.
  assert (Hr : round_ok st1).
  { revert Hchoose. unfold xdp_gen_prog. split_if; [done|]. rewrite Hfinish. cbn [Z.eqb]. split_if; [|done].
    destruct (choose_rpc_to_grant e _) as [a st'] eqn:E. intros [= -> _ ->]. by eapply choose_ok. }
  pose proof (ro_candidate _ Hr) as Hc. pose proof (ro_length _ Hr) as H8.
  assert (Hn : length (l ++ [(ef, pf)]) = round_calls (gw_cpu st1)) by (rewrite length_app; cbn; lia).
  destruct (round_from st1 l 0 ef pf Hr Hnodes Hn Hframe Hlast) as [E Ho]. rewrite sending_0 in E, Ho by done.
  destruct (gen_run (l ++ [(ef, pf)]) st1) as [out st2]. cbn [fst snd] in E, Ho. destruct Ho as [O1 O2 O3 O4 O5 O6].
  split_and!; try done; [lia..| | |].
  - intros j a f Hj ->. rewrite E, list_lookup_imap in Hj.
    destruct ((l ++ [(ef, pf)]) !! j) as [x|] eqn:El; [|done]. apply lookup_lt_Some in El. cbn in Hj.
    injection Hj as Hj. rewrite Hn in El. apply call_out_aborted in Hj; [lia|done|done].
  - rewrite O5. by rewrite sent_entries_length.
  - rewrite O5. apply sent_entries_zero.
Qed.

(** ** What is granted *)

(** As far as an RPC may be granted: the window behind the received bytes, but
    not past its end. *)
Definition grant_limit (c : rpc_state_cc) : Z :=
  Z.min (n_message_length c) (n_message_length c - n_bytes_remaining c + Homa_grant_window).

Record window_ok (c : rpc_state_cc) : Prop := {
  wo_remaining : 0 <= n_bytes_remaining c <= n_message_length c;
  wo_length : n_message_length c < 2147483648;
  wo_incoming : 0 <= n_incoming c <= grant_limit c
}.

(** The bytes granted to the RPCs [t]. *)
Definition granted_sum (w : homa) (t : list nat) : Z := foldr Z.add 0 ((fun n => n_incoming (node w n)) <$> t).

(** What a choice never changes in a node. *)
Definition same_node (c c' : rpc_state_cc) : Prop :=
  n_bytes_remaining c' = n_bytes_remaining c /\ n_message_length c' = n_message_length c /\ n_hkey c' = n_hkey c.

Lemma new_grant_spec c total inc g :
  window_ok c -> 0 <= total < 2147483648 -> new_grant c total = Some (inc, g) ->
  0 < inc <= Homa_max_incoming - total /\ g = n_incoming c + inc /\ g <= grant_limit c.
Proof.
  intros [H1 H2 H3] Ht. unfold new_grant, grant_limit, Homa_grant_window, Homa_max_incoming in *.
  rewrite (u32_small (_ - _ + _)) by mach_lia.
  set (g0 := if _ >? _ then _ else _).
  assert (Hg : g0 = Z.min (n_message_length c) (n_message_length c - n_bytes_remaining c + 100000)).
  { unfold g0. rewrite Z.gtb_ltb. destruct (Z.ltb_spec (n_message_length c) (n_message_length c - n_bytes_remaining c + 100000)); lia. }
  clearbody g0. subst g0.
  rewrite (u32_small (_ - n_incoming c)) by mach_lia.
  replace (s32 (480000 - total)) with (480000 - total) by (unfold s32; rewrite u32_small by mach_lia; lia).
  rewrite !Z.gtb_ltb. destruct (_ && _) eqn:E; [|done]. apply andb_true_iff in E as [E1%Z.ltb_lt E2%Z.ltb_lt].
  destruct (Z.ltb_spec (480000 - total) (Z.min (n_message_length c) (n_message_length c - n_bytes_remaining c + 100000) - n_incoming c)) as [E|E]; intros [= <- <-].
  - rewrite u32_small by mach_lia. lia.
  - lia.
Qed.

Lemma node_set_node n m c w : node (set_node n c w) m = if decide (n = m) then c else node w m.
Proof.
  unfold node, set_node, upd_field, setter_of. cbn. case_decide as E.
  - subst. by rewrite lookup_insert_eq.
  - by rewrite lookup_insert_ne.
Qed.

Lemma granted_sum_set n c w t :
  NoDup t -> granted_sum (set_node n c w) t =
  granted_sum w t + if decide (n ∈ t) then n_incoming c - n_incoming (node w n) else 0.
Proof.
  induction t as [|m t IH]; intros Hn; [done|]. apply list.NoDup_cons in Hn as [Hm Hn].
  unfold granted_sum in *. rewrite !fmap_cons. cbn [foldr]. rewrite IH by done. rewrite node_set_node.
  destruct (decide (n = m)) as [->|Hne].
  - rewrite (decide_False (P := m ∈ t)) by done. rewrite decide_True by constructor. lia.
  - destruct (decide (n ∈ t)); [rewrite decide_True by (by constructor)|rewrite decide_False by (by intros [->|]%elem_of_cons)]; lia.
Qed.

Lemma granted_sum_ext w w' t :
  (forall n, n ∈ t -> n_incoming (node w' n) = n_incoming (node w n)) -> granted_sum w' t = granted_sum w t.
Proof.
  intros H. unfold granted_sum. f_equal. apply list_fmap_ext. intros i n Hn. apply H. by eapply list_elem_of_lookup_2.
Qed.

(** Taking an RPC off the list changes no key and no grant. *)
Lemma remove_granted_spec n w :
  h_total_incoming (remove_granted n w) = h_total_incoming w /\
  (forall m, m ∈ h_groot (remove_granted n w) -> m ∈ h_groot w) /\
  (forall m, same_node (node w m) (node (remove_granted n w) m) /\
             n_incoming (node (remove_granted n w) m) = n_incoming (node w m)).
Proof.
  unfold remove_granted, bpf_rbtree_remove. case_decide as Hn; [|by split_and!].
  set (w' := set_node _ _ _).
  assert (Hw : forall m, same_node (node w m) (node w' m) /\ n_incoming (node w' m) = n_incoming (node w m)).
  { intros m. unfold w'. rewrite node_set_node. case_decide; [subst m|]; done. }
  assert (Hg : forall m, m ∈ h_groot w' -> m ∈ h_groot w) by (intros m; cbn; rewrite list_elem_of_filter; tauto).
  destruct (find_node _ _ _ _ _) as [m|]; [|done]. case_decide; [|done].
  split_and!; [done| |done]. intros x Hx. apply Hg. cbn in Hx. rewrite list_elem_of_filter in Hx. by destruct Hx.
Qed.

(** The key of an entry. *)
Definition entry_key (e : remove_entry) : rpc_key_t :=
  mk_rpc_key_t (ri_rpcid e) (ri_local_port e) (ri_remote_port e) (ri_remote_ip e).

(** A grant is for an RPC of the list, beyond what it had and within its
    limit. *)
Definition grants (w : homa) (e : remove_entry) : Prop :=
  exists n, n ∈ h_groot w /\ entry_key e = n_hkey (node w n) /\
    n_incoming (node w n) < ri_newgrant e <= grant_limit (node w n).

Definition grantable (w : homa) : Z := Z.max 0 (Homa_max_incoming - h_total_incoming w).

(** The loop against the state [w] it began in. *)
Record choosing (w : homa) (st : choose_st) : Prop := {
  ch_total : h_total_incoming (cs_homa st) = h_total_incoming w;
  ch_list : forall n, n ∈ h_groot (cs_homa st) -> n ∈ h_groot w;
  ch_node : forall n, n ∈ h_groot w ->
    same_node (node w n) (node (cs_homa st) n) /\
    n_incoming (node w n) <= n_incoming (node (cs_homa st) n) <= grant_limit (node w n);
  ch_sum : cs_total_increment st = granted_sum (cs_homa st) (h_groot w) - granted_sum w (h_groot w);
  ch_bound : 0 <= cs_total_increment st <= Z.of_nat (cs_nr_rpc st) * grantable w;
  ch_entries : forall j e, gc_ri (cs_cpu st) !! j = Some e -> ri_newgrant e <> 0 ->
    (j < cs_nr_rpc st)%nat /\ grants w e;
  ch_length : length (gc_ri (cs_cpu st)) = 8%nat
}.

Section Choice.
Variable w0 : homa.
Hypothesis Hnodup : NoDup (h_groot w0).
Hypothesis Hwindow : forall n, n ∈ h_groot w0 -> window_ok (node w0 n).
Hypothesis Htotal : 0 <= h_total_incoming w0 < 2147483648.

Lemma choosing_window st n : choosing w0 st -> n ∈ h_groot w0 -> window_ok (node (cs_homa st) n).
Proof.
  intros H Hn. destruct (Hwindow n Hn) as [A B C]. destruct (ch_node _ _ H n Hn) as [(E1 & E2 & _) D].
  unfold grant_limit in *. split; unfold grant_limit; rewrite ?E1, ?E2; lia.
Qed.

(** Entry [i] after its block: the key of the RPC, and the grant if there is
    one. *)
Definition block_entry (k : rpc_key_t) (g : option Z) (e : remove_entry) : remove_entry :=
  mk_remove_entry (rk_rpcid k) (rk_local_port k) (rk_remote_port k) (rk_remote_ip k)
    (default (ri_newgrant e) g) (ri_priority e).

Lemma block_entry_key k g e : entry_key (block_entry k g e) = k.
Proof. by destruct k. Qed.

Lemma alter_twice (f g : remove_entry -> remove_entry) (i : nat) (l : list remove_entry) :
  alter f i (alter g i l) = alter (f ∘ g) i l.
Proof. revert i. induction l as [|x l IH]; intros [|i]; cbn; [done..|]. f_equal. apply IH. Qed.

(** Block [i] with its outcome [g] on the entries. *)
Lemma choosing_entries st i k g ri :
  choosing w0 st -> i = cs_nr_rpc st -> (i < 8)%nat ->
  (forall x, g = Some x -> exists n, n ∈ h_groot w0 /\ k = n_hkey (node w0 n) /\
     n_incoming (node w0 n) < x <= grant_limit (node w0 n)) ->
  ri = alter (block_entry k g) i (gc_ri (cs_cpu st)) ->
  forall j e, ri !! j = Some e -> ri_newgrant e <> 0 -> (j < S i)%nat /\ grants w0 e.
Proof.
  intros Hc Hi H8 Hg -> j e. destruct (decide (i = j)) as [<-|Hne].
  - rewrite list_lookup_alter_eq. destruct (gc_ri (cs_cpu st) !! i) as [e0|] eqn:E; [|done].
    intros [= <-] Hnz. split; [lia|]. destruct g as [x|]; cbn in Hnz.
    + destruct (Hg x eq_refl) as (n & Hn & -> & Hx). exists n. by rewrite block_entry_key.
    + apply (ch_entries _ _ Hc) in E as [E _]; [lia|done].
  - rewrite list_lookup_alter_ne by done. intros E Hnz.
    destruct (ch_entries _ _ Hc _ _ E Hnz) as [Hj He]. split; [lia|done].
Qed.

(** The RPC [n] is granted to [g], [inc] bytes more, and [w] is the rest of the
    block's work on the trees. *)
Lemma choosing_granted st n inc g w :
  choosing w0 st -> (cs_nr_rpc st < 8)%nat -> n ∈ h_groot w0 ->
  new_grant (node (cs_homa st) n) (h_total_incoming (cs_homa st)) = Some (inc, g) ->
  let w1 := set_node n ((node (cs_homa st) n) <| n_incoming := g |>) (cs_homa st) in
  h_total_incoming w = h_total_incoming w1 -> (forall m, m ∈ h_groot w -> m ∈ h_groot w1) ->
  (forall m, same_node (node w1 m) (node w m) /\ n_incoming (node w m) = n_incoming (node w1 m)) ->
  (n_incoming (node w0 n) < g <= grant_limit (node w0 n)) /\
  forall br peer gc, length (gc_ri gc) = 8%nat ->
  (forall j e, gc_ri gc !! j = Some e -> ri_newgrant e <> 0 -> (j < S (cs_nr_rpc st))%nat /\ grants w0 e) ->
  choosing w0 (mk_choose_st w br peer (u32 (cs_total_increment st + inc)) (S (cs_nr_rpc st)) gc).
Proof.
  intros Hc H8 Hn Eg w1 Hwt Hwg Hwn.
  assert (Ht : 0 <= h_total_incoming (cs_homa st) < 2147483648) by (rewrite (ch_total _ _ Hc); done).
  destruct (new_grant_spec _ _ _ _ (choosing_window st n Hc Hn) Ht Eg) as (Hinc & Hg & Hlim).
  destruct (ch_node _ _ Hc n Hn) as [(S1 & S2 & S3) Hb]. rewrite (ch_total _ _ Hc) in Hinc.
  assert (Hl : grant_limit (node (cs_homa st) n) = grant_limit (node w0 n)) by (unfold grant_limit; by rewrite S1, S2).
  split; [lia|]. intros br peer gc Hlen Hent.
  assert (Hsum : granted_sum w (h_groot w0) = granted_sum (cs_homa st) (h_groot w0) + inc).
  { rewrite (granted_sum_ext w1) by (intros m _; apply Hwn). unfold w1.
    rewrite granted_sum_set, decide_True by done. cbn. lia. }
  pose proof (ch_bound _ _ Hc) as Hbd. pose proof (ch_sum _ _ Hc) as Hs. unfold grantable, Homa_max_incoming in *.
  assert (Hu : u32 (cs_total_increment st + inc) = cs_total_increment st + inc) 
    by (apply u32_small; assert (cs_total_increment st <= 8 * 480000) by nia; mach_lia).
  split; cbn -[u32]; rewrite ?Hu; unfold grantable, Homa_max_incoming; try done.
  - rewrite Hwt. apply (ch_total _ _ Hc).
  - intros m Hm. apply (ch_list _ _ Hc). by apply Hwg in Hm.
  - intros m Hm. destruct (Hwn m) as [(A & B & C) D]. unfold same_node. rewrite A, B, C, D.
    unfold w1. rewrite node_set_node. destruct (ch_node _ _ Hc m Hm) as [E F].
    case_decide as Em; [subst m; cbn; split; [done|lia]|done].
  - lia.
  - lia.
Qed.

Lemma choosing_step st st' :
  choosing w0 st -> (cs_nr_rpc st < 8)%nat -> choose_one (cs_nr_rpc st) st = Some st' -> choosing w0 st'.
Proof.
  intros Hc H8. unfold choose_one. destruct (find_node _ _ _ _ _) as [n|] eqn:Ef; [|done].
  assert (Hn : n ∈ h_groot w0).
  { apply (ch_list _ _ Hc). unfold find_node in Ef. destruct (lower_bound _ _ _) as [k|]; [|done].
    by eapply list_elem_of_lookup_2. }
  destruct (ch_node _ _ Hc n Hn) as [(S1 & S2 & S3) Hb].
  destruct (new_grant _ _) as [[inc g]|] eqn:Eg; intros [= <-].
  - set (w1 := set_node _ _ _). set (w := if _ >=? _ then _ else _).
    assert (Hw : h_total_incoming w = h_total_incoming w1 /\ (forall m, m ∈ h_groot w -> m ∈ h_groot w1) /\
      (forall m, same_node (node w1 m) (node w m) /\ n_incoming (node w m) = n_incoming (node w1 m))).
    { unfold w. split_if; [apply remove_granted_spec|done]. }
    destruct Hw as (A & B & C). destruct (choosing_granted st n inc g w Hc H8 Hn Eg A B C) as [Hlim Hnext].
    apply Hnext; cbn; rewrite ?length_alter; [apply (ch_length _ _ Hc)|].
    eapply (choosing_entries st (cs_nr_rpc st) (n_hkey (node (cs_homa st) n)) (Some g)); [done..| |].
    + intros x [= <-]. exists n. rewrite S3. done.
    + by rewrite alter_twice.
  - destruct Hc as [C1 C2 C3 C4 C5 C6 C7]. split; cbn; rewrite ?length_alter; try done.
    + unfold grantable in *. lia.
    + eapply (choosing_entries st (cs_nr_rpc st) (n_hkey (node (cs_homa st) n)) None); [by split|done..].
Qed.

Lemma choosing_loop k i st :
  choosing w0 st -> cs_nr_rpc st = i -> (i + k <= 8)%nat -> choosing w0 (choose_loop (seq i k) st).
Proof.
  revert i st. induction k as [|k IH]; intros i st Hc Hi H8; cbn [seq choose_loop]; [done|].
  destruct (choose_one i st) as [st'|] eqn:E; [|done]. subst i.
  pose proof (choose_one_cpu _ _ _ E) as [_ Hnr]. apply IH; [|done|lia]. eapply choosing_step; [done|lia|done].
Qed.
End Choice.

(** Objects that exist keep their grants. *)
Record keeps_grants (w w' : homa) : Prop := {
  kg_total : h_total_incoming w' = h_total_incoming w;
  kg_next : (h_next w <= h_next w')%nat;
  kg_node : forall n, (n < h_next w)%nat ->
    same_node (node w n) (node w' n) /\ n_incoming (node w' n) = n_incoming (node w n)
}.

Lemma keeps_grants_refl w : keeps_grants w w.
Proof. by split. Qed.

Lemma keeps_grants_trans w1 w2 w3 : keeps_grants w1 w2 -> keeps_grants w2 w3 -> keeps_grants w1 w3.
Proof.
  intros [A1 B1 C1] [A2 B2 C2]. split; [congruence|lia|]. intros n Hn.
  destruct (C1 n Hn) as [(D1 & D2 & D3) D4]. destruct (C2 n) as [(E1 & E2 & E3) E4]; [lia|].
  unfold same_node. rewrite E1, E2, E3, E4, D1, D2, D3, D4. done.
Qed.

Lemma bpf_obj_new_keeps w r w' :
  bpf_obj_new w = (r, w') ->
  keeps_grants w w' /\ h_groot w' = h_groot w /\
  match r with Some t => t = h_next w /\ h_next w' = S (h_next w) | None => True end.
Proof.
  unfold bpf_obj_new. destruct (h_mem w) as [|[|] m]; intros [= <- <-]; [| |by split].
  all: split; [|done]; split; cbn; [done|lia|]; intros n Hn; unfold node; cbn;
    rewrite lookup_insert_ne by lia; done.
Qed.

Lemma add_to_peer_tree_keeps t0 t1 w w' :
  keeps_grants w w' -> (h_next w <= t1)%nat -> keeps_grants w (add_to_peer_tree t0 t1 w').
Proof.
  intros [A B C] Ht. unfold add_to_peer_tree. set (w2 := set_node _ _ _).
  assert (Hk : keeps_grants w w2).
  { split; [done|done|]. intros n Hn. unfold w2. rewrite node_set_node, decide_False by lia.
    rewrite node_set_node. case_decide; [subst n; by destruct (C t0 Hn)|by apply C]. }
  destruct (bpf_rbtree_add _ _ _ _); [|done]. by destruct Hk.
Qed.

Lemma replace_granted_keeps i gc w r w' :
  replace_granted i gc w = (r, w') -> keeps_grants w w' /\ (forall x, r = Some x -> x = w').
Proof.
  unfold replace_granted. split_if; [|intros [= <- <-]; split; [apply keeps_grants_refl|by intros x [= ->]]].
  destruct (bpf_obj_new w) as [[t1|] w1] eqn:E; apply bpf_obj_new_keeps in E as (Hk & _ & Ht).
  2: { intros [= <- <-]. by split. }
  destruct (find_node _ _ _ _ _) as [t0|]; [|intros [= <- <-]; split; [done|by intros x [= ->]]].
  split_if; intros [= <- <-]; (split; [|by intros x [= ->]]); [|done].
  apply add_to_peer_tree_keeps; [done|lia].
Qed.

Lemma complete_grant_keeps e n i st :
  keeps_grants (gw_homa st) (gw_homa (complete_grant e n i st).2) /\
  gc_ri (gw_cpu (complete_grant e n i st).2) = gc_ri (gw_cpu st).
Proof.
  assert (Hfin : forall s, keeps_grants (gw_homa s) (gw_homa (finish s).2) /\
                           gc_ri (gw_cpu (finish s).2) = gc_ri (gw_cpu s)).
  { intros s. unfold finish. split_if; split; by try apply keeps_grants_refl. }
  revert i st. induction n as [|n IH]; intros i st; cbn [complete_grant]; [apply Hfin|].
  split_if; [apply Hfin|]. destruct (replace_granted _ _ _) as [r w'] eqn:E.
  apply replace_granted_keeps in E as [Hk Hr]. destruct r as [w|]; [|by split].
  rewrite (Hr w eq_refl). destruct n as [|n].
  - destruct (Hfin (st <| gw_homa := w' |>)) as [A B]. rewrite B. split; [by eapply keeps_grants_trans|done].
  - split_if; [|by split]. destruct (IH (S i) (st <| gw_homa := w' |>)) as [A B]. rewrite B.
    split; [by eapply keeps_grants_trans|done].
Qed.

(** *** Priorities *)

(** The loops over the priorities write nothing else. *)
Definition same_grant (e e' : remove_entry) : Prop :=
  entry_key e' = entry_key e /\ ri_newgrant e' = ri_newgrant e.

#[local] Instance same_grant_preorder : PreOrder same_grant.
Proof. split; [done|]. unfold same_grant. intros x y z [A B] [C D]. by rewrite C, D. Qed.

Definition has_prio (P : Z -> Prop) (e : remove_entry) : Prop := ri_newgrant e <> 0 -> P (ri_priority e).

Lemma assign_prio_le nr k ri : k <= (assign_prio nr k ri).2.
Proof.
  revert k ri. induction nr as [|nr IH]; intros k [|e ri]; cbn [assign_prio]; try (cbn; lia).
  destruct (nz (ri_newgrant e)).
  - specialize (IH (k + 1) ri). destruct (assign_prio nr (k + 1) ri). cbn in *. lia.
  - specialize (IH k ri). destruct (assign_prio nr k ri). done.
Qed.

(** The first loop gives the entries descending priorities, from 3 on. *)
Lemma assign_prio_spec nr k ri ri' actual :
  assign_prio nr k ri = (ri', actual) -> 0 <= k ->
  Forall2 same_grant ri ri' /\
  Forall (has_prio (fun x => exists i, 0 <= i < actual /\ x = Z.max 0 (HOMA_MAX_SCHED_PRIO - i))) (take nr ri').
Proof.
  revert k ri ri'. induction nr as [|nr IH]; intros k [|e ri] ri'; cbn [assign_prio].
  1-3: intros [= <- <-] _; split; [done|constructor].
  pose proof (assign_prio_le nr (k + 1) ri) as Hle. destruct (nz (ri_newgrant e)) eqn:En.
  - destruct (assign_prio nr (k + 1) ri) as [ri2 a2] eqn:E. intros [= <- <-] Hk. cbn in Hle.
    destruct (IH _ _ _ E) as [A B]; [lia|]. split; [by constructor|]. cbn [take]. constructor; [|done].
    intros _. exists k. split; [lia|done].
  - destruct (assign_prio nr k ri) as [ri2 a2] eqn:E. intros [= <- <-] Hk.
    destruct (IH _ _ _ E Hk) as [A B]. split; [by constructor|]. cbn [take]. constructor; [|done].
    intros Hz. unfold nz in En. by apply negb_false_iff, Z.eqb_eq in En.
Qed.

(** Both loops: the priorities are levels of the scheduler. *)
Lemma lower_prio_spec nr actual ri :
  HOMA_MAX_SCHED_PRIO + 1 - actual >= 0 ->
  Forall (has_prio (fun x => exists i, 0 <= i < actual /\ x = Z.max 0 (HOMA_MAX_SCHED_PRIO - i))) (take nr ri) ->
  Forall2 same_grant ri (lower_prio nr (HOMA_MAX_SCHED_PRIO + 1 - actual) ri) /\
  Forall (has_prio (fun x => 0 <= x <= HOMA_MAX_SCHED_PRIO))
    (take nr (lower_prio nr (HOMA_MAX_SCHED_PRIO + 1 - actual) ri)).
Proof.
  unfold HOMA_MAX_SCHED_PRIO. intros Ha.
  revert ri. induction nr as [|nr IH]; intros [|e ri]; cbn [lower_prio take].
  1-3: intros _; split; [done|constructor].
  intros [He Hr]%list.Forall_cons. destruct (IH ri Hr) as [A B]. split; constructor; try done.
  - by split_if.
  - destruct (nz (ri_newgrant e) && _) eqn:E.
    + apply andb_true_iff in E as [E _]. intros _. cbn. destruct He as (i & Hi & ->).
      { unfold nz in E. by apply negb_true_iff, Z.eqb_neq in E. }
      unfold u8. rewrite Z.mod_small by lia. lia.
    + intros Hz. destruct (He Hz) as (i & Hi & Hp). rewrite Hp. lia.
Qed.

Lemma choose_loop_next l st : h_next (cs_homa (choose_loop l st)) = h_next (cs_homa st).
Proof.
  revert st. induction l as [|i l IH]; intros st; cbn [choose_loop]; [done|].
  destruct (choose_one i st) as [st'|] eqn:E; [|done]. rewrite IH. revert E. unfold choose_one.
  destruct (find_node _ _ _ _ _) as [n|]; [|done].
  destruct (new_grant _ _) as [[inc g]|]; intros [= <-]; [|done]. cbn [cs_homa].
  split_if; [|done]. unfold remove_granted. destruct (bpf_rbtree_remove _ _); [|done].
  destruct (find_node _ _ _ _ _); [|done]. by destruct (bpf_rbtree_remove _ _).
Qed.

(** ** The theorem on a choice *)

(** What [st1] grants after a choice made in [w]. *)
Record choice_ok (w : homa) (st1 : grant_world) : Prop := {
  co_entries : Forall (fun e => ri_newgrant e <> 0 -> grants w e /\ 0 <= ri_priority e <= HOMA_MAX_SCHED_PRIO)
                 (gc_ri (gw_cpu st1));
  co_nodes : forall n, n ∈ h_groot w ->
    same_node (node w n) (node (gw_homa st1) n) /\
    n_incoming (node w n) <= n_incoming (node (gw_homa st1) n) <= grant_limit (node w n);
  co_total : h_total_incoming (gw_homa st1) - h_total_incoming w =
             granted_sum (gw_homa st1) (h_groot w) - granted_sum w (h_groot w);
  co_bound : 0 <= h_total_incoming (gw_homa st1) - h_total_incoming w <= 8 * grantable w
}.

Section ChoiceTheorem.
Variable w : homa.
Hypothesis Hnodup : NoDup (h_groot w).
Hypothesis Hfresh : forall n, n ∈ h_groot w -> (n < h_next w)%nat.
Hypothesis Hwindow : forall n, n ∈ h_groot w -> window_ok (node w n).
Hypothesis Htotal : 0 <= h_total_incoming w < 2147483648.

(** Nothing is granted. *)
Lemma choice_none st1 :
  keeps_grants w (gw_homa st1) -> Forall (fun e => ri_newgrant e = 0) (gc_ri (gw_cpu st1)) -> choice_ok w st1.
Proof.
  intros [A B C] Hz. split.
  - eapply list.Forall_impl; [exact Hz|]. by intros e He.
  - intros n Hn. destruct (C n (Hfresh n Hn)) as [D E]. split; [done|]. destruct (Hwindow n Hn). lia.
  - rewrite (granted_sum_ext w); [lia|]. intros n Hn. by apply C, Hfresh.
  - unfold grantable. lia.
Qed.

(** The loop has run from [w], and the rest of the program keeps its grants. *)
Lemma choice_made cs st1 ri :
  choosing w cs -> (cs_nr_rpc cs <= 8)%nat -> h_next (cs_homa cs) = h_next w ->
  keeps_grants ((cs_homa cs) <| h_total_incoming ::= fun x => u64 (x + cs_total_increment cs) |>) (gw_homa st1) ->
  gc_ri (gw_cpu st1) = ri -> Forall2 same_grant (gc_ri (cs_cpu cs)) ri ->
  Forall (has_prio (fun x => 0 <= x <= HOMA_MAX_SCHED_PRIO)) (take (cs_nr_rpc cs) ri) -> choice_ok w st1.
Proof.
  intros Hc H8 Hnext [A B C] Eri Hsame Hprio. cbn in A, B. unfold upd_field, setter_of in C. cbn in C.
  destruct Hc as [C1 C2 C3 C4 C5 C6 C7].
  assert (Hb : 0 <= cs_total_increment cs <= 8 * grantable w) by (unfold grantable in *; nia).
  rewrite C1, u64_small in A by (unfold grantable, Homa_max_incoming in *; mach_lia).
  assert (Hnode : forall n, n ∈ h_groot w -> same_node (node (cs_homa cs) n) (node (gw_homa st1) n) /\
            n_incoming (node (gw_homa st1) n) = n_incoming (node (cs_homa cs) n)).
  { intros n Hn. apply (C n). rewrite Hnext. by apply Hfresh. }
  split.
  - rewrite Eri. apply list.Forall_forall. intros e [j Hj]%list_elem_of_lookup_1 Hz.
    destruct (Forall2_lookup_r _ _ _ _ _ Hsame Hj) as (e0 & He0 & Hk & Hg).
    destruct (C6 j e0 He0) as [Hlt (n & Hn & Hkey & Hlim)]; [congruence|].
    split; [exists n; rewrite Hk, Hg; done|].
    revert Hz. apply (proj1 (list.Forall_forall _ _) Hprio e).
    apply list_elem_of_lookup. exists j. by rewrite lookup_take_lt.
  - intros n Hn. destruct (C3 n Hn) as [(D1 & D2 & D3) D4]. destruct (Hnode n Hn) as [(E1 & E2 & E3) E4].
    unfold same_node. rewrite E1, E2, E3, E4. done.
  - rewrite A, (granted_sum_ext (cs_homa cs)) by (intros n Hn; by apply Hnode). lia.
  - rewrite A. lia.
Qed.

End ChoiceTheorem.

(** The object of the searches is new. *)
Lemma choice_before w w1 st1 :
  keeps_grants w w1 -> h_groot w1 = h_groot w -> (forall n, n ∈ h_groot w -> (n < h_next w)%nat) ->
  choice_ok w1 st1 -> choice_ok w st1.
Proof.
  intros [A B C] Hg Hf [D E F G].
  assert (Hn : forall n, n ∈ h_groot w -> same_node (node w n) (node w1 n) /\
                 n_incoming (node w1 n) = n_incoming (node w n) /\ grant_limit (node w1 n) = grant_limit (node w n)).
  { intros n Hn. destruct (C n (Hf n Hn)) as [(S1 & S2 & S3) S4]. unfold grant_limit. by rewrite S1, S2. }
  unfold grantable in *. rewrite Hg, A in *. split.
  - eapply list.Forall_impl; [exact D|]. intros e He Hz. destruct (He Hz) as [(n & Hi & K & L) P]. split; [|done].
    exists n. rewrite Hg in Hi. destruct (Hn n Hi) as ((S1 & S2 & S3) & S4 & S5). rewrite <- S3, <- S4, <- S5. done.
  - intros n Hi. destruct (Hn n Hi) as ((S1 & S2 & S3) & S4 & S5). destruct (E n Hi) as [(T1 & T2 & T3) T4].
    unfold same_node. rewrite <- S1, <- S2, <- S3, <- S4, <- S5. done.
  - rewrite F, (granted_sum_ext w w1); [done|]. intros n Hi. by apply Hn.
  - done.
Qed.

Lemma choosing_start w gc :
  (forall n, n ∈ h_groot w -> window_ok (node w n)) -> length (gc_ri gc) = 8%nat ->
  Forall (fun e => ri_newgrant e = 0) (gc_ri gc) -> choosing w (mk_choose_st w 0 0 0 0 gc).
Proof.
  intros Hw H8 Hz. split; cbn; try done; try lia.
  - intros n Hn. destruct (Hw n Hn). split; [done|lia].
  - intros j e He Hne. by rewrite (Forall_lookup_1 _ _ _ _ Hz He) in Hne.
Qed.

(** The end of the program leaves the choice of the loop as it is. *)
Lemma choose_priorities_choice e w cs st a st1 :
  (forall n, n ∈ h_groot w -> (n < h_next w)%nat) -> 0 <= h_total_incoming w < 2147483648 ->
  choosing w cs -> (cs_nr_rpc cs <= 8)%nat -> h_next (cs_homa cs) = h_next w ->
  gw_homa st = (cs_homa cs) <| h_total_incoming ::= fun x => u64 (x + cs_total_increment cs) |> ->
  gc_ri (gw_cpu st) = gc_ri (cs_cpu cs) ->
  choose_priorities e (cs_nr_rpc cs) st = (a, st1) -> choice_ok w st1.
Proof.
  intros Hf Ht Hc H8 Hn Ew Eri. unfold choose_priorities.
  destruct (Nat.eqb_spec (cs_nr_rpc cs) 0) as [H0|H0].
  { intros [= <- <-]. apply (choice_made w Hf Ht cs st (gc_ri (gw_cpu st))); try done.
    - rewrite <- Ew. apply keeps_grants_refl.
    - by rewrite Eri.
    - by rewrite H0. }
  destruct (assign_prio _ _ _) as [ri actual] eqn:Ep.
  apply assign_prio_spec in Ep as [Hsame Hprio]; [|done]. rewrite Eri in Hsame.
  assert (Hweak : Forall (has_prio (fun x => 0 <= x <= HOMA_MAX_SCHED_PRIO)) (take (cs_nr_rpc cs) ri)).
  { eapply list.Forall_impl; [exact Hprio|]. intros x Hx Hz. destruct (Hx Hz) as (i & Hi & ->).
    unfold HOMA_MAX_SCHED_PRIO. lia. }
  split_if; [intros [= <- <-]; eapply (choice_made w Hf Ht cs); [done..| |done|done|done]; cbn;
             rewrite Ew; apply keeps_grants_refl|].
  set (gc' := if _ >=? 0 then _ else _).
  assert (Hgc : Forall2 same_grant (gc_ri (cs_cpu cs)) (gc_ri gc') /\
                Forall (has_prio (fun x => 0 <= x <= HOMA_MAX_SCHED_PRIO)) (take (cs_nr_rpc cs) (gc_ri gc'))).
  { unfold gc'. split_if; [|done]. destruct (lower_prio_spec (cs_nr_rpc cs) actual ri) as [A B]; [lia|done|].
    split; [|exact B]. etrans; [exact Hsame|exact A]. }
  clearbody gc'. destruct Hgc as [A B].
  split_if; [|intros [= <- <-]; eapply (choice_made w Hf Ht cs); [done..| |done|done|done]; cbn;
              rewrite Ew; apply keeps_grants_refl].
  set (st' := st <| gw_cpu := gc' |>). destruct (complete_grant_keeps e 8 0 st') as [Hk Er].
  intros Eq. rewrite Eq in Hk, Er. cbn [snd] in *.
  eapply (choice_made w Hf Ht cs); [done..| |exact Er|done|done]. rewrite <- Ew. exact Hk.
Qed.

(** C16. The choice of the RPCs to grant, whatever the searches in the trees
    answer and whether or not memory, lock and tail calls are to be had: when
    no RPC of the grant list was granted beyond its window and no grant waits
    to be sent, every grant chosen is for an RPC of the list, beyond what the
    RPC was granted before, at most [Homa_grant_window] bytes behind what it
    has received and not past its end, and has a priority of the scheduler; no
    RPC loses anything and none is granted beyond its window; and
    [total_incoming] rises by exactly the bytes granted to the RPCs of the
    list. *)
Theorem homa_grant_choice (e : gen_env) (st st1 : grant_world) (a : xdp_action)
  (Hnodup : NoDup (h_groot (gw_homa st)))
  (Hfresh : forall n, n ∈ h_groot (gw_homa st) -> (n < h_next (gw_homa st))%nat)
  (Hwindow : forall n, n ∈ h_groot (gw_homa st) -> window_ok (node (gw_homa st) n))
  (Htotal : 0 <= h_total_incoming (gw_homa st) < 2147483648)
  (Hri : length (gc_ri (gw_cpu st)) = 8%nat)
  (Hsent : Forall (fun x => ri_newgrant x = 0) (gc_ri (gw_cpu st)))
  (Hchoose : choose_rpc_to_grant e st = (a, st1)) :
  choice_ok (gw_homa st) st1.
Proof.
  revert Hchoose. unfold choose_rpc_to_grant.
  split_if; [intros [= <- <-]; apply choice_none; try done; apply keeps_grants_refl|].
  destruct (bpf_obj_new (gw_homa st)) as [[x|] w1] eqn:En; apply bpf_obj_new_keeps in En as (Hk & Hg & _);
    [|intros [= <- <-]; by apply choice_none].
  pose proof Hk as [K1 K2 K3].
  assert (Hf1 : forall n, n ∈ h_groot w1 -> (n < h_next w1)%nat) by (rewrite Hg; intros n Hn%Hfresh; lia).
  assert (Hw1 : forall n, n ∈ h_groot w1 -> window_ok (node w1 n)).
  { rewrite Hg. intros n Hn. destruct (K3 n (Hfresh n Hn)) as [(S1 & S2 & S3) S4]. destruct (Hwindow n Hn).
    split; unfold grant_limit in *; rewrite ?S1, ?S2, ?S4; done. }
  rewrite <- K1 in Htotal. rewrite <- Hg in Hnodup.
  pose proof (choosing_loop w1 Hnodup Hw1 Htotal 8 0 _ (choosing_start w1 _ Hw1 Hri Hsent) eq_refl (le_n _)) as Hcs.
  destruct (choose_loop_cpu (seq 0 8) (mk_choose_st w1 0 0 0 0 (gw_cpu st))) as [_ [_ Hnr]].
  pose proof (choose_loop_next (seq 0 8) (mk_choose_st w1 0 0 0 0 (gw_cpu st))) as Hnext.
  set (cs := choose_loop _ _) in *. clearbody cs. cbn [cs_homa cs_nr_rpc length seq] in *.
  intros Hrest. eapply choice_before; [done..|].
  eapply (choose_priorities_choice e w1 cs); [done..|exact Hnr|done| | |exact Hrest]; [done|]. cbn. by split_if.
Qed.

(** ** The grant at the sender *)

(** The entry of an RPC after updates of it: what it is granted. *)
Lemma lookup_upd_rpc k f w s :
  h_rpc_tbl w !! k = Some s -> h_rpc_tbl (upd_rpc k f w) !! k = Some (f s).
Proof. intros H. unfold upd_rpc, upd_field, setter_of. cbn. by rewrite lookup_alter_eq, H. Qed.

Lemma lookup_kick_pacer w : h_rpc_tbl (kick_pacer w) = h_rpc_tbl w.
Proof. unfold kick_pacer. by split_if. Qed.

Lemma grant_pkt_spec h remote_ip w s :
  let k := rx_key (g_common h) remote_ip in
  h_rpc_tbl w !! k = Some s -> rs_state s = BPF_RPC_OUTGOING ->
  exists s', h_rpc_tbl (grant_pkt h remote_ip w) !! k = Some s' /\
    hc_granted (rs_cc s') = Z.max (hc_granted (rs_cc s)) (bpf_ntohl (g_offset h)).
Proof.
  intros k Hs Ho. unfold grant_pkt. fold k. rewrite Hs, Ho. cbn [Z.eqb negb].
  rewrite Z.eqb_refl. cbn [negb].
  pose proof (lookup_upd_rpc k (fun s => s <| rs_cc ::= fun c => c <| hc_sched_prio := g_priority h |> |>) w s Hs) as H1.
  set (w1 := upd_rpc k _ w) in *.
  destruct (Z.ltb_spec (hc_granted (rs_cc s)) (bpf_ntohl (g_offset h))) as [Hl|Hl].
  2: { rewrite lookup_kick_pacer. eexists. split; [exact H1|]. cbn. lia. }
  pose proof (lookup_upd_rpc k (fun s => s <| rs_cc ::= fun c => c <| hc_granted := bpf_ntohl (g_offset h) |> |>) w1 _ H1) as H2.
  set (w2 := upd_rpc k _ w1) in *.
  match type of H2 with _ = Some ?x => set (s2 := x) in H2 end.
  assert (Hg : hc_granted (rs_cc s2) = Z.max (hc_granted (rs_cc s)) (bpf_ntohl (g_offset h))) by (cbn; lia).
  split_if; [rewrite lookup_kick_pacer; by exists s2|]. unfold get_pointer. rewrite H2. cbn [mbind option_bind].
  pose proof (lookup_upd_rpc k (fun s => s <| rs_cc_node := None |>) w2 s2 H2) as H3. set (w3 := upd_rpc k _ w2) in *.
  destruct (rs_cc_node s2) as [n|]; 
    [|rewrite lookup_kick_pacer; eexists; split; [exact H3|exact Hg]].
  set (w4 := match bpf_rbtree_add _ _ _ _ with Some _ => _ | None => _ end).
  assert (H4 : h_rpc_tbl w4 !! k = h_rpc_tbl w3 !! k) by (unfold w4; by destruct (bpf_rbtree_add _ _ _ _)).
  rewrite H3 in H4.
  pose proof (lookup_upd_rpc k (fun s => s <| rs_cc_node := Some n |>) w4 _ H4) as H5.
  rewrite lookup_kick_pacer. eexists. split; [exact H5|exact Hg].
Qed.

(** A GRANT frame that reaches the sender of the message raises what the RPC is
    granted to its offset, when that is more. *)
Lemma grant_frame_received ports (r : rx_env) gi p w s :
  re_cpu r < MAX_CPU -> re_cpu r = re_queue r -> re_meta r = true -> hp_len p = 128 ->
  in16 (gi_sport gi) -> in16 (gi_dport gi) -> in64 (gi_rpcid gi) -> in32 (gi_newgrant gi) -> in32 local_ip ->
  let k := mk_rpc_key_t (local_id (gi_rpcid gi)) (gi_dport gi) (gi_sport gi) local_ip in
  h_rpc_tbl w !! k = Some s -> rs_state s = BPF_RPC_OUTGOING ->
  let '(_, _, _, w') := xdp_sock_prog lower_bound ports r (grant_of_frame gi p) w in
  exists s', h_rpc_tbl w' !! k = Some s' /\ hc_granted (rs_cc s') = Z.max (hc_granted (rs_cc s)) (gi_newgrant gi).
Proof.
  intros Hcpu Hq Hm Hl H1 H2 H3 H4 H5 k Hs Ho. unfold xdp_sock_prog.
  replace (re_cpu r >=? MAX_CPU) with false by (symmetry; rewrite Z.geb_leb; apply Z.leb_gt; lia).
  rewrite Hq, Z.eqb_refl, Hm. cbn [negb orb].
  assert (Hlen : hp_len (grant_of_frame gi p) = 68).
  { change (hp_len p - HOMA_GRANT_HEADER_CUTOFF = 68). by rewrite Hl. }
  unfold homa_parse_common_hdr. rewrite Hlen. change (L2L3 + 28 >? 68) with false. cbv iota.
  change (ch_type (hp_common (grant_of_frame gi p))) with GRANT. change (GRANT =? DATA) with false. cbv iota.
  unfold rx_ctrl. change (ch_type (hp_common (grant_of_frame gi p))) with GRANT.
  change (GRANT =? RESEND) with false. change (GRANT =? UNKNOWN) with false. rewrite Z.eqb_refl. cbv iota zeta.
  unfold homa_parse_grant_hdr. rewrite Hlen. change (L2L3 + 34 >? 68) with false. cbv iota.
  change (hp_grant (grant_of_frame gi p)) with (bpf_htonl (gi_newgrant gi), gi_priority gi, 0). cbv iota beta.
  change (ip_saddr (hp_ip (grant_of_frame gi p))) with (bpf_htonl local_ip). rewrite (bpf_ntohl_htonl local_ip) by done.
  set (h := mk_grant_header _ _ _ _).
  assert (Hk : rx_key (g_common h) local_ip = k).
  { unfold rx_key, k. change (ch_sender_id (g_common h)) with (bpf_cpu_to_be64 (gi_rpcid gi)).
    change (ch_dport (g_common h)) with (bpf_htons (gi_dport gi)).
    change (ch_sport (g_common h)) with (bpf_htons (gi_sport gi)).
    by rewrite bpf_be64_roundtrip, !bpf_ntohs_htons by done. }
  destruct (grant_pkt_spec h local_ip w s) as (s' & A & B); [by rewrite Hk|done|].
  exists s'. rewrite Hk in A. split; [exact A|]. rewrite B.
  change (g_offset h) with (bpf_htonl (gi_newgrant gi)). by rewrite bpf_ntohl_htonl.
Qed.

(** ** The end of a round can be missed *)

(** A CPU whose index has passed the number of chosen RPCs never begins a new
    round: no call sends anything, and none makes the kernel stop. *)
Lemma gen_never_ends l st :
  Forall (fun x : gen_env * hpkt => ge_cpu x.1 < MAX_CPU) l ->
  gc_finish_choose (gw_cpu st) = 1 -> gc_need_fifo (gw_cpu st) = 0 -> 0 < gc_ready (gw_cpu st) ->
  Z.of_nat (gc_candidate (gw_cpu st)) <= gc_granting_idx (gw_cpu st) ->
  gc_granting_idx (gw_cpu st) + Z.of_nat (length l) < UINT64_MAX ->
  Forall (fun x => ri_newgrant x = 0) (gc_ri (gw_cpu st)) ->
  (gen_run l st).1 = map (fun x => (XDP_DROP, x.2)) l /\ gc_finish_choose (gw_cpu (gen_run l st).2) = 1.
Proof.
  revert st. induction l as [|[e p] l IH]; intros st Hl H1 H2 H3 H4 H5 H6; [done|].
  apply list.Forall_cons in Hl as [He Hl]. cbn [fst length] in *. cbn [gen_run].
  assert (Hcall : xdp_gen_prog e p st = (XDP_DROP, p, next_idx st)).
  { unfold xdp_gen_prog. replace (ge_cpu e >=? MAX_CPU) with false by (symmetry; rewrite Z.geb_leb; apply Z.leb_gt; lia).
    rewrite H1. cbn [Z.eqb]. unfold next_idx, upd_field, setter_of. cbn -[u64 HOMA_OVERCOMMITMENT Z.modulo Z.min].
    rewrite H2. replace (gc_ready (gw_cpu st) =? 0) with false by (symmetry; apply Z.eqb_neq; lia).
    cbn [andb Z.eqb]. rewrite !(u64_small (gc_granting_idx _ + 1)) by mach_lia.
    replace (gc_granting_idx (gw_cpu st) + 1 =? _) with false by (symmetry; apply Z.eqb_neq; unfold HOMA_OVERCOMMITMENT; lia).
    unfold grant_prio_rpc. cbn -[u64 HOMA_OVERCOMMITMENT Z.modulo Z.min].
    replace (ri_newgrant _) with 0; [done|]. destruct (_ !! _) as [x|] eqn:E; [|done].
    symmetry. exact (Forall_lookup_1 _ _ _ _ H6 E). }
  rewrite Hcall. destruct (IH (next_idx st)) as [A B]; try done.
  - unfold next_idx, upd_field, setter_of. cbn -[u64]. rewrite u64_small by mach_lia. lia.
  - unfold next_idx, upd_field, setter_of. cbn -[u64]. rewrite u64_small by mach_lia. lia.
  - destruct (gen_run l (next_idx st)) as [out st']. cbn in *. by rewrite A.
Qed.

End Grant.

(** ** Runs *)

(** Two RPCs of 60000 received bytes each, of two peers; the nodes 0 and 1 are
    in Tree0, 2 and 3 in Tree1. *)
Definition wit_rpc (tree incoming len ip id : Z) : rpc_state_cc :=
  mk_rpc_state_cc (len - 60000) tree (get_peerid ip) incoming (mk_rpc_key_t id 4000 5000 ip) (16 * id + 1) len.

Definition wit_heap (incoming : Z) : gmap nat rpc_state_cc :=
  {[ 0%nat := wit_rpc 0 60000 500000 0x0a000001 2; 1%nat := wit_rpc 0 60000 600000 0x0a000002 4;
     2%nat := wit_rpc 1 incoming 500000 0x0a000001 2; 3%nat := wit_rpc 1 incoming 600000 0x0a000002 4 ]}.

Definition wit_homa (incoming total : Z) : homa :=
  mk_homa ∅ ∅ [] total 0 0 (wit_heap incoming) 4 [] [] [0; 1; 2; 3]%nat ∅ ∅ true 0 0.

Definition wit_cpu : grant_cpu := mk_grant_cpu 0 0 0 0 0 (replicate 8 false) (replicate 8 zero_entry).
Definition wit_world (incoming total : Z) : grant_world := mk_grant_world (wit_homa incoming total) 0 wit_cpu.

(** The first node that is not before the key. *)
Definition wit_lower_bound : tree_search := fun less l key => fst <$> list_find (fun x => less key x = true) l.
Definition wit_search_less : tree_search := fun _ _ _ => None.

Definition wit_env : gen_env := mk_gen_env 1 true (fun _ => true) true true.
Definition wit_frame : hpkt :=
  mk_hpkt (mk_iphdr 0 0 0 0 0 0 0 0 0 0 0) 128
    (mk_data_header (mk_common_header 0 0 0 0 0 0) 0 0 0 0 0 (mk_data_segment 0 0 (mk_homa_ack 0 0 0))) (0, 0, 0) (0, 0, 0) [].

Definition wit_chosen (incoming total : Z) : grant_world :=
  (choose_rpc_to_grant wit_lower_bound wit_env (wit_world incoming total)).2.

Lemma wit_nodes (P : nat -> Prop) : P 0%nat -> P 1%nat -> P 2%nat -> P 3%nat ->
  forall n, n ∈ h_groot (wit_homa 60000 0) -> P n.
Proof. intros H0 H1 H2 H3 n. cbn. rewrite !elem_of_cons, elem_of_nil. intros [->|[->|[->|[->|[]]]]]; done. Qed.

Lemma wit_window n : n ∈ h_groot (wit_homa 60000 0) -> window_ok (node (wit_homa 60000 0) n).
Proof. revert n. apply wit_nodes; split; vm_compute; repeat split; discriminate. Qed.

(** The two RPCs are granted to the end of their windows, 100000 bytes each. *)
Lemma homa_grant_choice_witness :
  choice_ok (wit_homa 60000 0) (wit_chosen 60000 0) /\
  map ri_newgrant (take 2 (gc_ri (gw_cpu (wit_chosen 60000 0)))) = [160000; 160000].
Proof.
  split; [|reflexivity].
  apply (homa_grant_choice wit_lower_bound wit_env (wit_world 60000 0) (wit_chosen 60000 0) XDP_DROP).
  - apply (bool_decide_unpack _). reflexivity.
  - apply (wit_nodes (fun n => n < 4)%nat); lia.
  - exact wit_window.
  - split; [apply Z.le_refl|reflexivity].
  - reflexivity.
  - repeat constructor.
  - vm_compute. reflexivity.
Defined.

(** Two GRANTs are sent, and no RPC is old enough for the third call. *)
Lemma homa_grant_round_witness :
  let l := replicate 2 (wit_env, wit_frame) in
  let '(out, st2) := gen_run wit_lower_bound wit_search_less 7 (l ++ [(wit_env, wit_frame)]) (wit_chosen 60000 0) in
  out.*1 = [XDP_TX; XDP_TX; XDP_ABORTED] /\ gc_finish_choose (gw_cpu st2) = 0.
Proof.
  cbn zeta.
  pose proof (homa_grant_round wit_lower_bound wit_search_less 7 (wit_world 60000 0) (wit_chosen 60000 0) wit_env
    wit_env wit_frame wit_frame wit_frame (replicate 2 (wit_env, wit_frame)) eq_refl eq_refl (or_introl eq_refl) eq_refl) as H.
  destruct (gen_run _ _ _ _ _) as [out st2].
  destruct H as (_ & -> & _ & H & _).
  - vm_compute. reflexivity.
  - unfold nodes_ok. apply (bool_decide_unpack _). vm_compute. exact I.
  - reflexivity.
  - repeat constructor.
  - reflexivity.
  - split; [|exact H]. vm_compute. reflexivity.
Defined.

(** Of two RPCs the shorter one, which is to be served first, gets the lower
    priority: the level 0 that the second loop computes for the last RPC is not
    written, and it keeps the level of the first loop. *)
Lemma grant_priorities_inverted :
  map ri_priority (take 2 (gc_ri (gw_cpu (wit_chosen 60000 0)))) = [1; 2].
Proof. vm_compute. reflexivity. Qed.

(** With 100 bytes left of [Homa_max_incoming] both RPCs are granted 100. *)
Lemma granted_beyond_max_incoming :
  h_total_incoming (gw_homa (wit_chosen 60000 479900)) = Homa_max_incoming + 100.
Proof. vm_compute. reflexivity. Qed.

(** An RPC that the FIFO grants took beyond its window (170000 bytes, where
    160000 are in the window) is granted all that is available, past its end. *)
Lemma unsigned_increment_overgrants :
  map ri_newgrant (take 1 (gc_ri (gw_cpu (wit_chosen 170000 0)))) = [650000] /\
  n_message_length (node (wit_homa 170000 0) 2%nat) = 500000.
Proof. vm_compute. done. Qed.

(** When the last frame of a round cannot be cut, the program returns before it
    resets the variables; from then on the CPU chooses no RPC and no call makes
    the kernel stop. *)
Definition wit_cut : list (xdp_action * hpkt) * grant_world :=
  gen_run wit_lower_bound wit_search_less 7
    [(wit_env, wit_frame); (mk_gen_env 1 true (fun _ => true) false true, wit_frame)]
    ((wit_chosen 60000 0) <| gw_cpu ::= fun gc => gc <| gc_need_fifo := 0 |> |>).

Lemma failed_cut_ends_granting l :
  Forall (fun x : gen_env * hpkt => ge_cpu x.1 < MAX_CPU) l -> Z.of_nat (length l) < 4294967296 ->
  wit_cut.1.*1 = [XDP_TX; XDP_ABORTED] /\
  (gen_run wit_lower_bound wit_search_less 7 l wit_cut.2).1 = map (fun x => (XDP_DROP, x.2)) l.
Proof.
  intros Hl Hlen. split; [vm_compute; reflexivity|].
  assert (Hidx : gc_granting_idx (gw_cpu wit_cut.2) = 2) by (vm_compute; reflexivity).
  apply gen_never_ends; [exact Hl|vm_compute; reflexivity..| |rewrite Hidx; unfold UINT64_MAX; lia|].
  - vm_compute. discriminate.
  - vm_compute. repeat constructor.
Qed.
